(* ===== verification/_CoqProject ===== *)
-Q . S2P
Prelude.v
Limbs.v
RingBuffer.v
Utils.v
Buffer.v
Addressing.v
Wire.v
Rules.v
CLib.v
Dictionary.v
InetAddress.v
Hashtable.v
Poly1305.v
Poly1305Portable.v
Salsa20.v
SHA512.v
Field25519.v
Prime25519.v
Edwards.v
X25519.v
Fe25519.v
Sc25519.v
Windows.v
Ge25519.v
BaseMultiples.v
Curve25519.v
C25519Api.v
Ed25519.v
Identity.v
CertificateOfMembership.v
Credentials.v
Capability.v
NetworkConfig.v
NetworkConfigDict.v
Membership.v
NetworkFilter.v
LZ4.v
LZ4Compress.v
Packet.v
Compression.v
Switch.v
Fragmentation.v
SwitchSafety.v
SwitchQueues.v
PushCredentials.v
NetworkState.v
NetworkSafety.v
NetworkGate.v
NetworkBridges.v
NetworkFrames.v
NetworkUpdates.v
ConfigUpdates.v
ConfigChunks.v
ConfigSafety.v
AdHoc.v
RateLimits.v
IncomingPacket.v
NodeController.v
FrameHandlers.v
