(* ===== verification/Prelude.v ===== *)
(** * Verification of the ZeroTier core and the libzt buffers

    The repository is an Android application (V2rayNG) that carries libzt, a user-space
    network library: the ZeroTier core (src/libzt/ext/ZeroTierOne/node), the lwIP stack, and
    glue between them (src/libzt/src).  This library models the data structures, the
    cryptography, the wire formats, the credentials, rules, configurations and filters of virtual
    networks, the handlers of the packets that concern them and the packet switch of the core,
    and the ring buffer of libzt, and proves them correct.  Paths below are relative to
    src/libzt/ext/ZeroTierOne/node unless they say otherwise.

    ** How the code is modelled

    A C++ function becomes a Rocq function.  Integers are [Z] with the wrap-around of
    their width written out ([u8], [u16], [u32], [u64]); byte arrays are lists of [Z] with
    an offset for each pointer into them.  The type [outcome] of this file has three
    constructors: [Ok], [Throw] with one of the codes of Constants.hpp, and [Undef] for
    what the language leaves undefined: a read or write outside an array, a shift by the
    width of its operand, an overflow of signed integers, the use of a freed object.  A theorem that says a result is [Ok] or [Throw] therefore says
    that the code stays inside its memory.  Loops are structural where the code counts,
    and otherwise have fuel that is an upper bound computed from the input; running out is
    [Undef], so that each theorem also shows that the fuel is enough.  Uninitialised
    memory, random numbers, addresses of objects and whether malloc finds memory are arguments,
    and the theorems hold for all of them.  [unsigned long] has 64 bits, and sizes of
    structures are those of a 64-bit target; only the updates of configurations have the width
    of [unsigned long] as an argument, since it matters there.

    ** Files

    - [Prelude] (this file): outcomes, machine words, byte order, reads and writes of memory
      blocks, and the lemmas on them that the other files share.
    - [Limbs]: sums and congruences for numbers kept as arrays of small digits.
    - [RingBuffer]: src/libzt/src/RingBuffer.cpp.  Writes and reads refine a bounded queue of
      bytes, and any sequence of them delivers the accepted bytes in order.
    - [Utils]: Utils.hpp, Utils.cpp.  Hexadecimal and decimal conversions, bit counts, byte
      order, string copies.
    - [Buffer]: Buffer.hpp.  Every operation refines its specification on byte sequences, or
      throws exactly where that has no result; 32-bit sums that wrap are the exception.
    - [Addressing]: Address.hpp, MAC.hpp.  [Wire]: what the serialization of the other
      components shares.  [CLib]: the functions of the C library the sources call.
    - [Rules]: the rules of include/ZeroTierOne.h and their binary form in Capability.hpp.
    - [Dictionary]: Dictionary.hpp, the key-value text in a fixed array, with its escapes.
    - [Hashtable]: Hashtable.hpp with its iterator: chains, growth and erasing refine a finite
      map whatever the hash codes.
    - [InetAddress]: InetAddress.hpp, InetAddress.cpp without the string forms.
    - [Poly1305], [Poly1305Portable]: both implementations of Poly1305.cpp, proved to compute
      the polynomial modulo 2^130 - 5.
    - [Salsa20]: Salsa20.cpp, scalar and SSE2, proved equal to each other and to the key
      stream of the cipher's definition.
    - [SHA512]: SHA512.cpp, proved to compute the function of the standard.
    - [Field25519], [X25519], [Fe25519], [Sc25519], [Windows], [Ge25519], [BaseMultiples],
      [Ed25519]: C25519.cpp without its optional assembly: the Montgomery ladder, the field and
      the scalars in 32-bit limbs, points, the table of multiples of the base point, agreement,
      signing and verifying.
    - [C25519Api]: the interface of C25519.hpp as a class of operations; [C25519Shape], the
      sizes of what they give, which [Ed25519] proves of the code; and [C25519Correct], the
      two laws of the mathematics (signatures verify, key agreement commutes), which the
      theorems on credentials take as a hypothesis.
    - [Identity]: Identity.hpp, Identity.cpp.  Proof of work, validation, binary and text
      forms.
    - [CertificateOfMembership], [Credentials]: certificates of membership, tags, revocations
      and certificates of ownership: signing and verifying, wire formats, ownership.
      [Capability]: Capability.hpp, Capability.cpp, with the chain of custody.
    - [NetworkConfig], [NetworkConfigDict]: NetworkConfig.hpp and NetworkConfig.cpp; the second
      has toDictionary and fromDictionary.  [Membership]: Membership.hpp and Membership.cpp,
      what a member has proved to us and what is revoked.  [PushCredentials]: the packets that
      give a member our credentials (it comes last, since packets need the files below).
      [NetworkFilter]: the rule engine of
      Network.cpp, with Node::prng and the log of Trace.hpp, and a reference semantics of
      rule sets that it refines.
    - [LZ4], [LZ4Compress]: the LZ4 compressor and decoder inside Packet.cpp, with every
      memory access; decoding what was compressed gives the input, and the decoder is safe on
      any input.
    - [Packet]: header, fragments, armor and dearmor of Packet.hpp and Packet.cpp.
      [Compression]: compress and uncompress.
    - [Switch]: the queues, fragmentation, relaying, WHOIS requests and timers of Switch.cpp
      and Switch.hpp, in a state monad whose state survives exceptions; what the switch asks
      of the rest of the node is the record [Node], arbitrary in every call, and what it does
      there is a log of events.  [Fragmentation]: splitting and reassembly.
      [SwitchSafety]: a program logic for the monad and the invariant of the queues.
      [SwitchQueues]: the theorems on reachable switches.
    - [NetworkState]: the class Network of Network.hpp and Network.cpp with MulticastGroup.hpp:
      its fields and, in the same monad, both filters, the gate, credentials, bridge routes,
      multicast groups and their announcement, cleaning and status.  What the node answers is the
      record [NodeEnv], and what is done to it a log of events.  [NetworkSafety]: the invariant
      of a network and the logic for its operations.  [NetworkGate], [NetworkBridges],
      [NetworkFrames]: the theorems on the gate, on bridge routes and on the two filters.
    - [NetworkUpdates]: the constructor, setConfiguration, handleConfigChunk and
      requestConfiguration of Network.cpp.  [ConfigUpdates], [ConfigChunks]: what they do to the
      state, and the assembly of a configuration from chunks in any order.  [ConfigSafety]:
      which chunks are accepted.  [AdHoc]: networks without a controller.
    - [RateLimits]: the rateGate members of Peer.hpp.  [IncomingPacket]: the handlers of FRAME,
      EXT_FRAME, ECHO, MULTICAST_LIKE, NETWORK_CREDENTIALS, NETWORK_CONFIG_REQUEST and
      NETWORK_CONFIG of IncomingPacket.cpp, on the networks of the node.  [FrameHandlers]: which
      frames reach the host.  [NodeController]: ncSendConfig, ncSendRevocation and ncSendError of
      Node.cpp, and the way of a configuration from a controller to a member.

    ** What the theorems show

    Data structures refine abstract ones ([RingBuffer_write_refines], [Buffer_op_refines],
    [Hashtable_refines_map], [Dictionary_add_get]).
    Cryptographic code computes the published functions ([SHA512_hash_correct],
    [Poly1305_implementations_correct], [Salsa20_is_stream_cipher],
    [crypto_scalarmult_X25519], [c25519_sign_Ok]) and its variants agree; the table of
    multiples of the base point holds what it should ([ge25519_scalarmult_base_Ok]).
    Wire formats are read back as they were written, and what is signed is unambiguous.
    Rules have the type their tag says ([deserializeRules_wf]); the rule engine refines the
    meaning of the rules ([doZtFilter_refines]) and sends frames only where a rule says
    ([doZtFilter_targets]).  A credential that is found was verified, is recent and is not
    revoked, and revocations last ([Membership_sound], [Membership_revocation_lasts]); a
    capability verifies exactly when each holder signed it for the next
    ([Capability_verified]).  What is due to a member is in the packets sent to it
    ([pushCredentials_delivers]).  A network configuration survives its dictionary,
    and one that a controller sends is taken by the member in whatever order its chunks arrive
    ([config_reaches_member]); a chunk that the controller did not sign changes nothing
    ([handleConfigChunk_authentic]).  The gate of a network lets exactly its members in
    ([gate_lets_in]), the filters do what the rules and capabilities say
    ([filterIncomingPacket_refines], [filterOutgoingPacket_refines]), the table of bridge routes
    stays within its limit ([learnBridgeRoute_limits]), and a frame is handed to the host exactly
    when gate, filter and bridging rules allow it ([FRAME_reaches_host],
    [EXT_FRAME_reaches_host]).  An ad-hoc network gets the configuration that its ID describes
    ([requestConfiguration_ports], [adhoc_rules_decide]).
    A packet survives armoring, relaying and dearmoring, compression and decompression, and
    fragmentation with reassembly in any order; dearmor accepts exactly what is
    authenticated.  The switch keeps its queues well formed and inside their limits, handles
    any datagram without leaving its memory, ends its mutual recursion of send and
    requestWhois, and empties its transmit queue.  A last group of theorems pins down where
    the code does not do what it means to: certificates compared by position, counts that
    are not checked, a revocation that readmits a member, a filter that reads past the frame,
    fragments that are never accepted or wrongly taken for complete, a sum that wraps where
    [unsigned long] has 32 bits, a rate limit that compares the wrong counter.

    ** Bounds

    The loops of the decoder and the compressor of LZ4 have as fuel the size of the input
    plus one, since each turn takes a byte at least; the copies have the distance to their
    end.  [whois_fuel] is 3: a request for a node, one for the upstream it is sent to, and
    one that the retry delay stops; [requestWhois_terminates] shows that more changes
    nothing.  The walk over IPv6 extension headers has the length of the frame as fuel and
    that over a hash table its number of entries.  The queues have the sizes of Constants.hpp.

    ** Not modelled

    That the group law of the curve is associative, and with it that verify accepts what sign
    made: [C25519Correct] stays a hypothesis for the code of C25519.cpp, and is shown to be
    satisfiable.  The optional assembly for Salsa20/12 and Ed25519, the string forms of socket
    addresses, the text of old network configurations (an argument of [NetworkConfigDict]),
    trace messages, the destructor of Network (a callback to the host program), the other handlers of
    IncomingPacket.cpp (HELLO, ERROR, OK, WHOIS, RENDEZVOUS, multicast frames and direct paths,
    which act on peers, paths, topology and multicast; the switch is proved against any decoder
    that keeps its invariant), peers apart from their rate limits, paths, topology and multicast,
    Switch::onLocalEthernet.  Locks are taken to make the block they guard one step.  The
    service, the controller, the operating system layer, lwIP, the socket API of libzt and
    the Android application are input and output, vendored code, or user interface. *)

From stdpp Require Export base list list_numbers numbers gmap strings.
From Stdlib Require Export ZArith Lia.

#[export] Set Default Goal Selector "!".

Declare Scope zt_scope.
Delimit Scope zt_scope with zt.

(** ** Outcomes

    What a C++ routine of the repository can do: return a value, throw one of
    the [ZT_EXCEPTION_*] codes of node/Constants.hpp, or leave the language
    (a read or write outside an object, a shift by the operand's width, an
    erase through a past-the-end iterator).  Theorems that a result is [Ok]
    or [Throw] therefore include memory safety. *)

Inductive exn : Type :=
| OUT_OF_BOUNDS
| OUT_OF_MEMORY
| PRIVATE_KEY_REQUIRED
| INVALID_ARGUMENT
| SERIALIZED_DATA_INVALID_TYPE
| SERIALIZED_DATA_OVERFLOW
| SERIALIZED_DATA_INVALID_CRYPTOGRAPHIC_TOKEN
| SERIALIZED_DATA_BAD_ENCODING.

#[export] Instance exn_eq_dec : EqDecision exn.
Proof. solve_decision. Defined.

Inductive outcome (A : Type) : Type :=
| Ok (a : A)
| Throw (e : exn)
| Undef.
Arguments Ok {A} a.
Arguments Throw {A} e.
Arguments Undef {A}.

#[export] Instance outcome_ret : MRet outcome := fun A a => Ok a.
#[export] Instance outcome_bind : MBind outcome := fun A B f m =>
  match m with Ok a => f a | Throw e => Throw e | Undef => Undef end.
#[export] Instance outcome_fmap : FMap outcome := fun A B f m =>
  match m with Ok a => Ok (f a) | Throw e => Throw e | Undef => Undef end.

(** The routine never leaves the language. *)
Definition safe {A} (m : outcome A) : Prop := m <> Undef.

#[export] Instance outcome_eq_dec {A} `{EqDecision A} : EqDecision (outcome A).
Proof. solve_decision. Defined.

Lemma outcome_bind_Ok {A B} (f : A -> outcome B) (m : outcome A) (b : B) :
  (m ≫= f) = Ok b <-> exists a, m = Ok a /\ f a = Ok b.
Proof. destruct m; cbn; naive_solver. Qed.

Lemma outcome_bind_Ok_l {A B} (f : A -> outcome B) (a : A) : (Ok a ≫= f) = f a.
Proof. reflexivity. Qed.

Lemma safe_bind {A B} (f : A -> outcome B) (m : outcome A) :
  safe m -> (forall a, m = Ok a -> safe (f a)) -> safe (m ≫= f).
Proof. unfold safe. destruct m; cbn; naive_solver. Qed.

Lemma safe_Ok {A} (a : A) : safe (Ok a).
Proof. done. Qed.

Lemma safe_Throw {A} e : safe (Throw e : outcome A).
Proof. done. Qed.

(** ** Machine integers

    A [w]-bit unsigned value is a [Z] in [0 .. 2^w); arithmetic wraps. *)

Definition wrap (w z : Z) : Z := z mod 2 ^ w.

Definition u8 (z : Z) : Z := wrap 8 z.
Definition u16 (z : Z) : Z := wrap 16 z.
Definition u32 (z : Z) : Z := wrap 32 z.
Definition u64 (z : Z) : Z := wrap 64 z.

Definition in_range (w z : Z) : Prop := (0 <= z < 2 ^ w)%Z.

#[export] Instance in_range_dec w z : Decision (in_range w z).
Proof. unfold in_range. apply _. Defined.

Abbreviation is_byte := (in_range 8).
Abbreviation is_u16 := (in_range 16).
Abbreviation is_u32 := (in_range 32).
Abbreviation is_u64 := (in_range 64).

Create HintDb zt.

Open Scope Z_scope.

Lemma wrap_range w z : 0 <= w -> in_range w (wrap w z).
Proof. intros Hw. unfold in_range, wrap. apply Z.mod_pos_bound. lia. Qed.

Lemma wrap_id w z : in_range w z -> wrap w z = z.
Proof. unfold in_range, wrap. intros. by apply Z.mod_small. Qed.
Lemma u32_id z : in_range 32 z -> u32 z = z.
Proof. apply wrap_id. Qed.
#[export] Hint Resolve wrap_range wrap_id : zt.

(** The [int64_t] of a 64-bit word. *)
Definition s64 (z : Z) : Z := if u64 z <? 2 ^ 63 then u64 z else u64 z - 2 ^ 64.

Lemma s64_range z : - 2 ^ 63 <= s64 z < 2 ^ 63.
Proof. unfold s64. pose proof (wrap_range 64 z). unfold in_range, u64 in *. destruct (Z.ltb_spec (wrap 64 z) (2 ^ 63)); lia. Qed.

Lemma s64_u64 z : - 2 ^ 63 <= z < 2 ^ 63 -> s64 (u64 z) = z.
Proof.
  intros Hz. unfold s64. replace (u64 (u64 z)) with (u64 z) by (unfold u64, wrap; by rewrite Z.mod_mod).
  unfold u64, wrap. destruct (Z.leb_spec 0 z).
  - rewrite Z.mod_small by lia. by rewrite (proj2 (Z.ltb_lt _ _)) by lia.
  - replace (z mod 2 ^ 64) with (z + 2 ^ 64) by (rewrite <- (Z.mod_small (z + 2 ^ 64) (2 ^ 64)) by lia;
      by rewrite <- Z.add_mod_idemp_r, Z.mod_same, Z.add_0_r by done).
    rewrite (proj2 (Z.ltb_ge _ _)) by lia. lia.
Qed.

(** ** Byte blocks and pointers into them

    A memory block is a list of bytes; a pointer is a block and a [Z] offset.
    Reading or writing any byte outside the block is [Undef]. *)

Definition zlen {A} (l : list A) : Z := Z.of_nat (length l).
Definition ztake {A} (n : Z) (l : list A) : list A := take (Z.to_nat n) l.
Definition zdrop {A} (n : Z) (l : list A) : list A := drop (Z.to_nat n) l.
Definition slice {A} (off n : Z) (l : list A) : list A := ztake n (zdrop off l).

Definition zget {A} (l : list A) (i : Z) : option A :=
  if 0 <=? i then l !! Z.to_nat i else None.

Definition load {A} (l : list A) (i : Z) : outcome A :=
  match zget l i with Some a => Ok a | None => Undef end.

Definition mem_read {A} (l : list A) (off n : Z) : outcome (list A) :=
  if (0 <=? off) && (0 <=? n) && (off + n <=? zlen l)
  then Ok (slice off n l) else Undef.

Definition mem_write {A} (l : list A) (off : Z) (d : list A) : outcome (list A) :=
  if (0 <=? off) && (off + zlen d <=? zlen l)
  then Ok (ztake off l ++ d ++ zdrop (off + zlen d) l) else Undef.

(** Evaluates loads at literal indices from lists given element by element. *)
Ltac load_lit :=
  repeat match goal with
  | |- context [@load ?A ?l ?k] =>
      let v := eval hnf in (@load A l k) in
      lazymatch v with Ok _ => change (@load A l k) with v end
  end; cbn [mbind outcome_bind].

Lemma zlen_nonneg {A} (l : list A) : 0 <= zlen l.
Proof. unfold zlen. lia. Qed.

Lemma zlen_app {A} (l k : list A) : zlen (l ++ k) = zlen l + zlen k.
Proof. unfold zlen. rewrite length_app. lia. Qed.

Lemma zlen_ztake {A} n (l : list A) : 0 <= n <= zlen l -> zlen (ztake n l) = n.
Proof. unfold zlen, ztake. intros. rewrite length_take. lia. Qed.

Lemma zlen_zdrop {A} n (l : list A) : 0 <= n <= zlen l -> zlen (zdrop n l) = zlen l - n.
Proof. unfold zlen, zdrop. intros. rewrite length_drop. lia. Qed.

Lemma zlen_slice {A} off n (l : list A) :
  0 <= off -> 0 <= n -> off + n <= zlen l -> zlen (slice off n l) = n.
Proof. intros. unfold slice. apply zlen_ztake. rewrite zlen_zdrop; lia. Qed.

Lemma zlen_nil {A} : zlen (@nil A) = 0.
Proof. reflexivity. Qed.

Lemma zlen_0_inv {A} (l : list A) : zlen l = 0 -> l = [].
Proof. unfold zlen. destruct l; cbn; [done | lia]. Qed.

Lemma ztake_all {A} n (l : list A) : zlen l <= n -> ztake n l = l.
Proof. unfold zlen, ztake. intros. apply take_ge. lia. Qed.

Lemma zdrop_all {A} n (l : list A) : zlen l <= n -> zdrop n l = [].
Proof. unfold zlen, zdrop. intros. apply drop_ge. lia. Qed.

Lemma ztake_0 {A} (l : list A) : ztake 0 l = [].
Proof. reflexivity. Qed.

Lemma zdrop_0 {A} (l : list A) : zdrop 0 l = l.
Proof. reflexivity. Qed.

Lemma ztake_zdrop {A} n (l : list A) : ztake n l ++ zdrop n l = l.
Proof. apply take_drop. Qed.

Lemma zdrop_zdrop {A} n m (l : list A) :
  0 <= n -> 0 <= m -> zdrop n (zdrop m l) = zdrop (n + m) l.
Proof. intros. unfold zdrop. rewrite drop_drop. f_equal. lia. Qed.

Lemma ztake_app_exact {A} n (l k : list A) : zlen l = n -> ztake n (l ++ k) = l.
Proof. unfold zlen, ztake. intros. apply take_app_length'. lia. Qed.

Lemma zdrop_app_exact {A} n (l k : list A) : zlen l = n -> zdrop n (l ++ k) = k.
Proof. unfold zlen, zdrop. intros. apply drop_app_length'. lia. Qed.

Lemma ztake_app_le {A} n (l k : list A) : n <= zlen l -> ztake n (l ++ k) = ztake n l.
Proof. unfold zlen, ztake. intros. apply take_app_le. lia. Qed.

Lemma ztake_app_ge {A} n (l k : list A) :
  zlen l <= n -> ztake n (l ++ k) = l ++ ztake (n - zlen l) k.
Proof.
  unfold zlen, ztake. intros.
  rewrite take_app, take_ge by lia. do 2 f_equal. lia.
Qed.

Lemma zdrop_app_le {A} n (l k : list A) :
  0 <= n <= zlen l -> zdrop n (l ++ k) = zdrop n l ++ k.
Proof. unfold zlen, zdrop. intros. apply drop_app_le. lia. Qed.

Lemma zdrop_app_ge {A} n (l k : list A) :
  zlen l <= n -> zdrop n (l ++ k) = zdrop (n - zlen l) k.
Proof. unfold zlen, zdrop. intros. rewrite drop_app_ge by lia. f_equal. lia. Qed.

Lemma zdrop_ztake {A} n m (l : list A) :
  0 <= n -> n <= m -> zdrop n (ztake m l) = slice n (m - n) l.
Proof.
  intros. unfold slice, ztake, zdrop. rewrite skipn_firstn_comm. f_equal. lia.
Qed.

Lemma ztake_ztake {A} n m (l : list A) : n <= m -> ztake n (ztake m l) = ztake n l.
Proof. intros. unfold ztake. rewrite take_take. f_equal. lia. Qed.

Lemma slice_0 {A} n (l : list A) : slice 0 n l = ztake n l.
Proof. reflexivity. Qed.

Lemma slice_app_r {A} off n (l k : list A) :
  zlen l <= off -> slice off n (l ++ k) = slice (off - zlen l) n k.
Proof. intros. unfold slice. by rewrite zdrop_app_ge. Qed.

Lemma slice_app_l {A} off n (l k : list A) :
  0 <= off -> 0 <= n -> off + n <= zlen l -> slice off n (l ++ k) = slice off n l.
Proof.
  intros. unfold slice. rewrite zdrop_app_le by lia.
  apply ztake_app_le. rewrite zlen_zdrop; lia.
Qed.

(** A slice is the concatenation of two shorter adjacent ones. *)
Lemma slice_split {A} off n m (l : list A) :
  0 <= off -> 0 <= n <= m -> slice off m l = slice off n l ++ slice (off + n) (m - n) l.
Proof.
  intros. unfold slice.
  rewrite (Z.add_comm off n), <- (zdrop_zdrop n off) by lia.
  set (k := zdrop off l).
  rewrite <- (ztake_zdrop n (ztake m k)).
  rewrite ztake_ztake, zdrop_ztake by lia. reflexivity.
Qed.

Lemma mem_read_Ok {A} (l : list A) off n :
  0 <= off -> 0 <= n -> off + n <= zlen l -> mem_read l off n = Ok (slice off n l).
Proof.
  intros. unfold mem_read.
  rewrite (proj2 (Z.leb_le 0 off)), (proj2 (Z.leb_le 0 n)),
    (proj2 (Z.leb_le (off + n) _)) by lia. reflexivity.
Qed.

Lemma mem_read_inv {A} (l : list A) off n r :
  mem_read l off n = Ok r ->
  0 <= off /\ 0 <= n /\ off + n <= zlen l /\ r = slice off n l.
Proof.
  unfold mem_read. intros H.
  destruct (0 <=? off) eqn:E1; [|done]. destruct (0 <=? n) eqn:E2; [|done].
  destruct (off + n <=? zlen l) eqn:E3; [|done]. cbn in H.
  apply Z.leb_le in E1, E2, E3. naive_solver.
Qed.

Lemma mem_write_Ok {A} (l : list A) off d :
  0 <= off -> off + zlen d <= zlen l ->
  mem_write l off d = Ok (ztake off l ++ d ++ zdrop (off + zlen d) l).
Proof.
  intros. unfold mem_write.
  rewrite (proj2 (Z.leb_le 0 off)), (proj2 (Z.leb_le (off + zlen d) _)) by lia.
  reflexivity.
Qed.

Lemma mem_write_inv {A} (l : list A) off d r :
  mem_write l off d = Ok r ->
  0 <= off /\ off + zlen d <= zlen l /\
  r = ztake off l ++ d ++ zdrop (off + zlen d) l.
Proof.
  unfold mem_write. intros H.
  destruct (0 <=? off) eqn:E1; [|done].
  destruct (off + zlen d <=? zlen l) eqn:E3; [|done]. cbn in H.
  apply Z.leb_le in E1, E3. naive_solver.
Qed.

Lemma zlen_mem_write {A} (l : list A) off d r :
  mem_write l off d = Ok r -> zlen r = zlen l.
Proof.
  intros (? & ? & ->)%mem_write_inv. pose proof (zlen_nonneg d).
  rewrite !zlen_app, zlen_ztake, zlen_zdrop by lia. lia.
Qed.
#[export] Hint Resolve zlen_nonneg zlen_mem_write safe_Ok safe_Throw : zt.

(** One element stored at [i], as the loops that fill an array do. *)
Lemma mem_write_one {A} (l : list A) i x :
  0 <= i < zlen l ->
  exists l', mem_write l i [x] = Ok l' /\ zlen l' = zlen l /\ ztake (i + 1) l' = ztake i l ++ [x] /\
    forall n, i + 1 <= n -> zdrop n l' = zdrop n l.
Proof.
  intros Hi. eexists. split; [apply mem_write_Ok; [|change (zlen [x]) with 1]; lia|]. change (zlen [x]) with 1.
  assert (Hp : zlen (ztake i l ++ [x]) = i + 1) by (rewrite zlen_app, zlen_ztake by lia; done).
  rewrite app_assoc. split; [rewrite zlen_app, Hp, zlen_zdrop by lia; lia|]. split; [by apply ztake_app_exact|].
  intros n Hn. rewrite zdrop_app_ge, Hp, zdrop_zdrop by lia. f_equal. lia.
Qed.

(** A block given as segments. *)
Lemma mem_read_seg {A} (a d c : list A) off n :
  zlen a = off -> zlen d = n -> mem_read (a ++ d ++ c) off n = Ok d.
Proof.
  intros Ha Hd. pose proof (zlen_nonneg a). pose proof (zlen_nonneg d). pose proof (zlen_nonneg c).
  rewrite mem_read_Ok by (rewrite ?zlen_app; lia). unfold slice.
  by rewrite zdrop_app_exact, ztake_app_exact.
Qed.

Lemma mem_write_seg {A} (a d c : list A) off d' :
  zlen a = off -> zlen d' = zlen d -> mem_write (a ++ d ++ c) off d' = Ok (a ++ d' ++ c).
Proof.
  intros Ha Hd. pose proof (zlen_nonneg a). pose proof (zlen_nonneg d). pose proof (zlen_nonneg c).
  rewrite mem_write_Ok by (rewrite ?zlen_app; lia). rewrite ztake_app_exact by done.
  by rewrite (app_assoc a d c), zdrop_app_exact by (rewrite zlen_app; lia).
Qed.

(** ** Pointwise reasoning on blocks *)

Lemma zlen_replicate_Z {A} n (x : A) : 0 <= n -> zlen (replicate (Z.to_nat n) x) = n.
Proof. intros. unfold zlen. rewrite length_replicate. lia. Qed.

Lemma zget_range {A} (l : list A) i : is_Some (zget l i) <-> 0 <= i < zlen l.
Proof.
  unfold zget, zlen. destruct (Z.leb_spec 0 i).
  - rewrite lookup_lt_is_Some. lia.
  - split; [by intros [? ?] | lia].
Qed.

Lemma zget_None {A} (l : list A) i : zget l i = None <-> i < 0 \/ zlen l <= i.
Proof.
  rewrite eq_None_not_Some, zget_range. lia.
Qed.

Lemma zget_ext {A} (l k : list A) :
  zlen l = zlen k -> (forall i, 0 <= i < zlen l -> zget l i = zget k i) -> l = k.
Proof.
  intros Hl H. apply list_eq. intros i.
  destruct (decide (Z.of_nat i < zlen l)) as [Hi|Hi].
  - specialize (H (Z.of_nat i) ltac:(lia)). unfold zget in H.
    rewrite (proj2 (Z.leb_le 0 _)) in H by lia. by rewrite Nat2Z.id in H.
  - unfold zlen in *. rewrite !lookup_ge_None_2; [done|lia..].
Qed.

Lemma zget_app {A} (l k : list A) i :
  zget (l ++ k) i = if i <? zlen l then zget l i else zget k (i - zlen l).
Proof.
  unfold zget, zlen.
  destruct (Z.leb_spec 0 i), (Z.ltb_spec i (Z.of_nat (length l))); [| | |lia].
  - by rewrite lookup_app_l by lia.
  - rewrite lookup_app_r, (proj2 (Z.leb_le 0 _)) by lia. f_equal. lia.
  - done.
Qed.

Lemma load_seg {A} (a : list A) x c i : zlen a = i -> load (a ++ [x] ++ c) i = Ok x.
Proof.
  intros Ha. unfold load. rewrite zget_app, (proj2 (Z.ltb_ge _ _)) by lia.
  by rewrite Ha, Z.sub_diag.
Qed.

Lemma zget_ztake {A} n (l : list A) i : i < n -> zget (ztake n l) i = zget l i.
Proof.
  intros. unfold zget, ztake. destruct (Z.leb_spec 0 i); [|done].
  apply lookup_take_lt. lia.
Qed.

Lemma zget_zdrop {A} n (l : list A) i : 0 <= n -> 0 <= i -> zget (zdrop n l) i = zget l (n + i).
Proof.
  intros. unfold zget, zdrop.
  rewrite (proj2 (Z.leb_le 0 i)), (proj2 (Z.leb_le 0 (n + i))) by lia.
  rewrite lookup_drop. f_equal. lia.
Qed.

Lemma zget_slice {A} off n (l : list A) i :
  0 <= off -> 0 <= i < n -> zget (slice off n l) i = zget l (off + i).
Proof. intros. unfold slice. rewrite zget_ztake, zget_zdrop by lia. done. Qed.

Lemma zget_mem_write {A} (l : list A) off d r i :
  mem_write l off d = Ok r ->
  zget r i = if (off <=? i) && (i <? off + zlen d) then zget d (i - off) else zget l i.
Proof.
  intros (Ho & Hb & ->)%mem_write_inv. pose proof (zlen_nonneg d).
  rewrite !zget_app, zlen_ztake by lia.
  destruct (Z.leb_spec off i), (Z.ltb_spec i off), (Z.ltb_spec i (off + zlen d)),
    (Z.ltb_spec (i - off) (zlen d)); cbn; try lia; try done.
  - rewrite zget_zdrop by lia. f_equal. lia.
  - apply zget_ztake. lia.
Qed.

(** ** Bits *)

Create Rewrite HintDb bits.
#[export] Hint Rewrite Z.land_spec Z.lor_spec Z.lxor_spec Z.testbit_0_l : bits.
#[export] Hint Rewrite Z.shiftr_spec Z.shiftl_spec Z.testbit_mod_pow2
  Z.testbit_ones_nonneg using lia : bits.

Lemma testbit_high n a i : 0 <= n -> in_range n a -> n <= i -> Z.testbit a i = false.
Proof.
  unfold in_range. intros Hn Ha Hi.
  rewrite <- (Z.mod_small a (2 ^ n)), Z.testbit_mod_pow2 by lia.
  by rewrite (proj2 (Z.ltb_ge i n)) by lia.
Qed.

Lemma in_range_bits n a :
  0 <= n -> 0 <= a -> (forall i, n <= i -> Z.testbit a i = false) -> in_range n a.
Proof.
  intros Hn Ha H. unfold in_range. split; [done|].
  destruct (Z.eq_dec a 0) as [->|]; [lia|].
  apply Z.log2_lt_pow2; [lia|].
  destruct (Z.lt_ge_cases (Z.log2 a) n) as [|Hge]; [done|].
  specialize (H _ Hge). rewrite Z.bit_log2 in H by lia. done.
Qed.

Lemma in_range_weaken n m a : 0 <= n <= m -> in_range n a -> in_range m a.
Proof.
  unfold in_range. intros. pose proof (Z.pow_le_mono_r 2 n m ltac:(lia) ltac:(lia)). lia.
Qed.

Lemma in_range_land n a b : 0 <= n -> 0 <= a -> in_range n b -> in_range n (Z.land a b).
Proof.
  intros Hn Ha [Hb1 Hb2]. apply in_range_bits; [done| |].
  - apply Z.land_nonneg. lia.
  - intros i Hi. rewrite Z.land_spec, (testbit_high n b) by done. apply andb_false_r.
Qed.

Lemma in_range_lor n a b : 0 <= n -> in_range n a -> in_range n b -> in_range n (Z.lor a b).
Proof.
  intros Hn [Ha1 Ha2] [Hb1 Hb2]. apply in_range_bits; [done| |].
  - apply Z.lor_nonneg. lia.
  - intros i Hi. by rewrite Z.lor_spec, (testbit_high n a), (testbit_high n b).
Qed.

Lemma in_range_lxor n a b : 0 <= n -> in_range n a -> in_range n b -> in_range n (Z.lxor a b).
Proof.
  intros Hn [Ha1 Ha2] [Hb1 Hb2]. apply in_range_bits; [done| |].
  - apply Z.lxor_nonneg. lia.
  - intros i Hi. by rewrite Z.lxor_spec, (testbit_high n a), (testbit_high n b).
Qed.

Lemma in_range_shiftl n m a :
  0 <= n -> 0 <= m <= n -> in_range (n - m) a -> in_range n (Z.shiftl a m).
Proof.
  unfold in_range. intros Hn Hm Ha. rewrite Z.shiftl_mul_pow2 by lia.
  replace n with ((n - m) + m) at 1 by lia. rewrite Z.pow_add_r by lia. nia.
Qed.

Lemma in_range_shiftr n m a : 0 <= n -> 0 <= m -> in_range (n + m) a -> in_range n (Z.shiftr a m).
Proof.
  unfold in_range. intros Hn Hm Ha. rewrite Z.shiftr_div_pow2 by lia.
  rewrite Z.pow_add_r in Ha by lia. split.
  - apply Z.div_pos; lia.
  - apply Z.div_lt_upper_bound; lia.
Qed.

(** A mask by [2^n - 1] keeps the low [n] bits. *)
Lemma land_255 a : Z.land a 255 = a mod 2 ^ 8.
Proof. apply (Z.land_ones a 8). lia. Qed.

Lemma land_15 a : Z.land a 15 = a mod 2 ^ 4.
Proof. apply (Z.land_ones a 4). lia. Qed.

Lemma is_byte_land a : is_byte (Z.land a 255).
Proof. rewrite land_255. apply wrap_range. lia. Qed.

#[export] Hint Resolve is_byte_land in_range_land in_range_lor in_range_lxor : zt.

Lemma land_mask_range n a m : 0 <= n -> in_range n m -> in_range n (Z.land a m).
Proof.
  intros Hn Hm. apply in_range_bits; [done| |].
  - apply Z.land_nonneg. right. apply Hm.
  - intros i Hi. rewrite Z.land_spec, (testbit_high n m) by done. apply andb_false_r.
Qed.

(** Disjoint bits: an "or" of a multiple of [2^k] and a number below it is a sum. *)
Lemma land_disjoint k a b : 0 <= k -> a mod 2 ^ k = 0 -> in_range k b -> Z.land a b = 0.
Proof.
  intros Hk Ha Hb. apply Z.bits_inj'. intros i Hi. rewrite Z.land_spec, Z.bits_0.
  destruct (Z.lt_ge_cases i k) as [Hlt|Hge].
  - assert (H2 : 2 ^ k <> 0) by (apply Z.pow_nonzero; lia).
    apply (Z.mod_divide _ _ H2) in Ha as [q ->]. by rewrite Z.mul_pow2_bits_low.
  - rewrite (testbit_high k b) by done. apply andb_false_r.
Qed.

Lemma lor_cat k a b : 0 <= k -> a mod 2 ^ k = 0 -> in_range k b -> Z.lor a b = a + b.
Proof.
  intros Hk Ha Hb. pose proof (land_disjoint k a b Hk Ha Hb) as H.
  rewrite Z.add_nocarry_lxor by done. symmetry. by apply Z.lxor_lor.
Qed.

(** Side conditions of [lor_cat] on sums of shifted bytes. *)
Ltac lor_side := unfold in_range in *; Z.div_mod_to_equations; lia.

Lemma land_mask n a : 0 <= n -> Z.land a (2 ^ n - 1) = a mod 2 ^ n.
Proof. intros. rewrite <- (Z.land_ones a n) by done. by rewrite Z.ones_equiv, Z.sub_1_r. Qed.

(** Bitwise "and" of two numbers split at bit [k]. *)
Lemma land_cat k a b c d :
  0 <= k -> in_range k a -> in_range k c ->
  Z.land (a + b * 2 ^ k) (c + d * 2 ^ k) = Z.land a c + Z.land b d * 2 ^ k.
Proof.
  intros Hk Ha Hc. rewrite !(Z.add_comm _ (_ * 2 ^ k)).
  assert (Hac : in_range k (Z.land a c)) by (apply land_mask_range; done).
  rewrite <- !(lor_cat k) by (try done; apply Z.mod_mul, Z.pow_nonzero; lia).
  rewrite <- !Z.shiftl_mul_pow2 by done. apply Z.bits_inj'. intros i Hi.
  rewrite ?Z.land_spec, ?Z.lor_spec, ?Z.land_spec. rewrite !Z.shiftl_spec, ?Z.land_spec by done.
  destruct (Z.lt_ge_cases i k).
  - by rewrite !(Z.testbit_neg_r _ (i - k)) by lia.
  - rewrite (testbit_high k a), (testbit_high k c) by done. by rewrite !orb_false_r.
Qed.

(** Two integers with the same bits: [bitwise] introduces the bit index [i] and
    pushes [Z.testbit] inwards. *)
Ltac bitwise i :=
  apply Z.bits_inj'; intros i ?Hi; autorewrite with bits.

(** ** Byte strings and integers *)

Fixpoint le_bytes (n : nat) (v : Z) : list Z :=
  match n with
  | O => []
  | S n => Z.land v 255 :: le_bytes n (Z.shiftr v 8)
  end.

Fixpoint le_val (l : list Z) : Z :=
  match l with
  | [] => 0
  | b :: l => b + 256 * le_val l
  end.

(** Network byte order. *)
Definition be_bytes (n : nat) (v : Z) : list Z := reverse (le_bytes n v).
Definition be_val (l : list Z) : Z := le_val (reverse l).

Lemma length_le_bytes n v : length (le_bytes n v) = n.
Proof. revert v. induction n as [|n IH]; intros v; cbn; [done|]. by rewrite IH. Qed.

Lemma length_be_bytes n v : length (be_bytes n v) = n.
Proof. unfold be_bytes. by rewrite length_reverse, length_le_bytes. Qed.

Lemma zlen_be_bytes n v : zlen (be_bytes n v) = Z.of_nat n.
Proof. unfold zlen. by rewrite length_be_bytes. Qed.

Lemma le_bytes_bytes n v : Forall is_byte (le_bytes n v).
Proof. revert v. induction n; intros v; cbn; constructor; auto with zt. Qed.

Lemma be_bytes_bytes n v : Forall is_byte (be_bytes n v).
Proof. apply Forall_reverse, le_bytes_bytes. Qed.
#[export] Hint Resolve le_bytes_bytes be_bytes_bytes : zt.

Lemma le_val_le_bytes n v : le_val (le_bytes n v) = v mod 2 ^ (8 * Z.of_nat n).
Proof.
  revert v. induction n as [|n IH]; intros v; cbn [le_bytes le_val].
  { by rewrite Z.mod_1_r. }
  rewrite IH, land_255, Z.shiftr_div_pow2 by lia.
  replace (8 * Z.of_nat (S n)) with (8 + 8 * Z.of_nat n) by lia.
  rewrite Z.pow_add_r by lia. rewrite Z.rem_mul_r by lia. done.
Qed.

Lemma le_val_range l : Forall is_byte l -> in_range (8 * zlen l) (le_val l).
Proof.
  unfold in_range. induction 1 as [|b l Hb Hl IH]; cbn [le_val]; [done|].
  unfold zlen in *. cbn [length]. unfold in_range in Hb.
  replace (8 * Z.of_nat (S (length l))) with (8 + 8 * Z.of_nat (length l)) by lia.
  rewrite Z.pow_add_r by lia. lia.
Qed.

Lemma le_bytes_le_val l : Forall is_byte l -> le_bytes (length l) (le_val l) = l.
Proof.
  induction 1 as [|b l Hb Hl IH]; cbn [length le_bytes le_val]; [done|].
  unfold in_range in Hb. rewrite land_255, Z.shiftr_div_pow2 by lia. f_equal.
  - replace (b + 256 * le_val l) with (b + le_val l * 2 ^ 8) by lia.
    rewrite Z.mod_add, Z.mod_small by lia. done.
  - replace ((b + 256 * le_val l) / 2 ^ 8) with (le_val l); [done|].
    replace (b + 256 * le_val l) with (b + le_val l * 2 ^ 8) by lia.
    rewrite Z.div_add, Z.div_small by lia. lia.
Qed.

Lemma be_val_be_bytes n v : be_val (be_bytes n v) = v mod 2 ^ (8 * Z.of_nat n).
Proof. unfold be_val, be_bytes. by rewrite reverse_involutive, le_val_le_bytes. Qed.

Lemma be_val_be_bytes_id n v : in_range (8 * Z.of_nat n) v -> be_val (be_bytes n v) = v.
Proof. intros Hv. rewrite be_val_be_bytes. by apply Z.mod_small. Qed.

Lemma be_val_range l : Forall is_byte l -> in_range (8 * zlen l) (be_val l).
Proof.
  intros Hl. unfold be_val.
  replace (zlen l) with (zlen (reverse l)) by (unfold zlen; by rewrite length_reverse).
  by apply le_val_range, Forall_reverse.
Qed.

Lemma be_bytes_be_val l : Forall is_byte l -> be_bytes (length l) (be_val l) = l.
Proof.
  intros Hl. unfold be_val, be_bytes. rewrite <- (length_reverse l), le_bytes_le_val.
  - apply reverse_involutive.
  - by apply Forall_reverse.
Qed.

Lemma be_bytes_be_val' n l :
  Forall is_byte l -> length l = n -> be_bytes n (be_val l) = l.
Proof. intros Hl <-. by apply be_bytes_be_val. Qed.

Lemma be_val_inj l k :
  Forall is_byte l -> Forall is_byte k -> length l = length k -> be_val l = be_val k -> l = k.
Proof.
  intros Hl Hk Hlen H. rewrite <- (be_bytes_be_val l), <- (be_bytes_be_val k) by done.
  by rewrite Hlen, H.
Qed.

(** Bits of a byte string. *)
Lemma testbit_cat a b i :
  is_byte a -> 0 <= b -> 0 <= i ->
  Z.testbit (a + 256 * b) i = if i <? 8 then Z.testbit a i else Z.testbit b (i - 8).
Proof.
  intros Ha Hb Hi.
  assert (Hd : Z.land a (Z.shiftl b 8) = 0).
  { bitwise j. destruct (Z.lt_ge_cases j 8).
    - rewrite (Z.testbit_neg_r b) by lia. apply andb_false_r.
    - by rewrite (testbit_high 8 a) by (done || lia). }
  replace (a + 256 * b) with (Z.lor a (Z.shiftl b 8)).
  - rewrite Z.lor_spec, Z.shiftl_spec by lia. destruct (Z.ltb_spec i 8).
    + rewrite (Z.testbit_neg_r b) by lia. apply orb_false_r.
    + by rewrite (testbit_high 8 a) by (done || lia).
  - rewrite <- Z.lxor_lor, <- Z.add_nocarry_lxor by done.
    rewrite Z.shiftl_mul_pow2 by lia. lia.
Qed.

Lemma le_val_nonneg l : Forall is_byte l -> 0 <= le_val l.
Proof. intros []%le_val_range. done. Qed.

Lemma le_val_app l k : le_val (l ++ k) = le_val l + 2 ^ (8 * zlen l) * le_val k.
Proof.
  induction l as [|x l IH]; [cbn [app le_val]; change (2 ^ (8 * zlen [])) with 1; lia|].
  cbn [app le_val]. rewrite IH. unfold zlen. cbn [length].
  replace (8 * Z.of_nat (S (length l))) with (8 + 8 * Z.of_nat (length l)) by lia.
  rewrite Z.pow_add_r by lia. lia.
Qed.

Lemma be_val_app l k : be_val (l ++ k) = be_val l * 2 ^ (8 * zlen k) + be_val k.
Proof.
  unfold be_val. rewrite reverse_app, le_val_app. unfold zlen. rewrite length_reverse. lia.
Qed.

Lemma le_val_drop k l :
  Forall is_byte l -> le_val (drop k l) = le_val l / 2 ^ (8 * Z.of_nat k).
Proof.
  intros Hl. destruct (Nat.le_gt_cases k (length l)) as [Hk|Hk].
  - rewrite <- (take_drop k l) at 2. rewrite le_val_app.
    pose proof (le_val_range (take k l) (Forall_take _ k l Hl)) as Hr.
    unfold zlen in *. rewrite length_take, Nat.min_l in * by done.
    rewrite Z.add_comm, Z.mul_comm, Z.div_add_l, Z.div_small by (done || apply Z.pow_nonzero; lia). lia.
  - rewrite drop_ge by lia. symmetry. apply Z.div_small. pose proof (le_val_range l Hl) as Hr.
    eapply in_range_weaken; [|exact Hr]. unfold zlen. lia.
Qed.

Lemma le_val_take n l :
  Forall is_byte l -> le_val (take n l) = le_val l mod 2 ^ (8 * Z.of_nat n).
Proof.
  intros Hl. destruct (Nat.le_gt_cases n (length l)) as [Hn|Hn].
  - rewrite <- (take_drop n l) at 2. rewrite le_val_app.
    pose proof (le_val_range (take n l) (Forall_take _ n l Hl)) as Hr.
    unfold zlen in *. rewrite length_take, Nat.min_l in * by done.
    rewrite Z.mul_comm, Z.mod_add by (apply Z.pow_nonzero; lia). by rewrite Z.mod_small.
  - rewrite take_ge by lia. symmetry. apply Z.mod_small. pose proof (le_val_range l Hl) as Hr.
    eapply in_range_weaken; [|exact Hr]. unfold zlen. lia.
Qed.

(** Part of a byte string as part of a number. *)
Lemma le_val_slice n k l :
  Forall is_byte l ->
  le_val (take n (drop k l)) = le_val l / 2 ^ (8 * Z.of_nat k) mod 2 ^ (8 * Z.of_nat n).
Proof. intros Hl. by rewrite le_val_take, le_val_drop by (try apply Forall_drop; done). Qed.

(** A bit field of a bit field. *)
Lemma field_field K a b c d :
  0 <= a -> 0 <= c -> 0 <= d -> c + d <= b ->
  (K / 2 ^ a mod 2 ^ b) / 2 ^ c mod 2 ^ d = K / 2 ^ (a + c) mod 2 ^ d.
Proof.
  intros. rewrite <- !Z.shiftr_div_pow2 by lia. bitwise i.
  destruct (Z.ltb_spec i d); [|done]. cbn [andb].
  autorewrite with bits.
  rewrite (proj2 (Z.ltb_lt _ _)) by lia. cbn [andb]. f_equal. lia.
Qed.

(** Bitwise "and" of byte strings. *)
Lemma zip_land_le_bytes n x y :
  zip_with Z.land (le_bytes n x) (le_bytes n y) = le_bytes n (Z.land x y).
Proof.
  revert x y. induction n as [|n IH]; intros x y; cbn; [done|].
  rewrite IH, Z.shiftr_land. f_equal.
  rewrite <- !Z.land_assoc. f_equal. rewrite (Z.land_comm 255), <- Z.land_assoc. done.
Qed.

Lemma zip_lxor_le_bytes n x y :
  zip_with Z.lxor (le_bytes n x) (le_bytes n y) = le_bytes n (Z.lxor x y).
Proof.
  revert x y. induction n as [|n IH]; intros x y; cbn; [done|].
  rewrite IH, Z.shiftr_lxor. f_equal. rewrite !land_255. bitwise i. by destruct (i <? 8).
Qed.

Lemma zip_with_reverse {A B D} (f : A -> B -> D) l k :
  length l = length k -> zip_with f (reverse l) (reverse k) = reverse (zip_with f l k).
Proof.
  revert k. induction l as [|x l IH]; intros [|y k] Hl; try done. cbn in Hl. cbn [zip_with].
  rewrite !reverse_cons, zip_with_app by (rewrite !length_reverse; lia). by rewrite IH by lia.
Qed.

Lemma zip_land_be_bytes n x y :
  zip_with Z.land (be_bytes n x) (be_bytes n y) = be_bytes n (Z.land x y).
Proof.
  unfold be_bytes. rewrite <- zip_land_le_bytes.
  apply zip_with_reverse. by rewrite !length_le_bytes.
Qed.

Lemma le_bytes_app n m x :
  le_bytes (n + m) x = le_bytes n x ++ le_bytes m (Z.shiftr x (8 * Z.of_nat n)).
Proof.
  revert x. induction n as [|n IH]; intros x; [cbn; by rewrite Z.shiftr_0_r|].
  cbn [Nat.add le_bytes app]. rewrite IH, Z.shiftr_shiftr by lia. do 4 f_equal. lia.
Qed.

Lemma be_bytes_app n m x :
  be_bytes (n + m) x = be_bytes n (Z.shiftr x (8 * Z.of_nat m)) ++ be_bytes m x.
Proof. unfold be_bytes. rewrite Nat.add_comm, le_bytes_app. apply reverse_app. Qed.

Lemma le_bytes_wrap n x : le_bytes n (x mod 2 ^ (8 * Z.of_nat n)) = le_bytes n x.
Proof.
  rewrite <- le_val_le_bytes. rewrite <- (length_le_bytes n x) at 1.
  apply le_bytes_le_val, le_bytes_bytes.
Qed.

Lemma le_bytes_cat n m x y :
  in_range (8 * Z.of_nat n) x ->
  le_bytes n x ++ le_bytes m y = le_bytes (n + m) (x + y * 2 ^ (8 * Z.of_nat n)).
Proof.
  intros Hx. rewrite le_bytes_app.
  assert (Hp : 2 ^ (8 * Z.of_nat n) <> 0) by (apply Z.pow_nonzero; lia). f_equal.
  - rewrite <- (le_bytes_wrap n (_ + _)), Z.mod_add by done. by rewrite (Z.mod_small x).
  - f_equal. rewrite Z.shiftr_div_pow2, Z.div_add, (Z.div_small x) by (done || lia). lia.
Qed.

Lemma be_bytes_cat n m x y :
  in_range (8 * Z.of_nat m) y ->
  be_bytes n x ++ be_bytes m y = be_bytes (n + m) (x * 2 ^ (8 * Z.of_nat m) + y).
Proof.
  intros Hy. rewrite be_bytes_app. f_equal.
  - f_equal. rewrite Z.shiftr_div_pow2, Z.div_add_l, (Z.div_small y) by (done || lia). lia.
  - unfold be_bytes. f_equal. rewrite <- (le_bytes_wrap m (_ + _)), Z.add_comm, Z.mod_add by lia.
    by rewrite (Z.mod_small y).
Qed.

(** Clearing the low [k] bits of an [n]-bit number. *)
Lemma land_high n k x :
  0 <= k <= n -> in_range n x -> Z.land x (2 ^ n - 2 ^ k) = x / 2 ^ k * 2 ^ k.
Proof.
  intros Hk Hx.
  replace (2 ^ n - 2 ^ k) with (Z.shiftl (Z.ones (n - k)) k).
  - rewrite <- Z.shiftl_mul_pow2, <- Z.shiftr_div_pow2 by lia. bitwise i.
    destruct (Z.lt_ge_cases i k).
    + rewrite !(Z.testbit_neg_r _ (i - k)) by lia. apply andb_false_r.
    + rewrite Z.shiftr_spec, Z.testbit_ones_nonneg by lia. replace (i - k + k) with i by lia.
      destruct (Z.ltb_spec (i - k) (n - k)); [apply andb_true_r|].
      by rewrite (testbit_high n x) by (done || lia).
  - rewrite Z.shiftl_mul_pow2, Z.ones_equiv by lia.
    replace n with ((n - k) + k) at 2 by lia. rewrite Z.pow_add_r by lia. lia.
Qed.

Lemma eqb_bool_decide (x y : Z) : (x =? y) = bool_decide (x = y).
Proof. destruct (Z.eqb_spec x y); symmetry; [by apply bool_decide_eq_true_2|by apply bool_decide_eq_false_2]. Qed.

Lemma slice_bytes off n l : Forall is_byte l -> Forall is_byte (slice off n l).
Proof. intros H. by apply Forall_take, Forall_drop. Qed.

(** Deciding a statement about every byte by evaluation. *)
Definition all_bytes : list Z := seqZ 0 256.

Lemma byte_forall (P : Z -> bool) : forallb P all_bytes = true -> forall b, is_byte b -> P b = true.
Proof.
  rewrite forallb_forall. intros H b Hb. apply H.
  apply list_elem_of_In, elem_of_seqZ. unfold in_range in Hb. lia.
Qed.
