(* ===== verification/Limbs.v ===== *)
(** Numbers in radix 256 whose digits are 32-bit words, as node/C25519.cpp keeps them:
    congruence, finite sums, and the loop that propagates carries. *)
From S2P Require Import Prelude.

(** ** Congruence *)

Definition eqm (N x y : Z) : Prop := (N | x - y).
Notation "x ≡ y [mod N ]" := (eqm N x y) (at level 70, y at next level, N at level 200, format "x  ≡  y  [mod  N ]") : zt_scope.
Open Scope zt_scope.

Section Congruence.
Context (N : Z).

Lemma eqm_intro x y k : x = y + N * k -> x ≡ y [mod N].
Proof. intros ->. exists k. lia. Qed.

#[global] Instance eqm_equivalence : Equivalence (eqm N).
Proof.
  split.
  - intros x. exists 0. lia.
  - intros x y [k H]. exists (- k). lia.
  - intros x y z [k H] [l K]. exists (k + l). lia.
Qed.

#[global] Instance eqm_add_proper : Proper (eqm N ==> eqm N ==> eqm N) Z.add.
Proof. intros a b [k H] c d [l K]. exists (k + l). lia. Qed.

#[global] Instance eqm_sub_proper : Proper (eqm N ==> eqm N ==> eqm N) Z.sub.
Proof. intros a b [k H] c d [l K]. exists (k - l). lia. Qed.

#[global] Instance eqm_mul_proper : Proper (eqm N ==> eqm N ==> eqm N) Z.mul.
Proof. intros a b [k H] c d [l K]. exists (k * c + b * l). replace a with (b + k * N) by lia. replace c with (d + l * N) by lia. ring. Qed.

#[global] Instance eqm_opp_proper : Proper (eqm N ==> eqm N) Z.opp.
Proof. intros a b [k H]. exists (- k). lia. Qed.

Context (HN : N <> 0).

Lemma eqm_iff x y : x ≡ y [mod N] <-> x mod N = y mod N.
Proof.
  split.
  - intros [k H]. replace x with (y + k * N) by lia. by apply Z.mod_add.
  - intros H. exists (x / N - y / N). rewrite (Z.div_mod x N HN) at 1. rewrite (Z.div_mod y N HN) at 1. rewrite H. ring.
Qed.

Lemma eqm_mod x : x mod N ≡ x [mod N].
Proof. apply eqm_iff. by apply Zmod_mod. Qed.

Lemma eqm_small x y : 0 <= x < N -> x ≡ y [mod N] -> x = y mod N.
Proof. intros Hx H%eqm_iff. by rewrite Z.mod_small in H. Qed.

Lemma eqm_pow x y e : 0 <= e -> x ≡ y [mod N] -> x ^ e ≡ y ^ e [mod N].
Proof.
  intros He H. pattern e. apply natlike_ind; [by rewrite !Z.pow_0_r| |done]. intros n Hn IH. rewrite !Z.pow_succ_r by done. by apply eqm_mul_proper.
Qed.
End Congruence.

(** ** Sums *)

Fixpoint zsum (n : nat) (f : nat -> Z) : Z :=
  match n with O => 0 | S n => zsum n f + f n end.

Lemma zsum_ext n f g : (forall i, (i < n)%nat -> f i = g i) -> zsum n f = zsum n g.
Proof. induction n as [|n IH]; intros H; cbn [zsum]; [done|]. rewrite IH by (intros; apply H; lia). by rewrite H by lia. Qed.

Lemma zsum_add n f g : zsum n (fun i => f i + g i) = zsum n f + zsum n g.
Proof. induction n as [|n IH]; cbn [zsum]; lia. Qed.

Lemma zsum_scale n c f : zsum n (fun i => c * f i) = c * zsum n f.
Proof. induction n as [|n IH]; cbn [zsum]; lia. Qed.

Lemma zsum_zero n : zsum n (fun _ => 0) = 0.
Proof. induction n as [|n IH]; cbn [zsum]; lia. Qed.

Lemma zsum_split m n f : zsum (m + n) f = zsum m f + zsum n (fun i => f (m + i)%nat).
Proof. induction n as [|n IH]; [rewrite Nat.add_0_r; cbn; lia|]. rewrite Nat.add_succ_r. cbn [zsum]. lia. Qed.

Lemma zsum_head n h (X : nat -> Z) : zsum (S n) (fun j => (if (j =? 0)%nat then h else 0) * X j) = h * X 0%nat.
Proof. induction n as [|n IH]; [cbn; lia|]. cbn [zsum] in *. rewrite IH. cbn [Nat.eqb]. lia. Qed.

Lemma zsum_shift n k f : zsum n (fun i => f i * 256 ^ Z.of_nat (k + i)) = 256 ^ Z.of_nat k * zsum n (fun i => f i * 256 ^ Z.of_nat i).
Proof. rewrite <- zsum_scale. apply zsum_ext. intros i _. rewrite Nat2Z.inj_add, Z.pow_add_r by lia. ring. Qed.

Lemma zsum_digits n c B : (forall i, (i < n)%nat -> 0 <= c i <= 255 * B) -> 0 <= zsum n (fun i => c i * 256 ^ Z.of_nat i) <= B * (256 ^ Z.of_nat n - 1).
Proof.
  induction n as [|n IH]; intros H; [cbn; lia|]. cbn [zsum]. specialize (IH ltac:(intros; apply H; lia)). specialize (H n ltac:(lia)).
  rewrite Nat2Z.inj_succ, Z.pow_succ_r by lia. assert (0 < 256 ^ Z.of_nat n) by (apply Z.pow_pos_nonneg; lia). nia.
Qed.

Lemma zsum_swap m n (f : nat -> nat -> Z) : zsum m (fun i => zsum n (f i)) = zsum n (fun j => zsum m (fun i => f i j)).
Proof.
  induction m as [|m IH]; cbn [zsum]; [by rewrite zsum_zero|]. by rewrite IH, zsum_add.
Qed.

Lemma zsum_bound n f B : (forall i, (i < n)%nat -> 0 <= f i <= B) -> 0 <= zsum n f <= Z.of_nat n * B.
Proof. induction n as [|n IH]; intros H; cbn [zsum]; [lia|]. specialize (H n ltac:(lia)) as Hn. specialize (IH ltac:(intros; apply H; lia)). lia. Qed.

(** Conditional terms: those below [m] and the others. *)
Lemma zsum_weight n f w B : (forall i, (i < n)%nat -> 0 <= f i <= w i * B) -> 0 <= zsum n f <= zsum n w * B.
Proof. induction n as [|n IH]; intros H; cbn [zsum]; [lia|]. specialize (IH ltac:(intros; apply H; lia)). specialize (H n ltac:(lia)). lia. Qed.

Lemma zsum_eqm N n f g : (forall i, (i < n)%nat -> f i ≡ g i [mod N]) -> zsum n f ≡ zsum n g [mod N].
Proof. induction n as [|n IH]; intros H; cbn [zsum]; [done|]. by rewrite IH, (H n) by (intros; (apply H || idtac); lia). Qed.

Lemma zsum_below n m f g :
  (m <= n)%nat -> zsum n (fun j => if (j <? m)%nat then f j else g j) = zsum m f + zsum (n - m) (fun j => g (m + j)%nat).
Proof.
  intros Hm. replace n with (m + (n - m))%nat at 1 by lia. rewrite zsum_split. f_equal; apply zsum_ext; intros i Hi.
  - by rewrite (proj2 (Nat.ltb_lt _ _)) by lia.
  - by rewrite (proj2 (Nat.ltb_ge _ _)) by lia.
Qed.

(** ** Values of digits *)

Lemma le_val_zsum l : le_val l = zsum (length l) (fun i => nth i l 0 * 256 ^ Z.of_nat i).
Proof.
  induction l as [|x l IH]; [done|]. cbn [le_val length]. rewrite IH. change (S (length l)) with (1 + length l)%nat. rewrite zsum_split.
  rewrite <- zsum_scale. cbn [zsum nth]. rewrite Z.pow_0_r. f_equal; [lia|]. apply zsum_ext. intros i _.
  change (1 + i)%nat with (S i). rewrite Nat2Z.inj_succ, Z.pow_succ_r by lia. cbn [nth]. lia.
Qed.

Lemma le_val_map_seq (h : nat -> Z) n : le_val (map h (seq 0 n)) = zsum n (fun i => h i * 256 ^ Z.of_nat i).
Proof.
  rewrite le_val_zsum, length_map, length_seq. apply zsum_ext. intros i Hi. f_equal.
  rewrite (nth_indep _ 0 (h 0%nat)) by (by rewrite length_map, length_seq). by rewrite map_nth, seq_nth.
Qed.

Lemma le_val_zip_add a b : length a = length b -> le_val (zip_with Z.add a b) = le_val a + le_val b.
Proof. revert b. induction a as [|x a IH]; intros [|y b] H; try done. cbn [zip_with le_val]. rewrite IH by (by injection H). lia. Qed.

Lemma le_val_map_mul c a : le_val (map (Z.mul c) a) = c * le_val a.
Proof. induction a as [|x a IH]; cbn [map le_val]; [lia|]. rewrite IH. lia. Qed.

Lemma le_val_replicate_0 n : le_val (replicate n 0) = 0.
Proof. induction n as [|n IH]; [done|]. cbn [replicate le_val]. lia. Qed.

Lemma le_val_snoc l x : le_val (l ++ [x]) = le_val l + 256 ^ zlen l * x.
Proof. rewrite le_val_app. cbn [le_val]. rewrite Z.pow_mul_r by (pose proof (zlen_nonneg l); lia). change (2 ^ 8) with 256. lia. Qed.

(** [for (...) { u += t; out = u & 255; u >>= 8; }]: the digits and the last [u]. *)
Fixpoint carry_chain (u : Z) (ts : list Z) : list Z * Z :=
  match ts with
  | [] => ([], u)
  | t :: ts =>
      let u := u32 (u + t) in
      let '(out, u') := carry_chain (Z.shiftr u 8) ts in
      (Z.land u 255 :: out, u')
  end.

(** No sum overflows when the digits leave room for the carry. *)
Lemma carry_chain_room K ts : forall u,
  2 ^ 24 <= K -> Forall (fun t => 0 <= t < 2 ^ 32 - K) ts -> 0 <= u < K ->
  exists out u', carry_chain u ts = (out, u') /\ length out = length ts /\ Forall is_byte out /\ 0 <= u' < K /\
    le_val out + 256 ^ zlen ts * u' = u + le_val ts.
Proof.
  induction ts as [|t ts IH]; intros u HK Hts Hu; cbn [carry_chain].
  - exists [], u. split; [done|]. split; [done|]. split; [done|]. split; [done|]. change (256 ^ zlen []) with 1. cbn [le_val]. lia.
  - apply Forall_cons in Hts as [Ht Hts]. assert (Hs : u32 (u + t) = u + t) by (apply wrap_id; unfold in_range in *; lia). rewrite Hs.
    assert (Hd := Z.div_mod (u + t) 256 ltac:(lia)). assert (Hm := Z.mod_pos_bound (u + t) 256 ltac:(lia)).
    rewrite Z.shiftr_div_pow2 by lia. change (2 ^ 8) with 256. rewrite land_255. change (2 ^ 8) with 256.
    destruct (IH ((u + t) / 256)) as (out & u' & -> & Hl & Hb & Hu' & Hv); [done|done| |].
    { split; [apply Z.div_pos; lia|]. apply Z.div_lt_upper_bound; lia. }
    exists ((u + t) mod 256 :: out), u'. split; [done|]. split; [cbn; lia|]. split; [by constructor|]. split; [done|].
    cbn [le_val]. unfold zlen in *. cbn [length]. rewrite Nat2Z.inj_succ, Z.pow_succ_r by lia. nia.
Qed.

Lemma carry_chain_Ok ts u :
  Forall (in_range 31) ts -> in_range 31 u ->
  exists out u', carry_chain u ts = (out, u') /\ length out = length ts /\ Forall is_byte out /\ in_range 31 u' /\
    le_val out + 256 ^ zlen ts * u' = u + le_val ts.
Proof. intros Hts Hu. by apply (carry_chain_room (2 ^ 31)). Qed.

(** [u += t] in a loop over consecutive indices is a sum modulo 2^32. *)
Lemma fold_u32_sum (g h : nat -> Z) n : forall s u,
  in_range 32 u -> (forall j, g j ≡ h j [mod 2 ^ 32]) ->
  fold_left (fun u j => u32 (u + g j)) (seq s n) u = u32 (u + zsum n (fun i => h (s + i)%nat)).
Proof.
  induction n as [|n IH]; intros s u Hu Hg.
  - cbn [seq fold_left zsum]. rewrite Z.add_0_r. symmetry. by apply wrap_id.
  - rewrite seq_S, fold_left_app. cbn [fold_left zsum]. rewrite IH by done. apply eqm_iff; [done|]. unfold u32, wrap.
    rewrite eqm_mod by done. rewrite (Hg (s + n)%nat). by rewrite Z.add_assoc.
Qed.

(** ** Products *)

Lemma zsum_mul m n f g : zsum m f * zsum n g = zsum m (fun j => zsum n (fun i => f j * g i)).
Proof.
  induction m as [|m IH]; cbn [zsum]; [lia|]. rewrite <- IH, zsum_scale. lia.
Qed.

(** The product of two numbers of [n] digits, by columns: those below [n] and the others. *)
Lemma zsum_convolution n (a b : nat -> Z) (X : Z) :
  zsum n (fun j => a j * X ^ Z.of_nat j) * zsum n (fun i => b i * X ^ Z.of_nat i) =
  zsum n (fun k => zsum (S k) (fun j => a j * b (k - j)%nat) * X ^ Z.of_nat k) +
  X ^ Z.of_nat n * zsum n (fun k => zsum (n - S k) (fun j => a (S k + j)%nat * b (k + n - (S k + j))%nat) * X ^ Z.of_nat k).
Proof.
  rewrite zsum_mul.
  transitivity (zsum n (fun j => zsum n (fun k =>
    if (j <? S k)%nat then a j * b (k - j)%nat * X ^ Z.of_nat k else X ^ Z.of_nat n * (a j * b (k + n - j)%nat * X ^ Z.of_nat k)))).
  - apply zsum_ext. intros j Hj. symmetry.
    transitivity (zsum n (fun k => if (k <? j)%nat then X ^ Z.of_nat n * (a j * b (k + n - j)%nat * X ^ Z.of_nat k) else a j * b (k - j)%nat * X ^ Z.of_nat k)).
    { apply zsum_ext. intros k _. destruct (Nat.ltb_spec j (S k)), (Nat.ltb_spec k j); lia || done. }
    rewrite zsum_below by lia.
    assert (Hsp : forall f, zsum n f = zsum (n - j) f + zsum j (fun i => f (n - j + i)%nat)) by (intros f; rewrite <- zsum_split; f_equal; lia).
    rewrite Hsp, Z.add_comm. f_equal; apply zsum_ext; intros i Hi.
    + replace (j + i - j)%nat with i by lia. rewrite Nat2Z.inj_add, Z.pow_add_r by lia. ring.
    + replace (i + n - j)%nat with (n - j + i)%nat by lia. replace (X ^ Z.of_nat n) with (X ^ Z.of_nat j * X ^ Z.of_nat (n - j)).
      * rewrite Nat2Z.inj_add, Z.pow_add_r by lia. ring.
      * rewrite <- Z.pow_add_r by lia. f_equal. lia.
  - rewrite zsum_swap, <- zsum_scale, <- zsum_add. apply zsum_ext. intros k Hk. rewrite zsum_below by lia. f_equal.
    + rewrite Z.mul_comm, <- zsum_scale. apply zsum_ext. intros. ring.
    + rewrite (Z.mul_comm (zsum _ _)), Z.mul_assoc, <- zsum_scale. apply zsum_ext. intros. ring.
Qed.

(** A bit of a number from its bytes. *)
Lemma testbit_le_val l n :
  Forall is_byte l -> Z.testbit (le_val l) (Z.of_nat n) = Z.testbit (nth (n / 8) l 0) (Z.of_nat (n mod 8)).
Proof.
  intros Hl. revert n. induction Hl as [|x l Hx Hl IH]; intros n.
  - cbn [le_val]. rewrite Z.bits_0. by destruct (n / 8)%nat; rewrite ?Z.bits_0.
  - cbn [le_val]. assert (Hd : forall m, Z.testbit (x + 256 * le_val l) m = if m <? 8 then Z.testbit x m else Z.testbit (le_val l) (m - 8)).
    { intros m. destruct (Z.ltb_spec m 8).
      - rewrite <- (Z.mod_pow2_bits_low _ 8) by lia. replace (x + 256 * le_val l) with (x + le_val l * 2 ^ 8) by lia. rewrite Z.mod_add by done.
        by rewrite Z.mod_small.
      - replace m with (m - 8 + 8) at 1 by lia. rewrite <- Z.div_pow2_bits by lia. f_equal. unfold in_range in Hx.
        replace (x + 256 * le_val l) with (x + le_val l * 2 ^ 8) by lia. rewrite Z.div_add by done. rewrite Z.div_small; lia. }
    rewrite Hd. destruct (Z.ltb_spec (Z.of_nat n) 8).
    + rewrite Nat.div_small, Nat.mod_small by lia. done.
    + replace (Z.of_nat n - 8) with (Z.of_nat (n - 8)) by lia. rewrite IH. replace n with (n - 8 + 1 * 8)%nat at 3 4 by lia.
      rewrite Nat.div_add, Nat.Div0.mod_add by lia. by rewrite Nat.add_1_r.
Qed.

Lemma nth_byte l n : Forall is_byte l -> is_byte (nth n l 0).
Proof.
  intros Hl. destruct (decide (n < length l)%nat); [|by rewrite nth_overflow by lia]. rewrite Forall_nth in Hl. by apply Hl.
Qed.

Lemma bit_of_byte x i : is_byte x -> 0 <= i -> Z.land (Z.shiftr x i) 1 = if Z.testbit x i then 1 else 0.
Proof.
  intros Hx Hi. change 1 with (Z.ones 1) at 1. rewrite Z.land_ones, <- Z.bit0_mod by lia. rewrite Z.shiftr_spec by lia. rewrite Z.add_0_l.
  by destruct (Z.testbit x i).
Qed.

(** A statement about a byte, decided by evaluation for all of them. *)
Ltac byte_fact x Hx :=
  pattern x;
  lazymatch goal with |- ?Q x =>
    let H := fresh in
    assert (H : forallb (fun v => bool_decide (Q v)) all_bytes = true) by (vm_compute; reflexivity);
    exact (bool_decide_eq_true_1 _ (byte_forall _ H x Hx))
  end.

(** ** Products by nested loops *)

(** [t[k] += v] *)
Definition acc_at (t : list Z) (k : nat) (v : Z) : list Z := <[k := u32 (nth k t 0 + v)]> t.

(** [for (i..) for (j..) if (g) t[i+j] += f;] *)
Definition mul_row (g : nat -> bool) (f : nat -> Z) (i m : nat) (t : list Z) : list Z :=
  fold_left (fun t j => if g j then acc_at t (i + j) (u32 (f j)) else t) (seq 0 m) t.
Definition mul_acc (g : nat -> nat -> bool) (f : nat -> nat -> Z) (n m : nat) (t : list Z) : list Z :=
  fold_left (fun t i => mul_row (g i) (f i) i m t) (seq 0 n) t.

Lemma nth_insert (l : list Z) i j v : (j < length l)%nat -> nth i (<[j := v]> l) 0 = if (i =? j)%nat then v else nth i l 0.
Proof.
  intros Hj. rewrite !nth_lookup. destruct (Nat.eqb_spec i j) as [->|Hij]; [by rewrite list_lookup_insert_eq|by rewrite list_lookup_insert_ne].
Qed.

Lemma nth_repeat_0 k n : nth k (replicate n 0) 0 = 0.
Proof. revert k. induction n as [|n IH]; intros [|k]; cbn [replicate nth]; done. Qed.

Lemma mul_row_Ok g f i m t :
  Forall (in_range 32) t -> (forall j, (j < m)%nat -> g j = true -> (i + j < length t)%nat) ->
  length (mul_row g f i m t) = length t /\ Forall (in_range 32) (mul_row g f i m t) /\
  forall k, nth k (mul_row g f i m t) 0 = u32 (nth k t 0 + zsum m (fun j => if g j && (i + j =? k)%nat then f j else 0)).
Proof.
  intros Ht Hg. unfold mul_row. induction m as [|m IH].
  - cbn [seq fold_left zsum]. split; [done|]. split; [done|]. intros k. rewrite Z.add_0_r. symmetry. apply u32_id.
    destruct (decide (k < length t)%nat); [|by rewrite nth_overflow by lia]. rewrite Forall_nth in Ht. by apply Ht.
  - rewrite seq_S, fold_left_app. cbn [fold_left]. destruct IH as (Hl & Hr & Hn); [intros; apply Hg; lia || done|]. cbn [zsum]. rewrite Nat.add_0_l.
    set (t' := fold_left _ _ t) in *. destruct (g m) eqn:Egm; cbn [andb].
    + specialize (Hg m ltac:(lia) Egm). unfold acc_at. rewrite length_insert. split; [done|]. split.
      { apply Forall_insert; [done|]. by apply wrap_range. }
      intros k. rewrite nth_insert by lia. destruct (Nat.eqb_spec k (i + m)) as [->|Hk]; rewrite Hn.
      * rewrite Nat.eqb_refl. unfold u32, wrap. apply eqm_iff; [done|]. rewrite !eqm_mod by done. by rewrite Z.add_assoc.
      * rewrite (proj2 (Nat.eqb_neq _ _)) by lia. by rewrite Z.add_0_r.
    + split; [done|]. split; [done|]. intros k. by rewrite Hn, Z.add_0_r.
Qed.

(** The column [k]. *)
Definition acc_column (g : nat -> nat -> bool) (f : nat -> nat -> Z) (n m k : nat) : Z :=
  zsum n (fun i => zsum m (fun j => if g i j && (i + j =? k)%nat then f i j else 0)).

Lemma mul_acc_Ok g f n m t :
  Forall (in_range 32) t -> (forall i j, (i < n)%nat -> (j < m)%nat -> g i j = true -> (i + j < length t)%nat) ->
  length (mul_acc g f n m t) = length t /\ Forall (in_range 32) (mul_acc g f n m t) /\
  forall k, nth k (mul_acc g f n m t) 0 = u32 (nth k t 0 + acc_column g f n m k).
Proof.
  intros Ht Hg. unfold mul_acc, acc_column. induction n as [|n IH].
  - apply (mul_row_Ok (fun _ => false) (fun _ => 0) 0 0 t Ht). done.
  - rewrite seq_S, fold_left_app. cbn [fold_left]. destruct IH as (Hl & Hr & Hn); [intros; apply Hg; lia || done|]. rewrite Nat.add_0_l.
    set (t' := fold_left _ _ t) in *. destruct (mul_row_Ok (g n) (f n) n m t' Hr) as (Hl' & Hr' & Hn').
    { intros j Hj Hgj. rewrite Hl. apply Hg; [lia|done|done]. }
    split; [lia|]. split; [done|]. intros k. rewrite Hn', Hn. cbn [zsum]. unfold u32, wrap. apply eqm_iff; [done|]. rewrite eqm_mod by done.
    by rewrite Z.add_assoc.
Qed.

(** Each row has at most one entry in a column. *)
Lemma zsum_pick (g : nat -> bool) (f : nat -> Z) m i k :
  zsum m (fun j => if g j && (i + j =? k)%nat then f j else 0) =
  if (i <=? k)%nat && (k - i <? m)%nat && g (k - i)%nat then f (k - i)%nat else 0.
Proof.
  induction m as [|m IH]; cbn [zsum]; [by rewrite andb_false_r|]. rewrite IH. clear IH.
  destruct (Nat.eqb_spec (i + m) k) as [<-|Hn]; [replace (i + m - i)%nat with m by lia|];
    repeat match goal with |- context [(?a <=? ?b)%nat] => destruct (Nat.leb_spec a b) | |- context [(?a <? ?b)%nat] => destruct (Nat.ltb_spec a b) end;
    rewrite ?andb_true_r, ?andb_false_r; cbn [andb]; try lia; by destruct (g _).
Qed.

Lemma acc_column_rows g f n m k :
  acc_column g f n m k = zsum n (fun i => if (i <=? k)%nat && (k - i <? m)%nat && g i (k - i)%nat then f i (k - i)%nat else 0).
Proof. apply zsum_ext. intros i _. apply zsum_pick. Qed.

(** The columns together. *)
Lemma acc_columns_val g f n m N X :
  (forall i j, (i < n)%nat -> (j < m)%nat -> g i j = true -> (i + j < N)%nat) ->
  zsum N (fun k => acc_column g f n m k * X ^ Z.of_nat k) =
  zsum n (fun i => zsum m (fun j => if g i j then f i j * X ^ Z.of_nat (i + j) else 0)).
Proof.
  intros Hg. unfold acc_column.
  transitivity (zsum N (fun k => zsum n (fun i => zsum m (fun j => (if g i j && (i + j =? k)%nat then f i j else 0) * X ^ Z.of_nat k)))).
  { apply zsum_ext. intros k _. rewrite Z.mul_comm, <- zsum_scale. apply zsum_ext. intros i _. rewrite <- zsum_scale. apply zsum_ext. intros. lia. }
  rewrite zsum_swap. apply zsum_ext. intros i Hi. rewrite zsum_swap. apply zsum_ext. intros j Hj. destruct (g i j) eqn:Eg; cbn [andb].
  - specialize (Hg i j Hi Hj Eg). replace N with (i + j + (1 + (N - (i + j) - 1)))%nat by lia. rewrite (zsum_split (i + j)), (zsum_split 1). cbn [zsum].
    erewrite (zsum_ext (i + j)), zsum_zero; [|intros k Hk; cbv beta; rewrite (proj2 (Nat.eqb_neq _ _)) by lia; apply Z.mul_0_l].
    erewrite (zsum_ext (N - (i + j) - 1)), zsum_zero; [|intros k Hk; cbv beta; rewrite (proj2 (Nat.eqb_neq _ _)) by lia; apply Z.mul_0_l].
    rewrite Nat.add_0_r, Nat.eqb_refl. lia.
  - erewrite zsum_ext, zsum_zero; [done|]. intros. apply Z.mul_0_l.
Qed.

(** An array as its entries. *)
Lemma map_nth_seq (l : list Z) n : length l = n -> l = map (fun i => nth i l 0) (seq 0 n).
Proof.
  intros <-. induction l as [|x l IH]; [done|]. cbn [length seq map nth]. f_equal. rewrite IH at 1. by rewrite <- seq_shift, map_map.
Qed.

Lemma zip_with_map_seq (f : Z -> Z -> Z) (g h : nat -> Z) s : zip_with f (map g s) (map h s) = map (fun i => f (g i) (h i)) s.
Proof. induction s as [|i s IH]; [done|]. cbn [map zip_with]. by rewrite IH. Qed.

(** A masked exclusive or keeps the first array or takes the second. *)
Lemma zip_mask_none a b : length a = length b -> zip_with (fun x o => Z.lxor x (Z.land 0 (Z.lxor o x))) a b = a.
Proof. revert b. induction a as [|x a IH]; intros [|y b] H; try done. cbn [zip_with]. rewrite Z.land_0_l, Z.lxor_0_r, IH by (by injection H). done. Qed.

Lemma zip_mask_all a b :
  length a = length b -> Forall (in_range 32) a -> Forall (in_range 32) b ->
  zip_with (fun x o => Z.lxor x (Z.land (Z.ones 32) (Z.lxor o x))) a b = b.
Proof.
  intros Hl Ha. revert b Hl. induction Ha as [|x a Hx Ha IH]; intros [|y b] Hl Hb; try done. apply Forall_cons in Hb as [Hy Hb]. cbn [zip_with].
  rewrite IH by (done || by injection Hl). f_equal. assert (Hxy : in_range 32 (Z.lxor y x)) by (apply in_range_lxor; done || lia).
  rewrite (Z.land_comm (Z.ones 32)), Z.land_ones, Z.mod_small by (done || lia). by rewrite (Z.lxor_comm y x), <- Z.lxor_assoc, Z.lxor_nilpotent, Z.lxor_0_l.
Qed.

(** From an array of zeros, with columns that fit: the columns. *)
Lemma mul_acc_exact g f n m N :
  (forall i j, (i < n)%nat -> (j < m)%nat -> g i j = true -> (i + j < N)%nat) ->
  (forall k, 0 <= acc_column g f n m k < 2 ^ 32) ->
  length (mul_acc g f n m (replicate N 0)) = N /\ forall k, nth k (mul_acc g f n m (replicate N 0)) 0 = acc_column g f n m k.
Proof.
  intros Hg Hc. destruct (mul_acc_Ok g f n m (replicate N 0)) as (Hl & _ & Hn); [by apply Forall_replicate|by rewrite length_replicate|].
  rewrite length_replicate in Hl. split; [done|]. intros k. rewrite Hn, nth_repeat_0, Z.add_0_l. apply u32_id, Hc.
Qed.
