(* ===== verification/RingBuffer.v ===== *)
(** * The ring buffer of the stack drivers (libzt/src/RingBuffer.cpp)

    The state is the C++ object field by field; [size_t] arithmetic wraps at 64
    bits.  The abstract specification is a byte queue of bounded capacity, and
    every operation refines the queue operation of the same name. *)

From S2P Require Import Prelude.

(** [size_t] of the supported 64-bit targets. *)
Definition size_t (z : Z) : Z := u64 z.

Record RingBuffer : Type := mkRingBuffer {
  rb_buf : list Z;
  rb_size : Z;
  rb_begin : Z;
  rb_end : Z;
  rb_wrap : bool
}.

(** The constructor; [new bufElementType[size]] gives indeterminate bytes, which
    are the argument [garbage]. *)
Definition RingBuffer_new (size : Z) (garbage : list Z) : RingBuffer :=
  mkRingBuffer garbage size 0 0 false.

Definition RingBuffer_count (rb : RingBuffer) : Z :=
  if rb_end rb =? rb_begin rb then (if rb_wrap rb then rb_size rb else 0)
  else if rb_begin rb <? rb_end rb then size_t (rb_end rb - rb_begin rb)
  else size_t (size_t (rb_size rb + rb_end rb) - rb_begin rb).

Definition RingBuffer_getFree (rb : RingBuffer) : Z :=
  size_t (rb_size rb - RingBuffer_count rb).

(** [end = (end + chunk) % size]; [%] by zero is undefined. *)
Definition advance (pos chunk size : Z) : outcome Z :=
  if size =? 0 then Undef else Ok (size_t (pos + chunk) mod size).

Definition RingBuffer_produce (rb : RingBuffer) (n0 : Z) : outcome (RingBuffer * Z) :=
  let n := Z.min n0 (RingBuffer_getFree rb) in
  if n =? 0 then Ok (rb, n) else
  let first_chunk := Z.min n (size_t (rb_size rb - rb_end rb)) in
  end1 ← advance (rb_end rb) first_chunk (rb_size rb);
  end2 ← (if first_chunk <? n
          then advance end1 (size_t (n - first_chunk)) (rb_size rb)
          else Ok end1);
  let wrap' := if rb_begin rb =? end2 then true else rb_wrap rb in
  Ok (mkRingBuffer (rb_buf rb) (rb_size rb) (rb_begin rb) end2 wrap', n).

Definition RingBuffer_consume (rb : RingBuffer) (n0 : Z) : outcome (RingBuffer * Z) :=
  let n := Z.min n0 (RingBuffer_count rb) in
  if n =? 0 then Ok (rb, n) else
  let first_chunk := Z.min n (size_t (rb_size rb - rb_begin rb)) in
  begin1 ← advance (rb_begin rb) first_chunk (rb_size rb);
  begin2 ← (if first_chunk <? n
            then advance begin1 (size_t (n - first_chunk)) (rb_size rb)
            else Ok begin1);
  Ok (mkRingBuffer (rb_buf rb) (rb_size rb) begin2 (rb_end rb) false, n).

Definition RingBuffer_reset (rb : RingBuffer) : outcome RingBuffer :=
  fst <$> RingBuffer_consume rb (RingBuffer_count rb).

Definition RingBuffer_write (rb : RingBuffer) (data : list Z) (n0 : Z)
  : outcome (RingBuffer * Z) :=
  let n := Z.min n0 (RingBuffer_getFree rb) in
  if n =? 0 then Ok (rb, n) else
  let first_chunk := Z.min n (size_t (rb_size rb - rb_end rb)) in
  d1 ← mem_read data 0 first_chunk;
  buf1 ← mem_write (rb_buf rb) (rb_end rb) d1;
  end1 ← advance (rb_end rb) first_chunk (rb_size rb);
  '(buf2, end2) ←
    (if first_chunk <? n then
       let second_chunk := size_t (n - first_chunk) in
       d2 ← mem_read data first_chunk second_chunk;
       b ← mem_write buf1 end1 d2;
       e ← advance end1 second_chunk (rb_size rb);
       Ok (b, e)
     else Ok (buf1, end1));
  let wrap' := if rb_begin rb =? end2 then true else rb_wrap rb in
  Ok (mkRingBuffer buf2 (rb_size rb) (rb_begin rb) end2 wrap', n).

(** The bytes stored through [dest] are returned with the new state. *)
Definition RingBuffer_read (rb : RingBuffer) (n0 : Z)
  : outcome (RingBuffer * list Z * Z) :=
  let n := Z.min n0 (RingBuffer_count rb) in
  if n =? 0 then Ok (rb, [], n) else
  let first_chunk := Z.min n (size_t (rb_size rb - rb_begin rb)) in
  d1 ← mem_read (rb_buf rb) (rb_begin rb) first_chunk;
  begin1 ← advance (rb_begin rb) first_chunk (rb_size rb);
  '(d2, begin2) ←
    (if first_chunk <? n then
       let second_chunk := size_t (n - first_chunk) in
       d ← mem_read (rb_buf rb) begin1 second_chunk;
       b ← advance begin1 second_chunk (rb_size rb);
       Ok (d, b)
     else Ok ([], begin1));
  Ok (mkRingBuffer (rb_buf rb) (rb_size rb) begin2 (rb_end rb) false, d1 ++ d2, n).

(** [get_buf]: the pointer is an offset into [rb_buf]. *)
Definition RingBuffer_get_buf (rb : RingBuffer) : Z := rb_begin rb.

(** ** Well-formedness and the abstract queue *)

Record rb_wf (rb : RingBuffer) : Prop := {
  wf_buf : zlen (rb_buf rb) = rb_size rb;
  wf_size : rb_size rb < 2 ^ 64;
  wf_begin : 0 <= rb_begin rb;
  wf_end : 0 <= rb_end rb;
  wf_begin_lt : rb_size rb = 0 \/ rb_begin rb < rb_size rb;
  wf_end_lt : rb_size rb = 0 \/ rb_end rb < rb_size rb;
  wf_zero : rb_size rb = 0 -> rb_begin rb = 0 /\ rb_end rb = 0;
  wf_wrap : rb_wrap rb = true -> rb_begin rb = rb_end rb
}.

(** The bytes in the buffer in the order they will be read. *)
Definition rb_contents (rb : RingBuffer) : list Z :=
  slice (rb_begin rb) (RingBuffer_count rb) (rb_buf rb ++ rb_buf rb).

(** The specification: a queue of at most [cap] bytes. *)
Module Queue.
Record t := mk { cap : Z; bytes : list Z }.
Definition room (q : t) : Z := cap q - zlen (bytes q).
Definition push (q : t) (data : list Z) (n : Z) : t * Z :=
  let m := Z.min n (room q) in (mk (cap q) (bytes q ++ ztake m data), m).
Definition pop (q : t) (n : Z) : t * list Z * Z :=
  let m := Z.min n (zlen (bytes q)) in
  (mk (cap q) (zdrop m (bytes q)), ztake m (bytes q), m).
End Queue.

(** Abstraction relation. *)
Definition rb_abs (rb : RingBuffer) : Queue.t :=
  Queue.mk (rb_size rb) (rb_contents rb).

(** ** Arithmetic of the indices *)

Lemma size_t_id z : 0 <= z < 2 ^ 64 -> size_t z = z.
Proof. intros. apply wrap_id. done. Qed.

Lemma advance_Ok pos chunk size :
  0 < size < 2 ^ 64 -> 0 <= pos < size -> 0 <= chunk <= size - pos ->
  advance pos chunk size = Ok (if pos + chunk =? size then 0 else pos + chunk).
Proof.
  intros. unfold advance. rewrite (proj2 (Z.eqb_neq size 0)) by lia.
  rewrite size_t_id by lia. f_equal.
  destruct (Z.eqb_spec (pos + chunk) size) as [->|].
  - apply Z.mod_same. lia.
  - apply Z.mod_small. lia.
Qed.

Section Wf.
Context (rb : RingBuffer) (Hwf : rb_wf rb).

Lemma rb_size_nonneg : 0 <= rb_size rb.
Proof. destruct Hwf. rewrite <- wf_buf0. apply zlen_nonneg. Qed.

Lemma rb_count_spec :
  RingBuffer_count rb =
  if rb_end rb =? rb_begin rb then (if rb_wrap rb then rb_size rb else 0)
  else if rb_begin rb <? rb_end rb then rb_end rb - rb_begin rb
  else rb_size rb + rb_end rb - rb_begin rb.
Proof.
  pose proof rb_size_nonneg. destruct Hwf. unfold RingBuffer_count.
  destruct (Z.eqb_spec (rb_end rb) (rb_begin rb)); [done|].
  destruct (Z.ltb_spec (rb_begin rb) (rb_end rb)).
  - apply size_t_id. lia.
  - unfold size_t, u64, wrap. rewrite Zminus_mod_idemp_l. apply Z.mod_small. lia.
Qed.

Lemma rb_count_bounds : 0 <= RingBuffer_count rb <= rb_size rb.
Proof.
  pose proof rb_size_nonneg. rewrite rb_count_spec. destruct Hwf.
  destruct (Z.eqb_spec (rb_end rb) (rb_begin rb)); [destruct (rb_wrap rb); lia|].
  destruct (Z.ltb_spec (rb_begin rb) (rb_end rb)); lia.
Qed.

Lemma rb_getFree_spec : RingBuffer_getFree rb = rb_size rb - RingBuffer_count rb.
Proof.
  pose proof rb_count_bounds. destruct Hwf. apply size_t_id. lia.
Qed.

Lemma zlen_rb_contents : zlen (rb_contents rb) = RingBuffer_count rb.
Proof.
  pose proof rb_count_bounds. destruct Hwf. apply zlen_slice; [lia..|].
  rewrite zlen_app. lia.
Qed.

End Wf.

(** ** Lemmas on reachable shapes *)

Section Shapes.
Context (rb : RingBuffer) (Hwf : rb_wf rb).

(** [end] is [count] positions after [begin], modulo [size]. *)
Lemma rb_end_spec :
  rb_begin rb + RingBuffer_count rb = rb_end rb \/
  rb_begin rb + RingBuffer_count rb = rb_end rb + rb_size rb.
Proof.
  pose proof (rb_size_nonneg rb Hwf). rewrite rb_count_spec by done. destruct Hwf.
  destruct (Z.eqb_spec (rb_end rb) (rb_begin rb)); [destruct (rb_wrap rb); lia|].
  destruct (Z.ltb_spec (rb_begin rb) (rb_end rb)); lia.
Qed.

(** The [k]-th byte to be read. *)
Lemma zget_rb_contents k :
  0 <= k < RingBuffer_count rb ->
  zget (rb_contents rb) k =
  zget (rb_buf rb)
    (if rb_begin rb + k <? rb_size rb then rb_begin rb + k
     else rb_begin rb + k - rb_size rb).
Proof.
  intros Hk. pose proof (rb_count_bounds rb Hwf). destruct Hwf.
  unfold rb_contents. rewrite zget_slice, zget_app, wf_buf0 by lia.
  by destruct (Z.ltb_spec (rb_begin rb + k) (rb_size rb)).
Qed.

End Shapes.

Create HintDb rb.
#[export] Hint Resolve rb_size_nonneg rb_count_bounds rb_end_spec : rb.

(** A buffer whose [end] moved [n] positions forward holds [n] bytes more. *)
Lemma rb_count_after rb buf' end' n :
  rb_wf rb -> 0 < n <= rb_size rb - RingBuffer_count rb ->
  (end' = rb_end rb + n /\ end' < rb_size rb \/ end' = rb_end rb + n - rb_size rb /\ 0 <= end') ->
  zlen buf' = rb_size rb ->
  let rb' := mkRingBuffer buf' (rb_size rb) (rb_begin rb) end'
               (if rb_begin rb =? end' then true else rb_wrap rb) in
  rb_wf rb' /\ RingBuffer_count rb' = RingBuffer_count rb + n.
Proof.
  intros Hwf Hn He Hb rb'.
  pose proof (rb_count_bounds rb Hwf). pose proof (rb_end_spec rb Hwf).
  pose proof (rb_count_spec rb Hwf) as Hc. destruct Hwf.
  assert (Hwf' : rb_wf rb').
  { split; cbn; try lia.
    destruct (Z.eqb_spec (rb_begin rb) end'); [lia|].
    intros Hw. rewrite Hw in Hc. specialize (wf_wrap0 Hw).
    rewrite (proj2 (Z.eqb_eq _ _)) in Hc by lia. lia. }
  split; [done|]. rewrite rb_count_spec by done. cbn.
  destruct (Z.eqb_spec end' (rb_begin rb)) as [->|].
  - rewrite Z.eqb_refl. lia.
  - destruct (Z.ltb_spec (rb_begin rb) end'); lia.
Qed.

(** A buffer whose [begin] moved [n] positions forward holds [n] bytes fewer. *)
Lemma rb_count_before rb begin' n :
  rb_wf rb -> 0 < n <= RingBuffer_count rb ->
  (begin' = rb_begin rb + n /\ begin' < rb_size rb \/
   begin' = rb_begin rb + n - rb_size rb /\ 0 <= begin') ->
  let rb' := mkRingBuffer (rb_buf rb) (rb_size rb) begin' (rb_end rb) false in
  rb_wf rb' /\ RingBuffer_count rb' = RingBuffer_count rb - n.
Proof.
  intros Hwf Hn He rb'.
  pose proof (rb_count_bounds rb Hwf). pose proof (rb_end_spec rb Hwf). destruct Hwf.
  assert (Hwf' : rb_wf rb') by (split; cbn; lia || done).
  split; [done|]. rewrite rb_count_spec by done. cbn.
  destruct (Z.eqb_spec (rb_end rb) begin') as [<-|].
  - lia.
  - destruct (Z.ltb_spec begin' (rb_end rb)); lia.
Qed.

(** Dropping [n] bytes from the front. *)
Lemma rb_contents_before rb begin' n :
  rb_wf rb -> 0 < n <= RingBuffer_count rb ->
  (begin' = rb_begin rb + n /\ begin' < rb_size rb \/
   begin' = rb_begin rb + n - rb_size rb /\ 0 <= begin') ->
  rb_contents (mkRingBuffer (rb_buf rb) (rb_size rb) begin' (rb_end rb) false)
  = zdrop n (rb_contents rb).
Proof.
  intros Hwf Hn He. destruct (rb_count_before rb begin' n Hwf Hn He) as [Hwf' Hc].
  pose proof (rb_count_bounds rb Hwf).
  assert (Hl : zlen (rb_contents rb) = RingBuffer_count rb) by (by apply zlen_rb_contents).
  apply zget_ext.
  - rewrite zlen_rb_contents, Hc, zlen_zdrop by (done || lia). lia.
  - intros k Hk. rewrite zlen_rb_contents, Hc in Hk by done.
    rewrite zget_zdrop, !zget_rb_contents by (done || lia). cbn. f_equal.
    destruct Hwf.
    destruct (Z.ltb_spec (begin' + k) (rb_size rb)),
      (Z.ltb_spec (rb_begin rb + (n + k)) (rb_size rb)); lia.
Qed.

(** ** Refinement of the queue *)

(** The state [write] leaves, in closed form: the bytes go to [end], [end + 1],
    ... and continue at offset 0. *)
Lemma RingBuffer_write_Ok rb data n0 :
  rb_wf rb -> 0 <= n0 <= zlen data ->
  let n := Z.min n0 (rb_size rb - RingBuffer_count rb) in
  exists rb', RingBuffer_write rb data n0 = Ok (rb', n) /\
    rb_size rb' = rb_size rb /\ rb_wf rb' /\
    RingBuffer_count rb' = RingBuffer_count rb + n /\
    rb_begin rb' = rb_begin rb /\
    (forall i, 0 <= i < rb_size rb ->
       zget (rb_buf rb') i =
       if (rb_end rb <=? i) && (i <? rb_end rb + n) then zget data (i - rb_end rb)
       else if i <? rb_end rb + n - rb_size rb then zget data (i + rb_size rb - rb_end rb)
       else zget (rb_buf rb) i).
Proof.
  intros Hwf Hn0 n. pose proof (rb_count_bounds rb Hwf) as Hcb.
  pose proof (rb_end_spec rb Hwf). unfold RingBuffer_write.
  rewrite rb_getFree_spec by done. fold n.
  destruct (Z.eqb_spec n 0) as [Hz|Hz].
  { exists rb. rewrite Hz. split_and!; try done; [lia|]. intros i Hi. destruct Hwf.
    destruct (Z.leb_spec (rb_end rb) i), (Z.ltb_spec i (rb_end rb + 0)),
      (Z.ltb_spec i (rb_end rb + 0 - rb_size rb)); cbn; done || lia. }
  assert (Hn : 0 < n <= rb_size rb - RingBuffer_count rb) by lia.
  assert (n <= zlen data) by lia. clearbody n.
  pose proof Hwf as []. rewrite size_t_id by lia.
  rewrite (mem_read_Ok data 0), outcome_bind_Ok_l by lia.
  assert (Hl : zlen (slice 0 (Z.min n (rb_size rb - rb_end rb)) data)
               = Z.min n (rb_size rb - rb_end rb)) by (apply zlen_slice; lia).
  destruct (mem_write (rb_buf rb) (rb_end rb) (slice 0 (Z.min n (rb_size rb - rb_end rb)) data))
    as [buf1| |] eqn:Hw1; [|rewrite mem_write_Ok in Hw1 by lia; done..].
  rewrite outcome_bind_Ok_l, advance_Ok, outcome_bind_Ok_l by lia.
  pose proof (zlen_mem_write _ _ _ _ Hw1) as Hb1.
  destruct (Z.ltb_spec (Z.min n (rb_size rb - rb_end rb)) n) as [Hlt|Hge].
  - rewrite Z.min_r in * by lia. rewrite size_t_id by lia.
    replace (rb_end rb + (rb_size rb - rb_end rb)) with (rb_size rb) in * by lia.
    rewrite Z.eqb_refl. rewrite mem_read_Ok, outcome_bind_Ok_l by lia.
    set (d2 := slice (rb_size rb - rb_end rb) (n - (rb_size rb - rb_end rb)) data) in *.
    assert (Hl2 : zlen d2 = n - (rb_size rb - rb_end rb)) by (apply zlen_slice; lia).
    destruct (mem_write buf1 0 d2) as [buf2| |] eqn:Hw2;
      [|rewrite mem_write_Ok in Hw2 by lia; done..].
    rewrite outcome_bind_Ok_l, advance_Ok, outcome_bind_Ok_l by lia.
    rewrite (proj2 (Z.eqb_neq _ _)) by lia. cbn.
    destruct (rb_count_after rb buf2 (n - (rb_size rb - rb_end rb)) n) as [Hwf' Hc'];
      [done|lia|lia|rewrite (zlen_mem_write _ _ _ _ Hw2); lia|].
    eexists; split; [reflexivity|]. split_and!; try done.
    cbn. intros i Hi. rewrite (zget_mem_write _ _ _ _ i Hw2), Hl2.
    rewrite (zget_mem_write _ _ _ _ i Hw1), Hl.
    destruct (Z.leb_spec 0 i), (Z.ltb_spec i (0 + (n - (rb_size rb - rb_end rb)))),
      (Z.leb_spec (rb_end rb) i), (Z.ltb_spec i (rb_end rb + n)),
      (Z.ltb_spec i (rb_end rb + n - rb_size rb)),
      (Z.ltb_spec i (rb_end rb + (rb_size rb - rb_end rb))); cbn; try lia; try done.
    + unfold d2. rewrite zget_slice by lia. f_equal. lia.
    + rewrite zget_slice by lia. done.
  - assert (n <= rb_size rb - rb_end rb) by lia.
    rewrite Z.min_l in * by lia. rewrite outcome_bind_Ok_l.
    destruct (rb_count_after rb buf1
      (if rb_end rb + n =? rb_size rb then 0 else rb_end rb + n) n) as [Hwf' Hc'];
      [done|lia|destruct (Z.eqb_spec (rb_end rb + n) (rb_size rb)); lia|lia|].
    eexists; split; [reflexivity|]. split_and!; try done.
    cbn. intros i Hi. rewrite (zget_mem_write _ _ _ _ i Hw1), Hl.
    destruct (Z.leb_spec (rb_end rb) i), (Z.ltb_spec i (rb_end rb + n)),
      (Z.ltb_spec i (rb_end rb + n - rb_size rb)); cbn; try lia; try done.
    rewrite zget_slice by lia. done.
Qed.

(** The two-step index update of [produce], [consume] and [read]. *)
Lemma advance2 {B} pos n size (k : Z -> outcome B) :
  0 < size < 2 ^ 64 -> 0 <= pos < size -> 0 < n <= size ->
  let first := Z.min n (size_t (size - pos)) in
  exists pos', (pos' = pos + n /\ pos' < size \/ pos' = pos + n - size /\ 0 <= pos') /\
    (p1 ← advance pos first size;
     p2 ← (if first <? n then advance p1 (size_t (n - first)) size else Ok p1);
     k p2) = k pos'.
Proof.
  intros Hs Hp Hn. cbv zeta. rewrite size_t_id by lia.
  rewrite (advance_Ok pos) by lia. rewrite outcome_bind_Ok_l.
  destruct (Z.ltb_spec (Z.min n (size - pos)) n).
  - rewrite Z.min_r by lia. replace (pos + (size - pos)) with size by lia.
    rewrite Z.eqb_refl, size_t_id, advance_Ok by lia.
    exists (pos + n - size). split; [lia|].
    cbn. f_equal. rewrite (proj2 (Z.eqb_neq _ _)) by lia. lia.
  - rewrite Z.min_l by lia.
    exists (if pos + n =? size then 0 else pos + n). split; [|done].
    destruct (Z.eqb_spec (pos + n) size); lia.
Qed.

Lemma rb_wf_pos rb : rb_wf rb -> 0 < rb_size rb ->
  rb_begin rb < rb_size rb /\ rb_end rb < rb_size rb.
Proof. intros []. lia. Qed.

Lemma RingBuffer_consume_Ok rb n0 :
  rb_wf rb -> 0 <= n0 ->
  let n := Z.min n0 (RingBuffer_count rb) in
  exists rb', RingBuffer_consume rb n0 = Ok (rb', n) /\ rb_wf rb' /\
    rb_size rb' = rb_size rb /\ rb_contents rb' = zdrop n (rb_contents rb).
Proof.
  intros Hwf Hn0. cbv zeta. pose proof (rb_count_bounds rb Hwf) as Hcb.
  unfold RingBuffer_consume. cbv zeta.
  destruct (Z.eqb_spec (Z.min n0 (RingBuffer_count rb)) 0) as [Hz|Hz].
  { exists rb. by rewrite Hz. }
  pose proof (rb_wf_pos rb Hwf ltac:(lia)). pose proof Hwf as [].
  destruct (advance2 (rb_begin rb) (Z.min n0 (RingBuffer_count rb)) (rb_size rb)
    (fun b => Ok (mkRingBuffer (rb_buf rb) (rb_size rb) b (rb_end rb) false,
                  Z.min n0 (RingBuffer_count rb)))) as (b & Hb & ->); [lia..|].
  eexists; split; [reflexivity|]. split_and!; [|done|].
  - apply rb_count_before with (n := Z.min n0 (RingBuffer_count rb)); [done|lia..].
  - apply rb_contents_before; [done|lia..].
Qed.

(** [read] hands out what [consume] skips. *)
Lemma RingBuffer_read_Ok rb n0 :
  rb_wf rb -> 0 <= n0 ->
  let n := Z.min n0 (RingBuffer_count rb) in
  exists rb', RingBuffer_read rb n0 = Ok (rb', ztake n (rb_contents rb), n) /\
    RingBuffer_consume rb n0 = Ok (rb', n).
Proof.
  intros Hwf Hn0. cbv zeta. pose proof (rb_count_bounds rb Hwf) as Hcb.
  unfold RingBuffer_read, RingBuffer_consume. cbv zeta.
  destruct (Z.eqb_spec (Z.min n0 (RingBuffer_count rb)) 0) as [Hz|Hz].
  { exists rb. by rewrite Hz. }
  assert (Hn : 0 < Z.min n0 (RingBuffer_count rb) <= RingBuffer_count rb) by lia.
  set (n := Z.min n0 (RingBuffer_count rb)) in *. clearbody n.
  pose proof (rb_wf_pos rb Hwf ltac:(lia)). pose proof Hwf as [].
  assert (Hc : ztake n (rb_contents rb) = slice (rb_begin rb) n (rb_buf rb ++ rb_buf rb)).
  { unfold rb_contents, slice. apply ztake_ztake. lia. }
  rewrite Hc, size_t_id by lia.
  rewrite (mem_read_Ok (rb_buf rb) (rb_begin rb)), outcome_bind_Ok_l by lia.
  rewrite (advance_Ok (rb_begin rb)), !outcome_bind_Ok_l by lia.
  destruct (Z.ltb_spec (Z.min n (rb_size rb - rb_begin rb)) n).
  - rewrite Z.min_r by lia.
    replace (rb_begin rb + (rb_size rb - rb_begin rb)) with (rb_size rb) by lia.
    rewrite Z.eqb_refl, size_t_id by lia.
    rewrite (mem_read_Ok (rb_buf rb) 0), !outcome_bind_Ok_l, advance_Ok by lia.
    eexists; split; [|reflexivity]. cbn. do 3 f_equal.
    rewrite (slice_split (rb_begin rb) (rb_size rb - rb_begin rb) n), slice_app_l by lia.
    f_equal. rewrite slice_app_r by lia. f_equal. lia.
  - rewrite Z.min_l by lia. eexists; split; [|reflexivity].
    cbn. do 3 f_equal. rewrite app_nil_r, slice_app_l by lia. done.
Qed.

Lemma RingBuffer_write_contents rb data n0 :
  rb_wf rb -> 0 <= n0 <= zlen data ->
  let n := Z.min n0 (rb_size rb - RingBuffer_count rb) in
  exists rb', RingBuffer_write rb data n0 = Ok (rb', n) /\ rb_wf rb' /\
    rb_size rb' = rb_size rb /\ rb_contents rb' = rb_contents rb ++ ztake n data.
Proof.
  intros Hwf Hn0 n.
  destruct (RingBuffer_write_Ok rb data n0 Hwf Hn0) as (rb' & Hw & Hs & Hwf' & Hc & Hb & Hbuf).
  fold n in Hw, Hc, Hbuf.
  exists rb'. split_and!; try done.
  pose proof (rb_count_bounds rb Hwf). pose proof (rb_end_spec rb Hwf).
  assert (0 <= n <= n0) by lia.
  assert (Hln : zlen (ztake n data) = n) by (apply zlen_ztake; lia).
  assert (Hlc : zlen (rb_contents rb) = RingBuffer_count rb) by (by apply zlen_rb_contents).
  assert (n <= rb_size rb - RingBuffer_count rb) by lia. clearbody n.
  apply zget_ext.
  { rewrite zlen_rb_contents, zlen_app by done. lia. }
  intros k Hk. rewrite zlen_rb_contents in Hk by done.
  rewrite zget_rb_contents, Hs, Hb, Hbuf, zget_app, Hlc
    by (done || destruct Hwf; case_match; lia).
  destruct Hwf.
  destruct (Z.ltb_spec k (RingBuffer_count rb)).
  - rewrite zget_rb_contents by (done || lia).
    destruct (Z.ltb_spec (rb_begin rb + k) (rb_size rb));
    repeat (case_match; try lia; try done).
  - rewrite zget_ztake by lia.
    destruct (Z.ltb_spec (rb_begin rb + k) (rb_size rb));
    repeat (case_match; try lia); f_equal; lia.
Qed.

Lemma RingBuffer_produce_Ok rb n0 :
  rb_wf rb -> 0 <= n0 ->
  let n := Z.min n0 (rb_size rb - RingBuffer_count rb) in
  exists rb', RingBuffer_produce rb n0 = Ok (rb', n) /\ rb_wf rb' /\
    rb_buf rb' = rb_buf rb /\ rb_begin rb' = rb_begin rb /\
    RingBuffer_count rb' = RingBuffer_count rb + n.
Proof.
  intros Hwf Hn0. cbv zeta. pose proof (rb_count_bounds rb Hwf) as Hcb.
  unfold RingBuffer_produce. cbv zeta. rewrite rb_getFree_spec by done.
  set (n := Z.min n0 (rb_size rb - RingBuffer_count rb)).
  destruct (Z.eqb_spec n 0) as [Hz|Hz].
  { exists rb. rewrite Hz. split_and!; try done. lia. }
  assert (Hn : 0 < n <= rb_size rb - RingBuffer_count rb) by lia. clearbody n.
  pose proof (rb_wf_pos rb Hwf ltac:(lia)). pose proof Hwf as [].
  destruct (advance2 (rb_end rb) n (rb_size rb)
    (fun e => Ok (mkRingBuffer (rb_buf rb) (rb_size rb) (rb_begin rb) e
                    (if rb_begin rb =? e then true else rb_wrap rb), n)))
    as (e & He & ->); [lia..|].
  destruct (rb_count_after rb (rb_buf rb) e n Hwf Hn He) as [? ?]; [done|].
  eexists; split; [reflexivity|]. by split_and!.
Qed.

(** ** The queue interface

    What a stack driver relies on: a bounded queue of bytes whose operations are
    total on well-formed states.  Client theorems are proved against the class. *)

Class ByteQueue (Q : Type) : Type := {
  bq_inv : Q -> Prop;
  bq_view : Q -> Queue.t;
  bq_push : Q -> list Z -> Z -> outcome (Q * Z);
  bq_pop : Q -> Z -> outcome (Q * list Z * Z);
  bq_push_spec : forall q data n, bq_inv q -> 0 <= n <= zlen data ->
    exists q', bq_push q data n = Ok (q', (Queue.push (bq_view q) data n).2) /\
      bq_inv q' /\ bq_view q' = (Queue.push (bq_view q) data n).1;
  bq_pop_spec : forall q n, bq_inv q -> 0 <= n ->
    exists q', bq_pop q n =
        Ok (q', (Queue.pop (bq_view q) n).1.2, (Queue.pop (bq_view q) n).2) /\
      bq_inv q' /\ bq_view q' = (Queue.pop (bq_view q) n).1.1
}.

Inductive queue_op : Type :=
| OpWrite (data : list Z) (n : Z)
| OpRead (n : Z).

Definition op_ok (o : queue_op) : Prop :=
  match o with OpWrite data n => 0 <= n <= zlen data | OpRead n => 0 <= n end.

Section Client.
Context {Q : Type} `{ByteQueue Q}.

(** Runs a list of calls; accumulates the bytes accepted and the bytes handed out. *)
Fixpoint queue_run (q : Q) (ops : list queue_op) : outcome (Q * list Z * list Z) :=
  match ops with
  | [] => Ok (q, [], [])
  | OpWrite data n :: ops =>
      '(q1, m) ← bq_push q data n;
      '(q2, ins, outs) ← queue_run q1 ops;
      Ok (q2, ztake m data ++ ins, outs)
  | OpRead n :: ops =>
      '(q1, d, m) ← bq_pop q n;
      '(q2, ins, outs) ← queue_run q1 ops;
      Ok (q2, ins, d ++ outs)
  end.

(** Bytes come out in the order they went in, none lost, none duplicated. *)
Lemma queue_run_stream ops q :
  bq_inv q -> Forall op_ok ops ->
  exists q' ins outs, queue_run q ops = Ok (q', ins, outs) /\ bq_inv q' /\
    Queue.cap (bq_view q') = Queue.cap (bq_view q) /\
    Queue.bytes (bq_view q) ++ ins = outs ++ Queue.bytes (bq_view q').
Proof.
  revert q. induction ops as [|[data n|n] ops IH]; intros q Hq Hops; cbn.
  { exists q, [], []. rewrite app_nil_r. done. }
  all: apply Forall_cons in Hops as [Hop Hops].
  - destruct (bq_push_spec q data n Hq Hop) as (q1 & -> & Hq1 & Hv). cbn.
    destruct (IH q1 Hq1 Hops) as (q2 & ins & outs & -> & Hq2 & Hcap & Hs).
    rewrite Hv in Hs, Hcap. cbn in Hs, Hcap |- *.
    do 3 eexists. split; [reflexivity|]. split_and!; try done.
    by rewrite app_assoc.
  - destruct (bq_pop_spec q n Hq Hop) as (q1 & -> & Hq1 & Hv). cbn.
    destruct (IH q1 Hq1 Hops) as (q2 & ins & outs & -> & Hq2 & Hcap & Hs).
    rewrite Hv in Hs, Hcap. cbn in Hs, Hcap |- *.
    do 3 eexists. split; [reflexivity|]. split_and!; try done.
    rewrite <- (ztake_zdrop (Z.min n (zlen (Queue.bytes (bq_view q)))) (Queue.bytes (bq_view q))) at 1.
    by rewrite <- !app_assoc, Hs.
Qed.

End Client.

Lemma rb_abs_push rb data n :
  rb_wf rb -> 0 <= n <= zlen data ->
  exists rb', RingBuffer_write rb data n = Ok (rb', (Queue.push (rb_abs rb) data n).2) /\
    rb_wf rb' /\ rb_abs rb' = (Queue.push (rb_abs rb) data n).1.
Proof.
  intros Hwf Hn.
  destruct (RingBuffer_write_contents rb data n Hwf Hn) as (rb' & Hw & Hwf' & Hs & Hc).
  exists rb'. unfold Queue.push, Queue.room, rb_abs; cbn. rewrite zlen_rb_contents by done.
  split_and!; try done. by rewrite Hs, Hc.
Qed.

Lemma rb_abs_pop rb n :
  rb_wf rb -> 0 <= n ->
  exists rb', RingBuffer_read rb n =
      Ok (rb', (Queue.pop (rb_abs rb) n).1.2, (Queue.pop (rb_abs rb) n).2) /\
    rb_wf rb' /\ rb_abs rb' = (Queue.pop (rb_abs rb) n).1.1.
Proof.
  intros Hwf Hn. destruct (RingBuffer_read_Ok rb n Hwf Hn) as (rb' & Hr & Hc).
  destruct (RingBuffer_consume_Ok rb n Hwf Hn) as (rb'' & Hc' & Hwf' & Hs & Hcon).
  rewrite Hc' in Hc. injection Hc as <-.
  exists rb''. unfold Queue.pop, rb_abs; cbn. rewrite zlen_rb_contents by done.
  split_and!; try done. by rewrite Hs, Hcon.
Qed.

#[export] Instance RingBuffer_ByteQueue : ByteQueue RingBuffer := {|
  bq_inv := rb_wf;
  bq_view := rb_abs;
  bq_push := RingBuffer_write;
  bq_pop := RingBuffer_read;
  bq_push_spec := rb_abs_push;
  bq_pop_spec := rb_abs_pop
|}.

Lemma RingBuffer_new_wf size garbage :
  0 <= size < 2 ^ 64 -> zlen garbage = size -> rb_wf (RingBuffer_new size garbage).
Proof. intros. split; cbn; lia || done. Qed.

(** ** Properties *)

(** C8: [RingBuffer::write] refines the bounded queue: on a well-formed buffer it
    returns (no access outside [buf] or [data]), accepts exactly the bytes that
    fit, appends them behind the bytes already queued and keeps the buffer
    well-formed. *)
Theorem RingBuffer_write_refines rb data n :
  rb_wf rb -> 0 <= n <= zlen data ->
  exists rb', RingBuffer_write rb data n = Ok (rb', (Queue.push (rb_abs rb) data n).2) /\
    rb_wf rb' /\ rb_abs rb' = (Queue.push (rb_abs rb) data n).1.
Proof. apply rb_abs_push. Qed.

Lemma RingBuffer_write_refines_witness :
  let rb := mkRingBuffer [1; 2; 3; 4] 4 3 1 false in
  exists rb', RingBuffer_write rb [7; 8; 9] 3 = Ok (rb', 2) /\ rb_wf rb' /\
    rb_abs rb' = Queue.mk 4 [4; 1; 7; 8].
Proof.
  apply (RingBuffer_write_refines (mkRingBuffer [1; 2; 3; 4] 4 3 1 false) [7; 8; 9] 3).
  - split; vm_compute; intuition discriminate.
  - vm_compute. intuition discriminate.
Defined.

(** C9: Any sequence of [write] and [read] calls on a freshly constructed ring
    buffer runs to completion inside its memory, and the bytes handed out followed
    by the bytes still queued are exactly the bytes accepted, in order. *)
Theorem RingBuffer_fifo size garbage ops :
  0 <= size < 2 ^ 64 -> zlen garbage = size -> Forall op_ok ops ->
  exists rb ins outs,
    queue_run (RingBuffer_new size garbage) ops = Ok (rb, ins, outs) /\
    rb_wf rb /\ rb_size rb = size /\ ins = outs ++ rb_contents rb /\
    zlen (rb_contents rb) <= size.
Proof.
  intros Hs Hg Hops.
  destruct (@queue_run_stream _ RingBuffer_ByteQueue ops (RingBuffer_new size garbage)
    (RingBuffer_new_wf size garbage Hs Hg) Hops) as (rb & ins & outs & Hr & Hwf & Hcap & Hst).
  exists rb, ins, outs. cbn in Hst, Hcap, Hwf. split_and!; try done.
  rewrite zlen_rb_contents, <- Hcap by done. apply rb_count_bounds. done.
Qed.

Lemma RingBuffer_fifo_witness :
  exists rb ins outs,
    queue_run (RingBuffer_new 3 [0; 0; 0])
      [OpWrite [1; 2] 2; OpRead 1; OpWrite [3; 4; 5] 3; OpRead 9] = Ok (rb, ins, outs) /\
    rb_wf rb /\ rb_size rb = 3 /\ ins = outs ++ rb_contents rb /\ zlen (rb_contents rb) <= 3.
Proof.
  apply (RingBuffer_fifo 3 [0; 0; 0]).
  - lia.
  - reflexivity.
  - repeat constructor; cbn; unfold zlen; cbn; lia.
Defined.
