(* ===== verification/Utils.v ===== *)
(** * Utility functions of the ZeroTier core (node/Utils.hpp, node/Utils.cpp)

    Characters are byte values; a C string is a block that holds a zero byte,
    and scanning past its block is [Undef]. *)

From S2P Require Import Prelude.

(** ** Byte order

    [hton]/[ntoh] on the little-endian targets, where they swap bytes: the
    portable shift-and-mask forms of the source. *)

Definition Utils_hton16 (n : Z) : Z :=
  Z.lor (Z.shiftl (Z.land n 0xFF) 8) (Z.shiftr (Z.land n 0xFF00) 8).

Definition Utils_hton32 (n : Z) : Z :=
  Z.lor (Z.lor (Z.shiftl (Z.land n 0xFF) 24) (Z.shiftl (Z.land n 0xFF00) 8))
        (Z.lor (Z.shiftr (Z.land n 0xFF0000) 8) (Z.shiftr (Z.land n 0xFF000000) 24)).

Definition Utils_hton64 (n : Z) : Z :=
  Z.lor (Z.shiftl (Z.land n 0x00000000000000FF) 56)
  (Z.lor (Z.shiftl (Z.land n 0x000000000000FF00) 40)
  (Z.lor (Z.shiftl (Z.land n 0x0000000000FF0000) 24)
  (Z.lor (Z.shiftl (Z.land n 0x00000000FF000000) 8)
  (Z.lor (Z.shiftr (Z.land n 0x000000FF00000000) 8)
  (Z.lor (Z.shiftr (Z.land n 0x0000FF0000000000) 24)
  (Z.lor (Z.shiftr (Z.land n 0x00FF000000000000) 40)
         (Z.shiftr (Z.land n 0xFF00000000000000) 56))))))).

Definition Utils_ntoh64 (n : Z) : Z := Utils_hton64 n.

(** ** Hexadecimal *)

Definition HEXCHARS : list Z :=
  [48; 49; 50; 51; 52; 53; 54; 55; 56; 57; 97; 98; 99; 100; 101; 102].

(** [HEXCHARS[(i >> s) & 0xf]] *)
Definition hexdigit (i s : Z) : outcome Z := load HEXCHARS (Z.land (Z.shiftr i s) 0xf).

Definition Utils_hex64 (i : Z) : outcome (list Z) :=
  ds ← mapM (hexdigit i)
         [60; 56; 52; 48; 44; 40; 36; 32; 28; 24; 20; 16; 12; 8; 4; 0];
  Ok (ds ++ [0]).

Definition Utils_hex10 (i : Z) : outcome (list Z) :=
  ds ← mapM (hexdigit i) [36; 32; 28; 24; 20; 16; 12; 8; 4; 0];
  Ok (ds ++ [0]).

Definition Utils_hex32 (i : Z) : outcome (list Z) :=
  ds ← mapM (hexdigit i) [28; 24; 20; 16; 12; 8; 4; 0];
  Ok (ds ++ [0]).

Definition Utils_hex16 (i : Z) : outcome (list Z) :=
  ds ← mapM (hexdigit i) [12; 8; 4; 0];
  Ok (ds ++ [0]).

Definition Utils_hex8 (i : Z) : outcome (list Z) :=
  ds ← mapM (hexdigit i) [4; 0];
  Ok (ds ++ [0]).

(** [hex(const void *d, unsigned int l, char *s)]: what is stored through [s]. *)
Fixpoint Utils_hex (d : list Z) : outcome (list Z) :=
  match d with
  | [] => Ok [0]
  | b :: d =>
      hi ← load HEXCHARS (Z.shiftr b 4);
      lo ← load HEXCHARS (Z.land b 0xf);
      rest ← Utils_hex d;
      Ok (hi :: lo :: rest)
  end.

Definition unhexdigit (hc : Z) : Z :=
  if (48 <=? hc) && (hc <=? 57) then hc - 48
  else if (97 <=? hc) && (hc <=? 102) then hc - 87
  else if (65 <=? hc) && (hc <=? 70) then hc - 55
  else 0.

(** [unhex(const char *h, void *buf, unsigned int buflen)]: the bytes stored in
    [buf]; the return value is their number. *)
Fixpoint Utils_unhex (h : list Z) (buflen : nat) {struct buflen} : outcome (list Z) :=
  match buflen with
  | O => Ok []
  | S buflen =>
      match h with
      | [] => Undef
      | hc :: h =>
          if hc =? 0 then Ok [] else
          match h with
          | [] => Undef
          | hc2 :: h =>
              if hc2 =? 0 then Ok [] else
              let c := Z.lor (u8 (Z.shiftl (unhexdigit hc) 4)) (unhexdigit hc2) in
              rest ← Utils_unhex h buflen;
              Ok (c :: rest)
          end
      end
  end.

(** [unhex(const char *h, unsigned int hlen, void *buf, unsigned int buflen)] *)
Fixpoint Utils_unhex_n (h : list Z) (hlen : nat) (buflen : nat) {struct buflen} : outcome (list Z) :=
  match buflen with
  | O => Ok []
  | S buflen =>
      match hlen with
      | O => Ok []
      | S hlen =>
          match h with
          | [] => Undef
          | hc :: h =>
              if hc =? 0 then Ok [] else
              match hlen with
              | O => Ok []
              | S hlen =>
                  match h with
                  | [] => Undef
                  | hc2 :: h =>
                      if hc2 =? 0 then Ok [] else
                      let c := Z.lor (u8 (Z.shiftl (unhexdigit hc) 4)) (unhexdigit hc2) in
                      rest ← Utils_unhex_n h hlen buflen;
                      Ok (c :: rest)
                  end
              end
          end
      end
  end.

(** ** Decimal *)

(** [_Utils_itoa(n, s)]: the array after the call and the returned position.  The
    recursion divides by ten; a 64-bit [unsigned long] is zero after twenty divisions,
    so fuel 21 is enough. *)
Fixpoint Utils_itoa (fuel : nat) (n : Z) (s : list Z) {struct fuel} : outcome (list Z * Z) :=
  match fuel with
  | O => Undef
  | S fuel =>
      if n =? 0 then Ok (s, 0) else
      '(s, pos) ← Utils_itoa fuel (n / 10) s;
      let pos := if 22 <=? pos then 22 else pos in
      s ← mem_write s pos [48 + n mod 10];
      Ok (s, pos + 1)
  end.

Definition Utils_decimal (n : Z) (s : list Z) : outcome (list Z) :=
  if n =? 0 then mem_write s 0 [48; 0] else
  '(s, pos) ← Utils_itoa 21 n s;
  mem_write s pos [0].

(** ** Comparison and copying *)

Fixpoint secureEq_diff (a b : list Z) (len : nat) (diff : Z) {struct len} : outcome Z :=
  match len with
  | O => Ok diff
  | S len =>
      match a, b with
      | x :: a, y :: b => secureEq_diff a b len (Z.lor diff (Z.lxor x y))
      | _, _ => Undef
      end
  end.

Definition Utils_secureEq (a b : list Z) (len : nat) : outcome bool :=
  diff ← secureEq_diff a b len 0; Ok (diff =? 0).

Fixpoint Utils_isZero (p : list Z) (len : nat) {struct len} : outcome bool :=
  match len with
  | O => Ok true
  | S len =>
      match p with
      | [] => Undef
      | x :: p => if negb (x =? 0) then Ok false else Utils_isZero p len
      end
  end.

(** The copy loop of [scopy] with [n] bytes left in [dest]: the bytes stored and
    the result. *)
Fixpoint scopy_loop (n : nat) (src : list Z) {struct n} : outcome (list Z * bool) :=
  match n, src with
  | O, _ => Undef
  | S n, [] => Undef
  | S n, c :: src =>
      if c =? 0 then Ok ([0], true) else
      match n with
      | O => Ok ([0], false)
      | S _ => '(r, b) ← scopy_loop n src; Ok (c :: r, b)
      end
  end.

Definition Utils_scopy (dest : list Z) (len : nat) (src : option (list Z))
  : outcome (list Z * bool) :=
  match len, src with
  | O, _ => Ok (dest, false)
  | S _, None => d ← mem_write dest 0 [0]; Ok (d, true)
  | S _, Some src =>
      '(r, b) ← scopy_loop len src;
      d ← mem_write dest 0 r;
      Ok (d, b)
  end.

(** ** Population count *)

Definition Utils_countBits32 (v0 : Z) : Z :=
  let v1 := u32 (v0 - Z.land (Z.shiftr v0 1) 0x55555555) in
  let v2 := u32 (Z.land v1 0x33333333 + Z.land (Z.shiftr v1 2) 0x33333333) in
  Z.shiftr (u32 (Z.land (u32 (v2 + Z.shiftr v2 4)) 0xF0F0F0F * 0x1010101)) 24.

Definition Utils_countBits64 (v0 : Z) : Z :=
  let m := 0xFFFFFFFFFFFFFFFF in
  let v1 := u64 (v0 - Z.land (Z.shiftr v0 1) (m / 3)) in
  let v2 := u64 (Z.land v1 (m / 15 * 3) + Z.land (Z.shiftr v1 2) (m / 15 * 3)) in
  let v3 := Z.land (u64 (v2 + Z.shiftr v2 4)) (m / 255 * 15) in
  Z.shiftr (u64 (v3 * (m / 255))) 56.

(** ** Population count is correct *)

(** The reference: how many of the [n] low bits are set. *)
Fixpoint popcount (n : nat) (v : Z) : Z :=
  match n with
  | O => 0
  | S n => Z.b2z (Z.testbit v (Z.of_nat n)) + popcount n v
  end.

Section SWAR.
Implicit Types bs : list Z.

Definition bytewise (f : Z -> Z) (bs : list Z) : Z := le_val (map f bs).

Lemma land_bytewise k m bs :
  0 <= k < 8 -> 0 <= m < 2 ^ (8 - k) -> Forall is_byte bs ->
  Z.land (Z.shiftr (le_val bs) k) (le_val (repeat m (length bs))) =
  bytewise (fun b => Z.land (Z.shiftr b k) m) bs.
Proof.
  intros Hk Hm. unfold bytewise. induction 1 as [|b bs Hb Hbs IH]; cbn [le_val map repeat length].
  { by rewrite Z.shiftr_0_l. }
  rewrite <- IH. clear IH.
  assert (Hmb : is_byte m).
  { split; [lia|]. pose proof (Z.pow_le_mono_r 2 (8 - k) 8). lia. }
  assert (Hrep : Forall is_byte (repeat m (length bs))).
  { apply Forall_forall. intros x Hx%list_elem_of_In%repeat_spec. by subst. }
  pose proof (le_val_nonneg _ Hbs). pose proof (le_val_nonneg _ Hrep).
  apply Z.bits_inj'. intros i Hi.
  rewrite testbit_cat; [|apply in_range_land; [lia| |done]|apply Z.land_nonneg; lia|done].
  2:{ apply Z.shiftr_nonneg. unfold in_range in Hb. lia. }
  rewrite !Z.land_spec, Z.shiftr_spec, !testbit_cat by (done || lia).
  destruct (Z.ltb_spec i 8).
  - rewrite Z.shiftr_spec by lia. destruct (Z.ltb_spec (i + k) 8); [done|].
    rewrite (testbit_high (8 - k) m) by (done || lia). by rewrite !andb_false_r.
  - rewrite (proj2 (Z.ltb_ge (i + k) 8)), Z.shiftr_spec by lia. do 2 f_equal. lia.
Qed.

Lemma bytewise_add f g bs :
  bytewise f bs + bytewise g bs = bytewise (fun b => f b + g b) bs.
Proof. unfold bytewise. induction bs; cbn [map le_val]; lia. Qed.

Lemma bytewise_sub f g bs :
  bytewise f bs - bytewise g bs = bytewise (fun b => f b - g b) bs.
Proof. unfold bytewise. induction bs; cbn [map le_val]; lia. Qed.

Lemma bytewise_comp f g bs : bytewise f (map g bs) = bytewise (fun b => f (g b)) bs.
Proof. unfold bytewise. by rewrite map_map. Qed.

Lemma bytewise_ext f g bs :
  (forall b, is_byte b -> f b = g b) -> Forall is_byte bs -> bytewise f bs = bytewise g bs.
Proof. intros H. unfold bytewise. induction 1; cbn [map le_val]; [done|]. by rewrite H, IHForall. Qed.

Lemma Forall_is_byte_map f bs :
  forallb (fun b => (0 <=? f b) && (f b <? 256)) all_bytes = true ->
  Forall is_byte bs -> Forall is_byte (map f bs).
Proof.
  intros Hf. induction 1; cbn; constructor; [|done].
  pose proof (byte_forall _ Hf _ H) as Hx. cbn beta in Hx. unfold in_range. lia.
Qed.

(** Both nibbles of a byte are at most 4. *)
Definition small_nibbles (d : Z) : Prop := 0 <= d /\ d mod 16 <= 4 /\ d / 16 <= 4.

(** The bytes of [v + (v >> 4)] for a byte string of small nibbles. *)
Fixpoint nibble_sums (ds : list Z) : list Z :=
  match ds with
  | [] => []
  | d :: ds => d + Z.shiftr d 4 + 16 * (le_val ds mod 16) :: nibble_sums ds
  end.

Lemma length_nibble_sums ds : length (nibble_sums ds) = length ds.
Proof. induction ds; cbn; [done|]. by rewrite IHds. Qed.

Lemma le_val_nibble_sums ds : le_val ds + Z.shiftr (le_val ds) 4 = le_val (nibble_sums ds).
Proof.
  rewrite Z.shiftr_div_pow2 by lia. induction ds as [|d l IH]; [done|].
  cbn [le_val nibble_sums]. rewrite <- IH, Z.shiftr_div_pow2 by lia.
  change (2 ^ 4) with 16 in *. pose proof (Z.div_mod (le_val l) 16).
  replace (d + 256 * le_val l) with (d + (16 * le_val l) * 16) by lia.
  rewrite Z.div_add by lia. lia.
Qed.

Lemma le_val_mod16 ds : Forall small_nibbles ds -> 0 <= le_val ds mod 16 <= 4.
Proof.
  destruct 1 as [|d l Hd Hl]; [done|]. cbn [le_val].
  replace (d + 256 * le_val l) with (d + (16 * le_val l) * 16) by lia.
  rewrite Z.mod_add by lia. pose proof (Z.mod_pos_bound d 16).
  unfold small_nibbles in Hd. lia.
Qed.

Lemma small_nibbles_byte ds : Forall small_nibbles ds -> Forall is_byte ds.
Proof.
  intros H. eapply Forall_impl; [exact H|]. intros d Hd. unfold small_nibbles in Hd.
  pose proof (Z.div_mod d 16). unfold in_range. lia.
Qed.

Lemma nibble_sums_byte ds : Forall small_nibbles ds -> Forall is_byte (nibble_sums ds).
Proof.
  induction 1 as [|d l Hd Hl IH]; cbn [nibble_sums]; constructor; [|done].
  pose proof (le_val_mod16 l Hl). rewrite Z.shiftr_div_pow2 by lia.
  change (2 ^ 4) with 16. unfold small_nibbles in Hd.
  pose proof (Z.div_mod d 16). pose proof (Z.div_pos d 16). unfold in_range. lia.
Qed.

(** Folding high nibbles onto low ones; the nibble that crosses a byte boundary
    is masked out. *)
Lemma fold_nibbles ds :
  Forall small_nibbles ds ->
  Z.land (le_val ds + Z.shiftr (le_val ds) 4) (le_val (repeat 15 (length ds))) =
  bytewise (fun d => Z.land (d + Z.shiftr d 4) 15) ds.
Proof.
  intros Hds. rewrite le_val_nibble_sums, <- length_nibble_sums.
  pose proof (land_bytewise 0 15 (nibble_sums ds) ltac:(lia) ltac:(lia) (nibble_sums_byte ds Hds)) as H.
  rewrite Z.shiftr_0_r in H. rewrite H. clear H Hds.
  unfold bytewise. f_equal. induction ds as [|d l IH]; [done|].
  cbn [nibble_sums map]. f_equal; [|done].
  rewrite Z.shiftr_0_r, !land_15. change (2 ^ 4) with 16.
  rewrite (Z.mul_comm 16), Z.mod_add by lia. done.
Qed.

(** The bytes after the first two folds. *)
Definition swar1 (b : Z) : Z := b - Z.land (Z.shiftr b 1) 0x55.
Definition swar2 (b : Z) : Z :=
  Z.land (swar1 b) 0x33 + Z.land (Z.shiftr (swar1 b) 2) 0x33.
Definition swar3 (b : Z) : Z := Z.land (swar2 b + Z.shiftr (swar2 b) 4) 15.

Lemma swar_step1 bs :
  Forall is_byte bs ->
  le_val bs - Z.land (Z.shiftr (le_val bs) 1) (le_val (repeat 0x55 (length bs))) =
  le_val (map swar1 bs).
Proof.
  intros H. rewrite land_bytewise by (done || lia).
  replace (le_val bs) with (bytewise (fun b => b) bs) by (unfold bytewise; by rewrite map_id).
  by rewrite bytewise_sub.
Qed.

Lemma swar1_byte bs : Forall is_byte bs -> Forall is_byte (map swar1 bs).
Proof. apply Forall_is_byte_map. vm_compute. reflexivity. Qed.

Lemma swar_step2 bs :
  Forall is_byte bs ->
  Z.land (le_val (map swar1 bs)) (le_val (repeat 0x33 (length bs))) +
  Z.land (Z.shiftr (le_val (map swar1 bs)) 2) (le_val (repeat 0x33 (length bs))) =
  le_val (map swar2 bs).
Proof.
  intros H%swar1_byte. rewrite <- (length_map swar1 bs).
  pose proof (land_bytewise 0 0x33 _ ltac:(lia) ltac:(lia) H) as H0.
  rewrite Z.shiftr_0_r in H0. rewrite H0, land_bytewise by (done || lia).
  by rewrite bytewise_add, bytewise_comp.
Qed.

Lemma swar2_small bs : Forall is_byte bs -> Forall small_nibbles (map swar2 bs).
Proof.
  intros H. apply Forall_map. eapply Forall_impl; [exact H|]. intros b Hb.
  assert (Hd : forallb (fun b => (0 <=? swar2 b) && (swar2 b mod 16 <=? 4) && (swar2 b / 16 <=? 4))
                 all_bytes = true) by (vm_compute; reflexivity).
  pose proof (byte_forall _ Hd b Hb) as Hx. cbn beta in Hx. unfold small_nibbles. lia.
Qed.

Lemma swar_step3 bs :
  Forall is_byte bs ->
  Z.land (le_val (map swar2 bs) + Z.shiftr (le_val (map swar2 bs)) 4)
    (le_val (repeat 15 (length bs))) = le_val (map swar3 bs).
Proof.
  intros H. rewrite <- (length_map swar2 bs). rewrite fold_nibbles by (by apply swar2_small).
  by rewrite bytewise_comp.
Qed.

(** Each byte now holds its own population count. *)
Lemma swar3_popcount b : is_byte b -> swar3 b = popcount 8 b /\ 0 <= swar3 b <= 8.
Proof.
  intros Hb.
  assert (Hd : forallb (fun b => (swar3 b =? popcount 8 b) && (0 <=? swar3 b) && (swar3 b <=? 8))
                 all_bytes = true) by (vm_compute; reflexivity).
  pose proof (byte_forall _ Hd b Hb) as Hx. cbn beta in Hx. lia.
Qed.

Definition sumZ (l : list Z) : Z := foldr Z.add 0 l.

Lemma popcount_ext n v w :
  (forall i, 0 <= i < Z.of_nat n -> Z.testbit v i = Z.testbit w i) ->
  popcount n v = popcount n w.
Proof.
  induction n as [|n IH]; intros H; cbn [popcount]; [done|].
  rewrite H, IH by (intros; try apply H; lia). done.
Qed.

Lemma popcount_S n v : popcount (S n) v = Z.b2z (Z.testbit v (Z.of_nat n)) + popcount n v.
Proof. reflexivity. Qed.

Lemma popcount_cat n b v :
  is_byte b -> 0 <= v -> popcount (8 + n) (b + 256 * v) = popcount 8 b + popcount n v.
Proof.
  intros Hb Hv. induction n as [|n IH].
  - rewrite Nat.add_0_r, (popcount_ext 8 _ b); [cbn [popcount]; lia|].
    intros i Hi. rewrite testbit_cat by (done || lia).
    by rewrite (proj2 (Z.ltb_lt i 8)) by lia.
  - rewrite Nat.add_succ_r, (popcount_S (8 + n)), (popcount_S n), IH, testbit_cat
      by (done || lia).
    rewrite (proj2 (Z.ltb_ge _ 8)) by lia.
    replace (Z.of_nat (8 + n) - 8) with (Z.of_nat n) by lia. lia.
Qed.

Lemma sum_swar3 bs :
  Forall is_byte bs -> sumZ (map swar3 bs) = popcount (8 * length bs) (le_val bs).
Proof.
  induction 1 as [|b bs Hb Hbs IH]; [done|].
  cbn [map sumZ foldr length le_val]. fold (sumZ (map swar3 bs)). rewrite IH.
  replace (8 * S (length bs))%nat with (8 + 8 * length bs)%nat by lia.
  rewrite popcount_cat by (done || by apply le_val_nonneg).
  by rewrite (proj1 (swar3_popcount b Hb)).
Qed.

End SWAR.

(** The final multiplication adds up the bytes. *)
Lemma swar_mul4 c0 c1 c2 c3 :
  0 <= c0 <= 8 -> 0 <= c1 <= 8 -> 0 <= c2 <= 8 -> 0 <= c3 <= 8 ->
  Z.shiftr (u32 (le_val [c0; c1; c2; c3] * 0x1010101)) 24 = sumZ [c0; c1; c2; c3].
Proof.
  intros. cbn [le_val sumZ foldr]. unfold u32, wrap.
  rewrite Z.shiftr_div_pow2 by lia. symmetry. apply Z.div_unique_pos
    with (c0 + 2 ^ 8 * (c0 + c1) + 2 ^ 16 * (c0 + c1 + c2)); [lia|].
  symmetry. apply Z.mod_unique_pos with ((c1 + c2 + c3) + 2 ^ 8 * (c2 + c3) + 2 ^ 16 * c3); lia.
Qed.

(** The shared argument of both widths: everything but the multiplication. *)
Lemma swar_folds bs w m5 m3 mf :
  Forall is_byte bs -> 8 * zlen bs = w ->
  le_val (repeat 0x55 (length bs)) = m5 -> le_val (repeat 0x33 (length bs)) = m3 ->
  le_val (repeat 15 (length bs)) = mf ->
  let v1 := wrap w (le_val bs - Z.land (Z.shiftr (le_val bs) 1) m5) in
  let v2 := wrap w (Z.land v1 m3 + Z.land (Z.shiftr v1 2) m3) in
  Z.land (wrap w (v2 + Z.shiftr v2 4)) mf = le_val (map swar3 bs).
Proof.
  intros Hb <- <- <- <-. cbv zeta. rewrite swar_step1 by done.
  assert (Hw : forall f : Z -> Z, 8 * zlen bs = 8 * zlen (map f bs))
    by (intros f; unfold zlen; by rewrite length_map).
  rewrite (wrap_id _ (le_val (map swar1 bs)))
    by (rewrite (Hw swar1); by apply le_val_range, swar1_byte).
  rewrite swar_step2, (wrap_id _ (le_val (map swar2 bs)))
    by (done || rewrite (Hw swar2); by apply le_val_range, small_nibbles_byte, swar2_small).
  rewrite wrap_id; [by apply swar_step3|].
  rewrite le_val_nibble_sums, (Hw swar2).
  replace (zlen (map swar2 bs)) with (zlen (nibble_sums (map swar2 bs)))
    by (unfold zlen; by rewrite length_nibble_sums).
  by apply le_val_range, nibble_sums_byte, swar2_small.
Qed.

Lemma countBits32_spec v : is_u32 v -> Utils_countBits32 v = popcount 32 v.
Proof.
  intros Hv. rewrite <- (Z.mod_small v (2 ^ (8 * Z.of_nat 4))), <- le_val_le_bytes by done.
  pose proof (le_bytes_bytes 4 v) as Hb. pose proof (length_le_bytes 4 v) as Hl.
  destruct (le_bytes 4 v) as [|b0 [|b1 [|b2 [|b3 [|? ?]]]]]; try discriminate Hl.
  pose proof (sum_swar3 [b0; b1; b2; b3] Hb) as Hsum.
  change (8 * length [b0; b1; b2; b3])%nat with 32%nat in Hsum. rewrite <- Hsum.
  rewrite !Forall_cons in Hb. destruct Hb as (H0 & H1 & H2 & H3 & _).
  pose proof (swar_folds [b0; b1; b2; b3] 32 0x55555555 0x33333333 0xF0F0F0F
    ltac:(by rewrite !Forall_cons) eq_refl eq_refl eq_refl eq_refl) as Hs.
  unfold Utils_countBits32. cbv zeta in Hs. change (wrap 32) with u32 in Hs.
  cbv zeta. rewrite Hs. apply swar_mul4; by apply swar3_popcount.
Qed.

Lemma swar_mul8 c0 c1 c2 c3 c4 c5 c6 c7 :
  0 <= c0 <= 8 -> 0 <= c1 <= 8 -> 0 <= c2 <= 8 -> 0 <= c3 <= 8 ->
  0 <= c4 <= 8 -> 0 <= c5 <= 8 -> 0 <= c6 <= 8 -> 0 <= c7 <= 8 ->
  Z.shiftr (u64 (le_val [c0; c1; c2; c3; c4; c5; c6; c7] * 0x0101010101010101)) 56 =
  sumZ [c0; c1; c2; c3; c4; c5; c6; c7].
Proof.
  intros. cbn [le_val sumZ foldr]. unfold u64, wrap.
  rewrite Z.shiftr_div_pow2 by lia. symmetry. apply Z.div_unique_pos
    with (c0 + 2 ^ 8 * (c0 + c1) + 2 ^ 16 * (c0 + c1 + c2) + 2 ^ 24 * (c0 + c1 + c2 + c3)
      + 2 ^ 32 * (c0 + c1 + c2 + c3 + c4) + 2 ^ 40 * (c0 + c1 + c2 + c3 + c4 + c5)
      + 2 ^ 48 * (c0 + c1 + c2 + c3 + c4 + c5 + c6)); [lia|].
  symmetry. apply Z.mod_unique_pos with
    ((c1 + c2 + c3 + c4 + c5 + c6 + c7) + 2 ^ 8 * (c2 + c3 + c4 + c5 + c6 + c7)
     + 2 ^ 16 * (c3 + c4 + c5 + c6 + c7) + 2 ^ 24 * (c4 + c5 + c6 + c7)
     + 2 ^ 32 * (c5 + c6 + c7) + 2 ^ 40 * (c6 + c7) + 2 ^ 48 * c7); lia.
Qed.

Lemma countBits64_spec v : is_u64 v -> Utils_countBits64 v = popcount 64 v.
Proof.
  intros Hv. rewrite <- (Z.mod_small v (2 ^ (8 * Z.of_nat 8))), <- le_val_le_bytes by done.
  pose proof (le_bytes_bytes 8 v) as Hb. pose proof (length_le_bytes 8 v) as Hl.
  destruct (le_bytes 8 v) as [|b0 [|b1 [|b2 [|b3 [|b4 [|b5 [|b6 [|b7 [|? ?]]]]]]]]];
    try discriminate Hl.
  set (bs := [b0; b1; b2; b3; b4; b5; b6; b7]) in *.
  pose proof (sum_swar3 bs Hb) as Hsum. change (8 * length bs)%nat with 64%nat in Hsum.
  rewrite <- Hsum.
  pose proof (swar_folds bs 64 (0xFFFFFFFFFFFFFFFF / 3) (0xFFFFFFFFFFFFFFFF / 15 * 3)
    (0xFFFFFFFFFFFFFFFF / 255 * 15) Hb eq_refl eq_refl eq_refl eq_refl) as Hs.
  unfold Utils_countBits64. cbv zeta in Hs. change (wrap 64) with u64 in Hs.
  cbv zeta. rewrite Hs. unfold bs in *.
  rewrite !Forall_cons in Hb. destruct Hb as (? & ? & ? & ? & ? & ? & ? & ? & _).
  apply swar_mul8; by apply swar3_popcount.
Qed.

Lemma popcount_bounds n v : 0 <= popcount n v <= Z.of_nat n.
Proof. induction n; cbn [popcount]; [done|]. destruct (Z.testbit v (Z.of_nat n)); cbn; lia. Qed.

(** [n] set bits among the low [n] means all of them. *)
Lemma popcount_full n v :
  popcount n v = Z.of_nat n <-> (forall i, 0 <= i < Z.of_nat n -> Z.testbit v i = true).
Proof.
  induction n as [|n IH]; cbn [popcount]; [split; [lia|done]|].
  pose proof (popcount_bounds n v). split.
  - intros H1 i Hi. destruct (Z.testbit v (Z.of_nat n)) eqn:E; cbn in H1; [|lia].
    destruct (Z.eq_dec i (Z.of_nat n)) as [->|]; [done|]. apply IH; lia.
  - intros H1. rewrite H1 by lia. rewrite (proj2 IH) by (intros; apply H1; lia). cbn. lia.
Qed.

(** ** Byte order: memory holds the value in network order *)

(** Cases on a bit index below 8. *)
Lemma lt8_cases (P : Z -> Prop) :
  P 0 -> P 1 -> P 2 -> P 3 -> P 4 -> P 5 -> P 6 -> P 7 -> forall j, 0 <= j < 8 -> P j.
Proof.
  intros. assert (j = 0 \/ j = 1 \/ j = 2 \/ j = 3 \/ j = 4 \/ j = 5 \/ j = 6 \/ j = 7) by lia.
  naive_solver.
Qed.

(** Equality of the low bytes of two integers, bit by bit. *)
Lemma land255_ext a b :
  (forall j, 0 <= j < 8 -> Z.testbit a j = Z.testbit b j) -> Z.land a 255 = Z.land b 255.
Proof.
  intros H. rewrite !land_255. bitwise j. destruct (Z.ltb_spec j 8); cbn; [|done].
  apply H. lia.
Qed.

Ltac byte_swap :=
  apply land255_ext; apply lt8_cases;
  repeat (rewrite Z.shiftr_spec by lia);
  repeat (rewrite Z.lor_spec);
  repeat (rewrite Z.shiftr_spec by lia);
  repeat (rewrite Z.shiftl_spec by lia);
  repeat (rewrite Z.land_spec);
  cbn -[Z.testbit];
  repeat match goal with
    | |- context [Z.testbit (Zpos ?p) ?k] =>
        let b := eval vm_compute in (Z.testbit (Zpos p) k) in
        change (Z.testbit (Zpos p) k) with b
    | |- context [Z.testbit ?n (Zneg ?p)] =>
        rewrite (Z.testbit_neg_r n (Zneg p)) by lia
    end;
  rewrite ?andb_true_r, ?andb_false_r, ?orb_false_r, ?orb_false_l; reflexivity.

Ltac byte_swaps :=
  unfold be_bytes, reverse; cbn [le_bytes rev_append];
  repeat (apply (f_equal2 cons); [byte_swap|]); reflexivity.

Lemma le_bytes_hton16 n : le_bytes 2 (Utils_hton16 n) = be_bytes 2 n.
Proof. unfold Utils_hton16. byte_swaps. Qed.

Lemma le_bytes_hton32 n : le_bytes 4 (Utils_hton32 n) = be_bytes 4 n.
Proof. unfold Utils_hton32. byte_swaps. Qed.

Lemma le_bytes_hton64 n : le_bytes 8 (Utils_hton64 n) = be_bytes 8 n.
Proof. unfold Utils_hton64. byte_swaps. Qed.

Ltac swap_range :=
  repeat (apply in_range_lor; [lia| |]);
  first [apply in_range_shiftl; [lia|lia|apply land_mask_range; [lia|done]]
        |apply in_range_shiftr; [lia|lia|apply land_mask_range; [lia|done]]].

Lemma hton16_range n : is_u16 (Utils_hton16 n).
Proof. unfold Utils_hton16. swap_range. Qed.

Lemma hton32_range n : is_u32 (Utils_hton32 n).
Proof. unfold Utils_hton32. swap_range. Qed.

Lemma hton64_range n : is_u64 (Utils_hton64 n).
Proof. unfold Utils_hton64. swap_range. Qed.

(** A byte swap reads the bytes in the other order. *)
Lemma hton16_val n : Utils_hton16 n = le_val (be_bytes 2 n).
Proof. rewrite <- le_bytes_hton16, le_val_le_bytes. symmetry. apply Z.mod_small, hton16_range. Qed.

Lemma hton32_val n : Utils_hton32 n = le_val (be_bytes 4 n).
Proof. rewrite <- le_bytes_hton32, le_val_le_bytes. symmetry. apply Z.mod_small, hton32_range. Qed.

Lemma hton64_val n : Utils_hton64 n = le_val (be_bytes 8 n).
Proof. rewrite <- le_bytes_hton64, le_val_le_bytes. symmetry. apply Z.mod_small, hton64_range. Qed.

Lemma hton16_involutive n : Utils_hton16 (Utils_hton16 n) = u16 n.
Proof.
  rewrite hton16_val. unfold be_bytes. rewrite le_bytes_hton16. unfold be_bytes.
  rewrite reverse_involutive. apply (le_val_le_bytes 2).
Qed.

Lemma hton32_le_val ip :
  length ip = 4%nat -> Forall is_byte ip -> Utils_hton32 (le_val ip) = be_val ip.
Proof. intros Hl Hb. rewrite hton32_val. unfold be_bytes, be_val. by rewrite <- Hl, le_bytes_le_val. Qed.

(** ** Hexadecimal *)

Lemma hexchars_load k : 0 <= k < 16 ->
  exists c, load HEXCHARS k = Ok c /\ unhexdigit c = k /\ c <> 0 /\ is_byte c.
Proof.
  intros Hk.
  assert (Hd : forallb (fun k => match load HEXCHARS k with
      | Ok c => (unhexdigit c =? k) && negb (c =? 0) && (0 <=? c) && (c <? 256)
      | _ => false end) (seqZ 0 16) = true) by (vm_compute; reflexivity).
  rewrite forallb_forall in Hd. specialize (Hd k).
  destruct (load HEXCHARS k) as [c| |]; [|ospecialize (Hd _); [apply list_elem_of_In, elem_of_seqZ; lia|done]..].
  ospecialize (Hd _); [apply list_elem_of_In, elem_of_seqZ; lia|].
  exists c. unfold in_range. split; [done|]. lia.
Qed.

Lemma hex_pair b : is_byte b ->
  exists hi lo, load HEXCHARS (Z.shiftr b 4) = Ok hi /\ load HEXCHARS (Z.land b 0xf) = Ok lo /\
    hi <> 0 /\ lo <> 0 /\ is_byte hi /\ is_byte lo /\
    Z.lor (u8 (Z.shiftl (unhexdigit hi) 4)) (unhexdigit lo) = b.
Proof.
  intros Hb.
  destruct (hexchars_load (Z.shiftr b 4)) as (hi & Hhi & Hhv & Hhn & Hhb).
  { apply (in_range_shiftr 4 4); [lia..|done]. }
  destruct (hexchars_load (Z.land b 0xf)) as (lo & Hlo & Hlv & Hln & Hlb).
  { rewrite land_15. apply Z.mod_pos_bound. lia. }
  exists hi, lo. split_and!; try done. rewrite Hhv, Hlv.
  assert (Hd : forallb (fun b => Z.lor (u8 (Z.shiftl (Z.shiftr b 4) 4)) (Z.land b 0xf) =? b)
                 all_bytes = true) by (vm_compute; reflexivity).
  apply Z.eqb_eq. apply (byte_forall _ Hd b Hb).
Qed.

Lemma Utils_hex_Ok d : Forall is_byte d ->
  exists s, Utils_hex d = Ok s /\ length s = (2 * length d + 1)%nat.
Proof.
  induction 1 as [|b d Hb Hd (s & Hs & Hl)]; [by exists [0]|].
  destruct (hex_pair b Hb) as (hi & lo & Hhi & Hlo & _). cbn.
  rewrite Hhi, Hlo, Hs. cbn. eexists; split; [done|]. cbn. lia.
Qed.

Lemma unhex_hex d rest : Forall is_byte d ->
  exists s, Utils_hex d = Ok s /\
    (forall buflen, (length d <= buflen)%nat -> Utils_unhex (s ++ rest) buflen = Ok d).
Proof.
  induction 1 as [|b d Hb Hd (s & Hs & IH)].
  { exists [0]. split; [done|]. intros [|buflen] _; done. }
  destruct (hex_pair b Hb) as (hi & lo & Hhi & Hlo & Hn1 & Hn2 & _ & _ & Hv).
  exists (hi :: lo :: s). cbn. rewrite Hhi, Hlo, Hs. split; [done|].
  intros [|buflen] Hl; [cbn in Hl; lia|]. cbn [Utils_unhex app].
  rewrite (proj2 (Z.eqb_neq hi 0)), (proj2 (Z.eqb_neq lo 0)) by done.
  rewrite IH by (cbn in Hl; lia). rewrite Hv. done.
Qed.

(** The length-bounded form agrees with the zero-terminated one on the text that
    [hex] writes, whether or not the terminator is within [hlen]. *)
Lemma unhex_n_hex d rest : Forall is_byte d ->
  exists s, Utils_hex d = Ok s /\
    (forall hlen buflen, (2 * length d <= hlen)%nat -> (length d <= buflen)%nat ->
       Utils_unhex_n (s ++ rest) hlen buflen = Ok d).
Proof.
  induction 1 as [|b d Hb Hd (s & Hs & IH)].
  { exists [0]. split; [done|]. intros [|hlen] [|buflen] _ _; done. }
  destruct (hex_pair b Hb) as (hi & lo & Hhi & Hlo & Hn1 & Hn2 & _ & _ & Hv).
  exists (hi :: lo :: s). cbn. rewrite Hhi, Hlo, Hs. split; [done|].
  intros [|[|hlen]] [|buflen] Hl1 Hl2; try (cbn in Hl1, Hl2; lia). cbn [Utils_unhex_n app].
  rewrite (proj2 (Z.eqb_neq hi 0)), (proj2 (Z.eqb_neq lo 0)) by done.
  rewrite IH by (cbn in Hl1, Hl2; lia). rewrite Hv. done.
Qed.

(** ** Comparison and copying *)

Lemma secureEq_diff_spec a b len diff :
  Forall is_byte a -> Forall is_byte b -> (len <= length a)%nat -> (len <= length b)%nat -> 0 <= diff ->
  exists d, secureEq_diff a b len diff = Ok d /\ (d = 0 <-> diff = 0 /\ take len a = take len b).
Proof.
  revert a b diff. induction len as [|len IH]; intros a b diff Ha Hb Hla Hlb Hd; cbn.
  { exists diff. split; [done|]. rewrite !take_0. naive_solver. }
  destruct a as [|x a], b as [|y b]; cbn in Hla, Hlb; [lia..|].
  apply Forall_cons in Ha as [Hx Ha]. apply Forall_cons in Hb as [Hy Hb].
  assert (Hxy : 0 <= Z.lxor x y) by (apply (in_range_lxor 8); done || lia).
  destruct (IH a b (Z.lor diff (Z.lxor x y))) as (d & -> & Hiff); [done..|lia|lia|by apply Z.lor_nonneg|].
  exists d. split; [done|]. rewrite Hiff, Z.lor_eq_0_iff, Z.lxor_eq_0_iff. cbn.
  split; [intros [[-> ->] ->]; done|intros [-> [= -> ->]]; done].
Qed.

Lemma secureEq_spec a b len :
  Forall is_byte a -> Forall is_byte b -> (len <= length a)%nat -> (len <= length b)%nat ->
  Utils_secureEq a b len = Ok (bool_decide (take len a = take len b)).
Proof.
  intros Ha Hb Hla Hlb. unfold Utils_secureEq.
  destruct (secureEq_diff_spec a b len 0 Ha Hb Hla Hlb) as (d & -> & Hd); [lia|]. cbn. f_equal.
  apply Bool.eq_iff_eq_true. rewrite Z.eqb_eq, bool_decide_eq_true. naive_solver.
Qed.

(** The string held by a C string block: the bytes before the first zero. *)
Fixpoint cstr (s : list Z) : list Z :=
  match s with
  | [] => []
  | c :: s => if c =? 0 then [] else c :: cstr s
  end.

Lemma scopy_loop_spec n s :
  (0 < n)%nat -> 0 ∈ s ->
  scopy_loop n s =
  Ok (take (n - 1) (cstr s) ++ [0], bool_decide (length (cstr s) < n)%nat).
Proof.
  revert s. induction n as [|n IH]; intros s Hn Hs; [lia|].
  destruct s as [|c s]; [by apply not_elem_of_nil in Hs|]. cbn.
  destruct (Z.eqb_spec c 0) as [->|Hc].
  { rewrite take_nil. cbn. by rewrite bool_decide_eq_true_2 by lia. }
  apply elem_of_cons in Hs as [?|Hs]; [congruence|].
  destruct n as [|n]; [cbn; by rewrite bool_decide_eq_false_2 by lia|].
  rewrite IH by (done || lia). cbn -[scopy_loop].
  replace (n - 0)%nat with n by lia. do 3 f_equal. apply bool_decide_ext. lia.
Qed.

(** ** Decimal *)

Definition is_digit (c : Z) : Prop := 48 <= c <= 57.

(** The number a string of digits denotes. *)
Definition dec_val (ds : list Z) : Z := foldl (fun acc c => 10 * acc + (c - 48)) 0 ds.

Lemma dec_val_snoc ds c : dec_val (ds ++ [c]) = 10 * dec_val ds + (c - 48).
Proof. unfold dec_val. by rewrite foldl_app. Qed.

Lemma itoa_spec fuel n s :
  0 <= n < 10 ^ Z.of_nat fuel -> (fuel <= 20)%nat -> 24 <= zlen s ->
  exists ds, Utils_itoa (S fuel) n s = Ok (ds ++ zdrop (zlen ds) s, zlen ds) /\
    zlen ds <= Z.of_nat fuel /\ Forall is_digit ds /\ dec_val ds = n.
Proof.
  revert n. induction fuel as [|fuel IH]; intros n Hn Hf Hs.
  { assert (n = 0) as -> by (cbn in Hn; lia). by exists []. }
  rewrite Nat2Z.inj_succ, Z.pow_succ_r in Hn by lia.
  cbn [Utils_itoa]. destruct (Z.eqb_spec n 0) as [->|Hnz]; [exists []; cbn; split_and!; done || lia|].
  destruct (IH (n / 10)) as (ds & Heq & Hl & Hds & Hv);
    [split; [apply Z.div_pos; lia|apply Z.div_lt_upper_bound; lia]|lia|done|].
  cbn [Utils_itoa] in Heq. rewrite Heq. cbn [mbind outcome_bind].
  pose proof (zlen_nonneg ds). rewrite (proj2 (Z.leb_gt _ _)) by lia.
  pose proof (Z.mod_pos_bound n 10). pose proof (Z.div_mod n 10).
  rewrite mem_write_Ok by (rewrite ?zlen_app, ?zlen_zdrop; change (zlen [_]) with 1; lia).
  exists (ds ++ [48 + n mod 10]). rewrite zlen_app. change (zlen [_]) with 1. split_and!.
  - cbn [mbind outcome_bind]. rewrite ztake_app_exact, zdrop_app_ge, <- app_assoc by lia.
    rewrite zdrop_zdrop by lia. by replace (_ - _ + zlen ds) with (zlen ds + 1) by lia.
  - lia.
  - apply Forall_app_2; [done|]. apply Forall_singleton. unfold is_digit. lia.
  - rewrite dec_val_snoc, Hv. lia.
Qed.

Lemma decimal_spec n s :
  is_u64 n -> 24 <= zlen s ->
  exists ds, Utils_decimal n s = Ok (ds ++ [0] ++ zdrop (zlen ds + 1) s) /\
    zlen ds <= 20 /\ Forall is_digit ds /\ dec_val ds = n.
Proof.
  intros Hn Hs. unfold Utils_decimal. destruct (Z.eqb_spec n 0) as [->|Hnz].
  { exists [48]. rewrite mem_write_Ok by (change (zlen [_; _]) with 2; lia).
    split_and!; [done|done|by apply Forall_singleton|done]. }
  destruct (itoa_spec 20 n s) as (ds & -> & Hl & Hds & Hv);
    [unfold in_range in Hn; change (10 ^ Z.of_nat 20) with 100000000000000000000; lia|lia|done|].
  pose proof (zlen_nonneg ds). cbn [mbind outcome_bind].
  rewrite mem_write_Ok by (rewrite ?zlen_app, ?zlen_zdrop; change (zlen [_]) with 1; lia).
  change (zlen [_]) with 1. exists ds. split_and!; [|lia|done|done].
  rewrite ztake_app_exact, zdrop_app_ge, zdrop_zdrop by lia.
  by replace (_ - _ + zlen ds) with (zlen ds + 1) by lia.
Qed.

Lemma scopy_spec dest len src :
  (0 < len)%nat -> Z.of_nat len <= zlen dest -> 0 ∈ src ->
  let s := take (len - 1) (cstr src) in
  Utils_scopy dest len (Some src) =
  Ok (s ++ [0] ++ zdrop (zlen s + 1) dest, bool_decide (length (cstr src) < len)%nat).
Proof.
  intros Hl Hd Hs s. unfold Utils_scopy. destruct len as [|len]; [lia|].
  rewrite scopy_loop_spec by (done || lia). fold s. cbn [mbind outcome_bind].
  assert (zlen s <= Z.of_nat len).
  { unfold s, zlen. rewrite length_take. lia. }
  rewrite mem_write_Ok by (rewrite ?zlen_app; change (zlen [_]) with 1; lia).
  cbn [mbind outcome_bind]. rewrite zlen_app. by rewrite <- app_assoc.
Qed.

(** ** Properties *)

(** both population counts return the number of set bits of their argument, for
    every 32-bit and every 64-bit word. *)
Theorem Utils_countBits_popcount v w :
  is_u32 v -> is_u64 w ->
  Utils_countBits32 v = popcount 32 v /\ Utils_countBits64 w = popcount 64 w.
Proof. intros Hv Hw. by rewrite countBits32_spec, countBits64_spec. Qed.

Lemma Utils_countBits_popcount_witness :
  popcount 32 0xF000000F = 8 /\ Utils_countBits64 0x8000000000000001 = 2.
Proof.
  destruct (Utils_countBits_popcount 0xF000000F 0x8000000000000001) as [<- ->]; [done|done|].
  split; vm_compute; reflexivity.
Defined.

(** hex writes two digits per byte and a terminator without leaving its table, and
    both forms of unhex read the original bytes back when their bounds allow it. *)
Theorem Utils_hex_roundtrip d rest :
  Forall is_byte d ->
  exists s, Utils_hex d = Ok s /\ length s = (2 * length d + 1)%nat /\
    (forall buflen, (length d <= buflen)%nat -> Utils_unhex (s ++ rest) buflen = Ok d) /\
    (forall hlen buflen, (2 * length d <= hlen)%nat -> (length d <= buflen)%nat ->
       Utils_unhex_n (s ++ rest) hlen buflen = Ok d).
Proof.
  intros Hd. destruct (Utils_hex_Ok d Hd) as (s & Hs & Hl).
  destruct (unhex_hex d rest Hd) as (s1 & Hs1 & H1), (unhex_n_hex d rest Hd) as (s2 & Hs2 & H2).
  rewrite Hs in Hs1, Hs2. simplify_eq. eauto 6.
Qed.

Lemma Utils_hex_roundtrip_witness :
  exists s, Utils_hex [0; 171; 255] = Ok s /\ Utils_unhex s 3 = Ok [0; 171; 255].
Proof.
  destruct (Utils_hex_roundtrip [0; 171; 255] []) as (s & Hs & _ & Hu & _);
    [by rewrite !Forall_cons|].
  exists s. split; [exact Hs|]. rewrite <- (Hu 3%nat) by (cbn; lia). by rewrite app_nil_r.
Defined.

(** decimal writes at most twenty digits and a terminator into its 24-byte array,
    never outside it, and the digits denote the argument. *)
Theorem Utils_decimal_correct n s :
  is_u64 n -> 24 <= zlen s ->
  exists ds, Utils_decimal n s = Ok (ds ++ [0] ++ zdrop (zlen ds + 1) s) /\
    zlen ds <= 20 /\ Forall is_digit ds /\ dec_val ds = n.
Proof. apply decimal_spec. Qed.

Lemma Utils_decimal_correct_witness :
  exists ds, Utils_decimal 1802 (replicate 24 0) = Ok (ds ++ [0] ++ zdrop (zlen ds + 1) (replicate 24 0)) /\
    dec_val ds = 1802.
Proof.
  destruct (Utils_decimal_correct 1802 (replicate 24 0)) as (ds & H1 & _ & _ & H2); [done|done|].
  exists ds. exact (conj H1 H2).
Defined.

(** scopy stores the longest prefix of the source string that fits, always
    terminated, leaves the rest of the destination alone, and reports whether the whole
    string fitted. *)
Theorem Utils_scopy_correct dest len src :
  (0 < len)%nat -> Z.of_nat len <= zlen dest -> 0 ∈ src ->
  let s := take (len - 1) (cstr src) in
  Utils_scopy dest len (Some src) =
  Ok (s ++ [0] ++ zdrop (zlen s + 1) dest, bool_decide (length (cstr src) < len)%nat).
Proof. apply scopy_spec. Qed.

Lemma Utils_scopy_correct_witness :
  Utils_scopy [9; 9; 9; 9] 3 (Some [65; 66; 67; 68; 0]) = Ok ([65; 66; 0; 9], false).
Proof.
  apply (Utils_scopy_correct [9; 9; 9; 9] 3 [65; 66; 67; 68; 0]); [lia|done|].
  rewrite !elem_of_cons. tauto.
Defined.
