(* ===== verification/Buffer.v ===== *)
(** * The bounds-checked packet buffer (node/Buffer.hpp)

    [Buffer<C>] is a block [_b] of exactly [C] bytes and the length [_l] of the
    data in it; bytes at and after [_l] keep whatever was stored there last.
    Sizes and indices are [unsigned int], so [i + l] wraps at 32 bits, while
    [i + sizeof(T)] is computed in [size_t] and does not. *)

From S2P Require Import Prelude.
From S2P Require Import Utils.

Record Buffer : Type := mkBuffer { b_mem : list Z; b_len : Z }.

Section Ops.
(** The template argument. *)
Context (C : Z).

(** [if (cond) throw ZT_EXCEPTION_OUT_OF_BOUNDS] *)
Definition bounds_check (violated : bool) : outcome unit :=
  if violated then Throw OUT_OF_BOUNDS else Ok tt.

(** [Buffer()] and [Buffer(unsigned int l)]; the storage is not initialised. *)
Definition Buffer_new (storage : list Z) : Buffer := mkBuffer storage 0.

Definition Buffer_new_len (storage : list Z) (l : Z) : outcome Buffer :=
  _ ← bounds_check (C <? l); Ok (mkBuffer storage l).

Definition Buffer_copyFrom (b : Buffer) (src : list Z) (l : Z) : outcome Buffer :=
  _ ← bounds_check (C <? l);
  d ← mem_read src 0 l;
  m ← mem_write (b_mem b) 0 d;
  Ok (mkBuffer m l).

(** [operator=] from a buffer of capacity [C2]. *)
Definition Buffer_assign (b : Buffer) (C2 : Z) (o : Buffer) : outcome Buffer :=
  _ ← bounds_check (C <? b_len o);
  if C2 =? C then Ok o else
  d ← mem_read (b_mem o) 0 (b_len o);
  m ← mem_write (b_mem b) 0 d;
  Ok (mkBuffer m (b_len o)).

Definition Buffer_index (b : Buffer) (i : Z) : outcome Z :=
  _ ← bounds_check (b_len b <=? i); load (b_mem b) i.

(** Assignment through the reference [operator[]] returns. *)
Definition Buffer_set_index (b : Buffer) (i v : Z) : outcome Buffer :=
  _ ← bounds_check (b_len b <=? i);
  m ← mem_write (b_mem b) i [v];
  Ok (mkBuffer m (b_len b)).

(** [field]: a pointer, here its offset into [_b]. *)
Definition Buffer_field (b : Buffer) (i l : Z) : outcome Z :=
  _ ← bounds_check (b_len b <? u32 (i + l)); Ok i.

Definition Buffer_setAt (b : Buffer) (n : nat) (i v : Z) : outcome Buffer :=
  _ ← bounds_check (b_len b <? i + Z.of_nat n);
  m ← mem_write (b_mem b) i (be_bytes n v);
  Ok (mkBuffer m (b_len b)).

Definition Buffer_at (b : Buffer) (n : nat) (i : Z) : outcome Z :=
  _ ← bounds_check (b_len b <? i + Z.of_nat n);
  d ← mem_read (b_mem b) i (Z.of_nat n);
  Ok (be_val d).

(** [append(const T v)] for an integer type of [n] bytes. *)
Definition Buffer_append_int (b : Buffer) (n : nat) (v : Z) : outcome Buffer :=
  _ ← bounds_check (C <? b_len b + Z.of_nat n);
  m ← mem_write (b_mem b) (b_len b) (be_bytes n v);
  Ok (mkBuffer m (u32 (b_len b + Z.of_nat n))).

(** [append(unsigned char c, unsigned int n)] *)
Definition Buffer_append_run (b : Buffer) (c : Z) (n : Z) : outcome Buffer :=
  _ ← bounds_check (C <? u32 (b_len b + n));
  m ← mem_write (b_mem b) (b_len b) (replicate (Z.to_nat n) c);
  Ok (mkBuffer m (u32 (b_len b + n))).

(** [appendRandom]: [rnd] is what the random source delivers. *)
Definition Buffer_appendRandom (b : Buffer) (n : Z) (rnd : list Z) : outcome Buffer :=
  _ ← bounds_check (C <? u32 (b_len b + n));
  m ← mem_write (b_mem b) (b_len b) (ztake n rnd);
  Ok (mkBuffer m (u32 (b_len b + n))).

(** [append(const void *b, unsigned int l)] *)
Definition Buffer_append (b : Buffer) (src : list Z) (l : Z) : outcome Buffer :=
  _ ← bounds_check (C <? u32 (b_len b + l));
  d ← mem_read src 0 l;
  m ← mem_write (b_mem b) (b_len b) d;
  Ok (mkBuffer m (u32 (b_len b + l))).

Fixpoint Buffer_appendCString (b : Buffer) (s : list Z) : outcome Buffer :=
  match s with
  | [] => if C <=? b_len b then Throw OUT_OF_BOUNDS else Undef
  | c :: s =>
      if C <=? b_len b then Throw OUT_OF_BOUNDS else
      m ← mem_write (b_mem b) (b_len b) [c];
      let b' := mkBuffer m (u32 (b_len b + 1)) in
      if c =? 0 then Ok b' else Buffer_appendCString b' s
  end.

Definition Buffer_append_buffer (b o : Buffer) : outcome Buffer :=
  Buffer_append b (b_mem o) (b_len o).

Definition Buffer_appendField (b : Buffer) (l : Z) : outcome (Buffer * Z) :=
  _ ← bounds_check (C <? u32 (b_len b + l));
  Ok (mkBuffer (b_mem b) (u32 (b_len b + l)), b_len b).

Definition Buffer_addSize (b : Buffer) (i : Z) : outcome Buffer :=
  _ ← bounds_check (C <? u32 (i + b_len b));
  Ok (mkBuffer (b_mem b) (u32 (b_len b + i))).

Definition Buffer_setSize (b : Buffer) (i : Z) : outcome Buffer :=
  _ ← bounds_check (C <? i); Ok (mkBuffer (b_mem b) i).

Definition Buffer_behead (b : Buffer) (at_ : Z) : outcome Buffer :=
  if at_ =? 0 then Ok b else
  _ ← bounds_check (b_len b <? at_);
  let l' := u32 (b_len b - at_) in
  d ← mem_read (b_mem b) at_ l';
  m ← mem_write (b_mem b) 0 d;
  Ok (mkBuffer m l').

Definition Buffer_erase (b : Buffer) (at_ length : Z) : outcome Buffer :=
  let endr := u32 (at_ + length) in
  _ ← bounds_check (b_len b <? endr);
  d ← mem_read (b_mem b) endr (u32 (b_len b - endr));
  m ← mem_write (b_mem b) at_ d;
  Ok (mkBuffer m (u32 (b_len b - length))).

Definition Buffer_clear (b : Buffer) : Buffer := mkBuffer (b_mem b) 0.

Definition Buffer_zero (b : Buffer) : outcome Buffer :=
  m ← mem_write (b_mem b) 0 (replicate (Z.to_nat (b_len b)) 0);
  Ok (mkBuffer m (b_len b)).

Definition Buffer_zeroUnused (b : Buffer) : outcome Buffer :=
  m ← mem_write (b_mem b) (b_len b) (replicate (Z.to_nat (u32 (C - b_len b))) 0);
  Ok (mkBuffer m (b_len b)).

Definition Buffer_burn (b : Buffer) : outcome Buffer :=
  m ← mem_write (b_mem b) 0 (replicate (Z.to_nat C) 0);
  Ok (mkBuffer m (b_len b)).

Definition Buffer_size (b : Buffer) : Z := b_len b.
Definition Buffer_capacity (b : Buffer) : Z := C.

End Ops.

(** [memcmp] over [n] bytes: the sign of the first difference. *)
Fixpoint memcmp (a b : list Z) (n : nat) {struct n} : outcome Z :=
  match n with
  | O => Ok 0
  | S n =>
      match a, b with
      | x :: a, y :: b =>
          if x <? y then Ok (-1) else if y <? x then Ok 1 else memcmp a b n
      | _, _ => Undef
      end
  end.

Definition Buffer_eqb (a b : Buffer) : outcome bool :=
  if negb (b_len a =? b_len b) then Ok false else
  c ← memcmp (b_mem a) (b_mem b) (Z.to_nat (b_len a)); Ok (c =? 0).

Definition Buffer_ltb (a b : Buffer) : outcome bool :=
  c ← memcmp (b_mem a) (b_mem b) (Z.to_nat (Z.min (b_len a) (b_len b))); Ok (c <? 0).

(** ** Well-formedness *)

Record buf_wf (C : Z) (b : Buffer) : Prop := {
  bw_mem : zlen (b_mem b) = C;
  bw_bytes : Forall is_byte (b_mem b);
  bw_len : 0 <= b_len b <= C;
  bw_cap : C < 2 ^ 32
}.

(** The data in the buffer. *)
Definition buf_data (b : Buffer) : list Z := ztake (b_len b) (b_mem b).

Section Facts.
Context (C : Z).
Implicit Types b o : Buffer.

Lemma zlen_buf_data b : buf_wf C b -> zlen (buf_data b) = b_len b.
Proof. intros []. apply zlen_ztake. lia. Qed.

Lemma buf_data_bytes b : buf_wf C b -> Forall is_byte (buf_data b).
Proof. intros []. by apply Forall_take. Qed.

Lemma slice_buf_data b i n :
  buf_wf C b -> 0 <= i -> 0 <= n -> i + n <= b_len b ->
  slice i n (b_mem b) = slice i n (buf_data b).
Proof.
  intros [] Hi Hn Hl. unfold buf_data.
  rewrite <- (ztake_zdrop (b_len b) (b_mem b)) at 1.
  apply slice_app_l; [done..|]. rewrite zlen_ztake; lia.
Qed.

(** The one way data grows: [d] is stored at the end of the data. *)
Lemma buf_extend b d :
  buf_wf C b -> Forall is_byte d -> b_len b + zlen d <= C ->
  exists m, mem_write (b_mem b) (b_len b) d = Ok m /\
    buf_wf C (mkBuffer m (b_len b + zlen d)) /\
    buf_data (mkBuffer m (b_len b + zlen d)) = buf_data b ++ d.
Proof.
  intros [] Hd Hl. pose proof (zlen_nonneg d).
  eexists; split; [apply mem_write_Ok; lia|]. split.
  - split; cbn; [|by repeat (apply Forall_app_2 || apply Forall_take || apply Forall_drop)|lia|done].
    rewrite !zlen_app, zlen_ztake, zlen_zdrop by lia. lia.
  - unfold buf_data. cbn. rewrite app_assoc. apply ztake_app_exact.
    rewrite zlen_app, zlen_ztake; lia.
Qed.

(** In-place stores keep the buffer well-formed and its length. *)
Lemma buf_store b i d m :
  buf_wf C b -> Forall is_byte d -> mem_write (b_mem b) i d = Ok m ->
  buf_wf C (mkBuffer m (b_len b)).
Proof.
  intros [] Hd Hm. pose proof (zlen_mem_write _ _ _ _ Hm).
  apply mem_write_inv in Hm as (_ & _ & ->).
  split; cbn; [lia| |lia|done].
  by repeat (apply Forall_app_2 || apply Forall_take || apply Forall_drop).
Qed.

Lemma append_int_Ok b n v :
  buf_wf C b -> b_len b + Z.of_nat n <= C ->
  exists b', Buffer_append_int C b n v = Ok b' /\ buf_wf C b' /\
    buf_data b' = buf_data b ++ be_bytes n v.
Proof.
  intros Hb Hl. unfold Buffer_append_int, bounds_check.
  rewrite (proj2 (Z.ltb_ge _ _)) by lia. cbn.
  destruct (buf_extend b (be_bytes n v)) as (m & -> & Hwf & Hd);
    [done|apply be_bytes_bytes|by rewrite zlen_be_bytes|].
  rewrite zlen_be_bytes in Hwf, Hd. destruct Hb.
  cbn. rewrite u32_id by (unfold in_range; lia). eauto.
Qed.

Lemma append_Ok b src l :
  buf_wf C b -> Forall is_byte src -> 0 <= l <= zlen src -> b_len b + l <= C ->
  exists b', Buffer_append C b src l = Ok b' /\ buf_wf C b' /\
    buf_data b' = buf_data b ++ ztake l src.
Proof.
  intros Hb Hs Hsl Hl. unfold Buffer_append, bounds_check. pose proof Hb as [].
  rewrite u32_id by (unfold in_range; lia).
  rewrite (proj2 (Z.ltb_ge _ _)) by lia. cbn.
  rewrite mem_read_Ok by lia. cbn. rewrite slice_0.
  assert (Hz : zlen (ztake l src) = l) by (by apply zlen_ztake).
  destruct (buf_extend b (ztake l src)) as (m & -> & Hwf & Hd);
    [done|by apply Forall_take|lia|].
  rewrite Hz in Hwf, Hd. cbn. eauto.
Qed.

Lemma at_Ok b n i :
  buf_wf C b -> 0 <= i -> i + Z.of_nat n <= b_len b ->
  Buffer_at b n i = Ok (be_val (slice i (Z.of_nat n) (buf_data b))).
Proof.
  intros Hb Hi Hl. unfold Buffer_at, bounds_check. pose proof Hb as [].
  rewrite (proj2 (Z.ltb_ge _ _)) by lia. cbn.
  rewrite mem_read_Ok by lia. cbn. by rewrite slice_buf_data by (done || lia).
Qed.

Lemma at_Throw b n i : b_len b < i + Z.of_nat n -> Buffer_at b n i = Throw OUT_OF_BOUNDS.
Proof. intros Hl. unfold Buffer_at, bounds_check. by rewrite (proj2 (Z.ltb_lt _ _)) by lia. Qed.

Lemma index_Ok b i :
  buf_wf C b -> 0 <= i < b_len b -> exists v, Buffer_index b i = Ok v /\ zget (buf_data b) i = Some v.
Proof.
  intros Hb Hi. unfold Buffer_index, bounds_check. pose proof Hb as [].
  rewrite (proj2 (Z.leb_gt _ _)) by lia. cbn. unfold load.
  assert (Hg : is_Some (zget (b_mem b) i)) by (apply zget_range; lia).
  destruct Hg as [v Hv]. rewrite Hv. exists v. split; [done|].
  unfold buf_data. by rewrite zget_ztake by lia.
Qed.

Lemma index_Throw b i : b_len b <= i -> Buffer_index b i = Throw OUT_OF_BOUNDS.
Proof. intros Hl. unfold Buffer_index, bounds_check. by rewrite (proj2 (Z.leb_le _ _)) by lia. Qed.

Lemma field_Ok b i l :
  buf_wf C b -> 0 <= i -> 0 <= l -> i + l <= b_len b -> Buffer_field b i l = Ok i.
Proof.
  intros [] Hi Hl Hle. unfold Buffer_field, bounds_check.
  rewrite u32_id by (unfold in_range; lia). by rewrite (proj2 (Z.ltb_ge _ _)) by lia.
Qed.

End Facts.

Create HintDb buf.
#[export] Hint Resolve zlen_buf_data buf_data_bytes buf_store : buf.

(** ** The operations as a specification over byte strings *)

Inductive buf_op : Type :=
| OpSetIndex (i v : Z)
| OpSetAt (n : nat) (i v : Z)
| OpAppendInt (n : nat) (v : Z)
| OpAppendRun (c n : Z)
| OpAppend (src : list Z) (l : Z)
| OpCopyFrom (src : list Z) (l : Z)
| OpAppendField (l : Z)
| OpAddSize (i : Z)
| OpSetSize (i : Z)
| OpBehead (at_ : Z)
| OpErase (at_ length : Z)
| OpClear
| OpZero
| OpZeroUnused
| OpBurn
| OpAppendRandom (n : Z) (rnd : list Z)
| OpAppendCString (s : list Z)
| OpAppendBuffer (C2 : Z) (o : Buffer)
| OpAssign (C2 : Z) (o : Buffer).

(** The characters of a C string with the NUL that ends it. *)
Fixpoint c_string (s : list Z) : list Z :=
  match s with [] => [] | c :: s => c :: (if c =? 0 then [] else c_string s) end.

Definition buf_exec (C : Z) (b : Buffer) (op : buf_op) : outcome Buffer :=
  match op with
  | OpSetIndex i v => Buffer_set_index b i v
  | OpSetAt n i v => Buffer_setAt b n i v
  | OpAppendInt n v => Buffer_append_int C b n v
  | OpAppendRun c n => Buffer_append_run C b c n
  | OpAppend src l => Buffer_append C b src l
  | OpCopyFrom src l => Buffer_copyFrom C b src l
  | OpAppendField l => fst <$> Buffer_appendField C b l
  | OpAddSize i => Buffer_addSize C b i
  | OpSetSize i => Buffer_setSize C b i
  | OpBehead at_ => Buffer_behead b at_
  | OpErase at_ length => Buffer_erase b at_ length
  | OpClear => Ok (Buffer_clear b)
  | OpZero => Buffer_zero b
  | OpZeroUnused => Buffer_zeroUnused C b
  | OpBurn => Buffer_burn C b
  | OpAppendRandom n rnd => Buffer_appendRandom C b n rnd
  | OpAppendCString s => Buffer_appendCString C b s
  | OpAppendBuffer C2 o => Buffer_append_buffer C b o
  | OpAssign C2 o => Buffer_assign C b C2 o
  end.

(** Arguments are of their C++ types, source blocks hold the bytes asked for, a string has its
    end, and the sizes added in [unsigned int] do not wrap. *)
Definition op_args (C : Z) (op : buf_op) : Prop :=
  match op with
  | OpSetIndex i v => 0 <= i /\ is_byte v
  | OpSetAt n i v => 0 <= i
  | OpAppendInt n v => True
  | OpAppendRun c n => is_byte c /\ 0 <= n /\ C + n < 2 ^ 32
  | OpAppend src l => Forall is_byte src /\ 0 <= l <= zlen src /\ C + l < 2 ^ 32
  | OpCopyFrom src l => Forall is_byte src /\ 0 <= l <= zlen src
  | OpAppendField l => 0 <= l /\ C + l < 2 ^ 32
  | OpAddSize i => 0 <= i /\ C + i < 2 ^ 32
  | OpSetSize i => 0 <= i
  | OpBehead at_ => 0 <= at_
  | OpErase at_ length => 0 <= at_ /\ 0 <= length /\ at_ + length < 2 ^ 32
  | OpClear | OpZero | OpZeroUnused | OpBurn => True
  | OpAppendRandom n rnd => Forall is_byte rnd /\ 0 <= n <= zlen rnd /\ C + n < 2 ^ 32
  | OpAppendCString s => Forall is_byte s /\ 0 ∈ s
  | OpAppendBuffer C2 o => buf_wf C2 o /\ C + b_len o < 2 ^ 32
  | OpAssign C2 o => buf_wf C2 o
  end.

(** What the operation does to the data: [None] stands for the exception; growing
    without storing leaves the new bytes open. *)
Definition op_spec (C : Z) (d : list Z) (op : buf_op) (r : option (list Z)) : Prop :=
  let store i x :=
    if i + zlen x <=? zlen d then Some (ztake i d ++ x ++ zdrop (i + zlen x) d) else None in
  let append x := if zlen d + zlen x <=? C then Some (d ++ x) else None in
  let grow n := if zlen d + n <=? C then exists junk, zlen junk = n /\ r = Some (d ++ junk)
                else r = None in
  match op with
  | OpSetIndex i v => r = store i [v]
  | OpSetAt n i v => r = store i (be_bytes n v)
  | OpAppendInt n v => r = append (be_bytes n v)
  | OpAppendRun c n => r = append (replicate (Z.to_nat n) c)
  | OpAppend src l => r = append (ztake l src)
  | OpCopyFrom src l => r = if l <=? C then Some (ztake l src) else None
  | OpAppendField l => grow l
  | OpAddSize i => grow i
  | OpSetSize i => if i <=? zlen d then r = Some (ztake i d) else grow (i - zlen d)
  | OpBehead at_ => r = if at_ <=? zlen d then Some (zdrop at_ d) else None
  | OpErase at_ length =>
      r = if at_ + length <=? zlen d
          then Some (ztake at_ d ++ zdrop (at_ + length) d) else None
  | OpClear => r = Some []
  | OpZero | OpBurn => r = Some (replicate (length d) 0)
  | OpZeroUnused => r = Some d
  | OpAppendRandom n rnd => r = append (ztake n rnd)
  | OpAppendCString s => r = append (c_string s)
  | OpAppendBuffer _ o => r = append (buf_data o)
  | OpAssign _ o => r = if b_len o <=? C then Some (buf_data o) else None
  end.

(** [op] run on [b] meets its specification. *)
Definition op_refines (C : Z) (b : Buffer) (op : buf_op) : Prop :=
  (buf_exec C b op = Throw OUT_OF_BOUNDS /\ op_spec C (buf_data b) op None) \/
  (exists b', buf_exec C b op = Ok b' /\ buf_wf C b' /\
     op_spec C (buf_data b) op (Some (buf_data b'))).

Section Refinement.
Context (C : Z) (b : Buffer) (Hb : buf_wf C b).

Lemma ztake_mem_write_in i d m :
  mem_write (b_mem b) i d = Ok m -> i + zlen d <= b_len b ->
  ztake (b_len b) m = ztake i (buf_data b) ++ d ++ zdrop (i + zlen d) (buf_data b).
Proof.
  intros (Hi & Hl & ->)%mem_write_inv Hle. destruct Hb. pose proof (zlen_nonneg d).
  unfold buf_data. rewrite ztake_ztake by lia.
  rewrite ztake_app_ge by (rewrite zlen_ztake; lia). f_equal.
  rewrite zlen_ztake by lia. rewrite ztake_app_ge by lia. f_equal.
  rewrite zdrop_ztake by lia. unfold slice. f_equal. lia.
Qed.

Lemma store_refines i d :
  0 <= i -> Forall is_byte d -> i + zlen d <= b_len b ->
  exists m, mem_write (b_mem b) i d = Ok m /\ buf_wf C (mkBuffer m (b_len b)) /\
    buf_data (mkBuffer m (b_len b)) = ztake i (buf_data b) ++ d ++ zdrop (i + zlen d) (buf_data b).
Proof.
  intros Hi Hd Hl. pose proof Hb as [].
  destruct (mem_write (b_mem b) i d) as [m| |] eqn:Hm; [|rewrite mem_write_Ok in Hm by lia; done..].
  exists m. split; [done|]. split; [eauto with buf|].
  by apply ztake_mem_write_in.
Qed.

(** Changing the length only. *)
Lemma setlen_wf l : 0 <= l <= C -> buf_wf C (mkBuffer (b_mem b) l).
Proof. destruct Hb. intros. by split. Qed.

Lemma setlen_grow l : b_len b <= l <= C ->
  exists junk, zlen junk = l - b_len b /\ buf_data (mkBuffer (b_mem b) l) = buf_data b ++ junk.
Proof.
  intros Hl. destruct Hb. exists (slice (b_len b) (l - b_len b) (b_mem b)). split.
  - apply zlen_slice; lia.
  - unfold buf_data. cbn. rewrite <- !slice_0. rewrite (slice_split 0 (b_len b) l) by lia. done.
Qed.

End Refinement.

(** Splits on the operation's bounds check and discards the failing branch of the
    specification. *)
Ltac check_bounds :=
  unfold bounds_check;
  repeat match goal with
  | |- context [?x <? ?y] => destruct (Z.ltb_spec x y)
  | |- context [?x <=? ?y] => destruct (Z.leb_spec x y)
  end; try lia; cbn [outcome_bind mbind].

(** The loop of appendCString. *)
Lemma appendCString_loop C s : forall b, buf_wf C b -> Forall is_byte s -> 0 ∈ s ->
  let r := if b_len b + zlen (c_string s) <=? C then Some (buf_data b ++ c_string s) else None in
  (Buffer_appendCString C b s = Throw OUT_OF_BOUNDS /\ None = r) \/
  exists b', Buffer_appendCString C b s = Ok b' /\ buf_wf C b' /\ Some (buf_data b') = r.
Proof.
  induction s as [|c s IH]; intros b Hb Hs Hin; [by apply not_elem_of_nil in Hin|]. apply Forall_cons in Hs as [Hc Hs]. pose proof Hb as [].
  cbn [Buffer_appendCString c_string]. cbv zeta.
  assert (Hz : forall l, zlen (c :: l) = 1 + zlen l) by (intros l; unfold zlen; cbn [length]; lia). rewrite Hz. pose proof (zlen_nonneg (if c =? 0 then [] else c_string s)).
  destruct (Z.leb_spec C (b_len b)) as [Hfull|Hroom]; [left; by rewrite (proj2 (Z.leb_gt _ _)) by lia|].
  destruct (buf_extend C b [c] Hb) as (m & -> & Hwf & Hd); [by constructor|change (zlen [c]) with 1; lia|].
  change (zlen [c]) with 1 in *. cbn [outcome_bind mbind]. rewrite u32_id by (unfold in_range; lia).
  destruct (Z.eqb_spec c 0) as [->|Hne].
  - right. eexists. split; [done|]. split; [done|]. change (zlen []) with 0. by rewrite (proj2 (Z.leb_le _ _)), Hd by lia.
  - apply elem_of_cons in Hin as [?|Hin]; [done|]. specialize (IH _ Hwf Hs Hin). cbv zeta in IH. rewrite Hd in IH. cbn [b_len] in IH.
    replace (b_len b + (1 + zlen (c_string s))) with (b_len b + 1 + zlen (c_string s)) by lia. by rewrite <- app_assoc in IH.
Qed.

Section Ops_refine.
Context (C : Z) (b : Buffer) (Hb : buf_wf C b).

Let Hlen : zlen (buf_data b) = b_len b := zlen_buf_data C b Hb.

Lemma refines_set_index i v : op_args C (OpSetIndex i v) -> op_refines C b (OpSetIndex i v).
Proof.
  intros [Hi Hv]. unfold op_refines, op_spec, buf_exec, Buffer_set_index. rewrite Hlen.
  change (zlen [v]) with 1. check_bounds; [by left|right].
  destruct (store_refines C b Hb i [v]) as (m & -> & Hwf & Hd);
    [done|by rewrite Forall_singleton|by change (zlen [v]) with 1; lia|].
  eexists; split; [done|]. split; [done|]. by rewrite Hd.
Qed.

Lemma refines_setAt n i v : op_args C (OpSetAt n i v) -> op_refines C b (OpSetAt n i v).
Proof.
  intros Hi. unfold op_refines, op_spec, buf_exec, Buffer_setAt. rewrite Hlen, zlen_be_bytes.
  check_bounds; [by left|right].
  destruct (store_refines C b Hb i (be_bytes n v)) as (m & -> & Hwf & Hd);
    [done|apply be_bytes_bytes|by rewrite zlen_be_bytes|].
  eexists; split; [done|]. split; [done|]. by rewrite Hd, zlen_be_bytes.
Qed.

Lemma refines_append_int n v : op_refines C b (OpAppendInt n v).
Proof.
  unfold op_refines, op_spec, buf_exec. rewrite Hlen, zlen_be_bytes.
  destruct (Z.leb_spec (b_len b + Z.of_nat n) C).
  - right. destruct (append_int_Ok C b n v Hb) as (b' & -> & Hwf & Hd); [done|].
    exists b'. by rewrite Hd.
  - left. unfold Buffer_append_int. check_bounds. done.
Qed.

(** Shared by the three forms of append that add sizes in [unsigned int]. *)
Lemma refines_append_run c n : op_args C (OpAppendRun c n) -> op_refines C b (OpAppendRun c n).
Proof.
  intros (Hc & Hn & Hw). unfold op_refines, op_spec, buf_exec, Buffer_append_run.
  rewrite Hlen. pose proof Hb as []. rewrite u32_id by (unfold in_range; lia).
  assert (Hz : zlen (replicate (Z.to_nat n) c) = n) by (unfold zlen; rewrite length_replicate; lia).
  rewrite Hz. check_bounds; [by left|right].
  destruct (buf_extend C b (replicate (Z.to_nat n) c) Hb) as (m & -> & Hwf & Hd);
    [by apply Forall_replicate|lia|].
  rewrite Hz in Hwf, Hd. eexists; split; [done|]. by rewrite Hd.
Qed.

Lemma refines_append src l : op_args C (OpAppend src l) -> op_refines C b (OpAppend src l).
Proof.
  intros (Hs & Hl & Hw). unfold op_refines, op_spec, buf_exec. rewrite Hlen, zlen_ztake by done.
  pose proof Hb as [].
  destruct (Z.leb_spec (b_len b + l) C).
  - right. destruct (append_Ok C b src l Hb Hs Hl) as (b' & -> & Hwf & Hd); [done|].
    exists b'. by rewrite Hd.
  - left. unfold Buffer_append. rewrite u32_id by (unfold in_range; lia). check_bounds. done.
Qed.

(** Overwriting from offset [i] on and ending the data there. *)
Lemma splice_refines i d :
  0 <= i <= b_len b -> Forall is_byte d -> i + zlen d <= C ->
  exists m, mem_write (b_mem b) i d = Ok m /\ buf_wf C (mkBuffer m (i + zlen d)) /\
    buf_data (mkBuffer m (i + zlen d)) = ztake i (buf_data b) ++ d.
Proof.
  intros Hi Hd Hl. pose proof Hb as [].
  destruct (buf_extend C (mkBuffer (b_mem b) i) d) as (m & Hm & Hwf & He);
    [apply setlen_wf; done || lia|done|done|].
  exists m. split_and!; [done..|]. cbn [b_len b_mem] in *. rewrite He. unfold buf_data. cbn. by rewrite ztake_ztake by lia.
Qed.

Lemma refines_copyFrom src l : op_args C (OpCopyFrom src l) -> op_refines C b (OpCopyFrom src l).
Proof.
  intros (Hs & Hl). unfold op_refines, op_spec, buf_exec, Buffer_copyFrom. pose proof Hb as [].
  check_bounds; [by left|right]. rewrite mem_read_Ok by lia. cbn. rewrite slice_0.
  assert (Hz : zlen (ztake l src) = l) by (by apply zlen_ztake).
  destruct (splice_refines 0 (ztake l src)) as (m & -> & Hwf & Hd); [lia|by apply Forall_take|lia|].
  rewrite Hz, Z.add_0_l in Hwf, Hd. eexists; split; [done|]. split; [done|]. by rewrite Hd.
Qed.

Lemma refines_grow l :
  0 <= l -> (b_len b + l <= C -> exists b',
      Ok (mkBuffer (b_mem b) (b_len b + l)) = Ok b' /\ buf_wf C b' /\
      exists junk, zlen junk = l /\ Some (buf_data b') = Some (buf_data b ++ junk)).
Proof.
  intros Hl Hle. eexists; split; [done|]. destruct Hb. split; [apply setlen_wf; done || lia|].
  destruct (setlen_grow C b Hb (b_len b + l)) as (junk & Hj & Hd); [lia|].
  exists junk. split; [lia|]. by rewrite Hd.
Qed.

Lemma refines_appendField l : op_args C (OpAppendField l) -> op_refines C b (OpAppendField l).
Proof.
  intros (Hl & Hw). unfold op_refines, op_spec, buf_exec, Buffer_appendField.
  rewrite Hlen. pose proof Hb as []. rewrite u32_id by (unfold in_range; lia).
  check_bounds; [by left|right]. by apply refines_grow.
Qed.

Lemma refines_addSize i : op_args C (OpAddSize i) -> op_refines C b (OpAddSize i).
Proof.
  intros (Hl & Hw). unfold op_refines, op_spec, buf_exec, Buffer_addSize.
  rewrite Hlen. pose proof Hb as []. rewrite !u32_id by (unfold in_range; lia).
  rewrite (Z.add_comm i). check_bounds; [by left|right]. by apply refines_grow.
Qed.

Lemma refines_setSize i : op_args C (OpSetSize i) -> op_refines C b (OpSetSize i).
Proof.
  intros Hi. cbn in Hi. unfold op_refines, op_spec, buf_exec, Buffer_setSize. rewrite Hlen.
  pose proof Hb as []. check_bounds; [left; done|right..].
  - eexists; split; [done|]. split; [apply setlen_wf; done || lia|].
    unfold buf_data; cbn. by rewrite ztake_ztake by lia.
  - destruct (refines_grow (i - b_len b)) as (b' & Hb'); [lia..|].
    rewrite Zplus_minus in Hb'. by exists b'.
Qed.

Lemma refines_behead at_ : op_args C (OpBehead at_) -> op_refines C b (OpBehead at_).
Proof.
  intros Ha. cbn in Ha. unfold op_refines, op_spec, buf_exec, Buffer_behead. rewrite Hlen.
  pose proof Hb as []. destruct (Z.eqb_spec at_ 0) as [->|].
  { right. exists b. rewrite (proj2 (Z.leb_le 0 _)) by lia. by rewrite zdrop_0. }
  check_bounds; [by left|right].
  rewrite u32_id by (unfold in_range; lia). rewrite mem_read_Ok by lia. cbn [outcome_bind mbind].
  assert (Hz : zlen (slice at_ (b_len b - at_) (b_mem b)) = b_len b - at_) by (apply zlen_slice; lia).
  destruct (splice_refines 0 (slice at_ (b_len b - at_) (b_mem b))) as (m & -> & Hwf & Hd);
    [lia|by apply Forall_take, Forall_drop|lia|].
  rewrite Hz, Z.add_0_l in Hwf, Hd. eexists; split; [done|]. split; [done|]. rewrite Hd.
  unfold buf_data. by rewrite zdrop_ztake by lia.
Qed.

Lemma refines_erase at_ length : op_args C (OpErase at_ length) -> op_refines C b (OpErase at_ length).
Proof.
  intros (Ha & Hl & Hw). unfold op_refines, op_spec, buf_exec, Buffer_erase. rewrite Hlen.
  pose proof Hb as []. rewrite !(u32_id (at_ + length)) by (unfold in_range; lia).
  check_bounds; [by left|right].
  rewrite !u32_id by (unfold in_range; lia). rewrite mem_read_Ok by lia. cbn.
  set (tl := slice (at_ + length) (b_len b - (at_ + length)) (b_mem b)).
  assert (Hz : zlen tl = b_len b - (at_ + length)) by (apply zlen_slice; lia).
  assert (Htl : tl = zdrop (at_ + length) (buf_data b)).
  { unfold buf_data. by rewrite zdrop_ztake by lia. }
  destruct (splice_refines at_ tl) as (m & -> & Hwf & Hd);
    [lia|by apply Forall_take, Forall_drop|lia|].
  rewrite Hz in Hwf, Hd. replace (at_ + _) with (b_len b - length) in Hwf, Hd by lia.
  eexists; split; [done|]. split; [done|]. by rewrite Hd, <- Htl.
Qed.

Lemma refines_zero : op_refines C b OpZero.
Proof.
  unfold op_refines, op_spec, buf_exec, Buffer_zero. right. pose proof Hb as [].
  assert (Hz : zlen (replicate (Z.to_nat (b_len b)) 0) = b_len b)
    by (unfold zlen; rewrite length_replicate; lia).
  destruct (store_refines C b Hb 0 (replicate (Z.to_nat (b_len b)) 0)) as (m & -> & Hwf & Hd);
    [done|by apply Forall_replicate|lia|].
  eexists; split; [done|]. split; [done|]. rewrite Hd, Hz, zdrop_all, app_nil_r by lia.
  rewrite ztake_0. cbn. do 2 f_equal. unfold zlen in Hlen. lia.
Qed.

Lemma refines_zeroUnused : op_refines C b OpZeroUnused.
Proof.
  unfold op_refines, op_spec, buf_exec, Buffer_zeroUnused. right. pose proof Hb as [].
  rewrite u32_id by (unfold in_range; lia).
  assert (Hz : zlen (replicate (Z.to_nat (C - b_len b)) 0) = C - b_len b)
    by (unfold zlen; rewrite length_replicate; lia).
  destruct (mem_write (b_mem b) (b_len b) (replicate (Z.to_nat (C - b_len b)) 0)) as [m| |] eqn:Hm;
    [|rewrite mem_write_Ok in Hm by lia; done..].
  eexists; split; [done|]. split; [eapply buf_store; [done| |done]; by apply Forall_replicate|].
  apply mem_write_inv in Hm as (_ & _ & ->). unfold buf_data; cbn.
  rewrite ztake_app_le by (rewrite zlen_ztake; lia). by rewrite ztake_ztake.
Qed.

Lemma refines_burn : op_refines C b OpBurn.
Proof.
  unfold op_refines, op_spec, buf_exec, Buffer_burn. right. pose proof Hb as [].
  assert (Hz : zlen (replicate (Z.to_nat C) 0) = C) by (unfold zlen; rewrite length_replicate; lia).
  destruct (mem_write (b_mem b) 0 (replicate (Z.to_nat C) 0)) as [m| |] eqn:Hm;
    [|rewrite mem_write_Ok in Hm by lia; done..].
  eexists; split; [done|]. split; [eapply buf_store; [done| |done]; by apply Forall_replicate|].
  apply mem_write_inv in Hm as (_ & _ & ->). unfold buf_data; cbn.
  rewrite Hz, zdrop_all, app_nil_r by lia. f_equal. unfold ztake.
  rewrite take_0, app_nil_l, take_replicate. f_equal. rewrite length_take. unfold zlen in *. lia.
Qed.

Lemma refines_appendRandom n rnd : op_args C (OpAppendRandom n rnd) -> op_refines C b (OpAppendRandom n rnd).
Proof.
  intros (Hr & Hn & Hw). unfold op_refines, op_spec, buf_exec, Buffer_appendRandom. rewrite Hlen. pose proof Hb as [].
  rewrite u32_id by (unfold in_range; lia). assert (Hz : zlen (ztake n rnd) = n) by (by apply zlen_ztake).
  rewrite Hz. check_bounds; [by left|right].
  destruct (buf_extend C b (ztake n rnd) Hb) as (m & -> & Hwf & Hd); [by apply Forall_take|lia|].
  rewrite Hz in Hwf, Hd. eexists; split; [done|]. by rewrite Hd.
Qed.

Lemma refines_appendCString s : op_args C (OpAppendCString s) -> op_refines C b (OpAppendCString s).
Proof. intros [Hs H0]. unfold op_refines, op_spec, buf_exec. rewrite Hlen. by apply appendCString_loop. Qed.

Lemma refines_append_buffer C2 o : op_args C (OpAppendBuffer C2 o) -> op_refines C b (OpAppendBuffer C2 o).
Proof. intros [[] Hw]. apply (refines_append (b_mem o) (b_len o)). split_and!; [done|lia..]. Qed.

Lemma refines_assign C2 o : op_args C (OpAssign C2 o) -> op_refines C b (OpAssign C2 o).
Proof.
  intros Ho. pose proof Ho as []. unfold op_refines, op_spec, buf_exec, Buffer_assign.
  destruct (Z.eqb_spec C2 C) as [->|Hne]; [check_bounds; right; by exists o|].
  apply (refines_copyFrom (b_mem o) (b_len o)). split; [done|lia].
Qed.

Lemma refines_all op : op_args C op -> op_refines C b op.
Proof.
  destruct op; intros Ha.
  - by apply refines_set_index.
  - by apply refines_setAt.
  - apply refines_append_int.
  - by apply refines_append_run.
  - by apply refines_append.
  - by apply refines_copyFrom.
  - by apply refines_appendField.
  - by apply refines_addSize.
  - by apply refines_setSize.
  - by apply refines_behead.
  - by apply refines_erase.
  - right. eexists; split; [done|]. split; [|done]. apply setlen_wf; [done|]. destruct Hb. lia.
  - apply refines_zero.
  - apply refines_zeroUnused.
  - apply refines_burn.
  - by apply refines_appendRandom.
  - by apply refines_appendCString.
  - by apply refines_append_buffer.
  - by apply refines_assign.
Qed.

End Ops_refine.

Lemma erase_wrap C b at_ length :
  buf_wf C b -> in_range 32 at_ -> in_range 32 length ->
  C <= at_ -> 2 ^ 32 <= at_ + length < 2 ^ 32 + b_len b -> Buffer_erase b at_ length = Undef.
Proof.
  intros [] Ha Hl Hc Hw. unfold Buffer_erase. unfold in_range in *.
  assert (He : u32 (at_ + length) = at_ + length - 2 ^ 32).
  { unfold u32, wrap. symmetry. apply Z.mod_unique with 1; lia. }
  rewrite He. check_bounds.
  rewrite (u32_id (_ - (_ - _))) by (unfold in_range; lia). 
  rewrite mem_read_Ok by lia. cbn [outcome_bind mbind]. unfold mem_write.
  rewrite zlen_slice by lia. by rewrite (proj2 (Z.leb_gt (at_ + _) _)), andb_false_r by lia.
Qed.

(** Well-formedness of a literal buffer. *)
(** A buffer of the given capacity over zeroed storage. *)
Lemma buf_wf_zeros n : Z.of_nat n < 2 ^ 32 -> buf_wf (Z.of_nat n) (mkBuffer (replicate n 0) 0).
Proof.
  intros Hn. split; cbn [b_mem b_len]; [|by apply Forall_replicate|lia|done].
  unfold zlen. by rewrite length_replicate.
Qed.

Ltac buf_literal := split; cbn; [done|by rewrite !Forall_cons|done|done].

(** ** Properties *)

(** C10: every operation that changes a Buffer, assignment and the appends of strings, random
    bytes and buffers included, run on a well-formed buffer with arguments whose [unsigned int]
    sums do not wrap, either throws OUT_OF_BOUNDS exactly when
    the specification has no result, or leaves a well-formed buffer whose bytes are
    the specified ones; no operation reads or writes outside the array. *)
Theorem Buffer_op_refines C b op : buf_wf C b -> op_args C op -> op_refines C b op.
Proof. intros Hb Ha. by apply refines_all. Qed.

Lemma Buffer_op_refines_witness :
  op_refines 8 (mkBuffer [1; 2; 3; 4; 5; 0; 0; 0] 5) (OpErase 1 2) /\
  op_refines 8 (mkBuffer [1; 2; 3; 4; 5; 0; 0; 0] 5) (OpAppendInt 4 258) /\
  op_refines 8 (mkBuffer [1; 2; 3; 4; 5; 0; 0; 0] 5) (OpAppendCString [104; 105; 0; 7]).
Proof.
  assert (Hb : buf_wf 8 (mkBuffer [1; 2; 3; 4; 5; 0; 0; 0] 5)).
  { buf_literal. }
  split_and!; apply (Buffer_op_refines 8 _ _ Hb); [done..|]. split; [by rewrite !Forall_cons|]. by rewrite !elem_of_cons; right; right; left.
Defined.

(** an integer of [n] bytes appended to a buffer is read back by [at] from the
    offset it was appended at, reduced to its width, and every integer that could be
    read before is unchanged. *)
Theorem Buffer_int_roundtrip C b n v b' :
  buf_wf C b -> Buffer_append_int C b n v = Ok b' ->
  Buffer_at b' n (b_len b) = Ok (wrap (8 * Z.of_nat n) v) /\
  forall k i, 0 <= i -> i + Z.of_nat k <= b_len b -> Buffer_at b' k i = Buffer_at b k i.
Proof.
  intros Hb Ha.
  assert (Hl : b_len b + Z.of_nat n <= C).
  { revert Ha. unfold Buffer_append_int. check_bounds; done. }
  destruct (append_int_Ok C b n v Hb Hl) as (b1 & Heq & Hwf & Hd).
  rewrite Ha in Heq. injection Heq as <-. pose proof (zlen_buf_data C b Hb) as H0.
  assert (Hn : b_len b' = b_len b + Z.of_nat n).
  { rewrite <- (zlen_buf_data C b' Hwf), Hd, zlen_app, zlen_be_bytes. lia. }
  pose proof (bw_len _ _ Hb). split.
  - rewrite (at_Ok C) by (done || lia). rewrite Hd, slice_app_r by lia.
    rewrite H0, Z.sub_diag, slice_0, ztake_all by (rewrite zlen_be_bytes; lia).
    by rewrite be_val_be_bytes.
  - intros k i Hi Hk. rewrite !(at_Ok C) by (done || lia). by rewrite Hd, slice_app_l by lia.
Qed.

Lemma Buffer_int_roundtrip_witness :
  Buffer_at (mkBuffer [7; 1; 2; 0] 3) 2 1 = Ok 258.
Proof.
  refine (proj1 (Buffer_int_roundtrip 4 (mkBuffer [7; 0; 0; 0] 1) 2 65794 _ _ _)); [|reflexivity].
  buf_literal.
Defined.

(** when offset and length of an erase sum past 2^32 the check passes on the
    wrapped sum and the move writes outside the array, although the header promises an
    exception on every boundary violation. *)
Theorem Buffer_erase_wraps C b at_ length :
  buf_wf C b -> in_range 32 at_ -> in_range 32 length ->
  C <= at_ -> 2 ^ 32 <= at_ + length < 2 ^ 32 + b_len b -> Buffer_erase b at_ length = Undef.
Proof. apply erase_wrap. Qed.

Lemma Buffer_erase_wraps_witness :
  Buffer_erase (mkBuffer [1; 2; 3; 4] 3) (2 ^ 32 - 1) 2 = Undef.
Proof.
  apply (Buffer_erase_wraps 4); [|done|done|lia|cbn; lia].
  buf_literal.
Defined.
