(* ===== verification/Addressing.v ===== *)
(** ZeroTier addresses, Ethernet MACs and the mapping between them, from
    node/Address.hpp and node/MAC.hpp of ZeroTierOne.

    [Address] and [MAC] each hold one [uint64_t]; here both are the integer itself.
    Raw bytes are lists of byte values; a pointer that is read past the end of its
    block is [Undef]. *)
From stdpp Require Import base list numbers option.
From S2P Require Import Prelude.
From S2P Require Import Utils.
From S2P Require Import Buffer.

Local Open Scope Z_scope.

Definition ZT_ADDRESS_LENGTH : Z := 5.
Definition ZT_ADDRESS_RESERVED_PREFIX : Z := 0xff.

(** ** Address *)

Definition Address_of_int (a : Z) : Z := Z.land a 0xffffffffff.

Definition Address_setTo (bits : list Z) (len : Z) : outcome Z :=
  if len <? ZT_ADDRESS_LENGTH then Ok 0 else
  b0 ← load bits 0; let a := Z.shiftl b0 32 in
  b1 ← load bits 1; let a := Z.lor a (Z.shiftl b1 24) in
  b2 ← load bits 2; let a := Z.lor a (Z.shiftl b2 16) in
  b3 ← load bits 3; let a := Z.lor a (Z.shiftl b3 8) in
  b4 ← load bits 4; Ok (Z.lor a b4).

(** The five bytes both [copyTo] and [appendTo] store. *)
Definition Address_bytes (a : Z) : list Z :=
  [Z.land (Z.shiftr a 32) 0xff; Z.land (Z.shiftr a 24) 0xff; Z.land (Z.shiftr a 16) 0xff;
   Z.land (Z.shiftr a 8) 0xff; Z.land a 0xff].

Definition Address_copyTo (a : Z) (bits : list Z) (len : Z) : outcome (list Z) :=
  if len <? ZT_ADDRESS_LENGTH then Ok bits else mem_write bits 0 (Address_bytes a).

Definition Address_appendTo (C : Z) (a : Z) (b : Buffer) : outcome Buffer :=
  '(b, p) ← Buffer_appendField C b ZT_ADDRESS_LENGTH;
  m ← mem_write (b_mem b) p (Address_bytes a);
  Ok (mkBuffer m (b_len b)).

Definition Address_toInt (a : Z) : Z := a.
Definition Address_hashCode (a : Z) : Z := a.
Definition Address_toString (a : Z) : outcome (list Z) := Utils_hex10 a.
Definition Address_bool (a : Z) : bool := negb (a =? 0).

Definition Address_isReserved (a : Z) : bool :=
  (a =? 0) || (Z.shiftr a 32 =? ZT_ADDRESS_RESERVED_PREFIX).

(** [operator[]]: the shift amount is computed in [unsigned int]; a shift by 64 or more
    is undefined. *)
Definition Address_index (a i : Z) : outcome Z :=
  let sh := u32 (32 - u32 (i * 8)) in
  if sh <? 64 then Ok (Z.land (Z.shiftr a sh) 0xff) else Undef.

(** ** MAC *)

Definition MAC_of_bytes (a b c d e f : Z) : Z :=
  Z.lor (Z.lor (Z.lor (Z.lor (Z.lor (Z.shiftl (Z.land a 0xff) 40) (Z.shiftl (Z.land b 0xff) 32))
    (Z.shiftl (Z.land c 0xff) 24)) (Z.shiftl (Z.land d 0xff) 16)) (Z.shiftl (Z.land e 0xff) 8))
    (Z.land f 0xff).

Definition MAC_of_int (m : Z) : Z := Z.land m 0xffffffffffff.

(** [operator=(const uint64_t)] keeps all 64 bits. *)
Definition MAC_assign_int (m : Z) : Z := m.

Definition MAC_setTo (bits : list Z) (len : Z) : outcome Z :=
  if len <? 6 then Ok 0 else
  b0 ← load bits 0; let m := Z.shiftl (Z.land b0 0xff) 40 in
  b1 ← load bits 1; let m := Z.lor m (Z.shiftl (Z.land b1 0xff) 32) in
  b2 ← load bits 2; let m := Z.lor m (Z.shiftl (Z.land b2 0xff) 24) in
  b3 ← load bits 3; let m := Z.lor m (Z.shiftl (Z.land b3 0xff) 16) in
  b4 ← load bits 4; let m := Z.lor m (Z.shiftl (Z.land b4 0xff) 8) in
  b5 ← load bits 5; Ok (Z.lor m (Z.land b5 0xff)).

Definition MAC_bytes (m : Z) : list Z :=
  [Z.land (Z.shiftr m 40) 0xff; Z.land (Z.shiftr m 32) 0xff; Z.land (Z.shiftr m 24) 0xff;
   Z.land (Z.shiftr m 16) 0xff; Z.land (Z.shiftr m 8) 0xff; Z.land m 0xff].

Definition MAC_copyTo (m : Z) (buf : list Z) (len : Z) : outcome (list Z) :=
  if len <? 6 then Ok buf else mem_write buf 0 (MAC_bytes m).

Definition MAC_appendTo (C : Z) (m : Z) (b : Buffer) : outcome Buffer :=
  '(b, p) ← Buffer_appendField C b 6;
  mem ← mem_write (b_mem b) p (MAC_bytes m);
  Ok (mkBuffer mem (b_len b)).

Definition MAC_bool (m : Z) : bool := negb (m =? 0).
Definition MAC_isBroadcast (m : Z) : bool := m =? 0xffffffffffff.
Definition MAC_isMulticast (m : Z) : bool := negb (Z.land m 0x010000000000 =? 0).
Definition MAC_isLocallyAdministered (m : Z) : bool := negb (Z.land m 0x020000000000 =? 0).

Definition MAC_firstOctetForNetwork (nwid : Z) : Z :=
  let a := Z.lor (Z.land nwid 0xfe) 0x02 in
  if a =? 0x52 then 0x32 else a.

Definition MAC_fromAddress (ztaddr nwid : Z) : Z :=
  let m := Z.shiftl (MAC_firstOctetForNetwork nwid) 40 in
  let m := Z.lor m (Address_toInt ztaddr) in
  let m := Z.lxor m (Z.shiftl (Z.land (Z.shiftr nwid 8) 0xff) 32) in
  let m := Z.lxor m (Z.shiftl (Z.land (Z.shiftr nwid 16) 0xff) 24) in
  let m := Z.lxor m (Z.shiftl (Z.land (Z.shiftr nwid 24) 0xff) 16) in
  let m := Z.lxor m (Z.shiftl (Z.land (Z.shiftr nwid 32) 0xff) 8) in
  let m := Z.lxor m (Z.land (Z.shiftr nwid 40) 0xff) in
  m.

Definition MAC_toAddress (m nwid : Z) : Z :=
  let a := Z.land m 0xffffffffff in
  let a := Z.lxor a (Z.shiftl (Z.land (Z.shiftr nwid 8) 0xff) 32) in
  let a := Z.lxor a (Z.shiftl (Z.land (Z.shiftr nwid 16) 0xff) 24) in
  let a := Z.lxor a (Z.shiftl (Z.land (Z.shiftr nwid 24) 0xff) 16) in
  let a := Z.lxor a (Z.shiftl (Z.land (Z.shiftr nwid 32) 0xff) 8) in
  let a := Z.lxor a (Z.land (Z.shiftr nwid 40) 0xff) in
  Address_of_int a.

Definition MAC_index (m i : Z) : outcome Z :=
  let sh := u32 (40 - u32 (i * 8)) in
  if sh <? 64 then Ok (Z.land (Z.shiftr m sh) 0xff) else Undef.

Definition MAC_hashCode (m : Z) : Z := m.

Definition MAC_toString (m : Z) : outcome (list Z) :=
  c0 ← hexdigit m 44; c1 ← hexdigit m 40;
  c3 ← hexdigit m 36; c4 ← hexdigit m 32;
  c6 ← hexdigit m 28; c7 ← hexdigit m 24;
  c9 ← hexdigit m 20; c10 ← hexdigit m 16;
  c12 ← hexdigit m 12; c13 ← hexdigit m 8;
  c15 ← hexdigit m 4; c16 ← hexdigit m 0;
  Ok [c0; c1; 58; c3; c4; 58; c6; c7; 58; c9; c10; 58; c12; c13; 58; c15; c16; 0].

(** ** Byte forms *)

Lemma Address_bytes_be a : Address_bytes a = be_bytes 5 a.
Proof. unfold be_bytes; cbn. by rewrite !Z.shiftr_shiftr by lia. Qed.

Lemma MAC_bytes_be m : MAC_bytes m = be_bytes 6 m.
Proof. unfold be_bytes; cbn. by rewrite !Z.shiftr_shiftr by lia. Qed.

(** A mask that covers a byte leaves it alone. *)
Lemma land_byte b : is_byte b -> Z.land b 0xff = b.
Proof. intros. rewrite land_255. apply Z.mod_small. done. Qed.

Lemma setTo_be_val b0 b1 b2 b3 b4 rest len :
  Forall is_byte [b0; b1; b2; b3; b4] -> 5 <= len ->
  Address_setTo (b0 :: b1 :: b2 :: b3 :: b4 :: rest) len = Ok (be_val [b0; b1; b2; b3; b4]).
Proof.
  rewrite !Forall_cons. intros (H0 & H1 & H2 & H3 & H4 & _) Hl. unfold Address_setTo.
  rewrite (proj2 (Z.ltb_ge _ _)) by done.
  load_lit. f_equal.
  unfold in_range in *. rewrite !Z.shiftl_mul_pow2 by lia.
  rewrite (lor_cat 32 (_ * _)), (lor_cat 24 (_ + _)), (lor_cat 16 (_ + _)), (lor_cat 8 (_ + _))
    by lor_side.
  unfold be_val. cbn -[Z.mul Z.add]. lia.
Qed.

Lemma MAC_setTo_be_val b0 b1 b2 b3 b4 b5 rest len :
  Forall is_byte [b0; b1; b2; b3; b4; b5] -> 6 <= len ->
  MAC_setTo (b0 :: b1 :: b2 :: b3 :: b4 :: b5 :: rest) len = Ok (be_val [b0; b1; b2; b3; b4; b5]).
Proof.
  rewrite !Forall_cons. intros (H0 & H1 & H2 & H3 & H4 & H5 & _) Hl. unfold MAC_setTo.
  rewrite (proj2 (Z.ltb_ge _ _)) by done.
  load_lit. f_equal.
  rewrite !land_byte by done. unfold in_range in *. rewrite !Z.shiftl_mul_pow2 by lia.
  rewrite (lor_cat 40 (_ * _)), (lor_cat 32 (_ + _)), (lor_cat 24 (_ + _)), (lor_cat 16 (_ + _)),
    (lor_cat 8 (_ + _)) by lor_side.
  unfold be_val. cbn -[Z.mul Z.add]. lia.
Qed.

(** [copyTo] after [setTo] and conversely. *)
Lemma Address_setTo_bytes a rest len :
  in_range 40 a -> 5 <= len -> Address_setTo (Address_bytes a ++ rest) len = Ok a.
Proof.
  intros Ha Hl. pose proof (be_bytes_bytes 5 a) as Hb. rewrite <- Address_bytes_be in Hb.
  unfold Address_bytes at 1. cbn [app]. rewrite setTo_be_val by done.
  fold (Address_bytes a). by rewrite Address_bytes_be, be_val_be_bytes_id.
Qed.

Lemma MAC_setTo_bytes m rest len :
  in_range 48 m -> 6 <= len -> MAC_setTo (MAC_bytes m ++ rest) len = Ok m.
Proof.
  intros Ha Hl. pose proof (be_bytes_bytes 6 m) as Hb. rewrite <- MAC_bytes_be in Hb.
  unfold MAC_bytes at 1. cbn [app]. rewrite MAC_setTo_be_val by done.
  fold (MAC_bytes m). by rewrite MAC_bytes_be, be_val_be_bytes_id.
Qed.

(** Storing a field reserved by [appendField] is an append. *)
Lemma appendField_store C b l d :
  buf_wf C b -> Forall is_byte d -> zlen d = l -> b_len b + l <= C ->
  exists b', ('(b, p) ← Buffer_appendField C b l;
              m ← mem_write (b_mem b) p d; Ok (mkBuffer m (b_len b))) = Ok b' /\
    buf_wf C b' /\ buf_data b' = buf_data b ++ d.
Proof.
  intros Hb Hd Hl Hle. unfold Buffer_appendField. pose proof Hb as []. pose proof (zlen_nonneg d).
  rewrite u32_id by (unfold in_range; lia). unfold bounds_check.
  rewrite (proj2 (Z.ltb_ge _ _)) by lia. cbn -[Z.add].
  destruct (buf_extend C b d) as (m & -> & Hwf & He); [done|done|lia|].
  rewrite Hl in Hwf, He. cbn -[Z.add]. eauto.
Qed.

Lemma Address_appendTo_Ok C a b :
  buf_wf C b -> b_len b + 5 <= C ->
  exists b', Address_appendTo C a b = Ok b' /\ buf_wf C b' /\ buf_data b' = buf_data b ++ be_bytes 5 a.
Proof.
  intros Hb Hl. unfold Address_appendTo. rewrite Address_bytes_be.
  apply appendField_store; [done|apply be_bytes_bytes|done|done].
Qed.

Lemma MAC_appendTo_Ok C m b :
  buf_wf C b -> b_len b + 6 <= C ->
  exists b', MAC_appendTo C m b = Ok b' /\ buf_wf C b' /\ buf_data b' = buf_data b ++ be_bytes 6 m.
Proof.
  intros Hb Hl. unfold MAC_appendTo. rewrite MAC_bytes_be.
  apply appendField_store; [done|apply be_bytes_bytes|done|done].
Qed.

(** ** MAC and address *)

(** The mask both directions xor in: bytes 1 to 5 of the network ID. *)
Definition nwid_mask (nwid : Z) : Z :=
  Z.lxor (Z.shiftl (Z.land (Z.shiftr nwid 8) 0xff) 32)
  (Z.lxor (Z.shiftl (Z.land (Z.shiftr nwid 16) 0xff) 24)
  (Z.lxor (Z.shiftl (Z.land (Z.shiftr nwid 24) 0xff) 16)
  (Z.lxor (Z.shiftl (Z.land (Z.shiftr nwid 32) 0xff) 8)
          (Z.land (Z.shiftr nwid 40) 0xff)))).

Lemma nwid_mask_range nwid : in_range 40 (nwid_mask nwid).
Proof.
  unfold nwid_mask.
  repeat (apply in_range_lxor; [lia| |]);
    try (apply in_range_shiftl; [lia|lia|eapply in_range_weaken; [|apply is_byte_land]; lia]).
  eapply in_range_weaken; [|apply is_byte_land]. lia.
Qed.

Lemma fromAddress_mask a nwid :
  MAC_fromAddress a nwid =
  Z.lxor (Z.lor (Z.shiftl (MAC_firstOctetForNetwork nwid) 40) a) (nwid_mask nwid).
Proof. unfold MAC_fromAddress, nwid_mask, Address_toInt. by rewrite !Z.lxor_assoc. Qed.

Lemma toAddress_mask m nwid :
  MAC_toAddress m nwid = Z.land (Z.lxor (Z.land m 0xffffffffff) (nwid_mask nwid)) 0xffffffffff.
Proof. unfold MAC_toAddress, nwid_mask, Address_of_int. by rewrite !Z.lxor_assoc. Qed.

Lemma land_ones40 a : Z.land a 0xffffffffff = a mod 2 ^ 40.
Proof. apply (Z.land_ones a 40). lia. Qed.

Lemma firstOctet_range nwid : is_byte (MAC_firstOctetForNetwork nwid).
Proof.
  unfold MAC_firstOctetForNetwork. destruct (_ =? _); [done|].
  apply in_range_lor; [lia| |done]. change 0xfe with (Z.land 0xff 0xfe).
  rewrite Z.land_assoc. apply in_range_land; [lia|apply is_byte_land|done].
Qed.

(** The top octet is the only part above bit 40. *)
Lemma fromAddress_split a nwid :
  in_range 40 a ->
  MAC_fromAddress a nwid =
  MAC_firstOctetForNetwork nwid * 2 ^ 40 + Z.lxor a (nwid_mask nwid).
Proof.
  intros Ha. pose proof (nwid_mask_range nwid) as Hm. rewrite fromAddress_mask.
  assert (Hx : in_range 40 (Z.lxor a (nwid_mask nwid))) by (apply in_range_lxor; done || lia).
  rewrite <- (lor_cat 40), <- Z.shiftl_mul_pow2 by (try done; try lia; apply Z.mod_mul; lia).
  bitwise i. destruct (Z.lt_ge_cases i 40).
  - by rewrite !(Z.testbit_neg_r _ (i - 40)) by lia.
  - by rewrite !(testbit_high 40 a), !(testbit_high 40 (nwid_mask nwid)), xorb_false_r by done.
Qed.

Lemma fromAddress_range a nwid : in_range 40 a -> in_range 48 (MAC_fromAddress a nwid).
Proof.
  intros Ha. rewrite fromAddress_split by done.
  pose proof (firstOctet_range nwid). pose proof (nwid_mask_range nwid) as Hm.
  pose proof (in_range_lxor 40 a (nwid_mask nwid) ltac:(lia) Ha Hm). unfold in_range in *. lia.
Qed.

Lemma toAddress_fromAddress a nwid : in_range 40 a -> MAC_toAddress (MAC_fromAddress a nwid) nwid = a.
Proof.
  intros Ha. pose proof (nwid_mask_range nwid) as Hm.
  assert (Hx : in_range 40 (Z.lxor a (nwid_mask nwid))) by (apply in_range_lxor; done || lia).
  rewrite toAddress_mask, fromAddress_split, !land_ones40 by done.
  rewrite (Z.add_comm (_ * _)), Z.mod_add, (Z.mod_small (Z.lxor a _)) by (done || lia).
  rewrite Z.lxor_assoc, Z.lxor_nilpotent, Z.lxor_0_r. by apply Z.mod_small.
Qed.

(** The first octet: bit 1 set, bit 0 clear, and never 0x52. *)
Lemma firstOctet_spec nwid :
  let o := MAC_firstOctetForNetwork nwid in
  Z.testbit o 0 = false /\ Z.testbit o 1 = true /\ o <> 0x52.
Proof.
  intros o. unfold o, MAC_firstOctetForNetwork. destruct (Z.eqb_spec (Z.lor (Z.land nwid 0xfe) 0x02) 0x52).
  - done.
  - rewrite !Z.lor_spec, !Z.land_spec. change (Z.testbit 0xfe 0) with false.
    change (Z.testbit 0x02 0) with false. change (Z.testbit 0x02 1) with true.
    rewrite andb_false_r, orb_true_r. done.
Qed.

(** Reading a flag of the first octet of a MAC. *)
Lemma flag_octet o x k :
  in_range 40 x -> 0 <= k -> Z.testbit (o * 2 ^ 40 + x) (40 + k) = Z.testbit o k.
Proof.
  intros Hx Hk. rewrite <- (lor_cat 40) by (try done; try lia; apply Z.mod_mul; lia).
  rewrite Z.lor_spec, (testbit_high 40 x), orb_false_r by (done || lia).
  rewrite Z.mul_pow2_bits by lia. f_equal. lia.
Qed.

Lemma land_pow2_testbit m k : 0 <= k -> negb (Z.land m (2 ^ k) =? 0) = Z.testbit m k.
Proof.
  intros Hk. destruct (Z.testbit m k) eqn:Ht.
  - apply negb_true_iff, Z.eqb_neq. intros H.
    assert (Hf : Z.testbit (Z.land m (2 ^ k)) k = false) by (rewrite H; apply Z.bits_0).
    by rewrite Z.land_spec, Ht, Z.pow2_bits_true in Hf by done.
  - apply negb_false_iff, Z.eqb_eq. bitwise i. rewrite Z.pow2_bits_eqb by lia.
    destruct (Z.eqb_spec k i) as [<-|]; [by rewrite Ht|apply andb_false_r].
Qed.

Lemma fromAddress_flags a nwid :
  in_range 40 a ->
  let m := MAC_fromAddress a nwid in
  MAC_isMulticast m = false /\ MAC_isLocallyAdministered m = true /\ Z.shiftr m 40 <> 0x52.
Proof.
  intros Ha m. unfold m, MAC_isMulticast, MAC_isLocallyAdministered.
  change 0x010000000000 with (2 ^ (40 + 0)). change 0x020000000000 with (2 ^ (40 + 1)).
  rewrite !land_pow2_testbit by lia. rewrite fromAddress_split by done.
  assert (Hx : in_range 40 (Z.lxor a (nwid_mask nwid)))
    by (apply in_range_lxor; [lia|done|apply nwid_mask_range]).
  rewrite !flag_octet by (done || lia). destruct (firstOctet_spec nwid) as (-> & -> & Ho).
  split_and!; [done|done|]. rewrite Z.shiftr_div_pow2, Z.div_add_l by lia.
  rewrite (Z.div_small (Z.lxor _ _)) by done. lia.
Qed.

(** ** Properties *)

(** the MAC derived from an address and a network ID is a 48-bit unicast, locally
    administered MAC whose first octet is not 0x52, and toAddress with the same network
    ID gives the address back. *)
Theorem MAC_fromAddress_correct a nwid :
  in_range 40 a ->
  let m := MAC_fromAddress a nwid in
  in_range 48 m /\ MAC_isMulticast m = false /\ MAC_isLocallyAdministered m = true /\
  Z.shiftr m 40 <> 0x52 /\ MAC_toAddress m nwid = a.
Proof.
  intros Ha m. destruct (fromAddress_flags a nwid Ha) as (H1 & H2 & H3).
  split_and!; [by apply fromAddress_range|done|done|done|by apply toAddress_fromAddress].
Qed.

Lemma MAC_fromAddress_correct_witness :
  MAC_toAddress (MAC_fromAddress 0x89e92ceee5 0x8056c2e21c000001) 0x8056c2e21c000001 = 0x89e92ceee5.
Proof. apply (MAC_fromAddress_correct 0x89e92ceee5 0x8056c2e21c000001). done. Defined.

(** an address or MAC appended to a buffer takes five or six bytes in big-endian
    order, and setTo on those bytes gives the same value back. *)
Theorem Address_MAC_wire_roundtrip C b a m :
  buf_wf C b -> in_range 40 a -> in_range 48 m -> b_len b + 11 <= C ->
  exists b1 b2, Address_appendTo C a b = Ok b1 /\ MAC_appendTo C m b1 = Ok b2 /\ buf_wf C b2 /\
    Address_setTo (zdrop (b_len b) (buf_data b2)) 5 = Ok a /\
    MAC_setTo (zdrop (b_len b + 5) (buf_data b2)) 6 = Ok m.
Proof.
  intros Hb Ha Hm Hl. pose proof (zlen_buf_data C b Hb) as H0.
  destruct (Address_appendTo_Ok C a b Hb) as (b1 & E1 & Hb1 & D1); [lia|].
  assert (H1 : b_len b1 = b_len b + 5).
  { rewrite <- (zlen_buf_data C b1 Hb1), D1, zlen_app, zlen_be_bytes. lia. }
  destruct (MAC_appendTo_Ok C m b1 Hb1) as (b2 & E2 & Hb2 & D2); [lia|].
  exists b1, b2. split_and!; [done..| |].
  - rewrite D2, D1, <- app_assoc, zdrop_app_exact by done.
    rewrite <- Address_bytes_be. by apply Address_setTo_bytes.
  - rewrite D2, zdrop_app_exact by (rewrite (zlen_buf_data C b1); done || lia).
    rewrite <- MAC_bytes_be, <- (app_nil_r (MAC_bytes m)). by apply MAC_setTo_bytes.
Qed.

Lemma Address_MAC_wire_roundtrip_witness :
  exists b1 b2, Address_appendTo 16 258 (mkBuffer (replicate 16 0) 0) = Ok b1 /\
    MAC_appendTo 16 772 b1 = Ok b2 /\
    MAC_setTo (zdrop 5 (buf_data b2)) 6 = Ok 772.
Proof.
  destruct (Address_MAC_wire_roundtrip 16 (mkBuffer (replicate 16 0) 0) 258 772)
    as (b1 & b2 & E1 & E2 & _ & _ & E3); [buf_literal|done|done|done|].
  exists b1, b2. exact (conj E1 (conj E2 E3)).
Defined.
