(* ===== verification/Wire.v ===== *)
(** Writers and readers of wire formats.

    Every [serialize] of the source is a sequence of appends to a [Buffer], every
    [deserialize] a sequence of bounds-checked reads at an advancing index.  [appends]
    says what a writer adds and that it throws, and does nothing worse, when the
    buffer is full; [has_at] says that given bytes are found at an index.  The round
    trips of the other files are compositions of the lemmas here. *)
From S2P Require Import Prelude.
From S2P Require Import Utils.
From S2P Require Import Buffer.
From S2P Require Import Addressing.

(** [memcpy(dst, b.field(i, l), l)]: the bytes copied. *)
Definition Buffer_read_field (b : Buffer) (i l : Z) : outcome (list Z) :=
  p ← Buffer_field b i l; mem_read (b_mem b) p l.

(** [a.setTo(b.field(i,5),5)] and [m.setTo(b.field(i,6),6)]. *)
Definition Buffer_read_address (b : Buffer) (i : Z) : outcome Z :=
  bs ← Buffer_read_field b i 5; Address_setTo bs 5.
Definition Buffer_read_mac (b : Buffer) (i : Z) : outcome Z :=
  bs ← Buffer_read_field b i 6; MAC_setTo bs 6.

(** ** Writers *)

Section Writers.
Context (C : Z).

Definition appends (f : Buffer -> outcome Buffer) (d : list Z) : Prop :=
  Forall is_byte d /\
  forall b, buf_wf C b ->
    if b_len b + zlen d <=? C
    then exists b', f b = Ok b' /\ buf_wf C b' /\ buf_data b' = buf_data b ++ d
    else f b = Throw OUT_OF_BOUNDS.

Lemma appends_ret : appends Ok [].
Proof.
  split; [done|]. intros b Hb. change (zlen []) with 0. pose proof Hb as [].
  rewrite (proj2 (Z.leb_le _ _)) by lia. exists b. by rewrite app_nil_r.
Qed.

Lemma appends_len f d b b' :
  appends f d -> buf_wf C b -> f b = Ok b' ->
  buf_wf C b' /\ buf_data b' = buf_data b ++ d /\ b_len b' = b_len b + zlen d.
Proof.
  intros [_ Hf] Hb Heq. specialize (Hf b Hb). rewrite Heq in Hf.
  destruct (_ <=? _); [|done]. destruct Hf as (b1 & [= <-] & Hb1 & Hd). split; [done|].
  split; [done|]. rewrite <- (zlen_buf_data C b' Hb1), Hd, zlen_app.
  by rewrite (zlen_buf_data C b Hb).
Qed.

Lemma appends_bind f g d1 d2 :
  appends f d1 -> appends g d2 -> appends (fun b => f b ≫= g) (d1 ++ d2).
Proof.
  intros Hf Hg. split; [by apply Forall_app; split; [apply Hf|apply Hg]|]. intros b Hb.
  rewrite zlen_app. pose proof (proj2 Hf b Hb) as Hfb. pose proof (zlen_nonneg d2).
  destruct (Z.leb_spec (b_len b + zlen d1) C).
  - destruct Hfb as (b1 & Heq & Hb1 & Hd1). destruct (appends_len f d1 b b1) as (_ & _ & Hl1); [done..|].
    pose proof (proj2 Hg b1 Hb1) as Hgb. rewrite Heq. cbn [mbind outcome_bind].
    rewrite Hl1, <- Z.add_assoc in Hgb. destruct (_ <=? C); [|done].
    destruct Hgb as (b2 & -> & Hb2 & Hd2). exists b2. split; [done|]. split; [done|].
    by rewrite Hd2, Hd1, app_assoc.
  - rewrite Hfb. by rewrite (proj2 (Z.leb_gt _ _)) by lia.
Qed.

Lemma appends_ext f g d : (forall b, f b = g b) -> appends f d -> appends g d.
Proof. intros H [Hb Hf]. split; [done|]. intros b. rewrite <- H. apply Hf. Qed.

Lemma appends_int n v : appends (fun b => Buffer_append_int C b n v) (be_bytes n v).
Proof.
  split; [apply be_bytes_bytes|]. intros b Hb.
  destruct (refines_append_int C b Hb n v) as [[H1 H2]|(b' & H1 & Hwf & H2)];
    unfold op_spec, buf_exec in *; rewrite (zlen_buf_data C b Hb) in H2;
    destruct (_ <=? C); simplify_eq; eauto.
Qed.

Lemma appends_raw src l :
  Forall is_byte src -> 0 <= l <= zlen src -> C + l < 2 ^ 32 ->
  appends (fun b => Buffer_append C b src l) (ztake l src).
Proof.
  intros Hs Hl Hw. split; [by apply Forall_take|]. intros b Hb.
  destruct (refines_append C b Hb src l) as [[H1 H2]|(b' & H1 & Hwf & H2)]; [done|..];
    unfold op_spec, buf_exec in *; rewrite (zlen_buf_data C b Hb) in H2;
    destruct (_ <=? C); simplify_eq; eauto.
Qed.

Lemma appends_whole src l :
  Forall is_byte src -> zlen src = l -> C + l < 2 ^ 32 ->
  appends (fun b => Buffer_append C b src l) src.
Proof.
  intros Hs Hl Hw. pose proof (appends_raw src l Hs) as H. rewrite ztake_all in H by lia.
  pose proof (zlen_nonneg src). apply H; lia.
Qed.

Lemma appends_run c n :
  is_byte c -> 0 <= n -> C + n < 2 ^ 32 ->
  appends (fun b => Buffer_append_run C b c n) (replicate (Z.to_nat n) c).
Proof.
  intros Hc Hn Hw. split; [by apply Forall_replicate|]. intros b Hb.
  destruct (refines_append_run C b Hb c n) as [[H1 H2]|(b' & H1 & Hwf & H2)]; [done|..];
    unfold op_spec, buf_exec in *; rewrite (zlen_buf_data C b Hb) in H2;
    destruct (_ <=? C); simplify_eq; eauto.
Qed.

Lemma appends_field l d :
  Forall is_byte d -> zlen d = l -> C + l < 2 ^ 32 ->
  appends (fun b => '(b, p) ← Buffer_appendField C b l;
                    m ← mem_write (b_mem b) p d; Ok (mkBuffer m (b_len b))) d.
Proof.
  intros Hd Hl Hw. split; [done|]. intros b Hb. pose proof (zlen_nonneg d). pose proof Hb as [].
  destruct (Z.leb_spec (b_len b + zlen d) C).
  - apply appendField_store; done || lia.
  - unfold Buffer_appendField, bounds_check. rewrite u32_id by (unfold in_range; lia).
    by rewrite (proj2 (Z.ltb_lt _ _)) by lia.
Qed.

Lemma appends_address a : C + 5 < 2 ^ 32 -> appends (Address_appendTo C a) (be_bytes 5 a).
Proof.
  intros Hw. rewrite <- Address_bytes_be.
  apply appends_field; [rewrite Address_bytes_be; apply be_bytes_bytes|done|done].
Qed.

Lemma appends_mac m : C + 6 < 2 ^ 32 -> appends (MAC_appendTo C m) (be_bytes 6 m).
Proof.
  intros Hw. rewrite <- MAC_bytes_be.
  apply appends_field; [rewrite MAC_bytes_be; apply be_bytes_bytes|done|done].
Qed.

(** Writers run over a list. *)
Fixpoint write_all {A} (f : A -> Buffer -> outcome Buffer) (xs : list A) (b : Buffer) : outcome Buffer :=
  match xs with
  | [] => Ok b
  | x :: xs => f x b ≫= write_all f xs
  end.

Lemma appends_all {A} (f : A -> Buffer -> outcome Buffer) (enc : A -> list Z) xs :
  Forall (fun x => appends (f x) (enc x)) xs -> appends (write_all f xs) (mjoin (enc <$> xs)).
Proof.
  induction 1 as [|x xs Hx Hxs IH]; [apply appends_ret|]. cbn [fmap list_fmap mjoin list_join].
  by apply (appends_bind (f x)).
Qed.

End Writers.

(** ** Readers *)

(** The bytes [d] are in the buffer's data at index [i]. *)
Definition has_at (b : Buffer) (i : Z) (d : list Z) : Prop :=
  0 <= i /\ exists pre post, buf_data b = pre ++ d ++ post /\ zlen pre = i.

Section Readers.
Context (C : Z) (b : Buffer) (Hb : buf_wf C b).

Lemma has_at_app i d1 d2 : has_at b i (d1 ++ d2) -> has_at b i d1 /\ has_at b (i + zlen d1) d2.
Proof.
  intros (Hi & pre & post & Hd & Hp). pose proof (zlen_nonneg d1). split.
  - split; [done|]. exists pre, (d2 ++ post). by rewrite Hd, <- app_assoc.
  - split; [lia|]. exists (pre ++ d1), post. rewrite Hd, zlen_app, <- !app_assoc. split; [done|lia].
Qed.

Lemma has_at_slice i d : has_at b i d -> slice i (zlen d) (buf_data b) = d /\ i + zlen d <= b_len b.
Proof.
  intros (Hi & pre & post & Hd & Hp). pose proof (zlen_nonneg post). rewrite Hd. split.
  - rewrite slice_app_r by lia. rewrite Hp, Z.sub_diag, slice_0. by apply ztake_app_exact.
  - rewrite <- (zlen_buf_data C b Hb), Hd, !zlen_app. lia.
Qed.

Lemma has_at_int i n v : has_at b i (be_bytes n v) -> Buffer_at b n i = Ok (wrap (8 * Z.of_nat n) v).
Proof.
  intros H. pose proof (has_at_slice _ _ H) as [Hs Hl]. rewrite zlen_be_bytes in Hs, Hl.
  rewrite (at_Ok C) by (done || lia || apply H). by rewrite Hs, be_val_be_bytes.
Qed.

Lemma has_at_int_id i n v :
  in_range (8 * Z.of_nat n) v -> has_at b i (be_bytes n v) -> Buffer_at b n i = Ok v.
Proof. intros Hv H. rewrite (has_at_int _ _ _ H). f_equal. by apply wrap_id. Qed.

Lemma has_at_byte i v : has_at b i [v] -> Buffer_index b i = Ok v.
Proof.
  intros H. pose proof (has_at_slice _ _ H) as [Hs Hl]. change (zlen [v]) with 1 in *.
  destruct (index_Ok C b i Hb) as (v' & -> & Hg); [destruct H; lia|]. f_equal.
  destruct H as (Hi & pre & post & Hd & Hp). rewrite Hd, zget_app in Hg.
  rewrite (proj2 (Z.ltb_ge i (zlen pre))) in Hg by lia. rewrite Hp, Z.sub_diag in Hg.
  by injection Hg.
Qed.

Lemma has_at_field i d : has_at b i d -> Buffer_read_field b i (zlen d) = Ok d.
Proof.
  intros H. pose proof (has_at_slice _ _ H) as [Hs Hl]. pose proof (zlen_nonneg d).
  destruct H as [Hi _]. unfold Buffer_read_field. rewrite (field_Ok C) by done. cbn [mbind outcome_bind].
  pose proof Hb as []. rewrite mem_read_Ok by lia. rewrite (slice_buf_data C) by done. by rewrite Hs.
Qed.

End Readers.

(** ** Reading at an advancing index *)

(** One step of a [deserialize]: what is read, the index after it, and what follows. *)
Section Steps.
Context (C : Z) (b : Buffer) (Hb : buf_wf C b).

Lemma has_at_next i n d rest :
  has_at b i (d ++ rest) -> zlen d = n -> u32 (i + n) = i + n /\ has_at b (i + n) rest.
Proof.
  intros H Hn. pose proof (has_at_slice C b Hb _ _ H) as [_ Hl].
  pose proof H as [Hi _]. apply has_at_app in H as [_ H]. rewrite Hn in H.
  pose proof (zlen_nonneg rest). pose proof (zlen_nonneg d). pose proof Hb as [].
  rewrite zlen_app in Hl. split; [|done]. apply u32_id. unfold in_range. lia.
Qed.

Lemma read_int i n v rest :
  in_range (8 * Z.of_nat n) v -> has_at b i (be_bytes n v ++ rest) ->
  Buffer_at b n i = Ok v /\ u32 (i + Z.of_nat n) = i + Z.of_nat n /\ has_at b (i + Z.of_nat n) rest.
Proof.
  intros Hv H. split; [|eapply has_at_next; [done|apply zlen_be_bytes]].
  apply has_at_app in H as [H _]. by apply (has_at_int_id C b Hb).
Qed.

Lemma read_byte i v rest :
  is_byte v -> has_at b i (be_bytes 1 v ++ rest) ->
  Buffer_index b i = Ok v /\ u32 (i + 1) = i + 1 /\ has_at b (i + 1) rest.
Proof.
  intros Hv H. split; [|eapply has_at_next; [done|apply zlen_be_bytes]].
  apply has_at_app in H as [H _]. apply (has_at_byte C b Hb).
  assert (E : be_bytes 1 v = [v]); [|by rewrite E in H].
  cbn. by rewrite land_255, Z.mod_small by apply Hv.
Qed.

Lemma read_field i d l rest :
  zlen d = l -> has_at b i (d ++ rest) ->
  Buffer_read_field b i l = Ok d /\ u32 (i + l) = i + l /\ has_at b (i + l) rest.
Proof.
  intros Hl H. split; [|by eapply has_at_next].
  apply has_at_app in H as [H _]. rewrite <- Hl. by apply (has_at_field C b Hb).
Qed.

Lemma read_address i a rest :
  in_range 40 a -> has_at b i (be_bytes 5 a ++ rest) ->
  Buffer_read_address b i = Ok a /\ u32 (i + 5) = i + 5 /\ has_at b (i + 5) rest.
Proof.
  intros Ha H. destruct (read_field i (be_bytes 5 a) 5 rest) as (Hr & Hn & Hh); [done|done|].
  split; [|done]. unfold Buffer_read_address. rewrite Hr. cbn [mbind outcome_bind].
  rewrite <- Address_bytes_be, <- (app_nil_r (Address_bytes a)). by apply Address_setTo_bytes.
Qed.

Lemma read_mac i m rest :
  in_range 48 m -> has_at b i (be_bytes 6 m ++ rest) ->
  Buffer_read_mac b i = Ok m /\ u32 (i + 6) = i + 6 /\ has_at b (i + 6) rest.
Proof.
  intros Ha H. destruct (read_field i (be_bytes 6 m) 6 rest) as (Hr & Hn & Hh); [done|done|].
  split; [|done]. unfold Buffer_read_mac. rewrite Hr. cbn [mbind outcome_bind].
  rewrite <- MAC_bytes_be, <- (app_nil_r (MAC_bytes m)). by apply MAC_setTo_bytes.
Qed.

(** The length a [deserialize] returns. *)
Lemma read_end i j rest : has_at b j rest -> 0 <= i <= j -> u32 (j - i) = j - i.
Proof.
  intros H Hi. pose proof (has_at_slice C b Hb _ _ H) as [_ Hl]. pose proof (zlen_nonneg rest).
  pose proof Hb as []. apply u32_id. unfold in_range. lia.
Qed.

End Steps.

(** Literal sizes as integers. *)
Ltac fold_of_nat N H :=
  try match type of N with
  | context [Z.of_nat ?k] => let v := eval vm_compute in (Z.of_nat k) in change (Z.of_nat k) with v in N, H
  end.

(** [reading lem H] rewrites the read at the head of the goal with a lemma of the section
    above and replaces [H], the bytes at the index, by those that follow. *)
Ltac reading lem H :=
  let R := fresh "R" in let N := fresh "N" in let H' := fresh "H" in
  edestruct lem as (R & N & H'); [..|fold_of_nat N H'; rewrite R; cbn [mbind outcome_bind]; rewrite ?N; clear R N H;
    rename H' into H].

(** What a writer added is found where it was added. *)
Lemma appends_has_at C f d b b' :
  appends C f d -> buf_wf C b -> f b = Ok b' -> has_at b' (b_len b) d.
Proof.
  intros Hf Hb Heq. destruct (appends_len C f d b b') as (_ & Hd & _); [done..|].
  split; [apply Hb|]. exists (buf_data b), []. rewrite app_nil_r. split; [done|].
  by apply (zlen_buf_data C).
Qed.

Create HintDb wire.
#[export] Hint Resolve appends_ret appends_int appends_raw appends_run appends_address appends_mac : wire.

(** ** Outcomes that are defined *)

Definition sane {A} (o : outcome A) (Q : A -> Prop) : Prop :=
  match o with Ok a => Q a | Throw _ => True | Undef => False end.

Lemma sane_bind {A B} (o : outcome A) (k : A -> outcome B) P Q :
  sane o P -> (forall a, P a -> sane (k a) Q) -> sane (o ≫= k) Q.
Proof. intros Ho Hk. destruct o as [a| |]; [by apply Hk|done..]. Qed.

Lemma sane_weaken {A} (o : outcome A) (P Q : A -> Prop) : sane o P -> (forall a, P a -> Q a) -> sane o Q.
Proof. intros Ho H. destruct o; cbn in *; auto. Qed.

Lemma sane_load {A} (P : A -> Prop) l i : Forall P l -> 0 <= i < zlen l -> sane (load l i) P.
Proof.
  intros Hl Hi. unfold load. destruct (proj2 (zget_range l i) Hi) as [v Hv]. rewrite Hv. cbn.
  unfold zget in Hv. destruct (_ <=? _); [|done]. by apply (Forall_lookup_1 _ _ _ _ Hl Hv).
Qed.

Lemma address_of_five l : zlen l = 5 -> Forall is_byte l -> Address_setTo l 5 = Ok (be_val l).
Proof.
  intros Hl Hb. do 5 (destruct l as [|? l]; [discriminate|]). destruct l; [|unfold zlen in Hl; cbn in Hl; lia].
  by apply setTo_be_val.
Qed.

(** Reads, wherever they are. *)
Section SaneReads.
Context {C : Z}.

Lemma sane_read_field b i l :
  buf_wf C b -> 0 <= i -> 0 <= l -> i + l < 2 ^ 32 -> sane (Buffer_read_field b i l) (fun d => zlen d = l /\ Forall is_byte d).
Proof.
  intros Hb Hi Hl Hil. unfold Buffer_read_field, Buffer_field, bounds_check. unfold u32. rewrite wrap_id by (unfold in_range; lia).
  destruct (Z.ltb_spec (b_len b) (i + l)); [done|]. cbn [mbind outcome_bind]. pose proof Hb as []. rewrite mem_read_Ok by lia. cbn.
  split; [apply zlen_slice; lia|by apply Forall_take, Forall_drop].
Qed.

Lemma sane_address l : zlen l = 5 -> Forall is_byte l -> sane (Address_setTo l 5) (fun a => in_range 40 a).
Proof.
  intros Hl Hb. rewrite address_of_five by done. cbn. pose proof (be_val_range l Hb) as Hr. by rewrite Hl in Hr.
Qed.

Lemma sane_read_address b i : buf_wf C b -> 0 <= i < 2 ^ 31 -> sane (Buffer_read_address b i) (fun a => in_range 40 a).
Proof.
  intros Hb Hi. unfold Buffer_read_address. eapply sane_bind; [apply sane_read_field; done || lia|].
  intros d [Hd Hdb]. by apply sane_address.
Qed.

Lemma sane_index b i : buf_wf C b -> 0 <= i -> sane (Buffer_index b i) is_byte.
Proof.
  intros Hb Hi. destruct (Z.leb_spec (b_len b) i); [by rewrite index_Throw by lia|].
  destruct (index_Ok C b i Hb) as (v & -> & Hv); [lia|]. cbn. unfold zget in Hv. destruct (_ <=? _); [|done].
  apply (Forall_lookup_1 _ _ _ _ (buf_data_bytes C b Hb) Hv).
Qed.

Lemma sane_at b n i : buf_wf C b -> 0 <= i -> sane (Buffer_at b n i) (fun v => in_range (8 * Z.of_nat n) v).
Proof.
  intros Hb Hi. destruct (Z.ltb_spec (b_len b) (i + Z.of_nat n)); [by rewrite at_Throw by lia|].
  rewrite (at_Ok C) by (done || lia). cbn. assert (Hd := buf_data_bytes C b Hb).
  pose proof (be_val_range (slice i (Z.of_nat n) (buf_data b)) (Forall_take _ _ _ (Forall_drop _ _ _ Hd))) as Hr.
  rewrite zlen_slice in Hr; [done|lia|lia|]. rewrite (zlen_buf_data C) by done. lia.
Qed.
End SaneReads.
