(* ===== verification/Rules.v ===== *)
(** The network flow rules: ZT_VirtualNetworkRule of include/ZeroTierOne.h, and their binary
    form, serializeRules() and deserializeRules() of node/Capability.hpp.

    The union of a rule is an inductive type with a constructor per member; reading a
    member that is not the active one is undefined.  Which member a rule has depends on its
    type; [rule_wf] says that the member is the right one, and is what deserializeRules()
    establishes and the filter relies on. *)
From S2P Require Import Prelude.
From S2P Require Import Utils.
From S2P Require Import Buffer.
From S2P Require Import Addressing.
From S2P Require Import Wire.

(** ** Rules *)

Definition ZT_NETWORK_RULE_ACTION_DROP : Z := 0.
Definition ZT_NETWORK_RULE_ACTION_ACCEPT : Z := 1.
Definition ZT_NETWORK_RULE_ACTION_TEE : Z := 2.
Definition ZT_NETWORK_RULE_ACTION_WATCH : Z := 3.
Definition ZT_NETWORK_RULE_ACTION_REDIRECT : Z := 4.
Definition ZT_NETWORK_RULE_ACTION_BREAK : Z := 5.
Definition ZT_NETWORK_RULE_ACTION__MAX_ID : Z := 15.

(** The union [v]. [VNone] is the union of a rule whose type has no member. *)
Inductive rule_value : Type :=
| VIpv6 (ip : list Z) (mask : Z)
| VIpv4 (ip : list Z) (mask : Z)
| VIntRange (start end_ idx format : Z)
| VCharacteristics (c : Z)
| VPort (p0 p1 : Z)
| VZt (zt : Z)
| VRandomProbability (p : Z)
| VMac (mac : list Z)
| VVlanId (id : Z)
| VVlanPcp (pcp : Z)
| VVlanDei (dei : Z)
| VEtherType (t : Z)
| VIpProtocol (p : Z)
| VIpTos (mask v0 v1 : Z)
| VFrameSize (s0 s1 : Z)
| VIcmp (type code flags : Z)
| VTag (id value : Z)
| VFwd (address flags length : Z)
| VNone.

Record Rule : Type := mkRule { rl_t : Z; rl_v : rule_value }.

Definition rule_type (r : Rule) : Z := Z.land (rl_t r) 0x3f.

(** The member of the union a type of rule uses: the labels of the switches. *)
Inductive member : Type :=
| MIpv6 | MIpv4 | MIntRange | MCharacteristics | MPort | MZt | MRandomProbability | MMac | MVlanId | MVlanPcp
| MVlanDei | MEtherType | MIpProtocol | MIpTos | MFrameSize | MIcmp | MTag | MFwd | MNone.

Definition member_of (rt : Z) : member :=
  match rt with
  | 2 | 3 | 4 => MFwd
  | 24 | 25 => MZt
  | 26 => MVlanId
  | 27 => MVlanPcp
  | 28 => MVlanDei
  | 29 | 30 => MMac
  | 31 | 32 => MIpv4
  | 33 | 34 => MIpv6
  | 35 => MIpTos
  | 36 => MIpProtocol
  | 37 => MEtherType
  | 38 => MIcmp
  | 39 | 40 => MPort
  | 41 => MCharacteristics
  | 42 => MFrameSize
  | 43 => MRandomProbability
  | 44 | 45 | 46 | 47 | 48 | 49 | 50 => MTag
  | 51 => MIntRange
  | _ => MNone
  end.

(** ** serializeRules *)

(** The size of the field and the field. *)
Definition append_value (C : Z) (m : member) (v : rule_value) (b : Buffer) : outcome Buffer :=
  match m, v with
  | MNone, _ => Buffer_append_int C b 1 0
  | MFwd, VFwd address flags length =>
      b ← Buffer_append_int C b 1 14;
      b ← Buffer_append_int C b 8 address;
      b ← Buffer_append_int C b 4 flags;
      Buffer_append_int C b 2 length
  | MZt, VZt zt => b ← Buffer_append_int C b 1 5; Address_appendTo C (Address_of_int zt) b
  | MVlanId, VVlanId id => b ← Buffer_append_int C b 1 2; Buffer_append_int C b 2 id
  | MVlanPcp, VVlanPcp pcp => b ← Buffer_append_int C b 1 1; Buffer_append_int C b 1 pcp
  | MVlanDei, VVlanDei dei => b ← Buffer_append_int C b 1 1; Buffer_append_int C b 1 dei
  | MMac, VMac mac => b ← Buffer_append_int C b 1 6; Buffer_append C b mac 6
  | MIpv4, VIpv4 ip mask =>
      b ← Buffer_append_int C b 1 5;
      b ← Buffer_append C b ip 4;
      Buffer_append_int C b 1 mask
  | MIpv6, VIpv6 ip mask =>
      b ← Buffer_append_int C b 1 17;
      b ← Buffer_append C b ip 16;
      Buffer_append_int C b 1 mask
  | MIpTos, VIpTos mask v0 v1 =>
      b ← Buffer_append_int C b 1 3;
      b ← Buffer_append_int C b 1 mask;
      b ← Buffer_append_int C b 1 v0;
      Buffer_append_int C b 1 v1
  | MIpProtocol, VIpProtocol p => b ← Buffer_append_int C b 1 1; Buffer_append_int C b 1 p
  | MEtherType, VEtherType t => b ← Buffer_append_int C b 1 2; Buffer_append_int C b 2 t
  | MIcmp, VIcmp type code flags =>
      b ← Buffer_append_int C b 1 3;
      b ← Buffer_append_int C b 1 type;
      b ← Buffer_append_int C b 1 code;
      Buffer_append_int C b 1 flags
  | MPort, VPort p0 p1 =>
      b ← Buffer_append_int C b 1 4;
      b ← Buffer_append_int C b 2 p0;
      Buffer_append_int C b 2 p1
  | MCharacteristics, VCharacteristics c => b ← Buffer_append_int C b 1 8; Buffer_append_int C b 8 c
  | MFrameSize, VFrameSize s0 s1 =>
      b ← Buffer_append_int C b 1 4;
      b ← Buffer_append_int C b 2 s0;
      Buffer_append_int C b 2 s1
  | MRandomProbability, VRandomProbability p => b ← Buffer_append_int C b 1 4; Buffer_append_int C b 4 p
  | MTag, VTag id value =>
      b ← Buffer_append_int C b 1 8;
      b ← Buffer_append_int C b 4 id;
      Buffer_append_int C b 4 value
  | MIntRange, VIntRange start end_ idx format =>
      b ← Buffer_append_int C b 1 19;
      b ← Buffer_append_int C b 8 start;
      b ← Buffer_append_int C b 8 (u64 (start + end_));
      b ← Buffer_append_int C b 2 idx;
      Buffer_append_int C b 1 format
  | _, _ => Undef
  end.

Definition append_rule (C : Z) (r : Rule) (b : Buffer) : outcome Buffer :=
  b ← Buffer_append_int C b 1 (rl_t r); append_value C (member_of (rule_type r)) (rl_v r) b.

Definition serializeRules (C : Z) (rules : list Rule) (b : Buffer) : outcome Buffer :=
  write_all (append_rule C) rules b.

(** ** deserializeRules *)

Definition read_value (b : Buffer) (m : member) (p : Z) : outcome rule_value :=
  match m with
  | MNone => Ok VNone
  | MFwd =>
      address ← Buffer_at b 8 p;
      flags ← Buffer_at b 4 (u32 (p + 8));
      length ← Buffer_at b 2 (u32 (p + 12));
      Ok (VFwd address flags length)
  | MZt => zt ← Buffer_read_address b p; Ok (VZt (Address_toInt zt))
  | MVlanId => id ← Buffer_at b 2 p; Ok (VVlanId id)
  | MVlanPcp => pcp ← Buffer_index b p; Ok (VVlanPcp pcp)
  | MVlanDei => dei ← Buffer_index b p; Ok (VVlanDei dei)
  | MMac => mac ← Buffer_read_field b p 6; Ok (VMac mac)
  | MIpv4 => ip ← Buffer_read_field b p 4; mask ← Buffer_index b (u32 (p + 4)); Ok (VIpv4 ip mask)
  | MIpv6 => ip ← Buffer_read_field b p 16; mask ← Buffer_index b (u32 (p + 16)); Ok (VIpv6 ip mask)
  | MIpTos =>
      mask ← Buffer_index b p;
      v0 ← Buffer_index b (u32 (p + 1));
      v1 ← Buffer_index b (u32 (p + 2));
      Ok (VIpTos mask v0 v1)
  | MIpProtocol => proto ← Buffer_index b p; Ok (VIpProtocol proto)
  | MEtherType => t ← Buffer_at b 2 p; Ok (VEtherType t)
  | MIcmp =>
      type ← Buffer_index b p;
      code ← Buffer_index b (u32 (p + 1));
      flags ← Buffer_index b (u32 (p + 2));
      Ok (VIcmp type code flags)
  | MPort => p0 ← Buffer_at b 2 p; p1 ← Buffer_at b 2 (u32 (p + 2)); Ok (VPort p0 p1)
  | MCharacteristics => c ← Buffer_at b 8 p; Ok (VCharacteristics c)
  | MFrameSize => s0 ← Buffer_at b 2 p; s1 ← Buffer_at b 2 (u32 (p + 2)); Ok (VFrameSize s0 s1)
  | MRandomProbability => r ← Buffer_at b 4 p; Ok (VRandomProbability r)
  | MTag => id ← Buffer_at b 4 p; value ← Buffer_at b 4 (u32 (p + 4)); Ok (VTag id value)
  | MIntRange =>
      start ← Buffer_at b 8 p;
      last ← Buffer_at b 8 (u32 (p + 8));
      idx ← Buffer_at b 2 (u32 (p + 16));
      format ← Buffer_index b (u32 (p + 18));
      Ok (VIntRange start (u32 (last - start)) idx format)
  end.

(** One turn of the loop: the rule and the index after it. *)
Definition read_rule (b : Buffer) (p : Z) : outcome (Rule * Z) :=
  t ← Buffer_index b p;
  let p := u32 (p + 1) in
  fieldLen ← Buffer_index b p;
  let p := u32 (p + 1) in
  v ← read_value b (member_of (Z.land t 0x3f)) p;
  Ok (mkRule t v, u32 (p + fieldLen)).

(** The loop, with room for [n] more rules. *)
Fixpoint deserializeRules (n : nat) (b : Buffer) (p : Z) : outcome (list Rule * Z) :=
  match n with
  | O => Ok ([], p)
  | S n =>
      if p <? b_len b then
        '(r, p) ← read_rule b p;
        '(rules, p) ← deserializeRules n b p;
        Ok (r :: rules, p)
      else Ok ([], p)
  end.

(** ** Well-formed rules *)

Definition value_wf (m : member) (v : rule_value) : Prop :=
  match m, v with
  | MNone, VNone => True
  | MFwd, VFwd address flags length => is_u64 address /\ is_u32 flags /\ is_u16 length
  | MZt, VZt zt => in_range 40 zt
  | MVlanId, VVlanId id => is_u16 id
  | MVlanPcp, VVlanPcp pcp => is_byte pcp
  | MVlanDei, VVlanDei dei => is_byte dei
  | MMac, VMac mac => zlen mac = 6 /\ Forall is_byte mac
  | MIpv4, VIpv4 ip mask => (zlen ip = 4 /\ Forall is_byte ip) /\ is_byte mask
  | MIpv6, VIpv6 ip mask => (zlen ip = 16 /\ Forall is_byte ip) /\ is_byte mask
  | MIpTos, VIpTos mask v0 v1 => is_byte mask /\ is_byte v0 /\ is_byte v1
  | MIpProtocol, VIpProtocol p => is_byte p
  | MEtherType, VEtherType t => is_u16 t
  | MIcmp, VIcmp type code flags => is_byte type /\ is_byte code /\ is_byte flags
  | MPort, VPort p0 p1 => is_u16 p0 /\ is_u16 p1
  | MCharacteristics, VCharacteristics c => is_u64 c
  | MFrameSize, VFrameSize s0 s1 => is_u16 s0 /\ is_u16 s1
  | MRandomProbability, VRandomProbability p => is_u32 p
  | MTag, VTag id value => is_u32 id /\ is_u32 value
  | MIntRange, VIntRange start end_ idx format => is_u64 start /\ is_u32 end_ /\ is_u16 idx /\ is_byte format
  | _, _ => False
  end.

Definition rule_wf (r : Rule) : Prop := is_byte (rl_t r) /\ value_wf (member_of (rule_type r)) (rl_v r).

(** The bytes of a field. *)
Definition value_enc (v : rule_value) : list Z :=
  match v with
  | VNone => []
  | VFwd address flags length => be_bytes 8 address ++ be_bytes 4 flags ++ be_bytes 2 length
  | VZt zt => be_bytes 5 zt
  | VVlanId x | VEtherType x => be_bytes 2 x
  | VVlanPcp x | VVlanDei x | VIpProtocol x => be_bytes 1 x
  | VMac mac => mac
  | VIpv4 ip mask | VIpv6 ip mask => ip ++ be_bytes 1 mask
  | VIpTos x y z | VIcmp x y z => be_bytes 1 x ++ be_bytes 1 y ++ be_bytes 1 z
  | VPort x y | VFrameSize x y => be_bytes 2 x ++ be_bytes 2 y
  | VCharacteristics c => be_bytes 8 c
  | VRandomProbability p => be_bytes 4 p
  | VTag id value => be_bytes 4 id ++ be_bytes 4 value
  | VIntRange start end_ idx format => be_bytes 8 start ++ be_bytes 8 (u64 (start + end_)) ++ be_bytes 2 idx ++ be_bytes 1 format
  end.

Definition rule_enc (r : Rule) : list Z := be_bytes 1 (rl_t r) ++ be_bytes 1 (zlen (value_enc (rl_v r))) ++ value_enc (rl_v r).

(** ** Writing *)

Section Writing.
Context (C : Z) (HC : C + 16 < 2 ^ 32).

Lemma appends_bytes n d : zlen d = n -> Forall is_byte d -> n <= 16 -> appends C (fun b => Buffer_append C b d n) d.
Proof. intros. apply appends_whole; done || lia. Qed.

Lemma appends_zt zt : in_range 40 zt -> appends C (Address_appendTo C (Address_of_int zt)) (be_bytes 5 zt).
Proof.
  intros Hz. replace (Address_of_int zt) with zt; [apply appends_address; lia|].
  unfold Address_of_int. change 0xffffffffff with (2 ^ 40 - 1). rewrite land_mask by lia. symmetry. by apply Z.mod_small.
Qed.

Local Ltac write_field := first [apply appends_int | by apply appends_bytes | by apply appends_zt].

Lemma append_value_appends m v : value_wf m v -> appends C (append_value C m v) (be_bytes 1 (zlen (value_enc v)) ++ value_enc v).
Proof.
  intros H. destruct m, v; cbn [value_wf] in H; try done; cbn [append_value value_enc]; destruct_and?;
    repeat match goal with E : zlen _ = _ |- _ => progress rewrite ?zlen_app, ?E end; rewrite ?zlen_app, ?zlen_be_bytes, ?zlen_nil;
    repeat (apply (appends_bind C); [write_field|]); write_field.
Qed.

Lemma serializeRules_appends rules : Forall rule_wf rules -> appends C (serializeRules C rules) (mjoin (rule_enc <$> rules)).
Proof.
  intros Hw. apply appends_all. eapply Forall_impl; [exact Hw|]. intros r [_ Hv]. apply (appends_bind C); [apply appends_int|]. by apply append_value_appends.
Qed.
End Writing.

(** ** Reading *)

Lemma value_enc_length m v : value_wf m v -> zlen (value_enc v) <= 19.
Proof.
  intros H. destruct m, v; cbn [value_wf] in H; try done; cbn [value_enc]; destruct_and?; rewrite ?zlen_app, ?zlen_be_bytes, ?zlen_nil; lia.
Qed.

(** The range is stored by its last number. *)
Lemma int_range_end start end_ : is_u64 start -> is_u32 end_ -> u32 (u64 (start + end_) - start) = end_.
Proof.
  intros Hs He. unfold u32, u64, wrap, in_range in *. change (2 ^ 64) with (2 ^ 32 * 2 ^ 32). rewrite Zminus_mod, (Z.mod_mod_divide) by (by exists (2 ^ 32)).
  rewrite <- Zminus_mod. replace (start + end_ - start) with end_ by lia. by apply Z.mod_small.
Qed.

Section Reading.
Context (C : Z) (b : Buffer) (Hb : buf_wf C b).

Lemma has_at_index i d : has_at b i d -> u32 i = i.
Proof. intros H. pose proof (has_at_next C b Hb i 0 [] d H eq_refl) as [E _]. by rewrite Z.add_0_r in E. Qed.

(** One read, after which the bytes that follow are at an offset of the same index. *)
Local Ltac read_step Hh lem :=
  reading lem Hh; [done || by apply wrap_range|exact Hh|]; rewrite <- ?Z.add_assoc in Hh;
  try match type of Hh with has_at _ (_ + (?x + ?y)) _ => let z := eval vm_compute in (x + y) in change (x + y) with z in Hh end;
  try rewrite (has_at_index _ _ Hh).
Local Ltac read_next Hh :=
  match type of Hh with
  | has_at _ _ (be_bytes ?n ?v ++ _) =>
      match goal with
      | |- Buffer_at b _ ?i ≫= _ = _ => read_step Hh (read_int C b Hb i n v)
      | |- Buffer_read_address b ?i ≫= _ = _ => read_step Hh (read_address C b Hb i v)
      | |- Buffer_index b ?i ≫= _ = _ => read_step Hh (read_byte C b Hb i v)
      end
  | has_at _ _ (?d ++ _) =>
      match goal with |- Buffer_read_field b ?i ?l ≫= _ = _ => read_step Hh (read_field C b Hb i d l) end
  end.

Lemma read_value_enc m v i rest : value_wf m v -> has_at b i (value_enc v ++ rest) -> read_value b m i = Ok v.
Proof.
  intros H Hh. destruct m, v; cbn [value_wf] in H; try done; cbn [value_enc read_value] in *; destruct_and?; rewrite <- ?app_assoc in Hh.
  all: repeat read_next Hh; try done. by rewrite int_range_end.
Qed.

Lemma read_rule_enc r i rest : rule_wf r -> has_at b i (rule_enc r ++ rest) ->
  read_rule b i = Ok (r, i + zlen (rule_enc r)) /\ has_at b (i + zlen (rule_enc r)) rest.
Proof.
  intros [Ht Hv] Hh. pose proof (has_at_app b _ _ _ Hh) as [_ Hr]. split; [|done]. pose proof (has_at_index _ _ Hr) as Hu.
  pose proof (value_enc_length _ _ Hv). pose proof (zlen_nonneg (value_enc (rl_v r))).
  unfold read_rule, rule_enc in *. rewrite !zlen_app, !zlen_be_bytes in *. rewrite <- !app_assoc in Hh.
  reading (read_byte C b Hb i (rl_t r)) Hh; [done|exact Hh|]. reading (read_byte C b Hb (i + 1) (zlen (value_enc (rl_v r)))) Hh; [unfold in_range; lia|exact Hh|].
  unfold rule_type in Hv. rewrite (read_value_enc _ _ _ _ Hv Hh). cbn [mbind outcome_bind]. destruct r. cbn [rl_t rl_v] in *. do 2 f_equal.
  rewrite <- Hu. f_equal. lia.
Qed.

Lemma deserializeRules_enc rules i rest : Forall rule_wf rules -> has_at b i (mjoin (rule_enc <$> rules) ++ rest) ->
  deserializeRules (length rules) b i = Ok (rules, i + zlen (mjoin (rule_enc <$> rules))) /\ has_at b (i + zlen (mjoin (rule_enc <$> rules))) rest.
Proof.
  intros Hw. revert i. induction Hw as [|r rules Hr _ IH]; intros i Hh; [cbn [fmap list_fmap mjoin list_join]; by rewrite (zlen_nil (A := Z)), Z.add_0_r|].
  change (mjoin (rule_enc <$> r :: rules)) with (rule_enc r ++ mjoin (rule_enc <$> rules)) in *. rewrite <- app_assoc in Hh.
  pose proof (has_at_slice C b Hb _ _ Hh) as [_ Hl]. destruct (read_rule_enc r i _ Hr Hh) as [E Hh'].
  assert (i < b_len b).
  { rewrite zlen_app in Hl. unfold rule_enc at 1 in Hl. rewrite !zlen_app, !zlen_be_bytes in Hl. pose proof (zlen_nonneg (value_enc (rl_v r))).
    pose proof (zlen_nonneg (mjoin (rule_enc <$> rules))). pose proof (zlen_nonneg rest). lia. }
  cbn [length deserializeRules]. rewrite (proj2 (Z.ltb_lt _ _)), E by done. cbn [mbind outcome_bind].
  destruct (IH _ Hh') as [-> Hh2]. cbn [mbind outcome_bind]. rewrite zlen_app, Z.add_assoc. done.
Qed.
End Reading.

(** ** What is read is well-formed *)

Section Typing.
Context (C : Z) (HC : C + 1000 < 2 ^ 31) (b : Buffer) (Hb : buf_wf C b).

Lemma u32_small x : 0 <= x < 2 ^ 32 -> u32 x = x.
Proof. intros H. apply u32_id. exact H. Qed.

Local Ltac read_any := eapply sane_bind; [first [by eapply sane_at; done || lia | eapply sane_read_field; done || lia | eapply sane_read_address; done || lia | eapply sane_index; done || lia]|intros ? ?].

Lemma read_value_sane m p : 0 <= p -> p + 100 < 2 ^ 31 -> sane (read_value b m p) (value_wf m).
Proof.
  intros Hp Hp2. destruct m; cbn [read_value]; rewrite ?u32_small by lia; repeat read_any; cbn [sane value_wf]; try done.
  split_and!; try done. by apply (wrap_range 32).
Qed.

Lemma read_rule_sane p : 0 <= p < b_len b -> sane (read_rule b p) (fun '(r, q) => rule_wf r /\ 0 <= q <= b_len b + 256).
Proof.
  intros Hp. pose proof Hb as []. unfold read_rule. eapply sane_bind; [eapply sane_index; done || lia|]. intros t Ht. rewrite (u32_small (p + 1)) by lia.
  eapply sane_bind; [eapply sane_index; done || lia|]. intros l Hl. rewrite (u32_small (p + 1 + 1)) by lia. eapply sane_bind; [apply read_value_sane; lia|].
  intros v Hv. cbn [sane]. split; [by split|]. unfold in_range in Hl. rewrite u32_small by lia. lia.
Qed.

Lemma deserializeRules_sane n p : 0 <= p -> sane (deserializeRules n b p) (fun '(rules, q) => Forall rule_wf rules /\ (length rules <= n)%nat /\ 0 <= q <= Z.max p (b_len b + 256)).
Proof.
  revert p. induction n as [|n IH]; intros p Hp; cbn [deserializeRules]; [cbn; split_and!; [done|done|done|lia]|]. destruct (Z.ltb_spec p (b_len b)); [|cbn; split_and!; [done|lia|done|lia]].
  eapply sane_bind; [by apply read_rule_sane|]. intros [r q] [Hr Hq]. eapply sane_bind; [apply (IH q); lia|]. intros [rules q'] (Hrs & Hl & Hq'). cbn [sane].
  split_and!; [by constructor|cbn; lia|lia|lia].
Qed.
End Typing.

(** ** Properties *)

(** The binary form of rules is read back as it was written, or does not fit. *)
Theorem rules_roundtrip C b rules rest : C + 16 < 2 ^ 32 -> buf_wf C b -> Forall rule_wf rules -> Forall is_byte rest -> C + zlen rest < 2 ^ 32 ->
  (exists b', (b ← serializeRules C rules b; Buffer_append C b rest (zlen rest)) = Ok b' /\
     deserializeRules (length rules) b' (b_len b) = Ok (rules, b_len b' - zlen rest)) \/
  (b ← serializeRules C rules b; Buffer_append C b rest (zlen rest)) = Throw OUT_OF_BOUNDS.
Proof.
  intros HC Hb Hw Hr Hrl. pose proof (appends_bind C _ _ _ _ (serializeRules_appends C HC rules Hw) (appends_whole C rest (zlen rest) Hr eq_refl Hrl)) as Ha.
  pose proof (proj2 Ha b Hb) as H. destruct (_ <=? C); [|by right]. left. destruct H as (b' & E & Hb' & _). exists b'. split; [done|].
  pose proof (appends_has_at C _ _ b b' Ha Hb E) as Hh. destruct (appends_len C _ _ b b' Ha Hb E) as (_ & _ & Hl).
  destruct (deserializeRules_enc C b' Hb' rules (b_len b) rest Hw Hh) as [-> _]. do 2 f_equal. rewrite Hl, zlen_app. lia.
Qed.

(** C31: Whatever the bytes, what deserializeRules() reads are rules whose unions have the member
    their type uses. *)
Theorem deserializeRules_wf C b n p : C + 1000 < 2 ^ 31 -> buf_wf C b -> 0 <= p ->
  match deserializeRules n b p with
  | Ok (rules, _) => Forall rule_wf rules /\ (length rules <= n)%nat
  | Throw _ => True
  | Undef => False
  end.
Proof.
  intros HC Hb Hp. pose proof (deserializeRules_sane C HC b Hb n p Hp) as H. unfold sane in H. destruct (deserializeRules n b p) as [[rules q]| |]; naive_solver.
Qed.

(** "Not IP version 4, or tag 7 of the sender is 9: tee; a range of integers: accept". *)
Definition sample_rules : list Rule :=
  [mkRule 0xa5 (VEtherType 0x800); mkRule 0x71 (VTag 7 9); mkRule 2 (VFwd 0x1122334455 0 64);
   mkRule 51 (VIntRange 0xfffffffffffffff0 0x20 14 7); mkRule 1 VNone].

Lemma sample_rules_wf : Forall rule_wf sample_rules.
Proof. repeat constructor; done. Qed.

Lemma rules_roundtrip_witness :
  exists b', (b ← serializeRules 128 sample_rules (Buffer_new (replicate 128 0)); Buffer_append 128 b [1; 2] 2) = Ok b' /\
    deserializeRules 5 b' 0 = Ok (sample_rules, b_len b' - 2).
Proof.
  destruct (rules_roundtrip 128 (Buffer_new (replicate 128 0)) sample_rules [1; 2]) as [(b' & H1 & H2)|H];
    [done|apply (buf_wf_zeros 128); lia|apply sample_rules_wf|by repeat constructor|done| |].
  - exists b'. split; [exact H1|exact H2].
  - vm_compute in H. discriminate H.
Defined.

(** Two rules, the second of which is cut off by the end of the buffer after its length. *)
Lemma deserializeRules_wf_witness :
  let b := mkBuffer [38; 3; 8; 0; 1; 1; 0; 51] 8 in
  match deserializeRules 64 (mkBuffer [38; 3; 8; 0; 1; 1; 0] 7) 0 with
  | Ok (rules, _) => Forall rule_wf rules /\ rules = [mkRule 38 (VIcmp 8 0 1); mkRule 1 VNone]
  | _ => False
  end /\ deserializeRules 64 b 0 = Throw OUT_OF_BOUNDS.
Proof.
  split; [|reflexivity]. assert (Hb : buf_wf 7 (mkBuffer [38; 3; 8; 0; 1; 1; 0] 7)) by (split; [done|by repeat constructor|done|done]).
  pose proof (deserializeRules_wf 7 (mkBuffer [38; 3; 8; 0; 1; 1; 0] 7) 64 0 ltac:(lia) Hb ltac:(lia)) as H. vm_compute deserializeRules in H. cbn beta iota in H.
  vm_compute deserializeRules. cbn beta iota. split; [exact (proj1 H)|reflexivity].
Defined.
