(* ===== verification/CLib.v ===== *)
(** The C library string functions the sources rely on, on strings without their
    terminator: [strtoul] for bases 10 and 16, [strtok_r] with a one-character
    delimiter and [strchr], with the wrappers of node/Utils.hpp. *)
From S2P Require Import Prelude.
From S2P Require Import Utils.

Definition isspace (c : Z) : bool := (c =? 32) || ((9 <=? c) && (c <=? 13)).

Fixpoint skip_space (s : list Z) : list Z :=
  match s with
  | [] => []
  | c :: s' => if isspace c then skip_space s' else s
  end.

Definition digit_value (c : Z) : option Z :=
  if (48 <=? c) && (c <=? 57) then Some (c - 48)
  else if (97 <=? c) && (c <=? 122) then Some (c - 87)
  else if (65 <=? c) && (c <=? 90) then Some (c - 55)
  else None.

Definition is_base_digit (base c : Z) : bool :=
  match digit_value c with Some d => d <? base | None => false end.

(** The value of the longest prefix of digits, without a bound. *)
Fixpoint digits_value (base : Z) (s : list Z) (acc : Z) : Z :=
  match s with
  | [] => acc
  | c :: s =>
      match digit_value c with
      | Some d => if d <? base then digits_value base s (acc * base + d) else acc
      | None => acc
      end
  end.

(** An optional [0x] before a hexadecimal digit, in base 16. *)
Definition skip_0x (base : Z) (s : list Z) : list Z :=
  match s with
  | z :: x :: c :: s' =>
      if (base =? 16) && (z =? 48) && ((x =? 120) || (x =? 88)) && is_base_digit 16 c then c :: s' else s
  | _ => s
  end.

(** An optional sign: whether it is a minus, and the rest. *)
Definition skip_sign (s : list Z) : bool * list Z :=
  match s with
  | c :: s' => if c =? 43 then (false, s') else if c =? 45 then (true, s') else (false, s)
  | [] => (false, [])
  end.

Definition strtoul (base : Z) (s : list Z) : Z :=
  let s := skip_space s in
  let '(neg, s) := skip_sign s in
  let v := digits_value base (skip_0x base s) 0 in
  if 2 ^ 64 <=? v then 2 ^ 64 - 1 else if neg : bool then u64 (- v) else v.

Definition Utils_strToUInt (s : list Z) : Z := u32 (strtoul 10 s).
Definition Utils_hexStrToUInt (s : list Z) : Z := u32 (strtoul 16 s).
Definition Utils_strToU64 (s : list Z) : Z := strtoul 10 s.
Definition Utils_hexStrToU64 (s : list Z) : Z := strtoul 16 s.

(** strtoll: the nearest representable number. *)
Definition strtoll (base : Z) (s : list Z) : Z :=
  let s := skip_space s in
  let '(neg, s) := skip_sign s in
  let v := digits_value base (skip_0x base s) 0 in
  if neg : bool then - (v `min` 2 ^ 63) else v `min` (2 ^ 63 - 1).

Definition Utils_hexStrTo64 (s : list Z) : Z := strtoll 16 s.

Fixpoint skip_char (d : Z) (s : list Z) : list Z :=
  match s with
  | [] => []
  | c :: s' => if c =? d then skip_char d s' else s
  end.

(** The characters before the first [d], and what follows that [d]; [None] where [d]
    does not occur. *)
Fixpoint break_at (d : Z) (s : list Z) : list Z * option (list Z) :=
  match s with
  | [] => ([], None)
  | c :: s => if c =? d then ([], Some s)
              else let '(tok, rest) := break_at d s in (c :: tok, rest)
  end.

(** [strtok_r]: the token and what the save pointer is left at. *)
Definition Utils_stok (d : Z) (s : list Z) : option (list Z * list Z) :=
  match skip_char d s with
  | [] => None
  | s => let '(tok, rest) := break_at d s in Some (tok, default [] rest)
  end.

Definition strchr (c : Z) (s : list Z) : bool := bool_decide (c ∈ s).

(** ** Lemmas *)

Lemma break_at_token d t rest : d ∉ t -> break_at d (t ++ d :: rest) = (t, Some rest).
Proof.
  induction t as [|c t IH]; intros Hd; cbn [app break_at]; [by rewrite Z.eqb_refl|].
  apply not_elem_of_cons in Hd as [Hc Ht]. rewrite (proj2 (Z.eqb_neq c d)) by done. by rewrite IH.
Qed.

Lemma break_at_last d t : d ∉ t -> break_at d t = (t, None).
Proof.
  induction t as [|c t IH]; intros Hd; [done|]. cbn [break_at].
  apply not_elem_of_cons in Hd as [Hc Ht]. rewrite (proj2 (Z.eqb_neq c d)) by done. by rewrite IH.
Qed.

Lemma skip_char_token d t rest : t <> [] -> d ∉ t -> skip_char d (t ++ rest) = t ++ rest.
Proof.
  intros Ht Hd. destruct t as [|c t]; [done|]. apply not_elem_of_cons in Hd as [Hc _].
  cbn [app skip_char]. by rewrite (proj2 (Z.eqb_neq c d)).
Qed.

Lemma stok_token d t rest : t <> [] -> d ∉ t -> Utils_stok d (t ++ d :: rest) = Some (t, rest).
Proof.
  intros Ht Hd. unfold Utils_stok. rewrite skip_char_token by done.
  destruct t as [|c t]; [done|]. cbn [app]. change (c :: t ++ d :: rest) with ((c :: t) ++ d :: rest).
  by rewrite break_at_token.
Qed.

Lemma stok_last d t : t <> [] -> d ∉ t -> Utils_stok d t = Some (t, []).
Proof.
  intros Ht Hd. unfold Utils_stok. pose proof (skip_char_token d t [] Ht Hd) as Hs.
  rewrite app_nil_r in Hs. rewrite Hs. destruct t as [|c t]; [done|]. by rewrite break_at_last.
Qed.

(** The characters [hex] writes. *)
Definition hex_char (k : Z) : Z := nth (Z.to_nat k) [48; 49; 50; 51; 52; 53; 54; 55; 56; 57; 97; 98; 99; 100; 101; 102] 0.

Lemma hex_char_facts k :
  0 <= k < 16 ->
  let c := hex_char k in
  digit_value c = Some k /\ isspace c = false /\ c <> 43 /\ c <> 45 /\ c <> 58 /\ c <> 0 /\
  (c =? 120) || (c =? 88) = false.
Proof.
  intros Hk.
  assert (H : forallb (fun k => let c := hex_char k in
      bool_decide (digit_value c = Some k) && negb (isspace c) && negb (c =? 43) && negb (c =? 45) &&
      negb (c =? 58) && negb (c =? 0) && negb ((c =? 120) || (c =? 88))) (seqZ 0 16) = true)
    by (vm_compute; reflexivity).
  rewrite forallb_forall in H. specialize (H k). ospecialize (H _); [apply list_elem_of_In, elem_of_seqZ; lia|].
  cbv zeta in *. rewrite !andb_true_iff, !negb_true_iff in H. destruct H as [[[[[[H1 H2] H3] H4] H5] H6] H7].
  apply bool_decide_eq_true in H1. split_and!; try done; lia.
Qed.

Lemma digits_value_hex ks acc :
  Forall (fun k => 0 <= k < 16) ks ->
  digits_value 16 (hex_char <$> ks) acc = foldl (fun a k => a * 16 + k) acc ks.
Proof.
  intros H. revert acc. induction H as [|k ks Hk Hks IH]; intros acc; [done|]. cbn [fmap list_fmap digits_value].
  destruct (hex_char_facts k Hk) as (-> & _). rewrite (proj2 (Z.ltb_lt _ _)) by lia. apply IH.
Qed.

(** [strtoul] in base 16 reads lower-case hexadecimal digits. *)
Lemma strtoul_hex ks :
  Forall (fun k => 0 <= k < 16) ks -> foldl (fun a k => a * 16 + k) 0 ks < 2 ^ 64 ->
  strtoul 16 (hex_char <$> ks) = foldl (fun a k => a * 16 + k) 0 ks.
Proof.
  intros H Hv. unfold strtoul.
  assert (Hs : skip_space (hex_char <$> ks) = hex_char <$> ks).
  { destruct H as [|k ks Hk _]; [done|]. cbn [fmap list_fmap skip_space]. by destruct (hex_char_facts k Hk) as (_ & -> & _). }
  assert (Hsign : skip_sign (hex_char <$> ks) = (false, hex_char <$> ks)).
  { destruct H as [|k ks' Hk _]; [done|]. cbn [fmap list_fmap skip_sign].
    destruct (hex_char_facts k Hk) as (_ & _ & H43 & H45 & _).
    by rewrite (proj2 (Z.eqb_neq _ 43)), (proj2 (Z.eqb_neq _ 45)) by done. }
  assert (Hx : skip_0x 16 (hex_char <$> ks) = hex_char <$> ks).
  { destruct H as [|k ks Hk Hks]; [done|]. destruct Hks as [|k2 ks Hk2 Hks]; [done|].
    destruct Hks as [|k3 ks Hk3 Hks]; [done|]. cbn [fmap list_fmap skip_0x].
    destruct (hex_char_facts k2 Hk2) as (_ & _ & _ & _ & _ & _ & ->). by rewrite andb_false_r. }
  rewrite Hs, Hsign, Hx, digits_value_hex by done.
  by rewrite (proj2 (Z.leb_gt _ _)) by done.
Qed.

Lemma hex_chars_no_sep ks : Forall (fun k => 0 <= k < 16) ks -> 58 ∉ (hex_char <$> ks) /\ 0 ∉ (hex_char <$> ks).
Proof.
  induction 1 as [|k ks Hk Hks [IH1 IH2]]; [split; apply not_elem_of_nil|]. cbn [fmap list_fmap].
  destruct (hex_char_facts k Hk) as (_ & _ & _ & _ & H1 & H2 & _).
  rewrite !not_elem_of_cons. by split; split.
Qed.

(** The characters of the table of Utils. *)
Lemma load_hexchars k : 0 <= k < 16 -> load HEXCHARS k = Ok (hex_char k).
Proof.
  intros Hk. assert (H : forallb (fun k => bool_decide (load HEXCHARS k = Ok (hex_char k))) (seqZ 0 16) = true)
    by (vm_compute; reflexivity).
  rewrite forallb_forall in H. apply (bool_decide_eq_true_1 _), H.
  apply list_elem_of_In, elem_of_seqZ. lia.
Qed.

(** A number from its hexadecimal digits, most significant first. *)
Lemma nibble_step a s s' :
  0 <= s -> s' = s + 4 -> Z.shiftr a s' * 16 + Z.land (Z.shiftr a s) 15 = Z.shiftr a s.
Proof.
  intros Hs ->. rewrite <- Z.shiftr_shiftr, land_15, (Z.shiftr_div_pow2 _ 4) by lia.
  change (2 ^ 4) with 16. pose proof (Z.div_mod (Z.shiftr a s) 16). lia.
Qed.
