(* ===== verification/Dictionary.v ===== *)
(** The key=value store of node/Dictionary.hpp.

    A dictionary is its array of [C] characters.  Keys and C strings are lists without the
    terminating zero.  A pointer into the array is the rest of the array from it on: the
    empty list is the end of the array, which the code compares with [eof] and must not
    read.  The abstract view of a dictionary is the string before its first zero, cut into
    lines; [get] finds the first line that starts with the key and an equals sign, and [add]
    appends a line. *)
From S2P Require Import Prelude.
From S2P Require Import Utils.
From S2P Require Import Buffer.
From S2P Require Import Addressing.
From S2P Require Import CLib.

(** ** The code *)

Definition CR : Z := 13.
Definition LF : Z := 10.
Definition EQUALS : Z := 61.
Definition BACKSLASH : Z := 92.

Section Dictionary.
Context (C : Z).

(** The constructor without arguments, and clear. *)
Definition Dictionary_new : list Z := replicate (Z.to_nat C) 0.

(** The loop of load: [s] is [None] once its terminating zero is copied. *)
Fixpoint load_loop (n : nat) (s : option (list Z)) : list Z * option (list Z) :=
  match n with
  | O => ([], s)
  | S n =>
      let '(c, s) :=
        match s with
        | Some [] => (0, None)
        | Some (c :: s) => if c =? 0 then (0, None) else (c, Some s)
        | None => (0, None)
        end in
      let '(d, s) := load_loop n s in
      (c :: d, s)
  end.

Definition Dictionary_load (s : list Z) : outcome (list Z * bool) :=
  let '(d, s) := load_loop (Z.to_nat C) (Some s) in
  d ← mem_write d (C - 1) [0];
  Ok (d, match s with None => true | Some _ => false end).

(** The constructor from [len] characters that need not end in a zero. *)
Fixpoint load_len_loop (n : nat) (i len : Z) (s : option (list Z)) : outcome (list Z) :=
  match n with
  | O => Ok []
  | S n =>
      '(c, s) ←
        match s with
        | Some s =>
            if i <? len then
              match s with [] => Undef | c :: s => Ok (c, if c =? 0 then None else Some s) end
            else Ok (0, Some s)
        | None => Ok (0, None)
        end;
      d ← load_len_loop n (i + 1) len s;
      Ok (c :: d)
  end.

Definition Dictionary_new_len (s : list Z) (len : Z) : outcome (list Z) :=
  d ← load_len_loop (Z.to_nat C) 0 len (Some s); mem_write d (C - 1) [0].

Definition Dictionary_bool (d : list Z) : outcome bool := c ← load d 0; Ok (negb (c =? 0)).

Fixpoint sizeBytes_loop (i : Z) (d : list Z) : Z :=
  match d with
  | [] => C - 1
  | c :: d => if c =? 0 then i else sizeBytes_loop (i + 1) d
  end.
Definition Dictionary_sizeBytes (d : list Z) : Z := sizeBytes_loop 0 d.

(** The loop that compares the key: [None] when [p] reaches [eof], else what is left of the key
    and of the array. *)
Fixpoint match_key (k p : list Z) : outcome (option (list Z * list Z)) :=
  match k with
  | [] => Ok (Some ([], p))
  | c :: k' =>
      match p with
      | [] => Undef
      | x :: p' =>
          if x =? 0 then Ok (Some (k, p))
          else if negb (x =? c) then Ok (Some (k, p))
          else match p' with [] => Ok None | _ :: _ => match_key k' p' end
      end
  end.

(** The character that stands for [c] after a backslash. *)
Definition unescape_char (c : Z) : Z :=
  if c =? 114 then CR else if c =? 110 then LF else if c =? 48 then 0 else if c =? 101 then EQUALS else c.

(** The end of get when the key or the end of its value is not found. *)
Definition not_found (dest : list Z) : outcome (Z * list Z) :=
  dest ← mem_write dest 0 [0]; Ok (-1, dest).

(** The loop that copies the value. *)
Fixpoint read_value (destlen : Z) (p : list Z) (esc : bool) (j : Z) (dest : list Z) : outcome (Z * list Z) :=
  match p with
  | [] => Undef
  | x :: p' =>
      if (x =? 0) || (x =? CR) || (x =? LF) then
        dest ← mem_write dest j [0]; Ok (j, dest)
      else
        let next esc j dest := match p' with [] => not_found dest | _ :: _ => read_value destlen p' esc j dest end in
        let put c :=
          dest ← mem_write dest j [c];
          if j + 1 =? destlen then dest ← mem_write dest j [0]; Ok (j, dest)
          else next false (j + 1) dest in
        if esc then put (unescape_char x)
        else if x =? BACKSLASH then next true j dest
        else put x
  end.

(** The loop that looks for the end of the line: [None] at [eof]. *)
Fixpoint skip_line (p : list Z) : outcome (option (list Z)) :=
  match p with
  | [] => Undef
  | x :: p' =>
      if (x =? 0) || (x =? CR) || (x =? LF) then Ok (Some p)
      else match p' with [] => Ok None | _ :: _ => skip_line p' end
  end.

(** To the next line: [None] at [eof] or at the end of the string. *)
Definition next_line (p : list Z) : outcome (option (list Z)) :=
  l ← skip_line p;
  match l with
  | None => Ok None
  | Some p =>
      x ← load p 0;
      if x =? 0 then Ok None
      else Ok (match drop 1 p with [] => None | p => Some p end)
  end.

(** The outer loop; every turn moves [p], so that the length of the array is enough fuel. *)
Fixpoint get_loop (fuel : nat) (key p dest : list Z) (destlen : Z) : outcome (Z * list Z) :=
  match fuel with
  | O => Undef
  | S fuel =>
      let next p :=
        l ← next_line p;
        match l with None => not_found dest | Some p => get_loop fuel key p dest destlen end in
      x ← load p 0;
      if x =? 0 then not_found dest
      else
        m ← match_key key p;
        match m with
        | None => not_found dest
        | Some (k, p) =>
            x ← load p 0;
            match k with
            | [] => if x =? EQUALS then read_value destlen (drop 1 p) false 0 dest else next p
            | _ :: _ => next p
            end
        end
  end.

(** The return value and [dest]. *)
Definition Dictionary_get (d key dest : list Z) (destlen : Z) : outcome (Z * list Z) :=
  if destlen =? 0 then Ok (-1, dest) else get_loop (S (length d)) key d dest destlen.

(** ** Adding an entry *)

(** One character at [j], [i] being the start of the entry: the next [j], or [None] when the
    array is full and the entry is taken back. *)
Definition put_char (i : Z) (st : list Z * option Z) (c : Z) : outcome (list Z * option Z) :=
  match st with
  | (d, None) => Ok (d, None)
  | (d, Some j) =>
      d ← mem_write d j [c];
      if j + 1 =? C then d ← mem_write d i [0]; Ok (d, None)
      else Ok (d, Some (j + 1))
  end.

Fixpoint put_chars (i : Z) (st : list Z * option Z) (cs : list Z) : outcome (list Z * option Z) :=
  match cs with
  | [] => Ok st
  | c :: cs => st ← put_char i st c; put_chars i st cs
  end.

(** What is written for a character of the value. *)
Definition escape_char (c : Z) : list Z :=
  if c =? 0 then [BACKSLASH; 48]
  else if c =? CR then [BACKSLASH; 114]
  else if c =? LF then [BACKSLASH; 110]
  else if c =? BACKSLASH then [BACKSLASH; BACKSLASH]
  else if c =? EQUALS then [BACKSLASH; 101]
  else [c].

(** The index of the first zero. *)
Fixpoint first_zero (i : Z) (d : list Z) : option Z :=
  match d with
  | [] => None
  | c :: d => if c =? 0 then Some i else first_zero (i + 1) d
  end.

(** The characters of the value: [vlen] of them, or those before the first zero when
    [vlen] is negative. *)
Definition value_chars (value : list Z) (vlen : Z) : outcome (list Z) :=
  if vlen <? 0 then (if bool_decide (0 ∈ value) then Ok (cstr value) else Undef) else mem_read value 0 vlen.

Definition Dictionary_add (d key value : list Z) (vlen : Z) : outcome (list Z * bool) :=
  match first_zero 0 d with
  | None => Ok (d, false)
  | Some i =>
      value ← value_chars value vlen;
      st ← (if 0 <? i then put_char i (d, Some i) LF else Ok (d, Some i));
      st ← put_chars i st key;
      st ← put_char i st EQUALS;
      st ← put_chars i st (flat_map escape_char value);
      match st with
      | (d, None) => Ok (d, false)
      | (d, Some j) => d ← mem_write d j [0]; Ok (d, true)
      end
  end.

Definition Dictionary_add_bool (d key : list Z) (value : bool) : outcome (list Z * bool) :=
  Dictionary_add d key [if value then 49 else 48; 0] 1.

Definition Dictionary_add_u64 (d key : list Z) (value : Z) : outcome (list Z * bool) :=
  tmp ← Utils_hex64 value; Dictionary_add d key tmp (-1).

(** [value * -1] is undefined for the least number. *)
Definition Dictionary_add_i64 (d key : list Z) (value : Z) : outcome (list Z * bool) :=
  if 0 <=? value then tmp ← Utils_hex64 value; Dictionary_add d key tmp (-1)
  else if value =? - 2 ^ 63 then Undef
  else tmp ← Utils_hex64 (- value); Dictionary_add d key (45 :: tmp) (-1).

Definition Dictionary_add_Address (d key : list Z) (a : Z) : outcome (list Z * bool) :=
  tmp ← Utils_hex64 (Address_toInt a); Dictionary_add d key tmp (-1).

Definition Dictionary_add_Buffer (d key : list Z) (value : Buffer) : outcome (list Z * bool) :=
  Dictionary_add d key (b_mem value) (Buffer_size value).

Definition Dictionary_contains (d key : list Z) : outcome bool :=
  '(r, _) ← Dictionary_get d key [0; 0] 2; Ok (0 <=? r).

(** The get into a buffer of capacity [BC]. *)
Definition Dictionary_get_Buffer (BC : Z) (d key : list Z) (dest : Buffer) : outcome (Buffer * bool) :=
  '(r, mem) ← Dictionary_get d key (b_mem dest) BC;
  if 0 <=? r then dest ← Buffer_setSize BC (mkBuffer mem (b_len dest)) r; Ok (dest, true)
  else Ok (Buffer_clear (mkBuffer mem (b_len dest)), false).

(** The four characters of [tmp] are not initialised; they are read only when set. *)
Definition Dictionary_getB (d key : list Z) (dfl : bool) : outcome bool :=
  '(r, tmp) ← Dictionary_get d key [0; 0; 0; 0] 4;
  if 0 <=? r then
    c ← load tmp 0; Ok ((c =? 49) || (c =? 116) || (c =? 84))
  else Ok dfl.

Definition Dictionary_getUI (d key : list Z) (dfl : Z) : outcome Z :=
  '(r, tmp) ← Dictionary_get d key (replicate 128 0) 128;
  if 1 <=? r then Ok (Utils_hexStrToU64 (cstr tmp)) else Ok dfl.

Definition Dictionary_getI (d key : list Z) (dfl : Z) : outcome Z :=
  '(r, tmp) ← Dictionary_get d key (replicate 128 0) 128;
  if 1 <=? r then Ok (Utils_hexStrTo64 (cstr tmp)) else Ok dfl.
End Dictionary.

(** ** The abstract view *)

(** The ends of a line, and of the string. *)
Definition is_eol (c : Z) : bool := (c =? CR) || (c =? LF).
Definition is_end (c : Z) : bool := (c =? 0) || (c =? CR) || (c =? LF).
Definition plain (s : list Z) : Prop := Forall (fun c => is_end c = false) s.

Fixpoint dict_lines (s : list Z) : list (list Z) :=
  match s with
  | [] => [[]]
  | c :: s =>
      if is_eol c then [] :: dict_lines s
      else match dict_lines s with [] => [[c]] | l :: ls => (c :: l) :: ls end
  end.

(** What follows a prefix. *)
Fixpoint strip (k l : list Z) : option (list Z) :=
  match k, l with
  | [], l => Some l
  | c :: k, x :: l => if c =? x then strip k l else None
  | _ :: _, [] => None
  end.

Fixpoint find_line (key : list Z) (ls : list (list Z)) : option (list Z) :=
  match ls with
  | [] => None
  | l :: ls => match strip (key ++ [EQUALS]) l with Some v => Some v | None => find_line key ls end
  end.

(** The escaped value of a key in a string. *)
Definition dict_find (key s : list Z) : option (list Z) := find_line key (dict_lines s).

Fixpoint unescape (esc : bool) (v : list Z) : list Z :=
  match v with
  | [] => []
  | x :: v =>
      if esc then unescape_char x :: unescape false v
      else if x =? BACKSLASH then unescape true v
      else x :: unescape false v
  end.

(** What get stores for a value: all of it, or as much as fits before a zero. *)
Definition get_result (dest : list Z) (destlen : Z) (v : option (list Z)) : Z * list Z :=
  match v with
  | None => (-1, 0 :: drop 1 dest)
  | Some v =>
      let u := unescape false v in
      if zlen u <? destlen then (zlen u, u ++ 0 :: zdrop (zlen u + 1) dest)
      else (destlen - 1, ztake (destlen - 1) u ++ 0 :: zdrop destlen dest)
  end.

(** A dictionary holds a C string. *)
Definition dict_ok (C : Z) (d : list Z) : Prop := zlen d = C /\ 0 ∈ d.

Lemma cstr_split d : 0 ∈ d -> exists rest, d = cstr d ++ 0 :: rest.
Proof.
  induction d as [|c d IH]; [by intros ?%not_elem_of_nil|]. cbn [cstr]. destruct (Z.eqb_spec c 0) as [->|Hc]; [by exists d|].
  intros [?|Hin]%elem_of_cons; [done|]. destruct (IH Hin) as [rest E]. exists rest. cbn [app]. by rewrite <- E.
Qed.

Lemma cstr_nonzero d : Forall (fun c => c <> 0) (cstr d).
Proof. induction d as [|c d IH]; [done|]. cbn [cstr]. destruct (Z.eqb_spec c 0); [done|by constructor]. Qed.

Lemma cstr_ends s rest : Forall (fun c => c <> 0) s -> cstr (s ++ 0 :: rest) = s.
Proof. induction 1 as [|c s Hc Hs IH]; [done|]. cbn [app cstr]. rewrite (proj2 (Z.eqb_neq c 0)) by done. by rewrite IH. Qed.

(** ** Reading *)

Lemma is_end_cases c : is_end c = true <-> c = 0 \/ c = CR \/ c = LF.
Proof. unfold is_end. rewrite !orb_true_iff, !Z.eqb_eq. tauto. Qed.

Lemma mem_write_here (a c : list Z) b x : mem_write (a ++ b :: c) (zlen a) [x] = Ok (a ++ x :: c).
Proof. exact (mem_write_seg a [b] c (zlen a) [x] eq_refl eq_refl). Qed.

(** [a ++ u] in an array that was [a ++ c]. *)
Definition stored (destlen : Z) (a u c : list Z) : Z * list Z :=
  let t := a ++ u in
  if zlen t <? destlen then (zlen t, t ++ 0 :: zdrop (zlen t + 1) (a ++ c))
  else (destlen - 1, ztake (destlen - 1) t ++ 0 :: zdrop destlen (a ++ c)).

Lemma zdrop_past (a : list Z) b z c n : zlen a < n -> zdrop n (a ++ b :: c) = zdrop n ((a ++ [z]) ++ c).
Proof.
  intros Hn. pose proof (zlen_nonneg a). replace (a ++ b :: c) with ((a ++ [b]) ++ c) by (by rewrite <- app_assoc).
  rewrite !zdrop_app_ge; rewrite !zlen_app; try done; change (zlen [b]) with 1; change (zlen [z]) with 1; lia.
Qed.

Lemma stored_shift destlen a z u b c : zlen a < destlen -> stored destlen (a ++ [z]) u c = stored destlen a (z :: u) (b :: c).
Proof.
  intros Ha. unfold stored. cbv zeta. replace (a ++ z :: u) with ((a ++ [z]) ++ u) by (by rewrite <- app_assoc).
  assert (Hl : zlen ((a ++ [z]) ++ u) = zlen a + 1 + zlen u) by (by rewrite !zlen_app). pose proof (zlen_nonneg u).
  rewrite !(zdrop_past a b z) by lia. done.
Qed.

Lemma stored_full destlen a z u b c : zlen a + 1 = destlen -> (zlen a, a ++ 0 :: c) = stored destlen a (z :: u) (b :: c).
Proof.
  intros E. unfold stored. cbv zeta. pose proof (zlen_nonneg u). rewrite (proj2 (Z.ltb_ge _ _)) by (rewrite zlen_app; unfold zlen in *; cbn [length]; lia).
  rewrite <- E. replace (zlen a + 1 - 1) with (zlen a) by lia. rewrite ztake_app_exact by done. do 3 f_equal.
  replace (a ++ b :: c) with ((a ++ [b]) ++ c) by (by rewrite <- app_assoc). rewrite zdrop_app_exact; [done|]. by rewrite zlen_app.
Qed.

Lemma read_value_spec destlen v t rest : forall esc a c,
  plain v -> is_end t = true -> zlen a < destlen -> destlen <= zlen (a ++ c) ->
  read_value destlen (v ++ t :: rest) esc (zlen a) (a ++ c) = Ok (stored destlen a (unescape esc v) c).
Proof.
  induction v as [|x v IH]; intros esc a c Hv Ht Ha Hc; cbn [app unescape].
  - cbn [read_value]. fold (is_end t). rewrite Ht. destruct c as [|b c]; [rewrite app_nil_r in Hc; lia|].
    rewrite mem_write_here. cbn [mbind outcome_bind]. unfold stored. rewrite app_nil_r, (proj2 (Z.ltb_lt _ _)) by lia. do 3 f_equal.
    replace (a ++ b :: c) with ((a ++ [b]) ++ c) by (by rewrite <- app_assoc). rewrite zdrop_app_exact; [done|]. by rewrite zlen_app.
  - apply Forall_cons in Hv as [Hx Hv]. cbn [read_value]. fold (is_end x). rewrite Hx.
    assert (Hn : forall A (e f : A), match v ++ t :: rest with [] => e | _ :: _ => f end = f) by (by destruct v). rewrite !Hn.
    destruct c as [|b c]; [rewrite app_nil_r in Hc; lia|].
    assert (Hput : forall z,
      (dest ← mem_write (a ++ b :: c) (zlen a) [z];
       if zlen a + 1 =? destlen then dest ← mem_write dest (zlen a) [0]; Ok (zlen a, dest)
       else read_value destlen (v ++ t :: rest) false (zlen a + 1) dest) = Ok (stored destlen a (z :: unescape false v) (b :: c))).
    { intros z. rewrite mem_write_here. cbn [mbind outcome_bind]. destruct (Z.eqb_spec (zlen a + 1) destlen) as [Ed|Ed].
      - rewrite mem_write_here. cbn [mbind outcome_bind]. f_equal. by apply stored_full.
      - rewrite <- (stored_shift destlen a z _ b c) by done. replace (zlen a + 1) with (zlen (a ++ [z])) in * by (by rewrite zlen_app).
        replace (a ++ z :: c) with ((a ++ [z]) ++ c) by (by rewrite <- app_assoc). apply IH; [done|done|rewrite zlen_app in *; change (zlen [z]) with 1 in *; lia|].
        rewrite !zlen_app in *. unfold zlen in *. cbn [length] in *. lia. }
    destruct esc; [|destruct (x =? BACKSLASH)].
    + erewrite <- Hput. destruct (mem_write (a ++ b :: c) (zlen a) [unescape_char x]); try done. cbn [mbind outcome_bind]. by rewrite Hn.
    + by apply IH.
    + erewrite <- Hput. destruct (mem_write (a ++ b :: c) (zlen a) [x]); try done. cbn [mbind outcome_bind]. by rewrite Hn.
Qed.

(** [l] is the line that [s] starts with; a mark and the rest of the string follow it. *)
Lemma line_split s : Forall (fun c => c <> 0) s ->
  (plain s /\ dict_lines s = [s]) \/
  exists l t s', s = l ++ t :: s' /\ plain l /\ is_eol t = true /\ dict_lines s = l :: dict_lines s'.
Proof.
  induction 1 as [|c s Hc Hs IH]; [left; split; [constructor|done]|]. cbn [dict_lines]. destruct (is_eol c) eqn:E; [right; exists [], c, s; by split_and!; [|constructor| |]|].
  assert (Hp : is_end c = false) by (unfold is_end, is_eol in *; by rewrite <- orb_assoc, E, orb_false_r, (proj2 (Z.eqb_neq c 0))).
  destruct IH as [[Hp' ->]|(l & t & s' & -> & Hl & Ht & ->)]; [left; split; [by constructor|done]|].
  right. exists (c :: l), t, s'. by split_and!; [|constructor| |].
Qed.

Lemma skip_line_spec l t rest : plain l -> is_end t = true -> skip_line (l ++ t :: rest) = Ok (Some (t :: rest)).
Proof.
  intros Hl Ht. induction Hl as [|x l Hx Hl IH]; cbn [app skip_line]; [fold (is_end t); by rewrite Ht|]. fold (is_end x). rewrite Hx. by destruct l.
Qed.

(** A key: no zero and no end of line. *)
Lemma match_key_spec key : forall l t rest, plain key -> plain l -> is_end t = true ->
  match strip key l with
  | Some l' => match_key key (l ++ t :: rest) = Ok (Some ([], l' ++ t :: rest)) /\ plain l'
  | None => exists c k' l', match_key key (l ++ t :: rest) = Ok (Some (c :: k', l' ++ t :: rest)) /\ plain l'
  end.
Proof.
  induction key as [|c key IH]; intros l t rest Hk Hl Ht; cbn [strip]; [done|]. apply Forall_cons in Hk as [Hc Hk]. destruct l as [|x l]; cbn [app match_key].
  - exists c, key, []. split; [|done]. destruct (Z.eqb_spec t 0); [done|]. destruct (Z.eqb_spec t c) as [->|]; [congruence|done].
  - apply Forall_cons in Hl as [Hx Hl]. assert (Hx0 : (x =? 0) = false) by (by destruct (x =? 0) eqn:E; [unfold is_end in Hx; rewrite E in Hx|]). rewrite Hx0.
    rewrite (Z.eqb_sym x c). destruct (c =? x); cbn [negb]; [|exists c, key, (x :: l); split; [done|by constructor]].
    assert (Hn : forall A (e f : A), match l ++ t :: rest with [] => e | _ :: _ => f end = f) by (by destruct l). rewrite Hn. by apply IH.
Qed.

Lemma strip_app k k' l : strip (k ++ k') l = match strip k l with Some l' => strip k' l' | None => None end.
Proof. revert l. induction k as [|c k IH]; intros l; [done|]. destruct l as [|x l]; [done|]. cbn [app strip]. destruct (c =? x); [apply IH|done]. Qed.

Lemma not_found_Ok dest : dest <> [] -> not_found dest = Ok (-1, 0 :: drop 1 dest).
Proof. intros H. destruct dest as [|b dest]; [done|]. unfold not_found. pose proof (mem_write_here [] dest b 0) as E. cbn [app] in E. change (zlen []) with 0 in E. by rewrite E. Qed.

Lemma find_one_line key l : plain key -> plain l ->
  (exists v, strip (key ++ [EQUALS]) l = Some v /\ strip key l = Some (EQUALS :: v)) \/
  (strip (key ++ [EQUALS]) l = None /\ forall l', strip key l = Some l' -> hd 0 l' <> EQUALS).
Proof.
  intros Hk Hl. rewrite strip_app. destruct (strip key l) as [[|x l']|]; [right|cbn [strip]; destruct (Z.eqb_spec EQUALS x) as [<-|Hx]; [left; by exists l'|right]|right];
    (split; [done|]); intros ? [= <-]; [done|]. cbn [hd]. congruence.
Qed.

(** One turn of get on the line [l], which ends with [t]. *)
Lemma get_turn fuel key l t rest dest destlen :
  plain key -> plain l -> is_end t = true -> l <> [] \/ t <> 0 -> 0 < destlen -> destlen <= zlen dest ->
  get_loop (S fuel) key (l ++ t :: rest) dest destlen =
  match strip (key ++ [EQUALS]) l with
  | Some v => Ok (get_result dest destlen (Some v))
  | None => if t =? 0 then not_found dest else match rest with [] => not_found dest | _ :: _ => get_loop fuel key rest dest destlen end
  end.
Proof.
  intros Hk Hl Ht Hne Hd Hz. cbn [get_loop].
  assert (Hld : exists x, load (l ++ t :: rest) 0 = Ok x /\ (x =? 0) = false).
  { destruct l as [|x l]; [exists t; split; [done|]; apply Z.eqb_neq; naive_solver|]. exists x. split; [done|]. apply Forall_cons in Hl as [Hx _].
    destruct (x =? 0) eqn:E; [|done]. unfold is_end in Hx. by rewrite E in Hx. }
  destruct Hld as (x & -> & Hx). cbn [mbind outcome_bind]. rewrite Hx.
  assert (Hnext : forall l', plain l' -> next_line (l' ++ t :: rest) = Ok (if t =? 0 then None else match rest with [] => None | _ :: _ => Some rest end)).
  { intros l' Hl'. unfold next_line. rewrite skip_line_spec by done. cbn [mbind outcome_bind drop]. change (load (t :: rest) 0) with (Ok t). cbn [mbind outcome_bind].
    rewrite drop_0. by destruct (t =? 0), rest. }
  pose proof (match_key_spec key l t rest Hk Hl Ht) as Hm. destruct (find_one_line key l Hk Hl) as [(v & Ev & Es)|[En Hh]].
  - rewrite Es in Hm. destruct Hm as [-> Hp]. rewrite Ev. cbn [mbind outcome_bind app]. change (load (EQUALS :: _) 0) with (Ok EQUALS). cbn [mbind outcome_bind].
    rewrite Z.eqb_refl. cbn [drop]. rewrite drop_0. apply Forall_cons in Hp as [_ Hp].
    exact (read_value_spec destlen v t rest false [] dest Hp Ht Hd Hz).
  - rewrite En. destruct (strip key l) as [l'|] eqn:Es.
    + destruct Hm as [-> Hp]. cbn [mbind outcome_bind]. specialize (Hh l' eq_refl).
      assert (Hy : exists y, load (l' ++ t :: rest) 0 = Ok y /\ (y =? EQUALS) = false).
      { destruct l' as [|y l']; [exists t|exists y]; (split; [done|]); apply Z.eqb_neq; [|done]. intros ->. done. }
      destruct Hy as (y & -> & Hy). cbn [mbind outcome_bind]. rewrite Hy, Hnext by done. cbn [mbind outcome_bind]. by destruct (t =? 0), rest.
    + destruct Hm as (c & k' & l' & -> & Hp). cbn [mbind outcome_bind].
      assert (Hy : exists y, load (l' ++ t :: rest) 0 = Ok y) by (destruct l'; eauto).
      destruct Hy as (y & ->). cbn [mbind outcome_bind]. rewrite Hnext by done. cbn [mbind outcome_bind]. by destruct (t =? 0), rest.
Qed.

Lemma is_eol_end t : is_eol t = true -> is_end t = true /\ t <> 0.
Proof. unfold is_eol, is_end. intros H. split; [by rewrite <- orb_assoc, H, orb_true_r|]. intros ->. done. Qed.

Lemma get_loop_spec key dest destlen rest n : forall s fuel,
  (length s <= n)%nat -> (n < fuel)%nat -> Forall (fun c => c <> 0) s -> plain key -> 0 < destlen -> destlen <= zlen dest ->
  get_loop fuel key (s ++ 0 :: rest) dest destlen = Ok (get_result dest destlen (dict_find key s)).
Proof.
  induction n as [|n IH]; intros s fuel Hn Hf Hs Hk Hd Hz; destruct fuel as [|fuel]; try lia.
  all: assert (Hdest : dest <> []) by (intros ->; change (zlen []) with 0 in Hz; lia).
  all: assert (Hempty : forall f, get_loop (S f) key (0 :: rest) dest destlen = Ok (get_result dest destlen (dict_find key [])))
    by (intros f; cbn [get_loop]; change (load (0 :: rest) 0) with (Ok 0); cbn [mbind outcome_bind]; rewrite Z.eqb_refl, not_found_Ok by done; unfold dict_find; cbn [dict_lines find_line];
        by rewrite strip_app; destruct key).
  - destruct s; [|cbn in Hn; lia]. apply Hempty.
  - destruct (decide (s = [])) as [->|Hne]; [apply Hempty|]. destruct (line_split s Hs) as [[Hp El]|(l & t & s' & -> & Hl & Ht & El)]; unfold dict_find; rewrite El; cbn [find_line].
    + rewrite get_turn by (done || (by left)). destruct (strip _ s); [done|]. rewrite Z.eqb_refl. by apply not_found_Ok.
    + destruct (is_eol_end t Ht) as [Hte Ht0]. rewrite <- app_assoc. cbn [app]. rewrite get_turn by (done || (by right)). destruct (strip _ l); [done|].
      rewrite (proj2 (Z.eqb_neq t 0)) by done. assert (Hm : forall A (e f : A), match s' ++ 0 :: rest with [] => e | _ :: _ => f end = f) by (by destruct s'). rewrite Hm.
      apply Forall_app in Hs as [_ Hs]. apply Forall_cons in Hs as [_ Hs]. rewrite length_app in Hn. cbn [length] in Hn. apply IH; [lia|lia|done..].
Qed.

(** get is the lookup in the lines. *)
Lemma Dictionary_get_spec C d key dest destlen :
  dict_ok C d -> plain key -> 0 < destlen -> destlen <= zlen dest ->
  Dictionary_get d key dest destlen = Ok (get_result dest destlen (dict_find key (cstr d))).
Proof.
  intros [_ Hz] Hk Hd Hl. unfold Dictionary_get. rewrite (proj2 (Z.eqb_neq destlen 0)) by lia. destruct (cstr_split d Hz) as [rest E].
  pose proof (cstr_nonzero d) as Hs. set (s := cstr d) in *. clearbody s. rewrite E at 2. apply (get_loop_spec _ _ _ _ (length s)); [lia| |done..].
  rewrite E, length_app. lia.
Qed.

(** ** Writing *)

Lemma first_zero_spec d : forall i, 0 ∈ d -> first_zero i d = Some (i + zlen (cstr d)).
Proof.
  induction d as [|c d IH]; intros i; [by intros ?%not_elem_of_nil|]. cbn [first_zero cstr]. destruct (Z.eqb_spec c 0) as [->|Hc].
  - intros _. f_equal. rewrite zlen_nil. lia.
  - intros [?|Hin]%elem_of_cons; [done|]. rewrite IH by done. f_equal. unfold zlen. cbn [length]. lia.
Qed.

(** Characters after [a]: all of them, or the array with a zero after [s] again. *)
Lemma put_chars_spec C s w : forall cs rest,
  zlen ((s ++ w) ++ rest) = C -> (zlen rest > 0) ->
  if zlen cs <? zlen rest then
    put_chars C (zlen s) ((s ++ w) ++ rest, Some (zlen (s ++ w))) cs = Ok (((s ++ w ++ cs) ++ zdrop (zlen cs) rest), Some (zlen (s ++ w ++ cs)))
  else exists q, put_chars C (zlen s) ((s ++ w) ++ rest, Some (zlen (s ++ w))) cs = Ok (s ++ 0 :: q, None) /\ zlen (s ++ 0 :: q) = C.
Proof.
  intros cs. revert w. induction cs as [|c cs IH]; intros w rest Hl Hr.
  - rewrite zlen_nil, (proj2 (Z.ltb_lt _ _)) by lia. cbn [put_chars]. rewrite zdrop_0, app_nil_r. done.
  - destruct rest as [|b rest]; [change (zlen []) with 0 in Hr; lia|]. cbn [put_chars put_char]. rewrite (mem_write_here (s ++ w) rest b c). cbn [mbind outcome_bind].
    destruct (Z.eqb_spec (zlen (s ++ w) + 1) C) as [Ec|Ec].
    + assert (Hrest : rest = []) by (rewrite zlen_app in Hl; apply zlen_0_inv; unfold zlen in *; cbn [length] in Hl; lia). subst rest.
      rewrite (proj2 (Z.ltb_ge _ _)) by (unfold zlen; cbn [length]; lia).
      assert (Ew : exists q, mem_write ((s ++ w) ++ [c]) (zlen s) [0] = Ok (s ++ 0 :: q) /\ zlen (s ++ 0 :: q) = C).
      { assert (Hq : exists x q, w ++ [c] = x :: q) by (destruct w; eauto). destruct Hq as (x & q & Eq). exists q. rewrite <- app_assoc, Eq. split; [apply mem_write_here|].
        rewrite <- Ec. assert (zlen (w ++ [c]) = zlen (x :: q)) by (by rewrite Eq). rewrite !zlen_app in *. unfold zlen in *. cbn [length] in *. lia. }
      destruct Ew as (q & -> & Hq). cbn [mbind outcome_bind]. exists q. split; [|done]. clear. induction cs as [|x cs IH]; [done|]. cbn [put_chars put_char mbind outcome_bind]. done.
    + cbn [mbind outcome_bind]. specialize (IH (w ++ [c]) rest). rewrite !(app_assoc s w) in IH.
      replace ((s ++ w) ++ c :: rest) with (((s ++ w) ++ [c]) ++ rest) by (by rewrite <- app_assoc).
      replace (zlen (s ++ w) + 1) with (zlen ((s ++ w) ++ [c])) in * by (by rewrite zlen_app).
      assert (Hl' : zlen (((s ++ w) ++ [c]) ++ rest) = C) by (rewrite <- Hl, !zlen_app; unfold zlen; cbn [length]; lia).
      assert (Hr' : zlen rest > 0) by (rewrite zlen_app in Hl'; unfold zlen in *; lia). specialize (IH Hl' Hr').
      replace (zlen (c :: cs) <? zlen (b :: rest)) with (zlen cs <? zlen rest) by (unfold zlen; cbn [length]; destruct (Z.ltb_spec (Z.of_nat (length cs)) (Z.of_nat (length rest))); symmetry; [apply Z.ltb_lt|apply Z.ltb_ge]; lia).
      destruct (zlen cs <? zlen rest); [|done]. rewrite IH. rewrite <- !app_assoc. cbn [app]. do 4 f_equal. 
      replace (zlen (c :: cs)) with (zlen cs + 1) by (unfold zlen; cbn [length]; lia). unfold zdrop. rewrite Z2Nat.inj_add by (unfold zlen; lia). by rewrite Nat.add_comm.
Qed.

Lemma put_chars_app C i cs cs' : forall st, (st ← put_chars C i st cs; put_chars C i st cs') = put_chars C i st (cs ++ cs').
Proof.
  induction cs as [|c cs IH]; intros st; [done|]. cbn [put_chars app]. destruct (put_char C i st c); cbn [mbind outcome_bind]; [apply IH|done|done].
Qed.

Lemma put_chars_one C i c st : put_char C i st c = put_chars C i st [c].
Proof. cbn [put_chars]. by destruct (put_char C i st c). Qed.

(** What add appends to a string. *)
Definition entry_text (s key value : list Z) : list Z :=
  (match s with [] => [] | _ :: _ => [LF] end) ++ key ++ [EQUALS] ++ flat_map escape_char value.

Lemma escape_plain value : plain (flat_map escape_char value).
Proof.
  induction value as [|c value IH]; [constructor|]. cbn [flat_map]. apply Forall_app. split; [|done]. unfold escape_char.
  destruct (Z.eqb_spec c 0); [by repeat constructor|]. destruct (Z.eqb_spec c CR); [by repeat constructor|]. destruct (Z.eqb_spec c LF); [by repeat constructor|].
  destruct (Z.eqb_spec c BACKSLASH); [by repeat constructor|]. destruct (Z.eqb_spec c EQUALS); [by repeat constructor|]. repeat constructor.
  unfold is_end. by rewrite !(proj2 (Z.eqb_neq _ _)).
Qed.

Lemma plain_nonzero s : plain s -> Forall (fun c => c <> 0) s.
Proof. intros Hs. eapply Forall_impl; [exact Hs|]. intros c Hc ->. done. Qed.

Lemma entry_text_nonzero s key value : plain key -> Forall (fun c => c <> 0) (entry_text s key value).
Proof.
  intros Hk. unfold entry_text. apply Forall_app. split; [destruct s; repeat constructor; done|]. apply Forall_app. split; [by apply plain_nonzero|].
  constructor; [done|]. apply plain_nonzero, escape_plain.
Qed.

(** add appends a line, or leaves the string. *)
Lemma Dictionary_add_spec C d key value vlen v :
  dict_ok C d -> plain key -> value_chars value vlen = Ok v ->
  let s := cstr d in
  let fits := zlen (s ++ entry_text s key v) <? C in
  exists d', Dictionary_add C d key value vlen = Ok (d', fits) /\ dict_ok C d' /\ cstr d' = if fits then s ++ entry_text s key v else s.
Proof.
  intros [Hl Hz] Hk Hv s fits. destruct (cstr_split d Hz) as [rest E]. fold s in E. pose proof (cstr_nonzero d) as Hs. fold s in Hs.
  unfold Dictionary_add. rewrite first_zero_spec by done. fold s. rewrite Z.add_0_l, Hv. cbn [mbind outcome_bind].
  assert (Eadd : forall A (k : list Z * option Z -> outcome A),
    (st ← (if 0 <? zlen s then put_char C (zlen s) (d, Some (zlen s)) LF else Ok (d, Some (zlen s)));
     st ← put_chars C (zlen s) st key; st ← put_char C (zlen s) st EQUALS; st ← put_chars C (zlen s) st (flat_map escape_char v); k st) =
    (st ← put_chars C (zlen s) (d, Some (zlen s)) (entry_text s key v); k st)).
  { intros A k. unfold entry_text. rewrite put_chars_one.
    assert (E0 : (if 0 <? zlen s then put_chars C (zlen s) (d, Some (zlen s)) [LF] else Ok (d, Some (zlen s))) =
      put_chars C (zlen s) (d, Some (zlen s)) match s with [] => [] | _ :: _ => [LF] end) by (by destruct s).
    rewrite E0. set (lead := match s with [] => [] | _ :: _ => [LF] end). rewrite <- (put_chars_app _ _ lead).
    destruct (put_chars C (zlen s) (d, Some (zlen s)) lead) as [st| |]; cbn [mbind outcome_bind]; [|done|done].
    rewrite <- (put_chars_app _ _ key). destruct (put_chars C (zlen s) st key) as [st'| |]; cbn [mbind outcome_bind]; [|done|done].
    rewrite put_chars_one, <- (put_chars_app _ _ [EQUALS]). by destruct (put_chars C (zlen s) st' [EQUALS]) as [st''| |]; cbn [mbind outcome_bind]. }
  rewrite Eadd. pose proof (entry_text_nonzero s key v Hk) as Hw. set (w := entry_text s key v) in *. clearbody w. clear Eadd.
  pose proof (put_chars_spec C s [] w (0 :: rest)) as Hp. rewrite app_nil_r, <- E in Hp. specialize (Hp Hl). cbn [app] in Hp.
  specialize (Hp ltac:(unfold zlen; cbn [length]; lia)). assert (Hfits : (zlen w <? zlen (0 :: rest)) = fits).
  { unfold fits. rewrite <- Hl, E, !zlen_app. destruct (Z.ltb_spec (zlen w) (zlen (0 :: rest))); symmetry; [apply Z.ltb_lt|apply Z.ltb_ge]; lia. }
  rewrite Hfits in Hp. destruct fits eqn:Ef.
  - rewrite Hp. cbn [mbind outcome_bind]. apply Z.ltb_lt in Hfits. pose proof (zlen_nonneg w) as Hw0.
    assert (Hzd : zlen (zdrop (zlen w) (0 :: rest)) = zlen (0 :: rest) - zlen w) by (apply zlen_zdrop; lia).
    assert (Hne : exists b q, zdrop (zlen w) (0 :: rest) = b :: q).
    { destruct (zdrop (zlen w) (0 :: rest)) as [|b q]; [|by eauto]. change (zlen []) with 0 in Hzd. lia. }
    destruct Hne as (b & q & Eb). rewrite Eb, mem_write_here. cbn [mbind outcome_bind]. eexists. split; [done|]. split.
    + split; [|apply elem_of_app; right; by left]. rewrite <- Hl, E, !zlen_app. rewrite Eb in Hzd. unfold zlen in *. cbn [length] in *. lia.
    + apply cstr_ends, Forall_app. done.
  - destruct Hp as (q & -> & Hq). cbn [mbind outcome_bind]. eexists. split; [done|]. split; [split; [done|apply elem_of_app; right; by left]|]. by apply cstr_ends.
Qed.

(** ** Reading what was written *)

Definition clean (key : list Z) : Prop := plain key /\ EQUALS ∉ key.

Lemma dict_lines_plain l : plain l -> dict_lines l = [l].
Proof.
  induction 1 as [|c l Hc Hl IH]; [done|]. cbn [dict_lines]. rewrite IH. unfold is_end in Hc. rewrite <- orb_assoc in Hc. apply orb_false_iff in Hc as [_ Hc].
  unfold is_eol. by rewrite Hc.
Qed.

Lemma dict_lines_nonempty s : dict_lines s <> [].
Proof. destruct s as [|c s]; [done|]. cbn [dict_lines]. destruct (is_eol c); [done|]. by destruct (dict_lines s). Qed.

Lemma dict_lines_app s l : plain l -> dict_lines (s ++ LF :: l) = dict_lines s ++ [l].
Proof.
  intros Hl. induction s as [|c s IH]; cbn [app dict_lines]; [by rewrite dict_lines_plain|]. rewrite IH. destruct (is_eol c); [done|].
  pose proof (dict_lines_nonempty s). by destruct (dict_lines s).
Qed.

Lemma find_line_app key ls ls' : find_line key (ls ++ ls') = match find_line key ls with Some v => Some v | None => find_line key ls' end.
Proof. induction ls as [|l ls IH]; [done|]. cbn [app find_line]. destruct (strip _ l); [done|apply IH]. Qed.

Lemma strip_entry key' : forall key v, EQUALS ∉ key' -> EQUALS ∉ key ->
  strip (key' ++ [EQUALS]) (key ++ EQUALS :: v) = if bool_decide (key' = key) then Some v else None.
Proof.
  induction key' as [|c key' IH]; intros key v Hk' Hk.
  - destruct key as [|x key]; cbn [app strip]; [by rewrite Z.eqb_refl|]. apply not_elem_of_cons in Hk as [Hx _]. by rewrite (proj2 (Z.eqb_neq _ _)).
  - apply not_elem_of_cons in Hk' as [Hc Hk']. destruct key as [|x key]; cbn [app strip]; [by rewrite (proj2 (Z.eqb_neq _ _))|].
    apply not_elem_of_cons in Hk as [Hx Hk]. destruct (Z.eqb_spec c x) as [->|Hn].
    + rewrite IH by done. destruct (decide (key' = key)) as [->|]; [by rewrite !bool_decide_true|]. rewrite !bool_decide_false; congruence.
    + rewrite bool_decide_false; congruence.
Qed.

Lemma dict_find_entry key' s key v :
  clean key' -> clean key -> plain v ->
  dict_find key' (s ++ (match s with [] => [] | _ :: _ => [LF] end) ++ key ++ [EQUALS] ++ v) =
  match dict_find key' s with Some u => Some u | None => if bool_decide (key' = key) then Some v else None end.
Proof.
  intros [Hk' He'] [Hk He] Hv. assert (Hl : plain (key ++ [EQUALS] ++ v)) by (apply Forall_app; split; [done|]; constructor; done). unfold dict_find.
  assert (Hone : find_line key' [key ++ [EQUALS] ++ v] = if bool_decide (key' = key) then Some v else None).
  { cbn [find_line app]. rewrite strip_entry by done. by destruct (bool_decide _). }
  destruct s as [|c s].
  - cbn [app dict_lines find_line]. rewrite dict_lines_plain by done. rewrite strip_app. destruct key' as [|c' key']; [done|]. cbn [strip]. exact Hone.
  - cbn [app]. change (c :: s ++ LF :: key ++ EQUALS :: v) with ((c :: s) ++ LF :: (key ++ [EQUALS] ++ v)). rewrite dict_lines_app by done. rewrite find_line_app, Hone. done.
Qed.

Lemma unescape_escape v : unescape false (flat_map escape_char v) = v.
Proof.
  induction v as [|c v IH]; [done|]. cbn [flat_map]. unfold escape_char at 1.
  destruct (Z.eqb_spec c 0) as [->|]; [cbn; by rewrite IH|]. destruct (Z.eqb_spec c CR) as [->|]; [cbn; by rewrite IH|]. destruct (Z.eqb_spec c LF) as [->|]; [cbn; by rewrite IH|].
  destruct (Z.eqb_spec c BACKSLASH) as [->|Hb]; [cbn; by rewrite IH|]. destruct (Z.eqb_spec c EQUALS) as [->|]; [cbn; by rewrite IH|].
  cbn [app unescape]. rewrite (proj2 (Z.eqb_neq c BACKSLASH)) by done. by rewrite IH.
Qed.

(** What get stores for the characters of a value. *)
Definition get_value (dest : list Z) (destlen : Z) (v : list Z) : Z * list Z :=
  if zlen v <? destlen then (zlen v, v ++ 0 :: zdrop (zlen v + 1) dest) else (destlen - 1, ztake (destlen - 1) v ++ 0 :: zdrop destlen dest).

Lemma add_get C d key value vlen v key' dest destlen :
  dict_ok C d -> clean key -> clean key' -> value_chars value vlen = Ok v -> 0 < destlen -> destlen <= zlen dest ->
  exists d' ok, Dictionary_add C d key value vlen = Ok (d', ok) /\ dict_ok C d' /\ ok = (zlen (cstr d ++ entry_text (cstr d) key v) <? C) /\
    Dictionary_get d' key' dest destlen =
      if ok && bool_decide (key' = key) && bool_decide (dict_find key (cstr d) = None) then Ok (get_value dest destlen v)
      else Dictionary_get d key' dest destlen.
Proof.
  intros Hd Hk Hk' Hv Hl Hz. destruct (Dictionary_add_spec C d key value vlen v Hd (proj1 Hk) Hv) as (d' & Ea & Hd' & Es). eexists _, _. split; [exact Ea|]. split; [done|].
  split; [done|]. rewrite (Dictionary_get_spec C d'), (Dictionary_get_spec C d) by (done || apply Hk'). rewrite Es. destruct (zlen (cstr d ++ _) <? C); [|done]. cbn [andb].
  unfold entry_text. rewrite dict_find_entry by (done || apply escape_plain). destruct (decide (key' = key)) as [->|Hne].
  - rewrite bool_decide_true by done. cbn [andb]. destruct (dict_find key (cstr d)) as [u|] eqn:Ef.
    + by rewrite bool_decide_false by done.
    + rewrite bool_decide_true by done. cbn [get_result]. by rewrite unescape_escape.
  - rewrite bool_decide_false by done. by destruct (dict_find key' (cstr d)).
Qed.

(** ** Numbers *)

Definition u64_nibbles (v : Z) : list Z :=
  (fun s => Z.land (Z.shiftr v s) 15) <$> [60; 56; 52; 48; 44; 40; 36; 32; 28; 24; 20; 16; 12; 8; 4; 0].

Lemma u64_nibbles_range v : Forall (fun k => 0 <= k < 16) (u64_nibbles v).
Proof. apply Forall_fmap, Forall_true. intros s. cbn. rewrite land_15. by apply Z.mod_pos_bound. Qed.

Lemma Utils_hex64_chars v : Utils_hex64 v = Ok ((hex_char <$> u64_nibbles v) ++ [0]).
Proof. unfold Utils_hex64, hexdigit. cbn [mapM]. rewrite !load_hexchars by (rewrite land_15; by apply Z.mod_pos_bound). done. Qed.

Lemma u64_nibbles_value v : is_u64 v -> foldl (fun v k => v * 16 + k) 0 (u64_nibbles v) = v.
Proof.
  intros Hv. unfold u64_nibbles. cbn [fmap list_fmap foldl]. rewrite Z.mul_0_l, Z.add_0_l.
  replace (Z.land (Z.shiftr v 60) 15) with (Z.shiftr v 60).
  2:{ rewrite land_15, Z.mod_small; [done|]. by apply (in_range_shiftr 4 60). }
  rewrite (nibble_step v 56), (nibble_step v 52), (nibble_step v 48), (nibble_step v 44), (nibble_step v 40), (nibble_step v 36), (nibble_step v 32), (nibble_step v 28),
    (nibble_step v 24), (nibble_step v 20), (nibble_step v 16), (nibble_step v 12), (nibble_step v 8), (nibble_step v 4), (nibble_step v 0) by lia.
  apply Z.shiftr_0_r.
Qed.

Lemma u64_chars_nonzero v : Forall (fun c => c <> 0) (hex_char <$> u64_nibbles v).
Proof. apply Forall_fmap. eapply Forall_impl; [apply u64_nibbles_range|]. intros k Hk. by apply hex_char_facts. Qed.

Lemma zlen_u64_chars v : zlen (hex_char <$> u64_nibbles v) = 16.
Proof. unfold zlen. by rewrite length_fmap. Qed.

Lemma u64_chars_escape v : flat_map escape_char (hex_char <$> u64_nibbles v) = hex_char <$> u64_nibbles v.
Proof.
  induction (u64_nibbles_range v) as [|k ks Hk _ IH]; [done|]. cbn [fmap list_fmap flat_map]. rewrite IH.
  assert (H : forallb (fun k => bool_decide (escape_char (hex_char k) = [hex_char k])) (seqZ 0 16) = true) by (vm_compute; reflexivity).
  rewrite forallb_forall in H. specialize (H k). ospecialize (H _); [apply list_elem_of_In, elem_of_seqZ; lia|]. by rewrite (bool_decide_eq_true_1 _ H).
Qed.

Lemma u64_value_chars v : value_chars ((hex_char <$> u64_nibbles v) ++ [0]) (-1) = Ok (hex_char <$> u64_nibbles v).
Proof.
  unfold value_chars. change (-1 <? 0) with true. cbv iota. rewrite bool_decide_true by (apply elem_of_app; right; by left). f_equal.
  apply (cstr_ends _ []), u64_chars_nonzero.
Qed.

(** ** Properties *)

(** What get finds after add: the new value when there was room and the key is new, else
    what it found before; the first of several entries with a key counts. *)
Theorem Dictionary_add_get C d key value vlen v key' dest destlen :
  dict_ok C d -> clean key -> clean key' -> value_chars value vlen = Ok v -> 0 < destlen -> destlen <= zlen dest ->
  exists d' ok, Dictionary_add C d key value vlen = Ok (d', ok) /\ dict_ok C d' /\ ok = (zlen (cstr d ++ entry_text (cstr d) key v) <? C) /\
    Dictionary_get d' key' dest destlen =
      if ok && bool_decide (key' = key) && bool_decide (dict_find key (cstr d) = None) then Ok (get_value dest destlen v)
      else Dictionary_get d key' dest destlen.
Proof. apply add_get. Qed.

(** A key [nw] with a value of seven characters, two of which are escaped. *)
Lemma Dictionary_add_get_witness :
  exists d', Dictionary_add 32 (Dictionary_new 32) [110; 119] [97; 61; 0; 98; 99; 92; 10] 7 = Ok (d', true) /\
    Dictionary_get d' [110; 119] (replicate 8 7) 8 = Ok (7, [97; 61; 0; 98; 99; 92; 10; 0]).
Proof.
  assert (Hc : clean [110; 119]) by (split; [by repeat constructor|]; rewrite !not_elem_of_cons; split_and!; [done|done|apply not_elem_of_nil]).
  destruct (Dictionary_add_get 32 (Dictionary_new 32) [110; 119] [97; 61; 0; 98; 99; 92; 10] 7 [97; 61; 0; 98; 99; 92; 10] [110; 119] (replicate 8 7) 8)
    as (d' & ok & Ha & _ & Eok & Hg); [split; [done|by left]|done|done|done|done|done|].
  exists d'. rewrite Eok in Ha, Hg. split; [exact Ha|exact Hg].
Defined.

(** A number survives the dictionary. *)
Theorem Dictionary_u64_roundtrip C d key value dfl :
  dict_ok C d -> clean key -> is_u64 value -> dict_find key (cstr d) = None ->
  exists d' ok, Dictionary_add_u64 C d key value = Ok (d', ok) /\ dict_ok C d' /\
    ok = (zlen (cstr d) + Z.b2z (bool_decide (cstr d <> [])) + zlen key + 17 <? C) /\
    (ok = true -> Dictionary_getUI d' key dfl = Ok value).
Proof.
  intros Hd Hk Hv Hf. unfold Dictionary_add_u64. rewrite Utils_hex64_chars. cbn [mbind outcome_bind].
  destruct (add_get C d key _ (-1) _ key (replicate 128 0) 128 Hd Hk Hk (u64_value_chars value)) as (d' & ok & Ha & Hd' & Eok & Hg); [done|done|].
  exists d', ok. split; [done|]. split; [done|]. split.
  - rewrite Eok. unfold entry_text. rewrite u64_chars_escape, !zlen_app. rewrite zlen_u64_chars. change (zlen [EQUALS]) with 1.
    f_equal. destruct (cstr d) as [|c s]; [rewrite bool_decide_false by (intros H; by apply H)|rewrite bool_decide_true by done]; [change (zlen []) with 0|change (zlen [LF]) with 1]; cbn [Z.b2z]; lia.
  - intros ->. rewrite !bool_decide_true in Hg by done. unfold Dictionary_getUI. rewrite Hg. cbn [andb mbind outcome_bind].
    unfold get_value. rewrite zlen_u64_chars. cbn [Z.ltb Z.leb Z.compare Pos.compare Pos.compare_cont].
    rewrite cstr_ends by apply u64_chars_nonzero. unfold Utils_hexStrToU64.
    rewrite strtoul_hex, u64_nibbles_value; [done|done|apply u64_nibbles_range|rewrite u64_nibbles_value by done; unfold in_range in Hv; lia].
Qed.

Lemma Dictionary_u64_roundtrip_witness :
  exists d', Dictionary_add_u64 32 (Dictionary_new 32) [110; 119] 0x8056c2e21c000001 = Ok (d', true) /\ Dictionary_getUI d' [110; 119] 0 = Ok 0x8056c2e21c000001.
Proof.
  assert (Hc : clean [110; 119]) by (split; [by repeat constructor|]; rewrite !not_elem_of_cons; split_and!; [done|done|apply not_elem_of_nil]).
  destruct (Dictionary_u64_roundtrip 32 (Dictionary_new 32) [110; 119] 0x8056c2e21c000001 0) as (d' & ok & Ha & _ & Eok & Hg);
    [split; [done|by left]|done|done|done|].
  exists d'. rewrite Eok in Ha. split; [exact Ha|apply Hg; rewrite Eok; reflexivity].
Defined.

(** ** Loading *)

Lemma load_loop_spec n s :
  Forall (fun c => c <> 0) s ->
  load_loop n (Some s) = (if (length s <? n)%nat then (s ++ replicate (n - length s) 0, None) else (take n s, Some (drop n s))).
Proof.
  assert (Hnone : forall n, load_loop n None = (replicate n 0, None)).
  { clear. induction n as [|n IH]; [done|]. cbn. by rewrite IH. }
  intros H. revert n. induction H as [|c s Hc _ IH]; intros [|n]; cbn [load_loop]; [done| |done|].
  - rewrite Hnone. cbn [length Nat.ltb Nat.leb]. by rewrite Nat.sub_0_r.
  - rewrite (proj2 (Z.eqb_neq c 0)) by done. rewrite IH. cbn [length take drop].
    change (S (length s) <? S n)%nat with (length s <? n)%nat. change (S n - S (length s))%nat with (n - length s)%nat. by destruct (length s <? n)%nat.
Qed.

Lemma sizeBytes_loop_spec C d i : 0 ∈ d -> sizeBytes_loop C i d = i + zlen (cstr d).
Proof.
  revert i. induction d as [|c d IH]; intros i H; [by apply elem_of_nil in H|]. cbn [sizeBytes_loop cstr]. destruct (Z.eqb_spec c 0); [by rewrite zlen_nil, Z.add_0_r|].
  rewrite IH by (apply elem_of_cons in H as [|]; [lia|done]). unfold zlen. cbn [length]. lia.
Qed.

(** What the constructors and load leave in the array. *)
Lemma load_terminated a x C : zlen a = C - 1 -> exists d, mem_write (a ++ [x]) (C - 1) [0] = Ok d /\ dict_ok C d /\ d = a ++ [0].
Proof.
  intros Ha. exists (a ++ [0]). pose proof (mem_write_seg a [x] [] (C - 1) [0] Ha eq_refl) as H. rewrite !app_nil_r in H. rewrite H. split; [done|].
  split; [|done]. split; [rewrite zlen_app; change (zlen [0]) with 1; lia|]. apply elem_of_app. right. by left.
Qed.

(** The string is stored whole when it is shorter than the array, cut to [C - 1] characters otherwise. *)
Theorem Dictionary_load_Ok C s :
  0 < C -> Forall (fun c => c <> 0) s ->
  exists d, Dictionary_load C s = Ok (d, zlen s <? C) /\ dict_ok C d /\ cstr d = ztake (C - 1) s /\ Dictionary_sizeBytes C d = Z.min (zlen s) (C - 1).
Proof.
  intros HC Hs.
  assert (exists d, Dictionary_load C s = Ok (d, zlen s <? C) /\ dict_ok C d /\ cstr d = ztake (C - 1) s) as (d & Hl & Hd & Ec).
  { unfold Dictionary_load. rewrite load_loop_spec by done. destruct (Nat.ltb_spec (length s) (Z.to_nat C)) as [H|H].
    - rewrite (proj2 (Z.ltb_lt _ _)) by (unfold zlen; lia). replace (Z.to_nat C - length s)%nat with ((Z.to_nat C - length s - 1) + 1)%nat by lia.
      rewrite replicate_add, app_assoc. cbn [replicate].
      destruct (load_terminated (s ++ replicate (Z.to_nat C - length s - 1) 0) 0 C) as (d & Hw & Hd & Ed); [unfold zlen; rewrite length_app, length_replicate; lia|].
      exists d. rewrite Hw. split; [done|]. split; [done|]. rewrite Ed, ztake_all by (unfold zlen; lia). rewrite <- app_assoc.
      destruct (Z.to_nat C - length s - 1)%nat; by apply cstr_ends.
    - rewrite (proj2 (Z.ltb_ge _ _)) by (unfold zlen; lia). destruct (Z.to_nat C) as [|n] eqn:En; [lia|].
      destruct (lookup_lt_is_Some_2 s n) as [x Hx]; [lia|]. rewrite (take_S_r _ _ _ Hx).
      destruct (load_terminated (take n s) x C) as (d & Hw & Hd & Ed); [unfold zlen; rewrite length_take; lia|].
      exists d. rewrite Hw. split; [done|]. split; [done|]. rewrite Ed, (cstr_ends _ []) by (by apply Forall_take). unfold ztake. f_equal. lia. }
  exists d. split_and!; [done..|]. unfold Dictionary_sizeBytes. rewrite sizeBytes_loop_spec, Ec by apply Hd. unfold ztake, zlen. rewrite length_take. lia.
Qed.

(** "a=1" into an array of eight and of three characters. *)
Lemma Dictionary_load_Ok_witness :
  (exists d, Dictionary_load 8 [97; 61; 49] = Ok (d, true) /\ cstr d = [97; 61; 49]) /\ (exists d, Dictionary_load 3 [97; 61; 49] = Ok (d, false) /\ cstr d = [97; 61]).
Proof.
  assert (Hs : Forall (fun c => c <> 0) [97; 61; 49]) by (by repeat constructor). split.
  - destruct (Dictionary_load_Ok 8 [97; 61; 49] eq_refl Hs) as (d & H & _ & E & _). exists d. split; [exact H|exact E].
  - destruct (Dictionary_load_Ok 3 [97; 61; 49] eq_refl Hs) as (d & H & _ & E & _). exists d. split; [exact H|exact E].
Defined.

(** ** Buffers *)

(** The bytes of a buffer come back into a buffer with room for one more. *)
Theorem Dictionary_buffer_roundtrip C d key BC v BC' dest :
  dict_ok C d -> clean key -> dict_find key (cstr d) = None -> buf_wf BC v -> buf_wf BC' dest -> b_len v < BC' ->
  exists d' ok, Dictionary_add_Buffer C d key v = Ok (d', ok) /\ dict_ok C d' /\   exists dest' found, Dictionary_get_Buffer BC' d' key dest = Ok (dest', found) /\ found = ok /\ buf_data dest' = if ok then buf_data v else [].
Proof.
  intros Hd Hk Hf [Hvm _ Hvl _] [Hdm _ Hdl _] Hlt.
  assert (Hv : value_chars (b_mem v) (Buffer_size v) = Ok (buf_data v)).
  { unfold value_chars, Buffer_size. rewrite (proj2 (Z.ltb_ge _ _)) by lia. rewrite mem_read_Ok by lia. by rewrite slice_0. }
  assert (Hzv : zlen (buf_data v) = b_len v) by (unfold buf_data; rewrite zlen_ztake; lia).
  destruct (add_get C d key _ _ _ key (b_mem dest) BC' Hd Hk Hk Hv) as (d' & ok & Ha & Hd' & _ & Hg); [lia|lia|].
  exists d', ok. split; [done|]. split; [done|]. unfold Dictionary_get_Buffer. rewrite Hg, !bool_decide_true, !andb_true_r by done. destruct ok.
  - unfold get_value. rewrite Hzv, (proj2 (Z.ltb_lt _ _)) by lia. cbn [mbind outcome_bind]. rewrite (proj2 (Z.leb_le _ _)) by lia.
    unfold Buffer_setSize, bounds_check. rewrite (proj2 (Z.ltb_ge _ _)) by lia. cbn [mbind outcome_bind b_mem].
    do 2 eexists. split; [done|]. split; [done|]. unfold buf_data at 1. cbn [b_mem b_len]. by apply ztake_app_exact.
  - rewrite (Dictionary_get_spec C), Hf by (done || apply Hk || lia). cbn [get_result mbind outcome_bind]. do 2 eexists. split; [done|]. done.
Qed.

(** ** Dictionaries as lists of entries *)

(** The text of entries that were added in this order. *)
Definition dict_text (kvs : list (list Z * list Z)) : list Z := fold_left (fun s kv => s ++ entry_text s kv.1 kv.2) kvs [].

Definition dict_lookup (key : list Z) (kvs : list (list Z * list Z)) : option (list Z) :=
  snd <$> List.find (fun kv => bool_decide (key = kv.1)) kvs.

(** A dictionary with the entries [kvs], no more and no less. *)
Record holds (C : Z) (d : list Z) (kvs : list (list Z * list Z)) : Prop := {
  ho_ok : dict_ok C d;
  ho_text : cstr d = dict_text kvs;
  ho_clean : Forall (fun kv => clean kv.1) kvs;
  ho_bytes : Forall (fun kv => Forall is_byte kv.2) kvs
}.

Lemma dict_text_snoc kvs k v : dict_text (kvs ++ [(k, v)]) = dict_text kvs ++ entry_text (dict_text kvs) k v.
Proof. unfold dict_text. by rewrite fold_left_app. Qed.

Lemma dict_text_app_le kvs kvs' : zlen (dict_text kvs) <= zlen (dict_text (kvs ++ kvs')).
Proof.
  induction kvs' as [|[k v] kvs' IH] using rev_ind; [by rewrite app_nil_r|]. rewrite app_assoc, dict_text_snoc, zlen_app. pose proof (zlen_nonneg (entry_text (dict_text (kvs ++ kvs')) k v)). lia.
Qed.

Lemma dict_find_text key kvs : clean key -> Forall (fun kv => clean kv.1) kvs -> dict_find key (dict_text kvs) = flat_map escape_char <$> dict_lookup key kvs.
Proof.
  intros Hk. induction kvs as [|[k v] kvs IH] using rev_ind; intros Hc.
  - cbn. unfold dict_find. cbn. rewrite strip_app. by destruct key.
  - apply Forall_app in Hc as [Hc [Hk' _]%Forall_cons]. rewrite dict_text_snoc. unfold entry_text. rewrite dict_find_entry by (done || apply escape_plain). rewrite IH by done.
    unfold dict_lookup. clear IH. induction kvs as [|kv kvs IH]; cbn [app List.find fst]; [by destruct (bool_decide (key = k))|].
    apply Forall_cons in Hc as [_ Hc]. destruct (bool_decide (key = kv.1)); [done|by apply IH].
Qed.

Lemma Dictionary_new_holds C : 0 < C -> holds C (Dictionary_new C) [].
Proof.
  intros HC. assert (E : Dictionary_new C = [] ++ 0 :: replicate (Z.to_nat (C - 1)) 0).
  { unfold Dictionary_new. replace (Z.to_nat C) with (S (Z.to_nat (C - 1))) by lia. done. }
  split; [split|..]; try constructor; [unfold Dictionary_new; rewrite zlen_replicate_Z by lia; done|rewrite E; by left|rewrite E; by apply cstr_ends].
Qed.

Lemma add_holds C d kvs k value vlen v : holds C d kvs -> clean k -> value_chars value vlen = Ok v -> Forall is_byte v -> zlen (dict_text (kvs ++ [(k, v)])) < C ->
  exists d', Dictionary_add C d k value vlen = Ok (d', true) /\ holds C d' (kvs ++ [(k, v)]).
Proof.
  intros [Hd Ht Hc Hb] Hk Hv Hbv Hl. destruct (Dictionary_add_spec C d k value vlen v Hd (proj1 Hk) Hv) as (d' & E & Hd' & Es). rewrite Ht, <- dict_text_snoc in E, Es.
  rewrite (proj2 (Z.ltb_lt _ _)) in E, Es by done. exists d'. split; [done|]. split; [done|done|..]; (apply Forall_app; split; [done|by constructor]).
Qed.

Lemma get_holds C d kvs key dest destlen : holds C d kvs -> clean key -> 0 < destlen -> destlen <= zlen dest ->
  Dictionary_get d key dest destlen = Ok (match dict_lookup key kvs with Some v => get_value dest destlen v | None => (-1, 0 :: drop 1 dest) end).
Proof.
  intros [Hd Ht Hc Hb] Hk Hl Hz. rewrite (Dictionary_get_spec C) by (done || apply Hk). rewrite Ht, dict_find_text by done. destruct (dict_lookup key kvs) as [v|]; [|done].
  cbn [fmap option_fmap option_map get_result]. by rewrite unescape_escape.
Qed.

(** A number in hexadecimal digits. *)
Lemma getUI_holds C d kvs key dfl ks : holds C d kvs -> clean key -> dict_lookup key kvs = Some (hex_char <$> ks) ->
  Forall (fun k => 0 <= k < 16) ks -> (0 < length ks < 128)%nat -> foldl (fun a k => a * 16 + k) 0 ks < 2 ^ 64 -> Dictionary_getUI d key dfl = Ok (foldl (fun a k => a * 16 + k) 0 ks).
Proof.
  intros Hd Hk Hf Hr Hl Hv. unfold Dictionary_getUI. rewrite (get_holds C d kvs) by done. rewrite Hf. unfold get_value.
  assert (Hz : zlen (hex_char <$> ks) = Z.of_nat (length ks)) by (unfold zlen; by rewrite length_fmap). rewrite Hz, (proj2 (Z.ltb_lt _ _)) by lia. cbn [mbind outcome_bind].
  rewrite (proj2 (Z.leb_le _ _)) by lia. unfold Utils_hexStrToU64. rewrite cstr_ends, strtoul_hex; [done|done|done|].
  apply Forall_fmap. eapply Forall_impl; [exact Hr|]. intros k Hk' E. by destruct (hex_char_facts k Hk') as (? & ? & ?); rewrite E in *.
Qed.

Lemma getUI_none C d kvs key dfl : holds C d kvs -> clean key -> dict_lookup key kvs = None -> Dictionary_getUI d key dfl = Ok dfl.
Proof. intros Hd Hk Hf. unfold Dictionary_getUI. rewrite (get_holds C d kvs) by done. by rewrite Hf. Qed.

Lemma get_Buffer_holds C d kvs key BC dest : holds C d kvs -> clean key -> buf_wf BC dest -> 0 < BC ->
  (forall v, dict_lookup key kvs = Some v -> zlen v < BC) ->
  exists dest', Dictionary_get_Buffer BC d key dest = Ok (dest', match dict_lookup key kvs with Some _ => true | None => false end) /\ buf_wf BC dest' /\
    buf_data dest' = default [] (dict_lookup key kvs).
Proof.
  intros Hd Hk [Hm Hb Hl Hc] HBC Hfit. unfold Dictionary_get_Buffer. rewrite (get_holds C d kvs) by (done || lia). destruct (dict_lookup key kvs) as [v|] eqn:Ef.
  - specialize (Hfit v eq_refl). unfold get_value. rewrite (proj2 (Z.ltb_lt _ _)) by done. cbn [mbind outcome_bind]. pose proof (zlen_nonneg v). rewrite (proj2 (Z.leb_le _ _)) by lia.
    unfold Buffer_setSize, bounds_check. rewrite (proj2 (Z.ltb_ge _ _)) by lia. cbn [mbind outcome_bind b_mem]. eexists. split; [done|]. cbn [default]. split; [|by apply ztake_app_exact].
    assert (Hv : Forall is_byte v).
    { pose proof (ho_bytes C d kvs Hd) as HB. unfold dict_lookup in Ef. destruct (List.find _ kvs) as [kv|] eqn:Efind; [|done]. injection Ef as <-.
      apply find_some in Efind as [Hin _]. rewrite Forall_forall in HB. by apply HB, list_elem_of_In. }
    split; cbn [b_mem b_len]; [|apply Forall_app; split; [done|constructor; [done|by apply Forall_drop]]|lia|done].
    rewrite zlen_app. unfold zlen at 2. cbn [length]. unfold zdrop, zlen in *. rewrite length_drop. lia.
  - cbn [mbind outcome_bind]. eexists. split; [done|]. split; [|done]. split; cbn [b_mem b_len Buffer_clear]; [|constructor; [done|by apply Forall_drop]|lia|done].
    unfold zlen in *. cbn [length]. rewrite length_drop. lia.
Qed.
