(* ===== verification/InetAddress.v ===== *)
(** Socket addresses: node/InetAddress.hpp and node/InetAddress.cpp.

    [InetAddress] is a [sockaddr_storage] read as [sockaddr_in] or [sockaddr_in6]
    according to [ss_family].  [IaV4] and [IaV6] hold the fields of those structures as
    they are in memory: ports in network byte order as a little-endian host reads
    them, addresses as byte strings of 4 and 16 bytes.  [IaOther] is a storage of any
    other family, with the bytes after [ss_family].  Shifts by the width of their operand
    or more are [Undef]. *)
From S2P Require Import Prelude.
From S2P Require Import Utils.
From S2P Require Import CLib.
From S2P Require Import Buffer.
From S2P Require Import Addressing.
From S2P Require Import Wire.

Inductive InetAddress : Type :=
| IaV4 (sin_port : Z) (sin_addr : list Z)
| IaV6 (sin6_port sin6_flowinfo : Z) (sin6_addr : list Z) (sin6_scope_id : Z)
| IaOther (fam : Z) (raw : list Z).

Definition AF_INET : Z := 2.
Definition AF_INET6 : Z := 10.

(** [InetAddress()]: 128 zero bytes. *)
Definition InetAddress_null : InetAddress := IaOther 0 (replicate 126 0).

Definition ss_family (a : InetAddress) : Z :=
  match a with IaV4 _ _ => AF_INET | IaV6 _ _ _ _ => AF_INET6 | IaOther f _ => f end.

Definition ia_wf (a : InetAddress) : Prop :=
  match a with
  | IaV4 p ip => is_u16 p /\ length ip = 4%nat /\ Forall is_byte ip
  | IaV6 p fl ip sc =>
      is_u16 p /\ is_u32 fl /\ length ip = 16%nat /\ Forall is_byte ip /\ is_u32 sc
  | IaOther f raw =>
      is_u16 f /\ f <> AF_INET /\ f <> AF_INET6 /\ length raw = 126%nat /\ Forall is_byte raw
  end.

(** [s_addr] as an integer in memory. *)
Definition s_addr (ip : list Z) : Z := le_val ip.

(** An element of a fixed-size array at a constant index. *)
Definition byte_at (ip : list Z) (k : nat) : Z := nth k ip 0.

Definition shl32 (v n : Z) : outcome Z := if n <? 32 then Ok (u32 (Z.shiftl v n)) else Undef.
Definition shr32 (v n : Z) : outcome Z := if n <? 32 then Ok (Z.shiftr v n) else Undef.
Definition shl64 (v n : Z) : outcome Z := if n <? 64 then Ok (u64 (Z.shiftl v n)) else Undef.

(** ** Construction and access *)

Definition InetAddress_set (ipBytes : list Z) (ipLen port : Z) : outcome InetAddress :=
  if ipLen =? 4 then
    ip ← mem_read ipBytes 0 4;
    Ok (IaV4 (Utils_hton16 (u16 port)) ip)
  else if ipLen =? 16 then
    ip ← mem_read ipBytes 0 16;
    Ok (IaV6 (Utils_hton16 (u16 port)) 0 ip 0)
  else Ok InetAddress_null.

Definition InetAddress_setPort (a : InetAddress) (port : Z) : InetAddress :=
  match a with
  | IaV4 _ ip => IaV4 (Utils_hton16 (u16 port)) ip
  | IaV6 _ fl ip sc => IaV6 (Utils_hton16 (u16 port)) fl ip sc
  | IaOther _ _ => a
  end.

Definition InetAddress_isDefaultRoute (a : InetAddress) : bool :=
  match a with
  | IaV4 p ip => (s_addr ip =? 0) && (p =? 0)
  | IaV6 p _ ip _ => forallb (fun x => x =? 0) ip && (p =? 0)
  | IaOther _ _ => false
  end.

Definition InetAddress_port (a : InetAddress) : Z :=
  match a with
  | IaV4 p _ => Utils_hton16 p
  | IaV6 p _ _ _ => Utils_hton16 p
  | IaOther _ _ => 0
  end.

Definition InetAddress_netmaskBits (a : InetAddress) : Z := InetAddress_port a.

Definition InetAddress_netmaskBitsValid (a : InetAddress) : bool :=
  let n := InetAddress_port a in
  match a with
  | IaV4 _ _ => n <=? 32
  | IaV6 _ _ _ _ => n <=? 128
  | IaOther _ _ => false
  end.

Definition InetAddress_metric (a : InetAddress) : Z := InetAddress_port a.

Definition InetAddress_isV4 (a : InetAddress) : bool := ss_family a =? AF_INET.
Definition InetAddress_isV6 (a : InetAddress) : bool := ss_family a =? AF_INET6.

Definition InetAddress_rawIpData (a : InetAddress) : option (list Z) :=
  match a with IaV4 _ ip => Some ip | IaV6 _ _ ip _ => Some ip | IaOther _ _ => None end.

Definition InetAddress_ipOnly (a : InetAddress) : InetAddress :=
  match a with
  | IaV4 _ ip => IaV4 0 ip
  | IaV6 _ _ ip _ => IaV6 0 0 ip 0
  | IaOther _ _ => InetAddress_null
  end.

Definition InetAddress_bool (a : InetAddress) : bool := negb (ss_family a =? 0).

(** ** Scope *)

Inductive IpScope : Type :=
| IP_SCOPE_NONE | IP_SCOPE_MULTICAST | IP_SCOPE_LOOPBACK | IP_SCOPE_PSEUDOPRIVATE
| IP_SCOPE_GLOBAL | IP_SCOPE_LINK_LOCAL | IP_SCOPE_SHARED | IP_SCOPE_PRIVATE.

#[export] Instance IpScope_eq_dec : EqDecision IpScope.
Proof. solve_decision. Defined.

(** [while ((!ip[k])&&(k < 15)) ++k;] started with [fuel = 15 - k]. *)
Fixpoint zero_run (fuel : nat) (ip : list Z) (k : nat) : nat :=
  match fuel with
  | O => k
  | S fuel => if byte_at ip k =? 0 then zero_run fuel ip (S k) else k
  end.

Definition ipScope_v4 (ip : Z) : IpScope :=
  let rest :=
    match Z.shiftr ip 28 with
    | 0xe => IP_SCOPE_MULTICAST
    | 0xf => IP_SCOPE_PSEUDOPRIVATE
    | _ => IP_SCOPE_GLOBAL
    end in
  match Z.shiftr ip 24 with
  | 0x00 => IP_SCOPE_NONE
  | 0x06 => IP_SCOPE_PSEUDOPRIVATE
  | 0x0a => IP_SCOPE_PRIVATE
  | 0x0b => IP_SCOPE_PSEUDOPRIVATE
  | 0x15 => IP_SCOPE_PSEUDOPRIVATE
  | 0x16 => IP_SCOPE_PSEUDOPRIVATE
  | 0x19 => IP_SCOPE_PSEUDOPRIVATE
  | 0x1a => IP_SCOPE_PSEUDOPRIVATE
  | 0x1c => IP_SCOPE_PSEUDOPRIVATE
  | 0x1d => IP_SCOPE_PSEUDOPRIVATE
  | 0x1e => IP_SCOPE_PSEUDOPRIVATE
  | 0x2c => IP_SCOPE_PSEUDOPRIVATE
  | 0x33 => IP_SCOPE_PSEUDOPRIVATE
  | 0x37 => IP_SCOPE_PSEUDOPRIVATE
  | 0x38 => IP_SCOPE_PSEUDOPRIVATE
  | 0x64 => if Z.land ip 0xffc00000 =? 0x64400000 then IP_SCOPE_PRIVATE else rest
  | 0x7f => IP_SCOPE_LOOPBACK
  | 0xa9 => if Z.land ip 0xffff0000 =? 0xa9fe0000 then IP_SCOPE_LINK_LOCAL else rest
  | 0xac => if Z.land ip 0xfff00000 =? 0xac100000 then IP_SCOPE_PRIVATE else rest
  | 0xc0 => if Z.land ip 0xffff0000 =? 0xc0a80000 then IP_SCOPE_PRIVATE else rest
  | 0xff => IP_SCOPE_NONE
  | _ => rest
  end.

Definition ipScope_v6 (ip : list Z) : IpScope :=
  let rest :=
    let k := zero_run 15 ip 0 in
    if (k =? 15)%nat && (byte_at ip 15 =? 0x01) then IP_SCOPE_LOOPBACK
    else if (k =? 15)%nat && (byte_at ip 15 =? 0x00) then IP_SCOPE_NONE
    else IP_SCOPE_GLOBAL in
  if Z.land (byte_at ip 0) 0xf0 =? 0xf0 then
    if byte_at ip 0 =? 0xff then IP_SCOPE_MULTICAST
    else if (byte_at ip 0 =? 0xfe) && (Z.land (byte_at ip 1) 0xc0 =? 0x80) then
      let k := zero_run 13 ip 2 in
      if (k =? 15)%nat && (byte_at ip 15 =? 0x01) then IP_SCOPE_LOOPBACK
      else IP_SCOPE_LINK_LOCAL
    else if Z.land (byte_at ip 0) 0xfe =? 0xfc then IP_SCOPE_PRIVATE
    else rest
  else rest.

Definition InetAddress_ipScope (a : InetAddress) : IpScope :=
  match a with
  | IaV4 _ ip => ipScope_v4 (Utils_hton32 (s_addr ip))
  | IaV6 _ _ ip _ => ipScope_v6 ip
  | IaOther _ _ => IP_SCOPE_NONE
  end.

(** ** Masks and networks *)

(** The two 64-bit words of an IPv6 netmask, in network byte order. *)
Definition netmask6_words (bits : Z) : outcome (Z * Z) :=
  nm0 ← (if 64 <=? bits then Ok 0xffffffffffffffff else shl64 0xffffffffffffffff (u32 (64 - bits)));
  nm1 ← (if bits <=? 64 then Ok 0 else shl64 0xffffffffffffffff (u32 (128 - bits)));
  Ok (Utils_hton64 nm0, Utils_hton64 nm1).

Definition InetAddress_netmask (a : InetAddress) : outcome InetAddress :=
  match a with
  | IaV4 p _ =>
      m ← shl32 0xffffffff (u32 (32 - InetAddress_netmaskBits a));
      Ok (IaV4 p (le_bytes 4 (Utils_hton32 m)))
  | IaV6 p fl _ sc =>
      let bits := InetAddress_netmaskBits a in
      '(nm0, nm1) ← (if bits =? 0 then Ok (0, 0) else netmask6_words bits);
      Ok (IaV6 p fl (le_bytes 8 nm0 ++ le_bytes 8 nm1) sc)
  | IaOther _ _ => Ok a
  end.

Definition InetAddress_broadcast (a : InetAddress) : outcome InetAddress :=
  match a with
  | IaV4 p ip =>
      m ← shr32 0xffffffff (InetAddress_netmaskBits a);
      Ok (IaV4 p (le_bytes 4 (Z.lor (s_addr ip) (Utils_hton32 m))))
  | _ => Ok InetAddress_null
  end.

Definition InetAddress_network (a : InetAddress) : outcome InetAddress :=
  match a with
  | IaV4 p ip =>
      m ← shl32 0xffffffff (u32 (32 - InetAddress_netmaskBits a));
      Ok (IaV4 p (le_bytes 4 (Z.land (s_addr ip) (Utils_hton32 m))))
  | IaV6 p fl ip sc =>
      '(m0, m1) ← netmask6_words (InetAddress_netmaskBits a);
      let nm0 := Z.land (le_val (take 8 ip)) m0 in
      let nm1 := Z.land (le_val (drop 8 ip)) m1 in
      Ok (IaV6 p fl (le_bytes 8 nm0 ++ le_bytes 8 nm1) sc)
  | IaOther _ _ => Ok a
  end.

Definition InetAddress_isEqualPrefix (this addr : InetAddress) : outcome bool :=
  match this, addr with
  | IaV6 _ _ b _, IaV6 _ _ a _ =>
      mask ← InetAddress_netmask this;
      addr_mask ← InetAddress_netmask addr;
      match mask, addr_mask with
      | IaV6 _ _ m _, IaV6 _ _ n _ =>
          Ok (bool_decide (zip_with Z.land a m = zip_with Z.land b n))
      | _, _ => Ok false
      end
  | _, _ => Ok false
  end.

Definition InetAddress_containsAddress (this addr : InetAddress) : outcome bool :=
  match this, addr with
  | IaV4 _ b, IaV4 _ a =>
      let bits := InetAddress_netmaskBits this in
      if bits =? 0 then Ok true else
      x ← shr32 (Utils_hton32 (s_addr a)) (u32 (32 - bits));
      y ← shr32 (Utils_hton32 (s_addr b)) (u32 (32 - bits));
      Ok (x =? y)
  | IaV6 _ _ b _, IaV6 _ _ a _ =>
      mask ← InetAddress_netmask this;
      match mask with
      | IaV6 _ _ m _ => Ok (bool_decide (zip_with Z.land a m = b))
      | _ => Ok false
      end
  | _, _ => Ok false
  end.

Definition InetAddress_isNetwork (a : InetAddress) : bool :=
  let bits := InetAddress_netmaskBits a in
  match a with
  | IaV4 _ ip =>
      if bits <=? 0 then false else if 32 <=? bits then false else
      Z.land (Utils_hton32 (s_addr ip)) (Z.shiftr 0xffffffff bits) =? 0
  | IaV6 _ _ ip _ =>
      if bits <=? 0 then false else if 128 <=? bits then false else
      let p := Z.to_nat (bits / 8) in
      if negb (Z.land (byte_at ip p) (Z.shiftr 0xff (bits mod 8)) =? 0) then false else
      forallb (fun x => x =? 0) (drop (S p) ip)
  | IaOther _ _ => false
  end.

(** ** Comparison and hashing *)

(** [memcmp] of two arrays of the same size. *)
Fixpoint array_cmp (a b : list Z) : Z :=
  match a, b with
  | x :: a, y :: b => if x <? y then -1 else if y <? x then 1 else array_cmp a b
  | _, _ => 0
  end.

Definition InetAddress_ipsEqual (x y : InetAddress) : bool :=
  match x, y with
  | IaV4 _ ip, IaV4 _ jp => s_addr ip =? s_addr jp
  | IaV6 _ _ ip _, IaV6 _ _ jp _ => (array_cmp ip jp =? 0)
  | IaOther f r, IaOther g s => (f =? g) && (array_cmp r s =? 0)
  | _, _ => false
  end.

Definition InetAddress_ipsEqual2 (x y : InetAddress) : bool :=
  match x, y with
  | IaV4 _ ip, IaV4 _ jp => s_addr ip =? s_addr jp
  | IaV6 _ _ ip _, IaV6 _ _ jp _ => (array_cmp (take 8 ip) (take 8 jp) =? 0)
  | IaOther f r, IaOther g s => (f =? g) && (array_cmp r s =? 0)
  | _, _ => false
  end.

Definition InetAddress_eqb (x y : InetAddress) : bool :=
  match x, y with
  | IaV4 p ip, IaV4 q jp => (p =? q) && (s_addr ip =? s_addr jp)
  | IaV6 p fl ip sc, IaV6 q gl jp tc =>
      (p =? q) && (fl =? gl) && (array_cmp ip jp =? 0) && (sc =? tc)
  | IaOther f r, IaOther g s => (f =? g) && (array_cmp r s =? 0)
  | _, _ => false
  end.

Definition InetAddress_ltb (x y : InetAddress) : bool :=
  if ss_family x <? ss_family y then true else
  match x, y with
  | IaV4 p ip, IaV4 q jp => (p <? q) || ((p =? q) && (s_addr ip <? s_addr jp))
  | IaV6 p fl ip sc, IaV6 q gl jp tc =>
      (p <? q) || ((p =? q) &&
        ((fl <? gl) || ((fl =? gl) &&
          ((array_cmp ip jp <? 0) || ((array_cmp ip jp =? 0) && (sc <? tc))))))
  | IaOther f r, IaOther g s => (f =? g) && (array_cmp r s <? 0)
  | _, _ => false
  end.

(** [reinterpret_cast<uint8_t *>(&tmp)[i % sizeof(tmp)] ^= a[i]] for each [i], with an
    eight-byte [unsigned long]. *)
Fixpoint hash_xor (tmp : Z) (i : Z) (a : list Z) : Z :=
  match a with
  | [] => tmp
  | x :: a => hash_xor (Z.lxor tmp (Z.shiftl x (8 * (i mod 8)))) (i + 1) a
  end.

Definition InetAddress_hashCode (a : InetAddress) : Z :=
  match a with
  | IaV4 p ip => u64 (s_addr ip + p)
  | IaV6 p _ ip _ => hash_xor p 0 ip
  | IaOther f raw => hash_xor (le_val (take 2 raw)) 0 (le_bytes 2 f ++ raw)
  end.

Definition InetAddress_rateGateHash (a : InetAddress) : Z :=
  let h :=
    match a with
    | IaV4 _ ip =>
        let h := Z.shiftr (Z.land (Utils_hton32 (s_addr ip)) 0xffffff00) 8 in
        Z.lxor h (Z.shiftr h 14)
    | IaV6 _ _ ip _ =>
        let h := Z.shiftl (byte_at ip 0) 1 in
        let h := Z.shiftl (h + byte_at ip 1) 1 in
        let h := Z.shiftl (h + byte_at ip 2) 1 in
        let h := Z.shiftl (h + byte_at ip 3) 1 in
        let h := Z.shiftl (h + byte_at ip 4) 1 in
        h + byte_at ip 5
    | IaOther _ _ => 0
    end in
  Z.land h 0x3fff.

(** ** Wire format *)

Definition InetAddress_serialize (C : Z) (a : InetAddress) (b : Buffer) : outcome Buffer :=
  match a with
  | IaV4 _ ip =>
      b ← Buffer_append_int C b 1 0x04;
      b ← Buffer_append C b ip 4;
      Buffer_append_int C b 2 (u16 (InetAddress_port a))
  | IaV6 _ _ ip _ =>
      b ← Buffer_append_int C b 1 0x06;
      b ← Buffer_append C b ip 16;
      Buffer_append_int C b 2 (u16 (InetAddress_port a))
  | IaOther _ _ => Buffer_append_int C b 1 0
  end.

(** The address and the number of bytes consumed. *)
Definition InetAddress_deserialize (b : Buffer) (startAt : Z) : outcome (InetAddress * Z) :=
  let p := startAt in
  t ← Buffer_index b p;
  let p := u32 (p + 1) in
  match t with
  | 0 => Ok (InetAddress_null, 1)
  | 0x01 => Ok (InetAddress_null, 7)
  | 0x02 => Ok (InetAddress_null, 7)
  | 0x03 => n ← Buffer_at b 2 p; Ok (InetAddress_null, n + 3)
  | 0x04 =>
      ip ← Buffer_read_field b p 4;
      let p := u32 (p + 4) in
      port ← Buffer_at b 2 p;
      let p := u32 (p + 2) in
      Ok (IaV4 (Utils_hton16 port) ip, u32 (p - startAt))
  | 0x06 =>
      ip ← Buffer_read_field b p 16;
      let p := u32 (p + 16) in
      port ← Buffer_at b 2 p;
      let p := u32 (p + 2) in
      Ok (IaV6 (Utils_hton16 port) 0 ip 0, u32 (p - startAt))
  | _ => Throw SERIALIZED_DATA_BAD_ENCODING
  end.

(** ** Addresses derived from ZeroTier addresses *)

(** [flowinfo] and [scope_id] are the uninitialised words of the local variable the
    result is copied from. *)
Definition InetAddress_makeIpv6LinkLocal (flowinfo scope_id : Z) (mac : Z) : outcome InetAddress :=
  m0 ← MAC_index mac 0; m1 ← MAC_index mac 1; m2 ← MAC_index mac 2;
  m3 ← MAC_index mac 3; m4 ← MAC_index mac 4; m5 ← MAC_index mac 5;
  Ok (IaV6 (Utils_hton16 64) flowinfo
        [0xfe; 0x80; 0; 0; 0; 0; 0; 0; Z.land m0 0xfd; m1; m2; 0xff; 0xfe; m3; m4; m5] scope_id).

Definition InetAddress_makeIpv6rfc4193 (nwid zeroTierAddress : Z) : InetAddress :=
  IaV6 (Utils_hton16 88) 0
    [0xfd; u8 (Z.shiftr nwid 56); u8 (Z.shiftr nwid 48); u8 (Z.shiftr nwid 40);
     u8 (Z.shiftr nwid 32); u8 (Z.shiftr nwid 24); u8 (Z.shiftr nwid 16); u8 (Z.shiftr nwid 8);
     u8 nwid; 0x99; 0x93;
     u8 (Z.shiftr zeroTierAddress 32); u8 (Z.shiftr zeroTierAddress 24);
     u8 (Z.shiftr zeroTierAddress 16); u8 (Z.shiftr zeroTierAddress 8); u8 zeroTierAddress] 0.

Definition InetAddress_makeIpv66plane (nwid zeroTierAddress : Z) : InetAddress :=
  let nwid := Z.lxor nwid (Z.shiftr nwid 32) in
  IaV6 (Utils_hton16 40) 0
    [0xfc; u8 (Z.shiftr nwid 24); u8 (Z.shiftr nwid 16); u8 (Z.shiftr nwid 8); u8 nwid;
     u8 (Z.shiftr zeroTierAddress 32); u8 (Z.shiftr zeroTierAddress 24);
     u8 (Z.shiftr zeroTierAddress 16); u8 (Z.shiftr zeroTierAddress 8); u8 zeroTierAddress;
     0; 0; 0; 0; 0; 0x01] 0.

(** ** Masks and prefixes *)

(** The number an address denotes and its prefix of [bits] bits. *)
Definition ip_prefix (w bits : Z) (ip : list Z) : Z := be_val ip / 2 ^ (w - bits).

(** The address has no bits after its prefix. *)
Definition host_zero (w bits : Z) (ip : list Z) : Prop := be_val ip mod 2 ^ (w - bits) = 0.

Lemma port_range a : ia_wf a -> is_u16 (InetAddress_port a).
Proof. destruct a; intros; [apply hton16_range..|done]. Qed.

Lemma shl_ones w j : 0 <= j < w -> wrap w (Z.shiftl (2 ^ w - 1) j) = 2 ^ w - 2 ^ j.
Proof.
  intros Hj. rewrite Z.shiftl_mul_pow2 by lia. unfold wrap. symmetry.
  assert (2 ^ j <= 2 ^ w) by (apply Z.pow_le_mono_r; lia).
  assert (0 < 2 ^ j) by (apply Z.pow_pos_nonneg; lia).
  apply Z.mod_unique with (2 ^ j - 1); [left; lia|]. lia.
Qed.

Lemma shl32_mask bits :
  1 <= bits <= 32 -> shl32 0xffffffff (u32 (32 - bits)) = Ok (2 ^ 32 - 2 ^ (32 - bits)).
Proof.
  intros Hb. unfold shl32. rewrite u32_id by (unfold in_range; lia).
  rewrite (proj2 (Z.ltb_lt _ _)) by lia. f_equal. apply (shl_ones 32). lia.
Qed.

Lemma shl64_mask n : 0 <= n < 64 -> shl64 0xffffffffffffffff (u32 n) = Ok (2 ^ 64 - 2 ^ n).
Proof.
  intros Hb. unfold shl64. rewrite u32_id by (unfold in_range; lia).
  rewrite (proj2 (Z.ltb_lt _ _)) by lia. f_equal. apply (shl_ones 64). lia.
Qed.

(** The mask of [bits] bits as a byte string. *)
Definition mask_bytes (n : nat) (bits : Z) : list Z :=
  be_bytes n (2 ^ (8 * Z.of_nat n) - 2 ^ (8 * Z.of_nat n - bits)).

Lemma hton64_words nm0 nm1 :
  in_range 64 nm1 ->
  le_bytes 8 (Utils_hton64 nm0) ++ le_bytes 8 (Utils_hton64 nm1) = be_bytes 16 (nm0 * 2 ^ 64 + nm1).
Proof. intros H. rewrite !le_bytes_hton64. by apply (be_bytes_cat 8 8). Qed.

Lemma netmask6_words_Ok bits :
  1 <= bits <= 128 ->
  exists nm0 nm1, netmask6_words bits = Ok (nm0, nm1) /\
    le_bytes 8 nm0 ++ le_bytes 8 nm1 = mask_bytes 16 bits.
Proof.
  intros Hb. unfold netmask6_words, mask_bytes. change (8 * Z.of_nat 16) with 128.
  assert (Hp : forall j, 0 <= j < 64 -> 0 < 2 ^ j <= 2 ^ 63).
  { intros j Hj. split; [apply Z.pow_pos_nonneg; lia|apply Z.pow_le_mono_r; lia]. }
  assert (Hs : forall j, 0 <= j -> 2 ^ (64 + j) = 2 ^ 64 * 2 ^ j) by (intros; apply Z.pow_add_r; lia).
  destruct (Z.leb_spec 64 bits), (Z.leb_spec bits 64); try lia; cbn [mbind outcome_bind].
  - assert (bits = 64) as -> by lia. do 2 eexists; split; [done|]. by rewrite hton64_words.
  - rewrite shl64_mask by lia. cbn [mbind outcome_bind]. do 2 eexists; split; [done|].
    specialize (Hp (128 - bits)).
    rewrite hton64_words by (unfold in_range; lia). f_equal. lia.
  - rewrite shl64_mask by lia. cbn [mbind outcome_bind]. do 2 eexists; split; [done|].
    rewrite hton64_words by done. f_equal.
    replace (128 - bits) with (64 + (64 - bits)) by lia. rewrite Hs by lia. lia.
Qed.

Lemma netmask6_Ok p fl ip sc :
  let a := IaV6 p fl ip sc in
  ia_wf a -> InetAddress_netmaskBitsValid a = true ->
  InetAddress_netmask a = Ok (IaV6 p fl (mask_bytes 16 (InetAddress_netmaskBits a)) sc).
Proof.
  intros a Ha Hv. pose proof (port_range a Ha) as Hr. unfold in_range in Hr.
  unfold InetAddress_netmaskBitsValid in Hv. cbn -[InetAddress_port] in Hv. apply Z.leb_le in Hv.
  unfold InetAddress_netmask, InetAddress_netmaskBits. fold a.
  destruct (Z.eqb_spec (InetAddress_port a) 0) as [->|Hn]; [done|].
  destruct (netmask6_words_Ok (InetAddress_port a)) as (nm0 & nm1 & -> & Hm); [lia|].
  cbn [mbind outcome_bind]. by rewrite Hm.
Qed.

Lemma zip_land_mask n bits ip :
  length ip = n -> Forall is_byte ip -> 0 <= bits <= 8 * Z.of_nat n ->
  zip_with Z.land ip (mask_bytes n bits) =
  be_bytes n (ip_prefix (8 * Z.of_nat n) bits ip * 2 ^ (8 * Z.of_nat n - bits)).
Proof.
  intros Hl Hb Hbits. rewrite <- (be_bytes_be_val' n ip) at 1 by done.
  unfold mask_bytes. rewrite zip_land_be_bytes. unfold ip_prefix. rewrite land_high; [done|lia|].
  rewrite <- Hl. by apply be_val_range.
Qed.

(** ** Containment *)

Lemma contains_v4 p ip q jp :
  let this := IaV4 p ip in
  ia_wf this -> ia_wf (IaV4 q jp) -> InetAddress_netmaskBitsValid this = true ->
  let bits := InetAddress_netmaskBits this in
  InetAddress_containsAddress this (IaV4 q jp) =
  Ok (bool_decide (ip_prefix 32 bits jp = ip_prefix 32 bits ip)).
Proof.
  intros this Hw Hw' Hv bits. pose proof (port_range this Hw) as Hr. unfold in_range in Hr.
  destruct Hw as (Hp & Hl & Hb), Hw' as (Hq & Hl' & Hb').
  cbn -[InetAddress_port] in Hv. apply Z.leb_le in Hv. fold this in Hv.
  assert (Hi : in_range 32 (be_val ip)).
  { pose proof (be_val_range ip Hb) as H. unfold zlen in H. by rewrite Hl in H. }
  assert (Hj : in_range 32 (be_val jp)).
  { pose proof (be_val_range jp Hb') as H. unfold zlen in H. by rewrite Hl' in H. }
  unfold InetAddress_containsAddress, this. cbv beta iota zeta. fold this. fold bits.
  unfold ip_prefix, s_addr.
  rewrite (hton32_le_val ip), (hton32_le_val jp) by done. change (InetAddress_port this) with bits in Hv, Hr.
  destruct (Z.eqb_spec bits 0) as [->|Hn].
  { rewrite !Z.div_small by done. by rewrite bool_decide_eq_true_2. }
  unfold shr32. rewrite !u32_id by (unfold in_range; lia).
  rewrite !(proj2 (Z.ltb_lt _ _)) by lia. cbn [mbind outcome_bind]. f_equal.
  rewrite !Z.shiftr_div_pow2 by lia.
  apply eqb_bool_decide.
Qed.

Lemma contains_v6 p fl ip sc q gl jp tc :
  let this := IaV6 p fl ip sc in
  ia_wf this -> ia_wf (IaV6 q gl jp tc) -> InetAddress_netmaskBitsValid this = true ->
  let bits := InetAddress_netmaskBits this in
  InetAddress_containsAddress this (IaV6 q gl jp tc) =
  Ok (bool_decide (ip_prefix 128 bits jp * 2 ^ (128 - bits) = be_val ip)).
Proof.
  intros this Hw Hw' Hv bits. pose proof (port_range this Hw) as Hr. unfold in_range in Hr.
  unfold InetAddress_containsAddress, this. cbv beta iota zeta.
  rewrite (netmask6_Ok p fl ip sc Hw Hv). fold this. fold bits. cbn [mbind outcome_bind].
  destruct Hw as (_ & _ & Hl & Hb & _), Hw' as (_ & _ & Hl' & Hb' & _).
  cbn -[InetAddress_port] in Hv. apply Z.leb_le in Hv. change (InetAddress_port _) with bits in Hv, Hr.
  rewrite (zip_land_mask 16) by (done || lia). f_equal. apply bool_decide_ext.
  assert (Hx : in_range 128 (ip_prefix 128 bits jp * 2 ^ (128 - bits))).
  { unfold ip_prefix, in_range. pose proof (be_val_range jp Hb') as H.
    unfold zlen, in_range in H. rewrite Hl' in H.
    assert (0 < 2 ^ (128 - bits)) by (apply Z.pow_pos_nonneg; lia).
    pose proof (Z.mul_div_le (be_val jp) (2 ^ (128 - bits))).
    pose proof (Z.div_pos (be_val jp) (2 ^ (128 - bits))). nia. }
  change (8 * Z.of_nat 16) with 128. split; intros H.
  - apply (f_equal be_val) in H. by rewrite be_val_be_bytes_id in H.
  - rewrite H. by apply be_bytes_be_val'.
Qed.

(** What the documentation of [containsAddress] describes: same family and the same
    prefix. *)
Definition in_network (this addr : InetAddress) : bool :=
  let bits := InetAddress_netmaskBits this in
  match this, addr with
  | IaV4 _ ip, IaV4 _ jp => bool_decide (ip_prefix 32 bits jp = ip_prefix 32 bits ip)
  | IaV6 _ _ ip _, IaV6 _ _ jp _ => bool_decide (ip_prefix 128 bits jp = ip_prefix 128 bits ip)
  | _, _ => false
  end.

Definition ia_host_zero (a : InetAddress) : Prop :=
  match a with
  | IaV4 _ ip => host_zero 32 (InetAddress_netmaskBits a) ip
  | IaV6 _ _ ip _ => host_zero 128 (InetAddress_netmaskBits a) ip
  | IaOther _ _ => True
  end.

Lemma host_zero_prefix w bits ip :
  bits <= w -> host_zero w bits ip -> be_val ip = ip_prefix w bits ip * 2 ^ (w - bits).
Proof.
  intros Hb Hz. unfold host_zero, ip_prefix in *.
  assert (2 ^ (w - bits) <> 0) by (apply Z.pow_nonzero; lia).
  pose proof (Z.div_mod (be_val ip) (2 ^ (w - bits))). lia.
Qed.

Lemma contains_spec this addr :
  ia_wf this -> ia_wf addr -> InetAddress_netmaskBitsValid this = true ->
  (InetAddress_isV6 this = true -> ia_host_zero this) ->
  InetAddress_containsAddress this addr = Ok (in_network this addr).
Proof.
  intros Hw Hw' Hv Hz. destruct this as [p ip|p fl ip sc|], addr as [q jp|q gl jp tc|]; try done.
  - by apply contains_v4.
  - rewrite contains_v6 by done. f_equal. apply bool_decide_ext.
    specialize (Hz eq_refl). cbn -[InetAddress_netmaskBits] in Hz.
    cbn -[InetAddress_port] in Hv. apply Z.leb_le in Hv.
    set (bits := InetAddress_netmaskBits _) in *.
    rewrite (host_zero_prefix 128 bits ip) by done.
    assert (2 ^ (128 - bits) <> 0) by (apply Z.pow_nonzero; unfold bits, InetAddress_netmaskBits; lia).
    split; [by intros H0%Z.mul_reg_r|by intros ->].
Qed.

Lemma contains_v6_host p fl ip sc addr :
  let this := IaV6 p fl ip sc in
  ia_wf this -> ia_wf addr -> InetAddress_netmaskBitsValid this = true ->
  ~ ia_host_zero this -> InetAddress_containsAddress this addr = Ok false.
Proof.
  intros this Hw Hw' Hv Hz. destruct addr as [|q gl jp tc|]; [done| |done].
  unfold this. rewrite contains_v6 by done. f_equal. apply bool_decide_eq_false_2. intros H.
  apply Hz. unfold ia_host_zero, this. cbv iota. fold this. unfold host_zero. fold this in H.
  rewrite <- H. apply Z.mod_mul, Z.pow_nonzero; [lia|].
  cbn -[InetAddress_port] in Hv. apply Z.leb_le in Hv. unfold InetAddress_netmaskBits. fold this in Hv. lia.
Qed.

(** [network()] keeps the prefix and clears the rest. *)
Lemma network_ip n bits ip :
  length ip = n -> Forall is_byte ip -> 0 <= bits <= 8 * Z.of_nat n ->
  let ip' := zip_with Z.land ip (mask_bytes n bits) in
  length ip' = n /\ Forall is_byte ip' /\ host_zero (8 * Z.of_nat n) bits ip' /\
  ip_prefix (8 * Z.of_nat n) bits ip' = ip_prefix (8 * Z.of_nat n) bits ip.
Proof.
  intros Hl Hb Hbits ip'. unfold ip'. rewrite zip_land_mask by done.
  set (w := 8 * Z.of_nat n) in *. assert (H2 : 0 < 2 ^ (w - bits)) by (apply Z.pow_pos_nonneg; lia).
  assert (Hx : in_range w (ip_prefix w bits ip * 2 ^ (w - bits))).
  { pose proof (be_val_range ip Hb) as H. unfold zlen in H. rewrite Hl in H. fold w in H.
    unfold ip_prefix, in_range in *.
    pose proof (Z.mul_div_le (be_val ip) (2 ^ (w - bits))).
    pose proof (Z.div_pos (be_val ip) (2 ^ (w - bits))). nia. }
  assert (Hv : be_val (be_bytes n (ip_prefix w bits ip * 2 ^ (w - bits))) =
               ip_prefix w bits ip * 2 ^ (w - bits)) by (by apply be_val_be_bytes_id).
  split_and!; [apply length_be_bytes|apply be_bytes_bytes| |].
  - unfold host_zero. rewrite Hv. apply Z.mod_mul. lia.
  - unfold ip_prefix at 1. rewrite Hv. apply Z.div_mul. lia.
Qed.

Lemma land_le_bytes_be n ip m :
  length ip = n -> Forall is_byte ip ->
  le_bytes n (Z.land (le_val ip) m) = zip_with Z.land ip (le_bytes n m).
Proof. intros Hl Hb. rewrite <- zip_land_le_bytes. by rewrite <- Hl, le_bytes_le_val. Qed.

Lemma network_Ok a :
  ia_wf a -> InetAddress_netmaskBitsValid a = true -> 1 <= InetAddress_netmaskBits a ->
  exists r, InetAddress_network a = Ok r /\ ia_wf r /\ ia_host_zero r /\
    InetAddress_netmaskBits r = InetAddress_netmaskBits a /\ in_network r a = true.
Proof.
  intros Hw Hv Hb. destruct a as [p ip|p fl ip sc|f raw]; [| |done];
    cbn -[InetAddress_port] in Hv; apply Z.leb_le in Hv;
    change (InetAddress_port ?x) with (InetAddress_netmaskBits x) in Hv.
  - set (bits := InetAddress_netmaskBits _) in *. destruct Hw as (Hp & Hl & Hi).
    unfold InetAddress_network. fold bits. rewrite shl32_mask by lia. cbn [mbind outcome_bind].
    unfold s_addr. rewrite land_le_bytes_be, le_bytes_hton32 by done.
    destruct (network_ip 4 bits ip) as (H1 & H2 & H3 & H4); [done..|lia|].
    unfold mask_bytes in *. change (8 * Z.of_nat 4) with 32 in *. eexists; split; [done|].
    split_and!; [done|done|done|]. apply bool_decide_eq_true_2. by symmetry.
  - set (bits := InetAddress_netmaskBits _) in *. destruct Hw as (Hp & Hf & Hl & Hi & Hs).
    unfold InetAddress_network. fold bits.
    destruct (netmask6_words_Ok bits) as (m0 & m1 & -> & Hm); [lia|]. cbn [mbind outcome_bind].
    rewrite !land_le_bytes_be by (rewrite ?length_take, ?length_drop, ?Hl; done || by apply Forall_take || by apply Forall_drop).
    rewrite <- zip_with_app by (by rewrite length_take, Hl, length_le_bytes).
    rewrite take_drop, Hm.
    destruct (network_ip 16 bits ip) as (H1 & H2 & H3 & H4); [done..|lia|].
    eexists; split; [done|]. change (8 * Z.of_nat 16) with 128 in *.
    split_and!; [done|done|done|]. apply bool_decide_eq_true_2. by symmetry.
Qed.

(** ** Wire format *)

Definition inet_enc (a : InetAddress) : list Z :=
  match a with
  | IaV4 _ ip => be_bytes 1 0x04 ++ ip ++ be_bytes 2 (InetAddress_port a)
  | IaV6 _ _ ip _ => be_bytes 1 0x06 ++ ip ++ be_bytes 2 (InetAddress_port a)
  | IaOther _ _ => be_bytes 1 0
  end.

(** What is left of an address on the wire. *)
Definition inet_canon (a : InetAddress) : InetAddress :=
  match a with
  | IaV4 _ _ => a
  | IaV6 p _ ip _ => IaV6 p 0 ip 0
  | IaOther _ _ => InetAddress_null
  end.

Lemma InetAddress_appends C a :
  ia_wf a -> C + 16 < 2 ^ 32 -> appends C (InetAddress_serialize C a) (inet_enc a).
Proof.
  intros Hw HC. assert (Hp : u16 (InetAddress_port a) = InetAddress_port a).
  { apply Z.mod_small, port_range, Hw. }
  destruct a as [p ip|p fl ip sc|f raw]; unfold InetAddress_serialize, inet_enc; [| |apply appends_int];
    rewrite Hp.
  - destruct Hw as (_ & Hl & Hb).
    assert (Hz : zlen ip = 4) by (unfold zlen; by rewrite Hl).
    apply (appends_bind C (fun b => Buffer_append_int C b 1 4)); [apply appends_int|].
    apply (appends_bind C (fun b => Buffer_append C b ip 4)); [|apply appends_int].
    apply appends_whole; [done|lia|lia].
  - destruct Hw as (_ & _ & Hl & Hb & _).
    assert (Hz : zlen ip = 16) by (unfold zlen; by rewrite Hl).
    apply (appends_bind C (fun b => Buffer_append_int C b 1 6)); [apply appends_int|].
    apply (appends_bind C (fun b => Buffer_append C b ip 16)); [|apply appends_int].
    apply appends_whole; [done|lia|lia].
Qed.

(** A tag, an address of [n] bytes and a port, read at [i] the way [deserialize] does. *)
Lemma read_tag_ip_port C b i tag ip port n :
  buf_wf C b -> has_at b i (be_bytes 1 tag ++ ip ++ be_bytes 2 port) ->
  is_byte tag -> zlen ip = n -> is_u16 port ->
  Buffer_index b i = Ok tag /\ u32 (i + 1) = i + 1 /\ Buffer_read_field b (i + 1) n = Ok ip /\
  u32 (i + 1 + n) = i + 1 + n /\ Buffer_at b 2 (i + 1 + n) = Ok port /\
  u32 (u32 (i + 1 + n + 2) - i) = n + 3.
Proof.
  intros Hb Hh Ht Hz Hp. pose proof (has_at_slice C b Hb _ _ Hh) as [_ Hle].
  assert (Hi : 0 <= i) by apply Hh. pose proof (zlen_nonneg ip). pose proof Hb as [].
  rewrite !zlen_app, Hz, !zlen_be_bytes in Hle.
  apply has_at_app in Hh as [H1 Hh]. apply has_at_app in Hh as [H2 H3].
  rewrite zlen_be_bytes in *. rewrite Hz in H3.
  assert (Ht1 : be_bytes 1 tag = [tag]) by (cbn; by rewrite land_byte).
  rewrite Ht1 in H1. split_and!.
  - by apply (has_at_byte C).
  - apply u32_id. unfold in_range. lia.
  - rewrite <- Hz. by apply (has_at_field C).
  - apply u32_id. unfold in_range. lia.
  - by apply (has_at_int_id C).
  - rewrite (u32_id (i + 1 + n + 2)) by (unfold in_range; lia).
    rewrite u32_id by (unfold in_range; lia). lia.
Qed.

Lemma InetAddress_deserialize_enc C b i a :
  buf_wf C b -> ia_wf a -> has_at b i (inet_enc a) ->
  InetAddress_deserialize b i = Ok (inet_canon a, zlen (inet_enc a)).
Proof.
  intros Hb Hw Hh. pose proof (port_range a Hw) as Hr.
  assert (Hs : forall q, is_u16 q -> Utils_hton16 (Utils_hton16 q) = q).
  { intros q Hq. rewrite hton16_involutive. by apply Z.mod_small. }
  destruct a as [p ip|p fl ip sc|f raw]; unfold InetAddress_deserialize; cbn [inet_enc] in *.
  3: { by rewrite (has_at_byte C b Hb i 0) by exact Hh. }
  - destruct Hw as (Hp & Hl & _). assert (Hz : zlen ip = 4) by (unfold zlen; by rewrite Hl).
    destruct (read_tag_ip_port C b i 4 ip _ 4 Hb Hh) as (-> & H1 & H2 & H3 & H4 & H5); [done..|].
    cbn [mbind outcome_bind]. rewrite H1, H2. cbn [mbind outcome_bind]. rewrite H3, H4.
    cbn [mbind outcome_bind]. rewrite H5. cbn [InetAddress_port inet_canon]. rewrite Hs by done.
    by rewrite !zlen_app, Hz, !zlen_be_bytes.
  - destruct Hw as (Hp & _ & Hl & _). assert (Hz : zlen ip = 16) by (unfold zlen; by rewrite Hl).
    destruct (read_tag_ip_port C b i 6 ip _ 16 Hb Hh) as (-> & H1 & H2 & H3 & H4 & H5); [done..|].
    cbn [mbind outcome_bind]. rewrite H1, H2. cbn [mbind outcome_bind]. rewrite H3, H4.
    cbn [mbind outcome_bind]. rewrite H5. cbn [InetAddress_port inet_canon]. rewrite Hs by done.
    by rewrite !zlen_app, Hz, !zlen_be_bytes.
Qed.

(** ** Order *)

(** Equality and order are those of this key, compared element by element. *)
Definition ia_key (a : InetAddress) : list Z :=
  match a with
  | IaV4 p ip => [AF_INET; p; s_addr ip] ++ replicate 124 0
  | IaV6 p fl ip sc => [AF_INET6; p; fl] ++ ip ++ [sc] ++ replicate 107 0
  | IaOther f raw => f :: raw
  end.

Lemma length_ia_key a : ia_wf a -> length (ia_key a) = 127%nat.
Proof.
  destruct a as [p ip|p fl ip sc|f raw]; cbn -[replicate].
  - by rewrite length_replicate.
  - intros (_ & _ & Hl & _). rewrite !length_app, Hl. cbn -[replicate]. by rewrite length_replicate.
  - intros (_ & _ & _ & Hl & _). by rewrite Hl.
Qed.

Lemma array_cmp_app a b c d :
  length a = length b ->
  array_cmp (a ++ c) (b ++ d) = if array_cmp a b =? 0 then array_cmp c d else array_cmp a b.
Proof.
  revert b. induction a as [|x a IH]; intros [|y b] Hl; try done. cbn in *.
  destruct (x <? y); [done|]. destruct (y <? x); [done|]. apply IH. lia.
Qed.

Lemma array_cmp_refl a : array_cmp a a = 0.
Proof. induction a as [|x a IH]; cbn; [done|]. by rewrite Z.ltb_irrefl. Qed.

Lemma array_cmp_eq a b : length a = length b -> array_cmp a b = 0 <-> a = b.
Proof.
  revert b. induction a as [|x a IH]; intros [|y b] Hl; try done. cbn in *.
  destruct (Z.ltb_spec x y); [split; [done|intros [= ? ?]; lia]|].
  destruct (Z.ltb_spec y x); [split; [done|intros [= ? ?]; lia]|].
  rewrite IH by lia. split; [intros ->; f_equal; lia|by intros [= -> ->]].
Qed.

Lemma array_cmp_antisym a b : array_cmp a b = - array_cmp b a.
Proof.
  revert b. induction a as [|x a IH]; intros [|y b]; try done. cbn.
  destruct (Z.ltb_spec x y), (Z.ltb_spec y x); lia || apply IH.
Qed.

Lemma array_cmp_trans a b c :
  length a = length b -> length b = length c ->
  array_cmp a b < 0 -> array_cmp b c < 0 -> array_cmp a c < 0.
Proof.
  revert b c. induction a as [|x a IH]; intros [|y b] [|z c] H1 H2; try done. cbn in *.
  destruct (Z.ltb_spec x y), (Z.ltb_spec y x), (Z.ltb_spec y z), (Z.ltb_spec z y),
    (Z.ltb_spec x z), (Z.ltb_spec z x); try lia. apply IH; lia.
Qed.

Ltac cmp_cases x y :=
  destruct (Z.ltb_spec x y), (Z.ltb_spec y x), (Z.eqb_spec x y); try lia; try done; cbn.

(** The comparison of keys, field by field. *)
Lemma key_v4 p ip q jp :
  array_cmp (ia_key (IaV4 p ip)) (ia_key (IaV4 q jp)) = array_cmp [p; s_addr ip] [q; s_addr jp].
Proof.
  unfold ia_key. rewrite array_cmp_app, array_cmp_refl by done. cbn -[Z.eqb].
  cmp_cases p q. cmp_cases (s_addr ip) (s_addr jp).
Qed.

Lemma key_v6 p fl ip sc q gl jp tc :
  length ip = length jp ->
  array_cmp (ia_key (IaV6 p fl ip sc)) (ia_key (IaV6 q gl jp tc)) =
  array_cmp ([p; fl] ++ ip ++ [sc]) ([q; gl] ++ jp ++ [tc]).
Proof.
  intros Hl. unfold ia_key. rewrite !app_assoc, array_cmp_app, array_cmp_refl
    by (rewrite !length_app; cbn; lia).
  destruct (Z.eqb_spec (array_cmp (([AF_INET6; p; fl] ++ ip) ++ [sc])
                          (([AF_INET6; q; gl] ++ jp) ++ [tc])) 0) as [E|]; [|done].
  symmetry. exact E.
Qed.

Lemma key_family x y :
  ss_family x <> ss_family y ->
  array_cmp (ia_key x) (ia_key y) = if ss_family x <? ss_family y then -1 else 1.
Proof.
  intros Hf.
  assert (Hk : forall z, exists l, ia_key z = ss_family z :: l) by (intros []; by eexists).
  destruct (Hk x) as [l ->], (Hk y) as [k ->]. cbn.
  destruct (Z.ltb_spec (ss_family x) (ss_family y)); [done|].
  by rewrite (proj2 (Z.ltb_lt _ _)) by lia.
Qed.

(** Addresses of the same family are of the same kind. *)
Lemma eqb_ltb_key x y :
  ia_wf x -> ia_wf y ->
  InetAddress_eqb x y = (array_cmp (ia_key x) (ia_key y) =? 0) /\
  InetAddress_ltb x y = (array_cmp (ia_key x) (ia_key y) <? 0).
Proof.
  intros Hx Hy. destruct (decide (ss_family x = ss_family y)) as [Hf|Hf].
  2: { rewrite key_family by done. unfold InetAddress_ltb, InetAddress_eqb.
       destruct (Z.ltb_spec (ss_family x) (ss_family y));
         destruct x, y; try done; cbn in *; by rewrite ?(proj2 (Z.eqb_neq _ _)) by lia. }
  unfold InetAddress_ltb. rewrite Hf, Z.ltb_irrefl.
  destruct x as [p ip|p fl ip sc|f r], y as [q jp|q gl jp tc|g s]; cbn in Hf, Hx, Hy;
    try (exfalso; naive_solver).
  - rewrite key_v4. cbn. cmp_cases p q. cmp_cases (s_addr ip) (s_addr jp).
  - destruct Hx as (_ & _ & Hl & _), Hy as (_ & _ & Hl' & _).
    rewrite key_v6, array_cmp_app, array_cmp_app by (done || lia). cbn -[Z.eqb Z.ltb].
    cmp_cases p q. cmp_cases fl gl.
    destruct (Z.eqb_spec (array_cmp ip jp) 0) as [->|Hn]; cbn; [cmp_cases sc tc|].
    rewrite (proj2 (Z.eqb_neq (array_cmp ip jp) 0)) by done. by rewrite orb_false_r.
  - subst g. cbn. by rewrite Z.eqb_refl, Z.ltb_irrefl.
Qed.

(** [operator<] is a strict total order whose equivalence is [operator==], and
    [operator==] is equality of well-formed addresses. *)
Lemma ia_key_inj x y : ia_wf x -> ia_wf y -> ia_key x = ia_key y -> x = y.
Proof.
  intros Hx Hy H. destruct x as [p ip|p fl ip sc|f r], y as [q jp|q gl jp tc|g s];
    cbn -[replicate] in H; try (exfalso; cbn in Hx, Hy; naive_solver).
  - injection H as -> H. destruct Hx as (_ & Hl & Hb), Hy as (_ & Hl' & Hb').
    f_equal. unfold s_addr in H.
    rewrite <- (le_bytes_le_val ip), <- (le_bytes_le_val jp) by done. by rewrite H, Hl, Hl'.
  - injection H as -> -> H. destruct Hx as (_ & _ & Hl & _), Hy as (_ & _ & Hl' & _).
    apply app_inj_1 in H as [-> H]; [|lia]. by injection H as ->.
  - by injection H as -> ->.
Qed.

(** ** Derived addresses *)

Lemma u8_byte x : u8 x = Z.land x 255.
Proof. symmetry. apply land_255. Qed.

Lemma rfc4193_bytes nwid a :
  InetAddress_makeIpv6rfc4193 nwid a =
  IaV6 (Utils_hton16 88) 0 (([0xfd] ++ be_bytes 8 nwid ++ [0x99; 0x93]) ++ be_bytes 5 a) 0.
Proof.
  unfold InetAddress_makeIpv6rfc4193, be_bytes, reverse. cbn [le_bytes rev_append app].
  rewrite !u8_byte, !Z.shiftr_shiftr by lia. reflexivity.
Qed.

Lemma sixplane_bytes nwid a :
  InetAddress_makeIpv66plane nwid a =
  IaV6 (Utils_hton16 40) 0
    (([0xfc] ++ be_bytes 4 (Z.lxor nwid (Z.shiftr nwid 32))) ++ be_bytes 5 a ++ [0; 0; 0; 0; 0; 1]) 0.
Proof.
  unfold InetAddress_makeIpv66plane, be_bytes, reverse. cbn [le_bytes rev_append app].
  rewrite !u8_byte, !Z.shiftr_shiftr by lia. reflexivity.
Qed.

(** The prefix of an address split at a byte boundary. *)
Lemma ip_prefix_app l k bits :
  Forall is_byte k -> 8 * zlen k = 128 - bits -> ip_prefix 128 bits (l ++ k) = be_val l.
Proof.
  intros Hk Hl. unfold ip_prefix. rewrite be_val_app, <- Hl.
  pose proof (be_val_range k Hk). pose proof (zlen_nonneg k).
  rewrite Z.div_add_l by (apply Z.pow_nonzero; lia). rewrite Z.div_small by done. lia.
Qed.

Lemma byte_list_app l k : Forall is_byte l -> Forall is_byte k -> Forall is_byte (l ++ k).
Proof. intros. by apply Forall_app. Qed.

Ltac byte_lists :=
  repeat first [apply byte_list_app | apply be_bytes_bytes | by rewrite !Forall_cons].

Lemma rfc4193_wf nwid a : ia_wf (InetAddress_makeIpv6rfc4193 nwid a).
Proof.
  rewrite rfc4193_bytes. cbn -[be_bytes app]. split_and!; [done|done| |byte_lists|done].
  rewrite !length_app, !length_be_bytes. done.
Qed.

Lemma sixplane_wf nwid a : ia_wf (InetAddress_makeIpv66plane nwid a).
Proof.
  rewrite sixplane_bytes. cbn -[be_bytes app]. split_and!; [done|done| |byte_lists|done].
  rewrite !length_app, !length_be_bytes. done.
Qed.

(** On one network the derived addresses share their prefix; on two networks they
    differ in it. *)
Lemma rfc4193_network nwid nwid' a a' :
  is_u64 nwid -> is_u64 nwid' ->
  in_network (InetAddress_makeIpv6rfc4193 nwid a) (InetAddress_makeIpv6rfc4193 nwid' a') =
  bool_decide (nwid = nwid').
Proof.
  intros Hn Hn'. rewrite !rfc4193_bytes. unfold in_network. cbv iota.
  change (InetAddress_netmaskBits (IaV6 (Utils_hton16 88) _ _ _)) with 88.
  rewrite !ip_prefix_app by (apply be_bytes_bytes || done). apply bool_decide_ext. split.
  - intros H. apply be_val_inj in H; [|byte_lists|byte_lists|by rewrite !length_app, !length_be_bytes].
    apply app_inv_head, app_inv_tail in H.
    rewrite <- (be_val_be_bytes_id 8 nwid), <- (be_val_be_bytes_id 8 nwid') by done. by rewrite H.
  - by intros ->.
Qed.

Lemma sixplane_network nwid a a' :
  in_network (InetAddress_makeIpv66plane nwid a) (InetAddress_makeIpv66plane nwid a') = true.
Proof.
  rewrite !sixplane_bytes. unfold in_network. cbv iota.
  change (InetAddress_netmaskBits (IaV6 (Utils_hton16 40) _ _ _)) with 40.
  rewrite !ip_prefix_app; [by apply bool_decide_eq_true_2|byte_lists|..|byte_lists|];
    by rewrite zlen_app, zlen_be_bytes.
Qed.

(** The member's address is read back from its position. *)
Definition ip6_bytes (a : InetAddress) : list Z :=
  match a with IaV6 _ _ ip _ => ip | _ => [] end.

Lemma rfc4193_address nwid a :
  in_range 40 a -> Address_setTo (drop 11 (ip6_bytes (InetAddress_makeIpv6rfc4193 nwid a))) 5 = Ok a.
Proof.
  intros Ha. rewrite rfc4193_bytes. cbn [ip6_bytes].
  rewrite drop_app_length' by (by rewrite !length_app, !length_be_bytes).
  rewrite <- Address_bytes_be, <- (app_nil_r (Address_bytes a)). by apply Address_setTo_bytes.
Qed.

Lemma sixplane_address nwid a :
  in_range 40 a -> Address_setTo (drop 5 (ip6_bytes (InetAddress_makeIpv66plane nwid a))) 5 = Ok a.
Proof.
  intros Ha. rewrite sixplane_bytes. cbn [ip6_bytes].
  rewrite drop_app_length' by (by rewrite !length_app, !length_be_bytes).
  rewrite <- Address_bytes_be. by apply Address_setTo_bytes.
Qed.

(** ** Properties *)

(** with valid netmask bits, and for IPv6 a network address without host bits,
    containsAddress answers whether the other address has the same family and the same
    prefix. *)
Theorem InetAddress_contains_correct this addr :
  ia_wf this -> ia_wf addr -> InetAddress_netmaskBitsValid this = true ->
  (InetAddress_isV6 this = true -> ia_host_zero this) ->
  InetAddress_containsAddress this addr = Ok (in_network this addr).
Proof. apply contains_spec. Qed.

Lemma InetAddress_contains_correct_witness :
  InetAddress_containsAddress (IaV4 (Utils_hton16 12) [172; 16; 0; 0]) (IaV4 0 [172; 31; 9; 9]) = Ok true.
Proof.
  rewrite (InetAddress_contains_correct (IaV4 (Utils_hton16 12) [172; 16; 0; 0])).
  - vm_compute. reflexivity.
  - split_and!; [done|done|by rewrite !Forall_cons].
  - split_and!; [done|done|by rewrite !Forall_cons].
  - reflexivity.
  - discriminate.
Defined.

(** an IPv6 address with host bits contains no address at all, not even itself:
    the code masks the other address but not its own. *)
Theorem InetAddress_contains_v6_host_bits p fl ip sc addr :
  let this := IaV6 p fl ip sc in
  ia_wf this -> ia_wf addr -> InetAddress_netmaskBitsValid this = true ->
  ~ ia_host_zero this -> InetAddress_containsAddress this addr = Ok false.
Proof. apply contains_v6_host. Qed.

Lemma InetAddress_contains_v6_host_bits_witness :
  let a := InetAddress_makeIpv6rfc4193 1 2 in
  InetAddress_containsAddress a a = Ok false /\ in_network a a = true.
Proof.
  split; [|vm_compute; reflexivity].
  apply (InetAddress_contains_v6_host_bits _ _ _ _ (InetAddress_makeIpv6rfc4193 1 2)).
  - apply (rfc4193_wf 1 2).
  - apply (rfc4193_wf 1 2).
  - reflexivity.
  - vm_compute. discriminate.
Defined.

(** for at least one netmask bit, network() returns a well-formed network address
    with the same netmask that contains the address it was computed from. *)
Theorem InetAddress_network_correct a :
  ia_wf a -> InetAddress_netmaskBitsValid a = true -> 1 <= InetAddress_netmaskBits a ->
  exists r, InetAddress_network a = Ok r /\ ia_wf r /\ ia_host_zero r /\
    InetAddress_netmaskBits r = InetAddress_netmaskBits a /\
    InetAddress_containsAddress r a = Ok true.
Proof.
  intros Hw Hv Hb. destruct (network_Ok a Hw Hv Hb) as (r & Hr & Hwr & Hz & Hbits & Hin).
  exists r. split_and!; try done. rewrite contains_spec; [by rewrite Hin|done|done| |done].
  destruct a, r; try done; unfold InetAddress_netmaskBits in Hbits;
    unfold InetAddress_netmaskBitsValid in *; by rewrite Hbits.
Qed.

Lemma InetAddress_network_correct_witness :
  exists r, InetAddress_network (IaV4 (Utils_hton16 24) [10; 0; 1; 200]) = Ok r /\
    InetAddress_containsAddress r (IaV4 (Utils_hton16 24) [10; 0; 1; 200]) = Ok true.
Proof.
  destruct (InetAddress_network_correct (IaV4 (Utils_hton16 24) [10; 0; 1; 200]))
    as (r & H1 & _ & _ & _ & H2).
  - split_and!; [done|done|by rewrite !Forall_cons].
  - reflexivity.
  - vm_compute. discriminate.
  - exists r. exact (conj H1 H2).
Defined.

(** an address serialized into a buffer is deserialized to itself up to the
    fields that are not sent, with the number of bytes it took; a full buffer makes
    serialize throw and nothing else. *)
Theorem InetAddress_wire_roundtrip C a b :
  ia_wf a -> C + 16 < 2 ^ 32 -> buf_wf C b ->
  (exists b', InetAddress_serialize C a b = Ok b' /\ buf_wf C b' /\
     InetAddress_deserialize b' (b_len b) = Ok (inet_canon a, b_len b' - b_len b)) \/
  (InetAddress_serialize C a b = Throw OUT_OF_BOUNDS /\ C < b_len b + zlen (inet_enc a)).
Proof.
  intros Hw HC Hb. pose proof (InetAddress_appends C a Hw HC) as Ha.
  pose proof (proj2 Ha b Hb) as H. destruct (Z.leb_spec (b_len b + zlen (inet_enc a)) C); [left|by right].
  destruct H as (b' & Heq & Hb' & _). exists b'. split_and!; [done|done|].
  rewrite (InetAddress_deserialize_enc C b' (b_len b) a) by (done || by eapply appends_has_at).
  destruct (appends_len C _ _ b b' Ha Hb Heq) as (_ & _ & ->). do 2 f_equal. lia.
Qed.

Lemma InetAddress_wire_roundtrip_witness :
  exists b', InetAddress_serialize 32 (InetAddress_makeIpv66plane 5 6) (mkBuffer (replicate 32 0) 3) = Ok b' /\
    InetAddress_deserialize b' 3 = Ok (InetAddress_makeIpv66plane 5 6, b_len b' - 3).
Proof.
  destruct (InetAddress_wire_roundtrip 32 (InetAddress_makeIpv66plane 5 6) (mkBuffer (replicate 32 0) 3))
    as [(b' & H1 & _ & H2)|[_ H]].
  - apply sixplane_wf.
  - lia.
  - buf_literal.
  - exists b'. exact (conj H1 H2).
  - exfalso. revert H. vm_compute. discriminate.
Defined.

(** operator== is equality of well-formed addresses and operator< is a strict
    total order. *)
Theorem InetAddress_order x y z :
  ia_wf x -> ia_wf y -> ia_wf z ->
  (InetAddress_eqb x y = true <-> x = y) /\
  (InetAddress_ltb x y = true \/ InetAddress_eqb x y = true \/ InetAddress_ltb y x = true) /\
  (InetAddress_ltb x y = true -> InetAddress_ltb y x = false /\ InetAddress_eqb x y = false) /\
  (InetAddress_ltb x y = true -> InetAddress_ltb y z = true -> InetAddress_ltb x z = true).
Proof.
  intros Hx Hy Hz.
  destruct (eqb_ltb_key x y Hx Hy) as [-> ->], (eqb_ltb_key y x Hy Hx) as [_ ->],
    (eqb_ltb_key y z Hy Hz) as [_ ->], (eqb_ltb_key x z Hx Hz) as [_ ->].
  pose proof (array_cmp_antisym (ia_key x) (ia_key y)) as Has.
  rewrite !Z.ltb_lt, !Z.eqb_eq, Z.ltb_ge, Z.eqb_neq. split_and!; [|lia|lia|].
  - rewrite array_cmp_eq by (by rewrite !length_ia_key). split; [by apply ia_key_inj|by intros ->].
  - apply array_cmp_trans; by rewrite !length_ia_key.
Qed.

Lemma InetAddress_order_witness :
  InetAddress_ltb (InetAddress_makeIpv66plane 5 6) (InetAddress_makeIpv66plane 5 7) = true /\
  InetAddress_ltb (InetAddress_makeIpv66plane 5 7) (InetAddress_makeIpv66plane 5 6) = false.
Proof.
  destruct (InetAddress_order (InetAddress_makeIpv66plane 5 6) (InetAddress_makeIpv66plane 5 7)
    InetAddress_null) as (_ & _ & H & _).
  - apply sixplane_wf.
  - apply sixplane_wf.
  - split_and!; [done|done|done|done|by apply Forall_replicate].
  - assert (E : InetAddress_ltb (InetAddress_makeIpv66plane 5 6) (InetAddress_makeIpv66plane 5 7) = true)
      by (vm_compute; reflexivity).
    exact (conj E (proj1 (H E))).
Defined.

(** the IPv6 addresses derived from a network ID and a member address are private
    unicast addresses with valid prefixes that are common to a network's members, the
    RFC 4193 ones only to those, and hold the member's address. *)
Theorem InetAddress_derived_correct nwid nwid' a a' :
  is_u64 nwid -> is_u64 nwid' -> in_range 40 a ->
  let r := InetAddress_makeIpv6rfc4193 nwid a in
  let s := InetAddress_makeIpv66plane nwid a in
  ia_wf r /\ ia_wf s /\
  InetAddress_ipScope r = IP_SCOPE_PRIVATE /\ InetAddress_ipScope s = IP_SCOPE_PRIVATE /\
  in_network r (InetAddress_makeIpv6rfc4193 nwid' a') = bool_decide (nwid = nwid') /\
  in_network s (InetAddress_makeIpv66plane nwid a') = true /\
  Address_setTo (drop 11 (ip6_bytes r)) 5 = Ok a /\ Address_setTo (drop 5 (ip6_bytes s)) 5 = Ok a.
Proof.
  intros Hn Hn' Ha r s. split_and!;
    [apply rfc4193_wf|apply sixplane_wf|reflexivity|reflexivity|by apply rfc4193_network
    |apply sixplane_network|by apply rfc4193_address|by apply sixplane_address].
Qed.

Lemma InetAddress_derived_correct_witness :
  in_network (InetAddress_makeIpv6rfc4193 5 6) (InetAddress_makeIpv6rfc4193 4 6) = false /\
  InetAddress_ipScope (InetAddress_makeIpv66plane 5 6) = IP_SCOPE_PRIVATE.
Proof.
  destruct (InetAddress_derived_correct 5 4 6 6) as (_ & _ & _ & H1 & H2 & _); [done|done|done|].
  exact (conj H2 H1).
Defined.
