(* ===== verification/Hashtable.v ===== *)
(** The hash table of node/Hashtable.hpp.

    A table is its array of buckets, each bucket the chain of its entries from the head
    on.  A pointer to an entry is the entry's key, which no other entry of the table has:
    following it finds the entry in the chain that holds it, and is undefined when the entry
    was deleted.  [alloc] says whether the malloc of an operation succeeds.  The hash is a
    class; [unsigned long] has 64 bits.  The abstract view of a table is a finite map. *)
From S2P Require Import Prelude.

(** ** Hash codes *)

(** What [_hc] gives for a key: an unsigned long. *)
Class HashCode (K : Type) := {
  hashCode : K -> Z;
  hashCode_range k : 0 <= hashCode k < 2 ^ 64
}.

Definition hc_uint64 (i : Z) : Z := u64 (Z.lxor i (Z.shiftr i 32)).
Definition hc_uint32 (i : Z) : Z := u64 (u64 i * 0x9e3779b1).
Definition hc_uint16 (i : Z) : Z := u64 (u64 i * 0x9e3779b1).

Section Hashtable.
Context {K V : Type} `{EqDecision K} `{HashCode K}.
Implicit Types (k : K) (v : V).

(** ** The code *)

Notation chain := (list (K * V)).

Record Hashtable : Type := mkHashtable { ht_t : list chain; ht_bc : Z; ht_s : Z }.
Implicit Types h : Hashtable.

Definition Hashtable_new (bc : Z) (alloc : bool) : outcome Hashtable :=
  if alloc then Ok (mkHashtable (replicate (Z.to_nat bc) []) bc 0) else Throw OUT_OF_MEMORY.

(** The array element [_t[i]]. *)
Definition bucket (t : list chain) (i : Z) : outcome chain :=
  match t !! Z.to_nat i with Some c => Ok c | None => Undef end.
Definition set_bucket (t : list chain) (i : Z) (c : chain) : list chain := <[Z.to_nat i := c]> t.

(** The loops over the chain of a bucket. *)
Fixpoint chain_find (k : K) (c : chain) : option V :=
  match c with
  | [] => None
  | (k', v) :: c => if decide (k' = k) then Some v else chain_find k c
  end.
Fixpoint chain_erase (k : K) (c : chain) : option chain :=
  match c with
  | [] => None
  | (k', v) :: c => if decide (k' = k) then Some c else cons (k', v) <$> chain_erase k c
  end.
Fixpoint chain_update (k : K) (v : V) (c : chain) : option chain :=
  match c with
  | [] => None
  | (k', v') :: c => if decide (k' = k) then Some ((k', v) :: c) else cons (k', v') <$> chain_update k v c
  end.

(** The copy constructor: each entry in front of those before it. *)
Definition copy_chain (c : chain) : chain := fold_left (fun nc kv => kv :: nc) c [].
Definition Hashtable_copy (h : Hashtable) (alloc : bool) : outcome Hashtable :=
  if alloc then Ok (mkHashtable (copy_chain <$> ht_t h) (ht_bc h) (ht_s h)) else Throw OUT_OF_MEMORY.

Definition Hashtable_clear (h : Hashtable) : Hashtable :=
  if ht_s h =? 0 then h else mkHashtable ((fun _ => []) <$> ht_t h) (ht_bc h) 0.

Definition Hashtable_keys (h : Hashtable) : list K :=
  if ht_s h =? 0 then [] else flat_map (fun c : chain => c.*1) (ht_t h).
Definition Hashtable_appendKeys (h : Hashtable) (l : list K) : list K :=
  if ht_s h =? 0 then l else l ++ flat_map (fun c : chain => c.*1) (ht_t h).
Definition Hashtable_entries (h : Hashtable) : list (K * V) :=
  if ht_s h =? 0 then [] else flat_map (fun c => c) (ht_t h).

Definition Hashtable_get (h : Hashtable) (k : K) : outcome (option V) :=
  b ← bucket (ht_t h) (hashCode k mod ht_bc h); Ok (chain_find k b).
Definition Hashtable_get_into (h : Hashtable) (k : K) (v : V) : outcome (V * bool) :=
  b ← bucket (ht_t h) (hashCode k mod ht_bc h);
  Ok (match chain_find k b with Some v => (v, true) | None => (v, false) end).
Definition Hashtable_contains (h : Hashtable) (k : K) : outcome bool :=
  b ← bucket (ht_t h) (hashCode k mod ht_bc h);
  Ok (match chain_find k b with Some _ => true | None => false end).

Definition Hashtable_erase (h : Hashtable) (k : K) : outcome (Hashtable * bool) :=
  let bidx := hashCode k mod ht_bc h in
  b ← bucket (ht_t h) bidx;
  match chain_erase k b with
  | Some c => Ok (mkHashtable (set_bucket (ht_t h) bidx c) (ht_bc h) (u64 (ht_s h - 1)), true)
  | None => Ok (h, false)
  end.

(** One entry moved to the new array, in front of its chain there. *)
Definition move_entry (nc : Z) (nt : list chain) (kv : K * V) : outcome (list chain) :=
  let nidx := hashCode kv.1 mod nc in
  c ← bucket nt nidx; Ok (set_bucket nt nidx (kv :: c)).
Fixpoint move_chain (nc : Z) (c : chain) (nt : list chain) : outcome (list chain) :=
  match c with
  | [] => Ok nt
  | kv :: c => nt ← move_entry nc nt kv; move_chain nc c nt
  end.
Fixpoint rehash (nc : Z) (t : list chain) (nt : list chain) : outcome (list chain) :=
  match t with
  | [] => Ok nt
  | c :: t => nt ← move_chain nc c nt; rehash nc t nt
  end.

Definition Hashtable_grow (h : Hashtable) (alloc : bool) : outcome Hashtable :=
  let nc := u64 (ht_bc h * 2) in
  if alloc then
    nt ← rehash nc (ht_t h) (replicate (Z.to_nat nc) []);
    Ok (mkHashtable nt nc (ht_s h))
  else Ok h.

(** What set and operator[] do for a key that is not there. *)
Definition insert_new (h : Hashtable) (k : K) (v : V) (alloc : bool) : outcome Hashtable :=
  h ← (if ht_bc h <=? ht_s h then Hashtable_grow h alloc else Ok h);
  let bidx := hashCode k mod ht_bc h in
  b ← bucket (ht_t h) bidx;
  Ok (mkHashtable (set_bucket (ht_t h) bidx ((k, v) :: b)) (ht_bc h) (u64 (ht_s h + 1))).

Definition Hashtable_set (h : Hashtable) (k : K) (v : V) (alloc : bool) : outcome Hashtable :=
  let bidx := hashCode k mod ht_bc h in
  b ← bucket (ht_t h) bidx;
  match chain_update k v b with
  | Some c => Ok (mkHashtable (set_bucket (ht_t h) bidx c) (ht_bc h) (ht_s h))
  | None => insert_new h k v alloc
  end.

(** An assignment through a pointer that get() or operator[] returned for [k]. *)
Definition Hashtable_store (h : Hashtable) (k : K) (v : V) : outcome Hashtable :=
  let bidx := hashCode k mod ht_bc h in
  b ← bucket (ht_t h) bidx;
  match chain_update k v b with
  | Some c => Ok (mkHashtable (set_bucket (ht_t h) bidx c) (ht_bc h) (ht_s h))
  | None => Undef
  end.

(** operator[]: the value, [v0] being the one the default constructor makes. *)
Definition Hashtable_index (v0 : V) (h : Hashtable) (k : K) (alloc : bool) : outcome (Hashtable * V) :=
  b ← bucket (ht_t h) (hashCode k mod ht_bc h);
  match chain_find k b with
  | Some v => Ok (h, v)
  | None => h ← insert_new h k v0 alloc; Ok (h, v0)
  end.

(** The assignment: every entry of the other table set in this one, after a clear.  [alloc n]
    is for the n-th set. *)
Fixpoint set_all (h : Hashtable) (l : list (K * V)) (alloc : nat -> bool) : outcome Hashtable :=
  match l with
  | [] => Ok h
  | (k, v) :: l => h ← Hashtable_set h k v (alloc O); set_all h l (fun n => alloc (S n))
  end.
Definition Hashtable_assign (this ht : Hashtable) (alloc : nat -> bool) : outcome Hashtable :=
  let this := Hashtable_clear this in
  if ht_s ht =? 0 then Ok this else set_all this (flat_map (fun c => c) (ht_t ht)) alloc.

(** The assignment of a table to itself: the other table is this one, which is cleared first. *)
Definition Hashtable_assign_self (this : Hashtable) (alloc : nat -> bool) : outcome Hashtable :=
  let this := Hashtable_clear this in
  if ht_s this =? 0 then Ok this else set_all this (flat_map (fun c => c) (ht_t this)) alloc.

Definition Hashtable_size (h : Hashtable) : Z := ht_s h.
Definition Hashtable_empty (h : Hashtable) : bool := ht_s h =? 0.

(** ** The iterator *)

Record Iterator : Type := mkIterator { it_idx : Z; it_b : option K }.

(** The entry a pointer to [k] points at, with the pointer in its [next]. *)
Fixpoint chain_from (k : K) (c : chain) : option (V * option K) :=
  match c with
  | [] => None
  | (k', v) :: c => if decide (k' = k) then Some (v, fst <$> head c) else chain_from k c
  end.
Fixpoint deref (t : list chain) (k : K) : outcome (V * option K) :=
  match t with
  | [] => Undef
  | c :: t => match chain_from k c with Some r => Ok r | None => deref t k end
  end.

Definition Iterator_new (h : Hashtable) : outcome Iterator :=
  b ← bucket (ht_t h) 0; Ok (mkIterator 0 (fst <$> head b)).

Fixpoint next_loop (fuel : nat) (h : Hashtable) (it : Iterator) : outcome (Iterator * option (K * V)) :=
  match fuel with
  | O => Undef
  | S fuel =>
      match it_b it with
      | Some k => '(v, nx) ← deref (ht_t h) k; Ok (mkIterator (it_idx it) nx, Some (k, v))
      | None =>
          let idx := u64 (it_idx it + 1) in
          if ht_bc h <=? idx then Ok (mkIterator idx None, None)
          else b ← bucket (ht_t h) idx; next_loop fuel h (mkIterator idx (fst <$> head b))
      end
  end.
(** Each turn but the last goes to the next bucket. *)
Definition Iterator_next (h : Hashtable) (it : Iterator) : outcome (Iterator * option (K * V)) :=
  next_loop (S (S (length (ht_t h)))) h it.

(** The loop the callers write: visit every entry, erase those that [p] selects. *)
Fixpoint erase_loop (fuel : nat) (p : K * V -> outcome bool) (h : Hashtable) (it : Iterator) (seen : list (K * V)) : outcome (Hashtable * list (K * V)) :=
  match fuel with
  | O => Undef
  | S fuel =>
      '(it, r) ← Iterator_next h it;
      match r with
      | None => Ok (h, seen)
      | Some kv =>
          d ← p kv;
          h ← (if (d : bool) then fst <$> Hashtable_erase h kv.1 else Ok h);
          erase_loop fuel p h it (seen ++ [kv])
      end
  end.

(** The loop that looks for an entry that [p] selects. *)
Fixpoint find_loop (fuel : nat) (p : K * V -> outcome bool) (h : Hashtable) (it : Iterator) : outcome (Iterator * option (K * V)) :=
  match fuel with
  | O => Undef
  | S fuel =>
      '(it, r) ← Iterator_next h it;
      match r with
      | None => Ok (it, None)
      | Some kv => d ← p kv; if (d : bool) then Ok (it, Some kv) else find_loop fuel p h it
      end
  end.
End Hashtable.
Arguments Hashtable : clear implicits.
Arguments Iterator : clear implicits.

(** ** Hash functions of the keys in use *)

#[export, refine] Instance HashCode_uint64 : HashCode Z := {| hashCode := hc_uint64 |}.
Proof. intros k. apply (wrap_range 64). lia. Defined.

(** Keys of the type [uint32_t]. *)
Record uint32 : Type := U32 { uint32_val : Z }.
#[export] Instance uint32_eq_dec : EqDecision uint32.
Proof. solve_decision. Defined.
#[export, refine] Instance uint32_countable : Countable uint32 := inj_countable' uint32_val U32 _.
Proof. by intros []. Defined.
#[export, refine] Instance HashCode_uint32 : HashCode uint32 := {| hashCode k := hc_uint32 (uint32_val k) |}.
Proof. intros k. apply (wrap_range 64). lia. Defined.

(** ** The abstract view *)

Section Facts.
Context {K V : Type} `{Countable K} `{HashCode K}.
Notation chain := (list (K * V)).
Notation table := (Hashtable K V).
Implicit Types (h : table) (t : list chain) (c : chain) (k : K) (v : V).

Definition ht_list (h : table) : list (K * V) := concat (ht_t h).
Definition ht_map (h : table) : gmap K V := list_to_map (ht_list h).

(** Every entry is in the chain of its hash, no key is twice in the table. *)
Definition homes (bc : Z) (t : list chain) : Prop :=
  forall i c kv, t !! i = Some c -> kv ∈ c -> hashCode kv.1 mod bc = Z.of_nat i.

Record ht_wf (h : table) : Prop := {
  hw_bc : 0 < ht_bc h < 2 ^ 61;
  hw_t : zlen (ht_t h) = ht_bc h;
  hw_home : homes (ht_bc h) (ht_t h);
  hw_nodup : NoDup (ht_list h).*1;
  hw_s : ht_s h = zlen (ht_list h)
}.

(** *** Chains *)

Lemma bucket_mod t bc x : 0 < bc -> zlen t = bc -> exists c, bucket t (x mod bc) = Ok c /\ t !! Z.to_nat (x mod bc) = Some c.
Proof.
  intros Hbc Ht. pose proof (Z.mod_pos_bound x bc Hbc). unfold zlen in Ht. destruct (lookup_lt_is_Some_2 t (Z.to_nat (x mod bc))) as [c Hc]; [lia|].
  exists c. unfold bucket. by rewrite Hc.
Qed.

(** One bucket and the rest of the table. *)
Lemma concat_bucket t i c : t !! i = Some c -> exists r, concat t ≡ₚ c ++ r /\ forall c', concat (<[i := c']> t) ≡ₚ c' ++ r.
Proof.
  intros Hi. exists (concat (take i t) ++ concat (drop (S i) t)). pose proof (lookup_lt_Some _ _ _ Hi).
  assert (E : forall (a b d : chain), a ++ b ++ d ≡ₚ b ++ a ++ d) by (intros; by rewrite !app_assoc, (Permutation_app_comm a b)). split.
  - rewrite <- (take_drop_middle t i c Hi) at 1. rewrite concat_app. cbn [concat]. apply E.
  - intros c'. rewrite insert_take_drop by done. rewrite concat_app. cbn [concat]. apply E.
Qed.

Lemma elem_of_concat (x : K * V) t : x ∈ concat t <-> exists i c, t !! i = Some c /\ x ∈ c.
Proof.
  rewrite list_elem_of_In, in_concat. split.
  - intros (c & Hc & Hx). apply list_elem_of_In in Hc, Hx. apply list_elem_of_lookup in Hc as [i Hi]. eauto.
  - intros (i & c & Hi & Hx). exists c. split; apply list_elem_of_In; [by eapply list_elem_of_lookup_2|done].
Qed.

Lemma chain_find_Some k v c : NoDup c.*1 -> chain_find k c = Some v <-> (k, v) ∈ c.
Proof.
  induction c as [|[k' v'] c IH]; intros Hn; cbn [chain_find]; [split; [done|by intros ?%elem_of_nil]|].
  rewrite elem_of_cons. apply NoDup_cons in Hn as [Hk Hn]. destruct (decide (k' = k)) as [->|Hne].
  - split; [intros [= ->]; by left|]. intros [[= ->]|Hin]; [done|]. destruct Hk. apply list_elem_of_fmap. by exists (k, v).
  - rewrite (IH Hn). split; [by right|]. intros [[= -> _]|]; done.
Qed.

Lemma chain_find_None k c : chain_find k c = None <-> k ∉ c.*1.
Proof.
  induction c as [|[k' v'] c IH]; cbn [chain_find fmap list_fmap]; [split; [intros _; apply not_elem_of_nil|done]|].
  rewrite not_elem_of_cons. cbn. destruct (decide (k' = k)) as [->|]; [split; [done|by intros []]|]. rewrite IH. naive_solver.
Qed.

Lemma chain_erase_spec k c :
  match chain_erase k c with
  | Some c' => exists v c1 c2, c = c1 ++ (k, v) :: c2 /\ c' = c1 ++ c2 /\ k ∉ c1.*1
  | None => k ∉ c.*1
  end.
Proof.
  induction c as [|[k' v'] c IH]; cbn [chain_erase]; [apply not_elem_of_nil|]. destruct (decide (k' = k)) as [->|Hne].
  - exists v', [], c. split_and!; [done..|apply not_elem_of_nil].
  - destruct (chain_erase k c) as [c'|]; cbn [fmap option_fmap option_map].
    + destruct IH as (v & c1 & c2 & -> & -> & Hk). exists v, ((k', v') :: c1), c2. split_and!; [done..|]. apply not_elem_of_cons. by split.
    + apply not_elem_of_cons. by split.
Qed.

Lemma chain_update_spec k v c :
  match chain_update k v c with
  | Some c' => exists v0 c1 c2, c = c1 ++ (k, v0) :: c2 /\ c' = c1 ++ (k, v) :: c2
  | None => k ∉ c.*1
  end.
Proof.
  induction c as [|[k' v'] c IH]; cbn [chain_update]; [apply not_elem_of_nil|]. destruct (decide (k' = k)) as [->|Hne].
  - by exists v', [], c.
  - destruct (chain_update k v c) as [c'|]; cbn [fmap option_fmap option_map].
    + destruct IH as (v0 & c1 & c2 & -> & ->). by exists v0, ((k', v') :: c1), c2.
    + apply not_elem_of_cons. by split.
Qed.

(** *** One operation on one bucket *)

Lemma hash_bucket h k : ht_wf h -> exists c, bucket (ht_t h) (hashCode k mod ht_bc h) = Ok c /\ ht_t h !! Z.to_nat (hashCode k mod ht_bc h) = Some c.
Proof. intros []. apply bucket_mod; [lia|done]. Qed.

(** Only the bucket of its hash can hold a key. *)
Lemma hash_bucket_keys h k c : ht_wf h -> ht_t h !! Z.to_nat (hashCode k mod ht_bc h) = Some c ->
  (forall v, (k, v) ∈ ht_list h <-> (k, v) ∈ c) /\ (k ∈ (ht_list h).*1 <-> k ∈ c.*1) /\ NoDup c.*1.
Proof.
  intros Hw Hc. assert (E : forall v, (k, v) ∈ ht_list h <-> (k, v) ∈ c).
  { intros v. unfold ht_list. rewrite elem_of_concat. split; [|by eauto]. intros (i & c' & Hi & Hin).
    pose proof (hw_home h Hw i c' _ Hi Hin) as Hh. cbn in Hh. rewrite Hh, Nat2Z.id in Hc. congruence. }
  split; [done|]. split.
  - rewrite !list_elem_of_fmap. split; intros ([k' v] & -> & Hin); exists (k', v); (split; [done|]); by apply E.
  - destruct (concat_bucket _ _ _ Hc) as (r & Hr & _). pose proof (hw_nodup h Hw) as Hn. unfold ht_list in Hn. rewrite Hr, fmap_app in Hn. by apply NoDup_app in Hn as [].
Qed.

Lemma bucket_change h k c r c' s' :
  ht_wf h -> ht_t h !! Z.to_nat (hashCode k mod ht_bc h) = Some c -> (forall c', concat (<[Z.to_nat (hashCode k mod ht_bc h) := c']> (ht_t h)) ≡ₚ c' ++ r) ->
  (forall kv, kv ∈ c' -> kv ∈ c \/ kv.1 = k) -> NoDup (c' ++ r).*1 -> s' = zlen (c' ++ r) ->
  let h' := mkHashtable (set_bucket (ht_t h) (hashCode k mod ht_bc h) c') (ht_bc h) s' in
  ht_wf h' /\ ht_list h' ≡ₚ c' ++ r /\ ht_map h' = list_to_map (c' ++ r).
Proof.
  intros Hw Hc Hr Hin Hn Hs. cbv zeta. set (i := hashCode k mod ht_bc h) in *. pose proof (Hr c') as Hp.
  assert (Hi : Z.of_nat (Z.to_nat i) = i) by (pose proof (Z.mod_pos_bound (hashCode k) (ht_bc h) (proj1 (hw_bc h Hw))); subst i; lia).
  assert (Hn' : NoDup (concat (<[Z.to_nat i := c']> (ht_t h))).*1) by (by rewrite Hp). split; [|split; [done|]].
  - constructor; cbn [ht_t ht_bc ht_s]; [apply Hw| | |done|].
    + unfold zlen, set_bucket. rewrite length_insert. apply (hw_t h Hw).
    + intros j cj kv Hj Hkv. unfold set_bucket in Hj. apply list_lookup_insert_Some in Hj as [(<- & <- & _)|[_ Hj]]; [|by eapply (hw_home h Hw)].
      destruct (Hin kv Hkv) as [Hkc| ->]; [by apply (hw_home h Hw _ _ _ Hc)|]. by rewrite Hi.
    + unfold ht_list. cbn [ht_t]. unfold set_bucket, zlen. by rewrite Hp, Hs.
  - unfold ht_map. apply list_to_map_proper; [by apply Hn'|exact Hp].
Qed.

Lemma ht_map_lookup h k v : ht_wf h -> ht_map h !! k = Some v <-> (k, v) ∈ ht_list h.
Proof. intros Hw. unfold ht_map. symmetry. apply elem_of_list_to_map, Hw. Qed.
Lemma ht_map_absent h k : ht_map h !! k = None <-> k ∉ (ht_list h).*1.
Proof. unfold ht_map. symmetry. apply not_elem_of_list_to_map. Qed.

Lemma Hashtable_get_spec h k : ht_wf h -> Hashtable_get h k = Ok (ht_map h !! k).
Proof.
  intros Hw. unfold Hashtable_get. destruct (hash_bucket h k Hw) as (c & -> & Hc). cbn [mbind outcome_bind]. f_equal.
  destruct (hash_bucket_keys h k c Hw Hc) as (Hin & _ & Hn). apply option_eq. intros v. by rewrite chain_find_Some, ht_map_lookup, Hin.
Qed.

Lemma Hashtable_erase_spec h k : ht_wf h -> ht_s h < 2 ^ 60 ->
  exists h', Hashtable_erase h k = Ok (h', bool_decide (is_Some (ht_map h !! k))) /\ ht_wf h' /\ ht_map h' = delete k (ht_map h).
Proof.
  intros Hw Hs. unfold Hashtable_erase. destruct (hash_bucket h k Hw) as (c & -> & Hc). cbn [mbind outcome_bind].
  destruct (hash_bucket_keys h k c Hw Hc) as (Hin & Hk & _). pose proof (chain_erase_spec k c) as He. destruct (chain_erase k c) as [c'|].
  - destruct He as (v & c1 & c2 & Ec & -> & _). destruct (concat_bucket _ _ _ Hc) as (r & Hr & Hr').
    assert (Hp : ht_list h ≡ₚ (k, v) :: (c1 ++ c2) ++ r) by (unfold ht_list; rewrite Hr, Ec, <- !app_assoc; symmetry; apply Permutation_middle).
    pose proof (hw_nodup h Hw) as Hn. rewrite Hp in Hn. apply NoDup_cons in Hn as [Hnk Hn].
    assert (Hz : ht_s h = zlen ((c1 ++ c2) ++ r) + 1) by (rewrite (hw_s h Hw); unfold zlen; rewrite Hp; cbn [length]; lia).
    rewrite bool_decide_true by (exists v; rewrite ht_map_lookup by done; apply Hin; rewrite Ec; apply elem_of_app; right; by left).
    eexists. split; [done|]. destruct (bucket_change h k c r (c1 ++ c2) (u64 (ht_s h - 1)) Hw Hc Hr') as (Hw' & _ & Em); [|done| |].
    + intros kv Hkv. left. rewrite Ec. apply elem_of_app in Hkv as [|]; apply elem_of_app; [by left|right; by right].
    + unfold u64. rewrite wrap_id; [lia|]. pose proof (zlen_nonneg ((c1 ++ c2) ++ r)). unfold in_range. lia.
    + split; [done|]. rewrite Em. unfold ht_map. rewrite (list_to_map_proper (ht_list h) _ (hw_nodup h Hw) Hp). rewrite list_to_map_cons.
      symmetry. apply delete_insert_id, not_elem_of_list_to_map_1, Hnk.
  - assert (Hnone : ht_map h !! k = None) by (by rewrite ht_map_absent, Hk). exists h.
    rewrite bool_decide_false by (rewrite Hnone; by intros []). split; [done|]. split; [done|]. by rewrite delete_id.
Qed.

(** *** Growing and inserting *)

Definition placed (nc : Z) (t : list chain) : Prop := zlen t = nc /\ homes nc t.

Lemma move_entry_spec nc nt kv : 0 < nc -> placed nc nt -> exists nt', move_entry nc nt kv = Ok nt' /\ placed nc nt' /\ concat nt' ≡ₚ kv :: concat nt.
Proof.
  intros Hnc [Hz Hh]. unfold move_entry. destruct (bucket_mod nt nc (hashCode kv.1) Hnc Hz) as (c & -> & Hc). cbn [mbind outcome_bind]. eexists. split; [done|].
  destruct (concat_bucket _ _ _ Hc) as (r & Hr & Hr'). unfold set_bucket. split; [split|].
  - unfold zlen. rewrite length_insert. exact Hz.
  - intros j cj kv' Hj Hkv. apply list_lookup_insert_Some in Hj as [(<- & <- & _)|[_ Hj]]; [|by eapply Hh].
    pose proof (Z.mod_pos_bound (hashCode kv.1) nc Hnc). apply elem_of_cons in Hkv as [->|Hkv]; [lia|by eapply Hh].
  - by rewrite Hr', Hr.
Qed.

Lemma move_chain_spec nc c nt : 0 < nc -> placed nc nt -> exists nt', move_chain nc c nt = Ok nt' /\ placed nc nt' /\ concat nt' ≡ₚ c ++ concat nt.
Proof.
  intros Hnc. revert nt. induction c as [|kv c IH]; intros nt Hp; [by exists nt|]. cbn [move_chain].
  destruct (move_entry_spec nc nt kv Hnc Hp) as (nt1 & -> & Hp1 & E1). cbn [mbind outcome_bind].
  destruct (IH nt1 Hp1) as (nt2 & -> & Hp2 & E2). exists nt2. split_and!; [done..|]. rewrite E2, E1. symmetry. apply Permutation_middle.
Qed.

Lemma rehash_spec nc t nt : 0 < nc -> placed nc nt -> exists nt', rehash nc t nt = Ok nt' /\ placed nc nt' /\ concat nt' ≡ₚ concat t ++ concat nt.
Proof.
  intros Hnc. revert nt. induction t as [|c t IH]; intros nt Hp; [by exists nt|]. cbn [rehash concat].
  destruct (move_chain_spec nc c nt Hnc Hp) as (nt1 & -> & Hp1 & E1). cbn [mbind outcome_bind].
  destruct (IH nt1 Hp1) as (nt2 & -> & Hp2 & E2). exists nt2. split_and!; [done..|]. rewrite E2, E1, !app_assoc. by rewrite (Permutation_app_comm (concat t) c).
Qed.

Lemma concat_empty n : concat (replicate n ([] : chain)) = [].
Proof. induction n; [done|]. cbn. done. Qed.

Lemma placed_empty nc : 0 <= nc -> placed nc (replicate (Z.to_nat nc) ([] : chain)).
Proof.
  intros Hnc. split; [unfold zlen; rewrite length_replicate; lia|]. intros i c kv Hi Hkv. apply lookup_replicate in Hi as [-> _]. by apply elem_of_nil in Hkv.
Qed.

Lemma Hashtable_grow_spec h alloc : ht_wf h -> ht_bc h < 2 ^ 60 ->
  exists h', Hashtable_grow h alloc = Ok h' /\ ht_wf h' /\ ht_list h' ≡ₚ ht_list h /\ ht_bc h' = (if alloc then 2 * ht_bc h else ht_bc h) /\ ht_s h' = ht_s h.
Proof.
  intros Hw Hb. unfold Hashtable_grow. cbv zeta. destruct alloc; [|by exists h]. pose proof (hw_bc h Hw).
  assert (En : u64 (ht_bc h * 2) = 2 * ht_bc h) by (unfold u64; rewrite wrap_id; [lia|unfold in_range; lia]). rewrite En.
  destruct (rehash_spec (2 * ht_bc h) (ht_t h) (replicate (Z.to_nat (2 * ht_bc h)) [])) as (nt & -> & [Hz Hh] & Hp); [lia|apply placed_empty; lia|].
  cbn [mbind outcome_bind]. eexists. split; [done|]. rewrite concat_empty, app_nil_r in Hp.
  assert (Hn : NoDup (concat nt).*1) by (rewrite Hp; apply Hw). split_and!; [|done|done|done].
  constructor; cbn [ht_t ht_bc ht_s]; [lia|done|done|done|]. rewrite (hw_s h Hw). unfold ht_list, zlen. cbn [ht_t]. by rewrite Hp.
Qed.

Lemma insert_new_spec h k v alloc : ht_wf h -> ht_s h < 2 ^ 60 -> k ∉ (ht_list h).*1 ->
  exists h', insert_new h k v alloc = Ok h' /\ ht_wf h' /\ ht_map h' = <[k := v]> (ht_map h) /\ ht_s h' = ht_s h + 1.
Proof.
  intros Hw Hs Hk. unfold insert_new.
  assert (exists h1, (if ht_bc h <=? ht_s h then Hashtable_grow h alloc else Ok h) = Ok h1 /\ ht_wf h1 /\ ht_list h1 ≡ₚ ht_list h /\ ht_s h1 = ht_s h) as (h1 & -> & Hw1 & Hp1 & Hs1).
  { destruct (Z.leb_spec (ht_bc h) (ht_s h)); [|by exists h]. destruct (Hashtable_grow_spec h alloc Hw) as (h1 & ? & ? & ? & _ & ?); [lia|eauto]. }
  cbn [mbind outcome_bind]. cbv zeta. destruct (hash_bucket h1 k Hw1) as (c & -> & Hc). cbn [mbind outcome_bind]. destruct (concat_bucket _ _ _ Hc) as (r & Hr & Hr').
  assert (Hp : c ++ r ≡ₚ ht_list h) by (by rewrite <- Hp1). assert (Hn : NoDup (((k, v) :: c) ++ r).*1).
  { cbn [app fmap list_fmap]. apply NoDup_cons. rewrite Hp. split; [done|apply Hw]. }
  assert (Hz : ht_s h = zlen (c ++ r)) by (rewrite (hw_s h Hw); unfold zlen; by rewrite Hp). pose proof (zlen_nonneg (c ++ r)).
  assert (Hu : u64 (ht_s h1 + 1) = ht_s h + 1) by (rewrite Hs1; unfold u64; apply wrap_id; unfold in_range; lia).
  destruct (bucket_change h1 k c r ((k, v) :: c) (u64 (ht_s h1 + 1)) Hw1 Hc Hr') as (Hw' & _ & Em); [|done| |].
  - intros kv Hkv. apply elem_of_cons in Hkv as [->|]; [by right|by left].
  - rewrite Hu, Hz. unfold zlen. cbn [app length]. lia.
  - eexists. split; [done|]. split; [done|]. split; [|done]. rewrite Em. cbn [app]. rewrite list_to_map_cons. f_equal. apply list_to_map_proper; [|done]. by apply NoDup_cons in Hn as [].
Qed.

Lemma Hashtable_set_spec h k v alloc : ht_wf h -> ht_s h < 2 ^ 60 ->
  exists h', Hashtable_set h k v alloc = Ok h' /\ ht_wf h' /\ ht_map h' = <[k := v]> (ht_map h) /\ ht_s h' <= ht_s h + 1.
Proof.
  intros Hw Hs. unfold Hashtable_set. cbv zeta. destruct (hash_bucket h k Hw) as (c & -> & Hc). cbn [mbind outcome_bind].
  destruct (hash_bucket_keys h k c Hw Hc) as (_ & Hk & _). pose proof (chain_update_spec k v c) as Hu. destruct (chain_update k v c) as [c'|].
  2:{ destruct (insert_new_spec h k v alloc Hw Hs) as (h' & ? & ? & ? & ?); [by rewrite Hk|]. exists h'. split_and!; [done..|lia]. }
  destruct Hu as (v0 & c1 & c2 & Ec & ->). destruct (concat_bucket _ _ _ Hc) as (r & Hr & Hr').
  assert (Hp : ht_list h ≡ₚ (k, v0) :: (c1 ++ c2) ++ r) by (unfold ht_list; rewrite Hr, Ec, <- !app_assoc; symmetry; apply Permutation_middle).
  assert (Hp' : (c1 ++ (k, v) :: c2) ++ r ≡ₚ (k, v) :: (c1 ++ c2) ++ r) by (rewrite <- !app_assoc; symmetry; apply Permutation_middle).
  pose proof (hw_nodup h Hw) as Hn. rewrite Hp in Hn.
  assert (Hn' : NoDup ((c1 ++ (k, v) :: c2) ++ r).*1) by (by rewrite Hp').
  destruct (bucket_change h k c r (c1 ++ (k, v) :: c2) (ht_s h) Hw Hc Hr') as (Hw' & _ & Em); [|done| |].
  - intros kv Hkv. rewrite Ec. rewrite elem_of_app, elem_of_cons in Hkv |- *. destruct Hkv as [|[->|]]; [by left; left|by right|by left; right; right].
  - rewrite (hw_s h Hw). unfold zlen. by rewrite Hp, Hp'.
  - eexists. split; [done|]. split; [done|]. split; [|cbn [ht_s]; lia]. rewrite Em. unfold ht_map. rewrite (list_to_map_proper _ _ Hn' Hp'), (list_to_map_proper _ _ (hw_nodup h Hw) Hp).
    by rewrite !list_to_map_cons, insert_insert_eq.
Qed.

(** *** The other operations *)

Lemma Hashtable_new_spec bc : 0 < bc < 2 ^ 61 ->
  exists h, Hashtable_new bc true = Ok h /\ ht_wf h /\ ht_map h = ∅ /\ ht_s h = 0.
Proof.
  intros Hb. eexists. split; [done|]. assert (E : ht_list (mkHashtable (replicate (Z.to_nat bc) []) bc 0) = []) by apply concat_empty.
  destruct (placed_empty bc) as [Hz Hh]; [lia|]. split; [constructor; cbn [ht_t ht_bc ht_s]; [done|done|done|rewrite E; constructor|by rewrite E]|]. split; [|done]. unfold ht_map. by rewrite E.
Qed.

Lemma empty_list h : ht_wf h -> ht_s h = 0 -> ht_list h = [].
Proof. intros Hw. rewrite (hw_s h Hw). unfold zlen. destruct (ht_list h); [done|cbn; lia]. Qed.

Lemma Hashtable_clear_spec h : ht_wf h -> ht_wf (Hashtable_clear h) /\ ht_map (Hashtable_clear h) = ∅ /\ ht_s (Hashtable_clear h) = 0.
Proof.
  intros Hw. unfold Hashtable_clear. destruct (Z.eqb_spec (ht_s h) 0) as [E|].
  - split; [done|]. split; [|done]. unfold ht_map. by rewrite (empty_list h Hw E).
  - set (h' := mkHashtable _ _ _). assert (El : ht_list h' = []) by (unfold ht_list; cbn [h' ht_t]; induction (ht_t h) as [|? ? IH]; [done|exact IH]).
    split; [|split; [unfold ht_map; by rewrite El|done]]. constructor; [apply Hw| | |rewrite El; constructor|by rewrite El].
    + cbn [h' ht_t ht_bc]. unfold zlen. rewrite length_fmap. apply Hw.
    + intros i c kv Hi Hkv. cbn [h' ht_t] in Hi. apply list_lookup_fmap_Some in Hi as (? & Ec & _). subst c. by apply elem_of_nil in Hkv.
Qed.

Lemma entries_list h : ht_wf h -> Hashtable_entries h = ht_list h.
Proof.
  intros Hw. unfold Hashtable_entries. destruct (Z.eqb_spec (ht_s h) 0) as [E|]; [by rewrite (empty_list h Hw E)|].
  unfold ht_list. rewrite flat_map_concat_map. f_equal. apply map_id.
Qed.
Lemma keys_list h : ht_wf h -> Hashtable_keys h = (ht_list h).*1.
Proof.
  intros Hw. unfold Hashtable_keys. destruct (Z.eqb_spec (ht_s h) 0) as [E|]; [by rewrite (empty_list h Hw E)|].
  unfold ht_list. induction (ht_t h) as [|c t IH]; [done|]. cbn [flat_map concat]. by rewrite IH, fmap_app.
Qed.

Lemma ht_size h : ht_wf h -> ht_s h = Z.of_nat (size (ht_map h)).
Proof. intros Hw. rewrite (hw_s h Hw). unfold ht_map. by rewrite map_size_list_to_map by apply Hw. Qed.

Lemma ht_entries h : ht_wf h -> Hashtable_entries h ≡ₚ map_to_list (ht_map h).
Proof. intros Hw. rewrite entries_list by done. unfold ht_map. symmetry. apply map_to_list_to_map, Hw. Qed.

Lemma Hashtable_index_spec v0 h k alloc : ht_wf h -> ht_s h < 2 ^ 60 ->
  exists h', Hashtable_index v0 h k alloc = Ok (h', default v0 (ht_map h !! k)) /\ ht_wf h' /\
    ht_map h' = <[k := default v0 (ht_map h !! k)]> (ht_map h) /\ ht_s h' <= ht_s h + 1.
Proof.
  intros Hw Hs. pose proof (Hashtable_get_spec h k Hw) as Hg. unfold Hashtable_get in Hg. unfold Hashtable_index.
  destruct (bucket (ht_t h) (hashCode k mod ht_bc h)) as [c| |]; [|done..]. cbn [mbind outcome_bind] in *. injection Hg as ->.
  destruct (ht_map h !! k) as [v|] eqn:E; cbn [default].
  - exists h. split_and!; [done|done| |lia]. symmetry. by apply insert_id.
  - destruct (insert_new_spec h k v0 alloc Hw Hs) as (h' & -> & ? & ? & ?); [by apply ht_map_absent|]. exists h'. split_and!; [done..|lia].
Qed.

Lemma Hashtable_store_spec h k v : ht_wf h -> ht_s h < 2 ^ 60 -> is_Some (ht_map h !! k) ->
  exists h', Hashtable_store h k v = Ok h' /\ ht_wf h' /\ ht_map h' = <[k := v]> (ht_map h).
Proof.
  intros Hw Hs Hk. destruct (Hashtable_set_spec h k v true Hw Hs) as (h' & Hset & Hw' & Hm & _). exists h'. split; [|done].
  unfold Hashtable_set in Hset. unfold Hashtable_store. cbv zeta in *. destruct (hash_bucket h k Hw) as (c & E & Hc). rewrite E in *. cbn [mbind outcome_bind] in *.
  destruct (hash_bucket_keys h k c Hw Hc) as (_ & Hkc & _). pose proof (chain_update_spec k v c) as Hu. destruct (chain_update k v c); [done|].
  destruct Hk as [v0 Hv0]. rewrite <- Hkc in Hu. apply ht_map_absent in Hu. congruence.
Qed.

Lemma set_all_spec l : forall h alloc, ht_wf h -> ht_s h + zlen l < 2 ^ 60 ->
  exists h', set_all h l alloc = Ok h' /\ ht_wf h' /\ ht_map h' = foldl (fun m kv => <[kv.1 := kv.2]> m) (ht_map h) l.
Proof.
  induction l as [|[k v] l IH]; intros h alloc Hw Hs; [by exists h|]. cbn [set_all]. unfold zlen in Hs. cbn [length] in Hs.
  destruct (Hashtable_set_spec h k v (alloc O) Hw) as (h1 & -> & Hw1 & Em & Hs1); [lia|]. cbn [mbind outcome_bind].
  destruct (IH h1 (fun n => alloc (S n)) Hw1) as (h2 & -> & Hw2 & Em2); [unfold zlen; lia|]. exists h2. split_and!; [done..|]. by rewrite Em2, Em.
Qed.

Lemma foldl_insert_list l (m : gmap K V) : NoDup l.*1 -> (forall k, k ∈ l.*1 -> m !! k = None) -> foldl (fun m kv => <[kv.1 := kv.2]> m) m l = list_to_map l ∪ m.
Proof.
  revert m. induction l as [|[k v] l IH]; intros m Hn Hd; [symmetry; apply (left_id_L ∅ (∪))|]. cbn [foldl fst snd]. apply NoDup_cons in Hn as [Hk Hn].
  rewrite IH; [|done|].
  - rewrite list_to_map_cons, <- insert_union_l. symmetry. apply insert_union_r. by apply not_elem_of_list_to_map_1.
  - intros k' Hk'. rewrite lookup_insert_ne by (intros ->; by apply Hk). apply Hd. by right.
Qed.

Lemma Hashtable_assign_spec this ht alloc : ht_wf this -> ht_wf ht -> ht_s ht < 2 ^ 60 ->
  exists h, Hashtable_assign this ht alloc = Ok h /\ ht_wf h /\ ht_map h = ht_map ht.
Proof.
  intros Hw Hw2 Hs. unfold Hashtable_assign. cbv zeta. destruct (Hashtable_clear_spec this Hw) as (Hwc & Hmc & Hsc).
  destruct (Z.eqb_spec (ht_s ht) 0) as [E|].
  - eexists. split; [done|]. split; [done|]. rewrite Hmc. unfold ht_map. by rewrite (empty_list ht Hw2 E).
  - rewrite flat_map_concat_map, map_id. destruct (set_all_spec (concat (ht_t ht)) (Hashtable_clear this) alloc Hwc) as (h & -> & Hwh & Hm).
    { pose proof (hw_s ht Hw2). unfold ht_list in *. lia. }
    exists h. split_and!; [done..|]. rewrite Hm, Hmc, foldl_insert_list; [apply (right_id_L ∅ (∪))|apply Hw2|]. intros k _. apply lookup_empty.
Qed.

(** Assigned to itself, a table loses its entries. *)
Lemma Hashtable_assign_self_empty h alloc : ht_wf h -> exists h', Hashtable_assign_self h alloc = Ok h' /\ ht_map h' = ∅.
Proof. intros Hw. unfold Hashtable_assign_self. cbv zeta. destruct (Hashtable_clear_spec h Hw) as (_ & Hm & ->). eauto. Qed.

Lemma copy_chain_reverse c : copy_chain c = reverse c.
Proof.
  assert (E : forall c acc, fold_left (fun (nc : chain) kv => kv :: nc) c acc = reverse c ++ acc); [|unfold copy_chain; by rewrite E, app_nil_r].
  intros c'. induction c' as [|kv c' IH]; intros acc; [done|]. cbn [fold_left]. by rewrite IH, reverse_cons, <- app_assoc.
Qed.

Lemma Hashtable_copy_spec h : ht_wf h -> exists h', Hashtable_copy h true = Ok h' /\ ht_wf h' /\ ht_map h' = ht_map h.
Proof.
  intros Hw. eexists. split; [done|]. set (h' := mkHashtable _ _ _). assert (Hp : ht_list h' ≡ₚ ht_list h).
  { unfold ht_list. cbn [h' ht_t]. induction (ht_t h) as [|c t IH]; [done|]. cbn [fmap list_fmap concat]. rewrite IH, copy_chain_reverse. by rewrite reverse_Permutation. }
  assert (Hn : NoDup (ht_list h').*1) by (rewrite Hp; apply Hw). split; [|unfold ht_map; by apply list_to_map_proper].
  constructor; [apply Hw| | |done|].
  - cbn [h' ht_t ht_bc]. unfold zlen. rewrite length_fmap. apply Hw.
  - intros i c kv Hi Hkv. cbn [h' ht_t ht_bc] in *. apply list_lookup_fmap_Some in Hi as (c0 & -> & Hi). rewrite copy_chain_reverse, elem_of_reverse in Hkv. by eapply (hw_home h Hw).
  - cbn [h' ht_s]. rewrite (hw_s h Hw). unfold zlen. by rewrite Hp.
Qed.

(** *** Iterating *)

Lemma chain_from_split k v c1 c2 : k ∉ c1.*1 -> chain_from k (c1 ++ (k, v) :: c2) = Some (v, fst <$> head c2).
Proof.
  induction c1 as [|[k' v'] c1 IH]; intros Hk; cbn [app chain_from]; [by rewrite decide_True|]. apply not_elem_of_cons in Hk as [Hne Hk].
  rewrite decide_False by (intros ->; by apply Hne). by apply IH.
Qed.
Lemma chain_from_absent k c : k ∉ c.*1 -> chain_from k c = None.
Proof.
  induction c as [|[k' v'] c IH]; intros Hk; cbn [chain_from]; [done|]. apply not_elem_of_cons in Hk as [Hne Hk].
  rewrite decide_False by (intros ->; by apply Hne). by apply IH.
Qed.

Lemma deref_split T1 c1 k v c2 T2 : k ∉ (concat T1).*1 -> k ∉ c1.*1 -> deref (T1 ++ (c1 ++ (k, v) :: c2) :: T2) k = Ok (v, fst <$> head c2).
Proof.
  intros HT Hc. induction T1 as [|c T1 IH]; cbn [app deref]; [by rewrite chain_from_split|]. cbn [concat] in HT. rewrite fmap_app, not_elem_of_app in HT.
  destruct HT as [Hk HT]. rewrite chain_from_absent by done. by apply IH.
Qed.

(** The keys before an entry are not its key. *)
Lemma entry_unique h T1 c1 k v c2 T2 : ht_wf h -> ht_t h = T1 ++ (c1 ++ (k, v) :: c2) :: T2 ->
  k ∉ (concat T1).*1 /\ k ∉ c1.*1 /\ hashCode k mod ht_bc h = zlen T1.
Proof.
  intros Hw E. pose proof (hw_nodup h Hw) as Hn. unfold ht_list in Hn. rewrite E, concat_app in Hn. cbn [concat] in Hn. rewrite !fmap_app, <- app_assoc in Hn. cbn [fmap list_fmap] in Hn.
  apply NoDup_app in Hn as (_ & H1 & Hn). apply NoDup_app in Hn as (_ & H2 & _). split_and!.
  - intros Hin. apply (H1 _ Hin), elem_of_app. right. by left.
  - intros Hin. apply (H2 _ Hin). by left.
  - apply (hw_home h Hw (length T1) (c1 ++ (k, v) :: c2) (k, v)); [rewrite E; by apply list_lookup_middle|apply elem_of_app; right; by left].
Qed.

Lemma next_entry fuel h T1 c1 k v c2 T2 : ht_wf h -> ht_t h = T1 ++ (c1 ++ (k, v) :: c2) :: T2 ->
  next_loop (S fuel) h (mkIterator (zlen T1) (Some k)) = Ok (mkIterator (zlen T1) (fst <$> head c2), Some (k, v)).
Proof. intros Hw E. cbn [next_loop it_b it_idx]. destruct (entry_unique h T1 c1 k v c2 T2 Hw E) as (H1 & H2 & _). by rewrite E, deref_split. Qed.

(** From the end of a chain to the next entry, or the end of the table. *)
Lemma next_bucket T2 : forall fuel h T1 c1, ht_wf h -> ht_t h = T1 ++ c1 :: T2 -> (length T2 < fuel)%nat ->
  (concat T2 = [] /\ exists it, next_loop (S fuel) h (mkIterator (zlen T1) None) = Ok (it, None)) \/
  (exists m kv c2 T2', T2 = replicate m [] ++ (kv :: c2) :: T2' /\
    next_loop (S fuel) h (mkIterator (zlen T1) None) = Ok (mkIterator (zlen (T1 ++ c1 :: replicate m [])) (fst <$> head c2), Some kv)).
Proof.
  induction T2 as [|c T2 IH]; intros fuel h T1 c1 Hw E Hf; pose proof (hw_t h Hw) as Ht; pose proof (hw_bc h Hw); rewrite E, zlen_app in Ht; unfold zlen at 2 in Ht; cbn [length] in Ht;
    pose proof (zlen_nonneg T1); cbn [next_loop it_b it_idx];
    assert (Hu : u64 (zlen T1 + 1) = zlen T1 + 1) by (unfold u64; apply wrap_id; unfold in_range; lia); rewrite Hu; clear Hu.
  - left. split; [done|]. rewrite (proj2 (Z.leb_le _ _)) by lia. eauto.
  - rewrite (proj2 (Z.leb_gt _ _)) by lia. assert (Ez : zlen T1 + 1 = zlen (T1 ++ [c1])) by (rewrite zlen_app; done).
    assert (E' : ht_t h = (T1 ++ [c1]) ++ c :: T2) by (by rewrite E, <- app_assoc).
    assert (Eb : bucket (ht_t h) (zlen T1 + 1) = Ok c).
    { unfold bucket. rewrite E', Ez. unfold zlen. rewrite Nat2Z.id. by rewrite list_lookup_middle. }
    rewrite Eb, Ez. cbn [mbind outcome_bind]. destruct fuel as [|fuel]; [lia|]. cbn [length] in Hf. destruct c as [|[k v] c2]; cbn [head fmap option_fmap option_map fst].
    + destruct (IH fuel h (T1 ++ [c1]) [] Hw E') as [[Hc Hn]|(m & kv & c2 & T2' & -> & Hn)]; [lia|by left|].
      right. exists (S m), kv, c2, T2'. split; [done|]. rewrite Hn. by rewrite <- app_assoc.
    + right. exists O, (k, v), c2, T2. split; [done|]. cbn [replicate]. by apply (next_entry fuel h (T1 ++ [c1]) [] k v c2 T2).
Qed.

Lemma chain_erase_split k v c1 c2 : k ∉ c1.*1 -> chain_erase k (c1 ++ (k, v) :: c2) = Some (c1 ++ c2).
Proof.
  induction c1 as [|[k' v'] c1 IH]; intros Hk; cbn [app chain_erase]; [by rewrite decide_True|]. apply not_elem_of_cons in Hk as [Hne Hk].
  rewrite decide_False by (intros ->; by apply Hne). by rewrite IH.
Qed.

Lemma erase_entry h T1 c1 k v c2 T2 : ht_wf h -> ht_s h < 2 ^ 60 -> ht_t h = T1 ++ (c1 ++ (k, v) :: c2) :: T2 ->
  exists h', Hashtable_erase h k = Ok (h', true) /\ ht_wf h' /\ ht_s h' < 2 ^ 60 /\ ht_t h' = T1 ++ (c1 ++ c2) :: T2.
Proof.
  intros Hw Hs E. destruct (Hashtable_erase_spec h k Hw Hs) as (h' & He & Hw' & Hm). destruct (entry_unique h T1 c1 k v c2 T2 Hw E) as (_ & Hc & Hi).
  assert (Hsz : ht_s h' <= ht_s h).
  { rewrite (ht_size h' Hw'), (ht_size h Hw), Hm, map_size_delete. destruct (ht_map h !! k); unfold id; lia. }
  pose proof He as He'. unfold Hashtable_erase in He'. cbv zeta in He'. rewrite Hi in He'. unfold bucket, set_bucket, zlen in He'.
  rewrite Nat2Z.id, E, list_lookup_middle in He' by done. cbn [mbind outcome_bind] in He'. rewrite chain_erase_split in He' by done.
  injection He' as Eh Eb. rewrite <- Eb in He. exists h'. split_and!; [done|done|lia|]. rewrite <- Eh. cbn [ht_t]. by rewrite insert_app_r_alt, Nat.sub_diag by lia.
Qed.

Lemma fmap_empty_chains (f : chain -> chain) t : f [] = [] -> concat t = [] -> f <$> t = t.
Proof. intros Hf. induction t as [|c t IH]; [done|]. cbn [concat]. intros [-> Ht]%app_eq_nil. cbn [fmap list_fmap]. rewrite Hf. f_equal. by apply IH. Qed.

(** The loop from any point of the table on: what is before was filtered. *)
Lemma erase_loop_spec (p : K * V -> outcome bool) (q : K * V -> bool) n : forall fuel h T1 c1 rest T2 seen,
  (forall kv, kv ∈ rest ++ concat T2 -> p kv = Ok (q kv)) -> ht_wf h -> ht_s h < 2 ^ 60 -> length (rest ++ concat T2) = n -> (n < fuel)%nat ->
  let F := filter (fun kv => q kv = false) : chain -> chain in
  ht_t h = (F <$> T1) ++ (F c1 ++ rest) :: T2 ->
  exists h', erase_loop fuel p h (mkIterator (zlen T1) (fst <$> head rest)) seen = Ok (h', seen ++ rest ++ concat T2) /\
    ht_wf h' /\ ht_t h' = F <$> T1 ++ (c1 ++ rest) :: T2.
Proof.
  cbv zeta. set (F := filter (fun kv => q kv = false) : chain -> chain). induction n as [n IHn] using lt_wf_ind. intros fuel h T1 c1 rest T2 seen Hpq Hw Hs Hn Hf E.
  destruct fuel as [|fuel]; [lia|]. cbn [erase_loop]. unfold Iterator_next.
  assert (Hz : zlen (F <$> T1) = zlen T1) by (unfold zlen; by rewrite length_fmap).
  assert (Hlen : (length T2 < S (length (ht_t h)))%nat) by (rewrite E, length_app; cbn [length]; lia).
  assert (Hstep : forall T1' c1' kv c2 T2', ht_t h = (F <$> T1') ++ (F c1' ++ kv :: c2) :: T2' -> rest ++ concat T2 = kv :: c2 ++ concat T2' ->
    T1' ++ (c1' ++ kv :: c2) :: T2' = T1 ++ (c1 ++ rest) :: T2 ->
    exists h', (d ← p kv; h ← (if (d : bool) then fst <$> Hashtable_erase h kv.1 else Ok h); erase_loop fuel p h (mkIterator (zlen T1') (fst <$> head c2)) (seen ++ [kv])) = Ok (h', seen ++ rest ++ concat T2) /\
      ht_wf h' /\ ht_t h' = F <$> T1 ++ (c1 ++ rest) :: T2).
  { intros T1' c1' [k v] c2 T2' E' El Ef. rewrite El in Hn, Hpq |- *. cbn [length] in Hn. rewrite (Hpq (k, v)) by (by left). cbn [mbind outcome_bind].
    assert (exists h1, (if q (k, v) then fst <$> Hashtable_erase h k else Ok h) = Ok h1 /\ ht_wf h1 /\ ht_s h1 < 2 ^ 60 /\ ht_t h1 = (F <$> T1') ++ (F (c1' ++ [(k, v)]) ++ c2) :: T2') as (h1 & He & Hw1 & Hs1 & E1).
    { unfold F. rewrite filter_app. destruct (q (k, v)) eqn:Ep.
      - destruct (erase_entry h _ _ k v _ _ Hw Hs E') as (h1 & -> & ? & ? & E1). exists h1. rewrite filter_cons_False by congruence. by rewrite app_nil_r.
      - exists h. rewrite filter_cons_True by done. by rewrite <- app_assoc. }
    cbn [fst]. rewrite He. cbn [mbind outcome_bind]. destruct (IHn (length (c2 ++ concat T2'))) with (fuel := fuel) (h := h1) (T1 := T1') (c1 := c1' ++ [(k, v)]) (rest := c2) (T2 := T2') (seen := seen ++ [(k, v)])
      as (h2 & Hl & Hw2 & E2); [lia|intros kv Hkv; apply Hpq; by right|done|done|done|lia|done|].
    exists h2. rewrite Hl, E2, <- Ef, <- !app_assoc. done. }
  destruct rest as [|kv rest]; cbn [head fmap option_fmap option_map].
  - rewrite app_nil_r in E. rewrite <- Hz. destruct (next_bucket T2 (S (length (ht_t h))) h _ _ Hw E Hlen) as [[Hc [it ->]]|(m & kv & c2 & T2' & ET & ->)]; cbn [mbind outcome_bind].
    + exists h. rewrite Hc, !app_nil_r. split; [done|]. split; [done|]. by rewrite E, fmap_app, fmap_cons, (fmap_empty_chains F T2).
    + assert (Er : F <$> replicate m [] = replicate m []) by (by rewrite fmap_replicate).
      assert (Ez : zlen ((F <$> T1) ++ F c1 :: replicate m []) = zlen (T1 ++ c1 :: replicate m [])) by (unfold zlen; rewrite !length_app, length_fmap; cbn [length]; done).
      rewrite Ez. apply (Hstep (T1 ++ c1 :: replicate m []) [] kv c2 T2').
      * by rewrite E, ET, fmap_app, fmap_cons, Er, <- app_assoc.
      * by rewrite ET, concat_app, concat_empty.
      * by rewrite app_nil_r, ET, <- app_assoc.
  - destruct kv as [k v]. pose proof (next_entry (S (length (ht_t h))) h (F <$> T1) (F c1) k v rest T2 Hw E) as Hnx. rewrite Hz in Hnx.
    cbn [fst]. rewrite Hnx. cbn [mbind outcome_bind].
    by apply (Hstep T1 c1 (k, v) rest T2).
Qed.
Lemma erase_all_spec (p : K * V -> outcome bool) (q : K * V -> bool) h :
  (forall kv, kv ∈ ht_list h -> p kv = Ok (q kv)) -> ht_wf h -> ht_s h < 2 ^ 60 ->
  exists it h', Iterator_new h = Ok it /\ erase_loop (S (length (ht_list h))) p h it [] = Ok (h', ht_list h) /\ ht_wf h' /\
    ht_list h' = filter (fun kv => q kv = false) (ht_list h).
Proof.
  intros Hpq Hw Hs. pose proof (hw_t h Hw) as Ht. pose proof (hw_bc h Hw). unfold Iterator_new, bucket. change (Z.to_nat 0) with O.
  destruct (ht_t h) as [|c t] eqn:E; [unfold zlen in Ht; cbn in Ht; lia|]. cbn [lookup list_lookup mbind outcome_bind].
  destruct (erase_loop_spec p q (length (ht_list h)) (S (length (ht_list h))) h [] [] c t []) as (h' & Hl & Hw' & E');
    [unfold ht_list in Hpq; by rewrite E in Hpq|done|done|unfold ht_list; by rewrite E|lia|done|].
  do 2 eexists. split; [done|]. assert (El : ht_list h = c ++ concat t) by (unfold ht_list; by rewrite E). split; [rewrite El at 2; exact Hl|]. split; [done|].
  unfold ht_list. rewrite E, E'. cbn [app]. clear. induction (c :: t) as [|d l IH]; [done|]. rewrite fmap_cons. cbn [concat]. by rewrite filter_app, IH.
Qed.

(** A loop that ends with a result ends with it for every predicate that answers the same. *)
Lemma erase_loop_ext (p p' : K * V -> outcome bool) : (forall kv b, p kv = Ok b -> p' kv = Ok b) ->
  forall fuel h it seen r, erase_loop fuel p h it seen = Ok r -> erase_loop fuel p' h it seen = Ok r.
Proof.
  intros Hp. induction fuel as [|fuel IH]; intros h it seen r; [done|]. cbn [erase_loop]. destruct (Iterator_next h it) as [[it' [kv|]]| |]; cbn [mbind outcome_bind]; try done.
  destruct (p kv) as [b| |] eqn:E; cbn [mbind outcome_bind]; try done. rewrite (Hp _ _ E). cbn [mbind outcome_bind]. destruct (if b then _ else _); cbn [mbind outcome_bind]; try done. apply IH.
Qed.

Lemma ht_map_filter (P : K * V -> Prop) `{forall x, Decision (P x)} h h' : ht_wf h -> ht_wf h' -> ht_list h' = filter P (ht_list h) -> ht_map h' = filter P (ht_map h).
Proof.
  intros Hw Hw' E. apply map_eq. intros k. apply option_eq. intros v. rewrite (ht_map_lookup h' k v Hw'), E, list_elem_of_filter, map_lookup_filter_Some, (ht_map_lookup h k v Hw). tauto.
Qed.

(** Where an iterator is: the entries it has not given yet. *)
Definition it_at (h : table) (it : Iterator K) (l : list (K * V)) : Prop :=
  exists T1 c1 rest T2, ht_t h = T1 ++ (c1 ++ rest) :: T2 /\ it = mkIterator (zlen T1) (fst <$> head rest) /\ l = rest ++ concat T2.

Lemma Iterator_new_at h : ht_wf h -> exists it, Iterator_new h = Ok it /\ it_at h it (ht_list h).
Proof.
  intros Hw. pose proof (hw_t h Hw) as Ht. pose proof (hw_bc h Hw). unfold Iterator_new, bucket, ht_list, it_at. change (Z.to_nat 0) with O.
  destruct (ht_t h) as [|c t]; [unfold zlen in Ht; cbn in Ht; lia|]. cbn [lookup list_lookup mbind outcome_bind]. eexists. split; [done|]. by exists [], [], c, t.
Qed.

Lemma Iterator_next_at h it l : ht_wf h -> it_at h it l ->
  match l with
  | [] => exists it', Iterator_next h it = Ok (it', None)
  | kv :: l => exists it', Iterator_next h it = Ok (it', Some kv) /\ it_at h it' l
  end.
Proof.
  intros Hw (T1 & c1 & rest & T2 & E & -> & ->). unfold Iterator_next. destruct rest as [|[k v] rest].
  - rewrite app_nil_r in E. cbn [app head fmap option_fmap option_map].
    destruct (next_bucket T2 (S (length (ht_t h))) h _ _ Hw E) as [[-> [it' Hn]]|(m & kv & c2 & T2' & ET & Hn)]; [rewrite E, length_app; cbn [length]; lia|by exists it'|].
    rewrite ET, concat_app, concat_empty. cbn [app concat]. eexists. split; [exact Hn|]. exists (T1 ++ c1 :: replicate m []), [kv], c2, T2'.
    split_and!; [|done|done]. by rewrite E, ET, <- app_assoc.
  - cbn [app]. eexists. split; [by apply (next_entry _ h T1 c1 k v rest T2)|]. exists T1, (c1 ++ [(k, v)]), rest, T2. split_and!; [|done|done]. by rewrite E, <- app_assoc.
Qed.

Lemma find_loop_spec p q h l : ht_wf h -> (forall kv, kv ∈ l -> p kv = Ok (q kv)) -> forall fuel it, it_at h it l -> (length l < fuel)%nat ->
  exists it', find_loop fuel p h it = Ok (it', List.find q l) /\
    forall l1 kv l2, l = l1 ++ kv :: l2 -> Forall (fun x => q x = false) l1 -> q kv = true -> it_at h it' l2.
Proof.
  intros Hw. induction l as [|kv l IH]; intros Hpq [|fuel] it Hat Hf; cbn [length] in Hf; [lia| |lia|]; cbn [find_loop List.find].
  - destruct (Iterator_next_at h it _ Hw Hat) as [it' ->]. exists it'. split; [done|]. by intros [] ? ? ?.
  - destruct (Iterator_next_at h it _ Hw Hat) as (it' & -> & Hat'). cbn [mbind outcome_bind]. rewrite Hpq by (by left). cbn [mbind outcome_bind].
    destruct (q kv) eqn:Eq.
    + exists it'. split; [done|]. intros [|x l1] y l2 El Hl1 Hy; [by injection El as -> ->|]. injection El as -> ->. apply Forall_cons in Hl1 as [? _]. congruence.
    + destruct (IH ltac:(intros; apply Hpq; by right) fuel it' Hat' ltac:(lia)) as (it2 & -> & Hit2). exists it2. split; [done|].
      intros [|x l1] y l2 El Hl1 Hy; [injection El as -> ->; congruence|]. injection El as -> ->. apply Forall_cons in Hl1 as [_ Hl1]. by eapply Hit2.
Qed.

(** *** Walking over a table whose values change *)

(** The keys of each bucket, and where an iterator is among them. *)
Definition ht_shape (h : table) : list (list K) := (fun c : chain => c.*1) <$> ht_t h.
Definition it_keys (h : table) (it : Iterator K) (ks : list K) : Prop :=
  exists (T1 : list (list K)) (c1 rest : list K) (T2 : list (list K)), ht_shape h = T1 ++ (c1 ++ rest) :: T2 /\ it = mkIterator (zlen T1) (head rest) /\ ks = rest ++ concat T2.

Lemma head_keys (c : chain) : fst <$> head c = head c.*1.
Proof. by destruct c. Qed.

Lemma concat_keys t : concat ((fun c : chain => c.*1) <$> t) = (concat t).*1.
Proof. induction t as [|c t IH]; [done|]. rewrite fmap_cons. cbn [concat]. by rewrite fmap_app, IH. Qed.

Lemma it_at_keys h it l : it_at h it l -> it_keys h it l.*1.
Proof.
  intros (T1 & c1 & rest & T2 & E & -> & ->). exists ((fun c : chain => c.*1) <$> T1), c1.*1, rest.*1, ((fun c : chain => c.*1) <$> T2).
  unfold ht_shape. rewrite E, fmap_app, fmap_cons, fmap_app, concat_keys, fmap_app, head_keys. unfold zlen. by rewrite length_fmap.
Qed.

Lemma it_keys_at h it ks : it_keys h it ks -> exists l, it_at h it l /\ l.*1 = ks.
Proof.
  intros (T1 & c1 & rest & T2 & E & -> & ->). unfold ht_shape in E. apply fmap_app_inv in E as (t1 & t2 & E1 & E2 & Et).
  destruct t2 as [|c t2]; [done|]. rewrite fmap_cons in E2. injection E2 as Ec E2. symmetry in Ec. apply fmap_app_inv in Ec as (d1 & d2 & Ed1 & Ed2 & ->).
  exists (d2 ++ concat t2). subst. split; [|by rewrite fmap_app, concat_keys]. exists t1, d1, d2, t2. split; [done|]. split; [|done]. rewrite head_keys. unfold zlen. by rewrite length_fmap.
Qed.

Lemma it_keys_shape h h' it ks : ht_shape h' = ht_shape h -> it_keys h it ks -> it_keys h' it ks.
Proof. intros E. unfold it_keys. by rewrite E. Qed.

Lemma Iterator_new_keys h : ht_wf h -> exists it, Iterator_new h = Ok it /\ it_keys h it (ht_list h).*1.
Proof. intros Hw. destruct (Iterator_new_at h Hw) as (it & E & Hat). exists it. split; [done|by apply it_at_keys]. Qed.

(** The next entry, which may be erased without harm to the iterator. *)
Lemma Iterator_next_keys h it ks : ht_wf h -> it_keys h it ks ->
  match ks with
  | [] => exists it', Iterator_next h it = Ok (it', None)
  | k :: ks => exists it' v, Iterator_next h it = Ok (it', Some (k, v)) /\ ht_map h !! k = Some v /\ it_keys h it' ks /\
      (ht_s h < 2 ^ 60 -> forall h' r, Hashtable_erase h k = Ok (h', r) -> it_keys h' it' ks)
  end.
Proof.
  intros Hw Hk. destruct (it_keys_at h it ks Hk) as (l & Hat & <-). pose proof (Iterator_next_at h it l Hw Hat) as Hn. destruct l as [|[k v] l]; [done|].
  rewrite fmap_cons. cbn [fst]. destruct Hn as (it' & En & Hat'). exists it', v. split; [done|].
  destruct Hat as (T1 & c1 & rest & T2 & E & -> & El). assert (Hin : (k, v) ∈ ht_list h).
  { unfold ht_list. rewrite E, concat_app. cbn [concat]. rewrite <- app_assoc, <- El. apply elem_of_app. right. apply elem_of_app. right. by left. }
  split; [by apply ht_map_lookup|]. split; [by apply it_at_keys|]. intros Hs h' r He.
  assert (Hex : exists T1 c1 c2 T2, ht_t h = T1 ++ (c1 ++ (k, v) :: c2) :: T2 /\ it' = mkIterator (zlen T1) (fst <$> head c2) /\ l = c2 ++ concat T2).
  { unfold Iterator_next in En. destruct rest as [|[k' v'] rest].
    - rewrite app_nil_r in E. cbn [head fmap option_fmap option_map] in En. destruct (next_bucket T2 (S (length (ht_t h))) h _ _ Hw E) as [[Hc _]|(m & kv & c2 & T2' & ET & En')];
        [rewrite E, length_app; cbn [length]; lia|by rewrite Hc in El|]. rewrite En' in En. injection En as <- ->. rewrite ET, concat_app, concat_empty in El. injection El as ->.
      exists (T1 ++ c1 :: replicate m []), [], c2, T2'. split_and!; [by rewrite E, ET, <- app_assoc|done..].
    - injection El as <- <- ->. rewrite (next_entry _ h T1 c1 k v rest T2 Hw E) in En. injection En as <-. by exists T1, c1, rest, T2. }
  destruct Hex as (U1 & d1 & d2 & U2 & EU & -> & ->). destruct (erase_entry h U1 d1 k v d2 U2 Hw Hs EU) as (h1 & He1 & _ & _ & Et). rewrite He in He1. injection He1 as -> _.
  apply it_at_keys. by exists U1, d1, d2, U2.
Qed.

Lemma chain_update_keys k v c : match chain_update k v c with Some c' => c'.*1 = c.*1 | None => True end.
Proof.
  induction c as [|[k' v'] c IH]; [done|]. cbn [chain_update]. destruct (decide (k' = k)) as [->|]; [done|]. destruct (chain_update k v c); [|done].
  cbn [fmap option_fmap option_map]. rewrite !fmap_cons. cbn [fst]. by f_equal.
Qed.

Lemma Hashtable_store_shape h k v h' : ht_wf h -> Hashtable_store h k v = Ok h' -> ht_shape h' = ht_shape h.
Proof.
  intros Hw. unfold Hashtable_store. cbv zeta. destruct (hash_bucket h k Hw) as (c & -> & Hc). cbn [mbind outcome_bind]. pose proof (chain_update_keys k v c) as Hu.
  destruct (chain_update k v c) as [c'|]; [|done]. intros [= <-]. unfold ht_shape, set_bucket. cbn [ht_t]. rewrite list_fmap_insert, Hu. apply list_insert_id. by rewrite list_lookup_fmap, Hc.
Qed.
End Facts.

(** ** Properties *)

(** What a program can do to a table. *)
Inductive ht_op (K V : Type) : Type :=
| OpSet (k : K) (v : V) (alloc : bool)
| OpIndex (k : K) (alloc : bool)
| OpErase (k : K)
| OpClear
| OpCopy.
Arguments OpSet {K V} k v alloc.
Arguments OpIndex {K V} k alloc.
Arguments OpErase {K V} k.
Arguments OpClear {K V}.
Arguments OpCopy {K V}.

Section Run.
Context {K V : Type} `{Countable K} `{HashCode K} (v0 : V).

Definition ht_exec (h : Hashtable K V) (op : ht_op K V) : outcome (Hashtable K V) :=
  match op with
  | OpSet k v alloc => Hashtable_set h k v alloc
  | OpIndex k alloc => fst <$> Hashtable_index v0 h k alloc
  | OpErase k => fst <$> Hashtable_erase h k
  | OpClear => Ok (Hashtable_clear h)
  | OpCopy => Hashtable_copy h true
  end.
Fixpoint ht_run (h : Hashtable K V) (ops : list (ht_op K V)) : outcome (Hashtable K V) :=
  match ops with
  | [] => Ok h
  | op :: ops => h ← ht_exec h op; ht_run h ops
  end.

(** The same on a finite map. *)
Definition map_exec (m : gmap K V) (op : ht_op K V) : gmap K V :=
  match op with
  | OpSet k v _ => <[k := v]> m
  | OpIndex k _ => <[k := default v0 (m !! k)]> m
  | OpErase k => delete k m
  | OpClear => ∅
  | OpCopy => m
  end.

Lemma map_exec_size m op : (size (map_exec m op) <= S (size m))%nat.
Proof.
  assert (Hi : forall k v, (size (<[k := v]> m) <= S (size m))%nat) by (intros k v; rewrite map_size_insert; destruct (m !! k); unfold id; lia).
  destruct op as [k v a|k a|k| |]; cbn [map_exec]; [done|done| |rewrite map_size_empty; lia|lia].
  rewrite map_size_delete. destruct (m !! k); unfold id; lia.
Qed.

Lemma ht_exec_refines h op : ht_wf h -> ht_s h < 2 ^ 60 -> exists h', ht_exec h op = Ok h' /\ ht_wf h' /\ ht_map h' = map_exec (ht_map h) op.
Proof.
  intros Hw Hs. destruct op as [k v a|k a|k| |]; cbn [ht_exec map_exec].
  - destruct (Hashtable_set_spec h k v a Hw Hs) as (h' & -> & ? & ? & _). eauto.
  - destruct (Hashtable_index_spec v0 h k a Hw Hs) as (h' & -> & ? & ? & _). cbn. eauto.
  - destruct (Hashtable_erase_spec h k Hw Hs) as (h' & -> & ? & ?). cbn. eauto.
  - destruct (Hashtable_clear_spec h Hw) as (? & ? & _). eauto.
  - by apply Hashtable_copy_spec.
Qed.

Lemma ht_run_refines ops : forall h, ht_wf h -> ht_s h + zlen ops < 2 ^ 60 -> exists h', ht_run h ops = Ok h' /\ ht_wf h' /\ ht_map h' = foldl map_exec (ht_map h) ops.
Proof.
  induction ops as [|op ops IH]; intros h Hw Hs; [by exists h|]. unfold zlen in Hs. cbn [length] in Hs. cbn [ht_run].
  destruct (ht_exec_refines h op Hw) as (h1 & -> & Hw1 & Em); [lia|]. cbn [mbind outcome_bind].
  destruct (IH h1 Hw1) as (h2 & -> & Hw2 & Em2).
  { rewrite (ht_size h1 Hw1), Em. pose proof (map_exec_size (ht_map h) op). rewrite (ht_size h Hw) in Hs. unfold zlen. lia. }
  exists h2. split_and!; [done..|]. by rewrite Em2, Em.
Qed.
End Run.

(** C25: After any operations the table answers like a finite map. *)
Theorem Hashtable_refines_map {K V} `{Countable K} `{HashCode K} (v0 : V) bc (ops : list (ht_op K V)) :
  0 < bc < 2 ^ 61 -> zlen ops < 2 ^ 60 ->
  exists h0 h, Hashtable_new bc true = Ok h0 /\ ht_run v0 h0 ops = Ok h /\ ht_wf h /\
    let m := foldl (map_exec v0) ∅ ops in
    (forall k, Hashtable_get h k = Ok (m !! k)) /\ Hashtable_size h = Z.of_nat (size m) /\
    Hashtable_entries h ≡ₚ map_to_list m /\ Hashtable_keys h ≡ₚ (map_to_list m).*1.
Proof.
  intros Hb Hl. destruct (Hashtable_new_spec (K := K) (V := V) bc Hb) as (h0 & Hn & Hw0 & Em0 & Hs0).
  destruct (ht_run_refines v0 ops h0 Hw0) as (h & Hr & Hw & Em); [lia|]. exists h0, h. split_and!; [done..|]. cbv zeta. rewrite <- Em0, <- Em. split_and!.
  - intros k. by apply Hashtable_get_spec.
  - by apply ht_size.
  - by apply ht_entries.
  - rewrite keys_list by done. rewrite <- ht_entries by done. by rewrite entries_list.
Qed.

(** Three insertions into a table with one bucket, the first two of which make it grow. *)
Lemma Hashtable_refines_map_witness :
  exists h : Hashtable Z Z, ht_run 0 (mkHashtable [[]] 1 0) [OpSet 1 10 true; OpSet 2 20 true; OpSet 5 50 true; OpErase 2; OpIndex 7 false] = Ok h /\
    Hashtable_get h 5 = Ok (Some 50) /\ Hashtable_get h 2 = Ok None /\ Hashtable_get h 7 = Ok (Some 0) /\ Hashtable_size h = 3.
Proof.
  destruct (Hashtable_refines_map (K := Z) (V := Z) 0 1 [OpSet 1 10 true; OpSet 2 20 true; OpSet 5 50 true; OpErase 2; OpIndex 7 false])
    as (h0 & h & Hn & Hr & _ & Hg & Hs & _); [lia|done|]. injection Hn as <-.
  exists h. split_and!; [exact Hr|rewrite Hg|rewrite Hg|rewrite Hg|rewrite Hs]; reflexivity.
Defined.

(** Iterating while erasing the last key visits every entry once, and leaves those not erased. *)
Theorem Iterator_erase_Ok {K V} `{Countable K} `{HashCode K} (p : K * V -> outcome bool) (q : K * V -> bool) (h : Hashtable K V) :
  (forall kv, kv ∈ ht_list h -> p kv = Ok (q kv)) -> ht_wf h -> ht_s h < 2 ^ 60 ->
  exists it h', Iterator_new h = Ok it /\ erase_loop (S (length (ht_list h))) p h it [] = Ok (h', Hashtable_entries h) /\ ht_wf h' /\
    Hashtable_entries h' = filter (fun kv => q kv = false) (Hashtable_entries h).
Proof.
  intros Hpq Hw Hs. destruct (erase_all_spec p q h Hpq Hw Hs) as (it & h' & Hn & Hl & Hw' & E). exists it, h'. by rewrite !entries_list.
Qed.

(** A table of four entries in two buckets, of which those with odd keys are erased. *)
Lemma Iterator_erase_Ok_witness :
  let h : Hashtable Z Z := mkHashtable [[(4, 40); (2, 20)]; [(3, 30); (1, 10)]] 2 4 in
  exists it h', Iterator_new h = Ok it /\ erase_loop 5 (fun kv => Ok (Z.odd kv.1)) h it [] = Ok (h', [(4, 40); (2, 20); (3, 30); (1, 10)]) /\
    Hashtable_entries h' = [(4, 40); (2, 20)].
Proof.
  destruct (Iterator_erase_Ok (fun kv : Z * Z => Ok (Z.odd kv.1)) (fun kv => Z.odd kv.1) (mkHashtable [[(4, 40); (2, 20)]; [(3, 30); (1, 10)]] 2 4)) as (it & h' & Hn & Hl & _ & He); [done| |done|].
  - constructor; cbn [ht_bc ht_t ht_s]; [lia|done| |apply (bool_decide_unpack _); vm_compute; exact I|done].
    intros [|[|i]] c kv Hi Hkv; cbn in Hi; [injection Hi as <-|injection Hi as <-|done]; repeat (apply elem_of_cons in Hkv as [->|Hkv]; [reflexivity|]); by apply elem_of_nil in Hkv.
  - exists it, h'. split_and!; [exact Hn|exact Hl|exact He].
Defined.
