(* ===== verification/Poly1305.v ===== *)
(** The Poly1305 one-time authenticator, node/Poly1305.cpp: the 64-bit implementation
    with 128-bit products, the portable one with 26-bit limbs, and the streaming
    wrapper both share.

    Limbs are kept at their machine width: every C operation that can wrap is wrapped
    here as well, and the proofs show that none of them does.  Both implementations
    are proved equal to [poly1305_spec], the polynomial evaluated over the integers
    modulo [2^130 - 5]. *)
From S2P Require Import Prelude.

Abbreviation u128 := (wrap 128).

(** ** Specification *)

Definition poly_p : Z := 2 ^ 130 - 5.

(** The message in blocks of sixteen bytes, the last one possibly shorter; [fuel]
    bounds the number of blocks. *)
Fixpoint poly_chunks (fuel : nat) (m : list Z) : list (list Z) :=
  match fuel, m with
  | O, _ | _, [] => []
  | S fuel, _ => take 16 m :: poly_chunks fuel (drop 16 m)
  end.

(** One block: a one byte is put after it, and the sum is multiplied by [r]. *)
Definition poly_step (r : Z) (acc : Z) (c : list Z) : Z :=
  (acc + le_val (c ++ [1])) * r mod poly_p.

Definition poly_clamp (k : Z) : Z := Z.land k 0x0ffffffc0ffffffc0ffffffc0fffffff.

Definition poly1305_spec (data key : list Z) : list Z :=
  let r := poly_clamp (le_val (take 16 key)) in
  let s := le_val (take 16 (drop 16 key)) in
  let acc := foldl (poly_step r) 0 (poly_chunks (length data) data) in
  le_bytes 16 (acc + s).

(** ** Streaming wrapper *)

(** Both implementations hold their limbs, the bytes waiting for a full block and the
    number of them. *)
Record poly1305_state (L : Type) : Type := mkPoly {
  st_r : L;
  st_h : L;
  st_pad : list Z;
  st_leftover : nat;
  st_buffer : list Z
}.
Arguments mkPoly {L}.
Arguments st_r {L}.
Arguments st_h {L}.
Arguments st_pad {L}.
Arguments st_leftover {L}.
Arguments st_buffer {L}.

(** [st->buffer[at_ + i] = m[i]] for all [i]. *)
Definition store_at (buf : list Z) (at_ : nat) (m : list Z) : list Z :=
  take at_ buf ++ m ++ drop (at_ + length m) buf.

Section Stream.
(** [block r hibit h m] is one turn of the loop of [poly1305_blocks]. *)
Context {L : Type} (block : L -> bool -> L -> list Z -> L).

(** [while (bytes >= poly1305_block_size)], run [n] times. *)
Fixpoint blocks_loop (n : nat) (r : L) (final : bool) (h : L) (m : list Z) : L :=
  match n with
  | O => h
  | S n => blocks_loop n r final (block r final h (take 16 m)) (drop 16 m)
  end.

Definition poly1305_blocks (st : poly1305_state L) (final : bool) (m : list Z) : poly1305_state L :=
  mkPoly (st_r st) (blocks_loop (length m / 16) (st_r st) final (st_h st) m)
    (st_pad st) (st_leftover st) (st_buffer st).

Definition poly1305_update (st : poly1305_state L) (m : list Z) : poly1305_state L :=
  let '(st, m, stop) :=
    if negb (st_leftover st =? 0)%nat then
      let want := Nat.min (16 - st_leftover st) (length m) in
      let buf := store_at (st_buffer st) (st_leftover st) (take want m) in
      let st := mkPoly (st_r st) (st_h st) (st_pad st) (st_leftover st + want)%nat buf in
      let m := drop want m in
      if (st_leftover st <? 16)%nat then (st, m, true) else
      let st := poly1305_blocks st false (st_buffer st) in
      (mkPoly (st_r st) (st_h st) (st_pad st) 0%nat (st_buffer st), m, false)
    else (st, m, false) in
  if stop : bool then st else
  let '(st, m) :=
    if (16 <=? length m)%nat then
      let want := (16 * (length m / 16))%nat in
      (poly1305_blocks st false (take want m), drop want m)
    else (st, m) in
  if (length m =? 0)%nat then st else
  mkPoly (st_r st) (st_h st) (st_pad st) (st_leftover st + length m)%nat
    (store_at (st_buffer st) (st_leftover st) m).

(** The first step of [poly1305_finish]: the remaining bytes, a one and zeros. *)
Definition finish_block (st : poly1305_state L) : poly1305_state L :=
  if negb (st_leftover st =? 0)%nat then
    let buf := take (st_leftover st) (st_buffer st) ++ [1] ++
               replicate (16 - (st_leftover st + 1)) 0 in
    poly1305_blocks st true buf
  else st.

End Stream.

(** ** The 64-bit implementation: limbs of 44, 44 and 42 bits *)

Record limbs3 : Type := mkL3 { l3_0 : Z; l3_1 : Z; l3_2 : Z }.

Definition poly64_init (key : list Z) : poly1305_state limbs3 :=
  let t0 := le_val (take 8 key) in
  let t1 := le_val (take 8 (drop 8 key)) in
  mkPoly
    (mkL3 (Z.land t0 0xffc0fffffff)
          (Z.land (Z.lor (Z.shiftr t0 44) (u64 (Z.shiftl t1 20))) 0xfffffc0ffff)
          (Z.land (Z.shiftr t1 24) 0x00ffffffc0f))
    (mkL3 0 0 0)
    [le_val (take 8 (drop 16 key)); le_val (take 8 (drop 24 key))]
    0%nat (replicate 16 0).

(** [h += m[i]] *)
Definition poly64_add (final : bool) (h : limbs3) (m : list Z) : limbs3 :=
  let hibit := if final then 0 else Z.shiftl 1 40 in
  let '(mkL3 h0 h1 h2) := h in
  let t0 := le_val (take 8 m) in
  let t1 := le_val (take 8 (drop 8 m)) in
  mkL3 (u64 (h0 + Z.land t0 0xfffffffffff))
       (u64 (h1 + Z.land (Z.lor (Z.shiftr t0 44) (u64 (Z.shiftl t1 20))) 0xfffffffffff))
       (u64 (h2 + Z.lor (Z.land (Z.shiftr t1 24) 0x3ffffffffff) hibit)).

(** [(partial) h %= p] *)
Definition poly64_partial (d0 d1 d2 : Z) : limbs3 :=
  let c := u64 (Z.shiftr d0 44) in
  let h0 := Z.land (u64 d0) 0xfffffffffff in
  let d1 := u128 (d1 + c) in
  let c := u64 (Z.shiftr d1 44) in
  let h1 := Z.land (u64 d1) 0xfffffffffff in
  let d2 := u128 (d2 + c) in
  let c := u64 (Z.shiftr d2 42) in
  let h2 := Z.land (u64 d2) 0x3ffffffffff in
  let h0 := u64 (h0 + u64 (c * 5)) in
  let c := Z.shiftr h0 44 in
  let h0 := Z.land h0 0xfffffffffff in
  let h1 := u64 (h1 + c) in
  mkL3 h0 h1 h2.

(** [h *= r] *)
Definition poly64_mulmod (r h : limbs3) : limbs3 :=
  let '(mkL3 r0 r1 r2) := r in
  let '(mkL3 h0 h1 h2) := h in
  let s1 := u64 (r1 * Z.shiftl 5 2) in
  let s2 := u64 (r2 * Z.shiftl 5 2) in
  let d0 := u128 (u128 (h0 * r0 + h1 * s2) + h2 * s1) in
  let d1 := u128 (u128 (h0 * r1 + h1 * r0) + h2 * s2) in
  let d2 := u128 (u128 (h0 * r2 + h1 * r1) + h2 * r0) in
  poly64_partial d0 d1 d2.

Definition poly64_block (r : limbs3) (final : bool) (h : limbs3) (m : list Z) : limbs3 :=
  poly64_mulmod r (poly64_add final h m).

(** The arithmetic of [poly1305_finish] on the final limbs: fully carry, reduce, add
    the pad, and the two words of the result. *)
Definition poly64_carry (h : limbs3) : limbs3 :=
  let '(mkL3 h0 h1 h2) := h in
  let c := Z.shiftr h1 44 in let h1 := Z.land h1 0xfffffffffff in
  let h2 := u64 (h2 + c) in let c := Z.shiftr h2 42 in let h2 := Z.land h2 0x3ffffffffff in
  let h0 := u64 (h0 + u64 (c * 5)) in let c := Z.shiftr h0 44 in let h0 := Z.land h0 0xfffffffffff in
  let h1 := u64 (h1 + c) in let c := Z.shiftr h1 44 in let h1 := Z.land h1 0xfffffffffff in
  let h2 := u64 (h2 + c) in let c := Z.shiftr h2 42 in let h2 := Z.land h2 0x3ffffffffff in
  let h0 := u64 (h0 + u64 (c * 5)) in let c := Z.shiftr h0 44 in let h0 := Z.land h0 0xfffffffffff in
  let h1 := u64 (h1 + c) in
  mkL3 h0 h1 h2.

Definition poly64_reduce (h : limbs3) : limbs3 :=
  let '(mkL3 h0 h1 h2) := h in
  let g0 := u64 (h0 + 5) in let c := Z.shiftr g0 44 in let g0 := Z.land g0 0xfffffffffff in
  let g1 := u64 (h1 + c) in let c := Z.shiftr g1 44 in let g1 := Z.land g1 0xfffffffffff in
  let g2 := u64 (u64 (h2 + c) - Z.shiftl 1 42) in
  let c := u64 (Z.shiftr g2 63 - 1) in
  let g0 := Z.land g0 c in
  let g1 := Z.land g1 c in
  let g2 := Z.land g2 c in
  let c := Z.lxor c (2 ^ 64 - 1) in
  mkL3 (Z.lor (Z.land h0 c) g0) (Z.lor (Z.land h1 c) g1) (Z.lor (Z.land h2 c) g2).

Definition poly64_pad (h : limbs3) (pad : list Z) : list Z :=
  let '(mkL3 h0 h1 h2) := h in
  let t0 := nth 0 pad 0 in
  let t1 := nth 1 pad 0 in
  let h0 := u64 (h0 + Z.land t0 0xfffffffffff) in
  let c := Z.shiftr h0 44 in let h0 := Z.land h0 0xfffffffffff in
  let h1 := u64 (h1 + u64 (Z.land (Z.lor (Z.shiftr t0 44) (u64 (Z.shiftl t1 20))) 0xfffffffffff + c)) in
  let c := Z.shiftr h1 44 in let h1 := Z.land h1 0xfffffffffff in
  let h2 := u64 (h2 + u64 (Z.land (Z.shiftr t1 24) 0x3ffffffffff + c)) in
  let h2 := Z.land h2 0x3ffffffffff in
  let w0 := Z.lor h0 (u64 (Z.shiftl h1 44)) in
  let w1 := Z.lor (Z.shiftr h1 20) (u64 (Z.shiftl h2 24)) in
  le_bytes 8 w0 ++ le_bytes 8 w1.

Definition poly64_finish (st : poly1305_state limbs3) : list Z :=
  let st := finish_block poly64_block st in
  poly64_pad (poly64_reduce (poly64_carry (st_h st))) (st_pad st).

Definition Poly1305_compute (data key : list Z) : list Z :=
  poly64_finish (poly1305_update poly64_block (poly64_init key) data).

(** ** Streaming, against an interface for the block function *)

Lemma chunks_fuel f1 f2 m :
  (length m <= f1)%nat -> (length m <= f2)%nat -> poly_chunks f1 m = poly_chunks f2 m.
Proof.
  revert f2 m. induction f1 as [|f1 IH]; intros f2 m H1 H2.
  { apply Nat.le_0_r, nil_length_inv in H1 as ->. by destruct f2. }
  destruct m as [|x m]; [by destruct f2|]. destruct f2 as [|f2]; [cbn in H2; lia|].
  cbn [poly_chunks]. f_equal. cbn [length] in H1, H2.
  apply IH; rewrite length_drop; cbn [length]; lia.
Qed.

Definition chunks (m : list Z) : list (list Z) := poly_chunks (length m) m.

Lemma chunks_nil : chunks [] = [].
Proof. done. Qed.

Lemma chunks_step m : m <> [] -> chunks m = take 16 m :: chunks (drop 16 m).
Proof.
  intros Hm. destruct m as [|x m]; [done|]. unfold chunks at 1. cbn [length poly_chunks].
  f_equal. apply chunks_fuel; rewrite ?length_drop; cbn; lia.
Qed.

Lemma chunks_app n full rest :
  length full = (16 * n)%nat -> chunks (full ++ rest) = chunks full ++ chunks rest.
Proof.
  revert full. induction n as [|n IH]; intros full Hl.
  { by apply nil_length_inv in Hl as ->. }
  assert (full <> []) by (intros ->; cbn in Hl; lia).
  rewrite (chunks_step (full ++ rest)), (chunks_step full) by (by destruct full).
  rewrite take_app_le, drop_app_le, IH by (rewrite ?length_drop; lia). done.
Qed.

Lemma chunks_one c : (0 < length c <= 16)%nat -> chunks c = [c].
Proof.
  intros Hc. rewrite chunks_step by (intros ->; cbn in Hc; lia).
  rewrite take_ge, drop_ge by lia. done.
Qed.

Lemma le_val_zeros n : le_val (replicate n 0) = 0.
Proof. induction n as [|n IH]; cbn; [done|]. by rewrite IH. Qed.

Section StreamSpec.
Context {L : Type} (block : L -> bool -> L -> list Z -> L).
(** The value of the limbs and the ranges the block function keeps. *)
Context (val : L -> Z) (ok : L -> Prop) (r : L).
Hypothesis block_spec : forall final h m,
  ok h -> length m = 16%nat -> Forall is_byte m ->
  ok (block r final h m) /\
  val (block r final h m) mod poly_p =
  (val h + le_val m + (if final : bool then 0 else 2 ^ 128)) * val r mod poly_p.

Notation absorb := (foldl (poly_step (val r))).

Lemma poly_step_mod acc c : poly_step (val r) (acc mod poly_p) c = poly_step (val r) acc c.
Proof.
  unfold poly_step. rewrite <- Z.mul_mod_idemp_l, Z.add_mod_idemp_l, Z.mul_mod_idemp_l; done.
Qed.

Lemma block_step h m :
  ok h -> length m = 16%nat -> Forall is_byte m ->
  ok (block r false h m) /\ val (block r false h m) mod poly_p = poly_step (val r) (val h) m.
Proof.
  intros Hh Hl Hm. destruct (block_spec false h m Hh Hl Hm) as [Ho Hv]. split; [done|].
  rewrite Hv. unfold poly_step. rewrite le_val_app. unfold zlen. rewrite Hl.
  f_equal. cbn [le_val]. lia.
Qed.

Lemma blocks_loop_spec n h m :
  ok h -> length m = (16 * n)%nat -> Forall is_byte m ->
  let h' := blocks_loop block n r false h m in
  ok h' /\ val h' mod poly_p = absorb (val h mod poly_p) (chunks m).
Proof.
  revert h m. induction n as [|n IH]; intros h m Hh Hl Hm.
  { apply nil_length_inv in Hl as ->. done. }
  cbn [blocks_loop]. rewrite (chunks_step m) by (intros ->; cbn in Hl; lia). cbn [foldl].
  destruct (block_step h (take 16 m)) as [Ho Hv];
    [done|rewrite length_take; lia|by apply Forall_take|].
  rewrite poly_step_mod, <- Hv.
  apply IH; [done|rewrite length_drop; lia|by apply Forall_drop].
Qed.

(** The state after the bytes [msg]. *)
Definition repr (st : poly1305_state L) (msg : list Z) : Prop :=
  st_r st = r /\ ok (st_h st) /\ length (st_buffer st) = 16%nat /\ Forall is_byte (st_buffer st) /\
  exists n full rest, msg = full ++ rest /\ length full = (16 * n)%nat /\
    length rest = st_leftover st /\ (st_leftover st < 16)%nat /\
    take (st_leftover st) (st_buffer st) = rest /\
    val (st_h st) mod poly_p = absorb 0 (chunks full).

Lemma length_store_at buf k m :
  (k + length m <= length buf)%nat -> length (store_at buf k m) = length buf.
Proof. intros. unfold store_at. rewrite !length_app, length_take, length_drop. lia. Qed.

Lemma take_store_at buf k m :
  (k + length m <= length buf)%nat -> take (k + length m) (store_at buf k m) = take k buf ++ m.
Proof.
  intros. unfold store_at. rewrite app_assoc. apply take_app_length'.
  rewrite length_app, length_take. lia.
Qed.

Lemma store_at_bytes buf k m :
  Forall is_byte buf -> Forall is_byte m -> Forall is_byte (store_at buf k m).
Proof. intros. unfold store_at. repeat (apply Forall_app_2 || apply Forall_take || apply Forall_drop); done. Qed.

(** The whole blocks of [m], processed after a message of whole blocks. *)
Lemma full_blocks st n msg w m :
  st_r st = r -> ok (st_h st) -> length msg = (16 * n)%nat -> Forall is_byte m ->
  val (st_h st) mod poly_p = absorb 0 (chunks msg) -> length m = (16 * w)%nat ->
  let st1 := poly1305_blocks block st false m in
  st_r st1 = r /\ ok (st_h st1) /\ st_buffer st1 = st_buffer st /\
  st_leftover st1 = st_leftover st /\ val (st_h st1) mod poly_p = absorb 0 (chunks (msg ++ m)).
Proof.
  intros Hr Hok Hmsg Hb Hv Hl. unfold poly1305_blocks. cbn [st_r st_h st_buffer st_leftover].
  rewrite Hl, Nat.mul_comm, Nat.div_mul, Hr by lia.
  destruct (blocks_loop_spec w (st_h st) m) as [Ho Hv']; [done..|].
  split_and!; [done|done|done|done|]. rewrite Hv', Hv, (chunks_app n) by done. by rewrite foldl_app.
Qed.

(** The part of [update] after the leftover has been dealt with. *)
Lemma update_tail st msg m :
  repr st msg -> st_leftover st = 0%nat -> Forall is_byte m ->
  repr (poly1305_update block st m) (msg ++ m).
Proof.
  intros (Hr & Hok & Hbl & Hbb & n & full & rest & Hm & Hfull & Hrest & Hlt & Ht & Hv) Hz Hb.
  rewrite Hz in Hrest. apply nil_length_inv in Hrest. subst rest. rewrite app_nil_r in Hm. subst full.
  unfold poly1305_update. rewrite Hz. cbn [Nat.eqb negb].
  assert (Hw : (16 * (length m / 16) <= length m < 16 * (length m / 16) + 16)%nat).
  { pose proof (Nat.div_mod (length m) 16). pose proof (Nat.mod_upper_bound (length m) 16). lia. }
  set (w := (length m / 16)%nat) in *. clearbody w. set (tl := drop (16 * w) m).
  assert (Hst : exists st1, (if (16 <=? length m)%nat
      then (poly1305_blocks block st false (take (16 * w) m), tl) else (st, m)) = (st1, tl) /\
      st_r st1 = r /\ ok (st_h st1) /\ st_buffer st1 = st_buffer st /\ st_leftover st1 = 0%nat /\
      val (st_h st1) mod poly_p = absorb 0 (chunks (msg ++ take (16 * w) m))).
  { destruct (Nat.leb_spec 16 (length m)) as [Hle|Hlt1].
    - eexists; split; [done|]. rewrite <- Hz. apply (full_blocks st n msg w); try done.
      + by apply Forall_take.
      + rewrite length_take. lia.
    - unfold tl. assert (w = 0%nat) as -> by lia. rewrite drop_0, take_0, app_nil_r. by eexists. }
  destruct Hst as (st1 & -> & Hr1 & Hok1 & Hb1 & Hl1 & Hv1).
  assert (Hdl : length tl = (length m - 16 * w)%nat) by apply length_drop.
  assert (Htl : msg ++ m = (msg ++ take (16 * w) m) ++ tl) by (unfold tl; by rewrite <- app_assoc, take_drop).
  assert (Hfl : length (msg ++ take (16 * w) m) = (16 * (n + w))%nat)
    by (rewrite length_app, length_take; lia).
  destruct (Nat.eqb_spec (length tl) 0) as [He|Hne].
  - split_and!; [done|done|by rewrite Hb1|by rewrite Hb1|].
    exists (n + w)%nat, (msg ++ take (16 * w) m), tl. rewrite Hl1, take_0.
    apply nil_length_inv in He. rewrite He in *. split_and!; done || lia.
  - rewrite Hl1, Hb1. cbn [Nat.add].
    split_and!; cbn [st_r st_h st_buffer st_leftover]; [done|done|by rewrite length_store_at by lia
      |apply store_at_bytes; [done|by apply Forall_drop]|].
    exists (n + w)%nat, (msg ++ take (16 * w) m), tl. split_and!; try done; [lia|].
    pose proof (take_store_at (st_buffer st) 0 tl) as H. cbn [Nat.add] in H.
    rewrite H by lia. by rewrite take_0.
Qed.

(** The state once the leftover has been filled up and processed. *)
Definition fill_block (st : poly1305_state L) (m : list Z) : poly1305_state L :=
  let want := (16 - st_leftover st)%nat in
  let buf := store_at (st_buffer st) (st_leftover st) (take want m) in
  mkPoly (st_r st) (blocks_loop block 1 (st_r st) false (st_h st) buf) (st_pad st) 0%nat buf.

Lemma update_fill st m :
  st_leftover st <> 0%nat -> (st_leftover st < 16)%nat -> length (st_buffer st) = 16%nat ->
  (16 - st_leftover st <= length m)%nat ->
  poly1305_update block st m = poly1305_update block (fill_block st m) (drop (16 - st_leftover st) m).
Proof.
  intros Hz Hlt Hbl Hm. unfold poly1305_update at 1.
  rewrite (proj2 (Nat.eqb_neq _ _)) by done. cbn [negb].
  rewrite Nat.min_l by done. cbn [st_leftover].
  rewrite (proj2 (Nat.ltb_ge _ _)) by lia.
  set (buf := store_at (st_buffer st) _ _).
  assert (Hlb : length buf = 16%nat) by (unfold buf; rewrite length_store_at; rewrite ?length_take; lia).
  assert (Hblk : poly1305_blocks block (mkPoly (st_r st) (st_h st) (st_pad st)
      (st_leftover st + (16 - st_leftover st)) buf) false buf =
    mkPoly (st_r st) (blocks_loop block 1 (st_r st) false (st_h st) buf) (st_pad st)
      (st_leftover st + (16 - st_leftover st)) buf) by (unfold poly1305_blocks; by rewrite Hlb).
  cbv zeta. cbn [st_buffer]. rewrite Hblk. reflexivity.
Qed.

Lemma fill_block_repr st msg m :
  repr st msg -> (16 - st_leftover st <= length m)%nat -> Forall is_byte m ->
  repr (fill_block st m) (msg ++ take (16 - st_leftover st) m).
Proof.
  intros (Hr & Hok & Hbl & Hbb & n & full & rest & Hm & Hfull & Hrest & Hlt & Ht & Hv) Hw Hb.
  set (want := (16 - st_leftover st)%nat) in *.
  set (buf := store_at (st_buffer st) (st_leftover st) (take want m)).
  assert (Htl : length (take want m) = want) by (rewrite length_take; lia).
  assert (Hbuf : buf = rest ++ take want m).
  { pose proof (take_store_at (st_buffer st) (st_leftover st) (take want m)) as H.
    rewrite Htl, Ht in H. fold buf in H. rewrite <- H by lia. symmetry. apply take_ge.
    unfold buf. rewrite length_store_at; lia. }
  assert (Hlb : length buf = 16%nat) by (rewrite Hbuf, length_app; lia).
  assert (Hbytes : Forall is_byte buf) by (apply store_at_bytes; [done|by apply Forall_take]).
  unfold fill_block. fold want. fold buf.
  destruct (blocks_loop_spec 1 (st_h st) buf) as [Ho Hv']; [done..|].
  rewrite Hr. split_and!; cbn [st_r st_h st_buffer st_leftover]; [done..|].
  exists (n + 1)%nat, (full ++ buf), []. split_and!; try done.
  - rewrite Hm, Hbuf, app_nil_r. by rewrite !app_assoc.
  - rewrite length_app. lia.
  - lia.
  - rewrite Hv', Hv, (chunks_app n) by done. by rewrite foldl_app.
Qed.

Lemma update_repr st msg m :
  repr st msg -> Forall is_byte m -> repr (poly1305_update block st m) (msg ++ m).
Proof.
  intros Hst Hb. destruct (decide (st_leftover st = 0%nat)) as [Hz|Hz]; [by apply update_tail|].
  pose proof Hst as (Hr & Hok & Hbl & Hbb & n & full & rest & Hm & Hfull & Hrest & Hlt & Ht & Hv).
  destruct (decide (16 - st_leftover st <= length m)%nat) as [Hw|Hw].
  - rewrite update_fill by done.
    assert (Hsp : msg ++ m = (msg ++ take (16 - st_leftover st) m) ++ drop (16 - st_leftover st) m)
      by (by rewrite <- app_assoc, take_drop).
    rewrite Hsp.
    apply update_tail; [by apply fill_block_repr|done|by apply Forall_drop].
  - unfold poly1305_update. rewrite (proj2 (Nat.eqb_neq _ _)) by done. cbn [negb].
    rewrite Nat.min_r by lia. cbn [st_leftover]. rewrite (proj2 (Nat.ltb_lt _ _)) by lia.
    rewrite (take_ge m) by lia. split_and!; cbn [st_r st_h st_buffer st_leftover]; [done|done
      |by rewrite length_store_at by lia|by apply store_at_bytes|].
    exists n, full, (rest ++ m). split_and!; try done.
    + by rewrite Hm, app_assoc.
    + rewrite length_app. lia.
    + lia.
    + rewrite take_store_at by lia. by rewrite Ht.
Qed.

Lemma finish_repr st msg :
  repr st msg ->
  ok (st_h (finish_block block st)) /\ st_pad (finish_block block st) = st_pad st /\
  val (st_h (finish_block block st)) mod poly_p = absorb 0 (chunks msg).
Proof.
  intros (Hr & Hok & Hbl & Hbb & n & full & rest & Hm & Hfull & Hrest & Hlt & Ht & Hv).
  unfold finish_block. destruct (Nat.eqb_spec (st_leftover st) 0) as [Hz|Hz]; cbn [negb].
  { rewrite Hz in Hrest. apply nil_length_inv in Hrest. subst rest. by rewrite Hm, app_nil_r. }
  rewrite Ht. set (buf := rest ++ [1] ++ _).
  assert (Hlb : length buf = 16%nat)
    by (unfold buf; rewrite !length_app, length_replicate; cbn; lia).
  assert (Hbytes : Forall is_byte buf).
  { unfold buf. rewrite <- Ht. apply Forall_app_2; [by apply Forall_take|].
    apply Forall_app_2; [by apply Forall_singleton|by apply Forall_replicate]. }
  unfold poly1305_blocks. rewrite Hlb. change (16 / 16)%nat with 1%nat.
  cbn [st_r st_h st_pad blocks_loop]. rewrite take_ge, Hr by lia.
  destruct (block_spec true (st_h st) buf) as [Ho Hv']; [done..|]. split_and!; [done|done|].
  rewrite Hv', Hm, (chunks_app n), foldl_app, (chunks_one rest) by (done || lia). cbn [foldl].
  rewrite <- Hv, poly_step_mod. unfold poly_step, buf. rewrite app_assoc, le_val_app, le_val_zeros.
  f_equal. lia.
Qed.

Lemma update_pad st m : st_pad (poly1305_update block st m) = st_pad st.
Proof.
  unfold poly1305_update, poly1305_blocks.
  destruct (_ =? 0)%nat; cbn [negb]; [|destruct (_ <? 16)%nat; [done|]];
    destruct (16 <=? _)%nat; destruct (_ =? 0)%nat; done.
Qed.

End StreamSpec.

(** ** Machine words *)

Lemma u64_id a : 0 <= a < 2 ^ 64 -> u64 a = a.
Proof. apply Z.mod_small. Qed.

Lemma u128_id a : 0 <= a < 2 ^ 128 -> u128 a = a.
Proof. apply Z.mod_small. Qed.

Lemma mul_bound a b x y : 0 <= a < x -> 0 <= b < y -> 0 <= a * b < x * y.
Proof. nia. Qed.

(** A 128-bit number, given as two words, in limbs of 44, 44 and 40 bits. *)
Lemma split44 t0 t1 :
  is_u64 t0 -> is_u64 t1 ->
  let b0 := Z.land t0 0xfffffffffff in
  let b1 := Z.land (Z.lor (Z.shiftr t0 44) (u64 (Z.shiftl t1 20))) 0xfffffffffff in
  let b2 := Z.land (Z.shiftr t1 24) 0x3ffffffffff in
  0 <= b0 < 2 ^ 44 /\ 0 <= b1 < 2 ^ 44 /\ 0 <= b2 < 2 ^ 40 /\
  b0 + b1 * 2 ^ 44 + b2 * 2 ^ 88 = t0 + t1 * 2 ^ 64.
Proof.
  intros H0 H1 b0 b1 b2. unfold in_range in *. unfold b0, b1, b2. clear b0 b1 b2.
  change 0xfffffffffff with (2 ^ 44 - 1). change 0x3ffffffffff with (2 ^ 42 - 1).
  rewrite !land_mask, !Z.shiftr_div_pow2, Z.shiftl_mul_pow2 by lia. unfold u64, wrap.
  rewrite (Z.lor_comm (t0 / _)), (lor_cat 20); [|lia|lor_side|lor_side].
  Z.div_mod_to_equations. lia.
Qed.

(** ** The 64-bit implementation *)

Definition val3 (h : limbs3) : Z := l3_0 h + l3_1 h * 2 ^ 44 + l3_2 h * 2 ^ 88.

Definition ok3 (h : limbs3) : Prop :=
  0 <= l3_0 h < 2 ^ 44 /\ 0 <= l3_1 h < 2 ^ 44 + 2 ^ 12 /\ 0 <= l3_2 h < 2 ^ 42.

Definition rok3 (r : limbs3) : Prop :=
  0 <= l3_0 r < 2 ^ 44 /\ 0 <= l3_1 r < 2 ^ 44 /\ 0 <= l3_2 r < 2 ^ 36.

Lemma le_val_u64 m : Forall is_byte m -> is_u64 (le_val (take 8 m)).
Proof.
  intros Hm. eapply in_range_weaken; [|apply le_val_range, Forall_take, Hm].
  unfold zlen. rewrite length_take. lia.
Qed.

Lemma le_val_words m :
  length m = 16%nat -> le_val m = le_val (take 8 m) + le_val (take 8 (drop 8 m)) * 2 ^ 64.
Proof.
  intros Hl. rewrite <- (take_drop 8 m) at 1. rewrite le_val_app. unfold zlen.
  rewrite length_take, Hl. rewrite (take_ge (drop 8 m)) by (rewrite length_drop; lia).
  change (8 * Z.of_nat (8 `min` 16)) with 64. lia.
Qed.

Lemma poly64_add_spec final h m :
  ok3 h -> length m = 16%nat -> Forall is_byte m ->
  let h' := poly64_add final h m in
  val3 h' = val3 h + le_val m + (if final : bool then 0 else 2 ^ 128) /\
  0 <= l3_0 h' < 2 ^ 45 /\ 0 <= l3_1 h' < 2 ^ 45 + 2 ^ 12 /\ 0 <= l3_2 h' < 2 ^ 43.
Proof.
  intros (H0 & H1 & H2) Hl Hm. destruct h as [h0 h1 h2]. cbn [l3_0 l3_1 l3_2] in *.
  unfold poly64_add. rewrite (le_val_words m Hl).
  pose proof (le_val_u64 m Hm) as Ht0. pose proof (le_val_u64 (drop 8 m) (Forall_drop _ 8 m Hm)) as Ht1.
  set (t0 := le_val (take 8 m)) in *. set (t1 := le_val (take 8 (drop 8 m))) in *.
  destruct (split44 t0 t1 Ht0 Ht1) as (B0 & B1 & B2 & Bs). cbv zeta in *.
  set (b0 := Z.land t0 _) in *. set (b1 := Z.land (Z.lor _ _) _) in *.
  set (b2 := Z.land (Z.shiftr t1 24) _) in *. clearbody b0 b1 b2.
  assert (Hb2 : Z.lor b2 (if final then 0 else Z.shiftl 1 40) = b2 + (if final then 0 else 2 ^ 40)).
  { destruct final; [rewrite Z.lor_0_r; lia|]. rewrite Z.lor_comm, (lor_cat 40);
      [change (Z.shiftl 1 40) with (2 ^ 40); lia|lia|done|done]. }
  rewrite Hb2. unfold val3. cbn [l3_0 l3_1 l3_2].
  rewrite !u64_id by (destruct final; lia). destruct final; lia.
Qed.

(** Low bits through a cast, and a carry. *)
Lemma low44 d : 0 <= d -> Z.land (u64 d) 0xfffffffffff = d mod 2 ^ 44.
Proof.
  intros. change 0xfffffffffff with (2 ^ 44 - 1). rewrite land_mask by lia. unfold u64, wrap.
  Z.div_mod_to_equations. lia.
Qed.

Lemma low42 d : 0 <= d -> Z.land (u64 d) 0x3ffffffffff = d mod 2 ^ 42.
Proof.
  intros. change 0x3ffffffffff with (2 ^ 42 - 1). rewrite land_mask by lia. unfold u64, wrap.
  Z.div_mod_to_equations. lia.
Qed.

Lemma div_mod_eq d n : 0 < n -> d = n * (d / n) + d mod n /\ 0 <= d mod n < n.
Proof. intros. split; [apply Z.div_mod; lia|apply Z.mod_pos_bound; lia]. Qed.

Lemma congr a b k : a = b - poly_p * k -> a mod poly_p = b mod poly_p.
Proof.
  intros ->. replace (b - poly_p * k) with (b + (- k) * poly_p) by lia. by rewrite Z.mod_add.
Qed.

Lemma poly64_partial_spec d0 d1 d2 :
  0 <= d0 < 2 ^ 100 -> 0 <= d1 < 2 ^ 100 -> 0 <= d2 < 2 ^ 92 ->
  let h := poly64_partial d0 d1 d2 in
  ok3 h /\ val3 h mod poly_p = (d0 + d1 * 2 ^ 44 + d2 * 2 ^ 88) mod poly_p.
Proof.
  intros D0 D1 D2 h. unfold h, poly64_partial. clear h.
  rewrite !Z.shiftr_div_pow2 by lia.
  destruct (div_mod_eq d0 (2 ^ 44)) as [E0 L0]; [lia|].
  rewrite (low44 d0), (u64_id (d0 / 2 ^ 44)) by lia.
  set (c0 := d0 / 2 ^ 44) in *. set (e0 := d0 mod 2 ^ 44) in *. clearbody c0 e0.
  rewrite (u128_id (d1 + c0)) by lia.
  destruct (div_mod_eq (d1 + c0) (2 ^ 44)) as [E1 L1]; [lia|].
  rewrite (low44 (d1 + c0)), (u64_id ((d1 + c0) / 2 ^ 44)) by lia.
  set (c1 := (d1 + c0) / 2 ^ 44) in *. set (e1 := (d1 + c0) mod 2 ^ 44) in *. clearbody c1 e1.
  rewrite (u128_id (d2 + c1)) by lia.
  destruct (div_mod_eq (d2 + c1) (2 ^ 42)) as [E2 L2]; [lia|].
  rewrite (low42 (d2 + c1)), (u64_id ((d2 + c1) / 2 ^ 42)) by lia.
  set (c2 := (d2 + c1) / 2 ^ 42) in *. set (e2 := (d2 + c1) mod 2 ^ 42) in *. clearbody c2 e2.
  rewrite (u64_id (c2 * 5)), (u64_id (e0 + c2 * 5)) by lia.
  change 0xfffffffffff with (2 ^ 44 - 1). rewrite land_mask by lia.
  destruct (div_mod_eq (e0 + c2 * 5) (2 ^ 44)) as [E3 L3]; [lia|].
  set (c3 := (e0 + c2 * 5) / 2 ^ 44) in *. set (e3 := (e0 + c2 * 5) mod 2 ^ 44) in *. clearbody c3 e3.
  rewrite u64_id by lia. unfold ok3, val3. cbn [l3_0 l3_1 l3_2]. split; [lia|].
  apply (congr _ _ c2). unfold poly_p. lia.
Qed.

Lemma poly64_mulmod_spec r h :
  rok3 r -> 0 <= l3_0 h < 2 ^ 45 -> 0 <= l3_1 h < 2 ^ 45 + 2 ^ 12 -> 0 <= l3_2 h < 2 ^ 43 ->
  ok3 (poly64_mulmod r h) /\
  val3 (poly64_mulmod r h) mod poly_p = val3 h * val3 r mod poly_p.
Proof.
  destruct r as [r0 r1 r2], h as [h0 h1 h2]. intros (R0 & R1 & R2) H0 H1 H2.
  cbn [l3_0 l3_1 l3_2] in *. unfold poly64_mulmod. change (Z.shiftl 5 2) with 20.
  rewrite (u64_id (r1 * 20)), (u64_id (r2 * 20)) by lia.
  assert (B : forall a b x y, 0 <= a < x -> 0 <= b < y -> 0 <= a * b < x * y) by apply mul_bound.
  pose proof (B _ _ _ _ H0 R0). pose proof (B _ _ _ _ H1 R2). pose proof (B _ _ _ _ H2 R1).
  pose proof (B _ _ _ _ H0 R1). pose proof (B _ _ _ _ H1 R0). pose proof (B _ _ _ _ H2 R2).
  pose proof (B _ _ _ _ H0 R2). pose proof (B _ _ _ _ H1 R1). pose proof (B _ _ _ _ H2 R0).
  rewrite (u128_id (h0 * r0 + _)), (u128_id (h0 * r1 + _)), (u128_id (h0 * r2 + _)) by lia.
  rewrite (u128_id (h0 * r0 + _ + _)), (u128_id (h0 * r1 + _ + _)), (u128_id (h0 * r2 + _ + _)) by lia.
  match goal with |- context [poly64_partial ?d0 ?d1 ?d2] =>
    destruct (poly64_partial_spec d0 d1 d2) as [Hok Hv] end; [lia..|].
  split; [done|]. rewrite Hv. unfold val3. cbn [l3_0 l3_1 l3_2].
  apply (congr _ _ (4 * (h1 * r2 + h2 * r1 + h2 * r2 * 2 ^ 44))). unfold poly_p. lia.
Qed.

Lemma poly64_block_spec r : rok3 r -> forall final h m,
  ok3 h -> length m = 16%nat -> Forall is_byte m ->
  ok3 (poly64_block r final h m) /\
  val3 (poly64_block r final h m) mod poly_p =
  (val3 h + le_val m + (if final : bool then 0 else 2 ^ 128)) * val3 r mod poly_p.
Proof.
  intros Hr final h m Hh Hl Hm. destruct (poly64_add_spec final h m Hh Hl Hm) as (Hv & H0 & H1 & H2).
  rewrite <- Hv. by apply poly64_mulmod_spec.
Qed.

(** The clamped key in limbs. *)
Lemma poly64_init_spec key :
  length key = 32%nat -> Forall is_byte key ->
  let st := poly64_init key in
  rok3 (st_r st) /\ val3 (st_r st) = poly_clamp (le_val (take 16 key)).
Proof.
  intros Hl Hk. cbv zeta. unfold poly64_init. cbn [st_r].
  assert (Hw : le_val (take 16 key) = le_val (take 8 key) + le_val (take 8 (drop 8 key)) * 2 ^ 64).
  { rewrite (le_val_words (take 16 key)) by (rewrite length_take; lia).
    change (drop 8 (take 16 key)) with (drop 8 (take (8 + 8) key)).
    by rewrite take_take, <- take_drop_commute, take_take. }
  rewrite Hw.
  pose proof (le_val_u64 key Hk) as Ht0. pose proof (le_val_u64 (drop 8 key) (Forall_drop _ 8 _ Hk)) as Ht1.
  set (t0 := le_val (take 8 key)) in *. set (t1 := le_val (take 8 (drop 8 key))) in *. clearbody t0 t1.
  destruct (split44 t0 t1 Ht0 Ht1) as (B0 & B1 & B2 & <-). unfold rok3, val3. cbn [l3_0 l3_1 l3_2].
  split.
  { pose proof (land_mask_range 44 t0 0xffc0fffffff ltac:(lia) ltac:(done)).
    pose proof (land_mask_range 44 (Z.lor (Z.shiftr t0 44) (u64 (Z.shiftl t1 20))) 0xfffffc0ffff
      ltac:(lia) ltac:(done)).
    pose proof (land_mask_range 36 (Z.shiftr t1 24) 0x00ffffffc0f ltac:(lia) ltac:(done)).
    unfold in_range in *. lia. }
  unfold poly_clamp. set (x := Z.lor _ _) in *. set (y := Z.shiftr t1 24) in *.
  change 0x0ffffffc0ffffffc0ffffffc0fffffff
    with (0xffc0fffffff + (0xfffffc0ffff + 0x00ffffffc0f * 2 ^ 44) * 2 ^ 44).
  replace (Z.land t0 0xfffffffffff + Z.land x 0xfffffffffff * 2 ^ 44 + Z.land y 0x3ffffffffff * 2 ^ 88)
    with (Z.land t0 0xfffffffffff + (Z.land x 0xfffffffffff + Z.land y 0x3ffffffffff * 2 ^ 44) * 2 ^ 44) by lia.
  rewrite !land_cat by (done || lia). rewrite <- !Z.land_assoc.
  change (Z.land 0xfffffffffff 0xffc0fffffff) with 0xffc0fffffff.
  change (Z.land 0xfffffffffff 0xfffffc0ffff) with 0xfffffc0ffff.
  change (Z.land 0x3ffffffffff 0x00ffffffc0f) with 0x00ffffffc0f. lia.
Qed.

(** Limbs in canonical form. *)
Definition canon3 (h : limbs3) : Prop :=
  0 <= l3_0 h < 2 ^ 44 /\ 0 <= l3_1 h < 2 ^ 44 /\ 0 <= l3_2 h < 2 ^ 42.

Lemma poly64_carry_spec h :
  ok3 h -> canon3 (poly64_carry h) /\ val3 (poly64_carry h) mod poly_p = val3 h mod poly_p.
Proof.
  destruct h as [h0 h1 h2]. intros (H0 & H1 & H2). cbn [l3_0 l3_1 l3_2] in *. unfold poly64_carry.
  change 0xfffffffffff with (2 ^ 44 - 1). change 0x3ffffffffff with (2 ^ 42 - 1).
  rewrite !land_mask, !Z.shiftr_div_pow2 by lia.
  destruct (div_mod_eq h1 (2 ^ 44)) as [E1 L1]; [lia|].
  set (c1 := h1 / 2 ^ 44) in *. set (a1 := h1 mod 2 ^ 44) in *. clearbody c1 a1.
  rewrite (u64_id (h2 + c1)) by lia. destruct (div_mod_eq (h2 + c1) (2 ^ 42)) as [E2 L2]; [lia|].
  set (c2 := (h2 + c1) / 2 ^ 42) in *. set (a2 := (h2 + c1) mod 2 ^ 42) in *. clearbody c2 a2.
  rewrite (u64_id (c2 * 5)), (u64_id (h0 + c2 * 5)) by lia.
  destruct (div_mod_eq (h0 + c2 * 5) (2 ^ 44)) as [E3 L3]; [lia|].
  set (c3 := (h0 + c2 * 5) / 2 ^ 44) in *. set (a0 := (h0 + c2 * 5) mod 2 ^ 44) in *. clearbody c3 a0.
  rewrite (u64_id (a1 + c3)) by lia. destruct (div_mod_eq (a1 + c3) (2 ^ 44)) as [E4 L4]; [lia|].
  set (c4 := (a1 + c3) / 2 ^ 44) in *. set (b1 := (a1 + c3) mod 2 ^ 44) in *. clearbody c4 b1.
  rewrite (u64_id (a2 + c4)) by lia. destruct (div_mod_eq (a2 + c4) (2 ^ 42)) as [E5 L5]; [lia|].
  set (c5 := (a2 + c4) / 2 ^ 42) in *. set (b2 := (a2 + c4) mod 2 ^ 42) in *. clearbody c5 b2.
  rewrite (u64_id (c5 * 5)), (u64_id (a0 + c5 * 5)) by lia.
  destruct (div_mod_eq (a0 + c5 * 5) (2 ^ 44)) as [E6 L6]; [lia|].
  set (c6 := (a0 + c5 * 5) / 2 ^ 44) in *. set (b0 := (a0 + c5 * 5) mod 2 ^ 44) in *. clearbody c6 b0.
  rewrite (u64_id (b1 + c6)) by lia. unfold canon3, val3. cbn [l3_0 l3_1 l3_2]. split; [lia|].
  apply (congr _ _ (c2 + c5)). unfold poly_p. lia.
Qed.

Lemma val3_range h : canon3 h -> 0 <= val3 h < 2 ^ 130.
Proof. unfold canon3, val3. lia. Qed.

Lemma poly64_reduce_spec h :
  canon3 h -> canon3 (poly64_reduce h) /\ val3 (poly64_reduce h) = val3 h mod poly_p.
Proof.
  intros Hc. pose proof (val3_range h Hc) as Hv. destruct h as [h0 h1 h2].
  destruct Hc as (H0 & H1 & H2). unfold val3 in *. cbn [l3_0 l3_1 l3_2] in *. unfold poly64_reduce.
  change 0xfffffffffff with (2 ^ 44 - 1). rewrite !land_mask, !(Z.shiftr_div_pow2 _ 44) by lia.
  rewrite (u64_id (h0 + 5)) by lia. destruct (div_mod_eq (h0 + 5) (2 ^ 44)) as [E0 L0]; [lia|].
  set (c0 := (h0 + 5) / 2 ^ 44) in *. set (g0 := (h0 + 5) mod 2 ^ 44) in *. clearbody c0 g0.
  rewrite (u64_id (h1 + c0)) by lia. destruct (div_mod_eq (h1 + c0) (2 ^ 44)) as [E1 L1]; [lia|].
  set (c1 := (h1 + c0) / 2 ^ 44) in *. set (g1 := (h1 + c0) mod 2 ^ 44) in *. clearbody c1 g1.
  rewrite (u64_id (h2 + c1)) by lia. change (Z.shiftl 1 42) with (2 ^ 42).
  assert (Hall : forall x, 0 <= x < 2 ^ 64 -> Z.land x (2 ^ 64 - 1) = x).
  { intros x Hx. rewrite land_mask by lia. by apply Z.mod_small. }
  destruct (Z.lt_ge_cases (h2 + c1) (2 ^ 42)) as [Hlt|Hge].
  - assert (Hg : u64 (h2 + c1 - 2 ^ 42) = h2 + c1 - 2 ^ 42 + 2 ^ 64).
    { unfold u64, wrap. symmetry. apply Z.mod_unique with (-1); lia. }
    rewrite Hg. replace (Z.shiftr _ 63) with 1
      by (rewrite Z.shiftr_div_pow2 by lia; apply Z.div_unique with (h2 + c1 - 2 ^ 42 + 2 ^ 63); lia).
    change (u64 (1 - 1)) with 0. rewrite !Z.land_0_r, Z.lxor_0_l, !Z.lor_0_r, !Hall by lia.
    split; [done|]. cbn [l3_0 l3_1 l3_2]. symmetry. apply Z.mod_small. unfold poly_p. lia.
  - rewrite (u64_id (h2 + c1 - 2 ^ 42)) by lia.
    replace (Z.shiftr _ 63) with 0 by (rewrite Z.shiftr_div_pow2 by lia; symmetry; apply Z.div_small; lia).
    change (u64 (0 - 1)) with (2 ^ 64 - 1). rewrite Z.lxor_nilpotent, !Z.land_0_r, !Z.lor_0_l, !Hall by lia.
    unfold canon3. cbn [l3_0 l3_1 l3_2]. split; [lia|].
    apply Z.mod_unique with 1; unfold poly_p; lia.
Qed.

Lemma poly64_pad_spec h t0 t1 :
  canon3 h -> is_u64 t0 -> is_u64 t1 ->
  poly64_pad h [t0; t1] = le_bytes 16 (val3 h + (t0 + t1 * 2 ^ 64)).
Proof.
  destruct h as [h0 h1 h2]. intros (H0 & H1 & H2) Ht0 Ht1. cbn [l3_0 l3_1 l3_2] in *.
  unfold poly64_pad. cbn [nth]. destruct (split44 t0 t1 Ht0 Ht1) as (B0 & B1 & B2 & <-).
  set (b0 := Z.land t0 _) in *. set (b1 := Z.land (Z.lor _ _) _) in *.
  set (b2 := Z.land (Z.shiftr t1 24) _) in *. clearbody b0 b1 b2.
  change 0xfffffffffff with (2 ^ 44 - 1). change 0x3ffffffffff with (2 ^ 42 - 1).
  rewrite !land_mask, !Z.shiftr_div_pow2, !Z.shiftl_mul_pow2 by lia.
  rewrite (u64_id (h0 + b0)) by lia. destruct (div_mod_eq (h0 + b0) (2 ^ 44)) as [E0 L0]; [lia|].
  set (c0 := (h0 + b0) / 2 ^ 44) in *. set (a0 := (h0 + b0) mod 2 ^ 44) in *. clearbody c0 a0.
  rewrite (u64_id (b1 + c0)), (u64_id (h1 + (b1 + c0))) by lia.
  destruct (div_mod_eq (h1 + (b1 + c0)) (2 ^ 44)) as [E1 L1]; [lia|].
  set (c1 := (h1 + (b1 + c0)) / 2 ^ 44) in *. set (a1 := (h1 + (b1 + c0)) mod 2 ^ 44) in *. clearbody c1 a1.
  rewrite (u64_id (b2 + c1)), (u64_id (h2 + (b2 + c1))) by lia.
  destruct (div_mod_eq (h2 + (b2 + c1)) (2 ^ 42)) as [E2 L2]; [lia|].
  set (c2 := (h2 + (b2 + c1)) / 2 ^ 42) in *. set (a2 := (h2 + (b2 + c1)) mod 2 ^ 42) in *. clearbody c2 a2.
  rewrite (Z.lor_comm a0), (lor_cat 44), (Z.lor_comm (a1 / _)), (lor_cat 24)
    by (unfold u64, wrap; lor_side).
  rewrite (le_bytes_cat 8 8) by (unfold u64, wrap; lor_side).
  rewrite <- (le_bytes_wrap 16 (val3 _ + _)), <- (le_bytes_wrap (8 + 8) (_ + _ * _)). f_equal.
  change (8 * Z.of_nat (8 + 8)) with 128. change (8 * Z.of_nat 16) with 128.
  change (8 * Z.of_nat 8) with 64. unfold val3, u64, wrap. cbn [l3_0 l3_1 l3_2].
  Z.div_mod_to_equations. lia.
Qed.

Lemma poly_step_range r acc c : 0 <= poly_step r acc c < poly_p.
Proof. unfold poly_step. by apply Z.mod_pos_bound. Qed.

Lemma absorb_range r cs acc :
  0 <= acc < poly_p -> 0 <= foldl (poly_step r) acc cs < poly_p.
Proof.
  revert acc. induction cs as [|c cs IH]; intros acc Ha; cbn [foldl]; [done|].
  apply IH, poly_step_range.
Qed.

Lemma poly64_compute_spec data key :
  length key = 32%nat -> Forall is_byte key -> Forall is_byte data ->
  Poly1305_compute data key = poly1305_spec data key.
Proof.
  intros Hl Hk Hd. destruct (poly64_init_spec key Hl Hk) as [Hr Hv]. cbv zeta in *.
  unfold Poly1305_compute, poly64_finish.
  set (st0 := poly64_init key) in *.
  assert (Hrep : repr val3 ok3 (st_r st0) st0 []).
  { split_and!; [done|done|done|by apply Forall_replicate|].
    exists 0%nat, [], []. split_and!; try done. unfold st0. cbn. lia. }
  pose proof (poly64_block_spec (st_r st0) Hr) as Hblk.
  pose proof (update_repr _ _ _ _ Hblk st0 [] data Hrep Hd) as Hup.
  destruct (finish_repr _ _ _ _ Hblk _ _ Hup) as (Hok & Hpad & Hval). cbn [app] in Hval.
  set (st1 := finish_block _ _) in *.
  assert (Hp : st_pad st1 = st_pad st0).
  { rewrite Hpad. apply update_pad. }
  destruct (poly64_carry_spec (st_h st1) Hok) as [Hc1 Hv1].
  destruct (poly64_reduce_spec (poly64_carry (st_h st1)) Hc1) as [Hc2 Hv2].
  rewrite Hp. unfold st0, poly64_init at 1. cbn [st_pad].
  rewrite poly64_pad_spec by (done || apply le_val_u64; by apply Forall_drop).
  rewrite Hv2, Hv1, Hval. unfold poly1305_spec, chunks. rewrite Hv. do 2 f_equal.
  rewrite (le_val_words (take 16 (drop 16 key))) by (rewrite length_take, length_drop; lia).
  change (drop 8 (take 16 (drop 16 key))) with (drop 8 (take (8 + 8) (drop 16 key))).
  by rewrite take_take, <- take_drop_commute, take_take, drop_drop.
Qed.
