(* ===== verification/Poly1305Portable.v ===== *)
(** The portable Poly1305 implementation of node/Poly1305.cpp: five limbs of 26 bits in
    [unsigned long]s, 64-bit products.  [W] is the width of [unsigned long], 32 or 64
    bits; the result does not depend on it. *)
From S2P Require Import Prelude.
From S2P Require Import Poly1305.

Record limbs5 : Type := mkL5 { l5_0 : Z; l5_1 : Z; l5_2 : Z; l5_3 : Z; l5_4 : Z }.

Section Portable.
Context (W : Z).

(** Conversion to [unsigned long]. *)
Notation ul := (wrap W).

Definition U8TO32 (p : list Z) : Z := le_val (take 4 p).

Definition poly32_init (key : list Z) : poly1305_state limbs5 :=
  mkPoly
    (mkL5 (Z.land (U8TO32 key) 0x3ffffff)
          (Z.land (Z.shiftr (U8TO32 (drop 3 key)) 2) 0x3ffff03)
          (Z.land (Z.shiftr (U8TO32 (drop 6 key)) 4) 0x3ffc0ff)
          (Z.land (Z.shiftr (U8TO32 (drop 9 key)) 6) 0x3f03fff)
          (Z.land (Z.shiftr (U8TO32 (drop 12 key)) 8) 0x00fffff))
    (mkL5 0 0 0 0 0)
    [U8TO32 (drop 16 key); U8TO32 (drop 20 key); U8TO32 (drop 24 key); U8TO32 (drop 28 key)]
    0%nat (replicate 16 0).

(** [h += m[i]] *)
Definition poly32_add (final : bool) (h : limbs5) (m : list Z) : limbs5 :=
  let hibit := if final then 0 else Z.shiftl 1 24 in
  let '(mkL5 h0 h1 h2 h3 h4) := h in
  mkL5 (ul (h0 + Z.land (U8TO32 m) 0x3ffffff))
       (ul (h1 + Z.land (Z.shiftr (U8TO32 (drop 3 m)) 2) 0x3ffffff))
       (ul (h2 + Z.land (Z.shiftr (U8TO32 (drop 6 m)) 4) 0x3ffffff))
       (ul (h3 + Z.land (Z.shiftr (U8TO32 (drop 9 m)) 6) 0x3ffffff))
       (ul (h4 + Z.lor (Z.shiftr (U8TO32 (drop 12 m)) 8) hibit)).

(** [(partial) h %= p] *)
Definition poly32_partial (d0 d1 d2 d3 d4 : Z) : limbs5 :=
  let c := ul (Z.shiftr d0 26) in let h0 := Z.land (ul d0) 0x3ffffff in
  let d1 := u64 (d1 + c) in
  let c := ul (Z.shiftr d1 26) in let h1 := Z.land (ul d1) 0x3ffffff in
  let d2 := u64 (d2 + c) in
  let c := ul (Z.shiftr d2 26) in let h2 := Z.land (ul d2) 0x3ffffff in
  let d3 := u64 (d3 + c) in
  let c := ul (Z.shiftr d3 26) in let h3 := Z.land (ul d3) 0x3ffffff in
  let d4 := u64 (d4 + c) in
  let c := ul (Z.shiftr d4 26) in let h4 := Z.land (ul d4) 0x3ffffff in
  let h0 := ul (h0 + ul (c * 5)) in
  let c := Z.shiftr h0 26 in let h0 := Z.land h0 0x3ffffff in
  let h1 := ul (h1 + c) in
  mkL5 h0 h1 h2 h3 h4.

(** A sum of five 64-bit products. *)
Definition dot5 (a0 b0 a1 b1 a2 b2 a3 b3 a4 b4 : Z) : Z :=
  u64 (u64 (u64 (u64 (u64 (a0 * b0) + u64 (a1 * b1)) + u64 (a2 * b2)) + u64 (a3 * b3)) + u64 (a4 * b4)).

(** [h *= r] *)
Definition poly32_mulmod (r h : limbs5) : limbs5 :=
  let '(mkL5 r0 r1 r2 r3 r4) := r in
  let '(mkL5 h0 h1 h2 h3 h4) := h in
  let s1 := ul (r1 * 5) in
  let s2 := ul (r2 * 5) in
  let s3 := ul (r3 * 5) in
  let s4 := ul (r4 * 5) in
  let d0 := dot5 h0 r0 h1 s4 h2 s3 h3 s2 h4 s1 in
  let d1 := dot5 h0 r1 h1 r0 h2 s4 h3 s3 h4 s2 in
  let d2 := dot5 h0 r2 h1 r1 h2 r0 h3 s4 h4 s3 in
  let d3 := dot5 h0 r3 h1 r2 h2 r1 h3 r0 h4 s4 in
  let d4 := dot5 h0 r4 h1 r3 h2 r2 h3 r1 h4 r0 in
  poly32_partial d0 d1 d2 d3 d4.

Definition poly32_block (r : limbs5) (final : bool) (h : limbs5) (m : list Z) : limbs5 :=
  poly32_mulmod r (poly32_add final h m).

(** [fully carry h] *)
Definition poly32_carry (h : limbs5) : limbs5 :=
  let '(mkL5 h0 h1 h2 h3 h4) := h in
  let c := Z.shiftr h1 26 in let h1 := Z.land h1 0x3ffffff in
  let h2 := ul (h2 + c) in let c := Z.shiftr h2 26 in let h2 := Z.land h2 0x3ffffff in
  let h3 := ul (h3 + c) in let c := Z.shiftr h3 26 in let h3 := Z.land h3 0x3ffffff in
  let h4 := ul (h4 + c) in let c := Z.shiftr h4 26 in let h4 := Z.land h4 0x3ffffff in
  let h0 := ul (h0 + ul (c * 5)) in let c := Z.shiftr h0 26 in let h0 := Z.land h0 0x3ffffff in
  let h1 := ul (h1 + c) in
  mkL5 h0 h1 h2 h3 h4.

(** [compute h + -p] and the selection *)
Definition poly32_reduce (h : limbs5) : limbs5 :=
  let '(mkL5 h0 h1 h2 h3 h4) := h in
  let g0 := ul (h0 + 5) in let c := Z.shiftr g0 26 in let g0 := Z.land g0 0x3ffffff in
  let g1 := ul (h1 + c) in let c := Z.shiftr g1 26 in let g1 := Z.land g1 0x3ffffff in
  let g2 := ul (h2 + c) in let c := Z.shiftr g2 26 in let g2 := Z.land g2 0x3ffffff in
  let g3 := ul (h3 + c) in let c := Z.shiftr g3 26 in let g3 := Z.land g3 0x3ffffff in
  let g4 := ul (ul (h4 + c) - Z.shiftl 1 26) in
  let mask := ul (Z.shiftr g4 (W - 1) - 1) in
  let g0 := Z.land g0 mask in
  let g1 := Z.land g1 mask in
  let g2 := Z.land g2 mask in
  let g3 := Z.land g3 mask in
  let g4 := Z.land g4 mask in
  let mask := Z.lxor mask (2 ^ W - 1) in
  mkL5 (Z.lor (Z.land h0 mask) g0) (Z.lor (Z.land h1 mask) g1) (Z.lor (Z.land h2 mask) g2)
       (Z.lor (Z.land h3 mask) g3) (Z.lor (Z.land h4 mask) g4).

(** [h = h % (2^128)] and [mac = (h + pad) % (2^128)] *)
Definition poly32_pad (h : limbs5) (pad : list Z) : list Z :=
  let '(mkL5 h0 h1 h2 h3 h4) := h in
  let h0 := Z.land (Z.lor h0 (ul (Z.shiftl h1 26))) 0xffffffff in
  let h1 := Z.land (Z.lor (Z.shiftr h1 6) (ul (Z.shiftl h2 20))) 0xffffffff in
  let h2 := Z.land (Z.lor (Z.shiftr h2 12) (ul (Z.shiftl h3 14))) 0xffffffff in
  let h3 := Z.land (Z.lor (Z.shiftr h3 18) (ul (Z.shiftl h4 8))) 0xffffffff in
  let f := u64 (h0 + nth 0 pad 0) in let h0 := ul f in
  let f := u64 (u64 (h1 + nth 1 pad 0) + Z.shiftr f 32) in let h1 := ul f in
  let f := u64 (u64 (h2 + nth 2 pad 0) + Z.shiftr f 32) in let h2 := ul f in
  let f := u64 (u64 (h3 + nth 3 pad 0) + Z.shiftr f 32) in let h3 := ul f in
  le_bytes 4 h0 ++ le_bytes 4 h1 ++ le_bytes 4 h2 ++ le_bytes 4 h3.

Definition poly32_finish (st : poly1305_state limbs5) : list Z :=
  let st := finish_block poly32_block st in
  poly32_pad (poly32_reduce (poly32_carry (st_h st))) (st_pad st).

Definition Poly1305_compute_portable (data key : list Z) : list Z :=
  poly32_finish (poly1305_update poly32_block (poly32_init key) data).

End Portable.

(** ** Limbs *)

Definition val5 (h : limbs5) : Z :=
  l5_0 h + l5_1 h * 2 ^ 26 + l5_2 h * 2 ^ 52 + l5_3 h * 2 ^ 78 + l5_4 h * 2 ^ 104.

Definition ok5 (h : limbs5) : Prop :=
  0 <= l5_0 h < 2 ^ 26 /\ 0 <= l5_1 h < 2 ^ 26 + 2 ^ 8 /\ 0 <= l5_2 h < 2 ^ 26 /\
  0 <= l5_3 h < 2 ^ 26 /\ 0 <= l5_4 h < 2 ^ 26.

Definition rok5 (r : limbs5) : Prop :=
  0 <= l5_0 r < 2 ^ 26 /\ 0 <= l5_1 r < 2 ^ 26 /\ 0 <= l5_2 r < 2 ^ 26 /\
  0 <= l5_3 r < 2 ^ 26 /\ 0 <= l5_4 r < 2 ^ 20.

Definition canon5 (h : limbs5) : Prop :=
  0 <= l5_0 h < 2 ^ 26 /\ 0 <= l5_1 h < 2 ^ 26 /\ 0 <= l5_2 h < 2 ^ 26 /\
  0 <= l5_3 h < 2 ^ 26 /\ 0 <= l5_4 h < 2 ^ 26.

Lemma land26 a : Z.land a 0x3ffffff = a mod 2 ^ 26.
Proof. by apply (land_mask 26). Qed.

(** Sixteen bytes in limbs of 26 bits, the last one of 24. *)
Lemma split26 m :
  length m = 16%nat -> Forall is_byte m ->
  let b0 := Z.land (U8TO32 m) 0x3ffffff in
  let b1 := Z.land (Z.shiftr (U8TO32 (drop 3 m)) 2) 0x3ffffff in
  let b2 := Z.land (Z.shiftr (U8TO32 (drop 6 m)) 4) 0x3ffffff in
  let b3 := Z.land (Z.shiftr (U8TO32 (drop 9 m)) 6) 0x3ffffff in
  let b4 := Z.shiftr (U8TO32 (drop 12 m)) 8 in
  0 <= b0 < 2 ^ 26 /\ 0 <= b1 < 2 ^ 26 /\ 0 <= b2 < 2 ^ 26 /\ 0 <= b3 < 2 ^ 26 /\ 0 <= b4 < 2 ^ 24 /\
  b0 + b1 * 2 ^ 26 + b2 * 2 ^ 52 + b3 * 2 ^ 78 + b4 * 2 ^ 104 = le_val m.
Proof.
  intros Hl Hm. cbv zeta. unfold U8TO32. rewrite !land26, !Z.shiftr_div_pow2 by lia.
  pose proof (le_val_range m Hm) as Hr. unfold zlen, in_range in Hr. rewrite Hl in Hr.
  change (take 4 m) with (take 4 (drop 0 m)). rewrite !le_val_slice by done.
  set (K := le_val m) in *. clearbody K.
  assert (Hlast : K / 2 ^ (8 * Z.of_nat 12) mod 2 ^ (8 * Z.of_nat 4) / 2 ^ 8 = K / 2 ^ 104).
  { rewrite Z.mod_small by (Z.div_mod_to_equations; lia). by rewrite Z.div_div. }
  rewrite Hlast, !field_field by lia.
  replace (K / 2 ^ (8 * Z.of_nat 0) mod _ mod _) with (K mod 2 ^ 26) by (Z.div_mod_to_equations; lia).
  change (8 * Z.of_nat 3 + 2) with 26. change (8 * Z.of_nat 6 + 4) with (26 + 26).
  change (8 * Z.of_nat 9 + 6) with (26 + 26 + 26). change 104 with (26 + 26 + 26 + 26).
  rewrite !Z.pow_add_r, <- !Z.div_div by lia.
  clear Hlast. change (8 * Z.of_nat 16) with 128 in Hr. Z.div_mod_to_equations. lia.
Qed.

(** ** Correctness *)

Section Correct.
Context (W : Z) (HW : W = 32 \/ W = 64).
Notation ul := (wrap W).

Lemma ul_id a : 0 <= a < 2 ^ 32 -> ul a = a.
Proof. intros. apply Z.mod_small. destruct HW as [-> | ->]; lia. Qed.

Lemma low26 d : 0 <= d -> Z.land (ul d) 0x3ffffff = d mod 2 ^ 26.
Proof.
  intros. rewrite land26. unfold wrap. destruct HW as [-> | ->]; Z.div_mod_to_equations; lia.
Qed.

Lemma poly32_add_spec final h m :
  ok5 h -> length m = 16%nat -> Forall is_byte m ->
  let h' := poly32_add W final h m in
  val5 h' = val5 h + le_val m + (if final : bool then 0 else 2 ^ 128) /\
  0 <= l5_0 h' < 2 ^ 27 /\ 0 <= l5_1 h' < 2 ^ 27 + 2 ^ 8 /\ 0 <= l5_2 h' < 2 ^ 27 /\
  0 <= l5_3 h' < 2 ^ 27 /\ 0 <= l5_4 h' < 2 ^ 26 + 2 ^ 25.
Proof.
  intros (H0 & H1 & H2 & H3 & H4) Hl Hm. destruct h as [h0 h1 h2 h3 h4].
  cbn [l5_0 l5_1 l5_2 l5_3 l5_4] in *. unfold poly32_add.
  destruct (split26 m Hl Hm) as (B0 & B1 & B2 & B3 & B4 & <-). cbv zeta in *.
  set (b0 := Z.land (U8TO32 m) _) in *. set (b1 := Z.land (Z.shiftr _ 2) _) in *.
  set (b2 := Z.land (Z.shiftr _ 4) _) in *. set (b3 := Z.land (Z.shiftr _ 6) _) in *.
  set (b4 := Z.shiftr _ 8) in *. clearbody b0 b1 b2 b3 b4.
  assert (Hb4 : Z.lor b4 (if final then 0 else Z.shiftl 1 24) = b4 + (if final then 0 else 2 ^ 24)).
  { destruct final; [rewrite Z.lor_0_r; lia|]. rewrite Z.lor_comm, (lor_cat 24);
      [change (Z.shiftl 1 24) with (2 ^ 24); lia|lia|done|done]. }
  rewrite Hb4. unfold val5. cbn [l5_0 l5_1 l5_2 l5_3 l5_4].
  rewrite !ul_id by (destruct final; lia). destruct final; lia.
Qed.

Ltac carry d n :=
  let E := fresh "E" in let L := fresh "L" in
  destruct (div_mod_eq d n) as [E L]; [lia|];
  let c := fresh "c" in let e := fresh "e" in
  set (c := d / n) in *; set (e := d mod n) in *; clearbody c e.

Lemma poly32_partial_spec d0 d1 d2 d3 d4 :
  0 <= d0 < 2 ^ 57 + 2 ^ 56 -> 0 <= d1 < 2 ^ 57 + 2 ^ 56 -> 0 <= d2 < 2 ^ 57 + 2 ^ 56 ->
  0 <= d3 < 2 ^ 57 + 2 ^ 56 -> 0 <= d4 < 2 ^ 55 + 2 ^ 52 ->
  let h := poly32_partial W d0 d1 d2 d3 d4 in
  ok5 h /\
  val5 h mod poly_p =
  (d0 + d1 * 2 ^ 26 + d2 * 2 ^ 52 + d3 * 2 ^ 78 + d4 * 2 ^ 104) mod poly_p.
Proof.
  intros D0 D1 D2 D3 D4 h. unfold h, poly32_partial. clear h. rewrite !Z.shiftr_div_pow2 by lia.
  rewrite (low26 d0) by lia. carry d0 (2 ^ 26). rewrite (ul_id c) by lia.
  rewrite (u64_id (d1 + c)), (low26 (d1 + c)) by lia. carry (d1 + c) (2 ^ 26). rewrite (ul_id c0) by lia.
  rewrite (u64_id (d2 + c0)), (low26 (d2 + c0)) by lia. carry (d2 + c0) (2 ^ 26). rewrite (ul_id c1) by lia.
  rewrite (u64_id (d3 + c1)), (low26 (d3 + c1)) by lia. carry (d3 + c1) (2 ^ 26). rewrite (ul_id c2) by lia.
  rewrite (u64_id (d4 + c2)), (low26 (d4 + c2)) by lia. carry (d4 + c2) (2 ^ 26). rewrite (ul_id c3) by lia.
  rewrite (ul_id (c3 * 5)), (ul_id (e + c3 * 5)) by lia. rewrite land26.
  carry (e + c3 * 5) (2 ^ 26). rewrite (ul_id (e0 + c4)) by lia.
  unfold ok5, val5. cbn [l5_0 l5_1 l5_2 l5_3 l5_4]. split; [lia|].
  apply (congr _ _ c3). unfold poly_p. lia.
Qed.

Lemma mul_le a b A B : 0 <= a <= A -> 0 <= b <= B -> 0 <= a * b <= A * B.
Proof. nia. Qed.

(** Five products with a common bound on one side do not overflow. *)
Lemma dot5_spec A B0 B1 B2 B3 B4 a0 b0 a1 b1 a2 b2 a3 b3 a4 b4 :
  0 <= a0 <= A -> 0 <= a1 <= A -> 0 <= a2 <= A -> 0 <= a3 <= A -> 0 <= a4 <= A ->
  0 <= b0 <= B0 -> 0 <= b1 <= B1 -> 0 <= b2 <= B2 -> 0 <= b3 <= B3 -> 0 <= b4 <= B4 ->
  A * B0 + A * B1 + A * B2 + A * B3 + A * B4 < 2 ^ 64 ->
  let d := a0 * b0 + a1 * b1 + a2 * b2 + a3 * b3 + a4 * b4 in
  dot5 a0 b0 a1 b1 a2 b2 a3 b3 a4 b4 = d /\
  0 <= d <= A * B0 + A * B1 + A * B2 + A * B3 + A * B4.
Proof.
  intros HA0 HA1 HA2 HA3 HA4 HB0 HB1 HB2 HB3 HB4 Hs d. unfold d, dot5.
  pose proof (mul_le _ _ _ _ HA0 HB0). pose proof (mul_le _ _ _ _ HA1 HB1).
  pose proof (mul_le _ _ _ _ HA2 HB2). pose proof (mul_le _ _ _ _ HA3 HB3).
  pose proof (mul_le _ _ _ _ HA4 HB4). clear HA0 HA1 HA2 HA3 HA4 HB0 HB1 HB2 HB3 HB4.
  set (x0 := a0 * b0) in *. set (x1 := a1 * b1) in *. set (x2 := a2 * b2) in *.
  set (x3 := a3 * b3) in *. set (x4 := a4 * b4) in *.
  set (y0 := A * B0) in *. set (y1 := A * B1) in *. set (y2 := A * B2) in *.
  set (y3 := A * B3) in *. set (y4 := A * B4) in *. clearbody x0 x1 x2 x3 x4 y0 y1 y2 y3 y4.
  rewrite (u64_id x0), (u64_id x1), (u64_id x2), (u64_id x3), (u64_id x4) by lia.
  rewrite (u64_id (x0 + x1)) by lia. rewrite (u64_id (x0 + x1 + x2)) by lia.
  rewrite (u64_id (x0 + x1 + x2 + x3)) by lia. rewrite u64_id by lia. lia.
Qed.

Lemma poly32_mulmod_spec r h :
  rok5 r -> 0 <= l5_0 h < 2 ^ 27 -> 0 <= l5_1 h < 2 ^ 27 + 2 ^ 8 -> 0 <= l5_2 h < 2 ^ 27 ->
  0 <= l5_3 h < 2 ^ 27 -> 0 <= l5_4 h < 2 ^ 26 + 2 ^ 25 ->
  ok5 (poly32_mulmod W r h) /\
  val5 (poly32_mulmod W r h) mod poly_p = val5 h * val5 r mod poly_p.
Proof.
  destruct r as [r0 r1 r2 r3 r4], h as [h0 h1 h2 h3 h4].
  intros (R0 & R1 & R2 & R3 & R4) H0 H1 H2 H3 H4.
  cbn [l5_0 l5_1 l5_2 l5_3 l5_4] in *. unfold poly32_mulmod.
  rewrite (ul_id (r1 * 5)), (ul_id (r2 * 5)), (ul_id (r3 * 5)), (ul_id (r4 * 5)) by lia.
  pose (A := 2 ^ 27 + 2 ^ 8). pose (R := 2 ^ 26). pose (S := 5 * 2 ^ 26). pose (T := 2 ^ 20). pose (V := 5 * 2 ^ 20).
  destruct (dot5_spec A R V S S S h0 r0 h1 (r4 * 5) h2 (r3 * 5) h3 (r2 * 5) h4 (r1 * 5)) as [E0 D0]; [lia..|].
  destruct (dot5_spec A R R V S S h0 r1 h1 r0 h2 (r4 * 5) h3 (r3 * 5) h4 (r2 * 5)) as [E1 D1]; [lia..|].
  destruct (dot5_spec A R R R V S h0 r2 h1 r1 h2 r0 h3 (r4 * 5) h4 (r3 * 5)) as [E2 D2]; [lia..|].
  destruct (dot5_spec A R R R R V h0 r3 h1 r2 h2 r1 h3 r0 h4 (r4 * 5)) as [E3 D3]; [lia..|].
  destruct (dot5_spec A T R R R R h0 r4 h1 r3 h2 r2 h3 r1 h4 r0) as [E4 D4]; [lia..|].
  rewrite E0, E1, E2, E3, E4. clear E0 E1 E2 E3 E4.
  match goal with |- context [poly32_partial W ?d0 ?d1 ?d2 ?d3 ?d4] =>
    destruct (poly32_partial_spec d0 d1 d2 d3 d4) as [Hok Hv];
    [generalize dependent d0|generalize dependent d1|generalize dependent d2
    |generalize dependent d3|generalize dependent d4|] end;
    try (clear; intros; lia).
  split; [done|]. rewrite Hv. unfold val5. cbn [l5_0 l5_1 l5_2 l5_3 l5_4].
  apply (congr _ _ (h1 * r4 + h2 * r3 + h3 * r2 + h4 * r1 + (h2 * r4 + h3 * r3 + h4 * r2) * 2 ^ 26 +
    (h3 * r4 + h4 * r3) * 2 ^ 52 + h4 * r4 * 2 ^ 78)). unfold poly_p. ring.
Qed.

Lemma poly32_block_spec r : rok5 r -> forall final h m,
  ok5 h -> length m = 16%nat -> Forall is_byte m ->
  ok5 (poly32_block W r final h m) /\
  val5 (poly32_block W r final h m) mod poly_p =
  (val5 h + le_val m + (if final : bool then 0 else 2 ^ 128)) * val5 r mod poly_p.
Proof.
  intros Hr final h m Hh Hl Hm.
  destruct (poly32_add_spec final h m Hh Hl Hm) as (Hv & H0 & H1 & H2 & H3 & H4).
  rewrite <- Hv. by apply poly32_mulmod_spec.
Qed.

Lemma poly32_init_spec key :
  length key = 32%nat -> Forall is_byte key ->
  rok5 (st_r (poly32_init key)) /\ val5 (st_r (poly32_init key)) = poly_clamp (le_val (take 16 key)).
Proof.
  intros Hl Hk.
  assert (Hs : forall k, (k <= 12)%nat -> U8TO32 (drop k key) = U8TO32 (drop k (take 16 key))).
  { intros k Hk'. unfold U8TO32. f_equal. rewrite !take_drop_commute, take_take.
    f_equal. f_equal. lia. }
  unfold poly32_init. cbn [st_r]. rewrite <- (drop_0 key) at 1 6. rewrite !Hs by lia.
  rewrite drop_0. set (m := take 16 key).
  destruct (split26 m) as (B0 & B1 & B2 & B3 & B4 & <-);
    [unfold m; rewrite length_take; lia|by apply Forall_take|].
  cbv zeta in *. unfold rok5, val5. cbn [l5_0 l5_1 l5_2 l5_3 l5_4].
  set (x0 := U8TO32 m) in *. set (x1 := Z.shiftr _ 2) in *. set (x2 := Z.shiftr _ 4) in *.
  set (x3 := Z.shiftr _ 6) in *. set (x4 := Z.shiftr _ 8) in *. clearbody x0 x1 x2 x3 x4. split.
  { pose proof (land_mask_range 26 x0 0x3ffffff ltac:(lia) ltac:(done)).
    pose proof (land_mask_range 26 x1 0x3ffff03 ltac:(lia) ltac:(done)).
    pose proof (land_mask_range 26 x2 0x3ffc0ff ltac:(lia) ltac:(done)).
    pose proof (land_mask_range 26 x3 0x3f03fff ltac:(lia) ltac:(done)).
    pose proof (land_mask_range 20 x4 0x00fffff ltac:(lia) ltac:(done)). unfold in_range in *. lia. }
  unfold poly_clamp.
  change 0x0ffffffc0ffffffc0ffffffc0fffffff with
    (0x3ffffff + (0x3ffff03 + (0x3ffc0ff + (0x3f03fff + 0x00fffff * 2 ^ 26) * 2 ^ 26) * 2 ^ 26) * 2 ^ 26).
  replace (Z.land x0 0x3ffffff + Z.land x1 0x3ffffff * 2 ^ 26 + Z.land x2 0x3ffffff * 2 ^ 52 +
    Z.land x3 0x3ffffff * 2 ^ 78 + x4 * 2 ^ 104) with
    (Z.land x0 0x3ffffff + (Z.land x1 0x3ffffff + (Z.land x2 0x3ffffff +
    (Z.land x3 0x3ffffff + x4 * 2 ^ 26) * 2 ^ 26) * 2 ^ 26) * 2 ^ 26) by lia.
  rewrite !land_cat by (done || lia). rewrite <- !Z.land_assoc.
  change (Z.land 0x3ffffff 0x3ffffff) with 0x3ffffff. change (Z.land 0x3ffffff 0x3ffff03) with 0x3ffff03.
  change (Z.land 0x3ffffff 0x3ffc0ff) with 0x3ffc0ff. change (Z.land 0x3ffffff 0x3f03fff) with 0x3f03fff.
  lia.
Qed.

Lemma poly32_carry_spec h :
  ok5 h -> canon5 (poly32_carry W h) /\ val5 (poly32_carry W h) mod poly_p = val5 h mod poly_p.
Proof.
  destruct h as [h0 h1 h2 h3 h4]. intros (H0 & H1 & H2 & H3 & H4).
  cbn [l5_0 l5_1 l5_2 l5_3 l5_4] in *. unfold poly32_carry.
  rewrite !land26, !Z.shiftr_div_pow2 by lia.
  carry h1 (2 ^ 26). rewrite (ul_id (h2 + c)) by lia. carry (h2 + c) (2 ^ 26).
  rewrite (ul_id (h3 + c0)) by lia. carry (h3 + c0) (2 ^ 26).
  rewrite (ul_id (h4 + c1)) by lia. carry (h4 + c1) (2 ^ 26).
  rewrite (ul_id (c2 * 5)), (ul_id (h0 + c2 * 5)) by lia. carry (h0 + c2 * 5) (2 ^ 26).
  rewrite (ul_id (e + c3)) by lia. unfold canon5, val5. cbn [l5_0 l5_1 l5_2 l5_3 l5_4]. split; [lia|].
  apply (congr _ _ c2). unfold poly_p. lia.
Qed.

Lemma poly32_reduce_spec h :
  canon5 h -> canon5 (poly32_reduce W h) /\ val5 (poly32_reduce W h) = val5 h mod poly_p.
Proof.
  destruct h as [h0 h1 h2 h3 h4]. intros (H0 & H1 & H2 & H3 & H4). unfold val5.
  cbn [l5_0 l5_1 l5_2 l5_3 l5_4] in *. unfold poly32_reduce.
  rewrite !land26, !(Z.shiftr_div_pow2 _ 26) by lia. change (Z.shiftl 1 26) with (2 ^ 26).
  rewrite (ul_id (h0 + 5)) by lia. carry (h0 + 5) (2 ^ 26).
  rewrite (ul_id (h1 + c)) by lia. carry (h1 + c) (2 ^ 26).
  rewrite (ul_id (h2 + c0)) by lia. carry (h2 + c0) (2 ^ 26).
  rewrite (ul_id (h3 + c1)) by lia. carry (h3 + c1) (2 ^ 26). rewrite (ul_id (h4 + c2)) by lia.
  assert (Hall : forall x, 0 <= x < 2 ^ 32 -> Z.land x (2 ^ W - 1) = x).
  { intros x Hx. rewrite land_mask by lia. by apply ul_id. }
  destruct (Z.lt_ge_cases (h4 + c2) (2 ^ 26)) as [Hlt|Hge].
  - assert (Hg : ul (h4 + c2 - 2 ^ 26) = h4 + c2 - 2 ^ 26 + 2 ^ W).
    { unfold wrap. symmetry. apply Z.mod_unique with (-1); destruct HW as [-> | ->]; lia. }
    rewrite Hg. replace (Z.shiftr _ (W - 1)) with 1
      by (rewrite Z.shiftr_div_pow2 by lia; destruct HW as [-> | ->];
          [apply Z.div_unique with (h4 + c2 - 2 ^ 26 + 2 ^ 31)|apply Z.div_unique with (h4 + c2 - 2 ^ 26 + 2 ^ 63)]; lia).
    change (ul (1 - 1)) with (0 mod 2 ^ W). rewrite Z.mod_0_l by (apply Z.pow_nonzero; lia).
    rewrite !Z.land_0_r, Z.lxor_0_l, !Z.lor_0_r, !Hall by lia. split; [done|].
    cbn [l5_0 l5_1 l5_2 l5_3 l5_4]. symmetry. apply Z.mod_small. unfold poly_p. lia.
  - rewrite (ul_id (h4 + c2 - 2 ^ 26)) by lia.
    replace (Z.shiftr _ (W - 1)) with 0
      by (rewrite Z.shiftr_div_pow2 by lia; symmetry; apply Z.div_small; destruct HW as [-> | ->]; lia).
    replace (ul (0 - 1)) with (2 ^ W - 1) by (destruct HW as [-> | ->]; done).
    rewrite Z.lxor_nilpotent, !Z.land_0_r, !Z.lor_0_l, !Hall by lia.
    unfold canon5. cbn [l5_0 l5_1 l5_2 l5_3 l5_4]. split; [lia|].
    apply Z.mod_unique with 1; unfold poly_p; lia.
Qed.

(** A limb and the low bits of the next one as a 32-bit word. *)
Lemma join_limbs a b k :
  0 <= k <= 26 -> in_range k a -> 0 <= b ->
  Z.land (Z.lor a (ul (Z.shiftl b k))) 0xffffffff = (a + b * 2 ^ k) mod 2 ^ 32.
Proof.
  intros Hk Ha Hb. change 0xffffffff with (2 ^ 32 - 1). rewrite land_mask, Z.shiftl_mul_pow2 by lia.
  assert (Hkw : k <= W) by (destruct HW; lia).
  assert (Hm : ul (b * 2 ^ k) mod 2 ^ k = 0).
  { unfold wrap. rewrite <- (Z.mod_mul b (2 ^ k)) by (apply Z.pow_nonzero; lia).
    symmetry. apply Znumtheory.Zmod_div_mod; [lia|lia|]. exists (2 ^ (W - k)).
    rewrite <- Z.pow_add_r by lia. f_equal. lia. }
  rewrite Z.lor_comm, (lor_cat k) by (done || lia).
  unfold wrap. rewrite <- Z.add_mod_idemp_l by lia.
  rewrite <- (Znumtheory.Zmod_div_mod (2 ^ 32) (2 ^ W)); [|lia|lia|].
  - rewrite Z.add_mod_idemp_l by lia. f_equal. lia.
  - exists (2 ^ (W - 32)). rewrite <- Z.pow_add_r by (destruct HW; lia). f_equal. lia.
Qed.

Lemma le_bytes4_ul f : le_bytes 4 (ul f) = le_bytes 4 (f mod 2 ^ 32).
Proof.
  rewrite <- (le_bytes_wrap 4 (ul f)). f_equal. change (8 * Z.of_nat 4) with 32. unfold wrap.
  destruct HW as [-> | ->]; Z.div_mod_to_equations; lia.
Qed.

(** The four words of the canonical limbs. *)
Lemma words_val h :
  canon5 h ->
  (l5_0 h + l5_1 h * 2 ^ 26) mod 2 ^ 32 + (l5_1 h / 2 ^ 6 + l5_2 h * 2 ^ 20) mod 2 ^ 32 * 2 ^ 32 +
  (l5_2 h / 2 ^ 12 + l5_3 h * 2 ^ 14) mod 2 ^ 32 * 2 ^ 64 +
  (l5_3 h / 2 ^ 18 + l5_4 h * 2 ^ 8) mod 2 ^ 32 * 2 ^ 96 = val5 h mod 2 ^ 128.
Proof.
  destruct h as [h0 h1 h2 h3 h4]. intros (H0 & H1 & H2 & H3 & H4). unfold val5.
  cbn [l5_0 l5_1 l5_2 l5_3 l5_4] in *. Z.div_mod_to_equations. lia.
Qed.

Lemma poly32_pad_spec h p0 p1 p2 p3 :
  canon5 h -> is_u32 p0 -> is_u32 p1 -> is_u32 p2 -> is_u32 p3 ->
  poly32_pad W h [p0; p1; p2; p3] =
  le_bytes 16 (val5 h + (p0 + p1 * 2 ^ 32 + p2 * 2 ^ 64 + p3 * 2 ^ 96)).
Proof.
  intros Hc P0 P1 P2 P3. pose proof (words_val h Hc) as Hw. destruct h as [h0 h1 h2 h3 h4].
  destruct Hc as (H0 & H1 & H2 & H3 & H4). cbn [l5_0 l5_1 l5_2 l5_3 l5_4] in *.
  unfold poly32_pad. cbn [nth].
  rewrite (join_limbs h0 h1 26), (join_limbs (Z.shiftr h1 6) h2 20), (join_limbs (Z.shiftr h2 12) h3 14),
    (join_limbs (Z.shiftr h3 18) h4 8)
    by (rewrite ?Z.shiftr_div_pow2 by lia; unfold in_range in *; Z.div_mod_to_equations; lia).
  rewrite !(Z.shiftr_div_pow2 h1), !(Z.shiftr_div_pow2 h2), !(Z.shiftr_div_pow2 h3) by lia.
  assert (HM : forall x, 0 <= x mod 2 ^ 32 < 2 ^ 32) by (intros; apply Z.mod_pos_bound; lia).
  pose proof (HM (h0 + h1 * 2 ^ 26)). pose proof (HM (h1 / 2 ^ 6 + h2 * 2 ^ 20)).
  pose proof (HM (h2 / 2 ^ 12 + h3 * 2 ^ 14)). pose proof (HM (h3 / 2 ^ 18 + h4 * 2 ^ 8)).
  set (w0 := (h0 + _) mod _) in *. set (w1 := (h1 / _ + _) mod _) in *.
  set (w2 := (h2 / _ + _) mod _) in *. set (w3 := (h3 / _ + _) mod _) in *.
  set (V := val5 _) in *. clearbody w0 w1 w2 w3 V. unfold in_range in *. clear H0 H1 H2 H3 H4 HM.
  rewrite !le_bytes4_ul, !Z.shiftr_div_pow2 by lia.
  rewrite (u64_id (w0 + p0)) by lia. carry (w0 + p0) (2 ^ 32).
  rewrite (u64_id (w1 + p1)), (u64_id (w1 + p1 + c)) by lia. carry (w1 + p1 + c) (2 ^ 32).
  rewrite (u64_id (w2 + p2)), (u64_id (w2 + p2 + c0)) by lia. carry (w2 + p2 + c0) (2 ^ 32).
  rewrite (u64_id (w3 + p3)), (u64_id (w3 + p3 + c1)) by lia. carry (w3 + p3 + c1) (2 ^ 32).
  rewrite (le_bytes_cat 4 4), (le_bytes_cat 4 8), (le_bytes_cat 4 12) by done.
  rewrite <- (le_bytes_wrap 16 (V + _)), <- (le_bytes_wrap (4 + 12) (e + _)). f_equal.
  change (8 * Z.of_nat (4 + 12)) with 128. change (8 * Z.of_nat 16) with 128.
  change (8 * Z.of_nat 4) with 32. rewrite <- (Z.add_mod_idemp_l V), <- Hw by lia.
  rewrite Z.mod_small by lia. apply Z.mod_unique with c2; lia.
Qed.

Lemma poly32_compute_spec data key :
  length key = 32%nat -> Forall is_byte key -> Forall is_byte data ->
  Poly1305_compute_portable W data key = poly1305_spec data key.
Proof.
  intros Hl Hk Hd. destruct (poly32_init_spec key Hl Hk) as [Hr Hv].
  unfold Poly1305_compute_portable, poly32_finish.
  set (st0 := poly32_init key) in *.
  assert (Hrep : repr val5 ok5 (st_r st0) st0 []).
  { split_and!; [done|done|done|by apply Forall_replicate|].
    exists 0%nat, [], []. split_and!; try done. unfold st0. cbn. lia. }
  pose proof (poly32_block_spec (st_r st0) Hr) as Hblk.
  pose proof (update_repr _ _ _ _ Hblk st0 [] data Hrep Hd) as Hup.
  destruct (finish_repr _ _ _ _ Hblk _ _ Hup) as (Hok & Hpad & Hval). cbn [app] in Hval.
  set (st1 := finish_block _ _) in *.
  assert (Hp : st_pad st1 = st_pad st0) by (rewrite Hpad; apply update_pad).
  destruct (poly32_carry_spec (st_h st1) Hok) as [Hc1 Hv1].
  destruct (poly32_reduce_spec (poly32_carry W (st_h st1)) Hc1) as [Hc2 Hv2].
  rewrite Hp. unfold st0, poly32_init at 1. cbn [st_pad]. unfold U8TO32.
  assert (Hu : forall k, is_u32 (le_val (take 4 (drop k key)))).
  { intros k. rewrite le_val_slice by done. by apply Z.mod_pos_bound. }
  rewrite poly32_pad_spec by (done || apply Hu).
  rewrite Hv2, Hv1, Hval. unfold poly1305_spec, chunks. rewrite Hv. do 2 f_equal.
  pose proof (le_val_range key Hk) as Hr32. unfold zlen, in_range in Hr32. rewrite Hl in Hr32.
  rewrite !le_val_slice by done. set (K := le_val key) in *. clearbody K.
  change (8 * Z.of_nat 16) with 128. change (8 * Z.of_nat 4) with 32.
  change (8 * Z.of_nat 20) with (128 + 32). change (8 * Z.of_nat 24) with (128 + 32 + 32).
  change (8 * Z.of_nat 28) with (128 + 32 + 32 + 32). change (8 * Z.of_nat 32) with 256 in Hr32.
  rewrite !Z.pow_add_r, <- !Z.div_div by lia. Z.div_mod_to_equations. lia.
Qed.

End Correct.

(** ** Property *)

(** C29: both implementations of Poly1305, the 64-bit one and the portable one with
    either width of [unsigned long], compute the polynomial specified over the integers
    modulo 2^130 - 5, for every message and every 32-byte key; no limb operation loses
    bits. *)
Theorem Poly1305_implementations_correct data key :
  length key = 32%nat -> Forall is_byte key -> Forall is_byte data ->
  Poly1305_compute data key = poly1305_spec data key /\
  Poly1305_compute_portable 32 data key = poly1305_spec data key /\
  Poly1305_compute_portable 64 data key = poly1305_spec data key.
Proof.
  intros Hl Hk Hd. split_and!; [by apply poly64_compute_spec
    |apply poly32_compute_spec; by auto|apply poly32_compute_spec; by auto].
Qed.

(** The test vector of RFC 8439, section 2.5.2. *)
Lemma Poly1305_implementations_correct_witness :
  let key := be_bytes 32 0x85d6be7857556d337f4452fe42d506a80103808afb0db2fd4abff6af4149f51b in
  let msg := be_bytes 34 0x43727970746f6772617068696320466f72756d2052657365617263682047726f7570 in
  poly1305_spec msg key = be_bytes 16 0xa8061dc1305136c6c22b8baf0c0127a9 /\
  Poly1305_compute_portable 32 msg key = Poly1305_compute msg key.
Proof.
  intros key msg. destruct (Poly1305_implementations_correct msg key) as (H1 & H2 & _).
  - reflexivity.
  - apply be_bytes_bytes.
  - apply be_bytes_bytes.
  - rewrite H2, H1. split; [vm_compute; reflexivity|reflexivity].
Defined.
