(* ===== verification/Salsa20.v ===== *)
(** The Salsa20 stream cipher, node/Salsa20.cpp and node/Salsa20.hpp: the scalar
    implementation, the SSE2 implementation on four-lane vectors with its reordered
    state, and the block loop around them.

    Words are 32-bit; vectors are four words, lane 0 first.  The intrinsics are modelled
    lane by lane. *)
From S2P Require Import Prelude.

(** ** The scalar rounds *)

Definition ROTATE (v c : Z) : Z := Z.lor (u32 (Z.shiftl v c)) (Z.shiftr v (32 - c)).
Definition PLUS (v w : Z) : Z := u32 (v + w).

Definition word (x : list Z) (i : nat) : Z := nth i x 0.

(** [xd = XOR(xd,ROTATE(PLUS(xa,xb),r))] *)
Definition salsa_step (x : list Z) (s : nat * nat * nat * nat) : list Z :=
  let '(d, a, b, r) := s in
  <[d := Z.lxor (word x d) (ROTATE (PLUS (word x a) (word x b)) (Z.of_nat r))]> x.

(** The 32 assignments of a "2X round". *)
Definition salsa_2x_steps : list (nat * nat * nat * nat) :=
  [(4, 0, 12, 7); (8, 4, 0, 9); (12, 8, 4, 13); (0, 12, 8, 18);
   (9, 5, 1, 7); (13, 9, 5, 9); (1, 13, 9, 13); (5, 1, 13, 18);
   (14, 10, 6, 7); (2, 14, 10, 9); (6, 2, 14, 13); (10, 6, 2, 18);
   (3, 15, 11, 7); (7, 3, 15, 9); (11, 7, 3, 13); (15, 11, 7, 18);
   (1, 0, 3, 7); (2, 1, 0, 9); (3, 2, 1, 13); (0, 3, 2, 18);
   (6, 5, 4, 7); (7, 6, 5, 9); (4, 7, 6, 13); (5, 4, 7, 18);
   (11, 10, 9, 7); (8, 11, 10, 9); (9, 8, 11, 13); (10, 9, 8, 18);
   (12, 15, 14, 7); (13, 12, 15, 9); (14, 13, 12, 13); (15, 14, 13, 18)]%nat.

Definition salsa_2x (x : list Z) : list Z := foldl salsa_step x salsa_2x_steps.

(** The unrolled rounds of [crypt12] and [crypt20]. *)
Definition salsa_rounds12 (x : list Z) : list Z := Nat.iter 6 salsa_2x x.
Definition salsa_rounds20 (x : list Z) : list Z := Nat.iter 10 salsa_2x x.

(** [xi = PLUS(xi,ji)] and the exclusive or with sixteen words of the message. *)
Definition salsa_output (x j m : list Z) : list Z :=
  zip_with Z.lxor (zip_with PLUS x j) m.

(** Sixteen little-endian words of a 64-byte block, and back. *)
Definition words_of (m : list Z) : list Z :=
  (fun i => le_val (take 4 (drop (4 * i) m))) <$> seq 0 16.
Definition bytes_of (w : list Z) : list Z := mjoin (le_bytes 4 <$> w).

(** [if (!(++j8)) ++j9;] *)
Definition salsa_next (j : list Z) : list Z :=
  let j8 := u32 (word j 8 + 1) in
  let j := <[8%nat := j8]> j in
  if j8 =? 0 then <[9%nat := u32 (word j 9 + 1)]> j else j.

Definition salsa_constants : list Z :=
  [101; 120; 112; 97; 110; 100; 32; 51; 50; 45; 98; 121; 116; 101; 32; 107].

Definition U8TO32_LITTLE (p : list Z) (off : nat) : Z := le_val (take 4 (drop off p)).

Definition Salsa20_init (key iv : list Z) : list Z :=
  [U8TO32_LITTLE salsa_constants 0; U8TO32_LITTLE key 0; U8TO32_LITTLE key 4; U8TO32_LITTLE key 8;
   U8TO32_LITTLE key 12; U8TO32_LITTLE salsa_constants 4; U8TO32_LITTLE iv 0; U8TO32_LITTLE iv 4;
   0; 0; U8TO32_LITTLE salsa_constants 8; U8TO32_LITTLE key 16;
   U8TO32_LITTLE key 20; U8TO32_LITTLE key 24; U8TO32_LITTLE key 28; U8TO32_LITTLE salsa_constants 12].

(** ** The block loop *)

Section Loop.
(** [block j m]: the output words for the state [j] and the message words [m];
    [next j]: the state with the block counter advanced. *)
Context (block : list Z -> list Z -> list Z) (next : list Z -> list Z).

(** [for (;;)], with [tmp] the contents of the temporary block; [fuel] is the number of
    blocks. *)
Fixpoint crypt_loop (fuel : nat) (tmp j m : list Z) : list Z * list Z :=
  match fuel with
  | O => ([], j)
  | S fuel =>
      let bytes := length m in
      if (bytes <? 64)%nat then
        let src := m ++ drop bytes tmp in
        (take bytes (bytes_of (block j (words_of src))), next j)
      else
        let c := bytes_of (block j (words_of (take 64 m))) in
        if (bytes <=? 64)%nat then (c, next j) else
        let '(rest, j') := crypt_loop fuel tmp (next j) (drop 64 m) in
        (c ++ rest, j')
  end.

Definition crypt (tmp j m : list Z) : list Z * list Z :=
  if (length m =? 0)%nat then ([], j) else crypt_loop (length m) tmp j m.

End Loop.

Definition salsa_block12 (j m : list Z) : list Z := salsa_output (salsa_rounds12 j) j m.
Definition salsa_block20 (j m : list Z) : list Z := salsa_output (salsa_rounds20 j) j m.

(** Output and state after the call; [tmp] is the uninitialised temporary. *)
Definition Salsa20_crypt12 (tmp state m : list Z) : list Z * list Z :=
  crypt salsa_block12 salsa_next tmp state m.
Definition Salsa20_crypt20 (tmp state m : list Z) : list Z * list Z :=
  crypt salsa_block20 salsa_next tmp state m.

(** ** The SSE2 implementation *)

Record m128 : Type := mkV { v_0 : Z; v_1 : Z; v_2 : Z; v_3 : Z }.

Definition v_map2 (f : Z -> Z -> Z) (a b : m128) : m128 :=
  mkV (f (v_0 a) (v_0 b)) (f (v_1 a) (v_1 b)) (f (v_2 a) (v_2 b)) (f (v_3 a) (v_3 b)).
Definition v_map (f : Z -> Z) (a : m128) : m128 := mkV (f (v_0 a)) (f (v_1 a)) (f (v_2 a)) (f (v_3 a)).

Definition mm_add_epi32 : m128 -> m128 -> m128 := v_map2 (fun x y => u32 (x + y)).
Definition mm_xor_si128 : m128 -> m128 -> m128 := v_map2 Z.lxor.
Definition mm_or_si128 : m128 -> m128 -> m128 := v_map2 Z.lor.
Definition mm_and_si128 : m128 -> m128 -> m128 := v_map2 Z.land.
Definition mm_slli_epi32 (a : m128) (c : Z) : m128 := v_map (fun x => u32 (Z.shiftl x c)) a.
Definition mm_srli_epi32 (a : m128) (c : Z) : m128 := v_map (fun x => Z.shiftr x c) a.

Definition v_lane (a : m128) (i : Z) : Z :=
  match i with 0 => v_0 a | 1 => v_1 a | 2 => v_2 a | _ => v_3 a end.
Definition mm_shuffle_epi32 (a : m128) (imm : Z) : m128 :=
  let sel k := v_lane a (Z.land (Z.shiftr imm (2 * k)) 3) in
  mkV (sel 0) (sel 1) (sel 2) (sel 3).

(** Shifts of the two 64-bit halves by 32 bits. *)
Definition mm_slli_epi64_32 (a : m128) : m128 := mkV 0 (v_0 a) 0 (v_2 a).
Definition mm_srli_epi64_32 (a : m128) : m128 := mkV (v_1 a) 0 (v_3 a) 0.
Definition mm_unpackhi_epi64 (a b : m128) : m128 := mkV (v_2 a) (v_3 a) (v_2 b) (v_3 b).
Definition mm_unpacklo_epi64 (a b : m128) : m128 := mkV (v_0 a) (v_1 a) (v_0 b) (v_1 b).

Definition MM_SHUFFLE (z y x w : Z) : Z :=
  Z.lor (Z.lor (Z.shiftl z 6) (Z.shiftl y 4)) (Z.lor (Z.shiftl x 2) w).

Definition maskLo32 : m128 := mm_shuffle_epi32 (mkV (2 ^ 32 - 1) 0 0 0) (MM_SHUFFLE 1 0 1 0).
Definition maskHi32 : m128 := mm_slli_epi64_32 maskLo32.

(** [X = X ^ (T << c) ^ (T >> (32 - c))] with the intrinsics of the source. *)
Definition sse_mix (X T : m128) (c : Z) : m128 :=
  mm_xor_si128 (mm_xor_si128 X (mm_slli_epi32 T c)) (mm_srli_epi32 T (32 - c)).

Record sse_state : Type := mkS { s_0 : m128; s_1 : m128; s_2 : m128; s_3 : m128 }.

Definition sse_2x (s : sse_state) : sse_state :=
  let '(mkS X0 X1 X2 X3) := s in
  let T := mm_add_epi32 X0 X3 in let X1 := sse_mix X1 T 7 in
  let T := mm_add_epi32 X1 X0 in let X2 := sse_mix X2 T 9 in
  let T := mm_add_epi32 X2 X1 in let X3 := sse_mix X3 T 13 in
  let T := mm_add_epi32 X3 X2 in let X0 := sse_mix X0 T 18 in
  let X1 := mm_shuffle_epi32 X1 0x93 in
  let X2 := mm_shuffle_epi32 X2 0x4E in
  let X3 := mm_shuffle_epi32 X3 0x39 in
  let T := mm_add_epi32 X0 X1 in let X3 := sse_mix X3 T 7 in
  let T := mm_add_epi32 X3 X0 in let X2 := sse_mix X2 T 9 in
  let T := mm_add_epi32 X2 X3 in let X1 := sse_mix X1 T 13 in
  let T := mm_add_epi32 X1 X2 in let X0 := sse_mix X0 T 18 in
  let X1 := mm_shuffle_epi32 X1 0x39 in
  let X2 := mm_shuffle_epi32 X2 0x4E in
  let X3 := mm_shuffle_epi32 X3 0x93 in
  mkS X0 X1 X2 X3.

Definition sse_rounds12 (s : sse_state) : sse_state := Nat.iter 6 sse_2x s.
Definition sse_rounds20 (s : sse_state) : sse_state := Nat.iter 10 sse_2x s.

Definition v_of (l : list Z) (k : nat) : m128 := mkV (word l k) (word l (k + 1)) (word l (k + 2)) (word l (k + 3)).
Definition v_list (a : m128) : list Z := [v_0 a; v_1 a; v_2 a; v_3 a].

(** [_state.v] of the words [_state.i]. *)
Definition sse_load (i : list Z) : sse_state := mkS (v_of i 0) (v_of i 4) (v_of i 8) (v_of i 12).

(** The additions of the saved vectors, the transposition and the exclusive or. *)
Definition sse_output (x js : sse_state) (m : list Z) : list Z :=
  let '(mkS X0 X1 X2 X3) := x in
  let '(mkS X0s X1s X2s X3s) := js in
  let X0 := mm_add_epi32 X0s X0 in
  let X1 := mm_add_epi32 X1s X1 in
  let X2 := mm_add_epi32 X2s X2 in
  let X3 := mm_add_epi32 X3s X3 in
  let k02 := mm_shuffle_epi32 (mm_or_si128 (mm_slli_epi64_32 X0) (mm_srli_epi64_32 X3)) (MM_SHUFFLE 0 1 2 3) in
  let k13 := mm_shuffle_epi32 (mm_or_si128 (mm_slli_epi64_32 X1) (mm_srli_epi64_32 X0)) (MM_SHUFFLE 0 1 2 3) in
  let k20 := mm_or_si128 (mm_and_si128 X2 maskLo32) (mm_and_si128 X1 maskHi32) in
  let k31 := mm_or_si128 (mm_and_si128 X3 maskLo32) (mm_and_si128 X2 maskHi32) in
  v_list (mm_xor_si128 (mm_unpackhi_epi64 k02 k20) (v_of m 0)) ++
  v_list (mm_xor_si128 (mm_unpackhi_epi64 k13 k31) (v_of m 4)) ++
  v_list (mm_xor_si128 (mm_unpacklo_epi64 k20 k02) (v_of m 8)) ++
  v_list (mm_xor_si128 (mm_unpacklo_epi64 k31 k13) (v_of m 12)).

Definition sse_block12 (i m : list Z) : list Z := sse_output (sse_rounds12 (sse_load i)) (sse_load i) m.
Definition sse_block20 (i m : list Z) : list Z := sse_output (sse_rounds20 (sse_load i)) (sse_load i) m.

(** [if (!(++_state.i[8])) ++_state.i[5];] *)
Definition sse_next (i : list Z) : list Z :=
  let i8 := u32 (word i 8 + 1) in
  let i := <[8%nat := i8]> i in
  if i8 =? 0 then <[5%nat := u32 (word i 5 + 1)]> i else i.

Definition Salsa20_init_sse (key iv : list Z) : list Z :=
  let k n := U8TO32_LITTLE key (4 * n) in
  let v n := U8TO32_LITTLE iv (4 * n) in
  [0x61707865; 0x3320646e; 0x79622d32; 0x6b206574;
   k 3%nat; 0; k 7%nat; k 2%nat;
   0; k 6%nat; k 1%nat; v 1%nat;
   k 5%nat; k 0%nat; v 0%nat; k 4%nat].

Definition Salsa20_crypt12_sse (tmp state m : list Z) : list Z * list Z :=
  crypt sse_block12 sse_next tmp state m.
Definition Salsa20_crypt20_sse (tmp state m : list Z) : list Z * list Z :=
  crypt sse_block20 sse_next tmp state m.

(** ** Reference rounds, as in the definition of the cipher *)

Definition quarterround (y0 y1 y2 y3 : Z) : Z * Z * Z * Z :=
  let z1 := Z.lxor y1 (ROTATE (PLUS y0 y3) 7) in
  let z2 := Z.lxor y2 (ROTATE (PLUS z1 y0) 9) in
  let z3 := Z.lxor y3 (ROTATE (PLUS z2 z1) 13) in
  let z0 := Z.lxor y0 (ROTATE (PLUS z3 z2) 18) in
  (z0, z1, z2, z3).

Definition rowround (y : list Z) : list Z :=
  let '(z0, z1, z2, z3) := quarterround (word y 0) (word y 1) (word y 2) (word y 3) in
  let '(z5, z6, z7, z4) := quarterround (word y 5) (word y 6) (word y 7) (word y 4) in
  let '(z10, z11, z8, z9) := quarterround (word y 10) (word y 11) (word y 8) (word y 9) in
  let '(z15, z12, z13, z14) := quarterround (word y 15) (word y 12) (word y 13) (word y 14) in
  [z0; z1; z2; z3; z4; z5; z6; z7; z8; z9; z10; z11; z12; z13; z14; z15].

Definition columnround (x : list Z) : list Z :=
  let '(y0, y4, y8, y12) := quarterround (word x 0) (word x 4) (word x 8) (word x 12) in
  let '(y5, y9, y13, y1) := quarterround (word x 5) (word x 9) (word x 13) (word x 1) in
  let '(y10, y14, y2, y6) := quarterround (word x 10) (word x 14) (word x 2) (word x 6) in
  let '(y15, y3, y7, y11) := quarterround (word x 15) (word x 3) (word x 7) (word x 11) in
  [y0; y1; y2; y3; y4; y5; y6; y7; y8; y9; y10; y11; y12; y13; y14; y15].

Definition doubleround (x : list Z) : list Z := rowround (columnround x).

(** Splits a list of sixteen words into its elements. *)
Ltac words16 x H :=
  do 16 (destruct x as [|? x]; [discriminate H|]); destruct x; [|discriminate H].

Lemma salsa_2x_doubleround x : length x = 16%nat -> salsa_2x x = doubleround x.
Proof. intros H. words16 x H. cbv -[ROTATE PLUS Z.lxor]. reflexivity. Qed.

Lemma length_doubleround x : length (doubleround x) = 16%nat.
Proof. reflexivity. Qed.

Lemma length_salsa_2x x : length x = 16%nat -> length (salsa_2x x) = 16%nat.
Proof. intros H. rewrite salsa_2x_doubleround by done. apply length_doubleround. Qed.

(** ** The SSE2 rounds *)

(** The order of the state in the SSE2 implementation. *)
Definition sse_order : list nat := [0; 5; 10; 15; 4; 9; 14; 3; 8; 13; 2; 7; 12; 1; 6; 11]%nat.
Definition pack (x : list Z) : list Z := word x <$> sse_order.

Lemma mix_rotate x t c :
  0 < c < 32 -> is_u32 t ->
  Z.lxor (Z.lxor x (u32 (Z.shiftl t c))) (Z.shiftr t (32 - c)) = Z.lxor x (ROTATE t c).
Proof.
  intros Hc Ht. rewrite Z.lxor_assoc. f_equal. apply Z.lxor_lor.
  apply (land_disjoint c); [lia| |].
  - rewrite Z.shiftl_mul_pow2 by lia. unfold u32, wrap.
    rewrite <- (Znumtheory.Zmod_div_mod (2 ^ c) (2 ^ 32)); [|lia|lia|].
    + apply Z.mod_mul. lia.
    + exists (2 ^ (32 - c)). rewrite <- Z.pow_add_r by lia. f_equal. lia.
  - apply in_range_shiftr; [lia|lia|]. by replace (c + (32 - c)) with 32 by lia.
Qed.

Lemma sse_mix_rotate X A B c :
  0 < c < 32 ->
  sse_mix X (mm_add_epi32 A B) c = v_map2 (fun x t => Z.lxor x (ROTATE t c)) X (mm_add_epi32 A B).
Proof.
  intros Hc. unfold sse_mix, mm_xor_si128, mm_slli_epi32, mm_srli_epi32, mm_add_epi32, v_map2, v_map.
  cbn [v_0 v_1 v_2 v_3]. by rewrite !mix_rotate by (done || apply wrap_range; lia).
Qed.

Lemma sse_2x_pack x :
  length x = 16%nat -> sse_2x (sse_load (pack x)) = sse_load (pack (salsa_2x x)).
Proof.
  intros H. rewrite salsa_2x_doubleround by done. words16 x H.
  unfold sse_2x, sse_load. rewrite !sse_mix_rotate by lia.
  cbv -[ROTATE u32 Z.add Z.lxor]. reflexivity.
Qed.

Lemma sse_iter_pack n x :
  length x = 16%nat ->
  Nat.iter n sse_2x (sse_load (pack x)) = sse_load (pack (Nat.iter n salsa_2x x)) /\
  length (Nat.iter n salsa_2x x) = 16%nat.
Proof.
  intros Hx. induction n as [|n [IH Hl]]; [done|]. cbn [Nat.iter nat_rect]. fold (Nat.iter n sse_2x).
  split; [|by apply length_salsa_2x]. change (nat_rect _ _ _ n) with (Nat.iter n sse_2x (sse_load (pack x))) at 1.
  rewrite IH. by apply sse_2x_pack.
Qed.

Lemma land_all_u32 x : Z.land (u32 x) (2 ^ 32 - 1) = u32 x.
Proof. rewrite land_mask by lia. apply Z.mod_small, wrap_range. lia. Qed.

Lemma shuffle_reverse a : mm_shuffle_epi32 a (MM_SHUFFLE 0 1 2 3) = mkV (v_3 a) (v_2 a) (v_1 a) (v_0 a).
Proof. reflexivity. Qed.

Lemma masks : maskLo32 = mkV (2 ^ 32 - 1) 0 (2 ^ 32 - 1) 0 /\ maskHi32 = mkV 0 (2 ^ 32 - 1) 0 (2 ^ 32 - 1).
Proof. split; reflexivity. Qed.

Lemma sse_output_pack x j m :
  length x = 16%nat -> length j = 16%nat -> length m = 16%nat ->
  sse_output (sse_load (pack x)) (sse_load (pack j)) m = salsa_output x j m.
Proof.
  intros Hx Hj Hm. words16 x Hx. words16 j Hj. words16 m Hm.
  unfold sse_output, sse_load, salsa_output. rewrite !shuffle_reverse.
  destruct masks as [-> ->]. cbv -[Z.land Z.lor Z.lxor u32 Z.add].
  change 4294967295 with (2 ^ 32 - 1).
  rewrite ?land_all_u32, ?Z.land_0_r, ?Z.lor_0_l, ?Z.lor_0_r.
  repeat (apply (f_equal2 cons); [f_equal; f_equal; apply Z.add_comm|]). reflexivity.
Qed.

Lemma sse_next_pack j : length j = 16%nat -> sse_next (pack j) = pack (salsa_next j).
Proof.
  intros Hj. words16 j Hj. unfold sse_next, salsa_next.
  change (word (pack _) 8) with z7. change (word _ 8) with z7.
  destruct (u32 (z7 + 1) =? 0); reflexivity.
Qed.

Lemma length_salsa_next j : length (salsa_next j) = length j.
Proof. unfold salsa_next. destruct (_ =? 0); by rewrite ?length_insert. Qed.

(** ** The key stream *)

Lemma length_words_of m : length (words_of m) = 16%nat.
Proof. unfold words_of. by rewrite length_fmap, length_seq. Qed.

Lemma bytes_of_cons x w : bytes_of (x :: w) = le_bytes 4 x ++ bytes_of w.
Proof. reflexivity. Qed.

Lemma length_bytes_of w : length (bytes_of w) = (4 * length w)%nat.
Proof.
  induction w as [|x w IH]; [done|]. rewrite bytes_of_cons, length_app, length_le_bytes, IH.
  cbn [length]. lia.
Qed.

Lemma bytes_of_bytes w : Forall is_byte (bytes_of w).
Proof.
  induction w as [|x w IH]; [done|]. rewrite bytes_of_cons.
  apply Forall_app_2; [apply le_bytes_bytes|done].
Qed.

Lemma bytes_of_words n k m :
  Forall is_byte m -> length m = (4 * (k + n))%nat ->
  bytes_of ((fun i => le_val (take 4 (drop (4 * i) m))) <$> seq k n) = drop (4 * k) m.
Proof.
  intros Hm. revert k. induction n as [|n IH]; intros k Hl; cbn [seq].
  { rewrite drop_ge; [done|lia]. }
  rewrite fmap_cons, bytes_of_cons, IH by lia.
  rewrite <- (take_drop 4 (drop (4 * k) m)) at 2. f_equal.
  - assert (Ht : length (take 4 (drop (4 * k) m)) = 4%nat) by (rewrite length_take, length_drop; lia).
    rewrite <- Ht at 1. apply le_bytes_le_val. by apply Forall_take, Forall_drop.
  - rewrite drop_drop. f_equal. lia.
Qed.

Lemma bytes_words m : Forall is_byte m -> length m = 64%nat -> bytes_of (words_of m) = m.
Proof. intros Hm Hl. unfold words_of. by rewrite (bytes_of_words 16 0) by done. Qed.

Lemma bytes_of_lxor a b :
  length a = length b -> bytes_of (zip_with Z.lxor a b) = zip_with Z.lxor (bytes_of a) (bytes_of b).
Proof.
  revert b. induction a as [|x a IH]; intros [|y b] Hl; try done. cbn [zip_with]. cbn in Hl.
  rewrite !bytes_of_cons, zip_with_app by (by rewrite !length_le_bytes).
  by rewrite IH, zip_lxor_le_bytes by lia.
Qed.

Lemma lxor_twice (a b : list Z) : length a = length b -> zip_with Z.lxor (zip_with Z.lxor a b) b = a.
Proof.
  revert b. induction a as [|x a IH]; intros [|y b] Hl; try done. cbn in *.
  rewrite Z.lxor_assoc, Z.lxor_nilpotent, Z.lxor_0_r. f_equal. apply IH. lia.
Qed.

Lemma zip_with_take_l {A B D} (f : A -> B -> D) n l k : take n (zip_with f l k) = zip_with f (take n l) k.
Proof. revert l k. induction n as [|n IH]; intros [|x l] [|y k]; cbn; try done. by rewrite IH. Qed.

Lemma zip_lxor_comm (a b : list Z) : zip_with Z.lxor a b = zip_with Z.lxor b a.
Proof. revert b. induction a as [|x a IH]; intros [|y b]; cbn; try done. by rewrite IH, Z.lxor_comm. Qed.

Lemma zip_lxor_bytes (a b : list Z) :
  Forall is_byte a -> Forall is_byte b -> Forall is_byte (zip_with Z.lxor a b).
Proof.
  intros Ha. revert b. induction Ha as [|x a Hx Ha IH]; intros b Hb; [done|].
  destruct Hb as [|y b Hy Hb]; cbn; [done|]. constructor; [by apply in_range_lxor|by apply IH].
Qed.

Lemma zip_with_app_r_long {A B D} (f : A -> B -> D) l k k' :
  (length l <= length k)%nat -> zip_with f l (k ++ k') = zip_with f l k.
Proof. revert k. induction l as [|x l IH]; intros [|y k] Hl; cbn in *; try done; [lia|]. by rewrite IH by lia. Qed.

(** [n] blocks of key stream from the state [j]. *)
Fixpoint keystream (rounds : list Z -> list Z) (n : nat) (j : list Z) : list Z :=
  match n with
  | O => []
  | S n => bytes_of (zip_with PLUS (rounds j) j) ++ keystream rounds n (salsa_next j)
  end.

(** The number of blocks a message takes. *)
Definition nblocks (m : list Z) : nat := (length m + 63) / 64.

Section Stream.
Context (rounds : list Z -> list Z).
Hypothesis rounds_len : forall j, length j = 16%nat -> length (rounds j) = 16%nat.
Let block (j m : list Z) : list Z := salsa_output (rounds j) j m.

Lemma length_keystream n j : length j = 16%nat -> length (keystream rounds n j) = (64 * n)%nat.
Proof.
  revert j. induction n as [|n IH]; intros j Hj; cbn [keystream]; [done|].
  rewrite length_app, length_bytes_of, length_zip_with, rounds_len, Hj, IH by (by rewrite ?length_salsa_next).
  lia.
Qed.

Lemma block_bytes j m :
  length j = 16%nat -> Forall is_byte m -> length m = 64%nat ->
  bytes_of (block j (words_of m)) = zip_with Z.lxor m (bytes_of (zip_with PLUS (rounds j) j)).
Proof.
  intros Hj Hm Hl. unfold block, salsa_output.
  rewrite bytes_of_lxor by (by rewrite length_zip_with, length_words_of, rounds_len, Hj).
  rewrite bytes_words by done. apply zip_lxor_comm.
Qed.

Lemma keystream_bytes n j : Forall is_byte (keystream rounds n j).
Proof.
  revert j. induction n as [|n IH]; intros j; cbn [keystream]; [done|].
  apply Forall_app_2; [apply bytes_of_bytes|apply IH].
Qed.

Lemma nblocks_step m : (64 < length m)%nat -> nblocks m = S (nblocks (drop 64 m)).
Proof.
  intros H. unfold nblocks. rewrite length_drop.
  replace (length m + 63)%nat with (length m - 64 + 63 + 1 * 64)%nat by lia.
  rewrite Nat.div_add by lia. lia.
Qed.

Lemma nblocks_one m : (0 < length m <= 64)%nat -> nblocks m = 1%nat.
Proof.
  intros H. unfold nblocks. symmetry. apply (Nat.div_unique _ 64 1 (length m - 1)); lia.
Qed.

Lemma crypt_loop_stream fuel tmp j m :
  length tmp = 64%nat -> Forall is_byte tmp -> length j = 16%nat -> Forall is_byte m ->
  (0 < length m <= 64 * fuel)%nat ->
  crypt_loop block salsa_next fuel tmp j m =
  (zip_with Z.lxor m (keystream rounds (nblocks m) j), Nat.iter (nblocks m) salsa_next j).
Proof.
  intros Ht Htb. revert j m. induction fuel as [|fuel IH]; intros j m Hj Hm Hl; [lia|].
  cbn [crypt_loop]. destruct (Nat.ltb_spec (length m) 64) as [Hlt|Hge].
  - rewrite nblocks_one by lia. cbn [keystream Nat.iter nat_rect]. rewrite app_nil_r.
    rewrite block_bytes; [|done|by apply Forall_app_2; [|apply Forall_drop]
      |rewrite length_app, length_drop; lia].
    by rewrite zip_with_take_l, take_app_length.
  - rewrite block_bytes; [|done|by apply Forall_take|rewrite length_take; lia].
    destruct (Nat.leb_spec (length m) 64) as [Hle|Hgt].
    + rewrite nblocks_one by lia. cbn [keystream Nat.iter nat_rect]. by rewrite app_nil_r, take_ge by lia.
    + rewrite IH; [|by rewrite length_salsa_next|by apply Forall_drop|rewrite length_drop; lia].
      rewrite (nblocks_step m) by done. rewrite Nat.iter_succ_r. f_equal. cbn [keystream].
      rewrite <- zip_with_app, take_drop; [done|].
      rewrite length_bytes_of, length_zip_with, rounds_len, Hj, length_take by done. lia.
Qed.

Lemma crypt_stream tmp j m :
  length tmp = 64%nat -> Forall is_byte tmp -> length j = 16%nat -> Forall is_byte m ->
  crypt block salsa_next tmp j m =
  (zip_with Z.lxor m (keystream rounds (nblocks m) j), Nat.iter (nblocks m) salsa_next j).
Proof.
  intros Ht Htb Hj Hm. unfold crypt. destruct (Nat.eqb_spec (length m) 0) as [Hz|Hz].
  - apply nil_length_inv in Hz as ->. done.
  - apply crypt_loop_stream; [done..|lia].
Qed.

Lemma crypt_twice tmp tmp' j m :
  length tmp = 64%nat -> Forall is_byte tmp -> length tmp' = 64%nat -> Forall is_byte tmp' ->
  length j = 16%nat -> Forall is_byte m ->
  fst (crypt block salsa_next tmp' j (fst (crypt block salsa_next tmp j m))) = m.
Proof.
  intros Ht Htb Ht' Htb' Hj Hm. rewrite (crypt_stream tmp) by done. cbn [fst].
  pose proof (keystream_bytes (nblocks m) j) as Hkb.
  assert (Hk : (length m <= length (keystream rounds (nblocks m) j))%nat).
  { rewrite length_keystream by done. unfold nblocks.
    pose proof (Nat.div_mod (length m + 63) 64). pose proof (Nat.mod_upper_bound (length m + 63) 64). lia. }
  assert (Hx : length (zip_with Z.lxor m (keystream rounds (nblocks m) j)) = length m)
    by (rewrite length_zip_with; lia).
  rewrite (crypt_stream tmp') by (try done; by apply zip_lxor_bytes). cbn [fst].
  assert (Hn : nblocks (zip_with Z.lxor m (keystream rounds (nblocks m) j)) = nblocks m)
    by (unfold nblocks at 1; by rewrite Hx).
  rewrite Hn. revert Hk Hx. clear. generalize (keystream rounds (nblocks m) j). intros ks Hk Hx.
  rewrite <- (take_drop (length m) ks) in Hx |- *.
  assert (Hl : length (take (length m) ks) = length m) by (rewrite length_take; lia).
  rewrite !zip_with_app_r_long in * by (rewrite ?length_zip_with; lia).
  by apply lxor_twice.
Qed.

End Stream.

(** The loop only depends on its block function through related states. *)
Lemma crypt_loop_pack block1 block2 fuel tmp j m :
  (forall j w, length j = 16%nat -> length w = 16%nat -> block1 (pack j) w = block2 j w) ->
  length j = 16%nat ->
  crypt_loop block1 sse_next fuel tmp (pack j) m =
  prod_map id pack (crypt_loop block2 salsa_next fuel tmp j m).
Proof.
  intros Hb. revert j m. induction fuel as [|fuel IH]; intros j m Hj; [done|]. cbn [crypt_loop].
  rewrite !Hb, sse_next_pack by (done || apply length_words_of).
  destruct (_ <? _)%nat; [done|]. destruct (_ <=? _)%nat; [done|].
  rewrite IH by (by rewrite length_salsa_next).
  by destruct (crypt_loop block2 _ _ _ _ _) as [rest j'].
Qed.

Lemma length_rounds12 j : length j = 16%nat -> length (salsa_rounds12 j) = 16%nat.
Proof. intros. by apply sse_iter_pack. Qed.

Lemma length_rounds20 j : length j = 16%nat -> length (salsa_rounds20 j) = 16%nat.
Proof. intros. by apply sse_iter_pack. Qed.

Lemma sse_block12_pack j w :
  length j = 16%nat -> length w = 16%nat -> sse_block12 (pack j) w = salsa_block12 j w.
Proof.
  intros Hj Hw. unfold sse_block12, sse_rounds12. destruct (sse_iter_pack 6 j Hj) as [-> Hl].
  by apply sse_output_pack.
Qed.

Lemma sse_block20_pack j w :
  length j = 16%nat -> length w = 16%nat -> sse_block20 (pack j) w = salsa_block20 j w.
Proof.
  intros Hj Hw. unfold sse_block20, sse_rounds20. destruct (sse_iter_pack 10 j Hj) as [-> Hl].
  by apply sse_output_pack.
Qed.

Lemma crypt_pack block1 block2 tmp j m :
  (forall j w, length j = 16%nat -> length w = 16%nat -> block1 (pack j) w = block2 j w) ->
  length j = 16%nat ->
  crypt block1 sse_next tmp (pack j) m = prod_map id pack (crypt block2 salsa_next tmp j m).
Proof. intros Hb Hj. unfold crypt. destruct (_ =? _)%nat; [done|]. by apply crypt_loop_pack. Qed.

(** ** Properties *)

(** the SSE2 implementation and the scalar one are the same cipher: from the states
    their init functions build, crypt12 and crypt20 give the same output for every
    message, and the states stay the same up to the order of their words. *)
Theorem Salsa20_sse_equivalent key iv tmp m :
  let s := Salsa20_init key iv in
  Salsa20_init_sse key iv = pack s /\
  Salsa20_crypt12_sse tmp (pack s) m = prod_map id pack (Salsa20_crypt12 tmp s m) /\
  Salsa20_crypt20_sse tmp (pack s) m = prod_map id pack (Salsa20_crypt20 tmp s m).
Proof.
  split_and!; [reflexivity|apply crypt_pack; [apply sse_block12_pack|done]
    |apply crypt_pack; [apply sse_block20_pack|done]].
Qed.

(** the code's unrolled rounds are the double rounds of the Salsa20 definition, and
    encryption is the exclusive or of the message with the key stream they generate, one
    64-byte block per counter value, whatever the temporary block holds. *)
Theorem Salsa20_is_stream_cipher tmp s m :
  length tmp = 64%nat -> Forall is_byte tmp -> length s = 16%nat -> Forall is_byte m ->
  (forall x, length x = 16%nat -> salsa_2x x = doubleround x) /\
  Salsa20_crypt12 tmp s m =
    (zip_with Z.lxor m (keystream salsa_rounds12 (nblocks m) s), Nat.iter (nblocks m) salsa_next s) /\
  Salsa20_crypt20 tmp s m =
    (zip_with Z.lxor m (keystream salsa_rounds20 (nblocks m) s), Nat.iter (nblocks m) salsa_next s).
Proof.
  intros Ht Htb Hs Hm. split_and!; [apply salsa_2x_doubleround
    |by apply (crypt_stream salsa_rounds12 length_rounds12)
    |by apply (crypt_stream salsa_rounds20 length_rounds20)].
Qed.

Lemma Salsa20_is_stream_cipher_witness :
  let s := Salsa20_init (128 :: replicate 31 0) (replicate 8 0) in
  fst (Salsa20_crypt20 (replicate 64 7) s (replicate 4 0)) = [0xe3; 0xbe; 0x8f; 0xdd].
Proof.
  intros s. destruct (Salsa20_is_stream_cipher (replicate 64 7) s (replicate 4 0)) as (_ & _ & ->).
  - reflexivity.
  - by apply Forall_replicate.
  - reflexivity.
  - by apply Forall_replicate.
  - vm_compute. reflexivity.
Defined.

(** decrypting with a cipher in the same initial state gives the message back. *)
Theorem Salsa20_decrypt_encrypt tmp tmp' s m :
  length tmp = 64%nat -> Forall is_byte tmp -> length tmp' = 64%nat -> Forall is_byte tmp' ->
  length s = 16%nat -> Forall is_byte m ->
  fst (Salsa20_crypt12 tmp' s (fst (Salsa20_crypt12 tmp s m))) = m /\
  fst (Salsa20_crypt20 tmp' s (fst (Salsa20_crypt20 tmp s m))) = m.
Proof.
  intros. split; [by apply (crypt_twice salsa_rounds12 length_rounds12)
    |by apply (crypt_twice salsa_rounds20 length_rounds20)].
Qed.

Lemma Salsa20_decrypt_encrypt_witness :
  let s := Salsa20_init (Z.of_nat <$> seq 0 32) (Z.of_nat <$> seq 0 8) in
  fst (Salsa20_crypt12 (replicate 64 0) s (fst (Salsa20_crypt12 (replicate 64 7) s [104; 105]))) = [104; 105].
Proof.
  intros s. apply (Salsa20_decrypt_encrypt (replicate 64 7) (replicate 64 0) s [104; 105]);
    first [reflexivity|apply (bool_decide_unpack _); vm_compute; exact I].
Defined.
