(* ===== verification/SHA512.v ===== *)
(** SHA-512 as node/SHA512.cpp computes it without a system library: the compression
    loop over the message words expanded in place, the big-endian state bytes it is
    carried in, and the padding of [SHA512::hash].

    [sha512_spec] is the hash of FIPS 180-4 over the padded message with its schedule of
    eighty words; the code is proved equal to it for every message of 32-bit length. *)
From S2P Require Import Prelude.

(** ** The macros *)

Definition sha_SHR (x c : Z) : Z := Z.shiftr x c.
Definition sha_ROTR (x c : Z) : Z := Z.lor (Z.shiftr x c) (u64 (Z.shiftl x (64 - c))).
(** [~x] of a 64-bit word. *)
Definition not64 (x : Z) : Z := Z.lxor x (2 ^ 64 - 1).
Definition sha_Ch (x y z : Z) : Z := Z.lxor (Z.land x y) (Z.land (not64 x) z).
Definition sha_Maj (x y z : Z) : Z := Z.lxor (Z.lxor (Z.land x y) (Z.land x z)) (Z.land y z).
Definition Sigma0 (x : Z) : Z := Z.lxor (Z.lxor (sha_ROTR x 28) (sha_ROTR x 34)) (sha_ROTR x 39).
Definition Sigma1 (x : Z) : Z := Z.lxor (Z.lxor (sha_ROTR x 14) (sha_ROTR x 18)) (sha_ROTR x 41).
Definition sigma0 (x : Z) : Z := Z.lxor (Z.lxor (sha_ROTR x 1) (sha_ROTR x 8)) (sha_SHR x 7).
Definition sigma1 (x : Z) : Z := Z.lxor (Z.lxor (sha_ROTR x 19) (sha_ROTR x 61)) (sha_SHR x 6).

Definition add64 (x y : Z) : Z := u64 (x + y).

Definition sha_word (w : list Z) (i : nat) : Z := nth i w 0.

(** [w0 = sigma1(w14) + w9 + sigma0(w1) + w0] on the words with the given numbers. *)
Definition sha_M (w : list Z) (s : nat * nat * nat * nat) : list Z :=
  let '(w0, w14, w9, w1) := s in
  <[w0 := add64 (add64 (add64 (sigma1 (sha_word w w14)) (sha_word w w9)) (sigma0 (sha_word w w1)))
            (sha_word w w0)]> w.

Definition expand_steps : list (nat * nat * nat * nat) :=
  [(0, 14, 9, 1); (1, 15, 10, 2); (2, 0, 11, 3); (3, 1, 12, 4); (4, 2, 13, 5); (5, 3, 14,
   6); (6, 4, 15, 7); (7, 5, 0, 8); (8, 6, 1, 9); (9, 7, 2, 10); (10, 8, 3, 11); (11, 9, 4,
   12); (12, 10, 5, 13); (13, 11, 6, 14); (14, 12, 7, 15); (15, 13, 8, 0)]%nat.

Definition sha_EXPAND (w : list Z) : list Z := foldl sha_M w expand_steps.

(** The working variables [a] to [h]. *)
Record sha_regs : Type := mkRegs {
  r_a : Z; r_b : Z; r_c : Z; r_d : Z; r_e : Z; r_f : Z; r_g : Z; r_h : Z
}.

Definition sha_F (r : sha_regs) (wk : Z * Z) : sha_regs :=
  let '(w, k) := wk in
  let '(mkRegs a b c d e f g h) := r in
  let T1 := add64 (add64 (add64 (add64 h (Sigma1 e)) (sha_Ch e f g)) k) w in
  let T2 := add64 (Sigma0 a) (sha_Maj a b c) in
  mkRegs (add64 T1 T2) a b c (add64 d T1) e f g.

(** The constants of the eighty uses of [F]. *)
Definition sha_K : list Z :=
  [0x428a2f98d728ae22; 0x7137449123ef65cd; 0xb5c0fbcfec4d3b2f; 0xe9b5dba58189dbbc;
   0x3956c25bf348b538; 0x59f111f1b605d019; 0x923f82a4af194f9b; 0xab1c5ed5da6d8118;
   0xd807aa98a3030242; 0x12835b0145706fbe; 0x243185be4ee4b28c; 0x550c7dc3d5ffb4e2;
   0x72be5d74f27b896f; 0x80deb1fe3b1696b1; 0x9bdc06a725c71235; 0xc19bf174cf692694;
   0xe49b69c19ef14ad2; 0xefbe4786384f25e3; 0x0fc19dc68b8cd5b5; 0x240ca1cc77ac9c65;
   0x2de92c6f592b0275; 0x4a7484aa6ea6e483; 0x5cb0a9dcbd41fbd4; 0x76f988da831153b5;
   0x983e5152ee66dfab; 0xa831c66d2db43210; 0xb00327c898fb213f; 0xbf597fc7beef0ee4;
   0xc6e00bf33da88fc2; 0xd5a79147930aa725; 0x06ca6351e003826f; 0x142929670a0e6e70;
   0x27b70a8546d22ffc; 0x2e1b21385c26c926; 0x4d2c6dfc5ac42aed; 0x53380d139d95b3df;
   0x650a73548baf63de; 0x766a0abb3c77b2a8; 0x81c2c92e47edaee6; 0x92722c851482353b;
   0xa2bfe8a14cf10364; 0xa81a664bbc423001; 0xc24b8b70d0f89791; 0xc76c51a30654be30;
   0xd192e819d6ef5218; 0xd69906245565a910; 0xf40e35855771202a; 0x106aa07032bbd1b8;
   0x19a4c116b8d2d0c8; 0x1e376c085141ab53; 0x2748774cdf8eeb99; 0x34b0bcb5e19b48a8;
   0x391c0cb3c5c95a63; 0x4ed8aa4ae3418acb; 0x5b9cca4f7763e373; 0x682e6ff3d6b2b8a3;
   0x748f82ee5defb2fc; 0x78a5636f43172f60; 0x84c87814a1f0ab72; 0x8cc702081a6439ec;
   0x90befffa23631e28; 0xa4506cebde82bde9; 0xbef9a3f7b2c67915; 0xc67178f2e372532b;
   0xca273eceea26619c; 0xd186b8c721c0c207; 0xeada7dd6cde0eb1e; 0xf57d4f7fee6ed178;
   0x06f067aa72176fba; 0x0a637dc5a2c898a6; 0x113f9804bef90dae; 0x1b710b35131c471b;
   0x28db77f523047d84; 0x32caab7b40c72493; 0x3c9ebe0a15c9bebc; 0x431d67c49c100d4c;
   0x4cc5d4becb3e42b6; 0x597f299cfc657e2a; 0x5fcb6fab3ad6faec; 0x6c44198c4a475817].

(** Sixteen uses of [F] with the words [w] and the constants from number [k] on. *)
Definition sha_16 (k : nat) (w : list Z) (r : sha_regs) : sha_regs :=
  foldl sha_F r (zip w (take 16 (drop k sha_K))).

(** ** The compression loop *)

Definition load_bigendian (x : list Z) (off : nat) : Z := be_val (take 8 (drop off x)).

Definition sha_load_words (m : list Z) : list Z := (fun i => load_bigendian m (8 * i)) <$> seq 0 16.

Definition sha_add (r s : sha_regs) : sha_regs :=
  mkRegs (add64 (r_a r) (r_a s)) (add64 (r_b r) (r_b s)) (add64 (r_c r) (r_c s)) (add64 (r_d r) (r_d s))
    (add64 (r_e r) (r_e s)) (add64 (r_f r) (r_f s)) (add64 (r_g r) (r_g s)) (add64 (r_h r) (r_h s)).

(** One turn of the loop: [state] is both the array and the working variables. *)
Definition sha_block (state : sha_regs) (m : list Z) : sha_regs :=
  let w := sha_load_words m in
  let r := sha_16 0 w state in
  let w := sha_EXPAND w in
  let r := sha_16 16 w r in
  let w := sha_EXPAND w in
  let r := sha_16 32 w r in
  let w := sha_EXPAND w in
  let r := sha_16 48 w r in
  let w := sha_EXPAND w in
  let r := sha_16 64 w r in
  sha_add r state.

(** [while (inlen >= 128)], [n] times. *)
Fixpoint sha_loop (n : nat) (state : sha_regs) (m : list Z) : sha_regs :=
  match n with
  | O => state
  | S n => sha_loop n (sha_block state (take 128 m)) (drop 128 m)
  end.

Definition sha_load_state (b : list Z) : sha_regs :=
  mkRegs (load_bigendian b 0) (load_bigendian b 8) (load_bigendian b 16) (load_bigendian b 24)
    (load_bigendian b 32) (load_bigendian b 40) (load_bigendian b 48) (load_bigendian b 56).

Definition sha_store_state (r : sha_regs) : list Z :=
  be_bytes 8 (r_a r) ++ be_bytes 8 (r_b r) ++ be_bytes 8 (r_c r) ++ be_bytes 8 (r_d r) ++
  be_bytes 8 (r_e r) ++ be_bytes 8 (r_f r) ++ be_bytes 8 (r_g r) ++ be_bytes 8 (r_h r).

Definition crypto_hashblocks (statebytes m : list Z) : list Z :=
  sha_store_state (sha_loop (length m / 128) (sha_load_state statebytes) m).

(** ** The hash *)

Definition sha_iv : list Z :=
  [0x6a; 0x09; 0xe6; 0x67; 0xf3; 0xbc; 0xc9; 0x08;
   0xbb; 0x67; 0xae; 0x85; 0x84; 0xca; 0xa7; 0x3b;
   0x3c; 0x6e; 0xf3; 0x72; 0xfe; 0x94; 0xf8; 0x2b;
   0xa5; 0x4f; 0xf5; 0x3a; 0x5f; 0x1d; 0x36; 0xf1;
   0x51; 0x0e; 0x52; 0x7f; 0xad; 0xe6; 0x82; 0xd1;
   0x9b; 0x05; 0x68; 0x8c; 0x2b; 0x3e; 0x6c; 0x1f;
   0x1f; 0x83; 0xd9; 0xab; 0xfb; 0x41; 0xbd; 0x6b;
   0x5b; 0xe0; 0xcd; 0x19; 0x13; 0x7e; 0x21; 0x79].

(** The nine bytes [padded[119..127]] or [padded[247..255]]. *)
Definition sha_length_bytes (bytes : Z) : list Z :=
  [Z.land (Z.shiftr bytes 61) 255; Z.land (Z.shiftr bytes 53) 255; Z.land (Z.shiftr bytes 45) 255;
   Z.land (Z.shiftr bytes 37) 255; Z.land (Z.shiftr bytes 29) 255; Z.land (Z.shiftr bytes 21) 255;
   Z.land (Z.shiftr bytes 13) 255; Z.land (Z.shiftr bytes 5) 255; Z.land (u64 (Z.shiftl bytes 3)) 255].

(** [data] with its length as the [unsigned int] argument. *)
Definition SHA512_hash (data : list Z) : list Z :=
  let len := length data in
  let h := crypto_hashblocks sha_iv data in
  let inlen := Z.to_nat (Z.land (Z.of_nat len) 127) in
  let tail := drop (len - inlen) data in
  let bytes := Z.of_nat len in
  if (inlen <? 112)%nat then
    crypto_hashblocks h (tail ++ [0x80] ++ replicate (119 - (inlen + 1)) 0 ++ sha_length_bytes bytes)
  else
    crypto_hashblocks h (tail ++ [0x80] ++ replicate (247 - (inlen + 1)) 0 ++ sha_length_bytes bytes).

(** ** Specification *)

(** The next word of the schedule, from the words so far. *)
Definition schedule_next (W : list Z) : list Z :=
  let t := length W in
  W ++ [add64 (add64 (add64 (sigma1 (sha_word W (t - 2))) (sha_word W (t - 7)))
                (sigma0 (sha_word W (t - 15)))) (sha_word W (t - 16))].

(** The eighty words W_t of a block. *)
Definition schedule (m : list Z) : list Z := Nat.iter 64 schedule_next (sha_load_words m).

Definition compress_spec (H : sha_regs) (m : list Z) : sha_regs :=
  sha_add (foldl sha_F H (zip (schedule m) sha_K)) H.

(** A one bit, the least number of zeros and the length in bits as a 128-bit number fill
    the message to a multiple of 128 bytes. *)
Definition sha512_pad (m : list Z) : list Z :=
  m ++ [0x80] ++ replicate (Z.to_nat ((111 - zlen m) mod 128)) 0 ++ be_bytes 16 (8 * zlen m).

(** The blocks of 128 bytes of a message of that many blocks. *)
Definition sha_blocks (m : list Z) : list (list Z) :=
  (fun i => take 128 (drop (128 * i) m)) <$> seq 0 (length m / 128).

Definition H0 : sha_regs :=
  mkRegs 0x6a09e667f3bcc908 0xbb67ae8584caa73b 0x3c6ef372fe94f82b 0xa54ff53a5f1d36f1
    0x510e527fade682d1 0x9b05688c2b3e6c1f 0x1f83d9abfb41bd6b 0x5be0cd19137e2179.

Definition sha512_spec (m : list Z) : list Z :=
  sha_store_state (foldl compress_spec H0 (sha_blocks (sha512_pad m))).

(** ** The schedule expanded in place *)

Ltac words16' x H :=
  do 16 (destruct x as [|? x]; [discriminate H|]); destruct x; [|discriminate H].

Lemma length_sha_EXPAND w : length w = 16%nat -> length (sha_EXPAND w) = 16%nat.
Proof. intros H. words16' w H. reflexivity. Qed.

Lemma length_schedule_next W : length (schedule_next W) = S (length W).
Proof. unfold schedule_next. rewrite length_app. cbn. lia. Qed.

Lemma length_schedule_iter n W : length (Nat.iter n schedule_next W) = (n + length W)%nat.
Proof. induction n as [|n IH]; [done|]. rewrite Nat.iter_succ, length_schedule_next, IH. lia. Qed.

(** A word depends on the sixteen words before it only. *)
Lemma schedule_next_app W w :
  (16 <= length w)%nat -> schedule_next (W ++ w) = W ++ schedule_next w.
Proof.
  intros Hw. unfold schedule_next, sha_word. rewrite length_app, <- (assoc_L (++)).
  rewrite !app_nth2 by lia.
  by replace (length W + length w - 2 - length W)%nat with (length w - 2)%nat by lia;
    replace (length W + length w - 7 - length W)%nat with (length w - 7)%nat by lia;
    replace (length W + length w - 15 - length W)%nat with (length w - 15)%nat by lia;
    replace (length W + length w - 16 - length W)%nat with (length w - 16)%nat by lia.
Qed.

Lemma schedule_iter_app n W w :
  (16 <= length w)%nat ->
  Nat.iter n schedule_next (W ++ w) = W ++ Nat.iter n schedule_next w.
Proof.
  intros Hw. induction n as [|n IH]; [done|]. rewrite !Nat.iter_succ, IH.
  apply schedule_next_app. rewrite length_schedule_iter. lia.
Qed.

Lemma schedule_iter_16 w :
  length w = 16%nat -> Nat.iter 16 schedule_next w = w ++ sha_EXPAND w.
Proof. intros H. words16' w H. cbv -[sigma0 sigma1 add64]. reflexivity. Qed.

Lemma schedule_iter_block n w :
  length w = 16%nat ->
  Nat.iter (n + 16) schedule_next w = w ++ Nat.iter n schedule_next (sha_EXPAND w).
Proof.
  intros Hw. rewrite Nat.iter_add, schedule_iter_16 by done.
  apply schedule_iter_app. by rewrite length_sha_EXPAND.
Qed.

Lemma sha_K_split :
  sha_K = take 16 (drop 0 sha_K) ++ take 16 (drop 16 sha_K) ++ take 16 (drop 32 sha_K) ++
          take 16 (drop 48 sha_K) ++ take 16 (drop 64 sha_K).
Proof. reflexivity. Qed.

Lemma length_load_words m : length (sha_load_words m) = 16%nat.
Proof. reflexivity. Qed.

(** The unrolled code is the loop over the eighty words of the schedule. *)
Lemma sha_block_spec st m : sha_block st m = compress_spec st m.
Proof.
  unfold sha_block, compress_spec, schedule. cbv zeta.
  pose proof (length_load_words m) as H. revert H. generalize (sha_load_words m). intros w H.
  pose proof (length_sha_EXPAND w H) as H1. pose proof (length_sha_EXPAND _ H1) as H2.
  pose proof (length_sha_EXPAND _ H2) as H3.
  change (Nat.iter 64) with (Nat.iter (A := list Z) (16 + 16 + 16 + 16)).
  rewrite !schedule_iter_block, schedule_iter_16 by done.
  rewrite sha_K_split. unfold sha_16.
  rewrite (zip_with_app _ w), (zip_with_app _ (sha_EXPAND w)), (zip_with_app _ (sha_EXPAND (sha_EXPAND w))),
    (zip_with_app _ (sha_EXPAND (sha_EXPAND (sha_EXPAND w)))) by (by rewrite ?H3, ?H2, ?H1, ?H).
  by rewrite !foldl_app.
Qed.

(** ** Blocks and state bytes *)

Lemma sha_loop_add n k st m : sha_loop (n + k) st m = sha_loop k (sha_loop n st m) (drop (128 * n) m).
Proof.
  revert st m. induction n as [|n IH]; intros st m; [done|]. cbn [Nat.add sha_loop].
  rewrite IH, drop_drop. by replace (128 + 128 * n)%nat with (128 * S n)%nat by lia.
Qed.

Lemma sha_loop_app n st m r : (128 * n <= length m)%nat -> sha_loop n st (m ++ r) = sha_loop n st m.
Proof.
  revert st m. induction n as [|n IH]; intros st m H; [done|]. cbn [sha_loop].
  rewrite take_app_le, drop_app_le by lia. apply IH. rewrite length_drop. lia.
Qed.

Lemma sha_loop_spec k n st m :
  sha_loop n st (drop (128 * k) m) =
  foldl compress_spec st ((fun i => take 128 (drop (128 * i) m)) <$> seq k n).
Proof.
  revert k st. induction n as [|n IH]; intros k st; [done|]. cbn [sha_loop seq fmap list_fmap foldl].
  rewrite sha_block_spec, drop_drop, <- IH. by replace (128 * k + 128)%nat with (128 * S k)%nat by lia.
Qed.

Definition regs_ok (r : sha_regs) : Prop :=
  is_u64 (r_a r) /\ is_u64 (r_b r) /\ is_u64 (r_c r) /\ is_u64 (r_d r) /\
  is_u64 (r_e r) /\ is_u64 (r_f r) /\ is_u64 (r_g r) /\ is_u64 (r_h r).

Lemma sha_loop_ok n st m : regs_ok st -> regs_ok (sha_loop n st m).
Proof.
  revert st m. induction n as [|n IH]; intros st m H; [done|]. apply IH.
  unfold sha_block, sha_add, regs_ok. cbv zeta. cbn [r_a r_b r_c r_d r_e r_f r_g r_h].
  split_and!; apply wrap_range; lia.
Qed.

Lemma load_store_state r : regs_ok r -> sha_load_state (sha_store_state r) = r.
Proof.
  destruct r as [a b c d e f g h]. unfold regs_ok. cbn [r_a r_b r_c r_d r_e r_f r_g r_h].
  intros (Ha & Hb & Hc & Hd & He & Hf & Hg & Hh).
  rewrite <- (be_val_be_bytes_id 8 a), <- (be_val_be_bytes_id 8 b), <- (be_val_be_bytes_id 8 c),
    <- (be_val_be_bytes_id 8 d), <- (be_val_be_bytes_id 8 e), <- (be_val_be_bytes_id 8 f),
    <- (be_val_be_bytes_id 8 g), <- (be_val_be_bytes_id 8 h) at 2 by done.
  reflexivity.
Qed.

Lemma hashblocks_twice st m1 m2 :
  regs_ok st ->
  crypto_hashblocks (crypto_hashblocks (sha_store_state st) m1) m2 =
  sha_store_state (sha_loop (length m2 / 128) (sha_loop (length m1 / 128) st m1) m2).
Proof.
  intros H. unfold crypto_hashblocks. rewrite (load_store_state st) by done.
  by rewrite load_store_state by (by apply sha_loop_ok).
Qed.

(** ** The padding *)

Lemma sha_length_bytes_spec b : 0 <= b -> sha_length_bytes b = be_bytes 9 (8 * b).
Proof.
  intros Hb. unfold sha_length_bytes, be_bytes. cbn [le_bytes]. cbn -[Z.land Z.shiftr Z.shiftl Z.mul u64].
  rewrite !Z.shiftr_shiftr by lia.
  change (8 * b) with (2 ^ 3 * b). rewrite !(Z.mul_comm (2 ^ 3)), <- !Z.shiftl_mul_pow2 by lia.
  rewrite !Z.shiftr_shiftl_r by lia.
  assert (H : Z.land (u64 (Z.shiftl b 3)) 255 = Z.land (Z.shiftl b 3) 255).
  { unfold u64, wrap. rewrite !land_255, <- Znumtheory.Zmod_div_mod; [done|lia|lia|].
    exists (2 ^ 56). reflexivity. }
  rewrite H. reflexivity.
Qed.

Lemma be_bytes_length128 v : in_range 72 v -> be_bytes 16 v = replicate 7 0 ++ be_bytes 9 v.
Proof.
  intros Hv. rewrite (be_bytes_app 7 9). f_equal. unfold in_range in Hv.
  rewrite Z.shiftr_div_pow2, Z.div_small by lia. reflexivity.
Qed.

(** What the second call of [blocks] gets is the last one or two blocks of the padded
    message. *)
Lemma sha512_pad_tail m :
  zlen m < 2 ^ 64 ->
  let inlen := (length m mod 128)%nat in
  drop (128 * (length m / 128)) (sha512_pad m) =
  drop (length m - inlen) m ++ [0x80] ++
  replicate ((if (inlen <? 112)%nat then 119 else 247) - (inlen + 1)) 0 ++ sha_length_bytes (zlen m).
Proof.
  intros Hm inlen. pose proof (Nat.div_mod (length m) 128 ltac:(lia)) as Hd.
  pose proof (Nat.mod_upper_bound (length m) 128 ltac:(lia)) as Hi. fold inlen in Hd, Hi.
  unfold sha512_pad. rewrite drop_app_le by lia.
  replace (128 * (length m / 128))%nat with (length m - inlen)%nat by lia.
  rewrite sha_length_bytes_spec by (unfold zlen; lia).
  rewrite be_bytes_length128 by (unfold in_range, zlen in *; lia).
  do 2 f_equal. rewrite (assoc_L (++)), <- replicate_add. do 2 f_equal.
  assert (Hz : (111 - zlen m) mod 128 = if (inlen <? 112)%nat then 111 - Z.of_nat inlen else 239 - Z.of_nat inlen).
  { unfold zlen. destruct (Nat.ltb_spec inlen 112); Z.div_mod_to_equations; lia. }
  rewrite Hz. destruct (Nat.ltb_spec inlen 112); lia.
Qed.

Lemma length_sha512_pad m :
  length (sha512_pad m) =
  (128 * (length m / 128) + if (length m mod 128 <? 112)%nat then 128 else 256)%nat.
Proof.
  pose proof (Nat.div_mod (length m) 128 ltac:(lia)) as Hd.
  pose proof (Nat.mod_upper_bound (length m) 128 ltac:(lia)) as Hi.
  unfold sha512_pad. rewrite !length_app, length_replicate, length_be_bytes. cbn [length]. unfold zlen.
  destruct (Nat.ltb_spec (length m mod 128) 112); Z.div_mod_to_equations; lia.
Qed.

Lemma land_127 n : Z.to_nat (Z.land (Z.of_nat n) 127) = (n mod 128)%nat.
Proof.
  change 127 with (2 ^ 7 - 1). rewrite land_mask by lia. change (2 ^ 7) with (Z.of_nat 128).
  rewrite <- Nat2Z.inj_mod. apply Nat2Z.id.
Qed.

Lemma SHA512_hash_spec m : zlen m < 2 ^ 64 -> SHA512_hash m = sha512_spec m.
Proof.
  intros Hm. unfold sha512_spec, sha_blocks.
  rewrite <- (sha_loop_spec 0), drop_0, length_sha512_pad.
  set (n := (length m / 128)%nat). set (i := (length m mod 128)%nat).
  assert (Hn : (128 * n <= length m)%nat).
  { unfold n. pose proof (Nat.div_mod (length m) 128 ltac:(lia)). lia. }
  replace ((128 * n + if (i <? 112)%nat then 128 else 256) / 128)%nat
    with (n + if (i <? 112)%nat then 1 else 2)%nat.
  2:{ rewrite (Nat.mul_comm 128), Nat.div_add_l by lia. by destruct (i <? 112)%nat. }
  rewrite sha_loop_add. unfold n at 2. rewrite sha512_pad_tail by done. fold i.
  unfold sha512_pad. rewrite (sha_loop_app n) by done.
  unfold SHA512_hash. cbv zeta. rewrite land_127. fold i. change sha_iv with (sha_store_state H0).
  fold (zlen m).
  assert (Hl : length (drop (length m - i) m) = i) by (rewrite length_drop; unfold i;
    pose proof (Nat.mod_le (length m) 128); lia).
  destruct (Nat.ltb_spec i 112) as [H|H]; (rewrite hashblocks_twice; [|by vm_compute]);
    do 2 f_equal; fold n; rewrite !length_app, length_replicate, Hl; unfold sha_length_bytes; cbn [length].
  - by replace (i + (1 + (119 - (i + 1) + 9)))%nat with 128%nat by lia.
  - pose proof (Nat.mod_upper_bound (length m) 128 ltac:(lia)) as Hi. fold i in Hi.
    by replace (i + (1 + (247 - (i + 1) + 9)))%nat with 256%nat by lia.
Qed.

(** ** Property *)

(** A block of 64 bytes; a digest is one. *)
Definition is_block (l : list Z) : Prop := length l = 64%nat /\ Forall is_byte l.

Lemma SHA512_hash_block m : is_block (SHA512_hash m).
Proof.
  assert (H : forall st m, is_block (crypto_hashblocks st m)).
  { intros st m'. unfold crypto_hashblocks, sha_store_state. split; [reflexivity|].
    repeat apply Forall_app_2; apply be_bytes_bytes. }
  unfold SHA512_hash. destruct (_ <? _)%nat; apply H.
Qed.

(** C28: [SHA512::hash] computes the SHA-512 of FIPS 180-4 for every message whose length
    fits its argument: the schedule expanded in place, the two calls on whole blocks and
    on the padded rest, and the state carried as bytes between them. *)
Theorem SHA512_hash_correct data :
  zlen data < 2 ^ 32 -> SHA512_hash data = sha512_spec data.
Proof. intros H. apply SHA512_hash_spec. lia. Qed.

Lemma SHA512_hash_correct_witness :
  take 8 (sha512_spec [97; 98; 99]) = [221; 175; 53; 161; 147; 97; 122; 186].
Proof. rewrite <- (SHA512_hash_correct [97; 98; 99]); [vm_compute; reflexivity|done]. Defined.
