(* ===== verification/Field25519.v ===== *)
(** The field of 2^255 - 19 elements in radix 256, as both halves of node/C25519.cpp have
    it: arrays of 32 words, of which the last digit may exceed a byte, and the columns of
    their products modulo 2^256 - 38. *)
From S2P Require Import Prelude.
From S2P Require Import Limbs.

(** The field. *)
Definition p25519 : Z := 2 ^ 255 - 19.

(** ** Field elements *)

(** Thirty-one bytes, and a last digit of at most [k]. *)
Definition limbs (k : Z) (a : list Z) : Prop :=
  exists l t, a = l ++ [t] /\ length l = 31%nat /\ Forall is_byte l /\ 0 <= t <= k.

Lemma limbs_weaken k k' a : limbs k a -> k <= k' -> limbs k' a.
Proof. intros (l & t & -> & Hl & Hb & Ht) Hk. exists l, t. repeat split; [done|done|lia|lia]. Qed.

Lemma limbs_length k a : limbs k a -> length a = 32%nat.
Proof. intros (l & t & -> & Hl & _). rewrite length_app, Hl. done. Qed.

Lemma limbs_range k a : limbs k a -> 0 <= le_val a < 256 ^ 31 * (k + 1).
Proof.
  intros (l & t & -> & Hl & Hb & Ht). rewrite le_val_snoc. pose proof (le_val_range l Hb) as Hr. unfold zlen, in_range in *. rewrite Hl in *.
  change (2 ^ (8 * Z.of_nat 31)) with (256 ^ 31) in Hr. change (Z.of_nat 31) with 31. nia.
Qed.

(** The two parts, as the functions take them. *)
Lemma take_snoc31 (l : list Z) t : length l = 31%nat -> take 31 (l ++ [t]) = l.
Proof. intros <-. apply take_app_length. Qed.

Lemma nth_snoc31 (l : list Z) t : length l = 31%nat -> nth 31 (l ++ [t]) 0 = t.
Proof. intros <-. rewrite app_nth2 by lia. by rewrite Nat.sub_diag. Qed.

Lemma split_snoc31 (a : list Z) : length a = 32%nat -> exists l t, a = l ++ [t] /\ length l = 31%nat.
Proof.
  intros Ha. destruct (decide (a = [])) as [->|Hn]; [done|]. destruct (exists_last Hn) as (l & t & ->). exists l, t.
  rewrite length_app in Ha. cbn [length] in Ha. split; [done|lia].
Qed.

Lemma byte_list_range l : length l = 31%nat -> Forall is_byte l -> 0 <= le_val l < 256 ^ 31.
Proof.
  intros Hl Hb. pose proof (le_val_range l Hb) as Hr. unfold zlen, in_range in *. rewrite Hl in *.
  change (2 ^ (8 * Z.of_nat 31)) with (256 ^ 31) in Hr. lia.
Qed.

Lemma le_val_snoc31 l t : length l = 31%nat -> le_val (l ++ [t]) = le_val l + 256 ^ 31 * t.
Proof. intros Hl. rewrite le_val_snoc. unfold zlen. by rewrite Hl. Qed.

Lemma limbs_nth k a j : limbs k a -> 255 <= k -> 0 <= nth j a 0 <= k.
Proof.
  intros (l & t & -> & Hl & Hb & Ht) Hk. destruct (decide (j < 31)%nat) as [Hj|Hj].
  - rewrite app_nth1 by lia. assert (is_byte (nth j l 0)) as Hby. { rewrite Forall_nth in Hb. apply Hb. lia. } unfold in_range in Hby. lia.
  - destruct (decide (j = 31)%nat) as [->|]; [by rewrite nth_snoc31|]. rewrite nth_overflow; [lia|]. rewrite length_app. cbn. lia.
Qed.

(** The column [i] of a product modulo 2^256 - 38, and its bound. *)
Definition column (f g : nat -> Z) (i : nat) : Z :=
  zsum (S i) (fun j => f j * g (i - j)%nat) + 38 * zsum (32 - S i) (fun j => f (S i + j)%nat * g (i + 32 - (S i + j))%nat).

Lemma column_bound f g i B :
  (forall j, 0 <= f j <= B) -> (forall j, 0 <= g j <= B) -> (i < 32)%nat -> 0 <= column f g i <= 38 * 32 * (B * B).
Proof.
  intros Hf Hg Hi. unfold column.
  pose proof (zsum_bound (S i) (fun j => f j * g (i - j)%nat) (B * B)) as H1.
  pose proof (zsum_bound (32 - S i) (fun j => f (S i + j)%nat * g (i + 32 - (S i + j))%nat) (B * B)) as H2.
  assert (forall j k, 0 <= f j * g k <= B * B) as Hp. { intros j k. specialize (Hf j). specialize (Hg k). nia. }
  specialize (H1 ltac:(intros; apply Hp)). specialize (H2 ltac:(intros; apply Hp)). specialize (Hp 0%nat 0%nat). nia.
Qed.

Lemma columns_val f g :
  zsum 32 (fun i => f i * 256 ^ Z.of_nat i) * zsum 32 (fun i => g i * 256 ^ Z.of_nat i) ≡
  zsum 32 (fun i => column f g i * 256 ^ Z.of_nat i) [mod p25519].
Proof.
  rewrite zsum_convolution. unfold column.
  erewrite (zsum_ext 32 (fun i => (_ + 38 * _) * _)); [|intros i _; rewrite Z.mul_add_distr_r, <- Z.mul_assoc; reflexivity].
  rewrite zsum_add, zsum_scale. apply eqm_add_proper; [done|]. apply eqm_mul_proper; [|done].
  apply (eqm_intro _ _ _ 2). vm_compute. reflexivity.
Qed.

Lemma limbs_words k a : limbs k a -> k < 2 ^ 32 -> Forall (in_range 32) a.
Proof.
  intros (l & t & -> & Hl & Hb & Ht) Hk. apply Forall_app. split; [|apply Forall_singleton; unfold in_range; lia].
  eapply Forall_impl; [exact Hb|]. unfold in_range. lia.
Qed.

Lemma limbs_bytes k a : limbs k a -> map u8 a = le_bytes 32 (le_val a).
Proof.
  intros (l & t & -> & Hl & Hb & Ht). rewrite map_app. cbn [map].
  assert (Hm : map u8 l = l). { clear Hl Ht. induction Hb as [|x l Hx Hb IH]; cbn [map]; [done|]. rewrite IH. by rewrite (wrap_id 8). }
  rewrite Hm, le_val_snoc31 by done. assert (Hbytes : Forall is_byte (l ++ [u8 t])). { apply Forall_app. split; [done|]. apply Forall_singleton. by apply wrap_range. }
  rewrite <- (le_bytes_le_val _ Hbytes). rewrite length_app, Hl. change (31 + length [u8 t])%nat with 32%nat.
  rewrite le_val_snoc31 by done. rewrite <- (le_bytes_wrap 32 (_ + _ * t)), <- (le_bytes_wrap 32 (_ + _ * u8 t)). f_equal.
  apply eqm_iff; [done|]. apply (eqm_intro _ _ _ (- (t / 256))). unfold u8, wrap. rewrite Z.mod_eq by done. change (2 ^ 8) with 256.
  change (2 ^ (8 * Z.of_nat 32)) with (256 ^ 31 * 256). ring.
Qed.

Lemma bytes_limbs p : length p = 32%nat -> Forall is_byte p -> limbs 255 p.
Proof.
  intros Hp Hb. destruct (split_snoc31 p Hp) as (l & t & -> & Hl).
  apply Forall_app in Hb as [Hb Ht]. apply Forall_cons in Ht as [Ht _]. exists l, t. unfold in_range in Ht. repeat split; [done|done|lia|lia].
Qed.

(** ** Residues *)

(** A number of up to 510 bits, with the bits from 255 on counted 19 times. *)
Definition fold25519 (x : Z) : Z := Z.land x (Z.ones 255) + 19 * Z.shiftr x 255.

Lemma fold25519_eqm x : fold25519 x ≡ x [mod p25519].
Proof.
  unfold fold25519. rewrite Z.land_ones, Z.shiftr_div_pow2 by lia. apply (eqm_intro _ _ _ (- (x / 2 ^ 255))).
  rewrite (Z.div_mod x (2 ^ 255)) at 3 by lia. unfold p25519. ring.
Qed.

Definition eqmb (a b : Z) : bool := let d := fold25519 (fold25519 (a - b)) in (d =? 0) || (d =? p25519).

Lemma eqmb_Ok a b : eqmb a b = true -> a ≡ b [mod p25519].
Proof.
  unfold eqmb. intros H. assert (E : a - b ≡ 0 [mod p25519]).
  { rewrite <- (fold25519_eqm (a - b)), <- (fold25519_eqm (fold25519 (a - b))). apply orb_true_iff in H as [->%Z.eqb_eq| ->%Z.eqb_eq]; [done|].
    by apply (eqm_intro _ _ _ 1). }
  replace a with (b + (a - b)) by ring. rewrite E. by rewrite Z.add_0_r.
Qed.

(** ** Powers *)

(** [a] holds the power [e] of [z]. *)
Definition power (z e : Z) (a : list Z) : Prop := 0 <= e /\ limbs 128 a /\ le_val a ≡ z ^ e [mod p25519].

Lemma power_exponent z e f a : power z e a -> e = f -> power z f a.
Proof. by intros ? <-. Qed.

(** Names an intermediate result whose arguments are named, with its exponent evaluated. *)
Ltac power_name L e t :=
  let e' := eval vm_compute in e in
  let H := fresh "P" in
  lazymatch goal with |- power ?z _ _ =>
    assert (H : power z e' t) by (apply (power_exponent _ e); [apply L; assumption|vm_compute; reflexivity])
  end;
  revert H; generalize t; intros ? H.
