(* ===== verification/Prime25519.v ===== *)
(** The modulus of the field is prime: Pocklington's criterion, and the chain of certificates
    that leads to 2^255 - 19.  Square roots, inverses and the addition law of the curve all
    rest on it. *)
From Stdlib Require Import Zmod.Zmod.
From S2P Require Import Prelude.
From S2P Require Import Limbs.
From S2P Require Import Field25519.

(** ** Primes *)

#[local] Instance divide_decision a b : Decision (a | b) := Znumtheory.Zdivide_dec a b.

Lemma prime_trial n : 1 < n -> (forall m, 1 < m -> m * m <= n -> ~ (m | n)) -> Z.prime n.
Proof.
  intros Hn Ht. split; [done|]. intros m Hm [k Hk]. assert (1 < k) by nia. destruct (decide (m * m <= n)) as [Hle|Hgt].
  - apply (Ht m); [lia|done|]. by exists k.
  - apply (Ht k); [lia|nia|]. exists m. lia.
Qed.

Lemma prime_divisor n : 1 < n -> exists r, Z.prime r /\ (r | n).
Proof.
  intros Hn. assert (Hs : forall k m, (Z.to_nat m < k)%nat -> 1 < m -> exists r, Z.prime r /\ (r | m)).
  { induction k as [|k IH]; intros m Hk Hm; [lia|]. destruct (decide (Exists (fun r => (r | m)) (seqZ 2 (m - 2)))) as [He|He].
    - apply Exists_exists in He as (r & Hr%elem_of_seqZ & Hd). destruct (IH r) as (q & Hq & Hqr); [lia|lia|]. exists q. split; [done|]. by etrans.
    - exists m. split; [|done]. split; [done|]. intros r Hr Hd. apply He, Exists_exists. exists r. split; [|done]. apply elem_of_seqZ. lia. }
  by apply (Hs (S (Z.to_nat n))); [lia|].
Qed.

Lemma small_divisor n : 1 < n -> ~ Z.prime n -> exists r, Z.prime r /\ (r | n) /\ r * r <= n.
Proof.
  intros Hn Hp. destruct (decide (Exists (fun m => (m | n) /\ m * m <= n) (seqZ 2 n))) as [He|He].
  - apply Exists_exists in He as (m & Hm%elem_of_seqZ & Hd & Hsq). destruct (prime_divisor m) as (r & Hr & Hrm); [lia|]. exists r. split; [done|].
    split; [by etrans|]. apply Z.divide_pos_le in Hrm as Hle; [|lia]. apply Z.prime_ge_2 in Hr. nia.
  - exfalso. apply Hp, prime_trial; [done|]. intros m Hm Hsq Hd. apply He, Exists_exists. exists m. split; [|done]. apply elem_of_seqZ. nia.
Qed.

(** ** Pocklington's criterion *)

Lemma eqm_divide N r x y : (r | N) -> x ≡ y [mod N] -> x ≡ y [mod r].
Proof. intros Hr Hx. unfold eqm in *. by etrans. Qed.

Lemma eqm_1_0 r : 2 <= r -> ~ 1 ≡ 0 [mod r].
Proof. intros Hr Hd. apply Z.divide_pos_le in Hd; lia. Qed.

(** A prime [q] whose power divides [N - 1], and what the power of two lacks of one is a unit. *)
Definition witnessed (N : Z) (qu : Z * Z) : Prop :=
  let '(q, u) := qu in Z.prime q /\ (q | N - 1) /\ u * (2 ^ ((N - 1) / q) - 1) ≡ 1 [mod N].

Lemma witnessed_divides N r qu : Z.prime r -> (r | N) -> 1 < N -> 2 ^ (N - 1) ≡ 1 [mod N] -> witnessed N qu -> (qu.1 | r - 1).
Proof.
  destruct qu as [q u]. cbn [fst]. intros Hr Hd HN H1 (Hq & [k Hk] & Hu). pose proof (Z.prime_ge_2 r Hr). pose proof (Z.prime_ge_2 q Hq).
  rewrite Hk, Z.div_mul in Hu by lia. assert (0 <= k) by nia. set (b := 2 ^ k) in *. apply (eqm_divide N r) in H1, Hu; [|done..].
  assert (Hb : b ^ q ≡ 1 [mod r]) by (unfold b; rewrite <- Z.pow_mul_r by lia; by rewrite <- Hk).
  destruct (Znumtheory.Zdivide_dec q (r - 1)) as [|Hn]; [done|exfalso].
  assert (Hb0 : b mod r <> 0).
  { intros E. assert (E' : b ≡ 0 [mod r]) by (apply eqm_iff; [lia|by rewrite Z.mod_0_l by lia]).
    apply (eqm_pow _ _ _ q ltac:(lia)) in E'. rewrite Z.pow_0_l, Hb in E' by lia. by apply (eqm_1_0 r). }
  pose proof (Z.fermat_nz r b Hr Hb0) as Hf. apply (Z.coprime_prime_l q (r - 1) Hq), Z.Bezout_coprime in Hn as (x & y & Hxy).
  assert (Hf' : b ^ (r - 1) ≡ 1 [mod r]) by (apply eqm_iff; [lia|]; rewrite Hf; by rewrite Z.mod_small by lia).
  set (x' := x mod (r - 1) + (r - 1)). set (y' := (x' * q - 1) / (r - 1)). pose proof (Z.mod_pos_bound x (r - 1) ltac:(lia)).
  assert (E : x' * q = 1 + y' * (r - 1)).
  { assert (Hdv : (r - 1 | x' * q - 1)). { exists (q - y - (x / (r - 1)) * q). unfold x'. rewrite Z.mod_eq by lia.
      assert (Hx : x * q = 1 - y * (r - 1)) by lia. generalize (x / (r - 1)). intros z.
      replace ((x - (r - 1) * z + (r - 1)) * q - 1) with (x * q - 1 + (r - 1) * q * (1 - z)) by ring. rewrite Hx. ring. }
    destruct Hdv as [m Hm]. unfold y'. rewrite Hm, Z.div_mul by lia. lia. }
  assert (0 <= y') by (apply Z.div_pos; unfold x'; nia).
  assert (Hb1 : b ≡ 1 [mod r]).
  { transitivity (b ^ (x' * q)).
    - rewrite E, Z.pow_add_r, Z.pow_1_r, (Z.mul_comm y'), Z.pow_mul_r by nia. rewrite (eqm_pow _ _ 1 y' ltac:(done) Hf'). by rewrite Z.pow_1_l, Z.mul_1_r.
    - rewrite Z.mul_comm, Z.pow_mul_r by (unfold x'; lia). rewrite (eqm_pow _ _ 1 x' ltac:(unfold x'; lia) Hb). by rewrite Z.pow_1_l by (unfold x'; lia). }
  rewrite Hb1 in Hu. rewrite Z.sub_diag, Z.mul_0_r in Hu. by apply (eqm_1_0 r).
Qed.

Definition product (l : list Z) : Z := foldr Z.mul 1 l.

Lemma coprime_product q qs : Z.prime q -> Forall Z.prime qs -> q ∉ qs -> Z.coprime q (product qs).
Proof.
  intros Hq. induction 1 as [|r qs Hr Hqs IH]; intros Hn; [apply Z.coprime_1_r|]. apply not_elem_of_cons in Hn as [Hne Hn]. cbn [product foldr].
  apply Z.coprime_mul_r; [|by apply IH]. apply Z.coprime_prime_l; [done|]. intros Hd. by apply Z.divide_prime_prime in Hd.
Qed.

Lemma product_divides qs m : NoDup qs -> Forall Z.prime qs -> Forall (fun q => (q | m)) qs -> (product qs | m).
Proof.
  induction qs as [|q qs IH]; intros Hn Hp Hd; [apply Z.divide_1_l|]. apply NoDup_cons in Hn as [Hq Hn]. apply Forall_cons in Hp as [Hpq Hp], Hd as [Hdq Hd].
  destruct (IH Hn Hp Hd) as [k ->]. cbn [product foldr]. fold (product qs). apply Z.mul_divide_mono_r. rewrite Z.mul_comm in Hdq. by eapply Z.gauss; [|apply coprime_product].
Qed.

Lemma product_pos qs : Forall Z.prime qs -> 0 < product qs.
Proof. induction 1 as [|q qs Hq _ IH]; [done|]. cbn [product foldr]. fold (product qs). apply Z.prime_ge_2 in Hq. nia. Qed.

Theorem pocklington N qus :
  1 < N -> Forall (witnessed N) qus -> NoDup (fst <$> qus) -> N < product (fst <$> qus) * product (fst <$> qus) -> 2 ^ (N - 1) ≡ 1 [mod N] -> Z.prime N.
Proof.
  intros HN Hw Hnd Hsq H1. destruct (Znumtheory.prime_dec N) as [Hp|Hp]; [by apply Znumtheory.prime_alt in Hp|]. exfalso.
  destruct (small_divisor N HN) as (r & Hr & Hd & Hle).
  { intros Hp'. by apply Hp, Znumtheory.prime_alt. }
  assert (Hps : Forall Z.prime (fst <$> qus)) by (apply Forall_fmap; eapply Forall_impl; [exact Hw|]; by intros [q u] [Hq _]).
  assert (Hdiv : (product (fst <$> qus) | r - 1)).
  { apply product_divides; [done..|]. apply Forall_fmap. eapply Forall_impl; [exact Hw|]. intros qu. by apply witnessed_divides. }
  apply Z.prime_ge_2 in Hr. apply Z.divide_pos_le in Hdiv; [|lia]. apply product_pos in Hps. nia.
Qed.

(** ** Certificates *)

(** A power modulo [N], with the products reduced by [red]. *)
Fixpoint power_pos (b : Z) (red : Z -> Z) (e : positive) : Z :=
  match e with
  | xH => b
  | xO e => let t := power_pos b red e in red (t * t)
  | xI e => let t := power_pos b red e in red (b * red (t * t))
  end.

Lemma power_pos_Ok N b red e : (forall x, red x ≡ x [mod N]) -> power_pos b red e ≡ b ^ Zpos e [mod N].
Proof.
  intros Hr. induction e as [e IH|e IH|]; cbn [power_pos]; [| |by rewrite Z.pow_1_r]; rewrite !Hr, IH.
  - rewrite (Pos2Z.inj_xI e), Z.pow_add_r, Z.pow_1_r, Z.mul_comm, (Z.mul_comm 2 (Z.pos e)), Z.pow_mul_r by lia. by rewrite Z.pow_2_r.
  - rewrite (Pos2Z.inj_xO e), (Z.mul_comm 2 (Z.pos e)), Z.pow_mul_r by lia. by rewrite Z.pow_2_r.
Qed.

Definition power_mod (b : Z) (red : Z -> Z) (e : Z) : Z := match e with Zpos e => power_pos b red e | _ => 1 end.

Lemma power_mod_Ok N b red e : 0 <= e -> (forall x, red x ≡ x [mod N]) -> power_mod b red e ≡ b ^ e [mod N].
Proof. intros He Hr. destruct e as [|e|e]; [done|by apply power_pos_Ok|lia]. Qed.

Definition certificate (N : Z) (red : Z -> Z) (qus : list (Z * Z)) : bool :=
  let P := product (fst <$> qus) in
  (1 <? N) && (N <? P * P) && ((power_mod 2 red (N - 1) - 1) mod N =? 0) &&
  forallb (fun '(q, u) => ((N - 1) mod q =? 0) && ((u * (power_mod 2 red ((N - 1) / q) - 1)) mod N =? 1)) qus.

Lemma certificate_Ok N red qus : (forall x, red x ≡ x [mod N]) -> Forall (fun qu => Z.prime qu.1) qus -> NoDup (fst <$> qus) -> certificate N red qus = true -> Z.prime N.
Proof.
  intros Hr Hp Hn Hc. unfold certificate in Hc. cbv zeta in Hc. repeat rewrite andb_true_iff in Hc. destruct Hc as (((H1 & H2) & H3) & H4).
  apply Z.ltb_lt in H1, H2. apply Z.eqb_eq in H3. rewrite forallb_forall in H4. rewrite Forall_forall in Hp. apply (pocklington N qus); [done| |done|done|].
  - apply Forall_forall. intros [q u] Hq. specialize (Hp _ Hq). specialize (H4 (q, u) ltac:(by apply list_elem_of_In)). cbn [fst] in *.
    apply andb_true_iff in H4 as [H4 H5]. apply Z.eqb_eq in H4, H5. apply Z.prime_ge_2 in Hp as Hq2. apply Znumtheory.Zmod_divide in H4; [|lia].
    split; [done|]. split; [done|]. rewrite <- (power_mod_Ok N 2 red) by (done || apply Z.div_pos; lia). apply eqm_iff; [lia|]. rewrite H5. symmetry. by apply Z.mod_small.
  - rewrite <- (power_mod_Ok N 2 red) by (done || lia). apply Znumtheory.Zmod_divide in H3; [|lia]. exact H3.
Qed.

(** Trial division. *)
Definition trial (n : Z) : bool := (1 <? n) && forallb (fun m => (n <? m * m) || negb (n mod m =? 0)) (seqZ 2 (Z.sqrt n)).

Lemma trial_Ok n : trial n = true -> Z.prime n.
Proof.
  intros [H1%Z.ltb_lt H2]%andb_true_iff. rewrite forallb_forall in H2. apply prime_trial; [done|]. intros m Hm Hsq Hd.
  specialize (H2 m). apply orb_true_iff in H2 as [H2|H2].
  - apply Z.ltb_lt in H2. lia.
  - apply Znumtheory.Zdivide_mod in Hd. by rewrite Hd in H2.
  - apply list_elem_of_In, elem_of_seqZ. assert (m <= Z.sqrt n) by (by apply Z.sqrt_le_square; lia). lia.
Qed.

Definition mod_by (N x : Z) : Z := x mod N.

Lemma certified N qus : N <> 0 -> Forall (fun qu => Z.prime qu.1) qus -> NoDup (fst <$> qus) -> certificate N (mod_by N) qus = true -> Z.prime N.
Proof. intros HN. apply certificate_Ok. intros x. by apply eqm_mod. Qed.

(** ** The chain *)

Ltac distinct := repeat (apply NoDup_cons; split; [set_solver by done|]); apply NoDup_nil_2.
Ltac certify qus := apply (certified _ qus); [done|repeat (apply Forall_cons_2; [cbn [fst]|]); [..|apply Forall_nil_2]|distinct|vm_cast_no_check (eq_refl true)].
Ltac by_trial := apply trial_Ok; vm_cast_no_check (eq_refl true).

Lemma prime_55 : Z.prime 31757755568855353.
Proof. certify [(430751, 15419847897348699); (4153, 25117532289192573)]; by_trial. Qed.

Lemma prime_24 : Z.prime 8574133.
Proof. certify [(991, 1014251); (103, 3531099)]; by_trial. Qed.

Lemma prime_51 : Z.prime 1919519569386763.
Proof. certify [(8574133, 1290547218147893); (127, 1870148777187772)]; [exact prime_24|by_trial]. Qed.

Lemma prime_32 : Z.prime 2773320623.
Proof. certify [(569003, 2440407146)]. by_trial. Qed.

Lemma prime_37 : Z.prime 72106336199.
Proof. certify [(2773320623, 8149528284)]. exact prime_32. Qed.

Lemma prime_116 : Z.prime 75445702479781427272750846543864801.
Proof.
  certify [(1919519569386763, 74602835786463724888147869570305675); (72106336199, 55965016733432503242248684386325671)]; [exact prime_51|exact prime_37].
Qed.

Lemma prime_236 : Z.prime 74058212732561358302231226437062788676166966415465897661863160754340907.
Proof.
  certify [(75445702479781427272750846543864801, 70463328703800545008217672123162676565183935400628861884889913886334520);
           (31757755568855353, 18232248056023258384404751131439975669387062239511397558448549501188471)]; [exact prime_116|exact prime_55].
Qed.

Theorem p25519_prime : Z.prime p25519.
Proof.
  apply (certificate_Ok _ (fun x => fold25519 (fold25519 x)) [(74058212732561358302231226437062788676166966415465897661863160754340907,
    55540832096118778044507775605005710249233119951144946814680141076505643269084)]).
  - intros x. by rewrite !fold25519_eqm.
  - apply Forall_singleton. exact prime_236.
  - distinct.
  - vm_cast_no_check (eq_refl true).
Qed.
