(* ===== verification/Edwards.v ===== *)
(** The twisted Edwards curve -x^2 + y^2 = 1 + d x^2 y^2 over a field where -1 is a square, d
    is not, and two is not zero.  Under these conditions the addition law of RFC 8032 has no
    exceptions: its denominators are never zero on the curve, and it makes the points of the
    curve an abelian group. *)
From Stdlib Require Import Field Ring.
From S2P Require Import Prelude.

Section Edwards.
Context {F : Type} (zero one : F) (add mul sub : F -> F -> F) (opp : F -> F) (div : F -> F -> F) (inv : F -> F).
Context (field : field_theory zero one add mul sub opp div inv eq) (integral : forall a b, mul a b = zero -> a = zero \/ b = zero).
Add Field edwards_field : field.
#[local] Notation "0" := zero.
#[local] Notation "1" := one.
#[local] Infix "+" := add.
#[local] Infix "*" := mul.
#[local] Infix "-" := sub.
#[local] Infix "/" := div.
#[local] Notation "- x" := (opp x).
Context (d i : F) (i_square : i * i = - (1)) (d_nonsquare : forall s, s * s <> d) (two : 1 + 1 <> 0).

Definition curve (p : F * F) : Prop := let '(x, y) := p in y * y - x * x = 1 + d * (x * x) * (y * y).

(** What the denominators differ from one by. *)
Definition cross (p q : F * F) : F := let '(x1, y1) := p in let '(x2, y2) := q in d * (x1 * x2 * y1 * y2).

Definition ed_sum (p q : F * F) : F * F :=
  let '(x1, y1) := p in let '(x2, y2) := q in
  ((x1 * y2 + y1 * x2) / (1 + cross p q), (y1 * y2 + x1 * x2) / (1 - cross p q)).

Definition ed_opp (p : F * F) : F * F := let '(x, y) := p in (- x, y).

Lemma d_nonzero : d <> 0.
Proof. intros E. apply (d_nonsquare 0). rewrite E. ring. Qed.

Lemma sub_zero a b : a - b = 0 -> a = b.
Proof. intros E. replace a with (a - b + b) by ring. rewrite E. ring. Qed.

(** A square root of d: what two points with a zero denominator would give. *)
Lemma root_of_d s t : t <> 0 -> s * s = d * (t * t) -> False.
Proof.
  intros Ht E. apply (d_nonsquare (s / t)). transitivity (s * s / (t * t)); [field; exact Ht|]. rewrite E. field. exact Ht.
Qed.

Lemma mul_nonzero a b : a <> 0 -> b <> 0 -> a * b <> 0.
Proof. intros Ha Hb [E|E]%integral; done. Qed.

(** The product of the four coordinates is never plus or minus 1/d. *)
Lemma cross_square p q : curve p -> curve q -> cross p q * cross p q <> 1.
Proof.
  destruct p as [x1 y1], q as [x2 y2]. intros C1 C2 E. unfold cross in E. set (k := d * (x1 * x2 * y1 * y2)) in E. unfold curve in C1, C2.
  assert (Hxy : x1 * y1 <> 0).
  { intros E0. assert (Ek : k = 0) by (transitivity (d * x2 * y2 * (x1 * y1)); [subst k; ring|rewrite E0; ring]). rewrite Ek in E.
    apply two. rewrite <- E. ring. }
  assert (Hm : y1 * y1 - x1 * x1 = d * (x1 * y1 * (x1 * y1)) * (y2 * y2 - x2 * x2)).
  { rewrite C1, C2. transitivity (d * (x1 * y1 * (x1 * y1)) + k * k); [rewrite E; ring|subst k; ring]. }
  assert (Hs : forall u, u * u = 1 -> (i * x1 + u * (k * y1)) * (i * x1 + u * (k * y1)) = d * (x1 * y1 * (i * x2 + u * y2) * (x1 * y1 * (i * x2 + u * y2)))).
  { intros u Hu. transitivity (y1 * y1 * (u * u * (k * k)) + i * i * (x1 * x1) + (1 + 1) * u * i * x1 * y1 * k); [ring|]. rewrite E, Hu, i_square.
    transitivity (y1 * y1 - x1 * x1 + (1 + 1) * u * i * x1 * y1 * k); [ring|]. rewrite Hm.
    transitivity (d * (x1 * y1 * (x1 * y1)) * (i * i * (x2 * x2) + (1 + 1) * i * u * x2 * y2 + u * u * (y2 * y2))); [|ring]. rewrite Hu, i_square. subst k. ring. }
  assert (Hz : forall u, u * u = 1 -> i * x2 + u * y2 <> 0 -> False).
  { intros u Hu Hnz. apply (root_of_d _ _ (mul_nonzero _ _ Hxy Hnz) (Hs u Hu)). }
  apply (Hz 1); [ring|]. intros Z1. apply (Hz (- (1))); [ring|]. intros Z2.
  assert (Hy : (1 + 1) * y2 = 0) by (transitivity (i * x2 + 1 * y2 - (i * x2 + - (1) * y2)); [ring|rewrite Z1, Z2; ring]).
  apply integral in Hy as [Hy|Hy]; [done|]. assert (Ek : k = 0) by (subst k; rewrite Hy; ring). rewrite Ek in E. apply two. rewrite <- E. ring.
Qed.

Lemma denominators p q : curve p -> curve q -> 1 + cross p q <> 0 /\ 1 - cross p q <> 0.
Proof.
  intros Hp Hq. pose proof (cross_square p q Hp Hq) as Hk. set (k := cross p q) in *. split; intros E; apply Hk.
  - apply sub_zero. transitivity ((1 + k) * (k - 1)); [ring|]. rewrite E. ring.
  - apply sub_zero. transitivity (- ((1 - k) * (k + 1))); [ring|]. rewrite E. ring.
Qed.

(** The equation of the curve as a rewrite rule. *)
Lemma curve_rule x y : curve (x, y) -> x * x * y * y = inv d * (y * y - x * x - 1).
Proof. intros C. unfold curve in C. rewrite C. field. exact d_nonzero. Qed.

Lemma inv_rule : d * inv d = 1.
Proof. field. exact d_nonzero. Qed.

Lemma cancel t a b : t <> 0 -> t * a = t * b -> a = b.
Proof.
  intros Ht E. assert (E0 : t * (a - b) = 0) by (transitivity (t * a - t * b); [ring|rewrite E; ring]). apply integral in E0 as [E0|E0]; [done|by apply sub_zero].
Qed.

Lemma fractions a b u v : u <> 0 -> v <> 0 -> a * v = b * u -> a / u = b / v.
Proof.
  intros Hu Hv E. apply (cancel (u * v)); [by apply mul_nonzero|]. transitivity (a * v); [field; exact Hu|]. rewrite E. field. exact Hv.
Qed.

(** The coordinates of a sum, without the divisions. *)
Lemma ed_sum_coords x1 y1 x2 y2 x3 y3 :
  curve (x1, y1) -> curve (x2, y2) -> ed_sum (x1, y1) (x2, y2) = (x3, y3) ->
  let k := d * (x1 * x2 * y1 * y2) in
  (1 + k <> 0 /\ 1 - k <> 0) /\ (1 + k) * x3 = x1 * y2 + y1 * x2 /\ (1 - k) * y3 = y1 * y2 + x1 * x2.
Proof.
  intros C1 C2 [= E3 F3] k. destruct (denominators _ _ C1 C2) as [Hu Hv]. fold k in Hu, Hv. unfold cross in *. fold k in E3, F3, Hu, Hv. split; [done|].
  split; [rewrite <- E3|rewrite <- F3]; field; done.
Qed.

Lemma ed_sum_unique x1 y1 x2 y2 x3 y3 :
  curve (x1, y1) -> curve (x2, y2) ->
  let k := d * (x1 * x2 * y1 * y2) in
  (1 + k) * x3 = x1 * y2 + y1 * x2 -> (1 - k) * y3 = y1 * y2 + x1 * x2 -> ed_sum (x1, y1) (x2, y2) = (x3, y3).
Proof.
  intros C1 C2 k E F3. destruct (denominators _ _ C1 C2) as [Hu Hv]. unfold ed_sum. unfold cross in *. fold k in Hu, Hv |- *. rewrite <- E, <- F3.
  f_equal; field; done.
Qed.

(** The sum of two points is on the curve. *)
Lemma ed_sum_curve p q : curve p -> curve q -> curve (ed_sum p q).
Proof.
  destruct p as [x1 y1], q as [x2 y2]. intros C1 C2. destruct (ed_sum (x1, y1) (x2, y2)) as [x3 y3] eqn:Es. destruct (ed_sum_coords _ _ _ _ _ _ C1 C2 Es) as ([Hu Hv] & Ex & Ey).
  set (u := 1 + d * (x1 * x2 * y1 * y2)) in *. set (v := 1 - d * (x1 * x2 * y1 * y2)) in *. unfold curve. apply (cancel (u * v * (u * v))); [by repeat apply mul_nonzero|].
  transitivity (u * u * (v * y3 * (v * y3)) - v * v * (u * x3 * (u * x3))); [ring|].
  transitivity (u * v * (u * v) + d * (u * x3 * (u * x3)) * (v * y3 * (v * y3))); [|ring]. rewrite Ex, Ey. subst u v. clear Hu Hv Ex Ey Es.
  apply curve_rule in C1, C2. pose proof inv_rule as De. revert C1 C2 De. generalize (inv d). intros e C1 C2 De. ring [C1 C2 De].
Qed.

Lemma ed_sum_comm p q : ed_sum p q = ed_sum q p.
Proof.
  destruct p as [x1 y1], q as [x2 y2]. unfold ed_sum, cross. replace (d * (x2 * x1 * y2 * y1)) with (d * (x1 * x2 * y1 * y2)) by ring. f_equal; f_equal; ring.
Qed.

Lemma curve_neutral : curve (0, 1).
Proof. unfold curve. ring. Qed.

Lemma ed_sum_neutral p : curve p -> ed_sum p (0, 1) = p.
Proof. destruct p as [x y]. intros C. apply ed_sum_unique; [done|apply curve_neutral|ring|ring]. Qed.

Lemma curve_opp p : curve p -> curve (ed_opp p).
Proof. destruct p as [x y]. unfold curve, ed_opp. intros C. transitivity (y * y - x * x); [ring|]. rewrite C. ring. Qed.

Lemma ed_sum_opp p : curve p -> ed_sum p (ed_opp p) = (0, 1).
Proof.
  destruct p as [x y]. intros C. apply ed_sum_unique; [done|exact (curve_opp _ C)|ring|]. unfold curve in C.
  transitivity (1 + d * (x * x) * (y * y)); [ring|]. rewrite <- C. ring.
Qed.

(** One coordinate of the two sums of three points. *)
Section Associativity.
Context (x1 y1 x2 y2 x3 y3 x12 y12 x23 y23 : F) (C1 : curve (x1, y1)) (C2 : curve (x2, y2)) (C3 : curve (x3, y3)).
Context (S12 : ed_sum (x1, y1) (x2, y2) = (x12, y12)) (S23 : ed_sum (x2, y2) (x3, y3) = (x23, y23)).

Lemma ed_sum_assoc_x : (x12 * y3 + y12 * x3) * (1 + d * (x1 * x23 * y1 * y23)) = (x1 * y23 + y1 * x23) * (1 + d * (x12 * x3 * y12 * y3)).
Proof.
  destruct (ed_sum_coords _ _ _ _ _ _ C1 C2 S12) as ([Hu Hv] & Ex & Ey). destruct (ed_sum_coords _ _ _ _ _ _ C2 C3 S23) as ([Hu' Hv'] & Ex' & Ey').
  set (u := 1 + d * (x1 * x2 * y1 * y2)) in *. set (v := 1 - d * (x1 * x2 * y1 * y2)) in *. set (u' := 1 + d * (x2 * x3 * y2 * y3)) in *. set (v' := 1 - d * (x2 * x3 * y2 * y3)) in *.
  apply (cancel (u * v * (u' * v'))); [by repeat apply mul_nonzero|].
  transitivity ((u * x12 * v * y3 + v * y12 * u * x3) * (u' * v' + d * (x1 * (u' * x23) * y1 * (v' * y23)))); [ring|].
  transitivity ((x1 * (v' * y23) * u' + y1 * (u' * x23) * v') * (u * v + d * (u * x12 * x3 * (v * y12) * y3))); [|ring].
  rewrite Ex, Ey, Ex', Ey'. subst u v u' v'. clear Hu Hv Hu' Hv' Ex Ey Ex' Ey'.
  pose proof (curve_rule _ _ C1) as R1. pose proof (curve_rule _ _ C2) as R2. pose proof (curve_rule _ _ C3) as R3. pose proof inv_rule as De.
  revert R1 R2 R3 De. generalize (inv d). intros e R1 R2 R3 De. ring [R1 R2 R3 De].
Qed.

Lemma ed_sum_assoc_y : (y12 * y3 + x12 * x3) * (1 - d * (x1 * x23 * y1 * y23)) = (y1 * y23 + x1 * x23) * (1 - d * (x12 * x3 * y12 * y3)).
Proof.
  destruct (ed_sum_coords _ _ _ _ _ _ C1 C2 S12) as ([Hu Hv] & Ex & Ey). destruct (ed_sum_coords _ _ _ _ _ _ C2 C3 S23) as ([Hu' Hv'] & Ex' & Ey').
  set (u := 1 + d * (x1 * x2 * y1 * y2)) in *. set (v := 1 - d * (x1 * x2 * y1 * y2)) in *. set (u' := 1 + d * (x2 * x3 * y2 * y3)) in *. set (v' := 1 - d * (x2 * x3 * y2 * y3)) in *.
  apply (cancel (u * v * (u' * v'))); [by repeat apply mul_nonzero|].
  transitivity ((v * y12 * u * y3 + u * x12 * v * x3) * (u' * v' - d * (x1 * (u' * x23) * y1 * (v' * y23)))); [ring|].
  transitivity ((y1 * (v' * y23) * u' + x1 * (u' * x23) * v') * (u * v - d * (u * x12 * x3 * (v * y12) * y3))); [|ring].
  rewrite Ex, Ey, Ex', Ey'. subst u v u' v'. clear Hu Hv Hu' Hv' Ex Ey Ex' Ey'.
  pose proof (curve_rule _ _ C1) as R1. pose proof (curve_rule _ _ C2) as R2. pose proof (curve_rule _ _ C3) as R3. pose proof inv_rule as De.
  revert R1 R2 R3 De. generalize (inv d). intros e R1 R2 R3 De. ring [R1 R2 R3 De].
Qed.
End Associativity.

Theorem ed_sum_assoc p q r : curve p -> curve q -> curve r -> ed_sum p (ed_sum q r) = ed_sum (ed_sum p q) r.
Proof.
  intros Cp Cq Cr. pose proof (ed_sum_curve _ _ Cp Cq) as Cpq. pose proof (ed_sum_curve _ _ Cq Cr) as Cqr.
  destruct p as [x1 y1], q as [x2 y2], r as [x3 y3]. destruct (ed_sum (x1, y1) (x2, y2)) as [x12 y12] eqn:S12, (ed_sum (x2, y2) (x3, y3)) as [x23 y23] eqn:S23.
  destruct (denominators _ _ Cp Cqr) as [Hu Hv], (denominators _ _ Cpq Cr) as [Hu' Hv']. unfold ed_sum. f_equal; apply fractions; try done.
  - symmetry. by apply (ed_sum_assoc_x x1 y1 x2 y2 x3 y3).
  - symmetry. by apply (ed_sum_assoc_y x1 y1 x2 y2 x3 y3).
Qed.
End Edwards.
