(* ===== verification/X25519.v ===== *)
(** Key agreement: crypto_scalarmult and the field arithmetic under it, the first part of
    node/C25519.cpp.

    Field elements modulo 2^255 - 19 are arrays of 32 words of 32 bits, least significant
    digit first in radix 256; the digits may exceed 255 between operations.  Everything is
    computed modulo 2^32, and the theorem that the result is the X25519 function of
    RFC 7748 includes that no sum overflows.  The indices of the fixed arrays are in range
    by construction; [nth] reads them. *)
From Stdlib Require Import Zpow_facts.
From S2P Require Import Prelude.
From S2P Require Import Limbs.
From S2P Require Import Field25519.

(** ** The code *)

Definition add (a b : list Z) : list Z :=
  let '(out, u) := carry_chain 0 (zip_with (fun x y => u32 (x + y)) (take 31 a) (take 31 b)) in
  out ++ [u32 (u + u32 (nth 31 a 0 + nth 31 b 0))].

Definition sub (a b : list Z) : list Z :=
  let '(out, u) := carry_chain 218 (zip_with (fun x y => u32 (u32 (x + 65280) - y)) (take 31 a) (take 31 b)) in
  out ++ [u32 (u + u32 (nth 31 a 0 - nth 31 b 0))].

Definition squeeze (a : list Z) : list Z :=
  let '(d, u) := carry_chain 0 (take 31 a) in
  let u := u32 (u + nth 31 a 0) in
  let top := Z.land u 127 in
  let u := u32 (19 * Z.shiftr u 7) in
  let '(d, u) := carry_chain u d in
  d ++ [u32 (u + top)].

Definition minusp : list Z := 19 :: replicate 30 0 ++ [128].

Definition freeze (a : list Z) : list Z :=
  let aorig := a in
  let a := add a minusp in
  let negative := u32 (- Z.land (Z.shiftr (nth 31 a 0) 7) 1) in
  zip_with (fun x o => Z.lxor x (Z.land negative (Z.lxor o x))) a aorig.

(** [out[i]] of mult and of square, before squeeze. *)
Definition mult_digit (a b : list Z) (i : nat) : Z :=
  let u := fold_left (fun u j => u32 (u + u32 (nth j a 0 * nth (i - j) b 0))) (seq 0 (S i)) 0 in
  fold_left (fun u j => u32 (u + u32 (u32 (38 * nth j a 0) * nth (i + 32 - j) b 0))) (seq (S i) (32 - S i)) u.

Definition mult (a b : list Z) : list Z := squeeze (map (mult_digit a b) (seq 0 32)).

(** The loops of square have [j < i - j] and [j < i + 32 - j] as their conditions. *)
Definition square_digit (a : list Z) (i : nat) : Z :=
  let u := fold_left (fun u j => u32 (u + u32 (nth j a 0 * nth (i - j) a 0))) (seq 0 (S i / 2)) 0 in
  let u := fold_left (fun u j => u32 (u + u32 (u32 (38 * nth j a 0) * nth (i + 32 - j) a 0))) (seq (S i) ((31 - i) / 2)) u in
  let u := u32 (u * 2) in
  if Nat.even i then
    let u := u32 (u + u32 (nth (i / 2) a 0 * nth (i / 2) a 0)) in
    u32 (u + u32 (u32 (38 * nth (i / 2 + 16) a 0) * nth (i / 2 + 16) a 0))
  else u.

Definition square (a : list Z) : list Z := squeeze (map (square_digit a) (seq 0 32)).

Definition mult121665 (a : list Z) : list Z :=
  let '(out, u) := carry_chain 0 (map (fun x => u32 (121665 * x)) (take 31 a)) in
  let u := u32 (u + u32 (121665 * nth 31 a 0)) in
  let top := Z.land u 127 in
  let u := u32 (19 * Z.shiftr u 7) in
  let '(out, u) := carry_chain u out in
  out ++ [u32 (u + top)].

(** The two results are [p] and [q]. *)
Definition select (r s : list Z) (b : Z) : list Z * list Z :=
  let bminus1 := u32 (b - 1) in
  let t := zip_with (fun x y => Z.land bminus1 (Z.lxor x y)) r s in
  (zip_with Z.lxor s t, zip_with Z.lxor r t).

(** The halves of an array of 64 words: [x] and [x + 32]. *)
Definition lo (x : list Z) : list Z := take 32 x.
Definition hi (x : list Z) : list Z := drop 32 x.

(** The body of the loop of mainloop: [xzm] and [xzm1]. *)
Definition main_step (work xzm xzm1 : list Z) (b : Z) : list Z * list Z :=
  let '(xzmb, xzm1b) := select xzm xzm1 b in
  let a0 := add (lo xzmb) (hi xzmb) ++ sub (lo xzmb) (hi xzmb) in
  let a1 := add (lo xzm1b) (hi xzm1b) ++ sub (lo xzm1b) (hi xzm1b) in
  let b0 := square (lo a0) ++ square (hi a0) in
  let b1 := mult (lo a1) (hi a0) ++ mult (hi a1) (lo a0) in
  let c1 := add (lo b1) (hi b1) ++ sub (lo b1) (hi b1) in
  let r := square (hi c1) in
  let s := sub (lo b0) (hi b0) in
  let t := mult121665 s in
  let u := add t (lo b0) in
  let xznb := mult (lo b0) (hi b0) ++ mult s u in
  let xzn1b := square (lo c1) ++ mult r work in
  select xznb xzn1b b.

(** [n] is [pos + 1]. *)
Fixpoint main_loop (n : nat) (work e xzm xzm1 : list Z) : list Z :=
  match n with
  | O => xzm
  | S pos =>
      let b := Z.land (Z.shiftr (nth (pos / 8) e 0) (Z.of_nat (pos mod 8))) 1 in
      let '(xzm, xzm1) := main_step work xzm xzm1 b in
      main_loop pos work e xzm xzm1
  end.

Definition mainloop (work e : list Z) : list Z :=
  let xzm1 := take 32 work ++ 1 :: replicate 31 0 in
  let xzm := 1 :: replicate 63 0 in
  main_loop 255 (take 32 work) e xzm xzm1.

(** [n] turns of [square(t0,t1); square(t1,t0)]. *)
Definition square_twice (n : nat) (t : list Z) : list Z := Nat.iter n (fun t => square (square t)) t.

Definition recip (z : list Z) : list Z :=
  let z2 := square z in
  let t1 := square z2 in
  let t0 := square t1 in
  let z9 := mult t0 z in
  let z11 := mult z9 z2 in
  let t0 := square z11 in
  let z2_5_0 := mult t0 z9 in
  let t0 := square z2_5_0 in
  let t1 := square t0 in
  let t0 := square t1 in
  let t1 := square t0 in
  let t0 := square t1 in
  let z2_10_0 := mult t0 z2_5_0 in
  let t0 := square z2_10_0 in
  let t1 := square t0 in
  let t1 := square_twice 4 t1 in
  let z2_20_0 := mult t1 z2_10_0 in
  let t0 := square z2_20_0 in
  let t1 := square t0 in
  let t1 := square_twice 9 t1 in
  let t0 := mult t1 z2_20_0 in
  let t1 := square t0 in
  let t0 := square t1 in
  let t0 := square_twice 4 t0 in
  let z2_50_0 := mult t0 z2_10_0 in
  let t0 := square z2_50_0 in
  let t1 := square t0 in
  let t1 := square_twice 24 t1 in
  let z2_100_0 := mult t1 z2_50_0 in
  let t1 := square z2_100_0 in
  let t0 := square t1 in
  let t0 := square_twice 49 t0 in
  let t1 := mult t0 z2_100_0 in
  let t0 := square t1 in
  let t1 := square t0 in
  let t1 := square_twice 24 t1 in
  let t0 := mult t1 z2_50_0 in
  let t1 := square t0 in
  let t0 := square t1 in
  let t1 := square t0 in
  let t0 := square t1 in
  let t1 := square t0 in
  mult t1 z11.

(** The private key with the bits the function fixes. *)
Definition clamp_bytes (n : list Z) : list Z :=
  let e := <[0%nat := Z.land (nth 0 n 0) 248]> n in
  let e := <[31%nat := Z.land (nth 31 e 0) 127]> e in
  <[31%nat := Z.lor (nth 31 e 0) 64]> e.

(** The bytes stored in [q]. *)
Definition crypto_scalarmult (n p : list Z) : list Z :=
  let e := clamp_bytes (take 32 n) in
  let work := mainloop (take 32 p) e in
  let zr := recip (hi work) in
  let r := freeze (mult (lo work) zr) in
  map u8 r.

Definition base : list Z := 9 :: replicate 31 0.

Definition crypto_scalarmult_base (n : list Z) : list Z := crypto_scalarmult n base.

(** ** The specification *)

(** Points in projective coordinates, the difference [x1] of the two points of the ladder. *)
Record xz_pair : Type := mkXZ { x_2 : Z; z_2 : Z; x_3 : Z; z_3 : Z }.

Definition cswap (b : bool) (s : xz_pair) : xz_pair := if b then mkXZ (x_3 s) (z_3 s) (x_2 s) (z_2 s) else s.

(** One step of RFC 7748, section 5. *)
Definition rfc_step (x1 : Z) (s : xz_pair) : xz_pair :=
  let A := x_2 s + z_2 s in
  let AA := A * A in
  let B := x_2 s - z_2 s in
  let BB := B * B in
  let E := AA - BB in
  let C := x_3 s + z_3 s in
  let D := x_3 s - z_3 s in
  let DA := D * A in
  let CB := C * B in
  mkXZ (AA * BB mod p25519) (E * (AA + 121665 * E) mod p25519)
       ((DA + CB) * (DA + CB) mod p25519) (x1 * ((DA - CB) * (DA - CB)) mod p25519).

Fixpoint rfc_ladder (n : nat) (k x1 : Z) (s : xz_pair) : xz_pair :=
  match n with
  | O => s
  | S t => let b := Z.testbit k (Z.of_nat t) in rfc_ladder t k x1 (cswap b (rfc_step x1 (cswap b s)))
  end.

(** [k] with its lowest three bits and bit 255 cleared and bit 254 set. *)
Definition rfc_scalar (k : Z) : Z := 2 ^ 254 + 8 * (k / 8 mod 2 ^ 251).

(** The most significant bit of the last byte of [u] is masked (RFC 7748, section 5). *)
Definition rfc_u (u : Z) : Z := u mod 2 ^ 255.

Definition rfc_X25519 (k u : Z) : Z :=
  let u := rfc_u u in
  let s := rfc_ladder 255 (rfc_scalar k) u (mkXZ 1 0 u 1) in
  x_2 s * Zpow_mod (z_2 s) (p25519 - 2) p25519 mod p25519.

(** ** Sums and differences *)

Lemma zip_u32_add a b : Forall is_byte a -> Forall is_byte b -> zip_with (fun x y => u32 (x + y)) a b = zip_with Z.add a b /\ Forall (in_range 31) (zip_with Z.add a b).
Proof.
  intros Ha. revert b. induction Ha as [|x a Hx Ha IH]; intros b Hb; [done|]. destruct Hb as [|y b Hy Hb]; [done|]. cbn [zip_with].
  destruct (IH b Hb) as [-> Hf]. unfold in_range in *. split; [f_equal; apply wrap_id; unfold in_range; lia|]. constructor; [lia|done].
Qed.

Lemma add_Ok ka kb a b :
  limbs ka a -> limbs kb b -> ka + kb < 2 ^ 31 -> limbs (ka + kb + 1) (add a b) /\ le_val (add a b) = le_val a + le_val b.
Proof.
  intros (l & t & -> & Hl & Hb & Ht) (l' & t' & -> & Hl' & Hb' & Ht') Hk. unfold add. rewrite !take_snoc31, !nth_snoc31 by done.
  destruct (zip_u32_add l l' Hb Hb') as [-> Hr]. destruct (carry_chain_Ok _ 0 Hr) as (out & u & -> & Ho & Hob & Hu & Hv); [done|].
  assert (Hz : length (zip_with Z.add l l') = 31%nat) by (rewrite length_zip_with; lia). rewrite Hz in Ho.
  rewrite le_val_zip_add in Hv by lia. unfold zlen in Hv. rewrite Hz in Hv. change (Z.of_nat 31) with 31 in Hv.
  pose proof (byte_list_range out Ho Hob). pose proof (byte_list_range l Hl Hb). pose proof (byte_list_range l' Hl' Hb').
  unfold in_range in Hu. assert (u <= 1) by nia.
  rewrite (u32_id (t + t')) by (unfold in_range; lia). rewrite u32_id by (unfold in_range; lia).
  rewrite !le_val_snoc31 by done. split; [|nia]. exists out, (u + (t + t')). repeat split; [done|done|lia|lia].
Qed.

Lemma zip_u32_sub a b : Forall is_byte a -> Forall is_byte b -> length a = length b ->
  Forall (in_range 31) (zip_with (fun x y => u32 (u32 (x + 65280) - y)) a b) /\
  le_val (zip_with (fun x y => u32 (u32 (x + 65280) - y)) a b) = le_val a - le_val b + 256 * (256 ^ zlen a - 1).
Proof.
  intros Ha. revert b. induction Ha as [|x a Hx Ha IH]; intros b Hb Hl; [by destruct b|]. destruct Hb as [|y b Hy Hb]; [done|].
  destruct (IH b Hb) as [Hf Hv]; [by injection Hl|]. cbn [zip_with le_val]. unfold in_range in *. rewrite (u32_id (x + 65280)) by (unfold in_range; lia).
  rewrite u32_id by (unfold in_range; lia). split; [constructor; [lia|done]|]. rewrite Hv. unfold zlen. cbn [length].
  rewrite Nat2Z.inj_succ, Z.pow_succ_r by lia. lia.
Qed.

Lemma sub_Ok ka kb a b :
  limbs ka a -> limbs kb b -> ka < 2 ^ 30 -> kb <= 254 ->
  limbs (ka + 256) (sub a b) /\ le_val (sub a b) = le_val a - le_val b + 2 * p25519.
Proof.
  intros (l & t & -> & Hl & Hb & Ht) (l' & t' & -> & Hl' & Hb' & Ht') Hka Hkb. unfold sub. rewrite !take_snoc31, !nth_snoc31 by done.
  destruct (zip_u32_sub l l' Hb Hb' ltac:(lia)) as [Hr Hz]. destruct (carry_chain_Ok _ 218 Hr) as (out & u & -> & Ho & Hob & Hu & Hv); [done|].
  rewrite length_zip_with in Ho. unfold zlen in Hz, Hv. rewrite length_zip_with in Hv. rewrite Hz in Hv. clear Hz Hr.
  replace (length l `min` length l')%nat with 31%nat in * by lia. rewrite Hl in Hv. change (Z.of_nat 31) with 31 in Hv.
  pose proof (byte_list_range out Ho Hob). pose proof (byte_list_range l Hl Hb). pose proof (byte_list_range l' Hl' Hb').
  unfold in_range in Hu. assert (Hp : 2 * p25519 = 256 * 256 ^ 31 - 38) by (vm_compute; reflexivity). rewrite Hp.
  assert (Hu254 : 254 <= u <= 256). { assert (256 <= 256 ^ 31) by (vm_compute; done). revert dependent u. generalize dependent (256 ^ 31). nia. }
  assert (Hw : u32 (u + u32 (t - t')) = u + (t - t')).
  { unfold u32, wrap. rewrite Z.add_mod_idemp_r by done. apply Z.mod_small. lia. }
  rewrite Hw, !le_val_snoc31 by done. split; [|lia]. exists out, (u + (t - t')). repeat split; [done|done|lia|lia].
Qed.

Lemma squeeze_Ok a :
  length a = 32%nat -> Forall (in_range 31) a -> limbs 128 (squeeze a) /\ le_val (squeeze a) ≡ le_val a [mod p25519].
Proof.
  intros Ha Hr. destruct (split_snoc31 a Ha) as (l & t & -> & Hl). apply Forall_app in Hr as [Hr Ht]. apply Forall_cons in Ht as [Ht _].
  unfold squeeze. rewrite take_snoc31, nth_snoc31 by done.
  destruct (carry_chain_Ok l 0 Hr) as (d1 & u1 & -> & Hd1 & Hb1 & Hu1 & Hv1); [done|]. rewrite Hl in Hd1. unfold zlen in Hv1. rewrite Hl in Hv1.
  unfold in_range in Ht, Hu1. rewrite (u32_id (u1 + t)) by (unfold in_range; lia). set (U := u1 + t) in *.
  rewrite Z.shiftr_div_pow2 by lia. change (Z.land U 127) with (Z.land U (Z.ones 7)). rewrite Z.land_ones by lia. change (2 ^ 7) with 128.
  pose proof (Z.div_mod U 128 ltac:(lia)) as HU. pose proof (Z.mod_pos_bound U 128 ltac:(lia)) as Hm. set (h := U / 128) in *. set (m := U mod 128) in *.
  assert (Hh : 0 <= h < 2 ^ 25) by lia. rewrite (u32_id (19 * h)) by (unfold in_range; lia).
  destruct (carry_chain_Ok d1 (19 * h)) as (d2 & u2 & -> & Hd2 & Hb2 & Hu2 & Hv2); [|unfold in_range; lia|].
  { eapply Forall_impl; [exact Hb1|]. unfold in_range. lia. }
  rewrite Hd1 in Hd2. unfold zlen in Hv2. rewrite Hd1 in Hv2. change (Z.of_nat 31) with 31 in *. unfold in_range in Hu2.
  pose proof (byte_list_range d1 Hd1 Hb1). pose proof (byte_list_range d2 Hd2 Hb2). assert (Hbig : 2 ^ 40 < 256 ^ 31) by (vm_compute; done).
  assert (u2 <= 1) by nia. rewrite u32_id by (unfold in_range; lia). rewrite !le_val_snoc31 by done. split.
  - exists d2, (u2 + m). repeat split; [done|done|lia|lia].
  - apply (eqm_intro _ _ _ (- h)). assert (Hp : p25519 = 128 * 256 ^ 31 - 19) by (vm_compute; reflexivity). rewrite Hp. nia.
Qed.

(** ** Products *)

Lemma mult_digit_sum a b i : (i < 32)%nat -> mult_digit a b i = u32 (column (fun j => nth j a 0) (fun j => nth j b 0) i).
Proof.
  intros Hi. unfold mult_digit, column. rewrite (fold_u32_sum _ (fun j => nth j a 0 * nth (i - j) b 0) (S i) 0 0); [|done|].
  2: { intros j. by apply eqm_mod. }
  rewrite (fold_u32_sum _ (fun j => 38 * (nth j a 0 * nth (i + 32 - j) b 0))).
  - rewrite zsum_scale. unfold u32, wrap. by rewrite Z.add_0_l, Z.add_mod_idemp_l.
  - by apply wrap_range.
  - intros j. unfold u32, wrap. rewrite !eqm_mod by done. by rewrite Z.mul_assoc.
Qed.

Lemma mult_Ok a b : limbs 1023 a -> limbs 1023 b -> limbs 128 (mult a b) /\ le_val (mult a b) ≡ le_val a * le_val b [mod p25519].
Proof.
  intros Ha Hb. set (h := column (fun j => nth j a 0) (fun j => nth j b 0)).
  assert (Hh : forall i, (i < 32)%nat -> 0 <= h i < 2 ^ 31).
  { intros i Hi. pose proof (column_bound (fun j => nth j a 0) (fun j => nth j b 0) i 1023) as Hc.
    specialize (Hc ltac:(intros; by apply limbs_nth) ltac:(intros; by apply limbs_nth) Hi). fold h in Hc. lia. }
  assert (Hd : map (mult_digit a b) (seq 0 32) = map h (seq 0 32)).
  { apply map_ext_in. intros i Hi%in_seq. rewrite mult_digit_sum by lia. apply u32_id. unfold in_range. specialize (Hh i ltac:(lia)). fold h. lia. }
  unfold mult. rewrite Hd. destruct (squeeze_Ok (map h (seq 0 32))) as [Hs Hv]; [done| |].
  { apply Forall_map, Forall_seq. intros i Hi. unfold compose, in_range. specialize (Hh i ltac:(lia)). lia. }
  split; [done|]. rewrite Hv, le_val_map_seq. unfold h. rewrite <- columns_val.
  rewrite (le_val_zsum a), (le_val_zsum b), (limbs_length _ a Ha), (limbs_length _ b Hb). done.
Qed.

Lemma square_digit_mult a i : (i < 32)%nat -> square_digit a i = mult_digit a a i.
Proof.
  intros Hi. rewrite mult_digit_sum by done. unfold square_digit. set (f := fun j => nth j a 0).
  rewrite (fold_u32_sum _ (fun j => f j * f (i - j)%nat) (S i / 2) 0 0); [|done|intros j; by apply eqm_mod].
  rewrite (fold_u32_sum _ (fun j => 38 * (f j * f (i + 32 - j)%nat)) ((31 - i) / 2)); [|by apply wrap_range|].
  2: { intros j. unfold u32, wrap. rewrite !eqm_mod by done. by rewrite Z.mul_assoc. }
  assert (Hw : forall x, u32 x ≡ x [mod 2 ^ 32]) by (intros; by apply eqm_mod).
  assert (Hs : forall x y, x ≡ y [mod 2 ^ 32] -> u32 x = u32 y) by (intros x y Hxy; by apply eqm_iff in Hxy).
  transitivity (u32 (if Nat.even i
    then (zsum (S i / 2) (fun j => f j * f (i - j)%nat) + zsum ((31 - i) / 2) (fun j => 38 * (f (S i + j)%nat * f (i + 32 - (S i + j))%nat))) * 2 +
         f (i / 2)%nat * f (i / 2)%nat + 38 * f (i / 2 + 16)%nat * f (i / 2 + 16)%nat
    else (zsum (S i / 2) (fun j => f j * f (i - j)%nat) + zsum ((31 - i) / 2) (fun j => 38 * (f (S i + j)%nat * f (i + 32 - (S i + j))%nat))) * 2)).
  - destruct (Nat.even i); apply Hs; rewrite !Hw; by rewrite ?Z.add_0_l.
  - f_equal. unfold column. clearbody f. clear - Hi. do 32 (destruct i as [|i]; [cbn -[Z.mul Z.add]; ring|]). lia.
Qed.

Lemma square_Ok a : limbs 1023 a -> limbs 128 (square a) /\ le_val (square a) ≡ le_val a * le_val a [mod p25519].
Proof.
  intros Ha. assert (Hsq : square a = mult a a); [|rewrite Hsq; by apply mult_Ok].
  unfold square, mult. f_equal. apply map_ext_in. intros i Hi%in_seq. apply square_digit_mult. lia.
Qed.

(** mult121665 is a multiplication of the digits and squeeze. *)
Lemma mult121665_squeeze l t :
  length l = 31%nat -> mult121665 (l ++ [t]) = squeeze (map (fun x => u32 (121665 * x)) (l ++ [t])).
Proof.
  intros Hl. unfold mult121665, squeeze. rewrite map_app. cbn [map]. rewrite !take_snoc31, !nth_snoc31 by (by rewrite ?length_map). done.
Qed.

Lemma mult121665_Ok a : limbs 1023 a -> limbs 128 (mult121665 a) /\ le_val (mult121665 a) ≡ 121665 * le_val a [mod p25519].
Proof.
  intros Ha. assert (Hd : map (fun x => u32 (121665 * x)) a = map (Z.mul 121665) a /\ Forall (in_range 31) (map (Z.mul 121665) a)).
  { assert (Hall : Forall (fun x => 0 <= x <= 1023) a).
    { destruct Ha as (l & t & -> & Hl & Hb & Ht). apply Forall_app. split; [|by apply Forall_singleton].
      eapply Forall_impl; [exact Hb|]. unfold in_range. lia. }
    clear Ha. induction Hall as [|x a Hx Ha [IH1 IH2]]; [done|]. cbn [map]. rewrite IH1. split; [|constructor; [unfold in_range; lia|done]].
    by rewrite u32_id by (unfold in_range; lia). }
  destruct Hd as [Hd Hr]. pose proof (limbs_length _ _ Ha) as Hl. pose proof Ha as (l & t & -> & Hll & _). rewrite mult121665_squeeze by done. rewrite Hd.
  destruct (squeeze_Ok (map (Z.mul 121665) (l ++ [t]))) as [Hs Hv]; [by rewrite length_map|done|]. split; [done|]. by rewrite Hv, le_val_map_mul.
Qed.

(** ** Selection *)

Lemma select_Ok r s b :
  Forall (in_range 32) r -> Forall (in_range 32) s -> length r = length s -> 
  select r s (if (b : bool) then 1 else 0) = if b then (s, r) else (r, s).
Proof.
  intros Hr. unfold select. revert s. induction Hr as [|x r Hx Hr IH]; intros s Hs Hl; [by destruct s, b|]. destruct Hs as [|y s Hy Hs]; [done|].
  specialize (IH s Hs ltac:(by injection Hl)). cbn [zip_with].
  assert (Hxy : in_range 32 (Z.lxor x y)) by (apply in_range_lxor; done || lia).
  destruct b.
  - change (u32 (1 - 1)) with 0 in *. rewrite Z.land_0_l, !Z.lxor_0_r. by injection IH as -> ->.
  - change (u32 (0 - 1)) with (Z.ones 32) in *. rewrite (Z.land_comm (Z.ones 32)), Z.land_ones, Z.mod_small by (done || lia).
    rewrite (Z.lxor_comm x y) at 1. rewrite <- !Z.lxor_assoc, !Z.lxor_nilpotent, !Z.lxor_0_l. by injection IH as -> ->.
Qed.

(** A point in the arrays of mainloop. *)
Definition point_at (X Zc : Z) (xz : list Z) : Prop :=
  exists x z, xz = x ++ z /\ limbs 255 x /\ limbs 128 z /\ le_val x ≡ X [mod p25519] /\ le_val z ≡ Zc [mod p25519].

Lemma point_words X Zc xz : point_at X Zc xz -> Forall (in_range 32) xz /\ length xz = 64%nat.
Proof.
  intros (x & z & -> & Hx & Hz & _). split; [|by rewrite length_app, (limbs_length _ x Hx), (limbs_length _ z Hz)].
  apply Forall_app. split; by eapply limbs_words.
Qed.

Lemma select_points X2 Z2 X3 Z3 r s b :
  point_at X2 Z2 r -> point_at X3 Z3 s -> select r s (if (b : bool) then 1 else 0) = if b then (s, r) else (r, s).
Proof. intros [Hr Hlr]%point_words [Hs Hls]%point_words. apply select_Ok; [done|done|lia]. Qed.

Lemma lo_app x z k : limbs k x -> lo (x ++ z) = x.
Proof. intros Hx%limbs_length. unfold lo. by rewrite <- Hx, take_app_length. Qed.

Lemma hi_app x z k : limbs k x -> hi (x ++ z) = z.
Proof. intros Hx%limbs_length. unfold hi. by rewrite <- Hx, drop_app_length. Qed.

Lemma add_eqm ka kb a b :
  limbs ka a -> limbs kb b -> ka + kb <= 1022 -> limbs 1023 (add a b) /\ le_val (add a b) ≡ le_val a + le_val b [mod p25519].
Proof. intros Ha Hb Hk. destruct (add_Ok _ _ _ _ Ha Hb) as [Hl ->]; [lia|]. split; [|done]. eapply limbs_weaken; [done|lia]. Qed.

Lemma sub_eqm ka kb a b :
  limbs ka a -> limbs kb b -> ka <= 767 -> kb <= 254 -> limbs 1023 (sub a b) /\ le_val (sub a b) ≡ le_val a - le_val b [mod p25519].
Proof.
  intros Ha Hb Hka Hkb. destruct (sub_Ok _ _ _ _ Ha Hb) as [Hl ->]; [lia|lia|]. split; [eapply limbs_weaken; [done|lia]|].
  apply (eqm_intro _ _ _ 2). ring.
Qed.

(** ** The ladder *)

(** One step on points in the right order. *)
Lemma ladder_arith work x1 x2 z2 x3 z3 s :
  limbs 255 work -> le_val work ≡ x1 [mod p25519] ->
  limbs 255 x2 -> limbs 128 z2 -> limbs 255 x3 -> limbs 128 z3 ->
  le_val x2 ≡ x_2 s [mod p25519] -> le_val z2 ≡ z_2 s [mod p25519] -> le_val x3 ≡ x_3 s [mod p25519] -> le_val z3 ≡ z_3 s [mod p25519] ->
  let a0 := add x2 z2 in let a0' := sub x2 z2 in let a1 := add x3 z3 in let a1' := sub x3 z3 in
  let b0 := square a0 in let b0' := square a0' in let b1 := mult a1 a0' in let b1' := mult a1' a0 in
  let c1 := add b1 b1' in let c1' := sub b1 b1' in let e := sub b0 b0' in
  let s' := rfc_step x1 s in
  point_at (x_2 s') (z_2 s') (mult b0 b0' ++ mult e (add (mult121665 e) b0)) /\
  point_at (x_3 s') (z_3 s') (square c1 ++ mult (square c1') work) /\ limbs 128 b0 /\ limbs 128 b1 /\ limbs 1023 a0 /\ limbs 1023 a1 /\ limbs 1023 c1.
Proof.
  intros Hw Hx1 Hx2 Hz2 Hx3 Hz3 Ex2 Ez2 Ex3 Ez3 a0 a0' a1 a1' b0 b0' b1 b1' c1 c1' e s'.
  destruct (add_eqm _ _ _ _ Hx2 Hz2 ltac:(lia)) as [Ha0 Va0], (sub_eqm _ _ _ _ Hx2 Hz2 ltac:(lia) ltac:(lia)) as [Ha0' Va0'].
  destruct (add_eqm _ _ _ _ Hx3 Hz3 ltac:(lia)) as [Ha1 Va1], (sub_eqm _ _ _ _ Hx3 Hz3 ltac:(lia) ltac:(lia)) as [Ha1' Va1'].
  fold a0 in Ha0, Va0. fold a0' in Ha0', Va0'. fold a1 in Ha1, Va1. fold a1' in Ha1', Va1'. clearbody a0 a0' a1 a1'.
  destruct (square_Ok _ Ha0) as [Hb0 Vb0], (square_Ok _ Ha0') as [Hb0' Vb0'], (mult_Ok _ _ Ha1 Ha0') as [Hb1 Vb1], (mult_Ok _ _ Ha1' Ha0) as [Hb1' Vb1'].
  fold b0 in Hb0, Vb0. fold b0' in Hb0', Vb0'. fold b1 in Hb1, Vb1. fold b1' in Hb1', Vb1'. clearbody b0 b0' b1 b1'.
  destruct (add_eqm _ _ _ _ Hb1 Hb1' ltac:(lia)) as [Hc1 Vc1], (sub_eqm _ _ _ _ Hb1 Hb1' ltac:(lia) ltac:(lia)) as [Hc1' Vc1'].
  destruct (sub_eqm _ _ _ _ Hb0 Hb0' ltac:(lia) ltac:(lia)) as [He Ve].
  fold c1 in Hc1, Vc1. fold c1' in Hc1', Vc1'. fold e in He, Ve. clearbody c1 c1' e.
  destruct (square_Ok _ Hc1') as [Hr Vr], (mult121665_Ok _ He) as [Ht Vt], (add_eqm _ _ _ _ Ht Hb0 ltac:(lia)) as [Hu Vu].
  assert (W : forall k a, limbs k a -> k <= 1023 -> limbs 1023 a) by (intros; by eapply limbs_weaken).
  destruct (mult_Ok b0 b0') as [Hx2' Vx2]; [by apply (W 128)..|]. destruct (mult_Ok _ _ He Hu) as [Hz2' Vz2].
  destruct (square_Ok _ Hc1) as [Hx3' Vx3]. destruct (mult_Ok (square c1') work) as [Hz3' Vz3]; [by apply (W 128)|by apply (W 255)|].
  split; [|split]; [do 2 eexists; split; [reflexivity|]; split; [by eapply limbs_weaken|]; split; [done|]..|done].
  - subst s'. unfold rfc_step. cbn [x_2 z_2 x_3 z_3]. rewrite !eqm_mod by done. split.
    + rewrite Vx2, Vb0, Vb0', Va0, Va0', Ex2, Ez2. done.
    + rewrite Vz2, Vu, Vt, Ve, Vb0, Vb0', Va0, Va0', Ex2, Ez2. by rewrite (Z.add_comm (121665 * _)).
  - subst s'. unfold rfc_step. cbn [x_2 z_2 x_3 z_3]. rewrite !eqm_mod by done. split.
    + rewrite Vx3, Vc1, Vb1, Vb1', Va0, Va0', Va1, Va1', Ex2, Ez2, Ex3, Ez3. apply (eqm_intro _ _ _ 0). ring.
    + rewrite Vz3, Vr, Vc1', Vb1, Vb1', Va0, Va0', Va1, Va1', Ex2, Ez2, Ex3, Ez3, Hx1. apply (eqm_intro _ _ _ 0). ring.
Qed.

Lemma main_step_Ok work x1 xzm xzm1 s b :
  limbs 255 work -> le_val work ≡ x1 [mod p25519] ->
  point_at (x_2 s) (z_2 s) xzm -> point_at (x_3 s) (z_3 s) xzm1 ->
  let s' := cswap b (rfc_step x1 (cswap b s)) in
  exists xzm' xzm1', main_step work xzm xzm1 (if b then 1 else 0) = (xzm', xzm1') /\
    point_at (x_2 s') (z_2 s') xzm' /\ point_at (x_3 s') (z_3 s') xzm1'.
Proof.
  intros Hw Hx1 Hm Hm1 s'. unfold main_step. rewrite (select_points _ _ _ _ _ _ b Hm Hm1).
  subst s'. set (sb := cswap b s) in *.
  assert (Hsel : exists xzmb xzm1b, (if b then (xzm1, xzm) else (xzm, xzm1)) = (xzmb, xzm1b) /\
    point_at (x_2 sb) (z_2 sb) xzmb /\ point_at (x_3 sb) (z_3 sb) xzm1b) by (subst sb; destruct b; eauto 6).
  destruct Hsel as (xzmb & xzm1b & -> & Hmb & Hm1b). clear Hm Hm1. clearbody sb.
  destruct Hmb as (x2 & z2 & -> & Hx2 & Hz2 & Ex2 & Ez2), Hm1b as (x3 & z3 & -> & Hx3 & Hz3 & Ex3 & Ez3).
  destruct (ladder_arith work x1 x2 z2 x3 z3 sb) as (Hn & Hn1 & Hb0 & Hb1 & Ha0 & Ha1 & Hc1); [done..|].
  rewrite !(lo_app x2 z2 255), !(hi_app x2 z2 255), !(lo_app x3 z3 255), !(hi_app x3 z3 255) by done.
  rewrite !(lo_app _ _ _ Ha0), !(hi_app _ _ _ Ha0), !(lo_app _ _ _ Ha1), !(hi_app _ _ _ Ha1).
  rewrite !(lo_app _ _ _ Hb0), !(hi_app _ _ _ Hb0), !(lo_app _ _ _ Hb1), !(hi_app _ _ _ Hb1).
  rewrite !(lo_app _ _ _ Hc1), !(hi_app _ _ _ Hc1). rewrite (select_points _ _ _ _ _ _ b Hn Hn1). by destruct b; eauto.
Qed.

Lemma main_loop_Ok n work x1 e : forall xzm xzm1 s,
  Forall is_byte e -> limbs 255 work -> le_val work ≡ x1 [mod p25519] ->
  point_at (x_2 s) (z_2 s) xzm -> point_at (x_3 s) (z_3 s) xzm1 ->
  let s' := rfc_ladder n (le_val e) x1 s in point_at (x_2 s') (z_2 s') (main_loop n work e xzm xzm1).
Proof.
  induction n as [|pos IH]; intros xzm xzm1 s He Hw Hx1 Hm Hm1; [done|]. cbn [main_loop rfc_ladder]. cbv zeta.
  rewrite testbit_le_val by done. rewrite bit_of_byte; [|apply nth_byte; done|lia].
  destruct (main_step_Ok work x1 xzm xzm1 s (Z.testbit (nth (pos / 8) e 0) (Z.of_nat (pos mod 8))) Hw Hx1 Hm Hm1) as (xzm' & xzm1' & -> & Hm' & Hm1').
  by apply IH.
Qed.

(** ** Powers *)

Lemma power_square z e a : power z e a -> power z (e + e) (square a).
Proof.
  intros (He & Ha & Hv). destruct (square_Ok a) as [Hs Vs]; [by eapply limbs_weaken|]. split; [lia|]. split; [done|].
  by rewrite Vs, Hv, Z.pow_add_r by lia.
Qed.

Lemma power_mult z e f a b : power z e a -> power z f b -> power z (e + f) (mult a b).
Proof.
  intros (He & Ha & Hv) (Hf & Hb & Hw). destruct (mult_Ok a b) as [Hs Vs]; [by eapply limbs_weaken..|]. split; [lia|]. split; [done|].
  by rewrite Vs, Hv, Hw, Z.pow_add_r by lia.
Qed.

Lemma power_square_twice z n : forall e a, power z e a -> power z (e * 4 ^ Z.of_nat n) (square_twice n a).
Proof.
  induction n as [|n IH]; intros e a Ha; [by rewrite Z.mul_1_r|]. unfold square_twice. rewrite Nat.iter_succ. fold (square_twice n a).
  specialize (IH _ _ Ha). rewrite Nat2Z.inj_succ, Z.pow_succ_r by lia.
  replace (e * (4 * 4 ^ Z.of_nat n)) with (e * 4 ^ Z.of_nat n + e * 4 ^ Z.of_nat n + (e * 4 ^ Z.of_nat n + e * 4 ^ Z.of_nat n)) by lia.
  by apply power_square, power_square.
Qed.

Ltac power_step :=
  match goal with
  | H : power _ ?e ?x |- context [square_twice ?n ?x] => power_name power_square_twice (e * 4 ^ Z.of_nat n) (square_twice n x)
  | H : power _ ?e ?x |- context [square ?x] => power_name power_square (e + e) (square x)
  | H : power _ ?e ?x, K : power _ ?f ?y |- context [mult ?x ?y] => power_name power_mult (e + f) (mult x y)
  end.

Lemma recip_Ok a : limbs 128 a -> power (le_val a) (p25519 - 2) (recip a).
Proof.
  intros Ha. assert (H1 : power (le_val a) 1 a) by (split; [done|]; split; [done|]; by rewrite Z.pow_1_r).
  unfold recip. cbv zeta. repeat power_step. eapply power_exponent; [eassumption|]. vm_compute. reflexivity.
Qed.

(** ** The result *)

Lemma minusp_limbs : limbs 128 minusp /\ le_val minusp = 2 ^ 256 - p25519.
Proof. split; [|vm_compute; reflexivity]. exists (19 :: replicate 30 0), 128. repeat split; [|lia|lia]. repeat constructor; done. Qed.

Lemma freeze_Ok a : limbs 128 a -> map u8 (freeze a) = le_bytes 32 (le_val a mod p25519).
Proof.
  intros Ha. destruct minusp_limbs as [Hm Vm]. destruct (add_Ok _ _ _ _ Ha Hm ltac:(lia)) as [Hs Vs]. rewrite Vm in Vs.
  pose proof (limbs_range _ _ Ha) as Hr. pose proof (limbs_length _ _ Ha) as Hla. pose proof (limbs_length _ _ Hs) as Hls.
  unfold freeze. set (r := add a minusp) in *. pose proof Hs as (l & t & Er & Hl & Hb & Ht). pose proof (byte_list_range l Hl Hb) as Hlr.
  assert (Hnt : nth 31 r 0 = t) by (rewrite Er; by apply nth_snoc31). assert (Hv : le_val r = le_val l + 256 ^ 31 * t) by (rewrite Er; by apply le_val_snoc31).
  rewrite Hnt. clearbody r. rewrite Z.shiftr_div_pow2 by lia. change (Z.land (t / 2 ^ 7) 1) with (Z.land (t / 128) (Z.ones 1)). rewrite Z.land_ones by lia.
  change (2 ^ 1) with 2. assert (Hp : p25519 = 128 * 256 ^ 31 - 19) by (vm_compute; reflexivity). assert (H256 : 2 ^ 256 = 256 * 256 ^ 31) by (vm_compute; reflexivity).
  assert (Hbig : 2 ^ 40 < 256 ^ 31) by (vm_compute; done). destruct (Z.lt_ge_cases (le_val a) p25519) as [Hlt|Hge].
  - assert (Htq : t / 128 = 1). { symmetry. apply (Z.div_unique _ _ _ (t - 128)); [left|lia]. nia. }
    rewrite Htq. change (u32 (- (1 mod 2))) with (Z.ones 32).
    rewrite zip_mask_all; [|lia|by eapply limbs_words|by eapply limbs_words]. rewrite (limbs_bytes 128) by done. by rewrite Z.mod_small by lia.
  - assert (Htq : t / 128 = 2). { symmetry. apply (Z.div_unique _ _ _ (t - 256)); [left|lia]. nia. }
    rewrite Htq. change (u32 (- (2 mod 2))) with 0. rewrite zip_mask_none by lia. rewrite (limbs_bytes _ r Hs), Vs.
    assert (Hmod : le_val a mod p25519 = le_val a - p25519) by (symmetry; apply (Z.mod_unique _ _ 1); [left|]; nia). rewrite Hmod.
    rewrite <- (le_bytes_wrap 32). f_equal. change (2 ^ (8 * Z.of_nat 32)) with (2 ^ 256).
    replace (le_val a + (2 ^ 256 - p25519)) with (le_val a - p25519 + 1 * 2 ^ 256) by ring. rewrite Z.mod_add by done. apply Z.mod_small. nia.
Qed.

(** The private key as the ladder sees it. *)
Lemma clamp_bytes_val n :
  length n = 32%nat -> Forall is_byte n -> Forall is_byte (clamp_bytes n) /\ le_val (clamp_bytes n) = rfc_scalar (le_val n).
Proof.
  intros Hn Hb. destruct n as [|x n]; [done|]. injection Hn as Hn. destruct (decide (n = [])) as [->|Hne]; [done|].
  destruct (exists_last Hne) as (l & t & ->). rewrite length_app in Hn. cbn [length] in Hn. assert (Hl : length l = 30%nat) by lia. clear Hne Hn.
  apply Forall_cons in Hb as [Hx Hb]. apply Forall_app in Hb as [Hb Ht]. apply Forall_cons in Ht as [Ht _].
  assert (E : clamp_bytes (x :: l ++ [t]) = Z.land x 248 :: l ++ [Z.lor (Z.land t 127) 64]).
  { assert (Hnth : forall y v, nth 31 (y :: l ++ [v]) 0 = v).
    { intros y v. cbn [nth]. rewrite <- Hl at 1. rewrite app_nth2, Nat.sub_diag by lia. done. }
    assert (Hins : forall y v w, <[31%nat := w]> (y :: l ++ [v]) = y :: l ++ [w]).
    { intros y v w. change (<[31%nat := w]> (y :: l ++ [v])) with (y :: <[30%nat := w]> (l ++ [v])). rewrite <- Hl. by rewrite insert_app_r_alt, Nat.sub_diag by lia. }
    unfold clamp_bytes. change (<[0%nat := Z.land (nth 0 (x :: l ++ [t]) 0) 248]> (x :: l ++ [t])) with (Z.land x 248 :: l ++ [t]). by rewrite Hnth, Hins, Hnth, Hins. }
  rewrite E. assert (H0 : is_byte (Z.land x 248) /\ Z.land x 248 = 8 * (x / 8)) by byte_fact x Hx.
  assert (H31 : is_byte (Z.lor (Z.land t 127) 64) /\ Z.lor (Z.land t 127) 64 = 64 + t mod 64) by byte_fact t Ht.
  destruct H0 as [Hx' Ex8], H31 as [Ht' Et]. split; [constructor; [done|]; apply Forall_app; split; [done|by apply Forall_singleton]|]. rewrite Ex8, Et.
  pose proof (le_val_range l Hb) as Hr. unfold in_range, zlen in *. rewrite Hl in Hr. change (2 ^ (8 * Z.of_nat 30)) with (2 ^ 240) in Hr.
  cbn [le_val]. rewrite !le_val_app. cbn [le_val]. unfold zlen. rewrite Hl. change (2 ^ (8 * Z.of_nat 30)) with (2 ^ 240). unfold rfc_scalar.
  set (L := le_val l) in *. clearbody L. rewrite !Z.mul_0_r, !Z.add_0_r.
  assert (Hq : (x + 256 * (L + 2 ^ 240 * t)) / 8 = x / 8 + 32 * (L + 2 ^ 240 * t)).
  { replace (x + 256 * (L + 2 ^ 240 * t)) with (x + 32 * (L + 2 ^ 240 * t) * 8) by ring. by apply Z.div_add. }
  assert (Hm : (x / 8 + 32 * (L + 2 ^ 240 * t)) mod 2 ^ 251 = x / 8 + 32 * (L + 2 ^ 240 * (t mod 64))).
  { symmetry. apply (Z.mod_unique _ _ (t / 64)); [left|].
    - pose proof (Z.mod_pos_bound t 64 ltac:(lia)). pose proof (Z.div_pos x 8 ltac:(lia) ltac:(lia)). assert (x / 8 < 32) by (apply Z.div_lt_upper_bound; lia). lia.
    - pose proof (Z.div_mod t 64 ltac:(lia)). lia. }
  rewrite Hq, Hm. lia.
Qed.

(** Any number of 255 bits that is the point modulo p gives the same. *)
Lemma crypto_scalarmult_at n p u :
  length n = 32%nat -> Forall is_byte n -> length p = 32%nat -> Forall is_byte p -> 0 <= u < 2 ^ 255 -> le_val p ≡ u [mod p25519] ->
  crypto_scalarmult n p = le_bytes 32 (rfc_X25519 (le_val n) u).
Proof.
  intros Hn Hnb Hp Hpb Hu Hpu. unfold crypto_scalarmult. rewrite !take_ge by lia.
  destruct (clamp_bytes_val n Hn Hnb) as [Heb Hev]. pose proof (bytes_limbs p Hp Hpb) as Hw.
  set (s0 := mkXZ 1 0 u 1).
  assert (Hone : forall k, 0 <= k -> limbs k (1 :: replicate 31 0)) by (intros k Hk; exists (1 :: replicate 30 0), 0; repeat split; [repeat constructor; done|lia|lia]).
  assert (Hzero : limbs 128 (replicate 32 0)) by (exists (replicate 31 0), 0; repeat split; [by apply Forall_replicate|lia|lia]).
  assert (Hm : point_at (x_2 s0) (z_2 s0) (1 :: replicate 63 0)).
  { exists (1 :: replicate 31 0), (replicate 32 0). split; [done|]. split; [by apply Hone|]. split; [done|]. by split. }
  assert (Hm1 : point_at (x_3 s0) (z_3 s0) (p ++ 1 :: replicate 31 0)).
  { exists p, (1 :: replicate 31 0). split; [done|]. split; [done|]. split; [by apply Hone|]. by split. }
  pose proof (main_loop_Ok 255 p u (clamp_bytes n) _ _ s0 Heb Hw Hpu Hm Hm1) as Hl. cbv zeta in Hl.
  unfold mainloop. rewrite take_ge by lia. rewrite Hev in Hl. unfold rfc_X25519, rfc_u. rewrite (Z.mod_small u) by done. fold s0.
  set (s' := rfc_ladder _ _ _ _) in *. clearbody s'. destruct Hl as (x & z & -> & Hx & Hz & Ex & Ez).
  rewrite (lo_app _ _ _ Hx), (hi_app _ _ _ Hx). destruct (recip_Ok z Hz) as (_ & Hr & Vr).
  destruct (mult_Ok x (recip z)) as [Hq Vq]; [by eapply limbs_weaken..|]. rewrite freeze_Ok by done. f_equal.
  apply eqm_iff; [done|]. rewrite Vq, Vr, Ex, Zpow_mod_correct by done. rewrite eqm_mod by done.
  by rewrite (eqm_pow p25519 _ _ (p25519 - 2) ltac:(done) Ez).
Qed.

Lemma crypto_scalarmult_spec n p :
  length n = 32%nat -> Forall is_byte n -> length p = 32%nat -> Forall is_byte p ->
  crypto_scalarmult n p = le_bytes 32 (rfc_X25519 (le_val n) (le_val p mod p25519)).
Proof.
  intros Hn Hnb Hp Hpb. apply crypto_scalarmult_at; try done; [|symmetry; by apply eqm_mod].
  pose proof (Z.mod_pos_bound (le_val p) p25519 ltac:(done)). unfold p25519 in *. lia.
Qed.

(** C27: crypto_scalarmult is the function X25519 of RFC 7748 at every point whose bit 255 is clear.
    That bit is not masked as the RFC asks: at any point the result is that of the RFC at the whole
    256-bit number modulo p, so that at a point with the bit set it is the RFC's at the number
    without the bit plus 19, where that has 255 bits. *)
Theorem crypto_scalarmult_X25519 n p :
  length n = 32%nat -> Forall is_byte n -> length p = 32%nat -> Forall is_byte p ->
  (le_val p < 2 ^ 255 -> crypto_scalarmult n p = le_bytes 32 (rfc_X25519 (le_val n) (le_val p))) /\
  crypto_scalarmult n p = le_bytes 32 (rfc_X25519 (le_val n) (le_val p mod p25519)) /\
  (2 ^ 255 <= le_val p < 2 ^ 256 - 19 -> crypto_scalarmult n p = le_bytes 32 (rfc_X25519 (le_val n) (rfc_u (le_val p) + 19))).
Proof.
  intros Hn Hnb Hp Hpb. pose proof (le_val_range p Hpb) as Hr. unfold in_range in Hr. split_and!.
  - intros Hlt. apply crypto_scalarmult_at; try done; lia.
  - by apply crypto_scalarmult_spec.
  - intros Hge. assert (Eu : rfc_u (le_val p) = le_val p - 2 ^ 255) by (unfold rfc_u; symmetry; apply (Z.mod_unique_pos _ _ 1); lia).
    rewrite Eu. apply crypto_scalarmult_at; try done; [lia|]. apply (eqm_intro _ _ _ 1). unfold p25519. lia.
Qed.

Lemma crypto_scalarmult_X25519_witness :
  crypto_scalarmult (le_bytes 32 77) base = le_bytes 32 (rfc_X25519 (le_val (le_bytes 32 77)) 9) /\
  crypto_scalarmult (le_bytes 32 77) (9 :: replicate 30 0 ++ [128]) = le_bytes 32 (rfc_X25519 (le_val (le_bytes 32 77)) 28).
Proof.
  split.
  - destruct (crypto_scalarmult_X25519 (le_bytes 32 77) base) as (H & _); [reflexivity|apply le_bytes_bytes|reflexivity|by repeat constructor|]. exact (H eq_refl).
  - destruct (crypto_scalarmult_X25519 (le_bytes 32 77) (9 :: replicate 30 0 ++ [128])) as (_ & _ & H); [reflexivity|apply le_bytes_bytes|reflexivity|by repeat constructor|].
    apply H. split; [discriminate|reflexivity].
Defined.
