(* ===== verification/Fe25519.v ===== *)
(** The field arithmetic of the signatures: the fe25519 functions of node/C25519.cpp.

    A field element modulo 2^255 - 19 is an array of 32 words, least significant digit
    first in radix 256, each operation ending with passes that bring the digits below 256.
    Everything is computed modulo 2^32, and the lemmas include that no sum overflows.  The
    indices of the fixed arrays are in range by construction; [nth] reads them. *)
From S2P Require Import Prelude.
From S2P Require Import Limbs.
From S2P Require Import Field25519.

(** ** The code *)

Definition equal (a b : Z) : Z := Z.shiftr (u32 (Z.lxor a b - 1)) 31.

Definition ge (a b : Z) : Z := Z.lxor (Z.shiftr (u32 (a - b)) 31) 1.

Definition times19 (a : Z) : Z := u32 (u32 (u32 (Z.shiftl a 4) + u32 (Z.shiftl a 1)) + a).

Definition times38 (a : Z) : Z := u32 (u32 (u32 (Z.shiftl a 5) + u32 (Z.shiftl a 2)) + u32 (Z.shiftl a 1)).

(** The body of the loops over [rep] of reduce_add_sub and of reduce_mul. *)
Definition reduce_pass (r : list Z) : list Z :=
  let t := times19 (Z.shiftr (nth 31 r 0) 7) in
  let v31 := Z.land (nth 31 r 0) 127 in
  let '(d, u) := carry_chain t (take 31 r) in
  d ++ [u32 (v31 + u)].

Definition reduce_add_sub (r : list Z) : list Z := Nat.iter 4 reduce_pass r.
Definition reduce_mul (r : list Z) : list Z := Nat.iter 2 reduce_pass r.

Definition fe25519_freeze (r : list Z) : list Z :=
  let m := equal (nth 31 r 0) 127 in
  let m := fold_left (fun m i => Z.land m (equal (nth i r 0) 255)) (rev (seq 1 30)) m in
  let m := Z.land m (ge (nth 0 r 0) 237) in
  let m := u32 (- m) in
  u32 (nth 0 r 0 - Z.land m 237) :: map (fun i => u32 (nth i r 0 - Z.land m 255)) (seq 1 30) ++ [u32 (nth 31 r 0 - Z.land m 127)].

Definition fe25519_unpack (x : list Z) : list Z := take 31 x ++ [Z.land (nth 31 x 0) 127].

Definition fe25519_pack (x : list Z) : list Z := map u8 (fe25519_freeze x).

Definition fe25519_iseq_vartime (x y : list Z) : bool :=
  let t1 := fe25519_freeze x in
  let t2 := fe25519_freeze y in
  forallb (fun i => nth i t1 0 =? nth i t2 0) (seq 0 32).

Definition fe25519_cmov (r x : list Z) (b : Z) : list Z :=
  let mask := u32 (- b) in
  zip_with (fun r x => Z.lxor r (Z.land mask (Z.lxor x r))) r x.

Definition fe25519_getparity (x : list Z) : Z := Z.land (nth 0 (fe25519_freeze x) 0) 1.

Definition fe25519_setone : list Z := 1 :: replicate 31 0.
Definition fe25519_setzero : list Z := replicate 32 0.

Definition fe25519_add (x y : list Z) : list Z := reduce_add_sub (zip_with (fun a b => u32 (a + b)) x y).

Definition fe25519_sub (x y : list Z) : list Z :=
  let t := u32 (nth 0 x 0 + 0x1da) :: map (fun i => u32 (nth i x 0 + 0x1fe)) (seq 1 30) ++ [u32 (nth 31 x 0 + 0xfe)] in
  reduce_add_sub (zip_with (fun a b => u32 (a - b)) t y).

Definition fe25519_neg (x : list Z) : list Z := fe25519_sub fe25519_setzero x.

Definition fe25519_mul (x y : list Z) : list Z :=
  let t := mul_acc (fun _ _ => true) (fun i j => nth i x 0 * nth j y 0) 32 32 (replicate 63 0) in
  reduce_mul (map (fun i => u32 (nth i t 0 + times38 (nth (i + 32) t 0))) (seq 0 31) ++ [nth 31 t 0]).

Definition fe25519_square (x : list Z) : list Z := fe25519_mul x x.

(** [n] turns of [fe25519_square(&t0,&t1); fe25519_square(&t1,&t0)], and of
    [fe25519_square(&t,&t)]. *)
Definition fe_square_twice (n : nat) (t : list Z) : list Z := Nat.iter n (fun t => fe25519_square (fe25519_square t)) t.
Definition fe_square_times (n : nat) (t : list Z) : list Z := Nat.iter n fe25519_square t.

Definition fe25519_invert (x : list Z) : list Z :=
  let z2 := fe25519_square x in
  let t1 := fe25519_square z2 in
  let t0 := fe25519_square t1 in
  let z9 := fe25519_mul t0 x in
  let z11 := fe25519_mul z9 z2 in
  let t0 := fe25519_square z11 in
  let z2_5_0 := fe25519_mul t0 z9 in
  let t0 := fe25519_square z2_5_0 in
  let t1 := fe25519_square t0 in
  let t0 := fe25519_square t1 in
  let t1 := fe25519_square t0 in
  let t0 := fe25519_square t1 in
  let z2_10_0 := fe25519_mul t0 z2_5_0 in
  let t0 := fe25519_square z2_10_0 in
  let t1 := fe25519_square t0 in
  let t1 := fe_square_twice 4 t1 in
  let z2_20_0 := fe25519_mul t1 z2_10_0 in
  let t0 := fe25519_square z2_20_0 in
  let t1 := fe25519_square t0 in
  let t1 := fe_square_twice 9 t1 in
  let t0 := fe25519_mul t1 z2_20_0 in
  let t1 := fe25519_square t0 in
  let t0 := fe25519_square t1 in
  let t0 := fe_square_twice 4 t0 in
  let z2_50_0 := fe25519_mul t0 z2_10_0 in
  let t0 := fe25519_square z2_50_0 in
  let t1 := fe25519_square t0 in
  let t1 := fe_square_twice 24 t1 in
  let z2_100_0 := fe25519_mul t1 z2_50_0 in
  let t1 := fe25519_square z2_100_0 in
  let t0 := fe25519_square t1 in
  let t0 := fe_square_twice 49 t0 in
  let t1 := fe25519_mul t0 z2_100_0 in
  let t0 := fe25519_square t1 in
  let t1 := fe25519_square t0 in
  let t1 := fe_square_twice 24 t1 in
  let t0 := fe25519_mul t1 z2_50_0 in
  let t1 := fe25519_square t0 in
  let t0 := fe25519_square t1 in
  let t1 := fe25519_square t0 in
  let t0 := fe25519_square t1 in
  let t1 := fe25519_square t0 in
  fe25519_mul t1 z11.

Definition fe25519_pow2523 (x : list Z) : list Z :=
  let z2 := fe25519_square x in
  let t := fe25519_square z2 in
  let t := fe25519_square t in
  let z9 := fe25519_mul t x in
  let z11 := fe25519_mul z9 z2 in
  let t := fe25519_square z11 in
  let z2_5_0 := fe25519_mul t z9 in
  let t := fe25519_square z2_5_0 in
  let t := fe_square_times 4 t in
  let z2_10_0 := fe25519_mul t z2_5_0 in
  let t := fe25519_square z2_10_0 in
  let t := fe_square_times 9 t in
  let z2_20_0 := fe25519_mul t z2_10_0 in
  let t := fe25519_square z2_20_0 in
  let t := fe_square_times 19 t in
  let t := fe25519_mul t z2_20_0 in
  let t := fe25519_square t in
  let t := fe_square_times 9 t in
  let z2_50_0 := fe25519_mul t z2_10_0 in
  let t := fe25519_square z2_50_0 in
  let t := fe_square_times 49 t in
  let z2_100_0 := fe25519_mul t z2_50_0 in
  let t := fe25519_square z2_100_0 in
  let t := fe_square_times 99 t in
  let t := fe25519_mul t z2_100_0 in
  let t := fe25519_square t in
  let t := fe_square_times 49 t in
  let t := fe25519_mul t z2_50_0 in
  let t := fe25519_square t in
  let t := fe25519_square t in
  fe25519_mul t x.

(** ** Words *)

Lemma times19_eqm a : times19 a ≡ 19 * a [mod 2 ^ 32].
Proof. unfold times19, u32, wrap. rewrite !eqm_mod by done. rewrite !Z.shiftl_mul_pow2 by lia. apply (eqm_intro _ _ _ 0). ring. Qed.

Lemma times38_eqm a : times38 a ≡ 38 * a [mod 2 ^ 32].
Proof. unfold times38, u32, wrap. rewrite !eqm_mod by done. rewrite !Z.shiftl_mul_pow2 by lia. apply (eqm_intro _ _ _ 0). ring. Qed.

Lemma equal_Ok a b : in_range 31 a -> in_range 31 b -> equal a b = Z.b2z (a =? b).
Proof.
  intros Ha Hb. unfold equal. assert (Hx : in_range 31 (Z.lxor a b)) by (apply in_range_lxor; done || lia).
  destruct (Z.eqb_spec a b) as [->|Hn]; [by rewrite Z.lxor_nilpotent|].
  assert (Z.lxor a b <> 0) by (intros E%Z.lxor_eq; done). unfold in_range in Hx. rewrite u32_id by (unfold in_range; lia).
  rewrite Z.shiftr_div_pow2 by lia. apply Z.div_small. lia.
Qed.

Lemma ge_Ok a b : in_range 31 a -> in_range 31 b -> ge a b = Z.b2z (b <=? a).
Proof.
  intros Ha Hb. unfold in_range, ge in *. rewrite Z.shiftr_div_pow2 by lia. destruct (Z.leb_spec b a).
  - rewrite u32_id by (unfold in_range; lia). rewrite Z.div_small by lia. done.
  - assert (E : u32 (a - b) = a - b + 2 ^ 32) by (symmetry; apply (Z.mod_unique _ _ (-1)); lia). rewrite E.
    assert (Eq : (a - b + 2 ^ 32) / 2 ^ 31 = 1) by (symmetry; apply (Z.div_unique _ _ _ (a - b + 2 ^ 31)); lia). by rewrite Eq.
Qed.

(** ** Reduction *)

(** A pass takes a multiple of the prime off. *)
Lemma reduce_pass_Ok l t :
  length l = 31%nat -> Forall (in_range 31) l -> in_range 31 t ->
  exists l' u, reduce_pass (l ++ [t]) = l' ++ [t mod 128 + u] /\ length l' = 31%nat /\ Forall is_byte l' /\ 0 <= u < 2 ^ 31 /\
    le_val l' + 256 ^ 31 * u = le_val l + 19 * (t / 128).
Proof.
  intros Hl Hr Ht. unfold reduce_pass. rewrite take_snoc31, nth_snoc31 by done. rewrite Z.shiftr_div_pow2 by lia.
  change (Z.land t 127) with (Z.land t (Z.ones 7)). rewrite Z.land_ones by lia. change (2 ^ 7) with 128.
  unfold in_range in Ht. assert (Hq : 0 <= t / 128 < 2 ^ 24) by (split; [apply Z.div_pos|apply Z.div_lt_upper_bound]; lia).
  assert (Hm := Z.mod_pos_bound t 128 ltac:(lia)).
  assert (H19 : times19 (t / 128) = 19 * (t / 128)).
  { rewrite <- (u32_id (times19 _)), <- (u32_id (19 * _)); [|unfold in_range; lia|by apply wrap_range]. apply eqm_iff; [done|]. apply times19_eqm. }
  rewrite H19. destruct (carry_chain_Ok l (19 * (t / 128)) Hr) as (d & u & -> & Hd & Hb & Hu & Hv); [unfold in_range; lia|].
  unfold zlen in Hv. rewrite Hl in Hv, Hd. change (Z.of_nat 31) with 31 in Hv. unfold in_range in Hu.
  exists d, u. rewrite u32_id by (unfold in_range; lia). repeat split; [done|done|lia|lia|lia].
Qed.

Lemma words_range l : length l = 31%nat -> Forall (in_range 31) l -> 0 <= le_val l < 2 ^ 24 * 256 ^ 31.
Proof.
  intros Hl Hr. rewrite le_val_zsum, Hl. assert (Hn : forall i, in_range 31 (nth i l 0)).
  { intros i. destruct (decide (i < length l)%nat); [|by rewrite nth_overflow by lia]. rewrite Forall_nth in Hr. by apply Hr. }
  assert (Hz : 0 <= zsum 31 (fun i => nth i l 0 * 256 ^ Z.of_nat i) /\ 255 * zsum 31 (fun i => nth i l 0 * 256 ^ Z.of_nat i) <= 2 ^ 31 * (256 ^ Z.of_nat 31 - 1)).
  { generalize 31%nat. induction n as [|n IH]; [done|]. cbn [zsum]. specialize (Hn n). unfold in_range in Hn.
    rewrite Nat2Z.inj_succ, Z.pow_succ_r by lia. assert (0 < 256 ^ Z.of_nat n) by (apply Z.pow_pos_nonneg; lia). nia. }
  change (Z.of_nat 31) with 31 in Hz. lia.
Qed.

Lemma p25519_words : p25519 = 128 * 256 ^ 31 - 19.
Proof. vm_compute. reflexivity. Qed.

(** The first pass, the second, and those after. *)
Lemma reduce_pass_first r :
  length r = 32%nat -> Forall (in_range 31) r -> limbs (2 ^ 25) (reduce_pass r) /\ le_val (reduce_pass r) ≡ le_val r [mod p25519].
Proof.
  intros Ha Hr. destruct (split_snoc31 r Ha) as (l & t & -> & Hl). apply Forall_app in Hr as [Hr Ht]. apply Forall_cons in Ht as [Ht _].
  destruct (reduce_pass_Ok l t Hl Hr Ht) as (l' & u & -> & Hl' & Hb & Hu & Hv). pose proof (words_range l Hl Hr). pose proof (byte_list_range l' Hl' Hb).
  assert (Hm := Z.mod_pos_bound t 128 ltac:(lia)). assert (Hd := Z.div_mod t 128 ltac:(lia)). unfold in_range in Ht.
  assert (2 ^ 40 < 256 ^ 31) by (vm_compute; done). rewrite !le_val_snoc31 by done. split.
  - exists l', (t mod 128 + u). repeat split; [done|done|lia|]. assert (u <= 2 ^ 24 + 1) by nia. lia.
  - apply (eqm_intro _ _ _ (- (t / 128))). rewrite p25519_words. nia.
Qed.

Lemma limbs_words31 k a : limbs k a -> k < 2 ^ 31 -> Forall (in_range 31) (take 31 a) /\ in_range 31 (nth 31 a 0).
Proof.
  intros (l & t & -> & Hl & Hb & Ht) Hk. rewrite take_snoc31, nth_snoc31 by done. split; [|unfold in_range; lia].
  eapply Forall_impl; [exact Hb|]. unfold in_range. lia.
Qed.

Lemma reduce_pass_next k a :
  limbs k a -> k <= 2 ^ 25 ->
  limbs 128 (reduce_pass a) /\ le_val (reduce_pass a) = le_val a - p25519 * (nth 31 a 0 / 128).
Proof.
  intros Ha Hk. destruct (limbs_words31 k a Ha ltac:(lia)) as [Hr Htr]. destruct Ha as (l & t & -> & Hl & Hb & Ht). rewrite take_snoc31, nth_snoc31 in * by done.
  destruct (reduce_pass_Ok l t Hl Hr Htr) as (l' & u & -> & Hl' & Hb' & Hu & Hv). pose proof (byte_list_range l Hl Hb). pose proof (byte_list_range l' Hl' Hb').
  assert (Hm := Z.mod_pos_bound t 128 ltac:(lia)). assert (Hd := Z.div_mod t 128 ltac:(lia)).
  assert (2 ^ 40 < 256 ^ 31) by (vm_compute; done). assert (u <= 1) by nia. rewrite !le_val_snoc31, p25519_words by done. split; [|nia].
  exists l', (t mod 128 + u). repeat split; [done|done|lia|lia].
Qed.

(** Two passes leave a last digit of at most 128. *)
Lemma reduce_mul_Ok r :
  length r = 32%nat -> Forall (in_range 31) r -> limbs 128 (reduce_mul r) /\ le_val (reduce_mul r) ≡ le_val r [mod p25519].
Proof.
  intros Hl Hr. destruct (reduce_pass_first r Hl Hr) as [H1 V1]. destruct (reduce_pass_next _ _ H1 ltac:(lia)) as [H2 V2].
  change (reduce_mul r) with (reduce_pass (reduce_pass r)). split; [done|]. rewrite <- V1, V2. apply (eqm_intro _ _ _ (- (nth 31 (reduce_pass r) 0 / 128))). ring.
Qed.

(** What they leave exceeds 2^255 by little. *)
Lemma reduce_mul_below r : length r = 32%nat -> Forall (in_range 31) r -> 0 <= le_val (reduce_mul r) < 2 ^ 255 + 2 ^ 23.
Proof.
  intros Hl Hr. destruct (reduce_pass_first r Hl Hr) as [H1 _]. destruct (reduce_pass_next _ _ H1 ltac:(lia)) as [H2 V2]. change (reduce_mul r) with (reduce_pass (reduce_pass r)).
  split; [apply (limbs_range _ _ H2)|]. rewrite V2. destruct H1 as (l & t & -> & Hll & Hb & Ht). rewrite nth_snoc31, le_val_snoc31 by done. pose proof (byte_list_range l Hll Hb).
  assert (Hm := Z.mod_pos_bound t 128 ltac:(lia)). assert (Hd := Z.div_mod t 128 ltac:(lia)). rewrite p25519_words. change (2 ^ 255) with (128 * 256 ^ 31).
  assert (0 <= t / 128 <= 2 ^ 18) by (split; [apply Z.div_pos; lia|apply Z.div_le_upper_bound; lia]). nia.
Qed.

(** One more leaves a number below 2^255. *)
Lemma reduce_pass_last a :
  limbs 128 a -> limbs 127 (reduce_pass a) /\ le_val (reduce_pass a) ≡ le_val a [mod p25519].
Proof.
  intros Ha. destruct (reduce_pass_next _ _ Ha ltac:(lia)) as [H1 V1]. split.
  - destruct Ha as (l & t & -> & Hl & Hb & Ht). rewrite nth_snoc31, le_val_snoc31 in V1 by done. pose proof (byte_list_range l Hl Hb).
    destruct H1 as (l' & t' & E & Hl' & Hb' & Ht'). rewrite E in V1 |- *. rewrite le_val_snoc31 in V1 by done. pose proof (byte_list_range l' Hl' Hb').
    rewrite p25519_words in V1. exists l', t'. repeat split; [done|done|lia|]. destruct (decide (t = 128)) as [->|Hne].
    + change (128 / 128) with 1 in V1. assert (2 ^ 40 < 256 ^ 31) by (vm_compute; done). nia.
    + rewrite Z.div_small in V1 by lia. nia.
  - rewrite V1. apply (eqm_intro _ _ _ (- (nth 31 a 0 / 128))). ring.
Qed.

Lemma reduce_add_sub_Ok r :
  length r = 32%nat -> Forall (in_range 31) r -> limbs 127 (reduce_add_sub r) /\ le_val (reduce_add_sub r) ≡ le_val r [mod p25519].
Proof.
  intros Hl Hr. destruct (reduce_mul_Ok r Hl Hr) as [H2 V2]. destruct (reduce_pass_last _ H2) as [H3 V3].
  destruct (reduce_pass_last (reduce_pass (reduce_mul r))) as [H4 V4]; [by eapply limbs_weaken|].
  change (reduce_add_sub r) with (reduce_pass (reduce_pass (reduce_mul r))). split; [done|]. by rewrite V4, V3, V2.
Qed.

(** ** Sums, differences, products *)

Lemma limbs_entries k a i : limbs k a -> 0 <= nth i a 0 <= (if (i <? 31)%nat then 255 else k `max` 0).
Proof.
  intros (l & t & -> & Hl & Hb & Ht). destruct (Nat.ltb_spec i 31) as [Hi|Hi].
  - rewrite app_nth1 by lia. pose proof (nth_byte l i Hb) as Hn. unfold in_range in Hn. lia.
  - destruct (decide (i = 31)%nat) as [->|]; [rewrite nth_snoc31 by done; lia|]. rewrite nth_overflow; [lia|]. rewrite length_app. cbn. lia.
Qed.

Lemma limbs_zsum k a : limbs k a -> le_val a = zsum 32 (fun i => nth i a 0 * 256 ^ Z.of_nat i).
Proof. intros Ha. by rewrite le_val_zsum, (limbs_length _ _ Ha). Qed.

Lemma fe25519_add_Ok x y :
  limbs 255 x -> limbs 255 y -> limbs 127 (fe25519_add x y) /\ le_val (fe25519_add x y) ≡ le_val x + le_val y [mod p25519].
Proof.
  intros Hx Hy. unfold fe25519_add. rewrite (map_nth_seq x 32), (map_nth_seq y 32) by (by eapply limbs_length). rewrite zip_with_map_seq.
  set (h := fun i => nth i x 0 + nth i y 0).
  assert (Hh : forall i, 0 <= h i < 2 ^ 31).
  { intros i. pose proof (limbs_entries _ x i Hx). pose proof (limbs_entries _ y i Hy). unfold h. destruct (i <? 31)%nat; lia. }
  assert (E : map (fun i => u32 (nth i x 0 + nth i y 0)) (seq 0 32) = map h (seq 0 32)).
  { apply map_ext. intros i. apply u32_id. specialize (Hh i). unfold in_range. fold (h i). lia. }
  rewrite E. destruct (reduce_add_sub_Ok (map h (seq 0 32))) as [Hs Hv]; [done|apply Forall_map, Forall_seq; intros i _; apply Hh|].
  split; [done|]. rewrite Hv, !le_val_map_seq. unfold h. rewrite <- zsum_add.
  erewrite zsum_ext; [reflexivity|]. intros. apply Z.mul_add_distr_r.
Qed.

(** The multiple of the prime that sub adds, digit by digit. *)
Definition sub_bias (i : nat) : Z := if (i =? 0)%nat then 0x1da else if (i =? 31)%nat then 0xfe else 0x1fe.

Lemma fe25519_sub_Ok x y :
  limbs 255 x -> limbs 254 y -> limbs 127 (fe25519_sub x y) /\ le_val (fe25519_sub x y) ≡ le_val x - le_val y [mod p25519].
Proof.
  intros Hx Hy. unfold fe25519_sub. set (t := _ :: _). assert (Et : t = map (fun i => u32 (nth i x 0 + sub_bias i)) (seq 0 32)) by reflexivity.
  rewrite Et. clear t Et. rewrite (map_nth_seq y 32) by (by eapply limbs_length). rewrite zip_with_map_seq.
  set (h := fun i => nth i x 0 + sub_bias i - nth i y 0).
  assert (Hc : forall i, (i < 32)%nat -> (if (i <? 31)%nat then 255 else 254) <= sub_bias i <= 510).
  { intros i Hi. unfold sub_bias. destruct (Nat.eqb_spec i 0) as [->|]; [done|]. destruct (Nat.eqb_spec i 31) as [->|]; [done|]. by destruct (i <? 31)%nat. }
  assert (Hh : forall i, (i < 32)%nat -> 0 <= h i < 2 ^ 31 /\ 0 <= nth i x 0 + sub_bias i < 2 ^ 31).
  { intros i Hi. pose proof (limbs_entries _ x i Hx). pose proof (limbs_entries _ y i Hy). specialize (Hc i Hi). unfold h. destruct (i <? 31)%nat; lia. }
  assert (E : map (fun i => u32 (u32 (nth i x 0 + sub_bias i) - nth i y 0)) (seq 0 32) = map h (seq 0 32)).
  { apply map_ext_in. intros i Hi%in_seq. specialize (Hh i ltac:(lia)). rewrite (u32_id (_ + _)) by (unfold in_range; lia). apply u32_id. unfold in_range. fold (h i). lia. }
  rewrite E. destruct (reduce_add_sub_Ok (map h (seq 0 32))) as [Hs Hv]; [done|apply Forall_map, Forall_seq; intros i Hi; apply Hh; lia|].
  split; [done|]. rewrite Hv, (limbs_zsum _ x Hx), !le_val_map_seq.
  assert (Ez : zsum 32 (fun i => h i * 256 ^ Z.of_nat i) =
    zsum 32 (fun i => nth i x 0 * 256 ^ Z.of_nat i) + (-1) * zsum 32 (fun i => nth i y 0 * 256 ^ Z.of_nat i) + zsum 32 (fun i => sub_bias i * 256 ^ Z.of_nat i)).
  { rewrite <- zsum_scale, <- !zsum_add. apply zsum_ext. intros. unfold h. ring. }
  rewrite Ez. assert (E2 : zsum 32 (fun i => sub_bias i * 256 ^ Z.of_nat i) = p25519 * 2) by (vm_compute; reflexivity). rewrite E2.
  generalize (zsum 32 (fun i => nth i x 0 * 256 ^ Z.of_nat i)) (zsum 32 (fun i => nth i y 0 * 256 ^ Z.of_nat i)). intros X Y.
  apply (eqm_intro _ _ _ 2). ring.
Qed.

Lemma fe25519_setone_Ok : limbs 127 fe25519_setone /\ le_val fe25519_setone = 1.
Proof. split; [|done]. exists (1 :: replicate 30 0), 0. repeat split; [by repeat constructor|lia|lia]. Qed.

Lemma fe25519_setzero_Ok : limbs 127 fe25519_setzero /\ le_val fe25519_setzero = 0.
Proof. split; [|done]. exists (replicate 31 0), 0. repeat split; [by apply Forall_replicate|lia|lia]. Qed.

Lemma fe25519_neg_Ok x : limbs 254 x -> limbs 127 (fe25519_neg x) /\ le_val (fe25519_neg x) ≡ - le_val x [mod p25519].
Proof.
  intros Hx. destruct fe25519_setzero_Ok as [Hz Vz]. destruct (fe25519_sub_Ok fe25519_setzero x) as [Hs Vs]; [by eapply limbs_weaken|done|].
  split; [done|]. unfold fe25519_neg. by rewrite Vs, Vz.
Qed.

(** The columns of the product. *)
Lemma mul_columns x y k :
  limbs 255 x -> limbs 255 y -> 0 <= acc_column (fun _ _ => true) (fun i j => nth i x 0 * nth j y 0) 32 32 k <= 32 * (255 * 255).
Proof.
  intros Hx Hy. rewrite acc_column_rows. pose proof (fun i => limbs_nth _ x i Hx ltac:(done)) as Bx. pose proof (fun i => limbs_nth _ y i Hy ltac:(done)) as By.
  apply (zsum_bound 32). intros i _. specialize (Bx i). specialize (By (k - i)%nat). destruct (_ && true); nia.
Qed.

(** The columns from 32 on count 38 times their place. *)
Lemma mul_columns_fold c :
  zsum 32 (fun i => (if (i =? 31)%nat then c 31%nat else c i + 38 * c (i + 32)%nat) * 256 ^ Z.of_nat i) ≡
  zsum 63 (fun k => c k * 256 ^ Z.of_nat k) [mod p25519].
Proof.
  change 63%nat with (32 + 31)%nat. rewrite (zsum_split 32 31). change 32%nat with (31 + 1)%nat at 1 3. rewrite !(zsum_split 31 1).
  erewrite (zsum_ext 31); [|intros i Hi; rewrite (proj2 (Nat.eqb_neq i 31)) by lia; rewrite Z.mul_add_distr_r; reflexivity]. rewrite zsum_add.
  assert (Eh : zsum 31 (fun i => c (32 + i)%nat * 256 ^ Z.of_nat (32 + i)) = 256 ^ 32 * zsum 31 (fun i => c (i + 32)%nat * 256 ^ Z.of_nat i)).
  { rewrite <- zsum_scale. apply zsum_ext. intros i _. rewrite Nat2Z.inj_add, Z.pow_add_r by lia. rewrite (Nat.add_comm 32 i). change (Z.of_nat 32) with 32. ring. }
  assert (El : zsum 31 (fun i => 38 * c (i + 32)%nat * 256 ^ Z.of_nat i) = 38 * zsum 31 (fun i => c (i + 32)%nat * 256 ^ Z.of_nat i)).
  { rewrite <- zsum_scale. apply zsum_ext. intros. ring. }
  rewrite Eh, El. clear Eh El. generalize (zsum 31 (fun i => c i * 256 ^ Z.of_nat i)) (zsum 31 (fun i => c (i + 32)%nat * 256 ^ Z.of_nat i)). intros A B. cbn [zsum].
  change ((31 + 0 =? 31)%nat) with true. cbv iota. change (31 + 0)%nat with 31%nat.
  apply (eqm_intro _ _ _ (- 2 * B)). assert (E : p25519 * 2 = 256 ^ 32 - 38) by (vm_compute; reflexivity).
  replace (p25519 * (-2 * B)) with (- (p25519 * 2) * B) by ring. rewrite E. ring.
Qed.

Lemma mul_fold_Ok (c : nat -> Z) t :
  (forall k, 0 <= c k <= 32 * (255 * 255)) -> (forall k, nth k t 0 = c k) ->
  let r := reduce_mul (map (fun i => u32 (nth i t 0 + times38 (nth (i + 32) t 0))) (seq 0 31) ++ [nth 31 t 0]) in
  (limbs 128 r /\ le_val r ≡ zsum 63 (fun k => c k * 256 ^ Z.of_nat k) [mod p25519]) /\ 0 <= le_val r < 2 ^ 255 + 2 ^ 23.
Proof.
  intros Hc Ht. set (h := fun i => if (i =? 31)%nat then c 31%nat else c i + 38 * c (i + 32)%nat).
  assert (E : map (fun i => u32 (nth i t 0 + times38 (nth (i + 32) t 0))) (seq 0 31) ++ [nth 31 t 0] = map h (seq 0 32)).
  { rewrite (seq_S 31), map_app, Ht. apply (f_equal2 app); [|reflexivity]. apply map_ext_in. intros i Hi%in_seq. unfold h.
    rewrite (proj2 (Nat.eqb_neq _ _)) by lia. rewrite !Ht. pose proof (Hc i). pose proof (Hc (i + 32)%nat).
    rewrite <- (u32_id (_ + 38 * _)) by (unfold in_range; lia). apply eqm_iff; [done|]. by rewrite times38_eqm. }
  rewrite E. assert (Hh : Forall (in_range 31) (map h (seq 0 32))).
  { apply Forall_map, Forall_seq. intros i _. unfold compose, h, in_range. pose proof (Hc i). pose proof (Hc 31%nat). pose proof (Hc (i + 32)%nat). destruct (i =? 31)%nat; lia. }
  destruct (reduce_mul_Ok (map h (seq 0 32))) as [Hs Hv]; [by rewrite length_map, length_seq|done|]. cbv zeta. split; [|apply reduce_mul_below; [by rewrite length_map, length_seq|done]].
  split; [done|]. rewrite Hv, le_val_map_seq. apply mul_columns_fold.
Qed.

Lemma mul_columns_val x y :
  limbs 255 x -> limbs 255 y ->
  zsum 63 (fun k => acc_column (fun _ _ => true) (fun i j => nth i x 0 * nth j y 0) 32 32 k * 256 ^ Z.of_nat k) = le_val x * le_val y.
Proof.
  intros Hx Hy. rewrite (acc_columns_val (fun _ _ => true)) by (intros; lia). rewrite (limbs_zsum _ x Hx), (limbs_zsum _ y Hy), zsum_mul.
  apply zsum_ext. intros i _. apply zsum_ext. intros j _. rewrite Nat2Z.inj_add, Z.pow_add_r by lia. ring.
Qed.

Lemma fe25519_mul_bound x y :
  limbs 255 x -> limbs 255 y ->
  (limbs 128 (fe25519_mul x y) /\ le_val (fe25519_mul x y) ≡ le_val x * le_val y [mod p25519]) /\ 0 <= le_val (fe25519_mul x y) < 2 ^ 255 + 2 ^ 23.
Proof.
  intros Hx Hy. rewrite <- (mul_columns_val x y Hx Hy). apply mul_fold_Ok; [intros; by apply mul_columns|]. intros k.
  refine (proj2 (mul_acc_exact _ _ 32 32 63 _ _) k); [intros; lia|]. intros k'. pose proof (mul_columns x y k' Hx Hy). lia.
Qed.

Lemma fe25519_mul_Ok x y :
  limbs 255 x -> limbs 255 y -> limbs 128 (fe25519_mul x y) /\ le_val (fe25519_mul x y) ≡ le_val x * le_val y [mod p25519].
Proof. intros Hx Hy. by apply fe25519_mul_bound. Qed.

(** ** Powers *)

Lemma fe_power_square z e a : power z e a -> power z (e + e) (fe25519_square a).
Proof.
  intros (He & Ha & Hv). destruct (fe25519_mul_Ok a a) as [Hs Vs]; [by eapply limbs_weaken..|]. split; [lia|]. split; [done|].
  unfold fe25519_square. by rewrite Vs, Hv, Z.pow_add_r by lia.
Qed.

Lemma fe_power_mul z e f a b : power z e a -> power z f b -> power z (e + f) (fe25519_mul a b).
Proof.
  intros (He & Ha & Hv) (Hf & Hb & Hw). destruct (fe25519_mul_Ok a b) as [Hs Vs]; [by eapply limbs_weaken..|]. split; [lia|]. split; [done|].
  by rewrite Vs, Hv, Hw, Z.pow_add_r by lia.
Qed.

Lemma fe_power_times z n e a : power z e a -> power z (e * 2 ^ Z.of_nat n) (fe_square_times n a).
Proof.
  intros Ha. induction n as [|n IH]; [by rewrite Z.mul_1_r|]. unfold fe_square_times. rewrite Nat.iter_succ. fold (fe_square_times n a).
  rewrite Nat2Z.inj_succ, Z.pow_succ_r by lia. replace (e * (2 * 2 ^ Z.of_nat n)) with (e * 2 ^ Z.of_nat n + e * 2 ^ Z.of_nat n) by lia.
  by apply fe_power_square.
Qed.

Lemma fe_power_twice z n e a : power z e a -> power z (e * 4 ^ Z.of_nat n) (fe_square_twice n a).
Proof.
  intros Ha. induction n as [|n IH]; [by rewrite Z.mul_1_r|]. unfold fe_square_twice. rewrite Nat.iter_succ. fold (fe_square_twice n a).
  rewrite Nat2Z.inj_succ, Z.pow_succ_r by lia.
  replace (e * (4 * 4 ^ Z.of_nat n)) with (e * 4 ^ Z.of_nat n + e * 4 ^ Z.of_nat n + (e * 4 ^ Z.of_nat n + e * 4 ^ Z.of_nat n)) by lia.
  by apply fe_power_square, fe_power_square.
Qed.

Ltac fe_power_step :=
  match goal with
  | H : power _ ?e ?x |- context [fe_square_twice ?n ?x] => power_name fe_power_twice (e * 4 ^ Z.of_nat n) (fe_square_twice n x)
  | H : power _ ?e ?x |- context [fe_square_times ?n ?x] => power_name fe_power_times (e * 2 ^ Z.of_nat n) (fe_square_times n x)
  | H : power _ ?e ?x |- context [fe25519_square ?x] => power_name fe_power_square (e + e) (fe25519_square x)
  | H : power _ ?e ?x, K : power _ ?f ?y |- context [fe25519_mul ?x ?y] => power_name fe_power_mul (e + f) (fe25519_mul x y)
  end.

Lemma fe25519_invert_power a : limbs 128 a -> power (le_val a) (p25519 - 2) (fe25519_invert a).
Proof.
  intros Ha. assert (H1 : power (le_val a) 1 a) by (split; [done|]; split; [done|]; by rewrite Z.pow_1_r).
  unfold fe25519_invert. cbv zeta. repeat fe_power_step. eapply power_exponent; [eassumption|]. vm_compute. reflexivity.
Qed.

Lemma fe25519_pow2523_power a : limbs 128 a -> power (le_val a) (2 ^ 252 - 3) (fe25519_pow2523 a).
Proof.
  intros Ha. assert (H1 : power (le_val a) 1 a) by (split; [done|]; split; [done|]; by rewrite Z.pow_1_r).
  unfold fe25519_pow2523. cbv zeta. repeat fe_power_step. eapply power_exponent; [eassumption|]. vm_compute. reflexivity.
Qed.

(** ** Canonical form *)

(** What freeze leaves: it takes the prime off a number between the prime and 2^255, and
    nothing else. *)
Definition frozen (v : Z) : Z := if (p25519 <=? v) && (v <? 2 ^ 255) then v - p25519 else v.

Lemma land_b2z b c : Z.land (Z.b2z b) (Z.b2z c) = Z.b2z (b && c).
Proof. by destruct b, c. Qed.

(** The mask of freeze. *)
Lemma freeze_mask r :
  limbs 128 r ->
  Z.land (fold_left (fun m i => Z.land m (equal (nth i r 0) 255)) (rev (seq 1 30)) (equal (nth 31 r 0) 127)) (ge (nth 0 r 0) 237) =
  Z.b2z ((nth 31 r 0 =? 127) && forallb (fun i => nth i r 0 =? 255) (rev (seq 1 30)) && (237 <=? nth 0 r 0)).
Proof.
  intros Hr. assert (Hn : forall i, in_range 31 (nth i r 0)).
  { intros i. pose proof (limbs_entries _ r i Hr). unfold in_range. destruct (i <? 31)%nat; lia. }
  rewrite ge_Ok, equal_Ok by done.
  assert (Hf : forall s b, fold_left (fun m i => Z.land m (equal (nth i r 0) 255)) s (Z.b2z b) = Z.b2z (b && forallb (fun i => nth i r 0 =? 255) s)).
  { intros s. induction s as [|i s IH]; intros b; cbn [fold_left forallb]; [by rewrite andb_true_r|]. by rewrite equal_Ok, land_b2z, IH, andb_assoc by done. }
  by rewrite Hf, land_b2z.
Qed.

(** The numbers between the prime and 2^255 have the digits that freeze looks for. *)
Lemma limbs_le_bytes k r : limbs k r -> k <= 255 -> r = le_bytes 32 (le_val r).
Proof.
  intros Hr Hk. pose proof (limbs_length _ _ Hr) as Hl. rewrite <- Hl. symmetry. apply le_bytes_le_val. destruct Hr as (l & t & -> & _ & Hb & Ht).
  apply Forall_app. split; [done|]. apply Forall_singleton. unfold in_range. lia.
Qed.

Lemma freeze_high r :
  limbs 128 r -> p25519 <= le_val r < 2 ^ 255 -> fe25519_freeze r = le_bytes 32 (le_val r - p25519).
Proof.
  intros Hr Hv. rewrite (limbs_le_bytes _ r Hr) at 1 by lia. assert (Hk : exists k, le_val r = p25519 + Z.of_nat k /\ (k < 19)%nat).
  { exists (Z.to_nat (le_val r - p25519)). unfold p25519 in *. lia. }
  destruct Hk as (k & -> & Hk). replace (p25519 + Z.of_nat k - p25519) with (Z.of_nat k) by ring.
  do 19 (destruct k as [|k]; [vm_compute; reflexivity|]). lia.
Qed.

Lemma freeze_low r : limbs 128 r -> ~ (p25519 <= le_val r < 2 ^ 255) -> fe25519_freeze r = r.
Proof.
  intros Hr Hv. unfold fe25519_freeze. rewrite (freeze_mask r Hr).
  assert (Hb : (nth 31 r 0 =? 127) && forallb (fun i => nth i r 0 =? 255) (rev (seq 1 30)) && (237 <=? nth 0 r 0) = false).
  { apply not_true_iff_false. intros [[H31 Hf]%andb_true_iff H0]%andb_true_iff. apply Hv. clear Hv.
    rewrite forallb_forall in Hf. assert (Hz : le_val r = nth 0 r 0 + (127 * 256 ^ 31 + 256 ^ 31 - 256)).
    { rewrite (limbs_zsum _ r Hr). change 32%nat with (1 + (30 + 1))%nat. rewrite (zsum_split 1), (zsum_split 30).
      erewrite (zsum_ext 30); [|intros i Hi; rewrite (proj1 (Z.eqb_eq _ _) (Hf (1 + i)%nat ltac:(rewrite <- in_rev; apply in_seq; lia))); reflexivity].
      cbn [zsum]. change (1 + (30 + 0))%nat with 31%nat. rewrite (proj1 (Z.eqb_eq _ _) H31). change (Z.of_nat 0) with 0. rewrite Z.pow_0_r.
      match goal with |- 0 + ?a * 1 + (?b + ?c) = _ => assert (E : b + c = 127 * 256 ^ 31 + 256 ^ 31 - 256) by (vm_compute; reflexivity); rewrite E; ring end. }
    rewrite Hz. pose proof (limbs_entries _ r 0 Hr) as Hn. cbn in Hn. apply Z.leb_le in H0. unfold p25519. lia. }
  rewrite Hb. change (u32 (- Z.b2z false)) with 0. rewrite !Z.land_0_l, !Z.sub_0_r.
  assert (Hw : forall i, u32 (nth i r 0) = nth i r 0).
  { intros i. apply u32_id. pose proof (limbs_entries _ r i Hr). unfold in_range. destruct (i <? 31)%nat; lia. }
  transitivity (map (fun i => nth i r 0) (seq 0 32)); [|symmetry; apply map_nth_seq; by eapply limbs_length]. rewrite !Hw.
  rewrite (map_ext _ (fun i => nth i r 0)); [reflexivity|]. intros i. by rewrite Z.sub_0_r.
Qed.

Lemma limbs_below k a : limbs k a -> le_val a < 2 ^ 255 -> limbs 127 a.
Proof.
  intros (l & t & -> & Hl & Hb & Ht) Hv. rewrite le_val_snoc31 in Hv by done. pose proof (byte_list_range l Hl Hb). exists l, t.
  repeat split; [done|done|lia|]. change (2 ^ 255) with (128 * 256 ^ 31) in Hv. nia.
Qed.

Lemma fe25519_freeze_Ok r :
  limbs 128 r -> limbs 128 (fe25519_freeze r) /\ le_val (fe25519_freeze r) = frozen (le_val r).
Proof.
  intros Hr. unfold frozen. destruct (decide (p25519 <= le_val r < 2 ^ 255)) as [Hv|Hv].
  - rewrite (freeze_high r Hr Hv). assert (Hs : 0 <= le_val r - p25519 < 19) by (unfold p25519 in *; lia).
    rewrite (proj2 (Z.leb_le _ _)), (proj2 (Z.ltb_lt _ _)) by lia. cbn [andb].
    assert (Ev : le_val (le_bytes 32 (le_val r - p25519)) = le_val r - p25519) by (rewrite le_val_le_bytes; apply Z.mod_small; lia).
    split; [|done]. eapply limbs_weaken; [|by instantiate (1 := 127)]. eapply limbs_below; [apply bytes_limbs|].
    + apply length_le_bytes.
    + apply le_bytes_bytes.
    + rewrite Ev. lia.
  - rewrite (freeze_low r Hr Hv). split; [done|].
    destruct (Z.leb_spec p25519 (le_val r)); [|done]. destruct (Z.ltb_spec (le_val r) (2 ^ 255)); [|done]. lia.
Qed.

Lemma frozen_mod v : 0 <= v < 2 ^ 255 -> frozen v = v mod p25519.
Proof.
  intros Hv. unfold frozen. rewrite (proj2 (Z.ltb_lt v _)), andb_true_r by lia. destruct (Z.leb_spec p25519 v).
  - apply (Z.mod_unique _ _ 1); [left|]; unfold p25519 in *; lia.
  - symmetry. apply Z.mod_small. lia.
Qed.

(** A number above 2^255, that freeze does not reduce, has a small residue. *)
Lemma frozen_large v : 0 <= v < 2 ^ 255 + 2 ^ 23 -> 2 ^ 24 <= v mod p25519 -> frozen v = v mod p25519.
Proof.
  intros Hv Hl. destruct (decide (v < 2 ^ 255)); [apply frozen_mod; lia|]. exfalso. assert (E : v mod p25519 = v - p25519).
  { symmetry. apply (Z.mod_unique _ _ 1); [left|]; unfold p25519 in *; lia. }
  rewrite E in Hl. unfold p25519 in Hl. lia.
Qed.

Lemma frozen_eqm v : frozen v ≡ v [mod p25519].
Proof. unfold frozen. destruct (_ && _); [|done]. apply (eqm_intro _ _ _ (-1)). ring. Qed.

Lemma limbs_255 a : limbs 127 a -> 0 <= le_val a < 2 ^ 255.
Proof. intros Ha. exact (limbs_range _ _ Ha). Qed.

Lemma fe25519_pack_frozen x : limbs 128 x -> fe25519_pack x = le_bytes 32 (frozen (le_val x)).
Proof. intros Hx. destruct (fe25519_freeze_Ok x Hx) as [Hf <-]. by apply (limbs_bytes 128). Qed.

Lemma limbs_inj k a b : limbs k a -> limbs k b -> k <= 255 -> le_val a = le_val b -> a = b.
Proof. intros Ha Hb Hk E. rewrite (limbs_le_bytes _ _ Ha Hk), (limbs_le_bytes _ _ Hb Hk). by rewrite E. Qed.

Lemma fe25519_iseq_frozen x y :
  limbs 128 x -> limbs 128 y -> fe25519_iseq_vartime x y = (frozen (le_val x) =? frozen (le_val y)).
Proof.
  intros Hx Hy. destruct (fe25519_freeze_Ok x Hx) as [Fx <-], (fe25519_freeze_Ok y Hy) as [Fy <-]. unfold fe25519_iseq_vartime.
  set (a := fe25519_freeze x) in *. set (b := fe25519_freeze y) in *. clearbody a b. apply eq_true_iff_eq. rewrite forallb_forall, Z.eqb_eq. split.
  - intros H. f_equal. rewrite (map_nth_seq a 32), (map_nth_seq b 32) by (by eapply limbs_length). apply map_ext_in. intros i Hi. by apply Z.eqb_eq, H.
  - intros E i _. rewrite (limbs_inj 128 a b Fx Fy ltac:(lia) E). apply Z.eqb_refl.
Qed.

Lemma fe25519_getparity_frozen x : limbs 128 x -> fe25519_getparity x = frozen (le_val x) mod 2.
Proof.
  intros Hx. destruct (fe25519_freeze_Ok x Hx) as [Fx <-]. unfold fe25519_getparity. set (a := fe25519_freeze x) in *. clearbody a.
  destruct Fx as (l & t & -> & Hl & _). destruct l as [|d l]; [done|]. cbn [app nth le_val]. rewrite (Z.land_ones _ 1) by lia. change (2 ^ 1) with 2.
  replace (d + 256 * le_val (l ++ [t])) with (d + 128 * le_val (l ++ [t]) * 2) by ring. by rewrite Z.mod_add.
Qed.

Lemma fe25519_unpack_Ok x :
  length x = 32%nat -> Forall is_byte x -> limbs 127 (fe25519_unpack x) /\ le_val (fe25519_unpack x) = le_val x mod 2 ^ 255.
Proof.
  intros Hl Hb. destruct (split_snoc31 x Hl) as (l & t & -> & Hll). unfold fe25519_unpack. rewrite take_snoc31, nth_snoc31 by done.
  apply Forall_app in Hb as [Hb Ht]. apply Forall_cons in Ht as [Ht _]. change (Z.land t 127) with (Z.land t (Z.ones 7)). rewrite (Z.land_ones t 7) by lia. assert (Hm := Z.mod_pos_bound t (2 ^ 7) ltac:(lia)).
  split; [exists l, (t mod 2 ^ 7); repeat split; [done|done|lia|lia]|]. rewrite !le_val_snoc31 by done. pose proof (byte_list_range l Hll Hb).
  change (2 ^ 255) with (2 ^ 7 * 256 ^ 31). apply (Z.mod_unique _ _ (t / 2 ^ 7)); [left; nia|]. pose proof (Z.div_mod t (2 ^ 7) ltac:(lia)). nia.
Qed.

Lemma fe25519_cmov_Ok k r x (b : bool) :
  limbs k r -> limbs k x -> k < 2 ^ 32 -> fe25519_cmov r x (if b then 1 else 0) = if b then x else r.
Proof.
  intros Hr Hx Hk. unfold fe25519_cmov. assert (Hl : length r = length x) by (by rewrite (limbs_length _ _ Hr), (limbs_length _ _ Hx)). destruct b.
  - change (u32 (- (1))) with (Z.ones 32). apply zip_mask_all; [done|by eapply limbs_words..].
  - change (u32 (- (0))) with 0. by apply zip_mask_none.
Qed.

(** ** The contract *)

(** The sums and differences are below 2^255, where freeze gives the canonical form: their
    encoding is the canonical encoding, and their comparison is equality in the field. *)
Theorem fe25519_add_sub_canonical x y :
  limbs 128 x -> limbs 128 y ->
  fe25519_pack (fe25519_add x y) = le_bytes 32 ((le_val x + le_val y) mod p25519) /\
  fe25519_pack (fe25519_sub x y) = le_bytes 32 ((le_val x - le_val y) mod p25519) /\
  fe25519_iseq_vartime (fe25519_add x y) (fe25519_sub x y) = ((le_val x + le_val y) mod p25519 =? (le_val x - le_val y) mod p25519).
Proof.
  intros Hx Hy. destruct (fe25519_add_Ok x y) as [Ha Va]; [by eapply limbs_weaken..|]. destruct (fe25519_sub_Ok x y) as [Hs Vs]; [by eapply limbs_weaken..|].
  apply eqm_iff in Va; [|done]. apply eqm_iff in Vs; [|done]. rewrite !fe25519_pack_frozen, fe25519_iseq_frozen by (by eapply limbs_weaken).
  rewrite !frozen_mod by (by apply limbs_255). by rewrite Va, Vs.
Qed.

Lemma fe25519_add_sub_canonical_witness :
  fe25519_pack (fe25519_add fe25519_setone fe25519_setone) = le_bytes 32 ((le_val fe25519_setone + le_val fe25519_setone) mod p25519) /\
  fe25519_pack (fe25519_sub fe25519_setone fe25519_setone) = le_bytes 32 ((le_val fe25519_setone - le_val fe25519_setone) mod p25519) /\
  fe25519_iseq_vartime (fe25519_add fe25519_setone fe25519_setone) (fe25519_sub fe25519_setone fe25519_setone) =
    ((le_val fe25519_setone + le_val fe25519_setone) mod p25519 =? (le_val fe25519_setone - le_val fe25519_setone) mod p25519).
Proof. apply fe25519_add_sub_canonical; (eapply limbs_weaken; [apply fe25519_setone_Ok|lia]). Defined.

(** The products need not be: mul makes two passes where add and sub make four, and leaves
    (-1) * (-19) at 2^255, which freeze does not reduce, although pack assumes its input to
    be below 2^255.  The comparison with 19 fails, and the encoding is not that of 19. *)
Theorem fe25519_mul_unreduced :
  let x := le_bytes 32 (p25519 - 1) in
  let y := le_bytes 32 (p25519 - 19) in
  limbs 127 x /\ limbs 127 y /\ le_val x * le_val y ≡ 19 [mod p25519] /\
  le_val (fe25519_mul x y) = 2 ^ 255 /\
  fe25519_iseq_vartime (fe25519_mul x y) (le_bytes 32 19) = false /\
  fe25519_pack (fe25519_mul x y) <> le_bytes 32 19.
Proof.
  assert (Hm : fe25519_mul (le_bytes 32 (p25519 - 1)) (le_bytes 32 (p25519 - 19)) = replicate 31 0 ++ [128]) by (vm_compute; reflexivity).
  assert (Hl : forall v, 0 <= v < 2 ^ 255 -> limbs 127 (le_bytes 32 v)).
  { intros v Hv. eapply limbs_below; [apply bytes_limbs; [apply length_le_bytes|apply le_bytes_bytes]|]. rewrite le_val_le_bytes, Z.mod_small; lia. }
  cbv zeta. rewrite Hm. split; [apply Hl; unfold p25519; lia|]. split; [apply Hl; unfold p25519; lia|]. split; [apply eqm_iff; [done|]; by vm_compute|].
  split; [by vm_compute|]. split; by vm_compute.
Qed.
