(* ===== verification/Sc25519.v ===== *)
(** The scalars of the signatures: the sc25519 functions of node/C25519.cpp, arithmetic
    modulo the order of the base point.

    A scalar is an array of 32 words holding bytes, least significant first.  barrett_reduce
    is algorithm 14.42 of the Handbook of Applied Cryptography in radix 256, with the columns
    of the first product below 31 left out and the quotient kept in digits that are not
    normalised; the lemmas show that none of its sums overflows 32 bits and that two
    conditional subtractions are enough. *)
From S2P Require Import Prelude.
From S2P Require Import Limbs.

(** ** The code *)

(** The order of the base point, and floor (2^512 / order). *)
Definition sc_m : list Z :=
  [0xED; 0xD3; 0xF5; 0x5C; 0x1A; 0x63; 0x12; 0x58; 0xD6; 0x9C; 0xF7; 0xA2; 0xDE; 0xF9; 0xDE; 0x14;
   0; 0; 0; 0; 0; 0; 0; 0; 0; 0; 0; 0; 0; 0; 0; 0x10].
Definition sc_mu : list Z :=
  [0x1B; 0x13; 0x2C; 0x0A; 0xA3; 0xE5; 0x9C; 0xED; 0xA7; 0x29; 0x63; 0x08; 0x5D; 0x21; 0x06; 0x21;
   0xEB; 0xFF; 0xFF; 0xFF; 0xFF; 0xFF; 0xFF; 0xFF; 0xFF; 0xFF; 0xFF; 0xFF; 0xFF; 0xFF; 0xFF; 0xFF; 0x0F].

Definition lt (a b : Z) : Z := Z.shiftr (u32 (a - b)) 31.

(** [for (...) { pb += m[i]; b = lt(r[i],pb); out[i] = r[i]-pb+(b<<8); pb = b; }]: the
    differences and the last [b]. *)
Fixpoint borrow_chain (pb : Z) (rs ms : list Z) : list Z * Z :=
  match rs, ms with
  | r :: rs, m :: ms =>
      let pb := u32 (pb + m) in
      let b := lt r pb in
      let t := u32 (u32 (r - pb) + u32 (Z.shiftl b 8)) in
      let '(out, b') := borrow_chain b rs ms in
      (t :: out, b')
  | _, _ => ([], pb)
  end.

(** The differences are stored in unsigned characters. *)
Definition sc_reduce_add_sub (r : list Z) : list Z :=
  let '(t, b) := borrow_chain 0 r sc_m in
  let t := map u8 t in
  let mask := u32 (b - 1) in
  zip_with (fun r t => Z.lxor r (Z.land mask (Z.lxor r t))) r t.

Definition barrett_q2 (x : list Z) : list Z :=
  let q2 := mul_acc (fun i j => 31 <=? i + j)%nat (fun i j => nth i sc_mu 0 * nth (j + 31) x 0) 33 33 (replicate 66 0) in
  let carry := Z.shiftr (nth 31 q2 0) 8 in
  let q2 := acc_at q2 32 carry in
  let carry := Z.shiftr (nth 32 q2 0) 8 in
  acc_at q2 33 carry.

Definition barrett_r2 (q3 : list Z) : list Z :=
  let r2 := mul_acc (fun i j => i + j <? 33)%nat (fun i j => nth i sc_m 0 * nth j q3 0) 32 33 (replicate 33 0) in
  let '(d, u) := carry_chain 0 (take 32 r2) in
  d ++ [u32 (nth 32 r2 0 + u)].

Definition barrett_reduce (x : list Z) : list Z :=
  let q3 := drop 33 (barrett_q2 x) in
  let r1 := take 33 x in
  let r2 := barrett_r2 q3 in
  let '(r, _) := borrow_chain 0 (take 32 r1) (take 32 r2) in
  sc_reduce_add_sub (sc_reduce_add_sub r).

Definition sc25519_from32bytes (x : list Z) : list Z := barrett_reduce (take 32 x ++ replicate 32 0).

Definition sc25519_from64bytes (x : list Z) : list Z := barrett_reduce (take 64 x).

Definition sc25519_to32bytes (x : list Z) : list Z := map u8 x.

Definition sc25519_add (x y : list Z) : list Z :=
  let r := zip_with (fun a b => u32 (a + b)) x y in
  let '(d, u) := carry_chain 0 (take 31 r) in
  sc_reduce_add_sub (d ++ [u32 (nth 31 r 0 + u)]).

Definition sc25519_mul (x y : list Z) : list Z :=
  let t := mul_acc (fun _ _ => true) (fun i j => nth i x 0 * nth j y 0) 32 32 (replicate 64 0) in
  let '(d, u) := carry_chain 0 (take 63 t) in
  barrett_reduce (d ++ [u32 (nth 63 t 0 + u)]).

(** ** The order *)

Definition L25519 : Z := 2 ^ 252 + 27742317777372353535851937790883648493.

Lemma sc_m_val : le_val sc_m = L25519.
Proof. vm_compute. reflexivity. Qed.

Lemma sc_mu_val : le_val sc_mu = 2 ^ 512 / L25519.
Proof. vm_compute. reflexivity. Qed.

(** A scalar: 32 bytes. *)
Definition scalar (x : list Z) : Prop := length x = 32%nat /\ Forall is_byte x.

Lemma sc_m_scalar : scalar sc_m.
Proof. split; [done|]. by repeat constructor. Qed.

(** ** Subtraction *)

Lemma lt_Ok a b : 0 <= a <= 255 -> 0 <= b <= 256 -> lt a b = Z.b2z (a <? b).
Proof.
  intros Ha Hb. unfold lt. rewrite Z.shiftr_div_pow2 by lia. destruct (Z.ltb_spec a b).
  - assert (E : u32 (a - b) = a - b + 2 ^ 32) by (symmetry; apply (Z.mod_unique _ _ (-1)); lia). rewrite E.
    symmetry. apply (Z.div_unique _ _ _ (a - b + 2 ^ 31)); cbn [Z.b2z]; lia.
  - rewrite u32_id by (unfold in_range; lia). apply Z.div_small. lia.
Qed.

Lemma borrow_chain_Ok rs : forall ms pb,
  Forall is_byte rs -> Forall is_byte ms -> length rs = length ms -> 0 <= pb <= 1 ->
  exists out b, borrow_chain pb rs ms = (out, Z.b2z b) /\ length out = length rs /\ Forall is_byte out /\
    le_val out = le_val rs - le_val ms - pb + 256 ^ zlen rs * Z.b2z b.
Proof.
  induction rs as [|r rs IH]; intros ms pb Hr Hm Hl Hpb; destruct ms as [|m ms]; try done; cbn [borrow_chain].
  - exists [], (pb =? 1). cbn [le_val]. change (256 ^ zlen []) with 1. assert (E : pb = Z.b2z (pb =? 1)) by (by destruct (decide (pb = 0)) as [->|]; [|replace pb with 1 by lia]).
    rewrite <- E. repeat split; [done|]. lia.
  - apply Forall_cons in Hr as [Hr Hrs]. apply Forall_cons in Hm as [Hm Hms]. injection Hl as Hl. unfold in_range in Hr, Hm.
    rewrite (u32_id (pb + m)) by (unfold in_range; lia). rewrite lt_Ok by lia. set (b := r <? pb + m).
    destruct (IH ms (Z.b2z b) Hrs Hms Hl) as (out & b' & -> & Hlo & Hbo & Hv); [destruct b; cbn; lia|].
    assert (E : u32 (u32 (r - (pb + m)) + u32 (Z.shiftl (Z.b2z b) 8)) = r - (pb + m) + 256 * Z.b2z b /\ is_byte (r - (pb + m) + 256 * Z.b2z b)).
    { assert (Hb : 0 <= r - (pb + m) + 256 * Z.b2z b < 256) by (subst b; destruct (Z.ltb_spec r (pb + m)); cbn [Z.b2z]; lia). split; [|done].
      unfold u32, wrap. rewrite <- Zplus_mod. rewrite Z.shiftl_mul_pow2 by lia. change (2 ^ 8) with 256. rewrite (Z.mul_comm _ 256). apply Z.mod_small. lia. }
    destruct E as [-> Hbyte]. exists (r - (pb + m) + 256 * Z.b2z b :: out), b'. split; [done|]. split; [cbn; lia|]. split; [by constructor|].
    cbn [le_val]. rewrite Hv. unfold zlen. cbn [length]. rewrite Nat2Z.inj_succ, Z.pow_succ_r by lia. ring.
Qed.

Lemma map_u8_bytes l : Forall is_byte l -> map u8 l = l.
Proof. induction 1 as [|x l Hx Hl IH]; [done|]. cbn [map]. rewrite IH. by rewrite (wrap_id 8). Qed.

Lemma bytes_are_words l : Forall is_byte l -> Forall (in_range 32) l.
Proof. intros Hl. eapply Forall_impl; [exact Hl|]. unfold in_range. lia. Qed.

(** One conditional subtraction. *)
Lemma sc_reduce_add_sub_Ok r :
  scalar r -> scalar (sc_reduce_add_sub r) /\ le_val (sc_reduce_add_sub r) = if L25519 <=? le_val r then le_val r - L25519 else le_val r.
Proof.
  intros [Hl Hb]. destruct sc_m_scalar as [Hlm Hbm]. unfold sc_reduce_add_sub.
  destruct (borrow_chain_Ok r sc_m 0 Hb Hbm ltac:(lia) ltac:(lia)) as (t & b & -> & Hlt & Hbt & Hv). rewrite map_u8_bytes by done.
  rewrite sc_m_val in Hv. unfold zlen in Hv. rewrite Hl in Hv, Hlt. pose proof (le_val_range r Hb) as Hr. pose proof (le_val_range t Hbt) as Ht.
  unfold in_range, zlen in Hr, Ht. rewrite Hl in Hr. rewrite Hlt in Ht. change (2 ^ (8 * Z.of_nat 32)) with (256 ^ Z.of_nat 32) in *.
  assert (Hc : forall x y c, Z.lxor x (Z.land c (Z.lxor x y)) = Z.lxor x (Z.land c (Z.lxor y x))) by (intros; by rewrite (Z.lxor_comm x y)).
  rewrite (zip_with_ext _ (fun x o => Z.lxor x (Z.land (u32 (Z.b2z b - 1)) (Z.lxor o x))) r r t t) by (done || (intros; apply Hc)). destruct b; cbn [Z.b2z] in *.
  - change (u32 (1 - 1)) with 0. rewrite zip_mask_none by lia. split; [done|]. destruct (Z.leb_spec L25519 (le_val r)); [|done]. lia.
  - change (u32 (0 - 1)) with (Z.ones 32). rewrite zip_mask_all; [|lia|by apply bytes_are_words..]. split; [done|].
    rewrite Hv. destruct (Z.leb_spec L25519 (le_val r)); lia.
Qed.

Lemma sc_reduce_mod r : scalar r -> le_val r < 2 * L25519 -> scalar (sc_reduce_add_sub r) /\ le_val (sc_reduce_add_sub r) = le_val r mod L25519.
Proof.
  intros Hr Hv. destruct (sc_reduce_add_sub_Ok r Hr) as [Hs ->]. split; [done|]. pose proof (le_val_range r (proj2 Hr)) as Hn. unfold in_range in Hn.
  destruct (Z.leb_spec L25519 (le_val r)); [apply (Z.mod_unique _ _ 1)|symmetry; apply Z.mod_small]; lia.
Qed.

(** ** Barrett reduction *)

(** The estimate of the quotient, for the constants of the code. *)
Lemma barrett_bounds X q1 xl D S q3 :
  X = xl + 256 ^ 31 * q1 -> 0 <= xl < 256 ^ 31 -> 0 <= q1 < 256 ^ 33 ->
  le_val sc_mu * q1 = D + 256 ^ 31 * S -> 0 <= D < 5440 * 256 ^ 31 ->
  256 ^ 2 * q3 <= S < 256 ^ 2 * q3 + 256 ^ 2 ->
  0 <= X - L25519 * q3 < 3 * L25519.
Proof.
  intros HX Hxl Hq1 HD HDb Hq3. set (mu := le_val sc_mu) in HD. vm_compute in mu. subst mu. unfold L25519. lia.
Qed.

Lemma scalar_nth x i : Forall is_byte x -> 0 <= nth i x 0 <= 255.
Proof. intros Hx. pose proof (nth_byte x i Hx) as H. unfold in_range in H. lia. Qed.

(** The digits of the first product. *)
Definition q2_term (x : list Z) (i j : nat) : Z := nth i sc_mu 0 * nth (j + 31) x 0.

Lemma q2_column_bound g x k : Forall is_byte x -> 0 <= acc_column g (q2_term x) 33 33 k <= 5440 * 255.
Proof.
  intros Hx. rewrite acc_column_rows. assert (E : zsum 33 (fun i => nth i sc_mu 0) = 5440) by (vm_compute; reflexivity). rewrite <- E. apply zsum_weight.
  intros i _. assert (0 <= nth i sc_mu 0 <= 255) by (apply scalar_nth; by repeat constructor). pose proof (scalar_nth x (k - i + 31) Hx).
  unfold q2_term. destruct (_ && _); nia.
Qed.

Lemma r2_column_bound g q3 k B :
  (forall j, 0 <= nth j q3 0 <= B) -> 0 <= acc_column g (fun i j => nth i sc_m 0 * nth j q3 0) 32 33 k <= 2524 * B.
Proof.
  intros Hq. rewrite acc_column_rows. assert (E : zsum 32 (fun i => nth i sc_m 0) = 2524) by (vm_compute; reflexivity). rewrite <- E. apply zsum_weight.
  intros i _. assert (0 <= nth i sc_m 0 <= 255) by (apply scalar_nth, sc_m_scalar). specialize (Hq (k - i)%nat). destruct (_ && _); nia.
Qed.

Definition q2_guard (i j : nat) : bool := (31 <=? i + j)%nat.
Definition q2_column (x : list Z) (k : nat) : Z := acc_column q2_guard (q2_term x) 33 33 k.

Lemma q2_column_range x k : Forall is_byte x -> 0 <= q2_column x k <= 5440 * 255.
Proof. unfold q2_column. apply q2_column_bound. Qed.

Lemma q2_product x :
  Forall is_byte x ->
  length (mul_acc q2_guard (q2_term x) 33 33 (replicate 66 0)) = 66%nat /\
  forall k, nth k (mul_acc q2_guard (q2_term x) 33 33 (replicate 66 0)) 0 = q2_column x k.
Proof.
  intros Hx. apply mul_acc_exact; [intros; lia|]. intros k. pose proof (q2_column_bound q2_guard x k Hx). lia.
Qed.

Lemma nth_acc_at t k v i : (k < length t)%nat -> nth i (acc_at t k v) 0 = if (i =? k)%nat then u32 (nth k t 0 + v) else nth i t 0.
Proof. intros Hk. unfold acc_at. by apply nth_insert. Qed.

Lemma barrett_q2_nth x :
  Forall is_byte x ->
  length (barrett_q2 x) = 66%nat /\
  forall k, (33 <= k)%nat -> nth k (barrett_q2 x) 0 = q2_column x k + if (k =? 33)%nat then (q2_column x 32 + q2_column x 31 / 256) / 256 else 0.
Proof.
  intros Hx. unfold barrett_q2. change (mul_acc _ _ _ _ _) with (mul_acc q2_guard (q2_term x) 33 33 (replicate 66 0)).
  destruct (q2_product x Hx) as [Hl Ht]. assert (Hc := fun k => q2_column_range x k Hx).
  set (t := mul_acc _ _ _ _ _) in *. clearbody t.
  set (c := q2_column x) in *. clearbody c. unfold acc_at at 1. rewrite length_insert. unfold acc_at at 1. rewrite length_insert. split; [done|]. intros k Hk.
  rewrite !nth_acc_at by (unfold acc_at; rewrite ?length_insert; lia). rewrite (proj2 (Nat.eqb_neq k 32)) by lia.
  change ((33 =? 32)%nat) with false. change ((32 =? 32)%nat) with true. cbv iota. rewrite !Ht, !Z.shiftr_div_pow2 by lia. change (2 ^ 8) with 256.
  pose proof (Hc 31%nat). pose proof (Hc 32%nat). pose proof (Hc 33%nat).
  assert (H31 : 0 <= c 31%nat / 256 <= 5440 * 255) by (split; [apply Z.div_pos|apply Z.div_le_upper_bound]; lia).
  rewrite (u32_id (c 32%nat + _)) by (unfold in_range; lia).
  assert (H32 : 0 <= (c 32%nat + c 31%nat / 256) / 256 <= 5440 * 255) by (split; [apply Z.div_pos|apply Z.div_le_upper_bound]; lia).
  destruct (Nat.eqb_spec k 33) as [->|]; [|lia]. apply u32_id. unfold in_range. lia.
Qed.

(** The quotient: its digits and its value. *)
Lemma barrett_q3_Ok x :
  Forall is_byte x ->
  let q3 := drop 33 (barrett_q2 x) in
  length q3 = 33%nat /\ (forall j, 0 <= nth j q3 0 <= 1392640) /\
  le_val q3 = zsum 33 (fun j => q2_column x (33 + j) * 256 ^ Z.of_nat j) + (q2_column x 32 + q2_column x 31 / 256) / 256.
Proof.
  intros Hx q3. destruct (barrett_q2_nth x Hx) as [Hl Hn]. assert (Hc := fun k => q2_column_range x k Hx).
  assert (Hlq : length q3 = 33%nat) by (unfold q3; rewrite length_drop; lia).
  assert (Hq : forall j, nth j q3 0 = q2_column x (33 + j) + if (j =? 0)%nat then (q2_column x 32 + q2_column x 31 / 256) / 256 else 0).
  { intros j. unfold q3. rewrite nth_lookup, lookup_drop, <- nth_lookup, Hn by lia. by replace (33 + j =? 33)%nat with (j =? 0)%nat by (by destruct j). }
  set (h := (q2_column x 32 + q2_column x 31 / 256) / 256) in *.
  assert (Hh : 0 <= h <= 5440).
  { pose proof (Hc 31%nat). pose proof (Hc 32%nat). assert (0 <= q2_column x 31 / 256 <= 5419) by (split; [apply Z.div_pos|apply Z.div_le_upper_bound]; lia).
    subst h. split; [apply Z.div_pos|apply Z.div_le_upper_bound]; lia. }
  clearbody h. split; [done|]. split.
  - intros j. rewrite Hq. specialize (Hc (33 + j)%nat). destruct (j =? 0)%nat; lia.
  - pose proof (zsum_head 32 h (fun j => 256 ^ Z.of_nat j)) as Eh. cbv beta in Eh. change (256 ^ Z.of_nat 0) with 1 in Eh. rewrite Z.mul_1_r in Eh.
    rewrite le_val_zsum, Hlq, <- Eh, <- zsum_add.
    apply zsum_ext. intros j _. rewrite Hq. apply Z.mul_add_distr_r.
Qed.

Lemma drop_zsum x n k : length x = (k + n)%nat -> le_val (drop k x) = zsum n (fun j => nth (j + k) x 0 * 256 ^ Z.of_nat j).
Proof.
  intros Hl. rewrite le_val_zsum, length_drop, Hl. replace (k + n - k)%nat with n by lia. apply zsum_ext. intros j _.
  by rewrite nth_lookup, lookup_drop, <- nth_lookup, Nat.add_comm.
Qed.

(** The product with the columns below 31 apart. *)
Lemma q2_split x :
  length x = 64%nat ->
  le_val sc_mu * le_val (drop 31 x) =
    zsum 31 (fun k => acc_column (fun i j => negb (q2_guard i j)) (q2_term x) 33 33 k * 256 ^ Z.of_nat k) +
    zsum 66 (fun k => q2_column x k * 256 ^ Z.of_nat k).
Proof.
  intros Hl. unfold q2_column. rewrite !acc_columns_val; [|intros; lia|intros i j _ _ H; apply negb_true_iff, Nat.leb_gt in H; lia].
  rewrite <- zsum_add, (drop_zsum x 33 31) by lia. rewrite (le_val_zsum sc_mu). change (length sc_mu) with 33%nat. rewrite zsum_mul.
  apply zsum_ext. intros i _. rewrite <- zsum_add. apply zsum_ext. intros j _. unfold q2_term.
  rewrite Nat2Z.inj_add, Z.pow_add_r by lia. destruct (q2_guard i j); cbn [negb]; ring.
Qed.

Lemma q2_column_low x k : (k < 31)%nat -> q2_column x k = 0.
Proof.
  intros Hk. unfold q2_column, acc_column. rewrite <- (zsum_zero 33). apply zsum_ext. intros i _. rewrite <- (zsum_zero 33). apply zsum_ext. intros j _.
  unfold q2_guard. destruct (Nat.leb_spec 31 (i + j)), (Nat.eqb_spec (i + j) k); done || lia.
Qed.

Lemma q2_high x :
  zsum 66 (fun k => q2_column x k * 256 ^ Z.of_nat k) =
  256 ^ 31 * (q2_column x 31 + 256 * q2_column x 32 + 256 ^ 2 * zsum 33 (fun j => q2_column x (33 + j) * 256 ^ Z.of_nat j)).
Proof.
  change 66%nat with (31 + (2 + 33))%nat. rewrite (zsum_split 31).
  rewrite (zsum_ext 31 _ (fun _ => 0)); [|intros k Hk; by rewrite q2_column_low]. rewrite zsum_zero, Z.add_0_l.
  rewrite (zsum_shift _ 31 (fun i => q2_column x (31 + i))). change (Z.of_nat 31) with 31. f_equal.
  rewrite (zsum_split 2 33). rewrite (zsum_shift 33 2 (fun i => q2_column x (31 + (2 + i)))). change (Z.of_nat 2) with 2.
  change (fun j => q2_column x (33 + j) * 256 ^ Z.of_nat j) with (fun j => q2_column x (31 + (2 + j)) * 256 ^ Z.of_nat j).
  generalize (zsum 33 (fun j => q2_column x (31 + (2 + j)) * 256 ^ Z.of_nat j)). intros T. cbn [zsum]. change (256 ^ Z.of_nat 0) with 1. change (256 ^ Z.of_nat 1) with 256.
  change (31 + 0)%nat with 31%nat. change (31 + 1)%nat with 32%nat.
  generalize (q2_column x 31) (q2_column x 32). intros. ring.
Qed.

Lemma barrett_quotient x :
  length x = 64%nat -> Forall is_byte x -> 0 <= le_val x - L25519 * le_val (drop 33 (barrett_q2 x)) < 3 * L25519.
Proof.
  intros Hl Hb. destruct (barrett_q3_Ok x Hb) as (_ & _ & Hq3). pose proof (q2_split x Hl) as Hs. rewrite q2_high in Hs.
  set (D := zsum 31 _) in Hs. set (S := q2_column x 31 + _ + _) in Hs.
  assert (HD : 0 <= D <= 5440 * (256 ^ Z.of_nat 31 - 1)).
  { apply zsum_digits. intros k _. rewrite (Z.mul_comm 255). by apply q2_column_bound. }
  change (Z.of_nat 31) with 31 in HD.
  pose proof (take_drop 31 x) as Hx. assert (HX : le_val x = le_val (take 31 x) + 256 ^ 31 * le_val (drop 31 x)).
  { rewrite <- Hx at 1. rewrite le_val_app. unfold zlen. rewrite length_take, Hl. done. }
  assert (Hxl : 0 <= le_val (take 31 x) < 256 ^ 31).
  { assert (Ht : Forall is_byte (take 31 x)) by (by apply Forall_take). pose proof (le_val_range _ Ht) as Hr. unfold in_range, zlen in Hr. rewrite length_take, Hl in Hr. exact Hr. }
  assert (Hq1 : 0 <= le_val (drop 31 x) < 256 ^ 33).
  { assert (Ht : Forall is_byte (drop 31 x)) by (by apply Forall_drop). pose proof (le_val_range _ Ht) as Hr. unfold in_range, zlen in Hr. rewrite length_drop, Hl in Hr. exact Hr. }
  apply (barrett_bounds _ _ _ _ S _ HX Hxl Hq1 Hs); [lia|]. rewrite Hq3. subst S. clear.
  generalize (q2_column x 31) (q2_column x 32) (zsum 33 (fun j => q2_column x (33 + j) * 256 ^ Z.of_nat j)). intros a b T.
  pose proof (Z.div_mod a 256 ltac:(lia)). pose proof (Z.mod_pos_bound a 256 ltac:(lia)).
  pose proof (Z.div_mod (b + a / 256) 256 ltac:(lia)). pose proof (Z.mod_pos_bound (b + a / 256) 256 ltac:(lia)). lia.
Qed.

(** The product with the order, modulo 256^32. *)
Definition r2_guard (i j : nat) : bool := (i + j <? 33)%nat.

Lemma r2_columns q3 :
  length q3 = 33%nat ->
  zsum 33 (fun k => acc_column r2_guard (fun i j => nth i sc_m 0 * nth j q3 0) 32 33 k * 256 ^ Z.of_nat k) ≡ L25519 * le_val q3 [mod 256 ^ 32].
Proof.
  intros Hl. rewrite acc_columns_val by (intros i j _ _; by apply Nat.ltb_lt). rewrite <- sc_m_val, (le_val_zsum sc_m), (le_val_zsum q3), Hl.
  change (length sc_m) with 32%nat. rewrite zsum_mul. apply zsum_eqm. intros i _. apply zsum_eqm. intros j _. unfold r2_guard.
  destruct (Nat.ltb_spec (i + j) 33) as [Hlt|Hge].
  - apply (eqm_intro _ _ _ 0). rewrite Nat2Z.inj_add, Z.pow_add_r by lia. ring.
  - apply (eqm_intro _ _ _ (- (nth i sc_m 0 * nth j q3 0 * 256 ^ (Z.of_nat (i + j) - 32)))).
    replace (nth i sc_m 0 * 256 ^ Z.of_nat i * (nth j q3 0 * 256 ^ Z.of_nat j)) with (nth i sc_m 0 * nth j q3 0 * 256 ^ Z.of_nat (i + j)) by (rewrite Nat2Z.inj_add, Z.pow_add_r by lia; ring).
    replace (256 ^ Z.of_nat (i + j)) with (256 ^ 32 * 256 ^ (Z.of_nat (i + j) - 32)) by (rewrite <- Z.pow_add_r by lia; f_equal; lia). ring.
Qed.

Lemma r2_carry r2 :
  length r2 = 33%nat -> (forall k, 0 <= nth k r2 0 < 2 ^ 32 - 2 ^ 24) ->
  let r := take 32 (let '(d, u) := carry_chain 0 (take 32 r2) in d ++ [u32 (nth 32 r2 0 + u)]) in
  scalar r /\ le_val r ≡ le_val r2 [mod 256 ^ 32].
Proof.
  intros Hl Hn. assert (Hr2 : Forall (fun t => 0 <= t < 2 ^ 32 - 2 ^ 24) (take 32 r2)) by (apply Forall_take, (Forall_nth _ 0); intros k _; apply Hn).
  destruct (carry_chain_room (2 ^ 24) (take 32 r2) 0 ltac:(lia) Hr2 ltac:(lia)) as (d & u & -> & Hd & Hb & Hu & Hcv).
  unfold zlen in Hcv. rewrite length_take, Hl in Hd, Hcv. change (32 `min` 33)%nat with 32%nat in *.
  cbv zeta. rewrite <- Hd, take_app_length. split; [by split|].
  rewrite <- (take_drop 32 r2) at 1. rewrite le_val_app. unfold zlen. rewrite length_take, Hl. change (2 ^ (8 * Z.of_nat (32 `min` 33))) with (256 ^ Z.of_nat 32).
  change (256 ^ 32) with (256 ^ Z.of_nat 32). apply (eqm_intro _ _ _ (- u - le_val (drop 32 r2))). lia.
Qed.

Lemma barrett_r2_Ok q3 :
  length q3 = 33%nat -> (forall j, 0 <= nth j q3 0 <= 1392640) ->
  scalar (take 32 (barrett_r2 q3)) /\ le_val (take 32 (barrett_r2 q3)) = (L25519 * le_val q3) mod 256 ^ 32.
Proof.
  intros Hl Hq. pose proof (fun k => r2_column_bound r2_guard q3 k _ Hq) as Hc.
  destruct (mul_acc_exact r2_guard (fun i j => nth i sc_m 0 * nth j q3 0) 32 33 33) as [Hlr Hn]; [intros i j _ _; by apply Nat.ltb_lt|intros k; specialize (Hc k); lia|].
  destruct (r2_carry _ Hlr) as [Hs Hv]; [intros k; rewrite Hn; specialize (Hc k); lia|]. split; [exact Hs|].
  pose proof (le_val_range _ (proj2 Hs)) as Hr. unfold in_range, zlen in Hr. rewrite (proj1 Hs) in Hr.
  apply eqm_small; [done|exact Hr|]. etransitivity; [exact Hv|]. rewrite le_val_zsum, Hlr, <- (r2_columns q3 Hl).
  erewrite zsum_ext; [reflexivity|]. intros k _. by rewrite Hn.
Qed.

Lemma le_val_take32 x : length x = 64%nat -> le_val (take 32 x) ≡ le_val x [mod 256 ^ 32].
Proof.
  intros Hl. rewrite <- (take_drop 32 x) at 2. rewrite le_val_app. unfold zlen. rewrite length_take, Hl. change (2 ^ (8 * Z.of_nat (32 `min` 64))) with (256 ^ 32).
  apply (eqm_intro _ _ _ (- le_val (drop 32 x))). ring.
Qed.

(** Two conditional subtractions are enough below three times the order. *)
Lemma sc_reduce_twice r X q :
  scalar r -> le_val r = X - L25519 * q -> le_val r < 3 * L25519 ->
  scalar (sc_reduce_add_sub (sc_reduce_add_sub r)) /\ le_val (sc_reduce_add_sub (sc_reduce_add_sub r)) = X mod L25519.
Proof.
  intros Hr Hv Hlt. destruct (sc_reduce_add_sub_Ok r Hr) as [Hs1 Hv1]. destruct (sc_reduce_mod (sc_reduce_add_sub r)) as [Hs2 Hv2]; [done| |].
  { rewrite Hv1. destruct (Z.leb_spec L25519 (le_val r)); lia. }
  split; [done|]. rewrite Hv2, Hv1, Hv. apply eqm_iff; [done|]. destruct (Z.leb_spec L25519 (X - L25519 * q)).
  - apply (eqm_intro _ _ _ (- q - 1)). ring.
  - apply (eqm_intro _ _ _ (- q)). ring.
Qed.

(** The difference of the remainders modulo 256^32. *)
Lemma barrett_difference x y Q :
  length x = 64%nat -> Forall is_byte x -> scalar y -> le_val y = Q mod 256 ^ 32 -> 0 <= le_val x - Q < 256 ^ 32 ->
  exists r b, borrow_chain 0 (take 32 x) y = (r, b) /\ scalar r /\ le_val r = le_val x - Q.
Proof.
  intros Hl Hb [Hl2 Hb2] Hv2 Hq.
  destruct (borrow_chain_Ok (take 32 x) y 0) as (r & b & -> & Hlr & Hbr & Hv); [by apply Forall_take|done|rewrite length_take; lia|lia|].
  unfold zlen in Hv. rewrite length_take, Hl in Hlr, Hv. change (32 `min` 64)%nat with 32%nat in *. exists r, (Z.b2z b). split; [done|]. split; [done|].
  pose proof (le_val_range r Hbr) as Hr. unfold in_range, zlen in Hr. rewrite Hlr in Hr. change (2 ^ (8 * Z.of_nat 32)) with (256 ^ 32) in Hr.
  change (256 ^ Z.of_nat 32) with (256 ^ 32) in Hv. rewrite <- (Z.mod_small (le_val r) (256 ^ 32)), <- (Z.mod_small (le_val x - Q) (256 ^ 32)) by done.
  apply eqm_iff; [done|]. rewrite Hv, Hv2, eqm_mod by done. rewrite (le_val_take32 x Hl). apply (eqm_intro _ _ _ (Z.b2z b)). ring.
Qed.

Lemma barrett_reduce_Ok x :
  length x = 64%nat -> Forall is_byte x -> scalar (barrett_reduce x) /\ le_val (barrett_reduce x) = le_val x mod L25519.
Proof.
  intros Hl Hb. unfold barrett_reduce. pose proof (barrett_quotient x Hl Hb) as Hq. destruct (barrett_q3_Ok x Hb) as (Hlq & Hnq & _).
  set (q3 := drop 33 (barrett_q2 x)) in *. clearbody q3. destruct (barrett_r2_Ok q3 Hlq Hnq) as [Hs2 Hv2]. cbv zeta. rewrite take_take. change (32 `min` 33)%nat with 32%nat.
  destruct (barrett_difference x _ _ Hl Hb Hs2 Hv2) as (r & b & -> & Hs & Hv); [assert (3 * L25519 < 256 ^ 32) by done; lia|].
  apply (sc_reduce_twice r _ (le_val q3)); [done|done|]. rewrite Hv. apply Hq.
Qed.

(** ** Scalars from bytes, sums, products *)

Lemma sc25519_from32bytes_Ok x :
  length x = 32%nat -> Forall is_byte x -> scalar (sc25519_from32bytes x) /\ le_val (sc25519_from32bytes x) = le_val x mod L25519.
Proof.
  intros Hl Hb. unfold sc25519_from32bytes. rewrite take_ge by lia. destruct (barrett_reduce_Ok (x ++ replicate 32 0)) as [Hs Hv].
  - rewrite length_app, Hl. done.
  - apply Forall_app. split; [done|by apply Forall_replicate].
  - split; [done|]. rewrite Hv, le_val_app, le_val_replicate_0, Z.mul_0_r, Z.add_0_r. done.
Qed.

Lemma sc25519_from64bytes_Ok x :
  length x = 64%nat -> Forall is_byte x -> scalar (sc25519_from64bytes x) /\ le_val (sc25519_from64bytes x) = le_val x mod L25519.
Proof. intros Hl Hb. unfold sc25519_from64bytes. rewrite take_ge by lia. by apply barrett_reduce_Ok. Qed.

Lemma sc25519_to32bytes_Ok x : scalar x -> sc25519_to32bytes x = le_bytes 32 (le_val x).
Proof. intros [Hl Hb]. unfold sc25519_to32bytes. rewrite map_u8_bytes by done. symmetry. rewrite <- Hl. by apply le_bytes_le_val. Qed.

(** A carry chain over all digits but the last, whose sum fits. *)
Lemma carry_normalise n t :
  length t = S n -> (forall k, 0 <= nth k t 0 < 2 ^ 31) -> le_val t < 256 ^ Z.of_nat (S n) ->
  exists d u, carry_chain 0 (take n t) = (d, u) /\
    length (d ++ [u32 (nth n t 0 + u)]) = S n /\ Forall is_byte (d ++ [u32 (nth n t 0 + u)]) /\ le_val (d ++ [u32 (nth n t 0 + u)]) = le_val t.
Proof.
  intros Hl Hn Hv. destruct (carry_chain_Ok (take n t) 0) as (d & u & -> & Hd & Hb & Hu & Hc); [|done|].
  { apply Forall_take, (Forall_nth _ 0). intros k _. apply Hn. }
  rewrite length_take, Hl in Hd. unfold zlen in Hc. rewrite length_take, Hl in Hc. replace (n `min` S n)%nat with n in * by lia.
  exists d, u. split; [done|]. specialize (Hn n). unfold in_range in Hu. rewrite u32_id by (unfold in_range; lia).
  assert (Et : le_val t = le_val (take n t) + 256 ^ Z.of_nat n * nth n t 0).
  { assert (Etd : t = take n t ++ [nth n t 0]).
    { rewrite <- (take_drop n t) at 1. f_equal. rewrite nth_lookup. destruct (t !! n) as [z|] eqn:E; [|apply lookup_ge_None in E; lia].
      rewrite (drop_S _ _ _ E), drop_ge by lia. done. }
    rewrite Etd at 1. rewrite le_val_snoc. unfold zlen. rewrite length_take, Hl. by replace (n `min` S n)%nat with n by lia. }
  pose proof (le_val_range d Hb) as Hr. unfold in_range, zlen in Hr. rewrite Hd in Hr.
  assert (Hp : 0 < 256 ^ Z.of_nat n) by (apply Z.pow_pos_nonneg; lia). rewrite Z.pow_mul_r in Hr by lia. change (2 ^ 8) with 256 in Hr.
  rewrite Nat2Z.inj_succ, Z.pow_succ_r in Hv by lia.
  split; [rewrite length_app, Hd; cbn; lia|]. rewrite le_val_snoc. unfold zlen. rewrite Hd. split; [|lia].
  apply Forall_app. split; [done|]. apply Forall_singleton. unfold in_range. nia.
Qed.

Lemma nth_map_seq (h : nat -> Z) n k : nth k (map h (seq 0 n)) 0 = if (k <? n)%nat then h k else 0.
Proof.
  destruct (Nat.ltb_spec k n); [|apply nth_overflow; rewrite length_map, length_seq; lia].
  rewrite (nth_indep _ 0 (h 0%nat)) by (rewrite length_map, length_seq; lia). rewrite map_nth. by rewrite seq_nth.
Qed.

Lemma sc25519_add_Ok x y :
  scalar x -> scalar y -> le_val x < L25519 -> le_val y < L25519 ->
  scalar (sc25519_add x y) /\ le_val (sc25519_add x y) = (le_val x + le_val y) mod L25519.
Proof.
  intros [Hlx Hbx] [Hly Hby] Hx Hy. unfold sc25519_add. set (h := fun i => nth i x 0 + nth i y 0).
  assert (Hh : forall i, 0 <= h i <= 510) by (intros i; pose proof (scalar_nth x i Hbx); pose proof (scalar_nth y i Hby); unfold h; lia).
  assert (Ez : zip_with (fun a b => u32 (a + b)) x y = map h (seq 0 32)).
  { rewrite (map_nth_seq x 32 Hlx), (map_nth_seq y 32 Hly) at 1. rewrite zip_with_map_seq. apply map_ext. intros i. apply u32_id. specialize (Hh i). unfold h, in_range in *. lia. }
  rewrite Ez. assert (Ev : le_val (map h (seq 0 32)) = le_val x + le_val y).
  { rewrite le_val_map_seq, (le_val_zsum x), (le_val_zsum y), Hlx, Hly, <- zsum_add. apply zsum_ext. intros. unfold h. ring. }
  destruct (carry_normalise 31 (map h (seq 0 32))) as (d & u & -> & Hl & Hb & Hv); [done| | |].
  - intros k. rewrite nth_map_seq. specialize (Hh k). destruct (k <? 32)%nat; lia.
  - rewrite Ev. unfold L25519 in *. change (256 ^ Z.of_nat 32) with (2 ^ 256). lia.
  - rewrite Ev in Hv. rewrite <- Hv. apply sc_reduce_mod; [by split|]. lia.
Qed.

Lemma sc25519_mul_Ok x y :
  scalar x -> scalar y -> scalar (sc25519_mul x y) /\ le_val (sc25519_mul x y) = (le_val x * le_val y) mod L25519.
Proof.
  intros [Hlx Hbx] [Hly Hby]. unfold sc25519_mul. set (f := fun i j => nth i x 0 * nth j y 0).
  assert (Hc : forall k, 0 <= acc_column (fun _ _ => true) f 32 32 k <= 32 * (255 * 255)).
  { intros k. rewrite acc_column_rows. apply (zsum_bound 32). intros i _. unfold f. pose proof (scalar_nth x i Hbx). pose proof (scalar_nth y (k - i) Hby).
    destruct (_ && true); nia. }
  destruct (mul_acc_exact (fun _ _ => true) f 32 32 64) as [Hl Hn]; [intros; lia|intros k; specialize (Hc k); lia|].
  assert (Ev : le_val (mul_acc (fun _ _ => true) f 32 32 (replicate 64 0)) = le_val x * le_val y).
  { rewrite le_val_zsum, Hl. erewrite zsum_ext; [|intros k _; rewrite Hn; reflexivity]. rewrite acc_columns_val by (intros; lia).
    rewrite (le_val_zsum x), (le_val_zsum y), Hlx, Hly, zsum_mul. apply zsum_ext. intros i _. apply zsum_ext. intros j _. unfold f.
    rewrite Nat2Z.inj_add, Z.pow_add_r by lia. ring. }
  pose proof (le_val_range x Hbx) as Hrx. pose proof (le_val_range y Hby) as Hry. unfold in_range, zlen in Hrx, Hry. rewrite Hlx in Hrx. rewrite Hly in Hry.
  destruct (carry_normalise 63 (mul_acc (fun _ _ => true) f 32 32 (replicate 64 0))) as (d & u & -> & Hld & Hbd & Hv); [done| | |].
  - intros k. rewrite Hn. specialize (Hc k). lia.
  - rewrite Ev. change (256 ^ Z.of_nat 64) with (2 ^ (8 * Z.of_nat 32) * 2 ^ (8 * Z.of_nat 32)). nia.
  - rewrite Ev in Hv. rewrite <- Hv. by apply barrett_reduce_Ok.
Qed.
