(* ===== verification/Windows.v ===== *)
(** The digits in which node/C25519.cpp reads its scalars: sc25519_window3 (85 signed digits
    in radix 8, for the multiples of the base point) and sc25519_2interleave2 (127 pairs of
    digits in radix 4, for the sum of two multiples). *)
From S2P Require Import Prelude.
From S2P Require Import Limbs.
From S2P Require Import Sc25519.

(** ** The code *)

(** A value stored in a [signed char]. *)
Definition s8 (x : Z) : Z := (x + 128) mod 256 - 128.

(** The eight digits of three bytes. *)
Definition window3_group (s0 s1 s2 : Z) : list Z :=
  [Z.land s0 7;
   Z.land (Z.shiftr s0 3) 7;
   Z.lxor (Z.land (Z.shiftr s0 6) 7) (Z.land (Z.shiftl s1 2) 7);
   Z.land (Z.shiftr s1 1) 7;
   Z.land (Z.shiftr s1 4) 7;
   Z.lxor (Z.land (Z.shiftr s1 7) 7) (Z.land (Z.shiftl s2 1) 7);
   Z.land (Z.shiftr s2 2) 7;
   Z.land (Z.shiftr s2 5) 7].

(** The last two bytes fill five digits. *)
Definition window3_digits (s : list Z) : list Z :=
  flat_map (fun i => window3_group (nth (3 * i) s 0) (nth (3 * i + 1) s 0) (nth (3 * i + 2) s 0)) (seq 0 10) ++
  take 5 (window3_group (nth 30 s 0) (nth 31 s 0) 0).

(** Making it signed: [d] is [r[i]] and [r] the digits after it; the last one takes the
    last carry. *)
Fixpoint window3_signed (carry d : Z) (r : list Z) : list Z :=
  match r with
  | [] => [s8 (d + carry)]
  | e :: r =>
      let d := s8 (d + carry) in
      let e := s8 (e + Z.shiftr d 3) in
      let d := Z.land d 7 in
      let carry := Z.shiftr d 2 in
      s8 (d - Z.shiftl carry 3) :: window3_signed carry e r
  end.

Definition sc25519_window3 (s : list Z) : list Z :=
  let r := window3_digits s in
  window3_signed 0 (nth 0 r 0) (drop 1 r).

(** The four pairs of two bytes. *)
Definition interleave_group (a b : Z) : list Z :=
  [Z.lxor (Z.land a 3) (Z.shiftl (Z.land b 3) 2);
   Z.lxor (Z.land (Z.shiftr a 2) 3) (Z.shiftl (Z.land (Z.shiftr b 2) 3) 2);
   Z.lxor (Z.land (Z.shiftr a 4) 3) (Z.shiftl (Z.land (Z.shiftr b 4) 3) 2);
   Z.lxor (Z.land (Z.shiftr a 6) 3) (Z.shiftl (Z.land (Z.shiftr b 6) 3) 2)].

Definition sc25519_2interleave2 (s1 s2 : list Z) : list Z :=
  flat_map (fun i => interleave_group (nth i s1 0) (nth i s2 0)) (seq 0 31) ++
  take 3 (interleave_group (nth 31 s1 0) (nth 31 s2 0)).

(** ** Values *)

(** The number with digits [l] in radix [b]. *)
Fixpoint radix_val (b : Z) (l : list Z) : Z :=
  match l with [] => 0 | d :: l => d + b * radix_val b l end.

Lemma radix_val_app b l l' : radix_val b (l ++ l') = radix_val b l + b ^ zlen l * radix_val b l'.
Proof.
  induction l as [|d l IH]; [cbn [app radix_val]; change (b ^ zlen []) with 1; lia|]. cbn [app radix_val]. rewrite IH. unfold zlen. cbn [length].
  rewrite Nat2Z.inj_succ, Z.pow_succ_r by lia. ring.
Qed.

(** ** Signed digits *)

Lemma s8_small x : -128 <= x < 128 -> s8 x = x.
Proof. intros Hx. unfold s8. rewrite Z.mod_small; lia. Qed.

(** Digits from -4 to 3 but the last, and the same number. *)
Lemma window3_signed_Ok r : forall carry d,
  0 <= carry <= 1 -> 0 <= d <= 8 -> Forall (fun x => 0 <= x <= 7) r ->
  let out := window3_signed carry d r in
  length out = S (length r) /\ radix_val 8 out = carry + d + 8 * radix_val 8 r /\
  Forall (fun x => -4 <= x <= 3) (take (length r) out) /\ 0 <= nth (length r) out 0 <= 9.
Proof.
  induction r as [|e r IH]; intros carry d Hc Hd Hr; cbn [window3_signed]; cbv zeta.
  - rewrite s8_small by lia. cbn. repeat split; [lia|done|lia|lia].
  - apply Forall_cons in Hr as [He Hr]. rewrite (s8_small (d + carry)) by lia. rewrite (Z.shiftr_div_pow2 (d + carry)) by lia. change (2 ^ 3) with 8.
    change (Z.land (d + carry) 7) with (Z.land (d + carry) (Z.ones 3)). rewrite Z.land_ones by lia. change (2 ^ 3) with 8.
    pose proof (Z.div_mod (d + carry) 8 ltac:(lia)) as Hq. pose proof (Z.mod_pos_bound (d + carry) 8 ltac:(lia)) as Hm.
    set (q := (d + carry) / 8) in *. set (m := (d + carry) mod 8) in *. assert (0 <= q <= 1) by lia. rewrite (s8_small (e + q)) by lia.
    rewrite Z.shiftr_div_pow2, Z.shiftl_mul_pow2 by lia. change (2 ^ 2) with 4. change (2 ^ 3) with 8.
    pose proof (Z.div_mod m 4 ltac:(lia)) as Hq4. pose proof (Z.mod_pos_bound m 4 ltac:(lia)) as Hm4. set (c := m / 4) in *. assert (0 <= c <= 1) by lia.
    rewrite s8_small by lia. destruct (IH c (e + q)) as (Hl & Hv & Hf & Hn); [lia|lia|done|]. clearbody q m c. cbn [length radix_val take nth].
    rewrite Hl, Hv. split; [done|]. split; [lia|]. split; [|done]. constructor; [|done]. destruct (decide (c = 0)); lia.
Qed.

(** ** The digits of a scalar *)

Lemma lxor_digits k a b : 0 <= k -> 0 <= a < 2 ^ k -> Z.lxor a (2 ^ k * b) = a + 2 ^ k * b.
Proof.
  intros Hk Ha. symmetry. apply Z.add_nocarry_lxor. apply Z.bits_inj'. intros n Hn. rewrite Z.land_spec, Z.bits_0, (Z.mul_comm (2 ^ k)).
  destruct (Z.lt_ge_cases n k).
  - by rewrite Z.mul_pow2_bits_low, andb_false_r.
  - rewrite <- (Z.mod_small a (2 ^ k)) by done. by rewrite Z.mod_pow2_bits_high.
Qed.


Lemma window3_group_Ok s0 s1 s2 :
  is_byte s0 -> is_byte s1 -> is_byte s2 ->
  radix_val 8 (window3_group s0 s1 s2) = s0 + 256 * s1 + 65536 * s2 /\ Forall (fun x => 0 <= x <= 7) (window3_group s0 s1 s2).
Proof.
  intros H0 H1 H2. unfold window3_group.
  assert (E0 : Z.land s0 7 = s0 mod 8 /\ Z.land (Z.shiftr s0 3) 7 = s0 / 8 mod 8 /\ Z.land (Z.shiftr s0 6) 7 = s0 / 64) by byte_fact s0 H0.
  assert (E1 : Z.land (Z.shiftl s1 2) 7 = 4 * (s1 mod 2) /\ Z.land (Z.shiftr s1 1) 7 = s1 / 2 mod 8 /\ Z.land (Z.shiftr s1 4) 7 = s1 / 16 mod 8 /\
    Z.land (Z.shiftr s1 7) 7 = s1 / 128) by byte_fact s1 H1.
  assert (E2 : Z.land (Z.shiftl s2 1) 7 = 2 * (s2 mod 4) /\ Z.land (Z.shiftr s2 2) 7 = s2 / 4 mod 8 /\ Z.land (Z.shiftr s2 5) 7 = s2 / 32) by byte_fact s2 H2.
  destruct E0 as (-> & -> & ->), E1 as (-> & -> & -> & ->), E2 as (-> & -> & ->). unfold in_range in *.
  assert (X1 : Z.lxor (s0 / 64) (4 * (s1 mod 2)) = s0 / 64 + 4 * (s1 mod 2)) by (apply (lxor_digits 2); Z.div_mod_to_equations; lia).
  assert (X2 : Z.lxor (s1 / 128) (2 * (s2 mod 4)) = s1 / 128 + 2 * (s2 mod 4)) by (apply (lxor_digits 1); Z.div_mod_to_equations; lia).
  rewrite X1, X2. clear X1 X2. cbn [radix_val]. split; [Z.div_mod_to_equations; lia|]. repeat constructor; Z.div_mod_to_equations; lia.
Qed.

Lemma interleave_group_Ok a b :
  is_byte a -> is_byte b ->
  radix_val 4 (map (fun x => x mod 4) (interleave_group a b)) = a /\ radix_val 4 (map (fun x => x / 4) (interleave_group a b)) = b /\
  Forall (fun x => 0 <= x < 16) (interleave_group a b).
Proof.
  intros Ha Hb. unfold interleave_group.
  assert (Ea : Z.land a 3 = a mod 4 /\ Z.land (Z.shiftr a 2) 3 = a / 4 mod 4 /\ Z.land (Z.shiftr a 4) 3 = a / 16 mod 4 /\ Z.land (Z.shiftr a 6) 3 = a / 64) by byte_fact a Ha.
  assert (Eb : Z.shiftl (Z.land b 3) 2 = 2 ^ 2 * (b mod 4) /\ Z.shiftl (Z.land (Z.shiftr b 2) 3) 2 = 2 ^ 2 * (b / 4 mod 4) /\
    Z.shiftl (Z.land (Z.shiftr b 4) 3) 2 = 2 ^ 2 * (b / 16 mod 4) /\ Z.shiftl (Z.land (Z.shiftr b 6) 3) 2 = 2 ^ 2 * (b / 64)) by byte_fact b Hb.
  destruct Ea as (-> & -> & -> & ->), Eb as (-> & -> & -> & ->). unfold in_range in *.
  rewrite !(lxor_digits 2) by (Z.div_mod_to_equations; lia). change (2 ^ 2) with 4. cbn [radix_val map].
  assert (Hm : forall x y, 0 <= x < 4 -> (x + 4 * y) mod 4 = x /\ (x + 4 * y) / 4 = y) by (intros; Z.div_mod_to_equations; lia).
  assert (Ha' : 0 <= a mod 4 < 4 /\ 0 <= a / 4 mod 4 < 4 /\ 0 <= a / 16 mod 4 < 4 /\ 0 <= a / 64 < 4) by (Z.div_mod_to_equations; lia).
  destruct Ha' as (A0 & A1 & A2 & A3).
  rewrite !(proj1 (Hm (a mod 4) _ A0)), !(proj1 (Hm (a / 4 mod 4) _ A1)), !(proj1 (Hm (a / 16 mod 4) _ A2)), !(proj1 (Hm (a / 64) _ A3)).
  rewrite !(proj2 (Hm (a mod 4) _ A0)), !(proj2 (Hm (a / 4 mod 4) _ A1)), !(proj2 (Hm (a / 16 mod 4) _ A2)), !(proj2 (Hm (a / 64) _ A3)).
  split; [Z.div_mod_to_equations; lia|]. split; [Z.div_mod_to_equations; lia|]. repeat constructor; Z.div_mod_to_equations; lia.
Qed.

(** The number in the first [k] bytes. *)
Definition low_bytes (s : list Z) (k : nat) : Z := zsum k (fun i => nth i s 0 * 256 ^ Z.of_nat i).

Lemma low_bytes_add s k n : low_bytes s (k + n) = low_bytes s k + 256 ^ Z.of_nat k * zsum n (fun i => nth (k + i) s 0 * 256 ^ Z.of_nat i).
Proof. unfold low_bytes. by rewrite zsum_split, zsum_shift. Qed.

Lemma low_bytes_all s : scalar s -> le_val s = low_bytes s 32.
Proof. intros [Hl _]. unfold low_bytes. rewrite le_val_zsum, Hl. reflexivity. Qed.

Lemma low_bytes_range s k : Forall is_byte s -> 0 <= low_bytes s k < 256 ^ Z.of_nat k.
Proof.
  intros Hs. unfold low_bytes. pose proof (zsum_digits k (fun i => nth i s 0) 1) as Hd.
  specialize (Hd ltac:(intros i _; pose proof (scalar_nth s i Hs); lia)). lia.
Qed.

Lemma window3_prefix s n :
  Forall is_byte s ->
  let w := flat_map (fun i => window3_group (nth (3 * i) s 0) (nth (3 * i + 1) s 0) (nth (3 * i + 2) s 0)) (seq 0 n) in
  length w = (8 * n)%nat /\ radix_val 8 w = low_bytes s (3 * n) /\ Forall (fun x => 0 <= x <= 7) w.
Proof.
  intros Hs. induction n as [|n IH]; [done|]. cbv zeta in *. rewrite seq_S, flat_map_app. destruct IH as (Hl & Hv & Hf). cbn [flat_map]. rewrite app_nil_r.
  rewrite Nat.add_0_l. destruct (window3_group_Ok (nth (3 * n) s 0) (nth (3 * n + 1) s 0) (nth (3 * n + 2) s 0)) as [Hg Hgf]; [by apply nth_byte..|].
  split; [rewrite length_app, Hl; cbn [length window3_group]; lia|]. split; [|by apply Forall_app].
  rewrite radix_val_app, Hv, Hg. unfold zlen. rewrite Hl. replace (3 * S n)%nat with (3 * n + 3)%nat by lia. rewrite low_bytes_add. cbn [zsum].
  rewrite Nat.add_0_r. change (256 ^ Z.of_nat 0) with 1. change (256 ^ Z.of_nat 1) with 256. change (256 ^ Z.of_nat 2) with 65536.
  replace (8 ^ Z.of_nat (8 * n)) with (256 ^ Z.of_nat (3 * n)); [ring|].
  rewrite !Nat2Z.inj_mul. change (256 ^ (Z.of_nat 3 * Z.of_nat n)) with ((2 ^ 8) ^ (3 * Z.of_nat n)). change (8 ^ (Z.of_nat 8 * Z.of_nat n)) with ((2 ^ 3) ^ (8 * Z.of_nat n)).
  rewrite <- !Z.pow_mul_r by lia. f_equal. lia.
Qed.

Lemma window3_digits_Ok s :
  scalar s -> length (window3_digits s) = 85%nat /\ radix_val 8 (window3_digits s) = le_val s mod 2 ^ 255 /\ Forall (fun x => 0 <= x <= 7) (window3_digits s).
Proof.
  intros Hs. destruct (window3_prefix s 10 (proj2 Hs)) as (Hl & Hv & Hf). unfold window3_digits. set (w := flat_map _ _) in *. clearbody w.
  pose proof (nth_byte s 30 (proj2 Hs)) as H30. pose proof (nth_byte s 31 (proj2 Hs)) as H31. rewrite (low_bytes_all s Hs).
  change (low_bytes s 32) with (low_bytes s (30 + 2)). rewrite low_bytes_add. cbn [zsum]. change (30 + 0)%nat with 30%nat. change (30 + 1)%nat with 31%nat.
  pose proof (low_bytes_range s 30 (proj2 Hs)) as Hd.
  set (a := nth 30 s 0) in *. set (b := nth 31 s 0) in *. clearbody a b.
  destruct (window3_group_Ok a b 0 H30 H31 ltac:(done)) as [Hg Hgf]. assert (Hb7 : Z.lxor (Z.land (Z.shiftr b 7) 7) (Z.land (Z.shiftl 0 1) 7) = b / 128) by byte_fact b H31.
  split; [rewrite length_app, Hl; done|]. split; [|apply Forall_app; split; [done|by apply Forall_take]].
  rewrite radix_val_app, Hv. unfold zlen. rewrite Hl. change (8 ^ Z.of_nat (8 * 10)) with (2 ^ 240). change (3 * 10)%nat with 30%nat. change (256 ^ Z.of_nat 30) with (2 ^ 240) in *.
  set (g := window3_group a b 0) in *. assert (Eg : g = take 5 g ++ [b / 128; 0; 0]) by (subst g; unfold window3_group; cbn [take app]; by rewrite Hb7).
  rewrite Eg, radix_val_app in Hg. change (8 ^ zlen (take 5 g)) with (2 ^ 15) in Hg. cbn [radix_val] in Hg.
  change (256 ^ Z.of_nat 0) with 1. change (256 ^ Z.of_nat 1) with 256. unfold in_range in *. clear Eg Hgf Hb7.
  set (v := radix_val 8 (take 5 g)) in *. clearbody v. clear g. set (l := low_bytes s 30) in *. clearbody l.
  pose proof (Z.div_mod b 128 ltac:(lia)). pose proof (Z.mod_pos_bound b 128 ltac:(lia)).
  apply (Z.mod_unique _ _ (b / 128)); [left|]; lia.
Qed.

Lemma radix_val_bounds b lo hi l :
  2 <= b -> lo <= 0 <= hi -> Forall (fun x => lo <= x <= hi) l ->
  lo * (b ^ zlen l - 1) <= (b - 1) * radix_val b l <= hi * (b ^ zlen l - 1).
Proof.
  intros Hb H0. induction 1 as [|d l Hd Hl IH]; [change (b ^ zlen []) with 1; cbn [radix_val]; lia|]. cbn [radix_val]. unfold zlen in *. cbn [length]. rewrite Nat2Z.inj_succ, Z.pow_succ_r by lia.
  assert (0 < b ^ Z.of_nat (length l)) by (apply Z.pow_pos_nonneg; lia). nia.
Qed.

(** The digits of a reduced scalar: what choose_t can look up, and the same number. *)
Theorem sc25519_window3_Ok s :
  scalar s -> le_val s < L25519 ->
  length (sc25519_window3 s) = 85%nat /\ Forall (fun x => -4 <= x <= 3) (sc25519_window3 s) /\ radix_val 8 (sc25519_window3 s) = le_val s.
Proof.
  intros Hs Hlt. destruct (window3_digits_Ok s Hs) as (Hl & Hv & Hf). pose proof (le_val_range s (proj2 Hs)) as Hr. unfold in_range in Hr.
  rewrite Z.mod_small in Hv by (unfold L25519 in *; lia). unfold sc25519_window3. set (r := window3_digits s) in *. clearbody r.
  destruct r as [|d r]; [done|]. injection Hl as Hl. apply Forall_cons in Hf as [Hd Hf]. cbn [nth drop]. rewrite drop_0. cbn [radix_val] in Hv.
  destruct (window3_signed_Ok r 0 d) as (Hlo & Hvo & Hfo & Hno); [lia|lia|done|]. rewrite Hl in *. rewrite Z.add_0_l, Hv in Hvo.
  set (out := window3_signed 0 d r) in *. clearbody out. split; [done|]. split; [|done].
  assert (Eo : out = take 84 out ++ [nth 84 out 0]).
  { rewrite <- (take_drop 84 out) at 1. f_equal. rewrite nth_lookup. destruct (out !! 84%nat) as [z|] eqn:E; [|apply lookup_ge_None in E; lia].
    rewrite (drop_S _ _ _ E), drop_ge by lia. done. }
  pose proof (radix_val_bounds 8 (-4) 3 _ ltac:(lia) ltac:(lia) Hfo) as Hb. rewrite Eo, radix_val_app in Hvo. unfold zlen in Hb, Hvo. rewrite length_take, Hlo in Hb, Hvo.
  change (8 ^ Z.of_nat (84 `min` 85)) with (2 ^ 252) in *. cbn [radix_val] in Hvo. rewrite Eo. apply Forall_app. split; [done|]. apply Forall_singleton.
  unfold L25519 in Hlt. lia.
Qed.

Lemma sc25519_window3_Ok_witness :
  length (sc25519_window3 (le_bytes 32 1000)) = 85%nat /\ Forall (fun x => -4 <= x <= 3) (sc25519_window3 (le_bytes 32 1000)) /\
  radix_val 8 (sc25519_window3 (le_bytes 32 1000)) = le_val (le_bytes 32 1000).
Proof. apply sc25519_window3_Ok; [split; [apply length_le_bytes|apply le_bytes_bytes]|]. rewrite le_val_le_bytes. done. Defined.

(** ** Pairs of digits *)

Lemma interleave_prefix s1 s2 n :
  Forall is_byte s1 -> Forall is_byte s2 ->
  let w := flat_map (fun i => interleave_group (nth i s1 0) (nth i s2 0)) (seq 0 n) in
  length w = (4 * n)%nat /\ radix_val 4 (map (fun x => x mod 4) w) = low_bytes s1 n /\ radix_val 4 (map (fun x => x / 4) w) = low_bytes s2 n /\
  Forall (fun x => 0 <= x < 16) w.
Proof.
  intros H1 H2. induction n as [|n IH]; [done|]. cbv zeta in *. rewrite seq_S, flat_map_app. destruct IH as (Hl & Hv1 & Hv2 & Hf). cbn [flat_map]. rewrite app_nil_r.
  rewrite Nat.add_0_l. destruct (interleave_group_Ok (nth n s1 0) (nth n s2 0)) as (Hg1 & Hg2 & Hgf); [by apply nth_byte..|].
  split; [rewrite length_app, Hl; cbn [length interleave_group]; lia|]. rewrite !map_app, !radix_val_app, Hv1, Hv2, Hg1, Hg2. unfold zlen. rewrite !length_map, Hl.
  assert (E : 4 ^ Z.of_nat (4 * n) = 256 ^ Z.of_nat n).
  { rewrite Nat2Z.inj_mul, Z.pow_mul_r by lia. done. }
  rewrite E. unfold low_bytes. cbn [zsum]. split; [lia|]. split; [lia|]. by apply Forall_app.
Qed.

Theorem sc25519_2interleave2_Ok s1 s2 :
  scalar s1 -> scalar s2 ->
  let b := sc25519_2interleave2 s1 s2 in
  length b = 127%nat /\ Forall (fun x => 0 <= x < 16) b /\
  radix_val 4 (map (fun x => x mod 4) b) = le_val s1 mod 2 ^ 254 /\ radix_val 4 (map (fun x => x / 4) b) = le_val s2 mod 2 ^ 254.
Proof.
  intros H1 H2. destruct (interleave_prefix s1 s2 31 (proj2 H1) (proj2 H2)) as (Hl & Hv1 & Hv2 & Hf). unfold sc25519_2interleave2. set (w := flat_map _ _) in *. clearbody w.
  cbv zeta. destruct (interleave_group_Ok (nth 31 s1 0) (nth 31 s2 0)) as (Hg1 & Hg2 & Hgf); [apply nth_byte; apply H1|apply nth_byte; apply H2|].
  rewrite (low_bytes_all s1 H1), (low_bytes_all s2 H2). change 32%nat with (31 + 1)%nat. rewrite !low_bytes_add. cbn [zsum]. change (31 + 0)%nat with 31%nat.
  pose proof (low_bytes_range s1 31 (proj2 H1)). pose proof (low_bytes_range s2 31 (proj2 H2)).
  set (g := interleave_group _ _) in *. assert (Eg : exists z, g = take 3 g ++ [z] /\ 0 <= z < 16).
  { exists (nth 3 g 0). split; [done|]. rewrite (Forall_nth _ 0) in Hgf. apply Hgf. cbn. lia. }
  destruct Eg as (z & Eg & Hz). split; [rewrite length_app, Hl; done|]. split; [apply Forall_app; split; [done|by apply Forall_take]|].
  rewrite Eg, map_app, radix_val_app in Hg1, Hg2. unfold zlen in Hg1, Hg2. rewrite !length_map in Hg1, Hg2. change (4 ^ Z.of_nat (length (take 3 g))) with 64 in Hg1, Hg2.
  rewrite !map_app, !radix_val_app, Hv1, Hv2. unfold zlen. rewrite !length_map, Hl. change (4 ^ Z.of_nat (4 * 31)) with (2 ^ 248). change (256 ^ Z.of_nat 31) with (2 ^ 248) in *.
  cbn [map radix_val] in Hg1, Hg2. change (256 ^ Z.of_nat 0) with 1.
  assert (Hr1 : 0 <= radix_val 4 (map (fun x => x mod 4) (take 3 g)) < 64).
  { pose proof (radix_val_bounds 4 0 3 (map (fun x => x mod 4) (take 3 g)) ltac:(lia) ltac:(lia)) as Hb. specialize (Hb ltac:(apply Forall_map, Forall_true; intros x; unfold compose; Z.div_mod_to_equations; lia)).
    unfold zlen in Hb. rewrite length_map in Hb. change (4 ^ Z.of_nat (length (take 3 g))) with 64 in Hb. lia. }
  assert (Hr2 : 0 <= radix_val 4 (map (fun x => x / 4) (take 3 g)) < 64).
  { pose proof (radix_val_bounds 4 0 3 (map (fun x => x / 4) (take 3 g)) ltac:(lia) ltac:(lia)) as Hb.
    specialize (Hb ltac:(apply Forall_map; eapply Forall_impl; [by apply Forall_take|]; intros x Hx; cbv beta in Hx; unfold compose; Z.div_mod_to_equations; lia)).
    unfold zlen in Hb. rewrite length_map in Hb. change (4 ^ Z.of_nat (length (take 3 g))) with 64 in Hb. lia. }
  set (v1 := radix_val 4 (map (fun x => x mod 4) (take 3 g))) in *. set (v2 := radix_val 4 (map (fun x => x / 4) (take 3 g))) in *. clearbody v1 v2.
  assert (0 <= z mod 4 < 4 /\ 0 <= z / 4 < 4) by (Z.div_mod_to_equations; lia).
  split; [apply (Z.mod_unique _ _ (z mod 4)); [left|]; lia|apply (Z.mod_unique _ _ (z / 4)); [left|]; lia].
Qed.
