(* ===== verification/Ge25519.v ===== *)
(** The points of the signatures: the ge25519 functions of node/C25519.cpp, on the twisted
    Edwards curve -x^2 + y^2 = 1 + d x^2 y^2 modulo 2^255 - 19.

    A point is four field elements X, Y, Z, T with x = X/Z, y = Y/Z and xy = T/Z.  The lemmas
    relate the formulas of the code to the addition law of the curve on affine coordinates,
    given as a relation so that no division is needed.  The code casts a point to the three
    coordinates of ge25519_p2 to skip T: the T of the point is then what it was. *)
From S2P Require Import Prelude.
From S2P Require Import Limbs.
From S2P Require Import Field25519.
From S2P Require Import Fe25519.
From S2P Require Import Sc25519.
From S2P Require Import Windows.

(** ** Data *)

Record ge25519 : Type := mkGe { ge_x : list Z; ge_y : list Z; ge_z : list Z; ge_t : list Z }.
Record ge25519_p1p1 : Type := mkP1p1 { p1_x : list Z; p1_z : list Z; p1_y : list Z; p1_t : list Z }.
Record ge25519_aff : Type := mkAff { aff_x : list Z; aff_y : list Z }.

Definition ge25519_ecd : list Z :=
  [0xA3; 0x78; 0x59; 0x13; 0xCA; 0x4D; 0xEB; 0x75; 0xAB; 0xD8; 0x41; 0x41; 0x4D; 0x0A; 0x70; 0x00;
   0x98; 0xE8; 0x79; 0x77; 0x79; 0x40; 0xC7; 0x8C; 0x73; 0xFE; 0x6F; 0x2B; 0xEE; 0x6C; 0x03; 0x52].
Definition ge25519_ec2d : list Z :=
  [0x59; 0xF1; 0xB2; 0x26; 0x94; 0x9B; 0xD6; 0xEB; 0x56; 0xB1; 0x83; 0x82; 0x9A; 0x14; 0xE0; 0x00;
   0x30; 0xD1; 0xF3; 0xEE; 0xF2; 0x80; 0x8E; 0x19; 0xE7; 0xFC; 0xDF; 0x56; 0xDC; 0xD9; 0x06; 0x24].
Definition ge25519_sqrtm1 : list Z :=
  [0xB0; 0xA0; 0x0E; 0x4A; 0x27; 0x1B; 0xEE; 0xC4; 0x78; 0xE4; 0x2F; 0xAD; 0x06; 0x18; 0x43; 0x2F;
   0xA7; 0xD7; 0xFB; 0x3D; 0x99; 0x00; 0x4D; 0x2B; 0x0B; 0xDF; 0xC1; 0x4F; 0x80; 0x24; 0x83; 0x2B].
Definition ge25519_base : ge25519 := mkGe
  [0x1A; 0xD5; 0x25; 0x8F; 0x60; 0x2D; 0x56; 0xC9; 0xB2; 0xA7; 0x25; 0x95; 0x60; 0xC7; 0x2C; 0x69;
   0x5C; 0xDC; 0xD6; 0xFD; 0x31; 0xE2; 0xA4; 0xC0; 0xFE; 0x53; 0x6E; 0xCD; 0xD3; 0x36; 0x69; 0x21]
  [0x58; 0x66; 0x66; 0x66; 0x66; 0x66; 0x66; 0x66; 0x66; 0x66; 0x66; 0x66; 0x66; 0x66; 0x66; 0x66;
   0x66; 0x66; 0x66; 0x66; 0x66; 0x66; 0x66; 0x66; 0x66; 0x66; 0x66; 0x66; 0x66; 0x66; 0x66; 0x66]
  [1; 0; 0; 0; 0; 0; 0; 0; 0; 0; 0; 0; 0; 0; 0; 0;
   0; 0; 0; 0; 0; 0; 0; 0; 0; 0; 0; 0; 0; 0; 0; 0]
  [0xA3; 0xDD; 0xB7; 0xA5; 0xB3; 0x8A; 0xDE; 0x6D; 0xF5; 0x52; 0x51; 0x77; 0x80; 0x9F; 0xF0; 0x20;
   0x7D; 0xE3; 0xAB; 0x64; 0x8E; 0x4E; 0xEA; 0x66; 0x65; 0x76; 0x8B; 0xD7; 0x0F; 0x5F; 0x87; 0x67].

(** ** Arithmetic of points *)

(** The three coordinates of ge25519_p2, in a point whose T stays. *)
Definition p1p1_to_p2 (r : ge25519) (p : ge25519_p1p1) : ge25519 :=
  mkGe (fe25519_mul (p1_x p) (p1_t p)) (fe25519_mul (p1_y p) (p1_z p)) (fe25519_mul (p1_z p) (p1_t p)) (ge_t r).

Definition p1p1_to_p3 (p : ge25519_p1p1) : ge25519 :=
  mkGe (fe25519_mul (p1_x p) (p1_t p)) (fe25519_mul (p1_y p) (p1_z p)) (fe25519_mul (p1_z p) (p1_t p)) (fe25519_mul (p1_x p) (p1_y p)).

Definition ge25519_mixadd2 (r : ge25519) (q : ge25519_aff) : ge25519 :=
  let qt := fe25519_mul (aff_x q) (aff_y q) in
  let a := fe25519_sub (ge_y r) (ge_x r) in
  let b := fe25519_add (ge_y r) (ge_x r) in
  let t1 := fe25519_sub (aff_y q) (aff_x q) in
  let t2 := fe25519_add (aff_y q) (aff_x q) in
  let a := fe25519_mul a t1 in
  let b := fe25519_mul b t2 in
  let e := fe25519_sub b a in
  let h := fe25519_add b a in
  let c := fe25519_mul (ge_t r) qt in
  let c := fe25519_mul c ge25519_ec2d in
  let d := fe25519_add (ge_z r) (ge_z r) in
  let f := fe25519_sub d c in
  let g := fe25519_add d c in
  mkGe (fe25519_mul e f) (fe25519_mul h g) (fe25519_mul g f) (fe25519_mul e h).

Definition add_p1p1 (p q : ge25519) : ge25519_p1p1 :=
  let a := fe25519_sub (ge_y p) (ge_x p) in
  let t := fe25519_sub (ge_y q) (ge_x q) in
  let a := fe25519_mul a t in
  let b := fe25519_add (ge_x p) (ge_y p) in
  let t := fe25519_add (ge_x q) (ge_y q) in
  let b := fe25519_mul b t in
  let c := fe25519_mul (ge_t p) (ge_t q) in
  let c := fe25519_mul c ge25519_ec2d in
  let d := fe25519_mul (ge_z p) (ge_z q) in
  let d := fe25519_add d d in
  mkP1p1 (fe25519_sub b a) (fe25519_add d c) (fe25519_add b a) (fe25519_sub d c).

(** The argument is read as a ge25519_p2. *)
Definition dbl_p1p1 (p : ge25519) : ge25519_p1p1 :=
  let a := fe25519_square (ge_x p) in
  let b := fe25519_square (ge_y p) in
  let c := fe25519_square (ge_z p) in
  let c := fe25519_add c c in
  let d := fe25519_neg a in
  let x := fe25519_add (ge_x p) (ge_y p) in
  let x := fe25519_square x in
  let x := fe25519_sub x a in
  let x := fe25519_sub x b in
  let z := fe25519_add d b in
  let t := fe25519_sub z c in
  let y := fe25519_sub d b in
  mkP1p1 x z y t.

Definition cmov_aff (r p : ge25519_aff) (b : Z) : ge25519_aff :=
  mkAff (fe25519_cmov (aff_x r) (aff_x p) b) (fe25519_cmov (aff_y r) (aff_y p) b).

(** equal of two signed characters, and negative. *)
Definition equal_char (b c : Z) : Z :=
  let x := Z.lxor (u8 b) (u8 c) in
  let y := u32 (x - 1) in
  u8 (Z.shiftr y 31).

Definition negative (b : Z) : Z := u8 (Z.shiftr (u64 b) 63).

Definition setneutral : ge25519 := mkGe fe25519_setzero fe25519_setone fe25519_setone fe25519_setzero.

(** [None] for the result -1. *)
Definition ge25519_unpackneg_vartime (p : list Z) : option ge25519 :=
  let z := fe25519_setone in
  let par := Z.shiftr (nth 31 p 0) 7 in
  let y := fe25519_unpack p in
  let num := fe25519_square y in
  let den := fe25519_mul num ge25519_ecd in
  let num := fe25519_sub num z in
  let den := fe25519_add z den in
  let den2 := fe25519_square den in
  let den4 := fe25519_square den2 in
  let den6 := fe25519_mul den4 den2 in
  let t := fe25519_mul den6 num in
  let t := fe25519_mul t den in
  let t := fe25519_pow2523 t in
  let t := fe25519_mul t num in
  let t := fe25519_mul t den in
  let t := fe25519_mul t den in
  let x := fe25519_mul t den in
  let chk := fe25519_square x in
  let chk := fe25519_mul chk den in
  let x := if fe25519_iseq_vartime chk num then x else fe25519_mul x ge25519_sqrtm1 in
  let chk := fe25519_square x in
  let chk := fe25519_mul chk den in
  if fe25519_iseq_vartime chk num then
    let x := if fe25519_getparity x =? 1 - par then x else fe25519_neg x in
    Some (mkGe x y z (fe25519_mul x y))
  else None.

Definition ge25519_pack (p : ge25519) : list Z :=
  let zi := fe25519_invert (ge_z p) in
  let tx := fe25519_mul (ge_x p) zi in
  let ty := fe25519_mul (ge_y p) zi in
  let r := fe25519_pack ty in
  <[31%nat := u8 (Z.lxor (nth 31 r 0) (Z.shiftl (fe25519_getparity tx) 7))]> r.

(** The sixteen sums, with the index [s2 s1] in pairs of bits. *)
Definition scalarmult_pre (p1 p2 : ge25519) : list ge25519 :=
  let pre0 := setneutral in
  let pre1 := p1 in
  let pre2 := p1p1_to_p3 (dbl_p1p1 p1) in
  let pre3 := p1p1_to_p3 (add_p1p1 pre1 pre2) in
  let pre4 := p2 in
  let pre5 := p1p1_to_p3 (add_p1p1 pre1 pre4) in
  let pre6 := p1p1_to_p3 (add_p1p1 pre2 pre4) in
  let pre7 := p1p1_to_p3 (add_p1p1 pre3 pre4) in
  let pre8 := p1p1_to_p3 (dbl_p1p1 p2) in
  let pre9 := p1p1_to_p3 (add_p1p1 pre1 pre8) in
  let pre10 := p1p1_to_p3 (dbl_p1p1 pre5) in
  let pre11 := p1p1_to_p3 (add_p1p1 pre3 pre8) in
  let pre12 := p1p1_to_p3 (add_p1p1 pre4 pre8) in
  let pre13 := p1p1_to_p3 (add_p1p1 pre1 pre12) in
  let pre14 := p1p1_to_p3 (add_p1p1 pre2 pre12) in
  let pre15 := p1p1_to_p3 (add_p1p1 pre3 pre12) in
  [pre0; pre1; pre2; pre3; pre4; pre5; pre6; pre7; pre8; pre9; pre10; pre11; pre12; pre13; pre14; pre15].

(** The body of the loop for the digit [bi] at position [i]. *)
Definition scalarmult_step (pre : list ge25519) (r : ge25519) (i : nat) (bi : Z) : ge25519 :=
  let tp1p1 := dbl_p1p1 r in
  let r := p1p1_to_p2 r tp1p1 in
  let tp1p1 := dbl_p1p1 r in
  let '(r, tp1p1) :=
    if bi =? 0 then (r, tp1p1)
    else let r := p1p1_to_p3 tp1p1 in (r, add_p1p1 r (nth (Z.to_nat bi) pre setneutral)) in
  if (i =? 0)%nat then p1p1_to_p3 tp1p1 else p1p1_to_p2 r tp1p1.

Definition ge25519_double_scalarmult_vartime (p1 : ge25519) (s1 : list Z) (p2 : ge25519) (s2 : list Z) : ge25519 :=
  let pre := scalarmult_pre p1 p2 in
  let b := sc25519_2interleave2 s1 s2 in
  fold_left (fun r i => scalarmult_step pre r i (nth i b 0)) (rev (seq 0 126)) (nth (Z.to_nat (nth 126 b 0)) pre setneutral).

(** ** Field elements *)

(** [a] holds the residue of [z]. *)
Definition fe (z : Z) (a : list Z) : Prop := limbs 128 a /\ le_val a ≡ z [mod p25519].

#[global] Instance fe_proper : Proper (eqm p25519 ==> eq ==> iff) fe.
Proof. intros u v Huv a _ <-. unfold fe. by rewrite Huv. Qed.

Lemma fe_add u v x y : fe u x -> fe v y -> fe (u + v) (fe25519_add x y).
Proof.
  intros [Hx Ex] [Hy Ey]. destruct (fe25519_add_Ok x y) as [H E]; [by eapply limbs_weaken..|]. split; [by eapply limbs_weaken|]. by rewrite E, Ex, Ey.
Qed.

Lemma fe_sub u v x y : fe u x -> fe v y -> fe (u - v) (fe25519_sub x y).
Proof.
  intros [Hx Ex] [Hy Ey]. destruct (fe25519_sub_Ok x y) as [H E]; [by eapply limbs_weaken..|]. split; [by eapply limbs_weaken|]. by rewrite E, Ex, Ey.
Qed.

Lemma fe_neg u x : fe u x -> fe (- u) (fe25519_neg x).
Proof. intros [Hx Ex]. destruct (fe25519_neg_Ok x) as [H E]; [by eapply limbs_weaken|]. split; [by eapply limbs_weaken|]. by rewrite E, Ex. Qed.

Lemma fe_mul u v x y : fe u x -> fe v y -> fe (u * v) (fe25519_mul x y).
Proof.
  intros [Hx Ex] [Hy Ey]. destruct (fe25519_mul_Ok x y) as [H E]; [by eapply limbs_weaken..|]. split; [done|]. by rewrite E, Ex, Ey.
Qed.

Lemma fe_square u x : fe u x -> fe (u * u) (fe25519_square x).
Proof. intros Hx. unfold fe25519_square. by apply fe_mul. Qed.

Lemma fe_setone : fe 1 fe25519_setone.
Proof. destruct fe25519_setone_Ok as [H E]. split; [by eapply limbs_weaken|]. by rewrite E. Qed.

Lemma fe_setzero : fe 0 fe25519_setzero.
Proof. destruct fe25519_setzero_Ok as [H E]. split; [by eapply limbs_weaken|]. by rewrite E. Qed.

Lemma fe_eq u v a : fe u a -> u ≡ v [mod p25519] -> fe v a.
Proof. intros Ha <-. done. Qed.

Lemma fe_bytes a : length a = 32%nat -> Forall is_byte a -> le_val a < 2 ^ 255 -> fe (le_val a) a.
Proof. intros Hl Hb Hv. split; [|done]. eapply limbs_weaken; [eapply limbs_below; [by apply bytes_limbs|done]|lia]. Qed.

#[local] Opaque fe25519_add fe25519_sub fe25519_neg fe25519_mul fe25519_square fe25519_setone fe25519_setzero.

(** ** The curve *)

Definition d25519 : Z := le_val ge25519_ecd.

(** The constants are what their comments say: d = -121665/121666, 2d, a root of -1. *)
Lemma curve_constants :
  121666 * d25519 ≡ -121665 [mod p25519] /\ le_val ge25519_ec2d ≡ 2 * d25519 [mod p25519] /\
  le_val ge25519_sqrtm1 * le_val ge25519_sqrtm1 ≡ -1 [mod p25519].
Proof. split; [|split]; (apply eqm_iff; [done|]; vm_compute; reflexivity). Qed.

Lemma fe_ecd : fe d25519 ge25519_ecd.
Proof. apply fe_bytes; [done|by repeat constructor|done]. Qed.

Lemma fe_ec2d : fe (2 * d25519) ge25519_ec2d.
Proof. apply (fe_eq (le_val ge25519_ec2d)); [apply fe_bytes; [done|by repeat constructor|done]|apply curve_constants]. Qed.

(** Reads the residue of an expression off its operations. *)
Ltac fe_val :=
  lazymatch goal with
  | |- fe _ (fe25519_add _ _) => eapply fe_add; fe_val
  | |- fe _ (fe25519_sub _ _) => eapply fe_sub; fe_val
  | |- fe _ (fe25519_neg _) => eapply fe_neg; fe_val
  | |- fe _ (fe25519_mul _ _) => eapply fe_mul; fe_val
  | |- fe _ (fe25519_square _) => eapply fe_square; fe_val
  | |- fe _ fe25519_setone => exact fe_setone
  | |- fe _ fe25519_setzero => exact fe_setzero
  | |- fe _ ge25519_ecd => exact fe_ecd
  | |- fe _ ge25519_ec2d => exact fe_ec2d
  | |- _ => eassumption
  end.
Ltac fe_solve := eapply fe_eq; [fe_val|apply (eqm_intro _ _ _ 0); ring].

(** An affine point. *)
Definition point : Type := Z * Z.
Definition on_curve (p : point) : Prop := let '(x, y) := p in - (x * x) + y * y ≡ 1 + d25519 * (x * x) * (y * y) [mod p25519].

(** What the denominators of the addition law differ from one by. *)
Definition ed_cross (p q : point) : Z := let '(x1, y1) := p in let '(x2, y2) := q in d25519 * (x1 * x2 * y1 * y2).

(** The addition law, with its divisions multiplied out. *)
Definition ed_add (p q r : point) : Prop :=
  let '(x1, y1) := p in
  let '(x2, y2) := q in
  let '(x3, y3) := r in
  let k := ed_cross p q in
  x3 * (1 + k) ≡ x1 * y2 + y1 * x2 [mod p25519] /\ y3 * (1 - k) ≡ y1 * y2 + x1 * x2 [mod p25519].

(** A point in the coordinates of the code, for the given Z; [represents2] is the reading as
    ge25519_p2, that says nothing of T. *)
Definition represents2 (z : Z) (g : ge25519) (p : point) : Prop :=
  let '(x, y) := p in fe z (ge_z g) /\ fe (x * z) (ge_x g) /\ fe (y * z) (ge_y g).
Definition represents (z : Z) (g : ge25519) (p : point) : Prop :=
  let '(x, y) := p in fe z (ge_z g) /\ fe (x * z) (ge_x g) /\ fe (y * z) (ge_y g) /\ fe (x * y * z) (ge_t g).

Lemma represents_2 z g p : represents z g p -> represents2 z g p.
Proof. destruct p as [x y]. intros (Hz & Hx & Hy & _). done. Qed.

Lemma setneutral_represents : represents 1 setneutral (0, 1).
Proof. cbn [represents ge_x ge_y ge_z ge_t setneutral]. split; [fe_val|]. split; [fe_val|]. split; fe_val. Qed.

(** A point in completed coordinates: x = X/Z and y = Y/T. *)
Definition represents1 (z t : Z) (g : ge25519_p1p1) (p : point) : Prop :=
  let '(x, y) := p in fe z (p1_z g) /\ fe t (p1_t g) /\ fe (x * z) (p1_x g) /\ fe (y * t) (p1_y g).

Lemma p1p1_to_p3_represents z t g p : represents1 z t g p -> represents (z * t) (p1p1_to_p3 g) p.
Proof.
  destruct p as [x y]. intros (Hz & Ht & Hx & Hy). cbn [represents ge_x ge_y ge_z ge_t p1p1_to_p3].
  split; [fe_val|]. split; [fe_solve|]. split; fe_solve.
Qed.

Lemma p1p1_to_p2_represents z t r g p : represents1 z t g p -> represents2 (z * t) (p1p1_to_p2 r g) p.
Proof.
  destruct p as [x y]. intros (Hz & Ht & Hx & Hy). cbn [represents2 ge_x ge_y ge_z ge_t p1p1_to_p2].
  split; [fe_val|]. split; fe_solve.
Qed.

(** add_p1p1 is the addition law. *)
Lemma add_p1p1_represents z1 z2 g h p q r : represents z1 g p -> represents z2 h q -> ed_add p q r ->
  represents1 (2 * (z1 * z2) * (1 + ed_cross p q)) (2 * (z1 * z2) * (1 - ed_cross p q)) (add_p1p1 g h) r.
Proof.
  destruct p as [x1 y1], q as [x2 y2], r as [x3 y3]. intros (Hz1 & Hx1 & Hy1 & Ht1) (Hz2 & Hx2 & Hy2 & Ht2) [E3 F3]. unfold ed_cross in *.
  set (k := d25519 * (x1 * x2 * y1 * y2)) in *. cbn [represents1 add_p1p1 p1_x p1_y p1_z p1_t]. split; [subst k; fe_solve|]. split; [subst k; fe_solve|]. split.
  - apply (fe_eq (2 * (z1 * z2) * (x1 * y2 + y1 * x2))); [fe_solve|]. rewrite <- E3. apply (eqm_intro _ _ _ 0). ring.
  - apply (fe_eq (2 * (z1 * z2) * (y1 * y2 + x1 * x2))); [fe_solve|]. rewrite <- F3. apply (eqm_intro _ _ _ 0). ring.
Qed.

(** dbl_p1p1 is the addition of a point of the curve to itself. *)
Lemma dbl_p1p1_represents z g p r : represents2 z g p -> on_curve p -> ed_add p p r ->
  represents1 (z * z * (1 + ed_cross p p)) (- (z * z * (1 - ed_cross p p))) (dbl_p1p1 g) r.
Proof.
  destruct p as [x y], r as [x3 y3]. intros (Hz & Hx & Hy) Hc [E3 F3]. unfold on_curve in Hc. unfold ed_cross in *.
  set (k := d25519 * (x * x * y * y)) in *.
  assert (Hk : y * y - x * x ≡ 1 + k [mod p25519]).
  { subst k. replace (y * y - x * x) with (- (x * x) + y * y) by ring. rewrite Hc. apply (eqm_intro _ _ _ 0). ring. }
  assert (Hl : y * y - x * x - 2 ≡ - (1 - k) [mod p25519]) by (rewrite Hk; apply (eqm_intro _ _ _ 0); ring).
  cbn [represents1 dbl_p1p1 p1_x p1_y p1_z p1_t]. split; [rewrite <- Hk; fe_solve|]. split; [|split].
  - apply (fe_eq (z * z * (y * y - x * x - 2))); [fe_solve|]. rewrite Hl. apply (eqm_intro _ _ _ 0). ring.
  - apply (fe_eq (2 * (x * y) * (z * z))); [fe_solve|]. replace (x3 * (z * z * (1 + k))) with (x3 * (1 + k) * (z * z)) by ring.
    rewrite E3. apply (eqm_intro _ _ _ 0). ring.
  - apply (fe_eq (- (y * y + x * x) * (z * z))); [fe_solve|]. replace (y3 * - (z * z * (1 - k))) with (- (y3 * (1 - k)) * (z * z)) by ring.
    rewrite F3. done.
Qed.

(** A point in affine coordinates. *)
Definition represents_aff (g : ge25519_aff) (p : point) : Prop := let '(x, y) := p in fe x (aff_x g) /\ fe y (aff_y g).

Lemma ge25519_mixadd2_represents z g h p q r : represents z g p -> represents_aff h q -> ed_add p q r ->
  represents (2 * z * (1 + ed_cross p q) * (2 * z * (1 - ed_cross p q))) (ge25519_mixadd2 g h) r.
Proof.
  destruct p as [x1 y1], q as [x2 y2], r as [x3 y3]. intros (Hz1 & Hx1 & Hy1 & Ht1) [Hx2 Hy2] [E3 F3]. unfold ed_cross in *.
  set (k := d25519 * (x1 * x2 * y1 * y2)) in *. cbn [represents ge25519_mixadd2 ge_x ge_y ge_z ge_t].
  split; [subst k; fe_solve|]. split; [|split].
  - apply (fe_eq (2 * z * (x1 * y2 + y1 * x2) * (2 * z * (1 - k)))); [subst k; fe_solve|]. rewrite <- E3. apply (eqm_intro _ _ _ 0). ring.
  - apply (fe_eq (2 * z * (y1 * y2 + x1 * x2) * (2 * z * (1 + k)))); [subst k; fe_solve|]. rewrite <- F3. apply (eqm_intro _ _ _ 0). ring.
  - apply (fe_eq (2 * z * (x1 * y2 + y1 * x2) * (2 * z * (y1 * y2 + x1 * x2)))); [fe_solve|]. rewrite <- E3, <- F3. apply (eqm_intro _ _ _ 0). ring.
Qed.

(** The base point. *)
Definition base_point : point := (le_val (ge_x ge25519_base), le_val (ge_y ge25519_base)).

Lemma base_point_on_curve : represents 1 ge25519_base base_point /\ on_curve base_point.
Proof.
  split; [|apply eqm_iff; [done|]; vm_compute; reflexivity]. unfold base_point.
  cbn [represents]. rewrite !Z.mul_1_r. split; [apply (fe_eq (le_val (ge_z ge25519_base))); [|done]|split; [|split; [|apply (fe_eq (le_val (ge_t ge25519_base)))]]];
    [apply fe_bytes; [done|by repeat constructor|done]..|]. apply eqm_iff; [done|]. vm_compute. reflexivity.
Qed.
