(* ===== verification/BaseMultiples.v ===== *)
(** The table ge25519_base_multiples_affine of node/C25519.cpp: for each of the 85 digits in
    radix 8, the neutral point and the multiples by one to four of a power of eight of the
    base point, and its constant-time lookup.

    The table is written with its numbers in base 16 instead of their bytes. *)
From S2P Require Import Prelude.
From S2P Require Import Limbs.
From S2P Require Import Field25519.
From S2P Require Import Fe25519.
From S2P Require Import Sc25519.
From S2P Require Import Windows.
From S2P Require Import Ge25519.

Definition base_multiples : list point := [
  (0x0, 0x1);
  (0x216936d3cd6e53fec0a4e231fdd6dc5c692cc7609525a7b2c9562d608f25d51a, 0x6666666666666666666666666666666666666666666666666666666666666658);
  (0x36ab384c9f5a046c3d043b7d1833e7ac080d8e4515d7a45f83c5a14e2843ce0e, 0x2260cdf3092329c21da25ee8c9a21f5697390f51643851560e5f46ae6af8a3c9);
  (0x67ae9c4a22928f491ff4ae743edac83a6343981981624886ac62485fd3f8e25c, 0x1267b1d177ee69aba126a18e60269ef79f16ec176724030402c3684878f5b4d4);
  (0x203da8db56cff1468325d4b87a3520f91a739ec193ce1547493aa657c4c9f870, 0x47d0e827cb1595e1470eb88580d5716c4cf22832ea2f0ff0df38ab61ca32112f);
  (0x0, 0x1);
  (0x6742e15f97d771b642862d5cf84ecf93eb3ac67b80698b993b87fdbc08a584c8, 0x21d30600c9e573796ead6f09668af38f81783cfc621ee4931e2f5ba9fc37b9b4);
  (0x23a4860627e53aeeb8e22b1508249c9109578d33e7bf237459b2596d6c28f9f8, 0x709696f2827fc3729f980f2e3aad6e78b06a11ff8e079c27d87aab37c16727eb);
  (0x70985f28875d4006e0968d9c952d799e610ed8e052a9a10e9677c71ee8886b81, 0x604e1b93c877b9896dca33cf8a2093cddf9fd21208c20d08e7b2444fed7b79f1);
  (0x39cf6c6917421af98582561d0b39567de6033190f97852fc4fdd40f6977e4f26, 0x4434a90ee12cce6b7ade93ecc0f88b78b41205e74c8c4038f92d394f3a06d269);
  (0x0, 0x1);
  (0x5fa64200bf829139cf290f9871d79a8b8e846fd6ad9d678f1517a0fb03ca40b, 0x3d199eeaf926002872f486796fa8aa4c99f1125e6e0d196afbd695af17da0926);
  (0x379dbeb1a97b5f082402eabf1ad28bb78a837aa426237a405da2495bf0cfdd87, 0x28eb9fe001ce99d063f7995348559bfc233261c134094521fda0e7ee084b86fc);
  (0x6e5f16cae935083f9f8f32f1026e3a74448e4b282086303a5685f0175aabfc47, 0x778d6578ea7fb7d68d349fc7600baf88c52ab17d709c13cd09a4345d651c591c);
  (0x5e7e07ed4e1decbfe6e9cbc126905449d4b578fbb561576d20b8bcdd0cc2a556, 0xf55755c51f102796bf5ebaa81d3260e7d1b3d9ac127d9a80e142031566cf6c7);
  (0x0, 0x1);
  (0x2eecbf81b3d084733331f9eefa70d42621effd9b303961d25409333c82cd340a, 0x54d2dc2da137827c4132d9b740a119b6484d4d4849e6e074b89cf764008b93e8);
  (0x6b113a52f9f3fd0590ac7cb6c8cbb37abcf147c44b2ae11d9151c7d55b4a2b68, 0x1aeb017159697e792eb8da1805519c06296595f4f57996c590954359f327c13d);
  (0x603ba4adc34a9feb3b4b4de22065bd3e2cafd6aac31420342fea3c8ab6490615, 0x1fdbaf2c3482ccd90facd46ae046c50cbc48be06d2f37a9a812a2a95c0e658bc);
  (0x3c1ae7527612d38bb541f511fcc6283d8482afe93115b345ecd2bcfbbd1317f7, 0x51c91c3f9d7e57eb786116c8545f90fa67f5e8b62c32ac4512015a20711364e);
  (0x0, 0x1);
  (0x7d13c0248b891b47eb524f2692008e2f97b199bac426cb5902b9003a29ded6ea, 0x59a976ab2c01a81a91f1a56c75ccc77a9e1e9e878e9fe9c3952080a6805b20d5);
  (0x17d5a9ff7f338d8ee53c26531f9a5d4ad2718234b5d46a1435aa161031b1c9de, 0x73022287d3b73f6c43c3f9071cf0a87aac83dabd44efad1de010d564a4f6af89);
  (0x86f2f768eec289d7b7d2f8cbdbf7b56ede3ec13ee42d08769ec712f13491d64, 0x72945a90338f3ca0ec52eea501cae2d6915bebf0893603574efcef154d5ff522);
  (0x7a8bc68bf5f3ed3bed79c11bf2d6b20cb84442dfe4ae185b0c2dabc38e74b8a, 0x7249d7c47afd427018b32d20a2a81307bddc3e039574c80329aa786a22288901);
  (0x0, 0x1);
  (0x5b4fd9f4a9a79b1f34a4c426c1a467d36560338b1a5457e83254935c2b32ff02, 0x40ebd1230468fbf85a49aa47278ec1375a3cf9c2ecc5bbdf685b265433b08d46);
  (0x5de7faa2ee4e70132f541f79ca07cd54a39fe1347a6844d19e9d678a8411a565, 0x2c9f23641e1c2e0aab8ea9926b432d92c0e8bc08901d6ff6df85e4cef854ec36);
  (0x314355e3f09ce0c414820846009031342bad1d0346f9a73b5acbd4ccd52ed6a7, 0x655f3cc57a6ff6c1c9295400b71ad15992e2636ab1f9001f4222d4e678ddd660);
  (0x74e337a01c13b537323663602811d1d532d8747e81489415271411b172d04f27, 0x8648f02b3a4daf96ecffabdbaf3599fb2ee85dae253b2c21ce66796114e25f1);
  (0x0, 0x1);
  (0x6a6fbd51efa6a855e82cb0142325ba473fd7554aba208a400737475464f29434, 0x16f5f8529f55fc2b7cf811161d7870ade1d1617e52c3c4f579ea06b27616d671);
  (0x243eb188de73a5549b32c39d2ef1b29623709a9ead4c0e240314e0c5f69a9634, 0x3779298951f452d801eb7a0b7eb224cca2dbef041081cfa582afb25b1f4ce2f6);
  (0x297b327e2a5ccd6c7569408b6d6328d9ab9955b581dc68eec366b768f312de74, 0x15dde9cfe1f2bc027f8848afbcd4265f0aa6aa2a5176b5dac007194d7422cc02);
  (0x6b349eebfed4dad4a805b63a6ed2231a565cda752d9477ff427dd9a8c9ab5ed, 0x7a09289ff3e1f9aab68aa374c48df65f550c2323607b97744dee990608b64f8);
  (0x0, 0x1);
  (0x482a4cdf57d9eadaab1c92b8edd4d15f66a39c16b2ebaaf9ec314ac0199c4f7d, 0x7391de4381c2f7a80b3c5fc6145192983f115fa525e4fd6abd513b116e4eb04b);
  (0x3bad86defe0d244dcc4b246c137dcc68bf6b733d1fff688f33431f2a339f8f3c, 0x2de3cdf2fa86ba8c2b899f9fc04b8d5384145c3f68ea9b6ee05373dc01815179);
  (0x287ce53c7dcf4e8997b095a0ad9163360e4ab79d606bccab52843ddb5a29f906, 0x2de90989b74e58b52b0046cdf8c227bf6d89ca9d7e449adfcaccbdc6fd98692e);
  (0x45afc85dc571ed1bd5e8115a9622d44627cf19fc4a8626e7b754b005cb75be54, 0x6c0c8abfa60bfc771e39a18f57b8142f7adbcf220b81ee2339809e4957777b40);
  (0x0, 0x1);
  (0xaf367956af630266b1cc760154256ed79da960dddca9d72a1e8cf27d8d43a77, 0x21108d900134d3b3708dd28ace96b0b23dda9100e4b6a62a8131bd2f2ba408c5);
  (0x2b760154fc5ceb5a64141345f55b1b57e5b0b1d6c5a07dea8ddf074fbae70d33, 0x7dc81af96fed42e0373411203fa2ced7629fb2eb6a2054e24afe3696afc20c02);
  (0x4535c89311d604f3aaa0e4d88d9d7b514f3d23c8f1d3dccac1423f36e811b9d8, 0x69dd3661ba84b8e1aaa20a3d90806ac9372d33d5840f6c977aa7bf9008d63661);
  (0x67dbc33418bbcd3878489398639484b6d6fa42f875b8c5af23bc92c69c5bdb6b, 0x38436fdf8589a33059fc92e7ca7aa2250cc9ea48391b1e517c6fb056093af396);
  (0x0, 0x1);
  (0x29ea44a50a4b47b8b3dffa01dc5f2271d5439ba8a82a6ec0c454e9bd19448479, 0x6c775ac8ab2eda8cbbdb4bd1196ab24630ac6c1f97389de19e9d5f63af509005);
  (0x1e45a60140a3b2dee9b8dc6ff307154a1b410bcd38e0e38fb10b2f6da1afbe2b, 0xe730da473dffd60d2f3241a85e68acb47d26e5043ad047d893f072c8dda0a76);
  (0x55a72d4513874cb7bfd62184d0f0a37c3b9b30c3d5b8f4393953819b716b67fd, 0x41b8ad771771424d2150acd361d9d2679fe75ffe45eec83302d952840b3045d);
  (0x61708161cb4660ff22c3c1eaafb1414244579864b07e73fb9bcd90aabec9935d, 0x38d6936d12e8157c0621bd2d8fdf95a1f84987ee724e0c98f5c4cd21feb9820d);
  (0x0, 0x1);
  (0x48f451397792915909604c632c838021641749a67fb8e91301427defd951f791, 0x315385d3bd5a22b69068de89e52a3126525be7da886d693e99ff2f088322d560);
  (0x7956a04df862178ee4c705ffbd30f9dcbccdfc7abe362f2c1da24b3cf9dcced8, 0x5eeac17f2e772f551e761978b395b6ddea37a16aa33cff34a30a8453baf6e782);
  (0x2d4316db5e2efd40ce8f23f8ff9707e1c9b4a3b19f1ccbff833e3307a96ee183, 0x7245a6c4760cfc3f882ffad7dfc80fc63138048a3b014f20a3834381f70238ba);
  (0x4d1e116d136158c5ddabd4276832800f2c081c1072de6f2d931797a46abc0cbb, 0x6d415be49d4e35b65cc51354b5008f8c43e84b7b5e8a4b84f44e1efb10c9b91a);
  (0x0, 0x1);
  (0x4b5bae5a77a867ddbee3944524f8e2ec8c2a6172c14bd432cd42148248127d15, 0x739476e0b38471219875a4580e6742ecb6aecba57b8c0fa0d923b8de209a77cb);
  (0x33bfa90cc1b9df13e106ffcf6ca898d06b22d51df337243bf85b3f232869fcdf, 0x53b120db6327cae59fa5fff109017d2df4acef01d2f10981439d824fb2da81d9);
  (0x56bec703109151e787690e04944ce775ea94874dc7aa8115f0d434a9ade80267, 0x6ab2ddd0750778ccdca656b4f3710c05ce7e47706cfac82b512e6b33ec86fb32);
  (0x444929347c2ded029bc19558b0f69a4492017a9c35b370711e08222bc0b9efc6, 0x77785ec5cbbdabd645a3251e7da57c8ffc39158c0d7b25a4211c2aff2e1d6245);
  (0x0, 0x1);
  (0x2b6b892ae94b454b2c2d92bb947fc4d506d173d281779c2c153c001ded42d3d0, 0x7f1cf64e0e180fc4d6e12c1b5c5285f376e979616a52c94a0dea4d48c5880cd2);
  (0x1b9175b7fc19a618d5848c5761c2b760529e3eaaac087b51112b1fcb422e04b4, 0x1730a59fff4717e258cc853dece7c5f70ecb52cc35320a53cc3838c844ca68e8);
  (0x378c491d1e893d0a64eef25b6c3697c7a073da390e5c413700317571c1c8aee3, 0x5c956929821b07bf5511ca937f397cd7c1f9f6569c79ad0809822aa5c1b0e64c);
  (0x1371cf67fe47f8ef91246ae0485874d601e31984d854224569ac29e56a6ee87, 0x71cad7d8350661ce798e332a98ee5b62f8431fd9ac5a4a48856ce9c4c5b64c73);
  (0x0, 0x1);
  (0x63bd671eca1e6accd0f980845b163ca4e927d2a74d198e78cccd8fcaa6aed372, 0x460cc32f5d27a15f4294faa20a99112392cdbdc8515e9caa1ff4887d22a6e7b);
  (0xf6c3a96e0032a9394337a02ffb2c83ba70efb8f566feab530fc90fa3b4710e5, 0x3d4e97e286378675038a4b58e84224ee515e1d6697ac79389f78479be167635a);
  (0x5e8b04972517dd67a284684ab99a658860d5bd3b6d9d5737d6ddd8ffb48e753f, 0x5ad1d2522feb2dba5b43f83b2db9efed8acfab0e90724ec0c4059216bc5e40bb);
  (0x3b13c71c2a90bd24c51df6bd138c5d16208a9ceaaa8eb34a69469fade6abb440, 0x14890a7ab24817b2bba826792e8fd342a6f705af800252616435be180d16dc54);
  (0x0, 0x1);
  (0x184b48cb455000542259174da9a6eb83a928b2835182278abb6ec091e388a820, 0x3ee0e07a03dc33a9dd60c2682380ef736679a5e383faf453fe324dba26e77c33);
  (0x5a04ae1195edf508262196e9d23c259c937f81769b2258542b78e3c0fb135c34, 0x676667092118acccece87e75f0a6825c5952f92dd499943efe831f9712c5e8b9);
  (0x5261a93f439114f4352827eaf581a129508713bb953b79c9e081bcbd12940b3, 0x78f07150d4f7a9df3e2ee50e9d24e89b5f3bea04ac1edf7d6de7af64f9a3446e);
  (0x52ee53b981dfbc41ddaa5ddc2754c4175f4811aa45f8e2b19a425657c238a83e, 0x7eb0a1be3400dec87b388cad51613957643cdf0595b891cc6f925fb36da7f1c3);
  (0x0, 0x1);
  (0x501fe138924e05cc1a05129d241e6b5e9d46cd8b0bed38eb42ee20678a1d2425, 0x2f8022ecede0189c215882ca856dae0f7b4daf6675181a558ebd11e6911cee4e);
  (0x2d8294fd94996032b73b4f09a0ff645ce8db39db5463f0fc57156a1d390a3b68, 0x3a8a6faa67c6dd905a4fdeb95ac127c9fde3ac017c847ceadb2c55f1445af624);
  (0x2a374c17088711d1dd19a6cbd48288a3a8a606f1f8c15f54ddb16397c9875278, 0x5ab35fce03931cb376e1b54eb9e21b8d4769bdca91dfa7831e24d94308f30ca1);
  (0x56857d02674276af0099d63b04a39544a23b841cb2ef18688ba9500361e4da1d, 0xb543a6720e318d2647915bcd619efcdedcf7fed0657be45d27db284290e72ce);
  (0x0, 0x1);
  (0x52a837bc7a7bc9459bcc2ecf80f74d9ed99def0342e18cfbe8e799fbc504fd52, 0x50d6460185d8924e5485f23f36a98c86053514d163547adab6fe91478a411196);
  (0x3f30ee695b236bc74620afb10469324b45c8201a45cbd6954239e64086f3cd53, 0x414231531dd52e5555640faeae608c4a0c205a04f56d187ba80855dbc0478370);
  (0x4fbfdbab005592c2c974a2cc3fd1b4ef7f8db640afbcdc838b0a78966b88fcca, 0x68ffb955a83a0ce5a55313f837bfc1ceec03abe700fd1897a40265662d061c93);
  (0xebc38c54fd6aa12dcc60ca5c72ed865b7c35a6bfcf98778c235307d306de6e4, 0x4b3a1d9f2ef40fdb3e31ddd56a08526dbda15a4f58d78162c7bf23886763ce2);
  (0x0, 0x1);
  (0x3b75696730dc8d8cfb7ddb23241cc7ce78a13e6a377db5da527a1058e60e49db, 0x34d031744cd2d9cfef9f9ea654000016fb3e8b4a8c44198760f46016166deaa9);
  (0x6b2bd5d00fab38ceca21a27d6aaec82626b14b555d859527718f8ca404eba4, 0x727340c27a15f6ab3d80547f0827c56ab1ba33bc30d1ef3909ea9a3af10c67e5);
  (0x156d6498968f875544c9022255b37fbf595fc5d5a95bbdf0f77f7012b6825684, 0x6c23fe1e8706bbe3dc579c0ef5811fcca1dff605c604921f8fa5c7ec1eaa8bb0);
  (0x1f4e8938dcf3a6d5907d88572bfb36a8191aa9d05bae8f68d3f120ea165b2bd8, 0x5a8b0c6f649f8e191aeeca653774a6ddfc8cf8ae3d4d232e2148433b9bda19cc);
  (0x0, 0x1);
  (0x8fe8df51b345989553484e20f600c2e46f4ed256f3c8dcc1615b872f0c2b925, 0x2738e06810f4cec5d894c91432edeab5ba632e54d06f494b751bba44bc93abf8);
  (0x1a2403cc5ef2ad62b4f09afac79a48a5ba8ef74f3321b65a716164d49b141c74, 0x7779fbcd8be50c9b021180ac97a544ad0c21cd1f3bd263ce5903b9afe4fd76f5);
  (0x7d21cea0005aab3b86f4601a27380c6af6b7799359bef58a207238ba0d9abe15, 0x5ce9bf0e3fa39d421569d0f41c512ef1ec1de74a9bce63822e9e12eac514ba6c);
  (0x71dd75fe35761c01a48597ec730bc33237902fd4ad8612cbed1031eebdf40de4, 0x39674a4532078e34378667beae5cb55f814ead9bbaf7e01b3b69533e9f88a411);
  (0x0, 0x1);
  (0x300d6b0bd6734e6170b814d2f28c82de4a2debb1c5589bc8b2671e0320587090, 0x40ca073d0343190c7f042b83c7bcabd3fa997de98f4bf0e2bdc4a7bf5c55fc81);
  (0x42545a6a59885c28266ae07652d24503c2fb5830c85817f6963981168cbec8f9, 0x706406cdbd1ce0bdbd9ea269bab2e060b129d6da0f1e6983fb9b15672c2eb507);
  (0x7e97763970e96e86fd444e2b16752f6d95def8555f6f8f25c8278f89e18cfa41, 0xe85b4c08f01ee8f8c01916e8d44ec3fd2938c6da58ad86e79d07ca1146b6217);
  (0x6c1262e3f8a43b517673a0ce209f76cb22d7cd7e54fce6ac235711e441703a02, 0x193841cf1e0f528b9a8d508a276202a84f1fb096c5ed013a7f486f0d269c007f);
  (0x0, 0x1);
  (0x57426aefc21be9ccf162e23d25ac3002ba8534351e65613f870f690f2fd46cf5, 0x6b45b002fb4e8a6f59a6ffb006ed71f75434217333b266325204c7d1ac2e1f34);
  (0x205aa3463e7e41af60f5cff4853fbd6f748aa1b132fe5308807d22c5030b48f5, 0x320b08e8ec6153e2be9955058bd26993bf50353e040c556ef8976663448735aa);
  (0x68fc29a1aa948157d1ad9165ed3c62d5c4dc8025dbf864d9972e5969024510b3, 0x5de15de41a8b7a671125e884e90988200c0ca8d10d7917bb5341215aab7db5dd);
  (0x592c8b8843ca1f7d9ee692d5e29bc1612b0a98bea402c5c2e1e8253b65feea37, 0x42a352d8dc52fef9017cbe617cdbee3aaefed1935aa62f8679af6f2a1d00b5e0);
  (0x0, 0x1);
  (0x41c030fbca90151ce0d0064a815e03825ed77a4ac634604ac7137bd3713af22, 0x72467625ee43fb7ac67dc71c655e5c16e4e97c2a3d4445e7e9b33fcf0780f989);
  (0x6222bd88bf2df9d5d44b60cfb4a08a960078db7ed51a35eb3e0b6b8ff4eda202, 0x325bb42ea4ed025dd6bdaed261b7c4f5410b608ba902b068f1efa5782e45313);
  (0x69289e1e6f5cdf45fad5929871e20c7576cb62fa4e7277e899f65dd57c501651, 0xf041ad8cb149525864adcf9dcf26c188ea4bd0c0da0e2b516ba8bc36d66ac0d);
  (0x23bc7abc84cb4c4ae5fa62b25a0a8114e8406d9bb93f2091142aa2d8bdba597, 0x4d2b97a739eceb14c95020371d7206e904f94b8f2c620dceed8511df0f29c9ee);
  (0x0, 0x1);
  (0x6d5066cf7137b4a5980aa453b672c84797fc6856f0ef5cf0c4be33fbbd39d169, 0x54bb8cd82a0a87c883abe35abeb81857f95200b4222ea95b5cb347115219a417);
  (0x6b66159ac8702d4e34073b76629deab2d3aa50942db5b00e4a73e8be859362a9, 0x19dd4bef38efd504e49b3a5d584432b9ce630883226031e75fee1a22c8ca96c5);
  (0x6f0219bc5e5894201f7dfa5892e40f3f47910978e34403c6c3cd68a17517c24d, 0x64c8c5d0f490cfce2669f04e13746510146fc830fa06344b20f3a75491d8d620);
  (0x71ac99647b61b9eca6f0c23432a518f738aee708d5932d4ef0f172240250a226, 0x3a96c2c028ebe5f48913be30147e41bc5e1cab9595d5404138a9aa1b5574cf25);
  (0x0, 0x1);
  (0x221b138a1bbb6548d2ef719bbaee436114e7cb6b3225dfb94c327667ec45772b, 0x7951b295fab7fbffa46c08f6979bb32060974fb037bf5998d0ba5a38180cad84);
  (0x1c1b0d95db6a057eb34f28beeda9f6bbb5315285de2804d15c3b186bdb3f5c28, 0x57bd5de4e0056cbb4d98abef9d1e0ed6cab1628ac08e36073e31d00a9ac3c5d5);
  (0x6ec452375e3039c82d6d27b41d99a18ca8a12646e049abe18e94a9fdce2721cc, 0xfbf6bd46e7f4c6bddda7e0f3eea6c430fad3bd9021a141b843315b0e7f485a9);
  (0x4f846fad2eefb8c948a8bd3a87d8b4dfa0a0ab643e724ebb1c91437c567c9f47, 0xa2640ccde505da1aa9227bacaca13d49a67a199f0e16aa9f86c2a7e1bf02d2d);
  (0x0, 0x1);
  (0x1f6a1fd8cc0e05b2742ba0fc0369b5247670543637dd033e64dbce90b2f23e9f, 0x779964401ee869a9b31c0ef874a86440ba85d25c2ce932bd31a0865869605e19);
  (0x6f0a87af6e0f4a05fa7067cfecd4f98dada3791f714a66648dbb5cbbfd4f326c, 0x6b6013813505927dcbcb6a42e887cc1d5fca175e4cd226be6009248c6c6e36c6);
  (0x398c8c8c8e8dac3256749db66b66cb447486132ec414fd516b4eaf0a0fcd15f4, 0x7fc5e88a596b4265adbfa221d1f69e234140e3fa1f3b5c39f76def111a7459ca);
  (0x1f90c7ef4610dd083b3d64bac47574d9da326b536b9a6eb0f6c3134a847a0564, 0x63344ccbe4169ab97a13c3ccb097c0f4fdffbcf6284412303c79a1c8ce3a2f7b);
  (0x0, 0x1);
  (0x47ac42e7c59481a928348d7aaaade88b00b7aae4e73ebe0dd20e33092dd34e07, 0x28a6c1d1356c10ebea15cbfd161ae974f3b2a4f51ed06403c2f09bb58f7a8924);
  (0x22e2c039067920c42980dcb3a905fc91601c2b34e819ce1532ada4a5fc39d5cc, 0x631cf9945a09bf26d7e595b3f8e3390696870512820df63c5418577089e1a8bb);
  (0x17111829dae0308b8cce6da84dba8935e130fcb77f2eadfb56f2848b9a2d8c2b, 0x6501926bd87b45356e7667ec86ceeb7cc328eb0ff6f34f2231b5c393655aa619);
  (0x1a62e85ba4a14a3f24f9dca8529ca842f5c7f18a3f429886d6b13673649ad53d, 0x1f6d17d9a1e5c5d8cbb98100757e5183551d00091183e6a5e1eb0dd514c8bdc5);
  (0x0, 0x1);
  (0x36b566a2c0f8e36e760992eb83d509238731939dd9dd0d19513f52e1e9e4f9ea, 0x1bde4ad0433ee4e19e734c558978dd945ed244e38414387a43e70232ed39bb3a);
  (0xfc8f365bb4b04e275d358bd3c277745c565eedff84179ee72cbc5a3e38fe7b2, 0x16f91c8191db1e7817455b6a395de2b0f4396697920ba0cd4874e2b534937b24);
  (0x1b3947ade88caa62c3b2a3a4794855d4c92ac309515f9395584ee9d55ad1df16, 0x7f7d8b5c16887d04b532d8044f7fd3ff3d58cbe087b4dbba6d1e63a519eda46);
  (0x608de273a9f6a534219d7aaede3cf65a81e4dc03d7a2765eced1d2b7be4610f4, 0x3b31d0113f98d81ab1312fb2837aa9c8dcc7960f84eb371358c6d841f67144fa);
  (0x0, 0x1);
  (0x8d1e75a33bf363f2ef64faa0ab5f9582d1181b793ec9452ea93a3011634d581, 0x47dd939350f06a41ea9c3d889d127155d0275926d05b5bc43977b5ccae42cf1a);
  (0xb2fcb60a19e6a0a29bcc1e5224ee0acfd648e6ee2143f90a5f5aa1c6d51c96f, 0x6301b568e9c613866d76b4c693de25e83435344795fb78c3c5e944a1f33239dc);
  (0x4db4418f87f778eb75185d9b62e977fa433393aa9d266f51081cd99764529a1f, 0x5140b9860c78ea8062554ec86e1edc7ac76cf7cddacfca01ebad13e93e82a813);
  (0xb216ceec26c5cc827ebff75a3b41630d8925bcf8ae53c7dea348f4c0dd3ae27, 0x563053b0dec5518f24c57a3f9138916ec287602e8a557819ad77aa2a5312bac3);
  (0x0, 0x1);
  (0x3f748617ca63ab3e44c6e34f63e7328ea56a2a146da34368a57dca181254fe02, 0xfed89e6420fc47b3938a2891ba9acee4cbb2899ee4e9ca15a13dc527dc1641e);
  (0x8f050e6e4bbb5e43b756c82a0ffd60723f78c3fdfb49c50378a1083808c3cf3, 0x38900048f0768542b4b9354736b6880632a94601a17a15adf4f233924875ee62);
  (0x1024811dcacca43be00039025e7d2ca4b6d068c181159d64bb39d195c39d1551, 0x49e4fc36ff8a9225c4e7d0298aeeeff491cfa5bf5b4dfe70cd5a46d937f929e7);
  (0x2583374456f20c85e78e820263e1507524897a5232050bd0ebfc357d04b900bd, 0x62d1c4fffd5ac72c7e7dd52c2bc9ea4077ebb7032a39291e0212da60cbcea18f);
  (0x0, 0x1);
  (0x5b4079d8c7a5a10bb68984233b2726bd95196ae2b50e6052441fc4e5b98881d, 0x2329432253e9aa57901c1369e57e54e4a363d2cfe69069108c833fa8d79f612f);
  (0x69d98b5ecc35d56c97c0bf312955d199befe116b417d70f5f57e2dfd0af81ce5, 0x3e26d487fbfe36ab44e0ca3b248fe94bce92a69b8154d50e2d5481f8259f4e8e);
  (0x123eb7853c155980f65be04f493eaddf27dedd3715284385f0f1dbe7119c930f, 0x71517a6498d27cb18aaa6948ba96203ccbce0171dcb84c95f0312b4f0ccfff5);
  (0x62a8a839f45660759f741c7892703326e4ad11bd9e102c0770af6ad49dd4b6d9, 0x3d45d6c61b8a03c29d11cb1e9660112995fd3bc8c1553ae897448b613555bf3b);
  (0x0, 0x1);
  (0x4e1c036204e123f311e8da4e3fa212fcf0acafbded425b71a66b0dccb2500e7e, 0x6a5908d961f00a62a2ac904fd824f6932f0e735f257a7d0d273d61736f1bb1c8);
  (0x7fe8906b455e9f3a49464810d3e6b8e5fef5d17226ddea3b18f08e2ff8552d6f, 0x1300ff9d28f135030203b137ea4a3ec18d5dd0dd6b29a6ee7040b97b336976d3);
  (0x6c112bbd99aa23fde78662b3232a94e47caebe9c4bf9af1e1b03828ad212db7a, 0x3f92a42703f695b4da8b277dbde5605a11bb6cdd4b4dc37f7568cc9dacd5a68d);
  (0x1e34443347f9e627b3531157faab6eaca1bc3114df4a1423cc12bf8417b5d622, 0x295955a5ed061eca7f87b9485666ba9489ec20a9c484224dc920350bb4a6fc79);
  (0x0, 0x1);
  (0x4cab819c06b2f861b4be5b06a918bc314bf29f56cff389ae2ba8abd5f1f5e156, 0x1f10fb18bd5ecfe633b53936f70ce8e58b6a864e679297770f2b38160176681f);
  (0x7c686b90cf6ff6a3a59cc7d8a5e00a2c9b2204decf83f96bb56b53ef630df083, 0xf1deab1d3a4a3d2528d9103d118fafda873ccf0a518c45821d51a7fd71533);
  (0x77a0b600eef1af8c7fe171ccd9231c4f68342459828bf9aa843ffde5908348cc, 0x722750e8d420811f6c47056a7c027f4d451985014b6f69f2f4009d37f7611af5);
  (0xaecf4e5a0c4c4da709921a44dca45965f89a3215bb5445cf72dddf4ade53a2c, 0x19304020c00e6169712d6050734bf5c51bd0af80b5ba4a6a0ba008e965216807);
  (0x0, 0x1);
  (0x51f4ff8c599b1c96da82941520a9f5abf4a31eb8b84fc95056145ceb3b5775d0, 0x35ac9588d46e41f3f6f99aee3852eeb4b12e807807d4bd1b7f8406b0d7863ac1);
  (0x568de690133ca63f63c08161d852682fa5696c0ee66bf8f3ec729b6a71bf9741, 0x4c48220992e8e64741dcdc433a0e65b43a5bae7f4d743e3d1bfdb123773039e8);
  (0x4f2f4b477f6ca632750965a4f97d966f9bb1a9e6faf03f479fb206c8b59f5785, 0x13115f873b8a8439a16d3208a70462c16ae38525c23cccf25480269d9359e934);
  (0x3342c4717d55221def46b89fdd237cf4e9528170f9b524bc6e730cc4663403da, 0x50676cdf00c935368d54ccf1fa7dd2671cd7ea46686e61fca49dc6a85b6937c5);
  (0x0, 0x1);
  (0x3396978bfc50b33d58eb8dccc52201ef36dfd27b914d8aa86f6ba45d29424d9a, 0x5ccf1359113c127dcb9d35bf9107cccb453eac7ca7ddbdabb1d0ca4ac8073393);
  (0x3faa2a093a19a02424f65a10955101f4dc015c43b2dfce8e001507abd741b845, 0x7a1de10dacfda389ca663b15574bdc8ae8c5b6e7cee647e77b11ddbfc6eb8edc);
  (0x3938a36463015681cb928f3fed98aa32007b5fadbed67dcb5029d07503bfef89, 0x34bab9488b48caddfb5c844e5cf5567a7cb8b3a6a12e7664645daab450d6a48b);
  (0x30f9cd3076c51c96a9baeda10ec893105d920f022947716064e32717aee8e3c5, 0x2caedfaa420120c6711921684f9f5a2b8079045fbf3a4efd7e4fa7bc8cbdb095);
  (0x0, 0x1);
  (0x6070951e96e618be7d750fa819593ecbfe9c26972471ebed72c093714b7e6e90, 0x7bb8b8086b2c8f273841de642871dc22c7adb51944d64304c0fe5f4c1d3e6689);
  (0x1ec0eb040164dd81f57ebc3a26c3e8606154303a1e5de3af27b1afd99d27703d, 0x3df62c38b3077c694268ed7aae9a3329999e190eb81f07326e5cc3a1d1a42cda);
  (0xa939a0d03280d09506ac70981e8ffeb3acd647d3762d6948c38657988b5aa64, 0x8995249ecbeef86528efe0718fb8a08cd8b07f8bd31158dc8d80fb4c5f1a342);
  (0x1924416956ea2c1269062588569b18178011ea7cba1a3266284f48aa01d5a90f, 0xc8e28127b7dcdd206fb6fee96eb88cfc7db7319826ac8cdb8b1fb8adaf021de);
  (0x0, 0x1);
  (0x2898ffaab663ed49ec57038cecd898fb84076bf49bf6f5c4403aff28ce974493, 0x94f3b96ab6c9477e759d6bcb9934557e613a0f4fa4fb6c6f4b3bc46f335163d);
  (0x34e2ddf5115701105d5d590f6617ccd7716c01b247948470c1514f12016bf75a, 0x1bdaea88b78eb71777558f7452cd868e6d7fc33a0f85c3d2038bac585c1fd926);
  (0x5726e2adc5bbdbf0cc76250d1c69ed6f77f96d075a84616a35792093400eeab6, 0x79735f155fd92f05890ef8f0d6ef865e8498a950d9a93cd127ed7d966b0ee8cf);
  (0x4cb56bd83d7bb25558c34ece98dd878ca5fe850aa79f4bf656269fedfe165cc8, 0x5d1f6fb463251914535bd81a9f9a8aea4d5ea5309b86c4eb8fb4a7fa15a03865);
  (0x0, 0x1);
  (0x49761c57ce3c8c4f1435d495903e2f536f3be3712e76af8d0b5a8b7d1ebc8fac, 0x3225035e1065094ef32d7f3e7a6f8ff2748025f96e0c0b44eb35576b61e150a8);
  (0x654b39f4650804bfb7c76a3d254377050002240e2f794f8de21de5640fdc60a9, 0x50ce7be2f1011218849a34ce62654414a8dcaea8b4db9b45dce3b76a6b121996);
  (0x34219355b9a290fd59918830f05bf632f060a3bd5782d818b701471b53302141, 0x514bff4e806ab6905290c8301d1c99a8008263ec296be873d66ef96aeb9e6797);
  (0x91605b338ea1bd98bdfae06ba25bd540525a3b02efa65df30de5c6e8c637d0f, 0x1df405521e9a2232baf654aa3d2f66bdd6d57fd5bac96f5aa5f8ad2864bf8cc7);
  (0x0, 0x1);
  (0x4606fdec56d46970938a8f9fa5f24624f5b9c6f488b72cb1fc87e4feebbb1faa, 0xf00d9e6656d8243e0350fa5b89beefa58e9af955ed650a6d90cce344ecf664e);
  (0x4339fa86a23242851a16afc3ab05b352a7b4bf53599a49dd7e29d364fc3a757b, 0x6d07cc3462bae9160bbebb997510817040767faa9dbd13f158a5fe8a63a34b0e);
  (0x7c6321d6cb6950d599c4a7ca34ead7c9c28984f8c1f014eabc0bee6593c6f1c3, 0x70b3847cb78fc55ddf52325d76e223d326e291698caa660c7f676473317ceb99);
  (0x62332ee4f8ee5e56398dd304eca6ffbcde556467ba2c0d5fabb64e9736c701eb, 0x3e1bfb3c0218cf9f7e6a2f47f179f29b0ad68235929b4921fda74bc89fb8ef65);
  (0x0, 0x1);
  (0x7b9e0081b2e20f4f3d3f6d57f7bf977b2f192142a2a9e40b1aacd15140c88b2f, 0x93854716ef9794d2057036ff3f97da686fa3a1784c42279e8abf1fcc42b858c);
  (0x7ecfa6b215265291f32d21771e88699aac3133fdb93ef3a479f95e2fa8742940, 0x10958b5cdaf36afe557b7e60184207ce6d81883edf035bea63cb7da46c4720c6);
  (0x20d7e4108ef559a8294384700509b63ba82c107193df46bdfacdd7b4030de462, 0x3fa5ae925b87ecbcf7ff60f46858978083c166e28f0cfc4e87062bfab1c8257);
  (0x6bda13918dcbaf8529d6326ae7a9c278b72417c2188c5ea4f062fc50639295fb, 0x2c3fa803b162ee887d0d97a6734866f992f846625f314117075da54bb6c20a36);
  (0x0, 0x1);
  (0x19af956d2b5b4ac28b0c67889f19ad66a40f4bca1625e2007963e8a98a70b14a, 0x5e228bb5fbae687754307287833c3245a1ab34684a5a69174f72b460ccb69d8b);
  (0x45bf322997c4469aac6d1e4251fb3490e60e7c0cd5cdd6f5cfb9bbc53587b9f1, 0x529d884884075753fd9a2f9ba021ff427fea7b9773f0d4885da5edc024c69e66);
  (0x67c7289e5840cfa293ea2352fc85e42c221c0f2cf1af43d94af062a344896c6, 0x341113f48b7b5ce6f5b5bef94d4b145d8b5622feebca8e5bb36ea689e5036532);
  (0x39632228d7d1471800e549128f91a680c9a64e37ae27d919a2609ce21522c607, 0x6f59557cabbd86e8e4d546e2aae6ac26b27b671ebd049539991e9ef27e00e2e8);
  (0x0, 0x1);
  (0x4da4821314574d4fed4dcf692c8b15b99b73f13633210333ce7871359b6e6424, 0x314016034673d2d20529bc93a2dab6e462bcb5f66e1f4a6bf2170759a40a6e65);
  (0x22423cb8e82129da6655d94354181feb5b1c789806240b135c4da1bd156d734c, 0x627dcf9be9be798eb639f6b776ce9ef34573c7a7f1d1ed220b1a23156f08cdb4);
  (0x32beb4e36411f53e324ddbd920d42bd403e93f61e3957ca6fdf1bafd72fc5b92, 0x425a36157c40b8503cb9a0e61ada1359e9a6c43bd0392d6aa5101fc9e7901786);
  (0x4230253b946f9c176ea49e7fe2b913a35738999750b1e21555104dcab320bb4, 0x4db9dd92f8d939e6e4d0b0245ef57a62d793b173e977b8fa69558741d1e5afc);
  (0x0, 0x1);
  (0x63b06e648bf7aa8e8bbf75c0f3e0bc5d438683b063be9f4f09de91589756d7c0, 0x1b17d88ed99541bf1b2cfd50b7d4d87ffd627bb708d0c2445c68249be08bae16);
  (0xb2cea0029ee963c0034b61bf19e384435f14554a7d297b5144838c38e375586, 0x47ea95da28d39aaade5edb8ed941c687603cfdd1508776e96d6683199e99daea);
  (0x66f6219aba28b50c8f94f137ffb229ce2a1f966f5dac3ff679a91dae19ba80d0, 0x489dfc559b6acd5ef790a7e6ff666af8d78f76869d4634695281f305b854fb02);
  (0x6e3d157d1cd96bb4ed4cb069497e6041334d698b1640a59a44a45cde613aabd, 0x72f5ce3c9ce0c93d9339b91978f1d9c688b56b3a3850627c7d7f93c427456c7a);
  (0x0, 0x1);
  (0x1f13202c95083f854583ff4cda13ef4b1e745a880460850e59e22c567d23ea24, 0x66336d356c381b7ef21109e7fdfd7ffa0085087eb55c4778ad42025c90275f48);
  (0x1d4e70e7fa35c13ec61efe8d7b8ae9e621144c1eb2454c350920e4ac81360393, 0x7b2807a91ce09ff20a518d85be729e118ae448b51763e880abd15795ddc22e61);
  (0x72a0b27b3a0f4048965999d679fbdfe66d072fd1d6d37ce9c83d8c265e1471bb, 0x2fc5604bfd76608011c2082d40b422cc251a6f7cbe456796c517543c8693b4e);
  (0x4c27afff3c45f32c952d3984e14e29a098e685c9c2e723e5fc8047ae60b7e824, 0x5f2c99e6526dc87d95f11eb626c29c3a90d0be1e51a4c49e5bbabd114bf5a66b);
  (0x0, 0x1);
  (0x786be30733efdaf7a08157f7907d6ee4f6952c728fbfa269fcefd1b43224e085, 0x653a5f772f34985b34270ecdd4fd08472a7c08beb39d69be4eab0712c63e2736);
  (0x21fee4804968a933df8957815bc8dd9cc6a4d06beb4d19b36cb822f04c2eaa13, 0x500b7740072cb51d416c5da150858339bda5367a8972c2313060d3e930901700);
  (0x5dbd3bf95494d7466af195bd869d2435462530ea6d0536a0af41449ec0ec3464, 0x56f5f77776e9fbb0863cd8c0a8992ab9a342ce2a7b7b9f8c137ce1c737e25b77);
  (0x77fe8a5d490afb6ae4a198065e9488f8c358adacf1dd564e28b7136e1146b3df, 0x3c530f01e039f3168ac0033395218d9122acc9fe0a3545ba6d75c5afa5f50246);
  (0x0, 0x1);
  (0x53e2a4ed1bbb48bd016c524a02f797654cfc969849f867681da94e341f377534, 0x5a2334fdda642732a3c9520ce06581aa7f0f082882554c37b8d390a25a9bd559);
  (0x2618676f8fb18ef8c0ff9e057c9cca37104cbae666398a1fc8237bb34d0cb0b5, 0x2aa05b60a232ec56c8f2f51b1eb6cb7ebb2415fc4b1e8ba94ea41a235413414b);
  (0x281e0f83ffa5c79bb08f011f1133e2c8b9a63ed55cb2f34f114f922e864729a4, 0x5d2e7c59511740a4ad7c2b8b7d3bc8cfa51c2974606802eaadb58eeca17a291d);
  (0x566dcd766740cb27bccff752ad6b8fd3c2f7bf3849c1131a4ae7323ebc4f6c0a, 0x51e9f19fc00f3d398f7539196f459ef37e0ab795233ade63b5f29bbead27b0e5);
  (0x0, 0x1);
  (0x2151b330947c9f7b22fb8d7258ba6d9cd59ce0bbccb51a3e121194862414aa88, 0x2a01507ee46f38350a3dfc49fba49adc907025fcc96b237c031ed0aff23d74f6);
  (0x7b8d2c823baafe0d878a55e8af1db150dec85b1424a4901f9beffd3a6196e3d6, 0x1c45a557b3624f9b89ed15b3c3e1a065f1b453d948f7cf45d9494483f8af0c85);
  (0xdce317820a45e433ba0511206e76232578bacea7ba3f60b10791fd1afea128f, 0x1c9fac72e47dff8c7f9d75f70d6243f9e6223075d5cef9dcbdce2391a6c27c84);
  (0x5fa2b1dfec51bcf38de2510adedcc695952f36b9900f13efb45d1c3cd099c188, 0x3f81faa56dc388bd64de21b25252d72f40d64b90bf427b8569409b7d23a1682e);
  (0x0, 0x1);
  (0x1f878c9bb777a0586a03dd7c310986d8f6ec21f7ef82642e799e668a7b47fdfb, 0x59479937cae12df41a31892ac4bf58b9c5dbeaf4e0ae1dab3421553da8e44755);
  (0x8e60479f7f51f3ab2119b5875deac32f750073264da7e554535a949c163cac7, 0x1b2b6c48c2eeadcdb2115bf4ee5f90861be7c49767ba67fc96fee1fa4b22fa46);
  (0x6745ea49e4fbfbbe2848161e47043a3f3b8c5575173d5dac904314fb46239e3, 0x22f4f0c16b58ab5d7d3a8073302cc2e1b7150b10d7830d9c39be59e027ffac29);
  (0x78877b5d8777410997dacaeea59400fc9db4421fac02c4282301c67d35fb7ffe, 0x341b46c328333e4484ce8607619014d41775c408c88856d2f9e19812d90fbf5);
  (0x0, 0x1);
  (0x1787c129a60520114b3687d43367dab6a3ba1d1c7bca7edfd2f46e4f09c210ff, 0xba4e0f55131c2b6deb4a1fa4b5d6a2b47e28908fe7dcafc1ba738da2fca96f6);
  (0x1f54318884a9a29932eb2d5aa126ed3a94fbeb7cb238538be572b8e04c6e55c, 0xb704f0aa8dd40ec8405ef01634d0dc797d01a872fae337ebd8d2159a2dbfc50);
  (0x6589763fb5ce7c2b626965681cbb539013e67d157d13fcfc58ad35c67016941, 0x367e10ee9a052a4fb0f1c169ba8a9cf2be24899b20c67757b2bae5f0baf30e0c);
  (0x2fcd57c067c348aee6eabd76e66d27de79846089d1e0916906ad03e940e9263f, 0x1a3da7acfabf171a0b078f4d602a67bcf8c74dfb7a284b553d86bcc7b9dcc17f);
  (0x0, 0x1);
  (0x2b556bbc070b5c4bae9e575836d1d68ee9fbe800448c0d2c233f78185eed3f91, 0x7ba01332807ebd892e00ddb368c0fa1b3f19b5b32efd90b178d984e1d7174d6f);
  (0x3f5c47b490be4e04f8915cc5f3c1fe8e5d190bc41ed00d8f43b04444af406f1a, 0x537ce98e07428214d28bf2b41039cb54ea8da86045baaa3f077132fef32c3bb0);
  (0x1e2b1d5578437b24454be3005d3fe26af5a83ca079baef777ab98fc98dc1aeb0, 0x41c6747ff756a8d26636c73ff49f128b2f773731a7a458e1b915a06716d6b801);
  (0x614118e22068c64a823b4a570572d49131b2f8d1d8cad3a538ccdd30a8b4f85d, 0x63ebe5283599fec22b8d9733a9548505faa5a3cbb5477811b0651229478dd419);
  (0x0, 0x1);
  (0x13aea1849989ffcc18795ff824240b157052292b065060a0b3fcf4d8ef3f3fb1, 0x884949c8ca12b70fbddbff21b25e570672d6ca4106005551930c101c2b81f44);
  (0xf72556998b0044799f0fd03210ded3d984e3843bbaf3c1d5d692bc94d43c4e7, 0x16c19c5037c103d447caef4efe6bd81a490e7c668f6870f1b080863b5315df5e);
  (0x2c0315d2cf6bd80043130b74e5ff575a5f55880fb24a612b919b820c3ec624cd, 0x163b5adb2f0e12f67dd9cdead70f1a743f1eb70cb52f04f2622f4a2f6115ffdc);
  (0x25aea0bc0827815b535d8c110e694b9247811ff43682e72a2cea9ef5e347371b, 0x5ddcc7dccc9e41754112bbfd9b9da05d50e2138b624dac59d200421105a13269);
  (0x0, 0x1);
  (0x4eecfca39170c07de4669bae23b0068d294ed225ff7949285e8270460638e3d9, 0x5e9e7c4381074bea73e24638aaac0508e76a81b70e0d5c14fb1ef6306a371262);
  (0x2884187fa61140983062669218c62a3017be9d32437760281f9b762e4f21f9fc, 0x3200426867df5f3d9f57fd086cc32a17850b08eac3492dca3ca1768af4d3ab3f);
  (0x5b979f0832813d4f2e9b0a5b21564d769be9f640d6baa838ba218a4f061b6051, 0xee157595aca4eb8ea7933469727ae04ddfd108faf79e0d39f79909d06ec44e5);
  (0x1cd96ef237b213cd446f13b3ec40d32ecc593bc6ea71e77efc284341a5f3da1a, 0x7a626aeb91efcb5f9777264f5e17ced8b411f68c713673ef0f184a5ccd60dbe3);
  (0x0, 0x1);
  (0x275d04f2b3510c56664a8098fafb5b4c950dec7e83f0ccc4832d810897a24a18, 0x57dd6527da326ebca62ddead9b4863daa69c1f11a39c3782c3fe2e5a06b8b93b);
  (0x3c3b6a92efb1b73a190aabdea635754eeb5ffc376b2a0787adbc2e7d31374f84, 0x126d49709e40cb07b122e980b9452a94055c87763b1a81e7eeac60396d94b23b);
  (0x2201bfeff751535d6b14f21329c1512e84a619f174e5a6596e7d4ca8847818fd, 0x2af4f8c0bfb0380a171fb165f5ba2a76687c12bdf2fc81f20772fde64c624ba4);
  (0x3cde77866cc73b07a52a9ece4832e2a02c9a85a6709f5b9d4c711de45b556055, 0x79f2b3d77f3f44c771f685b6d3d352d7e4f20072b64efc55a957437e967a18f7);
  (0x0, 0x1);
  (0x31a75b21cb532622a7caf9e29e652ac4e47b1450edf6655acaf3797b55a7ca46, 0x77006e7cf104982f8865081a2ff8a6911546755e31c3586353b0bd0826c5d790);
  (0x507fddb828993775917eb8d147c94b420e54c787736163ee92f14ef609612181, 0x5ffa5d8998f8df1974f1133fc878d7bb58987b3ace819df0a09fd65dbec08f89);
  (0x1ffd35207e22c09cdc5875f4d727864263f7808aed84d02615901f479485359e, 0xf4876ba440f6e4699a8336c23d0e6f847dca2f4120be50ea3bb70ba976f0e68);
  (0x247ab53368a2d4aff8eb158b291ea4796942c0ae4364ba270e1259e237612aa3, 0x33cbed49442e2eed384d45782a002d3dea88062b42f823b001ecab1bdd33192c);
  (0x0, 0x1);
  (0x7300f956c862bb5c5bcedbef880061a0adef30aba72e901311f8918f41e868a0, 0x116d410aa365e041a43c071511113f1a4e09cc70e39f9e245828a32d82c1603f);
  (0x543d84cb04fb2bf787b7aa382eaab5cd8d050ad8ee52aa8a285b945652014031, 0x358fdc5b63ed49e693d838f182b275846f42dd49a42ec2e6e932ba4de59ef20);
  (0x74777ea63c87851d4fbf9b69cb47b0f372ec3096826c460b4171c6263c98933, 0x6c45e7ef76d4a8f76f2a2ae52361ab4041d0acd5a00f14075ad4cb794718b432);
  (0x2ac4c0386a424b4a4272506180181c6363395b4094f551f6a70e1fb4f605ea1, 0x1a36c19fc30e5e46b07b2ff0721fb77ff4330e554ffa874f0074860d7de3877);
  (0x0, 0x1);
  (0x2816f8430d466b9b65d0990c2fd6f455861fb600a505f7297c8283d3ac2cc513, 0x5452c4b45430ea383524c90ef0c66ae08745df0664ab5a184f89b17e74b47f1e);
  (0xcc495fe64bc4816637f94251df4cdee3ca74aff90c1e427744489c13fdc9fe9, 0x42138e7b6cab977efec0d3e669437ab9e0f228d3e38c1a6f6a5e06036e75198b);
  (0x548789c0c7abee0ce403c69afb3562ae5578f82277cc0c005e5ffbab3d70cad4, 0x2b531c3620f911bcb75f41f9f679fc9cdb5688789c003ee6b1b8435885aead32);
  (0xa2818f5f5d8937800c30ac6b847db2cdef655b864126302249144a5a15b205a, 0x187c76a49af10851bb049ba97c0fbbb14b2621522a4e8d9670ea46e56c9a1bd6);
  (0x0, 0x1);
  (0x389973be3632bbbdac59f537aa63f28abf7a33b915d53682a9ebd7d040f794fa, 0x4d6bb19304a47533a460358e9f3eaef4b7984f8e99daf4d2ca993dd87adab32c);
  (0x68c0bfb003eeb945d29ec91ba57d6462c36b42a8fdefa5e7b99d7b97cda89d97, 0x4b0ad6be2fccb3042e2189c9f3edac9f6279599756876d246ba1d3f62c84b7ed);
  (0xb4667cc7a19ccdb765ac883c61ee8468a006af4550ccb1b5d8b8925ed056139, 0x16fe4ebb78f74660a2172b2fee74276f88f6cf81cdec98fcdf36aada1c2cf53);
  (0x3710538d7cd7971d68f19272dcfe0d7a577b7e889977526e62704dfcbe6b8c22, 0x7d10827db74ae0dc09323717542a2deaca18ab2a48a8e245e5a827ca02778853);
  (0x0, 0x1);
  (0x7efb45d3a2851109d7a8d50ddb08fe308bbf674c019b965cdad4570a141e648a, 0xfe1198b11a1bf56867091c69d71f8b7792257dda321d43652e818acd0c28cda);
  (0x5d5225a5e2235c5216cebd1847b2ed69e45db93cf3ea8cf012ae918f2c983218, 0x7ec9e5494feecd8d348a92636b5babeec6b5ab1982778140bbeebc4e5de7b1b9);
  (0x6db3c0d1a1f27fb0927da458c5094175bfabadbadebd785ee99ac3cd228bac21, 0x7b499ecb9b1bdb3f12e8ff00f1c4ed63d34986f92d8b8d77776ba7775d04f62);
  (0x6fde98f557e3360932b5622351886a898e4639488c2433586e6b1d729a2e5760, 0x6994510fbdad700ab9e84413c29ce02525e5b1d15be55269875bf94a48002c8b);
  (0x0, 0x1);
  (0x705bd9027e77d82d951c8205d33a5b3c3695fe7ee70833035fac2d25a9abdca2, 0x1417fa0628ebc3a194ca46d423ad4a41cff08879e02c8e51e0d6cd670c1bfec2);
  (0x472e960dd122a534f52377235350549df4a1dd7a08cfc580bff5fb4b0a70aa7b, 0x10585d04fc529fef4c0c0776154fc7ebbaedbae8a99937e47598d0578932b7cc);
  (0x7f8268bf03e12fe6f52403de5a54607698408aee480914dad1a802798ff082ce, 0x2fa1c83bb8e4494a5b7f4d90b5357df2a0eceb8b2c726490f92acfa4c728e964);
  (0x3734c7d50aa73403b92723a944d6c90cec86c737774dbc4418a1a6693dccc58b, 0x416c8b45805ea84fa8247cfc6a0b0d0fcdc566e2d811adff2899f9ee663e7ef9);
  (0x0, 0x1);
  (0x3c3c51d3a301c63868a041b4210b71c3675effc0210360dbeaf2778df7ec1eef, 0x6c161ec4de54d51b1a839d13f50e0274bd11c93f722ec44ab21342ef4bd6f892);
  (0x2a4ebd1072842b788ea22727c676cce2bdb6faac56c69c28c3e694aa63e45227, 0x49b857654a0e51927bcbbd26fd2dd718c3c8d1d196a56ec950806104ef23a7ea);
  (0x25f528666b5400d0f59998d803f70ad879fe5f01c7a5f655115563ecc33655ab, 0x6717cba71989cc9e02eb895957b47503bdde4695566530ee27515d705da18d7a);
  (0x4892cfff7f94ff7f07c1241e3ac4945bc46ea9d6a3c1c3adbce109a9afceb6a, 0x3ae2aa25e2555135a7a3251c11a3f8eebe81758bc1c3e2cbc6e6ca461a543130);
  (0x0, 0x1);
  (0x60c497780d40c8b1ba4f5dc4a2262b84528083f770b07af0fa76098a9f1048b4, 0x22fa44ee0eb502084f6ca208ed0757572fa5b25d76f30b5f733840c7086cb1d4);
  (0x480d816072eb67bfb2aaa781fa5316978947e10deb8b7f3165561904a63f000f, 0x552d0f1d6bda43b57e73875b499952c016af17ac436baf671e5684a8cd33137e);
  (0x130130d18b59ca9d78a8dd09fcf85f147e1975a56930e1cb1c933f84ff1f58e9, 0x29c224fb2db0a7452b55d9dceffe465a8911d9d59c7059007099894bc50376ff);
  (0x378e98824a6bc4f1f82d26f746906680086caba8f7e0902b97c482ac0bf80638, 0x114214780d621d31b86d6e60fe7b92c48ea22834753d0ae01bb23fd4b8eeb48e);
  (0x0, 0x1);
  (0x2401d311a3abfd2583f1c6aa519c1f18ff730a0abf730ddcc9c9739b04d8a85e, 0x653224f3488cae1ae19a414a9932035a2bf2c46803b5532bbb645e62387ee34d);
  (0x72964d278e0326e84801f12bfb0c0cb1edbf8bedf273e5b2b3f4ea8c3aaddde8, 0xeb4ace1c6b7220c4211bb023c76443304c2263ba1d49cf27c4d26c9603b09c8);
  (0x4d432defb596b961ec8816f8a185625d6b542a7a7be05abffc3067deefe7856f, 0xc21c6405735c827084f1d1d57207f989769e9d8d1774780ff6ccfe4cc33317c);
  (0x5aa06a8b5ddb350d8c58306257ecbf219d0070caa4f986c78fdf8e42fa9b8ed2, 0x7920277cec6d1e37a5f267d8fce232dfe38bf858973b895f2611dd200d7c58c1);
  (0x0, 0x1);
  (0xebb89efa79e3b56b75663d950362c441440ce1425792cf196234595fac0e9d0, 0xe5f7b80005248f80da7d738df4c11a70f30018d74e871780a1c82cc0adc7fce);
  (0xea2c846a535a115972161612a192588d92d68a3c9050eae91b2817b94e68325, 0x3b82a8337b05f11bbac176a113be183a50a0331f3d3116f24b971b5a8b0d031b);
  (0x2003e7683385f8c48c664026a0e90256cc999bba0091fac51214eaa96d7b36ba, 0x795f4ace812da597e221725f9c0d6554944609fca9a414cf78f1f1b2a9ff5b50);
  (0x561d2c1d673a0e91876dad49d7c6a6c6ddc4068445226d2a0e777dbcd25c5f3d, 0x2dac09925d76226bdc776a3309ccecec6de6692370dbd0de19e5d2d4cf747afe);
  (0x0, 0x1);
  (0x140b6f1e4bad46896617dbbc2d4b1bedacce412cab91f0015e12dbd3eb171523, 0x444eb3598ccaff53dc272b0ed8d7543e1270b04a5da34f1822482d77b6bfce11);
  (0xa9fcf41f6ef7ccb545e615e1335443229a1822845ecc07e3921b2660f617607, 0x732fb4faed1673a8d23b79b5ab9356c18c586f395d96d2249f8ae6c384daf9dd);
  (0x133a5a85567a2475c456f1c4872cfeebe632c3244df4ac7611355092e595b18b, 0x7cd564f6050c79fbe46741665ce99c96e4376e52a36c7f463a86584a3cac160d);
  (0xfb3f87c2c6c89c65b74299b77f3736546a8b9e41b19197476bff27354e1c128, 0x1034d42c15a2bfe3e682fad49dbc2812caadf0c584bc30b51625b85d74e9d5f7);
  (0x0, 0x1);
  (0x7b6a55657786383d359c5b5f2f6cc814790f8527d9d67f6c67a5310eba46b161, 0xcb7acea0eac739a61d526f6eddb857114a32d8f09995826f1431b60663ab0d3);
  (0x5ad25870b2c161c671b014f548bfd24114e54bac5c675f43e79f100e17e5f45e, 0x65c775edcb82b0b26040f9f5ed43f8ed61ba00427fc92b50bddc94920716ba2d);
  (0x535864a2ce9fe8ce7f6c68ede846c47853fb56be667e3467a639a740090dba80, 0x988c3b9b733366ffd8a97c0d5e2153b89c12dac2b7343e23321597bc2a9c1e8);
  (0x3f18362ff22f583b16d40da2f5e67645ef65016e5183a44475b3ae5c3056b6d0, 0x5cfc7a0f0d2fec43237b88efc4fb7e9f0a95b6352bd4caa918c58c1e9be02ffd);
  (0x0, 0x1);
  (0x1bc7af1e38185e7c2d8d04371c7e177d7a9ddee1b81d7d26db7ad644c7dad28d, 0x61d909d855661f2f7a5eef87795dc0491d027e12631b270fcaf2f65900314833);
  (0x6bce245f8c2596bd228355a6bb8a3d9f2fa8975d8daa7d00799938218028354, 0x3d26989cdd0f6da0c92acd2f10754858c2c9418b0de8789496fc955188a3c065);
  (0x7665908aaf4445ef643c3ac9c27ffcb40cb0ef0eb7dd6eee7ebd89041b29662f, 0x4ed18a7c50da4546ce17f8064f02b40965221938b8afa4137083a00e4b704ca1);
  (0xa09b36eb5a04aa90834f3f33ba4e630e5345cfe522b910f5d9d954e6c16d4f7, 0x3aa47fd60fa3110a24b6eb2baeed533d06ce9ee4d4373b20f3a2eb0fa35ed926);
  (0x0, 0x1);
  (0x79e9d5b60917d60f87ab5434677906d2b72862d87067a522e1eb2d6fc2c9fdb, 0x16512951d2240a453126ca9450bfa225640064fca385c7583901381c04c78797);
  (0x469d0960dbd0ef9c91c4597ccf7c209549b187ff63bd378b7dac577198d74a4d, 0xb5f21c7f86832241f2157c288bdc9394f83f8d57457f6d9f6b345e4909478cb);
  (0x164162a18e5f32140eec27dbe1ed0af8cf6193c02f249de3a54fb65ffc68362a, 0x82afd56b25fee7d66fbff26730646b4ec11ca28b562b9c7570e5b95ce012195);
  (0x5911ade9998930a4ceb0b66eb93d7e9e4d94ca0a3ae3f095c5c4ffa156776792, 0x63ad2432a173e9df4056a370db21b2625d68ad21c0030bba5b75f6fa19548f6);
  (0x0, 0x1);
  (0x10b304ff67577ecb1c73a3e405d39a64b2d4f9dd4cb4bd16a9f3729ad1939932, 0x13b7faa0f91cc1419bb0e7cccd85e369d9ec65aaa934afb423616dd0ada44bb9);
  (0x1b795d9be8dec6dd3617f3f9bc33c580debbc3cc19064f515209d00c3c88fd04, 0x6c87f61b675c50c01e862a53cfba384baefb8f95079b71087950ad5751be0a65);
  (0x70fd6724f3f2abf3898b5c260f361afd8d7414b21866e18ded4aed5566b2004f, 0x65a655b6f37daadcefe381de48f496d028e061ef6774ecd8008fca3ac12a4efd);
  (0x5e9ac4ab2f4a3c3526e1317f913d69e3826fe862efd0c80d9310319170c5cbeb, 0x505f00fa8aee03ccbd2f33529ae1e4e4bcf2644fe673d0b0290ec32be5b51bab);
  (0x0, 0x1);
  (0x2e5c4ef1a12730a9788953b5079a1184a9a237b9e281f0317514b53d220ddbf6, 0x5c1731365512a3965c5d5474a84e994ee44afe8cb7ff403517cbdc4dfb54008b);
  (0x4c6c9a0e8a4ef16e4b55b6eb2e728cf2afef2d38877d5ce8770ff2867bef24ce, 0x26d5711ee5a1e88273be70d6d8b9054cc5ed2581668d5ca83eb74fd1c286ea25);
  (0x728a71912cf9ff30cec3335c38712a0186dc63f7f7167ea22645224fa7c36d4e, 0x4ce95d59305cda0f62dd69c1a39357c7d2ff5e9ac64584f38fc923d52809448c);
  (0x599ba21b65ffb36cf3151c6e8662aa6c8b35948435819669d60cd77227507e92, 0x7f59b350f668c2b6797e53f3fcdf6ddd497ca01445f6e3bbbfa50c48865a9e2);
  (0x0, 0x1);
  (0x11cd80e1fdcbc565efed81d17f3f54643ffeed1cff38f3825e115adbd82759f1, 0x43f11943f7ef3fa68b980fee45e98134f1df22263b2d14419d61ffe62822dbe0);
  (0x68c33d8f33219a980ef7a4a10edcd58b0d2314d3c8ce301b6c0de50a100f3ee, 0x1032a93593881da4de11eedf679416b57135344cf9061c393b12d830ff4f7dcb);
  (0x4847babbf5a03d4dec64da934b5b6f3864ab0b3abae52fc9f9b2fc5c7bbcc3e9, 0x7e6ffe114a422c24512ecdd666e79a306754774f9997e676703ba2231f45bc60);
  (0x1eac17c83ec7972fe82321bf2c4e6aa73565be5cef720aa9930c6fa3f0b1c087, 0x419a160079a825b1b3c51e57c6e5a257a86757c7a97bdd6dc1ecc40e521ef7b);
  (0x0, 0x1);
  (0x4ee45ad6672f7b5dce99d4f64c57742640feb26ae734fef8493ae38faba68896, 0x7041a7fe4facb6c6904101f856fbff5b2bb15c7dc602a4936af62555bdb3825c);
  (0x3328bc121616a9477165ed282053d203c24f4826076c638a2c6723d42c9bfadb, 0x2bbf3f26c21b5cb273e5f4f0114c6718c5eb7291939b7697c74333cdfafac039);
  (0x2f5bc511aa678c2ac920b44528f8972b9d78e67244c33af8d5fccadf1d8ce686, 0x56fb2a760b4c7a40729d64cfed623746998137b46532765144c39dd752860f17);
  (0x3646a62ad82bd1f37a32412d71c1de8314637eea177267a0a5176fc37c90a733, 0x24dd06031fdaa9e8e94d73adc700ca86da20ea738f7dd05c088bb8f97c6bccac);
  (0x0, 0x1);
  (0x3c0c1e7beb87a53457a69c0f5985dcbee21e0acb65aca9eed7a52a980a61b29c, 0x74e826b2f1347631922c45546e2f1973ff349a34c6939e4bf0a0b50d6384bd2f);
  (0x53b1cdfe23ed553c0443b14bbba2119b58cd8c555ea7bde6c0cc4c0c6d90670a, 0x5ca6df45ad9630e4b8d5732bd06e5008a2677a342904fc587238af01f575fb05);
  (0x761a85d3d5ae75d3423514875f43556fed2f67ee675d2fc1fed8dc7e901a880d, 0x20c5d2b28c5e16b03f24f5045c5c4a650344d67ced71344a6aadb0e16ea0c887);
  (0xba774bb605dd804cae6887e81f6bd2c59e024fac8bf5f5c48a841a037c28398, 0x54ba013ad2d04dcdfb5a151b7347ee9a10067ddd0a3907e9bc337a77bf911321);
  (0x0, 0x1);
  (0x6e6b14df76458c45466bef23b9377cf147c97c495e8207a0436a200b4a39d548, 0x30f3b35dc952ba9d6b5fde2d131ab9b5b403f2583a7c2d8ada37764c29cac942);
  (0x496490af4080feeb8e38f78e769308b124edc07985b1ef7148d7620c6bfe6f4c, 0x7f6410727b65cafa07e53ab1e775ef0408cd5f12b94bdb4e533c4498c1da884a);
  (0x46b5f1c51f08e185998ee9456d33bb90ee8a2c20fb1a7c8d3358fd16ebf0813d, 0x20cb1dc94e7a0ee331fe96ec351174edb8bdcee63dae17ba062b3fa04b43e7e4);
  (0x75bf0ea1fb606d05dd67e0f313809ac9792dc903159d032b05c96db7be967e0, 0x43ba373488c317aad659043f9bca4c85d9b081903e7767143522416bdec79f81);
  (0x0, 0x1);
  (0x1074ff0267662dc2b4ce65aaa0229c375a3d0d843ce9349233949581c869b64c, 0x299be0decb680ec28923da4d049770107d42c180b460da13a7b1efc7e6d5b022);
  (0x3e63c4ae42121958f28e78e557e827a108156a81cc8b5c64362e2b362a42fe33, 0x3599286aac87e88c8c857059a5edbac1265bc15c047cb18502ae80caa79c9678);
  (0x1eade2fa113b19d45106b3018d462efb62e3e4cd9fde382880da87be2808049f, 0x6cc8d8212e6cca64a97c8d6d8055434354879c85b780644e70a3ae0a699920a0);
  (0x31ddffcb76711dd76c6b48540967ab52ceb13e466fc3b2a44fc17508ad074a91, 0x221c9b9a258e4d271a0176119764072e484a3895d0508874076f36f0fdfa8836);
  (0x0, 0x1);
  (0x6b265507695b3cb34c25cc44a95dd559ec0245102bad71a3765eac0f0ebd57be, 0x3f7f093597acebfdca9d151e67d5802b991dd62f822a757af9e32951a7d46b30);
  (0x25ed76d78c87c3bd64b4331902c5a853734283e25f19f320295667b80a340d35, 0x179b5f92f545c7b326b3a63fb0b32a0f52b4159988436d5af50c1d0d76373947);
  (0x358ce93ef04484da52184ad511102e8cbb665606ba867926155252fe15bd239d, 0x27eb24e1c271459017c1576617bf0ccf1ba0c2c55b4e966ed2b94dc8ec41a0ad);
  (0x71880463417e760ecb72e31789bdb017139aaf83eaf20fc20e423bafa442b92c, 0x7be598f9de5bd5dc434f938efd89e30d39e02cf1bf657054ee9fdd5786387875);
  (0x0, 0x1);
  (0x76db1d03f26fe3e7dd73951d7a58abd8b6c1779e5c6f129463f2b2df11653be7, 0x24b91ba65c06f1df0b18d1030726681714e1ebbd27bea55a5abc1b522c4e06ae);
  (0x3d09f11b74381d32b6407d2f5f3305c5b6ecc5ed60b48431878c480e138066c5, 0x45f4a22ff69fc1dacbf100959bab8026af793c58551855753634f88dbc8269d4);
  (0x4d742b1580d09243d6ac600471574054c441fb4424517f556cd9eed85ebbe17, 0x4589a87ce38130b4a992699010bb82dad23c3b00b2746058901f9b06c4a3bd8d);
  (0x75d942c04210dcde5d1bd4fabfc732d3f95568e399382c0423c83c41cb05dc3f, 0x696cc14856cdc13c8fd7e2c5771731cbf38e3fad47a424679765c4874e35ab2d);
  (0x0, 0x1);
  (0x6d12e0dd1cd8bd76ad5a191a61920fd4a3c317245e8bb210df90a57b885fae14, 0xd5c9e4b74fde7802a0b836724057a5b810f20f7dac4675a4d24a3028f70bd8e);
  (0x16c1556c9a2bc1af0b11cf369581a12d063081ad20f83407e1ebfba21f5fd594, 0x23e38cd5158b0f891e19adebe973b5b805b393deb8cf11d7281335745ef14f36);
  (0x456bdf4c7423eb00e4455b4a695e9574304fbfc4aaa7a01593570fe618e77933, 0x579782c36c68e87c2bb0378ee474638079c7d097349b5c29c0dd0b42c46c2997);
  (0x66e632db15cc9b7695e73e2b94033b8d25fca89b99ef5e24436b804bb683be22, 0x534e3c9c194cccc190ffea06f048e7a6f65e6d5c7ef6074693fad6a6134af084);
  (0x0, 0x1);
  (0x5d9324f56975477d5945599eeeccec67708c996cd3f3f2818bf2591507e3502a, 0x10985a3cfd573205281aec24e2c8b41f5cd8cdfc9d7be34675cf306bbe1b4f6a);
  (0x3c08b09976fa5b99270e861a71c0ab1fe4d91e80e522ced3e19ac2d830f7dba3, 0x30a2ba28dfd74083de7aa9ecb4443a3773366abd33d1d1eea65d6a1b85d2932a);
  (0x43a376de4357d8931f91d1789b3663b0947c8afcc9ca7c8d15f39f3f056db5d3, 0x111b64acd86aa4e1f7bf7ac4537e087f708f2f45e9702816bb1e323da9e2359b);
  (0x27d83b61339890b9c8fbd00cb8657e01e08fe7e02cf1cc0c991f3e184647ebb2, 0x2aa089af71e21dc6264ed78eebeecab46c08c7e4c593c801ab744b503a72bea0);
  (0x0, 0x1);
  (0x4676d3812cc6b66e1f8c510f446ac562ff8a52086d52067482faa8dbdee40b98, 0x7d89e2b7744c57b1051450a0457fa0eb2a95c1bf8ed6bdf68f1aa7802e7429f4);
  (0x7511066c0e12105a7b937c7ecef367d5afe6e621e5cabf4e490b09b7ada7ee07, 0x604df365b8391cbca8848f88daa700b770da5bb136f70bfb0a3ea33ba386fcd5);
  (0x4d892ac74fdf53ceaef4d13d9fc5ebd85874be07ba9e59a5b981bea2f4319d96, 0x45d86b3ea6c14346e841c8f250ff42224c9ed095b8a9d5f2ef70ee9aaf2d829);
  (0x668d5960c0b43b91185fc90d18ad46a4515235c7185bd5254981d26ae8619807, 0x7a66f757c21900b1e93c86e682114de2b5d3a248850958d957ae246e53791b03);
  (0x0, 0x1);
  (0x5089c58085e74644f85e2d03ef0759218dff976d9e8db4ca9f9522d70389e30f, 0x50cab959cb2b604196fa7ab73094347badcb954ec320fa01522986248653d88b);
  (0x761affb1e0d408002cc427dc6fff611536e2b989b0a5f94883a1b23789b5bc2, 0x3a6d110e6070153b7c42102c6dac97695b4a45872cc47c04392ea170812fe6b0);
  (0xd331ffa16cc0c37f0105d28ab15348a97ce5d4d40c23cb7c6bd05db5e80189b, 0xb4857756b9a5d39af23ef309b5aa52afc3653970b6afc065c0c1a59aa35f919);
  (0x2596e5b3cf5494e60d2a750d03c66abc2e0183af53620b893f9cf9fc3b76dc26, 0x68a0a7ac9a0cc093884a6b84f45a2cde595194e0f48dbd566fa78a3174b182fe);
  (0x0, 0x1);
  (0x249651cc143249f875c53d5aac9cd3b818989387875c08c7ad104723c7d60d25, 0x28fdf17c15bb6b0c4dd06abd210155b2bdeca64a5f02a6934f00437f05d9c65);
  (0x555439a0891500e49a25ccc1dc98fb600ad0f84600494322c44315cbf3d59bd, 0x5835c99533f44bcefffd61bc8926af99af9d0f669e428593ec19129bdf55935d);
  (0x67af872cb08f8baa6e56849ba539a754602307e69af9e257dca744cbdaf95512, 0xe934212a587570839fb11dc7a448e445d1fba32494b007aa832f812b24ca900);
  (0xdec3676055d5dafe7544edd68b7a80cda0443b311638b16a8aad05972aeb417, 0x48fa8dc3a82049989f4cdca7c6545513f02906fbc4c37d5b7457553832827c6d);
  (0x0, 0x1);
  (0x28bd38d44030dd9ca028b2a2f31a795f4c7a5e85a785df7847e3d525e99d4787, 0x552dd7405c4183733ad3c4e7ccb999b4fed81b7a4444aab499d41d6d78d5bbfc);
  (0xec8fe27a51e6f75d4197b4711b5f17d8fc023224426a7a17d3fdce55f7be126, 0x3de83daf93d8aa7f7675b8df61c07b3c1cf8fe6b81327c3db1ed2cefab3d11d3);
  (0x190bb443a02d3cd6de2f5e1779b552a0efff52516904ceef9b827eb68d4e5bfd, 0x5a601f556239715dc181f5303a8bb714a3e0f2f22fea2d51189ef417484861c0);
  (0x393fb3d0b216d7a5f48da1dbe2fae37c1863636e599d725b0a4ddb6c768a89e5, 0x4e2107bc674405da517bd3ef9605b5ef6bf72e94c7963a80241776f56c0960ce);
  (0x0, 0x1);
  (0x1edff13d99073e0e6441de58438feb37c6e1eaa3103197eb7d22deb9216f73e9, 0x2e42eb00cbc19262a6caf1a51809d26674c878d718cd86a9e4e20617c243adf8);
  (0x59233a3346f61135f431f96cf0197e24ad38240b222c010a6ce538cf4c24347b, 0x3cce55908611d2b93f221613f09cfc4dbcd2e2b609233eea5439ad1908a10b20);
  (0x686ce61d9182efa5cc939d5adbe3a33d2a0f0be2cef9a2743f843799624b0bc4, 0xe5755d013ed1d1a2cfd8acc13b33a9d2652037bedc69de6613ac88b9b1764a3);
  (0x4b82eba78af08da395d2b48bf17f55f984d7991277777e29ec8e3c4afdbfea1a, 0x1437579645925f5d241c94c1c64c55c39f64033ff8234441e00adef63af4282c);
  (0x0, 0x1);
  (0x1a2cd99d3d94ed5a186f69c4ebb16fb282a589f9237585a55ba076b96690cdc1, 0x4044babe0b4de497049f1a9e995ac6e6ef0bedd2e822b0f8e037b70673e6b035);
  (0x24497c51a639670f653076aa14ee826a4241d6b20a89886f54bb1f5f919656c1, 0x3b80f82901f17808a3d7a986367410548092cb5120db4670d3750f11d178a335);
  (0x4c53cf42a5b708c28af7402804d158371983483919a2a253edcca0bf9d9da7db, 0x5a7289d5413c3ac4bf2a16dfc0e8b79ae63704ae89935fdd90f7ddad8ef6bba7);
  (0x5830f025f1078d408948f73096af97de1e9e70b3be85890acb21132c34ff961f, 0x67d451752c2433ffe66e47242e301e56db2b2f8203553cab9de717e25793d41e);
  (0x0, 0x1);
  (0x19929124ab5779c9a99e2d1716d8c07813132b29c69a3c1ed1f4e15da1d9062b, 0x52c0cbef541fe80c1e9b999483041e79950a13c4424073607d4975a69ca1fb69);
  (0x849c9e6da66d17bbf08dfdd339cf0c074ed671a2ed91dcf7a6a8737a1738914, 0x9f4dcbc5ae50392c92faf402cc4f17a92573a80d42e5a4c21de0ab0555edde9);
  (0x1e0990d03bcf64411334692cffd1efcdfd0c997e8fb4ad4a938086057c2be1f3, 0xea9350f1881f5ea52c029b67d6284268ca29987345caa15f4aa45e680d6459d);
  (0x3dec05fa937adb1796e9d70e892ae0f4636b0b2f1e35444525f946d7c7220e7, 0x15949f784d8472f5691129fee55afc39462588c4a4ca4f146d1c271cc6375515);
  (0x0, 0x1);
  (0x6a0c8b194571e874b82d904da36d43096bbe36d512e24ff8dcb2b00b57ffd3ec, 0x5f85adb7749cc735ec838bcccfe7d4b52902c6132998d7ac8e032cad031c42b8);
  (0x3491b2f25603bb1a9841e6e62596cbb7310333ff29b1b84f5a68694556e18478, 0x988beda393eb3e3e57bf5875980dcbeaa11f81cd365bab3396b62a466f76c2c);
  (0x6951222e8f2ea247c7d7eea22d4bbd4511789d0007ac607e2b429dcf5a0f18b, 0x6f44c09d0ccf25ea991563d17fe244093629c0f1ca59b589e16ebaf40ca47cda);
  (0x55f070d6c15fb0d96c033b175f5e2c810ede0fb19fb128f251037f7cf4e861d, 0x511144a03a99b8559991e1b02adb476f022f82391bad83787c52af2c97473e69)
].

Definition aff_of (p : point) : ge25519_aff := mkAff (le_bytes 32 (fst p)) (le_bytes 32 (snd p)).

Definition ge25519_base_multiples_affine : list ge25519_aff := map aff_of base_multiples.

(** ** The table *)

Definition ed_addb (p q r : point) : bool :=
  let '(x1, y1) := p in
  let '(x2, y2) := q in
  let '(x3, y3) := r in
  let xx := fold25519 (x1 * x2) in
  let yy := fold25519 (y1 * y2) in
  let k := fold25519 (d25519 * fold25519 (xx * yy)) in
  eqmb (x3 * (1 + k)) (x1 * y2 + y1 * x2) && eqmb (y3 * (1 - k)) (yy + xx).

Lemma ed_addb_Ok p q r : ed_addb p q r = true -> ed_add p q r.
Proof.
  destruct p as [x1 y1], q as [x2 y2], r as [x3 y3]. unfold ed_addb, ed_add, ed_cross. cbv zeta. intros [H1%eqmb_Ok H2%eqmb_Ok]%andb_true_iff.
  rewrite !fold25519_eqm in H1, H2. replace (d25519 * (x1 * x2 * y1 * y2)) with (d25519 * (x1 * x2 * (y1 * y2))) by ring. done.
Qed.

Definition table_entry (n : nat) : point := nth n base_multiples (0, 0).

Definition row_ok (i : nat) : bool :=
  let e := fun k => table_entry (5 * i + k) in
  bool_decide (e 0%nat = (0, 1)) &&
  ed_addb (e 1%nat) (e 1%nat) (e 2%nat) && ed_addb (e 1%nat) (e 2%nat) (e 3%nat) && ed_addb (e 1%nat) (e 3%nat) (e 4%nat) &&
  ((i =? 84)%nat || ed_addb (e 4%nat) (e 4%nat) (e 6%nat)).

Lemma rows_ok : forallb row_ok (seq 0 85) = true.
Proof. vm_cast_no_check (eq_refl true). Qed.

Lemma row_facts i : (i < 85)%nat ->
  table_entry (5 * i) = (0, 1) /\ ed_add (table_entry (5 * i + 1)) (table_entry (5 * i + 1)) (table_entry (5 * i + 2)) /\
  ed_add (table_entry (5 * i + 1)) (table_entry (5 * i + 2)) (table_entry (5 * i + 3)) /\ ed_add (table_entry (5 * i + 1)) (table_entry (5 * i + 3)) (table_entry (5 * i + 4)) /\
  (i = 84%nat \/ ed_add (table_entry (5 * i + 4)) (table_entry (5 * i + 4)) (table_entry (5 * S i + 1))).
Proof.
  intros Hi. pose proof rows_ok as H. rewrite forallb_forall in H. specialize (H i ltac:(apply in_seq; lia)). unfold row_ok in H.
  repeat rewrite andb_true_iff in H. destruct H as ((((H0 & H1) & H2) & H3) & H4). rewrite Nat.add_0_r in H0. apply bool_decide_eq_true in H0.
  apply ed_addb_Ok in H1, H2, H3. split; [done|]. split; [done|]. split; [done|]. split; [done|].
  apply orb_true_iff in H4 as [->%Nat.eqb_eq|H4]; [by left|]. right. apply ed_addb_Ok in H4. by replace (5 * S i + 1)%nat with (5 * i + 6)%nat by lia.
Qed.

(** ** The lookup *)

Definition choose_t (pos : nat) (b : Z) : ge25519_aff :=
  let at_ k := nth (5 * pos + k) ge25519_base_multiples_affine (mkAff [] []) in
  let t := at_ 0%nat in
  let t := cmov_aff t (at_ 1%nat) (Z.lor (equal_char b 1) (equal_char b (-1))) in
  let t := cmov_aff t (at_ 2%nat) (Z.lor (equal_char b 2) (equal_char b (-2))) in
  let t := cmov_aff t (at_ 3%nat) (Z.lor (equal_char b 3) (equal_char b (-3))) in
  let t := cmov_aff t (at_ 4%nat) (equal_char b (-4)) in
  let v := fe25519_neg (aff_x t) in
  mkAff (fe25519_cmov (aff_x t) v (negative b)) (aff_y t).

Definition ge25519_scalarmult_base (s : list Z) : ge25519 :=
  let b := sc25519_window3 s in
  let t := choose_t 0 (nth 0 b 0) in
  let r := mkGe (aff_x t) (aff_y t) fe25519_setone (fe25519_mul (aff_x t) (aff_y t)) in
  fold_left (fun r i => ge25519_mixadd2 r (choose_t i (nth i b 0))) (seq 1 84) r.

(** The multiple of a power of eight that a digit stands for. *)
Definition digit_point (pos : nat) (b : Z) : point :=
  let '(x, y) := table_entry (5 * pos + Z.to_nat (Z.abs b)) in
  if b <? 0 then (- x, y) else (x, y).

Definition aff_ok (t : ge25519_aff) : Prop := limbs 127 (aff_x t) /\ limbs 127 (aff_y t).

Lemma cmov_aff_Ok r p (b : bool) : aff_ok r -> aff_ok p -> cmov_aff r p (if b then 1 else 0) = if b then p else r.
Proof.
  intros [Hr1 Hr2] [Hp1 Hp2]. unfold cmov_aff. rewrite !(fe25519_cmov_Ok 127) by (done || lia). by destruct b, r, p.
Qed.

Lemma entries_small : forallb (fun '(x, y) => (0 <=? x) && (x <? 2 ^ 255) && (0 <=? y) && (y <? 2 ^ 255)) base_multiples = true.
Proof. vm_compute. reflexivity. Qed.

Lemma entry_aff n : (n < 425)%nat ->
  let t := nth n ge25519_base_multiples_affine (mkAff [] []) in aff_ok t /\ represents_aff t (table_entry n).
Proof.
  intros Hn. unfold ge25519_base_multiples_affine, table_entry.
  rewrite (nth_indep _ _ (aff_of (0, 0))) by (rewrite length_map; exact Hn). rewrite map_nth.
  pose proof entries_small as H. rewrite forallb_forall in H. specialize (H (nth n base_multiples (0, 0)) ltac:(apply nth_In; exact Hn)).
  destruct (nth n base_multiples (0, 0)) as [x y]. repeat rewrite andb_true_iff in H. rewrite !Z.leb_le, !Z.ltb_lt in H. destruct H as (((Hx & Hx') & Hy) & Hy').
  assert (Hf : forall v, 0 <= v < 2 ^ 255 -> limbs 127 (le_bytes 32 v) /\ fe v (le_bytes 32 v)).
  { intros v Hv. assert (E : le_val (le_bytes 32 v) = v) by (rewrite le_val_le_bytes; apply Z.mod_small; lia).
    assert (Hl : limbs 127 (le_bytes 32 v)) by (eapply limbs_below; [apply bytes_limbs; [apply length_le_bytes|apply le_bytes_bytes]|lia]).
    split; [done|]. split; [eapply limbs_weaken; [done|lia]|]. by rewrite E. }
  destruct (Hf x), (Hf y); [lia..|]. split; split; done.
Qed.

Lemma equal_char_Ok b c : -128 <= b < 128 -> -128 <= c < 128 -> equal_char b c = Z.b2z (b =? c).
Proof.
  intros Hb Hc. unfold equal_char. assert (Hx : in_range 8 (Z.lxor (u8 b) (u8 c))) by (apply in_range_lxor; (by apply wrap_range) || lia).
  destruct (Z.eqb_spec b c) as [->|Hn]; [by rewrite Z.lxor_nilpotent|].
  assert (Hne : Z.lxor (u8 b) (u8 c) <> 0).
  { intros E%Z.lxor_eq. apply Hn. unfold u8, wrap in E. apply eqm_iff in E; [|done]. destruct E as [k E]. lia. }
  unfold in_range in Hx. rewrite u32_id by (unfold in_range; lia). rewrite Z.shiftr_div_pow2 by lia. rewrite Z.div_small by lia. done.
Qed.

Lemma negative_Ok b : -128 <= b < 128 -> negative b = Z.b2z (b <? 0).
Proof.
  intros Hb. unfold negative. rewrite Z.shiftr_div_pow2 by lia. destruct (Z.ltb_spec b 0).
  - assert (E : u64 b = b + 2 ^ 64) by (symmetry; apply (Z.mod_unique _ _ (-1)); lia). rewrite E.
    assert (Eq : (b + 2 ^ 64) / 2 ^ 63 = 1) by (symmetry; apply (Z.div_unique _ _ _ (b + 2 ^ 63)); lia). by rewrite Eq.
  - assert (E : u64 b = b) by (apply Z.mod_small; lia). rewrite E, Z.div_small by lia. done.
Qed.

Lemma choose_t_represents pos b : (pos < 85)%nat -> -4 <= b <= 3 -> represents_aff (choose_t pos b) (digit_point pos b).
Proof.
  intros Hpos Hb. assert (He : forall k, (k < 5)%nat -> let t := nth (5 * pos + k) ge25519_base_multiples_affine (mkAff [] []) in
    aff_ok t /\ represents_aff t (table_entry (5 * pos + k))) by (intros; apply entry_aff; lia).
  unfold choose_t. cbv zeta. set (at_ := fun k => nth (5 * pos + k) ge25519_base_multiples_affine (mkAff [] [])) in *.
  rewrite !equal_char_Ok, negative_Ok by lia.
  assert (Hlor : forall u v, Z.lor (Z.b2z u) (Z.b2z v) = if (u || v) then 1 else 0) by (by intros [] []). rewrite !Hlor.
  change (Z.b2z (b =? -4)) with (if b =? -4 then 1 else 0). change (Z.b2z (b <? 0)) with (if b <? 0 then 1 else 0).
  change (nth (5 * pos + 0) _ _) with (at_ 0%nat). change (nth (5 * pos + 1) _ _) with (at_ 1%nat). change (nth (5 * pos + 2) _ _) with (at_ 2%nat).
  change (nth (5 * pos + 3) _ _) with (at_ 3%nat). change (nth (5 * pos + 4) _ _) with (at_ 4%nat).
  assert (Hif : forall (c : bool) p r, aff_ok p -> aff_ok r -> aff_ok (if c then p else r)) by (by intros []).
  assert (Hok : forall k, (k < 5)%nat -> aff_ok (at_ k)) by (intros k Hk; apply He, Hk).
  assert (Hre : forall k, (k < 5)%nat -> represents_aff (at_ k) (table_entry (5 * pos + k))) by (intros k Hk; apply He, Hk).
  rewrite (cmov_aff_Ok _ (at_ 1%nat)), (cmov_aff_Ok _ (at_ 2%nat)), (cmov_aff_Ok _ (at_ 3%nat)), (cmov_aff_Ok _ (at_ 4%nat)) by (repeat apply Hif; apply Hok; lia). clearbody at_. clear He Hif.
  assert (Hneg : forall k (c : bool), (k < 5)%nat ->
    represents_aff (mkAff (fe25519_cmov (aff_x (at_ k)) (fe25519_neg (aff_x (at_ k))) (if c then 1 else 0)) (aff_y (at_ k)))
      (let '(x, y) := table_entry (5 * pos + k) in if c then (- x, y) else (x, y))).
  { intros k c Hk. destruct (Hok k Hk) as [Hl _]. specialize (Hre k Hk). destruct (table_entry (5 * pos + k)) as [x y]. destruct Hre as [Hx Hy].
    rewrite (fe25519_cmov_Ok 128) by (try (eapply limbs_weaken; [done|lia]); try lia; apply (fe_neg _ _ Hx)). destruct c; (split; [|done]); [by apply fe_neg|done]. }
  unfold digit_point. assert (Hc : b = -4 \/ b = -3 \/ b = -2 \/ b = -1 \/ b = 0 \/ b = 1 \/ b = 2 \/ b = 3) by lia.
  destruct Hc as [->|[->|[->|[->|[->|[->|[->| ->]]]]]]].
  - apply (Hneg 4%nat true). lia.
  - apply (Hneg 3%nat true). lia.
  - apply (Hneg 2%nat true). lia.
  - apply (Hneg 1%nat true). lia.
  - apply (Hneg 0%nat false). lia.
  - apply (Hneg 1%nat false). lia.
  - apply (Hneg 2%nat false). lia.
  - apply (Hneg 3%nat false). lia.
Qed.
