(* ===== verification/Curve25519.v ===== *)
(** The group of the signatures: the points of the curve of Ge25519 over the field of 2^255 - 19
    elements, with the addition law of RFC 8032.  The functions of Ge25519 and BaseMultiples
    compute in it: the table holds multiples of the base point, ge25519_scalarmult_base is the
    multiplication of the base point by a scalar, ge25519_double_scalarmult_vartime the sum of
    two multiples, and the order of the base point is the modulus of the scalars. *)
From Stdlib Require Import Zmod.Zmod.
From S2P Require Import Prelude.
From S2P Require Import Limbs.
From S2P Require Import Field25519.
From S2P Require Import Prime25519.
From S2P Require Import Edwards.
From S2P Require Import Fe25519.
From S2P Require Import Sc25519.
From S2P Require Import Windows.
From S2P Require Import Ge25519.
From S2P Require Import BaseMultiples.

(** ** Multiples in an abelian group *)

Section Multiples.
Context {G : Type} (op : G -> G -> G) (e : G) (inv : G -> G).
Context (assoc : forall a b c, op a (op b c) = op (op a b) c) (comm : forall a b, op a b = op b a).
Context (neutral : forall a, op a e = a) (inverse : forall a, op a (inv a) = e).

Definition multiple (n : Z) (a : G) : G :=
  match n with
  | Z0 => e
  | Zpos n => Pos.iter (op a) e n
  | Zneg n => Pos.iter (op (inv a)) e n
  end.

Lemma multiple_succ n a : multiple (n + 1) a = op a (multiple n a).
Proof.
  destruct n as [|n|n].
  - done.
  - replace (Z.pos n + 1) with (Z.pos (Pos.succ n)) by lia. cbn [multiple]. by rewrite Pos.iter_succ.
  - destruct (decide (n = 1)%positive) as [->|Hn]; [cbn; by rewrite neutral, inverse|].
    assert (E : exists m, n = Pos.succ m) by (exists (Pos.pred n); by rewrite Pos.succ_pred). destruct E as [m ->].
    replace (Z.neg (Pos.succ m) + 1) with (Z.neg m) by lia. cbn [multiple]. rewrite Pos.iter_succ, assoc, inverse, comm. by rewrite neutral.
Qed.

Lemma cancel_left a b c : op a b = op a c -> b = c.
Proof.
  intros E. assert (Hb : forall b, op (inv a) (op a b) = b) by (intros b'; by rewrite assoc, (comm (inv a)), inverse, comm, neutral). by rewrite <- (Hb b), E, Hb.
Qed.

Lemma multiple_add m n a : multiple (m + n) a = op (multiple m a) (multiple n a).
Proof.
  induction m as [|m IH|m IH] using Z.peano_ind.
  - cbn [multiple]. by rewrite comm, neutral.
  - replace (Z.succ m + n) with (m + n + 1) by lia. unfold Z.succ. by rewrite !multiple_succ, IH, assoc.
  - apply (cancel_left a). rewrite <- multiple_succ, assoc, <- multiple_succ. replace (Z.pred m + n + 1) with (m + n) by lia. by replace (Z.pred m + 1) with m by lia.
Qed.

Lemma multiple_1 a : multiple 1 a = a.
Proof. apply neutral. Qed.

Lemma multiple_opp n a : multiple (- n) a = inv (multiple n a).
Proof. apply (cancel_left (multiple n a)). by rewrite <- multiple_add, inverse, Z.add_opp_diag_r. Qed.

Lemma multiple_neutral n : multiple n e = e.
Proof.
  induction n as [|n IH|n IH] using Z.peano_ind; [done| |].
  - unfold Z.succ. by rewrite multiple_succ, IH, neutral.
  - apply (cancel_left e). rewrite <- multiple_succ. replace (Z.pred n + 1) with n by lia. by rewrite IH, neutral.
Qed.

Lemma multiple_mul m n a : multiple (m * n) a = multiple m (multiple n a).
Proof.
  induction m as [|m IH|m IH] using Z.peano_ind; [done| |].
  - unfold Z.succ. by rewrite Z.mul_add_distr_r, Z.mul_1_l, multiple_succ, Z.add_comm, multiple_add, IH.
  - apply (cancel_left (multiple n a)). rewrite <- multiple_succ, <- multiple_add. replace (n + Z.pred m * n) with (m * n) by lia. by replace (Z.pred m + 1) with m by lia.
Qed.

Lemma multiple_op n a b : multiple n (op a b) = op (multiple n a) (multiple n b).
Proof.
  assert (Hs : forall a b c d, op (op a b) (op c d) = op (op a c) (op b d)) by (intros; by rewrite assoc, <- (assoc a0), (comm b0), !assoc).
  induction n as [|n IH|n IH] using Z.peano_ind; [by rewrite neutral| |].
  - unfold Z.succ. by rewrite !multiple_succ, IH, Hs.
  - apply (cancel_left (op a b)). rewrite <- multiple_succ, Hs, <- !multiple_succ. by replace (Z.pred n + 1) with n by lia.
Qed.
End Multiples.

(** ** The field *)

Notation GF := (Zmod.Zmod p25519).
Definition gf (z : Z) : GF := Zmod.of_Z p25519 z.
Definition gf_val (x : GF) : Z := Zmod.unsigned x.
#[local] Opaque p25519.

#[global] Instance gf_eq_dec : EqDecision GF.
Proof. intros x y. destruct (decide (gf_val x = gf_val y)) as [E|E]; [left; by apply Zmod.unsigned_inj|right; congruence]. Defined.

Lemma gf_eqm a b : a ≡ b [mod p25519] <-> gf a = gf b.
Proof. unfold gf. rewrite Zmod.of_Z_inj. apply eqm_iff. done. Qed.

Lemma gf_range x : 0 <= gf_val x < p25519.
Proof. by apply Zmod.unsigned_pos_bound. Qed.

Lemma gf_val_gf z : gf_val (gf z) = z mod p25519.
Proof. apply Zmod.unsigned_of_Z. Qed.

Lemma gf_gf_val x : gf (gf_val x) = x.
Proof. apply Zmod.of_Z_unsigned. Qed.

Lemma gf_val_eqm x y : gf_val x ≡ gf_val y [mod p25519] <-> x = y.
Proof. rewrite gf_eqm, !gf_gf_val. done. Qed.

(** The operations on residues. *)
Lemma gf_add a b : gf (a + b) = Zmod.add (gf a) (gf b).
Proof. apply Zmod.of_Z_add. Qed.
Lemma gf_sub a b : gf (a - b) = Zmod.sub (gf a) (gf b).
Proof. apply Zmod.of_Z_sub. Qed.
Lemma gf_mul a b : gf (a * b) = Zmod.mul (gf a) (gf b).
Proof. apply Zmod.of_Z_mul. Qed.
Lemma gf_opp a : gf (- a) = Zmod.opp (gf a).
Proof. apply Zmod.of_Z_opp. Qed.
Lemma gf_1 : gf 1 = Zmod.one.
Proof. apply Zmod.of_Z_1. Qed.
Lemma gf_0 : gf 0 = Zmod.zero.
Proof. apply Zmod.of_Z_0. Qed.
#[local] Hint Rewrite gf_add gf_sub gf_mul gf_opp gf_1 gf_0 gf_gf_val : gf.

Lemma gf_zero z : gf z = Zmod.zero <-> (p25519 | z).
Proof. rewrite <- gf_0, <- gf_eqm. unfold eqm. by rewrite Z.sub_0_r. Qed.

Lemma gf_integral (a b : GF) : Zmod.mul a b = Zmod.zero -> a = Zmod.zero \/ b = Zmod.zero.
Proof. apply Zmod.mul_0_iff_prime, p25519_prime. Qed.

Definition gf_field := Zmod.field_theory p25519 p25519_prime.

(** ** The constants of the curve *)

Definition gf_d : GF := gf d25519.
Definition gf_i : GF := gf (le_val ge25519_sqrtm1).

Lemma gf_i_square : Zmod.mul gf_i gf_i = Zmod.opp Zmod.one.
Proof. destruct curve_constants as (_ & _ & H). apply gf_eqm in H. by autorewrite with gf in H. Qed.

Lemma gf_two : Zmod.add Zmod.one Zmod.one <> (Zmod.zero : GF).
Proof. rewrite <- gf_1, <- gf_add, gf_zero. intros H%Z.divide_pos_le; [|done]. by vm_compute in H. Qed.

(** By the criterion of Euler: 121666^2 d = - 121665 * 121666 is not a square. *)
Lemma euler_d : power_mod (- (121665 * 121666)) (fun x => fold25519 (fold25519 x)) ((p25519 - 1) / 2) mod p25519 = p25519 - 1.
Proof. vm_cast_no_check (eq_refl (p25519 - 1)). Qed.

Lemma nonsquare s : ~ s * s ≡ d25519 [mod p25519].
Proof.
  intros Hs. destruct curve_constants as (Hd & _ & _). set (t := 121666 * s).
  assert (Ht : t ^ 2 ≡ - (121665 * 121666) [mod p25519]).
  { rewrite Z.pow_2_r. subst t. replace (121666 * s * (121666 * s)) with (121666 * (121666 * (s * s))) by ring. rewrite Hs, Hd. apply (eqm_intro _ _ _ 0). ring. }
  assert (Hp : 0 <= (p25519 - 1) / 2 /\ 2 * ((p25519 - 1) / 2) = p25519 - 1) by (by vm_compute).
  assert (Ht0 : t mod p25519 <> 0).
  { intros E. assert (E' : t ≡ 0 [mod p25519]) by (apply eqm_iff; [done|]; by rewrite E). rewrite Z.pow_2_r, E' in Ht. apply eqm_iff in Ht; [|done]. by vm_compute in Ht. }
  pose proof (Z.fermat_nz p25519 t p25519_prime Ht0) as Hf. rewrite <- (proj2 Hp), Z.pow_mul_r in Hf by (apply Hp || done).
  assert (E : (t ^ 2) ^ ((p25519 - 1) / 2) mod p25519 = p25519 - 1).
  { etrans; [|exact euler_d]. apply eqm_iff; [done|]. rewrite (power_mod_Ok p25519) by (apply Hp || (intros; by rewrite !fold25519_eqm)). apply eqm_pow; [apply Hp|done]. }
  rewrite Hf in E. by vm_compute in E.
Qed.

Lemma gf_d_nonsquare s : Zmod.mul s s <> gf_d.
Proof. rewrite <- (gf_gf_val s), <- gf_mul. intros E%gf_eqm. by apply nonsquare in E. Qed.

(** ** The group *)

Definition curve25519 : GF * GF -> Prop := curve Zmod.one Zmod.add Zmod.mul Zmod.sub gf_d.

#[global] Instance curve25519_dec p : Decision (curve25519 p).
Proof. destruct p as [x y]. unfold curve25519, curve. apply _. Defined.

(** The points of the curve. *)
Definition Ed : Type := dsig curve25519.

Definition ed25519_sum : GF * GF -> GF * GF -> GF * GF := ed_sum Zmod.one Zmod.add Zmod.mul Zmod.sub Zmod.mdiv gf_d.

Lemma ed25519_sum_curve p q : curve25519 p -> curve25519 q -> curve25519 (ed25519_sum p q).
Proof. exact (ed_sum_curve _ _ _ _ _ _ _ _ gf_field gf_integral gf_d gf_i gf_i_square gf_d_nonsquare gf_two p q). Qed.

Lemma ed25519_opp_curve p : curve25519 p -> curve25519 (ed_opp Zmod.opp p).
Proof. exact (curve_opp _ _ _ _ _ _ _ _ gf_field gf_d p). Qed.

Definition Ed_add (P Q : Ed) : Ed := dexist _ (ed25519_sum_curve _ _ (proj2_dsig P) (proj2_dsig Q)).
Definition Ed_opp (P : Ed) : Ed := dexist _ (ed25519_opp_curve _ (proj2_dsig P)).
Definition Ed_zero : Ed := dexist _ (curve_neutral _ _ _ _ _ _ _ _ gf_field gf_d : curve25519 (Zmod.zero, Zmod.one)).

Lemma Ed_eq (P Q : Ed) : P = Q <-> `P = `Q.
Proof. apply dsig_eq. Qed.

Lemma Ed_add_assoc P Q R : Ed_add P (Ed_add Q R) = Ed_add (Ed_add P Q) R.
Proof.
  apply Ed_eq. exact (ed_sum_assoc _ _ _ _ _ _ _ _ gf_field gf_integral gf_d gf_i gf_i_square gf_d_nonsquare gf_two _ _ _ (proj2_dsig P) (proj2_dsig Q) (proj2_dsig R)).
Qed.

Lemma Ed_add_comm P Q : Ed_add P Q = Ed_add Q P.
Proof. apply Ed_eq. exact (ed_sum_comm _ _ _ _ _ _ _ _ gf_field gf_d _ _). Qed.

Lemma Ed_add_zero P : Ed_add P Ed_zero = P.
Proof. apply Ed_eq. exact (ed_sum_neutral _ _ _ _ _ _ _ _ gf_field gf_integral gf_d gf_i gf_i_square gf_d_nonsquare gf_two _ (proj2_dsig P)). Qed.

Lemma Ed_add_opp P : Ed_add P (Ed_opp P) = Ed_zero.
Proof. apply Ed_eq. exact (ed_sum_opp _ _ _ _ _ _ _ _ gf_field gf_integral gf_d gf_i gf_i_square gf_d_nonsquare gf_two _ (proj2_dsig P)). Qed.

Definition Ed_mul : Z -> Ed -> Ed := multiple Ed_add Ed_zero Ed_opp.

Lemma Ed_mul_add m n P : Ed_mul (m + n) P = Ed_add (Ed_mul m P) (Ed_mul n P).
Proof. exact (multiple_add _ _ _ Ed_add_assoc Ed_add_comm Ed_add_zero Ed_add_opp m n P). Qed.
Lemma Ed_mul_mul m n P : Ed_mul (m * n) P = Ed_mul m (Ed_mul n P).
Proof. exact (multiple_mul _ _ _ Ed_add_assoc Ed_add_comm Ed_add_zero Ed_add_opp m n P). Qed.
Lemma Ed_mul_opp n P : Ed_mul (- n) P = Ed_opp (Ed_mul n P).
Proof. exact (multiple_opp _ _ _ Ed_add_assoc Ed_add_comm Ed_add_zero Ed_add_opp n P). Qed.
Lemma Ed_mul_sum n P Q : Ed_mul n (Ed_add P Q) = Ed_add (Ed_mul n P) (Ed_mul n Q).
Proof. exact (multiple_op _ _ _ Ed_add_assoc Ed_add_comm Ed_add_zero Ed_add_opp n P Q). Qed.
Lemma Ed_mul_zero n : Ed_mul n Ed_zero = Ed_zero.
Proof. exact (multiple_neutral _ _ _ Ed_add_assoc Ed_add_comm Ed_add_zero Ed_add_opp n). Qed.
Lemma Ed_mul_0 P : Ed_mul 0 P = Ed_zero.
Proof. done. Qed.
Lemma Ed_mul_1 P : Ed_mul 1 P = P.
Proof. exact (multiple_1 _ _ _ Ed_add_zero P). Qed.
Lemma Ed_mul_2 P : Ed_mul 2 P = Ed_add P P.
Proof. change 2 with (1 + 1). by rewrite Ed_mul_add, Ed_mul_1. Qed.

(** ** Points in coordinates *)

Definition ed_xy (P : Ed) : GF * GF := `P.

Lemma ed_xy_curve P : curve25519 (ed_xy P).
Proof. exact (proj2_dsig P). Qed.
Lemma ed_xy_add P Q : ed_xy (Ed_add P Q) = ed25519_sum (ed_xy P) (ed_xy Q).
Proof. done. Qed.
Lemma ed_xy_opp P : ed_xy (Ed_opp P) = ed_opp Zmod.opp (ed_xy P).
Proof. done. Qed.

Definition coords (P : Ed) : point := let '(x, y) := ed_xy P in (gf_val x, gf_val y).

(** [p] are coordinates of [P], of which the residues count. *)
Definition is_point (p : point) (P : Ed) : Prop := ed_xy P = (gf (fst p), gf (snd p)).

Lemma coords_point P : is_point (coords P) P.
Proof. unfold is_point, coords. destruct (ed_xy P) as [x y]. cbn [fst snd]. by rewrite !gf_gf_val. Qed.

Lemma is_point_coords x y P : is_point (x, y) P -> x ≡ fst (coords P) [mod p25519] /\ y ≡ snd (coords P) [mod p25519].
Proof. unfold is_point, coords. intros ->. cbn [fst snd]. rewrite !gf_val_gf. by rewrite !eqm_mod by done. Qed.

Lemma is_point_unique p P Q : is_point p P -> is_point p Q -> P = Q.
Proof. intros HP HQ. apply Ed_eq. unfold is_point, ed_xy in *. congruence. Qed.

Lemma is_point_curve x y P : is_point (x, y) P -> on_curve (x, y).
Proof.
  intros HP. pose proof (ed_xy_curve P) as C. rewrite HP in C. cbn [fst snd curve25519 curve] in C. unfold on_curve. apply gf_eqm. rewrite Z.add_comm, Z.add_opp_r.
  autorewrite with gf. exact C.
Qed.

Lemma on_curve_point p : on_curve p -> exists P, is_point p P.
Proof.
  destruct p as [x y]. intros C. unfold on_curve in C. rewrite Z.add_comm, Z.add_opp_r in C. apply gf_eqm in C. autorewrite with gf in C.
  by exists (dexist (gf x, gf y) (C : curve25519 (gf x, gf y))).
Qed.

Lemma is_point_opp x y P : is_point (x, y) P -> is_point (- x, y) (Ed_opp P).
Proof. unfold is_point. cbn [fst snd]. intros E. rewrite ed_xy_opp, E. cbn [ed_opp]. by rewrite gf_opp. Qed.

Lemma Ed_denominators x1 y1 x2 y2 P Q : is_point (x1, y1) P -> is_point (x2, y2) Q ->
  gf (1 + ed_cross (x1, y1) (x2, y2)) <> Zmod.zero /\ gf (1 - ed_cross (x1, y1) (x2, y2)) <> Zmod.zero.
Proof.
  intros HP HQ. pose proof (denominators _ _ _ _ _ _ _ _ gf_field gf_integral gf_d gf_i gf_i_square gf_d_nonsquare gf_two _ _ (ed_xy_curve P) (ed_xy_curve Q)) as H.
  rewrite HP, HQ in H. cbn [cross fst snd] in H. unfold ed_cross. autorewrite with gf. exact H.
Qed.

(** The addition law on coordinates is the sum. *)
Lemma ed_add_point p q r P Q : is_point p P -> is_point q Q -> ed_add p q r <-> is_point r (Ed_add P Q).
Proof.
  destruct p as [x1 y1], q as [x2 y2], r as [x3 y3]. intros HP HQ. unfold is_point. rewrite ed_xy_add.
  pose proof (ed_xy_curve P) as C1. pose proof (ed_xy_curve Q) as C2. rewrite HP in C1 |- *. rewrite HQ in C2 |- *. cbn [fst snd] in *. unfold ed_add, ed_cross. rewrite !gf_eqm. autorewrite with gf. split.
  - intros [E1 E2]. rewrite Zmod.mul_comm in E1, E2.
    exact (ed_sum_unique _ _ _ _ _ _ _ _ gf_field gf_integral gf_d gf_i gf_i_square gf_d_nonsquare gf_two _ _ _ _ _ _ C1 C2 E1 E2).
  - intros E. destruct (ed_sum_coords _ _ _ _ _ _ _ _ gf_field gf_integral gf_d gf_i gf_i_square gf_d_nonsquare gf_two _ _ _ _ _ _ C1 C2 E) as (_ & E1 & E2).
    rewrite (Zmod.mul_comm (gf x3)), (Zmod.mul_comm (gf y3)). split; [exact E1|exact E2].
Qed.

(** ** The points of the code *)

Lemma gf_mul_nonzero a b : gf a <> Zmod.zero -> gf b <> Zmod.zero -> gf (a * b) <> Zmod.zero.
Proof. intros Ha Hb. rewrite gf_mul. intros [E|E]%gf_integral; done. Qed.

Lemma gf_opp_nonzero a : gf a <> Zmod.zero -> gf (- a) <> Zmod.zero.
Proof. rewrite !gf_zero. intros Ha H. by apply Ha, Z.divide_opp_r. Qed.

Lemma gf_1_nonzero : gf 1 <> Zmod.zero.
Proof. rewrite gf_zero. intros H%Z.divide_pos_le; [|done]. by vm_compute in H. Qed.

Lemma gf_2_nonzero : gf 2 <> Zmod.zero.
Proof. change 2 with (1 + 1). rewrite gf_add, gf_1. exact gf_two. Qed.

Definition denotes (g : ge25519) (P : Ed) : Prop := exists z, gf z <> Zmod.zero /\ represents z g (coords P).
Definition denotes2 (g : ge25519) (P : Ed) : Prop := exists z, gf z <> Zmod.zero /\ represents2 z g (coords P).
Definition denotes1 (g : ge25519_p1p1) (P : Ed) : Prop := exists z t, gf z <> Zmod.zero /\ gf t <> Zmod.zero /\ represents1 z t g (coords P).

Lemma denotes_2 g P : denotes g P -> denotes2 g P.
Proof. intros (z & Hz & Hg). exists z. split; [done|]. by apply represents_2. Qed.

Lemma represents_point z g p P : represents z g p -> is_point p P -> represents z g (coords P).
Proof.
  destruct p as [x y]. intros (Hz & Hx & Hy & Ht) [Ex Ey]%is_point_coords. destruct (coords P) as [x' y']. cbn [fst snd] in Ex, Ey.
  split; [done|]. rewrite <- Ex, <- Ey. done.
Qed.

Lemma denotes_to_p3 g P : denotes1 g P -> denotes (p1p1_to_p3 g) P.
Proof. intros (z & t & Hz & Ht & Hg). exists (z * t). split; [by apply gf_mul_nonzero|by apply p1p1_to_p3_represents]. Qed.

Lemma denotes_to_p2 r g P : denotes1 g P -> denotes2 (p1p1_to_p2 r g) P.
Proof. intros (z & t & Hz & Ht & Hg). exists (z * t). split; [by apply gf_mul_nonzero|by apply p1p1_to_p2_represents]. Qed.

Lemma coords_add P Q : ed_add (coords P) (coords Q) (coords (Ed_add P Q)).
Proof. apply (ed_add_point _ _ _ P Q); apply coords_point. Qed.

Lemma coords_denominators P Q : gf (1 + ed_cross (coords P) (coords Q)) <> Zmod.zero /\ gf (1 - ed_cross (coords P) (coords Q)) <> Zmod.zero.
Proof.
  pose proof (coords_point P) as HP. pose proof (coords_point Q) as HQ. destruct (coords P) as [x1 y1], (coords Q) as [x2 y2]. by apply (Ed_denominators x1 y1 x2 y2 P Q).
Qed.

Lemma denotes_add g h P Q : denotes g P -> denotes h Q -> denotes1 (add_p1p1 g h) (Ed_add P Q).
Proof.
  intros (z1 & Hz1 & Hg) (z2 & Hz2 & Hh). destruct (coords_denominators P Q) as [H1 H2].
  eexists _, _. split; [|split; [|exact (add_p1p1_represents _ _ _ _ _ _ _ Hg Hh (coords_add P Q))]];
    (apply gf_mul_nonzero; [|done]; apply gf_mul_nonzero; [exact gf_2_nonzero|by apply gf_mul_nonzero]).
Qed.

Lemma denotes_dbl g P : denotes2 g P -> denotes1 (dbl_p1p1 g) (Ed_add P P).
Proof.
  intros (z & Hz & Hg). destruct (coords_denominators P P) as [H1 H2]. assert (Hc : on_curve (coords P)).
  { pose proof (coords_point P) as HP. destruct (coords P) as [x y]. by apply (is_point_curve x y P). }
  eexists _, _. split; [|split; [|exact (dbl_p1p1_represents _ _ _ _ Hg Hc (coords_add P P))]].
  - apply gf_mul_nonzero; [by apply gf_mul_nonzero|done].
  - apply gf_opp_nonzero, gf_mul_nonzero; [by apply gf_mul_nonzero|done].
Qed.

Definition denotes_aff (g : ge25519_aff) (P : Ed) : Prop := represents_aff g (coords P).

Lemma denotes_aff_point g p P : represents_aff g p -> is_point p P -> denotes_aff g P.
Proof.
  destruct p as [x y]. intros [Hx Hy] [Ex Ey]%is_point_coords. unfold denotes_aff. destruct (coords P) as [x' y']. cbn [fst snd] in Ex, Ey.
  split; [by rewrite <- Ex|by rewrite <- Ey].
Qed.

Lemma denotes_mixadd g h P Q : denotes g P -> denotes_aff h Q -> denotes (ge25519_mixadd2 g h) (Ed_add P Q).
Proof.
  intros (z & Hz & Hg) Hh. destruct (coords_denominators P Q) as [H1 H2]. eexists. split; [|exact (ge25519_mixadd2_represents _ _ _ _ _ _ Hg Hh (coords_add P Q))].
  apply gf_mul_nonzero; (apply gf_mul_nonzero; [|done]); by apply gf_mul_nonzero; [exact gf_2_nonzero|].
Qed.

Lemma denotes_neutral : denotes setneutral Ed_zero.
Proof.
  exists 1. split; [exact gf_1_nonzero|]. apply (represents_point _ _ (0, 1)); [apply setneutral_represents|].
  unfold is_point. cbn [fst snd]. by rewrite gf_0, gf_1.
Qed.

(** ** The base point *)

Lemma base_curve : curve25519 (gf (fst base_point), gf (snd base_point)).
Proof. destruct base_point_on_curve as [_ C]. apply on_curve_point in C as [P HP]. rewrite <- HP. apply ed_xy_curve. Qed.

Definition Ed_base : Ed := dexist _ base_curve.

Lemma base_is_point : is_point base_point Ed_base.
Proof. done. Qed.

Lemma base_denotes : denotes ge25519_base Ed_base.
Proof.
  exists 1. split; [exact gf_1_nonzero|]. apply (represents_point _ _ base_point); [apply base_point_on_curve|apply base_is_point].
Qed.

(** The entries of the table. *)
Lemma table_points i k : (i < 85)%nat -> (k < 5)%nat -> is_point (table_entry (5 * i + k)) (Ed_mul (Z.of_nat k * 8 ^ Z.of_nat i) Ed_base).
Proof.
  assert (H0 : forall i, (i < 85)%nat -> is_point (table_entry (5 * i)) Ed_zero).
  { intros j Hj. destruct (row_facts j Hj) as (-> & _). unfold is_point. cbn [fst snd]. by rewrite gf_0, gf_1. }
  assert (Hrow : forall i, (i < 85)%nat -> is_point (table_entry (5 * i + 1)) (Ed_mul (8 ^ Z.of_nat i) Ed_base) ->
    forall k, (k < 5)%nat -> is_point (table_entry (5 * i + k)) (Ed_mul (Z.of_nat k * 8 ^ Z.of_nat i) Ed_base)).
  { intros j Hj H1. destruct (row_facts j Hj) as (_ & R2 & R3 & R4 & _). set (b := 8 ^ Z.of_nat j) in *.
    apply (ed_add_point _ _ _ _ _ H1 H1) in R2 as H2. rewrite <- Ed_mul_add in H2. apply (ed_add_point _ _ _ _ _ H1 H2) in R3 as H3. rewrite <- Ed_mul_add in H3.
    apply (ed_add_point _ _ _ _ _ H1 H3) in R4 as H4. rewrite <- Ed_mul_add in H4. intros k' Hk'. destruct k' as [|[|[|[|[|k']]]]]; [..|lia].
    - rewrite Nat.add_0_r. by apply H0.
    - by rewrite Z.mul_1_l.
    - replace (Z.of_nat 2 * b) with (b + b) by lia. exact H2.
    - replace (Z.of_nat 3 * b) with (b + (b + b)) by lia. exact H3.
    - replace (Z.of_nat 4 * b) with (b + (b + (b + b))) by lia. exact H4. }
  revert k. induction i as [|i IH]; intros k Hi Hk.
  - apply Hrow; [done| |done]. rewrite Ed_mul_1. exact base_is_point.
  - apply Hrow; [done| |done]. pose proof (IH 4%nat ltac:(lia) ltac:(lia)) as H4. destruct (row_facts i ltac:(lia)) as (_ & _ & _ & _ & [?|R]); [lia|].
    apply (ed_add_point _ _ _ _ _ H4 H4) in R. rewrite <- Ed_mul_add in R. rewrite Nat2Z.inj_succ, Z.pow_succ_r by lia.
    by replace (8 * 8 ^ Z.of_nat i) with (Z.of_nat 4 * 8 ^ Z.of_nat i + Z.of_nat 4 * 8 ^ Z.of_nat i) by lia.
Qed.

Lemma digit_is_point i b : (i < 85)%nat -> -4 <= b <= 4 -> is_point (digit_point i b) (Ed_mul (b * 8 ^ Z.of_nat i) Ed_base).
Proof.
  intros Hi Hb. pose proof (table_points i (Z.to_nat (Z.abs b)) Hi ltac:(lia)) as H. rewrite Z2Nat.id in H by lia. unfold digit_point.
  destruct (table_entry _) as [x y]. destruct (Z.ltb_spec b 0).
  - apply is_point_opp in H. rewrite <- Ed_mul_opp in H. by replace (b * 8 ^ Z.of_nat i) with (- (Z.abs b * 8 ^ Z.of_nat i)) by (rewrite Z.abs_neq by lia; ring).
  - by replace b with (Z.abs b) by lia.
Qed.

Lemma choose_t_denotes i b : (i < 85)%nat -> -4 <= b <= 3 -> denotes_aff (choose_t i b) (Ed_mul (b * 8 ^ Z.of_nat i) Ed_base).
Proof. intros Hi Hb. eapply denotes_aff_point; [by apply choose_t_represents|apply digit_is_point; [done|lia]]. Qed.

(** ** Multiples of the base point *)

Lemma radix_val_zsum b l : 0 <= b -> radix_val b l = zsum (length l) (fun i => nth i l 0 * b ^ Z.of_nat i).
Proof.
  intros Hb. induction l as [|x l IH]; [done|]. cbn [radix_val length]. rewrite IH. change (S (length l)) with (1 + length l)%nat. rewrite zsum_split.
  rewrite <- zsum_scale. cbn [zsum nth]. rewrite Z.pow_0_r. f_equal; [lia|]. apply zsum_ext. intros i _. change (1 + i)%nat with (S i). rewrite Nat2Z.inj_succ, Z.pow_succ_r by lia. cbn [nth]. lia.
Qed.

Lemma mixadd_digits b n : forall s g, (forall i, (i < s + n)%nat -> -4 <= nth i b 0 <= 3) -> (s + n <= 85)%nat ->
  denotes g (Ed_mul (zsum s (fun i => nth i b 0 * 8 ^ Z.of_nat i)) Ed_base) ->
  denotes (fold_left (fun r i => ge25519_mixadd2 r (choose_t i (nth i b 0))) (seq s n) g) (Ed_mul (zsum (s + n) (fun i => nth i b 0 * 8 ^ Z.of_nat i)) Ed_base).
Proof.
  induction n as [|n IH]; intros s g Hb Hs Hg; [by rewrite Nat.add_0_r|]. cbn [seq fold_left]. replace (s + S n)%nat with (S s + n)%nat in * by lia.
  apply IH; [done|done|]. cbn [zsum]. rewrite Ed_mul_add. apply denotes_mixadd; [done|]. apply choose_t_denotes; [lia|apply Hb; lia].
Qed.

(** ge25519_scalarmult_base is the multiple of the base point by a reduced scalar. *)
Theorem ge25519_scalarmult_base_Ok s : scalar s -> le_val s < L25519 -> denotes (ge25519_scalarmult_base s) (Ed_mul (le_val s) Ed_base).
Proof.
  intros Hs Hlt. destruct (sc25519_window3_Ok s Hs Hlt) as (Hl & Hf & <-). unfold ge25519_scalarmult_base. set (b := sc25519_window3 s) in *. clearbody b.
  assert (Hd : forall i, (i < 85)%nat -> -4 <= nth i b 0 <= 3) by (intros i Hi; rewrite (Forall_nth _ 0) in Hf; apply Hf; lia).
  rewrite radix_val_zsum by lia. rewrite Hl. apply (mixadd_digits b 84 1); [intros i Hi; apply Hd; lia|done|]. cbn [zsum]. rewrite Z.add_0_l.
  pose proof (choose_t_denotes 0 (nth 0 b 0) ltac:(lia) (Hd 0%nat ltac:(lia))) as Ht. unfold denotes_aff in Ht. exists 1. split; [exact gf_1_nonzero|].
  destruct (coords _) as [x y]. destruct Ht as [Hx Hy]. cbn [represents ge_x ge_y ge_z ge_t]. rewrite !Z.mul_1_r. split; [apply fe_setone|]. split; [done|]. split; [done|by apply fe_mul].
Qed.

Lemma ge25519_scalarmult_base_Ok_witness : denotes (ge25519_scalarmult_base (le_bytes 32 1)) (Ed_mul (le_val (le_bytes 32 1)) Ed_base).
Proof. apply ge25519_scalarmult_base_Ok; [split; [apply length_le_bytes|apply le_bytes_bytes]|rewrite le_val_le_bytes; done]. Defined.

(** ** The sum of two multiples *)

Section Double.
Context (p1 p2 : ge25519) (P1 P2 : Ed) (H1 : denotes p1 P1) (H2 : denotes p2 P2).

Definition combination (a b : Z) : Ed := Ed_add (Ed_mul a P1) (Ed_mul b P2).

Lemma combination_add a b a' b' : Ed_add (combination a b) (combination a' b') = combination (a + a') (b + b').
Proof.
  unfold combination. rewrite !Ed_mul_add, !Ed_add_assoc. f_equal. rewrite <- !Ed_add_assoc. f_equal. apply Ed_add_comm.
Qed.

Lemma sum_denotes g h a b a' b' c e : denotes g (combination a b) -> denotes h (combination a' b') -> a + a' = c -> b + b' = e ->
  denotes (p1p1_to_p3 (add_p1p1 g h)) (combination c e).
Proof. intros Hg Hh <- <-. rewrite <- combination_add. by apply denotes_to_p3, denotes_add. Qed.

Lemma double_denotes g a b c e : denotes g (combination a b) -> a + a = c -> b + b = e -> denotes (p1p1_to_p3 (dbl_p1p1 g)) (combination c e).
Proof. intros Hg <- <-. rewrite <- combination_add. by apply denotes_to_p3, denotes_dbl, denotes_2. Qed.

Lemma scalarmult_pre_denotes k : (k < 16)%nat -> denotes (nth k (scalarmult_pre p1 p2) setneutral) (combination (Z.of_nat k mod 4) (Z.of_nat k / 4)).
Proof.
  intros Hk. unfold scalarmult_pre. cbv zeta.
  assert (D0 : denotes setneutral (combination 0 0)) by (unfold combination; rewrite !Ed_mul_0, Ed_add_zero; exact denotes_neutral).
  assert (D1 : denotes p1 (combination 1 0)) by (unfold combination; by rewrite Ed_mul_1, Ed_mul_0, Ed_add_zero).
  assert (D4 : denotes p2 (combination 0 1)) by (unfold combination; by rewrite Ed_mul_1, Ed_mul_0, Ed_add_comm, Ed_add_zero).
  pose proof (double_denotes _ 1 0 2 0 D1 eq_refl eq_refl) as D2. set (pre2 := p1p1_to_p3 (dbl_p1p1 p1)) in *.
  pose proof (sum_denotes _ _ 1 0 2 0 3 0 D1 D2 eq_refl eq_refl) as D3. set (pre3 := p1p1_to_p3 (add_p1p1 p1 pre2)) in *.
  pose proof (sum_denotes _ _ 1 0 0 1 1 1 D1 D4 eq_refl eq_refl) as D5. set (pre5 := p1p1_to_p3 (add_p1p1 p1 p2)) in *.
  pose proof (double_denotes _ 0 1 0 2 D4 eq_refl eq_refl) as D8. set (pre8 := p1p1_to_p3 (dbl_p1p1 p2)) in *.
  pose proof (sum_denotes _ _ 0 1 0 2 0 3 D4 D8 eq_refl eq_refl) as D12. set (pre12 := p1p1_to_p3 (add_p1p1 p2 pre8)) in *.
  clearbody pre2 pre3 pre5 pre8 pre12.
  destruct k as [|k]; [exact D0|].
  destruct k as [|k]; [exact D1|].
  destruct k as [|k]; [exact D2|].
  destruct k as [|k]; [exact D3|].
  destruct k as [|k]; [exact D4|].
  destruct k as [|k]; [exact D5|].
  destruct k as [|k]; [exact (sum_denotes _ _ 2 0 0 1 2 1 D2 D4 eq_refl eq_refl)|].
  destruct k as [|k]; [exact (sum_denotes _ _ 3 0 0 1 3 1 D3 D4 eq_refl eq_refl)|].
  destruct k as [|k]; [exact D8|].
  destruct k as [|k]; [exact (sum_denotes _ _ 1 0 0 2 1 2 D1 D8 eq_refl eq_refl)|].
  destruct k as [|k]; [exact (double_denotes _ 1 1 2 2 D5 eq_refl eq_refl)|].
  destruct k as [|k]; [exact (sum_denotes _ _ 3 0 0 2 3 2 D3 D8 eq_refl eq_refl)|].
  destruct k as [|k]; [exact D12|].
  destruct k as [|k]; [exact (sum_denotes _ _ 1 0 0 3 1 3 D1 D12 eq_refl eq_refl)|].
  destruct k as [|k]; [exact (sum_denotes _ _ 2 0 0 3 2 3 D2 D12 eq_refl eq_refl)|].
  destruct k as [|k]; [exact (sum_denotes _ _ 3 0 0 3 3 3 D3 D12 eq_refl eq_refl)|].
  lia.
Qed.

#[local] Opaque Ed_add Ed_mul denotes denotes1 denotes2 p1p1_to_p2 p1p1_to_p3 add_p1p1 dbl_p1p1.

(** A turn of the loop. *)
Lemma scalarmult_step_denotes r i bi a b : denotes2 r (combination a b) -> 0 <= bi < 16 ->
  let q := combination (bi mod 4 + 4 * a) (bi / 4 + 4 * b) in
  let r' := scalarmult_step (scalarmult_pre p1 p2) r i bi in
  if (i =? 0)%nat then denotes r' q else denotes2 r' q.
Proof.
  intros Hr Hb q r'. subst r'. unfold scalarmult_step. set (t := dbl_p1p1 (p1p1_to_p2 r (dbl_p1p1 r))).
  assert (Ht : denotes1 t (combination (4 * a) (4 * b))).
  { replace (4 * a) with (a + a + (a + a)) by ring. replace (4 * b) with (b + b + (b + b)) by ring. rewrite <- !combination_add. by apply denotes_dbl, denotes_to_p2, denotes_dbl. }
  clearbody t. destruct (Z.eqb_spec bi 0) as [->|Hnz].
  - assert (Eq : q = combination (4 * a) (4 * b)) by reflexivity. rewrite Eq. destruct (i =? 0)%nat; [by apply denotes_to_p3|by apply denotes_to_p2].
  - assert (Hs : denotes1 (add_p1p1 (p1p1_to_p3 t) (nth (Z.to_nat bi) (scalarmult_pre p1 p2) setneutral)) q).
    { subst q. rewrite <- combination_add, Ed_add_comm. apply denotes_add; [by apply denotes_to_p3|]. pose proof (scalarmult_pre_denotes (Z.to_nat bi) ltac:(lia)) as Hp.
      by rewrite Z2Nat.id in Hp by lia. }
    destruct (i =? 0)%nat; [by apply denotes_to_p3|by apply denotes_to_p2].
Qed.

Lemma radix_val_drop b l i : (i < length l)%nat -> radix_val b (drop i l) = nth i l 0 + b * radix_val b (drop (S i) l).
Proof.
  intros Hi. destruct (l !! i) as [x|] eqn:E; [|apply lookup_ge_None in E; lia]. rewrite (drop_S _ _ _ E). cbn [radix_val]. by rewrite (nth_lookup_Some _ _ _ _ E).
Qed.

Lemma scalarmult_loop (ds : list Z) n : forall r, (S n < length ds)%nat -> Forall (fun x => 0 <= x < 16) ds ->
  let at_ f k := radix_val 4 (drop k (map f ds)) in
  denotes2 r (combination (at_ (fun x => x mod 4) (S n)) (at_ (fun x => x / 4) (S n))) ->
  denotes (fold_left (fun r i => scalarmult_step (scalarmult_pre p1 p2) r i (nth i ds 0)) (rev (seq 0 (S n))) r) (combination (at_ (fun x => x mod 4) 0%nat) (at_ (fun x => x / 4) 0%nat)).
Proof.
  induction n as [|n IH]; intros r Hl Hd at_ Hr.
  all: assert (Hb : forall k, 0 <= nth k ds 0 < 16) by (intros k; destruct (decide (k < length ds)%nat); [rewrite (Forall_nth _ 0) in Hd; by apply Hd|by rewrite nth_overflow by lia]).
  all: assert (Hat : forall f k, (k < length ds)%nat -> at_ f k = f (nth k ds 0) + 4 * at_ f (S k)).
  1, 3: (intros f k Hk; unfold at_; rewrite radix_val_drop by (by rewrite length_map); f_equal; rewrite (nth_indep _ _ (f 0)) by (by rewrite length_map); apply map_nth).
  - rewrite !(Hat _ 0%nat) by lia. exact (scalarmult_step_denotes r 0 (nth 0 ds 0) _ _ Hr (Hb 0%nat)).
  - rewrite (seq_S (S n)), rev_app_distr. cbn [rev app fold_left Nat.add]. apply IH; [lia|done|].
    pose proof (scalarmult_step_denotes r (S n) (nth (S n) ds 0) _ _ Hr (Hb (S n))) as H. cbv zeta in H.
    rewrite <- (Hat (fun x => x mod 4) (S n)), <- (Hat (fun x => x / 4) (S n)) in H by lia. exact H.
Qed.

Theorem ge25519_double_scalarmult_Ok s1 s2 : scalar s1 -> scalar s2 -> le_val s1 < L25519 -> le_val s2 < L25519 ->
  denotes (ge25519_double_scalarmult_vartime p1 s1 p2 s2) (combination (le_val s1) (le_val s2)).
Proof.
  intros Hs1 Hs2 Hl1 Hl2. destruct (sc25519_2interleave2_Ok s1 s2 Hs1 Hs2) as (Hl & Hf & E1 & E2).
  pose proof (le_val_range s1 (proj2 Hs1)) as R1. pose proof (le_val_range s2 (proj2 Hs2)) as R2. unfold in_range in R1, R2.
  rewrite Z.mod_small in E1, E2 by (unfold L25519 in *; lia). unfold ge25519_double_scalarmult_vartime. set (ds := sc25519_2interleave2 s1 s2) in *. clearbody ds. rewrite <- E1, <- E2.
  apply (scalarmult_loop ds 125); [lia|done|]. assert (Hd : 0 <= nth 126 ds 0 < 16) by (rewrite (Forall_nth _ 0) in Hf; apply Hf; lia).
  assert (Hlast : forall f, radix_val 4 (drop 126 (map f ds)) = f (nth 126 ds 0)).
  { intros f. rewrite radix_val_drop by (rewrite length_map; lia). rewrite drop_ge by (rewrite length_map; lia). cbn [radix_val]. rewrite Z.mul_0_r, Z.add_0_r.
    rewrite (nth_indep _ _ (f 0)) by (rewrite length_map; lia). apply map_nth. }
  rewrite !Hlast. apply denotes_2. pose proof (scalarmult_pre_denotes (Z.to_nat (nth 126 ds 0)) ltac:(lia)) as Hp. by rewrite Z2Nat.id in Hp by lia.
Qed.
End Double.

(** ** The order of the base point *)

(** A point in projective coordinates, and the addition of an affine one. *)
Definition triple_denotes (t : Z * Z * Z) (P : Ed) : Prop :=
  let '(X, Y, W) := t in
  gf W <> Zmod.zero /\ X ≡ fst (coords P) * W [mod p25519] /\ Y ≡ snd (coords P) * W [mod p25519].

Definition triple_add (t : Z * Z * Z) (q : point) : Z * Z * Z :=
  let '(X, Y, W) := t in
  let '(x, y) := q in
  let red v := fold25519 (fold25519 v) in
  let a := red (X * x) in
  let b := red (Y * y) in
  let c := red (d25519 * red (a * b)) in
  let w := red (W * W) in
  let u := w + c in
  let v := w - c in
  (red (red ((X * y + Y * x) * W) * v), red (red ((b + a) * W) * u), red (u * v)).

Lemma triple_add_denotes t q P Q : triple_denotes t P -> is_point q Q -> triple_denotes (triple_add t q) (Ed_add P Q).
Proof.
  destruct t as [[X Y] W], q as [x y]. intros (HW & HX & HY) HQ. destruct (is_point_coords _ _ _ HQ) as [Ex Ey].
  pose proof (coords_add P Q) as Hadd. destruct (coords_denominators P Q) as [D1 D2]. unfold triple_denotes, triple_add. cbv zeta.
  destruct (coords (Ed_add P Q)) as [x3 y3], (coords P) as [x1 y1], (coords Q) as [x2 y2]. cbn [fst snd] in *. destruct Hadd as [E3 F3]. unfold ed_cross in *.
  set (k := d25519 * (x1 * x2 * y1 * y2)) in *.
  set (c := fold25519 (fold25519 (d25519 * _))). set (w := fold25519 (fold25519 (W * W))).
  assert (Hc : c ≡ W * W * k [mod p25519]) by (subst c; rewrite !fold25519_eqm, HX, HY, Ex, Ey; apply (eqm_intro _ _ _ 0); subst k; ring).
  assert (Hw : w ≡ W * W [mod p25519]) by (subst w; by rewrite !fold25519_eqm). clearbody c w.
  assert (Hu : w + c ≡ W * W * (1 + k) [mod p25519]) by (rewrite Hc, Hw; apply (eqm_intro _ _ _ 0); ring).
  assert (Hv : w - c ≡ W * W * (1 - k) [mod p25519]) by (rewrite Hc, Hw; apply (eqm_intro _ _ _ 0); ring).
  set (u := w + c) in *. set (v := w - c) in *. clearbody u v. split; [|split].
  - assert (E : fold25519 (fold25519 (u * v)) ≡ W * W * (1 + k) * (W * W * (1 - k)) [mod p25519]) by (by rewrite !fold25519_eqm, Hu, Hv). apply gf_eqm in E. rewrite E.
    by repeat apply gf_mul_nonzero.
  - rewrite !fold25519_eqm, Hu, Hv, HX, HY, Ex, Ey. transitivity ((x1 * y2 + y1 * x2) * (W * W * (W * W * (1 - k)))); [apply (eqm_intro _ _ _ 0); ring|].
    rewrite <- E3. apply (eqm_intro _ _ _ 0). ring.
  - rewrite !fold25519_eqm, Hu, Hv, HX, HY, Ex, Ey. transitivity ((y1 * y2 + x1 * x2) * (W * W * (W * W * (1 + k)))); [apply (eqm_intro _ _ _ 0); ring|].
    rewrite <- F3. apply (eqm_intro _ _ _ 0). ring.
Qed.

(** The sum of the entries for a list of digits from position [i] on. *)
Fixpoint triple_digits (t : Z * Z * Z) (i : nat) (ds : list Z) : Z * Z * Z :=
  match ds with
  | [] => t
  | d :: ds => triple_digits (if d =? 0 then t else triple_add t (digit_point i d)) (S i) ds
  end.

Lemma triple_digits_denotes ds : forall t i P, (i + length ds <= 85)%nat -> Forall (fun d => -4 <= d <= 4) ds -> triple_denotes t P ->
  triple_denotes (triple_digits t i ds) (Ed_add P (Ed_mul (8 ^ Z.of_nat i * radix_val 8 ds) Ed_base)).
Proof.
  induction ds as [|d ds IH]; intros t i P Hi Hd Ht; cbn [triple_digits length radix_val] in *; [by rewrite Z.mul_0_r, Ed_mul_0, Ed_add_zero|].
  apply Forall_cons in Hd as [Hd Hds]. replace (8 ^ Z.of_nat i * (d + 8 * radix_val 8 ds)) with (d * 8 ^ Z.of_nat i + 8 ^ Z.of_nat (S i) * radix_val 8 ds).
  2: { rewrite Nat2Z.inj_succ, Z.pow_succ_r by lia. ring. }
  rewrite Ed_mul_add, Ed_add_assoc. apply IH; [lia|done|]. destruct (Z.eqb_spec d 0) as [->|Hnz]; [by rewrite Z.mul_0_l, Ed_mul_0, Ed_add_zero|].
  apply triple_add_denotes; [done|]. apply digit_is_point; [lia|done].
Qed.

(** The order in radix 8. *)
Definition order_digits : list Z :=
  [-3; -2; 0; 2; -3; 4; -3; 0; -3; 4; 1; -3; 2; -2; 1; 3; 2; 2; 0; 4; -3; -3; -2; -1; -3; 4; -2; 4;
   -1; -2; 1; -3; -1; 4; -1; -3; 0; -2; 0; -1; -3; 3; 0; 0; 0; 0; 0; 0; 0; 0; 0; 0; 0; 0; 0; 0; 0;
   0; 0; 0; 0; 0; 0; 0; 0; 0; 0; 0; 0; 0; 0; 0; 0; 0; 0; 0; 0; 0; 0; 0; 0; 0; 0; 0; 1].

Definition is_neutral (t : Z * Z * Z) : bool := let '(X, Y, W) := t in (X mod p25519 =? 0) && ((Y - W) mod p25519 =? 0).

Lemma order_sum : is_neutral (triple_digits (0, 1, 1) 0 order_digits) = true.
Proof. vm_cast_no_check (eq_refl true). Qed.

Lemma zero_is_point : is_point (0, 1) Ed_zero.
Proof. unfold is_point. cbn [fst snd]. by rewrite gf_0, gf_1. Qed.

Lemma is_neutral_zero t P : triple_denotes t P -> is_neutral t = true -> P = Ed_zero.
Proof.
  destruct t as [[X Y] W]. intros (HW & HX & HY) [H1%Z.eqb_eq H2%Z.eqb_eq]%andb_true_iff. apply Z.mod_divide in H1, H2; [|done..].
  apply (is_point_unique (0, 1)); [|apply zero_is_point]. pose proof (coords_point P) as HP. unfold is_point in *. rewrite HP. cbn [fst snd].
  rewrite gf_eqm in HX, HY. rewrite gf_mul in HX, HY. assert (EX : gf X = Zmod.zero) by (by apply gf_zero). assert (EY : gf Y = gf W) by (apply gf_eqm; exact H2).
  f_equal.
  - rewrite gf_0. rewrite EX in HX. symmetry in HX. by apply gf_integral in HX as [HX|HX].
  - apply (Zmod.mul_cancel_r_prime (gf W)); [apply p25519_prime|done|]. rewrite <- HY, EY, gf_1. by rewrite Zmod.mul_1_l.
Qed.

Lemma zero_triple : triple_denotes (0, 1, 1) Ed_zero.
Proof. split; [exact gf_1_nonzero|]. destruct (is_point_coords _ _ _ zero_is_point) as [E1 E2]. by rewrite !Z.mul_1_r. Qed.

Theorem base_order : Ed_mul L25519 Ed_base = Ed_zero.
Proof.
  pose proof (triple_digits_denotes order_digits (0, 1, 1) 0 Ed_zero ltac:(done) ltac:(by repeat constructor) zero_triple) as H.
  assert (EL : 8 ^ Z.of_nat 0 * radix_val 8 order_digits = L25519) by (vm_compute; reflexivity). rewrite EL, Ed_add_comm, Ed_add_zero in H.
  apply (is_neutral_zero _ _ H). exact order_sum.
Qed.

Lemma Ed_mul_mod n : Ed_mul (n mod L25519) Ed_base = Ed_mul n Ed_base.
Proof.
  rewrite (Z.div_mod n L25519) at 2 by done. by rewrite Ed_mul_add, Z.mul_comm, Ed_mul_mul, base_order, Ed_mul_zero, Ed_add_comm, Ed_add_zero.
Qed.
