(* ===== verification/C25519Api.v ===== *)
(** What the rest of the program uses of node/C25519.hpp: the class [C25519Ops] has one
    operation per public function (and the two private key derivations), on byte lists.
    [C25519Shape] states the sizes of their results, and [C25519_accepts] says of a private
    key and a message what the clients ask of them besides: that the signature made with the
    key is accepted under its public key.  Ed25519 has the functions of the code as an
    instance of both classes.

    Keys are 64 bytes, the first 32 for key agreement and the others for signatures;
    signatures are 96 bytes. *)
From S2P Require Import Prelude.

Definition ZT_C25519_PUBLIC_KEY_LEN : Z := 64.
Definition ZT_C25519_PRIVATE_KEY_LEN : Z := 64.
Definition ZT_C25519_SIGNATURE_LEN : Z := 96.

Class C25519Ops : Type := {
  (** [_calcPubDH] and [_calcPubED]: the halves of the public key of a private key. *)
  C25519_calcPubDH : list Z -> list Z;
  C25519_calcPubED : list Z -> list Z;
  (** [agree(mine, their, keybuf, keylen)] *)
  C25519_agree : list Z -> list Z -> nat -> list Z;
  (** [sign(myPrivate, myPublic, msg)] *)
  C25519_sign : list Z -> list Z -> list Z -> list Z;
  (** [verify(their, msg, signature)] *)
  C25519_verify : list Z -> list Z -> list Z -> bool
}.

(** Both halves. *)
Definition C25519_public `{C25519Ops} (priv : list Z) : list Z :=
  C25519_calcPubDH priv ++ C25519_calcPubED priv.

(** Sixty-four bytes, as both kinds of key are. *)
Definition is_key (k : list Z) : Prop := length k = 64%nat /\ Forall is_byte k.

Class C25519Shape `(Ops : C25519Ops) : Prop := {
  pubDH_bytes priv : is_key priv ->
    length (C25519_calcPubDH priv) = 32%nat /\ Forall is_byte (C25519_calcPubDH priv);
  pubED_bytes priv : is_key priv ->
    length (C25519_calcPubED priv) = 32%nat /\ Forall is_byte (C25519_calcPubED priv);
  (** [_calcPubED] reads the second half of the private key only. *)
  pubED_tail priv priv' : drop 32 priv = drop 32 priv' -> C25519_calcPubED priv = C25519_calcPubED priv';
  sign_bytes priv pub msg :
    length (C25519_sign priv pub msg) = 96%nat /\ Forall is_byte (C25519_sign priv pub msg);
  agree_length mine their n : length (C25519_agree mine their n) = n
}.

(** The signature of [msg] by the key pair of [priv] verifies. *)
Definition C25519_accepts `{C25519Ops} (priv msg : list Z) : Prop :=
  C25519_verify (C25519_public priv) msg (C25519_sign priv (C25519_public priv) msg) = true.

Lemma public_is_key `{C25519Shape} priv : is_key priv -> is_key (C25519_public priv).
Proof.
  intros Hp. destruct (pubDH_bytes priv Hp) as [H1 H2], (pubED_bytes priv Hp) as [H3 H4].
  unfold is_key, C25519_public. rewrite length_app. split; [lia|by apply Forall_app_2].
Qed.

(** ** An instance

    The public key is the private key and the signature a sum of key and message: it only
    serves to evaluate the clients on small examples. *)
Module Toy.

Definition toy_sig (pub msg : list Z) : list Z := le_bytes 96 (le_val pub + le_val msg * 2 ^ 512).

#[export] Instance toy_ops : C25519Ops := {|
  C25519_calcPubDH priv := take 32 priv;
  C25519_calcPubED priv := drop 32 priv;
  C25519_agree a b n := le_bytes n (le_val a * le_val b);
  C25519_sign priv pub msg := toy_sig pub msg;
  C25519_verify pub msg sig := bool_decide (sig = toy_sig pub msg)
|}.

#[export] Instance toy_shape : C25519Shape toy_ops.
Proof.
  split; cbn [C25519_calcPubDH C25519_calcPubED C25519_agree C25519_sign C25519_verify toy_ops].
  - intros priv [H1 H2]. rewrite length_take. split; [lia|by apply Forall_take].
  - intros priv [H1 H2]. rewrite length_drop. split; [lia|by apply Forall_drop].
  - done.
  - intros _ pub msg. split; [apply length_le_bytes|apply le_bytes_bytes].
  - intros. apply length_le_bytes.
Qed.

Lemma toy_accepts priv msg : C25519_accepts priv msg.
Proof. by apply bool_decide_eq_true. Qed.

End Toy.
