(* ===== verification/Ed25519.v ===== *)
(** The public functions of node/C25519.cpp: agree, sign, verify and the derivation of the
    public keys, on the concrete arithmetic of X25519, Fe25519, Sc25519, Ge25519 and
    BaseMultiples.  They are an instance of the operations the rest of the program uses.

    Signatures are those of RFC 8032 for the first 32 bytes of the digest of the message,
    which are sent as the last 32 bytes of the signature. *)
From S2P Require Import Prelude.
From S2P Require Import Limbs.
From S2P Require Import Utils.
From S2P Require Import SHA512.
From S2P Require Import Field25519.
From S2P Require Import X25519.
From S2P Require Import Fe25519.
From S2P Require Import Sc25519.
From S2P Require Import Windows.
From S2P Require Import Ge25519.
From S2P Require Import BaseMultiples.
From S2P Require Import C25519Api.

(** ** The code *)

(** [smlen] is 96 in both calls: the bytes that are hashed. *)
Definition get_hram (sm pk : list Z) : list Z := SHA512_hash (take 32 sm ++ take 32 pk ++ take 32 (drop 64 sm)).

(** The loop of agree: [n] bytes are left, [k] of the digest are used. *)
Fixpoint key_loop (n k : nat) (digest : list Z) : list Z :=
  match n with
  | O => []
  | S n =>
      let '(k, digest) := if (k =? 64)%nat then (0%nat, SHA512_hash digest) else (k, digest) in
      nth k digest 0 :: key_loop n (S k) digest
  end.

Definition c25519_agree (mine their : list Z) (keylen : nat) : list Z :=
  let rawkey := crypto_scalarmult mine their in
  key_loop keylen 0 (SHA512_hash rawkey).

(** The hash of the signing key with the bits that sign and _calcPubED fix. *)
Definition extended_key (priv : list Z) : list Z := clamp_bytes (SHA512_hash (take 32 (drop 32 priv))).

Definition c25519_sign (myPrivate myPublic msg : list Z) : list Z :=
  let digest := SHA512_hash msg in
  let extsk := extended_key myPrivate in
  let sig32 := take 32 (drop 32 extsk) in
  let sig64 := take 32 digest in
  let hmg := SHA512_hash (sig32 ++ sig64) in
  let sck := sc25519_from64bytes hmg in
  let r := ge25519_pack (ge25519_scalarmult_base sck) in
  let hram := get_hram (r ++ sig32 ++ sig64) (drop 32 myPublic) in
  let scs := sc25519_from64bytes hram in
  let scsk := sc25519_from32bytes (take 32 extsk) in
  let scs := sc25519_mul scs scsk in
  let scs := sc25519_add scs sck in
  r ++ sc25519_to32bytes scs ++ sig64.

(** The part of verify after the key is unpacked: the encoding that [R] is compared with. *)
Definition verify_point (get1 : ge25519) (their sig : list Z) : list Z :=
  let hram := get_hram sig (drop 32 their) in
  let schram := sc25519_from64bytes hram in
  let scs := sc25519_from32bytes (take 32 (drop 32 sig)) in
  let get2 := ge25519_double_scalarmult_vartime get1 schram ge25519_base scs in
  ge25519_pack get2.

Definition verify_unpacked (get1 : option ge25519) (their sig : list Z) : outcome bool :=
  match get1 with
  | None => Ok false
  | Some get1 => Utils_secureEq sig (verify_point get1 their sig) 32
  end.

Definition c25519_verify (their msg sig : list Z) : outcome bool :=
  let digest := SHA512_hash msg in
  same ← Utils_secureEq (drop 64 sig) digest 32;
  if negb same then Ok false
  else verify_unpacked (ge25519_unpackneg_vartime (take 32 (drop 32 their))) their sig.

Definition c25519_calcPubDH (priv : list Z) : list Z := crypto_scalarmult_base priv.

Definition c25519_calcPubED (priv : list Z) : list Z :=
  let extsk := extended_key priv in
  let scsk := sc25519_from32bytes (take 32 extsk) in
  ge25519_pack (ge25519_scalarmult_base scsk).

#[export] Instance c25519_ops : C25519Ops := {|
  C25519_calcPubDH := c25519_calcPubDH;
  C25519_calcPubED := c25519_calcPubED;
  C25519_agree := c25519_agree;
  C25519_sign := c25519_sign;
  C25519_verify their msg sig := bool_decide (c25519_verify their msg sig = Ok true)
|}.

(** ** Sizes *)

Lemma length_fe25519_pack x : length (fe25519_pack x) = 32%nat.
Proof. unfold fe25519_pack, fe25519_freeze. rewrite length_map. cbn [length]. rewrite length_app, length_map, length_seq. done. Qed.

Lemma ge25519_pack_bytes p : length (ge25519_pack p) = 32%nat /\ Forall is_byte (ge25519_pack p).
Proof.
  unfold ge25519_pack. cbv zeta. rewrite length_insert. split; [apply length_fe25519_pack|]. apply Forall_insert; [|by apply wrap_range].
  unfold fe25519_pack. apply Forall_map, Forall_true. intros x. by apply wrap_range.
Qed.

Lemma length_key_loop n : forall k d, length (key_loop n k d) = n.
Proof. induction n as [|n IH]; intros k d; [done|]. cbn [key_loop]. destruct (k =? 64)%nat; cbn [length]; by rewrite IH. Qed.

Lemma clamp_bytes_block d : is_block d -> is_block (clamp_bytes d).
Proof.
  intros [Hl Hb]. unfold clamp_bytes. split; [by rewrite !length_insert|].
  assert (H0 : is_byte (nth 0 d 0)) by (by apply nth_byte).
  assert (E0 : is_byte (Z.land (nth 0 d 0) 248)) by byte_fact (nth 0 d 0) H0.
  assert (Hb1 : Forall is_byte (<[0%nat := Z.land (nth 0 d 0) 248]> d)) by (by apply Forall_insert). set (e := <[0%nat := _]> d) in *. clearbody e.
  assert (H31 : is_byte (nth 31 e 0)) by (by apply nth_byte). assert (E31 : is_byte (Z.land (nth 31 e 0) 127)) by byte_fact (nth 31 e 0) H31.
  assert (Hb2 : Forall is_byte (<[31%nat := Z.land (nth 31 e 0) 127]> e)) by (by apply Forall_insert). set (f := <[31%nat := _]> e) in *. clearbody f.
  assert (Hf : is_byte (nth 31 f 0)) by (by apply nth_byte). assert (Ef : is_byte (Z.lor (nth 31 f 0) 64)) by byte_fact (nth 31 f 0) Hf.
  by apply Forall_insert.
Qed.

Lemma extended_key_block priv : is_block (extended_key priv).
Proof. apply clamp_bytes_block, SHA512_hash_block. Qed.

Lemma block_take d : is_block d -> length (take 32 d) = 32%nat /\ Forall is_byte (take 32 d).
Proof. intros [Hl Hb]. rewrite length_take, Hl. split; [done|by apply Forall_take]. Qed.

(** ** Keys *)

Lemma insert_take n (l : list Z) i v : (i < n)%nat -> take n (<[i := v]> l) = <[i := v]> (take n l).
Proof. intros Hi. by rewrite take_insert_lt. Qed.

Lemma take_clamp d : is_block d -> take 32 (clamp_bytes d) = clamp_bytes (take 32 d).
Proof.
  intros [Hl _]. unfold clamp_bytes. assert (Hn : forall i (l : list Z), (i < 32)%nat -> nth i (take 32 l) 0 = nth i l 0).
  { intros i l Hi. by rewrite !nth_lookup, lookup_take_lt by lia. }
  rewrite !insert_take by lia. rewrite <- !insert_take by lia. rewrite !Hn by lia. by rewrite !insert_take by lia.
Qed.

Lemma signing_scalar priv : le_val (take 32 (extended_key priv)) = rfc_scalar (le_val (take 32 (SHA512_hash (take 32 (drop 32 priv))))).
Proof.
  unfold extended_key. rewrite take_clamp by apply SHA512_hash_block. destruct (block_take _ (SHA512_hash_block (take 32 (drop 32 priv)))) as [Hl Hb].
  by apply clamp_bytes_val.
Qed.

Lemma scalar_le_bytes x : scalar x -> x = le_bytes 32 (le_val x).
Proof. intros [Hl Hb]. rewrite <- Hl. symmetry. by apply le_bytes_le_val. Qed.

Lemma from64_hash m : sc25519_from64bytes (SHA512_hash m) = le_bytes 32 (le_val (SHA512_hash m) mod L25519).
Proof.
  destruct (SHA512_hash_block m) as [Hl Hb]. destruct (sc25519_from64bytes_Ok _ Hl Hb) as [Hs <-]. by apply scalar_le_bytes.
Qed.

Lemma from32_bytes x : length x = 32%nat -> Forall is_byte x -> sc25519_from32bytes x = le_bytes 32 (le_val x mod L25519).
Proof. intros Hl Hb. destruct (sc25519_from32bytes_Ok x Hl Hb) as [Hs <-]. by apply scalar_le_bytes. Qed.

Lemma reduced_scalar v : scalar (le_bytes 32 (v mod L25519)) /\ le_val (le_bytes 32 (v mod L25519)) = v mod L25519.
Proof.
  split; [split; [apply length_le_bytes|apply le_bytes_bytes]|]. rewrite le_val_le_bytes. apply Z.mod_small.
  pose proof (Z.mod_pos_bound v L25519 ltac:(done)). change (2 ^ (8 * Z.of_nat 32)) with (2 ^ 256). unfold L25519 in *. lia.
Qed.

(** The response of a signature. *)
Lemma response_Ok h a k :
  sc25519_to32bytes (sc25519_add (sc25519_mul (le_bytes 32 (h mod L25519)) (le_bytes 32 (a mod L25519))) (le_bytes 32 (k mod L25519))) =
  le_bytes 32 ((h * a + k) mod L25519).
Proof.
  destruct (reduced_scalar h) as [Hh Eh], (reduced_scalar a) as [Ha Ea], (reduced_scalar k) as [Hk Ek].
  destruct (sc25519_mul_Ok _ _ Hh Ha) as [Hm Em]. rewrite Eh, Ea in Em.
  destruct (sc25519_add_Ok _ _ Hm Hk) as [Hs Es]; [rewrite Em; by apply Z.mod_pos_bound|rewrite Ek; by apply Z.mod_pos_bound|].
  rewrite sc25519_to32bytes_Ok by done. rewrite Es, Em, Ek. f_equal. apply eqm_iff; [done|]. by rewrite !eqm_mod by done.
Qed.

(** ** The functions *)

Lemma c25519_sign_spec priv pub msg :
  let D := take 32 (SHA512_hash msg) in
  let az := SHA512_hash (take 32 (drop 32 priv)) in
  let a := rfc_scalar (le_val (take 32 az)) in
  let k := le_val (SHA512_hash (take 32 (drop 32 (clamp_bytes az)) ++ D)) mod L25519 in
  let R := ge25519_pack (ge25519_scalarmult_base (le_bytes 32 k)) in
  let h := le_val (SHA512_hash (R ++ take 32 (drop 32 pub) ++ D)) in
  c25519_sign priv pub msg = R ++ le_bytes 32 ((h * a + k) mod L25519) ++ D.
Proof.
  intros D az a k R h. unfold c25519_sign. cbv zeta. change (take 32 (SHA512_hash msg)) with D. change (extended_key priv) with (clamp_bytes az).
  rewrite (from64_hash (_ ++ D)). change (le_val (SHA512_hash (take 32 (drop 32 (clamp_bytes az)) ++ D)) mod L25519) with k.
  change (ge25519_pack (ge25519_scalarmult_base (le_bytes 32 k))) with R. destruct (ge25519_pack_bytes (ge25519_scalarmult_base (le_bytes 32 k))) as [HlR _].
  change (ge25519_pack (ge25519_scalarmult_base (le_bytes 32 k))) with R in HlR.
  assert (Eh : get_hram (R ++ take 32 (drop 32 (clamp_bytes az)) ++ D) (drop 32 pub) = SHA512_hash (R ++ take 32 (drop 32 pub) ++ D)).
  { assert (Hz : is_block (clamp_bytes az)) by (apply clamp_bytes_block, SHA512_hash_block). unfold get_hram. rewrite take_app_le, take_ge by lia.
    rewrite drop_app_ge by lia. rewrite drop_app_ge by (rewrite length_take, length_drop, (proj1 Hz), HlR; lia).
    rewrite length_take, length_drop, (proj1 Hz), HlR. change (64 - 32 - 32 `min` (64 - 32))%nat with 0%nat. rewrite drop_0.
    rewrite (take_ge D); [done|]. subst D. rewrite length_take. lia. }
  rewrite Eh. rewrite from64_hash. fold h. pose proof (signing_scalar priv) as Ea. change (extended_key priv) with (clamp_bytes az) in Ea.
  destruct (block_take (clamp_bytes az)) as [Hla Hba]; [apply clamp_bytes_block, SHA512_hash_block|]. rewrite (from32_bytes _ Hla Hba), Ea. fold az. fold a.
  assert (Ek : k = k mod L25519) by (subst k; by rewrite Z.mod_mod). rewrite Ek at 1. by rewrite response_Ok.
Qed.

(** A signature is that of RFC 8032 for the first 32 bytes of the digest: with the scalar of
    the private key, the secret and the challenge of the RFC, it is the encoding of the
    multiple of the base point, the response modulo the order of the base point, and the
    digest. *)
Theorem c25519_sign_Ok priv pub msg :
  let D := take 32 (SHA512_hash msg) in
  let az := SHA512_hash (take 32 (drop 32 priv)) in
  let a := rfc_scalar (le_val (take 32 az)) in
  let k := le_val (SHA512_hash (take 32 (drop 32 (clamp_bytes az)) ++ D)) mod L25519 in
  let R := ge25519_pack (ge25519_scalarmult_base (le_bytes 32 k)) in
  let h := le_val (SHA512_hash (R ++ take 32 (drop 32 pub) ++ D)) in
  c25519_sign priv pub msg = R ++ le_bytes 32 ((h * a + k) mod L25519) ++ D.
Proof. apply c25519_sign_spec. Qed.

Lemma c25519_sign_parts priv pub msg :
  exists R s, c25519_sign priv pub msg = R ++ le_bytes 32 s ++ take 32 (SHA512_hash msg) /\ length R = 32%nat /\ Forall is_byte R.
Proof. rewrite c25519_sign_spec. do 2 eexists. split; [reflexivity|]. apply ge25519_pack_bytes. Qed.

Lemma secureEq_prefix R X Y b : Utils_secureEq (R ++ X) b (length R) = Utils_secureEq (R ++ Y) b (length R).
Proof.
  unfold Utils_secureEq. f_equal. generalize 0. revert b. induction R as [|x R IH]; intros b d; [done|]. cbn [length app secureEq_diff].
  destruct b as [|y b]; [done|]. apply IH.
Qed.

(** The parts of a signature. *)
Lemma signature_parts (R S D : list Z) :
  length R = 32%nat -> length S = 32%nat ->
  drop 64 (R ++ S ++ D) = D /\ take 32 (R ++ S ++ D) = R /\ take 32 (drop 32 (R ++ S ++ D)) = S.
Proof.
  intros HR HS. rewrite !drop_app_ge, take_app_le, (take_ge R) by lia. rewrite HR, HS. cbn [Nat.sub]. rewrite !drop_0. split; [done|]. split; [done|].
  by rewrite take_app_le, take_ge by lia.
Qed.

(** The response is only looked at modulo the order: verify treats a signature and one whose
    response is larger by the order alike. *)
Theorem c25519_verify_malleable their msg R S S' D :
  length R = 32%nat -> length S = 32%nat -> length S' = 32%nat -> Forall is_byte S -> Forall is_byte S' ->
  le_val S' = le_val S + L25519 ->
  c25519_verify their msg (R ++ S' ++ D) = c25519_verify their msg (R ++ S ++ D).
Proof.
  intros HR HS HS' HbS HbS' E. destruct (signature_parts R S D HR HS) as (E1 & E2 & E3), (signature_parts R S' D HR HS') as (E1' & E2' & E3').
  assert (Hp : forall g, verify_point g their (R ++ S' ++ D) = verify_point g their (R ++ S ++ D)).
  { intros g. unfold verify_point, get_hram. rewrite E1, E2, E3, E1', E2', E3'. rewrite !from32_bytes by done. rewrite E.
    by replace ((le_val S + L25519) mod L25519) with (le_val S mod L25519) by (rewrite <- (Z.mul_1_l L25519) at 2; by rewrite Z.mod_add). }
  unfold c25519_verify. rewrite E1, E1'. unfold verify_unpacked. destruct (ge25519_unpackneg_vartime _) as [g|]; [|done]. rewrite Hp, <- HR.
  by rewrite (secureEq_prefix R (S' ++ D) (S ++ D)).
Qed.

Lemma c25519_verify_malleable_witness :
  c25519_verify (replicate 64 1) [1; 2] (replicate 32 0 ++ le_bytes 32 (5 + L25519) ++ replicate 32 0) =
  c25519_verify (replicate 64 1) [1; 2] (replicate 32 0 ++ le_bytes 32 5 ++ replicate 32 0).
Proof.
  apply c25519_verify_malleable; try apply length_le_bytes; try apply le_bytes_bytes; [reflexivity|].
  rewrite !le_val_le_bytes. vm_compute. reflexivity.
Defined.

(** Up to 64 bytes, agree gives the digest of the X25519 function. *)
Lemma agree_loop_take n k d : (k + n <= 64)%nat -> length d = 64%nat -> key_loop n k d = take n (drop k d).
Proof.
  revert k. induction n as [|n IH]; intros k Hk Hd; [done|]. cbn [key_loop]. rewrite (proj2 (Nat.eqb_neq k 64)) by lia. rewrite IH by lia.
  destruct (d !! k) as [x|] eqn:E; [|apply lookup_ge_None in E; lia]. rewrite (drop_S _ _ _ E). cbn [take]. f_equal. by apply nth_lookup_Some.
Qed.

Lemma crypto_scalarmult_take n p : crypto_scalarmult n p = crypto_scalarmult (take 32 n) (take 32 p).
Proof. unfold crypto_scalarmult. by rewrite !take_take. Qed.

Theorem c25519_agree_Ok mine their n :
  is_key mine -> is_key their -> (n <= 64)%nat ->
  c25519_agree mine their n = take n (SHA512_hash (le_bytes 32 (rfc_X25519 (le_val (take 32 mine)) (le_val (take 32 their) mod p25519)))).
Proof.
  intros Hm Ht Hn. unfold c25519_agree. destruct (block_take mine Hm) as [Hlm Hbm], (block_take their Ht) as [Hlt Hbt].
  rewrite agree_loop_take, drop_0, crypto_scalarmult_take by (lia || apply SHA512_hash_block). by rewrite crypto_scalarmult_spec.
Qed.

Lemma c25519_agree_Ok_witness :
  c25519_agree (replicate 64 1) (replicate 64 9) 32 =
  take 32 (SHA512_hash (le_bytes 32 (rfc_X25519 (le_val (take 32 (replicate 64 1))) (le_val (take 32 (replicate 64 9)) mod p25519)))).
Proof. apply c25519_agree_Ok; [split; [done|by apply Forall_replicate]|split; [done|by apply Forall_replicate]|lia]. Defined.

(** The sizes that the rest of the program relies on. *)
#[export] Instance c25519_shape : C25519Shape c25519_ops.
Proof.
  split; cbn [C25519_calcPubDH C25519_calcPubED C25519_agree C25519_sign c25519_ops].
  - intros priv Hp. unfold c25519_calcPubDH, crypto_scalarmult_base. destruct (block_take priv Hp) as [Hl Hb]. rewrite crypto_scalarmult_take.
    rewrite crypto_scalarmult_spec; [|done|done|done|by repeat constructor]. split; [apply length_le_bytes|apply le_bytes_bytes].
  - intros priv _. apply ge25519_pack_bytes.
  - intros priv priv' E. unfold c25519_calcPubED, extended_key. by rewrite E.
  - intros priv pub msg. destruct (c25519_sign_parts priv pub msg) as (R & s & -> & HR & HbR). destruct (block_take _ (SHA512_hash_block msg)) as [Hd Hbd].
    rewrite !length_app, length_le_bytes, HR, Hd. split; [done|]. apply Forall_app. split; [done|]. apply Forall_app. split; [apply le_bytes_bytes|done].
  - intros. apply length_key_loop.
Qed.
