(* ===== verification/Identity.v ===== *)
(** ZeroTier identities, node/Identity.hpp and node/Identity.cpp: an address, a public
    key and possibly the private key, with the memory-hard hash that ties the address to
    the key, the binary and text forms, and signatures and key agreement through
    [C25519Ops].

    [MEM] is ZT_IDENTITY_GEN_MEMORY; the results hold for every positive multiple of 64,
    the program uses 2097152. *)
From S2P Require Import Prelude.
From S2P Require Import Utils.
From S2P Require Import Buffer.
From S2P Require Import Addressing.
From S2P Require Import Wire.
From S2P Require Import CLib.
From S2P Require Import Salsa20.
From S2P Require Import SHA512.
From S2P Require Import C25519Api.

Definition ZT_IDENTITY_GEN_HASHCASH_FIRST_BYTE_LESS_THAN : Z := 17.
Definition ZT_IDENTITY_GEN_MEMORY : Z := 2097152.
Definition ZT_IDENTITY_STRING_BUFFER_LENGTH : nat := 384.

Record Identity : Type := mkIdentity {
  id_address : Z;
  id_publicKey : list Z;
  id_privateKey : option (list Z)
}.

(** ** The memory-hard hash *)

(** [s20.crypt20(p,p,64)]; a whole block does not use the temporary. *)
Definition crypt20_block (s20 block : list Z) : list Z * list Z :=
  Salsa20_crypt20 (replicate 64 0) s20 block.

Section Hash.
Context (MEM : Z).

(** The loop that fills [genmem] from offset [i], [n] times: copies the block before and
    encrypts it in place. *)
Fixpoint genmem_fill (n : nat) (i : Z) (s20 genmem : list Z) : outcome (list Z * list Z) :=
  match n with
  | O => Ok (s20, genmem)
  | S n =>
      let k := i - 64 in
      prev ← mem_read genmem k 64;
      genmem ← mem_write genmem i prev;
      block ← mem_read genmem i 64;
      let '(c, s20) := crypt20_block s20 block in
      genmem ← mem_write genmem i c;
      genmem_fill n (i + 64) s20 genmem
  end.

(** The loop that renders the digest, from word [i], [n] times. *)
Fixpoint genmem_render (n : nat) (i : Z) (s20 genmem digest : list Z) : outcome (list Z) :=
  match n with
  | O => Ok digest
  | S n =>
      w1 ← mem_read genmem (8 * i) 8;
      let idx1 := Utils_ntoh64 (le_val w1) mod (64 / 8) in
      w2 ← mem_read genmem (8 * (i + 1)) 8;
      let idx2 := Utils_ntoh64 (le_val w2) mod (MEM / 8) in
      tmp ← mem_read genmem (8 * idx2) 8;
      d ← mem_read digest (8 * idx1) 8;
      genmem ← mem_write genmem (8 * idx2) d;
      digest ← mem_write digest (8 * idx1) tmp;
      let '(digest, s20) := crypt20_block s20 digest in
      genmem_render n (i + 2) s20 genmem digest
  end.

Definition computeMemoryHardHash (publicKey : list Z) : outcome (list Z) :=
  let digest := SHA512_hash publicKey in
  let genmem := replicate (Z.to_nat MEM) 0 in
  let s20 := Salsa20_init (take 32 digest) (take 8 (drop 32 digest)) in
  block ← mem_read genmem 0 64;
  let '(c, s20) := crypt20_block s20 block in
  genmem ← mem_write genmem 0 c;
  '(s20, genmem) ← genmem_fill (Z.to_nat (MEM / 64) - 1) 64 s20 genmem;
  genmem_render (Z.to_nat (MEM / 16)) 0 s20 genmem digest.

(** ** Generation and validation *)

Context `{Ops : C25519Ops}.

(** [_Identity_generate_cond::operator()]: the answer, and the digest it leaves. *)
Definition Identity_generate_cond (pub : list Z) : outcome (bool * list Z) :=
  digest ← computeMemoryHardHash pub;
  d0 ← load digest 0;
  Ok (d0 <? ZT_IDENTITY_GEN_HASHCASH_FIRST_BYTE_LESS_THAN, digest).

(** The second 64-bit word of the private key is incremented, the third decremented. *)
Definition bump_private (priv : list Z) : list Z :=
  take 8 priv ++ le_bytes 8 (le_val (take 8 (drop 8 priv)) + 1) ++
  le_bytes 8 (le_val (take 8 (drop 16 priv)) - 1) ++ drop 24 priv.

(** The loop of [C25519::generateSatisfying]; [None] when [fuel] runs out. *)
Fixpoint generateSatisfying (fuel : nat) (priv pubED : list Z)
  : option (outcome (list Z * list Z * list Z)) :=
  match fuel with
  | O => None
  | S fuel =>
      let priv := bump_private priv in
      let pub := C25519_calcPubDH priv ++ pubED in
      match Identity_generate_cond pub with
      | Ok (true, digest) => Some (Ok (pub, priv, digest))
      | Ok (false, _) => generateSatisfying fuel priv pubED
      | Throw e => Some (Throw e)
      | Undef => Some Undef
      end
  end.

(** [generate()]: [random] are the private keys getSecureRandom gives, one for each turn
    of the outer loop. *)
Fixpoint Identity_generate (fuel : nat) (random : list (list Z)) : option (outcome Identity) :=
  match random with
  | [] => None
  | priv :: random =>
      r ← generateSatisfying fuel priv (C25519_calcPubED priv);
      match r with
      | Ok (pub, priv, digest) =>
          match Address_setTo (drop 59 digest) ZT_ADDRESS_LENGTH with
          | Ok a => if Address_isReserved a then Identity_generate fuel random
                    else Some (Ok (mkIdentity a pub (Some priv)))
          | Throw e => Some (Throw e)
          | Undef => Some Undef
          end
      | Throw e => Some (Throw e)
      | Undef => Some Undef
      end
  end.

Definition Identity_locallyValidate (this : Identity) : outcome bool :=
  if Address_isReserved (id_address this) then Ok false else
  digest ← computeMemoryHardHash (id_publicKey this);
  addrb ← Address_copyTo (id_address this) (replicate 5 0) 5;
  d0 ← load digest 0;
  d59 ← load digest 59; d60 ← load digest 60; d61 ← load digest 61;
  d62 ← load digest 62; d63 ← load digest 63;
  a0 ← load addrb 0; a1 ← load addrb 1; a2 ← load addrb 2; a3 ← load addrb 3; a4 ← load addrb 4;
  Ok ((d0 <? ZT_IDENTITY_GEN_HASHCASH_FIRST_BYTE_LESS_THAN) &&
      (d59 =? a0) && (d60 =? a1) && (d61 =? a2) && (d62 =? a3) && (d63 =? a4)).

End Hash.

(** ** Keys *)

Section Keys.
Context `{Ops : C25519Ops}.

Definition Identity_hasPrivate (this : Identity) : bool := bool_decide (is_Some (id_privateKey this)).

(** [None] for [false]. *)
Definition Identity_sha512PrivateKey (this : Identity) : option (list Z) :=
  SHA512_hash <$> id_privateKey this.

Definition Identity_sign (this : Identity) (data : list Z) : outcome (list Z) :=
  match id_privateKey this with
  | Some priv => Ok (C25519_sign priv (id_publicKey this) data)
  | None => Throw PRIVATE_KEY_REQUIRED
  end.

Definition Identity_verify (this : Identity) (data signature : list Z) (siglen : Z) : bool :=
  if negb (siglen =? ZT_C25519_SIGNATURE_LEN) then false
  else C25519_verify (id_publicKey this) data signature.

(** [None] for [false]. *)
Definition Identity_agree (this id : Identity) (klen : nat) : option (list Z) :=
  (fun priv => C25519_agree priv (id_publicKey id) klen) <$> id_privateKey this.

Definition Identity_privateKeyPair (this : Identity) : list Z * list Z :=
  (id_publicKey this, default (replicate 64 0) (id_privateKey this)).

Definition Identity_bool (this : Identity) : bool := Address_bool (id_address this).

Definition Identity_eqb (this id : Identity) : bool :=
  (id_address this =? id_address id) && bool_decide (id_publicKey this = id_publicKey id).

End Keys.

(** ** Binary form *)

Definition Identity_serialize (C : Z) (this : Identity) (includePrivate : bool) (b : Buffer) : outcome Buffer :=
  b ← Address_appendTo C (id_address this) b;
  b ← Buffer_append_int C b 1 0;
  b ← Buffer_append C b (id_publicKey this) ZT_C25519_PUBLIC_KEY_LEN;
  match id_privateKey this, includePrivate with
  | Some priv, true =>
      b ← Buffer_append_int C b 1 ZT_C25519_PRIVATE_KEY_LEN;
      Buffer_append C b priv ZT_C25519_PRIVATE_KEY_LEN
  | _, _ => Buffer_append_int C b 1 0
  end.

Definition Identity_deserialize (b : Buffer) (startAt : Z) : outcome (Identity * Z) :=
  let p := startAt in
  a ← Buffer_read_address b p;
  let p := u32 (p + ZT_ADDRESS_LENGTH) in
  t ← Buffer_index b p;
  let p := u32 (p + 1) in
  if negb (t =? 0) then Throw SERIALIZED_DATA_INVALID_TYPE else
  pub ← Buffer_read_field b p ZT_C25519_PUBLIC_KEY_LEN;
  let p := u32 (p + ZT_C25519_PUBLIC_KEY_LEN) in
  privateKeyLength ← Buffer_index b p;
  let p := u32 (p + 1) in
  if negb (privateKeyLength =? 0) then
    if negb (privateKeyLength =? ZT_C25519_PRIVATE_KEY_LEN)
    then Throw SERIALIZED_DATA_INVALID_CRYPTOGRAPHIC_TOKEN else
    priv ← Buffer_read_field b p ZT_C25519_PRIVATE_KEY_LEN;
    let p := u32 (p + ZT_C25519_PRIVATE_KEY_LEN) in
    Ok (mkIdentity a pub (Some priv), u32 (p - startAt))
  else Ok (mkIdentity a pub None, u32 (p - startAt)).

(** ** Text form *)

(** What is stored in [buf], the terminator included. *)
Definition Identity_toString (this : Identity) (includePrivate : bool) : outcome (list Z) :=
  a ← Utils_hex10 (Address_toInt (id_address this));
  pub ← Utils_hex (id_publicKey this);
  let s := ztake 10 a ++ [58; 48; 58] ++ ztake (ZT_C25519_PUBLIC_KEY_LEN * 2) pub in
  match id_privateKey this, includePrivate with
  | Some priv, true =>
      k ← Utils_hex priv;
      Ok (s ++ [58] ++ ztake (ZT_C25519_PRIVATE_KEY_LEN * 2) k ++ [0])
  | _, _ => Ok (s ++ [0])
  end.

Definition with_address (this : Identity) (a : Z) : Identity :=
  mkIdentity a (id_publicKey this) (id_privateKey this).

(** [unhex(f,dst,64)] into an array that held [old]: the array and the count. *)
Definition unhex_into (f old : list Z) : outcome (list Z * Z) :=
  bs ← Utils_unhex (f ++ [0]) 64;
  Ok (bs ++ zdrop (zlen bs) old, zlen bs).

(** The loop over the fields; [rest] is what [strtok_r] has not read and [fuel] bounds
    the number of tokens. *)
Fixpoint fromString_fields (fuel : nat) (fno : nat) (this : Identity) (rest : list Z)
  : outcome (Identity * bool) :=
  match fuel, Utils_stok 58 rest with
  | O, _ | _, None =>
      if (fno <? 3)%nat then Ok (with_address this 0, false) else Ok (this, true)
  | S fuel, Some (f, rest) =>
      match fno with
      | 0%nat =>
          let a := Address_of_int (Utils_hexStrToU64 f) in
          if Address_isReserved a then Ok (with_address this 0, false)
          else fromString_fields fuel 1 (with_address this a) rest
      | 1%nat =>
          if negb (bool_decide (f = [48])) then Ok (with_address this 0, false)
          else fromString_fields fuel 2 this rest
      | 2%nat =>
          '(pub, n) ← unhex_into f (id_publicKey this);
          let this := mkIdentity (id_address this) pub (id_privateKey this) in
          if negb (n =? ZT_C25519_PUBLIC_KEY_LEN) then Ok (with_address this 0, false)
          else fromString_fields fuel 3 this rest
      | 3%nat =>
          '(priv, n) ← unhex_into f (replicate 64 0);
          let this := mkIdentity (id_address this) (id_publicKey this) (Some priv) in
          if negb (n =? ZT_C25519_PRIVATE_KEY_LEN) then Ok (with_address this 0, false)
          else fromString_fields fuel 4 this rest
      | _ => Ok (with_address this 0, false)
      end
  end.

(** [tmp] is the uninitialised array. *)
Definition Identity_fromString (tmp : list Z) (this : Identity) (str : option (list Z))
  : outcome (Identity * bool) :=
  match str with
  | None => Ok (with_address this 0, false)
  | Some str =>
      '(tmp, ok) ← Utils_scopy tmp ZT_IDENTITY_STRING_BUFFER_LENGTH (Some str);
      if negb ok then Ok (with_address this 0, false) else
      let this := mkIdentity (id_address this) (id_publicKey this) None in
      fromString_fields ZT_IDENTITY_STRING_BUFFER_LENGTH 0 this (cstr tmp)
  end.

(** ** The memory-hard hash is total *)


Lemma crypt20_block_ok s20 block :
  length s20 = 16%nat -> is_block block ->
  exists c s20', crypt20_block s20 block = (c, s20') /\ is_block c /\ length s20' = 16%nat.
Proof.
  intros Hs [Hl Hb]. unfold crypt20_block.
  rewrite (crypt_stream salsa_rounds20 length_rounds20) by (done || by apply Forall_replicate).
  rewrite nblocks_one by lia. eexists _, _. split; [done|]. cbn [Nat.iter nat_rect].
  rewrite length_salsa_next. split; [|done].
  split; [|apply zip_lxor_bytes; [done|apply keystream_bytes]].
  rewrite length_zip_with, (length_keystream _ length_rounds20), Hl by done. done.
Qed.

(** An access of [n] bytes at [off] to an array of [N] bytes. *)
Lemma bytes_read_ok N l off n :
  zlen l = N -> Forall is_byte l -> 0 <= off -> 0 <= n -> off + n <= N ->
  exists d, mem_read l off n = Ok d /\ zlen d = n /\ Forall is_byte d.
Proof.
  intros Hl Hb Ho Hn Hr. rewrite mem_read_Ok by lia. eexists. split; [done|].
  split; [apply zlen_slice; lia|by apply slice_bytes].
Qed.

Lemma bytes_write_ok N l off d :
  zlen l = N -> Forall is_byte l -> Forall is_byte d -> 0 <= off -> off + zlen d <= N ->
  exists l', mem_write l off d = Ok l' /\ zlen l' = N /\ Forall is_byte l'.
Proof.
  intros Hl Hb Hd Ho Hr. pose proof (zlen_nonneg d). rewrite mem_write_Ok by lia.
  eexists. split; [done|]. split; [rewrite !zlen_app, zlen_ztake, zlen_zdrop; lia|].
  apply Forall_app_2; [by apply Forall_take|]. apply Forall_app_2; [done|by apply Forall_drop].
Qed.

(** Rewrites the next access with the two lemmas above. *)
Ltac access :=
  match goal with
  | |- context [mem_read ?l ?off ?n ≫= _] =>
      let d := fresh "d" in let E := fresh "E" in let Hd := fresh "Hd" in let Hb := fresh "Hb" in
      destruct (bytes_read_ok (zlen l) l off n) as (d & E & Hd & Hb);
      [done|done|try lia..|rewrite E; clear E; cbn [mbind outcome_bind]]
  | |- context [mem_write ?l ?off ?d ≫= _] =>
      let l' := fresh "m" in let E := fresh "E" in let Hl := fresh "Hl" in let Hb := fresh "Hb" in
      destruct (bytes_write_ok (zlen l) l off d) as (l' & E & Hl & Hb);
      [done|done|done|try lia..|rewrite E; clear E; cbn [mbind outcome_bind]]
  end.

Lemma is_block_zlen l : is_block l <-> zlen l = 64 /\ Forall is_byte l.
Proof. unfold is_block, zlen. split; intros [? ?]; (split; [lia|done]). Qed.

Section HashProofs.
Context (MEM : Z) (HM : 0 < MEM) (HM64 : MEM mod 64 = 0).

Lemma genmem_fill_ok n i s20 genmem :
  64 <= i -> i + 64 * Z.of_nat n <= MEM -> length s20 = 16%nat ->
  zlen genmem = MEM -> Forall is_byte genmem ->
  exists s20' genmem', genmem_fill n i s20 genmem = Ok (s20', genmem') /\
    length s20' = 16%nat /\ zlen genmem' = MEM /\ Forall is_byte genmem'.
Proof.
  revert i s20 genmem. induction n as [|n IH]; intros i s20 genmem Hi Hn Hs Hl Hb; [by exists s20, genmem|].
  cbn [genmem_fill]. cbv zeta. access. access. access.
  destruct (crypt20_block_ok s20 d0) as (c & s' & -> & Hc%is_block_zlen & Hs'); [done|by apply is_block_zlen|].
  destruct Hc as [Hc1 Hc2]. access. apply IH; [lia|lia|done|lia|done].
Qed.

Lemma genmem_render_ok n i s20 genmem digest :
  0 <= i -> 8 * i + 16 * Z.of_nat n <= MEM -> length s20 = 16%nat ->
  zlen genmem = MEM -> Forall is_byte genmem -> is_block digest ->
  exists d, genmem_render MEM n i s20 genmem digest = Ok d /\ is_block d.
Proof.
  revert i s20 genmem digest.
  induction n as [|n IH]; intros i s20 genmem digest Hi Hn Hs Hl Hb Hd%is_block_zlen.
  { eexists. split; [done|]. by apply is_block_zlen. }
  destruct Hd as [Hd1 Hd2]. cbn [genmem_render]. cbv zeta. access. access.
  assert (H8 : 8 * (MEM / 8) = MEM) by (Z.div_mod_to_equations; lia).
  pose proof (Z.mod_pos_bound (Utils_ntoh64 (le_val d0)) (MEM / 8) ltac:(lia)) as Hx.
  pose proof (Z.mod_pos_bound (Utils_ntoh64 (le_val d)) (64 / 8) ltac:(done)) as Hy.
  change (64 / 8) with 8 in *.
  access. access. access. access.
  destruct (crypt20_block_ok s20 m0) as (c & s' & -> & Hc & Hs'); [done|apply is_block_zlen; split; [lia|done]|].
  apply IH; [lia|lia|done|lia|done|done].
Qed.

Lemma memory_hard_hash_ok pub : exists d, computeMemoryHardHash MEM pub = Ok d /\ is_block d.
Proof.
  unfold computeMemoryHardHash. cbv zeta.
  assert (Hr : zlen (replicate (Z.to_nat MEM) 0) = MEM) by (unfold zlen; rewrite length_replicate; lia).
  assert (Hrb : Forall is_byte (replicate (Z.to_nat MEM) 0)) by (by apply Forall_replicate).
  assert (64 <= MEM) by (Z.div_mod_to_equations; lia).
  access. destruct (crypt20_block_ok (Salsa20_init (take 32 (SHA512_hash pub)) (take 8 (drop 32 (SHA512_hash pub)))) d)
    as (c & s' & -> & Hc%is_block_zlen & Hs'); [done|by apply is_block_zlen|].
  destruct Hc as [Hc1 Hc2]. access.
  destruct (genmem_fill_ok (Z.to_nat (MEM / 64) - 1) 64 s' m) as (s2 & g & -> & H1 & H2 & H3);
    [lia|Z.div_mod_to_equations; lia|done|lia|done|].
  cbn [mbind outcome_bind]. apply genmem_render_ok; [lia|Z.div_mod_to_equations; lia|done|done|done|apply SHA512_hash_block].
Qed.

End HashProofs.

(** ** Validation *)

Ltac split_block d H :=
  do 64 (destruct d as [|? d]; [discriminate H|]); destruct d; [|discriminate H].

Lemma andb5_eq (b : bool) d59 d60 d61 d62 d63 a :
  b && (d59 =? Z.land (Z.shiftr a 32) 0xff) && (d60 =? Z.land (Z.shiftr a 24) 0xff) &&
  (d61 =? Z.land (Z.shiftr a 16) 0xff) && (d62 =? Z.land (Z.shiftr a 8) 0xff) && (d63 =? Z.land a 0xff) =
  b && bool_decide ([d59; d60; d61; d62; d63] = Address_bytes a).
Proof.
  rewrite !eqb_bool_decide. destruct b; [|done]. cbn [andb].
  repeat case_bool_decide; try done; unfold Address_bytes in *; simplify_eq; done.
Qed.

Lemma locallyValidate_spec MEM id d :
  computeMemoryHardHash MEM (id_publicKey id) = Ok d -> is_block d ->
  Identity_locallyValidate MEM id =
  Ok (negb (Address_isReserved (id_address id)) &&
      ((nth 0 d 0 <? ZT_IDENTITY_GEN_HASHCASH_FIRST_BYTE_LESS_THAN) &&
       bool_decide (drop 59 d = Address_bytes (id_address id)))).
Proof.
  intros E [Hl _]. unfold Identity_locallyValidate. destruct (Address_isReserved _); [done|].
  rewrite E. cbn [mbind outcome_bind]. split_block d Hl.
  change (Address_copyTo _ (replicate 5 0) 5) with (Ok (Address_bytes (id_address id))).
  cbn [mbind outcome_bind negb andb]. unfold Address_bytes at 1. load_lit. cbn [mbind outcome_bind].
  rewrite andb5_eq. reflexivity.
Qed.

(** ** Generation *)

Section Generate.
Context (MEM : Z) (HM : 0 < MEM) (HM64 : MEM mod 64 = 0) `{Shape : C25519Shape}.

Lemma bump_is_key priv :
  is_key priv -> is_key (bump_private priv) /\ drop 32 (bump_private priv) = drop 32 priv.
Proof.
  intros [Hl Hb]. unfold is_key, bump_private.
  assert (H8 : length (take 8 priv) = 8%nat) by (rewrite length_take; lia).
  split_and!.
  - rewrite !length_app, !length_le_bytes, H8, length_drop. lia.
  - repeat apply Forall_app_2; try apply le_bytes_bytes; [by apply Forall_take|by apply Forall_drop].
  - rewrite drop_app_ge, drop_app_ge, drop_app_ge by (rewrite ?H8, ?length_le_bytes; lia).
    rewrite H8, !length_le_bytes, drop_drop. done.
Qed.

(** The private key of turn [k] of the search. *)
Definition candidate (priv : list Z) (k : nat) : list Z := Nat.iter (S k) bump_private priv.

Lemma candidate_S priv k : candidate priv (S k) = candidate (bump_private priv) k.
Proof. unfold candidate. by rewrite (Nat.iter_succ_r (S k)). Qed.

Lemma candidate_key priv k : is_key priv -> is_key (candidate priv k) /\ drop 32 (candidate priv k) = drop 32 priv.
Proof.
  revert priv. induction k as [|k IH]; intros priv Hp; [by apply bump_is_key|].
  rewrite candidate_S. destruct (bump_is_key priv Hp) as [Hk <-]. by apply IH.
Qed.

(** The digest of the public key of turn [k]. *)
Definition candidate_hash (priv pubED : list Z) (k : nat) (d : list Z) : Prop :=
  computeMemoryHardHash MEM (C25519_calcPubDH (candidate priv k) ++ pubED) = Ok d /\ is_block d.

Lemma generateSatisfying_spec fuel priv pubED :
  match generateSatisfying MEM fuel priv pubED with
  | Some r => exists k d, (k < fuel)%nat /\ candidate_hash priv pubED k d /\
      nth 0 d 0 < ZT_IDENTITY_GEN_HASHCASH_FIRST_BYTE_LESS_THAN /\
      r = Ok (C25519_calcPubDH (candidate priv k) ++ pubED, candidate priv k, d)
  | None => forall k, (k < fuel)%nat -> exists d, candidate_hash priv pubED k d /\
      ZT_IDENTITY_GEN_HASHCASH_FIRST_BYTE_LESS_THAN <= nth 0 d 0
  end.
Proof.
  revert priv. induction fuel as [|fuel IH]; intros priv; [intros k; lia|]. cbn [generateSatisfying].
  cbv zeta. destruct (memory_hard_hash_ok MEM HM HM64 (C25519_calcPubDH (bump_private priv) ++ pubED))
    as (d & Hd & Hb).
  unfold Identity_generate_cond. rewrite Hd. cbn [mbind outcome_bind].
  assert (Hl : load d 0 = Ok (nth 0 d 0)) by (destruct d; [by destruct Hb|done]).
  rewrite Hl. cbn [mbind outcome_bind]. destruct (Z.ltb_spec (nth 0 d 0) ZT_IDENTITY_GEN_HASHCASH_FIRST_BYTE_LESS_THAN).
  - exists 0%nat, d. split_and!; try done. lia.
  - specialize (IH (bump_private priv)). destruct (generateSatisfying _ _ _ _) as [r|].
    + destruct IH as (k & d' & Hk & Hh & H0 & ->). exists (S k), d'.
      unfold candidate_hash in *. rewrite candidate_S. split_and!; try done; try lia; apply Hh.
    + intros [|k] Hk; [by exists d|]. unfold candidate_hash. rewrite candidate_S. apply IH. lia.
Qed.

Lemma digest_address d :
  is_block d -> exists a, Address_setTo (drop 59 d) ZT_ADDRESS_LENGTH = Ok a /\
    in_range 40 a /\ Address_bytes a = drop 59 d.
Proof.
  intros [Hl Hb].
  assert (H5 : length (drop 59 d) = 5%nat) by (rewrite length_drop; lia).
  assert (Hb5 : Forall is_byte (drop 59 d)) by (by apply Forall_drop).
  destruct (drop 59 d) as [|b0 [|b1 [|b2 [|b3 [|b4 [|]]]]]]; try discriminate H5.
  rewrite setTo_be_val by done. eexists. split; [done|]. rewrite Address_bytes_be.
  split; [apply (be_val_range [b0; b1; b2; b3; b4]); done|by apply be_bytes_be_val'].
Qed.

(** What generate promises of its result. *)
Definition generated_ok (id : Identity) : Prop :=
  in_range 40 (id_address id) /\ Identity_locallyValidate MEM id = Ok true /\
  exists priv, id_privateKey id = Some priv /\ is_key priv /\ id_publicKey id = C25519_public priv.

(** Why the search with one random private key found nothing. *)
Definition gives_up (fuel : nat) (priv : list Z) : Prop :=
  (forall k, (k < fuel)%nat -> exists d, candidate_hash priv (C25519_calcPubED priv) k d /\
     ZT_IDENTITY_GEN_HASHCASH_FIRST_BYTE_LESS_THAN <= nth 0 d 0) \/
  (exists k d a, (k < fuel)%nat /\ candidate_hash priv (C25519_calcPubED priv) k d /\
     Address_setTo (drop 59 d) ZT_ADDRESS_LENGTH = Ok a /\ Address_isReserved a = true).

Lemma generate_spec fuel random :
  Forall is_key random ->
  match Identity_generate MEM fuel random with
  | Some r => exists id, r = Ok id /\ generated_ok id
  | None => random = [] \/ Exists (gives_up fuel) random
  end.
Proof.
  induction 1 as [|priv random Hp Hr IH]; [by left|]. cbn [Identity_generate].
  pose proof (generateSatisfying_spec fuel priv (C25519_calcPubED priv)) as Hs.
  destruct (generateSatisfying _ _ _ _) as [r|]; cbn [mbind option_bind].
  2:{ right. left. by left. }
  destruct Hs as (k & d & Hk & [Hh Hb] & H0 & ->).
  destruct (digest_address d Hb) as (a & Ha & Har & Hab). rewrite Ha.
  destruct (Address_isReserved a) eqn:Hres.
  - destruct (Identity_generate MEM fuel random) as [r|]; [done|].
    right. left. right. by exists k, d, a.
  - eexists. split; [done|]. destruct (candidate_key priv k Hp) as [Hk1 Hk2].
    split; [done|]. split.
    + rewrite (locallyValidate_spec MEM _ d) by done. cbn [id_address].
      rewrite Hres, (proj2 (Z.ltb_lt _ _)), bool_decide_eq_true_2 by done. done.
    + exists (candidate priv k). split_and!; [done|done|]. cbn [id_publicKey]. unfold C25519_public.
      f_equal. by apply pubED_tail.
Qed.

End Generate.

(** ** Binary form *)

Definition id_wf (id : Identity) : Prop :=
  in_range 40 (id_address id) /\ is_key (id_publicKey id) /\
  match id_privateKey id with Some priv => is_key priv | None => True end.

(** The private key that is sent. *)
Definition sent_private (id : Identity) (includePrivate : bool) : option (list Z) :=
  if includePrivate then id_privateKey id else None.

Definition id_enc (id : Identity) (includePrivate : bool) : list Z :=
  be_bytes 5 (id_address id) ++ be_bytes 1 0 ++ id_publicKey id ++
  match sent_private id includePrivate with
  | Some priv => be_bytes 1 64 ++ priv
  | None => be_bytes 1 0
  end.

Lemma is_key_zlen k : is_key k -> zlen k = 64 /\ Forall is_byte k.
Proof. intros [Hl Hb]. unfold zlen. split; [lia|done]. Qed.

Lemma Identity_appends C id incl :
  id_wf id -> C + 64 < 2 ^ 32 -> appends C (Identity_serialize C id incl) (id_enc id incl).
Proof.
  intros (Ha & Hp%is_key_zlen & Hk) HC. unfold Identity_serialize, id_enc, sent_private.
  apply (appends_bind C); [apply appends_address; lia|]. apply (appends_bind C); [apply appends_int|].
  apply (appends_bind C); [apply appends_whole; [apply Hp..|done]|].
  destruct (id_privateKey id) as [priv|], incl; try apply appends_int.
  apply is_key_zlen in Hk.
  apply (appends_bind C); [apply appends_int|apply appends_whole; [apply Hk..|done]].
Qed.

Lemma Identity_deserialize_enc C b i id incl :
  id_wf id -> buf_wf C b -> has_at b i (id_enc id incl) ->
  Identity_deserialize b i =
  Ok (mkIdentity (id_address id) (id_publicKey id) (sent_private id incl), zlen (id_enc id incl)).
Proof.
  intros (Ha & Hp%is_key_zlen & Hk) Hb Hh. destruct Hp as [Hp1 Hp2].
  assert (Hi : 0 <= i) by apply Hh.
  unfold Identity_deserialize, id_enc, ZT_ADDRESS_LENGTH, ZT_C25519_PUBLIC_KEY_LEN, ZT_C25519_PRIVATE_KEY_LEN in *.
  reading (read_address C b Hb i (id_address id)) Hh; [done|exact Hh|].
  reading (read_byte C b Hb (i + 5) 0) Hh; [done|exact Hh|]. cbn [negb Z.eqb].
  reading (read_field C b Hb (i + 5 + 1) (id_publicKey id) 64) Hh; [done|exact Hh|].
  destruct (sent_private id incl) as [priv|] eqn:Hs.
  - assert (Hpk : zlen priv = 64).
    { unfold sent_private in Hs. destruct incl; [|done]. rewrite Hs in Hk. by apply is_key_zlen. }
    reading (read_byte C b Hb (i + 5 + 1 + 64) 64 priv) Hh; [done|exact Hh|]. cbn [negb Z.eqb Pos.eqb].
    rewrite <- (app_nil_r priv) in Hh.
    reading (read_field C b Hb (i + 5 + 1 + 64 + 1) priv 64 []) Hh; [done|exact Hh|].
    rewrite !zlen_app, !zlen_be_bytes, Hp1, Hpk in *.
    do 2 f_equal. rewrite (read_end C b Hb _ _ _ Hh) by lia. lia.
  - rewrite <- (app_nil_r (be_bytes 1 0)) in Hh.
    reading (read_byte C b Hb (i + 5 + 1 + 64) 0 []) Hh; [done|exact Hh|]. cbn [negb Z.eqb].
    rewrite !zlen_app, !zlen_be_bytes, Hp1 in *. do 2 f_equal.
    rewrite (read_end C b Hb _ _ _ Hh) by lia. lia.
Qed.

(** ** Text form *)

Definition nibbles (d : list Z) : list Z := d ≫= fun b => [Z.shiftr b 4; Z.land b 15].

Lemma nibbles_range d : Forall is_byte d -> Forall (fun k => 0 <= k < 16) (nibbles d).
Proof.
  induction 1 as [|b d Hb Hd IH]; [constructor|].
  change (nibbles (b :: d)) with (Z.shiftr b 4 :: Z.land b 15 :: nibbles d).
  constructor; [by apply (in_range_shiftr 4 4)|]. constructor; [|done].
  rewrite land_15. by apply Z.mod_pos_bound.
Qed.

Lemma Utils_hex_chars d : Forall is_byte d -> Utils_hex d = Ok ((hex_char <$> nibbles d) ++ [0]).
Proof.
  induction 1 as [|b d Hb Hd IH]; [done|]. cbn [Utils_hex].
  rewrite !load_hexchars, IH; [done|by apply (in_range_shiftr 4 4)|rewrite land_15; by apply Z.mod_pos_bound].
Qed.

Definition addr_nibbles (a : Z) : list Z :=
  (fun s => Z.land (Z.shiftr a s) 15) <$> [36; 32; 28; 24; 20; 16; 12; 8; 4; 0].

Lemma addr_nibbles_range a : Forall (fun k => 0 <= k < 16) (addr_nibbles a).
Proof. apply Forall_fmap, Forall_true. intros s. cbn. rewrite land_15. by apply Z.mod_pos_bound. Qed.

Lemma Utils_hex10_chars a : Utils_hex10 a = Ok ((hex_char <$> addr_nibbles a) ++ [0]).
Proof.
  unfold Utils_hex10, hexdigit. cbn [mapM].
  rewrite !load_hexchars by (rewrite land_15; by apply Z.mod_pos_bound). done.
Qed.

Lemma addr_nibbles_value a : in_range 40 a -> foldl (fun v k => v * 16 + k) 0 (addr_nibbles a) = a.
Proof.
  intros Ha. unfold addr_nibbles. cbn [fmap list_fmap foldl]. rewrite Z.mul_0_l, Z.add_0_l.
  replace (Z.land (Z.shiftr a 36) 15) with (Z.shiftr a 36).
  2:{ rewrite land_15, Z.mod_small; [done|]. by apply (in_range_shiftr 4 36). }
  rewrite (nibble_step a 32), (nibble_step a 28), (nibble_step a 24), (nibble_step a 20), (nibble_step a 16),
    (nibble_step a 12), (nibble_step a 8), (nibble_step a 4), (nibble_step a 0) by lia.
  apply Z.shiftr_0_r.
Qed.

Lemma hexStrToU64_address a : in_range 40 a -> Address_of_int (Utils_hexStrToU64 (hex_char <$> addr_nibbles a)) = a.
Proof.
  intros Ha. pose proof (addr_nibbles_value a Ha) as Hv. unfold in_range in Ha.
  unfold Utils_hexStrToU64. rewrite strtoul_hex, Hv; [|apply addr_nibbles_range|lia].
  unfold Address_of_int. change 0xffffffffff with (2 ^ 40 - 1). rewrite land_mask by lia. by apply Z.mod_small.
Qed.

(** The text, without its terminator. *)
Definition id_text (id : Identity) (incl : bool) : list Z :=
  (hex_char <$> addr_nibbles (id_address id)) ++ 58 :: [48] ++ 58 ::
  (hex_char <$> nibbles (id_publicKey id)) ++
  match sent_private id incl with
  | Some priv => 58 :: (hex_char <$> nibbles priv)
  | None => []
  end.

Lemma length_nibbles d : length (nibbles d) = (2 * length d)%nat.
Proof.
  induction d as [|b d IH]; [done|].
  change (nibbles (b :: d)) with (Z.shiftr b 4 :: Z.land b 15 :: nibbles d). cbn [length]. lia.
Qed.

Lemma take_hex_key k : is_key k -> ztake (64 * 2) ((hex_char <$> nibbles k) ++ [0]) = hex_char <$> nibbles k.
Proof.
  intros [Hl _]. apply ztake_app_exact. unfold zlen. rewrite length_fmap, length_nibbles, Hl. done.
Qed.

Lemma Identity_toString_text id incl :
  id_wf id -> Identity_toString id incl = Ok (id_text id incl ++ [0]).
Proof.
  intros (Ha & Hp & Hk). unfold Identity_toString, id_text, sent_private, ZT_C25519_PUBLIC_KEY_LEN,
    ZT_C25519_PRIVATE_KEY_LEN, Address_toInt.
  rewrite Utils_hex10_chars, Utils_hex_chars by apply Hp. cbn [mbind outcome_bind]. cbv zeta.
  rewrite take_hex_key by done. rewrite (ztake_app_exact 10) by done.
  destruct (id_privateKey id) as [priv|], incl; cbn [mbind outcome_bind].
  - rewrite Utils_hex_chars by apply Hk. cbn [mbind outcome_bind]. rewrite take_hex_key by done.
    by rewrite <- !app_assoc; cbn [app]; rewrite <- !app_assoc.
  - by rewrite app_nil_r.
  - by rewrite app_nil_r.
  - by rewrite app_nil_r.
Qed.

Lemma unhex_into_key k old :
  is_key k -> length old = 64%nat -> unhex_into (hex_char <$> nibbles k) old = Ok (k, 64).
Proof.
  intros [Hl Hb] Ho. unfold unhex_into. destruct (unhex_hex k [] Hb) as (s & Hs & Hu).
  rewrite Utils_hex_chars in Hs by done. injection Hs as <-. rewrite app_nil_r in Hu.
  rewrite Hu by lia. cbn [mbind outcome_bind]. unfold zlen. rewrite Hl.
  rewrite zdrop_all by (unfold zlen; lia). by rewrite app_nil_r.
Qed.

Lemma hex_token ks :
  Forall (fun k => 0 <= k < 16) ks -> (0 < length ks)%nat -> hex_char <$> ks <> [] /\ 58 ∉ (hex_char <$> ks).
Proof.
  intros H Hl. split; [|by apply hex_chars_no_sep]. destruct ks; [cbn in Hl; lia|done].
Qed.

Lemma fromString_text id incl this :
  id_wf id -> Address_isReserved (id_address id) = false -> length (id_publicKey this) = 64%nat ->
  id_privateKey this = None ->
  fromString_fields 384 0 this (id_text id incl) =
  Ok (mkIdentity (id_address id) (id_publicKey id) (sent_private id incl), true).
Proof.
  intros (Ha & Hp & Hk) Hres Hl Hn. unfold id_text.
  destruct (hex_token (addr_nibbles (id_address id))) as [A1 A2]; [apply addr_nibbles_range|cbn; lia|].
  destruct (hex_token (nibbles (id_publicKey id))) as [B1 B2].
  { apply nibbles_range, Hp. } { rewrite length_nibbles, (proj1 Hp). lia. }
  change 384%nat with (4 + 380)%nat. cbn [Nat.add fromString_fields].
  rewrite stok_token by done. cbv zeta. rewrite hexStrToU64_address, Hres by done.
  rewrite (stok_token 58 [48]) by (done || by apply not_elem_of_cons; split; [|apply not_elem_of_nil]).
  rewrite bool_decide_eq_true_2 by done. cbn [negb].
  destruct (sent_private id incl) as [priv|] eqn:Hs.
  - assert (Hpk : is_key priv).
    { unfold sent_private in Hs. destruct incl; [|done]. by rewrite Hs in Hk. }
    destruct (hex_token (nibbles priv)) as [D1 D2].
    { apply nibbles_range, Hpk. } { rewrite length_nibbles, (proj1 Hpk). lia. }
    rewrite stok_token by done. rewrite unhex_into_key by done. cbn [mbind outcome_bind].
    change (negb (64 =? ZT_C25519_PUBLIC_KEY_LEN)) with false. cbn iota.
    rewrite stok_last by done. rewrite unhex_into_key by done. reflexivity.
  - rewrite app_nil_r, stok_last by done. rewrite unhex_into_key by done. cbn [mbind outcome_bind].
    cbn. by rewrite Hn.
Qed.

Lemma cstr_app t rest : 0 ∉ t -> cstr (t ++ 0 :: rest) = t.
Proof.
  induction t as [|c t IH]; intros H; [done|]. apply not_elem_of_cons in H as [Hc Ht].
  cbn [app cstr]. rewrite (proj2 (Z.eqb_neq c 0)) by done. by rewrite IH.
Qed.

Lemma id_text_facts id incl : id_wf id -> 0 ∉ id_text id incl /\ (length (id_text id incl) <= 271)%nat.
Proof.
  intros (Ha & [Hp1 Hp2] & Hk). unfold id_text.
  assert (Hpk : match sent_private id incl with Some priv => is_key priv | None => True end).
  { unfold sent_private. by destruct incl. }
  destruct (hex_chars_no_sep _ (addr_nibbles_range (id_address id))) as [_ N1].
  destruct (hex_chars_no_sep _ (nibbles_range _ Hp2)) as [_ N2]. split.
  - cbn [app]. rewrite not_elem_of_app, !not_elem_of_cons, not_elem_of_app. split_and!; try done.
    destruct (sent_private id incl) as [priv|]; [|apply not_elem_of_nil].
    apply not_elem_of_cons. split; [done|]. by apply hex_chars_no_sep, nibbles_range, Hpk.
  - rewrite !length_app. cbn [length app]. rewrite !length_app, !length_fmap, length_nibbles, Hp1.
    change (length (addr_nibbles _)) with 10%nat.
    destruct (sent_private id incl) as [priv|]; cbn [length]; [|lia].
    rewrite length_fmap, length_nibbles, (proj1 Hpk). lia.
Qed.

(** ** Properties *)

(** C30: the memory-hard hash never leaves its arrays and always yields a digest, so
    that generate() either returns an identity that locallyValidate() accepts, whose key
    pair belongs together, or has searched a whole random key in vain; validation itself
    never fails to answer. *)
Theorem Identity_generate_valid MEM `{Shape : C25519Shape} fuel random id :
  0 < MEM -> MEM mod 64 = 0 -> Forall is_key random ->
  (exists d, computeMemoryHardHash MEM (id_publicKey id) = Ok d /\ is_block d) /\
  (exists ok, Identity_locallyValidate MEM id = Ok ok) /\
  match Identity_generate MEM fuel random with
  | Some r => exists id', r = Ok id' /\ generated_ok MEM id'
  | None => random = [] \/ Exists (gives_up MEM fuel) random
  end.
Proof.
  intros HM HM64 Hr. destruct (memory_hard_hash_ok MEM HM HM64 (id_publicKey id)) as (d & Hd & Hb).
  split_and!; [by exists d|by rewrite (locallyValidate_spec MEM id d); eauto|by apply generate_spec].
Qed.

Lemma Identity_generate_valid_witness :
  exists id, Identity_generate (Ops := Toy.toy_ops) 64 20 [replicate 64 1] = Some (Ok id) /\
    Identity_locallyValidate 64 id = Ok true.
Proof.
  pose proof (Identity_generate_valid 64 (Shape := Toy.toy_shape) 20 [replicate 64 1] (mkIdentity 0 [] None)) as H.
  ospecialize (H _ _ _); [done|done| |].
  { apply Forall_singleton. split; [done|by apply Forall_replicate]. }
  destruct H as (_ & _ & H).
  destruct (Identity_generate (Ops := Toy.toy_ops) 64 20 [replicate 64 1]) as [r|] eqn:E.
    { destruct H as (id & -> & Hid). exists id. split; [reflexivity|]. apply Hid. }
  exfalso. revert E. vm_compute. discriminate.
Defined.

(** an identity serialized with or without its private key into a buffer is
    deserialized to the same address and public key, with the private key exactly when it
    was included, and the returned length is what was written; a full buffer makes
    serialize throw. *)
Theorem Identity_wire_roundtrip C id incl b :
  id_wf id -> C + 64 < 2 ^ 32 -> buf_wf C b ->
  (exists b', Identity_serialize C id incl b = Ok b' /\ buf_wf C b' /\
     Identity_deserialize b' (b_len b) =
     Ok (mkIdentity (id_address id) (id_publicKey id) (if incl then id_privateKey id else None),
         b_len b' - b_len b)) \/
  (Identity_serialize C id incl b = Throw OUT_OF_BOUNDS /\ C < b_len b + zlen (id_enc id incl)).
Proof.
  intros Hid HC Hb. pose proof (Identity_appends C id incl Hid HC) as Ha.
  pose proof (proj2 Ha b Hb) as H. destruct (Z.leb_spec (b_len b + zlen (id_enc id incl)) C); [left|by right].
  destruct H as (b' & Heq & Hb' & _). exists b'. split_and!; [done|done|].
  rewrite (Identity_deserialize_enc C b' (b_len b) id incl) by (done || by eapply appends_has_at).
  destruct (appends_len C _ _ b b' Ha Hb Heq) as (_ & _ & ->). do 2 f_equal. lia.
Qed.

Lemma Identity_wire_roundtrip_witness :
  exists b, Identity_serialize 200 (mkIdentity 0x1234567890 (replicate 64 7) (Some (replicate 64 9))) true
              (mkBuffer (replicate 200 0) 0) = Ok b /\
    Identity_deserialize b 0 = Ok (mkIdentity 0x1234567890 (replicate 64 7) (Some (replicate 64 9)), b_len b - 0).
Proof.
  destruct (Identity_wire_roundtrip 200 (mkIdentity 0x1234567890 (replicate 64 7) (Some (replicate 64 9))) true
              (mkBuffer (replicate 200 0) 0)) as [(b & H1 & _ & H2)|[H1 _]].
  - split_and!; [done|by split; [|apply Forall_replicate]|by split; [|apply Forall_replicate]].
  - done.
  - by apply (buf_wf_zeros 200).
  - exists b. split; [exact H1|exact H2].
  - exfalso. revert H1. vm_compute. discriminate.
Defined.

(** toString() of an identity with an unreserved address fits its 384-byte buffer,
    and fromString() on it, whatever the object held before, gives the identity back. *)
Theorem Identity_string_roundtrip id incl tmp this :
  id_wf id -> Address_isReserved (id_address id) = false ->
  length tmp = ZT_IDENTITY_STRING_BUFFER_LENGTH -> length (id_publicKey this) = 64%nat ->
  exists s, Identity_toString id incl = Ok s /\ (length s <= ZT_IDENTITY_STRING_BUFFER_LENGTH)%nat /\
    Identity_fromString tmp this (Some s) =
    Ok (mkIdentity (id_address id) (id_publicKey id) (if incl then id_privateKey id else None), true).
Proof.
  intros Hid Hres Ht Hp. unfold ZT_IDENTITY_STRING_BUFFER_LENGTH in *.
  destruct (id_text_facts id incl Hid) as [Hz Hl].
  exists (id_text id incl ++ [0]). split_and!; [by apply Identity_toString_text|rewrite length_app; cbn [length]; lia|].
  unfold Identity_fromString, ZT_IDENTITY_STRING_BUFFER_LENGTH.
  rewrite scopy_spec; [|lia|unfold zlen; lia|apply elem_of_app; right; by left].
  rewrite cstr_app by done. rewrite take_ge by lia. cbn [mbind outcome_bind].
  rewrite bool_decide_eq_true_2 by lia. cbn [negb]. cbn [app]. rewrite cstr_app by done.
  by rewrite fromString_text.
Qed.

Lemma Identity_string_roundtrip_witness :
  exists s, Identity_toString (mkIdentity 0x1234567890 (replicate 64 7) None) false = Ok s /\
    Identity_fromString (replicate 384 1) (mkIdentity 5 (replicate 64 0) None) (Some s) =
    Ok (mkIdentity 0x1234567890 (replicate 64 7) None, true).
Proof.
  destruct (Identity_string_roundtrip (mkIdentity 0x1234567890 (replicate 64 7) None) false
    (replicate 384 1) (mkIdentity 5 (replicate 64 0) None)) as (s & H1 & _ & H2).
  - split_and!; [done|by split; [|apply Forall_replicate]|done].
  - reflexivity.
  - reflexivity.
  - reflexivity.
  - exists s. split; [exact H1|exact H2].
Defined.

(** what a node signs with its identity is accepted by everyone who received the
    identity in its public binary form, if the key pair accepts it. *)
Theorem Identity_keys_work `{Shape : C25519Shape} C a p buf data :
  id_wf a -> id_privateKey a = Some p -> id_publicKey a = C25519_public p -> C25519_accepts p data ->
  C + 64 < 2 ^ 32 -> buf_wf C buf -> b_len buf + zlen (id_enc a false) <= C ->
  exists buf' a' n sig, Identity_serialize C a false buf = Ok buf' /\
    Identity_deserialize buf' (b_len buf) = Ok (a', n) /\ id_privateKey a' = None /\
    Identity_sign a data = Ok sig /\ Identity_verify a' data sig 96 = true.
Proof.
  intros Ha Hp Hpub Hacc HC Hb Hl. pose proof (Identity_appends C a false Ha HC) as Happ.
  pose proof (proj2 Happ buf Hb) as H. rewrite (proj2 (Z.leb_le _ _)) in H by done.
  destruct H as (buf' & Heq & Hb' & _). eexists buf', _, _, _. split; [done|].
  split; [apply (Identity_deserialize_enc C); [done|done|by eapply appends_has_at]|].
  split; [done|]. unfold Identity_sign. rewrite Hp. split; [done|].
  unfold Identity_verify. cbn [id_publicKey]. by rewrite Hpub.
Qed.

Lemma Identity_keys_work_witness :
  let id := mkIdentity 0x1234567890 (replicate 64 7) (Some (replicate 64 7)) in
  exists sig, Identity_sign (Ops := Toy.toy_ops) id [1; 2; 3] = Ok sig.
Proof.
  intros id.
  destruct (Identity_keys_work (Shape := Toy.toy_shape) 200 id (replicate 64 7) (mkBuffer (replicate 200 0) 0) [1; 2; 3])
    as (_ & _ & _ & sig & _ & _ & _ & H & _); [|reflexivity|reflexivity|apply Toy.toy_accepts|done| |by vm_compute|].
  - split_and!; [done|by split; [|apply Forall_replicate]|by split; [|apply Forall_replicate]].
  - by apply (buf_wf_zeros 200).
  - by exists sig.
Defined.
