(* ===== verification/CertificateOfMembership.v ===== *)
(** Certificates of network membership, node/CertificateOfMembership.hpp and .cpp: up to
    eight qualifiers in an array with a count, sorted by id, and the controller's
    signature over them.

    [com_qualifiers] is the whole array; entries from [com_count] on are whatever was
    there before.  [std::sort] is a sort by id; ids are distinct wherever it matters. *)
From stdpp Require Import sorting.
From S2P Require Import Prelude.
From S2P Require Import Utils.
From S2P Require Import Buffer.
From S2P Require Import Addressing.
From S2P Require Import Wire.
From S2P Require Import CLib.
From S2P Require Import C25519Api.
From S2P Require Import Identity.

Definition ZT_NETWORK_COM_MAX_QUALIFIERS : Z := 8.
Definition COM_RESERVED_ID_TIMESTAMP : Z := 0.
Definition COM_RESERVED_ID_NETWORK_ID : Z := 1.
Definition COM_RESERVED_ID_ISSUED_TO : Z := 2.

Record Qualifier : Type := mkQ { q_id : Z; q_value : Z; q_maxDelta : Z }.

#[export] Instance Qualifier_eq_dec : EqDecision Qualifier.
Proof. solve_decision. Defined.

Record COM : Type := mkCOM {
  com_signedBy : Z;
  com_qualifiers : list Qualifier;
  com_count : Z;
  com_signature : list Z
}.

Definition q_zero : Qualifier := mkQ 0 0 0.

(** [CertificateOfMembership()] *)
Definition COM_empty : COM := mkCOM 0 (replicate 8 q_zero) 0 (replicate 96 0).

(** [CertificateOfMembership(timestamp,timestampMaxDelta,nwid,issuedTo)] *)
Definition COM_new (timestamp timestampMaxDelta nwid issuedTo : Z) : COM :=
  mkCOM 0
    (mkQ COM_RESERVED_ID_TIMESTAMP timestamp timestampMaxDelta ::
     mkQ COM_RESERVED_ID_NETWORK_ID nwid 0 ::
     mkQ COM_RESERVED_ID_ISSUED_TO (Address_toInt issuedTo) 0xffffffffffffffff :: replicate 5 q_zero)
    3 (replicate 96 0).

Definition COM_bool (c : COM) : bool := negb (com_count c =? 0).

(** The loops that look for the first qualifier with an id. *)
Fixpoint find_qualifier (id : Z) (qs : list Qualifier) : option Qualifier :=
  match qs with
  | [] => None
  | q :: qs => if q_id q =? id then Some q else find_qualifier id qs
  end.

(** [_qualifiers[0]] to [_qualifiers[_qualifierCount - 1]] *)
Definition com_live (c : COM) : outcome (list Qualifier) := mem_read (com_qualifiers c) 0 (com_count c).

Definition COM_timestamp (c : COM) : outcome Z :=
  qs ← com_live c; Ok (from_option (fun q => s64 (q_value q)) 0 (find_qualifier COM_RESERVED_ID_TIMESTAMP qs)).
Definition COM_issuedTo (c : COM) : outcome Z :=
  qs ← com_live c;
  Ok (from_option (fun q => Address_of_int (q_value q)) 0 (find_qualifier COM_RESERVED_ID_ISSUED_TO qs)).
Definition COM_networkId (c : COM) : outcome Z :=
  qs ← com_live c; Ok (from_option q_value 0 (find_qualifier COM_RESERVED_ID_NETWORK_ID qs)).

(** ** Updating *)

Definition q_le (a b : Qualifier) : Prop := q_id a <= q_id b.

#[export] Instance q_le_dec : RelDecision q_le.
Proof. intros a b. unfold q_le. apply _. Defined.

(** The loop of [setQualifier] over the present qualifiers; [None] when the id is new. *)
Fixpoint update_qualifier (id value maxDelta : Z) (qs : list Qualifier) : option (list Qualifier) :=
  match qs with
  | [] => None
  | q :: qs =>
      if q_id q =? id then Some (mkQ id value maxDelta :: qs)
      else (cons q) <$> update_qualifier id value maxDelta qs
  end.

Definition COM_setQualifier (c : COM) (id value maxDelta : Z) : outcome COM :=
  qs ← com_live c;
  match update_qualifier id value maxDelta qs with
  | Some qs => m ← mem_write (com_qualifiers c) 0 qs; Ok (mkCOM 0 m (com_count c) (com_signature c))
  | None =>
      if com_count c <? ZT_NETWORK_COM_MAX_QUALIFIERS then
        m ← mem_write (com_qualifiers c) (com_count c) [mkQ id value maxDelta];
        live ← mem_read m 0 (com_count c + 1);
        m ← mem_write m 0 (merge_sort q_le live);
        Ok (mkCOM 0 m (com_count c + 1) (com_signature c))
      else Ok (mkCOM 0 (com_qualifiers c) (com_count c) (com_signature c))
  end.

(** ** Agreement *)

(** The inner loop of [agreesWith]: the index of the qualifier with the id, from
    [otheridx] on, [None] for [return false]. *)
Fixpoint agree_seek (fuel : nat) (id : Z) (other : COM) (otheridx : Z) : outcome (option Z) :=
  match fuel with
  | O => Ok None
  | S fuel =>
      q ← load (com_qualifiers other) otheridx;
      if q_id q =? id then Ok (Some otheridx) else
      if com_count other <=? otheridx + 1 then Ok None
      else agree_seek fuel id other (otheridx + 1)
  end.

Fixpoint agree_loop (fuel : nat) (this other : COM) (myidx otheridx : Z) : outcome bool :=
  match fuel with
  | O => Ok true
  | S fuel =>
      if myidx <? com_count this then
        if com_count other <=? otheridx then Ok false else
        q ← load (com_qualifiers this) myidx;
        r ← agree_seek (Z.to_nat (com_count other)) (q_id q) other otheridx;
        match r with
        | None => Ok false
        | Some otheridx =>
            let a := q_value q in
            oq ← load (com_qualifiers other) myidx;
            let b := q_value oq in
            if q_maxDelta q <? (if b <=? a then a - b else b - a) then Ok false
            else agree_loop fuel this other (myidx + 1) otheridx
        end
      else Ok true
  end.

Definition COM_agreesWith (this other : COM) : outcome bool :=
  if (com_count this =? 0) || (com_count other =? 0) then Ok false
  else agree_loop (Z.to_nat (com_count this)) this other 0 0.

(** ** Signatures *)

(** The native words stored in [buf] for one qualifier. *)
Definition q_bytes (q : Qualifier) : list Z :=
  le_bytes 8 (Utils_hton64 (q_id q)) ++ le_bytes 8 (Utils_hton64 (q_value q)) ++
  le_bytes 8 (Utils_hton64 (q_maxDelta q)).

(** The bytes that are signed; [buf] has room for eight qualifiers. *)
Definition com_signed_bytes (c : COM) : outcome (list Z) :=
  qs ← com_live c;
  if ZT_NETWORK_COM_MAX_QUALIFIERS <? com_count c then Undef else Ok (mjoin (q_bytes <$> qs)).

Section Signatures.
Context `{Ops : C25519Ops}.

Definition COM_sign (c : COM) (with_ : Identity) : outcome (COM * bool) :=
  buf ← com_signed_bytes c;
  match Identity_sign with_ buf with
  | Ok sig => Ok (mkCOM (id_address with_) (com_qualifiers c) (com_count c) sig, true)
  | Throw _ => Ok (mkCOM 0 (com_qualifiers c) (com_count c) (com_signature c), false)
  | Undef => Undef
  end.

(** [Network::controllerFor] *)
Definition controllerFor (nwid : Z) : Z := Address_of_int (Z.shiftr nwid 24).

(** [getIdentity] is the topology's lookup, the null identity for an unknown address; the
    result is the return value and the addresses handed to [requestWhois]. *)
Definition COM_verify (getIdentity : Z -> Identity) (c : COM) : outcome (Z * list Z) :=
  nwid ← COM_networkId c;
  if negb (Address_bool (com_signedBy c)) || negb (com_signedBy c =? controllerFor nwid) ||
     (ZT_NETWORK_COM_MAX_QUALIFIERS <? com_count c)
  then Ok (-1, []) else
  let id := getIdentity (com_signedBy c) in
  if negb (Identity_bool id) then Ok (1, [com_signedBy c]) else
  buf ← com_signed_bytes c;
  Ok (if C25519_verify (id_publicKey id) buf (com_signature c) then 0 else -1, []).

End Signatures.

(** ** Binary form *)

Definition Qualifier_append (C : Z) (q : Qualifier) (b : Buffer) : outcome Buffer :=
  b ← Buffer_append_int C b 8 (q_id q);
  b ← Buffer_append_int C b 8 (q_value q);
  Buffer_append_int C b 8 (q_maxDelta q).

Definition COM_serialize (C : Z) (c : COM) (b : Buffer) : outcome Buffer :=
  b ← Buffer_append_int C b 1 1;
  b ← Buffer_append_int C b 2 (com_count c);
  qs ← com_live c;
  b ← write_all (Qualifier_append C) qs b;
  b ← Address_appendTo C (com_signedBy c) b;
  if Address_bool (com_signedBy c) then Buffer_append C b (com_signature c) ZT_C25519_SIGNATURE_LEN
  else Ok b.

(** The loop of [deserialize]: the array, the count and the index after it. *)
Fixpoint com_read_qualifiers (numq : nat) (b : Buffer) (p lastId : Z) (qs : list Qualifier) (count : Z)
  : outcome (list Qualifier * Z * Z) :=
  match numq with
  | O => Ok (qs, count, p)
  | S numq =>
      qid ← Buffer_at b 8 p;
      if qid <? lastId then Throw SERIALIZED_DATA_BAD_ENCODING else
      if count <? ZT_NETWORK_COM_MAX_QUALIFIERS then
        value ← Buffer_at b 8 (u32 (p + 8));
        maxDelta ← Buffer_at b 8 (u32 (p + 16));
        qs ← mem_write qs count [mkQ qid value maxDelta];
        com_read_qualifiers numq b (u32 (p + 24)) qid qs (count + 1)
      else Throw SERIALIZED_DATA_OVERFLOW
  end.

Definition COM_deserialize (this : COM) (b : Buffer) (startAt : Z) : outcome (COM * Z) :=
  let p := startAt in
  t ← Buffer_index b p;
  let p := u32 (p + 1) in
  if negb (t =? 1) then Throw SERIALIZED_DATA_INVALID_TYPE else
  numq ← Buffer_at b 2 p;
  let p := u32 (p + 2) in
  '(qs, count, p) ← com_read_qualifiers (Z.to_nat numq) b p 0 (com_qualifiers this) 0;
  signedBy ← Buffer_read_address b p;
  let p := u32 (p + ZT_ADDRESS_LENGTH) in
  if Address_bool signedBy then
    sig ← Buffer_read_field b p ZT_C25519_SIGNATURE_LEN;
    let p := u32 (p + ZT_C25519_SIGNATURE_LEN) in
    Ok (mkCOM signedBy qs count sig, u32 (p - startAt))
  else Ok (mkCOM signedBy qs count (com_signature this), u32 (p - startAt)).

(** ** Text form *)

(** [toString()]: [hex] writes into the array [tmp] of 256 bytes and what is appended to
    the string is read from there. *)
Definition hex_via_tmp (tmp d : list Z) : outcome (list Z * list Z) :=
  h ← Utils_hex d;
  tmp ← mem_write tmp 0 h;
  Ok (cstr tmp, tmp).

Definition COM_toString (tmp : list Z) (c : COM) : outcome (list Z) :=
  qs ← com_live c;
  '(q, tmp) ← hex_via_tmp tmp (mjoin (q_bytes <$> qs));
  a ← Utils_hex10 (com_signedBy c);
  tmp ← mem_write tmp 0 a;
  let s := [49; 58] ++ q ++ [58] ++ cstr tmp in
  if Address_bool (com_signedBy c) then
    '(g, _) ← hex_via_tmp tmp (com_signature c);
    Ok (s ++ [58] ++ g)
  else Ok s.

(** ** Well-formed certificates *)

(** ** Comparison *)

Definition COM_eqb (this c : COM) : outcome bool :=
  if negb (com_signedBy this =? com_signedBy c) then Ok false else
  if negb (com_count this =? com_count c) then Ok false else
  qs ← com_live this;
  qs' ← mem_read (com_qualifiers c) 0 (com_count this);
  if bool_decide (qs = qs') then Ok (bool_decide (com_signature this = com_signature c)) else Ok false.

Definition q_ok (q : Qualifier) : Prop := is_u64 (q_id q) /\ is_u64 (q_value q) /\ is_u64 (q_maxDelta q).

#[export] Instance q_ok_dec q : Decision (q_ok q).
Proof. unfold q_ok. apply _. Defined.

(** The qualifiers that count. *)
Definition live (c : COM) : list Qualifier := ztake (com_count c) (com_qualifiers c).

Definition ids (qs : list Qualifier) : list Z := q_id <$> qs.

Record com_wf (c : COM) : Prop := {
  cw_array : length (com_qualifiers c) = 8%nat;
  cw_ok : Forall q_ok (com_qualifiers c);
  cw_count : 0 <= com_count c <= 8;
  cw_sorted : StronglySorted Z.lt (ids (live c));
  cw_signer : in_range 40 (com_signedBy c);
  cw_sig : zlen (com_signature c) = 96 /\ Forall is_byte (com_signature c)
}.

Lemma com_live_Ok c : com_wf c -> com_live c = Ok (live c).
Proof.
  intros [Ha _ Hc _ _ _]. unfold com_live. rewrite mem_read_Ok by (unfold zlen; lia). by rewrite slice_0.
Qed.

Lemma zlen_live c : com_wf c -> zlen (live c) = com_count c.
Proof. intros [Ha _ Hc _ _ _]. unfold live. rewrite zlen_ztake; [done|]. unfold zlen. lia. Qed.

Lemma length_live c : com_wf c -> length (live c) = Z.to_nat (com_count c).
Proof. intros H. pose proof (zlen_live c H). unfold zlen in *. lia. Qed.

Lemma live_ok c : com_wf c -> Forall q_ok (live c).
Proof. intros [_ Hf _ _ _ _]. by apply Forall_take. Qed.

Lemma load_lookup {A} (l : list A) i x : l !! i = Some x -> load l (Z.of_nat i) = Ok x.
Proof.
  intros H. unfold load, zget. rewrite (proj2 (Z.leb_le _ _)) by lia. by rewrite Nat2Z.id, H.
Qed.

Lemma live_lookup c i q : live c !! i = Some q -> com_qualifiers c !! i = Some q.
Proof. unfold live, ztake. intros [H _]%lookup_take_Some. done. Qed.

Lemma array_lookup c i : com_wf c -> (i < 8)%nat -> is_Some (com_qualifiers c !! i).
Proof. intros H Hi. apply lookup_lt_is_Some. by rewrite (cw_array c H). Qed.

(** ** What agreesWith computes *)

(** A value is within a qualifier's delta. *)
Definition within (q : Qualifier) (b : Z) : bool := Z.abs (q_value q - b) <=? q_maxDelta q.

(** The promise of the header: every qualifier of this certificate is in the other one
    and agrees to within this one's maximum delta. *)
Definition agrees_spec (this other : COM) : bool :=
  negb (com_count this =? 0) && negb (com_count other =? 0) &&
  forallb (fun q => match find_qualifier (q_id q) (live other) with
                    | Some q' => within q (q_value q')
                    | None => false
                    end) (live this).

(** What the code compares instead: the value in the same position of the array. *)
Definition agrees_positions (this other : COM) : bool :=
  negb (com_count this =? 0) && negb (com_count other =? 0) &&
  forallb (fun '(q, q') => bool_decide (q_id q ∈ ids (live other)) && within q (q_value q'))
    (zip (live this) (com_qualifiers other)).

Lemma agree_seek_spec fuel id other j :
  com_wf other -> (j < length (live other))%nat -> (length (live other) - j <= fuel)%nat ->
  agree_seek fuel id other (Z.of_nat j) =
  Ok ((fun p => Z.of_nat (j + p.1)) <$> list_find (fun q => q_id q = id) (drop j (live other))).
Proof.
  intros Hw. revert j. induction fuel as [|fuel IH]; intros j Hj Hf; [lia|]. cbn [agree_seek].
  destruct (lookup_lt_is_Some_2 (live other) j Hj) as [q Hq].
  rewrite (load_lookup _ _ q) by (by apply live_lookup). cbn [mbind outcome_bind].
  rewrite (drop_S _ q) by done. cbn [list_find].
  destruct (decide (q_id q = id)) as [He|He].
  { rewrite (proj2 (Z.eqb_eq _ _)) by done. cbn. by rewrite Nat.add_0_r. }
  rewrite (proj2 (Z.eqb_neq _ _)) by done.
  pose proof (length_live other Hw) as Hl. pose proof (cw_count other Hw).
  destruct (Z.leb_spec (com_count other) (Z.of_nat j + 1)).
  - rewrite drop_ge by lia. done.
  - replace (Z.of_nat j + 1) with (Z.of_nat (S j)) by lia. rewrite IH by lia.
    f_equal. destruct (list_find _ _) as [[i x]|]; [|done]. cbn. f_equal. lia.
Qed.

Lemma sorted_lookup_lt qs i j a b :
  StronglySorted Z.lt (ids qs) -> qs !! i = Some a -> qs !! j = Some b -> (i < j)%nat -> q_id a < q_id b.
Proof.
  intros Hs Ha Hb Hij.
  assert (H : ids qs !! i = Some (q_id a)) by (unfold ids; by rewrite list_lookup_fmap, Ha).
  assert (H' : ids qs !! j = Some (q_id b)) by (unfold ids; by rewrite list_lookup_fmap, Hb).
  revert Hs H H' Hij. generalize (ids qs), (q_id a), (q_id b). clear. intros l x y Hs.
  revert i j. induction Hs as [|z l Hs IH Hz]; intros i j Hi Hj Hij; [done|].
  destruct i as [|i], j as [|j]; [lia| |lia|].
  - cbn in *. simplify_eq. rewrite Forall_lookup in Hz. by eapply Hz.
  - cbn in *. eapply IH; [done|done|lia].
Qed.

Lemma list_find_drop_ids id qs j :
  (forall i oq, (i < j)%nat -> qs !! i = Some oq -> q_id oq <> id) ->
  bool_decide (id ∈ ids qs) = bool_decide (is_Some (list_find (fun q => q_id q = id) (drop j qs))).
Proof.
  intros Hj. apply bool_decide_ext. unfold ids. rewrite list_elem_of_fmap. split.
  - intros (q & -> & [i Hi]%list_elem_of_lookup).
    destruct (decide (i < j)%nat) as [Hlt|Hge]; [by destruct (Hj i q Hlt Hi)|].
    apply list_find_elem_of with (x := q); [|done].
    apply (list_elem_of_lookup_2 _ (i - j)). rewrite lookup_drop. by replace (j + (i - j))%nat with i by lia.
  - intros [[i q] (Hi & Hq & _)%list_find_Some]. rewrite lookup_drop in Hi. exists q. split; [done|].
    by eapply list_elem_of_lookup_2.
Qed.

Lemma within_cond q b : (q_maxDelta q <? (if b <=? q_value q then q_value q - b else b - q_value q)) = negb (within q b).
Proof. unfold within. destruct (Z.leb_spec b (q_value q)); lia. Qed.

Lemma agree_loop_spec fuel this other k j :
  com_wf this -> com_wf other -> (j < length (live other))%nat -> (k + fuel = length (live this))%nat ->
  (forall i q oq, (i < j)%nat -> live other !! i = Some oq -> live this !! k = Some q -> q_id oq < q_id q) ->
  agree_loop fuel this other (Z.of_nat k) (Z.of_nat j) =
  Ok (forallb (fun '(q, q') => bool_decide (q_id q ∈ ids (live other)) && within q (q_value q'))
        (zip (drop k (live this)) (drop k (com_qualifiers other)))).
Proof.
  intros Ht Ho. revert k j. induction fuel as [|fuel IH]; intros k j Hj Hk Hinv.
  { rewrite drop_ge by lia. done. }
  cbn [agree_loop]. pose proof (length_live this Ht) as Hlt. pose proof (length_live other Ho) as Hlo.
  pose proof (cw_count this Ht). pose proof (cw_count other Ho).
  rewrite (proj2 (Z.ltb_lt _ _)), (proj2 (Z.leb_gt _ _)) by lia.
  destruct (lookup_lt_is_Some_2 (live this) k ltac:(lia)) as [q Hq].
  destruct (array_lookup other k Ho ltac:(lia)) as [q' Hq'].
  rewrite (load_lookup (com_qualifiers this) k q) by (by apply live_lookup). cbn [mbind outcome_bind].
  rewrite agree_seek_spec by (done || lia). cbn [mbind outcome_bind].
  rewrite (load_lookup (com_qualifiers other) k q') by done. cbn [mbind outcome_bind].
  rewrite (drop_S (live this) q), (drop_S (com_qualifiers other) q') by done. cbn [zip zip_with forallb].
  rewrite (list_find_drop_ids (q_id q) (live other) j).
  2:{ intros i oq Hi Hoq. pose proof (Hinv i q oq Hi Hoq Hq). lia. }
  destruct (list_find _ _) as [[i oq]|] eqn:Hf; cbn [fmap option_fmap option_map]; [|done].
  apply list_find_Some in Hf as (Hoq & Hid & _). rewrite lookup_drop in Hoq.
  rewrite bool_decide_eq_true_2 by eauto. cbn [andb]. cbv zeta. rewrite within_cond.
  destruct (within q (q_value q')); [|done]. cbn [negb andb].
  replace (Z.of_nat k + 1) with (Z.of_nat (S k)) by lia. apply IH; [|lia|].
  - cbn [fst]. by eapply lookup_lt_Some.
  - cbn [fst]. intros i' q2 oq2 Hi' Hoq2 Hq2.
    pose proof (sorted_lookup_lt _ _ _ _ _ (cw_sorted _ Ho) Hoq2 Hoq Hi').
    pose proof (sorted_lookup_lt _ _ _ _ _ (cw_sorted _ Ht) Hq Hq2 ltac:(lia)). lia.
Qed.

Lemma agreesWith_positions this other :
  com_wf this -> com_wf other -> COM_agreesWith this other = Ok (agrees_positions this other).
Proof.
  intros Ht Ho. unfold COM_agreesWith, agrees_positions.
  destruct (Z.eqb_spec (com_count this) 0) as [|H1]; [done|].
  destruct (Z.eqb_spec (com_count other) 0) as [|H2]; [done|]. cbn [orb negb andb].
  pose proof (cw_count this Ht). pose proof (cw_count other Ho).
  pose proof (length_live this Ht) as Hlt. pose proof (length_live other Ho) as Hlo.
  apply (agree_loop_spec _ this other 0 0); [done|done|lia|lia|lia].
Qed.

Lemma find_qualifier_sorted qs i q :
  StronglySorted Z.lt (ids qs) -> qs !! i = Some q -> find_qualifier (q_id q) qs = Some q.
Proof.
  revert i. induction qs as [|x qs IH]; intros i Hs Hq; [done|]. cbn [find_qualifier].
  destruct i as [|i]; [cbn in Hq; simplify_eq; by rewrite Z.eqb_refl|]. cbn in Hq.
  pose proof (sorted_lookup_lt (x :: qs) 0 (S i) x q Hs eq_refl Hq ltac:(lia)).
  rewrite (proj2 (Z.eqb_neq _ _)) by lia. apply (IH i); [|done]. by inversion Hs.
Qed.

(** Where the ids are in the same positions the comparison is the promised one. *)
Lemma agrees_positions_spec this other :
  com_wf this -> com_wf other -> ids (live this) `prefix_of` ids (live other) ->
  agrees_positions this other = agrees_spec this other.
Proof.
  intros Ht Ho [rest Hp]. unfold agrees_positions, agrees_spec. f_equal.
  assert (H : forall k n, (k + n = length (live this))%nat ->
    forallb (fun '(q, q') => bool_decide (q_id q ∈ ids (live other)) && within q (q_value q'))
      (zip (drop k (live this)) (drop k (com_qualifiers other))) =
    forallb (fun q => match find_qualifier (q_id q) (live other) with
                      | Some q' => within q (q_value q') | None => false end) (drop k (live this)));
    [|by apply (H 0%nat (length (live this)))].
  intros k n. revert k. induction n as [|n IH]; intros k Hk; [by rewrite !drop_ge by lia|].
  destruct (lookup_lt_is_Some_2 (live this) k ltac:(lia)) as [q Hq].
  assert (Hi : ids (live other) !! k = Some (q_id q)).
  { rewrite Hp, lookup_app_l by (unfold ids; rewrite length_fmap; lia). unfold ids. by rewrite list_lookup_fmap, Hq. }
  unfold ids in Hi. rewrite list_lookup_fmap in Hi. apply fmap_Some in Hi as (q' & Hq' & Hid).
  rewrite (drop_S (live this) q), (drop_S (com_qualifiers other) q') by (done || by apply live_lookup).
  cbn [zip zip_with forallb]. rewrite Hid, (find_qualifier_sorted _ _ _ (cw_sorted _ Ho) Hq').
  rewrite bool_decide_eq_true_2; [|by apply list_elem_of_fmap_2, list_elem_of_lookup_2 with k].
  rewrite IH by lia. done.
Qed.

(** ** setQualifier *)

Lemma find_qualifier_Some qs k q :
  NoDup (ids qs) -> find_qualifier k qs = Some q <-> q ∈ qs /\ q_id q = k.
Proof.
  induction qs as [|x qs IH]; intros Hn.
  { split; [done|]. intros [H%not_elem_of_nil _]. done. }
  cbn [find_qualifier]. unfold ids in Hn. cbn in Hn. apply NoDup_cons in Hn as [Hx Hn].
  rewrite elem_of_cons. destruct (Z.eqb_spec (q_id x) k) as [He|He].
  - split; [intros [= ->]; auto|]. intros [[->|Hq] Hk]; [done|]. destruct Hx.
    rewrite He, <- Hk. by apply list_elem_of_fmap_2.
  - rewrite IH by done. naive_solver.
Qed.

Lemma find_qualifier_None qs k : find_qualifier k qs = None <-> k ∉ ids qs.
Proof.
  induction qs as [|x qs IH]; [split; [intros _; apply not_elem_of_nil|done]|]. cbn [find_qualifier].
  change (ids (x :: qs)) with (q_id x :: ids qs). rewrite not_elem_of_cons.
  destruct (Z.eqb_spec (q_id x) k); [naive_solver|]. rewrite IH. naive_solver.
Qed.

Lemma find_qualifier_ext qs qs' k :
  NoDup (ids qs) -> NoDup (ids qs') -> (forall q, q_id q = k -> q ∈ qs <-> q ∈ qs') ->
  find_qualifier k qs = find_qualifier k qs'.
Proof.
  intros H1 H2 He. apply option_eq. intros q. rewrite !find_qualifier_Some by done. naive_solver.
Qed.

Lemma update_qualifier_spec id v d qs :
  match update_qualifier id v d qs with
  | Some qs' => ids qs' = ids qs /\ id ∈ ids qs /\ length qs' = length qs /\
      (Forall q_ok qs -> q_ok (mkQ id v d) -> Forall q_ok qs') /\
      forall k, find_qualifier k qs' = if k =? id then Some (mkQ id v d) else find_qualifier k qs
  | None => id ∉ ids qs
  end.
Proof.
  induction qs as [|q qs IH]; [apply not_elem_of_nil|]. cbn [update_qualifier].
  change (ids (q :: qs)) with (q_id q :: ids qs).
  destruct (Z.eqb_spec (q_id q) id) as [He|He].
  - split_and!; [cbn; by rewrite He|rewrite He; by left|done|intros Hf Hq; inversion Hf; by constructor|].
    intros k. cbn [find_qualifier q_id]. rewrite (Z.eqb_sym k id), He. by destruct (id =? k).
  - destruct (update_qualifier id v d qs) as [qs'|]; cbn [fmap option_fmap option_map];
      [|by apply not_elem_of_cons; split; [intros ->|]].
    destruct IH as (H1 & H2 & H3 & H4 & H5). split_and!.
    + cbn. by rewrite <- H1.
    + by right.
    + cbn. by rewrite H3.
    + intros Hf Hq. inversion Hf; subst. constructor; [done|by apply H4].
    + intros k. cbn [find_qualifier]. rewrite H5. destruct (Z.eqb_spec (q_id q) k), (Z.eqb_spec k id); congruence.
Qed.

Lemma strictly_sorted_NoDup l : StronglySorted Z.lt l -> NoDup l.
Proof.
  induction 1 as [|x l Hs IH Hx]; [constructor|]. constructor; [|done].
  intros Hin. rewrite Forall_forall in Hx. pose proof (Hx x Hin). lia.
Qed.

Lemma sort_strict qs :
  NoDup (ids qs) -> StronglySorted Z.lt (ids (merge_sort q_le qs)).
Proof.
  intros Hn. assert (Ht : Transitive q_le) by (intros a b c; unfold q_le; lia).
  assert (Htot : Total q_le) by (intros a b; unfold q_le; lia).
  assert (Hs : StronglySorted q_le (merge_sort q_le qs)) by (by apply StronglySorted_merge_sort).
  assert (Hn' : NoDup (ids (merge_sort q_le qs))).
  { unfold ids. by rewrite (merge_sort_Permutation q_le qs). }
  revert Hs Hn'. generalize (merge_sort q_le qs). clear. intros qs.
  induction 1 as [|x qs Hs IH Hx]; intros Hn; [constructor|].
  change (ids (x :: qs)) with (q_id x :: ids qs) in *. apply NoDup_cons in Hn as [Hxn Hn].
  constructor; [by apply IH|]. unfold ids. rewrite Forall_fmap, Forall_forall. intros y Hy.
  rewrite Forall_forall in Hx. specialize (Hx y Hy). cbn. unfold q_le in Hx. assert (q_id x <> q_id y); [|lia].
  intros He. destruct Hxn. rewrite He. by apply list_elem_of_fmap_2.
Qed.

Lemma ids_app qs qs' : ids (qs ++ qs') = ids qs ++ ids qs'.
Proof. apply fmap_app. Qed.

(** Writing over the first qualifiers. *)
Lemma write_front arr qs n sb sg :
  length arr = 8%nat -> Forall q_ok arr -> zlen qs = n -> 0 <= n <= 8 -> Forall q_ok qs -> StronglySorted Z.lt (ids qs) ->
  in_range 40 sb -> zlen sg = 96 /\ Forall is_byte sg ->
  exists m, mem_write arr 0 qs = Ok m /\ com_wf (mkCOM sb m n sg) /\ live (mkCOM sb m n sg) = qs.
Proof.
  intros Ha Hf Hz Hn Hq Hs Hsb Hsg.
  assert (Hl : zlen arr = 8) by (unfold zlen; by rewrite Ha).
  rewrite mem_write_Ok by lia. eexists. split; [done|]. rewrite ztake_0, app_nil_l, Z.add_0_l, Hz.
  assert (Hlive : live (mkCOM sb (qs ++ zdrop n arr) n sg) = qs)
    by (by apply ztake_app_exact).
  split; [|done]. split; cbn [com_qualifiers com_count com_signedBy com_signature]; try done.
  - pose proof (zlen_zdrop n arr) as Hd. unfold zlen in *. rewrite length_app. lia.
  - apply Forall_app_2; [done|by apply Forall_drop].
  - by rewrite Hlive.
Qed.

Lemma setQualifier_full c id v d :
  com_wf c -> q_ok (mkQ id v d) ->
  exists c', COM_setQualifier c id v d = Ok c' /\ com_wf c' /\ com_signedBy c' = 0 /\
    forall k, find_qualifier k (live c') =
      if bool_decide (k = id /\ (id ∈ ids (live c) \/ com_count c < 8)) then Some (mkQ id v d)
      else find_qualifier k (live c).
Proof.
  intros Hw Hq. pose proof (update_qualifier_spec id v d (live c)) as Hu.
  pose proof (zlen_live c Hw) as Hl. pose proof (cw_count c Hw) as Hc. pose proof (cw_sorted c Hw) as Hs.
  unfold COM_setQualifier. rewrite com_live_Ok by done. cbn [mbind outcome_bind].
  destruct (update_qualifier id v d (live c)) as [qs|].
  - destruct Hu as (H1 & H2 & H3 & H4 & H5).
    destruct (write_front (com_qualifiers c) qs (com_count c) 0 (com_signature c)) as (m & -> & Hw' & Hlive);
      [apply Hw|apply Hw|by unfold zlen in *; lia|done|by apply H4; [apply live_ok|]|by rewrite H1|done|apply Hw|].
    eexists. split; [done|]. split_and!; [done|done|]. intros k. rewrite Hlive, H5.
    destruct (Z.eqb_spec k id); [rewrite bool_decide_eq_true_2 by auto|rewrite bool_decide_eq_false_2 by tauto]; done.
  - destruct (Z.ltb_spec (com_count c) ZT_NETWORK_COM_MAX_QUALIFIERS) as [Hlt|Hge].
    2:{ eexists. split; [done|]. split_and!; [|done|].
        - by destruct Hw.
        - intros k. rewrite bool_decide_eq_false_2; [done|]. unfold ZT_NETWORK_COM_MAX_QUALIFIERS in Hge.
          intros [-> [Hin|Hlt]]; [done|lia]. }
    unfold ZT_NETWORK_COM_MAX_QUALIFIERS in Hlt.
    assert (Hz : zlen (com_qualifiers c) = 8) by (unfold zlen; by rewrite (cw_array c Hw)).
    rewrite mem_write_Ok by (change (zlen [_]) with 1; lia). cbn [mbind outcome_bind].
    fold (live c). change (zlen [_]) with 1.
    rewrite mem_read_Ok by (rewrite ?zlen_app, ?Hl, ?zlen_zdrop by lia; change (zlen [_]) with 1; lia).
    rewrite slice_0, app_assoc, ztake_app_exact by (rewrite zlen_app, Hl; done). cbn [mbind outcome_bind].
    set (qs := live c ++ [mkQ id v d]).
    assert (Hn : NoDup (ids qs)).
    { unfold qs. rewrite ids_app. apply NoDup_app. split_and!; [by apply strictly_sorted_NoDup| |apply NoDup_singleton].
      intros k Hk ->%list_elem_of_singleton. done. }
    assert (Hp : merge_sort q_le qs ≡ₚ qs) by apply merge_sort_Permutation.
    assert (Hqs : Forall q_ok qs) by (apply Forall_app_2; [by apply live_ok|by constructor]).
    assert (Hlq : zlen (merge_sort q_le qs) = com_count c + 1).
    { unfold zlen. rewrite Hp. fold (zlen qs). unfold qs. rewrite zlen_app, Hl. done. }
    destruct (write_front (qs ++ zdrop (com_count c + 1) (com_qualifiers c))
      (merge_sort q_le qs) (com_count c + 1) 0 (com_signature c)) as (m & -> & Hw' & Hlive);
      [|apply Forall_app_2; [done|apply Forall_drop, Hw]|done|lia|by rewrite Hp|by apply sort_strict|done|apply Hw|].
    { pose proof (zlen_zdrop (com_count c + 1) (com_qualifiers c)) as Hd.
      assert (zlen qs = com_count c + 1) by (unfold qs; by rewrite zlen_app, Hl).
      unfold zlen in *. rewrite length_app. lia. }
    cbn [mbind outcome_bind]. eexists. split; [done|]. split_and!; [done|done|]. intros k. rewrite Hlive.
    destruct (decide (k = id)) as [->|Hk].
    + rewrite bool_decide_eq_true_2 by (split; [done|by right]).
      apply find_qualifier_Some; [by unfold ids; rewrite Hp|]. rewrite Hp. split; [|done].
      apply elem_of_app. right. by apply list_elem_of_singleton.
    + rewrite bool_decide_eq_false_2 by tauto.
      apply find_qualifier_ext; [by unfold ids; rewrite Hp|by apply strictly_sorted_NoDup|].
      intros q Hid. rewrite Hp. unfold qs. rewrite elem_of_app, list_elem_of_singleton. naive_solver.
Qed.

(** ** Binary form *)

Definition q_enc (q : Qualifier) : list Z := be_bytes 8 (q_id q) ++ be_bytes 8 (q_value q) ++ be_bytes 8 (q_maxDelta q).

Definition com_enc (c : COM) : list Z :=
  be_bytes 1 1 ++ be_bytes 2 (com_count c) ++ mjoin (q_enc <$> live c) ++ be_bytes 5 (com_signedBy c) ++
  (if Address_bool (com_signedBy c) then com_signature c else []).

Lemma q_bytes_enc q : q_bytes q = q_enc q.
Proof. unfold q_bytes, q_enc. by rewrite !le_bytes_hton64. Qed.

Lemma COM_appends C c :
  com_wf c -> C + 96 < 2 ^ 32 -> appends C (COM_serialize C c) (com_enc c).
Proof.
  intros Hw HC. unfold COM_serialize, com_enc. rewrite com_live_Ok by done.
  apply (appends_bind C); [apply appends_int|]. apply (appends_bind C); [apply appends_int|].
  cbn [mbind outcome_bind]. apply (appends_bind C).
  { apply appends_all, Forall_true. intros q. unfold Qualifier_append, q_enc.
    apply (appends_bind C); [apply appends_int|]. apply (appends_bind C); apply appends_int. }
  apply (appends_bind C); [apply appends_address; lia|]. destruct (Address_bool _); [|apply appends_ret].
  apply appends_whole; [apply Hw|apply Hw|]. unfold ZT_C25519_SIGNATURE_LEN. lia.
Qed.

Lemma com_read_qualifiers_enc C b qs p lastId arr cnt rest :
  buf_wf C b -> has_at b p (mjoin (q_enc <$> qs) ++ rest) ->
  Forall q_ok qs -> StronglySorted Z.lt (ids qs) -> Forall (fun k => lastId <= k) (ids qs) ->
  zlen arr = 8 -> 0 <= cnt -> cnt + zlen qs <= 8 ->
  com_read_qualifiers (length qs) b p lastId arr cnt =
    Ok (ztake cnt arr ++ qs ++ zdrop (cnt + zlen qs) arr, cnt + zlen qs, p + 24 * zlen qs) /\
  has_at b (p + 24 * zlen qs) rest.
Proof.
  intros Hb. revert p lastId arr cnt.
  induction qs as [|q qs IH]; intros p lastId arr cnt Hh Hok Hs Hlast Harr Hcnt Hmax.
  { change (zlen []) with 0 in *. rewrite !Z.add_0_r. cbn [length com_read_qualifiers app].
    by rewrite ztake_zdrop. }
  apply Forall_cons in Hok as [(H1 & H2 & H3) Hok].
  change (ids (q :: qs)) with (q_id q :: ids qs) in *. apply Forall_cons in Hlast as [Hl Hlast].
  inversion Hs as [|? ? Hs' Hf]; subst.
  assert (Hz : zlen (q :: qs) = zlen qs + 1) by (unfold zlen; cbn [length]; lia).
  pose proof (zlen_nonneg qs). rewrite Hz in *.
  cbn [fmap list_fmap mjoin list_join] in Hh. unfold q_enc at 1 in Hh. rewrite <- !app_assoc in Hh.
  cbn [length com_read_qualifiers].
  destruct (read_int C b Hb p 8 (q_id q) _ H1 Hh) as (R1 & N1 & Hh1).
  destruct (read_int C b Hb _ 8 (q_value q) _ H2 Hh1) as (R2 & N2 & Hh2).
  destruct (read_int C b Hb _ 8 (q_maxDelta q) _ H3 Hh2) as (R3 & N3 & Hh3).
  change (Z.of_nat 8) with 8 in *. rewrite R1. cbn [mbind outcome_bind].
  rewrite (proj2 (Z.ltb_ge _ _)) by done. unfold ZT_NETWORK_COM_MAX_QUALIFIERS.
  rewrite (proj2 (Z.ltb_lt _ _)) by lia. rewrite N1, R2. cbn [mbind outcome_bind].
  replace (p + 16) with (p + 8 + 8) by lia. rewrite N2, R3. cbn [mbind outcome_bind].
  replace (p + 24) with (p + 8 + 8 + 8) by lia. rewrite N3.
  replace (mkQ (q_id q) (q_value q) (q_maxDelta q)) with q by (by destruct q).
  destruct (mem_write_one arr cnt q) as (arr' & -> & Harr' & E1 & E2); [lia|]. cbn [mbind outcome_bind].
  destruct (IH (p + 8 + 8 + 8) (q_id q) arr' (cnt + 1) Hh3) as [Hr Hh4];
    [done|done|eapply Forall_impl; [exact Hf|cbn; lia]|lia|lia|lia|].
  rewrite Hr. split.
  - rewrite E1, E2, <- app_assoc by lia. cbn [app]. replace (cnt + 1 + zlen qs) with (cnt + (zlen qs + 1)) by lia.
    by replace (p + 8 + 8 + 8 + 24 * zlen qs) with (p + 24 * (zlen qs + 1)) by lia.
  - by replace (p + 24 * (zlen qs + 1)) with (p + 8 + 8 + 8 + 24 * zlen qs) by lia.
Qed.

Lemma zlen_q_encs qs : zlen (mjoin (q_enc <$> qs)) = 24 * zlen qs.
Proof.
  induction qs as [|q qs IH]; [done|].
  change (mjoin (q_enc <$> q :: qs)) with (q_enc q ++ mjoin (q_enc <$> qs)).
  rewrite zlen_app, IH. unfold q_enc at 1. rewrite !zlen_app, !zlen_be_bytes. unfold zlen. cbn [length]. lia.
Qed.

Lemma COM_deserialize_enc C b i c this :
  com_wf c -> com_wf this -> buf_wf C b -> has_at b i (com_enc c) ->
  exists c', COM_deserialize this b i = Ok (c', zlen (com_enc c)) /\ com_wf c' /\
    live c' = live c /\ com_signedBy c' = com_signedBy c /\
    (Address_bool (com_signedBy c) = true -> com_signature c' = com_signature c).
Proof.
  intros Hw Ht Hb Hh. assert (Hi : 0 <= i) by apply Hh. 
  unfold COM_deserialize, com_enc, ZT_ADDRESS_LENGTH, ZT_C25519_SIGNATURE_LEN in *.
  pose proof (zlen_live c Hw) as Hl. pose proof (cw_count c Hw) as Hc. pose proof (live_ok c Hw) as Hok.
  reading (read_byte C b Hb i 1) Hh; [done|exact Hh|]. cbn [negb Z.eqb Pos.eqb].
  reading (read_int C b Hb (i + 1) 2 (com_count c)) Hh; [unfold in_range; cbn; lia|exact Hh|].
  destruct (com_read_qualifiers_enc C b (live c) (i + 1 + 2) 0 (com_qualifiers this) 0 _ Hb Hh) as [Hr Hh2];
    [done|apply Hw| |unfold zlen; by rewrite (cw_array this Ht)|done|lia|].
  { unfold ids. rewrite Forall_fmap. eapply Forall_impl; [exact Hok|]. intros q (H & _). apply H. }
  rewrite <- (length_live c Hw).
  rewrite Hr. cbn [mbind outcome_bind]. clear Hr Hh. rewrite ztake_0, Hl in *. cbn [app]. rewrite Z.add_0_l.
  destruct (write_front (com_qualifiers this) (live c) (com_count c) (com_signedBy c)
    (if Address_bool (com_signedBy c) then com_signature c else com_signature this)) as (m & Hm & Hw' & Hlive);
    [apply Ht|apply Ht|done|done|done|apply Hw|apply Hw|destruct (Address_bool _); [apply Hw|apply Ht]|].
  rewrite mem_write_Ok in Hm by (rewrite ?Hl; unfold zlen; rewrite ?(cw_array this Ht); lia).
  rewrite ztake_0, Z.add_0_l, Hl in Hm. cbn [app] in Hm. injection Hm as <-.
  reading (read_address C b Hb (i + 1 + 2 + 24 * com_count c) (com_signedBy c)) Hh2; [apply Hw|exact Hh2|].
  rewrite !zlen_app, !zlen_be_bytes.
  assert (Hq : zlen (mjoin (q_enc <$> live c)) = 24 * com_count c).
  { rewrite zlen_q_encs. by rewrite Hl. }
  rewrite Hq. destruct (Address_bool (com_signedBy c)) eqn:Hsb.
  - rewrite <- (app_nil_r (com_signature c)) in Hh2.
    reading (read_field C b Hb (i + 1 + 2 + 24 * com_count c + 5) (com_signature c) 96 []) Hh2; [apply Hw|exact Hh2|].
    eexists. split; [rewrite (read_end C b Hb _ _ _ Hh2) by lia|by split_and!].
    rewrite (proj1 (cw_sig c Hw)). do 2 f_equal. lia.
  - eexists. split; [rewrite (read_end C b Hb _ _ _ Hh2) by lia|by split_and!].
    change (zlen []) with 0. do 2 f_equal. lia.
Qed.

(** ** Signatures *)

Lemma com_signed_bytes_Ok c : com_wf c -> com_signed_bytes c = Ok (mjoin (q_enc <$> live c)).
Proof.
  intros Hw. unfold com_signed_bytes. rewrite com_live_Ok by done. cbn [mbind outcome_bind].
  pose proof (cw_count c Hw). rewrite (proj2 (Z.ltb_ge _ _)) by (unfold ZT_NETWORK_COM_MAX_QUALIFIERS; lia).
  do 2 f_equal. apply list_fmap_ext. intros _ q _. apply q_bytes_enc.
Qed.

Section Verify.
Context `{Shape : C25519Shape}.

Lemma COM_sign_Ok c id priv :
  com_wf c -> id_privateKey id = Some priv -> in_range 40 (id_address id) ->
  exists c', COM_sign c id = Ok (c', true) /\ com_wf c' /\ live c' = live c /\
    com_signedBy c' = id_address id /\
    com_signature c' = C25519_sign priv (id_publicKey id) (mjoin (q_enc <$> live c)).
Proof.
  intros Hw Hp Ha. unfold COM_sign. rewrite com_signed_bytes_Ok by done. cbn [mbind outcome_bind].
  unfold Identity_sign. rewrite Hp. eexists. split; [done|]. split_and!; try done.
  destruct (sign_bytes priv (id_publicKey id) (mjoin (q_enc <$> live c))) as [H1 H2].
  destruct Hw. split; cbn [com_qualifiers com_count com_signedBy com_signature]; try done.
  split; [unfold zlen; by rewrite H1|done].
Qed.

(** What a verification that returns 0, 1 or -1 means. *)
Lemma COM_verify_spec getIdentity c :
  com_wf c ->
  let nwid := from_option q_value 0 (find_qualifier COM_RESERVED_ID_NETWORK_ID (live c)) in
  let id := getIdentity (com_signedBy c) in
  COM_verify getIdentity c = Ok
    (if negb (com_signedBy c =? 0) && (com_signedBy c =? controllerFor nwid) then
       if id_address id =? 0 then (1, [com_signedBy c])
       else (if C25519_verify (id_publicKey id) (mjoin (q_enc <$> live c)) (com_signature c) then 0 else -1, [])
     else (-1, [])).
Proof.
  intros Hw nwid id. unfold COM_verify, COM_networkId. rewrite com_live_Ok by done. cbn [mbind outcome_bind].
  pose proof (cw_count c Hw). fold nwid. unfold Address_bool, Identity_bool.
  rewrite (proj2 (Z.ltb_ge _ _)) by (unfold ZT_NETWORK_COM_MAX_QUALIFIERS; lia). rewrite orb_false_r.
  destruct (com_signedBy c =? 0); [done|]. destruct (com_signedBy c =? controllerFor nwid); [|done].
  cbn [negb orb andb]. unfold Address_bool. fold id. destruct (id_address id =? 0); [done|].
  cbn [negb]. by rewrite com_signed_bytes_Ok.
Qed.

End Verify.

(** ** Text form *)

Lemma hex_via_tmp_spec tmp d :
  Forall is_byte d -> zlen tmp = 256 ->
  if 2 * zlen d + 1 <=? 256
  then exists s tmp', hex_via_tmp tmp d = Ok (s, tmp') /\ zlen tmp' = 256
  else hex_via_tmp tmp d = Undef.
Proof.
  intros Hd Ht. destruct (Utils_hex_Ok d Hd) as (s & Hs & Hl). unfold hex_via_tmp. rewrite Hs.
  cbn [mbind outcome_bind]. assert (Hz : zlen s = 2 * zlen d + 1) by (unfold zlen; lia).
  destruct (Z.leb_spec (2 * zlen d + 1) 256).
  - rewrite mem_write_Ok by lia. eexists _, _. split; [done|].
    rewrite ztake_0, !zlen_app, zlen_zdrop by (pose proof (zlen_nonneg d); lia). change (zlen []) with 0. lia.
  - unfold mem_write. rewrite (proj2 (Z.leb_gt (0 + zlen s) (zlen tmp))) by lia. by rewrite andb_false_r.
Qed.

Lemma q_encs_bytes qs : Forall is_byte (mjoin (q_enc <$> qs)).
Proof.
  induction qs as [|q qs IH]; [constructor|].
  change (mjoin (q_enc <$> q :: qs)) with (q_enc q ++ mjoin (q_enc <$> qs)).
  unfold q_enc at 1. repeat apply Forall_app_2; try apply be_bytes_bytes. done.
Qed.

Lemma COM_toString_spec tmp c :
  com_wf c -> zlen tmp = 256 ->
  if com_count c <=? 5 then exists s, COM_toString tmp c = Ok s else COM_toString tmp c = Undef.
Proof.
  intros Hw Ht. unfold COM_toString. rewrite com_live_Ok by done. cbn [mbind outcome_bind].
  rewrite (list_fmap_ext q_bytes q_enc (live c)) by (intros; apply q_bytes_enc).
  pose proof (hex_via_tmp_spec tmp (mjoin (q_enc <$> live c)) (q_encs_bytes _) Ht) as Hq.
  rewrite zlen_q_encs, (zlen_live c Hw) in Hq. pose proof (cw_count c Hw).
  destruct (Z.leb_spec (com_count c) 5) as [H5|H5].
  2:{ rewrite (proj2 (Z.leb_gt _ _)) in Hq by lia. by rewrite Hq. }
  rewrite (proj2 (Z.leb_le _ _)) in Hq by lia. destruct Hq as (s & tmp' & -> & Ht'). cbn [mbind outcome_bind].
  rewrite Utils_hex10_chars. cbn [mbind outcome_bind].
  assert (Hz : zlen ((hex_char <$> addr_nibbles (com_signedBy c)) ++ [0]) = 11) by done.
  rewrite mem_write_Ok by lia. cbn [mbind outcome_bind]. destruct (Address_bool _); [|by eexists].
  rewrite Hz, ztake_0. cbn [app].
  set (tmp2 := _ ++ zdrop _ tmp').
  assert (Ht2 : zlen tmp2 = 256) by (unfold tmp2; rewrite zlen_app, Hz, zlen_zdrop by lia; lia).
  pose proof (hex_via_tmp_spec tmp2 (com_signature c) (proj2 (cw_sig c Hw)) Ht2) as Hs.
  rewrite (proj1 (cw_sig c Hw)) in Hs. destruct Hs as (g & t & Hg & _).
  rewrite Hg. cbn [mbind outcome_bind]. by eexists.
Qed.

(** ** Properties *)

(** A literal certificate is well formed. *)
Ltac com_literal :=
  split;
  [reflexivity|apply (bool_decide_unpack _); vm_compute; exact I|by vm_compute|
   vm_compute; repeat constructor|by vm_compute|
   split; [reflexivity|apply (bool_decide_unpack _); vm_compute; exact I]].

(** setQualifier keeps the array sorted with distinct ids and within its bounds,
    drops the signature, and is the update of a finite map: the id gets the new value
    unless it is absent and all eight places are taken, and no other id changes. *)
Theorem COM_setQualifier_correct c id v d :
  com_wf c -> q_ok (mkQ id v d) ->
  exists c', COM_setQualifier c id v d = Ok c' /\ com_wf c' /\ com_signedBy c' = 0 /\
    forall k, find_qualifier k (live c') =
      if bool_decide (k = id /\ (id ∈ ids (live c) \/ com_count c < 8)) then Some (mkQ id v d)
      else find_qualifier k (live c).
Proof. apply setQualifier_full. Qed.

Lemma COM_setQualifier_correct_witness :
  exists c', COM_setQualifier (COM_new 1000 60 0x1122334455667788 0x99) 1 5 6 = Ok c' /\
    find_qualifier 1 (live c') = Some (mkQ 1 5 6).
Proof.
  destruct (COM_setQualifier_correct (COM_new 1000 60 0x1122334455667788 0x99) 1 5 6) as (c' & H1 & _ & _ & H2).
  - com_literal.
  - apply (bool_decide_unpack _). vm_compute. exact I.
  - exists c'. split; [exact H1|]. rewrite H2, bool_decide_eq_true_2; [done|split; [done|right; done]].
Defined.

(** for two certificates whose ids are in the same positions, as those of one
    controller are, agreesWith answers whether every qualifier of the first is present in
    the second and within its maximum delta. *)
Theorem COM_agreesWith_correct this other :
  com_wf this -> com_wf other -> ids (live this) `prefix_of` ids (live other) ->
  COM_agreesWith this other = Ok (agrees_spec this other).
Proof. intros Ht Ho Hp. by rewrite agreesWith_positions, agrees_positions_spec. Qed.

Lemma COM_agreesWith_correct_witness :
  let a := COM_new 1000 60 0x1122334455667788 0x99 in
  let b := COM_new 1050 60 0x1122334455667788 0x77 in
  COM_agreesWith a b = Ok true.
Proof.
  intros a b. rewrite (COM_agreesWith_correct a b); [reflexivity|com_literal|com_literal|].
  exists []. reflexivity.
Defined.

(** agreesWith compares with the qualifier in the same position of the other
    certificate instead of the one it looked up by id: there are well-formed certificates
    it accepts although a value is out of range, and others it rejects although all
    values agree. *)
Theorem COM_agreesWith_positional :
  exists a b c, com_wf a /\ com_wf b /\ com_wf c /\
    COM_agreesWith a b = Ok true /\ agrees_spec a b = false /\
    COM_agreesWith a c = Ok false /\ agrees_spec a c = true.
Proof.
  set (com qs := mkCOM 0 (qs ++ replicate (8 - length qs) q_zero) (zlen qs) (replicate 96 0)).
  exists (com [mkQ 0 100 10; mkQ 2 500 0]), (com [mkQ 0 100 10; mkQ 1 500 0; mkQ 2 999 0]),
    (com [mkQ 0 100 10; mkQ 1 7 0; mkQ 2 500 0]).
  split_and!; [com_literal|com_literal|com_literal|reflexivity..].
Qed.

(** a certificate serialized into a buffer is deserialized, over any certificate, to
    the same qualifiers, signer and signature, with the length written; a full buffer
    makes serialize throw. *)
Theorem COM_wire_roundtrip C c this b :
  com_wf c -> com_wf this -> C + 96 < 2 ^ 32 -> buf_wf C b ->
  (exists b' c', COM_serialize C c b = Ok b' /\ buf_wf C b' /\
     COM_deserialize this b' (b_len b) = Ok (c', b_len b' - b_len b) /\ com_wf c' /\
     live c' = live c /\ com_signedBy c' = com_signedBy c /\
     (Address_bool (com_signedBy c) = true -> com_signature c' = com_signature c)) \/
  (COM_serialize C c b = Throw OUT_OF_BOUNDS /\ C < b_len b + zlen (com_enc c)).
Proof.
  intros Hw Ht HC Hb. pose proof (COM_appends C c Hw HC) as Ha.
  pose proof (proj2 Ha b Hb) as H. destruct (Z.leb_spec (b_len b + zlen (com_enc c)) C); [left|by right].
  destruct H as (b' & Heq & Hb' & _).
  destruct (COM_deserialize_enc C b' (b_len b) c this) as (c' & Hd & Hrest); [done..|by eapply appends_has_at|].
  exists b', c'. destruct (appends_len C _ _ b b' Ha Hb Heq) as (_ & _ & ->).
  rewrite Hd. replace (b_len b + zlen (com_enc c) - b_len b) with (zlen (com_enc c)) by lia.
  split_and!; [done|done|done|apply Hrest..].
Qed.

Lemma COM_wire_roundtrip_witness :
  exists b c', COM_serialize 300 (COM_new 1000 60 0x1122334455667788 0x99) (mkBuffer (replicate 300 0) 0) = Ok b /\
    COM_deserialize COM_empty b 0 = Ok (c', b_len b - 0) /\
    live c' = live (COM_new 1000 60 0x1122334455667788 0x99).
Proof.
  destruct (COM_wire_roundtrip 300 (COM_new 1000 60 0x1122334455667788 0x99) COM_empty (mkBuffer (replicate 300 0) 0))
    as [(b & c' & H1 & _ & H2 & _ & H3 & _)|[H1 _]].
  - com_literal.
  - com_literal.
  - done.
  - by apply (buf_wf_zeros 300).
  - exists b, c'. split_and!; [exact H1|exact H2|exact H3].
  - exfalso. revert H1. vm_compute. discriminate.
Defined.

(** a certificate signed by the controller of its network verifies wherever that
    controller's identity is known and its key accepts what it signs, and asks for the
    identity where it is not; a
    certificate that verifies carries the controller's address and a signature its key
    accepts. *)
Theorem COM_sign_verify `{Shape : C25519Shape} c id priv getIdentity :
  com_wf c -> id_privateKey id = Some priv -> id_publicKey id = C25519_public priv -> C25519_accepts priv (mjoin (q_enc <$> live c)) ->
  in_range 40 (id_address id) -> id_address id <> 0 ->
  let nwid c := from_option q_value 0 (find_qualifier COM_RESERVED_ID_NETWORK_ID (live c)) in
  id_address id = controllerFor (nwid c) ->
  (exists c', COM_sign c id = Ok (c', true) /\ com_wf c' /\ live c' = live c /\
     (id_address (getIdentity (id_address id)) = 0 -> COM_verify getIdentity c' = Ok (1, [id_address id])) /\
     (Identity_eqb (getIdentity (id_address id)) id = true -> COM_verify getIdentity c' = Ok (0, []))) /\
  (forall c', com_wf c' -> COM_verify getIdentity c' = Ok (0, []) ->
     com_signedBy c' = controllerFor (nwid c') /\
     C25519_verify (id_publicKey (getIdentity (com_signedBy c'))) (mjoin (q_enc <$> live c')) (com_signature c') = true).
Proof.
  intros Hw Hp Hpub Hacc Ha Hnz nwid Hctl. split.
  - destruct (COM_sign_Ok c id priv Hw Hp Ha) as (c' & Hs & Hw' & Hl & Hsb & Hsig).
    exists c'. split_and!; try done; intros H; rewrite COM_verify_spec by done; rewrite Hl, Hsb, Hsig;
      unfold nwid in Hctl; rewrite (proj2 (Z.eqb_neq _ _)), (proj2 (Z.eqb_eq _ _)) by done; cbn [negb andb].
    + by rewrite H.
    + unfold Identity_eqb in H. apply andb_true_iff in H as [H1 H2].
      apply Z.eqb_eq in H1. apply bool_decide_eq_true in H2.
      rewrite H1, (proj2 (Z.eqb_neq _ _)), H2, Hpub by done. by rewrite Hacc.
  - intros c' Hw'. rewrite COM_verify_spec by done. fold (nwid c').
    destruct (Z.eqb_spec (com_signedBy c') 0); [done|].
    destruct (Z.eqb_spec (com_signedBy c') (controllerFor (nwid c'))); [|done]. cbn [negb andb].
    destruct (_ =? 0); [done|]. destruct (C25519_verify _ _ _) eqn:E; [|done]. done.
Qed.

Lemma COM_sign_verify_witness :
  let id := mkIdentity 0x1122334455 (replicate 64 7) (Some (replicate 64 7)) in
  exists c', COM_sign (Ops := Toy.toy_ops) (COM_new 1000 60 0x1122334455667788 0x99) id = Ok (c', true) /\
    COM_verify (Ops := Toy.toy_ops) (fun _ => id) c' = Ok (0, []).
Proof.
  intros id.
  destruct (COM_sign_verify (Shape := Toy.toy_shape) (COM_new 1000 60 0x1122334455667788 0x99) id
    (replicate 64 7) (fun _ => id)) as [(c' & H1 & _ & _ & _ & H2) _].
  - com_literal.
  - reflexivity.
  - reflexivity.
  - apply Toy.toy_accepts.
  - done.
  - done.
  - reflexivity.
  - exists c'. split; [exact H1|]. apply H2. reflexivity.
Defined.

(** toString writes hexadecimal digits of all qualifiers into an array of 256 bytes,
    which is enough for five of them; with six, seven or eight qualifiers the code writes
    past the array. *)
Theorem COM_toString_overflows tmp c :
  com_wf c -> zlen tmp = 256 ->
  if com_count c <=? 5 then exists s, COM_toString tmp c = Ok s else COM_toString tmp c = Undef.
Proof. apply COM_toString_spec. Qed.

Lemma COM_toString_overflows_witness :
  COM_toString (replicate 256 0)
    (mkCOM 0 [mkQ 0 1 1; mkQ 1 1 1; mkQ 2 1 1; mkQ 3 1 1; mkQ 4 1 1; mkQ 5 1 1; q_zero; q_zero] 6 (replicate 96 0))
  = Undef.
Proof.
  apply (COM_toString_overflows (replicate 256 0)
    (mkCOM 0 [mkQ 0 1 1; mkQ 1 1 1; mkQ 2 1 1; mkQ 3 1 1; mkQ 4 1 1; mkQ 5 1 1; q_zero; q_zero] 6 (replicate 96 0)));
    [com_literal|reflexivity].
Defined.
