(* ===== verification/Credentials.v ===== *)
(** The credentials a network's controller signs: tags, revocations and certificates of
    ownership, from node/Tag.hpp, node/Revocation.hpp, node/CertificateOfOwnership.hpp
    and their .cpp files.

    The three are written alike: a fixed binary form, sign() over that form without the
    signature, and verify() against the identity of the network's controller.  The class
    [Credential] has what differs, [credential_sign] and [credential_verify] are the code
    they share, and [CredentialLaws] is what makes a signed credential verify. *)
From S2P Require Import Prelude.
From S2P Require Import Utils.
From S2P Require Import Buffer.
From S2P Require Import Addressing.
From S2P Require Import Wire.
From S2P Require Import InetAddress.
From S2P Require Import C25519Api.
From S2P Require Import Identity.
From S2P Require Import CertificateOfMembership.

(** ** The shared code *)

(** The signature as [deserialize] reads it: type 1 with the right length, or skipped. *)
Definition read_signature (b : Buffer) (p : Z) : outcome (list Z * Z) :=
  t ← Buffer_index b p;
  let p := u32 (p + 1) in
  if t =? 1 then
    l ← Buffer_at b 2 p;
    if negb (l =? ZT_C25519_SIGNATURE_LEN) then Throw SERIALIZED_DATA_INVALID_CRYPTOGRAPHIC_TOKEN else
    let p := u32 (p + 2) in
    sig ← Buffer_read_field b p ZT_C25519_SIGNATURE_LEN;
    Ok (sig, u32 (p + ZT_C25519_SIGNATURE_LEN))
  else
    l ← Buffer_at b 2 p;
    Ok (replicate 96 0, u32 (p + (2 + l))).

(** The additional fields, skipped, and the check of the end. *)
Definition read_trailer (b : Buffer) (p : Z) : outcome Z :=
  l ← Buffer_at b 2 p;
  let p := u32 (p + (2 + l)) in
  if b_len b <? p then Throw SERIALIZED_DATA_OVERFLOW else Ok p.

Definition append_signature (C : Z) (sig : list Z) (b : Buffer) : outcome Buffer :=
  b ← Buffer_append_int C b 1 1;
  b ← Buffer_append_int C b 2 ZT_C25519_SIGNATURE_LEN;
  Buffer_append C b sig ZT_C25519_SIGNATURE_LEN.

(** [serialize] puts a marker before and after what is signed. *)
Definition append_marker (C : Z) (forSign : bool) (b : Buffer) : outcome Buffer :=
  if forSign then Buffer_append_int C b 8 0x7f7f7f7f7f7f7f7f else Ok b.

Class Credential (A : Type) : Type := {
  cr_networkId : A -> Z;
  cr_signedBy : A -> Z;
  cr_signature : A -> list Z;
  cr_with_signer : A -> Z -> A;
  cr_with_signature : A -> list Z -> A;
  cr_serialize : Z -> A -> bool -> Buffer -> outcome Buffer;
  cr_deserialize : Buffer -> Z -> outcome (A * Z);
  (** capacities of the temporary buffers of sign() and verify() *)
  cr_sign_capacity : nat;
  cr_verify_capacity : nat
}.

Section Shared.
Context `{Ops : C25519Ops} {A : Type} `{Cred : Credential A}.

(** What [tmp] holds after [serialize(tmp,true)]. *)
Definition signed_bytes (capacity : nat) (a : A) : outcome (list Z) :=
  tmp ← cr_serialize (Z.of_nat capacity) a true (Buffer_new (replicate capacity 0));
  Ok (buf_data tmp).

Definition credential_sign (a : A) (signer : Identity) : outcome (A * bool) :=
  if Identity_hasPrivate signer then
    let a := cr_with_signer a (id_address signer) in
    tmp ← signed_bytes cr_sign_capacity a;
    sig ← Identity_sign signer tmp;
    Ok (cr_with_signature a sig, true)
  else Ok (a, false).

(** The return value and the addresses handed to [requestWhois]. *)
Definition credential_verify (getIdentity : Z -> Identity) (a : A) : outcome (Z * list Z) :=
  if negb (Address_bool (cr_signedBy a)) || negb (cr_signedBy a =? controllerFor (cr_networkId a))
  then Ok (-1, []) else
  let id := getIdentity (cr_signedBy a) in
  if negb (Identity_bool id) then Ok (1, [cr_signedBy a]) else
  match signed_bytes cr_verify_capacity a with
  | Ok tmp => Ok (if C25519_verify (id_publicKey id) tmp (cr_signature a) then 0 else -1, [])
  | Throw _ => Ok (-1, [])
  | Undef => Undef
  end.

End Shared.

(** ** Tags *)

Record Tag : Type := mkTag {
  tag_id : Z; tag_value : Z; tag_networkId : Z; tag_ts : Z;
  tag_issuedTo : Z; tag_signedBy : Z; tag_signature : list Z
}.

Definition Tag_serialize (C : Z) (t : Tag) (forSign : bool) (b : Buffer) : outcome Buffer :=
  b ← append_marker C forSign b;
  b ← Buffer_append_int C b 8 (tag_networkId t);
  b ← Buffer_append_int C b 8 (tag_ts t);
  b ← Buffer_append_int C b 4 (tag_id t);
  b ← Buffer_append_int C b 4 (tag_value t);
  b ← Address_appendTo C (tag_issuedTo t) b;
  b ← Address_appendTo C (tag_signedBy t) b;
  b ← (if forSign then Ok b else append_signature C (tag_signature t) b);
  b ← Buffer_append_int C b 2 0;
  append_marker C forSign b.

Definition Tag_deserialize (b : Buffer) (startAt : Z) : outcome (Tag * Z) :=
  let p := startAt in
  nwid ← Buffer_at b 8 p; let p := u32 (p + 8) in
  ts ← Buffer_at b 8 p; let p := u32 (p + 8) in
  id ← Buffer_at b 4 p; let p := u32 (p + 4) in
  value ← Buffer_at b 4 p; let p := u32 (p + 4) in
  issuedTo ← Buffer_read_address b p; let p := u32 (p + ZT_ADDRESS_LENGTH) in
  signedBy ← Buffer_read_address b p; let p := u32 (p + ZT_ADDRESS_LENGTH) in
  '(sig, p) ← read_signature b p;
  p ← read_trailer b p;
  Ok (mkTag id value nwid (s64 ts) issuedTo signedBy sig, u32 (p - startAt)).

(** [sizeof(Tag)] is 136. *)
#[export] Instance Tag_credential : Credential Tag := {|
  cr_networkId := tag_networkId;
  cr_signedBy := tag_signedBy;
  cr_signature := tag_signature;
  cr_with_signer t a := mkTag (tag_id t) (tag_value t) (tag_networkId t) (tag_ts t) (tag_issuedTo t) a (tag_signature t);
  cr_with_signature t s :=
    mkTag (tag_id t) (tag_value t) (tag_networkId t) (tag_ts t) (tag_issuedTo t) (tag_signedBy t) s;
  cr_serialize := Tag_serialize;
  cr_deserialize := Tag_deserialize;
  cr_sign_capacity := 136 + 64;
  cr_verify_capacity := 136 * 2
|}.

Definition Tag_sign `{C25519Ops} (t : Tag) (signer : Identity) := credential_sign t signer.
Definition Tag_verify `{C25519Ops} (getIdentity : Z -> Identity) (t : Tag) := credential_verify getIdentity t.

(** ** Revocations *)

Record Revocation : Type := mkRevocation {
  rev_id : Z; rev_credentialId : Z; rev_networkId : Z; rev_threshold : Z; rev_flags : Z;
  rev_target : Z; rev_signedBy : Z; rev_type : Z; rev_signature : list Z
}.

Definition Revocation_fastPropagate (r : Revocation) : bool := negb (Z.land (rev_flags r) 1 =? 0).

Definition Revocation_serialize (C : Z) (r : Revocation) (forSign : bool) (b : Buffer) : outcome Buffer :=
  b ← append_marker C forSign b;
  b ← Buffer_append_int C b 4 0;
  b ← Buffer_append_int C b 4 (rev_id r);
  b ← Buffer_append_int C b 8 (rev_networkId r);
  b ← Buffer_append_int C b 4 0;
  b ← Buffer_append_int C b 4 (rev_credentialId r);
  b ← Buffer_append_int C b 8 (rev_threshold r);
  b ← Buffer_append_int C b 8 (rev_flags r);
  b ← Address_appendTo C (rev_target r) b;
  b ← Address_appendTo C (rev_signedBy r) b;
  b ← Buffer_append_int C b 1 (rev_type r);
  b ← (if forSign then Ok b else append_signature C (rev_signature r) b);
  b ← Buffer_append_int C b 2 0;
  append_marker C forSign b.

Definition Revocation_deserialize (b : Buffer) (startAt : Z) : outcome (Revocation * Z) :=
  let p := startAt in
  let p := u32 (p + 4) in
  id ← Buffer_at b 4 p; let p := u32 (p + 4) in
  nwid ← Buffer_at b 8 p; let p := u32 (p + 8) in
  let p := u32 (p + 4) in
  cid ← Buffer_at b 4 p; let p := u32 (p + 4) in
  thr ← Buffer_at b 8 p; let p := u32 (p + 8) in
  flags ← Buffer_at b 8 p; let p := u32 (p + 8) in
  target ← Buffer_read_address b p; let p := u32 (p + ZT_ADDRESS_LENGTH) in
  signedBy ← Buffer_read_address b p; let p := u32 (p + ZT_ADDRESS_LENGTH) in
  type ← Buffer_index b p; let p := u32 (p + 1) in
  '(sig, p) ← read_signature b p;
  p ← read_trailer b p;
  Ok (mkRevocation id cid nwid (s64 thr) flags target signedBy type sig, u32 (p - startAt)).

(** [sizeof(Revocation)] is 152. *)
#[export] Instance Revocation_credential : Credential Revocation := {|
  cr_networkId := rev_networkId;
  cr_signedBy := rev_signedBy;
  cr_signature := rev_signature;
  cr_with_signer r a := mkRevocation (rev_id r) (rev_credentialId r) (rev_networkId r) (rev_threshold r)
    (rev_flags r) (rev_target r) a (rev_type r) (rev_signature r);
  cr_with_signature r s := mkRevocation (rev_id r) (rev_credentialId r) (rev_networkId r) (rev_threshold r)
    (rev_flags r) (rev_target r) (rev_signedBy r) (rev_type r) s;
  cr_serialize := Revocation_serialize;
  cr_deserialize := Revocation_deserialize;
  cr_sign_capacity := 152 + 64;
  cr_verify_capacity := 152 + 64
|}.

Definition Revocation_sign `{C25519Ops} (r : Revocation) (signer : Identity) := credential_sign r signer.
Definition Revocation_verify `{C25519Ops} (getIdentity : Z -> Identity) (r : Revocation) :=
  credential_verify getIdentity r.

(** ** Certificates of ownership *)

Definition ZT_CERTIFICATEOFOWNERSHIP_MAX_THINGS : Z := 16.
Definition THING_MAC_ADDRESS : Z := 1.
Definition THING_IPV4_ADDRESS : Z := 2.
Definition THING_IPV6_ADDRESS : Z := 3.

(** [coo_types] and [coo_values] are the whole arrays of sixteen. *)
Record COO : Type := mkCOO {
  coo_networkId : Z; coo_ts : Z; coo_flags : Z; coo_id : Z; coo_thingCount : Z;
  coo_types : list Z; coo_values : list (list Z);
  coo_issuedTo : Z; coo_signedBy : Z; coo_signature : list Z
}.

(** The constructor leaves the signature as it finds it; [sig] is that memory. *)
Definition COO_new (nwid ts issuedTo id : Z) (sig : list Z) : COO :=
  mkCOO nwid ts 0 id 0 (replicate 16 0) (replicate 16 (replicate 16 0)) issuedTo 0 sig.

(** The loop of [_owns] from index [i], [n] times. *)
Fixpoint owns_loop (n : nat) (i : Z) (c : COO) (t : Z) (v : list Z) : outcome bool :=
  match n with
  | O => Ok false
  | S n =>
      ty ← load (coo_types c) i;
      if ty =? t then
        value ← load (coo_values c) i;
        value ← mem_read value 0 (zlen v);
        if bool_decide (v = value) then Ok true else owns_loop n (i + 1) c t v
      else owns_loop n (i + 1) c t v
  end.

Definition COO_owns_thing (c : COO) (t : Z) (v : list Z) : outcome bool :=
  owns_loop (Z.to_nat (coo_thingCount c)) 0 c t v.

Definition COO_owns_ip (c : COO) (ip : InetAddress) : outcome bool :=
  match ip with
  | IaV4 _ a => COO_owns_thing c THING_IPV4_ADDRESS a
  | IaV6 _ _ a _ => COO_owns_thing c THING_IPV6_ADDRESS a
  | IaOther _ _ => Ok false
  end.

Definition COO_owns_mac (c : COO) (mac : Z) : outcome bool :=
  COO_owns_thing c THING_MAC_ADDRESS (MAC_bytes mac).

(** Stores a type and the first bytes of a value in the next place. *)
Definition COO_put (c : COO) (t : Z) (v : list Z) : outcome COO :=
  let n := coo_thingCount c in
  types ← mem_write (coo_types c) n [t];
  old ← load (coo_values c) n;
  value ← mem_write old 0 v;
  values ← mem_write (coo_values c) n [value];
  Ok (mkCOO (coo_networkId c) (coo_ts c) (coo_flags c) (coo_id c) (n + 1) types values
        (coo_issuedTo c) (coo_signedBy c) (coo_signature c)).

Definition COO_addThing_ip (c : COO) (ip : InetAddress) : outcome COO :=
  if ZT_CERTIFICATEOFOWNERSHIP_MAX_THINGS <=? coo_thingCount c then Ok c else
  match ip with
  | IaV4 _ a => COO_put c THING_IPV4_ADDRESS a
  | IaV6 _ _ a _ => COO_put c THING_IPV6_ADDRESS a
  | IaOther _ _ => Ok c
  end.

Definition COO_addThing_mac (c : COO) (mac : Z) : outcome COO :=
  if ZT_CERTIFICATEOFOWNERSHIP_MAX_THINGS <=? coo_thingCount c then Ok c
  else COO_put c THING_MAC_ADDRESS (MAC_bytes mac).

(** The loop of [serialize] over the things. *)
Fixpoint append_things (C : Z) (n : nat) (i : Z) (c : COO) (b : Buffer) : outcome Buffer :=
  match n with
  | O => Ok b
  | S n =>
      t ← load (coo_types c) i;
      b ← Buffer_append_int C b 1 t;
      v ← load (coo_values c) i;
      b ← Buffer_append C b v 16;
      append_things C n (i + 1) c b
  end.

Definition COO_serialize (C : Z) (c : COO) (forSign : bool) (b : Buffer) : outcome Buffer :=
  b ← append_marker C forSign b;
  b ← Buffer_append_int C b 8 (coo_networkId c);
  b ← Buffer_append_int C b 8 (coo_ts c);
  b ← Buffer_append_int C b 8 (coo_flags c);
  b ← Buffer_append_int C b 4 (coo_id c);
  b ← Buffer_append_int C b 2 (coo_thingCount c);
  b ← append_things C (Z.to_nat (coo_thingCount c)) 0 c b;
  b ← Address_appendTo C (coo_issuedTo c) b;
  b ← Address_appendTo C (coo_signedBy c) b;
  b ← (if forSign then Ok b else append_signature C (coo_signature c) b);
  b ← Buffer_append_int C b 2 0;
  append_marker C forSign b.

(** The loop of [deserialize]: things beyond the sixteenth are not stored, and their
    bytes are not skipped either. *)
Fixpoint read_things (n : nat) (i : Z) (b : Buffer) (p : Z) (types : list Z) (values : list (list Z))
  : outcome (list Z * list (list Z) * Z) :=
  match n with
  | O => Ok (types, values, p)
  | S n =>
      if i <? ZT_CERTIFICATEOFOWNERSHIP_MAX_THINGS then
        t ← Buffer_index b p;
        let p := u32 (p + 1) in
        types ← mem_write types i [t];
        v ← Buffer_read_field b p 16;
        values ← mem_write values i [v];
        read_things n (i + 1) b (u32 (p + 16)) types values
      else read_things n (i + 1) b p types values
  end.

Definition COO_deserialize (b : Buffer) (startAt : Z) : outcome (COO * Z) :=
  let p := startAt in
  nwid ← Buffer_at b 8 p; let p := u32 (p + 8) in
  ts ← Buffer_at b 8 p; let p := u32 (p + 8) in
  flags ← Buffer_at b 8 p; let p := u32 (p + 8) in
  id ← Buffer_at b 4 p; let p := u32 (p + 4) in
  count ← Buffer_at b 2 p; let p := u32 (p + 2) in
  '(types, values, p) ← read_things (Z.to_nat count) 0 b p (replicate 16 0) (replicate 16 (replicate 16 0));
  issuedTo ← Buffer_read_address b p; let p := u32 (p + ZT_ADDRESS_LENGTH) in
  signedBy ← Buffer_read_address b p; let p := u32 (p + ZT_ADDRESS_LENGTH) in
  '(sig, p) ← read_signature b p;
  p ← read_trailer b p;
  Ok (mkCOO nwid (s64 ts) flags id count types values issuedTo signedBy sig, u32 (p - startAt)).

(** [sizeof(CertificateOfOwnership)] is 416. *)
#[export] Instance COO_credential : Credential COO := {|
  cr_networkId := coo_networkId;
  cr_signedBy := coo_signedBy;
  cr_signature := coo_signature;
  cr_with_signer c a := mkCOO (coo_networkId c) (coo_ts c) (coo_flags c) (coo_id c) (coo_thingCount c)
    (coo_types c) (coo_values c) (coo_issuedTo c) a (coo_signature c);
  cr_with_signature c s := mkCOO (coo_networkId c) (coo_ts c) (coo_flags c) (coo_id c) (coo_thingCount c)
    (coo_types c) (coo_values c) (coo_issuedTo c) (coo_signedBy c) s;
  cr_serialize := COO_serialize;
  cr_deserialize := COO_deserialize;
  cr_sign_capacity := 416 + 64;
  cr_verify_capacity := 416 + 64
|}.

Definition COO_sign `{C25519Ops} (c : COO) (signer : Identity) := credential_sign c signer.
Definition COO_verify `{C25519Ops} (getIdentity : Z -> Identity) (c : COO) := credential_verify getIdentity c.

(** ** The laws *)

Lemma be_bytes_u64 z : be_bytes 8 (u64 z) = be_bytes 8 z.
Proof. unfold be_bytes, u64, wrap. f_equal. apply (le_bytes_wrap 8). Qed.

Definition marker_enc : list Z := be_bytes 8 0x7f7f7f7f7f7f7f7f.
Definition sig_enc (sig : list Z) : list Z := be_bytes 1 1 ++ be_bytes 2 96 ++ sig.
Definition is_sig (sig : list Z) : Prop := zlen sig = 96 /\ Forall is_byte sig.

(** The bytes written for a credential whose own fields are [body]. *)
Definition cred_enc (body sig : list Z) (forSign : bool) : list Z :=
  if forSign then marker_enc ++ body ++ be_bytes 2 0 ++ marker_enc else body ++ sig_enc sig ++ be_bytes 2 0.

Section Forms.
Context (C : Z).

Lemma append_signature_appends sig : C + 96 < 2 ^ 32 -> is_sig sig -> appends C (append_signature C sig) (sig_enc sig).
Proof.
  intros HC [Hl Hs]. unfold append_signature, sig_enc, ZT_C25519_SIGNATURE_LEN.
  apply (appends_bind C); [apply appends_int|]. apply (appends_bind C); [apply appends_int|].
  by apply appends_whole.
Qed.

Lemma appends_last f d : appends C f d -> appends C (fun b => f b ≫= Ok) d.
Proof.
  intros H. rewrite <- (app_nil_r d). apply (appends_bind C f Ok); [done|]. apply appends_ret.
Qed.

Context (b : Buffer) (Hb : buf_wf C b).

Lemma read_signature_enc i sig rest :
  zlen sig = 96 -> has_at b i (sig_enc sig ++ rest) ->
  read_signature b i = Ok (sig, i + 99) /\ has_at b (i + 99) rest.
Proof.
  intros Hl Hh. unfold read_signature, sig_enc, ZT_C25519_SIGNATURE_LEN in *. rewrite <- !app_assoc in Hh.
  reading (read_byte C b Hb i 1) Hh; [done|exact Hh|]. cbn [Z.eqb Pos.eqb].
  reading (read_int C b Hb (i + 1) 2 96) Hh; [done|exact Hh|]. cbn [Z.eqb Pos.eqb negb].
  reading (read_field C b Hb (i + 1 + 2) sig 96) Hh; [done|exact Hh|].
  replace (i + 1 + 2 + 96) with (i + 99) in * by lia. done.
Qed.

Lemma read_trailer_enc i rest :
  has_at b i (be_bytes 2 0 ++ rest) -> read_trailer b i = Ok (i + 2) /\ has_at b (i + 2) rest.
Proof.
  intros Hh. unfold read_trailer. reading (read_int C b Hb i 2 0) Hh; [done|exact Hh|]. rewrite Z.add_0_r.
  pose proof (has_at_slice C b Hb _ _ Hh) as [_ Hl]. pose proof (zlen_nonneg rest).
  pose proof Hh as [Hi _]. pose proof Hb as []. rewrite u32_id by (unfold in_range; lia).
  by rewrite (proj2 (Z.ltb_ge _ _)) by lia.
Qed.

End Forms.

Class CredentialLaws (A : Type) `{Cred : Credential A} : Type := {
  cr_wf : A -> Prop;
  cr_body : A -> list Z;
  cr_appends C a forSign : C + 96 < 2 ^ 32 -> cr_wf a ->
    appends C (cr_serialize C a forSign) (cred_enc (cr_body a) (cr_signature a) forSign);
  cr_reads C b i a : buf_wf C b -> cr_wf a ->
    has_at b i (cred_enc (cr_body a) (cr_signature a) false) ->
    cr_deserialize b i = Ok (a, zlen (cred_enc (cr_body a) (cr_signature a) false));
  (** the signed form fits the temporary buffers *)
  cr_fits a : cr_wf a -> zlen (cr_body a) + 18 <= Z.of_nat cr_sign_capacity `min` Z.of_nat cr_verify_capacity;
  cr_small : Z.of_nat cr_sign_capacity `max` Z.of_nat cr_verify_capacity + 96 < 2 ^ 32;
  cr_wf_sig a : cr_wf a -> is_sig (cr_signature a);
  cr_wf_signer a x : cr_wf a -> in_range 40 x -> cr_wf (cr_with_signer a x);
  cr_wf_signature a s : cr_wf a -> is_sig s -> cr_wf (cr_with_signature a s);
  cr_body_signature a s : cr_body (cr_with_signature a s) = cr_body a;
  cr_get_signer a x : cr_signedBy (cr_with_signer a x) = x;
  cr_get_signature a s : cr_signature (cr_with_signature a s) = s;
  cr_keep_signer a s : cr_signedBy (cr_with_signature a s) = cr_signedBy a;
  cr_keep_network a x s : cr_networkId (cr_with_signature (cr_with_signer a x) s) = cr_networkId a;
  cr_same_signature a : cr_with_signature a (cr_signature a) = a;
  cr_twice a s s' : cr_with_signature (cr_with_signature a s) s' = cr_with_signature a s'
}.

(** ** What follows from the laws *)

Section Generic.
Context {A : Type} `{Laws : CredentialLaws A}.

(** The bytes that are signed. *)
Definition cr_signed (a : A) : list Z := cred_enc (cr_body a) (cr_signature a) true.

Lemma cr_roundtrip C a b :
  C + 96 < 2 ^ 32 -> cr_wf a -> buf_wf C b ->
  (exists b', cr_serialize C a false b = Ok b' /\ buf_wf C b' /\
     cr_deserialize b' (b_len b) = Ok (a, b_len b' - b_len b)) \/
  (cr_serialize C a false b = Throw OUT_OF_BOUNDS /\ C < b_len b + zlen (cr_body a) + 101).
Proof.
  intros HC Hw Hb. pose proof (cr_appends C a false HC Hw) as Ha. pose proof (proj2 Ha b Hb) as H.
  destruct (Z.leb_spec (b_len b + zlen (cred_enc (cr_body a) (cr_signature a) false)) C).
  - left. destruct H as (b' & Heq & Hb' & _). exists b'. split; [done|]. split; [done|].
    destruct (appends_len C _ _ b b' Ha Hb Heq) as (_ & _ & ->).
    rewrite (cr_reads C b' (b_len b) a) by (done || by eapply appends_has_at). do 2 f_equal. lia.
  - right. split; [done|]. unfold cred_enc, sig_enc in *. rewrite !zlen_app, !zlen_be_bytes in *.
    destruct (cr_wf_sig a Hw) as [Hs _]. rewrite Hs in *. lia.
Qed.

Lemma signed_bytes_Ok capacity a :
  capacity = cr_sign_capacity \/ capacity = cr_verify_capacity -> cr_wf a ->
  signed_bytes capacity a = Ok (cr_signed a).
Proof.
  intros Hc Hw. pose proof (cr_fits a Hw). pose proof cr_small. unfold signed_bytes, cr_signed.
  assert (Hwf : buf_wf (Z.of_nat capacity) (Buffer_new (replicate capacity 0))).
  { apply buf_wf_zeros. destruct Hc; lia. }
  destruct (cr_appends (Z.of_nat capacity) a true ltac:(destruct Hc; lia) Hw) as [_ Ha].
  specialize (Ha _ Hwf). unfold Buffer_new in *. cbn [b_len] in Ha. rewrite (proj2 (Z.leb_le _ _)) in Ha.
  - destruct Ha as (b' & -> & _ & Hd). cbn [mbind outcome_bind]. by rewrite Hd.
  - unfold cred_enc, marker_enc. rewrite !zlen_app, !zlen_be_bytes. destruct Hc; lia.
Qed.

Lemma cr_in_buffer a :
  cr_wf a -> exists C b, buf_wf C b /\ has_at b 0 (cred_enc (cr_body a) (cr_signature a) false).
Proof.
  intros Hw. destruct (cr_appends 1000000 a false) as [Hd _]; [done|done|].
  pose proof (cr_fits a Hw). pose proof cr_small. destruct (cr_wf_sig a Hw) as [Hs _].
  set (d := cred_enc _ _ _) in *. exists (zlen d), (mkBuffer d (zlen d)). pose proof (zlen_nonneg d).
  assert (zlen d = zlen (cr_body a) + 101).
  { unfold d, cred_enc, sig_enc. rewrite !zlen_app, !zlen_be_bytes, Hs. lia. }
  split; [split; cbn [b_mem b_len]; done || lia|]. split; [done|]. exists [], []. rewrite app_nil_r.
  unfold buf_data. cbn [b_len b_mem]. by rewrite ztake_all.
Qed.

(** What is signed determines everything but the signature. *)
Lemma cr_signed_inj a a' :
  cr_wf a -> cr_wf a' -> cr_signed a = cr_signed a' -> a' = cr_with_signature a (cr_signature a').
Proof.
  intros Hw Hw' Heq. unfold cr_signed, cred_enc in Heq. apply app_inv_head in Heq.
  apply app_inv_tail in Heq. set (s := cr_signature a').
  assert (Hw1 : cr_wf (cr_with_signature a s)) by (by apply cr_wf_signature, cr_wf_sig).
  assert (Hd : cred_enc (cr_body (cr_with_signature a s)) (cr_signature (cr_with_signature a s)) false =
               cred_enc (cr_body a') (cr_signature a') false) by (by rewrite cr_body_signature, Heq, cr_get_signature).
  destruct (cr_in_buffer a' Hw') as (C & b & Hb & Hh).
  pose proof (cr_reads C b 0 a' Hb Hw' Hh) as H1. rewrite <- Hd in Hh, H1.
  rewrite (cr_reads C b 0 _ Hb Hw1 Hh) in H1. by injection H1.
Qed.

Lemma cr_signed_signature a s : cr_signed (cr_with_signature a s) = cr_signed a.
Proof. unfold cr_signed, cred_enc. by rewrite cr_body_signature. Qed.

Section Signing.
Context `{Shape : C25519Shape} (getIdentity : Z -> Identity).

Lemma credential_verify_spec a :
  cr_wf a ->
  let id := getIdentity (cr_signedBy a) in
  credential_verify getIdentity a = Ok
    (if (cr_signedBy a =? 0) || negb (cr_signedBy a =? controllerFor (cr_networkId a)) then (-1, [])
     else if id_address id =? 0 then (1, [cr_signedBy a])
     else (if C25519_verify (id_publicKey id) (cr_signed a) (cr_signature a) then 0 else -1, [])).
Proof.
  intros Hw id. unfold credential_verify, Identity_bool, Address_bool. rewrite !negb_involutive. fold id.
  rewrite signed_bytes_Ok by eauto. destruct (_ || _); [done|]. destruct (id_address id =? 0); reflexivity.
Qed.

(** A signature by the controller verifies where the controller's identity is known. *)
Lemma credential_sign_Ok a id priv :
  cr_wf a -> id_privateKey id = Some priv -> in_range 40 (id_address id) ->
  exists a', credential_sign a id = Ok (a', true) /\ cr_wf a' /\
    a' = cr_with_signature (cr_with_signer a (id_address id)) (cr_signature a') /\
    cr_signature a' = C25519_sign priv (id_publicKey id) (cr_signed a').
Proof.
  intros Hw Hp Ha. unfold credential_sign, Identity_hasPrivate, Identity_sign. rewrite Hp.
  pose proof (cr_wf_signer a _ Hw Ha) as Hw1. rewrite signed_bytes_Ok by eauto. cbn [mbind outcome_bind].
  eexists. split; [done|]. rewrite cr_get_signature, cr_signed_signature. split; [|done].
  destruct (sign_bytes priv (id_publicKey id) (cr_signed (cr_with_signer a (id_address id)))).
  apply cr_wf_signature; [done|]. split; [unfold zlen; lia|done].
Qed.

Lemma credential_sign_verifies a id priv :
  cr_wf a -> id_privateKey id = Some priv -> id_publicKey id = C25519_public priv ->
  C25519_accepts priv (cr_signed (cr_with_signer a (id_address id))) ->
  in_range 40 (id_address id) -> id_address id <> 0 -> id_address id = controllerFor (cr_networkId a) ->
  exists a', credential_sign a id = Ok (a', true) /\ cr_wf a' /\
    a' = cr_with_signature (cr_with_signer a (id_address id)) (cr_signature a') /\
    (id_address (getIdentity (id_address id)) = 0 -> credential_verify getIdentity a' = Ok (1, [id_address id])) /\
    (Identity_eqb (getIdentity (id_address id)) id = true -> credential_verify getIdentity a' = Ok (0, [])).
Proof.
  intros Hw Hp Hpub Hacc Ha Hnz Hctl. destruct (credential_sign_Ok a id priv) as (a' & Hs & Hw' & Heq & Hsig); [done..|].
  exists a'. assert (Hn : cr_networkId a' = cr_networkId a) by (rewrite Heq; apply cr_keep_network).
  assert (Hb : cr_signedBy a' = id_address id) by (rewrite Heq, cr_keep_signer; apply cr_get_signer).
  split_and!; try done; intros H; rewrite credential_verify_spec by done; rewrite Hb, Hn;
    rewrite (proj2 (Z.eqb_neq _ _)), (proj2 (Z.eqb_eq _ _)) by done; cbn [negb orb].
  - by rewrite H.
  - unfold Identity_eqb in H. apply andb_true_iff in H as [H1 H2].
    apply Z.eqb_eq in H1. apply bool_decide_eq_true in H2.
    rewrite H1, (proj2 (Z.eqb_neq _ _)), H2, Hsig, Hpub by done.
    replace (cr_signed a') with (cr_signed (cr_with_signer a (id_address id))) by (by rewrite Heq, cr_signed_signature). by rewrite Hacc.
Qed.

(** A credential that verifies is the controller's: any credential with the same signed
    form differs from it in nothing but the signature. *)
Lemma credential_verified a :
  cr_wf a -> credential_verify getIdentity a = Ok (0, []) ->
  cr_signedBy a = controllerFor (cr_networkId a) /\ cr_signedBy a <> 0 /\
  C25519_verify (id_publicKey (getIdentity (cr_signedBy a))) (cr_signed a) (cr_signature a) = true.
Proof.
  intros Hw. rewrite credential_verify_spec by done. destruct (Z.eqb_spec (cr_signedBy a) 0); [done|].
  destruct (Z.eqb_spec (cr_signedBy a) (controllerFor (cr_networkId a))); [|done]. cbn [negb orb].
  destruct (_ =? 0); [done|]. destruct (C25519_verify _ _ _) eqn:E; [|done]. done.
Qed.

End Signing.
End Generic.

(** ** The three credentials *)

(** What is appended, field by field. *)
Ltac appending C :=
  repeat (apply (appends_bind C); [solve [apply appends_int | apply appends_address; lia]|]).

Record tag_wf (t : Tag) : Prop := {
  tw_id : is_u32 (tag_id t);
  tw_value : is_u32 (tag_value t);
  tw_networkId : is_u64 (tag_networkId t);
  tw_ts : - 2 ^ 63 <= tag_ts t < 2 ^ 63;
  tw_issuedTo : in_range 40 (tag_issuedTo t);
  tw_signedBy : in_range 40 (tag_signedBy t);
  tw_signature : is_sig (tag_signature t)
}.

Definition tag_body (t : Tag) : list Z :=
  be_bytes 8 (tag_networkId t) ++ be_bytes 8 (tag_ts t) ++ be_bytes 4 (tag_id t) ++ be_bytes 4 (tag_value t) ++
  be_bytes 5 (tag_issuedTo t) ++ be_bytes 5 (tag_signedBy t).

Lemma Tag_appends C t forSign :
  C + 96 < 2 ^ 32 -> tag_wf t ->
  appends C (Tag_serialize C t forSign) (cred_enc (tag_body t) (tag_signature t) forSign).
Proof.
  intros HC Hw. unfold Tag_serialize, cred_enc, tag_body, append_marker, marker_enc. destruct forSign; cbn [mbind outcome_bind].
  - rewrite <- !app_assoc. appending C. apply appends_int.
  - rewrite <- !app_assoc. appending C. apply (appends_bind C); [apply append_signature_appends; [done|apply Hw]|].
    apply appends_last, appends_int.
Qed.

Lemma Tag_reads C b i t :
  buf_wf C b -> tag_wf t -> has_at b i (cred_enc (tag_body t) (tag_signature t) false) ->
  Tag_deserialize b i = Ok (t, zlen (cred_enc (tag_body t) (tag_signature t) false)).
Proof.
  intros Hb [] Hh. assert (Hi : 0 <= i) by apply Hh. destruct tw_signature0 as [Hs _].
  assert (Hl : zlen (cred_enc (tag_body t) (tag_signature t) false) = 135).
  { unfold cred_enc, tag_body, sig_enc. by rewrite !zlen_app, !zlen_be_bytes, Hs. }
  rewrite Hl. clear Hl. unfold Tag_deserialize, cred_enc, tag_body, ZT_ADDRESS_LENGTH in *.
  rewrite <- !app_assoc, <- (be_bytes_u64 (tag_ts t)) in Hh.
  reading (read_int C b Hb i 8 (tag_networkId t)) Hh; [done|exact Hh|].
  reading (read_int C b Hb (i + 8) 8 (u64 (tag_ts t))) Hh; [by apply wrap_range|exact Hh|].
  reading (read_int C b Hb (i + 8 + 8) 4 (tag_id t)) Hh; [done|exact Hh|].
  reading (read_int C b Hb (i + 8 + 8 + 4) 4 (tag_value t)) Hh; [done|exact Hh|].
  reading (read_address C b Hb (i + 8 + 8 + 4 + 4) (tag_issuedTo t)) Hh; [done|exact Hh|].
  reading (read_address C b Hb (i + 8 + 8 + 4 + 4 + 5) (tag_signedBy t)) Hh; [done|exact Hh|].
  destruct (read_signature_enc C b Hb _ _ _ Hs Hh) as [-> Hh2]. cbn [mbind outcome_bind].
  rewrite <- (app_nil_r (be_bytes 2 0)) in Hh2.
  destruct (read_trailer_enc C b Hb _ _ Hh2) as [-> Hh3]. cbn [mbind outcome_bind].
  rewrite (read_end C b Hb i _ _ Hh3) by lia. rewrite s64_u64 by done. destruct t. cbn. do 2 f_equal. lia.
Qed.

#[export] Instance Tag_laws : CredentialLaws Tag.
Proof.
  refine {| cr_wf := tag_wf; cr_body := tag_body; cr_appends := Tag_appends; cr_reads := Tag_reads |}; try done.
  - apply tw_signature.
  - by intros a x [] Hx.
  - by intros a s [] Hs.
  - by intros [].
Defined.

Record revocation_wf (r : Revocation) : Prop := {
  rw_id : is_u32 (rev_id r);
  rw_credentialId : is_u32 (rev_credentialId r);
  rw_networkId : is_u64 (rev_networkId r);
  rw_threshold : - 2 ^ 63 <= rev_threshold r < 2 ^ 63;
  rw_flags : is_u64 (rev_flags r);
  rw_target : in_range 40 (rev_target r);
  rw_signedBy : in_range 40 (rev_signedBy r);
  rw_type : is_byte (rev_type r);
  rw_signature : is_sig (rev_signature r)
}.

Definition revocation_body (r : Revocation) : list Z :=
  be_bytes 4 0 ++ be_bytes 4 (rev_id r) ++ be_bytes 8 (rev_networkId r) ++ be_bytes 4 0 ++
  be_bytes 4 (rev_credentialId r) ++ be_bytes 8 (rev_threshold r) ++ be_bytes 8 (rev_flags r) ++
  be_bytes 5 (rev_target r) ++ be_bytes 5 (rev_signedBy r) ++ be_bytes 1 (rev_type r).

Lemma Revocation_appends C r forSign :
  C + 96 < 2 ^ 32 -> revocation_wf r ->
  appends C (Revocation_serialize C r forSign) (cred_enc (revocation_body r) (rev_signature r) forSign).
Proof.
  intros HC Hw. unfold Revocation_serialize, cred_enc, revocation_body, append_marker, marker_enc.
  destruct forSign; cbn [mbind outcome_bind]; rewrite <- !app_assoc; appending C; [apply appends_int|].
  apply (appends_bind C); [apply append_signature_appends; [done|apply Hw]|]. apply appends_last, appends_int.
Qed.

Lemma Revocation_reads C b i r :
  buf_wf C b -> revocation_wf r -> has_at b i (cred_enc (revocation_body r) (rev_signature r) false) ->
  Revocation_deserialize b i = Ok (r, zlen (cred_enc (revocation_body r) (rev_signature r) false)).
Proof.
  intros Hb [] Hh. assert (Hi : 0 <= i) by apply Hh. destruct rw_signature0 as [Hs _].
  assert (Hl : zlen (cred_enc (revocation_body r) (rev_signature r) false) = 152).
  { unfold cred_enc, revocation_body, sig_enc. by rewrite !zlen_app, !zlen_be_bytes, Hs. }
  rewrite Hl. clear Hl. unfold Revocation_deserialize, cred_enc, revocation_body, ZT_ADDRESS_LENGTH in *.
  rewrite <- !app_assoc, <- (be_bytes_u64 (rev_threshold r)) in Hh.
  destruct (has_at_next C b Hb i 4 _ _ Hh) as [-> Hh1]; [apply zlen_be_bytes|]. clear Hh.
  reading (read_int C b Hb (i + 4) 4 (rev_id r)) Hh1; [done|exact Hh1|].
  reading (read_int C b Hb (i + 4 + 4) 8 (rev_networkId r)) Hh1; [done|exact Hh1|].
  destruct (has_at_next C b Hb (i + 4 + 4 + 8) 4 _ _ Hh1) as [-> Hh]; [apply zlen_be_bytes|]. clear Hh1.
  reading (read_int C b Hb (i + 4 + 4 + 8 + 4) 4 (rev_credentialId r)) Hh; [done|exact Hh|].
  reading (read_int C b Hb (i + 4 + 4 + 8 + 4 + 4) 8 (u64 (rev_threshold r))) Hh; [by apply wrap_range|exact Hh|].
  reading (read_int C b Hb (i + 4 + 4 + 8 + 4 + 4 + 8) 8 (rev_flags r)) Hh; [done|exact Hh|].
  reading (read_address C b Hb (i + 4 + 4 + 8 + 4 + 4 + 8 + 8) (rev_target r)) Hh; [done|exact Hh|].
  reading (read_address C b Hb (i + 4 + 4 + 8 + 4 + 4 + 8 + 8 + 5) (rev_signedBy r)) Hh; [done|exact Hh|].
  reading (read_byte C b Hb (i + 4 + 4 + 8 + 4 + 4 + 8 + 8 + 5 + 5) (rev_type r)) Hh; [done|exact Hh|].
  destruct (read_signature_enc C b Hb _ _ _ Hs Hh) as [-> Hh2]. cbn [mbind outcome_bind].
  rewrite <- (app_nil_r (be_bytes 2 0)) in Hh2.
  destruct (read_trailer_enc C b Hb _ _ Hh2) as [-> Hh3]. cbn [mbind outcome_bind].
  rewrite (read_end C b Hb i _ _ Hh3) by lia. rewrite s64_u64 by done. destruct r. cbn. do 2 f_equal. lia.
Qed.

#[export] Instance Revocation_laws : CredentialLaws Revocation.
Proof.
  refine {| cr_wf := revocation_wf; cr_body := revocation_body;
            cr_appends := Revocation_appends; cr_reads := Revocation_reads |}; try done.
  - apply rw_signature.
  - by intros a x [] Hx.
  - by intros a s [] Hs.
  - by intros [].
Defined.

(** *** Certificates of ownership *)

(** The types and values in use. *)
Definition things (c : COO) : list (Z * list Z) :=
  ztake (coo_thingCount c) (zip (coo_types c) (coo_values c)).

(** The fields are in range and what is behind the things in use is zero, as the
    constructor and [deserialize] leave it; the count is any 16-bit number. *)
Record coo_ok (c : COO) : Prop := {
  ow_networkId : is_u64 (coo_networkId c);
  ow_ts : - 2 ^ 63 <= coo_ts c < 2 ^ 63;
  ow_flags : is_u64 (coo_flags c);
  ow_id : is_u32 (coo_id c);
  ow_count : is_u16 (coo_thingCount c);
  ow_types : zlen (coo_types c) = 16 /\ Forall is_byte (coo_types c);
  ow_values : zlen (coo_values c) = 16 /\ Forall (fun v => zlen v = 16 /\ Forall is_byte v) (coo_values c);
  ow_rest : zdrop (coo_thingCount c) (coo_types c) = replicate (Z.to_nat (16 - coo_thingCount c)) 0 /\
    zdrop (coo_thingCount c) (coo_values c) = replicate (Z.to_nat (16 - coo_thingCount c)) (replicate 16 0);
  ow_issuedTo : in_range 40 (coo_issuedTo c);
  ow_signedBy : in_range 40 (coo_signedBy c);
  ow_signature : is_sig (coo_signature c)
}.

Definition coo_wf (c : COO) : Prop := coo_ok c /\ coo_thingCount c <= 16.

Definition thing_enc (t : Z * list Z) : list Z := be_bytes 1 (t.1) ++ t.2.

Definition coo_body (c : COO) : list Z :=
  be_bytes 8 (coo_networkId c) ++ be_bytes 8 (coo_ts c) ++ be_bytes 8 (coo_flags c) ++ be_bytes 4 (coo_id c) ++
  be_bytes 2 (coo_thingCount c) ++ mjoin (thing_enc <$> things c) ++
  be_bytes 5 (coo_issuedTo c) ++ be_bytes 5 (coo_signedBy c).

Section Things.
Context (c : COO) (Hw : coo_ok c).
Let all := zip (coo_types c) (coo_values c).

Lemma thing_at k :
  (k < 16)%nat ->
  exists t v, load (coo_types c) (Z.of_nat k) = Ok t /\ load (coo_values c) (Z.of_nat k) = Ok v /\
    drop k all = (t, v) :: drop (S k) all /\ is_byte t /\ zlen v = 16 /\ Forall is_byte v.
Proof.
  intros Hk. destruct (ow_types c Hw) as [Ht Hbt], (ow_values c Hw) as [Hv Hbv]. unfold zlen in Ht, Hv.
  destruct (lookup_lt_is_Some_2 (coo_types c) k ltac:(lia)) as [t Ht'].
  destruct (lookup_lt_is_Some_2 (coo_values c) k ltac:(lia)) as [v Hv'].
  exists t, v. rewrite (load_lookup _ _ _ Ht'), (load_lookup _ _ _ Hv').
  rewrite Forall_lookup in Hbt. rewrite Forall_lookup in Hbv. destruct (Hbv _ _ Hv'). split_and!; try done; [|by eapply Hbt].
  rewrite (drop_S all (t, v) k); [done|]. apply lookup_zip_with_Some. eauto.
Qed.

Lemma append_things_appends C n k :
  C + 96 < 2 ^ 32 -> (k + n <= 16)%nat ->
  appends C (append_things C n (Z.of_nat k) c) (mjoin (thing_enc <$> take n (drop k all))).
Proof.
  intros HC. revert k. induction n as [|n IH]; intros k Hk; [apply appends_ret|].
  destruct (thing_at k) as (t & v & Ht & Hv & -> & Hbt & Hlv & Hbv); [lia|]. cbn [append_things].
  rewrite Ht. rewrite firstn_cons, fmap_cons. cbn [mbind outcome_bind mjoin list_join]. unfold thing_enc at 1. cbn [fst snd].
  rewrite <- app_assoc. apply (appends_bind C); [apply appends_int|]. rewrite Hv. cbn [mbind outcome_bind].
  apply (appends_bind C); [apply appends_whole; [done|done|lia]|].
  replace (Z.of_nat k + 1) with (Z.of_nat (S k)) by lia. apply IH. lia.
Qed.

(** What an entry must be for [owns] to find it. *)
Definition is_thing (t : Z) (v : list Z) (x : Z * list Z) : bool :=
  (x.1 =? t) && bool_decide (v = ztake (zlen v) x.2).

Lemma owns_loop_spec n k t v :
  zlen v <= 16 -> (k + n <= 16)%nat ->
  owns_loop n (Z.of_nat k) c t v = Ok (existsb (is_thing t v) (take n (drop k all))).
Proof.
  intros Hlv. revert k. induction n as [|n IH]; intros k Hk; [done|].
  destruct (thing_at k) as (t' & v' & Ht & Hv & -> & _ & Hv' & _); [lia|]. cbn [owns_loop].
  rewrite Ht. rewrite firstn_cons. cbn [mbind outcome_bind existsb]. unfold is_thing at 1. cbn [fst snd].
  replace (Z.of_nat k + 1) with (Z.of_nat (S k)) by lia. rewrite IH by lia. destruct (t' =? t); [|done].
  rewrite Hv. cbn [mbind outcome_bind]. rewrite mem_read_Ok by (try lia; apply zlen_nonneg). rewrite slice_0.
  cbn [mbind outcome_bind andb]. by destruct (bool_decide _).
Qed.

End Things.

Lemma COO_owns_spec c t v :
  coo_wf c -> zlen v <= 16 -> COO_owns_thing c t v = Ok (existsb (is_thing t v) (things c)).
Proof.
  intros [Hw Hc] Hv. unfold COO_owns_thing. by rewrite (owns_loop_spec c Hw _ 0) by (done || lia).
Qed.

Lemma zlen_thing_encs ts :
  Forall (fun t : Z * list Z => zlen t.2 = 16) ts -> zlen (mjoin (thing_enc <$> ts)) = 17 * zlen ts.
Proof.
  induction 1 as [|t ts Ht Hts IH]; [done|]. change (mjoin (thing_enc <$> t :: ts)) with (thing_enc t ++ mjoin (thing_enc <$> ts)).
  rewrite zlen_app, IH. unfold thing_enc at 1. rewrite zlen_app, zlen_be_bytes, Ht. unfold zlen. cbn [length]. lia.
Qed.

Lemma read_things_enc C b ts p i types values rest :
  buf_wf C b -> has_at b p (mjoin (thing_enc <$> ts) ++ rest) ->
  Forall (fun t : Z * list Z => is_byte t.1 /\ zlen t.2 = 16) ts ->
  zlen types = 16 -> zlen values = 16 -> 0 <= i -> i + zlen ts <= 16 ->
  read_things (length ts) i b p types values =
    Ok (ztake i types ++ ts.*1 ++ zdrop (i + zlen ts) types,
        ztake i values ++ ts.*2 ++ zdrop (i + zlen ts) values, p + 17 * zlen ts) /\
  has_at b (p + 17 * zlen ts) rest.
Proof.
  intros Hb. revert p i types values. induction ts as [|[t v] ts IH]; intros p i types values Hh Hok Ht Hv Hi Hn.
  { change (zlen []) with 0 in *. rewrite !Z.add_0_r. cbn [length read_things app fmap list_fmap]. by rewrite !ztake_zdrop. }
  apply Forall_cons in Hok as [[H1 H2] Hok]. cbn [fst snd] in H1, H2.
  assert (Hz : zlen ((t, v) :: ts) = zlen ts + 1) by (unfold zlen; cbn [length]; lia).
  pose proof (zlen_nonneg ts). rewrite Hz in *. rewrite fmap_cons in Hh. cbn [mjoin list_join] in Hh.
  unfold thing_enc at 1 in Hh. cbn [fst snd] in Hh. rewrite <- !app_assoc in Hh. cbn [length read_things].
  unfold ZT_CERTIFICATEOFOWNERSHIP_MAX_THINGS. rewrite (proj2 (Z.ltb_lt _ _)) by lia.
  reading (read_byte C b Hb p t) Hh; [done|exact Hh|].
  destruct (mem_write_one types i t) as (types' & -> & Ht' & Et & Et2); [lia|]. cbn [mbind outcome_bind].
  reading (read_field C b Hb (p + 1) v 16) Hh; [done|exact Hh|].
  destruct (mem_write_one values i v) as (values' & -> & Hv' & Ev & Ev2); [lia|]. cbn [mbind outcome_bind].
  destruct (IH (p + 1 + 16) (i + 1) types' values' Hh) as [-> Hh2]; [done|lia..|].
  rewrite Et, Ev, Et2, Ev2, <- !app_assoc by lia. rewrite !fmap_cons. cbn [app fst snd].
  replace (i + 1 + zlen ts) with (i + (zlen ts + 1)) by lia.
  replace (p + 1 + 16 + 17 * zlen ts) with (p + 17 * (zlen ts + 1)) in * by lia. done.
Qed.

Lemma read_things_skip n i b p types values : 16 <= i -> read_things n i b p types values = Ok (types, values, p).
Proof.
  revert i. induction n as [|n IH]; intros i Hi; [done|]. cbn [read_things].
  unfold ZT_CERTIFICATEOFOWNERSHIP_MAX_THINGS. rewrite (proj2 (Z.ltb_ge _ _)) by lia. apply IH. lia.
Qed.

Lemma read_things_app n m i b p types values :
  read_things (n + m) i b p types values =
    '(types, values, p) ← read_things n i b p types values; read_things m (i + Z.of_nat n) b p types values.
Proof.
  revert i p types values. induction n as [|n IH]; intros i p types values.
  { cbn [Nat.add read_things mbind outcome_bind]. by rewrite Z.add_0_r. }
  cbn [Nat.add read_things]. replace (i + Z.of_nat (S n)) with (i + 1 + Z.of_nat n) by lia.
  destruct (i <? _); [|apply IH]. destruct (Buffer_index b p); cbn [mbind outcome_bind]; [|done..].
  destruct (mem_write types i _); cbn [mbind outcome_bind]; [|done..].
  destruct (Buffer_read_field b _ 16); cbn [mbind outcome_bind]; [|done..].
  destruct (mem_write values i _); cbn [mbind outcome_bind]; [|done..]. apply IH.
Qed.

Section Ownership.
Context (c : COO) (Hw : coo_ok c).
Local Notation n := (coo_thingCount c).

Lemma zlen_things : zlen (things c) = n `min` 16.
Proof.
  destruct (ow_types c Hw) as [Ht _], (ow_values c Hw) as [Hv _]. unfold things, ztake, zlen in *.
  pose proof (ow_count c Hw) as Hc. unfold in_range in Hc. rewrite length_take, length_zip_with. lia.
Qed.

Lemma things_ok : Forall (fun t => is_byte t.1 /\ zlen t.2 = 16 /\ Forall is_byte t.2) (things c).
Proof.
  destruct (ow_types c Hw) as [_ Ht], (ow_values c Hw) as [_ Hv]. apply Forall_take.
  rewrite Forall_lookup in Ht. rewrite Forall_lookup in Hv. rewrite Forall_lookup. intros k [t v] Hk.
  apply lookup_zip_with_Some in Hk as (t' & v' & [= <- <-] & H1 & H2). split; [by eapply Ht|by eapply Hv].
Qed.

(** The arrays are the things in use and zeros. *)
Lemma things_arrays :
  (things c).*1 ++ zdrop (zlen (things c)) (replicate 16 0) = coo_types c /\
  (things c).*2 ++ zdrop (zlen (things c)) (replicate 16 (replicate 16 0)) = coo_values c.
Proof.
  destruct (ow_types c Hw) as [Ht _], (ow_values c Hw) as [Hv _], (ow_rest c Hw) as [Hr1 Hr2].
  rewrite zlen_things. pose proof (ow_count c Hw) as Hc. unfold in_range in Hc.
  unfold things, ztake, zdrop, zlen in *.
  rewrite !drop_replicate, !fmap_take, fst_zip, snd_zip by lia.
  split; [rewrite <- (take_drop (Z.to_nat n) (coo_types c)) at 2; rewrite Hr1
         |rewrite <- (take_drop (Z.to_nat n) (coo_values c)) at 2; rewrite Hr2];
    do 2 f_equal; lia.
Qed.

Lemma COO_reads C b i :
  buf_wf C b -> has_at b i (cred_enc (coo_body c) (coo_signature c) false) ->
  COO_deserialize b i = Ok (c, zlen (cred_enc (coo_body c) (coo_signature c) false)).
Proof.
  intros Hb Hh. assert (Hi : 0 <= i) by apply Hh. destruct things_arrays as [A1 A2]. pose proof things_ok as Hok.
  pose proof zlen_things as Hlt. pose proof (zlen_nonneg (things c)). destruct Hw as [? ? ? ? Hcnt _ _ _ ? ? [Hs _]].
  assert (Hl : zlen (cred_enc (coo_body c) (coo_signature c) false) = 141 + 17 * zlen (things c)).
  { unfold cred_enc, coo_body, sig_enc. rewrite !zlen_app, !zlen_be_bytes, Hs, zlen_thing_encs; [lia|].
    eapply Forall_impl; [exact Hok|]. by intros t (_ & ? & _). }
  rewrite Hl. clear Hl. unfold COO_deserialize, cred_enc, coo_body, ZT_ADDRESS_LENGTH in *.
  rewrite <- !app_assoc, <- (be_bytes_u64 (coo_ts c)) in Hh.
  reading (read_int C b Hb i 8 (coo_networkId c)) Hh; [done|exact Hh|].
  reading (read_int C b Hb (i + 8) 8 (u64 (coo_ts c))) Hh; [by apply wrap_range|exact Hh|].
  reading (read_int C b Hb (i + 8 + 8) 8 (coo_flags c)) Hh; [done|exact Hh|].
  reading (read_int C b Hb (i + 8 + 8 + 8) 4 (coo_id c)) Hh; [done|exact Hh|].
  reading (read_int C b Hb (i + 8 + 8 + 8 + 4) 2 (coo_thingCount c)) Hh; [done|exact Hh|].
  replace (Z.to_nat (coo_thingCount c)) with (length (things c) + Z.to_nat (n - zlen (things c)))%nat
    by (unfold zlen in *; unfold in_range in Hcnt; lia).
  rewrite read_things_app.
  destruct (read_things_enc C b (things c) _ 0 (replicate 16 0) (replicate 16 (replicate 16 0)) _ Hb Hh)
    as [-> Hh2]; [eapply Forall_impl; [exact Hok|]; by intros t (? & ? & _)|done|done|done|lia|].
  cbn [mbind outcome_bind]. rewrite !ztake_0, !Z.add_0_l, A1, A2. cbn [app].
  assert (Hskip : forall p, read_things (Z.to_nat (n - zlen (things c))) (Z.of_nat (length (things c))) b p
    (coo_types c) (coo_values c) = Ok (coo_types c, coo_values c, p)).
  { intros p. change (Z.of_nat (length (things c))) with (zlen (things c)). destruct (Z.leb_spec 16 n).
    - apply read_things_skip. lia.
    - replace (Z.to_nat (n - zlen (things c))) with 0%nat by lia. done. }
  rewrite Hskip. cbn [mbind outcome_bind]. clear Hskip Hh A1 A2 Hok.
  reading (read_address C b Hb (i + 8 + 8 + 8 + 4 + 2 + 17 * zlen (things c)) (coo_issuedTo c)) Hh2; [done|exact Hh2|].
  reading (read_address C b Hb (i + 8 + 8 + 8 + 4 + 2 + 17 * zlen (things c) + 5) (coo_signedBy c)) Hh2; [done|exact Hh2|].
  destruct (read_signature_enc C b Hb _ _ _ Hs Hh2) as [-> Hh3]. cbn [mbind outcome_bind].
  rewrite <- (app_nil_r (be_bytes 2 0)) in Hh3.
  destruct (read_trailer_enc C b Hb _ _ Hh3) as [-> Hh4]. cbn [mbind outcome_bind].
  rewrite (read_end C b Hb i _ _ Hh4) by lia. rewrite s64_u64 by done. destruct c. cbn in *. do 2 f_equal. lia.
Qed.

End Ownership.

Lemma COO_appends C c forSign :
  C + 96 < 2 ^ 32 -> coo_wf c ->
  appends C (COO_serialize C c forSign) (cred_enc (coo_body c) (coo_signature c) forSign).
Proof.
  intros HC [Hw Hc]. unfold COO_serialize, cred_enc, coo_body, append_marker, marker_enc, things.
  pose proof (append_things_appends c Hw C (Z.to_nat (coo_thingCount c)) 0 HC ltac:(lia)) as Ht.
  destruct forSign; cbn [mbind outcome_bind]; rewrite <- !app_assoc; appending C; (apply (appends_bind C); [exact Ht|]); appending C; [apply appends_int|].
  apply (appends_bind C); [apply append_signature_appends; [done|apply Hw]|]. apply appends_last, appends_int.
Qed.

Lemma zlen_coo_body_ok c : coo_ok c -> zlen (coo_body c) = 40 + 17 * (coo_thingCount c `min` 16).
Proof.
  intros Hw. unfold coo_body. rewrite !zlen_app, !zlen_be_bytes, zlen_thing_encs.
  - rewrite zlen_things by done. lia.
  - eapply Forall_impl; [by apply things_ok|]. by intros t (_ & ? & _).
Qed.

Lemma zlen_coo_body c : coo_wf c -> zlen (coo_body c) = 40 + 17 * coo_thingCount c.
Proof. intros [Hw Hc]. rewrite zlen_coo_body_ok by done. lia. Qed.

#[export] Instance COO_laws : CredentialLaws COO.
Proof.
  refine {| cr_wf := coo_wf; cr_body := coo_body; cr_appends := COO_appends |}; try done.
  - intros C b i a Hb [Hw _]. by apply (COO_reads a Hw C).
  - intros a Hw. rewrite zlen_coo_body by done. destruct Hw. cbn -[Z.mul Z.add]. lia.
  - intros a [Hw _]. apply Hw.
  - by intros a x [[] Hc] Hx.
  - by intros a s [[] Hc] Hs.
  - by intros [].
Defined.

(** **** Adding things *)

Definition pad16 (v : list Z) : list Z := v ++ replicate (16 - length v) 0.

(** The next element of an array of sixteen of which [n] are in use. *)
Lemma array_put {X} (P : X -> Prop) (zero x : X) (l : list X) n :
  zlen l = 16 /\ Forall P l -> zdrop n l = replicate (Z.to_nat (16 - n)) zero -> 0 <= n < 16 -> P x ->
  exists l', mem_write l n [x] = Ok l' /\ (zlen l' = 16 /\ Forall P l') /\
    zdrop (n + 1) l' = replicate (Z.to_nat (16 - (n + 1))) zero /\ ztake (n + 1) l' = ztake n l ++ [x] /\
    load l n = Ok zero.
Proof.
  intros [Hl HP] Hd Hn Hx. destruct (mem_write_one l n x) as (l' & H1 & H2 & H3 & H4); [lia|]. exists l'.
  replace (Z.to_nat (16 - n)) with (S (Z.to_nat (16 - (n + 1)))) in Hd by lia.
  split_and!; [done|lia| | |done|].
  - rewrite <- (ztake_zdrop (n + 1) l'), H3, H4 by lia.
    repeat apply Forall_app_2; [by apply Forall_take|by constructor|by apply Forall_drop].
  - rewrite H4 by lia. rewrite (Z.add_comm n 1), <- zdrop_zdrop, Hd by lia. by rewrite Z.add_comm.
  - assert (l !! Z.to_nat n = Some zero) as Hz.
    { rewrite <- (Nat.add_0_r (Z.to_nat n)), <- lookup_drop. fold (zdrop n l). by rewrite Hd. }
    apply load_lookup in Hz. by rewrite Z2Nat.id in Hz by lia.
Qed.

Lemma pad16_Ok v : zlen v <= 16 -> zlen (pad16 v) = 16 /\ mem_write (replicate 16 0) 0 v = Ok (pad16 v).
Proof.
  intros Hl. split; [unfold pad16, zlen in *; rewrite length_app, length_replicate; lia|].
  rewrite mem_write_Ok by (done || exact Hl). rewrite ztake_0. unfold pad16, zdrop, zlen in *. cbn [app].
  rewrite drop_replicate. do 3 f_equal. lia.
Qed.

Lemma COO_put_Ok c t v :
  coo_wf c -> coo_thingCount c < 16 -> is_byte t -> zlen v <= 16 -> Forall is_byte v ->
  exists c', COO_put c t v = Ok c' /\ coo_wf c' /\ things c' = things c ++ [(t, pad16 v)].
Proof.
  intros [[] Hc] Hroom Ht Hlv Hbv. destruct ow_rest0 as [Hr1 Hr2]. destruct (pad16_Ok v Hlv) as [Hpad Hval].
  unfold in_range in ow_count0. unfold COO_put.
  assert (Hp : zlen (pad16 v) = 16 /\ Forall is_byte (pad16 v)).
  { split; [done|]. apply Forall_app_2; [done|by apply Forall_replicate]. }
  destruct (array_put _ _ t _ _ ow_types0 Hr1) as (ts & -> & Hts & Et & Et2 & _); [lia|done|].
  destruct (array_put _ _ (pad16 v) _ _ ow_values0 Hr2) as (vs & Hwv & Hvs & Ev & Ev2 & Hload); [lia|done|].
  cbn [mbind outcome_bind]. rewrite Hload. cbn [mbind outcome_bind]. rewrite Hval. cbn [mbind outcome_bind].
  rewrite Hwv. cbn [mbind outcome_bind]. eexists. split; [done|]. split.
  - split; [|cbn; lia]. split; cbn [coo_networkId coo_ts coo_flags coo_id coo_thingCount coo_types
      coo_values coo_issuedTo coo_signedBy coo_signature]; try done. unfold in_range; lia.
  - unfold things, ztake in *. cbn [coo_thingCount coo_types coo_values]. rewrite !zip_with_take, Et2, Ev2.
    rewrite zip_with_app; [done|]. rewrite !length_take. unfold zlen in *. lia.
Qed.

(** What is stored for an address. *)
Definition ip_thing (ip : InetAddress) : option (Z * list Z) :=
  match ip with
  | IaV4 _ a => Some (THING_IPV4_ADDRESS, a)
  | IaV6 _ _ a _ => Some (THING_IPV6_ADDRESS, a)
  | IaOther _ _ => None
  end.

Definition mac_thing (mac : Z) : Z * list Z := (THING_MAC_ADDRESS, be_bytes 6 mac).

(** Things of the three kinds: the kind determines the length. *)
Definition proper_thing (x : Z * list Z) : Prop :=
  Forall is_byte x.2 /\ (x.1 = THING_MAC_ADDRESS /\ zlen x.2 = 6 \/ x.1 = THING_IPV4_ADDRESS /\ zlen x.2 = 4 \/
    x.1 = THING_IPV6_ADDRESS /\ zlen x.2 = 16).

Lemma is_thing_pad x y :
  proper_thing x -> proper_thing y -> is_thing y.1 y.2 (x.1, pad16 x.2) = bool_decide (x = y).
Proof.
  destruct x as [t v], y as [t' v']. intros [_ Hx] [_ Hy]. cbn [fst snd] in *. unfold is_thing. cbn [fst snd].
  destruct (Z.eqb_spec t t') as [->|Hne]; cbn [andb]; [|rewrite bool_decide_false; [done|congruence]].
  assert (zlen v = zlen v') as <- by (unfold THING_MAC_ADDRESS, THING_IPV4_ADDRESS, THING_IPV6_ADDRESS in *; lia).
  unfold pad16. rewrite ztake_app_exact by done. apply bool_decide_ext. split; congruence.
Qed.

Definition COO_has (c : COO) (x : Z * list Z) : bool := existsb (is_thing x.1 x.2) (things c).

Lemma COO_put_has c x y :
  coo_wf c -> coo_thingCount c < 16 -> proper_thing x -> proper_thing y ->
  exists c', COO_put c x.1 x.2 = Ok c' /\ coo_wf c' /\ COO_has c' y = COO_has c y || bool_decide (x = y).
Proof.
  intros Hw Hroom [Hb Hx] Hy. destruct (COO_put_Ok c x.1 x.2) as (c' & H1 & H2 & H3); try done.
  { unfold THING_MAC_ADDRESS, THING_IPV4_ADDRESS, THING_IPV6_ADDRESS, in_range in *. lia. }
  { lia. }
  exists c'. split; [done|]. split; [done|]. unfold COO_has. rewrite H3, existsb_app. cbn [existsb].
  by rewrite is_thing_pad, orb_false_r by done.
Qed.

Lemma ip_thing_proper ip x : ia_wf ip -> ip_thing ip = Some x -> proper_thing x.
Proof.
  destruct ip as [p a|p f a s|f r]; cbn; intros Hw [= <-]; unfold proper_thing, zlen; cbn [fst snd]; destruct_and?.
  - split; [done|]. right. left. split; [done|lia].
  - split; [done|]. right. right. split; [done|lia].
Qed.

Lemma mac_thing_proper mac : proper_thing (mac_thing mac).
Proof. split; [apply be_bytes_bytes|]. left. split; [done|]. apply zlen_be_bytes. Qed.

Lemma COO_owns_ip_spec c ip :
  coo_wf c -> ia_wf ip -> COO_owns_ip c ip = Ok (from_option (COO_has c) false (ip_thing ip)).
Proof.
  destruct ip as [p a|p f a s|f r]; cbn [COO_owns_ip ip_thing from_option ia_wf]; intros Hw Ha; [..|done];
    (rewrite COO_owns_spec; [done|done|]); unfold zlen; destruct_and?; lia.
Qed.

Lemma COO_owns_mac_spec c mac : coo_wf c -> COO_owns_mac c mac = Ok (COO_has c (mac_thing mac)).
Proof. intros Hw. unfold COO_owns_mac. rewrite COO_owns_spec by done. by rewrite MAC_bytes_be. Qed.

(** One added thing, or none when the certificate is full. *)
Lemma COO_add_has c x :
  coo_wf c -> proper_thing x ->
  exists c', (if ZT_CERTIFICATEOFOWNERSHIP_MAX_THINGS <=? coo_thingCount c then Ok c else COO_put c x.1 x.2) = Ok c' /\
    coo_wf c' /\
    forall y, proper_thing y -> COO_has c' y = COO_has c y || ((coo_thingCount c <? 16) && bool_decide (x = y)).
Proof.
  intros Hw Hx. unfold ZT_CERTIFICATEOFOWNERSHIP_MAX_THINGS. destruct (Z.leb_spec 16 (coo_thingCount c)).
  - exists c. rewrite (proj2 (Z.ltb_ge _ _)) by lia. split_and!; [done|done|]. intros. by rewrite orb_false_r.
  - rewrite (proj2 (Z.ltb_lt _ _)) by lia. destruct (COO_put_has c x x) as (c' & H1 & H2 & _); [done..|].
    exists c'. split_and!; [done|done|]. intros y Hy. destruct (COO_put_has c x y) as (c2 & H3 & _ & H4); [done..|].
    rewrite H1 in H3. injection H3 as <-. done.
Qed.

Lemma COO_add_ip c ip :
  coo_wf c -> ia_wf ip ->
  exists c', COO_addThing_ip c ip = Ok c' /\ coo_wf c' /\
    forall y, proper_thing y -> COO_has c' y = COO_has c y || ((coo_thingCount c <? 16) && bool_decide (ip_thing ip = Some y)).
Proof.
  intros Hw Hip. unfold COO_addThing_ip. destruct (ip_thing ip) as [x|] eqn:Ex.
  - destruct (COO_add_has c x Hw) as (c' & H1 & H2 & H3); [by eapply ip_thing_proper|]. exists c'. split_and!; [|done|].
    + rewrite <- H1. by destruct ip; simplify_eq/=.
    + intros y Hy. rewrite H3 by done. do 2 f_equal. apply bool_decide_ext. split; congruence.
  - exists c. split_and!; [destruct ip; simplify_eq/=; by destruct (_ <=? _)|done|]. intros y _.
    by rewrite bool_decide_false, andb_false_r, orb_false_r by done.
Qed.

(** **** A count beyond the arrays *)

Lemma load_past {X} (l : list X) i : zlen l <= i -> load l i = Undef.
Proof. intros H. unfold load. by rewrite (proj2 (zget_None l i)) by lia. Qed.

Section Overcount.
Context (c : COO) (Hw : coo_ok c).

Lemma owns_loop_past n k t v :
  zlen v <= 16 -> (k <= 16 < k + n)%nat ->
  existsb (is_thing t v) (drop k (zip (coo_types c) (coo_values c))) = false ->
  owns_loop n (Z.of_nat k) c t v = Undef.
Proof.
  intros Hlv. revert k. induction n as [|n IH]; intros k Hk He; [lia|]. cbn [owns_loop].
  destruct (decide (k = 16)%nat) as [->|Hne].
  { rewrite (load_past (coo_types c)); [done|]. by rewrite (proj1 (ow_types c Hw)). }
  destruct (thing_at c Hw k) as (t' & v' & Ht & Hv & Hd & _ & Hv' & _); [lia|]. rewrite Hd in He.
  cbn [existsb] in He. apply orb_false_iff in He as [He1 He2]. rewrite Ht. cbn [mbind outcome_bind].
  replace (Z.of_nat k + 1) with (Z.of_nat (S k)) by lia. rewrite IH by (lia || done).
  unfold is_thing in He1. cbn [fst snd] in He1. destruct (t' =? t); [|done]. rewrite Hv. cbn [mbind outcome_bind].
  rewrite mem_read_Ok by (try lia; apply zlen_nonneg). rewrite slice_0. cbn [mbind outcome_bind andb] in *. by rewrite He1.
Qed.

(** Appends in sequence, then something undefined. *)
Lemma appends_then_undef {B} C f d (g : Buffer -> outcome B) b :
  appends C f d -> buf_wf C b -> b_len b + zlen d <= C -> (forall b', buf_wf C b' -> b_len b' = b_len b + zlen d -> g b' = Undef) ->
  (f b ≫= g) = Undef.
Proof.
  intros Hf Hb Hl Hg. pose proof (proj2 Hf b Hb) as H. rewrite (proj2 (Z.leb_le _ _)) in H by done.
  destruct H as (b' & Heq & Hb' & _). destruct (appends_len C f d b b' Hf Hb Heq) as (_ & _ & Hlen).
  rewrite Heq. by apply Hg.
Qed.

Lemma append_things_past C n k b :
  C + 96 < 2 ^ 32 -> (k <= 16 < k + n)%nat -> buf_wf C b -> b_len b + 17 * (16 - Z.of_nat k) <= C ->
  append_things C n (Z.of_nat k) c b = Undef.
Proof.
  intros HC. revert k b. induction n as [|n IH]; intros k b Hk Hb Hl; [lia|]. cbn [append_things].
  destruct (decide (k = 16)%nat) as [->|Hne].
  { rewrite (load_past (coo_types c)); [done|]. by rewrite (proj1 (ow_types c Hw)). }
  destruct (thing_at c Hw k) as (t' & v' & Ht & Hv & Hd & _ & Hv' & Hbv); [lia|]. rewrite Ht. cbn [mbind outcome_bind].
  eapply (appends_then_undef C (fun b => Buffer_append_int C b _ _)); [apply appends_int|done|rewrite zlen_be_bytes; lia|]. intros b1 Hb1 Hl1.
  rewrite zlen_be_bytes in Hl1. rewrite Hv. cbn [mbind outcome_bind].
  eapply (appends_then_undef C (fun b => Buffer_append C b _ _)); [apply appends_whole; [done|done|lia]|done|lia|]. intros b2 Hb2 Hl2.
  replace (Z.of_nat k + 1) with (Z.of_nat (S k)) by lia. apply IH; [lia|done|lia].
Qed.

Lemma COO_signed_past capacity :
  16 < coo_thingCount c -> 400 <= Z.of_nat capacity < 2 ^ 20 -> signed_bytes capacity c = Undef.
Proof.
  intros Hc Hcap. unfold signed_bytes. change (cr_serialize (Z.of_nat capacity) c true) with (COO_serialize (Z.of_nat capacity) c true).
  assert (Hb : buf_wf (Z.of_nat capacity) (Buffer_new (replicate capacity 0))) by (apply buf_wf_zeros; lia).
  assert (H0 : b_len (Buffer_new (replicate capacity 0)) = 0) by done.
  revert Hb H0. generalize (Buffer_new (replicate capacity 0)). intros b Hb H0.
  assert (COO_serialize (Z.of_nat capacity) c true b = Undef) as ->; [|done].
  unfold COO_serialize, append_marker.
  do 6 (eapply (appends_then_undef (Z.of_nat capacity) (fun b => Buffer_append_int (Z.of_nat capacity) b _ _));
      [apply appends_int|eassumption|rewrite zlen_be_bytes; lia|];
    let b' := fresh "b" in let Hb' := fresh "Hb" in let H0' := fresh "H" in
    intros b' Hb' H0'; rewrite H0, zlen_be_bytes in H0'; clear b Hb H0; rename b' into b, Hb' into Hb, H0' into H0).
  by rewrite (append_things_past (Z.of_nat capacity) _ 0) by (done || lia).
Qed.

End Overcount.

(** ** Theorems *)

Module Samples.

Definition signer : Identity := mkIdentity 0x1122334455 (replicate 64 7) (Some (replicate 64 7)).
Definition tag : Tag := mkTag 1 2 0x1122334455667788 1000 0x99 0 (replicate 96 0).
Definition revocation : Revocation := mkRevocation 1 2 0x1122334455667788 1000 1 0x99 0 3 (replicate 96 0).
Definition coo : COO := COO_new 0x1122334455667788 1000 0x99 5 (replicate 96 0).

(** Sixteen things and a count of seventeen. *)
Definition overcounted : COO :=
  mkCOO 0x1122334455667788 1000 0 5 17 (replicate 16 1) (replicate 16 (replicate 16 3)) 0x99 0x1122334455 (replicate 96 0).

Lemma sig_ok : is_sig (replicate 96 0).
Proof. by split; [|apply Forall_replicate]. Qed.

Lemma tag_ok : tag_wf tag.
Proof. by split; [..|apply sig_ok]. Qed.

Lemma revocation_ok : revocation_wf revocation.
Proof. by split; [..|apply sig_ok]. Qed.

Lemma coo_is_wf : coo_wf coo.
Proof.
  split; [|done]. split; try done; [| |apply sig_ok].
  - split; [done|by apply Forall_replicate].
  - split; [done|]. apply Forall_replicate. split; [done|by apply Forall_replicate].
Qed.

Lemma overcounted_ok : coo_ok overcounted.
Proof.
  split; try done; [| |apply sig_ok].
  - split; [done|by apply Forall_replicate].
  - split; [done|]. apply Forall_replicate. split; [done|by apply Forall_replicate].
Qed.

Lemma key_ok : is_key (replicate 64 7).
Proof. by split; [|apply Forall_replicate]. Qed.

End Samples.

(** a tag, a revocation or a certificate of ownership signed by the controller of its
    network changes in signer and signature only, verifies wherever the controller's
    identity is known and its key accepts what it signs, and asks for that identity where it is not.  A credential that
    verifies names the network's controller as its signer and carries a signature the
    controller's key accepts for exactly its signed form. *)
Theorem Credential_sign_verify `{Shape : C25519Shape} id priv getIdentity (t : Tag) (r : Revocation) (c : COO) :
  id_privateKey id = Some priv -> id_publicKey id = C25519_public priv ->
  (let accepts {A} `{CredentialLaws A} (a : A) := C25519_accepts priv (cr_signed (cr_with_signer a (id_address id))) in accepts t /\ accepts r /\ accepts c) ->
  in_range 40 (id_address id) -> id_address id <> 0 ->
  tag_wf t -> revocation_wf r -> coo_wf c ->
  id_address id = controllerFor (tag_networkId t) -> id_address id = controllerFor (rev_networkId r) ->
  id_address id = controllerFor (coo_networkId c) ->
  let works {A} `{CredentialLaws A} (a : A) :=
    (exists a', credential_sign a id = Ok (a', true) /\ cr_wf a' /\
       a' = cr_with_signature (cr_with_signer a (id_address id)) (cr_signature a') /\
       (id_address (getIdentity (id_address id)) = 0 -> credential_verify getIdentity a' = Ok (1, [id_address id])) /\
       (Identity_eqb (getIdentity (id_address id)) id = true -> credential_verify getIdentity a' = Ok (0, []))) /\
    (forall a' : A, cr_wf a' -> credential_verify getIdentity a' = Ok (0, []) ->
       cr_signedBy a' = controllerFor (cr_networkId a') /\ cr_signedBy a' <> 0 /\
       C25519_verify (id_publicKey (getIdentity (cr_signedBy a'))) (cr_signed a') (cr_signature a') = true) in
  works t /\ works r /\ works c.
Proof.
  intros Hp Hpub (At & Ar & Ac) Ha Hnz Ht Hr Hc Ct Cr Cc works.
  split_and!; (split; [by apply (credential_sign_verifies getIdentity _ id priv)|apply credential_verified]).
Qed.

Lemma Credential_sign_verify_witness :
  exists t', Tag_sign (H := Toy.toy_ops) Samples.tag Samples.signer = Ok (t', true) /\
    Tag_verify (H := Toy.toy_ops) (fun _ => Samples.signer) t' = Ok (0, []).
Proof.
  destruct (Credential_sign_verify (Shape := Toy.toy_shape) Samples.signer (replicate 64 7)
    (fun _ => Samples.signer) Samples.tag Samples.revocation Samples.coo) as [[(t' & H1 & _ & _ & _ & H2) _] _];
    [reflexivity|reflexivity|split_and!; apply Toy.toy_accepts|done|done|apply Samples.tag_ok|apply Samples.revocation_ok|
     apply Samples.coo_is_wf|reflexivity|reflexivity|reflexivity|].
  exists t'. split; [exact H1|]. apply H2. reflexivity.
Defined.

(** a tag, a revocation or a certificate of ownership written by serialize() is read
    back by deserialize() unchanged, with the number of bytes written; a buffer without
    room makes serialize() throw and nothing else. *)
Theorem Credential_wire_roundtrip C b (t : Tag) (r : Revocation) (c : COO) :
  C + 96 < 2 ^ 32 -> buf_wf C b -> tag_wf t -> revocation_wf r -> coo_wf c ->
  let travels {A} (ser : Z -> A -> bool -> Buffer -> outcome Buffer) (de : Buffer -> Z -> outcome (A * Z)) size a :=
    (exists b', ser C a false b = Ok b' /\ buf_wf C b' /\ de b' (b_len b) = Ok (a, b_len b' - b_len b)) \/
    (ser C a false b = Throw OUT_OF_BOUNDS /\ C < b_len b + size) in
  travels Tag_serialize Tag_deserialize 135 t /\
  travels Revocation_serialize Revocation_deserialize 152 r /\
  travels COO_serialize COO_deserialize (141 + 17 * coo_thingCount c) c.
Proof.
  intros HC Hb Ht Hr Hc travels. split_and!.
  - destruct (cr_roundtrip (Laws := Tag_laws) C t b HC Ht Hb) as [H|[H1 H2]]; [by left|right]. split; [done|].
    change (zlen (cr_body t)) with 34 in H2. lia.
  - destruct (cr_roundtrip (Laws := Revocation_laws) C r b HC Hr Hb) as [H|[H1 H2]]; [by left|right]. split; [done|].
    change (zlen (cr_body r)) with 51 in H2. lia.
  - destruct (cr_roundtrip (Laws := COO_laws) C c b HC Hc Hb) as [H|[H1 H2]]; [by left|right]. split; [done|].
    change (cr_body c) with (coo_body c) in H2. rewrite zlen_coo_body in H2 by done. lia.
Qed.

Lemma Credential_wire_roundtrip_witness :
  exists b, COO_serialize 400 Samples.coo false (mkBuffer (replicate 400 0) 0) = Ok b /\
    COO_deserialize b 0 = Ok (Samples.coo, b_len b - 0).
Proof.
  destruct (Credential_wire_roundtrip 400 (mkBuffer (replicate 400 0) 0) Samples.tag Samples.revocation Samples.coo)
    as (_ & _ & [(b & H1 & _ & H2)|[H1 _]]).
  - done.
  - by apply (buf_wf_zeros 400).
  - apply Samples.tag_ok.
  - apply Samples.revocation_ok.
  - apply Samples.coo_is_wf.
  - exists b. split; [exact H1|exact H2].
  - exfalso. revert H1. vm_compute. discriminate.
Defined.

(** what is signed is unambiguous.  Two tags, two revocations or two certificates of
    ownership with the same signed form differ in nothing but the signature, and the
    signed forms of two different kinds are never equal, so a signature made for a
    credential of one kind is not a signature of one of another kind. *)
Theorem Credential_signed_form_unambiguous (t t' : Tag) (r r' : Revocation) (c c' : COO) :
  tag_wf t -> tag_wf t' -> revocation_wf r -> revocation_wf r' -> coo_wf c -> coo_wf c' ->
  (cr_signed t = cr_signed t' -> t' = cr_with_signature t (tag_signature t')) /\
  (cr_signed r = cr_signed r' -> r' = cr_with_signature r (rev_signature r')) /\
  (cr_signed c = cr_signed c' -> c' = cr_with_signature c (coo_signature c')) /\
  cr_signed t <> cr_signed r /\ cr_signed t <> cr_signed c /\ cr_signed r <> cr_signed c.
Proof.
  intros Ht Ht' Hr Hr' Hc Hc'. pose proof (zlen_coo_body c Hc) as Hl. pose proof (ow_count c (proj1 Hc)) as Hn.
  unfold in_range in Hn. split; [by apply (cr_signed_inj (Laws := Tag_laws))|].
  split; [by apply (cr_signed_inj (Laws := Revocation_laws))|]. split; [by apply (cr_signed_inj (Laws := COO_laws))|].
  split_and!; intros Heq; apply (f_equal zlen) in Heq; revert Heq;
    unfold cr_signed, cred_enc, marker_enc; rewrite !zlen_app, !zlen_be_bytes.
  - change (zlen (cr_body t)) with 34. by change (zlen (cr_body r)) with 51.
  - change (zlen (cr_body t)) with 34. change (cr_body c) with (coo_body c). lia.
  - change (zlen (cr_body r)) with 51. change (cr_body c) with (coo_body c). lia.
Qed.

Lemma Credential_signed_form_unambiguous_witness : cr_signed Samples.revocation <> cr_signed Samples.coo.
Proof.
  apply (Credential_signed_form_unambiguous Samples.tag Samples.tag Samples.revocation Samples.revocation
    Samples.coo Samples.coo); apply Samples.tag_ok || apply Samples.revocation_ok || apply Samples.coo_is_wf.
Defined.

(** addThing() and owns() of a certificate of ownership.  A certificate with room
    comes to own the added IP address, or the added MAC, and nothing else; a full one,
    or an address that is neither IPv4 nor IPv6, leaves it as it was.  Addresses and MACs
    are not confused, and ports do not matter. *)
Theorem COO_addThing_owns c ip mac ip' mac' :
  coo_wf c -> ia_wf ip -> ia_wf ip' -> in_range 48 mac -> in_range 48 mac' ->
  let room := coo_thingCount c <? 16 in
  exists c1 c2 o m,
    COO_addThing_ip c ip = Ok c1 /\ coo_wf c1 /\ COO_addThing_mac c mac = Ok c2 /\ coo_wf c2 /\
    COO_owns_ip c ip' = Ok o /\ COO_owns_mac c mac' = Ok m /\
    COO_owns_ip c1 ip' = Ok (o || (room && bool_decide (is_Some (ip_thing ip) /\ ip_thing ip = ip_thing ip'))) /\
    COO_owns_mac c1 mac' = Ok m /\
    COO_owns_ip c2 ip' = Ok o /\
    COO_owns_mac c2 mac' = Ok (m || (room && (mac =? mac'))).
Proof.
  intros Hw Hip Hip' Hm Hm' room. pose proof (mac_thing_proper mac) as Pm. pose proof (mac_thing_proper mac') as Pm'.
  destruct (COO_add_has c (mac_thing mac) Hw Pm) as (c2 & E2 & Hw2 & H2).
  destruct (COO_add_ip c ip Hw Hip) as (c1 & E1 & Hw1 & H1).
  exists c1, c2. do 2 eexists. split; [exact E1|]. split; [done|]. split.
  { unfold COO_addThing_mac. rewrite MAC_bytes_be. exact E2. }
  split; [done|]. rewrite !COO_owns_ip_spec, !COO_owns_mac_spec by done. do 2 (split; [done|]).
  rewrite H1, H2 by done. fold room. split_and!.
  - destruct (ip_thing ip') as [y|] eqn:Ey; cbn [from_option].
    + rewrite H1 by (by eapply ip_thing_proper). do 3 f_equal. apply bool_decide_ext. split; [intros ->; eauto|by intros [_ ->]].
    + rewrite bool_decide_false by (intros [[x ->] ?]; congruence). by rewrite andb_false_r.
  - rewrite bool_decide_false; [by rewrite andb_false_r, orb_false_r|]. intros Heq. by destruct ip; cbn in Heq.
  - destruct (ip_thing ip') as [y|] eqn:Ey; cbn [from_option]; [|done].
    rewrite H2 by (by eapply ip_thing_proper). rewrite bool_decide_false; [by rewrite andb_false_r, orb_false_r|].
    intros <-. by destruct ip'; cbn in Ey.
  - do 3 f_equal. rewrite eqb_bool_decide. apply bool_decide_ext. split; [|by intros ->].
    intros Heq%(f_equal snd). change (be_bytes 6 mac = be_bytes 6 mac') in Heq.
    by rewrite <- (be_val_be_bytes_id 6 mac), Heq, be_val_be_bytes_id by done.
Qed.

Lemma COO_addThing_owns_witness :
  exists c1, COO_addThing_ip Samples.coo (IaV4 80 [10; 0; 0; 1]) = Ok c1 /\
    COO_owns_ip c1 (IaV4 443 [10; 0; 0; 1]) = Ok true.
Proof.
  destruct (COO_addThing_owns Samples.coo (IaV4 80 [10; 0; 0; 1]) 1 (IaV4 443 [10; 0; 0; 1]) 2)
    as (c1 & c2 & o & m & H1 & _ & _ & _ & _ & _ & H2 & _).
  - apply Samples.coo_is_wf.
  - split_and!; [done|done|by repeat constructor].
  - split_and!; [done|done|by repeat constructor].
  - done.
  - done.
  - exists c1. split; [exact H1|]. rewrite H2. f_equal. apply orb_true_iff. right.
    apply andb_true_iff. split; [reflexivity|]. apply bool_decide_eq_true. split; [by eexists|reflexivity].
Defined.

(** deserialize() accepts a certificate of ownership that claims more than sixteen
    things, stores sixteen and keeps the claimed count.  Asking the result whether it
    owns something it does not, or verifying its signature, then reads past the end of
    the arrays; verify() does so before it looks at the signature. *)
Theorem COO_overcount_reads_past_arrays `{Ops : C25519Ops} getIdentity C b i c :
  coo_ok c -> 16 < coo_thingCount c -> buf_wf C b ->
  has_at b i (cred_enc (coo_body c) (coo_signature c) false) ->
  COO_deserialize b i = Ok (c, 413) /\
  (forall t v, zlen v <= 16 -> existsb (is_thing t v) (things c) = false -> COO_owns_thing c t v = Undef) /\
  (coo_signedBy c <> 0 -> coo_signedBy c = controllerFor (coo_networkId c) ->
   id_address (getIdentity (coo_signedBy c)) <> 0 -> COO_verify getIdentity c = Undef).
Proof.
  intros Hw Hc Hb Hh. split; [|split].
  - rewrite (COO_reads c Hw C b i Hb Hh). do 2 f_equal. unfold cred_enc, sig_enc. rewrite !zlen_app, !zlen_be_bytes.
    rewrite (zlen_coo_body_ok c Hw), (proj1 (ow_signature c Hw)). lia.
  - intros t v Hv He. unfold COO_owns_thing. apply (owns_loop_past c Hw _ 0); [done|lia|]. unfold things, ztake in He.
    rewrite take_ge in He; [done|]. rewrite length_zip_with. destruct (ow_types c Hw) as [Hl _]. unfold zlen in Hl. lia.
  - intros Hs Hctl Hid. unfold COO_verify, credential_verify. cbn [cr_signedBy cr_networkId COO_credential].
    unfold Identity_bool, Address_bool. rewrite (proj2 (Z.eqb_neq _ _) Hs), (proj2 (Z.eqb_eq _ _) Hctl).
    rewrite (proj2 (Z.eqb_neq _ _) Hid). cbn [negb orb].
    by rewrite COO_signed_past by done.
Qed.

Lemma COO_overcount_reads_past_arrays_witness :
  exists b, COO_deserialize b 0 = Ok (Samples.overcounted, 413) /\
    COO_verify (H := Toy.toy_ops) (fun _ => Samples.signer) Samples.overcounted = Undef.
Proof.
  set (d := cred_enc (coo_body Samples.overcounted) (coo_signature Samples.overcounted) false).
  exists (mkBuffer d 413).
  destruct (COO_overcount_reads_past_arrays (Ops := Toy.toy_ops) (fun _ => Samples.signer) 413 (mkBuffer d 413) 0
    Samples.overcounted) as (H1 & _ & H2).
  - apply Samples.overcounted_ok.
  - reflexivity.
  - split; [reflexivity| |done|done]. apply (bool_decide_unpack _). vm_compute. exact I.
  - split; [done|]. exists [], []. split; reflexivity.
  - split; [exact H1|]. apply H2; done.
Defined.
