(* ===== verification/Capability.v ===== *)
(** Capabilities: node/Capability.hpp and node/Capability.cpp.

    A capability is a set of rules that the network's controller signs for a member, who may
    sign it over to another: the chain of custody.  [cap_rules] is the part of the array in
    use; [cap_custody] is the whole array of seven entries, of which the first with no
    recipient ends the chain. *)
From S2P Require Import Prelude.
From S2P Require Import Utils.
From S2P Require Import Buffer.
From S2P Require Import Addressing.
From S2P Require Import Wire.
From S2P Require Import Rules.
From S2P Require Import C25519Api.
From S2P Require Import Identity.
From S2P Require Import CertificateOfMembership.
From S2P Require Import Credentials.

Definition ZT_MAX_CAPABILITY_RULES : Z := 64.
Definition ZT_MAX_CAPABILITY_CUSTODY_CHAIN_LENGTH : Z := 7.

Record Custody : Type := mkCustody { cu_to : Z; cu_from : Z; cu_signature : list Z }.
Definition no_custody : Custody := mkCustody 0 0 (replicate 96 0).

Record Capability : Type := mkCapability {
  cap_nwid : Z; cap_ts : Z; cap_id : Z; cap_maxCustodyChainLength : Z;
  cap_rules : list Rule; cap_custody : list Custody
}.

Definition with_custody (c : Capability) (cs : list Custody) : Capability :=
  mkCapability (cap_nwid c) (cap_ts c) (cap_id c) (cap_maxCustodyChainLength c) (cap_rules c) cs.

(** ** The code *)

Definition Capability_new (id nwid ts mccl : Z) (rules : list Rule) (ruleCount : Z) : Capability :=
  mkCapability nwid ts id
    (if 0 <? mccl then (if mccl <? ZT_MAX_CAPABILITY_CUSTODY_CHAIN_LENGTH then mccl else ZT_MAX_CAPABILITY_CUSTODY_CHAIN_LENGTH) else 1)
    (ztake (if ruleCount <? ZT_MAX_CAPABILITY_RULES then ruleCount else ZT_MAX_CAPABILITY_RULES) rules)
    (replicate 7 no_custody).

Fixpoint issuedTo_loop (i2 : Z) (cs : list Custody) : Z :=
  match cs with
  | [] => i2
  | c :: cs => if negb (Address_bool (cu_to c)) then i2 else issuedTo_loop (cu_to c) cs
  end.
Definition Capability_issuedTo (c : Capability) : Z := issuedTo_loop 0 (cap_custody c).

(** The chain of custody as serialize() writes it, [n] entries being left of the maximum. *)
Fixpoint append_custody (C : Z) (n : nat) (cs : list Custody) (b : Buffer) : outcome Buffer :=
  match n, cs with
  | S n, c :: cs =>
      if Address_bool (cu_to c) then
        b ← Address_appendTo C (cu_to c) b;
        b ← Address_appendTo C (cu_from c) b;
        b ← append_signature C (cu_signature c) b;
        append_custody C n cs b
      else Buffer_append_run C b 0 ZT_ADDRESS_LENGTH
  | _, _ => Buffer_append_run C b 0 ZT_ADDRESS_LENGTH
  end.

Definition Capability_serialize (C : Z) (c : Capability) (forSign : bool) (b : Buffer) : outcome Buffer :=
  b ← append_marker C forSign b;
  b ← Buffer_append_int C b 8 (cap_nwid c);
  b ← Buffer_append_int C b 8 (cap_ts c);
  b ← Buffer_append_int C b 4 (cap_id c);
  b ← Buffer_append_int C b 2 (zlen (cap_rules c));
  b ← serializeRules C (cap_rules c) b;
  b ← Buffer_append_int C b 1 (cap_maxCustodyChainLength c);
  b ← (if forSign then Ok b else append_custody C (Z.to_nat (cap_maxCustodyChainLength c)) (cap_custody c) b);
  b ← Buffer_append_int C b 2 0;
  append_marker C forSign b.

(** The loop over the chain of custody: entry [i] of [cs].  It ends after [max] entries, so
    eight turns are enough. *)
Fixpoint read_custody (fuel : nat) (i max : Z) (b : Buffer) (p : Z) (cs : list Custody) : outcome (list Custody * Z) :=
  match fuel with
  | O => Undef
  | S fuel =>
      to ← Buffer_read_address b p; let p := u32 (p + ZT_ADDRESS_LENGTH) in
      if negb (Address_bool to) then Ok (cs, p) else
      if (max <=? i) || (ZT_MAX_CAPABILITY_CUSTODY_CHAIN_LENGTH <=? i) then Throw SERIALIZED_DATA_OVERFLOW else
      from ← Buffer_read_address b p; let p := u32 (p + ZT_ADDRESS_LENGTH) in
      '(sig, p) ← read_signature b p;
      cs ← mem_write cs i [mkCustody to from sig];
      read_custody fuel (i + 1) max b p cs
  end.

Definition Capability_deserialize (b : Buffer) (startAt : Z) : outcome (Capability * Z) :=
  let p := startAt in
  nwid ← Buffer_at b 8 p; let p := u32 (p + 8) in
  ts ← Buffer_at b 8 p; let p := u32 (p + 8) in
  id ← Buffer_at b 4 p; let p := u32 (p + 4) in
  rc ← Buffer_at b 2 p; let p := u32 (p + 2) in
  if ZT_MAX_CAPABILITY_RULES <? rc then Throw SERIALIZED_DATA_OVERFLOW else
  '(rules, p) ← deserializeRules (Z.to_nat rc) b p;
  max ← Buffer_index b p; let p := u32 (p + 1) in
  if (max <? 1) || (ZT_MAX_CAPABILITY_CUSTODY_CHAIN_LENGTH <? max) then Throw SERIALIZED_DATA_OVERFLOW else
  '(cs, p) ← read_custody 8 0 max b p (replicate 7 no_custody);
  p ← read_trailer b p;
  Ok (mkCapability nwid (s64 ts) id max rules cs, u32 (p - startAt)).

(** [sizeof(Capability)] is 2864, and [tmp] holds twice that. *)
Definition cap_tmp_capacity : nat := 2864 * 2.
Definition cap_signed_bytes (c : Capability) : outcome (list Z) :=
  tmp ← Capability_serialize (Z.of_nat cap_tmp_capacity) c true (Buffer_new (replicate cap_tmp_capacity 0));
  Ok (buf_data tmp).

Section Keys.
Context `{Ops : C25519Ops}.

(** The loop of sign() for the first free entry, [n] entries being left of the maximum: the
    chain and the return value.  When there is no private key, sign() of the identity throws
    after the recipient and the sender are stored. *)
Fixpoint sign_custody (n : nat) (cap : Capability) (from : Identity) (to : Z) (cs : list Custody) : outcome (list Custody * bool) :=
  match n, cs with
  | S n, c :: cs =>
      if negb (Address_bool (cu_to c)) then
        match cap_signed_bytes cap with
        | Ok tmp =>
            match Identity_sign from tmp with
            | Ok sig => Ok (mkCustody to (id_address from) sig :: cs, true)
            | Throw _ => Ok (mkCustody to (id_address from) (cu_signature c) :: cs, false)
            | Undef => Undef
            end
        | Throw _ => Ok (c :: cs, false)
        | Undef => Undef
        end
      else '(cs, r) ← sign_custody n cap from to cs; Ok (c :: cs, r)
  | _, _ => Ok (cs, false)
  end.

Definition Capability_sign (cap : Capability) (from : Identity) (to : Z) : outcome (Capability * bool) :=
  '(cs, r) ← sign_custody (Z.to_nat (cap_maxCustodyChainLength cap)) cap from to (cap_custody cap);
  Ok (with_custody cap cs, r).

(** The loop of verify() over the entries from the second on, after one whose recipient is
    [prev]; the first is checked against the controller.  The return value and the addresses
    handed to [requestWhois]. *)
Fixpoint verify_custody (getIdentity : Z -> Identity) (tmp : list Z) (n : nat) (nwid : Z) (prev : option Z) (cs : list Custody) : outcome (Z * list Z) :=
  match n with
  | O => Ok (0, [])
  | S n =>
      match cs with
      | [] => Undef
      | c :: cs =>
          let check :=
            match prev with
            | None =>
                if negb (Address_bool (cu_to c)) || negb (Address_bool (cu_from c)) || negb (cu_from c =? controllerFor nwid) then Some (-1) else None
            | Some to =>
                if negb (Address_bool (cu_to c)) then Some 0
                else if negb (Address_bool (cu_from c)) || negb (cu_from c =? to) then Some (-1) else None
            end in
          match check with
          | Some r => Ok (r, [])
          | None =>
              let id := getIdentity (cu_from c) in
              if Identity_bool id then
                if negb (C25519_verify (id_publicKey id) tmp (cu_signature c)) then Ok (-1, [])
                else verify_custody getIdentity tmp n nwid (Some (cu_to c)) cs
              else Ok (1, [cu_from c])
          end
      end
  end.

Definition Capability_verify (getIdentity : Z -> Identity) (c : Capability) : outcome (Z * list Z) :=
  if (cap_maxCustodyChainLength c <? 1) || (ZT_MAX_CAPABILITY_CUSTODY_CHAIN_LENGTH <? cap_maxCustodyChainLength c) then Ok (-1, []) else
  match cap_signed_bytes c with
  | Ok tmp => verify_custody getIdentity tmp (Z.to_nat (cap_maxCustodyChainLength c)) (cap_nwid c) None (cap_custody c)
  | Throw _ => Ok (-1, [])
  | Undef => Undef
  end.
End Keys.

(** ** Well-formed capabilities *)

Record custody_ok (c : Custody) : Prop := {
  co_to : in_range 40 (cu_to c);
  co_to_set : cu_to c <> 0;
  co_from : in_range 40 (cu_from c);
  co_signature : is_sig (cu_signature c)
}.

(** The array of the chain: the entries in use and empty ones. *)
Definition chain (live : list Custody) : list Custody := live ++ replicate (7 - length live) no_custody.

Record cap_wf (c : Capability) (live : list Custody) : Prop := {
  cpw_nwid : is_u64 (cap_nwid c);
  cpw_ts : - 2 ^ 63 <= cap_ts c < 2 ^ 63;
  cpw_id : is_u32 (cap_id c);
  cpw_max : 1 <= cap_maxCustodyChainLength c <= 7;
  cpw_rules : Forall rule_wf (cap_rules c);
  cpw_count : zlen (cap_rules c) <= 64;
  cpw_live : zlen live <= cap_maxCustodyChainLength c;
  cpw_chain : cap_custody c = chain live;
  cpw_entries : Forall custody_ok live
}.

Definition cap_body (c : Capability) : list Z :=
  be_bytes 8 (cap_nwid c) ++ be_bytes 8 (cap_ts c) ++ be_bytes 4 (cap_id c) ++ be_bytes 2 (zlen (cap_rules c)) ++
  mjoin (rule_enc <$> cap_rules c) ++ be_bytes 1 (cap_maxCustodyChainLength c).
Definition custody_enc (c : Custody) : list Z := be_bytes 5 (cu_to c) ++ be_bytes 5 (cu_from c) ++ sig_enc (cu_signature c).

(** What is signed, and what is sent. *)
Definition cap_signed (c : Capability) : list Z := marker_enc ++ cap_body c ++ be_bytes 2 0 ++ marker_enc.
Definition cap_enc (c : Capability) (live : list Custody) : list Z :=
  cap_body c ++ (mjoin (custody_enc <$> live) ++ be_bytes 5 0) ++ be_bytes 2 0.

Lemma cap_signed_custody c cs : cap_signed (with_custody c cs) = cap_signed c.
Proof. done. Qed.

(** *** Writing *)

Section Writing.
Context (C : Z) (HC : C + 96 < 2 ^ 32).

Lemma append_end_appends : appends C (fun b => Buffer_append_run C b 0 ZT_ADDRESS_LENGTH) (be_bytes 5 0).
Proof. apply (appends_run C 0 5); [done|lia|lia]. Qed.

Lemma append_custody_appends n live : Forall custody_ok live -> (length live <= n)%nat -> (length live <= 7)%nat ->
  appends C (append_custody C n (chain live)) (mjoin (custody_enc <$> live) ++ be_bytes 5 0).
Proof.
  unfold chain. generalize 7%nat as m. intros m Hl. revert n m. induction Hl as [|c live Hc _ IH]; intros n m Hn Hm.
  - cbn [fmap list_fmap mjoin list_join app length]. rewrite Nat.sub_0_r. destruct n, m; apply append_end_appends.
  - destruct n as [|n], m as [|m]; cbn [length] in *; [lia..|]. change (mjoin (custody_enc <$> c :: live)) with (custody_enc c ++ mjoin (custody_enc <$> live)).
    cbn [app append_custody]. unfold Address_bool. rewrite (proj2 (Z.eqb_neq _ _)) by apply Hc. cbn [negb]. unfold custody_enc at 1. rewrite <- !app_assoc. appending C.
    apply (appends_bind C); [apply append_signature_appends; [lia|apply Hc]|]. apply (IH n m); lia.
Qed.

Lemma Capability_appends_sign c live : cap_wf c live -> appends C (Capability_serialize C c true) (cap_signed c).
Proof.
  intros Hw. unfold Capability_serialize, cap_signed, cap_body, append_marker, marker_enc. cbn [mbind outcome_bind]. rewrite <- !app_assoc. appending C.
  apply (appends_bind C); [apply serializeRules_appends; [lia|apply Hw]|]. appending C. apply appends_int.
Qed.

Lemma Capability_appends c live : cap_wf c live -> appends C (Capability_serialize C c false) (cap_enc c live).
Proof.
  intros Hw. unfold Capability_serialize, cap_enc, cap_body, append_marker. cbn [mbind outcome_bind]. rewrite <- !app_assoc. appending C.
  apply (appends_bind C); [apply serializeRules_appends; [lia|apply Hw]|]. appending C. rewrite (app_assoc (mjoin _)).
  pose proof (cpw_live c live Hw). pose proof (cpw_max c live Hw). unfold zlen in *.
  rewrite (cpw_chain c live Hw). apply (appends_bind C); [apply append_custody_appends; [apply Hw|lia|lia]|]. apply (appends_last C), appends_int.
Qed.
End Writing.

Lemma rule_encs_length rules : Forall rule_wf rules -> zlen (mjoin (rule_enc <$> rules)) <= 21 * zlen rules.
Proof.
  induction 1 as [|r rules [_ Hr] _ IH]; [done|]. change (mjoin (rule_enc <$> r :: rules)) with (rule_enc r ++ mjoin (rule_enc <$> rules)).
  rewrite zlen_app. unfold rule_enc at 1. rewrite !zlen_app, !zlen_be_bytes. pose proof (value_enc_length _ _ Hr). unfold zlen in *. cbn [length]. lia.
Qed.

Lemma cap_signed_bytes_Ok c live : cap_wf c live -> cap_signed_bytes c = Ok (cap_signed c).
Proof.
  intros Hw. unfold cap_signed_bytes. destruct (Capability_appends_sign (Z.of_nat cap_tmp_capacity) ltac:(done) c live Hw) as [_ Ha].
  assert (Hb : buf_wf (Z.of_nat cap_tmp_capacity) (Buffer_new (replicate cap_tmp_capacity 0))) by (apply buf_wf_zeros; done).
  specialize (Ha _ Hb). unfold Buffer_new in *. cbn [b_len] in Ha. rewrite (proj2 (Z.leb_le _ _)) in Ha.
  - destruct Ha as (b' & -> & _ & Hd). cbn [mbind outcome_bind]. by rewrite Hd.
  - unfold cap_signed, cap_body, marker_enc. rewrite !zlen_app, !zlen_be_bytes. pose proof (rule_encs_length _ (cpw_rules c live Hw)).
    pose proof (cpw_count c live Hw). change (Z.of_nat cap_tmp_capacity) with 5728. lia.
Qed.

(** *** Reading *)

Lemma chain_snoc d c : (length d < 7)%nat -> mem_write (chain d) (zlen d) [c] = Ok (chain (d ++ [c])).
Proof.
  intros Hd. unfold chain. replace (7 - length d)%nat with (S (7 - length (d ++ [c])))%nat by (rewrite length_app; cbn [length]; lia).
  cbn [replicate]. rewrite <- app_assoc. by apply (mem_write_seg d [no_custody]).
Qed.

Section Reading.
Context (C : Z) (b : Buffer) (Hb : buf_wf C b).

Lemma read_custody_enc l rest max : max <= 7 -> Forall custody_ok l -> forall fuel d p, (length l < fuel)%nat -> zlen (d ++ l) <= max ->
  has_at b p (mjoin (custody_enc <$> l) ++ be_bytes 5 0 ++ rest) ->
  let e := p + zlen (mjoin (custody_enc <$> l)) + 5 in
  read_custody fuel (zlen d) max b p (chain d) = Ok (chain (d ++ l), e) /\ has_at b e rest.
Proof.
  intros Hmax. induction 1 as [|c l Hc Hl IH]; intros fuel d p Hf Hm Hh; (destruct fuel as [|fuel]; [cbn [length] in Hf; lia|]); cbn [read_custody].
  - cbn [fmap list_fmap mjoin list_join app] in *. rewrite (zlen_nil (A := Z)), Z.add_0_r, app_nil_r. unfold ZT_ADDRESS_LENGTH.
    reading (read_address C b Hb p 0) Hh; [done|exact Hh|]. by split.
  - change (mjoin (custody_enc <$> c :: l)) with (custody_enc c ++ mjoin (custody_enc <$> l)) in *. destruct Hc as [Hto Hset Hfrom Hsig].
    assert (Hz : zlen (custody_enc c) = 109) by (unfold custody_enc, sig_enc; rewrite !zlen_app, !zlen_be_bytes, (proj1 Hsig); done).
    rewrite <- app_assoc in Hh. unfold custody_enc at 1 in Hh. rewrite <- !app_assoc in Hh. unfold ZT_ADDRESS_LENGTH.
    reading (read_address C b Hb p (cu_to c)) Hh; [done|exact Hh|]. unfold Address_bool. rewrite (proj2 (Z.eqb_neq _ _)) by done. cbn [negb].
    rewrite zlen_app in Hm. unfold zlen in Hm at 2. cbn [length] in Hm. unfold ZT_MAX_CAPABILITY_CUSTODY_CHAIN_LENGTH.
    rewrite (proj2 (Z.leb_gt max _)), (proj2 (Z.leb_gt 7 _)) by lia. cbn [orb].
    reading (read_address C b Hb (p + 5) (cu_from c)) Hh; [done|exact Hh|].
    destruct (read_signature_enc C b Hb _ _ _ (proj1 Hsig) Hh) as [-> Hh2]. cbn [mbind outcome_bind].
    rewrite chain_snoc by (unfold zlen in Hm; lia). cbn [mbind outcome_bind]. replace (zlen d + 1) with (zlen (d ++ [mkCustody (cu_to c) (cu_from c) (cu_signature c)])) by (by rewrite zlen_app).
    replace (p + 5 + 5 + 99) with (p + 109) in * by lia.
    destruct (IH fuel (d ++ [mkCustody (cu_to c) (cu_from c) (cu_signature c)]) (p + 109)) as [-> Hr]; [cbn [length] in Hf; lia| |done|].
    { rewrite <- app_assoc, zlen_app. unfold zlen at 2. cbn [app length]. lia. }
    rewrite <- app_assoc, zlen_app, Hz. cbn [app]. destruct c. cbn [cu_to cu_from cu_signature] in *.
    replace (p + 109 + zlen (mjoin (custody_enc <$> l)) + 5) with (p + (109 + zlen (mjoin (custody_enc <$> l))) + 5) in * by lia. done.
Qed.

Lemma Capability_reads c live i : cap_wf c live -> has_at b i (cap_enc c live) -> Capability_deserialize b i = Ok (c, zlen (cap_enc c live)).
Proof.
  intros Hw Hh. assert (Hi : 0 <= i) by apply Hh. unfold cap_enc, cap_body in *. pose proof (zlen_nonneg (cap_rules c)) as Hz0. pose proof (cpw_count c live Hw) as Hz1.
  rewrite !zlen_app, !zlen_be_bytes. rewrite <- !app_assoc, <- (be_bytes_u64 (cap_ts c)) in Hh. unfold Capability_deserialize, ZT_MAX_CAPABILITY_RULES, ZT_MAX_CAPABILITY_CUSTODY_CHAIN_LENGTH.
  reading (read_int C b Hb i 8 (cap_nwid c)) Hh; [apply Hw|exact Hh|].
  reading (read_int C b Hb (i + 8) 8 (u64 (cap_ts c))) Hh; [by apply wrap_range|exact Hh|].
  reading (read_int C b Hb (i + 8 + 8) 4 (cap_id c)) Hh; [apply Hw|exact Hh|].
  reading (read_int C b Hb (i + 8 + 8 + 4) 2 (zlen (cap_rules c))) Hh; [unfold in_range; lia|exact Hh|].
  rewrite (proj2 (Z.ltb_ge _ _)) by lia. unfold zlen at 1. rewrite Nat2Z.id.
  destruct (deserializeRules_enc C b Hb _ _ _ (cpw_rules c live Hw) Hh) as [-> Hh1]. cbn [mbind outcome_bind]. clear Hh.
  pose proof (cpw_max c live Hw) as Hmax. pose proof (cpw_live c live Hw) as Hlive. pose proof (zlen_nonneg (mjoin (rule_enc <$> cap_rules c))).
  reading (read_byte C b Hb (i + 8 + 8 + 4 + 2 + zlen (mjoin (rule_enc <$> cap_rules c))) (cap_maxCustodyChainLength c)) Hh1; [unfold in_range; lia|exact Hh1|].
  rewrite (proj2 (Z.ltb_ge _ _)), (proj2 (Z.ltb_ge 7 _)) by lia. cbn [orb].
  destruct (read_custody_enc live (be_bytes 2 0) (cap_maxCustodyChainLength c) ltac:(lia) (cpw_entries c live Hw) 8 [] _ ltac:(unfold zlen in Hlive; lia) Hlive Hh1) as [Er Hh2].
  change (chain []) with (replicate 7 no_custody) in Er. change (zlen []) with 0 in Er. rewrite Er. cbn [mbind outcome_bind app]. cbn [app] in Hh2.
  rewrite <- (app_nil_r (be_bytes 2 0)) in Hh2. destruct (read_trailer_enc C b Hb _ _ Hh2) as [-> Hh3]. cbn [mbind outcome_bind].
  pose proof (zlen_nonneg (mjoin (custody_enc <$> live))). rewrite (read_end C b Hb i _ _ Hh3) by lia. rewrite s64_u64 by apply Hw.
  rewrite <- (cpw_chain c live Hw). destruct c. cbn [cap_nwid cap_ts cap_id cap_rules cap_custody cap_maxCustodyChainLength]. do 2 f_equal. lia.
Qed.
End Reading.

(** ** The chain of custody *)

Section Custody.
Context `{Ops : C25519Ops} (getIdentity : Z -> Identity).

(** An entry whose signer is known and whose signature is over [tmp]. *)
Definition signed_entry (tmp : list Z) (c : Custody) : Prop :=
  cu_from c <> 0 /\ Identity_bool (getIdentity (cu_from c)) = true /\ C25519_verify (id_publicKey (getIdentity (cu_from c))) tmp (cu_signature c) = true.

(** Every entry is signed by the recipient of the one before it, the first by [holder]. *)
Inductive custody_chain (tmp : list Z) : Z -> list Custody -> Prop :=
| chain_end holder : custody_chain tmp holder []
| chain_entry holder c l : cu_from c = holder -> signed_entry tmp c -> custody_chain tmp (cu_to c) l -> custody_chain tmp holder (c :: l).

Lemma verify_custody_tail tmp nwid l : Forall custody_ok l -> forall n m to, (length l <= n)%nat -> (n <= length l + m)%nat ->
  verify_custody getIdentity tmp n nwid (Some to) (l ++ replicate m no_custody) = Ok (0, []) <-> custody_chain tmp to l.
Proof.
  induction 1 as [|c l Hc Hl IH]; intros n m to Hn Hm.
  - split; [constructor|intros _]. destruct n as [|n], m as [|m]; cbn [length] in *; [done|done|lia|done].
  - destruct n as [|n]; cbn [length] in *; [lia|]. cbn [app verify_custody]. unfold Address_bool. rewrite (proj2 (Z.eqb_neq (cu_to c) 0)) by apply Hc. cbn [negb].
    specialize (IH n m (cu_to c) ltac:(lia) ltac:(lia)). split.
    + destruct (Z.eqb_spec (cu_from c) 0); [done|]. cbn [negb orb]. destruct (Z.eqb_spec (cu_from c) to); [|done]. cbn [negb].
      destruct (Identity_bool _) eqn:Ei; [|done]. destruct (C25519_verify _ _ _) eqn:Ev; [|done]. intros H%IH. by constructor.
    + inversion 1 as [|? ? ? <- (Hnz & Hid & Hv) Hch]; subst. rewrite (proj2 (Z.eqb_neq (cu_from c) 0)), Z.eqb_refl, Hid, Hv by done. by apply IH.
Qed.

Lemma Capability_verify_iff c live : cap_wf c live ->
  Capability_verify getIdentity c = Ok (0, []) <-> live <> [] /\ custody_chain (cap_signed c) (controllerFor (cap_nwid c)) live.
Proof.
  intros Hw. unfold Capability_verify. pose proof (cpw_max c live Hw). unfold ZT_MAX_CAPABILITY_CUSTODY_CHAIN_LENGTH.
  rewrite (proj2 (Z.ltb_ge _ 1)), (proj2 (Z.ltb_ge 7 _)) by lia. cbn [orb]. rewrite (cap_signed_bytes_Ok c live Hw), (cpw_chain c live Hw).
  pose proof (cpw_live c live Hw) as Hl. unfold zlen in Hl. destruct (Z.to_nat (cap_maxCustodyChainLength c)) as [|n] eqn:En; [lia|].
  pose proof (cpw_entries c live Hw) as He. destruct He as [|e live He Hes]; [split; [done|by intros []]|]. cbn [length] in Hl. unfold chain. cbn [app verify_custody length].
  unfold Address_bool. rewrite (proj2 (Z.eqb_neq (cu_to e) 0)) by apply He. cbn [negb orb].
  pose proof (verify_custody_tail (cap_signed c) (cap_nwid c) live Hes n (7 - S (length live)) (cu_to e) ltac:(lia) ltac:(lia)) as Ht. split.
  - destruct (Z.eqb_spec (cu_from e) 0); [done|]. cbn [negb orb]. destruct (Z.eqb_spec (cu_from e) (controllerFor (cap_nwid c))); [|done]. cbn [negb].
    destruct (Identity_bool _) eqn:Ei; [|done]. destruct (C25519_verify _ _ _) eqn:Ev; [|done]. intros Hv%Ht. split; [done|]. by constructor.
  - intros [_ Hch]. inversion Hch as [|? ? ? Hf (Hnz & Hid & Hv) Hrest]; subst. rewrite Hf in *. rewrite (proj2 (Z.eqb_neq (controllerFor _) 0)), Z.eqb_refl by done.
    cbn [negb orb]. rewrite Hid, Hv. by apply Ht.
Qed.

(** The holder of a chain. *)
Definition holder_of (holder : Z) (l : list Custody) : Z := default holder (cu_to <$> last l).

Lemma holder_of_cons holder e l : holder_of holder (e :: l) = holder_of (cu_to e) l.
Proof. unfold holder_of. rewrite last_cons. by destruct (last l). Qed.

Lemma custody_chain_snoc tmp l : forall holder c, custody_chain tmp holder l -> cu_from c = holder_of holder l -> signed_entry tmp c -> custody_chain tmp holder (l ++ [c]).
Proof.
  induction l as [|e l IH]; intros holder c Hch Hf Hs; inversion Hch; subst; cbn [app].
  - constructor; [done|done|constructor].
  - constructor; [done|done|]. apply IH; [done| |done]. by rewrite Hf, holder_of_cons.
Qed.

Lemma issuedTo_loop_holder l m holder : Forall custody_ok l -> issuedTo_loop holder (l ++ replicate m no_custody) = holder_of holder l.
Proof.
  intros H. revert holder. induction H as [|e l He _ IH]; intros holder; [by destruct m|]. cbn [app issuedTo_loop]. unfold Address_bool.
  rewrite (proj2 (Z.eqb_neq (cu_to e) 0)) by apply He. cbn [negb]. by rewrite IH, holder_of_cons.
Qed.

(** *** Signing *)

Lemma sign_custody_spec cap from to sig l m n : Forall custody_ok l -> (length l < n)%nat -> (0 < m)%nat ->
  cap_signed_bytes cap ≫= Identity_sign from = Ok sig ->
  sign_custody n cap from to (l ++ replicate m no_custody) = Ok (l ++ mkCustody to (id_address from) sig :: replicate (m - 1) no_custody, true).
Proof.
  intros Hl Hn Hm Hs. revert n Hn. induction Hl as [|e l He _ IH]; intros [|n] Hn; cbn [length] in Hn; [lia| |lia|].
  - destruct m as [|m]; [lia|]. cbn [replicate app sign_custody]. change (negb (Address_bool (cu_to no_custody))) with true. cbv iota.
    destruct (cap_signed_bytes cap) as [tmp| |]; [|done..]. cbn [mbind outcome_bind] in Hs. rewrite Hs. by replace (S m - 1)%nat with m by lia.
  - cbn [app sign_custody]. unfold Address_bool. rewrite (proj2 (Z.eqb_neq (cu_to e) 0)) by apply He. cbn [negb]. rewrite IH by lia. done.
Qed.
End Custody.

Section Signing.
Context `{Shape : C25519Shape} (getIdentity : Z -> Identity).

Lemma Capability_sign_Ok c live from priv to :
  cap_wf c live -> zlen live < cap_maxCustodyChainLength c -> id_privateKey from = Some priv -> in_range 40 (id_address from) -> in_range 40 to -> to <> 0 ->
  let e := mkCustody to (id_address from) (C25519_sign priv (id_publicKey from) (cap_signed c)) in
  Capability_sign c from to = Ok (with_custody c (chain (live ++ [e])), true) /\ cap_wf (with_custody c (chain (live ++ [e]))) (live ++ [e]).
Proof.
  intros Hw Hlen Hp Ha Ht Hnz e. pose proof (cpw_max c live Hw). unfold zlen in Hlen. assert (He : custody_ok e).
  { destruct (sign_bytes priv (id_publicKey from) (cap_signed c)) as [Hs1 Hs2]. constructor; [done..|]. split; [unfold zlen; unfold e; cbn [cu_signature]; lia|done]. }
  split.
  - unfold Capability_sign. rewrite (cpw_chain c live Hw). unfold chain at 1.
    rewrite (sign_custody_spec c from to (C25519_sign priv (id_publicKey from) (cap_signed c))); [|apply Hw|lia|lia|].
    + cbn [mbind outcome_bind]. unfold chain. rewrite length_app. cbn [length]. replace (7 - length live - 1)%nat with (7 - (length live + 1))%nat by lia. by rewrite <- app_assoc.
    + rewrite (cap_signed_bytes_Ok c live Hw). cbn [mbind outcome_bind]. unfold Identity_sign. by rewrite Hp.
  - destruct Hw. constructor; cbn [with_custody cap_nwid cap_ts cap_id cap_maxCustodyChainLength cap_rules cap_custody]; try done.
    + rewrite zlen_app. change (zlen [e]) with 1. unfold zlen. lia.
    + apply Forall_app. split; [done|by constructor].
Qed.
End Signing.

(** ** Any bytes *)

Section Safety.
Context (C : Z) (HC : C + 1000000 < 2 ^ 31) (b : Buffer) (Hb : buf_wf C b).

Lemma read_signature_sane p : 0 <= p -> p + 70000 < 2 ^ 31 -> sane (read_signature b p) (fun '(sig, q) => is_sig sig /\ 0 <= q <= p + 65538).
Proof.
  intros Hp Hp2. unfold read_signature, ZT_C25519_SIGNATURE_LEN. eapply sane_bind; [eapply sane_index; done || lia|]. intros t _. rewrite (u32_small (p + 1)) by lia. destruct (t =? 1).
  - eapply sane_bind; [eapply sane_at; done || lia|]. intros l _. destruct (negb _); [done|]. rewrite (u32_small (p + 1 + 2)) by lia.
    eapply sane_bind; [eapply sane_read_field; done || lia|]. intros sig [Hl Hs]. cbn [sane]. split; [done|]. rewrite u32_small by lia. lia.
  - eapply sane_bind; [eapply sane_at; done || lia|]. intros l Hl. unfold in_range in Hl. cbn [sane]. split; [split; [done|by apply Forall_replicate]|].
    rewrite u32_small by lia. lia.
Qed.

Lemma read_custody_sane max fuel : max <= 7 -> forall i p cs, 0 <= i <= 7 -> 7 - i < Z.of_nat fuel -> 0 <= p -> p + 70000 * (8 - i) < 2 ^ 31 -> zlen cs = 7 ->
  sane (read_custody fuel i max b p cs) (fun '(cs', q) => zlen cs' = 7 /\ 0 <= q <= p + 70000 * (8 - i)).
Proof.
  intros Hmax. induction fuel as [|fuel IH]; intros i p cs Hi Hf Hp Hp2 Hz; [lia|]. cbn [read_custody]. unfold ZT_ADDRESS_LENGTH, ZT_MAX_CAPABILITY_CUSTODY_CHAIN_LENGTH.
  eapply sane_bind; [eapply sane_read_address; done || lia|]. intros to _. rewrite (u32_small (p + 5)) by lia. destruct (negb _); [cbn [sane]; split; [done|lia]|].
  destruct (Z.leb_spec max i); [done|]. destruct (Z.leb_spec 7 i); [done|]. cbn [orb].
  eapply sane_bind; [eapply sane_read_address; done || lia|]. intros from _. rewrite (u32_small (p + 5 + 5)) by lia.
  eapply sane_bind; [apply read_signature_sane; lia|]. intros [sig q] [_ Hq]. destruct (mem_write_one cs i (mkCustody to from sig)) as (cs1 & -> & Hz1 & _); [lia|]. cbn [mbind outcome_bind].
  eapply sane_weaken; [apply IH; [lia..|]|].
  - lia.
  - intros [cs' q'] [? ?]. split; [done|lia].
Qed.

Lemma Capability_deserialize_sane i : 0 <= i -> i < C + 10 -> sane (Capability_deserialize b i) (fun '(c, n) => Forall rule_wf (cap_rules c) /\ zlen (cap_rules c) <= 64 /\
  1 <= cap_maxCustodyChainLength c <= 7 /\ zlen (cap_custody c) = 7).
Proof.
  intros Hi Hi2. pose proof Hb as []. unfold Capability_deserialize. eapply sane_bind; [eapply sane_at; done || lia|]. intros nwid _. rewrite (u32_small (i + 8)) by lia.
  eapply sane_bind; [eapply sane_at; done || lia|]. intros ts _. rewrite (u32_small (i + 8 + 8)) by lia.
  eapply sane_bind; [eapply sane_at; done || lia|]. intros id _. rewrite (u32_small (i + 8 + 8 + 4)) by lia.
  eapply sane_bind; [eapply sane_at; done || lia|]. intros rc Hrc. unfold in_range in Hrc. rewrite (u32_small (i + 8 + 8 + 4 + 2)) by lia. unfold ZT_MAX_CAPABILITY_RULES, ZT_MAX_CAPABILITY_CUSTODY_CHAIN_LENGTH.
  destruct (Z.ltb_spec 64 rc); [done|]. eapply sane_bind; [apply (deserializeRules_sane C); done || lia|]. intros [rules q] (Hrules & Hl & Hq).
  eapply sane_bind; [eapply sane_index; done || lia|]. intros max _. rewrite (u32_small (q + 1)) by lia.
  destruct (Z.ltb_spec max 1); [done|]. destruct (Z.ltb_spec 7 max); [done|]. cbn [orb].
  eapply sane_bind; [apply read_custody_sane; done || lia|]. intros [cs q2] [Hcs Hq2]. unfold read_trailer. eapply (sane_bind _ _ (fun _ => True)).
  { eapply sane_bind; [eapply sane_at; done || lia|]. intros l _. destruct (_ <? _); [done|]. apply I. }
  intros p _. cbn [sane cap_rules cap_maxCustodyChainLength cap_custody]. split_and!; [done|unfold zlen; lia|lia|lia|done].
Qed.
End Safety.

(** ** Properties *)

(** A capability comes back from its binary form with its chain of custody, or does not fit. *)
Theorem Capability_roundtrip C c live b :
  C + 96 < 2 ^ 32 -> cap_wf c live -> buf_wf C b ->
  (exists b', Capability_serialize C c false b = Ok b' /\ Capability_deserialize b' (b_len b) = Ok (c, b_len b' - b_len b)) \/
  (Capability_serialize C c false b = Throw OUT_OF_BOUNDS /\ C < b_len b + zlen (cap_enc c live)).
Proof.
  intros HC Hw Hb. pose proof (Capability_appends C HC c live Hw) as Ha. pose proof (proj2 Ha b Hb) as H.
  destruct (Z.leb_spec (b_len b + zlen (cap_enc c live)) C); [left|by right]. destruct H as (b' & E & Hb' & _). exists b'. split; [done|].
  destruct (appends_len C _ _ b b' Ha Hb E) as (_ & _ & ->). rewrite (Capability_reads C b' Hb' c live) by (done || by eapply appends_has_at).
  do 2 f_equal. lia.
Qed.

(** Signed over by its holder, a capability still verifies where the signature does, and is its
    recipient's. *)
Theorem Capability_sign_verifies `{C25519Shape} getIdentity c live from priv to :
  cap_wf c live -> zlen live < cap_maxCustodyChainLength c ->
  live = [] \/ Capability_verify getIdentity c = Ok (0, []) ->
  id_address from = holder_of (controllerFor (cap_nwid c)) live ->
  id_privateKey from = Some priv -> id_publicKey from = C25519_public priv -> C25519_accepts priv (cap_signed c) -> in_range 40 (id_address from) -> id_address from <> 0 ->
  Identity_eqb (getIdentity (id_address from)) from = true -> in_range 40 to -> to <> 0 ->
  exists c' live', Capability_sign c from to = Ok (c', true) /\ cap_wf c' live' /\ Capability_verify getIdentity c' = Ok (0, []) /\
    Capability_issuedTo c' = to /\ cap_rules c' = cap_rules c.
Proof.
  intros Hw Hlen Hv Hholder Hp Hpub Hacc Ha Hanz Hid Ht Htnz. destruct (Capability_sign_Ok c live from priv to Hw Hlen Hp Ha Ht Htnz) as [Hs Hw']. cbv zeta in Hs, Hw'.
  set (e := mkCustody to (id_address from) (C25519_sign priv (id_publicKey from) (cap_signed c))) in *.
  exists (with_custody c (chain (live ++ [e]))), (live ++ [e]). split; [done|]. split; [done|]. apply andb_true_iff in Hid as [H1 H2].
  apply Z.eqb_eq in H1. apply bool_decide_eq_true in H2. split_and!.
  - apply (Capability_verify_iff _ _ _ Hw'). rewrite cap_signed_custody. split; [by destruct live|]. apply custody_chain_snoc; [|done|].
    + destruct Hv as [->|Hv]; [constructor|]. by apply (Capability_verify_iff _ _ _ Hw) in Hv as [_ Hv].
    + split; [done|]. cbn [e cu_from cu_signature]. unfold Identity_bool, Address_bool. rewrite H1, H2, (proj2 (Z.eqb_neq _ _)) by done. split; [done|].
      rewrite Hpub. exact Hacc.
  - unfold Capability_issuedTo. cbn [with_custody cap_custody]. unfold chain. rewrite issuedTo_loop_holder by apply Hw'. unfold holder_of. by rewrite last_snoc.
  - done.
Qed.

(** The chain of custody with another last holder. *)
Lemma custody_chain_last `{C25519Ops} getIdentity tmp l : forall holder e to,
  custody_chain getIdentity tmp holder (l ++ [e]) -> custody_chain getIdentity tmp holder (l ++ [mkCustody to (cu_from e) (cu_signature e)]).
Proof.
  induction l as [|c l IH]; intros holder e to Hch; inversion Hch; subst; cbn [app].
  - constructor; [done|done|constructor].
  - constructor; [done|done|]. by apply IH.
Qed.

(** C26: verify accepts a capability exactly when its chain of custody has an entry, the first entry is
    from the controller of the network, every other one is from the holder the entry before it
    names, and the signature of each is good, by the key of its sender, for the network, the time,
    the ID, the rules and the greatest length of the chain.  The holders are not among what is
    signed: with any other last holder the capability verifies too. *)
Theorem Capability_verified `{C25519Ops} getIdentity c live :
  cap_wf c live ->
  (Capability_verify getIdentity c = Ok (0, []) <-> live <> [] /\ custody_chain getIdentity (cap_signed c) (controllerFor (cap_nwid c)) live) /\
  (forall l e to, live = l ++ [e] -> in_range 40 to -> to <> 0 -> Capability_verify getIdentity c = Ok (0, []) ->
    let c' := with_custody c (chain (l ++ [mkCustody to (cu_from e) (cu_signature e)])) in
    Capability_verify getIdentity c' = Ok (0, []) /\ Capability_issuedTo c' = to).
Proof.
  intros Hw. split; [by apply Capability_verify_iff|]. intros l e to -> Ht Hnz Hv. cbv zeta. apply (Capability_verify_iff _ _ _ Hw) in Hv as [_ Hch].
  set (e' := mkCustody to (cu_from e) (cu_signature e)). assert (Hw' : cap_wf (with_custody c (chain (l ++ [e']))) (l ++ [e'])).
  { destruct Hw as [H1 H2 H3 H4 H5 H6 H7 H8 H9]. rewrite Forall_app, Forall_singleton in H9. destruct H9 as [Hl []].
    constructor; cbn [with_custody cap_nwid cap_ts cap_id cap_maxCustodyChainLength cap_rules cap_custody]; try done.
    - rewrite zlen_app in *. exact H7.
    - apply Forall_app. split; [done|]. apply Forall_singleton. by constructor. }
  split; [|unfold Capability_issuedTo; cbn [with_custody cap_custody]; unfold chain; rewrite issuedTo_loop_holder by apply Hw'; unfold holder_of; by rewrite last_snoc].
  apply (Capability_verify_iff _ _ _ Hw'). rewrite cap_signed_custody. split; [by destruct l|]. by apply custody_chain_last.
Qed.

(** *** Instances *)

Section Witnesses.
Import Toy.

(** A controller, a member and the capability of the first for the second. *)
Definition sample_key : list Z := replicate 64 1.
Definition sample_controller : Identity := mkIdentity 0x1234567890 (C25519_public sample_key) (Some sample_key).
Definition sample_cap : Capability := Capability_new 7 (Z.shiftl 0x1234567890 24) 1000 2 sample_rules 5.
Definition sample_lookup (a : Z) : Identity := if a =? 0x1234567890 then sample_controller else mkIdentity 0 [] None.

Lemma sample_cap_wf : cap_wf sample_cap [].
Proof. constructor; [done..|apply sample_rules_wf|done|done|done|constructor]. Qed.

Lemma Capability_roundtrip_witness :
  exists b', Capability_serialize 256 sample_cap false (Buffer_new (replicate 256 0)) = Ok b' /\ Capability_deserialize b' 0 = Ok (sample_cap, b_len b').
Proof.
  destruct (Capability_roundtrip 256 sample_cap [] (Buffer_new (replicate 256 0))) as [(b' & H1 & H2)|[H _]];
    [done|apply sample_cap_wf|apply (buf_wf_zeros 256); lia| |].
  - exists b'. rewrite Z.sub_0_r in H2. split; [exact H1|exact H2].
  - vm_compute in H. discriminate H.
Defined.

Lemma Capability_sign_verifies_witness :
  exists c', Capability_sign sample_cap sample_controller 0x42 = Ok (c', true) /\ Capability_verify sample_lookup c' = Ok (0, []) /\ Capability_issuedTo c' = 0x42.
Proof.
  destruct (Capability_sign_verifies sample_lookup sample_cap [] sample_controller sample_key 0x42) as (c' & live' & H1 & _ & H2 & H3 & _);
    [apply sample_cap_wf|done|by left|done|done|done|apply toy_accepts|done|done|apply andb_true_iff; split; [done|by apply bool_decide_eq_true]|done|done|].
  exists c'. split_and!; [exact H1|exact H2|exact H3].
Defined.

(** The capability the controller signed for 0x42 verifies, and verifies as that of 0x43. *)
Definition issued_entry : Custody := mkCustody 0x42 0x1234567890 (toy_sig (C25519_public sample_key) (cap_signed sample_cap)).
Definition issued_cap : Capability := with_custody sample_cap (chain [issued_entry]).

Lemma issued_cap_wf : cap_wf issued_cap [issued_entry].
Proof.
  destruct sample_cap_wf. constructor; try done. constructor; [|constructor]. constructor; [done..|].
  split; [unfold zlen; cbn [issued_entry cu_signature]; unfold toy_sig; by rewrite length_le_bytes|apply le_bytes_bytes].
Qed.

Lemma Capability_verified_witness :
  Capability_verify sample_lookup issued_cap = Ok (0, []) /\ exists c', Capability_verify sample_lookup c' = Ok (0, []) /\ Capability_issuedTo c' = 0x43.
Proof.
  destruct (Capability_verified sample_lookup issued_cap [issued_entry] issued_cap_wf) as [H1 H2].
  assert (Hv : Capability_verify sample_lookup issued_cap = Ok (0, [])).
  { apply H1. split; [done|]. constructor; [reflexivity| |constructor]. split; [done|]. split; [done|]. apply bool_decide_eq_true. reflexivity. }
  split; [exact Hv|]. eexists. refine (H2 [] issued_entry 0x43 eq_refl _ _ Hv); [split; [discriminate|reflexivity]|discriminate].
Defined.
End Witnesses.
