(* ===== verification/NetworkConfig.v ===== *)
(** The configuration a network's controller sends: node/NetworkConfig.hpp and
    node/NetworkConfig.cpp.

    The arrays of the class are lists of the entries in use; storing an entry beyond the
    size of an array is undefined.  NetworkConfigDict.v has the form of the configuration in
    a dictionary. *)
From S2P Require Import Prelude.
From S2P Require Import Utils.
From S2P Require Import Buffer.
From S2P Require Import Addressing.
From S2P Require Import Wire.
From S2P Require Import Rules.
From S2P Require Import CLib.
From S2P Require Import Dictionary.
From S2P Require Import InetAddress.
From S2P Require Import C25519Api.
From S2P Require Import Identity.
From S2P Require Import CertificateOfMembership.
From S2P Require Import Credentials.
From S2P Require Import Capability.

Definition ZT_MAX_NETWORK_RULES : Z := 1024.
Definition ZT_MAX_NETWORK_CAPABILITIES : Z := 128.
Definition ZT_MAX_NETWORK_TAGS : Z := 128.
Definition ZT_MAX_CERTIFICATES_OF_OWNERSHIP : Z := 4.
Definition ZT_MAX_NETWORK_SPECIALISTS : Z := 256.
Definition ZT_MAX_NETWORK_ROUTES : Z := 32.
Definition ZT_MAX_ZT_ASSIGNED_ADDRESSES : Z := 16.
Definition ZT_MAX_NETWORK_SHORT_NAME_LENGTH : Z := 127.
Definition ZT_DEFAULT_MTU : Z := 2800.
Definition ZT_MAX_MTU : Z := 10000.
Definition ZT_NETWORK_TYPE_PRIVATE : Z := 0.
Definition ZT_NETWORK_TYPE_PUBLIC : Z := 1.
Definition ZT_NETWORKCONFIG_VERSION : Z := 7.
(** With [sizeof] of a rule, a capability, a tag and a certificate of ownership. *)
Definition ZT_NETWORKCONFIG_DICT_CAPACITY : Z :=
  1024 + 32 * ZT_MAX_NETWORK_RULES + 2864 * ZT_MAX_NETWORK_CAPABILITIES + 136 * ZT_MAX_NETWORK_TAGS + 416 * ZT_MAX_CERTIFICATES_OF_OWNERSHIP.

Definition ZT_NETWORKCONFIG_FLAG_ENABLE_BROADCAST : Z := 0x2.
Definition ZT_NETWORKCONFIG_FLAG_ENABLE_IPV6_NDP_EMULATION : Z := 0x4.
Definition ZT_NETWORKCONFIG_FLAG_RULES_RESULT_OF_UNSUPPORTED_MATCH : Z := 0x8.
Definition ZT_NETWORKCONFIG_FLAG_DISABLE_COMPRESSION : Z := 0x10.
Definition ZT_NETWORKCONFIG_SPECIALIST_TYPE_ACTIVE_BRIDGE : Z := 0x0000020000000000.
Definition ZT_NETWORKCONFIG_SPECIALIST_TYPE_ANCHOR : Z := 0x0000040000000000.
Definition ZT_NETWORKCONFIG_SPECIALIST_TYPE_MULTICAST_REPLICATOR : Z := 0x0000080000000000.

Record Route : Type := mkRoute { rt_target : InetAddress; rt_via : InetAddress; rt_flags : Z; rt_metric : Z }.

Record NetworkConfig : Type := mkNetworkConfig {
  nc_networkId : Z; nc_timestamp : Z; nc_credentialTimeMaxDelta : Z; nc_revision : Z; nc_issuedTo : Z;
  nc_remoteTraceTarget : Z; nc_flags : Z; nc_remoteTraceLevel : Z; nc_mtu : Z; nc_multicastLimit : Z;
  nc_specialists : list Z; nc_routes : list Route; nc_staticIps : list InetAddress; nc_rules : list Rule;
  nc_capabilities : list Capability; nc_tags : list Tag; nc_certificatesOfOwnership : list COO;
  nc_type : Z; nc_name : list Z; nc_com : COM
}.

(** ** Queries *)

Definition flag (x f : Z) : bool := negb (Z.land x f =? 0).

Definition NetworkConfig_enableBroadcast (nc : NetworkConfig) : bool := flag (nc_flags nc) ZT_NETWORKCONFIG_FLAG_ENABLE_BROADCAST.
Definition NetworkConfig_ndpEmulation (nc : NetworkConfig) : bool := flag (nc_flags nc) ZT_NETWORKCONFIG_FLAG_ENABLE_IPV6_NDP_EMULATION.
Definition NetworkConfig_disableCompression (nc : NetworkConfig) : bool := flag (nc_flags nc) ZT_NETWORKCONFIG_FLAG_DISABLE_COMPRESSION.
Definition NetworkConfig_isPublic (nc : NetworkConfig) : bool := nc_type nc =? ZT_NETWORK_TYPE_PUBLIC.
Definition NetworkConfig_isPrivate (nc : NetworkConfig) : bool := nc_type nc =? ZT_NETWORK_TYPE_PRIVATE.
Definition NetworkConfig_bool (nc : NetworkConfig) : bool := negb (nc_networkId nc =? 0).

(** The addresses of the specialists with one of the flags [f]. *)
Fixpoint specialists_with (f : Z) (ss : list Z) : list Z :=
  match ss with
  | [] => []
  | s :: ss => if flag s f then Address_of_int s :: specialists_with f ss else specialists_with f ss
  end.
Definition NetworkConfig_activeBridges (nc : NetworkConfig) : list Z :=
  specialists_with ZT_NETWORKCONFIG_SPECIALIST_TYPE_ACTIVE_BRIDGE (nc_specialists nc).
Definition NetworkConfig_anchors (nc : NetworkConfig) : list Z :=
  specialists_with ZT_NETWORKCONFIG_SPECIALIST_TYPE_ANCHOR (nc_specialists nc).
Definition NetworkConfig_multicastReplicators (nc : NetworkConfig) : list Z :=
  specialists_with ZT_NETWORKCONFIG_SPECIALIST_TYPE_MULTICAST_REPLICATOR (nc_specialists nc).
Definition NetworkConfig_alwaysContactAddresses (nc : NetworkConfig) : list Z :=
  specialists_with (Z.lor ZT_NETWORKCONFIG_SPECIALIST_TYPE_ANCHOR ZT_NETWORKCONFIG_SPECIALIST_TYPE_MULTICAST_REPLICATOR) (nc_specialists nc).

(** The comparison of an address with an integer ignores the upper 24 bits. *)
Definition is_specialist (f a : Z) (ss : list Z) : bool := existsb (fun s => flag s f && (a =? Z.land s 0xffffffffff)) ss.
Definition NetworkConfig_isActiveBridge (nc : NetworkConfig) (a : Z) : bool :=
  is_specialist ZT_NETWORKCONFIG_SPECIALIST_TYPE_ACTIVE_BRIDGE a (nc_specialists nc).
Definition NetworkConfig_isMulticastReplicator (nc : NetworkConfig) (a : Z) : bool :=
  is_specialist ZT_NETWORKCONFIG_SPECIALIST_TYPE_MULTICAST_REPLICATOR a (nc_specialists nc).
Definition NetworkConfig_permitsBridging (nc : NetworkConfig) (fromPeer : Z) : bool :=
  existsb (fun s => (fromPeer =? Z.land s 0xffffffffff) && flag s ZT_NETWORKCONFIG_SPECIALIST_TYPE_ACTIVE_BRIDGE) (nc_specialists nc).

Definition with_specialists (nc : NetworkConfig) (ss : list Z) : NetworkConfig :=
  mkNetworkConfig (nc_networkId nc) (nc_timestamp nc) (nc_credentialTimeMaxDelta nc) (nc_revision nc) (nc_issuedTo nc)
    (nc_remoteTraceTarget nc) (nc_flags nc) (nc_remoteTraceLevel nc) (nc_mtu nc) (nc_multicastLimit nc) ss (nc_routes nc)
    (nc_staticIps nc) (nc_rules nc) (nc_capabilities nc) (nc_tags nc) (nc_certificatesOfOwnership nc) (nc_type nc) (nc_name nc) (nc_com nc).

(** The loop of addSpecialist: [None] when the address is not there. *)
Fixpoint mask_specialist (aint f : Z) (ss : list Z) : option (list Z) :=
  match ss with
  | [] => None
  | s :: ss => if Z.land s 0xffffffffff =? aint then Some (Z.lor s f :: ss) else cons s <$> mask_specialist aint f ss
  end.
Definition NetworkConfig_addSpecialist (nc : NetworkConfig) (a f : Z) : NetworkConfig * bool :=
  let aint := Address_toInt a in
  match mask_specialist aint f (nc_specialists nc) with
  | Some ss => (with_specialists nc ss, true)
  | None =>
      if zlen (nc_specialists nc) <? ZT_MAX_NETWORK_SPECIALISTS
      then (with_specialists nc (nc_specialists nc ++ [Z.lor f aint]), true) else (nc, false)
  end.

Definition NetworkConfig_capability (nc : NetworkConfig) (id : Z) : option Capability :=
  List.find (fun c => cap_id c =? id) (nc_capabilities nc).
Definition NetworkConfig_tag (nc : NetworkConfig) (id : Z) : option Tag := List.find (fun t => tag_id t =? id) (nc_tags nc).

(** [std::lower_bound] over the tags, which are sorted by ID: the first that is not smaller. *)
Definition tags_lower_bound (tags : list Tag) (id : Z) : option Tag := List.find (fun t => negb (tag_id t <? id)) tags.

(** ** Specialists *)

Lemma is_specialist_spec f a ss : is_specialist f a ss = bool_decide (a ∈ specialists_with f ss).
Proof.
  induction ss as [|s ss IH]; [by rewrite bool_decide_false by apply not_elem_of_nil|]. cbn [is_specialist existsb specialists_with].
  change (existsb _ ss) with (is_specialist f a ss). rewrite IH. destruct (flag s f); cbn [andb orb]; [|done]. unfold Address_of_int.
  destruct (Z.eqb_spec a (Z.land s 0xffffffffff)); cbn [orb]; apply eq_true_iff_eq; rewrite ?bool_decide_eq_true, elem_of_cons; naive_solver.
Qed.

Lemma permitsBridging_active nc a : NetworkConfig_permitsBridging nc a = NetworkConfig_isActiveBridge nc a.
Proof. unfold NetworkConfig_permitsBridging, NetworkConfig_isActiveBridge, is_specialist. induction (nc_specialists nc) as [|s ss IH]; [done|]. cbn [existsb]. rewrite IH. f_equal. apply andb_comm. Qed.
