(* ===== verification/NetworkConfigDict.v ===== *)
(** The configuration of a network in a dictionary: toDictionary() and fromDictionary() of
    node/NetworkConfig.cpp.

    The capacity of the dictionary and of the temporary buffer is [C], which the source sets to
    ZT_NETWORKCONFIG_DICT_CAPACITY.  The text fields of versions before 6 are not modelled:
    [legacyFields] are the steps that write them, [legacy] is what fromDictionary() makes of
    them. *)
From Stdlib Require Import Sorting.Sorted.
From stdpp Require Import strings.
From S2P Require Import Prelude.
From S2P Require Import Utils.
From S2P Require Import Buffer.
From S2P Require Import Addressing.
From S2P Require Import Wire.
From S2P Require Import Rules.
From S2P Require Import CLib.
From S2P Require Import Dictionary.
From S2P Require Import InetAddress.
From S2P Require Import C25519Api.
From S2P Require Import Identity.
From S2P Require Import CertificateOfMembership.
From S2P Require Import Credentials.
From S2P Require Import Capability.
From S2P Require Import NetworkConfig.

(** A literal of the source, without its terminator. *)
Fixpoint chars (s : string) : list Z :=
  match s with
  | EmptyString => []
  | String a s => Z.of_nat (Ascii.nat_of_ascii a) :: chars s
  end.

Definition ZT_NETWORKCONFIG_DICT_KEY_VERSION : list Z := chars "v".
Definition ZT_NETWORKCONFIG_DICT_KEY_NETWORK_ID : list Z := chars "nwid".
Definition ZT_NETWORKCONFIG_DICT_KEY_TIMESTAMP : list Z := chars "ts".
Definition ZT_NETWORKCONFIG_DICT_KEY_REVISION : list Z := chars "r".
Definition ZT_NETWORKCONFIG_DICT_KEY_ISSUED_TO : list Z := chars "id".
Definition ZT_NETWORKCONFIG_DICT_KEY_REMOTE_TRACE_TARGET : list Z := chars "tt".
Definition ZT_NETWORKCONFIG_DICT_KEY_REMOTE_TRACE_LEVEL : list Z := chars "tl".
Definition ZT_NETWORKCONFIG_DICT_KEY_FLAGS : list Z := chars "f".
Definition ZT_NETWORKCONFIG_DICT_KEY_MULTICAST_LIMIT : list Z := chars "ml".
Definition ZT_NETWORKCONFIG_DICT_KEY_TYPE : list Z := chars "t".
Definition ZT_NETWORKCONFIG_DICT_KEY_NAME : list Z := chars "n".
Definition ZT_NETWORKCONFIG_DICT_KEY_MTU : list Z := chars "mtu".
Definition ZT_NETWORKCONFIG_DICT_KEY_CREDENTIAL_TIME_MAX_DELTA : list Z := chars "ctmd".
Definition ZT_NETWORKCONFIG_DICT_KEY_COM : list Z := chars "C".
Definition ZT_NETWORKCONFIG_DICT_KEY_SPECIALISTS : list Z := chars "S".
Definition ZT_NETWORKCONFIG_DICT_KEY_ROUTES : list Z := chars "RT".
Definition ZT_NETWORKCONFIG_DICT_KEY_STATIC_IPS : list Z := chars "I".
Definition ZT_NETWORKCONFIG_DICT_KEY_RULES : list Z := chars "R".
Definition ZT_NETWORKCONFIG_DICT_KEY_CAPABILITIES : list Z := chars "CAP".
Definition ZT_NETWORKCONFIG_DICT_KEY_TAGS : list Z := chars "TAG".
Definition ZT_NETWORKCONFIG_DICT_KEY_CERTIFICATES_OF_OWNERSHIP : list Z := chars "COO".

Section Dict.
Context (C : Z).

(** ** toDictionary *)

(** One statement with its [return false]: on the dictionary and [tmp]. *)
Definition step : Type := list Z * Buffer -> outcome (list Z * Buffer * bool).

Definition text_step (f : list Z -> outcome (list Z * bool)) : step := fun '(d, tmp) => '(d, ok) ← f d; Ok (d, tmp, ok).
Definition u64_step (key : list Z) (v : Z) : step := text_step (fun d => Dictionary_add_u64 C d key v).
Definition i64_step (key : list Z) (v : Z) : step := text_step (fun d => Dictionary_add_i64 C d key v).
Definition address_step (key : list Z) (a : Z) : step := text_step (fun d => s ← Address_toString a; Dictionary_add C d key s (-1)).

(** A blob is added when it is not empty. *)
Definition blob_step (key : list Z) (serialize : Buffer -> outcome Buffer) : step := fun '(d, tmp) =>
  tmp ← serialize (Buffer_clear tmp);
  if Buffer_size tmp =? 0 then Ok (d, tmp, true) else
  '(d, ok) ← Dictionary_add_Buffer C d key tmp;
  Ok (d, tmp, ok).

Definition com_step (com : COM) : step := fun '(d, tmp) =>
  if COM_bool com then
    tmp ← COM_serialize C com (Buffer_clear tmp);
    '(d, ok) ← Dictionary_add_Buffer C d ZT_NETWORKCONFIG_DICT_KEY_COM tmp;
    Ok (d, tmp, ok)
  else Ok (d, tmp, true).

Definition rules_step (rules : list Rule) : step := fun '(d, tmp) =>
  match rules with
  | [] => Ok (d, tmp, true)
  | _ :: _ => blob_step ZT_NETWORKCONFIG_DICT_KEY_RULES (serializeRules C rules) (d, tmp)
  end.

Definition append_route (r : Route) (b : Buffer) : outcome Buffer :=
  b ← InetAddress_serialize C (rt_target r) b;
  b ← InetAddress_serialize C (rt_via r) b;
  b ← Buffer_append_int C b 2 (u16 (rt_flags r));
  Buffer_append_int C b 2 (u16 (rt_metric r)).

Fixpoint run_steps (steps : list step) (st : list Z * Buffer) : outcome (list Z * Buffer * bool) :=
  match steps with
  | [] => Ok (st.1, st.2, true)
  | s :: steps => '(d, tmp, ok) ← s st; if (ok : bool) then run_steps steps (d, tmp) else Ok (d, tmp, false)
  end.

Definition text_steps (nc : NetworkConfig) : list step :=
  [u64_step ZT_NETWORKCONFIG_DICT_KEY_VERSION ZT_NETWORKCONFIG_VERSION;
   u64_step ZT_NETWORKCONFIG_DICT_KEY_NETWORK_ID (nc_networkId nc);
   i64_step ZT_NETWORKCONFIG_DICT_KEY_TIMESTAMP (nc_timestamp nc);
   i64_step ZT_NETWORKCONFIG_DICT_KEY_CREDENTIAL_TIME_MAX_DELTA (nc_credentialTimeMaxDelta nc);
   u64_step ZT_NETWORKCONFIG_DICT_KEY_REVISION (nc_revision nc);
   address_step ZT_NETWORKCONFIG_DICT_KEY_ISSUED_TO (nc_issuedTo nc);
   address_step ZT_NETWORKCONFIG_DICT_KEY_REMOTE_TRACE_TARGET (nc_remoteTraceTarget nc);
   u64_step ZT_NETWORKCONFIG_DICT_KEY_REMOTE_TRACE_LEVEL (nc_remoteTraceLevel nc);
   u64_step ZT_NETWORKCONFIG_DICT_KEY_FLAGS (nc_flags nc);
   u64_step ZT_NETWORKCONFIG_DICT_KEY_MULTICAST_LIMIT (nc_multicastLimit nc);
   u64_step ZT_NETWORKCONFIG_DICT_KEY_TYPE (nc_type nc);
   text_step (fun d => Dictionary_add C d ZT_NETWORKCONFIG_DICT_KEY_NAME (nc_name nc) (-1));
   u64_step ZT_NETWORKCONFIG_DICT_KEY_MTU (nc_mtu nc)].

Definition blob_steps (nc : NetworkConfig) : list step :=
  [com_step (nc_com nc);
   blob_step ZT_NETWORKCONFIG_DICT_KEY_CAPABILITIES (write_all (fun c => Capability_serialize C c false) (nc_capabilities nc));
   blob_step ZT_NETWORKCONFIG_DICT_KEY_TAGS (write_all (fun t => Tag_serialize C t false) (nc_tags nc));
   blob_step ZT_NETWORKCONFIG_DICT_KEY_CERTIFICATES_OF_OWNERSHIP (write_all (fun c => COO_serialize C c false) (nc_certificatesOfOwnership nc));
   blob_step ZT_NETWORKCONFIG_DICT_KEY_SPECIALISTS (write_all (fun s b => Buffer_append_int C b 8 s) (nc_specialists nc));
   blob_step ZT_NETWORKCONFIG_DICT_KEY_ROUTES (write_all append_route (nc_routes nc));
   blob_step ZT_NETWORKCONFIG_DICT_KEY_STATIC_IPS (write_all (InetAddress_serialize C) (nc_staticIps nc));
   rules_step (nc_rules nc)].

(** The dictionary and what is returned; [tmp] is what [new] gives. *)
Definition NetworkConfig_toDictionary (legacyFields : NetworkConfig -> list step) (nc : NetworkConfig) (includeLegacy : bool) (tmp : Buffer) : outcome (list Z * bool) :=
  '(d, _, ok) ← run_steps (text_steps nc ++ (if includeLegacy then legacyFields nc else []) ++ blob_steps nc) (Dictionary_new C, tmp);
  Ok (d, ok).

(** ** fromDictionary *)

(** The loops over the entries of a blob.  The capabilities and the tags are stored without a look
    at the size [limit] of their array, and an exception ends their loops. *)
Fixpoint read_unchecked {A} (deserialize : Buffer -> Z -> outcome (A * Z)) (limit : Z) (fuel : nat) (b : Buffer) (p : Z) (acc : list A) : outcome (list A) :=
  match fuel with
  | O => Undef
  | S fuel =>
      if p <? Buffer_size b then
        match deserialize b p with
        | Ok (a, n) => if zlen acc <? limit then read_unchecked deserialize limit fuel b (u32 (p + n)) (acc ++ [a]) else Undef
        | Throw _ => Ok acc
        | Undef => Undef
        end
      else Ok acc
  end.

Fixpoint read_coos (fuel : nat) (b : Buffer) (p : Z) (acc : list COO) : outcome (list COO) :=
  match fuel with
  | O => Undef
  | S fuel =>
      if p <? Buffer_size b then
        '(c, n) ← COO_deserialize b p;
        read_coos fuel b (u32 (p + n)) (if zlen acc <? ZT_MAX_CERTIFICATES_OF_OWNERSHIP then acc ++ [c] else acc)
      else Ok acc
  end.

Fixpoint read_specialists (fuel : nat) (b : Buffer) (p : Z) (acc : list Z) : outcome (list Z) :=
  match fuel with
  | O => Undef
  | S fuel =>
      if u32 (p + 8) <=? Buffer_size b then
        acc ← (if zlen acc <? ZT_MAX_NETWORK_SPECIALISTS then s ← Buffer_at b 8 p; Ok (acc ++ [s]) else Ok acc);
        read_specialists fuel b (u32 (p + 8)) acc
      else Ok acc
  end.

Definition read_route (b : Buffer) (p : Z) : outcome (Route * Z) :=
  '(target, n) ← InetAddress_deserialize b p; let q := u32 (p + n) in
  '(via, n) ← InetAddress_deserialize b q; let q := u32 (q + n) in
  flags ← Buffer_at b 2 q; let q := u32 (q + 2) in
  metric ← Buffer_at b 2 q; let q := u32 (q + 2) in
  Ok (mkRoute target via flags metric, u32 (q - p)).

(** The loops for routes and addresses, which stop when the array is full. *)
Fixpoint read_limited {A} (deserialize : Buffer -> Z -> outcome (A * Z)) (limit : Z) (fuel : nat) (b : Buffer) (p : Z) (acc : list A) : outcome (list A) :=
  match fuel with
  | O => Undef
  | S fuel =>
      if (p <? Buffer_size b) && (zlen acc <? limit) then
        '(a, n) ← deserialize b p;
        read_limited deserialize limit fuel b (u32 (p + n)) (acc ++ [a])
      else Ok acc
  end.

(** [std::sort] by ID; equal IDs keep their order here. *)
Fixpoint insert_by {A} (id : A -> Z) (x : A) (l : list A) : list A :=
  match l with
  | [] => [x]
  | y :: l => if id x <=? id y then x :: y :: l else y :: insert_by id x l
  end.
Definition sort_by {A} (id : A -> Z) (l : list A) : list A := foldr (insert_by id) [] l.

Definition blob_fuel (b : Buffer) : nat := S (Z.to_nat (b_len b)).

(** What is read when the key is there, else [dfl]. *)
Definition get_blob {A} (d key : list Z) (tmp : Buffer) (dfl : A) (read : Buffer -> outcome A) : outcome (A * Buffer) :=
  '(tmp, found) ← Dictionary_get_Buffer C d key tmp;
  x ← (if (found : bool) then read tmp else Ok dfl);
  Ok (x, tmp).

(** The fields that are always there; those of the rest are zero. *)
Definition read_common (d : list Z) : outcome (option NetworkConfig) :=
  networkId ← Dictionary_getUI d ZT_NETWORKCONFIG_DICT_KEY_NETWORK_ID 0;
  if networkId =? 0 then Ok None else
  timestamp ← Dictionary_getUI d ZT_NETWORKCONFIG_DICT_KEY_TIMESTAMP 0;
  delta ← Dictionary_getUI d ZT_NETWORKCONFIG_DICT_KEY_CREDENTIAL_TIME_MAX_DELTA 0;
  revision ← Dictionary_getUI d ZT_NETWORKCONFIG_DICT_KEY_REVISION 0;
  issuedTo ← Dictionary_getUI d ZT_NETWORKCONFIG_DICT_KEY_ISSUED_TO 0;
  if Address_of_int issuedTo =? 0 then Ok None else
  traceTarget ← Dictionary_getUI d ZT_NETWORKCONFIG_DICT_KEY_REMOTE_TRACE_TARGET 0;
  traceLevel ← Dictionary_getUI d ZT_NETWORKCONFIG_DICT_KEY_REMOTE_TRACE_LEVEL 0;
  multicastLimit ← Dictionary_getUI d ZT_NETWORKCONFIG_DICT_KEY_MULTICAST_LIMIT 0;
  '(_, name) ← Dictionary_get d ZT_NETWORKCONFIG_DICT_KEY_NAME (replicate 128 0) (ZT_MAX_NETWORK_SHORT_NAME_LENGTH + 1);
  mtu ← Dictionary_getUI d ZT_NETWORKCONFIG_DICT_KEY_MTU ZT_DEFAULT_MTU;
  let mtu := u32 mtu in
  let mtu := if mtu <? 1280 then 1280 else if ZT_MAX_MTU <? mtu then ZT_MAX_MTU else mtu in
  Ok (Some (mkNetworkConfig networkId (s64 timestamp) (s64 delta) revision (Address_of_int issuedTo) (Address_of_int traceTarget) 0 (u32 traceLevel)
              mtu (u32 multicastLimit) [] [] [] [] [] [] [] 0 name COM_empty)).

(** The new fields. *)
Definition read_fields (nc : NetworkConfig) (d : list Z) (tmp : Buffer) : outcome NetworkConfig :=
  flags ← Dictionary_getUI d ZT_NETWORKCONFIG_DICT_KEY_FLAGS 0;
  type ← Dictionary_getUI d ZT_NETWORKCONFIG_DICT_KEY_TYPE ZT_NETWORK_TYPE_PRIVATE;
  '(com, tmp) ← get_blob d ZT_NETWORKCONFIG_DICT_KEY_COM tmp COM_empty (fun b => '(c, _) ← COM_deserialize COM_empty b 0; Ok c);
  '(caps, tmp) ← get_blob d ZT_NETWORKCONFIG_DICT_KEY_CAPABILITIES tmp []
    (fun b => l ← read_unchecked Capability_deserialize ZT_MAX_NETWORK_CAPABILITIES (blob_fuel b) b 0 []; Ok (sort_by cap_id l));
  '(tags, tmp) ← get_blob d ZT_NETWORKCONFIG_DICT_KEY_TAGS tmp []
    (fun b => l ← read_unchecked Tag_deserialize ZT_MAX_NETWORK_TAGS (blob_fuel b) b 0 []; Ok (sort_by tag_id l));
  '(coos, tmp) ← get_blob d ZT_NETWORKCONFIG_DICT_KEY_CERTIFICATES_OF_OWNERSHIP tmp [] (fun b => read_coos (blob_fuel b) b 0 []);
  '(specialists, tmp) ← get_blob d ZT_NETWORKCONFIG_DICT_KEY_SPECIALISTS tmp [] (fun b => read_specialists (blob_fuel b) b 0 []);
  '(routes, tmp) ← get_blob d ZT_NETWORKCONFIG_DICT_KEY_ROUTES tmp [] (fun b => read_limited read_route ZT_MAX_NETWORK_ROUTES (blob_fuel b) b 0 []);
  '(ips, tmp) ← get_blob d ZT_NETWORKCONFIG_DICT_KEY_STATIC_IPS tmp []
    (fun b => read_limited InetAddress_deserialize ZT_MAX_ZT_ASSIGNED_ADDRESSES (blob_fuel b) b 0 []);
  '(rules, _) ← get_blob d ZT_NETWORKCONFIG_DICT_KEY_RULES tmp [] (fun b => '(rules, _) ← deserializeRules (Z.to_nat ZT_MAX_NETWORK_RULES) b 0; Ok rules);
  Ok (mkNetworkConfig (nc_networkId nc) (nc_timestamp nc) (nc_credentialTimeMaxDelta nc) (nc_revision nc) (nc_issuedTo nc) (nc_remoteTraceTarget nc) flags
        (nc_remoteTraceLevel nc) (nc_mtu nc) (nc_multicastLimit nc) specialists routes ips rules caps tags coos (u32 type) (nc_name nc) com).

Definition catch_false {A} (o : outcome (option A)) : outcome (option A) := match o with Throw _ => Ok None | o => o end.

(** The configuration, or none where the source returns false. *)
Definition NetworkConfig_fromDictionary (legacy : NetworkConfig -> list Z -> outcome (option NetworkConfig)) (d : list Z) (tmp : Buffer) : outcome (option NetworkConfig) :=
  catch_false (
    nc ← read_common d;
    match nc with
    | None => Ok None
    | Some nc =>
        version ← Dictionary_getUI d ZT_NETWORKCONFIG_DICT_KEY_VERSION 0;
        if version <? 6 then legacy nc d else
        nc ← read_fields nc d tmp; Ok (Some nc)
    end).
End Dict.

(** ** The entries of a configuration *)

Definition opt_entry (key blob : list Z) : list (list Z * list Z) := match blob with [] => [] | _ :: _ => [(key, blob)] end.

(** The custody entries in use. *)
Definition cap_live (c : Capability) : list Custody := List.filter (fun cu => negb (cu_to cu =? 0)) (cap_custody c).

Definition route_enc (r : Route) : list Z := inet_enc (rt_target r) ++ inet_enc (rt_via r) ++ be_bytes 2 (u16 (rt_flags r)) ++ be_bytes 2 (u16 (rt_metric r)).
Definition tag_enc (t : Tag) : list Z := cred_enc (tag_body t) (tag_signature t) false.
Definition coo_enc (c : COO) : list Z := cred_enc (coo_body c) (coo_signature c) false.

Definition hex_u64 (v : Z) : list Z := hex_char <$> u64_nibbles v.
Definition hex_address (a : Z) : list Z := hex_char <$> addr_nibbles a.

Definition text_entries (nc : NetworkConfig) : list (list Z * list Z) :=
  [(ZT_NETWORKCONFIG_DICT_KEY_VERSION, hex_u64 ZT_NETWORKCONFIG_VERSION);
   (ZT_NETWORKCONFIG_DICT_KEY_NETWORK_ID, hex_u64 (nc_networkId nc));
   (ZT_NETWORKCONFIG_DICT_KEY_TIMESTAMP, hex_u64 (nc_timestamp nc));
   (ZT_NETWORKCONFIG_DICT_KEY_CREDENTIAL_TIME_MAX_DELTA, hex_u64 (nc_credentialTimeMaxDelta nc));
   (ZT_NETWORKCONFIG_DICT_KEY_REVISION, hex_u64 (nc_revision nc));
   (ZT_NETWORKCONFIG_DICT_KEY_ISSUED_TO, hex_address (nc_issuedTo nc));
   (ZT_NETWORKCONFIG_DICT_KEY_REMOTE_TRACE_TARGET, hex_address (nc_remoteTraceTarget nc));
   (ZT_NETWORKCONFIG_DICT_KEY_REMOTE_TRACE_LEVEL, hex_u64 (nc_remoteTraceLevel nc));
   (ZT_NETWORKCONFIG_DICT_KEY_FLAGS, hex_u64 (nc_flags nc));
   (ZT_NETWORKCONFIG_DICT_KEY_MULTICAST_LIMIT, hex_u64 (nc_multicastLimit nc));
   (ZT_NETWORKCONFIG_DICT_KEY_TYPE, hex_u64 (nc_type nc));
   (ZT_NETWORKCONFIG_DICT_KEY_NAME, cstr (nc_name nc));
   (ZT_NETWORKCONFIG_DICT_KEY_MTU, hex_u64 (nc_mtu nc))].

Definition blob_entries (nc : NetworkConfig) : list (list (list Z * list Z)) :=
  [if COM_bool (nc_com nc) then [(ZT_NETWORKCONFIG_DICT_KEY_COM, com_enc (nc_com nc))] else [];
   opt_entry ZT_NETWORKCONFIG_DICT_KEY_CAPABILITIES (mjoin ((fun c => cap_enc c (cap_live c)) <$> nc_capabilities nc));
   opt_entry ZT_NETWORKCONFIG_DICT_KEY_TAGS (mjoin (tag_enc <$> nc_tags nc));
   opt_entry ZT_NETWORKCONFIG_DICT_KEY_CERTIFICATES_OF_OWNERSHIP (mjoin (coo_enc <$> nc_certificatesOfOwnership nc));
   opt_entry ZT_NETWORKCONFIG_DICT_KEY_SPECIALISTS (mjoin (be_bytes 8 <$> nc_specialists nc));
   opt_entry ZT_NETWORKCONFIG_DICT_KEY_ROUTES (mjoin (route_enc <$> nc_routes nc));
   opt_entry ZT_NETWORKCONFIG_DICT_KEY_STATIC_IPS (mjoin (inet_enc <$> nc_staticIps nc));
   opt_entry ZT_NETWORKCONFIG_DICT_KEY_RULES (mjoin (rule_enc <$> nc_rules nc))].

Definition nc_entries (nc : NetworkConfig) : list (list Z * list Z) := text_entries nc ++ mjoin (blob_entries nc).

Record nc_wf (nc : NetworkConfig) : Prop := {
  nw_networkId : is_u64 (nc_networkId nc) /\ nc_networkId nc <> 0;
  nw_timestamp : 0 <= nc_timestamp nc < 2 ^ 63;
  nw_delta : 0 <= nc_credentialTimeMaxDelta nc < 2 ^ 63;
  nw_revision : is_u64 (nc_revision nc);
  nw_issuedTo : in_range 40 (nc_issuedTo nc) /\ nc_issuedTo nc <> 0;
  nw_traceTarget : in_range 40 (nc_remoteTraceTarget nc);
  nw_flags : is_u64 (nc_flags nc);
  nw_traceLevel : is_u32 (nc_remoteTraceLevel nc);
  nw_mtu : 1280 <= nc_mtu nc <= ZT_MAX_MTU;
  nw_multicastLimit : is_u32 (nc_multicastLimit nc);
  nw_type : is_u32 (nc_type nc);
  nw_name : zlen (nc_name nc) = 128 /\ Forall is_byte (nc_name nc) /\ 0 ∈ nc_name nc;
  nw_com : com_wf (nc_com nc);
  nw_capabilities : Forall (fun c => cap_wf c (cap_live c)) (nc_capabilities nc);
  nw_tags : Forall tag_wf (nc_tags nc);
  nw_coos : Forall coo_wf (nc_certificatesOfOwnership nc);
  nw_specialists : Forall is_u64 (nc_specialists nc);
  nw_routes : Forall (fun r => ia_wf (rt_target r) /\ ia_wf (rt_via r)) (nc_routes nc);
  nw_ips : Forall ia_wf (nc_staticIps nc);
  nw_rules : Forall rule_wf (nc_rules nc)
}.

(** ** Writing *)

Section Writing.
Context (C : Z) (HC : C + 96 < 2 ^ 32).

(** A step that adds the entries [es] when there is room. *)
Definition writes (s : step) (es : list (list Z * list Z)) : Prop :=
  forall d tmp kvs, holds C d kvs -> buf_wf C tmp -> zlen (dict_text (kvs ++ es)) < C ->
  exists d' tmp', s (d, tmp) = Ok (d', tmp', true) /\ holds C d' (kvs ++ es) /\ buf_wf C tmp'.

Lemma text_step_writes f k value vlen v : (forall d, f d = Dictionary_add C d k value vlen) -> clean k -> value_chars value vlen = Ok v -> Forall is_byte v ->
  writes (text_step f) [(k, v)].
Proof.
  intros Hf Hk Hv Hb d tmp kvs Hd Ht Hl. unfold text_step. rewrite Hf. destruct (add_holds C d kvs k value vlen v Hd Hk Hv Hb Hl) as (d' & -> & Hd'). cbn [mbind outcome_bind]. eauto.
Qed.

Lemma hex_bytes ks : Forall (fun k => 0 <= k < 16) ks -> Forall is_byte (hex_char <$> ks) /\ Forall (fun c => c <> 0) (hex_char <$> ks).
Proof.
  intros H. split; apply Forall_fmap; (eapply Forall_impl; [exact H|]); intros k Hk; [|by apply hex_char_facts].
  assert (Hb : forallb (fun k => (0 <=? hex_char k) && (hex_char k <? 256)) (seqZ 0 16) = true) by reflexivity. rewrite forallb_forall in Hb.
  cbv beta in Hk |- *. specialize (Hb k). ospecialize (Hb _); [apply list_elem_of_In, elem_of_seqZ; lia|].
  apply andb_true_iff in Hb as [H1 H2]. split; [by apply Z.leb_le|by apply Z.ltb_lt].
Qed.

Lemma hex_value_chars ks : Forall (fun k => 0 <= k < 16) ks -> value_chars ((hex_char <$> ks) ++ [0]) (-1) = Ok (hex_char <$> ks).
Proof.
  intros H. unfold value_chars. cbn [Z.ltb Z.compare]. rewrite bool_decide_true by (apply elem_of_app; right; by left). f_equal. apply (cstr_ends _ []). by apply hex_bytes.
Qed.

Lemma u64_step_writes k v : clean k -> writes (u64_step C k v) [(k, hex_u64 v)].
Proof.
  intros Hk. apply (text_step_writes _ k ((hex_char <$> u64_nibbles v) ++ [0]) (-1)); [|done|by apply hex_value_chars, u64_nibbles_range|by apply hex_bytes, u64_nibbles_range].
  intros d. unfold Dictionary_add_u64. by rewrite Utils_hex64_chars.
Qed.

Lemma i64_step_writes k v : clean k -> 0 <= v -> writes (i64_step C k v) [(k, hex_u64 v)].
Proof.
  intros Hk Hv. apply (text_step_writes _ k ((hex_char <$> u64_nibbles v) ++ [0]) (-1)); [|done|by apply hex_value_chars, u64_nibbles_range|by apply hex_bytes, u64_nibbles_range].
  intros d. unfold Dictionary_add_i64. rewrite (proj2 (Z.leb_le _ _)) by done. by rewrite Utils_hex64_chars.
Qed.

Lemma address_step_writes k a : clean k -> writes (address_step C k a) [(k, hex_address a)].
Proof.
  intros Hk. apply (text_step_writes _ k ((hex_char <$> addr_nibbles a) ++ [0]) (-1)); [|done|by apply hex_value_chars, addr_nibbles_range|by apply hex_bytes, addr_nibbles_range].
  intros d. unfold Address_toString. by rewrite Utils_hex10_chars.
Qed.

Lemma entry_fits kvs k v : zlen v <= zlen (dict_text (kvs ++ [(k, v)])).
Proof.
  rewrite dict_text_snoc. unfold entry_text. rewrite !zlen_app. pose proof (zlen_nonneg (dict_text kvs)). pose proof (zlen_nonneg k). pose proof (zlen_nonneg [EQUALS]).
  enough (zlen v <= zlen (flat_map escape_char v)) by (pose proof (zlen_nonneg (match dict_text kvs with [] => [] | _ :: _ => [LF] end)); lia). clear. induction v as [|c v IH]; [done|]. cbn [flat_map]. rewrite zlen_app.
  assert (1 <= zlen (escape_char c)) by (unfold escape_char; repeat case_match; done). unfold zlen in *. cbn [length]. lia.
Qed.

Lemma clear_wf tmp : buf_wf C tmp -> buf_wf C (Buffer_clear tmp) /\ buf_data (Buffer_clear tmp) = [] /\ b_len (Buffer_clear tmp) = 0.
Proof. intros [H1 H2 H3 H4]. split; [split; cbn; done || lia|]. done. Qed.

(** The bytes a serializer writes, as an entry. *)
Lemma add_blob ser enc k d tmp kvs : appends C ser enc -> clean k -> holds C d kvs -> buf_wf C tmp -> zlen (dict_text (kvs ++ [(k, enc)])) < C ->
  exists tmp' d', ser (Buffer_clear tmp) = Ok tmp' /\ buf_wf C tmp' /\ Buffer_size tmp' = zlen enc /\ Dictionary_add_Buffer C d k tmp' = Ok (d', true) /\ holds C d' (kvs ++ [(k, enc)]).
Proof.
  intros [Hb Ha] Hk Hd Ht Hl. destruct (clear_wf tmp Ht) as (Hc & Hcd & Hcl). specialize (Ha _ Hc). rewrite Hcl, Hcd in Ha. pose proof (entry_fits kvs k enc).
  rewrite (proj2 (Z.leb_le _ _)) in Ha by lia. destruct Ha as (tmp' & E & Ht' & Hdata). cbn [app] in Hdata. exists tmp'.
  assert (Hlen : b_len tmp' = zlen enc) by (rewrite <- Hdata; by rewrite (zlen_buf_data C)).
  assert (Hv : value_chars (b_mem tmp') (Buffer_size tmp') = Ok enc).
  { unfold value_chars, Buffer_size. destruct Ht' as [Hm _ Hbl _]. rewrite (proj2 (Z.ltb_ge _ _)) by lia. rewrite mem_read_Ok by lia. rewrite slice_0. f_equal. exact Hdata. }
  destruct (add_holds C d kvs k _ _ enc Hd Hk Hv Hb Hl) as (d' & Ea & Hd'). exists d'. split_and!; done.
Qed.

Lemma blob_step_writes ser enc k : appends C ser enc -> clean k -> writes (blob_step C k ser) (opt_entry k enc).
Proof.
  intros Ha Hk d tmp kvs Hd Ht Hl. unfold blob_step. destruct enc as [|x enc]; cbn [opt_entry] in *.
  - destruct (clear_wf tmp Ht) as (Hc & Hcd & Hcl). pose proof (proj2 Ha _ Hc) as Hr. rewrite Hcl in Hr. change (0 + zlen []) with 0 in Hr.
    rewrite (proj2 (Z.leb_le 0 C)) in Hr by (destruct Ht as [_ _ ? _]; lia). destruct Hr as (tmp' & -> & Ht' & Hdata). cbn [mbind outcome_bind].
    assert (Buffer_size tmp' = 0) as ->.
    { unfold Buffer_size. rewrite <- (zlen_buf_data C tmp' Ht'), Hdata, Hcd. done. }
    exists d, tmp'. rewrite app_nil_r. done.
  - destruct (add_blob ser (x :: enc) k d tmp kvs Ha Hk Hd Ht Hl) as (tmp' & d' & -> & Ht' & Hs & Ea & Hd'). cbn [mbind outcome_bind]. rewrite Hs.
    rewrite (proj2 (Z.eqb_neq _ _)) by (unfold zlen; cbn [length]; lia). rewrite Ea. cbn [mbind outcome_bind]. eauto.
Qed.

Lemma run_steps_writes steps ess : Forall2 writes steps ess -> writes (run_steps steps) (mjoin ess).
Proof.
  induction 1 as [|s es steps ess Hs _ IH]; intros d tmp kvs Hd Ht Hl; [change (mjoin []) with (@nil (list Z * list Z)) in *|change (mjoin (es :: ess)) with (es ++ mjoin ess) in *].
  - exists d, tmp. by rewrite app_nil_r.
  - cbn [run_steps]. rewrite app_assoc in Hl |- *. pose proof (dict_text_app_le (kvs ++ es) (mjoin ess)). destruct (Hs d tmp kvs Hd Ht) as (d1 & tmp1 & -> & Hd1 & Ht1); [lia|].
    cbn [mbind outcome_bind]. by apply IH.
Qed.
End Writing.

(** The keys of the source have no special characters. *)
Ltac clean_key := split; [by repeat constructor|by apply (bool_decide_unpack _); vm_compute].

Section ToDictionary.
Context (C : Z) (HC : C + 96 < 2 ^ 32).

Lemma append_route_appends r : ia_wf (rt_target r) -> ia_wf (rt_via r) -> appends C (append_route C r) (route_enc r).
Proof.
  intros H1 H2. unfold append_route, route_enc. apply (appends_bind C); [apply InetAddress_appends; [done|lia]|]. apply (appends_bind C); [apply InetAddress_appends; [done|lia]|].
  apply (appends_bind C); apply appends_int.
Qed.

Lemma com_step_writes com : com_wf com -> writes C (com_step C com) (if COM_bool com then [(ZT_NETWORKCONFIG_DICT_KEY_COM, com_enc com)] else []).
Proof.
  intros Hw d tmp kvs Hd Ht Hl. unfold com_step. destruct (COM_bool com); [|exists d, tmp; by rewrite app_nil_r].
  destruct (add_blob C (COM_serialize C com) (com_enc com) ZT_NETWORKCONFIG_DICT_KEY_COM d tmp kvs) as (tmp' & d' & -> & Ht' & _ & Ea & Hd');
    [by apply COM_appends|clean_key|done..|]. cbn [mbind outcome_bind]. rewrite Ea. cbn [mbind outcome_bind]. eauto.
Qed.

Lemma rules_step_writes rules : Forall rule_wf rules -> writes C (rules_step C rules) (opt_entry ZT_NETWORKCONFIG_DICT_KEY_RULES (mjoin (rule_enc <$> rules))).
Proof.
  intros Hw d tmp kvs Hd Ht Hl. destruct rules as [|r rules]; [exists d, tmp; by rewrite app_nil_r|].
  apply (blob_step_writes C (serializeRules C (r :: rules))); [|clean_key|done..]. by apply serializeRules_appends; [lia|].
Qed.

(** The blob of a list. *)
Lemma list_step_writes {A} (P : A -> Prop) (ser : A -> Buffer -> outcome Buffer) (enc : A -> list Z) key xs :
  clean key -> (forall x, P x -> appends C (ser x) (enc x)) -> Forall P xs -> writes C (blob_step C key (write_all ser xs)) (opt_entry key (mjoin (enc <$> xs))).
Proof. intros Hk Ha Hx. apply blob_step_writes; [|done]. apply appends_all. by eapply Forall_impl. Qed.

Lemma blob_steps_write nc : nc_wf nc -> Forall2 (writes C) (blob_steps C nc) (blob_entries nc).
Proof.
  intros Hw. unfold blob_steps, blob_entries.
  apply Forall2_cons; split; [by apply com_step_writes, Hw|].
  apply Forall2_cons; split; [apply (list_step_writes (fun c => cap_wf c (cap_live c))); [clean_key|intros c; by apply (Capability_appends C HC)|apply Hw]|].
  apply Forall2_cons; split; [apply (list_step_writes tag_wf); [clean_key|intros t; by apply Tag_appends|apply Hw]|].
  apply Forall2_cons; split; [apply (list_step_writes coo_wf); [clean_key|intros c [Hc1 Hc2]; by apply COO_appends|apply Hw]|].
  apply Forall2_cons; split; [apply (list_step_writes is_u64); [clean_key|intros s _; apply appends_int|apply Hw]|].
  apply Forall2_cons; split; [apply (list_step_writes (fun r => ia_wf (rt_target r) /\ ia_wf (rt_via r))); [clean_key|intros r [H1 H2]; by apply append_route_appends|apply Hw]|].
  apply Forall2_cons; split; [apply (list_step_writes ia_wf); [clean_key|intros a Ha; apply InetAddress_appends; [done|lia]|apply Hw]|].
  apply Forall2_cons; split; [apply rules_step_writes, Hw|]. by apply Forall2_nil.
Qed.

Lemma name_step_writes name : Forall is_byte name -> 0 ∈ name ->
  writes C (text_step (fun d => Dictionary_add C d ZT_NETWORKCONFIG_DICT_KEY_NAME name (-1))) [(ZT_NETWORKCONFIG_DICT_KEY_NAME, cstr name)].
Proof.
  intros Hb Hz. apply (text_step_writes C _ ZT_NETWORKCONFIG_DICT_KEY_NAME name (-1)); [done|clean_key| |].
  - unfold value_chars. cbn [Z.ltb Z.compare]. by rewrite bool_decide_true.
  - destruct (cstr_split _ Hz) as [rest E]. rewrite E in Hb. by apply Forall_app in Hb as [Hb _].
Qed.

Lemma text_steps_write nc : nc_wf nc -> Forall2 (writes C) (text_steps C nc) ((fun e => [e]) <$> text_entries nc).
Proof.
  intros Hw. unfold text_steps, text_entries. cbn [fmap list_fmap]. destruct (nw_name nc Hw) as (_ & Hb & Hz).
  do 2 (apply Forall2_cons; split; [apply u64_step_writes; clean_key|]). do 2 (apply Forall2_cons; split; [apply i64_step_writes; [clean_key|apply Hw]|]).
  apply Forall2_cons; split; [apply u64_step_writes; clean_key|]. do 2 (apply Forall2_cons; split; [apply address_step_writes; clean_key|]).
  do 4 (apply Forall2_cons; split; [apply u64_step_writes; clean_key|]). apply Forall2_cons; split; [by apply name_step_writes|].
  apply Forall2_cons; split; [apply u64_step_writes; clean_key|]. by apply Forall2_nil.
Qed.

Lemma toDictionary_holds lf nc tmp : nc_wf nc -> buf_wf C tmp -> zlen (dict_text (nc_entries nc)) < C ->
  exists d, NetworkConfig_toDictionary C lf nc false tmp = Ok (d, true) /\ holds C d (nc_entries nc).
Proof.
  intros Hw Ht Hl. assert (HC0 : 0 < C) by (pose proof (zlen_nonneg (dict_text (nc_entries nc))); lia). unfold NetworkConfig_toDictionary.
  assert (E : mjoin (((fun e => [e]) <$> text_entries nc) ++ blob_entries nc) = nc_entries nc).
  { unfold nc_entries. generalize (text_entries nc) as l. intros l. induction l as [|e l IH]; [done|]. cbn [fmap list_fmap app].
    change (mjoin ([e] :: ((fun e => [e]) <$> l) ++ blob_entries nc)) with ([e] ++ mjoin (((fun e => [e]) <$> l) ++ blob_entries nc)). by rewrite IH. }
  destruct (run_steps_writes C (text_steps C nc ++ blob_steps C nc) (((fun e => [e]) <$> text_entries nc) ++ blob_entries nc)
    ltac:(apply Forall2_app; [by apply text_steps_write|by apply blob_steps_write]) (Dictionary_new C) tmp []) as (d & tmp' & E' & Hd & _);
    [by apply Dictionary_new_holds|done|by rewrite E|]. cbn [app]. rewrite E'. cbn [mbind outcome_bind]. rewrite E in Hd. eauto.
Qed.
End ToDictionary.

(** ** Reading *)

Section Reading.
Context (C : Z) (b : Buffer) (Hb : buf_wf C b).

Section Loop.
Context {A B : Type} (P : A -> Prop) (enc : A -> list Z) (g : A -> B) (de : Buffer -> Z -> outcome (B * Z)).
Context (Hde : forall x i, P x -> has_at b i (enc x) -> de b i = Ok (g x, zlen (enc x))) (Hpos : forall x, P x -> 0 < zlen (enc x)).

(** One turn of a loop over the entries. *)
Lemma entry_turn p x xs : P x -> has_at b p (mjoin (enc <$> x :: xs)) -> p + zlen (mjoin (enc <$> x :: xs)) = b_len b ->
  de b p = Ok (g x, zlen (enc x)) /\ (p <? Buffer_size b) = true /\ u32 (p + zlen (enc x)) = p + zlen (enc x) /\
  has_at b (p + zlen (enc x)) (mjoin (enc <$> xs)) /\ p + zlen (enc x) + zlen (mjoin (enc <$> xs)) = b_len b.
Proof.
  intros Hx Hh Hl. change (mjoin (enc <$> x :: xs)) with (enc x ++ mjoin (enc <$> xs)) in *. pose proof (Hpos x Hx). rewrite zlen_app in Hl. pose proof (zlen_nonneg (mjoin (enc <$> xs))).
  destruct (has_at_next C b Hb p _ _ _ Hh eq_refl) as [Hu Hn]. apply has_at_app in Hh as [Hh _]. split_and!; [by apply Hde|unfold Buffer_size; apply Z.ltb_lt; lia|done|done|lia].
Qed.

Lemma read_unchecked_enc limit xs : forall fuel p acc, Forall P xs -> has_at b p (mjoin (enc <$> xs)) -> p + zlen (mjoin (enc <$> xs)) = b_len b ->
  (length xs < fuel)%nat -> zlen acc <= limit -> read_unchecked de limit fuel b p acc = if zlen acc + zlen xs <=? limit then Ok (acc ++ (g <$> xs)) else Undef.
Proof.
  induction xs as [|x xs IH]; intros fuel p acc Hx Hh Hl Hf Hacc; (destruct fuel as [|fuel]; [cbn in Hf; lia|]); cbn [read_unchecked].
  - change (zlen (mjoin (enc <$> []))) with 0 in Hl. rewrite (proj2 (Z.ltb_ge _ _)) by (unfold Buffer_size; lia). rewrite (proj2 (Z.leb_le _ _)) by (change (zlen []) with 0; lia). by rewrite app_nil_r.
  - apply Forall_cons in Hx as [Hx Hxs]. destruct (entry_turn p x xs Hx Hh Hl) as (-> & -> & -> & Hh' & Hl'). cbn [length] in Hf.
    assert (Hz : zlen (x :: xs) = 1 + zlen xs) by (unfold zlen; cbn [length]; lia). rewrite Hz. pose proof (zlen_nonneg xs).
    destruct (Z.ltb_spec (zlen acc) limit); [|by rewrite (proj2 (Z.leb_gt _ _)) by lia]. assert (Hz1 : zlen (acc ++ [g x]) = zlen acc + 1) by (by rewrite zlen_app).
    rewrite IH by (done || lia || (rewrite Hz1; lia)). by rewrite Hz1, Z.add_assoc, <- app_assoc.
Qed.

Lemma read_limited_enc limit xs : forall fuel p acc, Forall P xs -> has_at b p (mjoin (enc <$> xs)) -> p + zlen (mjoin (enc <$> xs)) = b_len b ->
  (length xs < fuel)%nat -> zlen acc + zlen xs <= limit -> read_limited de limit fuel b p acc = Ok (acc ++ (g <$> xs)).
Proof.
  induction xs as [|x xs IH]; intros fuel p acc Hx Hh Hl Hf Hacc; (destruct fuel as [|fuel]; [cbn in Hf; lia|]); cbn [read_limited].
  - change (zlen (mjoin (enc <$> []))) with 0 in Hl. rewrite (proj2 (Z.ltb_ge p _)) by (unfold Buffer_size; lia). by rewrite app_nil_r.
  - apply Forall_cons in Hx as [Hx Hxs]. destruct (entry_turn p x xs Hx Hh Hl) as (-> & -> & Hu & Hh' & Hl'). cbn [length] in Hf.
    assert (Hz : zlen (x :: xs) = 1 + zlen xs) by (unfold zlen; cbn [length]; lia). rewrite Hz in Hacc. pose proof (zlen_nonneg xs).
    rewrite (proj2 (Z.ltb_lt _ _)) by lia. cbn [andb mbind outcome_bind]. rewrite Hu. rewrite IH by (done || lia || rewrite zlen_app; change (zlen [g x]) with 1; lia).
    by rewrite <- app_assoc.
Qed.

(** There is fuel for every entry. *)
Lemma blob_fuel_enough xs : Forall P xs -> b_len b = zlen (mjoin (enc <$> xs)) -> (length xs < blob_fuel b)%nat.
Proof.
  intros Hx Hl. unfold blob_fuel. rewrite Hl. clear Hl. enough (Z.of_nat (length xs) <= zlen (mjoin (enc <$> xs))) by lia. induction Hx as [|x xs Hx _ IH]; [done|].
  change (mjoin (enc <$> x :: xs)) with (enc x ++ mjoin (enc <$> xs)). rewrite zlen_app. pose proof (Hpos x Hx). cbn [length]. lia.
Qed.
End Loop.

Lemma coo_enc_pos c : 0 < zlen (coo_enc c).
Proof. unfold coo_enc, cred_enc, coo_body. rewrite !zlen_app, !zlen_be_bytes. unfold zlen. lia. Qed.

Lemma read_coos_enc xs : forall fuel p acc, Forall coo_wf xs -> has_at b p (mjoin (coo_enc <$> xs)) -> p + zlen (mjoin (coo_enc <$> xs)) = b_len b ->
  (length xs < fuel)%nat -> zlen acc + zlen xs <= ZT_MAX_CERTIFICATES_OF_OWNERSHIP -> read_coos fuel b p acc = Ok (acc ++ xs).
Proof.
  induction xs as [|x xs IH]; intros fuel p acc Hx Hh Hl Hf Hacc; (destruct fuel as [|fuel]; [cbn in Hf; lia|]); cbn [read_coos].
  - change (zlen (mjoin (coo_enc <$> []))) with 0 in Hl. rewrite (proj2 (Z.ltb_ge p _)) by (unfold Buffer_size; lia). by rewrite app_nil_r.
  - apply Forall_cons in Hx as [Hx Hxs].
    destruct (entry_turn coo_wf coo_enc id COO_deserialize) with (p := p) (x := x) (xs := xs) as (-> & -> & Hu & Hh' & Hl'); [|intros; apply coo_enc_pos|done..|].
    { intros y i [Hy _] Hi. by apply (COO_reads y Hy C b i Hb). }
    cbn [mbind outcome_bind length] in *. rewrite Hu. assert (Hz : zlen (x :: xs) = 1 + zlen xs) by (unfold zlen; cbn [length]; lia). rewrite Hz in Hacc. pose proof (zlen_nonneg xs).
    rewrite (proj2 (Z.ltb_lt _ _)) by lia. rewrite IH by (done || lia || rewrite zlen_app; change (zlen [id x]) with 1; lia). by rewrite <- app_assoc.
Qed.

Lemma read_specialists_enc (HC : C + 8 < 2 ^ 32) xs : forall fuel p acc, Forall is_u64 xs -> has_at b p (mjoin (be_bytes 8 <$> xs)) -> p + zlen (mjoin (be_bytes 8 <$> xs)) = b_len b ->
  (length xs < fuel)%nat -> zlen acc + zlen xs <= ZT_MAX_NETWORK_SPECIALISTS -> read_specialists fuel b p acc = Ok (acc ++ xs).
Proof.
  destruct Hb as [_ _ Hlen _].
  induction xs as [|x xs IH]; intros fuel p acc Hx Hh Hl Hf Hacc; (destruct fuel as [|fuel]; [cbn in Hf; lia|]); cbn [read_specialists]; pose proof (proj1 Hh) as Hp.
  - change (zlen (mjoin (be_bytes 8 <$> []))) with 0 in Hl. rewrite u32_id by (unfold in_range; lia). rewrite (proj2 (Z.leb_gt _ _)) by (unfold Buffer_size; lia). by rewrite app_nil_r.
  - apply Forall_cons in Hx as [Hx Hxs]. change (mjoin (be_bytes 8 <$> x :: xs)) with (be_bytes 8 x ++ mjoin (be_bytes 8 <$> xs)) in *. rewrite zlen_app, zlen_be_bytes in Hl.
    pose proof (zlen_nonneg (mjoin (be_bytes 8 <$> xs))). destruct (read_int C b Hb p 8 x _ Hx Hh) as (E & Hu & Hh'). change (Z.of_nat 8) with 8 in *. rewrite Hu.
    rewrite (proj2 (Z.leb_le _ _)) by (unfold Buffer_size; lia). assert (Hz : zlen (x :: xs) = 1 + zlen xs) by (unfold zlen; cbn [length]; lia). rewrite Hz in Hacc. pose proof (zlen_nonneg xs).
    rewrite (proj2 (Z.ltb_lt _ _)) by lia. rewrite E. cbn [mbind outcome_bind length] in *. rewrite IH by (done || lia || rewrite zlen_app; change (zlen [x]) with 1; lia). by rewrite <- app_assoc.
Qed.

(** What is left of a route on the wire. *)
Definition route_canon (r : Route) : Route := mkRoute (inet_canon (rt_target r)) (inet_canon (rt_via r)) (u16 (rt_flags r)) (u16 (rt_metric r)).

Lemma read_route_enc r i : ia_wf (rt_target r) -> ia_wf (rt_via r) -> has_at b i (route_enc r) -> read_route b i = Ok (route_canon r, zlen (route_enc r)).
Proof.
  intros H1 H2 Hh. pose proof (has_at_slice C b Hb _ _ Hh) as [_ Hlen]. pose proof (proj1 Hh) as Hi. unfold read_route, route_enc in *.
  pose proof Hh as Hh0. apply has_at_app in Hh0 as [Ht _]. rewrite (InetAddress_deserialize_enc C b i _ Hb H1 Ht). cbn [mbind outcome_bind].
  destruct (has_at_next C b Hb i _ _ _ Hh eq_refl) as [Hu1 Hh1]. rewrite Hu1. pose proof Hh1 as Hh0. apply has_at_app in Hh0 as [Hv _].
  rewrite (InetAddress_deserialize_enc C b _ _ Hb H2 Hv). cbn [mbind outcome_bind]. destruct (has_at_next C b Hb _ _ _ _ Hh1 eq_refl) as [Hu2 Hh2]. rewrite Hu2.
  destruct (read_int C b Hb _ 2 (u16 (rt_flags r)) _ ltac:(by apply wrap_range) Hh2) as (-> & Hu3 & Hh3). cbn [mbind outcome_bind]. change (Z.of_nat 2) with 2 in *. rewrite Hu3.
  rewrite <- (app_nil_r (be_bytes 2 (u16 (rt_metric r)))) in Hh3. destruct (read_int C b Hb _ 2 (u16 (rt_metric r)) _ ltac:(by apply wrap_range) Hh3) as (-> & Hu4 & Hh4).
  cbn [mbind outcome_bind]. change (Z.of_nat 2) with 2 in *. rewrite Hu4. unfold route_canon. do 2 f_equal. rewrite !zlen_app, !zlen_be_bytes in *. destruct Hb as [_ _ ? ?].
  pose proof (zlen_nonneg (inet_enc (rt_target r))). pose proof (zlen_nonneg (inet_enc (rt_via r))). rewrite u32_id; unfold in_range; lia.
Qed.
End Reading.

(** *** Looking up an entry *)

Lemma dict_lookup_cons key k v kvs : dict_lookup key ((k, v) :: kvs) = if bool_decide (key = k) then Some v else dict_lookup key kvs.
Proof. unfold dict_lookup. cbn [List.find fst]. by destruct (bool_decide (key = k)). Qed.

Lemma dict_lookup_app key kvs kvs' : dict_lookup key (kvs ++ kvs') = match dict_lookup key kvs with Some v => Some v | None => dict_lookup key kvs' end.
Proof. induction kvs as [|[k v] kvs IH]; [done|]. cbn [app]. rewrite !dict_lookup_cons. by destruct (bool_decide (key = k)). Qed.

(** The blob, when it is not empty. *)
Definition blob_value (blob : list Z) : option (list Z) := match blob with [] => None | _ :: _ => Some blob end.

Lemma dict_lookup_opt key k blob : dict_lookup key (opt_entry k blob) = if bool_decide (key = k) then blob_value blob else None.
Proof. destruct blob as [|x blob]; cbn [opt_entry blob_value]; [by destruct (bool_decide _)|]. by rewrite dict_lookup_cons. Qed.

Lemma dict_lookup_join key es ess : dict_lookup key (mjoin (es :: ess)) = match dict_lookup key es with Some v => Some v | None => dict_lookup key (mjoin ess) end.
Proof. apply (dict_lookup_app key es (mjoin ess)). Qed.

(** Finds a key of the source among the entries of a configuration. *)
Ltac same_keys :=
  repeat match goal with
  | |- context [bool_decide (?a = ?b)] => let v := eval vm_compute in (bool_decide (a = b)) in change (bool_decide (a = b)) with v; cbv iota
  end.
Ltac find_key :=
  unfold nc_entries; rewrite dict_lookup_app; unfold text_entries; rewrite ?dict_lookup_cons; same_keys; try done;
  change (dict_lookup ?k []) with (@None (list Z)); cbv iota; unfold blob_entries; rewrite ?dict_lookup_join, ?dict_lookup_opt; same_keys.

Section Lookup.
Context (nc : NetworkConfig).

Lemma lookup_com : dict_lookup ZT_NETWORKCONFIG_DICT_KEY_COM (nc_entries nc) = if COM_bool (nc_com nc) then Some (com_enc (nc_com nc)) else None.
Proof. find_key. destruct (COM_bool (nc_com nc)); [by rewrite dict_lookup_cons; same_keys|done]. Qed.

Lemma lookup_after_com key : bool_decide (key = ZT_NETWORKCONFIG_DICT_KEY_COM) = false ->
  dict_lookup key (if COM_bool (nc_com nc) then [(ZT_NETWORKCONFIG_DICT_KEY_COM, com_enc (nc_com nc))] else []) = None.
Proof. intros E. destruct (COM_bool (nc_com nc)); [|done]. by rewrite dict_lookup_cons, E. Qed.

Lemma lookup_blobs :
  dict_lookup ZT_NETWORKCONFIG_DICT_KEY_CAPABILITIES (nc_entries nc) = blob_value (mjoin ((fun c => cap_enc c (cap_live c)) <$> nc_capabilities nc)) /\
  dict_lookup ZT_NETWORKCONFIG_DICT_KEY_TAGS (nc_entries nc) = blob_value (mjoin (tag_enc <$> nc_tags nc)) /\
  dict_lookup ZT_NETWORKCONFIG_DICT_KEY_CERTIFICATES_OF_OWNERSHIP (nc_entries nc) = blob_value (mjoin (coo_enc <$> nc_certificatesOfOwnership nc)) /\
  dict_lookup ZT_NETWORKCONFIG_DICT_KEY_SPECIALISTS (nc_entries nc) = blob_value (mjoin (be_bytes 8 <$> nc_specialists nc)) /\
  dict_lookup ZT_NETWORKCONFIG_DICT_KEY_ROUTES (nc_entries nc) = blob_value (mjoin (route_enc <$> nc_routes nc)) /\
  dict_lookup ZT_NETWORKCONFIG_DICT_KEY_STATIC_IPS (nc_entries nc) = blob_value (mjoin (inet_enc <$> nc_staticIps nc)) /\
  dict_lookup ZT_NETWORKCONFIG_DICT_KEY_RULES (nc_entries nc) = blob_value (mjoin (rule_enc <$> nc_rules nc)).
Proof. split_and!; find_key; rewrite lookup_after_com by reflexivity; by repeat (destruct (blob_value _); [done|]). Qed.
End Lookup.

(** *** Sorting *)

Section Sorting.
Context {A : Type} (id : A -> Z).

Lemma insert_by_perm x l : insert_by id x l ≡ₚ x :: l.
Proof. induction l as [|y l IH]; [done|]. cbn [insert_by]. destruct (id x <=? id y); [done|]. rewrite IH. constructor. Qed.

Lemma sort_by_perm l : sort_by id l ≡ₚ l.
Proof. induction l as [|x l IH]; [done|]. cbn [sort_by foldr]. rewrite insert_by_perm. by f_equiv. Qed.

Lemma insert_by_sorted x l : StronglySorted Z.le (id <$> l) -> StronglySorted Z.le (id <$> insert_by id x l).
Proof.
  induction l as [|y l IH]; intros Hs; [repeat constructor|]. cbn [insert_by]. rewrite fmap_cons in Hs. apply StronglySorted_inv in Hs as [Hs Hy].
  destruct (Z.leb_spec (id x) (id y)); rewrite ?fmap_cons.
  - constructor; [by constructor|]. constructor; [done|]. eapply Forall_impl; [exact Hy|]. cbn. lia.
  - constructor; [by apply IH|]. rewrite insert_by_perm. constructor; [lia|done].
Qed.

Lemma sort_by_sorted l : StronglySorted Z.le (id <$> sort_by id l).
Proof. induction l as [|x l IH]; [constructor|]. cbn [sort_by foldr]. by apply insert_by_sorted. Qed.
End Sorting.

(** *** The parts of a configuration *)

Lemma holds_fits C d kvs key v : holds C d kvs -> dict_lookup key kvs = Some v -> zlen v < C.
Proof.
  intros [[Hl Hz] Ht _ _] Hk. assert (Hv : exists k l1 l2, kvs = l1 ++ [(k, v)] ++ l2).
  { unfold dict_lookup in Hk. destruct (List.find _ kvs) as [[k v']|] eqn:E; [|done]. injection Hk as <-. apply find_some in E as [Hin _].
    apply in_split in Hin as (l1 & l2 & ->). by exists k, l1, l2. }
  destruct Hv as (k & l1 & l2 & ->). destruct (cstr_split d Hz) as [rest E]. apply (f_equal zlen) in E. rewrite zlen_app, Hl, Ht in E.
  pose proof (entry_fits l1 k v). pose proof (dict_text_app_le (l1 ++ [(k, v)]) l2) as Hle. rewrite <- app_assoc in Hle. pose proof (zlen_nonneg rest). unfold zlen at 2 in E. cbn [length] in E. unfold zlen in *. lia.
Qed.

Section Blobs.
Context (C : Z) (d : list Z) (kvs : list (list Z * list Z)) (Hd : holds C d kvs) (HC : 0 < C).

(** What is read from the blob under a key. *)
Lemma get_blob_read {A} key tmp (dfl : A) read blob r : clean key -> buf_wf C tmp -> dict_lookup key kvs = blob_value blob ->
  (forall b, buf_wf C b -> buf_data b = blob -> read b = r) -> (blob = [] -> r = Ok dfl) ->
  exists tmp', get_blob C d key tmp dfl read = (x ← r; Ok (x, tmp')) /\ buf_wf C tmp'.
Proof.
  intros Hk Ht Hl Hr Hdfl. unfold get_blob. destruct (get_Buffer_holds C d kvs key C tmp Hd Hk Ht HC) as (tmp' & -> & Ht' & Hdata).
  { intros v Hv. by eapply holds_fits. }
  cbn [mbind outcome_bind]. rewrite Hl in *. exists tmp'. split; [|done]. destruct blob as [|x blob]; cbn [blob_value default] in *; [by rewrite Hdfl|]. by rewrite (Hr tmp').
Qed.

Lemma whole_blob b blob : buf_wf C b -> buf_data b = blob -> has_at b 0 blob /\ b_len b = zlen blob.
Proof.
  intros Hb E. split; [split; [lia|]; exists [], []; rewrite app_nil_r; done|]. by rewrite <- E, (zlen_buf_data C).
Qed.

Section Lists.
Context {A B : Type} (P : A -> Prop) (enc : A -> list Z) (g : A -> B) (de : Buffer -> Z -> outcome (B * Z)).
Context (Hde : forall b x i, buf_wf C b -> P x -> has_at b i (enc x) -> de b i = Ok (g x, zlen (enc x))) (Hpos : forall x, P x -> 0 < zlen (enc x)).

Lemma read_unchecked_blob limit xs b : Forall P xs -> 0 <= limit -> buf_wf C b -> buf_data b = mjoin (enc <$> xs) ->
  read_unchecked de limit (blob_fuel b) b 0 [] = if zlen xs <=? limit then Ok (g <$> xs) else Undef.
Proof.
  intros Hx Hlim Hb E. destruct (whole_blob b _ Hb E) as [Hh Hl]. rewrite (read_unchecked_enc C b Hb P enc g de) with (xs := xs); try done; [by intros; apply Hde|..].
  by apply (blob_fuel_enough b P enc).
Qed.

Lemma read_limited_blob limit xs b : Forall P xs -> zlen xs <= limit -> buf_wf C b -> buf_data b = mjoin (enc <$> xs) ->
  read_limited de limit (blob_fuel b) b 0 [] = Ok (g <$> xs).
Proof.
  intros Hx Hlim Hb E. destruct (whole_blob b _ Hb E) as [Hh Hl]. rewrite (read_limited_enc C b Hb P enc g de) with (xs := xs); try done; [by intros; apply Hde|..].
  by apply (blob_fuel_enough b P enc).
Qed.
End Lists.

Lemma join_empty {A} (P : A -> Prop) (enc : A -> list Z) xs : (forall x, P x -> 0 < zlen (enc x)) -> Forall P xs -> mjoin (enc <$> xs) = [] -> xs = [].
Proof.
  intros Hpos Hx. destruct Hx as [|x xs Hx _]; [done|]. change (mjoin (enc <$> x :: xs)) with (enc x ++ mjoin (enc <$> xs)). intros [E _]%app_nil. specialize (Hpos x Hx). by rewrite E in Hpos.
Qed.
End Blobs.

(** Nothing is encoded in no bytes. *)
Lemma tag_enc_pos t : 0 < zlen (tag_enc t).
Proof. unfold tag_enc, cred_enc, tag_body. rewrite !zlen_app, !zlen_be_bytes. unfold zlen. lia. Qed.
Lemma cap_enc_pos c : 0 < zlen (cap_enc c (cap_live c)).
Proof. unfold cap_enc, cap_body. rewrite !zlen_app, !zlen_be_bytes. unfold zlen. lia. Qed.
Lemma inet_enc_pos a : 0 < zlen (inet_enc a).
Proof. destruct a; unfold inet_enc; rewrite ?zlen_app, !zlen_be_bytes; unfold zlen; lia. Qed.
Lemma route_enc_pos r : 0 < zlen (route_enc r).
Proof. unfold route_enc. rewrite !zlen_app, !zlen_be_bytes. unfold zlen. lia. Qed.
Lemma rule_enc_pos r : 0 < zlen (rule_enc r).
Proof. unfold rule_enc. rewrite !zlen_app, !zlen_be_bytes. unfold zlen. lia. Qed.

(** The rest of the room for rules is not used. *)
Lemma deserializeRules_more k m b rules q : forall p, deserializeRules k b p = Ok (rules, q) -> b_len b <= q -> deserializeRules (k + m) b p = Ok (rules, q).
Proof.
  revert rules. induction k as [|k IH]; intros rules p E Hq; cbn [Nat.add deserializeRules] in *.
  - injection E as <- ->. destruct m; [done|]. cbn [deserializeRules]. by rewrite (proj2 (Z.ltb_ge _ _)).
  - destruct (p <? b_len b); [|done]. destruct (read_rule b p) as [[r p']| |]; [|done..]. cbn [mbind outcome_bind] in *.
    destruct (deserializeRules k b p') as [[rs q']| |] eqn:E'; [|done..]. cbn [mbind outcome_bind] in E. injection E as <- ->. by rewrite (IH rs p' E' Hq).
Qed.

Lemma read_rules_blob C b rules : buf_wf C b -> Forall rule_wf rules -> zlen rules <= ZT_MAX_NETWORK_RULES -> buf_data b = mjoin (rule_enc <$> rules) ->
  deserializeRules (Z.to_nat ZT_MAX_NETWORK_RULES) b 0 = Ok (rules, b_len b).
Proof.
  intros Hb Hr Hl E. destruct (whole_blob C b _ Hb E) as [Hh Hlen]. rewrite <- (app_nil_r (mjoin _)) in Hh. destruct (deserializeRules_enc C b Hb rules 0 [] Hr Hh) as [Er _].
  rewrite Z.add_0_l, <- Hlen in Er. replace (Z.to_nat ZT_MAX_NETWORK_RULES) with (length rules + (Z.to_nat ZT_MAX_NETWORK_RULES - length rules))%nat by (unfold zlen in Hl; lia).
  by apply deserializeRules_more.
Qed.

(** *** All of it *)

(** No array of the configuration is longer than that of the class, but perhaps the one of the tags. *)
Record nc_sizes (nc : NetworkConfig) : Prop := {
  ns_capabilities : zlen (nc_capabilities nc) <= ZT_MAX_NETWORK_CAPABILITIES;
  ns_coos : zlen (nc_certificatesOfOwnership nc) <= ZT_MAX_CERTIFICATES_OF_OWNERSHIP;
  ns_specialists : zlen (nc_specialists nc) <= ZT_MAX_NETWORK_SPECIALISTS;
  ns_routes : zlen (nc_routes nc) <= ZT_MAX_NETWORK_ROUTES;
  ns_ips : zlen (nc_staticIps nc) <= ZT_MAX_ZT_ASSIGNED_ADDRESSES;
  ns_rules : zlen (nc_rules nc) <= ZT_MAX_NETWORK_RULES
}.

(** What is left of a certificate of membership: the qualifiers, and the signature of a signed one. *)
Definition com_same (c c' : COM) : Prop :=
  live c' = live c /\ (COM_bool c = true -> com_signedBy c' = com_signedBy c /\ (Address_bool (com_signedBy c) = true -> com_signature c' = com_signature c)).

(** What is left of a configuration: the scalars, the entries of the lists as they are on the wire,
    and those that are looked up by ID in the order of the IDs. *)
Record nc_same (nc nc' : NetworkConfig) : Prop := {
  sm_numbers : (nc_networkId nc', nc_timestamp nc', nc_credentialTimeMaxDelta nc', nc_revision nc', nc_issuedTo nc', nc_remoteTraceTarget nc', nc_flags nc',
      nc_remoteTraceLevel nc', nc_mtu nc', nc_multicastLimit nc', nc_type nc') =
    (nc_networkId nc, nc_timestamp nc, nc_credentialTimeMaxDelta nc, nc_revision nc, nc_issuedTo nc, nc_remoteTraceTarget nc, nc_flags nc,
      nc_remoteTraceLevel nc, nc_mtu nc, nc_multicastLimit nc, nc_type nc);
  sm_name : cstr (nc_name nc') = cstr (nc_name nc);
  sm_com : com_same (nc_com nc) (nc_com nc');
  sm_capabilities : nc_capabilities nc' ≡ₚ nc_capabilities nc /\ StronglySorted Z.le (cap_id <$> nc_capabilities nc');
  sm_tags : nc_tags nc' ≡ₚ nc_tags nc /\ StronglySorted Z.le (tag_id <$> nc_tags nc');
  sm_coos : nc_certificatesOfOwnership nc' = nc_certificatesOfOwnership nc;
  sm_specialists : nc_specialists nc' = nc_specialists nc;
  sm_routes : nc_routes nc' = route_canon <$> nc_routes nc;
  sm_ips : nc_staticIps nc' = inet_canon <$> nc_staticIps nc;
  sm_rules : nc_rules nc' = nc_rules nc
}.

Lemma null_address_wf : ia_wf InetAddress_null.
Proof. repeat split; try done. by apply Forall_replicate. Qed.

Lemma inet_canon_wf a : ia_wf a -> ia_wf (inet_canon a).
Proof. destruct a as [p ip|p fl ip sc|f raw]; [done| |]; [intros (? & ? & ? & ? & ?); by split_and!|]. intros _. apply null_address_wf. Qed.

Section FromDictionary.
Context (C : Z) (HC : C + 96 < 2 ^ 32) (d : list Z) (nc : NetworkConfig) (Hd : holds C d (nc_entries nc)) (Hw : nc_wf nc).

Lemma dict_capacity : 0 < C.
Proof. destruct Hd as [[Hl Hz] _ _ _]. rewrite <- Hl. destruct d; [by apply not_elem_of_nil in Hz|]. unfold zlen. cbn [length]. lia. Qed.

Lemma get_u64 key dfl v : clean key -> dict_lookup key (nc_entries nc) = Some (hex_u64 v) -> is_u64 v -> Dictionary_getUI d key dfl = Ok v.
Proof.
  intros Hk Hl Hv. rewrite (getUI_holds C d (nc_entries nc) key dfl (u64_nibbles v)); [by rewrite u64_nibbles_value|done|done|done|apply u64_nibbles_range|cbn; lia|].
  rewrite u64_nibbles_value by done. unfold in_range in Hv. lia.
Qed.

Lemma get_address key dfl a : clean key -> dict_lookup key (nc_entries nc) = Some (hex_address a) -> in_range 40 a -> Dictionary_getUI d key dfl = Ok a /\ Address_of_int a = a.
Proof.
  intros Hk Hl Ha. assert (Haddr : Address_of_int a = a).
  { unfold Address_of_int. change 0xffffffffff with (2 ^ 40 - 1). rewrite land_mask by lia. by apply Z.mod_small. }
  split; [|done]. rewrite (getUI_holds C d (nc_entries nc) key dfl (addr_nibbles a)); [by rewrite addr_nibbles_value|done|done|done|apply addr_nibbles_range|cbn; lia|].
  rewrite addr_nibbles_value by done. unfold in_range in Ha. lia.
Qed.

(** Reads the number [v] under [key]. *)
Ltac read_number key v :=
  match goal with |- context [Dictionary_getUI d key ?dfl] =>
    rewrite (get_u64 key dfl v); [cbn [mbind outcome_bind]|clean_key|find_key|try (unfold in_range; lia)]
  end.

Lemma get_name : exists r name, Dictionary_get d ZT_NETWORKCONFIG_DICT_KEY_NAME (replicate 128 0) (ZT_MAX_NETWORK_SHORT_NAME_LENGTH + 1) = Ok (r, name) /\ cstr name = cstr (nc_name nc) /\
  zlen name = 128 /\ Forall is_byte name /\ 0 ∈ name.
Proof.
  destruct (nw_name nc Hw) as (Hn & Hby & Hz). destruct (cstr_split _ Hz) as [rest E]. rewrite E in Hby. apply Forall_app in Hby as [Hby _]. apply (f_equal zlen) in E. rewrite zlen_app, Hn in E. pose proof (zlen_nonneg rest).
  rewrite (get_holds C d (nc_entries nc)) by (done || clean_key).
  assert (dict_lookup ZT_NETWORKCONFIG_DICT_KEY_NAME (nc_entries nc) = Some (cstr (nc_name nc))) as -> by find_key.
  unfold get_value. rewrite (proj2 (Z.ltb_lt _ _)) by (unfold zlen in *; cbn [length] in E; unfold ZT_MAX_NETWORK_SHORT_NAME_LENGTH; lia).
  eexists _, _. split; [done|]. split; [apply cstr_ends, cstr_nonzero|]. assert (zlen (0 :: rest) = 1 + zlen rest) as E1 by (unfold zlen; cbn [length]; lia). rewrite E1 in E. pose proof (zlen_nonneg (cstr (nc_name nc))).
  split; [rewrite zlen_app; change (0 :: ?l) with ([0] ++ l); rewrite zlen_app, zlen_zdrop; change (zlen [0]) with 1; change (zlen (replicate 128 0)) with 128; lia|].
  split; [apply Forall_app_2; [done|]; apply Forall_cons_2; [done|]; apply Forall_drop; by apply Forall_replicate|]. apply elem_of_app. right. by left.
Qed.

Lemma read_common_Ok : exists name, (cstr name = cstr (nc_name nc) /\ zlen name = 128 /\ Forall is_byte name /\ 0 ∈ name) /\ read_common d = Ok (Some (mkNetworkConfig (nc_networkId nc) (nc_timestamp nc) (nc_credentialTimeMaxDelta nc)
  (nc_revision nc) (nc_issuedTo nc) (nc_remoteTraceTarget nc) 0 (nc_remoteTraceLevel nc) (nc_mtu nc) (nc_multicastLimit nc) [] [] [] [] [] [] [] 0 name COM_empty)).
Proof.
  destruct get_name as (r & name & En & Hname). exists name. split; [done|]. destruct Hw. destruct_and?. unfold ZT_MAX_MTU in *. unfold in_range in *. unfold read_common.
  read_number ZT_NETWORKCONFIG_DICT_KEY_NETWORK_ID (nc_networkId nc). rewrite (proj2 (Z.eqb_neq _ _)) by done.
  read_number ZT_NETWORKCONFIG_DICT_KEY_TIMESTAMP (nc_timestamp nc).
  read_number ZT_NETWORKCONFIG_DICT_KEY_CREDENTIAL_TIME_MAX_DELTA (nc_credentialTimeMaxDelta nc).
  read_number ZT_NETWORKCONFIG_DICT_KEY_REVISION (nc_revision nc).
  destruct (get_address ZT_NETWORKCONFIG_DICT_KEY_ISSUED_TO 0 (nc_issuedTo nc)) as [-> E1]; [clean_key|find_key|done|]. cbn [mbind outcome_bind]. rewrite E1, (proj2 (Z.eqb_neq _ _)) by done.
  destruct (get_address ZT_NETWORKCONFIG_DICT_KEY_REMOTE_TRACE_TARGET 0 (nc_remoteTraceTarget nc)) as [-> E2]; [clean_key|find_key|done|]. cbn [mbind outcome_bind].
  read_number ZT_NETWORKCONFIG_DICT_KEY_REMOTE_TRACE_LEVEL (nc_remoteTraceLevel nc).
  read_number ZT_NETWORKCONFIG_DICT_KEY_MULTICAST_LIMIT (nc_multicastLimit nc). rewrite En. cbn [mbind outcome_bind].
  read_number ZT_NETWORKCONFIG_DICT_KEY_MTU (nc_mtu nc). cbv zeta.
  rewrite !(u32_id) by (unfold in_range; lia). rewrite (proj2 (Z.ltb_ge _ _)), (proj2 (Z.ltb_ge ZT_MAX_MTU _)) by (unfold ZT_MAX_MTU; lia). rewrite E2.
  rewrite <- (s64_u64 (nc_timestamp nc)) at 2 by lia. rewrite <- (s64_u64 (nc_credentialTimeMaxDelta nc)) at 2 by lia.
  unfold u64. rewrite !(wrap_id 64) by (unfold in_range; lia). done.
Qed.

(** The certificate of membership. *)
Lemma COM_empty_wf : com_wf COM_empty.
Proof. constructor; [done|by apply Forall_replicate|done|constructor|done|split; [done|by apply Forall_replicate]]. Qed.

Lemma get_com tmp : buf_wf C tmp ->
  exists com tmp', get_blob C d ZT_NETWORKCONFIG_DICT_KEY_COM tmp COM_empty (fun b => '(c, _) ← COM_deserialize COM_empty b 0; Ok c) = Ok (com, tmp') /\ com_same (nc_com nc) com /\ com_wf com /\ buf_wf C tmp'.
Proof.
  intros Ht. pose proof (nw_com nc Hw) as Hc. unfold get_blob. pose proof (lookup_com nc) as Hl.
  destruct (get_Buffer_holds C d (nc_entries nc) ZT_NETWORKCONFIG_DICT_KEY_COM C tmp Hd ltac:(clean_key) Ht dict_capacity) as (tmp' & -> & Ht' & Hdata).
  { intros v Hv. by eapply holds_fits. }
  cbn [mbind outcome_bind]. rewrite Hl in *. unfold com_same. destruct (COM_bool (nc_com nc)) eqn:Eb; cbn [default] in Hdata.
  - destruct (whole_blob C tmp' _ Ht' Hdata) as [Hh _]. destruct (COM_deserialize_enc C tmp' 0 (nc_com nc) COM_empty Hc) as (c' & -> & H0 & H1 & H2 & H3); [apply COM_empty_wf|done..|].
    cbn [mbind outcome_bind]. exists c', tmp'. split_and!; done.
  - cbn [mbind outcome_bind]. exists COM_empty, tmp'. split_and!; [done| |done|apply COM_empty_wf|done]. unfold COM_bool in Eb. apply negb_false_iff, Z.eqb_eq in Eb. unfold live. by rewrite Eb.
Qed.
(** The capabilities and the tags: an array that is too short overflows. *)
Lemma get_capabilities tmp : buf_wf C tmp -> zlen (nc_capabilities nc) <= ZT_MAX_NETWORK_CAPABILITIES ->
  exists tmp', get_blob C d ZT_NETWORKCONFIG_DICT_KEY_CAPABILITIES tmp []
    (fun b => l ← read_unchecked Capability_deserialize ZT_MAX_NETWORK_CAPABILITIES (blob_fuel b) b 0 []; Ok (sort_by cap_id l)) = Ok (sort_by cap_id (nc_capabilities nc), tmp') /\ buf_wf C tmp'.
Proof.
  intros Ht Hl. destruct (lookup_blobs nc) as (Hk & _). eapply (get_blob_read C d _ Hd dict_capacity _ tmp [] _ _ (Ok (sort_by cap_id (nc_capabilities nc)))); [clean_key|done|exact Hk| |].
  - intros b Hb E. rewrite (read_unchecked_blob C (fun c => cap_wf c (cap_live c)) (fun c => cap_enc c (cap_live c)) (fun c => c) Capability_deserialize) with (xs := nc_capabilities nc);
      [|intros b' c i Hb' Hc; by apply (Capability_reads C b' Hb' c (cap_live c))|intros; apply cap_enc_pos|apply Hw|done..]. rewrite (proj2 (Z.leb_le _ _)) by done. by rewrite list_fmap_id.
  - intros E. apply (join_empty (fun c => cap_wf c (cap_live c))) in E as ->; [done|intros; apply cap_enc_pos|apply Hw].
Qed.

Lemma get_tags tmp : buf_wf C tmp ->
  exists tmp', get_blob C d ZT_NETWORKCONFIG_DICT_KEY_TAGS tmp []
    (fun b => l ← read_unchecked Tag_deserialize ZT_MAX_NETWORK_TAGS (blob_fuel b) b 0 []; Ok (sort_by tag_id l)) =
      (if zlen (nc_tags nc) <=? ZT_MAX_NETWORK_TAGS then Ok (sort_by tag_id (nc_tags nc), tmp') else Undef) /\ buf_wf C tmp'.
Proof.
  intros Ht. destruct (lookup_blobs nc) as (_ & Hk & _).
  destruct (get_blob_read C d _ Hd dict_capacity ZT_NETWORKCONFIG_DICT_KEY_TAGS tmp []
    (fun b => l ← read_unchecked Tag_deserialize ZT_MAX_NETWORK_TAGS (blob_fuel b) b 0 []; Ok (sort_by tag_id l)) (mjoin (tag_enc <$> nc_tags nc))
    (if zlen (nc_tags nc) <=? ZT_MAX_NETWORK_TAGS then Ok (sort_by tag_id (nc_tags nc)) else Undef)) as (tmp' & E & Ht'); [clean_key|done|exact Hk| | |].
  - intros b Hb E. rewrite (read_unchecked_blob C tag_wf tag_enc (fun t => t) Tag_deserialize) with (xs := nc_tags nc);
      [|intros b' t i Hb' Hc Hi; by apply (Tag_reads C)|intros; apply tag_enc_pos|apply Hw|done..]. rewrite list_fmap_id. by destruct (_ <=? _).
  - intros E. apply (join_empty tag_wf) in E as ->; [done|intros; apply tag_enc_pos|apply Hw].
  - exists tmp'. split; [|done]. rewrite E. by destruct (_ <=? _).
Qed.

Lemma get_coos tmp : buf_wf C tmp -> zlen (nc_certificatesOfOwnership nc) <= ZT_MAX_CERTIFICATES_OF_OWNERSHIP ->
  exists tmp', get_blob C d ZT_NETWORKCONFIG_DICT_KEY_CERTIFICATES_OF_OWNERSHIP tmp [] (fun b => read_coos (blob_fuel b) b 0 []) = Ok (nc_certificatesOfOwnership nc, tmp') /\ buf_wf C tmp'.
Proof.
  intros Ht Hl. destruct (lookup_blobs nc) as (_ & _ & Hk & _). eapply (get_blob_read C d _ Hd dict_capacity _ tmp [] _ _ (Ok (nc_certificatesOfOwnership nc))); [clean_key|done|exact Hk| |].
  - intros b Hb E. destruct (whole_blob C b _ Hb E) as [Hh Hlen]. rewrite (read_coos_enc C b Hb (nc_certificatesOfOwnership nc)); try done; [apply Hw|].
    apply (blob_fuel_enough b coo_wf coo_enc); [intros; apply coo_enc_pos|apply Hw|done].
  - intros E. apply (join_empty coo_wf) in E as ->; [done|intros; apply coo_enc_pos|apply Hw].
Qed.

Lemma get_specialists tmp : buf_wf C tmp -> zlen (nc_specialists nc) <= ZT_MAX_NETWORK_SPECIALISTS ->
  exists tmp', get_blob C d ZT_NETWORKCONFIG_DICT_KEY_SPECIALISTS tmp [] (fun b => read_specialists (blob_fuel b) b 0 []) = Ok (nc_specialists nc, tmp') /\ buf_wf C tmp'.
Proof.
  intros Ht Hl. destruct (lookup_blobs nc) as (_ & _ & _ & Hk & _). eapply (get_blob_read C d _ Hd dict_capacity _ tmp [] _ _ (Ok (nc_specialists nc))); [clean_key|done|exact Hk| |].
  - intros b Hb E. destruct (whole_blob C b _ Hb E) as [Hh Hlen]. rewrite (read_specialists_enc C b Hb ltac:(lia) (nc_specialists nc)); try done; [apply Hw|].
    apply (blob_fuel_enough b is_u64 (be_bytes 8)); [intros; by rewrite zlen_be_bytes|apply Hw|done].
  - intros E. apply (join_empty is_u64) in E as ->; [done|intros; by rewrite zlen_be_bytes|apply Hw].
Qed.

Lemma get_routes tmp : buf_wf C tmp -> zlen (nc_routes nc) <= ZT_MAX_NETWORK_ROUTES ->
  exists tmp', get_blob C d ZT_NETWORKCONFIG_DICT_KEY_ROUTES tmp [] (fun b => read_limited read_route ZT_MAX_NETWORK_ROUTES (blob_fuel b) b 0 []) = Ok (route_canon <$> nc_routes nc, tmp') /\ buf_wf C tmp'.
Proof.
  intros Ht Hl. destruct (lookup_blobs nc) as (_ & _ & _ & _ & Hk & _). eapply (get_blob_read C d _ Hd dict_capacity _ tmp [] _ _ (Ok (route_canon <$> nc_routes nc))); [clean_key|done|exact Hk| |].
  - intros b Hb E. apply (read_limited_blob C (fun r => ia_wf (rt_target r) /\ ia_wf (rt_via r)) route_enc); try done; [|intros; apply route_enc_pos|apply Hw].
    intros b' r i Hb' [H1 H2]. by apply (read_route_enc C).
  - intros E. apply (join_empty (fun r => ia_wf (rt_target r) /\ ia_wf (rt_via r))) in E as ->; [done|intros; apply route_enc_pos|apply Hw].
Qed.

Lemma get_ips tmp : buf_wf C tmp -> zlen (nc_staticIps nc) <= ZT_MAX_ZT_ASSIGNED_ADDRESSES ->
  exists tmp', get_blob C d ZT_NETWORKCONFIG_DICT_KEY_STATIC_IPS tmp [] (fun b => read_limited InetAddress_deserialize ZT_MAX_ZT_ASSIGNED_ADDRESSES (blob_fuel b) b 0 []) =
    Ok (inet_canon <$> nc_staticIps nc, tmp') /\ buf_wf C tmp'.
Proof.
  intros Ht Hl. destruct (lookup_blobs nc) as (_ & _ & _ & _ & _ & Hk & _). eapply (get_blob_read C d _ Hd dict_capacity _ tmp [] _ _ (Ok (inet_canon <$> nc_staticIps nc))); [clean_key|done|exact Hk| |].
  - intros b Hb E. apply (read_limited_blob C ia_wf inet_enc); try done; [|intros; apply inet_enc_pos|apply Hw]. intros b' a i Hb' Ha. by apply (InetAddress_deserialize_enc C).
  - intros E. apply (join_empty ia_wf) in E as ->; [done|intros; apply inet_enc_pos|apply Hw].
Qed.

Lemma get_rules tmp : buf_wf C tmp -> zlen (nc_rules nc) <= ZT_MAX_NETWORK_RULES ->
  exists tmp', get_blob C d ZT_NETWORKCONFIG_DICT_KEY_RULES tmp [] (fun b => '(rules, _) ← deserializeRules (Z.to_nat ZT_MAX_NETWORK_RULES) b 0; Ok rules) = Ok (nc_rules nc, tmp') /\ buf_wf C tmp'.
Proof.
  intros Ht Hl. destruct (lookup_blobs nc) as (_ & _ & _ & _ & _ & _ & Hk). eapply (get_blob_read C d _ Hd dict_capacity _ tmp [] _ _ (Ok (nc_rules nc))); [clean_key|done|exact Hk| |].
  - intros b Hb E. by rewrite (read_rules_blob C b (nc_rules nc) Hb (nw_rules nc Hw) Hl E).
  - intros E. apply (join_empty rule_wf) in E as ->; [done|intros; apply rule_enc_pos|apply Hw].
Qed.

Lemma fromDictionary_spec legacy tmp : nc_sizes nc -> buf_wf C tmp ->
  if zlen (nc_tags nc) <=? ZT_MAX_NETWORK_TAGS
  then exists nc', NetworkConfig_fromDictionary C legacy d tmp = Ok (Some nc') /\ nc_same nc nc' /\ nc_wf nc'
  else NetworkConfig_fromDictionary C legacy d tmp = Undef.
Proof.
  intros Hs Ht. destruct read_common_Ok as (name & Hname & Ec). unfold NetworkConfig_fromDictionary. rewrite Ec. cbn [mbind outcome_bind].
  read_number ZT_NETWORKCONFIG_DICT_KEY_VERSION ZT_NETWORKCONFIG_VERSION; [|done]. change (ZT_NETWORKCONFIG_VERSION <? 6) with false. cbv iota. unfold read_fields.
  read_number ZT_NETWORKCONFIG_DICT_KEY_FLAGS (nc_flags nc); [|apply Hw]. read_number ZT_NETWORKCONFIG_DICT_KEY_TYPE (nc_type nc); [|apply (in_range_weaken 32); [lia|apply Hw]].
  destruct (get_com tmp Ht) as (com & t1 & -> & Hcom & Hcomw & Ht1). cbn [mbind outcome_bind]. destruct (get_capabilities t1 Ht1 (ns_capabilities nc Hs)) as (t2 & -> & Ht2). cbn [mbind outcome_bind].
  destruct (get_tags t2 Ht2) as (t3 & -> & Ht3). destruct (zlen (nc_tags nc) <=? ZT_MAX_NETWORK_TAGS); [|done]. cbn [mbind outcome_bind].
  destruct (get_coos t3 Ht3 (ns_coos nc Hs)) as (t4 & -> & Ht4). cbn [mbind outcome_bind]. destruct (get_specialists t4 Ht4 (ns_specialists nc Hs)) as (t5 & -> & Ht5). cbn [mbind outcome_bind].
  destruct (get_routes t5 Ht5 (ns_routes nc Hs)) as (t6 & -> & Ht6). cbn [mbind outcome_bind]. destruct (get_ips t6 Ht6 (ns_ips nc Hs)) as (t7 & -> & Ht7). cbn [mbind outcome_bind].
  destruct (get_rules t7 Ht7 (ns_rules nc Hs)) as (t8 & -> & Ht8). cbn [mbind outcome_bind catch_false]. eexists. split; [done|]. rewrite u32_id by apply Hw.
  split; [split; cbn; try done; [apply Hname|split; (apply sort_by_perm || apply sort_by_sorted)..]|]. destruct Hw. constructor; cbn; try done; try apply Hname.
  - by rewrite sort_by_perm.
  - by rewrite sort_by_perm.
  - apply Forall_fmap. eapply Forall_impl; [done|]. intros r [H1 H2]. split; by apply inet_canon_wf.
  - apply Forall_fmap. eapply Forall_impl; [done|]. apply inet_canon_wf.
Qed.
End FromDictionary.

(** ** Properties *)

(** C24: What a controller writes with toDictionary() is what a member reads with fromDictionary(), whatever
    the two temporary buffers hold, when the text fits the dictionary. *)
Theorem NetworkConfig_dict_roundtrip C legacyFields legacy nc tmp tmp' :
  C + 96 < 2 ^ 32 -> nc_wf nc -> nc_sizes nc -> zlen (nc_tags nc) <= ZT_MAX_NETWORK_TAGS -> buf_wf C tmp -> buf_wf C tmp' -> zlen (dict_text (nc_entries nc)) < C ->
  exists d nc', NetworkConfig_toDictionary C legacyFields nc false tmp = Ok (d, true) /\ NetworkConfig_fromDictionary C legacy d tmp' = Ok (Some nc') /\ nc_same nc nc'.
Proof.
  intros HC Hw Hs Htags Ht Ht' Hl. destruct (toDictionary_holds C HC legacyFields nc tmp Hw Ht Hl) as (d & E & Hd). exists d.
  pose proof (fromDictionary_spec C HC d nc Hd Hw legacy tmp' Hs Ht') as H. rewrite (proj2 (Z.leb_le _ _)) in H by done. destruct H as (nc' & H1 & H2 & _). eauto.
Qed.

(** A dictionary with more tags than the array has room for is read past the end of the array. *)
Theorem fromDictionary_tags_overflow C d legacy nc tmp :
  C + 96 < 2 ^ 32 -> nc_wf nc -> nc_sizes nc -> ZT_MAX_NETWORK_TAGS < zlen (nc_tags nc) -> buf_wf C tmp -> holds C d (nc_entries nc) ->
  NetworkConfig_fromDictionary C legacy d tmp = Undef.
Proof.
  intros HC Hw Hs Htags Ht Hd. pose proof (fromDictionary_spec C HC d nc Hd Hw legacy tmp Hs Ht) as H. by rewrite (proj2 (Z.leb_gt _ _)) in H.
Qed.

(** *** Instances *)

(** A bound for the text of entries. *)
Fixpoint text_bound (kvs : list (list Z * list Z)) : Z :=
  match kvs with
  | [] => 0
  | kv :: kvs => zlen kv.1 + 2 * zlen kv.2 + 2 + text_bound kvs
  end.

Lemma text_bound_app l l' : text_bound (l ++ l') = text_bound l + text_bound l'.
Proof. induction l as [|kv l IH]; cbn [app text_bound]; [lia|]. rewrite IH. lia. Qed.

Lemma text_bound_opt k v : text_bound (opt_entry k v) <= zlen k + 2 * zlen v + 2.
Proof. pose proof (zlen_nonneg k). destruct v; cbn [opt_entry text_bound fst snd]; [change (zlen []) with 0|]; lia. Qed.

Lemma escape_bound v : zlen (flat_map escape_char v) <= 2 * zlen v.
Proof.
  induction v as [|c v IH]; [done|]. cbn [flat_map]. rewrite zlen_app. assert (zlen (escape_char c) <= 2) by (unfold escape_char; repeat case_match; done). unfold zlen in *. cbn [length]. lia.
Qed.

Lemma dict_text_bound kvs : zlen (dict_text kvs) <= text_bound kvs.
Proof.
  induction kvs as [|[k v] kvs IH] using rev_ind; [done|]. rewrite dict_text_snoc, text_bound_app. unfold entry_text. rewrite !zlen_app. pose proof (escape_bound v).
  assert (zlen (match dict_text kvs with [] => [] | _ :: _ => [LF] end) <= 1) by (by destruct (dict_text kvs)). change (zlen [EQUALS]) with 1. cbn [text_bound fst snd]. lia.
Qed.

(** A network with [n] tags, a rule and an address. *)
Definition sample_config (n : nat) : NetworkConfig :=
  mkNetworkConfig 0x1122334455667788 1000 60 3 0x99 0 2 0 2800 32 [] [mkRoute (IaV4 0 [10; 0; 0; 0]) InetAddress_null 0 0] [IaV4 6144 [10; 0; 0; 1]]
    [mkRule 37 (VEtherType 0x0800); mkRule 1 VNone] [] (replicate n Samples.tag) [] ZT_NETWORK_TYPE_PRIVATE (replicate 128 0) COM_empty.

Lemma sample_config_wf n : nc_wf (sample_config n).
Proof.
  constructor; cbn [sample_config nc_networkId nc_timestamp nc_credentialTimeMaxDelta nc_revision nc_issuedTo nc_remoteTraceTarget nc_flags nc_remoteTraceLevel nc_mtu nc_multicastLimit
    nc_type nc_name nc_com nc_capabilities nc_tags nc_certificatesOfOwnership nc_specialists nc_routes nc_staticIps nc_rules]; try done.
  - split_and!; [done|by apply Forall_replicate|by left].
  - constructor; [done|by apply Forall_replicate|done|constructor|done|split; [done|by apply Forall_replicate]].
  - apply Forall_replicate, Samples.tag_ok.
  - repeat constructor; try done; by apply Forall_replicate.
  - by repeat constructor.
  - by repeat constructor.
Qed.

Lemma sample_config_sizes n : nc_sizes (sample_config n).
Proof. by constructor. Qed.

Lemma sample_config_text n : zlen (dict_text (nc_entries (sample_config n))) <= 1000 + 270 * Z.of_nat n.
Proof.
  etrans; [apply dict_text_bound|]. assert (E : zlen (mjoin (tag_enc <$> replicate n Samples.tag)) = 135 * Z.of_nat n).
  { induction n as [|n IH]; [done|]. change (mjoin (tag_enc <$> replicate (S n) Samples.tag)) with (tag_enc Samples.tag ++ mjoin (tag_enc <$> replicate n Samples.tag)).
    rewrite zlen_app, IH. change (zlen (tag_enc Samples.tag)) with 135. lia. }
  assert (Hj : forall es ess, text_bound (mjoin (es :: ess)) = text_bound es + text_bound (mjoin ess)) by (intros; apply text_bound_app).
  unfold nc_entries, blob_entries. rewrite text_bound_app, !Hj. pose proof (text_bound_opt ZT_NETWORKCONFIG_DICT_KEY_TAGS (mjoin (tag_enc <$> nc_tags (sample_config n)))) as Ht.
  change (nc_tags (sample_config n)) with (replicate n Samples.tag) in *. rewrite E in Ht. change (zlen ZT_NETWORKCONFIG_DICT_KEY_TAGS) with 3 in Ht.
  set (tags := text_bound (opt_entry ZT_NETWORKCONFIG_DICT_KEY_TAGS _)) in *. clearbody tags.
  repeat match goal with |- context [text_bound ?l] => let v := eval vm_compute in (text_bound l) in change (text_bound l) with v end. lia.
Qed.

Lemma NetworkConfig_dict_roundtrip_witness :
  exists d nc', NetworkConfig_toDictionary 4096 (fun _ => []) (sample_config 2) false (Buffer_new (replicate 4096 0)) = Ok (d, true) /\
    NetworkConfig_fromDictionary 4096 (fun _ _ => Ok None) d (Buffer_new (replicate 4096 0)) = Ok (Some nc') /\ nc_tags nc' ≡ₚ [Samples.tag; Samples.tag].
Proof.
  destruct (NetworkConfig_dict_roundtrip 4096 (fun _ => []) (fun _ _ => Ok None) (sample_config 2) (Buffer_new (replicate 4096 0)) (Buffer_new (replicate 4096 0)))
    as (d & nc' & H1 & H2 & H3);
    [lia|apply sample_config_wf|apply sample_config_sizes|done|apply (buf_wf_zeros 4096); lia|apply (buf_wf_zeros 4096); lia|pose proof (sample_config_text 2); lia|].
  exists d, nc'. split_and!; [exact H1|exact H2|apply (sm_tags _ _ H3)].
Defined.

Lemma fromDictionary_tags_overflow_witness :
  exists d, NetworkConfig_toDictionary 40000 (fun _ => []) (sample_config 129) false (Buffer_new (replicate (Z.to_nat 40000) 0)) = Ok (d, true) /\
    NetworkConfig_fromDictionary 40000 (fun _ _ => Ok None) d (Buffer_new (replicate (Z.to_nat 40000) 0)) = Undef.
Proof.
  assert (Hb : buf_wf 40000 (Buffer_new (replicate (Z.to_nat 40000) 0))) by (pose proof (buf_wf_zeros (Z.to_nat 40000)) as H; rewrite Z2Nat.id in H by lia; apply H; lia).
  destruct (toDictionary_holds 40000 ltac:(lia) (fun _ => []) (sample_config 129) (Buffer_new (replicate (Z.to_nat 40000) 0)) (sample_config_wf 129) Hb) as (d & E & Hd).
  { pose proof (sample_config_text 129). lia. }
  exists d. split; [exact E|].
  apply (fromDictionary_tags_overflow 40000 d (fun _ _ => Ok None) (sample_config 129)); [lia|apply sample_config_wf|apply sample_config_sizes|done|exact Hb|exact Hd].
Defined.
