(* ===== verification/Membership.v ===== *)
(** What a node knows of another member of a network: node/Membership.hpp and
    node/Membership.cpp.

    The credentials the member sent are in the hash tables of Hashtable.v; the class
    [MemberCredential] has what the templates ask of their type.  [alloc] is for the
    allocations a table may make.  The messages to the trace are not modelled. *)
From S2P Require Import Prelude.
From S2P Require Import Utils.
From S2P Require Import Buffer.
From S2P Require Import Addressing.
From S2P Require Import InetAddress.
From S2P Require Import Hashtable.
From S2P Require Import Rules.
From S2P Require Import C25519Api.
From S2P Require Import Identity.
From S2P Require Import CertificateOfMembership.
From S2P Require Import Credentials.
From S2P Require Import Capability.
From S2P Require Import NetworkConfig.

Definition ZT_MULTICAST_ANNOUNCE_PERIOD : Z := 120000.
Definition ZT_PEER_ACTIVITY_TIMEOUT : Z := 500000.
Definition CREDENTIAL_TYPE_COM : Z := 1.
Definition CREDENTIAL_TYPE_CAPABILITY : Z := 2.
Definition CREDENTIAL_TYPE_TAG : Z := 3.
Definition CREDENTIAL_TYPE_COO : Z := 4.

(** Subtraction of [int64_t], undefined when it overflows. *)
Definition sub_s64 (a b : Z) : outcome Z := if (- 2 ^ 63 <=? a - b) && (a - b <? 2 ^ 63) then Ok (a - b) else Undef.

(** ** Equality of credentials
    The operator== of the credentials compares the objects byte by byte. *)

#[export] Instance rule_value_eq_dec : EqDecision rule_value.
Proof. solve_decision. Defined.
#[export] Instance Rule_eq_dec : EqDecision Rule.
Proof. solve_decision. Defined.
#[export] Instance Custody_eq_dec : EqDecision Custody.
Proof. solve_decision. Defined.
#[export] Instance Capability_eq_dec : EqDecision Capability.
Proof. solve_decision. Defined.
#[export] Instance Tag_eq_dec : EqDecision Tag.
Proof. solve_decision. Defined.
#[export] Instance COO_eq_dec : EqDecision COO.
Proof. solve_decision. Defined.

Class MemberCredential `{Ops : C25519Ops} (A : Type) := {
  mc_type : Z;
  mc_id : A -> Z;
  mc_timestamp : A -> Z;
  mc_verify : (Z -> Identity) -> A -> outcome (Z * list Z);
  mc_eq_dec :: EqDecision A;
  (** what the constructor without arguments makes *)
  mc_empty : A
}.

#[export] Instance Tag_member `{C25519Ops} : MemberCredential Tag := {|
  mc_type := CREDENTIAL_TYPE_TAG; mc_id := tag_id; mc_timestamp := tag_ts; mc_verify := Tag_verify;
  mc_empty := mkTag 0 0 0 0 0 0 (replicate 96 0)
|}.
#[export] Instance Capability_member `{C25519Ops} : MemberCredential Capability := {|
  mc_type := CREDENTIAL_TYPE_CAPABILITY; mc_id := cap_id; mc_timestamp := cap_ts; mc_verify := Capability_verify;
  mc_empty := mkCapability 0 0 0 0 [] (replicate 7 no_custody)
|}.
#[export] Instance COO_member `{C25519Ops} : MemberCredential COO := {|
  mc_type := CREDENTIAL_TYPE_COO; mc_id := coo_id; mc_timestamp := coo_ts; mc_verify := COO_verify;
  mc_empty := mkCOO 0 0 0 0 0 (replicate 16 0) (replicate 16 (replicate 16 0)) 0 0 (replicate 96 0)
|}.

(** ** State *)

Record Membership : Type := mkMembership {
  ms_lastUpdatedMulticast : Z;
  ms_lastPushedCom : Z;
  ms_comRevocationThreshold : Z;
  ms_com : COM;
  ms_revocations : Hashtable Z Z;
  ms_remoteTags : Hashtable uint32 Tag;
  ms_remoteCaps : Hashtable uint32 Capability;
  ms_remoteCoos : Hashtable uint32 COO;
  ms_pushedTags : list Z;
  ms_pushedCaps : list Z;
  ms_pushedCoos : list Z
}.

Definition new_table {K V : Type} : Hashtable K V := mkHashtable (replicate 4 []) 4 0.

(** The constructor; the tables have four buckets. *)
Definition Membership_new : Membership :=
  mkMembership 0 0 0 COM_empty new_table new_table new_table new_table
    (replicate (Z.to_nat ZT_MAX_NETWORK_TAGS) 0) (replicate (Z.to_nat ZT_MAX_NETWORK_CAPABILITIES) 0)
    (replicate (Z.to_nat ZT_MAX_CERTIFICATES_OF_OWNERSHIP) 0).

Definition Membership_resetPushState (m : Membership) : Membership :=
  mkMembership (ms_lastUpdatedMulticast m) 0 (ms_comRevocationThreshold m) (ms_com m) (ms_revocations m) (ms_remoteTags m)
    (ms_remoteCaps m) (ms_remoteCoos m) (replicate (Z.to_nat ZT_MAX_NETWORK_TAGS) 0)
    (replicate (Z.to_nat ZT_MAX_NETWORK_CAPABILITIES) 0) (replicate (Z.to_nat ZT_MAX_CERTIFICATES_OF_OWNERSHIP) 0).

Definition Membership_multicastLikeGate (m : Membership) (now : Z) : outcome (Membership * bool) :=
  d ← sub_s64 now (ms_lastUpdatedMulticast m);
  if ZT_MULTICAST_ANNOUNCE_PERIOD <=? d then
    Ok (mkMembership now (ms_lastPushedCom m) (ms_comRevocationThreshold m) (ms_com m) (ms_revocations m) (ms_remoteTags m)
          (ms_remoteCaps m) (ms_remoteCoos m) (ms_pushedTags m) (ms_pushedCaps m) (ms_pushedCoos m), true)
  else Ok (m, false).

Definition with_com (m : Membership) (c : COM) : Membership :=
  mkMembership (ms_lastUpdatedMulticast m) (ms_lastPushedCom m) (ms_comRevocationThreshold m) c (ms_revocations m) (ms_remoteTags m)
    (ms_remoteCaps m) (ms_remoteCoos m) (ms_pushedTags m) (ms_pushedCaps m) (ms_pushedCoos m).
Definition with_creds (m : Membership) (tags : Hashtable uint32 Tag) (caps : Hashtable uint32 Capability) (coos : Hashtable uint32 COO) : Membership :=
  mkMembership (ms_lastUpdatedMulticast m) (ms_lastPushedCom m) (ms_comRevocationThreshold m) (ms_com m) (ms_revocations m) tags caps coos
    (ms_pushedTags m) (ms_pushedCaps m) (ms_pushedCoos m).
Definition with_revocations (m : Membership) (threshold : Z) (revs : Hashtable Z Z) : Membership :=
  mkMembership (ms_lastUpdatedMulticast m) (ms_lastPushedCom m) threshold (ms_com m) revs (ms_remoteTags m)
    (ms_remoteCaps m) (ms_remoteCoos m) (ms_pushedTags m) (ms_pushedCaps m) (ms_pushedCoos m).

(** ** Queries *)

Definition Membership_isAllowedOnNetwork (m : Membership) (nconf : NetworkConfig) : outcome bool :=
  if NetworkConfig_isPublic nconf then Ok true else
  ts ← COM_timestamp (ms_com m);
  if ts <=? ms_comRevocationThreshold m then Ok false else COM_agreesWith (nc_com nconf) (ms_com m).

Definition Membership_recentlyAssociated (m : Membership) (now : Z) : outcome bool :=
  if COM_bool (ms_com m) then
    ts ← COM_timestamp (ms_com m);
    d ← sub_s64 now ts;
    Ok (d <? ZT_PEER_ACTIVITY_TIMEOUT)
  else Ok false.

Definition credentialKey (t i : Z) : Z := Z.lor (Z.shiftl t 32) i.

Section Credentials.
Context `{Ops : C25519Ops}.

Section OneType.
Context {A : Type} `{MC : MemberCredential A}.

Definition isCredentialTimestampValid (revocations : Hashtable Z Z) (nconf : NetworkConfig) (c : A) : outcome bool :=
  let ts := mc_timestamp c in
  d ← (if nc_timestamp nconf <=? ts then sub_s64 ts (nc_timestamp nconf) else sub_s64 (nc_timestamp nconf) ts);
  if d <=? nc_credentialTimeMaxDelta nconf then
    threshold ← Hashtable_get revocations (credentialKey mc_type (mc_id c));
    Ok (match threshold with None => true | Some t => t <? ts end)
  else Ok false.

Definition cleanCredImpl (revocations : Hashtable Z Z) (nconf : NetworkConfig) (creds : Hashtable uint32 A) : outcome (Hashtable uint32 A) :=
  it ← Iterator_new creds;
  '(creds, _) ← erase_loop (S (Z.to_nat (ht_s creds)))
    (fun kv => v ← isCredentialTimestampValid revocations nconf kv.2; Ok (negb v)) creds it [];
  Ok creds.
End OneType.

Definition Membership_getTag (m : Membership) (nconf : NetworkConfig) (id : Z) : outcome (option Tag) :=
  t ← Hashtable_get (ms_remoteTags m) (U32 id);
  match t with
  | Some t => v ← isCredentialTimestampValid (ms_revocations m) nconf t; Ok (if (v : bool) then Some t else None)
  | None => Ok None
  end.

(** [owns] is the owns() of the certificate for the resource. *)
Definition Membership_hasCertificateOfOwnershipFor (m : Membership) (nconf : NetworkConfig) (owns : COO -> outcome bool) : outcome bool :=
  it ← Iterator_new (ms_remoteCoos m);
  '(_, r) ← find_loop (S (Z.to_nat (ht_s (ms_remoteCoos m))))
    (fun kv => v ← isCredentialTimestampValid (ms_revocations m) nconf kv.2; if (v : bool) then owns kv.2 else Ok false) (ms_remoteCoos m) it;
  Ok (match r with Some _ => true | None => false end).

(** The next capability of [CapabilityIterator]. *)
Definition CapabilityIterator_next (m : Membership) (nconf : NetworkConfig) (it : Iterator uint32) : outcome (Iterator uint32 * option Capability) :=
  '(it, r) ← find_loop (S (Z.to_nat (ht_s (ms_remoteCaps m))))
    (fun kv => isCredentialTimestampValid (ms_revocations m) nconf kv.2) (ms_remoteCaps m) it;
  Ok (it, match r with Some kv => Some kv.2 | None => None end).

Definition Membership_clean (m : Membership) (nconf : NetworkConfig) : outcome Membership :=
  tags ← cleanCredImpl (ms_revocations m) nconf (ms_remoteTags m);
  caps ← cleanCredImpl (ms_revocations m) nconf (ms_remoteCaps m);
  coos ← cleanCredImpl (ms_revocations m) nconf (ms_remoteCoos m);
  Ok (with_creds m tags caps coos).

(** ** Adding credentials *)

Inductive AddCredentialResult : Type := ADD_REJECTED | ADD_ACCEPTED_NEW | ADD_ACCEPTED_REDUNDANT | ADD_DEFERRED_FOR_WHOIS.

(** Each gives the result and the addresses handed to [requestWhois]. *)
Context (getIdentity : Z -> Identity).

Definition Membership_addCom (m : Membership) (com : COM) : outcome (Membership * AddCredentialResult * list Z) :=
  newts ← COM_timestamp com;
  if newts <=? ms_comRevocationThreshold m then Ok (m, ADD_REJECTED, []) else
  oldts ← COM_timestamp (ms_com m);
  if newts <? oldts then Ok (m, ADD_REJECTED, []) else
  same ← (if newts =? oldts then COM_eqb (ms_com m) com else Ok false);
  if (same : bool) then Ok (m, ADD_ACCEPTED_REDUNDANT, []) else
  '(v, whois) ← COM_verify getIdentity com;
  if v =? 0 then Ok (with_com m com, ADD_ACCEPTED_NEW, whois)
  else if v =? 1 then Ok (m, ADD_DEFERRED_FOR_WHOIS, whois)
  else Ok (m, ADD_REJECTED, whois).

(** The credential is stored through the pointer get() gave, or operator[]. *)
Definition store_verified {A} `{MC : MemberCredential A} (creds : Hashtable uint32 A) (k : uint32) (rc : option A) (alloc : bool) (cred : A) : outcome (Hashtable uint32 A) :=
  creds ← match rc with Some _ => Ok creds | None => '(creds, _) ← Hashtable_index mc_empty creds k alloc; Ok creds end;
  Hashtable_store creds k cred.

(** [_addCredImpl] *)
Definition addCredImpl {A} `{MC : MemberCredential A} (creds : Hashtable uint32 A) (revocations : Hashtable Z Z) (alloc : bool) (cred : A)
  : outcome (Hashtable uint32 A * AddCredentialResult * list Z) :=
  let k := U32 (mc_id cred) in
  rc ← Hashtable_get creds k;
  let early :=
    match rc with
    | Some old => if mc_timestamp cred <? mc_timestamp old then Some ADD_REJECTED else if decide (old = cred) then Some ADD_ACCEPTED_REDUNDANT else None
    | None => None
    end in
  match early with
  | Some r => Ok (creds, r, [])
  | None =>
      rt ← Hashtable_get revocations (credentialKey mc_type (mc_id cred));
      if match rt with Some t => mc_timestamp cred <=? t | None => false end then Ok (creds, ADD_REJECTED, []) else
      '(v, whois) ← mc_verify getIdentity cred;
      if v =? 0 then
        creds ← store_verified creds k rc alloc cred;
        Ok (creds, ADD_ACCEPTED_NEW, whois)
      else if v =? 1 then Ok (creds, ADD_DEFERRED_FOR_WHOIS, whois)
      else Ok (creds, ADD_REJECTED, whois)
  end.

Definition Membership_addTag (m : Membership) (alloc : bool) (t : Tag) : outcome (Membership * AddCredentialResult * list Z) :=
  '(h, r, w) ← addCredImpl (ms_remoteTags m) (ms_revocations m) alloc t;
  Ok (with_creds m h (ms_remoteCaps m) (ms_remoteCoos m), r, w).
Definition Membership_addCapability (m : Membership) (alloc : bool) (c : Capability) : outcome (Membership * AddCredentialResult * list Z) :=
  '(h, r, w) ← addCredImpl (ms_remoteCaps m) (ms_revocations m) alloc c;
  Ok (with_creds m (ms_remoteTags m) h (ms_remoteCoos m), r, w).
Definition Membership_addCoo (m : Membership) (alloc : bool) (c : COO) : outcome (Membership * AddCredentialResult * list Z) :=
  '(h, r, w) ← addCredImpl (ms_remoteCoos m) (ms_revocations m) alloc c;
  Ok (with_creds m (ms_remoteTags m) (ms_remoteCaps m) h, r, w).

Definition Membership_addRevocation (m : Membership) (alloc : bool) (rev : Revocation) : outcome (Membership * AddCredentialResult * list Z) :=
  '(v, whois) ← Revocation_verify getIdentity rev;
  if v =? 0 then
    let ct := rev_type rev in
    if ct =? CREDENTIAL_TYPE_COM then
      if ms_comRevocationThreshold m <? rev_threshold rev
      then Ok (with_revocations m (rev_threshold rev) (ms_revocations m), ADD_ACCEPTED_NEW, whois)
      else Ok (m, ADD_ACCEPTED_REDUNDANT, whois)
    else if (ct =? CREDENTIAL_TYPE_CAPABILITY) || (ct =? CREDENTIAL_TYPE_TAG) || (ct =? CREDENTIAL_TYPE_COO) then
      let k := credentialKey ct (rev_credentialId rev) in
      '(revs, rt) ← Hashtable_index 0 (ms_revocations m) k alloc;
      if rt <? rev_threshold rev then
        revs ← Hashtable_store revs k (rev_threshold rev);
        Ok (with_revocations m (rev_threshold rev) revs, ADD_ACCEPTED_NEW, whois)
      else Ok (with_revocations m (ms_comRevocationThreshold m) revs, ADD_ACCEPTED_REDUNDANT, whois)
    else Ok (m, ADD_REJECTED, whois)
  else if v =? 1 then Ok (m, ADD_DEFERRED_FOR_WHOIS, whois)
  else Ok (m, ADD_REJECTED, whois).
End Credentials.

(** ** What the operations do *)

Lemma sub_s64_Ok a b : 0 <= a < 2 ^ 62 -> 0 <= b < 2 ^ 62 -> sub_s64 a b = Ok (a - b).
Proof. intros Ha Hb. unfold sub_s64. by rewrite (proj2 (Z.leb_le _ _)), (proj2 (Z.ltb_lt _ _)) by lia. Qed.

(** A configuration and credentials whose times are not far in the future. *)
Definition time_ok (t : Z) : Prop := 0 <= t < 2 ^ 62.

(** A hash table with room for [n] entries. *)
Definition table_ok {K V} `{Countable K} `{HashCode K} (n : Z) (h : Hashtable K V) : Prop := ht_wf h /\ ht_s h <= n.

Lemma table_ok_mono {K V} `{Countable K} `{HashCode K} (h : Hashtable K V) n n' : table_ok n h -> n <= n' -> table_ok n' h.
Proof. intros [? ?] ?. split; [done|lia]. Qed.

Lemma new_table_ok {K V} `{Countable K} `{HashCode K} : table_ok 0 (new_table : Hashtable K V) /\ ht_map (new_table : Hashtable K V) = ∅.
Proof. destruct (Hashtable_new_spec (K := K) (V := V) 4) as (h & [= <-] & Hw & Hm & Hs); [lia|]. split; [split; [done|cbn; lia]|done]. Qed.

Section OneType.
Context `{Ops : C25519Ops} {A : Type} `{MC : MemberCredential A} (getIdentity : Z -> Identity).

(** The time of a credential against the configuration and its revocation. *)
Definition timestamp_valid (revs : gmap Z Z) (nconf : NetworkConfig) (c : A) : bool :=
  (Z.abs (mc_timestamp c - nc_timestamp nconf) <=? nc_credentialTimeMaxDelta nconf) &&
  match revs !! credentialKey mc_type (mc_id c) with None => true | Some t => t <? mc_timestamp c end.

Lemma isCredentialTimestampValid_spec revs nconf c : ht_wf revs -> time_ok (nc_timestamp nconf) -> time_ok (mc_timestamp c) ->
  isCredentialTimestampValid revs nconf c = Ok (timestamp_valid (ht_map revs) nconf c).
Proof.
  intros Hw Hn Hc. unfold isCredentialTimestampValid, timestamp_valid. cbv zeta. unfold time_ok in *.
  assert (E : (if nc_timestamp nconf <=? mc_timestamp c then sub_s64 (mc_timestamp c) (nc_timestamp nconf) else sub_s64 (nc_timestamp nconf) (mc_timestamp c)) =
    Ok (Z.abs (mc_timestamp c - nc_timestamp nconf))).
  { destruct (Z.leb_spec (nc_timestamp nconf) (mc_timestamp c)); rewrite sub_s64_Ok by done; f_equal; lia. }
  rewrite E. cbn [mbind outcome_bind]. destruct (Z.abs (mc_timestamp c - nc_timestamp nconf) <=? nc_credentialTimeMaxDelta nconf); [|reflexivity]. by rewrite Hashtable_get_spec by done.
Qed.

(** What [addCredImpl] decides, from the stored credential, the revocation and verify(). *)
Definition add_decision (old : option A) (rt : option Z) (v : Z) (cred : A) : AddCredentialResult :=
  let early :=
    match old with
    | Some o => if mc_timestamp cred <? mc_timestamp o then Some ADD_REJECTED else if decide (o = cred) then Some ADD_ACCEPTED_REDUNDANT else None
    | None => None
    end in
  match early with
  | Some r => r
  | None =>
      if match rt with Some t => mc_timestamp cred <=? t | None => false end then ADD_REJECTED
      else if v =? 0 then ADD_ACCEPTED_NEW else if v =? 1 then ADD_DEFERRED_FOR_WHOIS else ADD_REJECTED
  end.

Lemma add_decision_new old rt v cred : add_decision old rt v cred = ADD_ACCEPTED_NEW ->
  v = 0 /\ (forall o, old = Some o -> mc_timestamp o <= mc_timestamp cred) /\ (forall t, rt = Some t -> t < mc_timestamp cred).
Proof.
  unfold add_decision. intros H. destruct old as [o|].
  - destruct (Z.ltb_spec (mc_timestamp cred) (mc_timestamp o)); [done|]. destruct (decide (o = cred)); [done|].
    destruct rt as [t|]; [destruct (Z.leb_spec (mc_timestamp cred) t); [done|]|]; (destruct (Z.eqb_spec v 0); [|by destruct (v =? 1)]); naive_solver lia.
  - destruct rt as [t|]; [destruct (Z.leb_spec (mc_timestamp cred) t); [done|]|]; (destruct (Z.eqb_spec v 0); [|by destruct (v =? 1)]); naive_solver lia.
Qed.

Lemma store_verified_spec creds k (cred : A) alloc : ht_wf creds -> ht_s creds < 2 ^ 59 ->
  exists creds', store_verified creds k (ht_map creds !! k) alloc cred = Ok creds' /\ ht_wf creds' /\ ht_map creds' = <[k := cred]> (ht_map creds) /\ ht_s creds' <= ht_s creds + 1.
Proof.
  intros Hw Hs. unfold store_verified. destruct (ht_map creds !! k) as [old|] eqn:Ek; cbn [mbind outcome_bind].
  - destruct (Hashtable_store_spec creds k cred Hw) as (c2 & -> & Hw2 & Hm2); [lia|eauto|]. exists c2. split_and!; [done..|].
    rewrite (ht_size c2 Hw2), (ht_size creds Hw), Hm2, map_size_insert, Ek. unfold id. lia.
  - destruct (Hashtable_index_spec mc_empty creds k alloc Hw) as (c1 & -> & Hw1 & Hm1 & Hs1); [lia|]. cbn [mbind outcome_bind].
    destruct (Hashtable_store_spec c1 k cred Hw1) as (c2 & -> & Hw2 & Hm2); [lia|rewrite Hm1, lookup_insert_eq; eauto|]. exists c2. split_and!; [done..| |].
    + by rewrite Hm2, Hm1, insert_insert_eq.
    + rewrite (ht_size c2 Hw2), Hm2, Hm1, insert_insert_eq, map_size_insert, Ek, (ht_size creds Hw). lia.
Qed.

Lemma addCredImpl_spec creds revs alloc cred v w : ht_wf creds -> ht_s creds < 2 ^ 59 -> ht_wf revs -> mc_verify getIdentity cred = Ok (v, w) ->
  let k := U32 (mc_id cred) in
  let r := add_decision (ht_map creds !! k) (ht_map revs !! credentialKey mc_type (mc_id cred)) v cred in
  exists creds' w', addCredImpl getIdentity creds revs alloc cred = Ok (creds', r, w') /\ ht_wf creds' /\ ht_s creds' <= ht_s creds + 1 /\
    ht_map creds' = match r with ADD_ACCEPTED_NEW => <[k := cred]> (ht_map creds) | _ => ht_map creds end.
Proof.
  intros Hw Hs Hr Hv. cbv zeta. unfold addCredImpl, add_decision. cbv zeta. rewrite !Hashtable_get_spec by done. cbn [mbind outcome_bind].
  set (k := U32 (mc_id cred)). destruct (store_verified_spec creds k cred alloc Hw Hs) as (c2 & E2 & Hw2 & Hm2 & Hs2).
  destruct (match ht_map creds !! k with Some _ => _ | None => None end) as [r|] eqn:Ee.
  - exists creds, []. split_and!; [done|done|lia|]. destruct (ht_map creds !! k); [|done]. destruct (_ <? _); [by injection Ee as <-|]. destruct (decide _); [by injection Ee as <-|done].
  - rewrite Hv. cbn [mbind outcome_bind]. destruct (match ht_map revs !! _ with Some _ => _ | None => false end).
    + exists creds, []. split_and!; [done|done|lia|done].
    + destruct (v =? 0); [rewrite E2; cbn [mbind outcome_bind]; by exists c2, w|]. destruct (v =? 1); exists creds, w; (split_and!; [done|done|lia|done]).
Qed.

(** The credentials of a table: stored under their ID, verified. *)
Definition creds_ok (ok : A -> Prop) (creds : gmap uint32 A) : Prop :=
  forall k c, creds !! k = Some c -> k = U32 (mc_id c) /\ ok c /\ exists w, mc_verify getIdentity c = Ok (0, w).

Context (ok : A -> Prop) (Hverify : forall c, ok c -> exists v w, mc_verify getIdentity c = Ok (v, w)) (Htime : forall c, ok c -> time_ok (mc_timestamp c)).

Lemma addCredImpl_ok n creds revs alloc cred : n < 2 ^ 59 -> table_ok n creds -> ht_wf revs -> creds_ok ok (ht_map creds) -> ok cred ->
  exists creds' r w, addCredImpl getIdentity creds revs alloc cred = Ok (creds', r, w) /\ table_ok (n + 1) creds' /\ creds_ok ok (ht_map creds').
Proof.
  intros Hn [Hw Hs] Hr Hc Hok. destruct (Hverify cred Hok) as (v & w & Hv). destruct (addCredImpl_spec creds revs alloc cred v w Hw ltac:(lia) Hr Hv) as (c' & w' & E & Hw' & Hs' & Hm').
  cbv zeta in E, Hm'. do 3 eexists. split; [exact E|]. split; [split; [done|lia]|]. rewrite Hm'. destruct (add_decision _ _ _ _) eqn:Ed; try done.
  apply add_decision_new in Ed as (-> & _ & _). intros k c. destruct (decide (k = U32 (mc_id cred))) as [->|Hne].
  - rewrite lookup_insert_eq. intros [= <-]. eauto.
  - rewrite lookup_insert_ne by done. apply Hc.
Qed.

Lemma cleanCredImpl_spec n creds revs nconf : n < 2 ^ 59 -> table_ok n creds -> ht_wf revs -> creds_ok ok (ht_map creds) -> time_ok (nc_timestamp nconf) ->
  exists creds', cleanCredImpl revs nconf creds = Ok creds' /\ table_ok n creds' /\
    ht_map creds' = filter (fun kc => timestamp_valid (ht_map revs) nconf kc.2 = true) (ht_map creds).
Proof.
  intros Hn [Hw Hs] Hr Hc Ht. unfold cleanCredImpl. rewrite (hw_s creds Hw). unfold zlen. rewrite Nat2Z.id.
  destruct (erase_all_spec (fun kv => v ← isCredentialTimestampValid revs nconf kv.2; Ok (negb v)) (fun kv => negb (timestamp_valid (ht_map revs) nconf kv.2)) creds)
    as (it & creds' & -> & Hl & Hw' & El); [|done|lia|].
  { intros [k c] Hin. apply ht_map_lookup in Hin; [|done]. destruct (Hc k c Hin) as (_ & Hok & _). cbn [snd].
    by rewrite isCredentialTimestampValid_spec by (done || by apply Htime). }
  cbn [mbind outcome_bind]. rewrite Hl. cbn [mbind outcome_bind]. exists creds'. split; [done|].
  assert (El' : ht_list creds' = filter (fun kc => timestamp_valid (ht_map revs) nconf kc.2 = true) (ht_list creds)).
  { rewrite El. apply list_filter_iff. intros kv. by rewrite negb_false_iff. }
  split; [split; [done|]|by apply ht_map_filter]. rewrite (hw_s creds' Hw'), El'. rewrite (hw_s creds Hw) in Hs. unfold zlen in *.
  pose proof (length_filter (fun kc => timestamp_valid (ht_map revs) nconf kc.2 = true) (ht_list creds)). lia.
Qed.
End OneType.

(** What is so of any credential, if the code gives a result at all. *)
Section OneTypeAny.
Context `{Ops : C25519Ops} {A : Type} `{MC : MemberCredential A} (getIdentity : Z -> Identity) (ok : A -> Prop).

Lemma unverified_add creds revs alloc cred creds' r w : ht_wf creds -> ht_wf revs -> (forall p, mc_verify getIdentity cred <> Ok p) ->
  addCredImpl getIdentity creds revs alloc cred = Ok (creds', r, w) -> creds' = creds.
Proof.
  intros Hw Hr Hv. unfold addCredImpl. cbv zeta. rewrite !Hashtable_get_spec by done. cbn [mbind outcome_bind].
  destruct (match ht_map creds !! _ with Some _ => _ | None => None end); [by intros [= <- _ _]|].
  destruct (match ht_map revs !! _ with Some _ => _ | None => false end); [by intros [= <- _ _]|].
  destruct (mc_verify getIdentity cred) as [p| |]; [by destruct (Hv p)|done..].
Qed.

Lemma addCredImpl_defined n creds revs alloc cred creds' r w : n < 2 ^ 59 -> table_ok n creds -> ht_wf revs -> creds_ok getIdentity ok (ht_map creds) -> ok cred ->
  addCredImpl getIdentity creds revs alloc cred = Ok (creds', r, w) -> table_ok (n + 1) creds' /\ creds_ok getIdentity ok (ht_map creds').
Proof.
  intros Hn [Hw Hs] Hr Hc Hok E. destruct (mc_verify getIdentity cred) as [[v w0]| |] eqn:Hv.
  1: { assert (Hs2 : ht_s creds < 2 ^ 59) by lia. destruct (addCredImpl_spec getIdentity creds revs alloc cred v w0 Hw Hs2 Hr Hv) as (c' & w' & E' & Hw' & Hs' & Hm'). cbv zeta in E', Hm'.
       rewrite E in E'. injection E' as -> -> ->. split; [split; [done|lia]|]. rewrite Hm'. destruct (add_decision _ _ _ _) eqn:Ed; try done.
       apply add_decision_new in Ed as (-> & _ & _); [|done]. intros k c. destruct (decide (k = U32 (mc_id cred))) as [->|Hne]; [|rewrite lookup_insert_ne by done; apply Hc].
       rewrite lookup_insert_eq. intros [= <-]. eauto. }
  all: apply (unverified_add creds revs alloc cred creds' r w) in E as ->; [split; [split; [done|lia]|done]|done|done|by rewrite Hv].
Qed.

Lemma cleanCredImpl_defined n creds revs nconf creds' : n < 2 ^ 59 -> table_ok n creds -> creds_ok getIdentity ok (ht_map creds) -> cleanCredImpl revs nconf creds = Ok creds' ->
  table_ok n creds' /\ creds_ok getIdentity ok (ht_map creds').
Proof.
  intros Hn [Hw Hs] Hc. unfold cleanCredImpl. rewrite (hw_s creds Hw). unfold zlen. rewrite Nat2Z.id.
  set (p := fun kv : uint32 * A => v ← isCredentialTimestampValid revs nconf kv.2; Ok (negb v)).
  set (q := fun kv : uint32 * A => match p kv with Ok b => b | _ => false end).
  destruct (erase_all_spec (fun kv => Ok (q kv)) q creds) as (it & c2 & -> & Hl & Hw2 & El); [done|done|lia|]. cbn [mbind outcome_bind].
  destruct (erase_loop _ p creds it []) as [[c1 l]| |] eqn:E; cbn [mbind outcome_bind]; try done. intros [= <-].
  apply (erase_loop_ext p (fun kv => Ok (q kv))) in E; [|intros kv b Hkv; unfold q; by rewrite Hkv]. rewrite Hl in E. injection E as <- _.
  rewrite (ht_map_filter _ creds c2 Hw Hw2 El). split; [split; [done|]|].
  - rewrite (hw_s c2 Hw2), El. rewrite (hw_s creds Hw) in Hs. unfold zlen in *. pose proof (length_filter (fun kc => q kc = false) (ht_list creds)). lia.
  - intros k c Hk. apply map_lookup_filter_Some in Hk as [Hk _]. by apply Hc.
Qed.
End OneTypeAny.

(** ** Any sequence of operations *)

Section Sequence.
Context `{Ops : C25519Ops} (getIdentity : Z -> Identity).

(** Credentials as deserialize() makes them, not dated far in the future. *)
Definition tag_ok (t : Tag) : Prop := tag_wf t /\ time_ok (tag_ts t).
Definition capability_ok (c : Capability) : Prop := (exists live, cap_wf c live) /\ time_ok (cap_ts c).
Definition ownership_ok (c : COO) : Prop := coo_wf c /\ time_ok (coo_ts c).

Inductive ms_op : Type :=
| AddCom (c : COM)
| AddTag (alloc : bool) (t : Tag)
| AddCapability (alloc : bool) (c : Capability)
| AddCoo (alloc : bool) (c : COO)
| AddRevocation (alloc : bool) (r : Revocation)
| Clean (nconf : NetworkConfig).

Definition op_ok (op : ms_op) : Prop :=
  match op with
  | AddCom c => com_wf c
  | AddTag _ t => tag_ok t
  | AddCapability _ c => capability_ok c
  | AddCoo _ c => ownership_ok c
  | AddRevocation _ r => revocation_wf r
  | Clean nconf => time_ok (nc_timestamp nconf)
  end.

Definition state_of (o : outcome (Membership * AddCredentialResult * list Z)) : outcome Membership := '(m, _, _) ← o; Ok m.

Definition ms_exec (m : Membership) (op : ms_op) : outcome Membership :=
  match op with
  | AddCom c => state_of (Membership_addCom getIdentity m c)
  | AddTag a t => state_of (Membership_addTag getIdentity m a t)
  | AddCapability a c => state_of (Membership_addCapability getIdentity m a c)
  | AddCoo a c => state_of (Membership_addCoo getIdentity m a c)
  | AddRevocation a r => state_of (Membership_addRevocation getIdentity m a r)
  | Clean nconf => Membership_clean m nconf
  end.
Fixpoint ms_run (m : Membership) (ops : list ms_op) : outcome Membership :=
  match ops with
  | [] => Ok m
  | op :: ops => m ← ms_exec m op; ms_run m ops
  end.

Record ms_inv (n : Z) (m : Membership) : Prop := {
  mi_revocations : table_ok n (ms_revocations m);
  mi_tags : table_ok n (ms_remoteTags m);
  mi_caps : table_ok n (ms_remoteCaps m);
  mi_coos : table_ok n (ms_remoteCoos m);
  mi_tags_ok : creds_ok getIdentity tag_ok (ht_map (ms_remoteTags m));
  mi_caps_ok : creds_ok getIdentity capability_ok (ht_map (ms_remoteCaps m));
  mi_coos_ok : creds_ok getIdentity ownership_ok (ht_map (ms_remoteCoos m));
  mi_com : com_wf (ms_com m);
  mi_com_ok : ms_com m = COM_empty \/ exists w, COM_verify getIdentity (ms_com m) = Ok (0, w)
}.

(** No threshold of [m] is lower in [m']. *)
Definition thresholds_kept (m m' : Membership) : Prop :=
  forall k t, ht_map (ms_revocations m) !! k = Some t -> exists t', ht_map (ms_revocations m') !! k = Some t' /\ t <= t'.

Lemma thresholds_kept_refl m m' : ms_revocations m' = ms_revocations m -> thresholds_kept m m'.
Proof. intros E k t Hk. exists t. rewrite E. split; [done|lia]. Qed.

(** *** verify() is defined *)

Lemma credential_verify_total {A} `{CredentialLaws A} (a : A) : cr_wf a -> exists v w, credential_verify getIdentity a = Ok (v, w).
Proof. intros Hw. rewrite credential_verify_spec by done. destruct (_ || _); [eauto|]. destruct (_ =? 0); eauto. Qed.

Lemma verify_custody_total tmp nwid cs : forall n prev, (n <= length cs)%nat -> exists v w, verify_custody getIdentity tmp n nwid prev cs = Ok (v, w).
Proof.
  induction cs as [|c cs IH]; intros [|n] prev Hn; cbn [length] in Hn; cbn [verify_custody]; [eauto|lia|eauto|].
  destruct (match prev with Some _ => _ | None => _ end); [eauto|]. cbv zeta. destruct (Identity_bool _); [|eauto]. destruct (negb _); [eauto|]. apply IH. lia.
Qed.

Lemma Capability_verify_total c live : cap_wf c live -> exists v w, Capability_verify getIdentity c = Ok (v, w).
Proof.
  intros Hw. unfold Capability_verify. destruct (_ || _); [eauto|]. rewrite (cap_signed_bytes_Ok c live Hw). apply verify_custody_total.
  rewrite (cpw_chain c live Hw). pose proof (cpw_max c live Hw). pose proof (cpw_live c live Hw). unfold chain, zlen in *. rewrite length_app, length_replicate. lia.
Qed.

Lemma COM_verify_total c : com_wf c -> exists v w, COM_verify getIdentity c = Ok (v, w).
Proof. intros Hw. rewrite COM_verify_spec by done. destruct (_ && _); [|eauto]. destruct (_ =? 0); eauto. Qed.

Lemma COM_timestamp_total c : com_wf c -> exists t, COM_timestamp c = Ok t.
Proof. intros Hw. unfold COM_timestamp. rewrite com_live_Ok by done. cbn. eauto. Qed.

Lemma COM_eqb_total a b : com_wf a -> com_wf b -> exists r, COM_eqb a b = Ok r.
Proof.
  intros Ha Hb. unfold COM_eqb. destruct (negb _); [eauto|]. destruct (negb _); [eauto|]. rewrite com_live_Ok by done. cbn [mbind outcome_bind].
  pose proof (cw_count a Ha). pose proof (cw_array b Hb). rewrite mem_read_Ok by (unfold zlen; lia). cbn [mbind outcome_bind]. destruct (bool_decide _); eauto.
Qed.

(** What the invariant asks of each type of credential. *)
Lemma tag_ok_time (t : Tag) : tag_ok t -> time_ok (mc_timestamp t).
Proof. intros H. apply H. Qed.
Lemma capability_ok_time (c : Capability) : capability_ok c -> time_ok (mc_timestamp c).
Proof. intros H. apply H. Qed.
Lemma ownership_ok_time (c : COO) : ownership_ok c -> time_ok (mc_timestamp c).
Proof. intros H. apply H. Qed.
Lemma tag_ok_verify (t : Tag) : tag_ok t -> exists v w, mc_verify getIdentity t = Ok (v, w).
Proof. intros [H _]. by apply (credential_verify_total (H := Tag_laws)). Qed.
Lemma capability_ok_verify (c : Capability) : capability_ok c -> exists v w, mc_verify getIdentity c = Ok (v, w).
Proof. intros [[l H] _]. by apply (Capability_verify_total c l). Qed.
Lemma ownership_ok_verify (c : COO) : ownership_ok c -> exists v w, mc_verify getIdentity c = Ok (v, w).
Proof. intros [H _]. by apply (credential_verify_total (H := COO_laws)). Qed.

(** *** Each operation keeps the invariant *)

Lemma with_creds_inv n m tags caps coos : ms_inv n m -> table_ok (n + 1) tags -> table_ok (n + 1) caps -> table_ok (n + 1) coos ->
  creds_ok getIdentity tag_ok (ht_map tags) -> creds_ok getIdentity capability_ok (ht_map caps) -> creds_ok getIdentity ownership_ok (ht_map coos) ->
  ms_inv (n + 1) (with_creds m tags caps coos) /\ thresholds_kept m (with_creds m tags caps coos).
Proof. intros Hi. intros. destruct Hi. split; [constructor; try done; (eapply table_ok_mono; [done|lia])|by apply thresholds_kept_refl]. Qed.

Lemma with_revocations_inv n m t revs : ms_inv n m -> table_ok (n + 1) revs -> ms_inv (n + 1) (with_revocations m t revs).
Proof. intros Hi Hr. destruct Hi. constructor; try done; (eapply table_ok_mono; [done|lia]). Qed.

Lemma inv_mono n m : ms_inv n m -> ms_inv (n + 1) m.
Proof. intros Hi. destruct Hi. constructor; try done; (eapply table_ok_mono; [done|lia]). Qed.

Lemma addCom_inv n m c : ms_inv n m -> com_wf c -> exists m', state_of (Membership_addCom getIdentity m c) = Ok m' /\ ms_inv (n + 1) m' /\ thresholds_kept m m'.
Proof.
  intros Hi Hc. pose proof (inv_mono n m Hi) as Hi1. assert (Hsame : exists m', Ok m = Ok m' /\ ms_inv (n + 1) m' /\ thresholds_kept m m') by (exists m; split_and!; [done..|by apply thresholds_kept_refl]).
  destruct (COM_timestamp_total c Hc) as [newts Hn], (COM_timestamp_total (ms_com m) (mi_com n m Hi)) as [oldts Ho], (COM_verify_total c Hc) as (v & w & Hv),
    (COM_eqb_total (ms_com m) c (mi_com n m Hi) Hc) as [e He]. unfold Membership_addCom. rewrite Hn. cbn [mbind outcome_bind]. destruct (_ <=? _); [done|].
  rewrite Ho. cbn [mbind outcome_bind]. destruct (newts <? oldts); [done|].
  assert (Hs : exists same, (if newts =? oldts then COM_eqb (ms_com m) c else Ok false) = Ok same) by (destruct (newts =? oldts); eauto). destruct Hs as [same ->]. cbn [mbind outcome_bind].
  destruct same; [done|]. rewrite Hv. cbn [mbind outcome_bind]. destruct (Z.eqb_spec v 0) as [->|]; [|by destruct (v =? 1)].
  exists (with_com m c). split; [done|]. split; [|by apply thresholds_kept_refl]. destruct Hi1. constructor; try done. cbn [with_com ms_com]. eauto.
Qed.

(** A verified revocation of a tag, a capability or a certificate of ownership. *)
Definition is_member_type (ct : Z) : bool := (ct =? CREDENTIAL_TYPE_CAPABILITY) || (ct =? CREDENTIAL_TYPE_TAG) || (ct =? CREDENTIAL_TYPE_COO).

Lemma addRevocation_spec n m alloc r w : n < 2 ^ 59 -> table_ok n (ms_revocations m) -> Revocation_verify getIdentity r = Ok (0, w) -> is_member_type (rev_type r) = true ->
  let k := credentialKey (rev_type r) (rev_credentialId r) in
  let old := default 0 (ht_map (ms_revocations m) !! k) in
  exists revs, Membership_addRevocation getIdentity m alloc r =
      Ok (with_revocations m (if old <? rev_threshold r then rev_threshold r else ms_comRevocationThreshold m) revs,
          if old <? rev_threshold r then ADD_ACCEPTED_NEW else ADD_ACCEPTED_REDUNDANT, w) /\
    table_ok (n + 1) revs /\ ht_map revs = <[k := Z.max old (rev_threshold r)]> (ht_map (ms_revocations m)).
Proof.
  intros Hn [Hw Hs] Hv Ht k old. unfold Membership_addRevocation. rewrite Hv. cbn [mbind outcome_bind]. change (0 =? 0) with true. cbv iota zeta.
  assert (Hc : (rev_type r =? CREDENTIAL_TYPE_COM) = false).
  { apply Z.eqb_neq. intros E. by rewrite E in Ht. }
  unfold is_member_type in Ht. rewrite Hc, Ht. fold k.
  destruct (Hashtable_index_spec 0 (ms_revocations m) k alloc Hw) as (revs & -> & Hw1 & Hm1 & Hs1); [lia|]. cbn [mbind outcome_bind]. fold old in Hm1 |- *.
  destruct (Z.ltb_spec old (rev_threshold r)).
  - destruct (Hashtable_store_spec revs k (rev_threshold r) Hw1) as (revs' & -> & Hw2 & Hm2); [lia|rewrite Hm1, lookup_insert_eq; eauto|]. cbn [mbind outcome_bind].
    exists revs'. split; [done|]. split; [split; [done|]|].
    + rewrite (ht_size revs' Hw2), Hm2, map_size_insert, Hm1, lookup_insert_eq. rewrite (ht_size revs Hw1), Hm1 in Hs1. unfold id. lia.
    + rewrite Hm2, Hm1, insert_insert_eq. f_equal. lia.
  - exists revs. split; [done|]. split; [split; [done|lia]|]. rewrite Hm1. f_equal. lia.
Qed.

Lemma addRevocation_inv n m alloc r : n < 2 ^ 59 -> ms_inv n m -> revocation_wf r ->
  exists m', state_of (Membership_addRevocation getIdentity m alloc r) = Ok m' /\ ms_inv (n + 1) m' /\ thresholds_kept m m'.
Proof.
  intros Hn Hi Hr. pose proof (inv_mono n m Hi) as Hi1.
  assert (Hsame : exists m', Ok m = Ok m' /\ ms_inv (n + 1) m' /\ thresholds_kept m m') by (exists m; split_and!; [done..|by apply thresholds_kept_refl]).
  destruct (credential_verify_total (H := Revocation_laws) r Hr) as (v & w & Hv). destruct (Z.eqb_spec v 0) as [->|Hv0].
  - destruct (is_member_type (rev_type r)) eqn:Et.
    + destruct (addRevocation_spec n m alloc r w Hn (mi_revocations n m Hi) Hv Et) as (revs & -> & Ht & Hm). cbn [mbind outcome_bind state_of]. eexists. split; [done|].
      split; [by apply with_revocations_inv|]. intros k t Hk. cbn [with_revocations ms_revocations]. rewrite Hm.
      destruct (decide (k = credentialKey (rev_type r) (rev_credentialId r))) as [->|Hne]; [|exists t; rewrite lookup_insert_ne by done; split; [done|lia]].
      eexists. rewrite lookup_insert_eq. split; [done|]. rewrite Hk. cbn. lia.
    + unfold Membership_addRevocation, Revocation_verify. rewrite Hv. cbn [mbind outcome_bind]. change (0 =? 0) with true. cbv iota zeta. unfold is_member_type in Et. rewrite Et.
      destruct (rev_type r =? CREDENTIAL_TYPE_COM); [|done]. destruct (_ <? _); [|done]. eexists. split; [done|].
      split; [by apply with_revocations_inv; [|apply Hi1]|by apply thresholds_kept_refl].
  - unfold Membership_addRevocation, Revocation_verify. rewrite Hv. cbn [mbind outcome_bind]. rewrite (proj2 (Z.eqb_neq v 0)) by done. by destruct (v =? 1).
Qed.

Lemma creds_ok_filter {A} `{MC : MemberCredential A} (ok : A -> Prop) (P : uint32 * A -> Prop) `{forall x, Decision (P x)} m : creds_ok getIdentity ok m -> creds_ok getIdentity ok (filter P m).
Proof. intros Hm k c Hk. apply map_lookup_filter_Some in Hk as [Hk _]. by apply Hm. Qed.

Lemma clean_inv n m nconf : n < 2 ^ 59 -> ms_inv n m -> time_ok (nc_timestamp nconf) -> exists m', Membership_clean m nconf = Ok m' /\ ms_inv (n + 1) m' /\ thresholds_kept m m'.
Proof.
  intros Hn Hi Ht. pose proof (mi_revocations n m Hi) as [Hw _]. unfold Membership_clean.
  destruct (cleanCredImpl_spec getIdentity tag_ok tag_ok_time n _ (ms_revocations m) nconf Hn (mi_tags n m Hi) Hw (mi_tags_ok n m Hi) Ht) as (tags & -> & Ht1 & Hm1).
  destruct (cleanCredImpl_spec getIdentity capability_ok capability_ok_time n _ (ms_revocations m) nconf Hn (mi_caps n m Hi) Hw (mi_caps_ok n m Hi) Ht) as (caps & -> & Ht2 & Hm2).
  destruct (cleanCredImpl_spec getIdentity ownership_ok ownership_ok_time n _ (ms_revocations m) nconf Hn (mi_coos n m Hi) Hw (mi_coos_ok n m Hi) Ht) as (coos & -> & Ht3 & Hm3).
  cbn [mbind outcome_bind]. eexists. split; [done|]. apply with_creds_inv; [done|(eapply table_ok_mono; [done|lia])..| | |]; rewrite ?Hm1, ?Hm2, ?Hm3; apply creds_ok_filter; apply Hi.
Qed.

Lemma ms_exec_inv n m op : n < 2 ^ 59 -> ms_inv n m -> op_ok op -> exists m', ms_exec m op = Ok m' /\ ms_inv (n + 1) m' /\ thresholds_kept m m'.
Proof.
  intros Hn Hi Ho. pose proof Hi as [[Hr Hrs] Ht Hca Hco Hto Hcao Hcoo _ _]. destruct op as [c|a t|a c|a c|a r|nconf]; cbn [ms_exec op_ok] in *.
  - by apply addCom_inv.
  - destruct (addCredImpl_ok getIdentity tag_ok tag_ok_verify n _ (ms_revocations m) a t Hn Ht Hr Hto Ho) as (h & r & w & E & H1 & H2).
    unfold Membership_addTag. rewrite E. cbn [mbind outcome_bind state_of]. eexists. split; [done|]. apply with_creds_inv; try done; (eapply table_ok_mono; [done|lia]).
  - destruct (addCredImpl_ok getIdentity capability_ok capability_ok_verify n _ (ms_revocations m) a c Hn Hca Hr Hcao Ho)
      as (h & r & w & E & H1 & H2). unfold Membership_addCapability. rewrite E. cbn [mbind outcome_bind state_of]. eexists. split; [done|].
    apply with_creds_inv; try done; (eapply table_ok_mono; [done|lia]).
  - destruct (addCredImpl_ok getIdentity ownership_ok ownership_ok_verify n _ (ms_revocations m) a c Hn Hco Hr Hcoo Ho) as (h & r & w & E & H1 & H2).
    unfold Membership_addCoo. rewrite E. cbn [mbind outcome_bind state_of]. eexists. split; [done|]. apply with_creds_inv; try done; (eapply table_ok_mono; [done|lia]).
  - by apply addRevocation_inv.
  - by apply clean_inv.
Qed.

Lemma thresholds_kept_trans a b c : thresholds_kept a b -> thresholds_kept b c -> thresholds_kept a c.
Proof. intros H1 H2 k t Hk. destruct (H1 k t Hk) as (t1 & Hk1 & ?). destruct (H2 k t1 Hk1) as (t2 & Hk2 & ?). exists t2. split; [done|lia]. Qed.

Lemma ms_run_inv ops : forall n m, n + zlen ops < 2 ^ 59 -> ms_inv n m -> Forall op_ok ops -> exists m', ms_run m ops = Ok m' /\ ms_inv (n + zlen ops) m' /\ thresholds_kept m m'.
Proof.
  induction ops as [|op ops IH]; intros n m Hn Hi Ho; [exists m; rewrite Z.add_0_r; split_and!; [done..|by apply thresholds_kept_refl]|].
  apply Forall_cons in Ho as [Ho Hos]. assert (Hz : zlen (op :: ops) = zlen ops + 1) by (unfold zlen; cbn [length]; lia). rewrite Hz in *. pose proof (zlen_nonneg ops).
  cbn [ms_run]. destruct (ms_exec_inv n m op ltac:(lia) Hi Ho) as (m1 & -> & Hi1 & Hk1). cbn [mbind outcome_bind].
  destruct (IH (n + 1) m1 ltac:(lia) Hi1 Hos) as (m2 & -> & Hi2 & Hk2). exists m2. replace (n + (zlen ops + 1)) with (n + 1 + zlen ops) by lia.
  split_and!; [done..|]. by eapply thresholds_kept_trans.
Qed.

Lemma ms_run_app ops1 ops2 : forall m, ms_run m (ops1 ++ ops2) = (m ← ms_run m ops1; ms_run m ops2).
Proof. induction ops1 as [|op ops1 IH]; intros m; [done|]. cbn [app ms_run]. destruct (ms_exec m op) as [m1| |]; [apply IH|done..]. Qed.

Lemma Membership_new_inv : ms_inv 0 Membership_new.
Proof.
  assert (Hcom : com_wf COM_empty).
  { constructor; [done|by apply Forall_replicate|done|constructor|done|split; [done|by apply Forall_replicate]]. }
  constructor; cbn [Membership_new ms_revocations ms_remoteTags ms_remoteCaps ms_remoteCoos ms_com]; try apply new_table_ok; try done; try (by left);
    (intros k c; rewrite (proj2 new_table_ok), lookup_empty; done).
Qed.
End Sequence.

(** ** Any credentials at all *)

Section Any.
Context `{Ops : C25519Ops} (getIdentity : Z -> Identity) (sent : list ms_op).

(** The tags of the table are tags that were sent. *)
Definition tag_sent (t : Tag) : Prop := exists alloc, AddTag alloc t ∈ sent.

Record ms_any (n : Z) (m : Membership) : Prop := {
  ma_revocations : table_ok n (ms_revocations m);
  ma_tags : table_ok n (ms_remoteTags m);
  ma_caps : table_ok n (ms_remoteCaps m);
  ma_coos : table_ok n (ms_remoteCoos m);
  ma_tags_ok : creds_ok getIdentity tag_sent (ht_map (ms_remoteTags m));
  ma_caps_ok : creds_ok getIdentity (fun _ => True) (ht_map (ms_remoteCaps m));
  ma_coos_ok : creds_ok getIdentity (fun _ => True) (ht_map (ms_remoteCoos m))
}.

Lemma any_mono n m m' : ms_any n m -> ms_revocations m' = ms_revocations m -> ms_remoteTags m' = ms_remoteTags m -> ms_remoteCaps m' = ms_remoteCaps m ->
  ms_remoteCoos m' = ms_remoteCoos m -> ms_any (n + 1) m' /\ thresholds_kept m m'.
Proof.
  intros Hi Er E1 E2 E3. split; [|by apply thresholds_kept_refl]. destruct Hi.
  constructor; rewrite ?Er, ?E1, ?E2, ?E3; try done; (eapply table_ok_mono; [done|lia]).
Qed.

Lemma any_with_creds n m tags caps coos : ms_any n m -> table_ok (n + 1) tags -> table_ok (n + 1) caps -> table_ok (n + 1) coos ->
  creds_ok getIdentity tag_sent (ht_map tags) -> creds_ok getIdentity (fun _ => True) (ht_map caps) -> creds_ok getIdentity (fun _ => True) (ht_map coos) ->
  ms_any (n + 1) (with_creds m tags caps coos) /\ thresholds_kept m (with_creds m tags caps coos).
Proof. intros Hi. intros. destruct Hi. split; [constructor; try done; (eapply table_ok_mono; [done|lia])|by apply thresholds_kept_refl]. Qed.

Lemma addCom_any n m c m' : ms_any n m -> state_of (Membership_addCom getIdentity m c) = Ok m' -> ms_any (n + 1) m' /\ thresholds_kept m m'.
Proof.
  intros Hi E. assert (Hm : m' = m \/ m' = with_com m c).
  { revert E. unfold Membership_addCom. destruct (COM_timestamp c) as [newts| |]; try done. cbn [mbind outcome_bind]. destruct (_ <=? _); [intros [= <-]; by left|].
    destruct (COM_timestamp (ms_com m)) as [oldts| |]; try done. cbn [mbind outcome_bind]. destruct (newts <? oldts); [intros [= <-]; by left|].
    destruct (if newts =? oldts then _ else _) as [[]| |]; try done; cbn [mbind outcome_bind]; [intros [= <-]; by left|].
    destruct (COM_verify getIdentity c) as [[v w]| |]; try done. cbn [mbind outcome_bind]. destruct (v =? 0); [intros [= <-]; by right|]. destruct (v =? 1); intros [= <-]; by left. }
  apply (any_mono n m m' Hi); by destruct Hm as [-> | ->].
Qed.

Lemma addRevocation_any n m alloc r m' : n < 2 ^ 59 -> ms_any n m -> state_of (Membership_addRevocation getIdentity m alloc r) = Ok m' -> ms_any (n + 1) m' /\ thresholds_kept m m'.
Proof.
  intros Hn Hi E. destruct (Revocation_verify getIdentity r) as [[v w]| |] eqn:Hv; [|by unfold Membership_addRevocation in E; rewrite Hv in E..].
  destruct (is_member_type (rev_type r)) eqn:Et; [destruct (Z.eqb_spec v 0) as [->|Hv0]|].
  - destruct (addRevocation_spec getIdentity n m alloc r w Hn (ma_revocations n m Hi) Hv Et) as (revs & Er & Ht & Hm). rewrite Er in E. injection E as <-. split.
    + destruct Hi. constructor; try done; (eapply table_ok_mono; [done|lia]).
    + intros k t Hk. cbn [with_revocations ms_revocations]. rewrite Hm.
      destruct (decide (k = credentialKey (rev_type r) (rev_credentialId r))) as [->|Hne]; [|exists t; rewrite lookup_insert_ne by done; split; [done|lia]].
      eexists. rewrite lookup_insert_eq. split; [done|]. rewrite Hk. cbn. lia.
  - revert E. unfold Membership_addRevocation. rewrite Hv. cbn [mbind outcome_bind]. rewrite (proj2 (Z.eqb_neq v 0)) by done.
    destruct (v =? 1); intros [= <-]; by apply (any_mono n m m Hi).
  - revert E. unfold Membership_addRevocation. rewrite Hv. cbn [mbind outcome_bind]. cbv zeta. unfold is_member_type in Et. rewrite Et.
    destruct (v =? 0); [destruct (_ =? CREDENTIAL_TYPE_COM); [destruct (_ <? _)|]|destruct (v =? 1)]; intros [= <-]; by apply (any_mono n m _ Hi).
Qed.

Lemma ms_exec_any n m op m' : n < 2 ^ 59 -> ms_any n m -> op ∈ sent -> ms_exec getIdentity m op = Ok m' -> ms_any (n + 1) m' /\ thresholds_kept m m'.
Proof.
  intros Hn Hi Hin. pose proof Hi as [[Hr Hrs] Ht Hca Hco Hto Hcao Hcoo]. destruct op as [c|a t|a c|a c|a r|nconf]; cbn [ms_exec].
  - by apply addCom_any.
  - unfold Membership_addTag. destruct (addCredImpl _ _ _ _ t) as [[[h r] w]| |] eqn:E; try done. intros [= <-].
    apply (addCredImpl_defined getIdentity tag_sent n) in E as [H1 H2]; [|done..|by exists a]. apply any_with_creds; try done; (eapply table_ok_mono; [done|lia]).
  - unfold Membership_addCapability. destruct (addCredImpl _ _ _ _ c) as [[[h r] w]| |] eqn:E; try done. intros [= <-].
    apply (addCredImpl_defined getIdentity (fun _ => True) n) in E as [H1 H2]; [|done..]. apply any_with_creds; try done; (eapply table_ok_mono; [done|lia]).
  - unfold Membership_addCoo. destruct (addCredImpl _ _ _ _ c) as [[[h r] w]| |] eqn:E; try done. intros [= <-].
    apply (addCredImpl_defined getIdentity (fun _ => True) n) in E as [H1 H2]; [|done..]. apply any_with_creds; try done; (eapply table_ok_mono; [done|lia]).
  - by apply addRevocation_any.
  - unfold Membership_clean. destruct (cleanCredImpl _ _ (ms_remoteTags m)) as [tags| |] eqn:E1; try done. cbn [mbind outcome_bind].
    destruct (cleanCredImpl _ _ (ms_remoteCaps m)) as [caps| |] eqn:E2; try done. cbn [mbind outcome_bind].
    destruct (cleanCredImpl _ _ (ms_remoteCoos m)) as [coos| |] eqn:E3; try done. intros [= <-].
    apply (cleanCredImpl_defined getIdentity tag_sent n) in E1 as [? ?]; [|done..]. apply (cleanCredImpl_defined getIdentity (fun _ => True) n) in E2 as [? ?]; [|done..].
    apply (cleanCredImpl_defined getIdentity (fun _ => True) n) in E3 as [? ?]; [|done..]. apply any_with_creds; try done; (eapply table_ok_mono; [done|lia]).
Qed.

Lemma ms_run_any ops : forall n m m', n + zlen ops < 2 ^ 59 -> ms_any n m -> ops ⊆ sent -> ms_run getIdentity m ops = Ok m' -> ms_any (n + zlen ops) m' /\ thresholds_kept m m'.
Proof.
  induction ops as [|op ops IH]; intros n m m' Hn Hi Hin; cbn [ms_run]; [intros [= <-]; rewrite Z.add_0_r; split; [done|by apply thresholds_kept_refl]|].
  assert (Hz : zlen (op :: ops) = zlen ops + 1) by (unfold zlen; cbn [length]; lia). rewrite Hz in *. pose proof (zlen_nonneg ops).
  destruct (ms_exec getIdentity m op) as [m1| |] eqn:E; try done. cbn [mbind outcome_bind]. intros Er.
  apply (ms_exec_any n) in E as [Hi1 Hk1]; [|lia|done|apply Hin; by left].
  destruct (IH (n + 1) m1 m') as [Hi2 Hk2]; [lia|done|intros x Hx; apply Hin; by right|done|]. replace (n + (zlen ops + 1)) with (n + 1 + zlen ops) by lia.
  split; [done|]. by eapply thresholds_kept_trans.
Qed.

Lemma new_any : ms_any 0 Membership_new.
Proof.
  constructor; cbn [Membership_new ms_revocations ms_remoteTags ms_remoteCaps ms_remoteCoos]; try apply new_table_ok; (intros k c; rewrite (proj2 new_table_ok), lookup_empty; done).
Qed.

(** What getTag gives was sent, was verified, and is in time. *)
Lemma getTag_any n m nconf id t : ms_any n m -> Membership_getTag m nconf id = Ok (Some t) ->
  tag_id t = id /\ tag_sent t /\ (exists w, Tag_verify getIdentity t = Ok (0, w)) /\ Z.abs (tag_ts t - nc_timestamp nconf) <= nc_credentialTimeMaxDelta nconf /\
  forall threshold, ht_map (ms_revocations m) !! credentialKey CREDENTIAL_TYPE_TAG id = Some threshold -> threshold < tag_ts t.
Proof.
  intros Hi. unfold Membership_getTag. rewrite Hashtable_get_spec by apply Hi. cbn [mbind outcome_bind]. destruct (ht_map (ms_remoteTags m) !! U32 id) as [t'|] eqn:E; [|done].
  destruct (isCredentialTimestampValid (ms_revocations m) nconf t') as [[]| |] eqn:Ev; try done. cbn [mbind outcome_bind]. intros [= ->].
  destruct (ma_tags_ok n m Hi _ _ E) as ([= Hid] & Hsent & Hv). cbn in Hid. split_and!; [done..| |]; revert Ev; unfold isCredentialTimestampValid; cbv zeta;
    (destruct (if nc_timestamp nconf <=? mc_timestamp t then _ else _) as [d| |] eqn:Ed; try done); cbn [mbind outcome_bind]; (destruct (Z.leb_spec d (nc_credentialTimeMaxDelta nconf)); [|done]).
  - intros _. cbn in Ed. unfold sub_s64 in Ed. destruct (Z.leb_spec (nc_timestamp nconf) (tag_ts t)); destruct (_ && _); try done; injection Ed as <-; lia.
  - rewrite Hashtable_get_spec by apply Hi. cbn [mbind outcome_bind]. intros [= Hb] thr Hthr. cbn in Hb. rewrite <- Hid in Hb. rewrite Hthr in Hb. by apply Z.ltb_lt.
Qed.
End Any.

(** ** Queries of a reachable state *)

Section Reachable.
Context `{Ops : C25519Ops} (getIdentity : Z -> Identity).

Lemma getTag_spec n m nconf id : ms_inv getIdentity n m -> time_ok (nc_timestamp nconf) ->
  Membership_getTag m nconf id = Ok (match ht_map (ms_remoteTags m) !! U32 id with
    | Some t => if timestamp_valid (ht_map (ms_revocations m)) nconf t then Some t else None
    | None => None end).
Proof.
  intros Hi Ht. unfold Membership_getTag. rewrite Hashtable_get_spec by apply Hi. cbn [mbind outcome_bind]. destruct (ht_map (ms_remoteTags m) !! U32 id) as [t|] eqn:E; [|done].
  rewrite isCredentialTimestampValid_spec; [done|apply Hi|done|]. apply tag_ok_time. by eapply (mi_tags_ok getIdentity n m Hi).
Qed.

Lemma hasCertificateOfOwnershipFor_spec n m nconf owns (own : COO -> bool) : ms_inv getIdentity n m -> time_ok (nc_timestamp nconf) ->
  (forall c, coo_wf c -> owns c = Ok (own c)) ->
  Membership_hasCertificateOfOwnershipFor m nconf owns =
    Ok (existsb (fun kc => timestamp_valid (ht_map (ms_revocations m)) nconf kc.2 && own kc.2) (ht_list (ms_remoteCoos m))).
Proof.
  intros Hi Ht Ho. unfold Membership_hasCertificateOfOwnershipFor. pose proof (mi_coos getIdentity n m Hi) as [Hw Hs].
  destruct (Iterator_new_at _ Hw) as (it & -> & Hat). cbn [mbind outcome_bind]. set (q := fun kc : uint32 * COO => timestamp_valid (ht_map (ms_revocations m)) nconf kc.2 && own kc.2).
  destruct (find_loop_spec (fun kv => v ← isCredentialTimestampValid (ms_revocations m) nconf kv.2; if (v : bool) then owns kv.2 else Ok false) q (ms_remoteCoos m) (ht_list (ms_remoteCoos m)) Hw)
    with (fuel := S (Z.to_nat (ht_s (ms_remoteCoos m)))) (it := it) as (it' & -> & _); [|done|rewrite (hw_s _ Hw); unfold zlen; lia|].
  - intros [k c] Hin. apply ht_map_lookup in Hin; [|done]. destruct (mi_coos_ok getIdentity n m Hi k c Hin) as (_ & [Hc Htc] & _). cbn [snd].
    rewrite isCredentialTimestampValid_spec by (done || apply Hi). cbn [mbind outcome_bind]. unfold q. cbn [snd]. destruct (timestamp_valid _ _ _); [by rewrite Ho|done].
  - cbn [mbind outcome_bind]. f_equal. clear Hat. generalize (ht_list (ms_remoteCoos m)). intros l. induction l as [|kc l IH]; [done|]. cbn [List.find existsb]. by destruct (q kc).
Qed.
End Reachable.

(** ** Properties *)

(** C13: Whatever credentials a member sends, in whatever order, and whatever they hold: a tag that is
    found for an ID is one that was sent, was verified, has that ID, is recent and is not revoked.
    And where the credentials are such that their checks stay in their arrays (certificates of
    ownership of at most sixteen things, sorted certificates of membership, times below 2^62),
    every operation and the search have a result. *)
Theorem Membership_sound `{C25519Ops} getIdentity ops nconf id :
  zlen ops < 2 ^ 59 ->
  (forall m t, ms_run getIdentity Membership_new ops = Ok m -> Membership_getTag m nconf id = Ok (Some t) ->
    tag_id t = id /\ (exists alloc, AddTag alloc t ∈ ops) /\ (exists w, Tag_verify getIdentity t = Ok (0, w)) /\
    Z.abs (tag_ts t - nc_timestamp nconf) <= nc_credentialTimeMaxDelta nconf /\
    forall threshold, Hashtable_get (ms_revocations m) (credentialKey CREDENTIAL_TYPE_TAG id) = Ok (Some threshold) -> threshold < tag_ts t) /\
  (Forall op_ok ops -> time_ok (nc_timestamp nconf) -> exists m r, ms_run getIdentity Membership_new ops = Ok m /\ Membership_getTag m nconf id = Ok r).
Proof.
  intros Hl. split.
  - intros m t Hm Hg. destruct (ms_run_any getIdentity ops ops 0 Membership_new m ltac:(lia) (new_any getIdentity ops) ltac:(done) Hm) as [Hi _].
    destruct (getTag_any getIdentity ops _ m nconf id t Hi Hg) as (H1 & H2 & H3 & H4 & H5). split_and!; [done..|].
    intros thr. rewrite Hashtable_get_spec by apply Hi. intros [= Hthr]. by apply H5.
  - intros Ho Ht. destruct (ms_run_inv getIdentity ops 0 Membership_new ltac:(lia) (Membership_new_inv getIdentity) Ho) as (m & Hm & Hi & _).
    exists m. eexists. split; [done|]. by eapply getTag_spec.
Qed.

(** C14: What is revoked stays revoked: after a revocation for a tag no tag with that ID is found
    that is not newer, whatever came before and whatever comes later; with credentials whose
    checks stay in their arrays there is always an answer. *)
Theorem Membership_revocation_lasts `{C25519Ops} getIdentity ops1 alloc rev w ops2 nconf :
  zlen ops1 + zlen ops2 < 2 ^ 58 -> Revocation_verify getIdentity rev = Ok (0, w) -> rev_type rev = CREDENTIAL_TYPE_TAG ->
  (forall m t, ms_run getIdentity Membership_new (ops1 ++ AddRevocation alloc rev :: ops2) = Ok m ->
    Membership_getTag m nconf (rev_credentialId rev) = Ok (Some t) -> rev_threshold rev < tag_ts t) /\
  (Forall op_ok (ops1 ++ AddRevocation alloc rev :: ops2) -> time_ok (nc_timestamp nconf) ->
    exists m r, ms_run getIdentity Membership_new (ops1 ++ AddRevocation alloc rev :: ops2) = Ok m /\ Membership_getTag m nconf (rev_credentialId rev) = Ok r).
Proof.
  intros Hl Hv Hty. pose proof (zlen_nonneg ops1). pose proof (zlen_nonneg ops2). set (ops := ops1 ++ AddRevocation alloc rev :: ops2). split.
  - intros m t. unfold ops at 1. rewrite ms_run_app. destruct (ms_run getIdentity Membership_new ops1) as [m1| |] eqn:E1; try done. cbn [mbind outcome_bind ms_run ms_exec].
    destruct (ms_run_any getIdentity ops ops1 0 Membership_new m1 ltac:(lia) (new_any getIdentity ops)) as [Hi1 _]; [intros x Hx; apply elem_of_app; by left|done|].
    destruct (addRevocation_spec getIdentity (0 + zlen ops1) m1 alloc rev w ltac:(lia) (ma_revocations _ _ _ m1 Hi1) Hv ltac:(by rewrite Hty)) as (revs & E & _ & Hm).
    destruct (state_of _) as [m2| |] eqn:E2; try done. cbn [mbind outcome_bind]. intros E3 Hg.
    destruct (addRevocation_any getIdentity ops (0 + zlen ops1) m1 alloc rev m2 ltac:(lia) Hi1 E2) as [Hi2 _].
    destruct (ms_run_any getIdentity ops ops2 (0 + zlen ops1 + 1) m2 m ltac:(lia) Hi2) as [Hi3 Hk3]; [intros x Hx; apply elem_of_app; right; by right|done|].
    rewrite E in E2. injection E2 as <-. destruct (Hk3 (credentialKey (rev_type rev) (rev_credentialId rev)) (Z.max (default 0 (ht_map (ms_revocations m1) !! credentialKey (rev_type rev) (rev_credentialId rev))) (rev_threshold rev)))
      as (t3 & Ht3 & Hle3); [cbn [with_revocations ms_revocations]; by rewrite Hm, lookup_insert_eq|].
    destruct (getTag_any getIdentity ops _ m nconf _ t Hi3 Hg) as (_ & _ & _ & _ & H5). rewrite Hty in Ht3. specialize (H5 _ Ht3). lia.
  - intros Ho Ht. destruct (ms_run_inv getIdentity ops 0 Membership_new) as (m & Hm & Hi & _); [|apply Membership_new_inv|done|].
    { unfold ops, zlen in *. rewrite length_app. cbn [length]. lia. }
    exists m. eexists. split; [done|]. by eapply getTag_spec.
Qed.

(** The revocation of a tag, a capability or a certificate of ownership also sets the threshold
    for the certificate of membership, whatever it was: a member whose certificate had been
    revoked is on the network again when the new threshold is lower than the old one. *)
Theorem Membership_revocation_readmits `{C25519Ops} getIdentity n m alloc rev w :
  n < 2 ^ 59 -> table_ok n (ms_revocations m) -> Revocation_verify getIdentity rev = Ok (0, w) -> is_member_type (rev_type rev) = true ->
  ht_map (ms_revocations m) !! credentialKey (rev_type rev) (rev_credentialId rev) = None -> 0 < rev_threshold rev ->
  exists m', Membership_addRevocation getIdentity m alloc rev = Ok (m', ADD_ACCEPTED_NEW, w) /\ ms_comRevocationThreshold m' = rev_threshold rev /\
    forall nconf ts, NetworkConfig_isPublic nconf = false -> COM_timestamp (ms_com m) = Ok ts -> rev_threshold rev < ts <= ms_comRevocationThreshold m ->
      Membership_isAllowedOnNetwork m nconf = Ok false /\ Membership_isAllowedOnNetwork m' nconf = COM_agreesWith (nc_com nconf) (ms_com m).
Proof.
  intros Hn Hi Hv Ht Hk Hpos. destruct (addRevocation_spec getIdentity n m alloc rev w Hn Hi Hv Ht) as (revs & E & _ & _).
  rewrite Hk in E. cbn [default] in E. rewrite (proj2 (Z.ltb_lt _ _)) in E by done. eexists. split; [exact E|]. split; [done|]. intros nconf ts Hp Hts Hrange.
  unfold Membership_isAllowedOnNetwork. rewrite Hp. cbn [with_revocations ms_com ms_comRevocationThreshold]. rewrite Hts. cbn [mbind outcome_bind].
  by rewrite (proj2 (Z.leb_le _ _)), (proj2 (Z.leb_gt _ _)) by lia.
Qed.

(** *** Instances *)

Section Witnesses.
Import Toy.

(** A network of [Samples.signer]'s, one of its tags and its revocation. *)
Definition sample_nconf : NetworkConfig :=
  mkNetworkConfig 0x1122334455667788 2000 5000 1 0x42 0 0 0 2800 32 [] [] [] [] [] [] [] ZT_NETWORK_TYPE_PRIVATE [] (COM_new 3000 60 0x1122334455667788 0x42).
(** The sample tag, signed. *)
Definition signed_tag : Tag := match credential_sign Samples.tag Samples.signer with Ok (t, _) => t | _ => Samples.tag end.
Definition sample_ops : list ms_op := [AddTag true signed_tag; Clean sample_nconf; AddTag false signed_tag].

Lemma signed_tag_wf : tag_wf signed_tag.
Proof.
  destruct (credential_sign_verifies (Laws := Tag_laws) (Shape := toy_shape) (fun _ => Samples.signer) Samples.tag Samples.signer (replicate 64 7))
    as (t & E & Hw & _); [apply Samples.tag_ok|done|done|apply toy_accepts|done..|]. unfold signed_tag. by rewrite E.
Qed.

Lemma sample_ops_ok : Forall op_ok sample_ops.
Proof.
  assert (Ht : tag_ok signed_tag) by (split; [apply signed_tag_wf|split; [vm_compute; discriminate|vm_compute; reflexivity]]).
  apply Forall_cons. split; [exact Ht|]. apply Forall_cons. split; [done|]. apply Forall_cons. split; [exact Ht|]. apply Forall_nil. exact I.
Qed.

Lemma sample_revocation : exists rev, revocation_wf rev /\ Revocation_verify (fun _ => Samples.signer) rev = Ok (0, []) /\
  rev_type rev = CREDENTIAL_TYPE_TAG /\ rev_threshold rev = 1000 /\ rev_credentialId rev = 2.
Proof.
  destruct (credential_sign_verifies (Laws := Revocation_laws) (Shape := toy_shape) (fun _ => Samples.signer) Samples.revocation Samples.signer (replicate 64 7))
    as (rev & _ & Hw & Heq & _ & Hv); [apply Samples.revocation_ok|done|done|apply toy_accepts|done..|].
  exists rev. rewrite Heq. split_and!; [by rewrite <- Heq|rewrite <- Heq; by apply Hv|done..].
Qed.

(** The tag is sent, survives a cleaning, is sent again and is found. *)
Lemma Membership_sound_witness :
  exists m, ms_run (fun _ => Samples.signer) Membership_new sample_ops = Ok m /\ Membership_getTag m sample_nconf 1 = Ok (Some signed_tag) /\
    exists w, Tag_verify (fun _ => Samples.signer) signed_tag = Ok (0, w).
Proof.
  destruct (Membership_sound (fun _ => Samples.signer) sample_ops sample_nconf 1) as [H1 H2]; [done|].
  destruct H2 as (m & r & Hm & Hr); [apply sample_ops_ok|done|]. exists m. split; [exact Hm|].
  assert (Hg : Membership_getTag m sample_nconf 1 = Ok (Some signed_tag)).
  { revert Hm. destruct (ms_run _ _ _) as [m'| |] eqn:E; [|discriminate..]. vm_compute in E. injection E as <-. intros [= <-]. vm_compute. reflexivity. }
  split; [exact Hg|]. by destruct (H1 m signed_tag Hm Hg) as (_ & _ & H & _).
Defined.

(** The revocation of the sample tag, signed. *)
Definition tag_revocation : Revocation :=
  match credential_sign (mkRevocation 1 1 0x1122334455667788 1000 1 0x99 0 3 (replicate 96 0)) Samples.signer with Ok (r, _) => r | _ => Samples.revocation end.

Lemma tag_revocation_ok : revocation_wf tag_revocation /\ Revocation_verify (fun _ => Samples.signer) tag_revocation = Ok (0, []).
Proof.
  destruct (credential_sign_verifies (Laws := Revocation_laws) (Shape := toy_shape) (fun _ => Samples.signer) (mkRevocation 1 1 0x1122334455667788 1000 1 0x99 0 3 (replicate 96 0)) Samples.signer (replicate 64 7))
    as (r & E & Hw & _ & _ & Hv); [split; try done; apply Samples.sig_ok|done|done|apply toy_accepts|done..|]. unfold tag_revocation. rewrite E. split; [exact Hw|]. by apply Hv.
Qed.

(** The tag of 1000 is not found after its revocation at 1000 though it is sent again. *)
Lemma Membership_revocation_lasts_witness :
  exists m r, ms_run (fun _ => Samples.signer) Membership_new (sample_ops ++ AddRevocation true tag_revocation :: sample_ops) = Ok m /\
    Membership_getTag m sample_nconf 1 = Ok r /\ r <> Some signed_tag.
Proof.
  destruct (Membership_revocation_lasts (fun _ => Samples.signer) sample_ops true tag_revocation [] sample_ops sample_nconf) as [H1 H2];
    [done|apply tag_revocation_ok|vm_compute; reflexivity|].
  destruct H2 as (m & r & Hm & Hr); [apply Forall_app; split; [apply sample_ops_ok|constructor; [apply tag_revocation_ok|apply sample_ops_ok]]|done|].
  exists m, r. split_and!; [exact Hm|exact Hr|]. intros ->. pose proof (H1 m signed_tag Hm Hr) as H. vm_compute in H. discriminate.
Defined.

(** Revoked at 5000, the certificate of 3000 is good again after a tag was revoked at 1000. *)
Lemma Membership_revocation_readmits_witness :
  let m := mkMembership 0 0 5000 (COM_new 3000 60 0x1122334455667788 0x42) new_table new_table new_table new_table [] [] [] in
  exists rev m' r, Membership_isAllowedOnNetwork m sample_nconf = Ok false /\ Membership_addRevocation (fun _ => Samples.signer) m true rev = Ok (m', r, []) /\
    Membership_isAllowedOnNetwork m' sample_nconf = Ok true.
Proof.
  intros m. destruct sample_revocation as (rev & Hw & Hv & Ht & Hthr & Hid).
  destruct (Membership_revocation_readmits (fun _ => Samples.signer) 0 m true rev []) as (m' & H1 & _ & H2);
    [done|apply new_table_ok|done|by rewrite Ht|unfold m; cbn [ms_revocations]; rewrite (proj2 new_table_ok); apply lookup_empty|by rewrite Hthr|].
  destruct (H2 sample_nconf 3000) as [H3 H4]; [done|done|rewrite Hthr; done|].
  exists rev, m', ADD_ACCEPTED_NEW. split_and!; [exact H3|exact H1|rewrite H4; reflexivity].
Defined.
End Witnesses.
