(* ===== verification/NetworkFilter.v ===== *)
(** The rules engine of a network: the anonymous namespace of node/Network.cpp, with
    Node::prng of node/Node.cpp and the rule log of node/Trace.hpp.

    [doZtFilter] runs a list of rules over a frame; [fr_data] is exactly the memory of the
    frame.  A rule holds one member of the union of its C type, and reading another one is not
    modelled ([Undef]); [deserializeRules] makes rules of which this does not happen. *)
From Stdlib Require Import Sorting.Sorted.
From S2P Require Import Prelude.
From S2P Require Import Utils.
From S2P Require Import Buffer.
From S2P Require Import Addressing.
From S2P Require Import InetAddress.
From S2P Require Import Hashtable.
From S2P Require Import Rules.
From S2P Require Import C25519Api.
From S2P Require Import Identity.
From S2P Require Import CertificateOfMembership.
From S2P Require Import Credentials.
From S2P Require Import Capability.
From S2P Require Import NetworkConfig.
From S2P Require Import Membership.

Definition ZT_ETHERTYPE_IPV4 : Z := 0x0800.
Definition ZT_ETHERTYPE_ARP : Z := 0x0806.
Definition ZT_ETHERTYPE_IPV6 : Z := 0x86dd.
Definition ZT_RULE_PACKET_CHARACTERISTICS_INBOUND : Z := 0x8000000000000000.
Definition ZT_RULE_PACKET_CHARACTERISTICS_MULTICAST : Z := 0x4000000000000000.
Definition ZT_RULE_PACKET_CHARACTERISTICS_BROADCAST : Z := 0x2000000000000000.
Definition ZT_RULE_PACKET_CHARACTERISTICS_SENDER_IP_AUTHENTICATED : Z := 0x1000000000000000.
Definition ZT_RULE_PACKET_CHARACTERISTICS_SENDER_MAC_AUTHENTICATED : Z := 0x0800000000000000.

Definition ZT_NETWORK_RULE_MATCH_SOURCE_ZEROTIER_ADDRESS : Z := 24.
Definition ZT_NETWORK_RULE_MATCH_MAC_SOURCE : Z := 29.
Definition ZT_NETWORK_RULE_MATCH_IPV4_SOURCE : Z := 31.
Definition ZT_NETWORK_RULE_MATCH_IPV6_SOURCE : Z := 33.
Definition ZT_NETWORK_RULE_MATCH_IP_DEST_PORT_RANGE : Z := 40.
Definition ZT_NETWORK_RULE_MATCH_TAGS_DIFFERENCE : Z := 44.
Definition ZT_NETWORK_RULE_MATCH_TAGS_BITWISE_AND : Z := 45.
Definition ZT_NETWORK_RULE_MATCH_TAGS_BITWISE_OR : Z := 46.
Definition ZT_NETWORK_RULE_MATCH_TAGS_BITWISE_XOR : Z := 47.
Definition ZT_NETWORK_RULE_MATCH_TAGS_EQUAL : Z := 48.
Definition ZT_NETWORK_RULE_MATCH_TAG_SENDER : Z := 49.
Definition ZT_NETWORK_RULE_MATCH_TAG_RECEIVER : Z := 50.

(** ** Node::prng *)

Definition Node_prng (s : Z * Z) : Z * (Z * Z) :=
  let '(x, y) := s in
  let x := Z.lxor x (u64 (Z.shiftl x 23)) in
  let z := Z.lxor (Z.lxor (Z.lxor x y) (Z.shiftr x 17)) (Z.shiftr y 26) in
  (u64 (z + y), (y, z)).

(** ** Trace::RuleResultLog *)

Definition log_or (l : list Z) (rn v : Z) : outcome (list Z) :=
  old ← load l (Z.shiftr rn 1);
  mem_write l (Z.shiftr rn 1) [u8 (Z.lor old (Z.shiftl v (Z.shiftl (Z.land rn 1) 2)))].
Definition RuleResultLog_log (l : list Z) (rn : Z) (thisRuleMatches thisSetMatches : bool) : outcome (list Z) :=
  log_or l rn (Z.lor (Z.shiftl (Z.b2z thisRuleMatches + 1) 2) (Z.b2z thisSetMatches + 1)).
Definition RuleResultLog_logSkipped (l : list Z) (rn : Z) (thisSetMatches : bool) : outcome (list Z) :=
  log_or l rn (Z.b2z thisSetMatches + 1).
Definition RuleResultLog_clear : list Z := replicate (Z.to_nat (ZT_MAX_NETWORK_RULES / 2)) 0.

(** ** The payload of an IPv6 packet *)

(** Hop-by-hop, routing, destination and mobility options. *)
Definition is_extension (proto : Z) : bool := (proto =? 0) || (proto =? 43) || (proto =? 60) || (proto =? 135).

Fixpoint payload_loop (fuel : nat) (data : list Z) (pos proto : Z) : outcome (option (Z * Z)) :=
  match fuel with
  | O => Undef
  | S fuel =>
      if pos <=? zlen data then
        if is_extension proto then
          if zlen data <? u32 (pos + 8) then Ok None else
          next ← load data pos;
          n ← load data (u32 (pos + 1));
          payload_loop fuel data (u32 (pos + (n * 8 + 8))) next
        else Ok (Some (pos, proto))
      else Ok None
  end.

(** The position and the protocol, when it returns true. *)
Definition ipv6GetPayload (data : list Z) : outcome (option (Z * Z)) :=
  if zlen data <? 40 then Ok None else
  proto ← load data 6;
  payload_loop (S (length data)) data 40 proto.

(** ** _doZtFilter *)

Record Frame : Type := mkFrame { fr_macSource : Z; fr_macDest : Z; fr_data : list Z; fr_etherType : Z; fr_vlanId : Z }.
Definition fr_len (f : Frame) : Z := zlen (fr_data f).

Inductive FilterResult : Type := DOZTFILTER_NO_MATCH | DOZTFILTER_DROP | DOZTFILTER_REDIRECT | DOZTFILTER_ACCEPT | DOZTFILTER_SUPER_ACCEPT.

(** What the filter changes: the arguments passed by reference, and the random numbers. *)
Record FilterState : Type := mkFS {
  fs_ztDest : Z; fs_cc : Z; fs_ccLength : Z; fs_ccWatch : bool; fs_log : list Z; fs_prng : Z * Z
}.
Definition fs_with_log (st : FilterState) (l : list Z) : FilterState :=
  mkFS (fs_ztDest st) (fs_cc st) (fs_ccLength st) (fs_ccWatch st) l (fs_prng st).
Definition fs_with_prng (st : FilterState) (s : Z * Z) : FilterState :=
  mkFS (fs_ztDest st) (fs_cc st) (fs_ccLength st) (fs_ccWatch st) (fs_log st) s.

Section Filter.
Context `{Ops : C25519Ops} (self : Z) (nconf : NetworkConfig) (membership : option Membership) (inbound : bool) (ztSource : Z) (f : Frame).
Let data := fr_data f.
Let frameLen := fr_len f.

Definition is_ipv4 : bool := (fr_etherType f =? ZT_ETHERTYPE_IPV4) && (20 <=? frameLen).
Definition is_ipv6 : bool := (fr_etherType f =? ZT_ETHERTYPE_IPV6) && (40 <=? frameLen).

Definition match_ipv4 (ip : list Z) (mask off : Z) : outcome bool :=
  if is_ipv4 then
    net ← InetAddress_set ip 4 mask;
    a ← mem_read data off 4;
    a ← InetAddress_set a 4 0;
    InetAddress_containsAddress net a
  else Ok false.

Definition match_ipv6 (ip : list Z) (mask off : Z) : outcome bool :=
  if is_ipv6 then
    net ← InetAddress_set ip 16 mask;
    a ← mem_read data off 16;
    a ← InetAddress_set a 16 0;
    InetAddress_containsAddress net a
  else Ok false.

Definition match_tos (mask v0 v1 : Z) : outcome bool :=
  if is_ipv4 then
    b1 ← load data 1;
    let tosMasked := Z.land b1 mask in
    Ok ((v0 <=? tosMasked) && (tosMasked <=? v1))
  else if is_ipv6 then
    b0 ← load data 0;
    b1 ← load data 1;
    let tosMasked := Z.land (Z.lor (Z.land (Z.shiftl b0 4) 0xf0) (Z.land (Z.shiftr b1 4) 0x0f)) mask in
    Ok ((v0 <=? tosMasked) && (tosMasked <=? v1))
  else Ok false.

Definition match_protocol (p : Z) : outcome bool :=
  if is_ipv4 then proto ← load data 9; Ok (p =? proto)
  else if fr_etherType f =? ZT_ETHERTYPE_IPV6 then
    r ← ipv6GetPayload data;
    Ok (match r with Some (_, proto) => p =? u8 proto | None => false end)
  else Ok false.

(** The type and the code of an ICMP message at [pos]. *)
Definition match_icmp_at (pos type code flags : Z) : outcome bool :=
  t ← load data pos;
  if type =? t then
    if negb (Z.land flags 0x01 =? 0) then c ← load data (u32 (pos + 1)); Ok (c =? code) else Ok true
  else Ok false.

Definition match_icmp (type code flags : Z) : outcome bool :=
  if is_ipv4 then
    proto ← load data 9;
    if proto =? 0x01 then
      b0 ← load data 0;
      let ihl := Z.land b0 0xf * 4 in
      if u32 (ihl + 2) <=? frameLen then match_icmp_at ihl type code flags else Ok false
    else Ok false
  else if fr_etherType f =? ZT_ETHERTYPE_IPV6 then
    r ← ipv6GetPayload data;
    match r with
    | Some (pos, proto) => if (proto =? 0x3a) && (u32 (pos + 2) <=? frameLen) then match_icmp_at pos type code flags else Ok false
    | None => Ok false
    end
  else Ok false.

(** TCP, UDP, SCTP and UDPLite *)
Definition has_ports (proto : Z) : bool := (proto =? 0x06) || (proto =? 0x11) || (proto =? 0x84) || (proto =? 0x88).

(** The port, or -1. *)
Definition read_port (rt pos proto : Z) : outcome Z :=
  if has_ports proto then
    if u32 (pos + 4) <? frameLen then
      let pos := u32 (pos + (if rt =? ZT_NETWORK_RULE_MATCH_IP_DEST_PORT_RANGE then 2 else 0)) in
      hi ← load data pos;
      lo ← load data (u32 (pos + 1));
      Ok (Z.lor (Z.shiftl hi 8) lo)
    else Ok (-1)
  else Ok (-1).

Definition match_port (rt p0 p1 : Z) : outcome bool :=
  if is_ipv4 then
    b0 ← load data 0;
    let headerLen := 4 * Z.land b0 0xf in
    proto ← load data 9;
    p ← read_port rt headerLen proto;
    Ok (if 0 <=? p then (p0 <=? p) && (p <=? p1) else false)
  else if fr_etherType f =? ZT_ETHERTYPE_IPV6 then
    r ← ipv6GetPayload data;
    match r with
    | Some (pos, proto) =>
        p ← read_port rt pos proto;
        Ok (if 0 <? p then (p0 <=? p) && (p <=? p1) else false)
    | None => Ok false
    end
  else Ok false.

(** The sender's address, and the flag a neighbor solicitation has at once. *)
Definition sender_ip : outcome (InetAddress * Z) :=
  if is_ipv4 then a ← mem_read data 12 4; a ← InetAddress_set a 4 0; Ok (a, 0)
  else if is_ipv6 then
    ndp ← (if 40 + 8 + 16 <=? frameLen then
             b6 ← load data 6;
             if b6 =? 0x3a then b40 ← load data 40; Ok (if (b40 =? 0x87) || (b40 =? 0x88) then Some b40 else None) else Ok None
           else Ok None);
    match ndp with
    | Some b40 =>
        if b40 =? 0x87 then Ok (InetAddress_null, ZT_RULE_PACKET_CHARACTERISTICS_SENDER_IP_AUTHENTICATED)
        else a ← mem_read data (40 + 8) 16; a ← InetAddress_set a 16 0; Ok (a, 0)
    | None => a ← mem_read data 8 16; a ← InetAddress_set a 16 0; Ok (a, 0)
    end
  else if (fr_etherType f =? ZT_ETHERTYPE_ARP) && (28 <=? frameLen) then
    a ← mem_read data 14 4; a ← InetAddress_set a 4 0; Ok (a, 0)
  else Ok (InetAddress_null, 0).

(** The loop over our own certificates of ownership. *)
Fixpoint own_coos (src : InetAddress) (coos : list COO) (mask : Z) : outcome Z :=
  match coos with
  | [] => Ok mask
  | c :: coos =>
      ip ← (if InetAddress_bool src then COO_owns_ip c src else Ok false);
      let mask := if (ip : bool) then Z.lor mask ZT_RULE_PACKET_CHARACTERISTICS_SENDER_IP_AUTHENTICATED else mask in
      mac ← COO_owns_mac c (fr_macSource f);
      own_coos src coos (if (mac : bool) then Z.lor mask ZT_RULE_PACKET_CHARACTERISTICS_SENDER_MAC_AUTHENTICATED else mask)
  end.

Definition ownershipVerificationMask : outcome Z :=
  '(src, mask) ← sender_ip;
  if inbound then
    match membership with
    | Some m =>
        ip ← (if InetAddress_bool src then Membership_hasCertificateOfOwnershipFor m nconf (fun c => COO_owns_ip c src) else Ok false);
        let mask := if (ip : bool) then Z.lor mask ZT_RULE_PACKET_CHARACTERISTICS_SENDER_IP_AUTHENTICATED else mask in
        mac ← Membership_hasCertificateOfOwnershipFor m nconf (fun c => COO_owns_mac c (fr_macSource f));
        Ok (if (mac : bool) then Z.lor mask ZT_RULE_PACKET_CHARACTERISTICS_SENDER_MAC_AUTHENTICATED else mask)
    | None => Ok mask
    end
  else own_coos src (nc_certificatesOfOwnership nconf) mask.

(** The flags of the TCP header at [pos]. *)
Definition tcp_flags (pos : Z) : outcome Z :=
  lo ← load data (u32 (pos + 13));
  hi ← load data (u32 (pos + 12));
  Ok (Z.lor lo (Z.shiftl (Z.land hi 0x0f) 8)).

Definition match_characteristics (characteristics : Z) : outcome bool :=
  let cf := if inbound then ZT_RULE_PACKET_CHARACTERISTICS_INBOUND else 0 in
  let cf := if MAC_isMulticast (fr_macDest f) then Z.lor cf ZT_RULE_PACKET_CHARACTERISTICS_MULTICAST else cf in
  let cf := if MAC_isBroadcast (fr_macDest f) then Z.lor cf ZT_RULE_PACKET_CHARACTERISTICS_BROADCAST else cf in
  mask ← ownershipVerificationMask;
  let cf := Z.lor cf mask in
  v4tcp ← (if is_ipv4 then proto ← load data 9; Ok (proto =? 0x06) else Ok false);
  cf ← (if (v4tcp : bool) then
          b0 ← load data 0;
          flags ← tcp_flags (4 * Z.land b0 0xf);
          Ok (Z.lor cf flags)
        else if fr_etherType f =? ZT_ETHERTYPE_IPV6 then
          r ← ipv6GetPayload data;
          match r with
          | Some (pos, proto) =>
              if (proto =? 0x06) && (u32 (pos + 14) <? frameLen) then flags ← tcp_flags pos; Ok (Z.lor cf flags) else Ok cf
          | None => Ok cf
          end
        else Ok cf);
  Ok (negb (Z.land cf characteristics =? 0)).

(** The local tag for an ID, or none. *)
Definition local_tag (id : Z) : option Tag :=
  match tags_lower_bound (nc_tags nconf) id with
  | Some t => if tag_id t =? id then Some t else None
  | None => None
  end.
Definition remote_tag (id : Z) : outcome (option Tag) :=
  match membership with Some m => Membership_getTag m nconf id | None => Ok None end.

Definition compare_tags (rt ltv rtv value : Z) : bool :=
  if rt =? ZT_NETWORK_RULE_MATCH_TAGS_DIFFERENCE then (if rtv <? ltv then u32 (ltv - rtv) else u32 (rtv - ltv)) <=? value
  else if rt =? ZT_NETWORK_RULE_MATCH_TAGS_BITWISE_AND then Z.land ltv rtv =? value
  else if rt =? ZT_NETWORK_RULE_MATCH_TAGS_BITWISE_OR then Z.lor ltv rtv =? value
  else if rt =? ZT_NETWORK_RULE_MATCH_TAGS_BITWISE_XOR then Z.lxor ltv rtv =? value
  else if rt =? ZT_NETWORK_RULE_MATCH_TAGS_EQUAL then (ltv =? value) && (rtv =? value)
  else false.

Definition match_tags (superAccept : bool) (rt id value : Z) : outcome bool :=
  match local_tag id with
  | Some l =>
      r ← remote_tag id;
      Ok (match r with
          | Some r => compare_tags rt (tag_value l) (tag_value r) value
          | None => negb (inbound && negb superAccept)
          end)
  | None => Ok false
  end.

Definition match_tag_side (superAccept : bool) (rt id value : Z) : outcome bool :=
  if superAccept then Ok true
  else if ((rt =? ZT_NETWORK_RULE_MATCH_TAG_SENDER) && inbound) || ((rt =? ZT_NETWORK_RULE_MATCH_TAG_RECEIVER) && negb inbound) then
    r ← remote_tag id;
    Ok (match r with
        | Some r => tag_value r =? value
        | None => rt =? ZT_NETWORK_RULE_MATCH_TAG_RECEIVER
        end)
  else Ok (match local_tag id with Some l => tag_value l =? value | None => false end).

Fixpoint read_be (n : nat) (idx integer : Z) : outcome Z :=
  match n with
  | O => Ok integer
  | S n => b ← load data idx; read_be n (u32 (idx + 1)) (Z.lor (u64 (Z.shiftl integer 8)) b)
  end.
Fixpoint read_le (n : nat) (idx integer : Z) : outcome Z :=
  match n with
  | O => Ok integer
  | S n => b ← load data idx; read_le n (u32 (idx + 1)) (Z.lor (Z.shiftr integer 8) (u64 (Z.shiftl b 56)))
  end.

Definition match_integer (start end_ idx format : Z) : outcome bool :=
  let bits := Z.land format 63 + 1 in
  let bytes := (bits + 8 - 1) / 8 in
  integer ← (if Z.land format 0x80 =? 0 then
               let idx := u32 (idx + (8 - bytes)) in
               let eof := u32 (idx + bytes) in
               integer ← (if eof <=? frameLen then read_be (Z.to_nat (eof - idx)) idx 0 else Ok 0);
               Ok (Z.land integer (Z.shiftr 0xffffffffffffffff (64 - bits)))
             else
               let eof := u32 (idx + bytes) in
               integer ← (if eof <=? frameLen then read_le (Z.to_nat (eof - idx)) idx 0 else Ok 0);
               Ok (Z.shiftr integer (64 - bits)));
  Ok ((start <=? integer) && (integer <=? u64 (start + end_))).

(** The switch over the MATCH rules; [ztDest] is the current destination. *)
Definition rule_matches (superAccept : bool) (ztDest : Z) (rng : Z * Z) (r : Rule) : outcome (bool * (Z * Z)) :=
  let rt := rule_type r in
  let keep (o : outcome bool) := b ← o; Ok (b, rng) in
  match member_of rt, rl_v r with
  | MZt, VZt zt => keep (Ok (zt =? Address_toInt (if rt =? ZT_NETWORK_RULE_MATCH_SOURCE_ZEROTIER_ADDRESS then ztSource else ztDest)))
  | MVlanId, VVlanId id => keep (Ok (id =? u16 (fr_vlanId f)))
  | MVlanPcp, VVlanPcp pcp => keep (Ok (pcp =? 0))
  | MVlanDei, VVlanDei dei => keep (Ok (dei =? 0))
  | MMac, VMac mac =>
      keep (m ← MAC_setTo mac 6; Ok (m =? if rt =? ZT_NETWORK_RULE_MATCH_MAC_SOURCE then fr_macSource f else fr_macDest f))
  | MIpv4, VIpv4 ip mask => keep (match_ipv4 ip mask (if rt =? ZT_NETWORK_RULE_MATCH_IPV4_SOURCE then 12 else 16))
  | MIpv6, VIpv6 ip mask => keep (match_ipv6 ip mask (if rt =? ZT_NETWORK_RULE_MATCH_IPV6_SOURCE then 8 else 24))
  | MIpTos, VIpTos mask v0 v1 => keep (match_tos mask v0 v1)
  | MIpProtocol, VIpProtocol p => keep (match_protocol p)
  | MEtherType, VEtherType t => keep (Ok (t =? u16 (fr_etherType f)))
  | MIcmp, VIcmp type code flags => keep (match_icmp type code flags)
  | MPort, VPort p0 p1 => keep (match_port rt p0 p1)
  | MCharacteristics, VCharacteristics c => keep (match_characteristics c)
  | MFrameSize, VFrameSize s0 s1 => keep (Ok ((s0 <=? frameLen) && (frameLen <=? s1)))
  | MRandomProbability, VRandomProbability p => let '(x, rng) := Node_prng rng in Ok (u32 (Z.land x 0xffffffff) <=? p, rng)
  | MTag, VTag id value =>
      keep (if rt <=? ZT_NETWORK_RULE_MATCH_TAGS_EQUAL then match_tags superAccept rt id value else match_tag_side superAccept rt id value)
  | MIntRange, VIntRange start end_ idx format => keep (match_integer start end_ idx format)
  | MNone, _ => keep (Ok (flag (nc_flags nconf) ZT_NETWORKCONFIG_FLAG_RULES_RESULT_OF_UNSUPPORTED_MATCH))
  | _, _ => Undef
  end.

Definition is_forward (rt : Z) : bool :=
  (rt =? ZT_NETWORK_RULE_ACTION_TEE) || (rt =? ZT_NETWORK_RULE_ACTION_WATCH) || (rt =? ZT_NETWORK_RULE_ACTION_REDIRECT).

(** An ACTION whose set matches: the result, or the state to go on with. *)
Definition take_action (superAccept : bool) (r : Rule) (st : FilterState) : outcome (FilterState * option FilterResult) :=
  let rt := rule_type r in
  if rt =? ZT_NETWORK_RULE_ACTION_DROP then Ok (st, Some DOZTFILTER_DROP)
  else if rt =? ZT_NETWORK_RULE_ACTION_ACCEPT then Ok (st, Some (if superAccept then DOZTFILTER_SUPER_ACCEPT else DOZTFILTER_ACCEPT))
  else if is_forward rt then
    match rl_v r with
    | VFwd address _ length =>
        let fwdAddr := Address_of_int address in
        if fwdAddr =? ztSource then Ok (st, None)
        else if fwdAddr =? self then Ok (st, if inbound then Some DOZTFILTER_SUPER_ACCEPT else None)
        else if fwdAddr =? fs_ztDest st then Ok (st, None)
        else if rt =? ZT_NETWORK_RULE_ACTION_REDIRECT then
          Ok (mkFS fwdAddr (fs_cc st) (fs_ccLength st) (fs_ccWatch st) (fs_log st) (fs_prng st), Some DOZTFILTER_REDIRECT)
        else
          let ccLength := if negb (length =? 0) then (if frameLen <? length then frameLen else length) else frameLen in
          Ok (mkFS (fs_ztDest st) fwdAddr ccLength (rt =? ZT_NETWORK_RULE_ACTION_WATCH) (fs_log st) (fs_prng st), None)
    | _ => Undef
    end
  else if rt =? ZT_NETWORK_RULE_ACTION_BREAK then Ok (st, Some DOZTFILTER_NO_MATCH)
  else Ok (st, None).

(** An ACTION whose set does not match: whether we are the target of it. *)
Definition skip_action (superAccept : bool) (r : Rule) : outcome bool :=
  if inbound && is_forward (rule_type r) then
    match rl_v r with
    | VFwd address _ _ => Ok (if self =? Z.land address 0xffffffffff then true else superAccept)
    | _ => Undef
    end
  else Ok superAccept.

Fixpoint filter_loop (rn : Z) (superAccept thisSetMatches : bool) (rules : list Rule) (st : FilterState) : outcome (FilterResult * FilterState) :=
  match rules with
  | [] => Ok (DOZTFILTER_NO_MATCH, st)
  | r :: rules =>
      if rule_type r <=? ZT_NETWORK_RULE_ACTION__MAX_ID then
        if thisSetMatches then
          '(st, res) ← take_action superAccept r st;
          match res with
          | Some res => Ok (res, st)
          | None => filter_loop (rn + 1) superAccept thisSetMatches rules st
          end
        else
          superAccept ← skip_action superAccept r;
          filter_loop (rn + 1) superAccept true rules st
      else if negb thisSetMatches && (Z.land (rl_t r) 0x40 =? 0) then
        l ← RuleResultLog_logSkipped (fs_log st) rn thisSetMatches;
        filter_loop (rn + 1) superAccept thisSetMatches rules (fs_with_log st l)
      else
        '(m, rng) ← rule_matches superAccept (fs_ztDest st) (fs_prng st) r;
        l ← RuleResultLog_log (fs_log st) rn m thisSetMatches;
        let m := xorb m (negb (Z.land (Z.shiftr (rl_t r) 7) 1 =? 0)) in
        let thisSetMatches := if negb (Z.land (rl_t r) 0x40 =? 0) then thisSetMatches || m else thisSetMatches && m in
        filter_loop (rn + 1) superAccept thisSetMatches rules (fs_with_log (fs_with_prng st rng) l)
  end.

Definition doZtFilter (rules : list Rule) (st : FilterState) : outcome (FilterResult * FilterState) :=
  filter_loop 0 false true rules (fs_with_log st RuleResultLog_clear).
End Filter.

(** ** The reference
    What the rules mean, on the fields of a frame. *)

(** A walk through the extension headers ends at a payload. *)
Inductive payload_at (data : list Z) : Z -> Z -> Z * Z -> Prop :=
| payload_here pos proto : pos <= zlen data -> is_extension proto = false -> payload_at data pos proto (pos, proto)
| payload_next pos proto r : pos + 8 <= zlen data -> is_extension proto = true ->
    payload_at data (pos + 8 * (nth (Z.to_nat (pos + 1)) data 0 + 1)) (nth (Z.to_nat pos) data 0) r -> payload_at data pos proto r.

Section Reference.
Context `{Ops : C25519Ops} (self : Z) (nconf : NetworkConfig) (membership : option Membership) (inbound : bool) (ztSource : Z) (f : Frame).
Let len := fr_len f.

Definition byte (i : Z) : Z := nth (Z.to_nat i) (fr_data f) 0.
Definition field (off n : Z) : list Z := slice off n (fr_data f).

(** Where the payload of an IP packet is and what it is. *)
Definition payload : option (Z * Z) :=
  if is_ipv4 f then Some (4 * (byte 0 mod 16), byte 9)
  else if fr_etherType f =? ZT_ETHERTYPE_IPV6 then match ipv6GetPayload (fr_data f) with Ok r => r | _ => None end
  else None.

Definition between (lo x hi : Z) : bool := (lo <=? x) && (x <=? hi).

Definition icmp_spec (type code flags : Z) : bool :=
  match payload with
  | Some (pos, proto) =>
      (proto =? if is_ipv4 f then 1 else 58) && (pos + 2 <=? len) && (type =? byte pos) && (negb (Z.testbit flags 0) || (byte (pos + 1) =? code))
  | None => false
  end.

(** The port zero matches in IPv4 only. *)
Definition port_spec (rt p0 p1 : Z) : bool :=
  match payload with
  | Some (pos, proto) =>
      let p := be_val (field (pos + if rt =? ZT_NETWORK_RULE_MATCH_IP_DEST_PORT_RANGE then 2 else 0) 2) in
      has_ports proto && (pos + 4 <? len) && between p0 p p1 && (is_ipv4 f || negb (p =? 0))
  | None => false
  end.

(** The address that has to be owned by the sender; the second is for a neighbor solicitation. *)
Definition sender_spec : InetAddress * bool :=
  if is_ipv4 f then (IaV4 0 (field 12 4), false)
  else if is_ipv6 f then
    let icmp := (64 <=? len) && (byte 6 =? 0x3a) in
    if icmp && (byte 40 =? 0x87) then (InetAddress_null, true)
    else if icmp && (byte 40 =? 0x88) then (IaV6 0 0 (field 48 16) 0, false)
    else (IaV6 0 0 (field 8 16) 0, false)
  else if (fr_etherType f =? ZT_ETHERTYPE_ARP) && (28 <=? len) then (IaV4 0 (field 14 4), false)
  else (InetAddress_null, false).

(** The certificates of ownership that count for the sender. *)
Definition sender_coos : list COO :=
  if inbound then
    match membership with
    | Some m => List.filter (timestamp_valid (ht_map (ms_revocations m)) nconf) (snd <$> ht_list (ms_remoteCoos m))
    | None => []
    end
  else nc_certificatesOfOwnership nconf.

Definition bit_if (b : bool) (x : Z) : Z := if b then x else 0.

Definition tcp_spec : Z :=
  match payload with
  | Some (pos, proto) => bit_if ((proto =? 6) && (is_ipv4 f || (pos + 14 <? len))) (byte (pos + 13) + 256 * (byte (pos + 12) mod 16))
  | None => 0
  end.

Definition characteristics_spec : Z :=
  let owned x := existsb (fun c => COO_has c x) sender_coos in
  Z.lor (Z.lor (Z.lor (Z.lor (Z.lor
    (bit_if inbound ZT_RULE_PACKET_CHARACTERISTICS_INBOUND)
    (bit_if (MAC_isMulticast (fr_macDest f)) ZT_RULE_PACKET_CHARACTERISTICS_MULTICAST))
    (bit_if (MAC_isBroadcast (fr_macDest f)) ZT_RULE_PACKET_CHARACTERISTICS_BROADCAST))
    (bit_if (sender_spec.2 || from_option owned false (ip_thing sender_spec.1)) ZT_RULE_PACKET_CHARACTERISTICS_SENDER_IP_AUTHENTICATED))
    (bit_if (owned (mac_thing (fr_macSource f))) ZT_RULE_PACKET_CHARACTERISTICS_SENDER_MAC_AUTHENTICATED)) tcp_spec.

Definition remote_tag_spec (id : Z) : option Tag :=
  match membership with
  | Some m =>
      match ht_map (ms_remoteTags m) !! U32 id with
      | Some t => if timestamp_valid (ht_map (ms_revocations m)) nconf t then Some t else None
      | None => None
      end
  | None => None
  end.

Definition tags_spec (superAccept : bool) (rt id value : Z) : bool :=
  match NetworkConfig_tag nconf id, remote_tag_spec id with
  | Some l, Some r => compare_tags rt (tag_value l) (tag_value r) value
  | Some _, None => negb inbound || superAccept
  | None, _ => false
  end.

(** The tag of the sender, or of the receiver. *)
Definition tag_side_spec (superAccept : bool) (rt id value : Z) : bool :=
  let theirs := Bool.eqb (rt =? ZT_NETWORK_RULE_MATCH_TAG_SENDER) inbound in
  superAccept ||
  match (if theirs then remote_tag_spec id else NetworkConfig_tag nconf id) with
  | Some t => tag_value t =? value
  | None => theirs && (rt =? ZT_NETWORK_RULE_MATCH_TAG_RECEIVER)
  end.

(** The integer of [bits] bits: the low ones of big-endian, the high ones of little-endian bytes. *)
Definition integer_spec (idx format : Z) : Z :=
  let bits := format mod 64 + 1 in
  let bytes := (bits + 7) / 8 in
  if Z.testbit format 7 then (if idx + bytes <=? len then le_val (field idx bytes) / 2 ^ (8 * bytes - bits) else 0)
  else (if idx + 8 <=? len then be_val (field (idx + 8 - bytes) bytes) mod 2 ^ bits else 0).

Definition rule_spec (superAccept : bool) (ztDest : Z) (r : Rule) : bool :=
  let rt := rule_type r in
  match rl_v r with
  | VZt zt => zt =? if rt =? ZT_NETWORK_RULE_MATCH_SOURCE_ZEROTIER_ADDRESS then ztSource else ztDest
  | VVlanId id => id =? u16 (fr_vlanId f)
  | VVlanPcp pcp => pcp =? 0
  | VVlanDei dei => dei =? 0
  | VMac mac => be_val mac =? if rt =? ZT_NETWORK_RULE_MATCH_MAC_SOURCE then fr_macSource f else fr_macDest f
  | VIpv4 ip mask =>
      is_ipv4 f && (ip_prefix 32 mask (field (if rt =? ZT_NETWORK_RULE_MATCH_IPV4_SOURCE then 12 else 16) 4) =? ip_prefix 32 mask ip)
  | VIpv6 ip mask =>
      is_ipv6 f && (ip_prefix 128 mask (field (if rt =? ZT_NETWORK_RULE_MATCH_IPV6_SOURCE then 8 else 24) 16) * 2 ^ (128 - mask) =? be_val ip)
  | VIpTos mask v0 v1 =>
      if is_ipv4 f then between v0 (Z.land (byte 1) mask) v1
      else is_ipv6 f && between v0 (Z.land (16 * (byte 0 mod 16) + byte 1 / 16) mask) v1
  | VIpProtocol p => match payload with Some (_, proto) => p =? proto | None => false end
  | VEtherType t => t =? u16 (fr_etherType f)
  | VIcmp type code flags => icmp_spec type code flags
  | VPort p0 p1 => port_spec rt p0 p1
  | VCharacteristics c => negb (Z.land characteristics_spec c =? 0)
  | VFrameSize s0 s1 => between s0 len s1
  | VTag id value => if rt <=? ZT_NETWORK_RULE_MATCH_TAGS_EQUAL then tags_spec superAccept rt id value else tag_side_spec superAccept rt id value
  | VIntRange start end_ idx format => between start (integer_spec idx format) (u64 (start + end_))
  | _ => flag (nc_flags nconf) ZT_NETWORKCONFIG_FLAG_RULES_RESULT_OF_UNSUPPORTED_MATCH
  end.

(** A list of rules is a list of sets: matches and the action they are for. *)
Definition is_action (r : Rule) : bool := rule_type r <=? ZT_NETWORK_RULE_ACTION__MAX_ID.
Definition inverted (r : Rule) : bool := Z.testbit (rl_t r) 7.
Definition is_or (r : Rule) : bool := Z.testbit (rl_t r) 6.

Fixpoint rule_sets (ms : list Rule) (rules : list Rule) : list (list Rule * Rule) :=
  match rules with
  | [] => []
  | r :: rules => if is_action r then (ms, r) :: rule_sets [] rules else rule_sets (ms ++ [r]) rules
  end.

Definition combine_match (superAccept : bool) (ztDest : Z) (s : bool) (r : Rule) : bool :=
  let m := xorb (rule_spec superAccept ztDest r) (inverted r) in
  if is_or r then s || m else s && m.
Definition set_matches (superAccept : bool) (ztDest : Z) (ms : list Rule) : bool := fold_left (combine_match superAccept ztDest) ms true.

(** What the filter says: the result and, for TEE and WATCH, where a copy goes. *)
Record Verdict : Type := mkVerdict { vd_ztDest : Z; vd_cc : Z; vd_ccLength : Z; vd_ccWatch : bool }.

Definition forward_to (r : Rule) : option (Z * Z) :=
  match rl_v r with VFwd address _ length => if is_forward (rule_type r) then Some (Address_of_int address, length) else None | _ => None end.

Definition action_spec (superAccept : bool) (r : Rule) (v : Verdict) : Verdict * option FilterResult :=
  match forward_to r with
  | Some (a, n) =>
      if a =? ztSource then (v, None)
      else if a =? self then (v, if inbound then Some DOZTFILTER_SUPER_ACCEPT else None)
      else if a =? vd_ztDest v then (v, None)
      else if rule_type r =? ZT_NETWORK_RULE_ACTION_REDIRECT then (mkVerdict a (vd_cc v) (vd_ccLength v) (vd_ccWatch v), Some DOZTFILTER_REDIRECT)
      else (mkVerdict (vd_ztDest v) a (if n =? 0 then len else Z.min len n) (rule_type r =? ZT_NETWORK_RULE_ACTION_WATCH), None)
  | None =>
      (v, if rule_type r =? ZT_NETWORK_RULE_ACTION_DROP then Some DOZTFILTER_DROP
          else if rule_type r =? ZT_NETWORK_RULE_ACTION_ACCEPT then Some (if superAccept then DOZTFILTER_SUPER_ACCEPT else DOZTFILTER_ACCEPT)
          else if rule_type r =? ZT_NETWORK_RULE_ACTION_BREAK then Some DOZTFILTER_NO_MATCH else None)
  end.

Fixpoint filter_spec (superAccept : bool) (sets : list (list Rule * Rule)) (v : Verdict) : FilterResult * Verdict :=
  match sets with
  | [] => (DOZTFILTER_NO_MATCH, v)
  | (ms, r) :: sets =>
      if set_matches superAccept (vd_ztDest v) ms then
        match action_spec superAccept r v with
        | (v, Some res) => (res, v)
        | (v, None) => filter_spec superAccept sets v
        end
      else filter_spec (superAccept || (inbound && match forward_to r with Some (a, _) => self =? a | None => false end)) sets v
  end.
End Reference.

(** ** The engine computes the reference *)

Section Loads.
Context (f : Frame) (Hb : Forall is_byte (fr_data f)) (Hl : fr_len f < 2 ^ 31).

Lemma byte_is_byte i : is_byte (byte f i).
Proof.
  unfold byte. destruct (nth_in_or_default (Z.to_nat i) (fr_data f) 0) as [H| ->]; [|done]. rewrite Forall_forall in Hb. apply Hb. by apply list_elem_of_In.
Qed.

Lemma load_byte i : 0 <= i < fr_len f -> load (fr_data f) i = Ok (byte f i).
Proof.
  intros Hi. unfold fr_len, zlen in Hi. unfold load, zget, byte. rewrite (proj2 (Z.leb_le 0 i)) by lia.
  destruct (fr_data f !! Z.to_nat i) as [x|] eqn:E; [|apply lookup_ge_None in E; lia]. by rewrite (nth_lookup_Some _ _ 0 _ E).
Qed.

Lemma frame_read_Ok off n : 0 <= off -> 0 <= n -> off + n <= fr_len f -> mem_read (fr_data f) off n = Ok (field f off n).
Proof. intros. by apply mem_read_Ok. Qed.

Lemma field_length off n : 0 <= off -> 0 <= n -> off + n <= fr_len f -> length (field f off n) = Z.to_nat n.
Proof. intros. unfold field. pose proof (zlen_slice off n (fr_data f)) as H'. unfold fr_len in *. unfold zlen in *. lia. Qed.

Lemma field_bytes off n : Forall is_byte (field f off n).
Proof. by apply slice_bytes. Qed.

Lemma u32_small_id x : 0 <= x < 2 ^ 32 -> u32 x = x.
Proof. intros. by apply u32_id. Qed.

Lemma is_ipv4_len : is_ipv4 f = true -> 20 <= fr_len f.
Proof. unfold is_ipv4. intros [_ H]%andb_true_iff. by apply Z.leb_le. Qed.
Lemma is_ipv6_len : is_ipv6 f = true -> 40 <= fr_len f /\ is_ipv4 f = false.
Proof.
  unfold is_ipv6, is_ipv4. intros [H1 H]%andb_true_iff. apply Z.eqb_eq in H1. rewrite H1. split; [by apply Z.leb_le|done].
Qed.

Lemma payload_loop_spec fuel : forall pos proto, 40 <= pos -> pos < 2 ^ 31 + 2 ^ 12 -> fr_len f - pos < 8 * Z.of_nat fuel -> 0 < Z.of_nat fuel ->
  exists r, payload_loop fuel (fr_data f) pos proto = Ok r /\ forall q, r = Some q <-> payload_at (fr_data f) pos proto q.
Proof.
  induction fuel as [|fuel IH]; intros pos proto Hp Hpm Hf Hf0; [lia|]. cbn [payload_loop]. fold (fr_len f).
  destruct (Z.leb_spec pos (fr_len f)) as [Hle|Hgt].
  - destruct (is_extension proto) eqn:E.
    + rewrite (u32_small_id (pos + 8)) by lia. destruct (Z.ltb_spec (fr_len f) (pos + 8)).
      { exists None. split; [done|]. intros q. split; [done|]. inversion 1; subst; [congruence|]. unfold fr_len in *. lia. }
      rewrite (load_byte pos), (u32_small_id (pos + 1)) by lia. cbn [mbind outcome_bind]. rewrite load_byte by lia. cbn [mbind outcome_bind].
      pose proof (byte_is_byte (pos + 1)) as Hn. unfold in_range in Hn. rewrite u32_small_id by lia.
      destruct (IH (pos + (byte f (pos + 1) * 8 + 8)) (byte f pos)) as (r & -> & Hr); [lia..|]. exists r. split; [done|]. intros q. rewrite Hr. unfold byte.
      replace (pos + (nth (Z.to_nat (pos + 1)) (fr_data f) 0 * 8 + 8)) with (pos + 8 * (nth (Z.to_nat (pos + 1)) (fr_data f) 0 + 1)) by lia.
      split; [intros; by apply payload_next|]. inversion 1; subst; [congruence|done].
    + exists (Some (pos, proto)). split; [done|]. intros q. split; [intros [= <-]; by constructor|]. inversion 1; subst; [done|congruence].
  - exists None. split; [done|]. intros q. split; [done|]. inversion 1; subst; unfold fr_len in *; lia.
Qed.

Lemma ipv6GetPayload_spec : exists r, ipv6GetPayload (fr_data f) = Ok r /\
  forall q, r = Some q <-> 40 <= fr_len f /\ payload_at (fr_data f) 40 (byte f 6) q.
Proof.
  unfold ipv6GetPayload. fold (fr_len f). destruct (Z.ltb_spec (fr_len f) 40); [exists None; split; [done|]; intros q; split; [done|lia]|].
  rewrite load_byte by lia. cbn [mbind outcome_bind]. destruct (payload_loop_spec (S (length (fr_data f))) 40 (byte f 6)) as (r & -> & Hr);
    [lia|lia|unfold fr_len, zlen; lia|lia|]. exists r. split; [done|]. intros q. rewrite Hr. naive_solver.
Qed.

Lemma payload_at_range pos proto q : payload_at (fr_data f) pos proto q -> 0 <= pos -> is_byte proto -> 0 <= q.1 <= fr_len f /\ is_byte q.2.
Proof.
  induction 1 as [pos proto|pos proto r Hp He Hr IH]; intros Hpos Hproto; [done|]. pose proof (byte_is_byte (pos + 1)) as Hn. unfold in_range in Hn.
  apply IH; [unfold byte in *; lia|apply (byte_is_byte pos)].
Qed.

(** The payload, in IPv6 and otherwise. *)
Lemma payload6_Ok : is_ipv4 f = false -> fr_etherType f = ZT_ETHERTYPE_IPV6 ->
  ipv6GetPayload (fr_data f) = Ok (payload f) /\ forall pos proto, payload f = Some (pos, proto) -> 0 <= pos <= fr_len f /\ is_byte proto.
Proof.
  intros H4 He. unfold payload. rewrite H4, He, Z.eqb_refl. destruct ipv6GetPayload_spec as (r & E & Hr). rewrite E. split; [done|]. intros pos proto ->.
  apply (payload_at_range 40 (byte f 6) (pos, proto)); [by apply Hr|lia|apply byte_is_byte].
Qed.

Lemma payload_none : is_ipv4 f = false -> (fr_etherType f =? ZT_ETHERTYPE_IPV6) = false -> payload f = None.
Proof. intros H4 He. unfold payload. by rewrite H4, He. Qed.
End Loads.

(** Reads the byte [i] of [f]. *)
Ltac at_byte f i := rewrite (load_byte f i) by lia; cbn [mbind outcome_bind].

Section Matches.
Context (f : Frame) (Hb : Forall is_byte (fr_data f)) (Hl : fr_len f < 2 ^ 31).

Lemma set_v4 ip port : length ip = 4%nat -> InetAddress_set ip 4 port = Ok (IaV4 (Utils_hton16 (u16 port)) ip).
Proof. intros Hi. unfold InetAddress_set. change (4 =? 4) with true. cbv iota. rewrite mem_read_Ok by (unfold zlen; lia). rewrite slice_0, ztake_all by (unfold zlen; lia). done. Qed.
Lemma set_v6 ip port : length ip = 16%nat -> InetAddress_set ip 16 port = Ok (IaV6 (Utils_hton16 (u16 port)) 0 ip 0).
Proof. intros Hi. unfold InetAddress_set. change (16 =? 4) with false. change (16 =? 16) with true. cbv iota. rewrite mem_read_Ok by (unfold zlen; lia). rewrite slice_0, ztake_all by (unfold zlen; lia). done. Qed.

Lemma mask_bits mask : is_byte mask -> Utils_hton16 (Utils_hton16 (u16 mask)) = mask /\ is_u16 (Utils_hton16 (u16 mask)).
Proof.
  intros Hm. assert (H : (Utils_hton16 (Utils_hton16 (u16 mask)) =? mask) && (0 <=? Utils_hton16 (u16 mask)) && (Utils_hton16 (u16 mask) <? 2 ^ 16) = true).
  { revert mask Hm. by apply byte_forall. }
  unfold in_range. lia.
Qed.

Lemma match_ipv4_spec ip mask off : length ip = 4%nat -> Forall is_byte ip -> is_byte mask -> mask <= 32 -> off = 12 \/ off = 16 ->
  match_ipv4 f ip mask off = Ok (is_ipv4 f && (ip_prefix 32 mask (field f off 4) =? ip_prefix 32 mask ip)).
Proof.
  intros Hi Hbi Hm Hm32 Ho. unfold match_ipv4. destruct (is_ipv4 f) eqn:E4; [|done]. apply is_ipv4_len in E4. rewrite set_v4 by done. cbn [mbind outcome_bind].
  rewrite frame_read_Ok by lia. cbn [mbind outcome_bind]. rewrite set_v4 by (rewrite field_length by lia; done). cbn [mbind outcome_bind].
  destruct (mask_bits mask Hm) as [H1 H2]. rewrite contains_v4; unfold InetAddress_netmaskBitsValid, InetAddress_netmaskBits, InetAddress_port; rewrite ?H1.
  - cbn [andb]. by rewrite <- eqb_bool_decide.
  - by split_and!.
  - split_and!; [done|rewrite field_length by lia; done|by apply field_bytes].
  - by apply Z.leb_le.
Qed.

Lemma match_ipv6_spec ip mask off : length ip = 16%nat -> Forall is_byte ip -> is_byte mask -> mask <= 128 -> off = 8 \/ off = 24 ->
  match_ipv6 f ip mask off = Ok (is_ipv6 f && (ip_prefix 128 mask (field f off 16) * 2 ^ (128 - mask) =? be_val ip)).
Proof.
  intros Hi Hbi Hm Hm32 Ho. unfold match_ipv6. destruct (is_ipv6 f) eqn:E6; [|done]. apply is_ipv6_len in E6 as [E6 _]. rewrite set_v6 by done. cbn [mbind outcome_bind].
  rewrite frame_read_Ok by lia. cbn [mbind outcome_bind]. rewrite set_v6 by (rewrite field_length by lia; done). cbn [mbind outcome_bind].
  destruct (mask_bits mask Hm) as [H1 H2]. rewrite contains_v6; unfold InetAddress_netmaskBitsValid, InetAddress_netmaskBits, InetAddress_port; rewrite ?H1.
  - cbn [andb]. by rewrite <- eqb_bool_decide.
  - by split_and!.
  - split_and!; [done|done|rewrite field_length by lia; done|by apply field_bytes|done].
  - by apply Z.leb_le.
Qed.

Lemma tos_v6 a b : is_byte a -> is_byte b -> Z.lor (Z.land (Z.shiftl a 4) 0xf0) (Z.land (Z.shiftr b 4) 0x0f) = 16 * (a mod 16) + b / 16.
Proof.
  intros Ha Hb0. assert (H1 : (Z.land (Z.shiftl a 4) 0xf0 =? 16 * (a mod 16)) = true) by (revert a Ha; by apply byte_forall).
  assert (H2 : (Z.land (Z.shiftr b 4) 0x0f =? b / 16) && (0 <=? b / 16) && (b / 16 <? 16) = true) by (revert b Hb0; by apply byte_forall).
  apply Z.eqb_eq in H1. rewrite !andb_true_iff, Z.eqb_eq, Z.leb_le, Z.ltb_lt in H2. destruct H2 as [[H2 H3] H4]. rewrite H1, H2. apply (lor_cat 4); unfold in_range; lor_side.
Qed.

Lemma match_tos_spec mask v0 v1 :
  match_tos f mask v0 v1 = Ok (if is_ipv4 f then between v0 (Z.land (byte f 1) mask) v1
                               else is_ipv6 f && between v0 (Z.land (16 * (byte f 0 mod 16) + byte f 1 / 16) mask) v1).
Proof.
  unfold match_tos. destruct (is_ipv4 f) eqn:E4; [apply is_ipv4_len in E4; by at_byte f 1|]. destruct (is_ipv6 f) eqn:E6; [|done]. apply is_ipv6_len in E6 as [E6 _].
  at_byte f 0. at_byte f 1. cbv zeta. by rewrite tos_v6 by by apply byte_is_byte.
Qed.

Lemma match_protocol_spec p : match_protocol f p = Ok (match payload f with Some (_, proto) => p =? proto | None => false end).
Proof.
  unfold match_protocol. destruct (is_ipv4 f) eqn:E4.
  - pose proof (is_ipv4_len f E4). at_byte f 9. unfold payload. by rewrite E4.
  - destruct (fr_etherType f =? ZT_ETHERTYPE_IPV6) eqn:E6; [|by rewrite payload_none]. apply Z.eqb_eq in E6. destruct (payload6_Ok f Hb Hl E4 E6) as [-> Hp].
    cbn [mbind outcome_bind]. destruct (payload f) as [[pos proto]|]; [|done]. destruct (Hp pos proto eq_refl) as [_ Hproto]. unfold u8. by rewrite (wrap_id 8 proto) by done.
Qed.

Lemma nonzero_bit0 x : negb (Z.land x 0x01 =? 0) = Z.testbit x 0.
Proof.
  rewrite Z.bit0_odd. change 0x01 with (2 ^ 1 - 1). rewrite land_mask by lia. change (2 ^ 1) with 2. rewrite Zmod_odd. by destruct (Z.odd x).
Qed.

Lemma match_icmp_at_spec pos type code flags : 0 <= pos -> pos + 2 <= fr_len f ->
  match_icmp_at f pos type code flags = Ok ((type =? byte f pos) && (negb (Z.testbit flags 0) || (byte f (pos + 1) =? code))).
Proof.
  intros H0 H1. unfold match_icmp_at. at_byte f pos. rewrite nonzero_bit0. destruct (type =? byte f pos); [|done]. destruct (Z.testbit flags 0); [|done].
  rewrite u32_small_id by lia. at_byte f (pos + 1). done.
Qed.

Lemma ihl_spec : let n := byte f 0 mod 16 in Z.land (byte f 0) 0xf = n /\ 0 <= n < 16.
Proof. cbv zeta. split; [apply land_15|apply Z.mod_pos_bound; lia]. Qed.

Lemma match_icmp_spec type code flags : match_icmp f type code flags = Ok (icmp_spec f type code flags).
Proof.
  destruct ihl_spec as [Hi1 Hi2]. unfold match_icmp, icmp_spec. destruct (is_ipv4 f) eqn:E4.
  - pose proof (is_ipv4_len f E4). at_byte f 9. unfold payload. rewrite E4. destruct (byte f 9 =? 0x01); [|done]. at_byte f 0. rewrite Hi1, (Z.mul_comm _ 4), u32_small_id by lia.
    destruct (Z.leb_spec (4 * (byte f 0 mod 16) + 2) (fr_len f)); [|done]. by rewrite match_icmp_at_spec by lia.
  - destruct (fr_etherType f =? ZT_ETHERTYPE_IPV6) eqn:E6; [|by rewrite payload_none]. apply Z.eqb_eq in E6. destruct (payload6_Ok f Hb Hl E4 E6) as [-> Hp].
    cbn [mbind outcome_bind]. destruct (payload f) as [[pos proto]|]; [|done]. destruct (Hp pos proto eq_refl) as [Hpos _]. rewrite u32_small_id by lia.
    change 0x3a with 58. destruct (proto =? 58); [|done]. cbn [andb]. destruct (Z.leb_spec (pos + 2) (fr_len f)); [|done]. by rewrite match_icmp_at_spec by lia.
Qed.

Lemma field_two pos : 0 <= pos -> pos + 2 <= fr_len f -> field f pos 2 = [byte f pos; byte f (pos + 1)].
Proof.
  intros H0 H1. pose proof (field_length f pos 2 H0 ltac:(lia) H1) as H. assert (E : forall k, (k < 2)%nat -> nth k (field f pos 2) 0 = byte f (pos + Z.of_nat k)).
  { intros k Hk. unfold field, slice, ztake, zdrop, byte. rewrite nth_lookup, lookup_take_lt, lookup_drop by lia. rewrite nth_lookup. do 2 f_equal. lia. }
  destruct (field f pos 2) as [|a [|b [|]]]; try done. pose proof (E 0%nat ltac:(lia)) as E0. pose proof (E 1%nat ltac:(lia)) as E1. cbn [nth] in E0, E1. rewrite E0, E1.
  by rewrite Z.add_0_r.
Qed.

Lemma read_port_spec rt pos proto : 0 <= pos <= fr_len f + 60 ->
  let p := be_val (field f (pos + if rt =? ZT_NETWORK_RULE_MATCH_IP_DEST_PORT_RANGE then 2 else 0) 2) in
  read_port f rt pos proto = Ok (if has_ports proto && (pos + 4 <? fr_len f) then p else -1) /\ 0 <= p.
Proof.
  intros Hp p. split; [|by destruct (be_val_range (field f (pos + (if rt =? ZT_NETWORK_RULE_MATCH_IP_DEST_PORT_RANGE then 2 else 0)) 2)); [by apply field_bytes|]].
  unfold read_port. destruct (has_ports proto); [|done]. rewrite (u32_small_id (pos + 4)) by lia. destruct (Z.ltb_spec (pos + 4) (fr_len f)); [|done]. cbn [andb]. cbv zeta.
  unfold p. set (q := pos + (if rt =? ZT_NETWORK_RULE_MATCH_IP_DEST_PORT_RANGE then 2 else 0)). assert (Hq : 0 <= q /\ q + 2 < fr_len f) by (unfold q; destruct (rt =? _); lia).
  rewrite (u32_small_id q), (u32_small_id (q + 1)) by lia. at_byte f q. at_byte f (q + 1). rewrite field_two by lia. f_equal.
  pose proof (byte_is_byte f Hb q). pose proof (byte_is_byte f Hb (q + 1)). unfold be_val. cbn. rewrite Z.shiftl_mul_pow2 by lia. rewrite (lor_cat 8); [lia|lia|lor_side|done].
Qed.

Lemma match_port_spec rt p0 p1 : match_port f rt p0 p1 = Ok (port_spec f rt p0 p1).
Proof.
  destruct ihl_spec as [Hi1 Hi2]. unfold match_port, port_spec. destruct (is_ipv4 f) eqn:E4.
  - pose proof (is_ipv4_len f E4). at_byte f 0. at_byte f 9. unfold payload. rewrite E4, Hi1. destruct (read_port_spec rt (4 * (byte f 0 mod 16)) (byte f 9) ltac:(lia)) as [-> Hp].
    cbn [mbind outcome_bind]. cbv zeta. cbn [orb]. rewrite andb_true_r. unfold between. destruct (has_ports _ && _); [|done]. by rewrite (proj2 (Z.leb_le _ _)).
  - destruct (fr_etherType f =? ZT_ETHERTYPE_IPV6) eqn:E6; [|by rewrite payload_none]. apply Z.eqb_eq in E6. destruct (payload6_Ok f Hb Hl E4 E6) as [-> Hp].
    cbn [mbind outcome_bind]. destruct (payload f) as [[pos proto]|]; [|done]. destruct (Hp pos proto eq_refl) as [Hpos _].
    destruct (read_port_spec rt pos proto ltac:(lia)) as [-> Hq]. cbn [mbind outcome_bind]. cbv zeta. set (p := be_val _) in *. unfold between. cbn [orb].
    destruct (has_ports _ && _); [|done]. f_equal. destruct (Z.ltb_spec 0 p), (Z.eqb_spec p 0); try lia; cbn [negb andb]; by rewrite ?andb_true_r, ?andb_false_r.
Qed.
End Matches.

(** *** Ownership *)

Lemma bit_if_orb a b x : bit_if (a || b) x = Z.lor (bit_if a x) (bit_if b x).
Proof. destruct a, b; cbn [bit_if orb]; by rewrite ?Z.lor_diag, ?Z.lor_0_r, ?Z.lor_0_l. Qed.
Lemma lor_if (b : bool) m x : (if b then Z.lor m x else m) = Z.lor m (bit_if b x).
Proof. destruct b; cbn [bit_if]; by rewrite ?Z.lor_0_r. Qed.

Lemma lor_mix a b c d e : Z.lor (Z.lor (Z.lor (Z.lor a b) c) d) e = Z.lor (Z.lor a (Z.lor b d)) (Z.lor c e).
Proof. apply Z.bits_inj'. intros n _. rewrite !Z.lor_spec. by destruct (Z.testbit a n), (Z.testbit b n), (Z.testbit c n), (Z.testbit d n), (Z.testbit e n). Qed.

Lemma existsb_filter {A B} (g : A -> B) (p q : B -> bool) l : existsb (fun x => p (g x) && q (g x)) l = existsb q (List.filter p (g <$> l)).
Proof. induction l as [|x l IH]; [done|]. cbn [existsb fmap list_fmap List.filter]. rewrite IH. by destruct (p (g x)). Qed.

Section Ownership.
Context (f : Frame) (Hb : Forall is_byte (fr_data f)).

Lemma sender_ip_spec : sender_ip f = Ok ((sender_spec f).1, bit_if (sender_spec f).2 ZT_RULE_PACKET_CHARACTERISTICS_SENDER_IP_AUTHENTICATED) /\ ia_wf (sender_spec f).1.
Proof.
  assert (H4 : forall off, 0 <= off -> off + 4 <= fr_len f -> ia_wf (IaV4 0 (field f off 4)) /\
    (a ← mem_read (fr_data f) off 4; a ← InetAddress_set a 4 0; Ok (a, 0)) = Ok (IaV4 0 (field f off 4), 0)).
  { intros off H0 H1. pose proof (field_length f off 4 H0 ltac:(lia) H1). split; [split_and!; [done|done|by apply field_bytes]|].
    rewrite frame_read_Ok by lia. cbn [mbind outcome_bind]. by rewrite set_v4. }
  assert (H6 : forall off, 0 <= off -> off + 16 <= fr_len f -> ia_wf (IaV6 0 0 (field f off 16) 0) /\
    (a ← mem_read (fr_data f) off 16; a ← InetAddress_set a 16 0; Ok (a, 0)) = Ok (IaV6 0 0 (field f off 16) 0, 0)).
  { intros off H0 H1. pose proof (field_length f off 16 H0 ltac:(lia) H1). split; [split_and!; [done|done|done|by apply field_bytes|done]|].
    rewrite frame_read_Ok by lia. cbn [mbind outcome_bind]. by rewrite set_v6. }
  assert (Hnull : ia_wf InetAddress_null) by (repeat split; try done; by apply Forall_replicate).
  unfold sender_ip, sender_spec. destruct (is_ipv4 f) eqn:E4.
  { apply is_ipv4_len in E4. destruct (H4 12) as [? ->]; [lia..|]. done. }
  destruct (is_ipv6 f) eqn:E6.
  - apply is_ipv6_len in E6 as [E6 _]. cbv zeta. change (40 + 8 + 16) with 64. change (40 + 8) with 48. destruct (H6 8) as [Hw8 H8]; [lia..|].
    destruct (Z.leb_spec 64 (fr_len f)); cbn [mbind outcome_bind andb]; [|by rewrite H8]. at_byte f 6. destruct (byte f 6 =? 0x3a); cbn [andb mbind outcome_bind]; [|by rewrite H8].
    at_byte f 40. destruct (Z.eqb_spec (byte f 40) 0x87) as [->|H87]; cbn [orb]; [done|]. destruct (byte f 40 =? 0x88); [|by rewrite H8].
    rewrite (proj2 (Z.eqb_neq _ _) H87). destruct (H6 48) as [? ->]; [lia..|]. done.
  - destruct (fr_etherType f =? ZT_ETHERTYPE_ARP); cbn [andb]; [|done]. destruct (Z.leb_spec 28 (fr_len f)); [|done]. destruct (H4 14) as [? ->]; [lia..|]. done.
Qed.

Lemma sender_is_ip : InetAddress_bool (sender_spec f).1 = true -> is_Some (ip_thing (sender_spec f).1).
Proof. unfold sender_spec. repeat case_match; done. Qed.

Lemma owns_sender c src : coo_wf c -> ia_wf src -> (if InetAddress_bool src then COO_owns_ip c src else Ok false) = Ok (from_option (COO_has c) false (ip_thing src)).
Proof.
  intros Hc Hs. destruct (InetAddress_bool src) eqn:E; [by apply COO_owns_ip_spec|]. destruct src as [p ip|p fl ip sc|fam raw]; [done|done|]. done.
Qed.

Lemma own_coos_spec src coos : ia_wf src -> Forall coo_wf coos -> forall mask,
  let owned x := existsb (fun c => COO_has c x) coos in
  own_coos f src coos mask =
    Ok (Z.lor (Z.lor mask (bit_if (from_option owned false (ip_thing src)) ZT_RULE_PACKET_CHARACTERISTICS_SENDER_IP_AUTHENTICATED))
          (bit_if (owned (mac_thing (fr_macSource f))) ZT_RULE_PACKET_CHARACTERISTICS_SENDER_MAC_AUTHENTICATED)).
Proof.
  intros Hs Hc. induction Hc as [|c coos Hc Hcs IH]; intros mask; cbv zeta.
  { cbn [own_coos existsb]. destruct (ip_thing src); cbn [from_option bit_if]; by rewrite !Z.lor_0_r. }
  cbn [own_coos existsb]. rewrite owns_sender by done. cbn [mbind outcome_bind]. rewrite COO_owns_mac_spec by done. cbn [mbind outcome_bind]. rewrite IH. cbv zeta.
  rewrite !lor_if, lor_mix, <- !bit_if_orb. do 3 f_equal. f_equal. by destruct (ip_thing src).
Qed.
End Ownership.

(** *** Integers in the frame *)

Section Integers.
Context (f : Frame) (Hb : Forall is_byte (fr_data f)) (Hl : fr_len f < 2 ^ 31).

Lemma field_S idx n : 0 <= idx -> 0 <= n -> idx + (1 + n) <= fr_len f -> field f idx (1 + n) = byte f idx :: field f (idx + 1) n.
Proof.
  intros H0 Hn H1. unfold field. rewrite (slice_split idx 1 (1 + n)) by lia. replace (1 + n - 1) with n by lia. change (slice (idx + 1) n (fr_data f)) with (field f (idx + 1) n).
  enough (slice idx 1 (fr_data f) = [byte f idx]) as -> by done.
  pose proof (field_length f idx 1 H0 ltac:(lia) ltac:(lia)) as H. unfold field in H. unfold byte. unfold slice, ztake, zdrop in *.
  rewrite nth_lookup, <- (Nat.add_0_r (Z.to_nat idx)), <- lookup_drop, Nat.add_0_r. by destruct (drop (Z.to_nat idx) (fr_data f)) as [|x l].
Qed.

Lemma read_be_spec n : forall idx acc, 0 <= idx -> idx + Z.of_nat n <= fr_len f -> (n <= 8)%nat -> in_range (64 - 8 * Z.of_nat n) acc ->
  read_be f n idx acc = Ok (acc * 2 ^ (8 * Z.of_nat n) + be_val (field f idx (Z.of_nat n))).
Proof.
  induction n as [|n IH]; intros idx acc H0 H1 H8 Ha.
  { cbn [read_be]. f_equal. change (field f idx (Z.of_nat 0)) with (slice idx 0 (fr_data f)). unfold slice. rewrite ztake_0. cbn. lia. }
  cbn [read_be]. at_byte f idx. pose proof (byte_is_byte f Hb idx) as Hbyte. rewrite Z.shiftl_mul_pow2 by lia.
  assert (Hacc : in_range (64 - 8 * Z.of_nat n) (acc * 2 ^ 8 + byte f idx)).
  { unfold in_range in *. replace (64 - 8 * Z.of_nat n) with (64 - 8 * Z.of_nat (S n) + 8) by lia. rewrite Z.pow_add_r by lia. nia. }
  unfold u64. rewrite wrap_id by (unfold in_range in *; pose proof (Z.pow_le_mono_r 2 (64 - 8 * Z.of_nat n) 64); lia). rewrite (lor_cat 8) by (lor_side || done).
  rewrite u32_small_id, IH by (lia || done). f_equal. replace (Z.of_nat (S n)) with (1 + Z.of_nat n) by lia. rewrite field_S by lia.
  change (byte f idx :: field f (idx + 1) (Z.of_nat n)) with ([byte f idx] ++ field f (idx + 1) (Z.of_nat n)). rewrite be_val_app.
  unfold zlen. rewrite field_length, Z2Nat.id by lia. replace (8 * (1 + Z.of_nat n)) with (8 + 8 * Z.of_nat n) by lia. rewrite Z.pow_add_r by lia. change (be_val [byte f idx]) with (byte f idx + 256 * 0). lia.
Qed.

Lemma read_le_spec n : forall idx k v, 0 <= idx -> idx + Z.of_nat n <= fr_len f -> 0 <= k -> k + Z.of_nat n <= 8 -> in_range (8 * k) v ->
  read_le f n idx (v * 2 ^ (64 - 8 * k)) = Ok ((v + 2 ^ (8 * k) * le_val (field f idx (Z.of_nat n))) * 2 ^ (64 - 8 * (k + Z.of_nat n))).
Proof.
  induction n as [|n IH]; intros idx k v H0 H1 Hk H8 Hv.
  { cbn [read_le]. f_equal. change (field f idx (Z.of_nat 0)) with (slice idx 0 (fr_data f)). unfold slice. rewrite ztake_0. cbn [le_val]. change (Z.of_nat 0) with 0. rewrite Z.add_0_r. f_equal. lia. }
  cbn [read_le]. at_byte f idx. pose proof (byte_is_byte f Hb idx) as Hbyte.
  assert (Hp : 2 ^ (64 - 8 * k) = 2 ^ (64 - 8 * (k + 1)) * 2 ^ 8) by (rewrite <- Z.pow_add_r by lia; f_equal; lia).
  assert (Hq : 2 ^ 56 = 2 ^ (8 * k) * 2 ^ (64 - 8 * (k + 1))) by (rewrite <- Z.pow_add_r by lia; f_equal; lia).
  assert (Hpos : 0 < 2 ^ (64 - 8 * (k + 1))) by (apply Z.pow_pos_nonneg; lia).
  rewrite Hp, Z.mul_assoc, Z.shiftr_div_pow2, Z.div_mul by lia. rewrite Z.shiftl_mul_pow2 by lia. unfold u64. rewrite wrap_id by (unfold in_range in *; lia).
  rewrite Z.lor_comm, (lor_cat 56) by (lia || (rewrite Z.mod_mul; lia) || (unfold in_range in *; rewrite Hq; nia)).
  replace (byte f idx * 2 ^ 56 + v * 2 ^ (64 - 8 * (k + 1))) with ((v + 2 ^ (8 * k) * byte f idx) * 2 ^ (64 - 8 * (k + 1))) by (rewrite Hq; ring).
  rewrite u32_small_id, IH by (lia || (unfold in_range in *; replace (8 * (k + 1)) with (8 * k + 8) by lia; rewrite Z.pow_add_r by lia; nia)).
  f_equal. replace (Z.of_nat (S n)) with (1 + Z.of_nat n) by lia. rewrite field_S by lia. cbn [le_val]. replace (8 * (k + 1)) with (8 * k + 8) by lia.
  rewrite Z.pow_add_r by lia. rewrite Z.add_assoc. f_equal. change (2 ^ 8) with 256. ring.
Qed.

Lemma match_integer_spec start end_ idx format : is_u16 idx -> is_byte format ->
  match_integer f start end_ idx format = Ok (between start (integer_spec f idx format) (u64 (start + end_))).
Proof.
  intros Hi Hf. unfold match_integer, integer_spec, between.
  assert (Hfmt : (Z.land format 63 =? format mod 64) && Bool.eqb (Z.land format 0x80 =? 0) (negb (Z.testbit format 7)) = true) by (revert format Hf; by apply byte_forall).
  apply andb_true_iff in Hfmt as [E1 E2]. apply Z.eqb_eq in E1. apply eqb_prop in E2. rewrite E1, E2. cbv zeta. pose proof (Z.mod_pos_bound format 64 ltac:(lia)) as Hm.
  set (bits := format mod 64 + 1) in *. replace (bits + 8 - 1) with (bits + 7) by lia. assert (Hbits : 1 <= bits <= 64) by lia. set (bytes := (bits + 7) / 8).
  assert (Hbytes : 1 <= bytes <= 8 /\ bits <= 8 * bytes) by (unfold bytes; Z.div_mod_to_equations; lia). unfold in_range in Hi.
  destruct (Z.testbit format 7); cbn [negb].
  - rewrite u32_small_id by lia. destruct (idx + bytes <=? fr_len f) eqn:E; cbn [mbind outcome_bind]; [|by rewrite Z.shiftr_0_l]. apply Z.leb_le in E.
    pose proof (read_le_spec (Z.to_nat bytes) idx 0 0) as H. rewrite Z2Nat.id in H by lia. replace (Z.to_nat (idx + bytes - idx)) with (Z.to_nat bytes) by lia.
    change (0 * 2 ^ (64 - 8 * 0)) with 0 in H. rewrite H by (lia || done). cbn [mbind outcome_bind]. rewrite Z.shiftr_div_pow2 by lia.
    replace (64 - bits) with (64 - 8 * (0 + bytes) + (8 * bytes - bits)) by lia. rewrite Z.pow_add_r by lia. rewrite <- Z.div_div by (try apply Z.pow_nonzero; try apply Z.pow_pos_nonneg; lia).
    rewrite Z.div_mul by (apply Z.pow_nonzero; lia). change (2 ^ (8 * 0)) with 1. by rewrite Z.add_0_l, Z.mul_1_l.
  - rewrite (u32_small_id (idx + (8 - bytes))), u32_small_id by lia. replace (idx + (8 - bytes) + bytes) with (idx + 8) by lia.
    destruct (idx + 8 <=? fr_len f) eqn:E; cbn [mbind outcome_bind]; [|done]. apply Z.leb_le in E.
    pose proof (read_be_spec (Z.to_nat bytes) (idx + (8 - bytes)) 0) as H. rewrite Z2Nat.id in H by lia. replace (Z.to_nat (idx + 8 - (idx + (8 - bytes)))) with (Z.to_nat bytes) by lia.
    rewrite H by (lia || (split; [lia|apply Z.pow_pos_nonneg; lia])). cbn [mbind outcome_bind]. rewrite Z.add_0_l.
    replace (Z.shiftr 0xffffffffffffffff (64 - bits)) with (2 ^ bits - 1); [rewrite land_mask by lia; do 3 f_equal; f_equal; f_equal; f_equal; lia|].
    rewrite Z.shiftr_div_pow2 by lia. change 0xffffffffffffffff with (2 ^ 64 - 1). assert (E64 : 2 ^ 64 = 2 ^ bits * 2 ^ (64 - bits)) by (rewrite <- Z.pow_add_r by lia; f_equal; lia). rewrite E64.
    set (x := 2 ^ bits). set (y := 2 ^ (64 - bits)). assert (0 < y) by (apply Z.pow_pos_nonneg; lia). apply (Z.div_unique _ _ _ (y - 1)); lia.
Qed.
End Integers.

(** *** One rule *)

(** A TCP header that is not cut off. *)
Definition tcp_whole (f : Frame) : Prop := is_ipv4 f = true -> byte f 9 = 6 -> 4 * (byte f 0 mod 16) + 13 < fr_len f.

(** A rule with a mask that is not too long. *)
Definition mask_ok (v : rule_value) : Prop :=
  match v with VIpv4 _ mask => mask <= 32 | VIpv6 _ mask => mask <= 128 | _ => True end.
Definition rule_ok (f : Frame) (r : Rule) : Prop :=
  rule_wf r /\ mask_ok (rl_v r) /\ (member_of (rule_type r) = MCharacteristics -> tcp_whole f).

Record nconf_ok (nconf : NetworkConfig) : Prop := {
  nk_time : time_ok (nc_timestamp nconf);
  nk_coos : Forall coo_wf (nc_certificatesOfOwnership nconf);
  nk_tags : StronglySorted Z.le (tag_id <$> nc_tags nconf)
}.

Record frame_ok (f : Frame) : Prop := { fk_bytes : Forall is_byte (fr_data f); fk_len : fr_len f < 2 ^ 31 }.

(** The addresses of a source that was verified. *)
Definition member_ok `{Ops : C25519Ops} (membership : option Membership) : Prop :=
  forall m, membership = Some m -> exists getIdentity n, ms_inv getIdentity n m.

Lemma lower_bound_spec nconf id : StronglySorted Z.le (tag_id <$> nc_tags nconf) -> local_tag nconf id = NetworkConfig_tag nconf id.
Proof.
  unfold local_tag, tags_lower_bound, NetworkConfig_tag. induction (nc_tags nconf) as [|t l IH]; [done|]. rewrite fmap_cons. intros [Hs Ht]%StronglySorted_inv. cbn [List.find].
  destruct (Z.ltb_spec (tag_id t) id) as [Hlt|Hge]; cbn [negb]; [rewrite (proj2 (Z.eqb_neq _ _)) by lia; by apply IH|].
  destruct (Z.eqb_spec (tag_id t) id) as [|Hne]; [done|]. clear IH Hs. induction l as [|t' l IH]; [done|]. rewrite fmap_cons in Ht. apply Forall_cons in Ht as [Ht1 Ht2].
  cbn [List.find]. rewrite (proj2 (Z.eqb_neq _ _)) by lia. by apply IH.
Qed.

Section OneRule.
Context `{Ops : C25519Ops} (nconf : NetworkConfig) (membership : option Membership) (inbound : bool) (ztSource : Z) (f : Frame).
Context (Hn : nconf_ok nconf) (Hf : frame_ok f) (Hm : member_ok membership).

Lemma remote_tag_Ok id : remote_tag nconf membership id = Ok (remote_tag_spec nconf membership id).
Proof.
  unfold remote_tag, remote_tag_spec. destruct membership as [m|]; [|done]. destruct (Hm m eq_refl) as (g & n & Hi). eapply getTag_spec; [done|apply Hn].
Qed.

Lemma match_tags_spec sa rt id value : match_tags nconf membership inbound sa rt id value = Ok (tags_spec nconf membership inbound sa rt id value).
Proof.
  unfold match_tags, tags_spec. rewrite lower_bound_spec by apply Hn. destruct (NetworkConfig_tag nconf id) as [l|]; [|done]. rewrite remote_tag_Ok. cbn [mbind outcome_bind].
  destruct (remote_tag_spec nconf membership id); [done|]. by destruct inbound, sa.
Qed.

Lemma match_tag_side_spec sa rt id value : rt = ZT_NETWORK_RULE_MATCH_TAG_SENDER \/ rt = ZT_NETWORK_RULE_MATCH_TAG_RECEIVER ->
  match_tag_side nconf membership inbound sa rt id value = Ok (tag_side_spec nconf membership inbound sa rt id value).
Proof.
  intros Hrt. unfold match_tag_side, tag_side_spec. destruct sa; [done|]. rewrite lower_bound_spec, remote_tag_Ok by apply Hn.
  destruct Hrt as [-> | ->], inbound; cbn [orb andb negb Bool.eqb Z.eqb]; cbn [mbind outcome_bind];
    destruct (remote_tag_spec nconf membership id), (NetworkConfig_tag nconf id); done.
Qed.

Lemma ownership_spec :
  let owned x := existsb (fun c => COO_has c x) (sender_coos nconf membership inbound) in
  ownershipVerificationMask nconf membership inbound f =
    Ok (Z.lor (bit_if ((sender_spec f).2 || from_option owned false (ip_thing (sender_spec f).1)) ZT_RULE_PACKET_CHARACTERISTICS_SENDER_IP_AUTHENTICATED)
          (bit_if (owned (mac_thing (fr_macSource f))) ZT_RULE_PACKET_CHARACTERISTICS_SENDER_MAC_AUTHENTICATED)).
Proof.
  cbv zeta. unfold ownershipVerificationMask. destruct (sender_ip_spec f (fk_bytes f Hf)) as [-> Hw]. cbn [mbind outcome_bind]. rewrite bit_if_orb.
  pose proof (sender_is_ip f) as Hip. destruct (sender_spec f) as [src ndp].
  cbn [fst snd] in *. unfold sender_coos. destruct inbound; [|by rewrite own_coos_spec by (done || apply Hn)].
  destruct membership as [m|]; [|cbn [existsb]; destruct (ip_thing src); cbn [from_option bit_if]; by rewrite !Z.lor_0_r]. destruct (Hm m eq_refl) as (g & n & Hi).
  assert (Hown : forall owns x, (forall c, coo_wf c -> owns c = Ok (COO_has c x)) -> Membership_hasCertificateOfOwnershipFor m nconf owns =
    Ok (existsb (fun c => COO_has c x) (List.filter (timestamp_valid (ht_map (ms_revocations m)) nconf) (snd <$> ht_list (ms_remoteCoos m))))).
  { intros owns x Ho. rewrite (hasCertificateOfOwnershipFor_spec g n m nconf owns (fun c => COO_has c x) Hi (nk_time nconf Hn) Ho).
    by rewrite (existsb_filter snd (timestamp_valid (ht_map (ms_revocations m)) nconf) (fun c => COO_has c x)). }
  rewrite (Hown _ (mac_thing (fr_macSource f))) by (intros; by apply COO_owns_mac_spec).
  destruct (InetAddress_bool src) eqn:Es.
  - destruct (Hip eq_refl) as [x Ex].
    rewrite (Hown _ x) by (intros c Hc; by rewrite COO_owns_ip_spec, Ex). rewrite Ex. cbn [mbind outcome_bind from_option]. by rewrite !lor_if.
  - destruct src as [| |fam raw]; [done..|]. cbn [mbind outcome_bind ip_thing from_option bit_if]. by rewrite !lor_if, !Z.lor_0_r.
Qed.

Lemma tcp_flags_Ok pos : 0 <= pos -> pos + 13 < fr_len f -> tcp_flags f pos = Ok (byte f (pos + 13) + 256 * (byte f (pos + 12) mod 16)).
Proof.
  intros H0 H1. pose proof (fk_len f Hf). unfold tcp_flags. rewrite !u32_small_id by lia. at_byte f (pos + 13). at_byte f (pos + 12). rewrite land_15, Z.shiftl_mul_pow2 by lia.
  pose proof (byte_is_byte f (fk_bytes f Hf) (pos + 13)). rewrite Z.lor_comm, (lor_cat 8) by (done || lor_side). f_equal. change (2 ^ 4) with 16. lia.
Qed.

Lemma match_characteristics_spec c : tcp_whole f ->
  match_characteristics nconf membership inbound f c = Ok (negb (Z.land (characteristics_spec nconf membership inbound f) c =? 0)).
Proof.
  intros Htcp. unfold match_characteristics, characteristics_spec. cbv zeta. rewrite ownership_spec. cbn [mbind outcome_bind]. rewrite !lor_if, Z.lor_assoc.
  change (if inbound then ZT_RULE_PACKET_CHARACTERISTICS_INBOUND else 0) with (bit_if inbound ZT_RULE_PACKET_CHARACTERISTICS_INBOUND).
  set (cf := Z.lor (Z.lor _ _) _). enough (H : forall cf, (v4tcp ← (if is_ipv4 f then proto ← load (fr_data f) 9; Ok (proto =? 0x06) else Ok false);
    (if (v4tcp : bool) then b0 ← load (fr_data f) 0; flags ← tcp_flags f (4 * Z.land b0 0xf); Ok (Z.lor cf flags)
     else if fr_etherType f =? ZT_ETHERTYPE_IPV6 then r ← ipv6GetPayload (fr_data f);
       match r with Some (pos, proto) => if (proto =? 0x06) && (u32 (pos + 14) <? fr_len f) then flags ← tcp_flags f pos; Ok (Z.lor cf flags) else Ok cf | None => Ok cf end
     else Ok cf)) = Ok (Z.lor cf (tcp_spec f))).
  { specialize (H cf). destruct (if is_ipv4 f then _ else _) as [v4tcp| |]; cbn [mbind outcome_bind] in *; [by rewrite H|done..]. }
  clear cf. intros cf. unfold tcp_spec. pose proof (fk_len f Hf). destruct (is_ipv4 f) eqn:E4.
  - pose proof (is_ipv4_len f E4). at_byte f 9. at_byte f 0. unfold payload. rewrite E4. rewrite andb_true_r.
    destruct (Z.eqb_spec (byte f 9) 0x06) as [E9|E9].
    + rewrite land_15. change (2 ^ 4) with 16. pose proof (Z.mod_pos_bound (byte f 0) 16 ltac:(lia)). rewrite tcp_flags_Ok; [done|lia|by apply Htcp].
    + unfold is_ipv4 in E4. apply andb_true_iff in E4 as [E4 _]. apply Z.eqb_eq in E4. rewrite E4. by rewrite Z.lor_0_r.
  - cbn [mbind outcome_bind]. destruct (fr_etherType f =? ZT_ETHERTYPE_IPV6) eqn:E6; [|rewrite payload_none by done; by rewrite Z.lor_0_r]. apply Z.eqb_eq in E6.
    destruct (payload6_Ok f (fk_bytes f Hf) (fk_len f Hf) E4 E6) as [-> Hp]. cbn [mbind outcome_bind]. destruct (payload f) as [[pos proto]|]; [|by rewrite Z.lor_0_r].
    destruct (Hp pos proto eq_refl) as [Hpos _]. rewrite u32_small_id by lia. cbn [orb]. destruct (proto =? 6), (Z.ltb_spec (pos + 14) (fr_len f)); cbn [andb bit_if];
      try (by rewrite Z.lor_0_r). by rewrite tcp_flags_Ok by lia.
Qed.
End OneRule.

Lemma rule_type_byte r : is_byte (rl_t r) -> is_byte (rule_type r).
Proof. intros [H _]. apply (in_range_weaken 6); [lia|]. apply in_range_land; [lia|done|done]. Qed.

(** What the type of a rule says about its number. *)
Lemma member_numbers rt : is_byte rt ->
  (member_of rt = MTag -> ZT_NETWORK_RULE_MATCH_TAGS_EQUAL < rt -> rt = ZT_NETWORK_RULE_MATCH_TAG_SENDER \/ rt = ZT_NETWORK_RULE_MATCH_TAG_RECEIVER) /\
  (member_of rt = MFwd <-> is_forward rt = true) /\ (is_forward rt = true -> rt <= ZT_NETWORK_RULE_ACTION__MAX_ID).
Proof.
  intros Hrt. assert (H : match member_of rt with MTag => rt <=? 50 | _ => true end &&
    Bool.eqb (match member_of rt with MFwd => true | _ => false end) (is_forward rt) && (negb (is_forward rt) || (rt <=? ZT_NETWORK_RULE_ACTION__MAX_ID)) = true).
  { revert rt Hrt. by apply byte_forall. }
  apply andb_true_iff in H as [[H1 H2]%andb_true_iff H3]. apply eqb_prop in H2. split_and!.
  - intros E Hlt. rewrite E in H1. apply Z.leb_le in H1. unfold ZT_NETWORK_RULE_MATCH_TAGS_EQUAL, ZT_NETWORK_RULE_MATCH_TAG_SENDER, ZT_NETWORK_RULE_MATCH_TAG_RECEIVER in *. lia.
  - rewrite <- H2. by destruct (member_of rt).
  - intros E. rewrite E in H3. by apply Z.leb_le.
Qed.

Lemma rule_bits r : is_byte (rl_t r) -> (Z.land (rl_t r) 0x40 =? 0) = negb (is_or r) /\ negb (Z.land (Z.shiftr (rl_t r) 7) 1 =? 0) = inverted r.
Proof.
  intros Ht. unfold is_or, inverted. assert (H : Bool.eqb (Z.land (rl_t r) 0x40 =? 0) (negb (Z.testbit (rl_t r) 6)) &&
    Bool.eqb (negb (Z.land (Z.shiftr (rl_t r) 7) 1 =? 0)) (Z.testbit (rl_t r) 7) = true) by (revert Ht; generalize (rl_t r); by apply byte_forall).
  apply andb_true_iff in H as [H1 H2]. split; by apply eqb_prop.
Qed.

Lemma log_or_Ok l rn v : zlen l = 512 -> 0 <= rn < ZT_MAX_NETWORK_RULES -> exists l', log_or l rn v = Ok l' /\ zlen l' = 512.
Proof.
  unfold ZT_MAX_NETWORK_RULES. intros Hl Hr. unfold log_or. assert (Hi : 0 <= Z.shiftr rn 1 < 512) by (rewrite Z.shiftr_div_pow2 by lia; change (2 ^ 1) with 2; Z.div_mod_to_equations; lia).
  unfold load. destruct (proj2 (zget_range l (Z.shiftr rn 1))) as [x ->]; [lia|]. cbn [mbind outcome_bind].
  match goal with |- context [mem_write l _ [?y]] => destruct (mem_write_one l (Z.shiftr rn 1) y) as (l' & -> & H & _) end; [lia|]. exists l'. split; [done|lia].
Qed.

Definition is_random (r : Rule) : bool := match member_of (rule_type r) with MRandomProbability => true | _ => false end.

Section Refinement.
Context `{Ops : C25519Ops} (self : Z) (nconf : NetworkConfig) (membership : option Membership) (inbound : bool) (ztSource : Z) (f : Frame).
Context (Hn : nconf_ok nconf) (Hf : frame_ok f) (Hm : member_ok membership).

Lemma rule_matches_spec sa ztDest rng r : rule_ok f r -> is_action r = false ->
  exists b rng', rule_matches nconf membership inbound ztSource f sa ztDest rng r = Ok (b, rng') /\
    (is_random r = false -> b = rule_spec nconf membership inbound ztSource f sa ztDest r /\ rng' = rng).
Proof.
  intros (Hr & Hmask & Htcp) Ha. destruct Hr as [Ht Hv]. pose proof (rule_type_byte r Ht) as Hrt. destruct (member_numbers _ Hrt) as (Htag & Hfwd & Hact).
  unfold rule_matches, rule_spec, is_random. cbv zeta. destruct Hf as [Hb Hl].
  assert (Hk : forall (o : outcome bool) (b : bool), o = Ok b -> forall q : Prop, exists b' rng', (b ← o; Ok (b, rng)) = Ok (b', rng') /\ (q -> b' = b /\ rng' = rng)).
  { intros o b -> q. exists b, rng. done. }
  destruct (member_of (rule_type r)) eqn:Em, (rl_v r); try done; cbn [value_wf mask_ok] in Hv, Hmask; destruct_and?; try (apply Hk; try done).
  - apply match_ipv6_spec; try done; [unfold zlen in *; lia|]. destruct (_ =? _); auto.
  - apply match_ipv4_spec; try done; [unfold zlen in *; lia|]. destruct (_ =? _); auto.
  - by apply match_integer_spec.
  - by apply match_characteristics_spec; [..|apply Htcp].
  - by apply match_port_spec.
  - destruct (Node_prng rng) as [x rng']. eexists _, _. split; [done|]. done.
  - match goal with H : zlen ?l = 6 |- _ => assert (Hlen : length l = 6%nat) by (unfold zlen in H; lia); destruct l as [|b0 [|b1 [|b2 [|b3 [|b4 [|b5 [|]]]]]]]; try done end.
    by rewrite MAC_setTo_be_val.
  - by apply match_protocol_spec.
  - by apply match_tos_spec.
  - by apply match_icmp_spec.
  - destruct (Z.leb_spec (rule_type r) ZT_NETWORK_RULE_MATCH_TAGS_EQUAL); [by apply match_tags_spec|]. apply match_tag_side_spec; [done..|]. by apply Htag.
  - unfold is_action in Ha. apply Z.leb_gt in Ha. specialize (Hact (proj1 Hfwd eq_refl)). lia.
Qed.

Definition fs_view (st : FilterState) : Verdict := mkVerdict (fs_ztDest st) (fs_cc st) (fs_ccLength st) (fs_ccWatch st).

Lemma is_forward_fwd r : rule_wf r -> is_forward (rule_type r) = true -> exists a fl n, rl_v r = VFwd a fl n.
Proof.
  intros [Ht Hv] Hfw. destruct (member_numbers _ (rule_type_byte r Ht)) as (_ & Hfwd & _). rewrite (proj2 Hfwd Hfw) in Hv. destruct (rl_v r); try done. eauto.
Qed.

Lemma take_action_spec sa r st : rule_wf r -> exists st' res, take_action self inbound ztSource f sa r st = Ok (st', res) /\
  (fs_view st', res) = action_spec self inbound ztSource f sa r (fs_view st) /\ fs_log st' = fs_log st /\ fs_prng st' = fs_prng st.
Proof.
  intros Hw. unfold take_action, action_spec. cbv zeta. destruct (is_forward (rule_type r)) eqn:Ef.
  - destruct (is_forward_fwd r Hw Ef) as (a & fl & n & Hv). unfold forward_to. rewrite Hv, Ef.
    assert (H01 : (rule_type r =? ZT_NETWORK_RULE_ACTION_DROP) = false /\ (rule_type r =? ZT_NETWORK_RULE_ACTION_ACCEPT) = false).
    { unfold is_forward, ZT_NETWORK_RULE_ACTION_DROP, ZT_NETWORK_RULE_ACTION_ACCEPT, ZT_NETWORK_RULE_ACTION_TEE, ZT_NETWORK_RULE_ACTION_WATCH, ZT_NETWORK_RULE_ACTION_REDIRECT in *. lia. }
    destruct H01 as [-> ->]. destruct (_ =? ztSource); [eauto 10|]. destruct (_ =? self); [eauto 10|]. cbn [fs_view vd_ztDest]. destruct (_ =? fs_ztDest st); [eauto 10|].
    destruct (rule_type r =? ZT_NETWORK_RULE_ACTION_REDIRECT); [eexists _, _; split_and!; done|]. eexists _, _; split_and!; [done| |done|done].
    unfold fs_view. cbn. do 2 f_equal. destruct (n =? 0); [done|]. cbn [negb]. destruct (Z.ltb_spec (fr_len f) n); lia.
  - assert (forward_to r = None) as -> by (unfold forward_to; destruct (rl_v r); by rewrite ?Ef). destruct (_ =? ZT_NETWORK_RULE_ACTION_DROP); [eauto 10|].
    destruct (_ =? ZT_NETWORK_RULE_ACTION_ACCEPT); [eauto 10|]. destruct (_ =? ZT_NETWORK_RULE_ACTION_BREAK); eauto 10.
Qed.

Lemma skip_action_spec sa r : rule_wf r ->
  skip_action self inbound sa r = Ok (sa || (inbound && match forward_to r with Some (a, _) => self =? a | None => false end)).
Proof.
  intros Hw. unfold skip_action, forward_to. destruct inbound; cbn [andb]; [|by rewrite orb_false_r]. destruct (is_forward (rule_type r)) eqn:Ef.
  - destruct (is_forward_fwd r Hw Ef) as (a & fl & n & ->). f_equal. unfold Address_of_int. destruct (self =? _), sa; done.
  - destruct (rl_v r); by rewrite ?Ef, orb_false_r.
Qed.

(** [calm] stands for: no rule is a random one. *)
Lemma filter_loop_spec (calm : Prop) rules : forall rn sa s ms st, (calm -> Forall (fun r => is_random r = false) rules) ->
  Forall (rule_ok f) rules -> zlen (fs_log st) = 512 -> 0 <= rn -> rn + zlen rules <= ZT_MAX_NETWORK_RULES ->
  (calm -> s = set_matches nconf membership inbound ztSource f sa (fs_ztDest st) ms) ->
  exists res st', filter_loop self nconf membership inbound ztSource f rn sa s rules st = Ok (res, st') /\
    (calm -> (res, fs_view st') = filter_spec self nconf membership inbound ztSource f sa (rule_sets ms rules) (fs_view st) /\ fs_prng st' = fs_prng st).
Proof.
  induction rules as [|r rules IH]; intros rn sa s ms st Hq Hr Hlog Hrn Hmax Hs; [by eexists _, _|].
  apply Forall_cons in Hr as [Hr Hrs]. assert (Hz : zlen (r :: rules) = zlen rules + 1) by (unfold zlen; cbn [length]; lia). rewrite Hz in Hmax. pose proof (zlen_nonneg rules) as Hz0.
  assert (Hq1 : calm -> is_random r = false) by (intros Hc; by apply Hq in Hc as [? _]%Forall_cons).
  assert (Hq2 : calm -> Forall (fun r => is_random r = false) rules) by (intros Hc; by apply Hq in Hc as [_ ?]%Forall_cons). clear Hq.
  cbn [filter_loop rule_sets]. unfold is_action. destruct (rule_type r <=? ZT_NETWORK_RULE_ACTION__MAX_ID) eqn:Ea.
  - destruct s.
    + destruct (take_action_spec sa r st (proj1 Hr)) as (st1 & res & -> & Hv & Hl1 & Hp1). cbn [mbind outcome_bind]. destruct res as [res|].
      * exists res, st1. split; [done|]. intros Hc. cbn [filter_spec fs_view vd_ztDest]. rewrite <- (Hs Hc), <- Hv. done.
      * destruct (IH (rn + 1) sa true [] st1) as (res & st' & -> & H); [done|done|congruence|lia|lia|done|]. exists res, st'. split; [done|]. intros Hc. rewrite <- Hp1.
        cbn [filter_spec fs_view vd_ztDest]. rewrite <- (Hs Hc), <- Hv. by apply H.
    + rewrite skip_action_spec by apply Hr. cbn [mbind outcome_bind].
      match goal with |- context [filter_loop _ _ _ _ _ _ _ ?sa' _ _ _] => destruct (IH (rn + 1) sa' true [] st) as (res & st' & -> & H) end; [done|done|done|lia|lia|done|].
      exists res, st'. split; [done|]. intros Hc. cbn [filter_spec fs_view vd_ztDest]. rewrite <- (Hs Hc). by apply H.
  - destruct (rule_bits r (proj1 (proj1 Hr))) as [Hor Hinv].
    assert (Hstep : forall s' st1, zlen (fs_log st1) = 512 -> fs_view st1 = fs_view st -> (calm -> fs_prng st1 = fs_prng st) ->
      (calm -> s' = combine_match nconf membership inbound ztSource f sa (fs_ztDest st) s r) ->
      exists res st', filter_loop self nconf membership inbound ztSource f (rn + 1) sa s' rules st1 = Ok (res, st') /\
        (calm -> (res, fs_view st') = filter_spec self nconf membership inbound ztSource f sa (rule_sets (ms ++ [r]) rules) (fs_view st) /\ fs_prng st' = fs_prng st)).
    { intros s' st1 Hl1 Hv1 Hp1 Hs'. pose proof (f_equal vd_ztDest Hv1) as Hd1. cbn in Hd1.
      destruct (IH (rn + 1) sa s' (ms ++ [r]) st1) as (res & st' & -> & H); [done|done|done|lia|lia| |].
      - intros Hc. unfold set_matches. rewrite fold_left_app. cbn [fold_left]. rewrite Hd1, Hs' by done. by rewrite (Hs Hc).
      - exists res, st'. split; [done|]. intros Hc. rewrite <- Hv1, <- Hp1 by done. by apply H. }
    rewrite Hor, Hinv. destruct (negb s && negb (is_or r)) eqn:Eskip.
    + apply andb_true_iff in Eskip as [Es%negb_true_iff Eo%negb_true_iff]. subst s. destruct (log_or_Ok (fs_log st) rn (Z.b2z false + 1)) as (l & El & Hll); [done|lia|].
      unfold RuleResultLog_logSkipped. rewrite El. cbn [mbind outcome_bind]. apply Hstep; [done..|]. intros _. unfold combine_match. by rewrite Eo.
    + destruct (rule_matches_spec sa (fs_ztDest st) (fs_prng st) r Hr Ea) as (b & rng & -> & Hb). cbn [mbind outcome_bind]. unfold RuleResultLog_log.
      match goal with |- context [log_or ?l ?n ?v] => destruct (log_or_Ok l n v) as (l' & -> & Hll) end; [done|lia|]. cbn [mbind outcome_bind]. apply Hstep; [done|done| |].
      * intros Hc. by apply Hb, Hq1.
      * intros Hc. destruct (Hb (Hq1 Hc)) as [-> _]. unfold combine_match. by rewrite negb_involutive.
Qed.
End Refinement.

(** *** Where a frame may go
    For any rules and any frame. *)

Section Targets.
Context `{Ops : C25519Ops} (self : Z) (nconf : NetworkConfig) (membership : option Membership) (inbound : bool) (ztSource : Z) (f : Frame).

(** Some rule of [rules] forwards to [a]. *)
Definition forwards_to (rules : list Rule) (a : Z) : Prop := exists r, r ∈ rules /\ exists n, forward_to r = Some (a, n).

(** What a run of [rules] from [st] to [st'] may have done. *)
Record targets_ok (rules : list Rule) (st : FilterState) (res : FilterResult) (st' : FilterState) : Prop := {
  to_redirect : res = DOZTFILTER_REDIRECT ->
    forwards_to rules (fs_ztDest st') /\ fs_ztDest st' <> ztSource /\ fs_ztDest st' <> self /\ fs_ztDest st' <> fs_ztDest st;
  to_keep : res <> DOZTFILTER_REDIRECT -> fs_ztDest st' = fs_ztDest st;
  to_copy : (fs_cc st', fs_ccLength st', fs_ccWatch st') = (fs_cc st, fs_ccLength st, fs_ccWatch st) \/
    forwards_to rules (fs_cc st') /\ fs_cc st' <> ztSource /\ fs_cc st' <> self /\ fs_cc st' <> fs_ztDest st /\ fs_ccLength st' <= fr_len f
}.

Lemma forwards_to_cons r rules a : forwards_to rules a -> forwards_to (r :: rules) a.
Proof. intros (r' & Hr' & H). exists r'. split; [by right|done]. Qed.

Lemma forwards_to_here r rules a n : forward_to r = Some (a, n) -> forwards_to (r :: rules) a.
Proof. intros H. exists r. split; [by left|eauto]. Qed.

Lemma take_action_targets sa r st st1 res : take_action self inbound ztSource f sa r st = Ok (st1, res) ->
  targets_ok [r] st (default DOZTFILTER_NO_MATCH res) st1 /\
  (res = Some DOZTFILTER_SUPER_ACCEPT -> sa = true \/ inbound = true /\ forwards_to [r] self) /\ (res = None -> fs_ztDest st1 = fs_ztDest st).
Proof.
  unfold take_action. cbv zeta. assert (Hsame : forall res, res <> DOZTFILTER_REDIRECT -> targets_ok [r] st res st) by (intros; split; [done|done|by left]).
  destruct (_ =? ZT_NETWORK_RULE_ACTION_DROP); [intros [= <- <-]; split_and!; [by apply Hsame|done|done]|].
  destruct (_ =? ZT_NETWORK_RULE_ACTION_ACCEPT); [intros [= <- <-]; destruct sa; split_and!; try done; try (by apply Hsame); by left|].
  destruct (is_forward (rule_type r)) eqn:Ef; [|destruct (_ =? ZT_NETWORK_RULE_ACTION_BREAK); intros [= <- <-]; split_and!; try done; by apply Hsame].
  destruct (rl_v r) as [| | | | | | | | | | | | | | | | |address fl n|] eqn:Ev; try done.
  assert (Hfwd : forwards_to [r] (Address_of_int address)) by (eapply (forwards_to_here r []); unfold forward_to; by rewrite Ev, Ef).
  destruct (Z.eqb_spec (Address_of_int address) ztSource); [intros [= <- <-]; split_and!; [by apply Hsame|done|done]|].
  destruct (Z.eqb_spec (Address_of_int address) self) as [Eself|].
  { destruct inbound; intros [= <- <-]; split_and!; try done; try (by apply Hsame). intros _. right. split; [done|]. by rewrite <- Eself. }
  destruct (Z.eqb_spec (Address_of_int address) (fs_ztDest st)); [intros [= <- <-]; split_and!; [by apply Hsame|done|done]|].
  destruct (rule_type r =? ZT_NETWORK_RULE_ACTION_REDIRECT); intros [= <- <-]; cbn [default]; (split_and!; [|done|done]); split; cbn; try done; [by left|].
  right. split_and!; try done. destruct (negb (n =? 0)); [|lia]. destruct (Z.ltb_spec (fr_len f) n); lia.
Qed.

Lemma targets_ok_cons r rules st st1 res st' : targets_ok [r] st DOZTFILTER_NO_MATCH st1 -> targets_ok rules st1 res st' -> targets_ok (r :: rules) st res st'.
Proof.
  intros [_ Hk1 Hc1] [Hr2 Hk2 Hc2]. rewrite (Hk1 ltac:(done)) in *. split; [|done|].
  - intros E. destruct (Hr2 E) as (H1 & H2). split; [by apply forwards_to_cons|done].
  - destruct Hc2 as [[= -> -> ->]|(H1 & H2)]; [|right; split; [by apply forwards_to_cons|done]]. destruct Hc1 as [?|((r' & Hr' & H1) & H2)]; [by left|right]. split; [|done].
    exists r'. split; [|done]. apply list_elem_of_singleton in Hr' as ->. by left.
Qed.

Lemma targets_ok_view rules st st1 res st' : fs_view st1 = fs_view st -> targets_ok rules st1 res st' -> forall r, targets_ok (r :: rules) st res st'.
Proof. intros [= E1 E2 E3 E4] H r. eapply targets_ok_cons; [|exact H]. split; [done|done|]. left. congruence. Qed.

Lemma filter_loop_targets rules : forall rn sa s st res st', filter_loop self nconf membership inbound ztSource f rn sa s rules st = Ok (res, st') ->
  targets_ok rules st res st' /\ (res = DOZTFILTER_SUPER_ACCEPT -> sa = true \/ inbound = true /\ forwards_to rules self).
Proof.
  induction rules as [|r rules IH]; intros rn sa s st res st'; cbn [filter_loop]; [intros [= <- <-]; split; [split; [done|done|by left]|done]|].
  assert (Hlift : forall P : Prop, P \/ inbound = true /\ forwards_to rules self -> P \/ inbound = true /\ forwards_to (r :: rules) self).
  { intros P [H|[H1 H2]]; [by left|right; split; [done|by apply forwards_to_cons]]. }
  assert (Hhere : forwards_to [r] self -> forwards_to (r :: rules) self).
  { intros (r' & ->%list_elem_of_singleton & n & H). by eapply forwards_to_here. }
  destruct (rule_type r <=? _).
  - destruct s.
    + destruct (take_action _ _ _ _ _ _ _) as [[st1 o]| |] eqn:Et; [|done..]. cbn [mbind outcome_bind]. apply take_action_targets in Et as (Ht & Hsa & Hd). destruct o as [o|].
      * intros [= -> ->]. cbn [default] in Ht. split; [|intros ->; destruct (Hsa eq_refl) as [?|[? ?]]; [by left|right; split; [done|by apply Hhere]]].
        destruct Ht as [H1 H2 H3]. split; [|done|]; [intros E; destruct (H1 E) as [(r' & ->%list_elem_of_singleton & n & H) ?]; split; [by eapply forwards_to_here|done]|].
        destruct H3 as [?|((r' & ->%list_elem_of_singleton & n & H) & ?)]; [by left|right]. split; [by eapply forwards_to_here|done].
      * intros H. apply IH in H as [H1 H2]. split; [by eapply targets_ok_cons|]. intros E. apply Hlift. by apply H2.
    + destruct (skip_action _ _ _ _) as [sa'| |] eqn:Es; [|done..]. cbn [mbind outcome_bind]. intros H. apply IH in H as [H1 H2]. split; [eapply targets_ok_view; [|exact H1]; done|].
      intros E. destruct (H2 E) as [->|[? ?]]; [|right; split; [done|by apply forwards_to_cons]]. unfold skip_action in Es. destruct inbound; cbn [andb] in Es; [|injection Es; auto].
      destruct (is_forward (rule_type r)) eqn:Ef; [|injection Es; auto]. destruct (rl_v r) eqn:Ev; try done. destruct (Z.eqb_spec self (Z.land address 0xffffffffff)) as [Eself|]; [|injection Es; auto].
      right. split; [done|]. eapply forwards_to_here. unfold forward_to. rewrite Ev, Ef. unfold Address_of_int. by rewrite <- Eself.
  - destruct (negb s && _).
    + destruct (RuleResultLog_logSkipped _ _ _) as [l| |]; [|done..]. cbn [mbind outcome_bind]. intros H. apply IH in H as [H1 H2]. split; [eapply targets_ok_view; [|exact H1]; done|auto].
    + destruct (rule_matches _ _ _ _ _ _ _ _ _) as [[b rng]| |]; [|done..]. cbn [mbind outcome_bind]. destruct (RuleResultLog_log _ _ _ _) as [l| |]; [|done..]. cbn [mbind outcome_bind].
      intros H. apply IH in H as [H1 H2]. split; [eapply targets_ok_view; [|exact H1]; done|auto].
Qed.

(** How much of a frame is copied. *)
Lemma filter_loop_length rules : Forall rule_wf rules -> forall rn sa s st res st', filter_loop self nconf membership inbound ztSource f rn sa s rules st = Ok (res, st') ->
  0 <= fs_ccLength st -> 0 <= fs_ccLength st'.
Proof.
  induction 1 as [|r rules Hr _ IH]; intros rn sa s st res st'; cbn [filter_loop]; [by intros [= _ <-]|]. destruct (rule_type r <=? _).
  - destruct s; [|destruct (skip_action _ _ _ _); [apply IH|done..]]. destruct (take_action _ _ _ _ _ _ _) as [[st1 o]| |] eqn:Et; [|done..]. cbn [mbind outcome_bind]. intros Hres H0.
    assert (H1 : 0 <= fs_ccLength st1).
    { destruct (is_forward (rule_type r)) eqn:Ef.
      - destruct (is_forward_fwd r Hr Ef) as (a & fl & n & Hv). destruct Hr as [_ Hrv]. rewrite Hv in Hrv. destruct (member_of _); try done. assert (0 <= n) by (destruct Hrv as (_ & _ & ?); unfold in_range in *; lia).
        unfold take_action in Et. cbv zeta in Et. rewrite Hv, Ef in Et. pose proof (zlen_nonneg (fr_data f)). unfold fr_len in *.
        repeat case_match; simplify_eq; cbn; try done; repeat case_match; lia.
      - unfold take_action in Et. cbv zeta in Et. rewrite Ef in Et. repeat case_match; by simplify_eq. }
    destruct o; [by injection Hres as _ <-|by eapply IH].
  - destruct (negb s && _).
    + destruct (RuleResultLog_logSkipped _ _ _) as [l| |]; [|done..]. cbn [mbind outcome_bind]. intros H H0. by eapply IH in H.
    + destruct (rule_matches _ _ _ _ _ _ _ _ _) as [[b rng]| |]; [|done..]. cbn [mbind outcome_bind]. destruct (RuleResultLog_log _ _ _ _) as [l| |]; [|done..]. cbn [mbind outcome_bind].
      intros H H0. by eapply IH in H.
Qed.
End Targets.

(** *** Whole runs *)

Lemma doZtFilter_Ok `{C25519Ops} self nconf membership inbound ztSource f rules st :
  nconf_ok nconf -> frame_ok f -> member_ok membership -> Forall (rule_ok f) rules -> zlen rules <= ZT_MAX_NETWORK_RULES ->
  exists res st', doZtFilter self nconf membership inbound ztSource f rules st = Ok (res, st') /\
    (Forall (fun r => is_random r = false) rules ->
     (res, fs_view st') = filter_spec self nconf membership inbound ztSource f false (rule_sets [] rules) (fs_view st) /\ fs_prng st' = fs_prng st).
Proof.
  intros Hn Hf Hm Hr Hl. apply (filter_loop_spec self nconf membership inbound ztSource f Hn Hf Hm (Forall (fun r => is_random r = false) rules) rules 0 false true []
    (fs_with_log st RuleResultLog_clear)); done.
Qed.

Lemma doZtFilter_sends `{C25519Ops} self nconf membership inbound ztSource f rules st res st' :
  doZtFilter self nconf membership inbound ztSource f rules st = Ok (res, st') ->
  targets_ok self ztSource f rules st res st' /\ (res = DOZTFILTER_SUPER_ACCEPT -> inbound = true /\ forwards_to rules self).
Proof.
  intros E. apply filter_loop_targets in E as [[H1 H2 H3] Hs]. split; [by split|]. intros ->. by destruct (Hs eq_refl).
Qed.

(** ** Properties *)

(** C11: The filter gives a result for every frame whose TCP header is whole, and reads nothing
    outside of it; without random rules the result is the one of the reference: the first set
    of matches that holds, combined with AND, OR and NOT, decides. *)
Theorem doZtFilter_refines `{C25519Ops} self nconf membership inbound ztSource f rules st :
  nconf_ok nconf -> frame_ok f -> member_ok membership -> Forall (rule_ok f) rules -> zlen rules <= ZT_MAX_NETWORK_RULES ->
  exists res st', doZtFilter self nconf membership inbound ztSource f rules st = Ok (res, st') /\
    (Forall (fun r => is_random r = false) rules ->
     (res, fs_view st') = filter_spec self nconf membership inbound ztSource f false (rule_sets [] rules) (fs_view st) /\ fs_prng st' = fs_prng st).
Proof. apply doZtFilter_Ok. Qed.

(** C12: A frame is redirected or copied to a node that a rule names, never back to its source, to
    this node or to its destination, and no more of it than it has; only the target of a rule
    may take a frame that is not for it. *)
Theorem doZtFilter_targets `{C25519Ops} self nconf membership inbound ztSource f rules st res st' :
  doZtFilter self nconf membership inbound ztSource f rules st = Ok (res, st') ->
  targets_ok self ztSource f rules st res st' /\ (res = DOZTFILTER_SUPER_ACCEPT -> inbound = true /\ forwards_to rules self).
Proof. apply doZtFilter_sends. Qed.

(** The flags of a TCP header in IPv4 are read without a look at the length of the frame. *)
Theorem doZtFilter_reads_past_frame `{C25519Ops} self nconf membership inbound ztSource f t c rules st :
  nconf_ok nconf -> frame_ok f -> member_ok membership -> Z.land t 0x3f = 41 ->
  is_ipv4 f = true -> byte f 9 = 6 -> fr_len f <= 4 * (byte f 0 mod 16) + 13 ->
  doZtFilter self nconf membership inbound ztSource f (mkRule t (VCharacteristics c) :: rules) st = Undef.
Proof.
  intros Hn Hf Hm Ht E4 E9 Hlen. unfold doZtFilter. cbn [filter_loop]. unfold rule_matches, rule_type. cbn [rl_t rl_v]. rewrite Ht. cbn [negb andb member_of].
  change (41 <=? ZT_NETWORK_RULE_ACTION__MAX_ID) with false. cbv iota zeta. pose proof (is_ipv4_len f E4). pose proof (Z.mod_pos_bound (byte f 0) 16 ltac:(lia)) as Hih.
  unfold match_characteristics. cbv zeta. rewrite (ownership_spec nconf membership inbound f Hn Hf Hm), E4. cbn [mbind outcome_bind]. at_byte f 9. rewrite E9. cbn [Z.eqb]. at_byte f 0.
  rewrite land_15. change (2 ^ 4) with 16. unfold tcp_flags. rewrite (u32_small_id (_ + 13)) by lia. unfold load. by rewrite (proj2 (zget_None (fr_data f) (4 * (byte f 0 mod 16) + 13))) by (right; exact Hlen).
Qed.

(** *** Instances *)

Section Witnesses.
Import Toy.

(** A UDP packet over IPv4 from 10.0.0.1 to 10.0.0.2, and a TCP packet that ends with the IP header. *)
Definition sample_udp : Frame := mkFrame 1 2 ([0x45; 0; 0; 28; 0; 0; 0; 0; 64; 17; 0; 0] ++ [10; 0; 0; 1] ++ [10; 0; 0; 2] ++ [0; 53; 4; 0; 0; 8; 0; 0]) ZT_ETHERTYPE_IPV4 0.
Definition sample_tcp : Frame := mkFrame 1 2 ([0x45; 0; 0; 20; 0; 0; 0; 0; 64; 6; 0; 0] ++ [10; 0; 0; 1] ++ [10; 0; 0; 2]) ZT_ETHERTYPE_IPV4 0.
(** Copy what comes from 10.0.0.0/8, drop what is not for port 1024, accept the rest. *)
Definition sample_filter : list Rule :=
  [mkRule 31 (VIpv4 [10; 0; 0; 0] 8); mkRule 2 (VFwd 0x77 0 20); mkRule (128 + 40) (VPort 1024 1024); mkRule 0 VNone; mkRule 1 VNone].
Definition sample_state : FilterState := mkFS 0x99 0 0 false [] (1, 2).

Lemma sample_nconf_ok : nconf_ok sample_nconf.
Proof. constructor; [done|constructor|constructor]. Qed.
Lemma sample_frame_ok f : f = sample_udp \/ f = sample_tcp -> frame_ok f.
Proof. intros [-> | ->]; (constructor; [cbn; repeat (apply Forall_cons_2; [done|]); apply Forall_nil_2|done]). Qed.
Lemma no_member_ok : member_ok None.
Proof. done. Qed.
Lemma sample_filter_ok : Forall (rule_ok sample_udp) sample_filter.
Proof. repeat apply Forall_cons_2; try apply Forall_nil_2; (split; [split; [done|repeat split; repeat constructor; done]|split; [done|done]]). Qed.

Lemma doZtFilter_refines_witness :
  exists st', doZtFilter 0x42 sample_nconf None false 0x42 sample_udp sample_filter sample_state = Ok (DOZTFILTER_ACCEPT, st') /\ fs_view st' = mkVerdict 0x99 0x77 20 false.
Proof.
  destruct (doZtFilter_refines 0x42 sample_nconf None false 0x42 sample_udp sample_filter sample_state) as (res & st' & H1 & H2);
    [apply sample_nconf_ok|by apply sample_frame_ok; left|apply no_member_ok|apply sample_filter_ok|done|].
  destruct H2 as [H2 _]; [repeat constructor|].
  replace (filter_spec _ _ _ _ _ _ _ _ _) with (DOZTFILTER_ACCEPT, mkVerdict 0x99 0x77 20 false) in H2 by reflexivity.
  exists st'. pose proof (f_equal fst H2) as Hres. pose proof (f_equal snd H2) as Hv. cbn [fst snd] in Hres, Hv. rewrite Hres in H1. split; [exact H1|exact Hv].
Defined.

Lemma doZtFilter_targets_witness :
  exists st', doZtFilter 0x42 sample_nconf None false 0x42 sample_udp sample_filter sample_state = Ok (DOZTFILTER_ACCEPT, st') /\ fs_ccLength st' <= 28.
Proof.
  destruct (doZtFilter 0x42 sample_nconf None false 0x42 sample_udp sample_filter sample_state) as [[[] st']| |] eqn:E; try (vm_compute in E; discriminate E).
  destruct (doZtFilter_targets _ _ _ _ _ _ _ _ _ _ E) as [[_ _ Hc] _]. exists st'. split; [reflexivity|]. destruct Hc as [Hc|(_ & _ & _ & _ & Hc)]; [|exact Hc].
  injection Hc as _ -> _. done.
Defined.

Lemma doZtFilter_reads_past_frame_witness :
  doZtFilter 0x42 sample_nconf None false 0x42 sample_tcp [mkRule 41 (VCharacteristics 2); mkRule 0 VNone; mkRule 1 VNone] sample_state = Undef.
Proof.
  apply (doZtFilter_reads_past_frame 0x42 sample_nconf None false 0x42 sample_tcp 41 2 [mkRule 0 VNone; mkRule 1 VNone] sample_state);
    [apply sample_nconf_ok|by apply sample_frame_ok; right|apply no_member_ok|reflexivity|reflexivity|reflexivity|done].
Defined.
End Witnesses.
