(* ===== verification/LZ4.v ===== *)
(** LZ4 decompression, from the copy of LZ4 in node/Packet.cpp: LZ4_decompress_generic as
    LZ4_decompress_safe instantiates it (end on input size, full decoding, no dictionary).

    Source and destination are blocks of bytes; pointers are offsets into them, and any
    access outside a block is [Undef], as is a memcpy whose ranges overlap.  The block
    format is given as a list of sequences; the decoder is proved to stay inside its
    blocks on every input, and to decode what the format denotes. *)
From S2P Require Import Prelude.

Definition MINMATCH : Z := 4.
Definition WILDCOPYLENGTH : Z := 8.
Definition LASTLITERALS : Z := 5.
Definition MFLIMIT : Z := WILDCOPYLENGTH + MINMATCH.
Definition ML_BITS : Z := 4.
Definition ML_MASK : Z := 15.
Definition RUN_MASK : Z := 15.

(** ** Memory accesses *)

(** [memcpy] inside one block. *)
Definition memcpy_within (m : list Z) (d s n : Z) : outcome (list Z) :=
  if Z.abs (d - s) <? n then Undef else x ← mem_read m s n; mem_write m d x.

(** [memcpy] between blocks. *)
Definition memcpy_from (src m : list Z) (d s n : Z) : outcome (list Z) :=
  x ← mem_read src s n; mem_write m d x.

(** [LZ4_wildCopy]: a do-while loop over eight bytes at a time. *)
Section WildCopy.
Context (copy8 : list Z -> Z -> Z -> outcome (list Z)).

Fixpoint wildCopy_loop (fuel : nat) (m : list Z) (d s e : Z) : outcome (list Z) :=
  match fuel with
  | O => Undef
  | S fuel =>
      m ← copy8 m d s;
      if d + 8 <? e then wildCopy_loop fuel m (d + 8) (s + 8) e else Ok m
  end.

Definition LZ4_wildCopy (m : list Z) (d s e : Z) : outcome (list Z) :=
  wildCopy_loop (S (Z.to_nat (e - d))) m d s e.
End WildCopy.

Definition LZ4_copy8_within (m : list Z) (d s : Z) : outcome (list Z) := memcpy_within m d s 8.
Definition LZ4_copy8_from (src m : list Z) (d s : Z) : outcome (list Z) := memcpy_from src m d s 8.

Definition LZ4_readLE16 (m : list Z) (p : Z) : outcome Z := x ← mem_read m p 2; Ok (le_val x).

(** ** The decoder *)

Section Decoder.
(** [asrc] and [adst] are the addresses of the two blocks, for the overflow checks on
    [uptrval]; [iend] is the end of the input and [oend] the end of the output block. *)
Context (asrc adst : Z) (src : list Z) (iend oend : Z).

Definition uptr_overflow (a length : Z) : bool := u64 (a + length) <? a.

(** The length of the literals when the token has fifteen: [ip] and the length. *)
Fixpoint literal_run (fuel : nat) (ip length : Z) : outcome (Z * Z) :=
  match fuel with
  | O => Undef
  | S fuel =>
      s ← load src ip;
      let ip := ip + 1 in
      let length := length + s in
      if (ip <? iend - RUN_MASK) && (s =? 255) then literal_run fuel ip length else Ok (ip, length)
  end.

(** The length of the match; [inl ip] is the jump to [_output_error]. *)
Fixpoint match_run (fuel : nat) (ip length : Z) : outcome (Z + Z * Z) :=
  match fuel with
  | O => Undef
  | S fuel =>
      s ← load src ip;
      let ip := ip + 1 in
      if iend - LASTLITERALS <? ip then Ok (inl ip) else
      let length := length + s in
      if s =? 255 then match_run fuel ip length else Ok (inr (ip, length))
  end.

Definition dec32table : list Z := [0; 1; 2; 1; 4; 4; 4; 4].
Definition dec64table : list Z := [0; 0; 0; -1; 0; 1; 2; 3].

(** [*op = *match] *)
Definition copy_byte (m : list Z) (op mt : Z) : outcome (list Z) := v ← load m mt; mem_write m op [v].

(** The first eight bytes of a match, and where the match goes on. *)
Definition match_head (m : list Z) (op mt offset : Z) : outcome (list Z * Z) :=
  if offset <? 8 then
    dec64 ← load dec64table offset;
    m ← copy_byte m op mt;
    m ← copy_byte m (op + 1) (mt + 1);
    m ← copy_byte m (op + 2) (mt + 2);
    m ← copy_byte m (op + 3) (mt + 3);
    dec32 ← load dec32table offset;
    let mt := mt + dec32 in
    m ← memcpy_within m (op + 4) mt 4;
    Ok (m, mt - dec64)
  else
    m ← LZ4_copy8_within m op mt;
    Ok (m, mt + 8).

(** [while (op<cpy) *op++ = *match++] *)
Fixpoint byte_loop (fuel : nat) (m : list Z) (op mt cpy : Z) : outcome (list Z) :=
  match fuel with
  | O => Ok m
  | S fuel => if op <? cpy then m ← copy_byte m op mt; byte_loop fuel m (op + 1) (mt + 1) cpy else Ok m
  end.

(** Copies the match; [None] for the jump to [_output_error]. *)
Definition copy_match_within (m : list Z) (op mt offset length : Z) : outcome (list Z * bool) :=
  let cpy := op + length in
  '(m, mt) ← match_head m op mt offset;
  let op := op + 8 in
  if oend - 12 <? cpy then
    let oCopyLimit := oend - (WILDCOPYLENGTH - 1) in
    if oend - LASTLITERALS <? cpy then Ok (m, false) else
    '(m, op, mt) ← (if op <? oCopyLimit then
        m ← LZ4_wildCopy LZ4_copy8_within m op mt oCopyLimit;
        Ok (m, oCopyLimit, mt + (oCopyLimit - op))
      else Ok (m, op, mt));
    m ← byte_loop (Z.to_nat (cpy - op)) m op mt cpy;
    Ok (m, true)
  else
    m ← LZ4_copy8_within m op mt;
    m ← (if 16 <? length then LZ4_wildCopy LZ4_copy8_within m (op + 8) (mt + 8) cpy else Ok m);
    Ok (m, true).

(** The result of one turn of the main loop. *)
Inductive dec_step : Type :=
| DecDone (op : Z) (m : list Z)
| DecError (ip : Z) (m : list Z)
| DecNext (ip op : Z) (m : list Z).

(** Literal length and its overflow checks. *)
Definition literal_length (token ip op : Z) : outcome (Z * Z * bool) :=
  let length := Z.shiftr token ML_BITS in
  if length =? RUN_MASK then
    '(ip, length) ← literal_run (S (Z.to_nat iend)) ip length;
    Ok (ip, length, uptr_overflow (adst + op) length || uptr_overflow (asrc + ip) length)
  else Ok (ip, length, false).

(** Match length without [MINMATCH], with its checks. *)
Definition match_length (token ip op : Z) : outcome (Z + Z * Z) :=
  let length := Z.land token ML_MASK in
  if length =? ML_MASK then
    r ← match_run (S (Z.to_nat iend)) ip length;
    match r with
    | inl ip => Ok (inl ip)
    | inr (ip, length) => if uptr_overflow (adst + op) length then Ok (inl ip) else Ok (inr (ip, length))
    end
  else Ok (inr (ip, length)).

Definition decode_sequence (m : list Z) (ip op : Z) : outcome dec_step :=
  token ← load src ip;
  let ip := ip + 1 in
  '(ip, length, ovf) ← literal_length token ip op;
  if (ovf : bool) then Ok (DecError ip m) else
  let cpy := op + length in
  if (oend - MFLIMIT <? cpy) || (iend - (2 + 1 + LASTLITERALS) <? ip + length) then
    if negb (ip + length =? iend) || (oend <? cpy) then Ok (DecError ip m) else
    m ← memcpy_from src m op ip length;
    Ok (DecDone (op + length) m)
  else
  m ← LZ4_wildCopy (LZ4_copy8_from src) m op ip cpy;
  let ip := ip + length in
  let op := cpy in
  offset ← LZ4_readLE16 src ip;
  let ip := ip + 2 in
  let mt := op - offset in
  if mt <? 0 then Ok (DecError ip m) else
  m ← mem_write m op (le_bytes 4 offset);
  r ← match_length token ip op;
  match r with
  | inl ip => Ok (DecError ip m)
  | inr (ip, length) =>
      let length := length + MINMATCH in
      '(m, ok) ← copy_match_within m op mt offset length;
      if (ok : bool) then Ok (DecNext ip (op + length) m) else Ok (DecError ip m)
  end.

(** The return value and the destination. *)
Fixpoint decode_loop (fuel : nat) (m : list Z) (ip op : Z) : outcome (Z * list Z) :=
  match fuel with
  | O => Undef
  | S fuel =>
      r ← decode_sequence m ip op;
      match r with
      | DecDone op m => Ok (op, m)
      | DecError ip m => Ok (- ip - 1, m)
      | DecNext ip op m => decode_loop fuel m ip op
      end
  end.

End Decoder.

(** [fuel]: every sequence but the last takes at least three bytes of the input. *)
Definition LZ4_decompress_safe (asrc adst : Z) (source dest : list Z) (compressedSize : Z) : outcome (Z * list Z) :=
  let outputSize := zlen dest in
  if outputSize =? 0 then
    if compressedSize =? 1 then b ← load source 0; Ok (if b =? 0 then 0 else -1, dest)
    else Ok (-1, dest)
  else decode_loop asrc adst source compressedSize outputSize (S (Z.to_nat compressedSize)) dest 0 0.

(** ** The block format *)

(** Literals, then a match: [sq_len] bytes from [sq_off] back. *)
Record lzseq : Type := mkSeq { sq_lits : list Z; sq_off : Z; sq_len : Z }.

(** A length beyond what the token holds. *)
Definition run_enc (n : Z) : list Z := replicate (Z.to_nat (n / 255)) 255 ++ [n mod 255].
Definition run_ext (n : Z) : list Z := if n <? 15 then [] else run_enc (n - 15).

Definition seq_token (s : lzseq) : Z := 16 * Z.min (zlen (sq_lits s)) 15 + Z.min (sq_len s - 4) 15.
Definition seq_enc (s : lzseq) : list Z :=
  [seq_token s] ++ run_ext (zlen (sq_lits s)) ++ sq_lits s ++ le_bytes 2 (sq_off s) ++ run_ext (sq_len s - 4).
Definition last_enc (lits : list Z) : list Z := [16 * Z.min (zlen lits) 15] ++ run_ext (zlen lits) ++ lits.
Definition block_enc (ss : list lzseq) (last : list Z) : list Z := mjoin (seq_enc <$> ss) ++ last_enc last.

Lemma block_enc_cons s ss last : block_enc (s :: ss) last = seq_enc s ++ block_enc ss last.
Proof. unfold block_enc. rewrite app_assoc. reflexivity. Qed.

(** What a match denotes: bytes repeated one by one, the copied ones included. *)
Fixpoint lz_copy (out : list Z) (off : Z) (n : nat) : list Z :=
  match n with
  | O => out
  | S n => lz_copy (out ++ [default 0 (zget out (zlen out - off))]) off n
  end.

Definition lz_exec (out : list Z) (s : lzseq) : list Z :=
  lz_copy (out ++ sq_lits s) (sq_off s) (Z.to_nat (sq_len s)).

(** A block that the format's end-of-block rules allow, for an output of [total] bytes. *)
Fixpoint block_ok (total : Z) (out : list Z) (ss : list lzseq) (last : list Z) : Prop :=
  match ss with
  | [] => zlen out + zlen last = total
  | s :: ss =>
      let at_ := zlen out + zlen (sq_lits s) in
      1 <= sq_off s <= at_ /\ sq_off s < 2 ^ 16 /\ 4 <= sq_len s /\
      at_ + 12 <= total /\ at_ + sq_len s + 5 <= total /\ block_ok total (lz_exec out s) ss last
  end.

Definition lz_run (ss : list lzseq) (last : list Z) : list Z := foldl lz_exec [] ss ++ last.

Lemma lz_copy_extends out off n : exists t, lz_copy out off n = out ++ t.
Proof.
  revert out. induction n as [|n IH]; intros out; cbn [lz_copy]; [exists []; by rewrite app_nil_r|].
  destruct (IH (out ++ [default 0 (zget out (zlen out - off))])) as [t ->]. rewrite <- app_assoc. by eexists.
Qed.

Lemma run_ext_bytes n : Forall is_byte (run_ext n).
Proof.
  unfold run_ext. destruct (n <? 15); [done|]. unfold run_enc. apply Forall_app. split.
  - apply Forall_replicate. done.
  - apply Forall_singleton. unfold in_range. Z.div_mod_to_equations; lia.
Qed.

(** A block that denotes bytes is made of bytes. *)
Lemma block_enc_bytes total out ss last :
  block_ok total out ss last -> Forall is_byte (foldl lz_exec out ss ++ last) ->
  Forall is_byte out /\ Forall is_byte (block_enc ss last).
Proof.
  revert out. induction ss as [|s ss IH]; intros out Hok Hb; cbn [foldl block_ok] in *.
  - apply Forall_app in Hb as [Ho Hl]. split; [done|]. change (block_enc [] last) with (last_enc last).
    unfold last_enc. rewrite !Forall_app, Forall_singleton. pose proof (zlen_nonneg last).
    split_and!; [unfold in_range; lia|apply run_ext_bytes|done].
  - destruct Hok as (_ & _ & Hlen & _ & _ & Hok). destruct (IH _ Hok Hb) as [He Hrest].
    unfold lz_exec in He. destruct (lz_copy_extends (out ++ sq_lits s) (sq_off s) (Z.to_nat (sq_len s))) as [t Et].
    rewrite Et, !Forall_app in He. destruct He as [[Ho Hl] _]. split; [done|]. rewrite block_enc_cons.
    unfold seq_enc, seq_token. rewrite !Forall_app, Forall_singleton. pose proof (zlen_nonneg (sq_lits s)).
    split_and!; [unfold in_range; lia|apply run_ext_bytes|done|apply le_bytes_bytes|apply run_ext_bytes|done].
Qed.

(** ** Copies *)

(** [m'] is [m] below [d]. *)
Definition keeps (m m' : list Z) (d : Z) : Prop :=
  zlen m' = zlen m /\ forall i, i < d -> zget m' i = zget m i.

(** From [d] to [e] every byte is the one [D] before. *)
Definition periodic (m : list Z) (d e D : Z) : Prop :=
  forall i, d <= i < e -> zget m i = zget m (i - D).

Lemma keeps_refl m d : keeps m m d.
Proof. done. Qed.

Lemma keeps_trans m1 m2 m3 d e : keeps m1 m2 d -> keeps m2 m3 e -> d <= e -> keeps m1 m3 d.
Proof. intros [H1 H2] [H3 H4] Hde. split; [lia|]. intros i Hi. rewrite H4, H2 by lia. done. Qed.

Lemma periodic_keeps m m' d e D : periodic m d e D -> keeps m m' e -> 0 <= D -> periodic m' d e D.
Proof. intros H [_ Hk] HD i Hi. rewrite !Hk by lia. by apply H. Qed.

Lemma memcpy_within_Ok m d s n :
  0 <= s -> 0 < n <= d - s -> d + n <= zlen m ->
  exists m', memcpy_within m d s n = Ok m' /\ keeps m m' d /\ periodic m' d (d + n) (d - s).
Proof.
  intros Hs Hn Hd. unfold memcpy_within. rewrite (proj2 (Z.ltb_ge _ _)) by lia.
  rewrite mem_read_Ok by lia. cbn [mbind outcome_bind].
  assert (Hl : zlen (slice s n m) = n) by (apply zlen_slice; lia).
  destruct (mem_write m d (slice s n m)) as [m'| |] eqn:E; [|rewrite mem_write_Ok in E by lia; done..].
  exists m'. split; [done|]. split; [split; [by eapply zlen_mem_write|]|].
  - intros i Hi. rewrite (zget_mem_write _ _ _ _ i E), (proj2 (Z.leb_gt _ _)) by lia. done.
  - intros i Hi. rewrite !(zget_mem_write _ _ _ _ _ E), Hl.
    rewrite (proj2 (Z.leb_le d i)), (proj2 (Z.ltb_lt i _)), (proj2 (Z.leb_gt d (i - _))) by lia. cbn [andb].
    rewrite zget_slice by lia. f_equal. lia.
Qed.

Lemma memcpy_from_Ok src m d s n :
  0 <= s -> 0 <= n -> s + n <= zlen src -> 0 <= d -> d + n <= zlen m ->
  exists m', memcpy_from src m d s n = Ok m' /\ keeps m m' d /\
    forall i, d <= i < d + n -> zget m' i = zget src (i - d + s).
Proof.
  intros Hs Hn Hsrc Hd Hm. unfold memcpy_from. rewrite mem_read_Ok by lia. cbn [mbind outcome_bind].
  assert (Hl : zlen (slice s n src) = n) by (apply zlen_slice; lia).
  destruct (mem_write m d (slice s n src)) as [m'| |] eqn:E; [|rewrite mem_write_Ok in E by lia; done..].
  exists m'. split; [done|]. split; [split; [by eapply zlen_mem_write|]|].
  - intros i Hi. rewrite (zget_mem_write _ _ _ _ i E), (proj2 (Z.leb_gt _ _)) by lia. done.
  - intros i Hi. rewrite (zget_mem_write _ _ _ _ _ E), Hl.
    rewrite (proj2 (Z.leb_le d i)), (proj2 (Z.ltb_lt i _)) by lia. cbn [andb].
    rewrite zget_slice by lia. f_equal. lia.
Qed.

Lemma copy_byte_Ok m op mt :
  0 <= mt <= op -> op < zlen m ->
  exists m', copy_byte m op mt = Ok m' /\ keeps m m' op /\ zget m' op = zget m mt.
Proof.
  intros Hmt Hop. unfold copy_byte. destruct (proj2 (zget_range m mt)) as [v Hv]; [lia|].
  unfold load. rewrite Hv. cbn [mbind outcome_bind].
  destruct (mem_write m op [v]) as [m'| |] eqn:E;
    [|rewrite mem_write_Ok in E by (try (change (zlen [v]) with 1); lia); done..].
  exists m'. split; [done|]. split; [split; [by eapply zlen_mem_write|]|].
  - intros i Hi. rewrite (zget_mem_write _ _ _ _ i E), (proj2 (Z.leb_gt _ _)) by lia. done.
  - rewrite (zget_mem_write _ _ _ _ _ E). change (zlen [v]) with 1.
    rewrite (proj2 (Z.leb_le _ _)), (proj2 (Z.ltb_lt _ _)) by lia. cbn [andb]. by rewrite Z.sub_diag.
Qed.

(** Period [off] goes on when bytes are copied from a multiple of [off] back. *)
Lemma periodic_extend m d e e' off D :
  0 < off -> periodic m d e off -> periodic m e e' D -> (off | D) -> 0 < D -> d - off <= e - D -> d <= e ->
  periodic m d e' off.
Proof.
  intros Ho Hp Hc [q Hq] HD Hs Hde. assert (Hall : forall n : nat, forall i, d <= i < e' -> i < e + Z.of_nat n -> zget m i = zget m (i - off)).
  { induction n as [|n IH]; intros i Hi Hn; [apply Hp; lia|].
    destruct (Z.ltb_spec i e) as [Hie|Hie]; [apply Hp; lia|].
    rewrite Hc by lia. rewrite Hq. assert (Hq1 : 1 <= q) by nia.
    assert (Hchain : forall t : nat, 1 + Z.of_nat t <= q -> zget m (i - off) = zget m (i - (1 + Z.of_nat t) * off)).
    { induction t as [|t IHt]; intros Ht; [f_equal; lia|]. rewrite IHt by lia.
      rewrite (IH (i - (1 + Z.of_nat t) * off)) by nia. f_equal. lia. }
    rewrite (Hchain (Z.to_nat (q - 1))) by lia. by replace (1 + Z.of_nat (Z.to_nat (q - 1))) with q by lia. }
  intros i Hi. apply (Hall (Z.to_nat (i - e + 1)) i Hi). lia.
Qed.

Lemma wildCopy_within_Ok fuel m d s e :
  0 <= s -> 8 <= d - s -> d + 8 <= zlen m -> e + 7 <= zlen m -> (Z.to_nat (e - d) < fuel)%nat ->
  exists m', wildCopy_loop LZ4_copy8_within fuel m d s e = Ok m' /\ keeps m m' d /\
    periodic m' d (Z.max e (d + 8)) (d - s).
Proof.
  revert m d s. induction fuel as [|fuel IH]; intros m d s Hs Hds Hd He Hf; [lia|]. cbn [wildCopy_loop].
  change (LZ4_copy8_within m d s) with (memcpy_within m d s 8). destruct (memcpy_within_Ok m d s 8) as (m1 & -> & Hk & Hp); [lia..|]. cbn [mbind outcome_bind].
  destruct (Z.ltb_spec (d + 8) e).
  - pose proof Hk as [Hl _]. destruct (IH m1 (d + 8) (s + 8)) as (m2 & -> & Hk2 & Hp2); [lia..|].
    exists m2. split; [done|]. split; [by eapply keeps_trans; [exact Hk|exact Hk2|lia]|].
    replace (d + 8 - (s + 8)) with (d - s) in Hp2 by lia.
    intros i Hi. destruct (Z.ltb_spec i (d + 8)); [|apply Hp2; lia].
    eapply periodic_keeps; [exact Hp|exact Hk2|lia|lia].
  - exists m1. split; [done|]. split; [done|]. by rewrite Z.max_r by lia.
Qed.

Lemma wildCopy_from_Ok src fuel m d s e :
  0 <= s -> 0 <= d -> s + 8 <= zlen src -> s + (e - d) + 7 <= zlen src -> d + 8 <= zlen m -> e + 7 <= zlen m ->
  (Z.to_nat (e - d) < fuel)%nat ->
  exists m', wildCopy_loop (LZ4_copy8_from src) fuel m d s e = Ok m' /\ keeps m m' d /\
    forall i, d <= i < e -> zget m' i = zget src (i - d + s).
Proof.
  revert m d s. induction fuel as [|fuel IH]; intros m d s Hs Hd Hs8 Hse Hd8 He Hf; [lia|]. cbn [wildCopy_loop].
  change (LZ4_copy8_from src m d s) with (memcpy_from src m d s 8). destruct (memcpy_from_Ok src m d s 8) as (m1 & -> & Hk & Hp); [lia..|]. cbn [mbind outcome_bind].
  destruct (Z.ltb_spec (d + 8) e).
  - pose proof Hk as [Hl _]. destruct (IH m1 (d + 8) (s + 8)) as (m2 & -> & Hk2 & Hp2); [lia..|].
    exists m2. split; [done|]. split; [by eapply keeps_trans; [exact Hk|exact Hk2|lia]|].
    intros i Hi. destruct (Z.ltb_spec i (d + 8)).
    + destruct Hk2 as [_ Hk2]. rewrite Hk2 by lia. apply Hp. lia.
    + rewrite Hp2 by lia. f_equal. lia.
  - exists m1. split; [done|]. split; [done|]. intros i Hi. apply Hp. lia.
Qed.

Lemma periodic_nil m d D : periodic m d d D.
Proof. intros i Hi. lia. Qed.

Lemma periodic_eq m d e D e' D' : periodic m d e D -> e = e' -> D = D' -> periodic m d e' D'.
Proof. by intros ? -> ->. Qed.

Lemma copy_byte_periodic m d op mt :
  0 <= mt <= op -> op < zlen m -> periodic m d op (op - mt) ->
  exists m', copy_byte m op mt = Ok m' /\ keeps m m' op /\ periodic m' d (op + 1) (op - mt).
Proof.
  intros Hmt Hop Hp. destruct (copy_byte_Ok m op mt Hmt Hop) as (m' & E & Hk & Hv).
  exists m'. split; [done|]. split; [done|]. intros i Hi. destruct (Z.ltb_spec i op).
  - eapply periodic_keeps; [exact Hp|exact Hk|lia|lia].
  - replace i with op by lia. replace (op - (op - mt)) with mt by lia. rewrite Hv.
    destruct (Z.eqb_spec mt op) as [->|]; [by rewrite Hv|]. destruct Hk as [_ Hk]. by rewrite Hk by lia.
Qed.

Lemma byte_loop_Ok fuel m d op mt cpy :
  0 <= mt <= op -> d <= op -> cpy <= zlen m -> fuel = Z.to_nat (cpy - op) -> periodic m d op (op - mt) ->
  exists m', byte_loop fuel m op mt cpy = Ok m' /\ keeps m m' op /\ periodic m' d (Z.max op cpy) (op - mt).
Proof.
  revert m op mt. induction fuel as [|fuel IH]; intros m op mt Hmt Hd Hc Hf Hp; cbn [byte_loop].
  - exists m. split; [done|]. split; [apply keeps_refl|]. by rewrite Z.max_l by lia.
  - rewrite (proj2 (Z.ltb_lt _ _)) by lia.
    destruct (copy_byte_periodic m d op mt) as (m1 & -> & Hk & Hp1); [lia..|done|]. cbn [mbind outcome_bind].
    pose proof Hk as [Hl _]. destruct (IH m1 (op + 1) (mt + 1)) as (m2 & -> & Hk2 & Hp2);
      [lia..|by replace (op + 1 - (mt + 1)) with (op - mt) by lia|].
    exists m2. split; [done|]. split; [by eapply keeps_trans; [exact Hk|exact Hk2|lia]|].
    replace (op + 1 - (mt + 1)) with (op - mt) in Hp2 by lia. by rewrite Z.max_r in Hp2 |- * by lia.
Qed.

(** The four bytes copied one at a time. *)
Lemma copy_four m op mt k :
  0 <= mt <= op -> op + 4 <= zlen m ->
  exists m', (m1 ← copy_byte m op mt; m2 ← copy_byte m1 (op + 1) (mt + 1); m3 ← copy_byte m2 (op + 2) (mt + 2);
              m4 ← copy_byte m3 (op + 3) (mt + 3); k m4) = (k m' : outcome (list Z * Z)) /\
    keeps m m' op /\ periodic m' op (op + 4) (op - mt).
Proof.
  intros Hmt Hop. destruct (copy_byte_periodic m op op mt) as (m1 & -> & Hk1 & Hp1); [lia..|apply periodic_nil|].
  pose proof Hk1 as [Hl1 _].
  destruct (copy_byte_periodic m1 op (op + 1) (mt + 1)) as (m2 & E2 & Hk2 & Hp2);
    [lia..|by eapply periodic_eq; [exact Hp1|lia..]|]. pose proof Hk2 as [Hl2 _].
  destruct (copy_byte_periodic m2 op (op + 2) (mt + 2)) as (m3 & E3 & Hk3 & Hp3);
    [lia..|by eapply periodic_eq; [exact Hp2|lia..]|]. pose proof Hk3 as [Hl3 _].
  destruct (copy_byte_periodic m3 op (op + 3) (mt + 3)) as (m4 & E4 & Hk4 & Hp4);
    [lia..|by eapply periodic_eq; [exact Hp3|lia..]|].
  exists m4. cbn [mbind outcome_bind]. rewrite E2. cbn [mbind outcome_bind]. rewrite E3. cbn [mbind outcome_bind].
  rewrite E4. split; [done|]. split.
  - eapply keeps_trans; [exact Hk1|eapply keeps_trans; [exact Hk2|eapply keeps_trans; [exact Hk3|exact Hk4|lia]|lia]|lia].
  - by eapply periodic_eq; [exact Hp4|lia..].
Qed.

(** Where the tables send the match: a multiple of the offset, at least eight back. *)
Lemma dec_tables offset :
  0 <= offset < 8 ->
  exists dec32 dec64, load dec32table offset = Ok dec32 /\ load dec64table offset = Ok dec64 /\
    0 <= dec32 <= offset /\ 0 <= dec32 - dec64 <= offset /\
    4 <= offset + 4 - dec32 /\ 8 <= offset + 8 - (dec32 - dec64) /\
    (1 <= offset -> (offset | offset + 4 - dec32) /\ (offset | offset + 8 - (dec32 - dec64))).
Proof.
  intros H. assert (Hc : offset ∈ seqZ 0 8) by (apply elem_of_seqZ; lia).
  repeat (apply elem_of_cons in Hc as [->|Hc];
    [do 2 eexists; split; [reflexivity|]; split; [reflexivity|]; split_and!; try lia;
     intros Ho; first [lia | split; apply Z.mod_divide; [lia|reflexivity|lia|reflexivity]]|]).
  by apply elem_of_nil in Hc.
Qed.

Lemma match_head_Ok m op offset :
  0 <= offset <= op -> op + 8 <= zlen m ->
  exists m' mt', match_head m op (op - offset) offset = Ok (m', mt') /\ keeps m m' op /\
    op - offset <= mt' <= op /\ periodic m' op (op + 8) offset /\ (1 <= offset -> (offset | op + 8 - mt')).
Proof.
  intros Ho Hop. unfold match_head. destruct (Z.ltb_spec offset 8).
  - destruct (dec_tables offset) as (d32 & d64 & E32 & E64 & H32 & H64 & H4 & H8 & Hdiv); [lia|].
    rewrite E64. cbn [mbind outcome_bind].
    destruct (copy_four m op (op - offset) (fun m => dec32 ← load dec32table offset;
      m ← memcpy_within m (op + 4) (op - offset + dec32) 4; Ok (m, op - offset + dec32 - d64)))
      as (m1 & E & Hk1 & Hp1); [lia..|].
    rewrite E, E32. cbn [mbind outcome_bind]. pose proof Hk1 as [Hl1 _].
    destruct (memcpy_within_Ok m1 (op + 4) (op - offset + d32) 4) as (m2 & -> & Hk2 & Hp2); [lia..|].
    cbn [mbind outcome_bind]. do 2 eexists. split; [done|].
    split; [by eapply keeps_trans; [exact Hk1|exact Hk2|lia]|]. split; [lia|].
    destruct (Z.eqb_spec offset 0) as [->|Hnz]; [split; [intros i Hi; f_equal; lia|lia]|].
    destruct Hdiv as [Hd4 Hd8]; [lia|]. split; [|intros _; by replace (op + 8 - _) with (offset + 8 - (d32 - d64)) by lia].
    apply (periodic_extend _ op (op + 4) _ _ (offset + 4 - d32)); try lia; [|by eapply periodic_eq; [exact Hp2|lia..]|done].
    eapply periodic_keeps; [|exact Hk2|lia]. by eapply periodic_eq; [exact Hp1|lia..].
  - unfold LZ4_copy8_within. destruct (memcpy_within_Ok m op (op - offset) 8) as (m2 & -> & Hk2 & Hp2); [lia..|].
    cbn [mbind outcome_bind]. do 2 eexists. split; [done|]. split; [done|]. split; [lia|].
    split; [by eapply periodic_eq; [exact Hp2|lia..]|]. intros _. exists 1. lia.
Qed.

(** Copying on from the eighth byte keeps the period of the offset. *)
Lemma match_goes_on m1 m2 op offset mt e cpy :
  0 <= offset -> op - offset <= mt <= op -> periodic m1 op (op + 8) offset ->
  (1 <= offset -> (offset | op + 8 - mt)) ->
  keeps m1 m2 (op + 8) -> periodic m2 (op + 8) e (op + 8 - mt) -> cpy <= Z.max e (op + 8) -> periodic m2 op cpy offset.
Proof.
  intros Ho Hmt Hp Hdiv Hk Hp2 He. destruct (Z.eqb_spec offset 0) as [->|]; [intros i Hi; f_equal; lia|].
  assert (H8 : periodic m2 op (op + 8) offset) by (eapply periodic_keeps; [exact Hp|exact Hk|lia]).
  intros i Hi. destruct (Z.ltb_spec i (op + 8)); [apply H8; lia|].
  apply (periodic_extend m2 op (op + 8) e offset (op + 8 - mt)); try lia; [done..|apply Hdiv; lia].
Qed.

(** A match that ends close to the end of the output. *)
Lemma match_tail_Ok oend m op mt cpy :
  0 <= mt <= op - 8 -> zlen m = oend -> op + 4 <= oend -> cpy <= oend - 5 ->
  exists m', ('(m, op, mt) ← (if op <? oend - (WILDCOPYLENGTH - 1) then
        m ← LZ4_wildCopy LZ4_copy8_within m op mt (oend - (WILDCOPYLENGTH - 1));
        Ok (m, oend - (WILDCOPYLENGTH - 1), mt + (oend - (WILDCOPYLENGTH - 1) - op))
      else Ok (m, op, mt));
    m ← byte_loop (Z.to_nat (cpy - op)) m op mt cpy;
    Ok (m, true)) = Ok (m', true) /\ keeps m m' op /\ periodic m' op (Z.max op cpy) (op - mt).
Proof.
  intros Hmt Hm Hop Hc. unfold WILDCOPYLENGTH. change (8 - 1) with 7. destruct (Z.ltb_spec op (oend - 7)).
  - unfold LZ4_wildCopy. destruct (wildCopy_within_Ok (S (Z.to_nat (oend - 7 - op))) m op mt (oend - 7))
      as (m1 & -> & Hk1 & Hp1); [lia..|]. cbn [mbind outcome_bind]. pose proof Hk1 as [Hl1 _].
    destruct (byte_loop_Ok (Z.to_nat (cpy - (oend - 7))) m1 op (oend - 7) (mt + (oend - 7 - op)) cpy)
      as (m2 & -> & Hk2 & Hp2); [lia..|intros i Hi; replace (oend - 7 - _) with (op - mt) by lia; apply Hp1; lia|].
    cbn [mbind outcome_bind]. exists m2. split; [done|]. split; [by eapply keeps_trans; [exact Hk1|exact Hk2|lia]|].
    intros i Hi. replace (op - mt) with (oend - 7 - (mt + (oend - 7 - op))) by lia. apply Hp2. lia.
  - cbn [mbind outcome_bind]. destruct (byte_loop_Ok (Z.to_nat (cpy - op)) m op op mt cpy)
      as (m2 & -> & Hk2 & Hp2); [lia..|apply periodic_nil|]. by exists m2.
Qed.

Lemma copy_match_within_Ok oend m op offset length :
  0 <= offset <= op -> zlen m = oend -> op + 12 <= oend -> 4 <= length ->
  exists m', copy_match_within oend m op (op - offset) offset length = Ok (m', op + length <=? oend - 5) /\
    keeps m m' op /\ (op + length <= oend - 5 -> periodic m' op (op + length) offset).
Proof.
  intros Ho Hm Hop Hlen. unfold copy_match_within.
  destruct (match_head_Ok m op offset) as (m1 & mt & -> & Hk1 & Hmt & Hp1 & Hdiv); [lia..|].
  pose proof Hk1 as [Hl1 _]. cbn [mbind outcome_bind]. destruct (Z.ltb_spec (oend - 12) (op + length)).
  - unfold LASTLITERALS. destruct (Z.ltb_spec (oend - 5) (op + length)).
    { exists m1. rewrite (proj2 (Z.leb_gt _ _)) by lia. split; [done|]. split; [done|lia]. }
    destruct (match_tail_Ok oend m1 (op + 8) mt (op + length)) as (m2 & E & Hk2 & Hp2); [lia..|].
    cbn [mbind] in E. rewrite E. rewrite (proj2 (Z.leb_le _ _)) by lia. exists m2. split; [done|].
    split; [by eapply keeps_trans; [exact Hk1|exact Hk2|lia]|]. intros _.
    eapply (match_goes_on m1); [..|exact Hp2|]; try done; lia.
  - change (LZ4_copy8_within m1 (op + 8) mt) with (memcpy_within m1 (op + 8) mt 8).
    destruct (memcpy_within_Ok m1 (op + 8) mt 8) as (m2 & -> & Hk2 & Hp2); [lia..|].
    cbn [mbind outcome_bind]. pose proof Hk2 as [Hl2 _]. rewrite (proj2 (Z.leb_le _ _)) by lia.
    destruct (Z.ltb_spec 16 length).
    + unfold LZ4_wildCopy. destruct (wildCopy_within_Ok (S (Z.to_nat (op + length - (op + 8 + 8)))) m2 (op + 8 + 8) (mt + 8) (op + length))
        as (m3 & -> & Hk3 & Hp3); [lia..|]. cbn [mbind outcome_bind]. exists m3. split; [done|].
      assert (Hk13 : keeps m1 m3 (op + 8)) by (eapply keeps_trans; [exact Hk2|exact Hk3|lia]).
      split; [by eapply keeps_trans; [exact Hk1|exact Hk13|lia]|]. intros _.
      apply (match_goes_on m1 m3 op offset mt (op + length)); try done; try lia.
      intros i Hi. destruct (Z.ltb_spec i (op + 8 + 8)).
      * eapply periodic_keeps; [exact Hp2|exact Hk3|lia|lia].
      * replace (op + 8 - mt) with (op + 8 + 8 - (mt + 8)) by lia. apply Hp3. lia.
    + cbn [mbind outcome_bind]. exists m2. split; [done|].
      split; [by eapply keeps_trans; [exact Hk1|exact Hk2|lia]|]. intros _.
      eapply (match_goes_on m1); [..|exact Hp2|]; try done; lia.
Qed.

(** ** Memory safety *)

Section Safety.
Context (asrc adst : Z) (src : list Z) (iend oend : Z).
Hypothesis (Hbytes : Forall is_byte src) (Hiend : iend <= zlen src).

Lemma load_src ip : 0 <= ip < zlen src -> exists b, load src ip = Ok b /\ is_byte b.
Proof.
  intros H. destruct (proj2 (zget_range src ip)) as [b Hb]; [lia|]. exists b. unfold load. rewrite Hb.
  split; [done|]. unfold zget in Hb. destruct (_ <=? _); [|done]. by apply (Forall_lookup_1 _ _ _ _ Hbytes Hb).
Qed.

Lemma literal_run_Ok fuel ip length :
  0 <= ip < zlen src -> (Z.to_nat (iend - ip) < fuel)%nat ->
  exists ip' length', literal_run src iend fuel ip length = Ok (ip', length') /\ ip + 1 <= ip' /\ length <= length'.
Proof.
  revert ip length. induction fuel as [|fuel IH]; intros ip length Hip Hf; [lia|]. cbn [literal_run].
  destruct (load_src ip Hip) as (b & -> & Hb). unfold in_range in Hb. cbn [mbind outcome_bind]. unfold RUN_MASK.
  destruct (Z.ltb_spec (ip + 1) (iend - 15)); cbn [andb]; [|by do 2 eexists; split; [done|lia]].
  destruct (b =? 255); [|by do 2 eexists; split; [done|lia]].
  destruct (IH (ip + 1) (length + b)) as (ip' & length' & -> & ? & ?); [lia..|]. do 2 eexists. split; [done|lia].
Qed.

Lemma match_run_Ok fuel ip length :
  0 <= ip <= iend - LASTLITERALS -> (Z.to_nat (iend - ip) < fuel)%nat ->
  exists r, match_run src iend fuel ip length = Ok r /\
    match r with inl ip' => 0 <= ip' | inr (ip', length') => ip + 1 <= ip' <= iend - LASTLITERALS /\ length <= length' end.
Proof.
  unfold LASTLITERALS. revert ip length. induction fuel as [|fuel IH]; intros ip length Hip Hf; [lia|]. cbn [match_run].
  destruct (load_src ip) as (b & -> & Hb); [lia|]. unfold in_range in Hb. cbn [mbind outcome_bind]. unfold LASTLITERALS.
  destruct (Z.ltb_spec (iend - 5) (ip + 1)); [by eexists; split; [done|cbn; lia]|].
  destruct (b =? 255); [|by eexists; split; [done|cbn; lia]].
  destruct (IH (ip + 1) (length + b)) as (r & -> & Hr); [lia..|]. exists r. split; [done|].
  destruct r as [|[]]; lia.
Qed.

Lemma literals_copied m ip op length :
  0 <= ip -> 0 <= op -> 0 <= length -> zlen m = oend -> op + length <= oend - MFLIMIT -> ip + length <= iend - 8 ->
  exists m', LZ4_wildCopy (LZ4_copy8_from src) m op ip (op + length) = Ok m' /\ keeps m m' op /\
    forall i, op <= i < op + length -> zget m' i = zget src (i - op + ip).
Proof.
  unfold MFLIMIT, WILDCOPYLENGTH, MINMATCH. intros. unfold LZ4_wildCopy. apply wildCopy_from_Ok; lia.
Qed.

Lemma readLE16_Ok p : 0 <= p -> p + 2 <= zlen src -> exists v, LZ4_readLE16 src p = Ok v /\ 0 <= v < 2 ^ 16.
Proof.
  intros Hp Hl. unfold LZ4_readLE16. rewrite mem_read_Ok by lia. cbn [mbind outcome_bind]. eexists. split; [done|].
  pose proof (le_val_range (slice p 2 src)) as Hr. rewrite zlen_slice in Hr by lia. apply Hr. by apply Forall_take, Forall_drop.
Qed.

(** The four bytes written over the place of the match. *)
Lemma mem_write_keeps m op d : 0 <= op -> op + zlen d <= zlen m -> exists m', mem_write m op d = Ok m' /\ keeps m m' op.
Proof.
  intros Ho Hl. destruct (mem_write m op d) as [m'| |] eqn:E; [|rewrite mem_write_Ok in E by lia; done..].
  exists m'. split; [done|]. split; [by eapply zlen_mem_write|].
  intros i Hi. rewrite (zget_mem_write _ _ _ _ i E), (proj2 (Z.leb_gt _ _)) by lia. done.
Qed.

Lemma literal_length_Ok token ip op :
  is_byte token -> 0 <= ip < zlen src ->
  exists ip' length ovf, literal_length asrc adst src iend token ip op = Ok (ip', length, ovf) /\ ip <= ip' /\ 0 <= length.
Proof.
  intros Ht Hip. unfold literal_length. assert (0 <= Z.shiftr token ML_BITS) by (apply Z.shiftr_nonneg; apply Ht).
  destruct (_ =? _); [|by do 3 eexists; split; [done|lia]].
  destruct (literal_run_Ok (S (Z.to_nat iend)) ip (Z.shiftr token ML_BITS)) as (ip' & l & -> & ? & ?); [lia..|].
  do 3 eexists. split; [done|lia].
Qed.

Lemma match_length_Ok token ip op :
  is_byte token -> 0 <= ip <= iend - LASTLITERALS ->
  exists r, match_length adst src iend token ip op = Ok r /\
    match r with inl ip' => 0 <= ip' | inr (ip', length) => ip <= ip' <= iend - LASTLITERALS /\ 0 <= length end.
Proof.
  intros Ht Hip. unfold match_length. assert (0 <= Z.land token ML_MASK) by (apply Z.land_nonneg; left; apply Ht).
  destruct (_ =? _); [|by eexists; split; [done|cbn; lia]].
  destruct (match_run_Ok (S (Z.to_nat iend)) ip (Z.land token ML_MASK)) as (r & -> & Hr); [lia..|]. cbn [mbind outcome_bind].
  destruct r as [ip'|[ip' l]]; [by eexists; split; [done|cbn; lia]|].
  destruct (uptr_overflow _ _); (eexists; split; [done|cbn; unfold LASTLITERALS in *; lia]).
Qed.

(** What one sequence may do to the state of the decoder. *)
Definition dec_safe (m : list Z) (ip op : Z) (r : dec_step) : Prop :=
  match r with
  | DecDone op' m' => 0 <= op' <= oend /\ keeps m m' op
  | DecError ip' m' => 0 <= ip' /\ keeps m m' op
  | DecNext ip' op' m' => ip + 3 <= ip' <= iend - 5 /\ op <= op' <= oend - 5 /\ keeps m m' op
  end.

Lemma match_phase_safe m token ip op :
  zlen m = oend -> is_byte token -> 0 <= op <= oend - MFLIMIT -> 0 <= ip <= iend - 8 ->
  exists r, (offset ← LZ4_readLE16 src ip;
    if op - offset <? 0 then Ok (DecError (ip + 2) m) else
    m ← mem_write m op (le_bytes 4 offset);
    r ← match_length adst src iend token (ip + 2) op;
    match r with
    | inl ip => Ok (DecError ip m)
    | inr (ip, length) =>
        '(m, ok) ← copy_match_within oend m op (op - offset) offset (length + MINMATCH);
        if (ok : bool) then Ok (DecNext ip (op + (length + MINMATCH)) m) else Ok (DecError ip m)
    end) = Ok r /\
    match r with
    | DecDone _ _ => False
    | DecError ip' m' => 0 <= ip' /\ keeps m m' op
    | DecNext ip' op' m' => ip + 2 <= ip' <= iend - 5 /\ op <= op' <= oend - 5 /\ keeps m m' op
    end.
Proof.
  unfold MFLIMIT, WILDCOPYLENGTH, MINMATCH. intros Hm Ht Hop Hip.
  destruct (readLE16_Ok ip) as (off & -> & Hoff); [lia..|]. cbn [mbind outcome_bind].
  destruct (Z.ltb_spec (op - off) 0); [by eexists; split; [done|]; split; [lia|]|].
  destruct (mem_write_keeps m op (le_bytes 4 off)) as (m1 & -> & Hk1);
    [lia|unfold zlen in *; rewrite length_le_bytes; lia|]. cbn [mbind outcome_bind]. pose proof Hk1 as [Hl1 _].
  destruct (match_length_Ok token (ip + 2) op) as (r & -> & Hr); [done|unfold LASTLITERALS; lia|].
  unfold LASTLITERALS in Hr. cbn [mbind outcome_bind]. destruct r as [ip'|[ip' l]]; [by eexists; split; [done|]; split; [lia|]|].
  destruct (copy_match_within_Ok oend m1 op off (l + 4)) as (m2 & -> & Hk2 & _); [lia..|]. cbn [mbind outcome_bind].
  assert (keeps m m2 op) by (eapply keeps_trans; [exact Hk1|exact Hk2|lia]).
  destruct (Z.leb_spec (op + (l + 4)) (oend - 5)); (eexists; split; [done|cbn; split_and!; try lia; done]).
Qed.

Lemma decode_sequence_safe m ip op :
  zlen m = oend -> 0 <= ip -> ip + 2 <= zlen src -> 0 <= op <= oend ->
  exists r, decode_sequence asrc adst src iend oend m ip op = Ok r /\ dec_safe m ip op r.
Proof.
  intros Hm Hip Hip2 Hop. unfold decode_sequence. destruct (load_src ip) as (token & -> & Ht); [lia|]. cbn [mbind outcome_bind].
  destruct (literal_length_Ok token (ip + 1) op) as (ip1 & l & ovf & -> & Hip1 & Hl); [done|lia|]. cbn [mbind outcome_bind].
  destruct ovf; [by eexists; split; [done|]; split; [lia|]|].
  unfold LASTLITERALS. change (2 + 1 + 5) with 8.
  destruct (Z.ltb_spec (oend - MFLIMIT) (op + l)); cbn [orb]; [|destruct (Z.ltb_spec (iend - 8) (ip1 + l))].
  3:{ destruct (literals_copied m ip1 op l) as (m1 & -> & Hk1 & _); [lia..|]. cbn [mbind outcome_bind].
      pose proof Hk1 as [Hl1 _].
      destruct (match_phase_safe m1 token (ip1 + l) (op + l)) as (r & E & Hr); [lia|done|lia..|].
      cbn [mbind] in E. rewrite E. exists r. split; [done|].
      destruct r as [|ip' m'|ip' op' m']; [done|..]; cbn.
      - destruct Hr as [? Hk]. split; [done|]. by eapply keeps_trans; [exact Hk1|exact Hk|lia].
      - destruct Hr as (? & ? & Hk). split; [lia|]. split; [lia|]. by eapply keeps_trans; [exact Hk1|exact Hk|lia]. }
  all: destruct (Z.eqb_spec (ip1 + l) iend); cbn [negb orb]; [|by eexists; split; [done|]; split; [lia|]].
  all: destruct (Z.ltb_spec oend (op + l)); [by eexists; split; [done|]; split; [lia|]|].
  all: destruct (memcpy_from_Ok src m op ip1 l) as (m1 & -> & Hk1 & _); [lia..|].
  all: eexists; split; [done|]; split; [lia|done].
Qed.

Lemma decode_loop_safe fuel m ip op :
  zlen m = oend -> 0 <= ip -> ip + 2 <= zlen src -> 0 <= op <= oend -> (Z.to_nat (iend - ip) < fuel)%nat ->
  exists r m', decode_loop asrc adst src iend oend fuel m ip op = Ok (r, m') /\ r <= oend /\ keeps m m' op.
Proof.
  revert m ip op. induction fuel as [|fuel IH]; intros m ip op Hm Hip Hip2 Hop Hf; [lia|]. cbn [decode_loop].
  destruct (decode_sequence_safe m ip op Hm Hip Hip2 Hop) as (r & -> & Hr). cbn [mbind outcome_bind].
  destruct r as [op' m'|ip' m'|ip' op' m']; cbn in Hr.
  - destruct Hr. do 2 eexists. split; [done|]. split; [lia|done].
  - destruct Hr. do 2 eexists. split; [done|]. split; [lia|done].
  - destruct Hr as (? & ? & Hk). pose proof Hk as [Hl _].
    destruct (IH m' ip' op') as (r & m'' & -> & ? & Hk2); [lia..|]. do 2 eexists. split; [done|]. split; [done|].
    by eapply keeps_trans; [exact Hk|exact Hk2|lia].
Qed.
End Safety.

(** ** Bytes stay bytes *)

Lemma mem_write_bytes m d x m' : mem_write m d x = Ok m' -> Forall is_byte m -> Forall is_byte x -> Forall is_byte m'.
Proof.
  intros (_ & _ & ->)%mem_write_inv Hm Hx. rewrite !Forall_app. split_and!; [by apply Forall_take|done|by apply Forall_drop].
Qed.

Lemma mem_read_bytes m p n x : mem_read m p n = Ok x -> Forall is_byte m -> Forall is_byte x.
Proof. intros (_ & _ & _ & ->)%mem_read_inv Hm. by apply Forall_take, Forall_drop. Qed.

Section Bytes.
Context (src : list Z) (Hsrc : Forall is_byte src).

(** A step that keeps a destination of bytes. *)
Definition keeps_bytes (f : list Z -> outcome (list Z)) : Prop :=
  forall m m', f m = Ok m' -> Forall is_byte m -> Forall is_byte m'.

Lemma memcpy_within_bytes d s n : keeps_bytes (fun m => memcpy_within m d s n).
Proof.
  intros m m' E Hm. unfold memcpy_within in E. destruct (_ <? _); [done|].
  destruct (mem_read m s n) as [x| |] eqn:Ex; [|done..]. cbn in E.
  eapply mem_write_bytes; [exact E|done|]. by eapply mem_read_bytes.
Qed.

Lemma memcpy_from_bytes d s n : keeps_bytes (fun m => memcpy_from src m d s n).
Proof.
  intros m m' E Hm. unfold memcpy_from in E. destruct (mem_read src s n) as [x| |] eqn:Ex; [|done..]. cbn in E.
  eapply mem_write_bytes; [exact E|done|]. by eapply mem_read_bytes.
Qed.

Lemma wildCopy_bytes copy8 : (forall d s, keeps_bytes (fun m => copy8 m d s)) ->
  forall d s e, keeps_bytes (fun m => LZ4_wildCopy copy8 m d s e).
Proof.
  intros H8 d s e. unfold LZ4_wildCopy. generalize (S (Z.to_nat (e - d))). intros fuel. revert d s.
  induction fuel as [|fuel IH]; intros d s m m' E Hm; [done|]. cbn [wildCopy_loop] in E.
  destruct (copy8 m d s) as [m1| |] eqn:E1; [|done..]. cbn [mbind outcome_bind] in E. apply (H8 _ _ _ _ E1) in Hm.
  destruct (_ <? _); [by eapply IH|]. by injection E as <-.
Qed.

Lemma copy_byte_bytes op mt : keeps_bytes (fun m => copy_byte m op mt).
Proof.
  intros m m' E Hm. unfold copy_byte, load in E. destruct (zget m mt) as [v|] eqn:Ev; [|done]. cbn in E.
  eapply mem_write_bytes; [exact E|done|]. apply Forall_singleton. unfold zget in Ev. destruct (_ <=? _); [|done].
  by apply (Forall_lookup_1 _ _ _ _ Hm Ev).
Qed.

Lemma byte_loop_bytes fuel op mt cpy : keeps_bytes (fun m => byte_loop fuel m op mt cpy).
Proof.
  revert op mt. induction fuel as [|fuel IH]; intros op mt m m' E Hm; cbn [byte_loop] in E; [by injection E as <-|].
  destruct (_ <? _); [|by injection E as <-].
  destruct (copy_byte m op mt) as [m1| |] eqn:E1; [|done..]. cbn [mbind outcome_bind] in E.
  eapply IH; [exact E|]. by eapply copy_byte_bytes.
Qed.

Lemma match_head_bytes m op mt offset m' mt' :
  match_head m op mt offset = Ok (m', mt') -> Forall is_byte m -> Forall is_byte m'.
Proof.
  intros E Hm. unfold match_head in E. destruct (_ <? _).
  - destruct (load dec64table offset); [|done..]. cbn [mbind outcome_bind] in E.
    destruct (copy_byte m _ _) as [m1| |] eqn:E1; [|done..]. cbn [mbind outcome_bind] in E.
    destruct (copy_byte m1 _ _) as [m2| |] eqn:E2; [|done..]. cbn [mbind outcome_bind] in E.
    destruct (copy_byte m2 _ _) as [m3| |] eqn:E3; [|done..]. cbn [mbind outcome_bind] in E.
    destruct (copy_byte m3 _ _) as [m4| |] eqn:E4; [|done..]. cbn [mbind outcome_bind] in E.
    destruct (load dec32table offset); [|done..]. cbn [mbind outcome_bind] in E.
    destruct (memcpy_within m4 _ _ _) as [m5| |] eqn:E5; [|done..]. injection E as <- _.
    eapply memcpy_within_bytes; [exact E5|]. do 4 (eapply copy_byte_bytes; [eassumption|]). done.
  - destruct (LZ4_copy8_within m op mt) as [m1| |] eqn:E1; [|done..]. injection E as <- _. by eapply memcpy_within_bytes.
Qed.

Lemma copy_match_bytes oend m op mt offset length m' ok :
  copy_match_within oend m op mt offset length = Ok (m', ok) -> Forall is_byte m -> Forall is_byte m'.
Proof.
  intros E Hm. unfold copy_match_within in E.
  destruct (match_head m op mt offset) as [[m1 mt1]| |] eqn:E1; [|done..]. cbn [mbind outcome_bind] in E.
  apply (match_head_bytes _ _ _ _ _ _ E1) in Hm.
  assert (Hw := wildCopy_bytes LZ4_copy8_within (fun d s => memcpy_within_bytes d s 8)). destruct (_ <? _).
  - destruct (_ <? _); [by injection E as <- _|]. destruct (_ <? _).
    + destruct (LZ4_wildCopy _ m1 _ _ _) as [m2| |] eqn:E2; [|done..]. cbn [mbind outcome_bind] in E. apply (Hw _ _ _ _ _ E2) in Hm.
      destruct (byte_loop _ m2 _ _ _) as [m3| |] eqn:E3; [|done..]. injection E as <- _. by eapply byte_loop_bytes.
    + cbn [mbind outcome_bind] in E. destruct (byte_loop _ m1 _ _ _) as [m3| |] eqn:E3; [|done..]. injection E as <- _. by eapply byte_loop_bytes.
  - destruct (LZ4_copy8_within m1 _ _) as [m2| |] eqn:E2; [|done..]. cbn [mbind outcome_bind] in E. apply (memcpy_within_bytes _ _ _ _ _ E2) in Hm.
    destruct (_ <? _); cbn [mbind outcome_bind] in E; [|by injection E as <- _].
    destruct (LZ4_wildCopy _ m2 _ _ _) as [m3| |] eqn:E3; [|done..]. injection E as <- _. by eapply Hw.
Qed.

Lemma decode_sequence_bytes asrc adst iend oend m ip op r :
  decode_sequence asrc adst src iend oend m ip op = Ok r -> Forall is_byte m ->
  match r with DecDone _ m' | DecError _ m' | DecNext _ _ m' => Forall is_byte m' end.
Proof.
  intros E Hm. unfold decode_sequence in E. destruct (load src ip) as [t| |]; [|done..]. cbn [mbind outcome_bind] in E.
  destruct (literal_length _ _ _ _ _ _ _) as [[[ip1 l] ovf]| |]; [|done..]. cbn [mbind outcome_bind] in E.
  destruct ovf; [by injection E as <-|]. destruct (_ || _).
  { destruct (_ || _); [by injection E as <-|]. destruct (memcpy_from src m _ _ _) as [m1| |] eqn:E1; [|done..]. injection E as <-.
    by eapply memcpy_from_bytes. }
  destruct (LZ4_wildCopy _ m _ _ _) as [m1| |] eqn:E1; [|done..]. cbn [mbind outcome_bind] in E.
  apply (wildCopy_bytes (LZ4_copy8_from src) (fun d s => memcpy_from_bytes d s 8) _ _ _ _ _ E1) in Hm.
  destruct (LZ4_readLE16 src _) as [off| |]; [|done..]. cbn [mbind outcome_bind] in E.
  destruct (_ <? 0); [by injection E as <-|]. destruct (mem_write m1 _ _) as [m2| |] eqn:E2; [|done..]. cbn [mbind outcome_bind] in E.
  apply (mem_write_bytes _ _ _ _ E2) in Hm; [|apply le_bytes_bytes].
  destruct (match_length _ _ _ _ _ _) as [[ip3|[ip3 l3]]| |]; [..|done|done]; cbn [mbind outcome_bind] in E; [by injection E as <-|].
  destruct (copy_match_within _ m2 _ _ _ _) as [[m3 ok]| |] eqn:E3; [|done..]. cbn [mbind outcome_bind] in E.
  apply (copy_match_bytes _ _ _ _ _ _ _ _ E3) in Hm. destruct ok; by injection E as <-.
Qed.

Lemma decode_loop_bytes asrc adst iend oend fuel m ip op r m' :
  decode_loop asrc adst src iend oend fuel m ip op = Ok (r, m') -> Forall is_byte m -> Forall is_byte m'.
Proof.
  revert m ip op. induction fuel as [|fuel IH]; intros m ip op E Hm; [done|].
  cbn [decode_loop] in E. destruct (decode_sequence _ _ _ _ _ _ _ _) as [s| |] eqn:E1; [|done..]. cbn [mbind outcome_bind] in E.
  apply decode_sequence_bytes in E1; [|done]. destruct s; [by injection E as _ <-|by injection E as _ <-|by eapply IH].
Qed.

Lemma decompress_bytes asrc adst dest n r dest' :
  LZ4_decompress_safe asrc adst src dest n = Ok (r, dest') -> Forall is_byte dest -> Forall is_byte dest'.
Proof.
  unfold LZ4_decompress_safe. destruct (_ =? 0); [|by intros; eapply decode_loop_bytes].
  destruct (_ =? 1); [|by intros [= _ <-]]. destruct (load src 0); [|done..]. by intros [= _ <-].
Qed.
End Bytes.

(** ** Decoding what the format denotes *)

(** The input has [d] at [ip]. *)
Definition sees (src : list Z) (ip : Z) (d : list Z) : Prop :=
  exists pre post, src = pre ++ d ++ post /\ zlen pre = ip.

Lemma sees_app src ip a b : sees src ip (a ++ b) -> sees src ip a /\ sees src (ip + zlen a) b.
Proof.
  intros (pre & post & -> & Hp). split.
  - exists pre, (b ++ post). by rewrite <- app_assoc.
  - exists (pre ++ a), post. rewrite <- !app_assoc, zlen_app. split; [done|lia].
Qed.

Lemma sees_get src ip d i : sees src ip d -> 0 <= i < zlen d -> zget src (ip + i) = zget d i.
Proof.
  intros (pre & post & -> & <-) Hi. rewrite !zget_app.
  rewrite (proj2 (Z.ltb_ge _ _)), (proj2 (Z.ltb_lt _ _)) by lia. f_equal. lia.
Qed.

Lemma sees_bound src ip d : sees src ip d -> 0 <= ip /\ ip + zlen d <= zlen src.
Proof.
  intros (pre & post & -> & <-). rewrite !zlen_app. pose proof (zlen_nonneg pre). pose proof (zlen_nonneg post). lia.
Qed.

Lemma sees_load src ip x l : sees src ip (x :: l) -> load src ip = Ok x.
Proof.
  intros H. unfold load. replace ip with (ip + 0) by lia.
  rewrite (sees_get _ _ _ 0 H); [done|]. unfold zlen. cbn [length]. lia.
Qed.

Lemma sees_read src ip d : sees src ip d -> mem_read src ip (zlen d) = Ok d.
Proof. intros (pre & post & -> & <-). by apply mem_read_seg. Qed.

(** The output so far is [out]. *)
Definition starts (m out : list Z) : Prop :=
  zlen out <= zlen m /\ forall i, i < zlen out -> zget m i = zget out i.

Lemma starts_keeps m m' out : starts m out -> keeps m m' (zlen out) -> starts m' out.
Proof. intros [H1 H2] [H3 H4]. split; [lia|]. intros i Hi. rewrite H4, H2 by done. done. Qed.

Lemma starts_app m out lits :
  starts m out -> zlen out + zlen lits <= zlen m ->
  (forall i, zlen out <= i < zlen out + zlen lits -> zget m i = zget lits (i - zlen out)) -> starts m (out ++ lits).
Proof.
  intros [H1 H2] Hl H. split; [by rewrite zlen_app|]. intros i Hi. rewrite zlen_app in Hi. rewrite zget_app.
  destruct (Z.ltb_spec i (zlen out)); [by apply H2|apply H; lia].
Qed.

Lemma starts_lz_copy m out off n :
  starts m out -> 1 <= off <= zlen out -> zlen out + Z.of_nat n <= zlen m ->
  periodic m (zlen out) (zlen out + Z.of_nat n) off -> starts m (lz_copy out off n).
Proof.
  revert out. induction n as [|n IH]; intros out Hs Hoff Hn Hp; [done|]. cbn [lz_copy].
  assert (Hl : forall x : Z, zlen (out ++ [x]) = zlen out + 1) by (intros; by rewrite zlen_app).
  apply IH; rewrite ?Hl; [|lia..|intros i Hi; apply Hp; lia].
  destruct (proj2 (zget_range out (zlen out - off))) as [v Hv]; [lia|]. rewrite Hv. change (default 0 (Some v)) with v.
  apply starts_app; [done|change (zlen [v]) with 1; lia|]. change (zlen [v]) with 1. intros i Hi.
  replace i with (zlen out) by lia. rewrite Hp by lia. destruct Hs as [_ Hs]. rewrite Hs by lia. by rewrite Hv, Z.sub_diag.
Qed.

Lemma zlen_lz_copy out off n : zlen (lz_copy out off n) = zlen out + Z.of_nat n.
Proof.
  revert out. induction n as [|n IH]; intros out; cbn [lz_copy]; [lia|]. rewrite IH, zlen_app.
  change (zlen [_]) with 1. lia.
Qed.

Lemma zlen_lz_exec out s : 0 <= sq_len s -> zlen (lz_exec out s) = zlen out + zlen (sq_lits s) + sq_len s.
Proof. intros. unfold lz_exec. rewrite zlen_lz_copy, zlen_app. lia. Qed.

Lemma token_split a b : 0 <= a -> 0 <= b < 16 -> Z.shiftr (16 * a + b) ML_BITS = a /\ Z.land (16 * a + b) ML_MASK = b.
Proof.
  intros Ha Hb. split.
  - rewrite Z.shiftr_div_pow2 by done. change (2 ^ ML_BITS) with 16. Z.div_mod_to_equations; lia.
  - change ML_MASK with (Z.ones 4). rewrite Z.land_ones by done. change (2 ^ 4) with 16. Z.div_mod_to_equations; lia.
Qed.

Lemma zlen_run_ext n : 0 <= zlen (run_ext n) <= Z.max 0 n.
Proof.
  unfold run_ext. destruct (Z.ltb_spec n 15); [change (zlen []) with 0; lia|]. unfold run_enc.
  rewrite zlen_app. change (zlen [_]) with 1. unfold zlen. rewrite length_replicate. Z.div_mod_to_equations; lia.
Qed.

Section Decodes.
Context (asrc adst : Z) (src : list Z) (iend oend : Z).
Hypothesis (Hiend : iend <= zlen src) (Hoend : 0 <= oend).
Hypothesis (Hasrc : 0 <= asrc) (Hadst : 0 <= adst) (Hs64 : asrc + zlen src < 2 ^ 64) (Hd64 : adst + oend < 2 ^ 64).

Lemma literal_run_enc k r fuel ip L :
  sees src ip (replicate k 255 ++ [r]) -> 0 <= r < 255 -> ip + Z.of_nat k + 1 + 255 * Z.of_nat k + r + 15 <= iend ->
  (k < fuel)%nat ->
  literal_run src iend fuel ip L = Ok (ip + Z.of_nat k + 1, L + 255 * Z.of_nat k + r).
Proof.
  revert fuel ip L. induction k as [|k IH]; intros [|fuel] ip L Hs Hr Hi Hf; try lia; cbn [literal_run].
  - rewrite (sees_load _ _ _ _ Hs). cbn [mbind outcome_bind].
    rewrite (proj2 (Z.eqb_neq r 255)), andb_false_r by lia. do 2 f_equal; lia.
  - rewrite (sees_load _ _ _ _ Hs). cbn [mbind outcome_bind]. unfold RUN_MASK.
    rewrite (proj2 (Z.ltb_lt _ _)) by lia. rewrite Z.eqb_refl. cbn [andb].
    rewrite (IH fuel (ip + 1) (L + 255)); [do 2 f_equal; lia| |lia..].
    apply (sees_app src ip [255] (replicate k 255 ++ [r])) in Hs. apply Hs.
Qed.

Lemma match_run_enc k r fuel ip L :
  sees src ip (replicate k 255 ++ [r]) -> 0 <= r < 255 -> ip + Z.of_nat k + 1 <= iend - 5 -> (k < fuel)%nat ->
  match_run src iend fuel ip L = Ok (inr (ip + Z.of_nat k + 1, L + 255 * Z.of_nat k + r)).
Proof.
  revert fuel ip L. induction k as [|k IH]; intros [|fuel] ip L Hs Hr Hi Hf; try lia; cbn [match_run].
  - rewrite (sees_load _ _ _ _ Hs). cbn [mbind outcome_bind]. unfold LASTLITERALS.
    rewrite (proj2 (Z.ltb_ge _ _)), (proj2 (Z.eqb_neq r 255)) by lia. do 3 f_equal; lia.
  - rewrite (sees_load _ _ _ _ Hs). cbn [mbind outcome_bind]. unfold LASTLITERALS.
    rewrite (proj2 (Z.ltb_ge _ _)) by lia. rewrite Z.eqb_refl.
    rewrite (IH fuel (ip + 1) (L + 255)); [do 3 f_equal; lia| |lia..].
    apply (sees_app src ip [255] (replicate k 255 ++ [r])) in Hs. apply Hs.
Qed.

Lemma uptr_fits a n : 0 <= a -> 0 <= n -> a + n < 2 ^ 64 -> uptr_overflow a n = false.
Proof. intros. unfold uptr_overflow, u64, wrap. rewrite Z.mod_small by lia. apply Z.ltb_ge. lia. Qed.

(** [n - 15] in 255s. *)
Lemma run_enc_parts n : 15 <= n -> exists k r, n = 15 + 255 * Z.of_nat k + r /\ 0 <= r < 255 /\
  run_ext n = replicate k 255 ++ [r] /\ zlen (run_ext n) = Z.of_nat k + 1.
Proof.
  intros Hn. exists (Z.to_nat ((n - 15) / 255)), ((n - 15) mod 255).
  assert (run_ext n = run_enc (n - 15)) as E by (unfold run_ext; by rewrite (proj2 (Z.ltb_ge _ _)) by lia).
  split; [Z.div_mod_to_equations; lia|]. split; [Z.div_mod_to_equations; lia|]. split; [done|].
  rewrite E. unfold run_enc. rewrite zlen_app. unfold zlen at 1. rewrite length_replicate. done.
Qed.

Lemma literal_length_enc L b ip op :
  sees src ip (run_ext L) -> 0 <= L -> 0 <= b < 16 -> ip + zlen (run_ext L) + L <= iend ->
  0 <= op -> op + L <= oend ->
  literal_length asrc adst src iend (16 * Z.min L 15 + b) ip op = Ok (ip + zlen (run_ext L), L, false).
Proof.
  intros Hs HL Hb Hi Hop Ho. unfold literal_length. destruct (token_split (Z.min L 15) b) as [-> _]; [lia..|].
  apply sees_bound in Hs as Hip. unfold RUN_MASK. destruct (Z.ltb_spec L 15).
  - rewrite Z.min_l, (proj2 (Z.eqb_neq _ _)) by lia.
    unfold run_ext. rewrite (proj2 (Z.ltb_lt _ _)) by lia. do 3 f_equal. change (zlen []) with 0. lia.
  - destruct (run_enc_parts L) as (k & r & HLk & Hr & E & El); [lia|]. rewrite El in *. rewrite E in Hs.
    rewrite Z.min_r by lia. rewrite Z.eqb_refl.
    rewrite (literal_run_enc k r) by (done || lia). cbn [mbind outcome_bind].
    rewrite !uptr_fits by lia. cbn [orb]. do 3 f_equal; lia.
Qed.

Lemma match_length_enc n a ip op :
  sees src ip (run_ext n) -> 0 <= n -> 0 <= a -> ip + zlen (run_ext n) <= iend - 5 -> 0 <= op -> op + n <= oend ->
  match_length adst src iend (16 * a + Z.min n 15) ip op = Ok (inr (ip + zlen (run_ext n), n)).
Proof.
  intros Hs Hn Ha Hi Hop Ho. unfold match_length. destruct (token_split a (Z.min n 15)) as [_ ->]; [lia..|].
  apply sees_bound in Hs as Hip. unfold ML_MASK. destruct (Z.ltb_spec n 15).
  - rewrite Z.min_l, (proj2 (Z.eqb_neq _ _)) by lia.
    unfold run_ext. rewrite (proj2 (Z.ltb_lt _ _)) by lia. do 3 f_equal. change (zlen []) with 0. lia.
  - destruct (run_enc_parts n) as (k & r & Hnk & Hr & E & El); [lia|]. rewrite El in *. rewrite E in Hs.
    rewrite Z.min_r by lia. rewrite Z.eqb_refl.
    rewrite (match_run_enc k r) by (done || lia). cbn [mbind outcome_bind].
    rewrite uptr_fits by lia. do 3 f_equal; lia.
Qed.

(** The parts of an encoded sequence. *)
Lemma sees_seq ip s :
  sees src ip (seq_enc s) ->
  let p1 := ip + 1 + zlen (run_ext (zlen (sq_lits s))) in
  let p2 := p1 + zlen (sq_lits s) in
  load src ip = Ok (seq_token s) /\ sees src (ip + 1) (run_ext (zlen (sq_lits s))) /\ sees src p1 (sq_lits s) /\
  sees src p2 (le_bytes 2 (sq_off s)) /\ sees src (p2 + 2) (run_ext (sq_len s - 4)) /\
  ip + zlen (seq_enc s) = p2 + 2 + zlen (run_ext (sq_len s - 4)).
Proof.
  intros Hs p1 p2. unfold seq_enc in *. apply sees_app in Hs as [H1 Hs]. apply sees_app in Hs as [H2 Hs].
  apply sees_app in Hs as [H3 Hs]. apply sees_app in Hs as [H4 H5]. change (zlen [seq_token s]) with 1 in *.
  change (zlen (le_bytes 2 (sq_off s))) with 2 in *. fold p1 in H3, H4, H5. fold p2 in H4, H5.
  split; [by apply (sees_load _ _ _ _ H1)|]. split_and!; [done..|]. rewrite !zlen_app.
  change (zlen [seq_token s]) with 1. change (zlen (le_bytes 2 (sq_off s))) with 2. unfold p2, p1. lia.
Qed.

Lemma decode_sequence_enc m ip out s :
  sees src ip (seq_enc s) -> ip + zlen (seq_enc s) + 6 <= iend -> zlen m = oend -> starts m out ->
  let at_ := zlen out + zlen (sq_lits s) in
  1 <= sq_off s <= at_ -> sq_off s < 2 ^ 16 -> 4 <= sq_len s -> at_ + 12 <= oend -> at_ + sq_len s + 5 <= oend ->
  exists m', decode_sequence asrc adst src iend oend m ip (zlen out) =
      Ok (DecNext (ip + zlen (seq_enc s)) (zlen (lz_exec out s)) m') /\
    zlen m' = oend /\ starts m' (lz_exec out s).
Proof.
  intros Hs Hend Hm Hst at_ Hoff Hoff2 Hlen Ha12 Ha5. pose proof (zlen_nonneg out) as Hout.
  pose proof (zlen_nonneg (sq_lits s)) as HL. pose proof (zlen_run_ext (zlen (sq_lits s))) as HR1.
  pose proof (zlen_run_ext (sq_len s - 4)) as HR2.
  destruct (sees_seq ip s Hs) as (Et & H1 & H2 & H3 & H4 & El). apply sees_bound in Hs as Hip.
  unfold decode_sequence. rewrite Et. cbn [mbind outcome_bind]. unfold seq_token.
  rewrite literal_length_enc by (done || lia). cbn [mbind outcome_bind].
  fold at_. unfold MFLIMIT, WILDCOPYLENGTH, MINMATCH, LASTLITERALS.
  rewrite (proj2 (Z.ltb_ge _ _)), (proj2 (Z.ltb_ge _ _)) by lia. cbn [orb].
  destruct (literals_copied src iend oend Hiend m (ip + 1 + zlen (run_ext (zlen (sq_lits s)))) (zlen out) (zlen (sq_lits s)))
    as (m1 & E1 & Hk1 & Hlit); [lia..|unfold MFLIMIT, WILDCOPYLENGTH, MINMATCH; lia|lia|]. fold at_ in E1. rewrite E1. cbn [mbind outcome_bind].
  pose proof Hk1 as [Hl1 _].
  assert (Hst1 : starts m1 (out ++ sq_lits s)).
  { apply starts_app; [by eapply starts_keeps|lia|]. intros i Hi. rewrite Hlit by lia.
    rewrite <- (sees_get src _ _ (i - zlen out) H2) by lia. f_equal. lia. }
  unfold LZ4_readLE16. pose proof (sees_read _ _ _ H3) as E2. change (zlen (le_bytes 2 (sq_off s))) with 2 in E2.
  rewrite E2. cbn [mbind outcome_bind]. rewrite le_val_le_bytes, Z.mod_small by (change (8 * Z.of_nat 2) with 16; lia).
  rewrite (proj2 (Z.ltb_ge _ _)) by lia.
  destruct (mem_write_keeps m1 at_ (le_bytes 4 (sq_off s))) as (m2 & -> & Hk2);
    [lia|change (zlen (le_bytes _ _)) with 4; lia|]. cbn [mbind outcome_bind].
  rewrite match_length_enc by (done || lia). cbn [mbind outcome_bind]. pose proof Hk2 as [Hl2 _].
  replace (sq_len s - 4 + 4) with (sq_len s) by lia.
  destruct (copy_match_within_Ok oend m2 at_ (sq_off s) (sq_len s)) as (m3 & -> & Hk3 & Hp); [lia..|].
  cbn [mbind outcome_bind]. rewrite (proj2 (Z.leb_le _ _)) by lia. pose proof Hk3 as [Hl3 _].
  rewrite zlen_lz_exec by lia. fold at_. exists m3. rewrite El. split; [done|]. split; [lia|].
  assert (Hat : zlen (out ++ sq_lits s) = at_) by apply zlen_app.
  unfold lz_exec. apply starts_lz_copy; rewrite ?Hat; [|lia..|rewrite Z2Nat.id by lia; apply Hp; lia].
  eapply starts_keeps; [eapply starts_keeps; [exact Hst1|]|]; rewrite Hat; done.
Qed.

Lemma decode_last_enc m ip out lits :
  sees src ip (last_enc lits) -> ip + zlen (last_enc lits) = iend -> zlen m = oend -> starts m out ->
  zlen out + zlen lits <= oend ->
  exists m', decode_sequence asrc adst src iend oend m ip (zlen out) = Ok (DecDone (zlen out + zlen lits) m') /\
    zlen m' = oend /\ starts m' (out ++ lits).
Proof.
  intros Hs Hend Hm Hst Ho. pose proof (zlen_nonneg out). pose proof (zlen_nonneg lits). unfold last_enc in *.
  apply sees_bound in Hs as Hip. pose proof (zlen_run_ext (zlen lits)).
  apply sees_app in Hs as [Ht Hs]. apply sees_app in Hs as [Hx Hy]. rewrite !zlen_app in Hend.
  change (zlen [16 * Z.min (zlen lits) 15]) with 1 in *.
  unfold decode_sequence. rewrite (sees_load _ _ _ _ Ht). cbn [mbind outcome_bind].
  rewrite <- (Z.add_0_r (16 * Z.min (zlen lits) 15)).
  rewrite literal_length_enc by (done || lia). cbn [mbind outcome_bind]. unfold LASTLITERALS.
  rewrite (proj2 (Z.ltb_lt (iend - (2 + 1 + 5)) _)), orb_true_r by lia.
  rewrite (proj2 (Z.eqb_eq _ _)) by lia. cbn [negb orb]. rewrite (proj2 (Z.ltb_ge _ _)) by lia.
  destruct (memcpy_from_Ok src m (zlen out) (ip + 1 + zlen (run_ext (zlen lits))) (zlen lits)) as (m1 & -> & Hk & Hc); [lia..|].
  cbn [mbind outcome_bind]. pose proof Hk as [Hl _]. exists m1. split; [done|]. split; [lia|].
  apply starts_app; [by eapply starts_keeps|lia|]. intros i Hi. rewrite Hc by lia.
  rewrite <- (sees_get src _ _ (i - zlen out) Hy) by lia. f_equal. lia.
Qed.

(** Five bytes of output left need six of input. *)
Lemma block_tail total out ss last :
  block_ok total out ss last -> zlen out + 5 <= total -> 6 <= zlen (block_enc ss last).
Proof.
  revert out. induction ss as [|s ss IH]; intros out Hb Hl; cbn [block_ok] in Hb.
  - change (block_enc [] last) with (last_enc last). unfold last_enc. rewrite !zlen_app. change (zlen [_]) with 1.
    pose proof (zlen_run_ext (zlen last)). lia.
  - destruct Hb as (_ & _ & H4 & _ & H5 & Hb). apply IH in Hb; [|rewrite zlen_lz_exec by lia; lia].
    rewrite block_enc_cons, zlen_app. pose proof (zlen_nonneg (seq_enc s)). lia.
Qed.

Lemma decode_loop_enc total fuel ss last m ip out :
  sees src ip (block_enc ss last) -> ip + zlen (block_enc ss last) = iend -> zlen m = oend -> starts m out ->
  block_ok total out ss last -> total <= oend -> (length ss < fuel)%nat ->
  exists m', decode_loop asrc adst src iend oend fuel m ip (zlen out) = Ok (total, m') /\
    zlen m' = oend /\ starts m' (foldl lz_exec out ss ++ last).
Proof.
  intros Hs Hend Hm Hst Hb Ht Hf. revert fuel m ip out Hs Hend Hm Hst Hb Hf.
  induction ss as [|s ss IH]; intros [|fuel] m ip out Hs Hend Hm Hst Hb Hf; cbn [length] in Hf; try lia; cbn [decode_loop foldl].
  - cbn [block_ok] in Hb. destruct (decode_last_enc m ip out last) as (m' & -> & Hm' & Hst'); [done..|lia|].
    cbn [mbind outcome_bind]. rewrite Hb. by exists m'.
  - destruct Hb as (H1 & H2 & H3 & H4 & H5 & Hb).
    rewrite block_enc_cons in Hs, Hend. apply sees_app in Hs as [Hs1 Hs2]. rewrite zlen_app in Hend.
    assert (6 <= zlen (block_enc ss last)) by (eapply block_tail; [exact Hb|rewrite zlen_lz_exec by lia; lia]).
    destruct (decode_sequence_enc m ip out s) as (m' & -> & Hm' & Hst'); [done || lia..|]. cbn [mbind outcome_bind].
    apply IH; done || lia.
Qed.
End Decodes.

(** ** Properties of the decoder *)

(** Whatever the input, the decoder ends, stays inside its two blocks, and reports at
    most the size of the output. *)
Lemma decompress_total asrc adst source dest compressedSize :
  Forall is_byte source -> 1 <= compressedSize <= zlen source -> 2 <= zlen source ->
  exists r dest', LZ4_decompress_safe asrc adst source dest compressedSize = Ok (r, dest') /\
    zlen dest' = zlen dest /\ r <= zlen dest.
Proof.
  intros Hb Hc H2. unfold LZ4_decompress_safe. pose proof (zlen_nonneg dest). destruct (Z.eqb_spec (zlen dest) 0).
  - destruct (load_src source Hb 0) as (b & -> & _); [lia|]. cbn [mbind outcome_bind].
    destruct (_ =? 1); [destruct (b =? 0)|]; (do 2 eexists; split; [done|lia]).
  - destruct (decode_loop_safe asrc adst source compressedSize (zlen dest) Hb) with (fuel := S (Z.to_nat compressedSize))
      (m := dest) (ip := 0) (op := 0) as (r & m' & -> & Hr & [Hl _]); [lia..|]. do 2 eexists. split; [done|lia].
Qed.

Lemma length_block_enc ss last : Z.of_nat (length ss) < zlen (block_enc ss last).
Proof.
  induction ss as [|s ss IH].
  - change (block_enc [] last) with ([16 * Z.min (zlen last) 15] ++ run_ext (zlen last) ++ last).
    rewrite zlen_app. change (zlen [_]) with 1. pose proof (zlen_nonneg (run_ext (zlen last) ++ last)). cbn. lia.
  - rewrite block_enc_cons, zlen_app. cbn [length]. unfold seq_enc. rewrite zlen_app. change (zlen [_]) with 1.
    match goal with |- context [1 + zlen ?l] => pose proof (zlen_nonneg l) end. lia.
Qed.

(** A block that keeps the end-of-block rules decodes to what it denotes, into any
    destination it fits in. *)
Lemma decompress_block_Ok asrc adst ss last post dest :
  let total := zlen (lz_run ss last) in
  let source := block_enc ss last ++ post in
  block_ok total [] ss last -> total <= zlen dest -> 1 <= zlen dest ->
  0 <= asrc -> asrc + zlen source < 2 ^ 64 -> 0 <= adst -> adst + zlen dest < 2 ^ 64 ->
  exists dest', LZ4_decompress_safe asrc adst source dest (zlen (block_enc ss last)) = Ok (total, dest') /\
    zlen dest' = zlen dest /\ ztake total dest' = lz_run ss last.
Proof.
  intros total source Hb Ht H1 Has Hs Had Hd. unfold LZ4_decompress_safe. rewrite (proj2 (Z.eqb_neq _ _)) by lia.
  pose proof (length_block_enc ss last). pose proof (zlen_nonneg post).
  destruct (decode_loop_enc asrc adst source (zlen (block_enc ss last)) (zlen dest)) with (total := total)
    (fuel := S (Z.to_nat (zlen (block_enc ss last)))) (ss := ss) (last := last) (m := dest) (ip := 0) (out := @nil Z)
    as (m' & E & Hl & [Hst1 Hst]); try done; try lia.
  - unfold source. rewrite zlen_app. lia.
  - by exists [], post.
  - split; [change (zlen []) with 0; lia|]. intros i Hi. change (zlen []) with 0 in Hi. rewrite !(proj2 (zget_None _ _)) by lia. done.
  - change (zlen []) with 0 in E. rewrite E. exists m'. split; [done|]. split; [done|].
    fold (lz_run ss last) in Hst1, Hst. pose proof (zlen_nonneg (lz_run ss last)). apply zget_ext; [rewrite zlen_ztake by lia; done|].
    intros i Hi. rewrite zlen_ztake in Hi by lia. rewrite zget_ztake by lia. apply Hst. unfold total in Hi. lia.
Qed.
