(* ===== verification/LZ4Compress.v ===== *)
(** LZ4 compression, from the copy of LZ4 in node/Packet.cpp: LZ4_compress_generic with no
    dictionary, as LZ4_compress_fast_extState calls it on a 64-bit machine.

    The source, the destination and the hash table are blocks; [Undef] is an access
    outside one of them.  The compressor is proved to emit a block of the format of LZ4.v
    that denotes its input and to stay below LZ4_compressBound, so that decompression
    gives the input back. *)
From S2P Require Import Prelude.
From S2P Require Import LZ4.

Definition LZ4_MEMORY_USAGE : Z := 14.
Definition LZ4_MAX_INPUT_SIZE : Z := 0x7E000000.
Definition LZ4_HASHLOG : Z := LZ4_MEMORY_USAGE - 2.
Definition LZ4_minLength : Z := MFLIMIT + 1.
Definition MAX_DISTANCE : Z := 2 ^ 16 - 1.
Definition LZ4_64Klimit : Z := 64 * 2 ^ 10 + (MFLIMIT - 1).
Definition LZ4_skipTrigger : Z := 6.

(** For a non-negative [isize]. *)
Definition LZ4_compressBound (isize : Z) : Z :=
  if LZ4_MAX_INPUT_SIZE <? u32 isize then 0 else isize + isize / 255 + 16.

(** The tables used where pointers have eight bytes. *)
Inductive tableType_t : Type := byU32 | byU16.

(** ** Reading the source *)

Definition LZ4_read16 (m : list Z) (p : Z) : outcome Z := x ← mem_read m p 2; Ok (le_val x).
Definition LZ4_read32 (m : list Z) (p : Z) : outcome Z := x ← mem_read m p 4; Ok (le_val x).
Definition LZ4_read_ARCH (m : list Z) (p : Z) : outcome Z := x ← mem_read m p 8; Ok (le_val x).

Fixpoint ctz_pos (p : positive) : Z := match p with xO p => 1 + ctz_pos p | _ => 0 end.
(** [__builtin_ctzll], undefined at zero. *)
Definition ctzll (v : Z) : outcome Z := match v with Zpos p => Ok (ctz_pos p) | _ => Undef end.

Definition LZ4_NbCommonBytes (val : Z) : outcome Z := r ← ctzll val; Ok (Z.shiftr r 3).

(** The loop over eight bytes: the count, when the bytes differ, or where the rest starts. *)
Fixpoint count_loop (fuel : nat) (m : list Z) (pIn pMatch pInLimit : Z) : outcome (Z + Z * Z) :=
  match fuel with
  | O => Undef
  | S fuel =>
      if pIn <? pInLimit - 7 then
        a ← LZ4_read_ARCH m pMatch;
        b ← LZ4_read_ARCH m pIn;
        let diff := Z.lxor a b in
        if diff =? 0 then count_loop fuel m (pIn + 8) (pMatch + 8) pInLimit
        else n ← LZ4_NbCommonBytes diff; Ok (inl (pIn + n))
      else Ok (inr (pIn, pMatch))
  end.

(** [read] gives the same at both pointers, which then move by [n]. *)
Definition count_if (read : Z -> outcome Z) (n : Z) (pInLimit : Z) (p : Z * Z) : outcome (Z * Z) :=
  let '(pIn, pMatch) := p in
  if pIn <? pInLimit - (n - 1) then
    a ← read pMatch; b ← read pIn;
    Ok (if a =? b then (pIn + n, pMatch + n) else (pIn, pMatch))
  else Ok (pIn, pMatch).

Definition LZ4_count (m : list Z) (pIn pMatch pInLimit : Z) : outcome Z :=
  let pStart := pIn in
  r ← count_loop (S (Z.to_nat (pInLimit - pIn))) m pIn pMatch pInLimit;
  match r with
  | inl pIn => Ok (pIn - pStart)
  | inr p =>
      p ← count_if (LZ4_read32 m) 4 pInLimit p;
      p ← count_if (LZ4_read16 m) 2 pInLimit p;
      p ← count_if (load m) 1 pInLimit p;
      Ok (p.1 - pStart)
  end.

(** ** The hash table *)

Definition hash_bits (t : tableType_t) : Z := match t with byU16 => LZ4_HASHLOG + 1 | byU32 => LZ4_HASHLOG end.

Definition LZ4_hash4 (sequence : Z) (t : tableType_t) : Z :=
  match t with
  | byU16 => Z.shiftr (u32 (sequence * 2654435761)) (MINMATCH * 8 - (LZ4_HASHLOG + 1))
  | byU32 => Z.shiftr (u32 (sequence * 2654435761)) (MINMATCH * 8 - LZ4_HASHLOG)
  end.

Definition LZ4_hash5 (sequence : Z) (t : tableType_t) : Z :=
  let prime5bytes := 889523592379 in
  u32 (Z.shiftr (u64 (u64 (Z.shiftl sequence 24) * prime5bytes)) (64 - hash_bits t)).

Definition LZ4_hashPosition (m : list Z) (p : Z) (t : tableType_t) : outcome Z :=
  match t with
  | byU16 => v ← LZ4_read32 m p; Ok (LZ4_hash4 v t)
  | byU32 => v ← LZ4_read_ARCH m p; Ok (LZ4_hash5 v t)
  end.

(** [p] is relative to [srcBase], which is the source. *)
Definition LZ4_putPositionOnHash (p h : Z) (table : list Z) (t : tableType_t) : outcome (list Z) :=
  mem_write table h [match t with byU32 => u32 p | byU16 => u16 p end].

Definition LZ4_putPosition (m : list Z) (p : Z) (table : list Z) (t : tableType_t) : outcome (list Z) :=
  h ← LZ4_hashPosition m p t; LZ4_putPositionOnHash p h table t.

Definition LZ4_getPositionOnHash (h : Z) (table : list Z) : outcome Z := load table h.

Definition LZ4_getPosition (m : list Z) (p : Z) (table : list Z) (t : tableType_t) : outcome Z :=
  h ← LZ4_hashPosition m p t; LZ4_getPositionOnHash h table.

(** LZ4_resetStream: the table all zero, as many entries as its type makes of 16 KB. *)
Definition LZ4_resetStream (t : tableType_t) : list Z := replicate (Z.to_nat (2 ^ hash_bits t)) 0.

(** ** The compressor *)

Section Compressor.
Context (source : list Z) (inputSize maxOutputSize : Z) (outputLimited : bool) (tableType : tableType_t) (acceleration : Z).

Definition comp_iend : Z := inputSize.
Definition mflimit : Z := inputSize - MFLIMIT.
Definition matchlimit : Z := inputSize - LASTLITERALS.

(** "Find a match": [None] is the jump to [_last_literals]; otherwise the table, [ip] and
    [match].  [forwardH] is set again before its next use. *)
Fixpoint find_match (fuel : nat) (table : list Z) (forwardIp step searchMatchNb forwardH : Z) : outcome (option (list Z * Z * Z)) :=
  match fuel with
  | O => Undef
  | S fuel =>
      let h := forwardH in
      let ip := forwardIp in
      let forwardIp := forwardIp + step in
      let step := Z.shiftr searchMatchNb LZ4_skipTrigger in
      let searchMatchNb := u32 (searchMatchNb + 1) in
      if mflimit <? forwardIp then Ok None else
      mt ← LZ4_getPositionOnHash h table;
      forwardH ← LZ4_hashPosition source forwardIp tableType;
      table ← LZ4_putPositionOnHash ip h table tableType;
      again ← (if match tableType with byU16 => false | byU32 => mt + MAX_DISTANCE <? ip end then Ok true
               else a ← LZ4_read32 source mt; b ← LZ4_read32 source ip; Ok (negb (a =? b)));
      if (again : bool) then find_match fuel table forwardIp step searchMatchNb forwardH
      else Ok (Some (table, ip, mt))
  end.

(** "Catch up" *)
Fixpoint catch_up (fuel : nat) (anchor ip mt : Z) : outcome (Z * Z) :=
  match fuel with
  | O => Undef
  | S fuel =>
      if (anchor <? ip) && (0 <? mt) then
        a ← load source (ip - 1); b ← load source (mt - 1);
        if a =? b then catch_up fuel anchor (ip - 1) (mt - 1) else Ok (ip, mt)
      else Ok (ip, mt)
  end.

(** [for(; len >= 255 ; len-=255) *op++ = 255; *op++ = (BYTE)len;] *)
Fixpoint write_run (fuel : nat) (m : list Z) (op len : Z) : outcome (list Z * Z) :=
  match fuel with
  | O => Undef
  | S fuel =>
      if 255 <=? len then m ← mem_write m op [255]; write_run fuel m (op + 1) (len - 255)
      else m ← mem_write m op [u8 len]; Ok (m, op + 1)
  end.

(** "Encode Literals": the destination, [token] and [op]; [None] for no room. *)
Definition encode_literals (m : list Z) (anchor ip op : Z) : outcome (option (list Z * Z * Z)) :=
  let litLength := ip - anchor in
  let token := op in
  let op := op + 1 in
  if outputLimited && (maxOutputSize <? op + litLength + (2 + 1 + LASTLITERALS) + litLength / 255) then Ok None else
  '(m, op) ← (if RUN_MASK <=? litLength then
      m ← mem_write m token [Z.shiftl RUN_MASK ML_BITS];
      write_run (S (Z.to_nat litLength)) m op (litLength - RUN_MASK)
    else
      m ← mem_write m token [u8 (Z.shiftl litLength ML_BITS)];
      Ok (m, op));
  m ← LZ4_wildCopy (LZ4_copy8_from source) m op anchor (op + litLength);
  Ok (Some (m, token, op + litLength)).

Definition LZ4_write32 (m : list Z) (p v : Z) : outcome (list Z) := mem_write m p (le_bytes 4 v).
Definition LZ4_writeLE16 (m : list Z) (p v : Z) : outcome (list Z) := mem_write m p (le_bytes 2 (u16 v)).

(** [*token += v] *)
Definition token_add (m : list Z) (token v : Z) : outcome (list Z) :=
  b ← load m token; mem_write m token [u8 (b + v)].

(** [while (matchCode >= 4*255) op+=4, LZ4_write32(op, 0xFFFFFFFF), matchCode -= 4*255] *)
Fixpoint match_run_loop (fuel : nat) (m : list Z) (op matchCode : Z) : outcome (list Z * Z * Z) :=
  match fuel with
  | O => Undef
  | S fuel =>
      if 4 * 255 <=? matchCode then
        m ← LZ4_write32 m (op + 4) 0xFFFFFFFF; match_run_loop fuel m (op + 4) (matchCode - 4 * 255)
      else Ok (m, op, matchCode)
  end.

(** "Encode Offset" and "Encode MatchLength": the destination, [op] and [ip]; [inl] for no room. *)
Definition encode_match (m : list Z) (ip mt token op : Z) : outcome (list Z + list Z * Z * Z) :=
  m ← LZ4_writeLE16 m op (ip - mt);
  let op := op + 2 in
  matchCode ← LZ4_count source (ip + MINMATCH) (mt + MINMATCH) matchlimit;
  let ip := ip + (MINMATCH + matchCode) in
  if outputLimited && (maxOutputSize <? op + (1 + LASTLITERALS) + Z.shiftr matchCode 8) then Ok (inl m) else
  if ML_MASK <=? matchCode then
    m ← token_add m token ML_MASK;
    let matchCode := matchCode - ML_MASK in
    m ← LZ4_write32 m op 0xFFFFFFFF;
    '(m, op, matchCode) ← match_run_loop (S (Z.to_nat matchCode)) m op matchCode;
    let op := op + matchCode / 255 in
    m ← mem_write m op [u8 (matchCode mod 255)];
    Ok (inr (m, op + 1, ip))
  else
    m ← token_add m token (u8 matchCode);
    Ok (inr (m, op, ip)).

(** What comes after [_next_match]. *)
Inductive next_step : Type :=
| NextFull (m : list Z)
| NextBreak (m : list Z) (ip op : Z)
| NextLoop (m table : list Z) (ip op : Z).

(** From [_next_match] to the end of the main loop's body; [goto _next_match] is the
    recursive call.  [anchor] is [ip] where the loop is left. *)
Fixpoint next_match (fuel : nat) (m table : list Z) (ip mt token op : Z) : outcome next_step :=
  match fuel with
  | O => Undef
  | S fuel =>
      r ← encode_match m ip mt token op;
      match r with
      | inl m => Ok (NextFull m)
      | inr (m, op, ip) =>
          if mflimit <? ip then Ok (NextBreak m ip op) else
          table ← LZ4_putPosition source (ip - 2) table tableType;
          mt ← LZ4_getPosition source ip table tableType;
          table ← LZ4_putPosition source ip table tableType;
          again ← (if ip <=? mt + MAX_DISTANCE then
                     a ← LZ4_read32 source mt; b ← LZ4_read32 source ip; Ok (a =? b)
                   else Ok false);
          if (again : bool) then
            m ← mem_write m op [0];
            next_match fuel m table ip mt op (op + 1)
          else Ok (NextLoop m table ip op)
      end
  end.

(** "Encode Last Literals", and the return value. *)
Definition last_literals (m : list Z) (anchor op : Z) : outcome (Z * list Z) :=
  let lastRun := comp_iend - anchor in
  if outputLimited && (u32 maxOutputSize <? op + lastRun + 1 + (lastRun + 255 - RUN_MASK) / 255) then Ok (0, m) else
  '(m, op) ← (if RUN_MASK <=? lastRun then
      m ← mem_write m op [Z.shiftl RUN_MASK ML_BITS];
      write_run (S (Z.to_nat lastRun)) m (op + 1) (lastRun - RUN_MASK)
    else
      m ← mem_write m op [u8 (Z.shiftl lastRun ML_BITS)];
      Ok (m, op + 1));
  m ← memcpy_from source m op anchor lastRun;
  Ok (op + lastRun, m).

Fixpoint compress_loop (fuel : nat) (m table : list Z) (ip anchor op forwardH : Z) : outcome (Z * list Z) :=
  match fuel with
  | O => Undef
  | S fuel =>
      r ← find_match (S (Z.to_nat inputSize)) table ip 1 (u32 (Z.shiftl acceleration LZ4_skipTrigger)) forwardH;
      match r with
      | None => last_literals m anchor op
      | Some (table, ip, mt) =>
          '(ip, mt) ← catch_up (S (Z.to_nat inputSize)) anchor ip mt;
          r ← encode_literals m anchor ip op;
          match r with
          | None => Ok (0, m)
          | Some (m, token, op) =>
              r ← next_match (S (Z.to_nat inputSize)) m table ip mt token op;
              match r with
              | NextFull m => Ok (0, m)
              | NextBreak m ip op => last_literals m ip op
              | NextLoop m table ip op =>
                  forwardH ← LZ4_hashPosition source (ip + 1) tableType;
                  compress_loop fuel m table (ip + 1) ip op forwardH
              end
          end
      end
  end.

(** The return value and the destination. *)
Definition LZ4_compress_generic (table dest : list Z) : outcome (Z * list Z) :=
  if LZ4_MAX_INPUT_SIZE <? u32 inputSize then Ok (0, dest) else
  if match tableType with byU16 => LZ4_64Klimit <=? inputSize | byU32 => false end then Ok (0, dest) else
  if inputSize <? LZ4_minLength then last_literals dest 0 0 else
  table ← LZ4_putPosition source 0 table tableType;
  forwardH ← LZ4_hashPosition source 1 tableType;
  compress_loop (S (Z.to_nat inputSize)) dest table 1 0 0 forwardH.
End Compressor.

Definition LZ4_compress_fast_extState (source dest : list Z) (inputSize maxOutputSize acceleration : Z) : outcome (Z * list Z) :=
  if LZ4_compressBound inputSize <=? maxOutputSize then
    if inputSize <? LZ4_64Klimit
    then LZ4_compress_generic source inputSize 0 false byU16 acceleration (LZ4_resetStream byU16) dest
    else LZ4_compress_generic source inputSize 0 false byU32 acceleration (LZ4_resetStream byU32) dest
  else
    if inputSize <? LZ4_64Klimit
    then LZ4_compress_generic source inputSize maxOutputSize true byU16 acceleration (LZ4_resetStream byU16) dest
    else LZ4_compress_generic source inputSize maxOutputSize true byU32 acceleration (LZ4_resetStream byU32) dest.

(** The state is a local of the function. *)
Definition LZ4_compress_fast (source dest : list Z) (inputSize maxOutputSize acceleration : Z) : outcome (Z * list Z) :=
  LZ4_compress_fast_extState source dest inputSize maxOutputSize acceleration.

(** ** LZ4_count *)

(** The [n] bytes at [a] and at [b] are the same. *)
Definition agree (m : list Z) (a b n : Z) : Prop := forall i, 0 <= i < n -> zget m (a + i) = zget m (b + i).

Lemma agree_le m a b n n' : agree m a b n -> n' <= n -> agree m a b n'.
Proof. intros H Hn i Hi. apply H. lia. Qed.

Lemma agree_app m a b n k : agree m a b n -> agree m (a + n) (b + n) k -> agree m a b (n + k).
Proof.
  intros H1 H2 i Hi. destruct (Z.ltb_spec i n); [apply H1; lia|].
  replace (a + i) with (a + n + (i - n)) by lia. replace (b + i) with (b + n + (i - n)) by lia. apply H2. lia.
Qed.

Lemma agree_slice m a b n :
  0 <= a -> 0 <= b -> 0 <= n -> a + n <= zlen m -> b + n <= zlen m -> agree m a b n <-> slice a n m = slice b n m.
Proof.
  intros Ha Hb Hn Hla Hlb. split.
  - intros H. apply zget_ext; [by rewrite !zlen_slice by lia|]. intros i Hi. rewrite zlen_slice in Hi by lia.
    rewrite !zget_slice by lia. by apply H.
  - intros E i Hi. rewrite <- (zget_slice a n m i), <- (zget_slice b n m i) by lia. by rewrite E.
Qed.

Lemma le_val_inj l k : Forall is_byte l -> Forall is_byte k -> length l = length k -> le_val l = le_val k -> l = k.
Proof. intros Hl Hk E H. rewrite <- (le_bytes_le_val l Hl), <- (le_bytes_le_val k Hk). by rewrite E, H. Qed.

Lemma ctz_pos_divide p : 0 <= ctz_pos p /\ (2 ^ ctz_pos p | Zpos p).
Proof.
  induction p as [p IH|p IH|]; cbn [ctz_pos]; try (split; [lia|apply Z.divide_1_l]).
  destruct IH as [H0 [q Hq]]. split; [lia|]. exists q. rewrite Z.pow_add_r by lia. lia.
Qed.

Lemma ctz_low_byte v : 0 < v -> v mod 2 ^ 8 <> 0 -> exists c, ctzll v = Ok c /\ 0 <= c < 8.
Proof.
  intros Hv Hm. destruct v as [|p|p]; [lia| |lia]. exists (ctz_pos p). split; [done|].
  destruct (ctz_pos_divide p) as [H0 Hd]. split; [done|]. destruct (Z.ltb_spec (ctz_pos p) 8); [done|]. exfalso. apply Hm.
  apply Z.mod_divide; [done|]. eapply Z.divide_trans; [|exact Hd]. exists (2 ^ (ctz_pos p - 8)).
  rewrite <- Z.pow_add_r by lia. f_equal. lia.
Qed.

Lemma ctz_shift_byte v c : ctzll v = Ok c -> ctzll (2 ^ 8 * v) = Ok (8 + c).
Proof. destruct v as [|p|p]; [done| |done]. intros [= <-]. change (2 ^ 8 * Zpos p) with (Zpos p~0~0~0~0~0~0~0~0). cbn [ctzll ctz_pos]. f_equal. lia. Qed.

Lemma lxor_low_byte a b c d :
  is_byte a -> is_byte c -> Z.lxor (a + 256 * b) (c + 256 * d) = Z.lxor a c + 2 ^ 8 * Z.lxor b d.
Proof.
  intros Ha Hc. assert (Hac : in_range 8 (Z.lxor a c)) by (apply in_range_lxor; done).
  change 256 with (2 ^ 8). rewrite !(Z.add_comm _ (2 ^ 8 * _)), !(Z.mul_comm (2 ^ 8)).
  rewrite <- !(lor_cat 8) by (try done; apply Z.mod_mul; done). rewrite <- !Z.shiftl_mul_pow2 by done.
  apply Z.bits_inj'. intros i Hi. rewrite ?Z.lxor_spec, ?Z.lor_spec, !Z.shiftl_spec, ?Z.lxor_spec by done.
  destruct (Z.lt_ge_cases i 8).
  - by rewrite !(Z.testbit_neg_r _ (i - 8)) by lia.
  - rewrite (testbit_high 8 a), (testbit_high 8 c) by done. by rewrite !orb_false_r.
Qed.

(** The count of low bytes without a bit set in the difference is the count of bytes in common. *)
Lemma NbCommonBytes_Ok l k :
  Forall is_byte l -> Forall is_byte k -> length l = length k -> Z.lxor (le_val l) (le_val k) <> 0 ->
  exists n, LZ4_NbCommonBytes (Z.lxor (le_val l) (le_val k)) = Ok n /\ 0 <= n < zlen l /\
    (forall i, 0 <= i < n -> zget l i = zget k i) /\ zget l n <> zget k n.
Proof.
  intros Hl. revert k. induction Hl as [|x l Hx Hl IH]; intros [|y k] Hk E Hne; try done.
  apply Forall_cons in Hk as [Hy Hk]. injection E as E. pose proof (le_val_nonneg l Hl). pose proof (le_val_nonneg k Hk).
  set (d := Z.lxor (le_val l) (le_val k)). assert (Hd : 0 <= d) by (apply Z.lxor_nonneg; tauto).
  assert (Hx8 : Z.lxor (le_val (x :: l)) (le_val (y :: k)) = Z.lxor x y + 2 ^ 8 * d).
  { cbn [le_val]. by apply lxor_low_byte. }
  assert (Hxy : in_range 8 (Z.lxor x y)) by (apply in_range_lxor; done).
  rewrite Hx8 in *. unfold zlen. cbn [length]. destruct (Z.eqb_spec x y) as [->|Hn].
  - rewrite Z.lxor_nilpotent, Z.add_0_l in *. assert (Hdne : d <> 0) by (intros Ed; apply Hne; rewrite Ed; lia).
    destruct (IH k Hk E Hdne) as (n & En & Hn & Heq & Hdiff). fold d in En. unfold LZ4_NbCommonBytes in *.
    destruct (ctzll d) as [c| |] eqn:Ec; [|done..]. rewrite (ctz_shift_byte _ _ Ec). injection En as <-.
    cbn [mbind outcome_bind]. exists (1 + Z.shiftr c 3).
    split; [f_equal; rewrite !Z.shiftr_div_pow2 by lia; change (2 ^ 3) with 8; Z.div_mod_to_equations; lia|].
    split; [unfold zlen in Hn; lia|]. change (y :: l) with ([y] ++ l). change (y :: k) with ([y] ++ k). split.
    + intros i Hi. rewrite !zget_app. change (zlen [y]) with 1. destruct (Z.ltb_spec i 1); [done|]. apply Heq. lia.
    + rewrite !zget_app. change (zlen [y]) with 1. rewrite (proj2 (Z.ltb_ge _ _)) by lia.
      by replace (1 + Z.shiftr c 3 - 1) with (Z.shiftr c 3) by lia.
  - destruct (ctz_low_byte (Z.lxor x y + 2 ^ 8 * d)) as (c & Ec & Hc).
    { unfold in_range in Hxy. lia. }
    { rewrite Z.mul_comm, Z.mod_add, Z.mod_small by (done || apply Hxy). by rewrite Z.lxor_eq_0_iff. }
    unfold LZ4_NbCommonBytes. rewrite Ec. cbn [mbind outcome_bind]. exists 0.
    split; [f_equal; rewrite Z.shiftr_div_pow2 by lia; apply Z.div_small; lia|]. split; [lia|]. split; [lia|].
    by intros [= ?].
Qed.

Section Count.
Context (m : list Z) (Hm : Forall is_byte m).

Lemma length_slice p n : 0 <= p -> 0 <= n -> p + n <= zlen m -> Z.of_nat (length (slice p n m)) = n.
Proof. intros. apply (zlen_slice p n m); lia. Qed.

(** Two words are equal when their bytes are. *)
Lemma words_equal a b n :
  0 <= a -> 0 <= b -> 0 <= n -> a + n <= zlen m -> b + n <= zlen m ->
  (le_val (slice a n m) = le_val (slice b n m) <-> agree m b a n).
Proof.
  intros. rewrite agree_slice by lia. split; [|by intros ->]. intros E. symmetry. revert E.
  apply le_val_inj; [by apply slice_bytes..|].
  pose proof (length_slice a n). pose proof (length_slice b n). lia.
Qed.

Lemma count_loop_Ok fuel pIn pMatch limit :
  0 <= pMatch <= pIn -> pIn <= limit <= zlen m -> (Z.to_nat (limit - pIn) < fuel)%nat ->
  exists r, count_loop fuel m pIn pMatch limit = Ok r /\
    match r with
    | inl q => pIn <= q < limit /\ agree m pIn pMatch (q - pIn) /\ zget m q <> zget m (pMatch + (q - pIn))
    | inr (p, q) => q - p = pMatch - pIn /\ pIn <= p <= limit /\ limit <= p + 7 /\ agree m pIn pMatch (p - pIn)
    end.
Proof.
  revert pIn pMatch. induction fuel as [|fuel IH]; intros pIn pMatch Hp Hl Hf; [lia|]. cbn [count_loop].
  destruct (Z.ltb_spec pIn (limit - 7)).
  2:{ eexists. split; [done|]. cbn. split; [done|]. split; [lia|]. split; [lia|]. intros i Hi. lia. }
  unfold LZ4_read_ARCH. rewrite !mem_read_Ok by lia. cbn [mbind outcome_bind].
  destruct (Z.eqb_spec (Z.lxor (le_val (slice pMatch 8 m)) (le_val (slice pIn 8 m))) 0) as [Hz|Hz].
  - apply Z.lxor_eq in Hz. apply words_equal in Hz; [|lia..].
    destruct (IH (pIn + 8) (pMatch + 8)) as (r & -> & Hr); [lia..|]. exists r. split; [done|].
    destruct r as [q|[p q]].
    + destruct Hr as (H1 & H2 & H3). split; [lia|]. split.
      * replace (q - pIn) with (8 + (q - (pIn + 8))) by lia. by apply agree_app.
      * by replace (pMatch + (q - pIn)) with (pMatch + 8 + (q - (pIn + 8))) by lia.
    + destruct Hr as (H1 & H2 & H3 & H4). split; [lia|]. split; [lia|]. split; [lia|].
      replace (p - pIn) with (8 + (p - (pIn + 8))) by lia. by apply agree_app.
  - pose proof (length_slice pMatch 8). pose proof (length_slice pIn 8).
    destruct (NbCommonBytes_Ok (slice pMatch 8 m) (slice pIn 8 m)) as (n & -> & Hn & Heq & Hdiff); [by apply slice_bytes..|lia|done|].
    rewrite zlen_slice in Hn by lia. rewrite !zget_slice in Hdiff by lia. cbn [mbind outcome_bind].
    eexists. split; [done|]. cbn. replace (pIn + n - pIn) with n by lia. split; [lia|]. split; [|congruence].
    intros i Hi. specialize (Heq i Hi). rewrite !zget_slice in Heq by lia. done.
Qed.

Lemma count_if_Ok read n pIn pMatch limit :
  0 < n -> 0 <= pMatch <= pIn -> pIn <= limit <= zlen m ->
  (forall p, 0 <= p -> p + n <= zlen m -> read p = Ok (le_val (slice p n m))) ->
  exists p, count_if read n limit (pIn, pMatch) = Ok p /\
    (p = (pIn + n, pMatch + n) /\ agree m pIn pMatch n /\ pIn + n <= limit \/
     p = (pIn, pMatch) /\ (limit < pIn + n \/ ~ agree m pIn pMatch n)).
Proof.
  intros Hn Hp Hl Hr. unfold count_if. destruct (Z.ltb_spec pIn (limit - (n - 1))).
  2:{ eexists. split; [done|]. right. split; [done|]. left. lia. }
  rewrite !Hr by lia. cbn [mbind outcome_bind]. eexists. split; [done|].
  destruct (Z.eqb_spec (le_val (slice pMatch n m)) (le_val (slice pIn n m))) as [E|E]; rewrite words_equal in E by lia.
  - left. split; [done|]. split; [done|lia].
  - right. by split; [|right].
Qed.

Lemma load_word p : 0 <= p -> p + 1 <= zlen m -> load m p = Ok (le_val (slice p 1 m)).
Proof.
  intros Hp Hl. destruct (proj2 (zget_range m p)) as [v Hv]; [lia|]. unfold load. rewrite Hv. f_equal.
  destruct (slice p 1 m) as [|x [|]] eqn:E; pose proof (length_slice p 1) as Hlen; rewrite E in Hlen; cbn in Hlen; try lia.
  cbn [le_val]. assert (zget (slice p 1 m) 0 = Some x) as Hx by (by rewrite E). rewrite zget_slice in Hx by lia.
  rewrite Z.add_0_r in Hx. assert (v = x) by congruence. lia.
Qed.

(** LZ4_count finds the longest run the two places have in common. *)
Lemma LZ4_count_Ok pIn pMatch limit :
  0 <= pMatch <= pIn -> pIn <= limit <= zlen m ->
  exists c, LZ4_count m pIn pMatch limit = Ok c /\ 0 <= c <= limit - pIn /\ agree m pIn pMatch c /\
    (c < limit - pIn -> zget m (pIn + c) <> zget m (pMatch + c)).
Proof.
  intros Hp Hl. unfold LZ4_count.
  destruct (count_loop_Ok (S (Z.to_nat (limit - pIn))) pIn pMatch limit) as (r & -> & Hr); [lia..|]. cbn [mbind outcome_bind].
  destruct r as [q|[p q]].
  { destruct Hr as (H1 & H2 & H3). exists (q - pIn). split; [done|]. split; [lia|]. split; [done|]. intros _.
    by replace (pIn + (q - pIn)) with q by lia. }
  destruct Hr as (Hq & Hp' & Hp7 & Ha).
  assert (Hread : forall n p, 0 <= n -> 0 <= p -> p + n <= zlen m -> (x ← mem_read m p n; Ok (le_val x)) = Ok (le_val (slice p n m)))
    by (intros; rewrite mem_read_Ok by lia; done).
  destruct (count_if_Ok (LZ4_read32 m) 4 p q limit) as (p4 & -> & H4); [lia..|intros; apply Hread; lia|]. cbn [mbind outcome_bind].
  assert (Hi4 : exists a, p4 = (p + a, q + a) /\ 0 <= a /\ p + a <= limit /\ agree m p q a /\ (limit <= p + a + 3 \/ (a = 0 /\ ~ agree m p q 4))).
  { destruct H4 as [(-> & H4a & H4b)|(-> & H4)]; [exists 4|exists 0]; rewrite ?Z.add_0_r; split_and!; try done; try lia; [intros i Hi; lia|].
    destruct H4; [left; lia|by right]. }
  destruct Hi4 as (a & -> & Ha0 & Hal & Haa & Hcase4).
  destruct (count_if_Ok (LZ4_read16 m) 2 (p + a) (q + a) limit) as (p2 & -> & H2); [lia..|intros; apply Hread; lia|]. cbn [mbind outcome_bind].
  assert (Hi2 : exists b, p2 = (p + a + b, q + a + b) /\ 0 <= b /\ p + a + b <= limit /\ agree m (p + a) (q + a) b /\
     (limit <= p + a + b + 1 \/ (b = 0 /\ ~ agree m (p + a) (q + a) 2) \/ (b = 2 /\ a = 0 /\ ~ agree m p q 4))).
  { destruct H2 as [(-> & H2a & H2b)|(-> & H2)]; [exists 2|exists 0]; rewrite ?Z.add_0_r; split_and!; try done; try lia; try (intros i Hi; lia).
    - destruct Hcase4 as [|[-> ?]]; [left; lia|]. right; right. done.
    - destruct H2; [left; lia|]. right; left. done. }
  destruct Hi2 as (b & -> & Hb0 & Hbl & Hbb & Hcase2).
  destruct (count_if_Ok (load m) 1 (p + a + b) (q + a + b) limit) as (p1 & -> & H1); [lia..|intros; apply load_word; lia|].
  cbn [mbind outcome_bind]. apply agree_app with (k := a) in Ha; [|by replace (pIn + (p - pIn)) with p by lia; replace (pMatch + (p - pIn)) with q by lia].
  apply agree_app with (k := b) in Ha; [|by replace (pIn + _) with (p + a) by lia; replace (pMatch + _) with (q + a) by lia].
  destruct H1 as [(-> & H1a & H1b)|(-> & H1)]; (eexists; split; [done|]); cbn.
  - split; [lia|]. split.
    { replace (p + a + b + 1 - pIn) with (p - pIn + a + b + 1) by lia. apply agree_app; [done|].
      by replace (pIn + _) with (p + a + b) by lia; replace (pMatch + _) with (q + a + b) by lia. }
    intros Hc E. replace (pIn + _) with (p + a + b + 1) in E by lia. replace (pMatch + _) with (q + a + b + 1) in E by lia.
    destruct Hcase2 as [|[(-> & Hn)|(-> & -> & Hn)]]; [lia|..]; apply Hn.
    + change 2 with (1 + 1). apply agree_app; [by rewrite !Z.add_0_r in H1a|]. intros i Hi. replace i with 0 by lia.
      rewrite !Z.add_0_r in *. done.
    + change 4 with (2 + 1 + 1). rewrite !Z.add_0_r in *. apply agree_app; [by apply agree_app|].
      intros i Hi. replace i with 0 by lia. rewrite !Z.add_0_r. by rewrite !Z.add_assoc.
  - replace (p + a + b - pIn) with (p - pIn + a + b) by lia. split; [lia|]. split; [done|]. intros Hc E.
    destruct H1 as [|Hn]; [lia|]. apply Hn. intros i Hi. replace i with 0 by lia. rewrite !Z.add_0_r.
    replace (p + a + b) with (pIn + (p - pIn + a + b)) by lia. by replace (q + a + b) with (pMatch + (p - pIn + a + b)) by lia.
Qed.
End Count.

(** ** Finding a match *)

Section Finding.
Context (source : list Z) (inputSize : Z) (tableType : tableType_t).
Hypothesis (Hbytes : Forall is_byte source) (Hsize : inputSize <= zlen source).
Hypothesis (Hfit : match tableType with byU16 => inputSize < LZ4_64Klimit | byU32 => inputSize <= LZ4_MAX_INPUT_SIZE end).

Lemma read32_Ok p : 0 <= p -> p + 4 <= zlen source -> LZ4_read32 source p = Ok (le_val (slice p 4 source)).
Proof. intros. unfold LZ4_read32. by rewrite mem_read_Ok by lia. Qed.

Lemma hashPosition_Ok p :
  0 <= p -> p + 8 <= zlen source -> exists h, LZ4_hashPosition source p tableType = Ok h /\ in_range (hash_bits tableType) h.
Proof.
  clear Hfit. intros Hp Hl. unfold LZ4_hashPosition, LZ4_read32, LZ4_read_ARCH, LZ4_hash4, LZ4_hash5, hash_bits.
  destruct tableType; rewrite mem_read_Ok by lia; (eexists; split; [done|]).
  - assert (Hr : in_range 12 (Z.shiftr (u64 (u64 (Z.shiftl (le_val (slice p 8 source)) 24) * 889523592379)) (64 - LZ4_HASHLOG)))
      by (apply in_range_shiftr; [done..|]; by apply wrap_range).
    unfold u32. rewrite wrap_id; [done|]. by apply (in_range_weaken 12).
  - apply in_range_shiftr; [done..|]. by apply wrap_range.
Qed.

(** The table holds positions before [ip]. *)
Definition table_ok (table : list Z) (ip : Z) : Prop :=
  zlen table = 2 ^ hash_bits tableType /\ Forall (fun v => 0 <= v < ip) table.

Lemma table_ok_weaken table ip ip' : table_ok table ip -> ip <= ip' -> table_ok table ip'.
Proof. intros [Hl Ht] Hi. split; [done|]. eapply Forall_impl; [exact Ht|]. cbn. lia. Qed.

Lemma getPositionOnHash_Ok h table ip :
  in_range (hash_bits tableType) h -> table_ok table ip -> exists mt, LZ4_getPositionOnHash h table = Ok mt /\ 0 <= mt < ip.
Proof.
  intros Hh [Hl Ht]. destruct (proj2 (zget_range table h)) as [v Hv]; [unfold in_range in Hh; lia|].
  exists v. unfold LZ4_getPositionOnHash, load. rewrite Hv. split; [done|].
  unfold zget in Hv. destruct (_ <=? _); [|done]. by apply (Forall_lookup_1 _ _ _ _ Ht Hv).
Qed.

Lemma putPositionOnHash_Ok p h table ip :
  in_range (hash_bits tableType) h -> table_ok table ip -> 0 <= p < ip -> p <= inputSize - MFLIMIT ->
  exists table', LZ4_putPositionOnHash p h table tableType = Ok table' /\ table_ok table' ip.
Proof.
  clear source Hbytes Hsize. intros Hh [Hl Ht] Hp Hpl. unfold LZ4_putPositionOnHash.
  assert (Hv : match tableType with byU32 => u32 p | byU16 => u16 p end = p).
  { unfold MFLIMIT, WILDCOPYLENGTH, MINMATCH in Hpl. unfold LZ4_64Klimit, MFLIMIT, WILDCOPYLENGTH, MINMATCH, LZ4_MAX_INPUT_SIZE in Hfit.
    destruct tableType; apply wrap_id; unfold in_range; lia. }
  rewrite Hv. unfold in_range in Hh. rewrite mem_write_Ok by (try (change (zlen [p]) with 1); lia). eexists. split; [done|].
  split.
  - unfold zlen, ztake, zdrop in *. rewrite !length_app, length_take, length_drop. cbn [length]. change (Z.of_nat 1) with 1. lia.
  - apply Forall_app. split; [by apply Forall_take|]. apply Forall_app. split; [by apply Forall_singleton|by apply Forall_drop].
Qed.

Lemma find_match_Ok fuel table ip step nb h :
  table_ok table ip -> in_range (hash_bits tableType) h -> 0 <= ip -> 1 <= step -> 64 <= nb -> nb + inputSize - ip < 2 ^ 32 ->
  (Z.to_nat (mflimit inputSize - ip) < fuel)%nat ->
  exists r, find_match source inputSize tableType fuel table ip step nb h = Ok r /\
    match r with
    | None => True
    | Some (table', ip', mt) =>
        ip <= ip' /\ ip' + 1 <= mflimit inputSize /\ table_ok table' (ip' + 1) /\ 0 <= mt < ip' /\ ip' - mt <= MAX_DISTANCE /\
        agree source ip' mt 4
    end.
Proof.
  unfold mflimit. revert table ip step nb h. induction fuel as [|fuel IH]; intros table ip step nb h Ht Hh Hip Hst Hnb Hnbu Hf; [lia|].
  cbn [find_match]. destruct (Z.ltb_spec (mflimit inputSize) (ip + step)) as [|Hmf]; [by exists None|].
  unfold mflimit, MFLIMIT, WILDCOPYLENGTH, MINMATCH in *.
  destruct (getPositionOnHash_Ok h table ip Hh Ht) as (mt & -> & Hmt). cbn [mbind outcome_bind].
  destruct (hashPosition_Ok (ip + step)) as (h' & -> & Hh'); [lia..|]. cbn [mbind outcome_bind].
  destruct (putPositionOnHash_Ok ip h table (ip + 1)) as (table' & -> & Ht'); [done|eapply table_ok_weaken; [exact Ht|lia]|lia|unfold MFLIMIT, WILDCOPYLENGTH, MINMATCH; lia|].
  cbn [mbind outcome_bind].
  assert (Hnext : exists r, find_match source inputSize tableType fuel table' (ip + step) (Z.shiftr nb LZ4_skipTrigger) (u32 (nb + 1)) h' = Ok r /\
    match r with
    | None => True
    | Some (table', ip', mt) =>
        ip <= ip' /\ ip' + 1 <= inputSize - (8 + 4) /\ table_ok table' (ip' + 1) /\ 0 <= mt < ip' /\ ip' - mt <= MAX_DISTANCE /\
        agree source ip' mt 4
    end).
  { assert (Hu : u32 (nb + 1) = nb + 1) by (apply wrap_id; unfold in_range; lia).
    destruct (IH table' (ip + step) (Z.shiftr nb LZ4_skipTrigger) (u32 (nb + 1)) h') as (r & -> & Hr); rewrite ?Hu; try lia;
      [eapply table_ok_weaken; [exact Ht'|lia]|done|rewrite Z.shiftr_div_pow2 by done; change (2 ^ LZ4_skipTrigger) with 64; Z.div_mod_to_equations; lia|].
    exists r. split; [done|]. destruct r as [[[]]|]; [|done]. destruct Hr as (? & ? & ? & ? & ? & ?). split_and!; done || lia. }
  rewrite !read32_Ok by lia.
  set (far := match tableType with byU16 => false | byU32 => mt + MAX_DISTANCE <? ip end).
  assert (Hfar : far = false -> ip - mt <= MAX_DISTANCE).
  { unfold far. unfold LZ4_64Klimit, MFLIMIT, WILDCOPYLENGTH, MINMATCH in Hfit. destruct tableType; [intros ?%Z.ltb_ge; lia|]. unfold MAX_DISTANCE. lia. }
  destruct far; cbn [mbind outcome_bind]; [exact Hnext|].
  destruct (Z.eqb_spec (le_val (slice mt 4 source)) (le_val (slice ip 4 source))) as [E|E]; cbn [negb]; [|exact Hnext].
  eexists. split; [done|]. apply words_equal in E; [|done|lia..]. split_and!; try done; try lia; by apply Hfar.
Qed.

Lemma catch_up_Ok fuel anchor ip mt :
  0 <= anchor <= ip -> 0 <= mt < ip -> ip <= zlen source -> (Z.to_nat (ip - anchor) < fuel)%nat ->
  exists k, catch_up source fuel anchor ip mt = Ok (ip - k, mt - k) /\ 0 <= k /\ anchor <= ip - k /\ 0 <= mt - k /\
    agree source (ip - k) (mt - k) k.
Proof.
  revert ip mt. induction fuel as [|fuel IH]; intros ip mt Ha Hm Hl Hf; [lia|]. cbn [catch_up].
  assert (Hstop : Ok (ip, mt) = Ok (ip - 0, mt - 0) /\ 0 <= 0 /\ anchor <= ip - 0 /\ 0 <= mt - 0 /\ agree source (ip - 0) (mt - 0) 0)
    by (rewrite !Z.sub_0_r; split_and!; try done; try lia; intros i Hi; lia).
  destruct (Z.ltb_spec anchor ip); cbn [andb]; [|by exists 0]. destruct (Z.ltb_spec 0 mt); [|by exists 0].
  destruct (proj2 (zget_range source (ip - 1))) as [x Hx]; [lia|]. destruct (proj2 (zget_range source (mt - 1))) as [y Hy]; [lia|].
  unfold load. rewrite Hx, Hy. cbn [mbind outcome_bind]. destruct (Z.eqb_spec x y) as [->|]; [|by exists 0].
  destruct (IH (ip - 1) (mt - 1)) as (k & -> & Hk & Hk1 & Hk2 & Hk3); [lia..|]. exists (k + 1).
  split; [do 2 f_equal; lia|]. split_and!; try lia. apply agree_app.
  - by replace (ip - (k + 1)) with (ip - 1 - k) by lia; replace (mt - (k + 1)) with (mt - 1 - k) by lia.
  - intros i Hi. replace i with 0 by lia. replace (ip - (k + 1) + k + 0) with (ip - 1) by lia.
    replace (mt - (k + 1) + k + 0) with (mt - 1) by lia. congruence.
Qed.
End Finding.

(** ** Emitting the block *)

Lemma starts_prefix m a b : starts m (a ++ b) -> starts m a.
Proof.
  intros [H1 H2]. rewrite zlen_app in H1. pose proof (zlen_nonneg b). split; [lia|]. intros i Hi.
  rewrite H2 by (rewrite zlen_app; lia). rewrite zget_app. by rewrite (proj2 (Z.ltb_lt _ _)).
Qed.

Lemma starts_write m out d p :
  starts m out -> p = zlen out -> p + zlen d <= zlen m ->
  exists m', mem_write m p d = Ok m' /\ zlen m' = zlen m /\ starts m' (out ++ d).
Proof.
  intros Hs -> Hl. pose proof (zlen_nonneg out). pose proof (zlen_nonneg d).
  destruct (mem_write_keeps m (zlen out) d) as (m' & E & Hk); [lia..|]. exists m'. split; [done|].
  pose proof Hk as [Hlk _]. split; [done|]. apply starts_app; [by eapply starts_keeps|lia|].
  intros i Hi. rewrite (zget_mem_write _ _ _ _ i E). by rewrite (proj2 (Z.leb_le _ _)), (proj2 (Z.ltb_lt _ _)) by lia.
Qed.

(** [*token += v] on the token of the sequence being written. *)
Lemma token_add_Ok m a x b v p :
  starts m (a ++ [x] ++ b) -> p = zlen a -> exists m', token_add m p v = Ok m' /\ zlen m' = zlen m /\ starts m' (a ++ [u8 (x + v)] ++ b).
Proof.
  intros [H1 H2] ->. pose proof (zlen_nonneg a). pose proof (zlen_nonneg b).
  assert (Hl : forall y : Z, zlen (a ++ [y] ++ b) = zlen a + 1 + zlen b) by (intros; rewrite !zlen_app; change (zlen [_]) with 1; lia).
  rewrite Hl in *. unfold token_add, load. rewrite H2, zget_app, (proj2 (Z.ltb_ge _ _)), Z.sub_diag by lia.
  change (zget ([x] ++ b) 0) with (Some x). cbn [mbind outcome_bind].
  destruct (mem_write_keeps m (zlen a) [u8 (x + v)]) as (m' & E & [Hlk Hk]); [lia|change (zlen [_]) with 1; lia|].
  exists m'. split; [done|]. split; [done|]. split; [rewrite Hl; lia|]. intros i Hi. rewrite Hl in Hi.
  rewrite (zget_mem_write _ _ _ _ i E), H2 by lia. change (zlen [_]) with 1. rewrite !zget_app. change (zlen [_]) with 1.
  destruct (Z.leb_spec (zlen a) i), (Z.ltb_spec i (zlen a + 1)), (Z.ltb_spec i (zlen a)), (Z.ltb_spec (i - zlen a) 1); cbn [andb]; done || lia.
Qed.

Lemma run_enc_more n : 255 <= n -> run_enc n = 255 :: run_enc (n - 255).
Proof.
  intros Hn. unfold run_enc. replace (n / 255) with (1 + (n - 255) / 255) by (Z.div_mod_to_equations; lia).
  replace (n mod 255) with ((n - 255) mod 255) by (Z.div_mod_to_equations; lia).
  rewrite Z2Nat.inj_add by (Z.div_mod_to_equations; lia). done.
Qed.

Lemma run_enc_small n : 0 <= n < 255 -> run_enc n = [n].
Proof. intros. unfold run_enc. by rewrite Z.div_small, Z.mod_small by lia. Qed.

Lemma zlen_run_enc n : 0 <= n -> zlen (run_enc n) = n / 255 + 1.
Proof.
  intros. unfold run_enc. rewrite zlen_app. change (zlen [_]) with 1. unfold zlen. rewrite length_replicate.
  rewrite Z2Nat.id; [done|]. Z.div_mod_to_equations; lia.
Qed.

Lemma run_ext_long n : 15 <= n -> run_ext n = run_enc (n - 15).
Proof. intros. unfold run_ext. by rewrite (proj2 (Z.ltb_ge _ _)) by lia. Qed.

Lemma run_ext_short n : n < 15 -> run_ext n = [].
Proof. intros. unfold run_ext. by rewrite (proj2 (Z.ltb_lt _ _)) by lia. Qed.

(** One byte for 255. *)
Lemma run_ext_cost n : 0 <= n -> 0 <= 255 * zlen (run_ext n) <= n + 240.
Proof.
  intros Hn. destruct (Z.ltb_spec n 15); [rewrite run_ext_short by lia; change (zlen []) with 0; lia|].
  rewrite run_ext_long, zlen_run_enc by lia. Z.div_mod_to_equations; lia.
Qed.

Lemma write_run_Ok fuel m out n p :
  starts m out -> p = zlen out -> 0 <= n -> p + zlen (run_enc n) <= zlen m -> (Z.to_nat n < fuel)%nat ->
  exists m', write_run fuel m p n = Ok (m', p + zlen (run_enc n)) /\ zlen m' = zlen m /\ starts m' (out ++ run_enc n).
Proof.
  intros Hs -> Hn Hl Hf. revert m out n Hs Hn Hl Hf. induction fuel as [|fuel IH]; intros m out n Hs Hn Hl Hf; [lia|].
  cbn [write_run]. destruct (Z.leb_spec 255 n).
  - rewrite run_enc_more in * by lia. change (255 :: run_enc (n - 255)) with ([255] ++ run_enc (n - 255)) in *.
    rewrite !zlen_app in *. change (zlen [255]) with 1 in *. pose proof (zlen_nonneg (run_enc (n - 255))).
    destruct (starts_write m out [255] (zlen out)) as (m1 & -> & Hl1 & Hs1); [done|done|change (zlen [_]) with 1; lia|].
    cbn [mbind outcome_bind]. assert (Ho : zlen (out ++ [255]) = zlen out + 1) by apply zlen_app.
    destruct (IH m1 (out ++ [255]) (n - 255)) as (m2 & E & Hl2 & Hs2); [done|lia|lia|lia|]. rewrite Ho in E. rewrite E.
    exists m2. split; [do 2 f_equal; lia|]. split; [lia|]. by rewrite <- app_assoc in Hs2.
  - rewrite run_enc_small in * by lia. change (zlen [n]) with 1 in *.
    destruct (starts_write m out [u8 n] (zlen out)) as (m1 & -> & Hl1 & Hs1); [done|done|done|]. cbn [mbind outcome_bind].
    exists m1. split; [done|]. split; [done|]. unfold u8 in Hs1. rewrite wrap_id in Hs1; [done|]. unfold in_range. lia.
Qed.

(** The 0xFFFFFFFF at [op] is the start of what is left of the run. *)
Lemma match_run_loop_Ok fuel m out mc :
  starts m (out ++ replicate 4 255) -> 0 <= mc -> zlen out + zlen (run_enc mc) + 3 <= zlen m -> (Z.to_nat mc < fuel)%nat ->
  exists m' out' mc', match_run_loop fuel m (zlen out) mc = Ok (m', zlen out', mc') /\ zlen m' = zlen m /\
    starts m' (out' ++ replicate 4 255) /\ 0 <= mc' < 4 * 255 /\ out ++ run_enc mc = out' ++ run_enc mc'.
Proof.
  revert m out mc. induction fuel as [|fuel IH]; intros m out mc Hs Hmc Hl Hf; [lia|]. cbn [match_run_loop].
  destruct (Z.leb_spec (4 * 255) mc); [|by exists m, out, mc; split_and!; try done; lia].
  assert (Hr : run_enc mc = replicate 4 255 ++ run_enc (mc - 4 * 255)).
  { rewrite !run_enc_more by lia. cbn [replicate app]. do 5 f_equal. lia. }
  rewrite Hr in *. rewrite zlen_app in Hl. change (zlen (replicate 4 255)) with 4 in Hl.
  assert (Ho : zlen (out ++ replicate 4 255) = zlen out + 4) by apply zlen_app.
  pose proof (zlen_run_enc (mc - 4 * 255)) as Hz. unfold LZ4_write32. change (le_bytes 4 0xFFFFFFFF) with (replicate 4 255).
  destruct (starts_write m (out ++ replicate 4 255) (replicate 4 255) (zlen out + 4)) as (m1 & -> & Hl1 & Hs1);
    [done|by rewrite Ho|change (zlen (replicate 4 255)) with 4; Z.div_mod_to_equations; lia|].
  cbn [mbind outcome_bind]. rewrite <- Ho. destruct (IH m1 (out ++ replicate 4 255) (mc - 4 * 255)) as (m2 & out' & mc' & -> & Hl2 & Hs2 & Hm2 & E);
    [done|lia|lia|lia|]. exists m2, out', mc'. split_and!; try done; try lia. by rewrite <- app_assoc in E.
Qed.

Section Emitting.
Context (source : list Z) (inputSize maxOutputSize : Z) (tableType : tableType_t).
Hypothesis (Hbytes : Forall is_byte source) (Hsize : inputSize <= zlen source).

(** Token and length of a run of literals, as both the sequences and the end write them. *)
Lemma write_literal_length m out L fuel :
  starts m out -> 0 <= L -> zlen out + 1 + zlen (run_ext L) <= zlen m -> (Z.to_nat L < fuel)%nat ->
  exists m', (if RUN_MASK <=? L then
      m ← mem_write m (zlen out) [Z.shiftl RUN_MASK ML_BITS]; write_run fuel m (zlen out + 1) (L - RUN_MASK)
    else m ← mem_write m (zlen out) [u8 (Z.shiftl L ML_BITS)]; Ok (m, zlen out + 1)) =
      Ok (m', zlen out + 1 + zlen (run_ext L)) /\ zlen m' = zlen m /\ starts m' (out ++ [16 * Z.min L 15] ++ run_ext L).
Proof.
  intros Hs HL Hl Hf. pose proof (zlen_nonneg (run_ext L)). unfold RUN_MASK. destruct (Z.leb_spec 15 L).
  - rewrite run_ext_long in * by lia. change (Z.shiftl 15 ML_BITS) with 240. rewrite Z.min_r by lia. change (16 * 15) with 240.
    destruct (starts_write m out [240] (zlen out)) as (m1 & -> & Hl1 & Hs1); [done|done|change (zlen [_]) with 1; lia|].
    cbn [mbind outcome_bind]. destruct (write_run_Ok fuel m1 (out ++ [240]) (L - 15) (zlen out + 1)) as (m2 & -> & Hl2 & Hs2);
      [done|by rewrite zlen_app|lia|lia|lia|]. exists m2. split; [done|]. split; [lia|]. by rewrite <- app_assoc in Hs2.
  - rewrite run_ext_short, Z.min_l in * by lia.
    assert (Ht : u8 (Z.shiftl L ML_BITS) = 16 * L).
    { unfold u8. rewrite Z.shiftl_mul_pow2 by done. change (2 ^ ML_BITS) with 16. rewrite wrap_id by (unfold in_range; lia). lia. }
    rewrite Ht. destruct (starts_write m out [16 * L] (zlen out)) as (m1 & -> & Hl1 & Hs1); [done|done|change (zlen [_]) with 1; lia|].
    cbn [mbind outcome_bind]. exists m1. split; [do 2 f_equal; change (zlen []) with 0; lia|]. split; [done|]. by rewrite app_nil_r.
Qed.

Lemma encode_literals_Ok m enc anchor ip :
  starts m enc -> 0 <= anchor <= ip -> ip + 8 <= inputSize ->
  let L := ip - anchor in
  zlen enc + 1 + zlen (run_ext L) + L + 8 <= zlen m ->
  exists m', encode_literals source maxOutputSize false m anchor ip (zlen enc) =
      Ok (Some (m', zlen enc, zlen enc + 1 + zlen (run_ext L) + L)) /\
    zlen m' = zlen m /\ starts m' (enc ++ [16 * Z.min L 15] ++ run_ext L ++ slice anchor L source).
Proof.
  intros Hs Ha Hip L Hl. unfold encode_literals. cbn [andb]. fold L. assert (HL : 0 <= L) by lia.
  pose proof (zlen_nonneg enc). pose proof (zlen_nonneg (run_ext L)).
  destruct (write_literal_length m enc L (S (Z.to_nat L))) as (m1 & E & Hl1 & Hs1); [done|lia..|].
  rewrite E. cbn [mbind outcome_bind].
  set (out1 := enc ++ [16 * Z.min L 15] ++ run_ext L) in *. set (p1 := zlen enc + 1 + zlen (run_ext L)) in *.
  assert (Hz : zlen out1 = p1) by (unfold out1, p1; rewrite !zlen_app; change (zlen [_]) with 1; lia).
  unfold LZ4_wildCopy. destruct (wildCopy_from_Ok source (S (Z.to_nat (p1 + L - p1))) m1 p1 anchor (p1 + L)) as (m2 & -> & Hk & Hc); [lia..|].
  cbn [mbind outcome_bind]. pose proof Hk as [Hl2 _]. exists m2. split; [done|]. split; [lia|].
  rewrite (app_assoc [_]), app_assoc. fold out1. assert (Hsl : zlen (slice anchor L source) = L) by (apply zlen_slice; lia).
  apply starts_app; rewrite ?Hsl, ?Hz; [rewrite <- Hz in Hk; by eapply starts_keeps|lia|].
  intros i Hi. rewrite Hc, zget_slice by lia. f_equal. lia.
Qed.

(** The match length after the offset. *)
Lemma write_match_length m enc x mid c :
  starts m (enc ++ [x] ++ mid) -> 0 <= c -> zlen (enc ++ [x] ++ mid) + zlen (run_ext c) + 4 <= zlen m ->
  exists m', (if ML_MASK <=? c then
    m ← token_add m (zlen enc) ML_MASK;
    m ← LZ4_write32 m (zlen (enc ++ [x] ++ mid)) 0xFFFFFFFF;
    '(m, op, matchCode) ← match_run_loop (S (Z.to_nat (c - ML_MASK))) m (zlen (enc ++ [x] ++ mid)) (c - ML_MASK);
    m ← mem_write m (op + matchCode / 255) [u8 (matchCode mod 255)];
    Ok (m, op + matchCode / 255 + 1)
  else m ← token_add m (zlen enc) (u8 c); Ok (m, zlen (enc ++ [x] ++ mid))) =
     Ok (m', zlen (enc ++ [x] ++ mid) + zlen (run_ext c)) /\ zlen m' = zlen m /\
    starts m' (enc ++ [u8 (x + Z.min c 15)] ++ mid ++ run_ext c).
Proof.
  intros Hs Hc Hl. assert (Hz : forall y, zlen (enc ++ [y] ++ mid) = zlen (enc ++ [x] ++ mid)) by (intros; by rewrite !zlen_app).
  unfold ML_MASK. destruct (Z.leb_spec 15 c).
  - rewrite run_ext_long, Z.min_r in * by lia.
    destruct (token_add_Ok m enc x mid 15 (zlen enc)) as (m1 & -> & Hl1 & Hs1); [done|done|]. cbn [mbind outcome_bind].
    unfold LZ4_write32. change (le_bytes 4 0xFFFFFFFF) with (replicate 4 255).
    pose proof (zlen_run_enc (c - 15)). pose proof (Z.div_pos (c - 15) 255).
    destruct (starts_write m1 (enc ++ [u8 (x + 15)] ++ mid) (replicate 4 255) (zlen (enc ++ [x] ++ mid))) as (m2 & -> & Hl2 & Hs2);
      [done|symmetry; apply Hz|change (zlen (replicate 4 255)) with 4; lia|]. cbn [mbind outcome_bind].
    rewrite <- (Hz (u8 (x + 15))) in Hl |- *.
    destruct (match_run_loop_Ok (S (Z.to_nat (c - 15))) m2 (enc ++ [u8 (x + 15)] ++ mid) (c - 15))
      as (m3 & out & mc & -> & Hl3 & Hs3 & Hmc & E); [done|lia|lia|lia|]. cbn [mbind outcome_bind].
    assert (Hk : 0 <= mc / 255 < 4) by (Z.div_mod_to_equations; lia).
    assert (Hs4 : starts m3 (out ++ replicate (Z.to_nat (mc / 255)) 255)).
    { replace (replicate 4 255) with (replicate (Z.to_nat (mc / 255)) 255 ++ replicate (4 - Z.to_nat (mc / 255)) 255) in Hs3
        by (rewrite <- replicate_add; f_equal; lia). rewrite app_assoc in Hs3. by eapply starts_prefix. }
    assert (Hz4 : zlen (out ++ replicate (Z.to_nat (mc / 255)) 255) = zlen out + mc / 255)
      by (rewrite zlen_app; unfold zlen at 2; rewrite length_replicate; lia).
    assert (Hend : zlen (enc ++ [u8 (x + 15)] ++ mid) + zlen (run_enc (c - 15)) = zlen out + mc / 255 + 1)
      by (rewrite <- zlen_app, E, zlen_app, zlen_run_enc by lia; lia).
    destruct (starts_write m3 _ [u8 (mc mod 255)] (zlen out + mc / 255) Hs4) as (m4 & -> & Hl4 & Hs5);
      [by rewrite Hz4|change (zlen [_]) with 1; lia|]. cbn [mbind outcome_bind].
    exists m4. split; [by rewrite Hend|]. split; [lia|].
    unfold u8 in Hs5. rewrite wrap_id in Hs5 by (unfold in_range; Z.div_mod_to_equations; lia). rewrite <- app_assoc in Hs5.
    change (replicate _ 255 ++ [mc mod 255]) with (run_enc mc) in Hs5. rewrite <- E in Hs5. by rewrite <- !app_assoc in Hs5.
  - rewrite run_ext_short, Z.min_l in * by lia. unfold u8 at 1. rewrite (wrap_id 8 c) by (unfold in_range; lia).
    destruct (token_add_Ok m enc x mid c (zlen enc)) as (m1 & -> & Hl1 & Hs1); [done|done|]. cbn [mbind outcome_bind].
    exists m1. split; [do 2 f_equal; change (zlen []) with 0; lia|]. split; [done|]. by rewrite app_nil_r.
Qed.

Lemma encode_match_Ok m enc a mid ip mt :
  starts m (enc ++ [16 * a] ++ mid) -> 0 <= a <= 15 -> 0 <= mt < ip -> ip - mt <= MAX_DISTANCE -> ip + 12 <= inputSize ->
  let op := zlen (enc ++ [16 * a] ++ mid) in
  255 * (op + 6) + inputSize - ip + 240 <= 255 * zlen m ->
  exists m' c, encode_match source inputSize maxOutputSize false m ip mt (zlen enc) op =
      Ok (inr (m', op + 2 + zlen (run_ext c), ip + (MINMATCH + c))) /\
    zlen m' = zlen m /\ 0 <= c <= inputSize - 5 - (ip + 4) /\ agree source (ip + 4) (mt + 4) c /\
    (forall n, agree source ip mt n -> ip + n <= inputSize - 5 -> n <= 4 + c) /\
    starts m' (enc ++ [16 * a + Z.min c 15] ++ mid ++ le_bytes 2 (ip - mt) ++ run_ext c).
Proof.
  intros Hs Ha Hmt Hd Hip op Hroom. unfold encode_match, LZ4_writeLE16, matchlimit, LASTLITERALS, MINMATCH.
  unfold MAX_DISTANCE in Hd. change (2 ^ 16 - 1) with 65535 in Hd.
  unfold u16. rewrite (wrap_id 16) by (unfold in_range; lia).
  destruct (starts_write m _ (le_bytes 2 (ip - mt)) op Hs) as (m1 & -> & Hl1 & Hs1);
    [done|change (zlen (le_bytes _ _)) with 2; lia|]. cbn [mbind outcome_bind].
  destruct (LZ4_count_Ok source Hbytes (ip + 4) (mt + 4) (inputSize - 5)) as (c & -> & Hc & Hag & Hmax); [lia..|].
  cbn [mbind outcome_bind andb]. pose proof (run_ext_cost c).
  rewrite <- (app_assoc enc), <- (app_assoc [16 * a]) in Hs1.
  assert (Hop : zlen (enc ++ [16 * a] ++ mid ++ le_bytes 2 (ip - mt)) = op + 2)
    by (unfold op; rewrite !zlen_app; change (zlen (le_bytes _ _)) with 2; lia).
  destruct (write_match_length m1 enc (16 * a) (mid ++ le_bytes 2 (ip - mt)) c Hs1) as (m2 & E & Hl2 & Hs2); [lia|lia|].
  rewrite Hop in E. unfold u8 in Hs2. rewrite wrap_id in Hs2 by (unfold in_range; lia).
  assert (Hlong : forall n, agree source ip mt n -> ip + n <= inputSize - 5 -> n <= 4 + c).
  { intros n Hn Hnl. destruct (Z.leb_spec n (4 + c)); [done|]. exfalso. apply Hmax; [lia|].
    rewrite <- !Z.add_assoc. apply Hn. lia. }
  exists m2, c. split; [|split_and!; [lia..|done|done|by rewrite <- app_assoc in Hs2]].
  destruct (ML_MASK <=? c).
  - destruct (token_add _ _ _) as [m3| |]; [|done..]. cbn [mbind outcome_bind] in E |- *.
    destruct (LZ4_write32 _ _ _) as [m4| |]; [|done..]. cbn [mbind outcome_bind] in E |- *.
    destruct (match_run_loop _ _ _ _) as [[[m5 o5] c5]| |]; [|done..]. cbn [mbind outcome_bind] in E |- *.
    destruct (mem_write _ _ _) as [m6| |]; [|done..]. injection E as -> E. cbn [mbind outcome_bind]. rewrite E. done.
  - destruct (token_add _ _ _) as [m3| |]; [|done..]. injection E as -> E. cbn [mbind outcome_bind]. rewrite <- E. done.
Qed.

(** "Encode Last Literals" *)
Lemma last_literals_Ok m enc anchor :
  starts m enc -> 0 <= anchor <= inputSize ->
  let last := slice anchor (inputSize - anchor) source in
  zlen (enc ++ last_enc last) <= zlen m ->
  exists m', last_literals source inputSize maxOutputSize false m anchor (zlen enc) = Ok (zlen (enc ++ last_enc last), m') /\
    zlen m' = zlen m /\ starts m' (enc ++ last_enc last).
Proof.
  intros Hs Ha last Hl. unfold last_literals, comp_iend. cbn [andb]. set (L := inputSize - anchor) in *.
  assert (HL : zlen last = L) by (apply zlen_slice; lia). pose proof (zlen_nonneg enc). pose proof (zlen_nonneg (run_ext L)).
  unfold last_enc in *. rewrite HL in *. rewrite !zlen_app in *. rewrite HL in Hl |- *. change (zlen [_]) with 1 in *.
  destruct (write_literal_length m enc L (S (Z.to_nat L))) as (m1 & E & Hl1 & Hs1); [done|lia..|].
  rewrite E. cbn [mbind outcome_bind]. set (out1 := enc ++ [16 * Z.min L 15] ++ run_ext L) in *.
  assert (Hz : zlen out1 = zlen enc + 1 + zlen (run_ext L)) by (unfold out1; rewrite !zlen_app; change (zlen [_]) with 1; lia).
  rewrite <- Hz. destruct (memcpy_from_Ok source m1 (zlen out1) anchor L) as (m2 & -> & Hk & Hc); [lia..|].
  cbn [mbind outcome_bind]. pose proof Hk as [Hl2 _]. exists m2. split; [do 2 f_equal; lia|]. split; [lia|].
  rewrite (app_assoc [_]), app_assoc. fold out1. apply starts_app; [by eapply starts_keeps|lia|].
  intros i Hi. rewrite Hc by lia. unfold last. rewrite zget_slice by lia. f_equal. lia.
Qed.
End Emitting.

(** ** The blocks the compressor emits *)

(** The rules of [block_ok] on the sequences emitted so far. *)
Fixpoint seqs_ok (total : Z) (out : list Z) (ss : list lzseq) : Prop :=
  match ss with
  | [] => True
  | s :: ss =>
      let at_ := zlen out + zlen (sq_lits s) in
      1 <= sq_off s <= at_ /\ sq_off s < 2 ^ 16 /\ 4 <= sq_len s /\
      at_ + 12 <= total /\ at_ + sq_len s + 5 <= total /\ seqs_ok total (lz_exec out s) ss
  end.

Lemma seqs_ok_block total out ss last :
  seqs_ok total out ss -> zlen (foldl lz_exec out ss) + zlen last = total -> block_ok total out ss last.
Proof.
  revert out. induction ss as [|s ss IH]; intros out Hs Hl; [done|]. cbn [block_ok seqs_ok foldl] in *.
  destruct Hs as (? & ? & ? & ? & ? & Hs). split_and!; try done; try lia. by apply IH.
Qed.

Lemma seqs_ok_snoc total out ss s :
  seqs_ok total out ss -> seqs_ok total (foldl lz_exec out ss) [s] -> seqs_ok total out (ss ++ [s]).
Proof.
  revert out. induction ss as [|s' ss IH]; intros out Hs Hl; [done|]. cbn [app seqs_ok foldl] in *.
  destruct Hs as (? & ? & ? & ? & ? & Hs). split_and!; try done; try lia. by apply IH.
Qed.

Definition seqs_enc (ss : list lzseq) : list Z := mjoin (seq_enc <$> ss).

Lemma seqs_enc_snoc ss s : seqs_enc (ss ++ [s]) = seqs_enc ss ++ seq_enc s.
Proof. unfold seqs_enc. rewrite fmap_app, join_app. f_equal. apply app_nil_r. Qed.

(** A sequence takes no more than 256/255 of what it stands for. *)
Lemma seq_cost s : 4 <= sq_len s -> 255 * zlen (seq_enc s) <= 256 * (zlen (sq_lits s) + sq_len s).
Proof.
  intros Hs. pose proof (zlen_nonneg (sq_lits s)). pose proof (run_ext_cost (zlen (sq_lits s))).
  assert (Hx : 255 * zlen (run_ext (sq_len s - 4)) <= 255 * (sq_len s - 4)).
  { destruct (Z.ltb_spec (sq_len s - 4) 15); [rewrite run_ext_short by lia; change (zlen []) with 0; lia|].
    pose proof (run_ext_cost (sq_len s - 4)). lia. }
  unfold seq_enc. rewrite !zlen_app. change (zlen [_]) with 1. change (zlen (le_bytes 2 _)) with 2. lia.
Qed.

Section Compresses.
Context (source : list Z) (inputSize maxOutputSize : Z) (tableType : tableType_t) (acceleration cap : Z).
Hypothesis (Hbytes : Forall is_byte source) (Hsize : inputSize <= zlen source).
Hypothesis (Hfit : match tableType with byU16 => inputSize < LZ4_64Klimit | byU32 => inputSize <= LZ4_MAX_INPUT_SIZE end).
Hypothesis (Hcap : 256 * inputSize + 3826 <= 255 * cap).

(** The state between two sequences: those emitted denote the input up to [anchor]. *)
Definition emitted (m : list Z) (ss : list lzseq) (anchor : Z) : Prop :=
  zlen m = cap /\ starts m (seqs_enc ss) /\ seqs_ok inputSize [] ss /\ 0 <= anchor <= inputSize /\
  foldl lz_exec [] ss = ztake anchor source /\ 255 * zlen (seqs_enc ss) <= 256 * anchor.

(** Inside a sequence: its literals are written and its token is not complete. *)
Definition in_sequence (m : list Z) (ss : list lzseq) (anchor ip : Z) : Prop :=
  let L := ip - anchor in
  zlen m = cap /\ starts m (seqs_enc ss ++ [16 * Z.min L 15] ++ run_ext L ++ slice anchor L source) /\
  seqs_ok inputSize [] ss /\ 0 <= anchor <= ip /\ ip + 12 <= inputSize /\
  foldl lz_exec [] ss = ztake anchor source /\ 255 * zlen (seqs_enc ss) <= 256 * anchor.

Lemma starts_take p : 0 <= p <= zlen source -> starts source (ztake p source).
Proof.
  intros Hp. split; rewrite zlen_ztake by lia; [lia|]. intros i Hi. destruct (Z.ltb_spec i 0).
  - by rewrite !(proj2 (zget_None _ _)) by lia.
  - by rewrite zget_ztake by lia.
Qed.

(** A match in the input denotes the input. *)
Lemma lz_copy_source ip off n :
  1 <= off <= ip -> 0 <= n -> ip + n <= zlen source -> agree source ip (ip - off) n ->
  lz_copy (ztake ip source) off (Z.to_nat n) = ztake (ip + n) source.
Proof.
  intros Hoff Hn Hl Ha. assert (Hz : zlen (ztake ip source) = ip) by (apply zlen_ztake; lia).
  assert (Hs : starts source (lz_copy (ztake ip source) off (Z.to_nat n))).
  { apply starts_lz_copy; rewrite ?Hz; [by apply starts_take; lia|lia|lia|]. intros i Hi.
    replace i with (ip + (i - ip)) by lia. rewrite Ha by lia. f_equal. lia. }
  destruct Hs as [_ Hs]. rewrite zlen_lz_copy, Hz in Hs. apply zget_ext; rewrite zlen_lz_copy, Hz.
  - rewrite zlen_ztake; lia.
  - intros i Hi. rewrite <- Hs by lia. rewrite zget_ztake by lia. done.
Qed.

Lemma take_slice anchor ip : 0 <= anchor <= ip -> ip <= zlen source -> ztake anchor source ++ slice anchor (ip - anchor) source = ztake ip source.
Proof.
  intros. apply zget_ext; rewrite zlen_app, zlen_slice, !zlen_ztake by lia; [lia|]. intros i Hi.
  rewrite zget_app, zlen_ztake by lia. destruct (Z.ltb_spec i anchor).
  - by rewrite !zget_ztake by lia.
  - rewrite zget_slice, zget_ztake by lia. f_equal. lia.
Qed.

(** A sequence completed. *)
Lemma in_sequence_done m m' ss anchor ip mt c :
  in_sequence m ss anchor ip -> 0 <= mt < ip -> ip - mt <= MAX_DISTANCE -> 0 <= c <= inputSize - 5 - (ip + 4) ->
  agree source ip mt (4 + c) -> zlen m' = zlen m ->
  let L := ip - anchor in
  let s := mkSeq (slice anchor L source) (ip - mt) (4 + c) in
  starts m' (seqs_enc ss ++ [16 * Z.min L 15 + Z.min c 15] ++ (run_ext L ++ slice anchor L source) ++ le_bytes 2 (ip - mt) ++ run_ext c) ->
  emitted m' (ss ++ [s]) (ip + (4 + c)).
Proof.
  intros (Hl & _ & Hok & Ha & Hip & Hf & Hcost) Hmt Hd Hc Hag Hl' L s Hs. unfold MAX_DISTANCE in Hd. change (2 ^ 16 - 1) with 65535 in Hd.
  assert (HL : zlen (sq_lits s) = L) by (apply zlen_slice; lia).
  assert (Hz : zlen (ztake anchor source) = anchor) by (apply zlen_ztake; lia).
  assert (Hexec : lz_exec (ztake anchor source) s = ztake (ip + (4 + c)) source).
  { unfold lz_exec, s. cbn [sq_lits sq_off sq_len]. unfold L. rewrite take_slice by lia. apply lz_copy_source; try lia.
    by replace (ip - (ip - mt)) with mt by lia. }
  assert (Henc : seq_enc s = [16 * Z.min L 15 + Z.min c 15] ++ run_ext L ++ slice anchor L source ++ le_bytes 2 (ip - mt) ++ run_ext c).
  { unfold seq_enc, seq_token. rewrite HL. cbn [sq_len sq_off sq_lits s]. by replace (4 + c - 4) with c by lia. }
  split_and!; try lia.
  - rewrite seqs_enc_snoc, Henc. by rewrite <- !app_assoc in Hs.
  - apply seqs_ok_snoc; [done|]. rewrite Hf. cbn [seqs_ok]. rewrite Hz, HL. cbn [sq_off sq_len s]. unfold L. split_and!; try lia; done.
  - by rewrite foldl_app, Hf.
  - rewrite seqs_enc_snoc, zlen_app. pose proof (seq_cost s) as Hsc. rewrite HL in Hsc. cbn [sq_len s] in Hsc. lia.
Qed.

Lemma putPosition_Ok p table ip :
  table_ok tableType table ip -> 0 <= p < ip -> p <= inputSize - MFLIMIT ->
  exists table', LZ4_putPosition source p table tableType = Ok table' /\ table_ok tableType table' ip.
Proof.
  intros Ht Hp Hpl. unfold LZ4_putPosition. unfold MFLIMIT, WILDCOPYLENGTH, MINMATCH in Hpl.
  destruct (hashPosition_Ok source tableType p) as (h & -> & Hh); [lia..|]. cbn [mbind outcome_bind].
  by apply (putPositionOnHash_Ok inputSize tableType Hfit).
Qed.

Lemma getPosition_Ok p table ip :
  table_ok tableType table ip -> 0 <= p -> p + 8 <= zlen source ->
  exists mt, LZ4_getPosition source p table tableType = Ok mt /\ 0 <= mt < ip.
Proof.
  intros Ht Hp Hpl. unfold LZ4_getPosition. destruct (hashPosition_Ok source tableType p) as (h & -> & Hh); [lia..|].
  by apply (getPositionOnHash_Ok tableType).
Qed.

(** What is true where the body of the main loop is left. *)
Definition next_ok (ip : Z) (r : next_step) : Prop :=
  match r with
  | NextFull _ => False
  | NextBreak m' ip' op' => exists ss', emitted m' ss' ip' /\ op' = zlen (seqs_enc ss')
  | NextLoop m' table' ip' op' =>
      exists ss', emitted m' ss' ip' /\ op' = zlen (seqs_enc ss') /\ table_ok tableType table' (ip' + 1) /\
        ip <= ip' /\ ip' <= inputSize - MFLIMIT
  end.

Lemma in_sequence_start m ss ip :
  emitted m ss ip -> ip + 12 <= inputSize ->
  exists m', mem_write m (zlen (seqs_enc ss)) [0] = Ok m' /\ in_sequence m' ss ip ip.
Proof.
  intros (Hl & Hs & Hok & Ha & Hf & Hc) Hip.
  destruct (starts_write m _ [0] _ Hs eq_refl) as (m' & E & Hl' & Hs'); [change (zlen [0]) with 1; lia|].
  exists m'. split; [done|]. unfold in_sequence. rewrite Z.sub_diag. split_and!; try done; try lia.
Qed.

Lemma next_match_Ok fuel m table ss anchor ip mt n :
  in_sequence m ss anchor ip -> 0 <= mt < ip -> ip - mt <= MAX_DISTANCE -> agree source ip mt n -> 4 <= n ->
  ip + n <= inputSize - 5 -> table_ok tableType table (ip + n) -> (Z.to_nat (inputSize - ip) < fuel)%nat ->
  let op := zlen (seqs_enc ss ++ [16 * Z.min (ip - anchor) 15] ++ run_ext (ip - anchor) ++ slice anchor (ip - anchor) source) in
  exists r, next_match source inputSize maxOutputSize false tableType fuel m table ip mt (zlen (seqs_enc ss)) op = Ok r /\ next_ok (ip + n) r.
Proof.
  revert m table ss anchor ip mt n. induction fuel as [|fuel IH]; intros m table ss anchor ip mt n Hin Hmt Hd Hag Hn4 Hnl Ht Hf op; [lia|].
  cbn [next_match]. pose proof Hin as (Hl & Hs & Hok & Ha & Hip & Hfold & Hcost).
  pose proof (run_ext_cost (ip - anchor)) as Hrc. assert (HL : zlen (slice anchor (ip - anchor) source) = ip - anchor) by (apply zlen_slice; lia).
  destruct (encode_match_Ok source inputSize maxOutputSize Hbytes Hsize m (seqs_enc ss) (Z.min (ip - anchor) 15) (run_ext (ip - anchor) ++ slice anchor (ip - anchor) source) ip mt)
    as (m1 & c & E & Hl1 & Hc & Hagc & Hmax & Hs1); try done; try lia.
  { rewrite !zlen_app, HL. change (zlen [_]) with 1. lia. }
  fold op in E. rewrite E. cbn [mbind outcome_bind]. unfold MINMATCH.
  apply Hmax in Hnl; [|done].
  assert (Hag4 : agree source ip mt (4 + c)) by (apply agree_app; [by eapply agree_le|done]).
  pose proof (in_sequence_done m m1 ss anchor ip mt c Hin Hmt Hd Hc Hag4 Hl1 Hs1) as Hem.
  set (s := mkSeq _ _ _) in Hem. set (ip1 := ip + (4 + c)) in *.
  assert (Hop : op + 2 + zlen (run_ext c) = zlen (seqs_enc (ss ++ [s]))).
  { rewrite seqs_enc_snoc, zlen_app. unfold op, seq_enc, s. cbn [sq_lits sq_off sq_len].
    rewrite !zlen_app, HL. change (zlen [_]) with 1. change (zlen (le_bytes 2 _)) with 2. replace (4 + c - 4) with c by lia. lia. }
  rewrite Hop. unfold mflimit. destruct (Z.ltb_spec (inputSize - MFLIMIT) ip1) as [|Hmf]; [eexists; split; [done|]; by exists (ss ++ [s])|].
  unfold MFLIMIT, WILDCOPYLENGTH, MINMATCH in Hmf.
  destruct (putPosition_Ok (ip1 - 2) table ip1) as (t1 & -> & Ht1); [eapply table_ok_weaken; [exact Ht|lia]|lia|unfold MFLIMIT, WILDCOPYLENGTH, MINMATCH; lia|].
  cbn [mbind outcome_bind]. destruct (getPosition_Ok ip1 t1 ip1) as (mt1 & -> & Hmt1); [done|lia..|]. cbn [mbind outcome_bind].
  destruct (putPosition_Ok ip1 t1 (ip1 + 1)) as (t2 & -> & Ht2); [eapply table_ok_weaken; [exact Ht1|lia]|lia|unfold MFLIMIT, WILDCOPYLENGTH, MINMATCH; lia|].
  cbn [mbind outcome_bind].
  assert (Hloop : next_ok (ip + n) (NextLoop m1 t2 ip1 (zlen (seqs_enc (ss ++ [s])))))
    by (exists (ss ++ [s]); unfold MFLIMIT, WILDCOPYLENGTH, MINMATCH; split_and!; try done; lia).
  destruct (Z.leb_spec ip1 (mt1 + MAX_DISTANCE)); [|by eexists; split; [done|]].
  rewrite !read32_Ok by lia. cbn [mbind outcome_bind].
  destruct (Z.eqb_spec (le_val (slice mt1 4 source)) (le_val (slice ip1 4 source))) as [Eq|]; [|by eexists; split; [done|]].
  apply words_equal in Eq; [|done|lia..].
  destruct (in_sequence_start m1 (ss ++ [s]) ip1 Hem) as (m2 & -> & Hin2); [lia|]. cbn [mbind outcome_bind].
  destruct (IH m2 t2 (ss ++ [s]) ip1 ip1 mt1 4) as (r & Er & Hr); try done; try lia; [eapply table_ok_weaken; [exact Ht2|lia]|].
  rewrite !zlen_app, Z.sub_diag in Er. change (zlen [_]) with 1 in Er.
  change (zlen (run_ext 0)) with 0 in Er. rewrite zlen_slice in Er by lia. rewrite !Z.add_0_r in Er.
  rewrite Er. exists r. split; [done|]. destruct r as [|m3 ip3 op3|m3 t3 ip3 op3]; [done..|].
  destruct Hr as (ss' & ? & ? & ? & ? & ?). exists ss'. split_and!; try done; lia.
Qed.

(** What the compressor returns. *)
Definition compressed_to (r : Z * list Z) : Prop :=
  exists ss last, r.1 = zlen (block_enc ss last) /\ zlen r.2 = cap /\ starts r.2 (block_enc ss last) /\
    block_ok inputSize [] ss last /\ lz_run ss last = ztake inputSize source /\ 255 * r.1 <= 256 * inputSize + 495.

Lemma last_literals_done m ss anchor :
  emitted m ss anchor ->
  exists r, last_literals source inputSize maxOutputSize false m anchor (zlen (seqs_enc ss)) = Ok r /\ compressed_to r.
Proof.
  intros (Hl & Hs & Hok & Ha & Hf & Hc). set (last := slice anchor (inputSize - anchor) source).
  assert (HL : zlen last = inputSize - anchor) by (apply zlen_slice; lia). pose proof (run_ext_cost (inputSize - anchor)).
  assert (Hz : zlen (last_enc last) = 1 + zlen (run_ext (inputSize - anchor)) + (inputSize - anchor))
    by (unfold last_enc; rewrite HL, !zlen_app, HL; change (zlen [_]) with 1; lia).
  destruct (last_literals_Ok source inputSize maxOutputSize Hsize m (seqs_enc ss) anchor Hs Ha) as (m' & -> & Hl' & Hs').
  { fold last. rewrite zlen_app. lia. }
  fold last in Hs' |- *. eexists. split; [done|]. exists ss, last. cbn [fst snd].
  change (block_enc ss last) with (seqs_enc ss ++ last_enc last).
  assert (Hrun : lz_run ss last = ztake inputSize source) by (unfold lz_run; rewrite Hf; by apply take_slice).
  split_and!; try done; try lia; [|rewrite zlen_app; lia].
  apply seqs_ok_block; [done|]. rewrite Hf, zlen_ztake; lia.
Qed.

Hypothesis Hacc : 1 <= acceleration <= 2 ^ 20.

Lemma compress_loop_Ok fuel m table ss anchor ip h :
  emitted m ss anchor -> anchor < ip -> table_ok tableType table ip -> in_range (hash_bits tableType) h ->
  inputSize < 2 ^ 31 -> 0 < inputSize -> (Z.to_nat (inputSize - ip) < fuel)%nat ->
  exists r, compress_loop source inputSize maxOutputSize false tableType acceleration fuel m table ip anchor (zlen (seqs_enc ss)) h = Ok r /\
    compressed_to r.
Proof.
  intros Hem Hai Ht Hh Hin Hn Hf. revert m table ss anchor ip h Hem Hai Ht Hh Hf.
  induction fuel as [|fuel IH]; intros m table ss anchor ip h Hem Hai Ht Hh Hf; [lia|]. cbn [compress_loop].
  pose proof Hem as (Hl & Hs & Hok & Ha & Hfold & Hcost).
  assert (Hnb : u32 (Z.shiftl acceleration LZ4_skipTrigger) = 64 * acceleration).
  { rewrite Z.shiftl_mul_pow2 by done. change (2 ^ LZ4_skipTrigger) with 64. unfold u32. rewrite wrap_id; [lia|unfold in_range; lia]. }
  rewrite Hnb.
  destruct (find_match_Ok source inputSize tableType Hbytes Hsize Hfit (S (Z.to_nat inputSize)) table ip 1 (64 * acceleration) h)
    as (r & -> & Hr); try done; try lia; [unfold mflimit, MFLIMIT, WILDCOPYLENGTH, MINMATCH; lia|]. cbn [mbind outcome_bind].
  destruct r as [[[table1 ip1] mt1]|]; [|by apply last_literals_done].
  destruct Hr as (H1 & H2 & Ht1 & Hmt1 & Hd & Hag). unfold mflimit, MFLIMIT, WILDCOPYLENGTH, MINMATCH in H2.
  destruct (catch_up_Ok source (S (Z.to_nat inputSize)) anchor ip1 mt1) as (k & -> & Hk & Hka & Hkm & Hkag); [lia..|].
  cbn [mbind outcome_bind]. set (ip2 := ip1 - k) in *. set (mt2 := mt1 - k) in *. pose proof (run_ext_cost (ip2 - anchor)) as Hrc.
  destruct (encode_literals_Ok source inputSize maxOutputSize Hsize m (seqs_enc ss) anchor ip2 Hs) as (m1 & -> & Hl1 & Hs1); [lia..|].
  cbn [mbind outcome_bind].
  assert (Hsl : zlen (slice anchor (ip2 - anchor) source) = ip2 - anchor) by (apply zlen_slice; lia).
  assert (Hin2 : in_sequence m1 ss anchor ip2) by (split_and!; done || lia).
  assert (Hag2 : agree source ip2 mt2 (k + 4)).
  { apply agree_app; [done|]. by replace (ip2 + k) with ip1 by lia; replace (mt2 + k) with mt1 by lia. }
  destruct (next_match_Ok (S (Z.to_nat inputSize)) m1 table1 ss anchor ip2 mt2 (k + 4)) as (r & Er & Hr); try done; try lia;
    [eapply table_ok_weaken; [exact Ht1|lia]|].
  rewrite !zlen_app, Hsl in Er. change (zlen [_]) with 1 in Er.
  rewrite !Z.add_assoc in Er. rewrite Er. cbn [mbind outcome_bind].
  destruct r as [m2|m2 ip3 op3|m2 table3 ip3 op3]; [done|..].
  - destruct Hr as (ss' & Hem' & ->). by apply last_literals_done.
  - destruct Hr as (ss' & Hem' & -> & Ht3 & Hlt & Hmf). unfold MFLIMIT, WILDCOPYLENGTH, MINMATCH in Hmf.
    destruct (hashPosition_Ok source tableType (ip3 + 1)) as (h3 & -> & Hh3); [lia..|]. cbn [mbind outcome_bind].
    apply IH; done || lia.
Qed.
End Compresses.

Lemma emitted_start source inputSize cap dest : zlen dest = cap -> 0 <= inputSize -> emitted source inputSize cap dest [] 0.
Proof.
  intros Hd Hn. split_and!; try done; try (change (zlen (seqs_enc [])) with 0; lia).
  split; [change (zlen (seqs_enc [])) with 0; pose proof (zlen_nonneg dest); lia|].
  change (zlen (seqs_enc [])) with 0. intros i Hi. by rewrite !(proj2 (zget_None _ _)) by lia.
Qed.

Lemma resetStream_ok t ip : 0 < ip -> table_ok t (LZ4_resetStream t) ip.
Proof.
  intros. split.
  - unfold LZ4_resetStream, zlen. rewrite length_replicate. destruct t; done.
  - apply Forall_replicate. lia.
Qed.

Lemma compress_generic_Ok source inputSize t acceleration dest :
  Forall is_byte source -> 0 <= inputSize <= zlen source -> inputSize <= LZ4_MAX_INPUT_SIZE ->
  match t with byU16 => inputSize < LZ4_64Klimit | byU32 => True end ->
  LZ4_compressBound inputSize <= zlen dest -> 1 <= acceleration <= 2 ^ 20 ->
  exists r, LZ4_compress_generic source inputSize 0 false t acceleration (LZ4_resetStream t) dest = Ok r /\
    compressed_to source inputSize (zlen dest) r.
Proof.
  intros Hb Hs Hmax Ht Hcap Hacc. unfold LZ4_compress_generic, LZ4_compressBound, LZ4_MAX_INPUT_SIZE in *.
  assert (Hu : u32 inputSize = inputSize) by (apply wrap_id; unfold in_range; lia). rewrite Hu in *.
  rewrite (proj2 (Z.ltb_ge _ _)) in * by lia.
  assert (Hroom : 256 * inputSize + 3826 <= 255 * zlen dest) by (Z.div_mod_to_equations; lia).
  assert (Hfit : match t with byU16 => inputSize < LZ4_64Klimit | byU32 => inputSize <= LZ4_MAX_INPUT_SIZE end)
    by (destruct t; done).
  assert (match t with byU32 => false | byU16 => LZ4_64Klimit <=? inputSize end = false) as -> by (destruct t; [done|by apply Z.leb_gt]).
  assert (Hem : emitted source inputSize (zlen dest) dest [] 0) by (apply emitted_start; [done|lia]).
  unfold LZ4_minLength, MFLIMIT, WILDCOPYLENGTH, MINMATCH. destruct (Z.ltb_spec inputSize (8 + 4 + 1)).
  - apply (last_literals_done source inputSize 0 (zlen dest)) in Hem; try done; lia.
  - destruct (putPosition_Ok source inputSize t) with (p := 0) (table := LZ4_resetStream t) (ip := 1) as (t1 & -> & Ht1);
      try done; try lia; [by apply resetStream_ok|unfold MFLIMIT, WILDCOPYLENGTH, MINMATCH; lia|]. cbn [mbind outcome_bind].
    destruct (hashPosition_Ok source t 1) as (h & -> & Hh); [lia..|]. cbn [mbind outcome_bind].
    apply (compress_loop_Ok source inputSize 0 t acceleration (zlen dest)) with (ss := []); try done; lia.
Qed.

Lemma compress_fast_Ok source dest inputSize maxOutputSize acceleration :
  Forall is_byte source -> 0 <= inputSize <= zlen source -> inputSize <= LZ4_MAX_INPUT_SIZE ->
  LZ4_compressBound inputSize <= maxOutputSize <= zlen dest -> 1 <= acceleration <= 2 ^ 20 ->
  exists r, LZ4_compress_fast source dest inputSize maxOutputSize acceleration = Ok r /\ compressed_to source inputSize (zlen dest) r.
Proof.
  intros Hb Hs Hmax Hbd Hacc. unfold LZ4_compress_fast, LZ4_compress_fast_extState. rewrite (proj2 (Z.leb_le _ _)) by lia.
  destruct (Z.ltb_spec inputSize LZ4_64Klimit); apply compress_generic_Ok; done || lia.
Qed.

Lemma starts_split m out : starts m out -> m = out ++ zdrop (zlen out) m.
Proof.
  intros [H1 H2]. pose proof (zlen_nonneg out). rewrite <- (ztake_zdrop (zlen out) m) at 1. f_equal.
  apply zget_ext; rewrite zlen_ztake by lia; [done|]. intros i Hi. rewrite zget_ztake by lia. apply H2. lia.
Qed.

(** ** Properties of the compressor *)

(** With room for LZ4_compressBound, compression succeeds inside its blocks and its
    result is at most the bound. *)
Theorem LZ4_compress_fast_bound source dest inputSize maxOutputSize acceleration :
  Forall is_byte source -> 0 <= inputSize <= zlen source -> inputSize <= LZ4_MAX_INPUT_SIZE ->
  LZ4_compressBound inputSize <= maxOutputSize <= zlen dest -> 1 <= acceleration <= 2 ^ 20 ->
  exists n dest', LZ4_compress_fast source dest inputSize maxOutputSize acceleration = Ok (n, dest') /\
    zlen dest' = zlen dest /\ 0 < n <= LZ4_compressBound inputSize.
Proof.
  intros Hb Hs Hmax Hbd Hacc. destruct (compress_fast_Ok source dest inputSize maxOutputSize acceleration) as ([n d] & -> & Hc); [done..|].
  destruct Hc as (ss & last & Hn & Hl & _ & _ & _ & Hcost). cbn [fst snd] in *. exists n, d. split; [done|]. split; [done|].
  pose proof (length_block_enc ss last). unfold LZ4_compressBound, LZ4_MAX_INPUT_SIZE in *.
  assert (u32 inputSize = inputSize) as Hu by (apply wrap_id; unfold in_range; lia). rewrite Hu in *.
  rewrite (proj2 (Z.ltb_ge _ _)) in * by lia. Z.div_mod_to_equations; lia.
Qed.

(** C4: Decompressing what LZ4_compress_fast made gives back the input, for accelerations from 1 to
    2^20 and a destination with room for LZ4_compressBound of the input. *)
Theorem LZ4_roundtrip source dest inputSize maxOutputSize acceleration asrc adst out :
  Forall is_byte source -> 0 <= inputSize <= zlen source -> inputSize <= LZ4_MAX_INPUT_SIZE ->
  LZ4_compressBound inputSize <= maxOutputSize <= zlen dest -> 1 <= acceleration <= 2 ^ 20 ->
  0 <= asrc -> asrc + zlen dest < 2 ^ 64 -> 0 <= adst -> adst + zlen out < 2 ^ 64 -> inputSize <= zlen out -> 1 <= zlen out ->
  exists n dest' out', LZ4_compress_fast source dest inputSize maxOutputSize acceleration = Ok (n, dest') /\
    LZ4_decompress_safe asrc adst dest' out n = Ok (inputSize, out') /\ ztake inputSize out' = ztake inputSize source.
Proof.
  intros Hb Hs Hmax Hbd Hacc Has Has64 Had Had64 Hout Hout1.
  destruct (compress_fast_Ok source dest inputSize maxOutputSize acceleration) as ([n d] & -> & Hc); [done..|].
  destruct Hc as (ss & last & Hn & Hl & Hst & Hok & Hrun & _). cbn [fst snd] in *. subst n.
  assert (Htot : zlen (lz_run ss last) = inputSize) by (rewrite Hrun, zlen_ztake; lia).
  pose proof (starts_split _ _ Hst) as Hd.
  destruct (decompress_block_Ok asrc adst ss last (zdrop (zlen (block_enc ss last)) d) out) as (out' & E & Hlo & Ho);
    rewrite ?Htot, <- ?Hd; try done; try lia.
  rewrite Htot in *. rewrite <- Hd in E. do 3 eexists. split; [done|]. split; [exact E|]. congruence.
Qed.

(** A hundred equal bytes. *)
Lemma LZ4_compress_fast_bound_witness :
  exists n dest', LZ4_compress_fast (replicate 100 7) (replicate 200 0) 100 200 1 = Ok (n, dest') /\
    zlen dest' = zlen (replicate 200 0) /\ 0 < n <= LZ4_compressBound 100.
Proof. apply LZ4_compress_fast_bound; [by apply Forall_replicate|done..]. Defined.

Lemma LZ4_roundtrip_witness :
  exists n dest' out', LZ4_compress_fast (replicate 100 7) (replicate 200 0) 100 200 1 = Ok (n, dest') /\
    LZ4_decompress_safe 4096 8192 dest' (replicate 100 0) n = Ok (100, out') /\ ztake 100 out' = ztake 100 (replicate 100 7).
Proof. apply LZ4_roundtrip; [by apply Forall_replicate|done..]. Defined.
