(* ===== verification/Packet.v ===== *)
(** Packets: the header fields and the fragments of node/Packet.hpp, and the encryption
    and authentication of node/Packet.cpp.

    A [Packet] and a [Packet::Fragment] are [Buffer]s of [ZT_PROTO_MAX_PACKET_LENGTH]
    bytes.  armor() and dearmor() work through [unsafeData()], on the array itself; they
    are modelled without the optional assembly for Salsa20/12. *)
From S2P Require Import Prelude.
From S2P Require Import Utils.
From S2P Require Import Buffer.
From S2P Require Import Addressing.
From S2P Require Import Wire.
From S2P Require Import Poly1305.
From S2P Require Import Salsa20.

Definition ZT_MAX_PACKET_FRAGMENTS : Z := 7.
Definition ZT_DEFAULT_PHYSMTU : Z := 1444.
Definition ZT_PROTO_MAX_PACKET_LENGTH : Z := ZT_MAX_PACKET_FRAGMENTS * ZT_DEFAULT_PHYSMTU.
Definition ZT_PROTO_MIN_PACKET_LENGTH : Z := 28.
Definition ZT_PROTO_MIN_FRAGMENT_LENGTH : Z := 16.
Definition ZT_PROTO_MAX_HOPS : Z := 7.

Definition ZT_PROTO_CIPHER_SUITE__C25519_POLY1305_NONE : Z := 0.
Definition ZT_PROTO_CIPHER_SUITE__C25519_POLY1305_SALSA2012 : Z := 1.
Definition ZT_PROTO_CIPHER_SUITE__NO_CRYPTO_TRUSTED_PATH : Z := 2.
Definition ZT_PROTO_FLAG_ENCRYPTED : Z := 0x80.
Definition ZT_PROTO_FLAG_FRAGMENTED : Z := 0x40.
Definition ZT_PROTO_VERB_FLAG_COMPRESSED : Z := 0x80.

Definition ZT_PACKET_IDX_IV : Z := 0.
Definition ZT_PACKET_IDX_DEST : Z := 8.
Definition ZT_PACKET_IDX_SOURCE : Z := 13.
Definition ZT_PACKET_IDX_FLAGS : Z := 18.
Definition ZT_PACKET_IDX_MAC : Z := 19.
Definition ZT_PACKET_IDX_VERB : Z := 27.
Definition ZT_PACKET_IDX_PAYLOAD : Z := 28.

Definition ZT_PACKET_FRAGMENT_IDX_PACKET_ID : Z := 0.
Definition ZT_PACKET_FRAGMENT_IDX_DEST : Z := 8.
Definition ZT_PACKET_FRAGMENT_IDX_FRAGMENT_INDICATOR : Z := 13.
Definition ZT_PACKET_FRAGMENT_IDX_FRAGMENT_NO : Z := 14.
Definition ZT_PACKET_FRAGMENT_IDX_HOPS : Z := 15.
Definition ZT_PACKET_FRAGMENT_IDX_PAYLOAD : Z := 16.
Definition ZT_PACKET_FRAGMENT_INDICATOR : Z := 0xff.

Abbreviation PC := ZT_PROTO_MAX_PACKET_LENGTH.

(** ** Header fields *)

(** [memcpy(b.field(i,l),d,l)] and the stores through a pointer that [field] returned. *)
Definition Buffer_write_field (b : Buffer) (i : Z) (d : list Z) : outcome Buffer :=
  p ← Buffer_field b i (zlen d);
  m ← mem_write (b_mem b) p d;
  Ok (mkBuffer m (b_len b)).

(** [b[i] = f(b[i])] *)
Definition Buffer_update_index (b : Buffer) (i : Z) (f : Z -> Z) : outcome Buffer :=
  v ← Buffer_index b i; Buffer_set_index b i (f v).

Definition Packet_setDestination (p : Buffer) (dest : Z) : outcome Buffer :=
  Buffer_write_field p ZT_PACKET_IDX_DEST (Address_bytes dest).
Definition Packet_setSource (p : Buffer) (source : Z) : outcome Buffer :=
  Buffer_write_field p ZT_PACKET_IDX_SOURCE (Address_bytes source).
Definition Packet_destination (p : Buffer) : outcome Z := Buffer_read_address p ZT_PACKET_IDX_DEST.
Definition Packet_source (p : Buffer) : outcome Z := Buffer_read_address p ZT_PACKET_IDX_SOURCE.
Definition Packet_lengthValid (p : Buffer) : bool := ZT_PROTO_MIN_PACKET_LENGTH <=? b_len p.

Definition Packet_fragmented (p : Buffer) : outcome bool :=
  f ← Buffer_index p ZT_PACKET_IDX_FLAGS; Ok (negb (Z.land f ZT_PROTO_FLAG_FRAGMENTED =? 0)).
Definition Packet_setFragmented (p : Buffer) (f : bool) : outcome Buffer :=
  Buffer_update_index p ZT_PACKET_IDX_FLAGS
    (fun b => if f then Z.lor b ZT_PROTO_FLAG_FRAGMENTED else Z.land b (0xff - ZT_PROTO_FLAG_FRAGMENTED)).
Definition Packet_compressed (p : Buffer) : outcome bool :=
  v ← Buffer_index p ZT_PACKET_IDX_VERB; Ok (negb (Z.land v ZT_PROTO_VERB_FLAG_COMPRESSED =? 0)).
Definition Packet_hops (p : Buffer) : outcome Z :=
  f ← Buffer_index p ZT_PACKET_IDX_FLAGS; Ok (Z.land f 0x07).

Definition flags_incrementHops (b : Z) : Z := Z.lor (Z.land b 0xf8) (Z.land (b + 1) 0x07).
Definition Packet_incrementHops (p : Buffer) : outcome Buffer :=
  Buffer_update_index p ZT_PACKET_IDX_FLAGS flags_incrementHops.

Definition Packet_cipher (p : Buffer) : outcome Z :=
  f ← Buffer_index p ZT_PACKET_IDX_FLAGS; Ok (Z.shiftr (Z.land f 0x38) 3).

Definition flags_setCipher (c b : Z) : Z :=
  let b := Z.lor (Z.land b 0xc7) (Z.land (u32 (Z.shiftl c 3)) 0x38) in
  if c =? ZT_PROTO_CIPHER_SUITE__C25519_POLY1305_SALSA2012
  then Z.lor b ZT_PROTO_FLAG_ENCRYPTED
  else Z.land b (0xff - ZT_PROTO_FLAG_ENCRYPTED).
Definition Packet_setCipher (p : Buffer) (c : Z) : outcome Buffer :=
  Buffer_update_index p ZT_PACKET_IDX_FLAGS (flags_setCipher c).

Definition Packet_trustedPathId (p : Buffer) : outcome Z := Buffer_at p 8 ZT_PACKET_IDX_MAC.
Definition Packet_setTrusted (p : Buffer) (tpid : Z) : outcome Buffer :=
  p ← Packet_setCipher p ZT_PROTO_CIPHER_SUITE__NO_CRYPTO_TRUSTED_PATH;
  Buffer_setAt p 8 ZT_PACKET_IDX_MAC tpid.
Definition Packet_packetId (p : Buffer) : outcome Z := Buffer_at p 8 ZT_PACKET_IDX_IV.
Definition Packet_setVerb (p : Buffer) (v : Z) : outcome Buffer :=
  Buffer_set_index p ZT_PACKET_IDX_VERB (u8 v).
Definition Packet_verb (p : Buffer) : outcome Z :=
  v ← Buffer_index p ZT_PACKET_IDX_VERB; Ok (Z.land v 0x1f).
Definition Packet_payloadLength (p : Buffer) : Z :=
  if b_len p <? ZT_PROTO_MIN_PACKET_LENGTH then 0 else b_len p - ZT_PROTO_MIN_PACKET_LENGTH.
(** A pointer, here its offset into the array. *)
Definition Packet_payload (p : Buffer) : outcome Z :=
  Buffer_field p ZT_PACKET_IDX_PAYLOAD (u32 (b_len p - ZT_PACKET_IDX_PAYLOAD)).

(** [reset]; the constructor is the same on a new array.  [iv] is what the random source
    delivers. *)
Definition Packet_reset (p : Buffer) (iv : list Z) (dest source v : Z) : outcome Buffer :=
  p ← Buffer_setSize PC p ZT_PROTO_MIN_PACKET_LENGTH;
  p ← Buffer_write_field p ZT_PACKET_IDX_IV iv;
  p ← Packet_setDestination p dest;
  p ← Packet_setSource p source;
  p ← Buffer_set_index p ZT_PACKET_IDX_FLAGS 0;
  Packet_setVerb p v.

(** ** Encryption and authentication *)

(** [_salsa20MangleKey] *)
Definition salsa20MangleKey (key : list Z) (p : Buffer) : outcome (list Z) :=
  k ← mem_read key 0 32;
  d ← mem_read (b_mem p) 0 19;
  Ok (zip_with Z.lxor (take 18 k) (take 18 d) ++
      [Z.lxor (nth 18 k 0) (Z.land (nth 18 d 0) 0xf8);
       Z.lxor (nth 19 k 0) (Z.land (b_len p) 0xff);
       Z.lxor (nth 20 k 0) (Z.land (Z.shiftr (b_len p) 8) 0xff)] ++
      drop 21 k).

Definition ZERO_KEY : list Z := replicate 32 0.

(** The cipher both functions start, and the key of the authenticator it first yields;
    [tmp] is crypt12's uninitialised temporary. *)
Definition packet_cipher (tmp key : list Z) (p : Buffer) : outcome (list Z * list Z) :=
  mangledKey ← salsa20MangleKey key p;
  iv ← mem_read (b_mem p) ZT_PACKET_IDX_IV 8;
  let s20 := Salsa20_init mangledKey iv in
  Ok (Salsa20_crypt12 tmp s20 ZERO_KEY).

Definition Packet_armor (tmp key : list Z) (encryptPayload : bool) (p : Buffer) : outcome Buffer :=
  p ← Packet_setCipher p (if encryptPayload then ZT_PROTO_CIPHER_SUITE__C25519_POLY1305_SALSA2012
                          else ZT_PROTO_CIPHER_SUITE__C25519_POLY1305_NONE);
  '(macKey, s20) ← packet_cipher tmp key p;
  let payloadLen := u32 (b_len p - ZT_PACKET_IDX_VERB) in
  payload ← mem_read (b_mem p) ZT_PACKET_IDX_VERB payloadLen;
  let payload := if encryptPayload then fst (Salsa20_crypt12 tmp s20 payload) else payload in
  m ← mem_write (b_mem p) ZT_PACKET_IDX_VERB payload;
  let mac := Poly1305_compute payload macKey in
  m ← mem_write m ZT_PACKET_IDX_MAC (take 8 mac);
  Ok (mkBuffer m (b_len p)).

(** The result and the packet after the call. *)
Definition Packet_dearmor (tmp key : list Z) (p : Buffer) : outcome (bool * Buffer) :=
  let payloadLen := u32 (b_len p - ZT_PACKET_IDX_VERB) in
  cs ← Packet_cipher p;
  if (cs =? ZT_PROTO_CIPHER_SUITE__C25519_POLY1305_NONE) ||
     (cs =? ZT_PROTO_CIPHER_SUITE__C25519_POLY1305_SALSA2012) then
    '(macKey, s20) ← packet_cipher tmp key p;
    payload ← mem_read (b_mem p) ZT_PACKET_IDX_VERB payloadLen;
    let mac := Poly1305_compute payload macKey in
    have ← mem_read (b_mem p) ZT_PACKET_IDX_MAC 8;
    if negb (bool_decide (have = take 8 mac)) then Ok (false, p) else
    if cs =? ZT_PROTO_CIPHER_SUITE__C25519_POLY1305_SALSA2012 then
      m ← mem_write (b_mem p) ZT_PACKET_IDX_VERB (fst (Salsa20_crypt12 tmp s20 payload));
      Ok (true, mkBuffer m (b_len p))
    else Ok (true, p)
  else Ok (false, p).

Definition Packet_cryptField (tmp key : list Z) (start len : Z) (p : Buffer) : outcome Buffer :=
  iv ← mem_read (b_mem p) 0 8;
  let iv := take 7 iv ++ [Z.land (nth 7 iv 0) 0xf8] in
  let s20 := Salsa20_init key iv in
  d ← mem_read (b_mem p) start len;
  m ← mem_write (b_mem p) start (fst (Salsa20_crypt12 tmp s20 d));
  Ok (mkBuffer m (b_len p)).

(** ** Fragments *)

Definition Fragment_init (f p : Buffer) (fragStart fragLen fragNo fragTotal : Z) : outcome Buffer :=
  if b_len p <? u32 (fragStart + fragLen) then Throw OUT_OF_BOUNDS else
  f ← Buffer_setSize PC f (u32 (fragLen + ZT_PROTO_MIN_FRAGMENT_LENGTH));
  d ← Buffer_read_field p ZT_PACKET_IDX_IV 13;
  f ← Buffer_write_field f ZT_PACKET_FRAGMENT_IDX_PACKET_ID d;
  f ← Buffer_set_index f ZT_PACKET_FRAGMENT_IDX_FRAGMENT_INDICATOR ZT_PACKET_FRAGMENT_INDICATOR;
  f ← Buffer_set_index f ZT_PACKET_FRAGMENT_IDX_FRAGMENT_NO
        (Z.lor (Z.shiftl (Z.land fragTotal 0xf) 4) (Z.land fragNo 0xf));
  f ← Buffer_set_index f ZT_PACKET_FRAGMENT_IDX_HOPS 0;
  d ← Buffer_read_field p fragStart fragLen;
  Buffer_write_field f ZT_PACKET_FRAGMENT_IDX_PAYLOAD d.

Definition Fragment_destination (f : Buffer) : outcome Z := Buffer_read_address f ZT_PACKET_FRAGMENT_IDX_DEST.
Definition Fragment_lengthValid (f : Buffer) : bool := ZT_PACKET_FRAGMENT_IDX_PAYLOAD <=? b_len f.
Definition Fragment_packetId (f : Buffer) : outcome Z := Buffer_at f 8 ZT_PACKET_FRAGMENT_IDX_PACKET_ID.
Definition Fragment_totalFragments (f : Buffer) : outcome Z :=
  v ← Buffer_index f ZT_PACKET_FRAGMENT_IDX_FRAGMENT_NO; Ok (Z.land (Z.shiftr v 4) 0xf).
Definition Fragment_fragmentNumber (f : Buffer) : outcome Z :=
  v ← Buffer_index f ZT_PACKET_FRAGMENT_IDX_FRAGMENT_NO; Ok (Z.land v 0xf).
Definition Fragment_hops (f : Buffer) : outcome Z := Buffer_index f ZT_PACKET_FRAGMENT_IDX_HOPS.
Definition Fragment_incrementHops (f : Buffer) : outcome Buffer :=
  Buffer_update_index f ZT_PACKET_FRAGMENT_IDX_HOPS (fun h => Z.land (h + 1) ZT_PROTO_MAX_HOPS).
Definition Fragment_payloadLength (f : Buffer) : Z :=
  if ZT_PACKET_FRAGMENT_IDX_PAYLOAD <? b_len f then b_len f - ZT_PACKET_FRAGMENT_IDX_PAYLOAD else 0.
Definition Fragment_payload (f : Buffer) : outcome Z :=
  Buffer_field f ZT_PACKET_FRAGMENT_IDX_PAYLOAD (u32 (b_len f - ZT_PACKET_FRAGMENT_IDX_PAYLOAD)).

(** ** Packets taken apart *)

(** Everything before the flags, the flags, the authenticator, everything from the verb
    on, and the rest of the array. *)
Definition packet_of (h : list Z) (f : Z) (mac p rest : list Z) : Buffer :=
  mkBuffer (h ++ [f] ++ mac ++ p ++ rest) (27 + zlen p).

Record parts_ok (h : list Z) (f : Z) (mac p rest : list Z) : Prop := {
  po_h : zlen h = 18 /\ Forall is_byte h;
  po_f : is_byte f;
  po_mac : zlen mac = 8 /\ Forall is_byte mac;
  po_p : Forall is_byte p;
  po_rest : Forall is_byte rest;
  po_size : 27 + zlen p + zlen rest = PC
}.

Lemma packet_split b :
  buf_wf PC b -> 27 <= b_len b ->
  exists h f mac p rest, b = packet_of h f mac p rest /\ parts_ok h f mac p rest.
Proof.
  intros [Hm Hb Hl _] H27. destruct b as [m n]. cbn [b_mem b_len] in *.
  assert (exists f, slice 18 1 m = [f]) as [f Hf].
  { pose proof (zlen_slice 18 1 m ltac:(lia) ltac:(lia) ltac:(lia)) as Hs.
    destruct (slice 18 1 m) as [|f [|g t]] eqn:E; [done|eauto|exfalso; unfold zlen in Hs; cbn in Hs; lia]. }
  exists (ztake 18 m), f, (slice 19 8 m), (slice 27 (n - 27) m), (zdrop n m).
  assert (Hall : m = ztake 18 m ++ [f] ++ slice 19 8 m ++ slice 27 (n - 27) m ++ zdrop n m).
  { rewrite <- Hf. unfold slice. rewrite <- (ztake_zdrop 18 m) at 1. f_equal.
    rewrite <- (ztake_zdrop 1 (zdrop 18 m)) at 1. f_equal. rewrite zdrop_zdrop by lia. cbn [Z.add].
    rewrite <- (ztake_zdrop 8 (zdrop _ m)) at 1. f_equal. rewrite zdrop_zdrop by lia.
    rewrite <- (ztake_zdrop (n - 27) (zdrop _ m)) at 1. f_equal. rewrite zdrop_zdrop by lia. f_equal. lia. }
  pose proof Hb as Hb'. rewrite Hall in Hb'. rewrite !Forall_app, Forall_singleton in Hb'. destruct_and!.
  assert (Hp : zlen (slice 27 (n - 27) m) = n - 27) by (apply zlen_slice; lia).
  split.
  - unfold packet_of. rewrite <- Hall, Hp. f_equal. lia.
  - split; [rewrite zlen_ztake by lia; done|done|rewrite zlen_slice by lia; done|done|done|].
    rewrite Hp, zlen_zdrop by lia. lia.
Qed.

Lemma mangle_lists (k h : list Z) f a b :
  length k = 32%nat -> length h = 18%nat ->
  zip_with Z.lxor (take 18 k) h ++ [Z.lxor (nth 18 k 0) f; Z.lxor (nth 19 k 0) a; Z.lxor (nth 20 k 0) b] ++ drop 21 k =
  zip_with Z.lxor k (h ++ [f; a; b] ++ replicate 11 0).
Proof.
  intros Hk Hh. do 32 (destruct k as [|? k]; [discriminate|]). destruct k; [|discriminate].
  do 18 (destruct h as [|? h]; [discriminate|]). destruct h; [|discriminate].
  cbn [take drop zip_with nth app replicate]. by rewrite !Z.lxor_0_r.
Qed.

Section Parts.
Context (h : list Z) (f : Z) (mac p rest : list Z) (Hok : parts_ok h f mac p rest).

Lemma packet_of_wf : buf_wf PC (packet_of h f mac p rest).
Proof.
  destruct Hok as [[Hh Hhb] Hf [Hm Hmb] Hp Hr Hs]. pose proof (zlen_nonneg p). pose proof (zlen_nonneg rest).
  split; cbn [packet_of b_mem b_len].
  - rewrite !zlen_app, Hh, Hm. change (zlen [f]) with 1. lia.
  - rewrite !Forall_app, Forall_singleton. done.
  - lia.
  - done.
Qed.

Lemma packet_of_data : buf_data (packet_of h f mac p rest) = h ++ [f] ++ mac ++ p.
Proof.
  destruct Hok as [[Hh _] _ [Hm _] _ _ _]. unfold buf_data, packet_of. cbn [b_mem b_len]. rewrite !app_assoc.
  apply ztake_app_exact. rewrite !zlen_app, Hh, Hm. done.
Qed.

Lemma packet_of_flags : Buffer_index (packet_of h f mac p rest) ZT_PACKET_IDX_FLAGS = Ok f.
Proof.
  destruct Hok as [[Hh _] _ _ _ _ _]. pose proof (zlen_nonneg p). unfold Buffer_index, bounds_check, packet_of, ZT_PACKET_IDX_FLAGS.
  cbn [b_mem b_len]. rewrite (proj2 (Z.leb_gt _ _)) by lia. cbn [mbind outcome_bind]. by apply load_seg.
Qed.

Lemma packet_of_update g :
  Buffer_update_index (packet_of h f mac p rest) ZT_PACKET_IDX_FLAGS g = Ok (packet_of h (g f) mac p rest).
Proof.
  unfold Buffer_update_index. rewrite packet_of_flags. cbn [mbind outcome_bind].
  destruct Hok as [[Hh _] _ _ _ _ _]. pose proof (zlen_nonneg p). unfold Buffer_set_index, bounds_check, packet_of, ZT_PACKET_IDX_FLAGS.
  cbn [b_mem b_len]. rewrite (proj2 (Z.leb_gt _ _)) by lia. cbn [mbind outcome_bind].
  by rewrite mem_write_seg.
Qed.

(** The mangled key, as the documentation of the code has it. *)
Definition mangled (key : list Z) : list Z :=
  zip_with Z.lxor (ztake 32 key)
    (h ++ [Z.land f 0xf8; Z.land (27 + zlen p) 0xff; Z.land (Z.shiftr (27 + zlen p) 8) 0xff] ++ replicate 11 0).

Lemma mangle_Ok key :
  32 <= zlen key -> salsa20MangleKey key (packet_of h f mac p rest) = Ok (mangled key).
Proof.
  intros Hk. destruct Hok as [[Hh _] _ _ _ _ _]. unfold salsa20MangleKey. rewrite (mem_read_Ok key 0 32) by lia.
  cbn [mbind outcome_bind]. rewrite slice_0.
  assert (Hr : mem_read (b_mem (packet_of h f mac p rest)) 0 19 = Ok (h ++ [f])).
  { cbn [packet_of b_mem]. rewrite (app_assoc h). apply (mem_read_seg [] (h ++ [f])); [done|].
    rewrite zlen_app, Hh. done. }
  rewrite Hr. cbn [mbind outcome_bind]. f_equal. unfold mangled. cbn [packet_of b_len].
  assert (Hl : length (ztake 32 key) = 32%nat) by (pose proof (zlen_ztake 32 key ltac:(lia)); unfold zlen in *; lia).
  set (k := ztake 32 key) in *. assert (Hh' : length h = 18%nat) by (unfold zlen in Hh; lia).
  rewrite take_app_le by lia. rewrite (take_ge h) by lia. rewrite app_nth2 by lia. rewrite Hh'. cbn [Nat.sub nth].
  by apply mangle_lists.
Qed.

End Parts.

(** ** What armor and dearmor compute *)

(** The cipher state, the one-time key of the authenticator and the stream the payload is
    combined with. *)
Definition packet_state (h : list Z) (f : Z) (p key : list Z) : list Z :=
  Salsa20_init (mangled h f p key) (take 8 h).
Definition packet_mac_key (st : list Z) : list Z := take 32 (keystream salsa_rounds12 1 st).
Definition packet_crypt (st p : list Z) : list Z :=
  zip_with Z.lxor p (keystream salsa_rounds12 (nblocks p) (salsa_next st)).
Definition packet_mac (st p : list Z) : list Z := take 8 (poly1305_spec p (packet_mac_key st)).

(** A temporary of crypt12. *)
Definition tmp_ok (tmp : list Z) : Prop := length tmp = 64%nat /\ Forall is_byte tmp.

Lemma length_packet_state h f p key : length (packet_state h f p key) = 16%nat.
Proof. reflexivity. Qed.

Lemma crypt12_stream tmp st m :
  tmp_ok tmp -> length st = 16%nat -> Forall is_byte m ->
  Salsa20_crypt12 tmp st m =
    (zip_with Z.lxor m (keystream salsa_rounds12 (nblocks m) st), Nat.iter (nblocks m) salsa_next st).
Proof. intros [Ht Htb] Hs Hm. by apply (crypt_stream salsa_rounds12 length_rounds12). Qed.

Lemma zip_lxor_zeros n (l : list Z) : zip_with Z.lxor (replicate n 0) l = take n l.
Proof.
  revert l. induction n as [|n IH]; intros [|x l]; try done. cbn [replicate zip_with take].
  by rewrite Z.lxor_0_l, IH.
Qed.

Lemma packet_mac_key_ok st :
  length st = 16%nat -> length (packet_mac_key st) = 32%nat /\ Forall is_byte (packet_mac_key st).
Proof.
  intros Hs. unfold packet_mac_key. split.
  - rewrite length_take, (length_keystream salsa_rounds12 length_rounds12) by done. lia.
  - apply Forall_take, keystream_bytes.
Qed.

Lemma packet_mac_ok st p : zlen (packet_mac st p) = 8 /\ Forall is_byte (packet_mac st p).
Proof.
  unfold packet_mac, poly1305_spec. split; [|apply Forall_take, le_bytes_bytes].
  unfold zlen. by rewrite length_take, length_le_bytes.
Qed.

Lemma length_packet_crypt st p : length st = 16%nat -> length (packet_crypt st p) = length p.
Proof.
  intros Hs. unfold packet_crypt. rewrite length_zip_with, (length_keystream salsa_rounds12 length_rounds12)
    by (by rewrite length_salsa_next). unfold nblocks.
  pose proof (Nat.div_mod (length p + 63) 64). pose proof (Nat.mod_upper_bound (length p + 63) 64). lia.
Qed.

Lemma packet_crypt_bytes st p : Forall is_byte p -> Forall is_byte (packet_crypt st p).
Proof. intros Hp. apply zip_lxor_bytes; [done|apply keystream_bytes]. Qed.

Lemma packet_crypt_twice st p :
  length st = 16%nat -> Forall is_byte p -> packet_crypt st (packet_crypt st p) = p.
Proof.
  intros Hs Hp. assert (tmp_ok (replicate 64 0)) as Ht by (by split; [|apply Forall_replicate]).
  assert (Hn : length (salsa_next st) = 16%nat) by (by rewrite length_salsa_next).
  assert (H : fst (Salsa20_crypt12 (replicate 64 0) (salsa_next st)
    (fst (Salsa20_crypt12 (replicate 64 0) (salsa_next st) p))) = p).
  { destruct Ht. by apply (crypt_twice salsa_rounds12 length_rounds12). }
  rewrite (crypt12_stream _ _ p) in H by done. cbn [fst] in H.
  rewrite crypt12_stream in H by (done || by apply (packet_crypt_bytes st)). exact H.
Qed.

Section Crypto.
Context (tmp key : list Z) (Ht : tmp_ok tmp) (Hk : 32 <= zlen key).
Context (h : list Z) (mac p rest : list Z).

Lemma packet_cipher_Ok f :
  parts_ok h f mac p rest ->
  let st := packet_state h f p key in
  packet_cipher tmp key (packet_of h f mac p rest) = Ok (packet_mac_key st, salsa_next st).
Proof.
  intros Hok st. unfold packet_cipher. rewrite mangle_Ok by done. cbn [mbind outcome_bind].
  destruct Hok as [[Hh _] _ _ _ _ _].
  assert (mem_read (b_mem (packet_of h f mac p rest)) ZT_PACKET_IDX_IV 8 = Ok (take 8 h)) as ->.
  { cbn [packet_of b_mem]. rewrite <- (take_drop 8 h) at 1. rewrite <- app_assoc.
    apply (mem_read_seg [] (take 8 h)); [done|]. unfold zlen in *. rewrite length_take. lia. }
  cbn [mbind outcome_bind]. fold (packet_state h f p key). fold st.
  rewrite crypt12_stream by (done || by apply Forall_replicate). unfold ZERO_KEY.
  rewrite zip_lxor_zeros. change (nblocks (replicate 32 0)) with 1%nat. unfold packet_mac_key. reflexivity.
Qed.

Lemma packet_payload_read f :
  parts_ok h f mac p rest ->
  mem_read (b_mem (packet_of h f mac p rest)) ZT_PACKET_IDX_VERB
    (u32 (b_len (packet_of h f mac p rest) - ZT_PACKET_IDX_VERB)) = Ok p.
Proof.
  intros [[Hh _] _ [Hm _] _ _ Hs]. pose proof (zlen_nonneg rest). pose proof (zlen_nonneg p).
  unfold ZT_PACKET_IDX_VERB. cbn [packet_of b_mem b_len].
  change PC with 10108 in Hs. rewrite u32_id by (unfold in_range; lia).
  rewrite !app_assoc. rewrite <- (app_assoc _ p rest). apply mem_read_seg; [|lia].
  rewrite !zlen_app, Hh, Hm. done.
Qed.

Lemma packet_payload_write f p' :
  parts_ok h f mac p rest -> zlen p' = zlen p ->
  mem_write (b_mem (packet_of h f mac p rest)) ZT_PACKET_IDX_VERB p' = Ok (b_mem (packet_of h f mac p' rest)).
Proof.
  intros [[Hh _] _ [Hm _] _ _ _] Hl. unfold ZT_PACKET_IDX_VERB. cbn [packet_of b_mem].
  rewrite !app_assoc. rewrite <- (app_assoc _ p rest), <- (app_assoc _ p' rest). apply mem_write_seg; [|done].
  rewrite !zlen_app, Hh, Hm. done.
Qed.

Lemma packet_mac_read f :
  parts_ok h f mac p rest -> mem_read (b_mem (packet_of h f mac p rest)) ZT_PACKET_IDX_MAC 8 = Ok mac.
Proof.
  intros [[Hh _] _ [Hm _] _ _ _]. unfold ZT_PACKET_IDX_MAC. cbn [packet_of b_mem]. rewrite (app_assoc h [f]).
  apply mem_read_seg; [|done]. rewrite zlen_app, Hh. done.
Qed.

End Crypto.

(** The flags as armor() leaves them. *)
Definition armored_flags (encryptPayload : bool) (f : Z) : Z :=
  flags_setCipher (if encryptPayload then 1 else 0) f.

Lemma flags_facts f :
  is_byte f ->
  (forall e, is_byte (armored_flags e f) /\ Z.shiftr (Z.land (armored_flags e f) 0x38) 3 = (if e then 1 else 0) /\
     Z.land (armored_flags e f) 0x40 = Z.land f 0x40 /\ Z.land (armored_flags e f) 0x07 = Z.land f 0x07) /\
  is_byte (flags_incrementHops f) /\
  Z.land (flags_incrementHops f) 0xf8 = Z.land f 0xf8 /\
  Z.land (flags_incrementHops f) 0x07 = (Z.land f 0x07 + 1) mod 8.
Proof.
  intros Hf. set (Q := fun f =>
    (forall e : bool, is_byte (armored_flags e f) /\ Z.shiftr (Z.land (armored_flags e f) 0x38) 3 = (if e then 1 else 0) /\
     Z.land (armored_flags e f) 0x40 = Z.land f 0x40 /\ Z.land (armored_flags e f) 0x07 = Z.land f 0x07) /\
    is_byte (flags_incrementHops f) /\
    Z.land (flags_incrementHops f) 0xf8 = Z.land f 0xf8 /\
    Z.land (flags_incrementHops f) 0x07 = (Z.land f 0x07 + 1) mod 8).
  assert (Hall : forallb (fun f => bool_decide (Q f)) all_bytes = true) by (vm_compute; reflexivity).
  apply (bool_decide_eq_true_1 _), (byte_forall _ Hall f Hf).
Qed.

(** The flags matter to the key only without the hop count. *)
Lemma packet_state_flags h f f' p p' key :
  Z.land f' 0xf8 = Z.land f 0xf8 -> zlen p' = zlen p -> packet_state h f' p' key = packet_state h f p key.
Proof. intros Hf Hp. unfold packet_state, mangled. by rewrite Hf, Hp. Qed.

Lemma packet_mac_key_def st : packet_mac_key st = take 32 (keystream salsa_rounds12 1 st).
Proof. reflexivity. Qed.

Lemma packet_mac_def st p : packet_mac st p = take 8 (poly1305_spec p (packet_mac_key st)).
Proof. reflexivity. Qed.

Lemma packet_crypt_def st p :
  packet_crypt st p = zip_with Z.lxor p (keystream salsa_rounds12 (nblocks p) (salsa_next st)).
Proof. reflexivity. Qed.

#[local] Opaque packet_state packet_mac packet_crypt packet_mac_key Salsa20_crypt12 poly1305_spec salsa_next.

Section ArmorDearmor.
Context (tmp key : list Z) (Ht : tmp_ok tmp) (Hk : 32 <= zlen key).

Lemma Packet_armor_Ok e h f mac p rest :
  parts_ok h f mac p rest ->
  let f' := armored_flags e f in
  let st := packet_state h f' p key in
  let p' := if e then packet_crypt st p else p in
  Packet_armor tmp key e (packet_of h f mac p rest) = Ok (packet_of h f' (packet_mac st p') p' rest) /\
  parts_ok h f' (packet_mac st p') p' rest.
Proof.
  intros Hok f' st p'. pose proof (po_f _ _ _ _ _ Hok) as Hf. destruct (flags_facts f Hf) as [Hfl _].
  destruct (Hfl e) as (Hf' & _). assert (Hok1 : parts_ok h f' mac p rest) by (by destruct Hok).
  pose proof (packet_cipher_Ok tmp key Ht Hk h mac p rest f' Hok1) as Hc. cbv zeta in Hc. fold st in Hc.
  assert (Hst : length st = 16%nat) by apply length_packet_state. clearbody st.
  assert (Hl : zlen p' = zlen p).
  { unfold p', zlen. destruct e; [|done]. by rewrite length_packet_crypt. }
  assert (Hb : Forall is_byte p').
  { unfold p'. destruct e; [apply packet_crypt_bytes|]; apply Hok. }
  destruct (packet_mac_ok st p') as [Hm Hmb]. destruct (packet_mac_key_ok st Hst) as [Hkl Hkb].
  assert (Hok2 : parts_ok h f' mac p' rest) by (destruct Hok1; split; try done; by rewrite Hl).
  split.
  - unfold Packet_armor, Packet_setCipher. rewrite (packet_of_update h f mac p rest Hok).
    replace (flags_setCipher _ f) with f' by (by unfold f', armored_flags; destruct e). cbn [mbind outcome_bind].
    rewrite Hc. cbn [mbind outcome_bind]. rewrite packet_payload_read by done. cbn [mbind outcome_bind].
    assert (Ep : (if e then fst (Salsa20_crypt12 tmp (salsa_next st) p) else p) = p').
    { unfold p'. destruct e; [|done]. rewrite crypt12_stream by (done || apply Hok || by rewrite length_salsa_next). by rewrite packet_crypt_def. }
    rewrite Ep, packet_payload_write by done. cbn [mbind outcome_bind].
    rewrite poly64_compute_spec by done. rewrite <- packet_mac_def.
    assert (Hw : mem_write (b_mem (packet_of h f' mac p' rest)) ZT_PACKET_IDX_MAC (packet_mac st p') =
                 Ok (b_mem (packet_of h f' (packet_mac st p') p' rest))).
    { unfold ZT_PACKET_IDX_MAC. cbn [packet_of b_mem]. rewrite !(app_assoc h [f']). apply mem_write_seg.
      - rewrite zlen_app, (proj1 (po_h _ _ _ _ _ Hok)). done.
      - by rewrite Hm, (proj1 (po_mac _ _ _ _ _ Hok)). }
    rewrite Hw. cbn [mbind outcome_bind]. unfold packet_of. cbn [b_mem b_len]. by rewrite Hl.
  - destruct Hok2. by split.
Qed.

Lemma Packet_dearmor_Ok h f mac p rest :
  parts_ok h f mac p rest ->
  let cs := Z.shiftr (Z.land f 0x38) 3 in
  let st := packet_state h f p key in
  Packet_dearmor tmp key (packet_of h f mac p rest) = Ok
    (if ((cs =? 0) || (cs =? 1)) && bool_decide (mac = packet_mac st p)
     then (true, packet_of h f mac (if cs =? 1 then packet_crypt st p else p) rest)
     else (false, packet_of h f mac p rest)).
Proof.
  intros Hok cs st. pose proof (packet_cipher_Ok tmp key Ht Hk h mac p rest f Hok) as Hc. cbv zeta in Hc. fold st in Hc.
  assert (Hst : length st = 16%nat) by apply length_packet_state. clearbody st.
  destruct (packet_mac_key_ok st Hst) as [Hkl Hkb].
  unfold Packet_dearmor, Packet_cipher. rewrite packet_of_flags by done. cbn [mbind outcome_bind]. fold cs.
  unfold ZT_PROTO_CIPHER_SUITE__C25519_POLY1305_NONE, ZT_PROTO_CIPHER_SUITE__C25519_POLY1305_SALSA2012.
  destruct ((cs =? 0) || (cs =? 1)); [|done]. rewrite Hc. cbn [mbind outcome_bind].
  rewrite packet_payload_read by done. cbn [mbind outcome_bind]. rewrite packet_mac_read by done.
  cbn [mbind outcome_bind andb]. rewrite poly64_compute_spec by (done || apply Hok). rewrite <- packet_mac_def.
  destruct (bool_decide (mac = packet_mac st p)); cbn [negb]; [|done]. destruct (cs =? 1); [|done].
  rewrite crypt12_stream by (done || apply Hok || by rewrite length_salsa_next). cbn [fst]. rewrite <- packet_crypt_def.
  assert (Hl : zlen (packet_crypt st p) = zlen p) by (unfold zlen; by rewrite length_packet_crypt).
  rewrite packet_payload_write by done. cbn [mbind outcome_bind]. unfold packet_of. cbn [b_mem b_len]. by rewrite Hl.
Qed.

End ArmorDearmor.

(** Relaying a packet: each relay increments the hop count. *)
Definition Packet_relay (n : nat) (p : Buffer) : outcome Buffer :=
  Nat.iter n (fun r => p ← r; Packet_incrementHops p) (Ok p).

Lemma Packet_relay_Ok n h f mac p rest :
  parts_ok h f mac p rest ->
  exists f', Packet_relay n (packet_of h f mac p rest) = Ok (packet_of h f' mac p rest) /\ is_byte f' /\
    Z.land f' 0xf8 = Z.land f 0xf8 /\ Z.land f' 0x07 = (Z.land f 0x07 + Z.of_nat n) mod 8.
Proof.
  intros Hok. induction n as [|n (f' & Hr & Hb & H1 & H2)].
  - exists f. split; [done|]. split; [apply Hok|]. split; [done|]. rewrite Z.add_0_r, Z.mod_small; [done|].
    change 0x07 with (2 ^ 3 - 1). rewrite land_mask by done. by apply Z.mod_pos_bound.
  - destruct (flags_facts f' Hb) as (_ & Hb' & H3 & H4). exists (flags_incrementHops f').
    unfold Packet_relay in *. rewrite Nat.iter_succ, Hr. cbn [mbind outcome_bind]. split.
    + apply packet_of_update. by destruct Hok.
    + split; [done|]. split; [congruence|]. rewrite H4, H2, Z.add_mod_idemp_l by done. f_equal. lia.
Qed.

Lemma land_sub_mask a m : Z.land m 0xf8 = m -> Z.land a m = Z.land (Z.land a 0xf8) m.
Proof. intros H. by rewrite <- Z.land_assoc, (Z.land_comm 0xf8), H. Qed.

Lemma Packet_fields h f mac p rest :
  parts_ok h f mac p rest ->
  let b := packet_of h f mac p rest in
  ztake 18 (buf_data b) = h /\ zdrop 27 (buf_data b) = p /\ slice 19 8 (buf_data b) = mac /\
  Packet_hops b = Ok (Z.land f 0x07) /\ Packet_cipher b = Ok (Z.shiftr (Z.land f 0x38) 3) /\
  Packet_fragmented b = Ok (negb (Z.land f 0x40 =? 0)).
Proof.
  intros Hok b. pose proof Hok as [[Hh _] _ [Hm _] _ _ _]. unfold b. rewrite packet_of_data by done.
  unfold Packet_hops, Packet_cipher, Packet_fragmented. rewrite !packet_of_flags by done. split_and!; try done.
  - by apply ztake_app_exact.
  - rewrite !app_assoc. apply zdrop_app_exact. rewrite !zlen_app, Hh, Hm. done.
  - unfold slice. rewrite app_assoc, zdrop_app_exact by (rewrite zlen_app, Hh; done). by apply ztake_app_exact.
Qed.

(** An array of equal bytes. *)
Lemma replicate_wf c n : is_byte c -> 0 <= n <= PC -> buf_wf PC (mkBuffer (replicate (Z.to_nat PC) c) n).
Proof.
  intros Hc Hn. split; cbn [b_mem b_len].
  - unfold zlen. by rewrite length_replicate, Z2Nat.id.
  - by apply Forall_replicate.
  - done.
  - done.
Qed.

(** ** Theorems *)

(** C3: a packet armored with a key, encrypted or not, and passed on by any number of
    relays, is accepted by dearmor() with the same key, and has its addresses, its verb
    and its payload back; the hop count is the number of relays modulo eight and the
    fragmentation flag is untouched. *)
Theorem Packet_armor_dearmor tmp tmp' key e n b :
  tmp_ok tmp -> tmp_ok tmp' -> 32 <= zlen key -> buf_wf PC b -> 27 <= b_len b ->
  exists b1 b2 b3 hops frag,
    Packet_armor tmp key e b = Ok b1 /\ Packet_relay n b1 = Ok b2 /\ Packet_dearmor tmp' key b2 = Ok (true, b3) /\
    buf_wf PC b3 /\ b_len b3 = b_len b /\
    ztake 18 (buf_data b3) = ztake 18 (buf_data b) /\ zdrop 27 (buf_data b3) = zdrop 27 (buf_data b) /\
    Packet_hops b = Ok hops /\ Packet_hops b3 = Ok ((hops + Z.of_nat n) mod 8) /\
    Packet_fragmented b = Ok frag /\ Packet_fragmented b3 = Ok frag.
Proof.
  intros Ht Ht' Hk Hb Hl. destruct (packet_split b Hb Hl) as (h & f & mac & p & rest & -> & Hok).
  destruct (flags_facts f (po_f _ _ _ _ _ Hok)) as [Hfl _]. destruct (Hfl e) as (Hf1 & Hcs & Hfrag & Hhop). clear Hfl.
  destruct (Packet_armor_Ok tmp key Ht Hk e h f mac p rest Hok) as [Ha Hok1]. cbv zeta in Ha, Hok1.
  set (f1 := armored_flags e f) in *. set (st := packet_state h f1 p key) in *.
  set (p1 := if e then packet_crypt st p else p) in *.
  destruct (Packet_relay_Ok n h f1 (packet_mac st p1) p1 rest Hok1) as (f2 & Hr & Hf2 & H8 & H7).
  assert (Hok2 : parts_ok h f2 (packet_mac st p1) p1 rest) by (by destruct Hok1).
  assert (Hl1 : zlen p1 = zlen p) by (unfold p1, zlen; destruct e; [by rewrite length_packet_crypt|done]).
  assert (Hst : packet_state h f2 p1 key = st) by (by apply packet_state_flags).
  assert (Hcs2 : Z.shiftr (Z.land f2 0x38) 3 = if e then 1 else 0).
  { by rewrite <- Hcs, (land_sub_mask f2), (land_sub_mask f1), H8. }
  pose proof (Packet_dearmor_Ok tmp' key Ht' Hk h f2 (packet_mac st p1) p1 rest Hok2) as Hd. cbv zeta in Hd.
  rewrite Hst, Hcs2 in Hd. rewrite bool_decide_true in Hd by done.
  assert (Hp2 : (if (if e then 1 else 0) =? 1 then packet_crypt st p1 else p1) = p).
  { unfold p1. destruct e; cbn [Z.eqb Pos.eqb]; [|done]. apply packet_crypt_twice; [done|apply Hok]. }
  rewrite Hp2 in Hd. assert (Hok3 : parts_ok h f2 (packet_mac st p1) p rest) by (destruct Hok2; split; try done; [apply Hok|by rewrite <- Hl1]).
  destruct (Packet_fields _ _ _ _ _ Hok) as (A1 & A2 & _ & A3 & _ & A4), (Packet_fields _ _ _ _ _ Hok3) as (B1 & B2 & _ & B3 & _ & B4).
  do 5 eexists. split; [exact Ha|]. split; [exact Hr|]. split; [rewrite Hd; by destruct e|].
  split; [by apply packet_of_wf|]. split; [done|]. rewrite A1, A2, B1, B2, B3, B4. split_and!; try done.
  - by rewrite H7, Hhop.
  - do 3 f_equal. by rewrite (land_sub_mask f2), H8, <- (land_sub_mask f1), Hfrag.
Qed.

Lemma Packet_armor_dearmor_witness :
  exists b1 b3, Packet_armor (replicate 64 0) (replicate 32 9) true (mkBuffer (replicate (Z.to_nat PC) 5) 60) = Ok b1 /\
    Packet_dearmor (replicate 64 0) (replicate 32 9) b1 = Ok (true, b3) /\
    zdrop 27 (buf_data b3) = replicate 33 5.
Proof.
  destruct (Packet_armor_dearmor (replicate 64 0) (replicate 64 0) (replicate 32 9) true 0
    (mkBuffer (replicate (Z.to_nat PC) 5) 60)) as (b1 & b2 & b3 & ? & ? & H1 & H2 & H3 & _ & _ & _ & H4 & _).
  - by split; [|apply Forall_replicate].
  - by split; [|apply Forall_replicate].
  - done.
  - by apply replicate_wf.
  - done.
  - exists b1, b3. injection H2 as <-. split; [exact H1|]. split; [exact H3|]. rewrite H4. reflexivity.
Defined.

(** C5: dearmor() accepts exactly the packets whose cipher suite it knows and whose
    authenticator is the first eight bytes of the Poly1305 of everything from the verb on,
    under the first bytes of the key stream of the mangled key; a packet it rejects is
    left as it was, and one it accepts differs only from the verb on, by the key stream
    after the first block if it was encrypted. *)
Theorem Packet_dearmor_authenticates tmp key b :
  tmp_ok tmp -> 32 <= zlen key -> buf_wf PC b -> 27 <= b_len b ->
  exists f ok b', Buffer_index b ZT_PACKET_IDX_FLAGS = Ok f /\ Packet_dearmor tmp key b = Ok (ok, b') /\
  let cs := Z.shiftr (Z.land f 0x38) 3 in
  let body := zdrop 27 (buf_data b) in
  let st := packet_state (ztake 18 (buf_data b)) f body key in
  ok = (((cs =? 0) || (cs =? 1)) &&
        bool_decide (slice 19 8 (buf_data b) = take 8 (poly1305_spec body (take 32 (keystream salsa_rounds12 1 st))))) /\
  (ok = false -> b' = b) /\
  (ok = true -> ztake 27 (buf_data b') = ztake 27 (buf_data b) /\
     zdrop 27 (buf_data b') =
       if cs =? 1 then zip_with Z.lxor body (keystream salsa_rounds12 (nblocks body) (salsa_next st)) else body).
Proof.
  intros Ht Hk Hb Hl. destruct (packet_split b Hb Hl) as (h & f & mac & p & rest & -> & Hok).
  pose proof (Packet_dearmor_Ok tmp key Ht Hk h f mac p rest Hok) as Hd. cbv zeta in Hd.
  destruct (Packet_fields _ _ _ _ _ Hok) as (A1 & A2 & A3 & _). exists f.
  rewrite packet_of_flags, Hd by done. rewrite A1, A2, A3. cbv zeta. set (st := packet_state h f p key) in *.
  set (cs := Z.shiftr (Z.land f 0x38) 3) in *.
  rewrite <- (packet_mac_key_def st), <- (packet_mac_def st), <- (packet_crypt_def st p).
  set (ok := ((cs =? 0) || (cs =? 1)) && bool_decide (mac = packet_mac st p)) in *.
  exists ok, (if ok then packet_of h f mac (if cs =? 1 then packet_crypt st p else p) rest else packet_of h f mac p rest).
  split; [done|]. split; [by destruct ok|]. split; [done|]. split; [by intros ->|]. intros ->.
  set (p' := if cs =? 1 then packet_crypt st p else p).
  assert (Hok' : parts_ok h f mac p' rest).
  { assert (zlen p' = zlen p) as Hl' by (unfold p', zlen; destruct (cs =? 1); [by rewrite length_packet_crypt|done]).
    destruct Hok; split; try done; [|by rewrite Hl']. unfold p'. destruct (cs =? 1); [by apply packet_crypt_bytes|done]. }
  destruct (Packet_fields _ _ _ _ _ Hok') as (_ & B2 & _). split; [|done]. rewrite !packet_of_data by done.
  pose proof Hok as [[Hh _] _ [Hm _] _ _ _].
  rewrite !(app_assoc h), !(app_assoc _ mac), !ztake_app_exact by (rewrite !zlen_app, Hh, Hm; done). done.
Qed.

Lemma Packet_dearmor_authenticates_witness :
  let b := mkBuffer (replicate (Z.to_nat PC) 0x18) 60 in
  Packet_dearmor (replicate 64 0) (replicate 32 9) b = Ok (false, b).
Proof.
  intros b. destruct (Packet_dearmor_authenticates (replicate 64 0) (replicate 32 9) b)
    as (f & ok & b' & H1 & H2 & H3 & H4 & _).
  - by split; [|apply Forall_replicate].
  - done.
  - by apply replicate_wf.
  - done.
  - assert (f = 0x18) as -> by (by injection H1). cbv zeta in H3. change (Z.shiftr (Z.land 0x18 0x38) 3) with 3 in H3.
    cbn [Z.eqb Pos.eqb orb andb] in H3. rewrite H2, (H4 H3), H3. reflexivity.
Defined.

Lemma set_index_Ok C b i v :
  buf_wf C b -> 0 <= i < b_len b -> is_byte v ->
  exists b', Buffer_set_index b i v = Ok b' /\ buf_wf C b' /\ b_len b' = b_len b /\
    buf_data b' = ztake i (buf_data b) ++ [v] ++ zdrop (i + 1) (buf_data b).
Proof.
  intros Hb Hi Hv. destruct (store_refines C b Hb i [v]) as (m & Hm & Hwf & Hd);
    [lia|by rewrite Forall_singleton|change (zlen [v]) with 1; lia|].
  unfold Buffer_set_index, bounds_check. rewrite (proj2 (Z.leb_gt _ _)), Hm by lia. eauto.
Qed.

(** What the code does on less than a header. *)
Lemma short_payload b :
  buf_wf PC b -> b_len b < 27 ->
  mem_read (b_mem b) ZT_PACKET_IDX_VERB (u32 (b_len b - ZT_PACKET_IDX_VERB)) = Undef.
Proof.
  intros [Hm _ Hl _] H27. unfold ZT_PACKET_IDX_VERB, mem_read. change PC with 10108 in *.
  assert (E : u32 (b_len b - 27) = b_len b - 27 + 2 ^ 32).
  { unfold u32, wrap. rewrite <- (Z.mod_small (b_len b - 27 + 2 ^ 32) (2 ^ 32)) by lia.
    by rewrite <- Z.add_mod_idemp_r, Z.mod_same, Z.add_0_r by done. }
  rewrite E, Hm. rewrite (proj2 (Z.leb_gt (27 + _) _)) by lia. by rewrite andb_false_r.
Qed.

Lemma packet_cipher_reads tmp key b :
  32 <= zlen key -> buf_wf PC b -> exists r, packet_cipher tmp key b = Ok r.
Proof.
  intros Hk [Hm _ _ _]. change PC with 10108 in Hm. unfold packet_cipher, salsa20MangleKey, ZT_PACKET_IDX_IV.
  rewrite (mem_read_Ok key), (mem_read_Ok (b_mem b) 0 19) by lia. cbn [mbind outcome_bind].
  rewrite mem_read_Ok by lia. cbn [mbind outcome_bind]. eauto.
Qed.

(** armor() and dearmor() take the length of the packet for granted.  On a packet of
    at most eighteen bytes they throw; with nineteen to twenty-six bytes the length of
    the payload wraps around and they access memory far outside the packet, dearmor()
    only if it knows the cipher suite. *)
Theorem Packet_armor_short tmp key e b :
  32 <= zlen key -> buf_wf PC b -> b_len b < 27 ->
  if b_len b <=? 18
  then Packet_armor tmp key e b = Throw OUT_OF_BOUNDS /\ Packet_dearmor tmp key b = Throw OUT_OF_BOUNDS
  else exists cs, Packet_cipher b = Ok cs /\ Packet_armor tmp key e b = Undef /\
    Packet_dearmor tmp key b = if (cs =? 0) || (cs =? 1) then Undef else Ok (false, b).
Proof.
  intros Hk Hb H27. destruct (Z.leb_spec (b_len b) 18) as [H18|H18].
  - unfold Packet_armor, Packet_dearmor, Packet_setCipher, Packet_cipher, Buffer_update_index, Buffer_index, bounds_check,
      ZT_PACKET_IDX_FLAGS. by rewrite (proj2 (Z.leb_le _ _)) by lia.
  - destruct (index_Ok PC b 18 Hb ltac:(lia)) as (f & Hf & _). exists (Z.shiftr (Z.land f 0x38) 3).
    unfold Packet_cipher, ZT_PACKET_IDX_FLAGS. split; [by rewrite Hf|]. split.
    + unfold Packet_armor, Packet_setCipher, Buffer_update_index, ZT_PACKET_IDX_FLAGS. rewrite Hf. cbn [mbind outcome_bind].
      set (g := flags_setCipher _ f). assert (Hg : is_byte g).
      { unfold g. destruct (index_Ok PC b 18 Hb ltac:(lia)) as (f' & Hf' & Hz). rewrite Hf in Hf'. injection Hf' as <-.
        assert (Hbf : is_byte f) by (eapply Forall_lookup_1; [exact (buf_data_bytes PC b Hb)|exact Hz]).
        destruct (flags_facts f Hbf) as [Hfl _]. destruct (Hfl e) as [H _]. unfold armored_flags in H.
        revert H. by destruct e. }
      destruct (set_index_Ok PC b 18 g) as (b' & -> & Hwf & Hl' & _); [done|lia|done|]. cbn [mbind outcome_bind].
      destruct (packet_cipher_reads tmp key b' Hk Hwf) as [[mk s20] ->]. cbn [mbind outcome_bind].
      by rewrite short_payload by (done || lia).
    + unfold Packet_dearmor, Packet_cipher, ZT_PACKET_IDX_FLAGS. rewrite Hf. cbn [mbind outcome_bind].
      unfold ZT_PROTO_CIPHER_SUITE__C25519_POLY1305_NONE, ZT_PROTO_CIPHER_SUITE__C25519_POLY1305_SALSA2012.
      destruct (_ || _); [|done]. destruct (packet_cipher_reads tmp key b Hk Hb) as [[mk s20] ->]. cbn [mbind outcome_bind].
      by rewrite short_payload by done.
Qed.

Lemma Packet_armor_short_witness :
  Packet_armor (replicate 64 0) (replicate 32 9) true (mkBuffer (replicate (Z.to_nat PC) 0) 20) = Undef.
Proof.
  destruct (Packet_armor_short (replicate 64 0) (replicate 32 9) true (mkBuffer (replicate (Z.to_nat PC) 0) 20))
    as (cs & _ & H & _).
  - done.
  - by apply replicate_wf.
  - done.
  - exact H.
Defined.
