(* ===== verification/Compression.v ===== *)
(** Compression of packets: Packet::compress and Packet::uncompress of node/Packet.cpp, on
    the LZ4 of LZ4.v and LZ4Compress.v.

    The payload is compressed in place through a local buffer, and a flag in the verb
    byte says so.  Compressing and decompressing is proved to be the identity on packets,
    and decompression to be safe on whatever a packet holds. *)
From S2P Require Import Prelude.
From S2P Require Import Utils.
From S2P Require Import Buffer.
From S2P Require Import Packet.
From S2P Require Import LZ4.
From S2P Require Import LZ4Compress.

(** [data[ZT_PACKET_IDX_VERB] |= ...] and [&= ...], on the array. *)
Definition verb_update (p : Buffer) (f : Z -> Z) : outcome Buffer :=
  v ← load (b_mem p) ZT_PACKET_IDX_VERB;
  m ← mem_write (b_mem p) ZT_PACKET_IDX_VERB [f v];
  Ok (mkBuffer m (b_len p)).

Definition set_compressed (v : Z) : Z := Z.lor v ZT_PROTO_VERB_FLAG_COMPRESSED.
Definition clear_compressed (v : Z) : Z := Z.land v (u8 (Z.lnot ZT_PROTO_VERB_FLAG_COMPRESSED)).

(** The payload and what is after it in the array. *)
Definition payload_block (p : Buffer) : list Z := zdrop ZT_PACKET_IDX_PAYLOAD (b_mem p).

(** [setSize(n + ZT_PACKET_IDX_PAYLOAD)] and the memcpy of [n] bytes of [buf]. *)
Definition store_payload (p : Buffer) (buf : list Z) (n : Z) : outcome Buffer :=
  p ← Buffer_setSize PC p (u32 (n + ZT_PACKET_IDX_PAYLOAD));
  d ← mem_read buf 0 n;
  m ← mem_write (b_mem p) ZT_PACKET_IDX_PAYLOAD d;
  Ok (mkBuffer m (b_len p)).

(** [buf] is the local buffer, not initialised. *)
Definition Packet_compress (buf : list Z) (p : Buffer) : outcome (bool * Buffer) :=
  c ← Packet_compressed p;
  done_ ← (if negb c && (ZT_PACKET_IDX_PAYLOAD + 64 <? b_len p) then
      let pl := b_len p - ZT_PACKET_IDX_PAYLOAD in
      '(cl, buf) ← LZ4_compress_fast (payload_block p) buf pl (ZT_PROTO_MAX_PACKET_LENGTH * 2) 2;
      if (0 <? cl) && (cl <? pl) then
        p ← verb_update p set_compressed; p ← store_payload p buf cl; Ok (Some p)
      else Ok None
    else Ok None);
  match done_ with
  | Some p => Ok (true, p)
  | None => p ← verb_update p clear_compressed; Ok (false, p)
  end.

(** [adata] and [abuf] are the addresses of the payload and of the local buffer. *)
Definition Packet_uncompress (adata abuf : Z) (buf : list Z) (p : Buffer) : outcome (bool * Buffer) :=
  c ← Packet_compressed p;
  if c && (ZT_PROTO_MIN_PACKET_LENGTH <=? b_len p) then
    r ← (if ZT_PACKET_IDX_PAYLOAD <? b_len p then
        let compLen := b_len p - ZT_PACKET_IDX_PAYLOAD in
        '(ucl, buf) ← LZ4_decompress_safe adata abuf (payload_block p) buf compLen;
        if (0 <? ucl) && (ucl <=? PC - ZT_PACKET_IDX_PAYLOAD) then
          p ← store_payload p buf ucl; Ok (Some p)
        else Ok None
      else Ok (Some p));
    match r with
    | None => Ok (false, p)
    | Some p => p ← verb_update p clear_compressed; Ok (true, p)
    end
  else Ok (true, p).

(** ** Packets taken apart at the verb *)

Definition verb_packet (hd : list Z) (v : Z) (pl rest : list Z) : Buffer :=
  mkBuffer (hd ++ [v] ++ pl ++ rest) (28 + zlen pl).

Record verb_parts (hd : list Z) (v : Z) (pl rest : list Z) : Prop := {
  vp_hd : zlen hd = 27;
  vp_bytes : Forall is_byte hd /\ is_byte v /\ Forall is_byte pl /\ Forall is_byte rest;
  vp_size : 28 + zlen pl + zlen rest = PC
}.

Lemma verb_split b :
  buf_wf PC b -> 28 <= b_len b -> exists hd v pl rest, b = verb_packet hd v pl rest /\ verb_parts hd v pl rest.
Proof.
  intros [Hm Hb Hl _] H28. destruct b as [m n]. cbn [b_mem b_len] in *.
  destruct (slice 27 1 m) as [|v [|w t]] eqn:E; pose proof (zlen_slice 27 1 m ltac:(lia) ltac:(lia) ltac:(lia)) as Hs;
    rewrite E in Hs; unfold zlen in Hs; cbn in Hs; try lia.
  exists (ztake 27 m), v, (slice 28 (n - 28) m), (zdrop n m).
  assert (Hall : m = ztake 27 m ++ [v] ++ slice 28 (n - 28) m ++ zdrop n m).
  { rewrite <- E. unfold slice. rewrite <- (ztake_zdrop 27 m) at 1. f_equal.
    rewrite <- (ztake_zdrop 1 (zdrop 27 m)) at 1. f_equal. rewrite zdrop_zdrop by lia.
    rewrite <- (ztake_zdrop (n - 28) (zdrop _ m)) at 1. f_equal. rewrite zdrop_zdrop by lia. f_equal. lia. }
  pose proof Hb as Hb'. rewrite Hall in Hb'. rewrite !Forall_app, Forall_singleton in Hb'. destruct_and!.
  assert (Hp : zlen (slice 28 (n - 28) m) = n - 28) by (apply zlen_slice; lia). split.
  - unfold verb_packet. rewrite <- Hall, Hp. f_equal. lia.
  - split; [by rewrite zlen_ztake by lia|done|]. rewrite Hp, zlen_zdrop by lia. lia.
Qed.

Lemma verb_flag_facts v :
  is_byte v -> clear_compressed (set_compressed v) = clear_compressed v /\ Z.land (set_compressed v) 0x80 <> 0 /\
    is_byte (set_compressed v) /\ is_byte (clear_compressed v) /\ Z.land (clear_compressed v) 0x80 = 0 /\
    (Z.land v 0x80 = 0 -> clear_compressed v = v).
Proof.
  intros Hv. assert (H : forallb (fun v => (clear_compressed (set_compressed v) =? clear_compressed v) &&
    negb (Z.land (set_compressed v) 0x80 =? 0) && (0 <=? set_compressed v) && (set_compressed v <? 256) &&
    (0 <=? clear_compressed v) && (clear_compressed v <? 256) && (Z.land (clear_compressed v) 0x80 =? 0) &&
    implb (Z.land v 0x80 =? 0) (clear_compressed v =? v)) all_bytes = true) by (vm_compute; reflexivity).
  apply (byte_forall _ H) in Hv. rewrite !andb_true_iff, negb_true_iff, implb_true_iff in Hv. unfold in_range.
  rewrite !Z.eqb_eq, Z.eqb_neq, !Z.leb_le, !Z.ltb_lt in Hv. destruct_and!. split_and!; done.
Qed.

Section Parts.
Context (hd : list Z) (v : Z) (pl rest : list Z) (Hok : verb_parts hd v pl rest).

Lemma verb_packet_wf : buf_wf PC (verb_packet hd v pl rest).
Proof.
  destruct Hok as [Hh (? & ? & ? & ?) Hs]. pose proof (zlen_nonneg pl). pose proof (zlen_nonneg rest).
  split; cbn [verb_packet b_mem b_len]; [|by rewrite !Forall_app, Forall_singleton|lia|done].
  rewrite !zlen_app, Hh. change (zlen [v]) with 1. lia.
Qed.

Lemma verb_packet_data : buf_data (verb_packet hd v pl rest) = hd ++ [v] ++ pl.
Proof.
  destruct Hok as [Hh _ _]. unfold buf_data, verb_packet. cbn [b_mem b_len]. rewrite !app_assoc.
  apply ztake_app_exact. rewrite !zlen_app, Hh. done.
Qed.

Lemma verb_packet_compressed :
  Packet_compressed (verb_packet hd v pl rest) = Ok (negb (Z.land v ZT_PROTO_VERB_FLAG_COMPRESSED =? 0)).
Proof.
  destruct Hok as [Hh _ _]. pose proof (zlen_nonneg pl).
  unfold Packet_compressed, Buffer_index, bounds_check, verb_packet, ZT_PACKET_IDX_VERB. cbn [b_mem b_len].
  rewrite (proj2 (Z.leb_gt _ _)) by lia. cbn [mbind outcome_bind]. by rewrite load_seg.
Qed.

Lemma verb_packet_update f : verb_update (verb_packet hd v pl rest) f = Ok (verb_packet hd (f v) pl rest).
Proof.
  destruct Hok as [Hh _ _]. unfold verb_update, verb_packet, ZT_PACKET_IDX_VERB. cbn [b_mem b_len].
  rewrite load_seg by done. cbn [mbind outcome_bind]. by rewrite mem_write_seg.
Qed.

Lemma verb_packet_block : payload_block (verb_packet hd v pl rest) = pl ++ rest.
Proof.
  destruct Hok as [Hh _ _]. unfold payload_block, verb_packet, ZT_PACKET_IDX_PAYLOAD. cbn [b_mem].
  rewrite app_assoc. apply zdrop_app_exact. rewrite zlen_app, Hh. done.
Qed.

(** The payload replaced: what is beyond it in the array is of no matter. *)
Lemma verb_packet_store buf n :
  Forall is_byte (ztake n buf) -> 0 <= n <= zlen buf -> 28 + n <= PC ->
  exists rest', store_payload (verb_packet hd v pl rest) buf n = Ok (verb_packet hd v (ztake n buf) rest') /\
    verb_parts hd v (ztake n buf) rest'.
Proof.
  destruct Hok as [Hh (Hb1 & Hb2 & Hb3 & Hb4) Hs]. intros Hbuf Hn Hsz. pose proof (zlen_nonneg rest).
  unfold store_payload, Buffer_setSize, bounds_check, ZT_PACKET_IDX_PAYLOAD.
  assert (Hu : u32 (n + 28) = n + 28) by (apply wrap_id; unfold in_range, ZT_PROTO_MAX_PACKET_LENGTH, ZT_MAX_PACKET_FRAGMENTS, ZT_DEFAULT_PHYSMTU in *; lia).
  rewrite Hu, (proj2 (Z.ltb_ge _ _)) by lia. cbn [mbind outcome_bind b_mem b_len]. rewrite mem_read_Ok by lia.
  cbn [mbind outcome_bind]. rewrite slice_0. cbn [verb_packet b_mem].
  assert (Hz : zlen (ztake n buf) = n) by (apply zlen_ztake; lia).
  exists (zdrop n (pl ++ rest)).
  assert (Hpr : zlen (pl ++ rest) = PC - 28) by (rewrite zlen_app; lia).
  assert (Hw : mem_write (hd ++ [v] ++ pl ++ rest) 28 (ztake n buf) = Ok (hd ++ [v] ++ ztake n buf ++ zdrop n (pl ++ rest))).
  { rewrite <- (ztake_zdrop n (pl ++ rest)) at 1. rewrite !(app_assoc hd).
    apply mem_write_seg; [rewrite zlen_app, Hh; done|]. rewrite !zlen_ztake by lia. done. }
  rewrite Hw. cbn [mbind outcome_bind]. split; [unfold verb_packet; rewrite Hz; do 2 f_equal; lia|].
  split; [done|split_and!; [done|done|done|by apply Forall_drop, Forall_app]|]. rewrite Hz, zlen_zdrop by lia. lia.
Qed.
End Parts.

Lemma PC_value : PC = 10108.
Proof. reflexivity. Qed.

(** ** Properties *)

(** The addresses of the packet's payload and of the local buffer leave their blocks
    below the top of the address space. *)
Definition addresses_ok (adata abuf : Z) : Prop :=
  0 <= adata /\ adata + PC < 2 ^ 64 /\ 0 <= abuf /\ abuf + PC < 2 ^ 64.

(** Decompressing a packet that compress made. *)
Lemma uncompress_block adata abuf buf hd v ss last rest :
  let total := zlen (lz_run ss last) in
  verb_parts hd v (block_enc ss last) rest -> Z.land v 0x80 <> 0 -> block_ok total [] ss last -> 0 < total -> 28 + total <= PC ->
  Forall is_byte (lz_run ss last) -> Forall is_byte buf -> zlen buf = PC -> addresses_ok adata abuf ->
  exists rest', Packet_uncompress adata abuf buf (verb_packet hd v (block_enc ss last) rest) =
      Ok (true, verb_packet hd (clear_compressed v) (lz_run ss last) rest') /\
    verb_parts hd (clear_compressed v) (lz_run ss last) rest'.
Proof.
  intros total Hok Hv Hb Ht0 Ht Hrun Hbuf Hl (Ha1 & Ha2 & Hb1 & Hb2). unfold Packet_uncompress.
  rewrite (verb_packet_compressed _ _ _ _ Hok). cbn [mbind outcome_bind].
  rewrite (proj2 (Z.eqb_neq _ _)) by done. cbn [negb andb]. pose proof (length_block_enc ss last).
  unfold ZT_PROTO_MIN_PACKET_LENGTH, ZT_PACKET_IDX_PAYLOAD. cbn [verb_packet b_len].
  rewrite (proj2 (Z.leb_le _ _)), (proj2 (Z.ltb_lt _ _)) by lia. fold (verb_packet hd v (block_enc ss last) rest).
  rewrite (verb_packet_block _ _ _ _ Hok). replace (28 + zlen (block_enc ss last) - 28) with (zlen (block_enc ss last)) by lia.
  pose proof (vp_size _ _ _ _ Hok) as Hsz.
  destruct (decompress_block_Ok adata abuf ss last rest buf) as (buf' & -> & Hl' & Htk); try done; try (rewrite ?zlen_app; fold total; lia).
  fold total in Htk |- *. cbn [mbind outcome_bind]. rewrite PC_value in *.
  rewrite (proj2 (Z.ltb_lt _ _)), (proj2 (Z.leb_le _ _)) by lia. cbn [andb].
  destruct (verb_packet_store hd v (block_enc ss last) rest Hok buf' total) as (rest' & -> & Hok'); [by rewrite Htk|lia|rewrite PC_value; lia|].
  cbn [mbind outcome_bind]. rewrite (verb_packet_update _ _ _ _ Hok'). cbn [mbind outcome_bind]. rewrite Htk in *. exists rest'.
  split; [done|]. destruct Hok' as [Hh' (? & Hvb & ?) Hsz']. split; [done| |done].
  destruct (verb_flag_facts v Hvb) as (_ & _ & _ & ? & _ & _). done.
Qed.

(** What compress makes of a packet that is not compressed. *)
Lemma compress_cases buf hd v pl rest :
  verb_parts hd v pl rest -> Z.land v 0x80 = 0 -> zlen buf = PC * 2 ->
  Packet_compress buf (verb_packet hd v pl rest) = Ok (false, verb_packet hd v pl rest) \/
  exists ss last rest', Packet_compress buf (verb_packet hd v pl rest) =
      Ok (true, verb_packet hd (set_compressed v) (block_enc ss last) rest') /\
    verb_parts hd (set_compressed v) (block_enc ss last) rest' /\ block_ok (zlen pl) [] ss last /\ lz_run ss last = pl /\
    zlen (block_enc ss last) < zlen pl.
Proof.
  intros Hok Hv Hl. pose proof (vp_size _ _ _ _ Hok) as Hsz. pose proof (vp_bytes _ _ _ _ Hok) as (Hb1 & Hb2 & Hb3 & Hb4).
  pose proof (zlen_nonneg pl) as Hpl. pose proof (zlen_nonneg rest) as Hre. destruct (verb_flag_facts v Hb2) as (_ & _ & Hset & _ & _ & Hclr).
  unfold Packet_compress. rewrite (verb_packet_compressed _ _ _ _ Hok). cbn [mbind outcome_bind].
  change ZT_PROTO_VERB_FLAG_COMPRESSED with 0x80. rewrite Hv. cbn [Z.eqb negb andb].
  assert (Hno : verb_update (verb_packet hd v pl rest) clear_compressed = Ok (verb_packet hd v pl rest))
    by (rewrite (verb_packet_update _ _ _ _ Hok), (Hclr Hv); done).
  unfold ZT_PACKET_IDX_PAYLOAD. cbn [verb_packet b_len]. fold (verb_packet hd v pl rest).
  destruct (Z.ltb_spec (28 + 64) (28 + zlen pl)); [|left; cbn [mbind outcome_bind]; by rewrite Hno].
  rewrite (verb_packet_block _ _ _ _ Hok). replace (28 + zlen pl - 28) with (zlen pl) by lia. rewrite PC_value in *.
  destruct (compress_fast_Ok (pl ++ rest) buf (zlen pl) (10108 * 2) 2) as ([n buf'] & -> & Hc);
    [by apply Forall_app|rewrite zlen_app; lia|unfold LZ4_MAX_INPUT_SIZE; lia| |lia|].
  { unfold LZ4_compressBound, LZ4_MAX_INPUT_SIZE. unfold u32. rewrite wrap_id by (unfold in_range; lia).
    rewrite (proj2 (Z.ltb_ge _ _)) by lia. Z.div_mod_to_equations; lia. }
  destruct Hc as (ss & last & Hn & Hl' & Hst & Hbo & Hrun & _). cbn [fst snd] in *. cbn [mbind outcome_bind].
  rewrite ztake_app_exact in Hrun by done.
  destruct (Z.ltb_spec 0 n), (Z.ltb_spec n (zlen pl)); cbn [andb]; try (left; cbn [mbind outcome_bind]; by rewrite Hno).
  right. rewrite (verb_packet_update _ _ _ _ Hok set_compressed). cbn [mbind outcome_bind].
  assert (Hok1 : verb_parts hd (set_compressed v) pl rest) by (split; [apply Hok|done|done]).
  assert (Hblk : ztake n buf' = block_enc ss last) by (rewrite (starts_split _ _ Hst), Hn; by apply ztake_app_exact).
  destruct (verb_packet_store hd (set_compressed v) pl rest Hok1 buf' n) as (rest' & -> & Hok2);
    [rewrite Hblk; apply (block_enc_bytes (zlen pl) []); [done|by fold (lz_run ss last); rewrite Hrun]|lia|rewrite PC_value; lia|].
  cbn [mbind outcome_bind]. rewrite Hblk in *. exists ss, last, rest'. split_and!; try done. lia.
Qed.

Lemma Packet_uncompress_plain adata abuf buf hd v pl rest :
  verb_parts hd v pl rest -> Z.land v 0x80 = 0 ->
  Packet_uncompress adata abuf buf (verb_packet hd v pl rest) = Ok (true, verb_packet hd v pl rest).
Proof.
  intros Hok Hv. unfold Packet_uncompress. rewrite (verb_packet_compressed _ _ _ _ Hok). cbn [mbind outcome_bind].
  change ZT_PROTO_VERB_FLAG_COMPRESSED with 0x80. by rewrite Hv.
Qed.

Lemma uncompress_done hd v pl rest b0 :
  verb_parts hd v pl rest ->
  exists r b', (p ← verb_update (verb_packet hd v pl rest) clear_compressed; Ok (true, p)) = Ok (r, b') /\ buf_wf PC b' /\ 28 <= b_len b' /\
    (r = true -> Packet_compressed b' = Ok false) /\ (r = false -> b' = b0).
Proof.
  intros Hok. rewrite (verb_packet_update _ _ _ _ Hok). cbn [mbind outcome_bind]. destruct Hok as [Hh (? & Hv & ? & ?) Hsz].
  destruct (verb_flag_facts v Hv) as (_ & _ & _ & Hcb & Hc & _).
  assert (Hok : verb_parts hd (clear_compressed v) pl rest) by (split; [done|done|done]).
  do 2 eexists. split; [done|]. split; [by apply verb_packet_wf|]. pose proof (zlen_nonneg pl).
  split; [cbn [verb_packet b_len]; lia|]. rewrite (verb_packet_compressed _ _ _ _ Hok).
  change ZT_PROTO_VERB_FLAG_COMPRESSED with 0x80. rewrite Hc. done.
Qed.

Lemma compress_uncompress bufc bufu adata abuf b :
  buf_wf PC b -> 28 <= b_len b -> Packet_compressed b = Ok false ->
  zlen bufc = PC * 2 -> zlen bufu = PC -> Forall is_byte bufu -> addresses_ok adata abuf ->
  exists c b1 b2, Packet_compress bufc b = Ok (c, b1) /\ buf_wf PC b1 /\ Packet_compressed b1 = Ok c /\
    b_len b1 <= b_len b /\ (c = true -> b_len b1 < b_len b) /\ ztake 27 (buf_data b1) = ztake 27 (buf_data b) /\
    Packet_uncompress adata abuf bufu b1 = Ok (true, b2) /\ buf_wf PC b2 /\ buf_data b2 = buf_data b.
Proof.
  intros Hwf Hlen Hc Hbc Hbu Hbub Haddr. destruct (verb_split b Hwf Hlen) as (hd & v & pl & rest & -> & Hok).
  rewrite (verb_packet_compressed _ _ _ _ Hok) in Hc. injection Hc as Hv%negb_false_iff%Z.eqb_eq.
  change ZT_PROTO_VERB_FLAG_COMPRESSED with 0x80 in Hv. pose proof (vp_hd _ _ _ _ Hok) as Hh.
  pose proof (vp_bytes _ _ _ _ Hok) as (_ & Hvb & Hplb & _). destruct (verb_flag_facts v Hvb) as (Hcs & Hset & _ & _ & _ & Hclr).
  destruct (compress_cases bufc hd v pl rest Hok Hv Hbc) as [->|(ss & last & rest' & -> & Hok1 & Hbo & Hrun & Hlt)].
  - do 3 eexists. split; [done|]. split; [done|]. rewrite (verb_packet_compressed _ _ _ _ Hok).
    change ZT_PROTO_VERB_FLAG_COMPRESSED with 0x80. rewrite Hv. split; [done|]. split; [lia|]. split; [done|]. split; [done|].
    rewrite (Packet_uncompress_plain _ _ _ _ _ _ _ Hok Hv). done.
  - pose proof (vp_size _ _ _ _ Hok). pose proof (zlen_nonneg rest). pose proof (zlen_nonneg (block_enc ss last)).
    destruct (uncompress_block adata abuf bufu hd (set_compressed v) ss last rest') as (rest2 & E & Hok2);
      rewrite ?Hrun; try done; try lia.
    rewrite Hrun, Hcs, (Hclr Hv) in E, Hok2. exists true, (verb_packet hd (set_compressed v) (block_enc ss last) rest'), (verb_packet hd v pl rest2).
    split; [done|]. split; [by apply verb_packet_wf|]. rewrite (verb_packet_compressed _ _ _ _ Hok1).
    change ZT_PROTO_VERB_FLAG_COMPRESSED with 0x80. rewrite (proj2 (Z.eqb_neq _ _)) by done. split; [done|].
    cbn [verb_packet b_len]. fold (verb_packet hd v pl rest) (verb_packet hd v pl rest2).
    fold (verb_packet hd (set_compressed v) (block_enc ss last) rest').
    rewrite !verb_packet_data by done. rewrite !ztake_app_exact by done. split_and!; try done; try lia. by apply verb_packet_wf.
Qed.

(** C7: Compressing a packet and decompressing it again gives the packet, whatever the local
    buffers held; compress never makes it longer and keeps everything before the verb. *)
Theorem Packet_compress_uncompress bufc bufu adata abuf b :
  buf_wf PC b -> 28 <= b_len b -> Packet_compressed b = Ok false ->
  zlen bufc = PC * 2 -> zlen bufu = PC -> Forall is_byte bufu -> addresses_ok adata abuf ->
  exists c b1 b2, Packet_compress bufc b = Ok (c, b1) /\ buf_wf PC b1 /\ Packet_compressed b1 = Ok c /\
    b_len b1 <= b_len b /\ (c = true -> b_len b1 < b_len b) /\ ztake 27 (buf_data b1) = ztake 27 (buf_data b) /\
    Packet_uncompress adata abuf bufu b1 = Ok (true, b2) /\ buf_wf PC b2 /\ buf_data b2 = buf_data b.
Proof. apply compress_uncompress. Qed.

(** C6: uncompress of a packet with any content, as received, is defined: it ends with an
    answer and a well-formed packet, unchanged where the answer is "false" and not marked
    as compressed otherwise; the packet is never read or written past its array. *)
Theorem Packet_uncompress_safe adata abuf buf b :
  buf_wf PC b -> 28 <= b_len b -> zlen buf = PC -> Forall is_byte buf ->
  exists r b', Packet_uncompress adata abuf buf b = Ok (r, b') /\ buf_wf PC b' /\ 28 <= b_len b' /\
    (r = true -> Packet_compressed b' = Ok false) /\ (r = false -> b' = b).
Proof.
  intros Hwf Hlen Hl Hbb. destruct (verb_split b Hwf Hlen) as (hd & v & pl & rest & -> & Hok).
  pose proof (vp_size _ _ _ _ Hok) as Hsz. pose proof (vp_bytes _ _ _ _ Hok) as (Hb1 & Hb2 & Hb3 & Hb4).
  pose proof (zlen_nonneg rest). pose proof (zlen_nonneg pl). rewrite PC_value in *.
  unfold Packet_uncompress. rewrite (verb_packet_compressed _ _ _ _ Hok). cbn [mbind outcome_bind].
  destruct (Z.eqb_spec (Z.land v ZT_PROTO_VERB_FLAG_COMPRESSED) 0) as [Hv|Hv]; cbn [negb andb].
  { do 2 eexists. split; [done|]. rewrite (verb_packet_compressed _ _ _ _ Hok), Hv. done. }
  unfold ZT_PROTO_MIN_PACKET_LENGTH, ZT_PACKET_IDX_PAYLOAD. cbn [verb_packet b_len]. fold (verb_packet hd v pl rest).
  rewrite (proj2 (Z.leb_le _ _)) by lia. destruct (Z.ltb_spec 28 (28 + zlen pl)).
  - rewrite (verb_packet_block _ _ _ _ Hok). assert (Hbytes : Forall is_byte (pl ++ rest)) by (by apply Forall_app).
    destruct (decompress_total adata abuf (pl ++ rest) buf (28 + zlen pl - 28)) as (n & buf' & E & Hl' & Hn);
      [done|rewrite zlen_app; lia|rewrite zlen_app; lia|]. rewrite E, PC_value. cbn [mbind outcome_bind].
    destruct (Z.ltb_spec 0 n), (Z.leb_spec n (10108 - 28)); cbn [andb mbind outcome_bind];
      try (do 2 eexists; split; [done|]; split; [done|]; split; [cbn [verb_packet b_len]; lia|]; done).
    assert (Hbuf' : Forall is_byte buf') by (by eapply decompress_bytes).
    destruct (verb_packet_store hd v pl rest Hok buf' n) as (rest' & -> & Hok'); [by apply Forall_take|lia|rewrite PC_value; lia|].
    cbn [mbind outcome_bind]. by eapply uncompress_done.
  - cbn [mbind outcome_bind]. by eapply uncompress_done.
Qed.

(** compress of a packet that is already compressed leaves the payload as it is and
    clears the flag. *)
Theorem Packet_compress_again buf b :
  buf_wf PC b -> 28 <= b_len b -> Packet_compressed b = Ok true ->
  exists b', Packet_compress buf b = Ok (false, b') /\ Packet_compressed b' = Ok false /\
    zdrop 28 (buf_data b') = zdrop 28 (buf_data b).
Proof.
  intros Hwf Hlen Hc. destruct (verb_split b Hwf Hlen) as (hd & v & pl & rest & -> & Hok).
  destruct Hok as [Hh (? & Hv & ? & ?) Hsz] eqn:E. clear E. pose proof Hok as Hok0.
  destruct (verb_flag_facts v Hv) as (_ & _ & _ & Hcb & Hcl & _).
  assert (Hok1 : verb_parts hd (clear_compressed v) pl rest) by (split; [done|done|done]).
  unfold Packet_compress. rewrite Hc. cbn [mbind outcome_bind negb andb]. rewrite (verb_packet_update _ _ _ _ Hok).
  cbn [mbind outcome_bind]. eexists. split; [done|]. rewrite (verb_packet_compressed _ _ _ _ Hok1).
  change ZT_PROTO_VERB_FLAG_COMPRESSED with 0x80. rewrite Hcl. split; [done|].
  rewrite !verb_packet_data by done. rewrite !(app_assoc hd). by rewrite !zdrop_app_exact by (rewrite zlen_app, Hh; done).
Qed.

(** *** A packet of zeros *)

Definition zeros_packet (verb : Z) : Buffer := mkBuffer (replicate 27 0 ++ [verb] ++ replicate (Z.to_nat (PC - 28)) 0) 128.

Lemma zeros_packet_wf verb : is_byte verb -> buf_wf PC (zeros_packet verb).
Proof.
  intros Hv. split; cbn [zeros_packet b_mem b_len]; [|rewrite !Forall_app|done..].
  - rewrite !zlen_app. change (zlen (replicate 27 0)) with 27. change (zlen [verb]) with 1. by rewrite zlen_replicate_Z.
  - split; [by apply Forall_replicate|]. split; [by apply Forall_singleton|]. by apply Forall_replicate.
Qed.

Lemma Packet_compress_uncompress_witness :
  exists c b1 b2, Packet_compress (replicate (Z.to_nat (PC * 2)) 0) (zeros_packet 6) = Ok (c, b1) /\ buf_wf PC b1 /\ Packet_compressed b1 = Ok c /\
    b_len b1 <= 128 /\ (c = true -> b_len b1 < 128) /\ ztake 27 (buf_data b1) = ztake 27 (buf_data (zeros_packet 6)) /\
    Packet_uncompress 4096 65536 (replicate (Z.to_nat PC) 0) b1 = Ok (true, b2) /\ buf_wf PC b2 /\ buf_data b2 = buf_data (zeros_packet 6).
Proof.
  apply Packet_compress_uncompress; [by apply zeros_packet_wf|done|done| | |by apply Forall_replicate|done].
  - by apply zlen_replicate_Z.
  - by apply zlen_replicate_Z.
Defined.

Lemma Packet_uncompress_safe_witness :
  exists r b', Packet_uncompress 4096 65536 (replicate (Z.to_nat PC) 0) (zeros_packet 0x86) = Ok (r, b') /\ buf_wf PC b' /\ 28 <= b_len b' /\
    (r = true -> Packet_compressed b' = Ok false) /\ (r = false -> b' = zeros_packet 0x86).
Proof.
  apply Packet_uncompress_safe; [by apply zeros_packet_wf|done| |by apply Forall_replicate]. by apply zlen_replicate_Z.
Defined.

Lemma Packet_compress_again_witness :
  exists b', Packet_compress [] (zeros_packet 0x86) = Ok (false, b') /\ Packet_compressed b' = Ok false /\
    zdrop 28 (buf_data b') = zdrop 28 (buf_data (zeros_packet 0x86)).
Proof. apply Packet_compress_again; [by apply zeros_packet_wf|done|done]. Defined.
