(* ===== verification/Switch.v ===== *)
(** The switch of the virtual network: node/Switch.cpp and node/Switch.hpp.

    What arrives from the physical network (onRemotePacket: relaying, reassembly of
    fragments, decoding), what is sent (send and _trySend: choice of a path, encryption,
    fragmentation), the queues of packets that wait for an identity, and the periodic
    tasks.  The node's other objects (topology, peers, paths) are an environment whose
    answers are arbitrary; what the switch asks of them is recorded in a log.  An
    exception leaves the state as it was changed so far, which the monad [sm] keeps. *)
From stdpp Require Import gmap.
From S2P Require Import Prelude.
From S2P Require Import Utils.
From S2P Require Import Buffer.
From S2P Require Import Addressing.
From S2P Require Import Wire.
From S2P Require Import Packet.

Definition ZT_RX_QUEUE_SIZE : Z := 64.
Definition ZT_TX_QUEUE_SIZE : Z := 64.
Definition ZT_WHOIS_RETRY_DELAY : Z := 500.
Definition ZT_TRANSMIT_QUEUE_TIMEOUT : Z := 5000.
Definition ZT_RECEIVE_QUEUE_TIMEOUT : Z := 5000.
Definition ZT_RELAY_MAX_HOPS : Z := 3.
Definition ZT_MIN_UNITE_INTERVAL : Z := 30000.
Definition VERB_NOP : Z := 0x00.
Definition VERB_WHOIS : Z := 0x04.

(** ** State and exceptions *)

(** A computation on a state: what is thrown keeps the state it was thrown in. *)
Definition sm (S A : Type) : Type := S -> S * outcome A.

#[export] Instance sm_ret S : MRet (sm S) := fun A a s => (s, Ok a).
#[export] Instance sm_bind S : MBind (sm S) := fun A B f m s =>
  match m s with
  | (s, Ok a) => f a s
  | (s, Throw e) => (s, Throw e)
  | (s, Undef) => (s, Undef)
  end.

Definition lift {S A} (o : outcome A) : sm S A := fun s => (s, o).
Definition get_state {S} : sm S S := fun s => (s, Ok s).
Definition modify {S} (f : S -> S) : sm S unit := fun s => (f s, Ok tt).
(** [catch (...) {}] *)
Definition catch_all {S} (m : sm S unit) : sm S unit := fun s =>
  match m s with (s, Throw _) => (s, Ok tt) | r => r end.

Lemma sm_bind_Ok {S A B} (m : sm S A) (k : A -> sm S B) s s' a : m s = (s', Ok a) -> (m ≫= k) s = k a s'.
Proof. intros E. unfold mbind, sm_bind. by rewrite E. Qed.

(** ** Queues *)

Record IncomingPacket (Path : Type) : Type := mkIncoming {
  ip_packet : Buffer;
  ip_receiveTime : Z;
  ip_path : option Path
}.
Arguments mkIncoming {Path}.
Arguments ip_packet {Path}.
Arguments ip_receiveTime {Path}.
Arguments ip_path {Path}.

Record RXQueueEntry (Path : Type) : Type := mkRX {
  rq_timestamp : Z;
  rq_packetId : Z;
  rq_frag0 : IncomingPacket Path;
  rq_frags : list Buffer;
  rq_totalFragments : Z;
  rq_haveFragments : Z;
  rq_complete : bool
}.
Arguments mkRX {Path}.
Arguments rq_timestamp {Path}.
Arguments rq_packetId {Path}.
Arguments rq_frag0 {Path}.
Arguments rq_frags {Path}.
Arguments rq_totalFragments {Path}.
Arguments rq_haveFragments {Path}.
Arguments rq_complete {Path}.

Record TXQueueEntry : Type := mkTX { tx_dest : Z; tx_creationTime : Z; tx_packet : Buffer; tx_encrypt : bool }.

(** What the switch asks of the rest of the node.  [EvDecoderFault] stands for undefined behaviour in
    the code that decodes a packet. *)
Inductive event (Path Peer : Type) : Type :=
| EvReceived (path : Path)
| EvDecode (p : IncomingPacket Path)
| EvSendDirect (peer : Peer) (data : list Z) (force : bool)
| EvIntroduce (to other : Peer)
| EvPathSend (path : Path) (data : list Z)
| EvTryMemorizedPath (peer : Peer)
| EvExpectReplyTo (packetId : Z)
| EvDecoderFault.
Arguments EvReceived {Path Peer}.
Arguments EvDecode {Path Peer}.
Arguments EvSendDirect {Path Peer}.
Arguments EvIntroduce {Path Peer}.
Arguments EvPathSend {Path Peer}.
Arguments EvTryMemorizedPath {Path Peer}.
Arguments EvExpectReplyTo {Path Peer}.
Arguments EvDecoderFault {Path Peer}.

(** [_LastUniteKey]: the two addresses in order. *)
Definition LastUniteKey (a1 a2 : Z) : Z * Z := if a2 <? a1 then (a2, a1) else (a1, a2).

Record Switch (Path Peer : Type) : Type := mkSwitch {
  sw_lastBeaconResponse : Z;
  sw_lastCheckedQueues : Z;
  sw_lastSentWhoisRequest : gmap Z Z;
  sw_rxQueue : list (RXQueueEntry Path);
  sw_rxQueuePtr : Z;
  sw_txQueue : list TXQueueEntry;
  sw_lastUniteAttempt : gmap (Z * Z) Z;
  sw_log : list (event Path Peer)
}.
Arguments mkSwitch {Path Peer}.
Arguments sw_lastBeaconResponse {Path Peer}.
Arguments sw_lastCheckedQueues {Path Peer}.
Arguments sw_lastSentWhoisRequest {Path Peer}.
Arguments sw_rxQueue {Path Peer}.
Arguments sw_rxQueuePtr {Path Peer}.
Arguments sw_txQueue {Path Peer}.
Arguments sw_lastUniteAttempt {Path Peer}.
Arguments sw_log {Path Peer}.

(** The constructor; the queue's packets are what the memory held. *)
Definition Switch_new {Path Peer} (rx : list (RXQueueEntry Path)) : Switch Path Peer :=
  mkSwitch 0 0 ∅ rx 0 [] ∅ [].

(** The rest of the node, and what the current call was given. *)
Record Node (Path Peer : Type) : Type := mkNode {
  nd_address : Z;
  nd_now : Z;
  nd_amUpstream : bool;
  nd_getPeer : Z -> option Peer;
  nd_getUpstreamPeer : option Peer;
  nd_shouldUsePath : Z -> bool;
  pr_address : Peer -> Z;
  pr_key : Peer -> list Z;
  pr_sendDirect : Peer -> list Z -> bool -> bool;
  pr_getBestPath : Peer -> bool -> option Path;
  pa_trustEstablished : Path -> bool;
  pa_send : Path -> list Z -> bool;
  pa_outboundInfo : Path -> option (Z * Z);
  nd_randomIv : nat -> list Z;
  nd_stack : list Z;
  nd_tmp : list Z;
  nd_tryDecode : IncomingPacket Path -> sm (Switch Path Peer) (bool * IncomingPacket Path)
}.
Arguments nd_address {Path Peer}.
Arguments nd_now {Path Peer}.
Arguments nd_amUpstream {Path Peer}.
Arguments nd_getPeer {Path Peer}.
Arguments nd_getUpstreamPeer {Path Peer}.
Arguments nd_shouldUsePath {Path Peer}.
Arguments pr_address {Path Peer}.
Arguments pr_key {Path Peer}.
Arguments pr_sendDirect {Path Peer}.
Arguments pr_getBestPath {Path Peer}.
Arguments pa_trustEstablished {Path Peer}.
Arguments pa_send {Path Peer}.
Arguments pa_outboundInfo {Path Peer}.
Arguments nd_randomIv {Path Peer}.
Arguments nd_stack {Path Peer}.
Arguments nd_tmp {Path Peer}.
Arguments nd_tryDecode {Path Peer}.

Section Operations.
Context {Path Peer : Type} (N : Node Path Peer).
Abbreviation SW := (Switch Path Peer).
Abbreviation M := (sm (Switch Path Peer)).

Definition with_log (f : list (event Path Peer) -> list (event Path Peer)) (s : SW) : SW :=
  mkSwitch (sw_lastBeaconResponse s) (sw_lastCheckedQueues s) (sw_lastSentWhoisRequest s) (sw_rxQueue s)
    (sw_rxQueuePtr s) (sw_txQueue s) (sw_lastUniteAttempt s) (f (sw_log s)).
Definition with_rx (f : list (RXQueueEntry Path) -> list (RXQueueEntry Path)) (s : SW) : SW :=
  mkSwitch (sw_lastBeaconResponse s) (sw_lastCheckedQueues s) (sw_lastSentWhoisRequest s) (f (sw_rxQueue s))
    (sw_rxQueuePtr s) (sw_txQueue s) (sw_lastUniteAttempt s) (sw_log s).
Definition with_rxPtr (p : Z) (s : SW) : SW :=
  mkSwitch (sw_lastBeaconResponse s) (sw_lastCheckedQueues s) (sw_lastSentWhoisRequest s) (sw_rxQueue s)
    p (sw_txQueue s) (sw_lastUniteAttempt s) (sw_log s).
Definition with_tx (f : list TXQueueEntry -> list TXQueueEntry) (s : SW) : SW :=
  mkSwitch (sw_lastBeaconResponse s) (sw_lastCheckedQueues s) (sw_lastSentWhoisRequest s) (sw_rxQueue s)
    (sw_rxQueuePtr s) (f (sw_txQueue s)) (sw_lastUniteAttempt s) (sw_log s).
Definition with_whois (f : gmap Z Z -> gmap Z Z) (s : SW) : SW :=
  mkSwitch (sw_lastBeaconResponse s) (sw_lastCheckedQueues s) (f (sw_lastSentWhoisRequest s)) (sw_rxQueue s)
    (sw_rxQueuePtr s) (sw_txQueue s) (sw_lastUniteAttempt s) (sw_log s).
Definition with_unite (f : gmap (Z * Z) Z -> gmap (Z * Z) Z) (s : SW) : SW :=
  mkSwitch (sw_lastBeaconResponse s) (sw_lastCheckedQueues s) (sw_lastSentWhoisRequest s) (sw_rxQueue s)
    (sw_rxQueuePtr s) (sw_txQueue s) (f (sw_lastUniteAttempt s)) (sw_log s).
Definition with_beacon (t : Z) (s : SW) : SW :=
  mkSwitch t (sw_lastCheckedQueues s) (sw_lastSentWhoisRequest s) (sw_rxQueue s)
    (sw_rxQueuePtr s) (sw_txQueue s) (sw_lastUniteAttempt s) (sw_log s).
Definition with_checked (t : Z) (s : SW) : SW :=
  mkSwitch (sw_lastBeaconResponse s) t (sw_lastSentWhoisRequest s) (sw_rxQueue s)
    (sw_rxQueuePtr s) (sw_txQueue s) (sw_lastUniteAttempt s) (sw_log s).

Definition emit (e : event Path Peer) : M unit := modify (with_log (fun l => l ++ [e])).
(** [getSecureRandom] into the IV of a new packet. *)
Definition random_iv : M (list Z) := s ← get_state; mret (nd_randomIv N (length (sw_log s))).

(** The entry [&(_rxQueue[i])]. *)
Definition entry (i : Z) : M (RXQueueEntry Path) := s ← get_state; lift (load (sw_rxQueue s) i).
Definition set_entry (i : Z) (e : RXQueueEntry Path) : M unit :=
  modify (with_rx (fun q => <[Z.to_nat i := e]> q)).

(** ** Sending *)

(** The calls of a path, a peer. *)
Definition path_send (path : Path) (data : list Z) : M bool :=
  _ ← emit (EvPathSend path data); mret (pa_send N path data).
Definition sendDirect (peer : Peer) (data : list Z) (force : bool) : M bool :=
  _ ← emit (EvSendDirect peer data force); mret (pr_sendDirect N peer data force).

(** The choice of the path at the start of _trySend. *)
Definition choosePath (peer : Peer) : M (option Path) :=
  match pr_getBestPath N peer false with
  | Some p => mret (Some p)
  | None =>
      _ ← emit (EvTryMemorizedPath peer);
      match nd_getUpstreamPeer N ≫= (fun relay => pr_getBestPath N relay false) with
      | Some p => mret (Some p)
      | None => mret (pr_getBestPath N peer true)
      end
  end.

(** The loop over the fragments after the head; [stk] is where each fragment is built. *)
Fixpoint send_fragments (n : nat) (path : Path) (packet : Buffer) (mtu fragStart remaining fno totalFragments : Z) : M unit :=
  match n with
  | O => mret tt
  | S n =>
      let chunkSize := Z.min remaining (u32 (mtu - ZT_PROTO_MIN_FRAGMENT_LENGTH)) in
      frag ← lift (Fragment_init (mkBuffer (nd_stack N) 0) packet fragStart chunkSize fno totalFragments);
      _ ← path_send path (buf_data frag);
      send_fragments n path packet mtu (u32 (fragStart + chunkSize)) (u32 (remaining - chunkSize)) (fno + 1) totalFragments
  end.

(** [viaPath->send] of the head, then the rest. *)
Definition send_chunks (path : Path) (packet : Buffer) (mtu : Z) : M unit :=
  let chunkSize := Z.min (b_len packet) mtu in
  sent ← path_send path (ztake chunkSize (buf_data packet));
  if sent && (chunkSize <? b_len packet) then
    let remaining := b_len packet - chunkSize in
    let per := u32 (mtu - ZT_PROTO_MIN_FRAGMENT_LENGTH) in
    if per =? 0 then lift Undef else
    let fragsRemaining := remaining / per in
    let fragsRemaining := if u32 (fragsRemaining * per) <? remaining then fragsRemaining + 1 else fragsRemaining in
    let totalFragments := fragsRemaining + 1 in
    send_fragments (Z.to_nat fragsRemaining) path packet mtu chunkSize remaining 1 totalFragments
  else mret tt.

(** The result and the packet after the call. *)
Definition trySend (packet : Buffer) (encrypt : bool) : M (bool * Buffer) :=
  destination ← lift (Packet_destination packet);
  match nd_getPeer N destination with
  | None => mret (false, packet)
  | Some peer =>
      viaPath ← choosePath peer;
      match viaPath with
      | None => mret (false, packet)
      | Some path =>
          let '(mtu, trustedPathId) := default (ZT_DEFAULT_PHYSMTU, 0) (pa_outboundInfo N path) in
          packet ← lift (Packet_setFragmented packet (Z.min (b_len packet) mtu <? b_len packet));
          packet ← lift (if trustedPathId =? 0 then Packet_armor (nd_tmp N) (pr_key N peer) encrypt packet
                         else Packet_setTrusted packet trustedPathId);
          _ ← send_chunks path packet mtu;
          mret (true, packet)
      end
  end.

(** [send], given what requestWhois does. *)
Definition send_with (whois : Z -> M unit) (packet : Buffer) (encrypt : bool) : M unit :=
  dest ← lift (Packet_destination packet);
  if dest =? nd_address N then mret tt else
  '(sent, _) ← trySend packet encrypt;
  if (sent : bool) then mret tt else
  _ ← modify (with_tx (fun q =>
    (if ZT_TX_QUEUE_SIZE <=? zlen q then tail q else q) ++ [mkTX dest (u64 (nd_now N)) packet encrypt]));
  if nd_getPeer N dest then mret tt else whois dest.

(** send and requestWhois call each other; [whois_fuel] is shown to be enough. *)
Fixpoint requestWhois_fuel (fuel : nat) (now addr : Z) : M unit :=
  match fuel with
  | O => lift Undef
  | S fuel =>
      if addr =? nd_address N then mret tt else
      s ← get_state;
      let last := default 0 (sw_lastSentWhoisRequest s !! addr) in
      if now - last <? ZT_WHOIS_RETRY_DELAY then modify (with_whois <[addr := last]>) else
      _ ← modify (with_whois <[addr := now]>);
      match nd_getUpstreamPeer N with
      | None => mret tt
      | Some upstream =>
          iv ← random_iv;
          outp ← lift (Packet_reset (mkBuffer (nd_stack N) 0) iv (pr_address N upstream) (nd_address N) VERB_WHOIS);
          outp ← lift (Address_appendTo PC addr outp);
          pid ← lift (Packet_packetId outp);
          _ ← emit (EvExpectReplyTo pid);
          send_with (requestWhois_fuel fuel (nd_now N)) outp true
      end
  end.

Definition whois_fuel : nat := 3.
Definition requestWhois (now addr : Z) : M unit := requestWhois_fuel whois_fuel now addr.
Definition send (packet : Buffer) (encrypt : bool) : M unit :=
  send_with (requestWhois_fuel whois_fuel (nd_now N)) packet encrypt.

(** ** Receiving *)

(** The slot [(current - k) % ZT_RX_QUEUE_SIZE] of the first [k] that holds the packet. *)
Fixpoint find_slot (q : list (RXQueueEntry Path)) (current packetId : Z) (ks : list Z) : outcome (option Z) :=
  match ks with
  | [] => Ok None
  | k :: ks =>
      let i := u32 (current - k) mod ZT_RX_QUEUE_SIZE in
      rq ← load q i;
      if (rq_packetId rq =? packetId) && negb (rq_timestamp rq =? 0) then Ok (Some i)
      else find_slot q current packetId ks
  end.

Definition findRXQueueEntry (packetId : Z) : M Z :=
  s ← get_state;
  let current := sw_rxQueuePtr s in
  r ← lift (find_slot (sw_rxQueue s) current packetId (seqZ 1 ZT_RX_QUEUE_SIZE));
  match r with
  | Some i => mret i
  | None => _ ← modify (with_rxPtr (u32 (current + 1))); mret (current mod ZT_RX_QUEUE_SIZE)
  end.

Definition nextRXQueueEntry : M Z :=
  s ← get_state;
  _ ← modify (with_rxPtr (u32 (sw_rxQueuePtr s + 1)));
  mret (u32 (u32 (sw_rxQueuePtr s + 1) - 1) mod ZT_RX_QUEUE_SIZE).

Definition rq_with_frag0 (p : IncomingPacket Path) (e : RXQueueEntry Path) : RXQueueEntry Path :=
  mkRX (rq_timestamp e) (rq_packetId e) p (rq_frags e) (rq_totalFragments e) (rq_haveFragments e) (rq_complete e).
Definition rq_with_timestamp (t : Z) (e : RXQueueEntry Path) : RXQueueEntry Path :=
  mkRX t (rq_packetId e) (rq_frag0 e) (rq_frags e) (rq_totalFragments e) (rq_haveFragments e) (rq_complete e).
Definition rq_with_complete (c : bool) (e : RXQueueEntry Path) : RXQueueEntry Path :=
  mkRX (rq_timestamp e) (rq_packetId e) (rq_frag0 e) (rq_frags e) (rq_totalFragments e) (rq_haveFragments e) c.
Definition rq_with_have (h : Z) (e : RXQueueEntry Path) : RXQueueEntry Path :=
  mkRX (rq_timestamp e) (rq_packetId e) (rq_frag0 e) (rq_frags e) (rq_totalFragments e) h (rq_complete e).

Definition update_entry (i : Z) (f : RXQueueEntry Path -> RXQueueEntry Path) : M unit :=
  e ← entry i; set_entry i (f e).

(** [frag0.init] *)
Definition IncomingPacket_init (p : IncomingPacket Path) (data : list Z) (path : Path) : outcome (IncomingPacket Path) :=
  b ← Buffer_copyFrom PC (ip_packet p) data (zlen data); Ok (mkIncoming b (nd_now N) (Some path)).

(** [for(f=1;f<total;++f) frag0.append(frags[f - 1].payload(),frags[f - 1].payloadLength())] *)
Fixpoint assemble (n : nat) (i f : Z) : M unit :=
  match n with
  | O => mret tt
  | S n =>
      e ← entry i;
      fr ← lift (load (rq_frags e) (f - 1));
      payload ← lift (Fragment_payload fr);
      b ← lift (Buffer_append PC (ip_packet (rq_frag0 e)) (zdrop payload (b_mem fr)) (Fragment_payloadLength fr));
      _ ← set_entry i (rq_with_frag0 (mkIncoming b (ip_receiveTime (rq_frag0 e)) (ip_path (rq_frag0 e))) e);
      assemble n i (f + 1)
  end.

Definition tryDecode (p : IncomingPacket Path) : M (bool * IncomingPacket Path) :=
  _ ← emit (EvDecode p); nd_tryDecode N p.

(** [if (rq->frag0.tryDecode(RR,tPtr)) rq->timestamp = 0; else rq->complete = true;] *)
Definition decode_entry (i : Z) : M unit :=
  e ← entry i;
  '(ok, p) ← tryDecode (rq_frag0 e);
  _ ← update_entry i (rq_with_frag0 p);
  update_entry i (if (ok : bool) then rq_with_timestamp 0 else rq_with_complete true).

(** [rq->frags[fragmentNumber - 1] = fragment] *)
Definition set_frag (fragmentNumber : Z) (fragment : Buffer) (e : RXQueueEntry Path) : outcome (list Buffer) :=
  mem_write (rq_frags e) (fragmentNumber - 1) [fragment].

(** "Fragment looks like ours" *)
Definition onFragment (fragment : Buffer) : M unit :=
  fragmentPacketId ← lift (Fragment_packetId fragment);
  fragmentNumber ← lift (Fragment_fragmentNumber fragment);
  totalFragments ← lift (Fragment_totalFragments fragment);
  if (totalFragments <=? ZT_MAX_PACKET_FRAGMENTS) && (fragmentNumber <? ZT_MAX_PACKET_FRAGMENTS) &&
     (0 <? fragmentNumber) && (1 <? totalFragments) then
    i ← findRXQueueEntry fragmentPacketId;
    e ← entry i;
    if negb (rq_packetId e =? fragmentPacketId) then
      frags ← lift (set_frag fragmentNumber fragment e);
      set_entry i (mkRX (nd_now N) fragmentPacketId (rq_frag0 e) frags totalFragments (Z.shiftl 1 fragmentNumber) false)
    else if Z.land (rq_haveFragments e) (Z.shiftl 1 fragmentNumber) =? 0 then
      frags ← lift (set_frag fragmentNumber fragment e);
      let have := Z.lor (rq_haveFragments e) (Z.shiftl 1 fragmentNumber) in
      _ ← set_entry i (mkRX (rq_timestamp e) (rq_packetId e) (rq_frag0 e) frags totalFragments have (rq_complete e));
      if Utils_countBits32 have =? totalFragments then
        _ ← assemble (Z.to_nat (totalFragments - 1)) i 1; decode_entry i
      else mret tt
    else mret tt
  else mret tt.

(** The head of a fragmented packet. *)
Definition onHead (path : Path) (data : list Z) : M unit :=
  id ← lift (mem_read data 0 8);
  let packetId := be_val id in
  i ← findRXQueueEntry packetId;
  e ← entry i;
  if negb (rq_packetId e =? packetId) then
    let e := mkRX (nd_now N) packetId (rq_frag0 e) (rq_frags e) (rq_totalFragments e) (rq_haveFragments e) (rq_complete e) in
    _ ← set_entry i e;
    p ← lift (IncomingPacket_init (rq_frag0 e) data path);
    set_entry i (mkRX (nd_now N) packetId p (rq_frags e) 0 1 false)
  else if Z.land (rq_haveFragments e) 1 =? 0 then
    let have := Z.lor (rq_haveFragments e) 1 in
    if 1 <? rq_totalFragments e then
      _ ← set_entry i (rq_with_have have e);
      if Utils_countBits32 have =? rq_totalFragments e then
        p ← lift (IncomingPacket_init (rq_frag0 e) data path);
        _ ← set_entry i (rq_with_frag0 p (rq_with_have have e));
        _ ← assemble (Z.to_nat (rq_totalFragments e - 1)) i 1;
        decode_entry i
      else
        p ← lift (IncomingPacket_init (rq_frag0 e) data path);
        set_entry i (rq_with_frag0 p (rq_with_have have e))
    else
      p ← lift (IncomingPacket_init (rq_frag0 e) data path);
      set_entry i (rq_with_frag0 p e)
  else mret tt.

(** A packet in one piece. *)
Definition onWhole (path : Path) (data : list Z) : M unit :=
  p ← lift (IncomingPacket_init (mkIncoming (mkBuffer (nd_stack N) 0) 0 None) data path);
  '(ok, p) ← tryDecode p;
  if (ok : bool) then mret tt else
  i ← nextRXQueueEntry;
  pid ← lift (Packet_packetId (ip_packet p));
  e ← entry i;
  set_entry i (mkRX (nd_now N) pid p (rq_frags e) 1 1 true).

Definition shouldUnite (now source destination : Z) : M bool :=
  s ← get_state;
  let k := LastUniteKey source destination in
  let ts := default 0 (sw_lastUniteAttempt s !! k) in
  if ZT_MIN_UNITE_INTERVAL <=? u64 (now - ts)
  then _ ← modify (with_unite <[k := u64 now]>); mret true
  else _ ← modify (with_unite <[k := ts]>); mret false.

(** [relayTo->introduce(tPtr,now,sourcePeer)] where the source is known. *)
Definition introduce_source (relayTo : Peer) (source : Z) : M unit :=
  match nd_getPeer N source with Some sp => emit (EvIntroduce relayTo sp) | None => mret tt end.

(** A fragment for another node. *)
Definition relayFragment (path : Path) (fragment : Buffer) (destination : Z) : M unit :=
  if negb (nd_amUpstream N) && negb (pa_trustEstablished N path) then mret tt else
  hops ← lift (Fragment_hops fragment);
  if hops <? ZT_RELAY_MAX_HOPS then
    fragment ← lift (Fragment_incrementHops fragment);
    sent ← (match nd_getPeer N destination with Some p => sendDirect p (buf_data fragment) false | None => mret false end);
    if (sent : bool) then mret tt else
    match nd_getUpstreamPeer N with
    | Some p => _ ← sendDirect p (buf_data fragment) true; mret tt
    | None => mret tt
    end
  else mret tt.

(** A packet for another node. *)
Definition relayPacket (path : Path) (data : list Z) (source destination : Z) : M unit :=
  if negb (nd_amUpstream N) && negb (pa_trustEstablished N path) && negb (source =? nd_address N) then mret tt else
  packet ← lift (Buffer_copyFrom PC (mkBuffer (nd_stack N) 0) data (zlen data));
  hops ← lift (Packet_hops packet);
  if hops <? ZT_RELAY_MAX_HOPS then
    packet ← lift (Packet_incrementHops packet);
    let relayTo := nd_getPeer N destination in
    sent ← (match relayTo with Some p => sendDirect p (buf_data packet) false | None => mret false end);
    match relayTo, (sent : bool) with
    | Some p, true =>
        if negb (source =? nd_address N) then
          unite ← shouldUnite (nd_now N) source destination;
          if (unite : bool) then introduce_source p source else mret tt
        else mret tt
    | _, _ =>
        match nd_getUpstreamPeer N with
        | Some p =>
            if negb (pr_address N p =? source) then
              sent ← sendDirect p (buf_data packet) true;
              if (sent : bool) then introduce_source p source else mret tt
            else mret tt
        | None => mret tt
        end
    end
  else mret tt.

(** A beacon on the local network. *)
Definition onBeacon (path : Path) (data : list Z) : M unit :=
  d ← lift (mem_read data 8 5);
  beaconAddr ← lift (Address_setTo d 5);
  if beaconAddr =? nd_address N then mret tt else
  if negb (nd_shouldUsePath N beaconAddr) then mret tt else
  match nd_getPeer N beaconAddr with
  | None => mret tt
  | Some peer =>
      s ← get_state;
      if 2500 <=? nd_now N - sw_lastBeaconResponse s then
        _ ← modify (with_beacon (nd_now N));
        iv ← random_iv;
        outp ← lift (Packet_reset (mkBuffer (nd_stack N) 0) iv (pr_address N peer) (nd_address N) VERB_NOP);
        outp ← lift (Packet_armor (nd_tmp N) (pr_key N peer) true outp);
        _ ← path_send path (buf_data outp);
        mret tt
      else mret tt
  end.

Definition onRemotePacket_body (path : Path) (data : list Z) : M unit :=
  let len := zlen data in
  _ ← emit (EvReceived path);
  if len =? 13 then onBeacon path data else
  if ZT_PROTO_MIN_FRAGMENT_LENGTH <? len then
    indicator ← lift (load data ZT_PACKET_FRAGMENT_IDX_FRAGMENT_INDICATOR);
    if indicator =? ZT_PACKET_FRAGMENT_INDICATOR then
      fragment ← lift (Buffer_copyFrom PC (mkBuffer (nd_stack N) 0) data len);
      destination ← lift (Fragment_destination fragment);
      if negb (destination =? nd_address N) then relayFragment path fragment destination
      else onFragment fragment
    else if ZT_PROTO_MIN_PACKET_LENGTH <=? len then
      d ← lift (mem_read data 8 5);
      destination ← lift (Address_setTo d 5);
      d ← lift (mem_read data 13 5);
      source ← lift (Address_setTo d 5);
      if source =? nd_address N then mret tt else
      if negb (destination =? nd_address N) then relayPacket path data source destination else
      flags ← lift (load data ZT_PACKET_IDX_FLAGS);
      if negb (Z.land flags ZT_PROTO_FLAG_FRAGMENTED =? 0) then onHead path data
      else onWhole path data
    else mret tt
  else mret tt.

Definition onRemotePacket (path : Path) (data : list Z) : M unit := catch_all (onRemotePacket_body path data).

(** ** What waits *)

Definition erase_tx (i : nat) : M unit := modify (with_tx (delete i)).

(** The loop of doAnythingWaitingForPeer over _txQueue; [i] is where the iterator is. *)
Fixpoint retry_tx (n : nat) (i : nat) (peer : Z) : M unit :=
  match n with
  | O => mret tt
  | S n =>
      s ← get_state;
      match sw_txQueue s !! i with
      | None => mret tt
      | Some t =>
          if tx_dest t =? peer then
            '(sent, _) ← trySend (tx_packet t) (tx_encrypt t);
            if (sent : bool) then _ ← erase_tx i; retry_tx n i peer else retry_tx n (S i) peer
          else retry_tx n (S i) peer
      end
  end.

(** [(rq->timestamp)&&(rq->complete)], then tryDecode, or the timeout. *)
Definition retry_rx (now i : Z) : M bool :=
  e ← entry i;
  if negb (rq_timestamp e =? 0) && rq_complete e then
    '(ok, p) ← tryDecode (rq_frag0 e);
    _ ← update_entry i (rq_with_frag0 p);
    e ← entry i;
    if (ok : bool) || (ZT_RECEIVE_QUEUE_TIMEOUT <? now - rq_timestamp e)
    then _ ← update_entry i (rq_with_timestamp 0); mret false
    else mret true
  else mret false.

Fixpoint retry_rx_all (n : nat) (now i : Z) : M unit :=
  match n with
  | O => mret tt
  | S n => _ ← retry_rx now i; retry_rx_all n now (i + 1)
  end.

Definition doAnythingWaitingForPeer (peer : Z) : M unit :=
  _ ← modify (with_whois (delete peer));
  _ ← retry_rx_all (Z.to_nat ZT_RX_QUEUE_SIZE) (nd_now N) 0;
  s ← get_state;
  retry_tx (length (sw_txQueue s)) 0 peer.

(** The loop of doTimerTasks over _txQueue; the result is [needWhois]. *)
Fixpoint timer_tx (n : nat) (i : nat) (now : Z) : M (list Z) :=
  match n with
  | O => mret []
  | S n =>
      s ← get_state;
      match sw_txQueue s !! i with
      | None => mret []
      | Some t =>
          '(sent, _) ← trySend (tx_packet t) (tx_encrypt t);
          if (sent : bool) || (ZT_TRANSMIT_QUEUE_TIMEOUT <? u64 (now - tx_creationTime t))
          then _ ← erase_tx i; timer_tx n i now
          else need ← timer_tx n (S i) now; mret (if nd_getPeer N (tx_dest t) then need else tx_dest t :: need)
      end
  end.

Fixpoint whois_all (now : Z) (l : list Z) : M unit :=
  match l with [] => mret tt | a :: l => _ ← requestWhois now a; whois_all now l end.

Fixpoint timer_rx (n : nat) (now i : Z) : M unit :=
  match n with
  | O => mret tt
  | S n =>
      waits ← retry_rx now i;
      _ ← (if (waits : bool) then
             e ← entry i;
             src ← lift (Packet_source (ip_packet (rq_frag0 e)));
             if nd_getPeer N src then mret tt else requestWhois now src
           else mret tt);
      timer_rx n now (i + 1)
  end.

Definition doTimerTasks (now : Z) : M Z :=
  s ← get_state;
  let timeSinceLastCheck := u64 (now - sw_lastCheckedQueues s) in
  if timeSinceLastCheck <? ZT_WHOIS_RETRY_DELAY then mret (ZT_WHOIS_RETRY_DELAY - timeSinceLastCheck) else
  _ ← modify (with_checked now);
  s ← get_state;
  needWhois ← timer_tx (length (sw_txQueue s)) 0 now;
  _ ← whois_all now needWhois;
  _ ← timer_rx (Z.to_nat ZT_RX_QUEUE_SIZE) now 0;
  _ ← modify (with_unite (filter (fun kv => u64 (now - kv.2) < ZT_MIN_UNITE_INTERVAL * 8)));
  _ ← modify (with_whois (filter (fun kv => now - kv.2 <= ZT_WHOIS_RETRY_DELAY * 2)));
  mret ZT_WHOIS_RETRY_DELAY.
End Operations.
