(* ===== verification/Fragmentation.v ===== *)
(** Fragmentation and reassembly, on the switch of Switch.v: the datagrams _trySend makes of
    a packet, and what onRemotePacket makes of datagrams in whatever order they arrive. *)
From stdpp Require Import gmap.
From S2P Require Import Prelude.
From S2P Require Import Utils.
From S2P Require Import Buffer.
From S2P Require Import Addressing.
From S2P Require Import Wire.
From S2P Require Import Packet.
From S2P Require Import Switch.

(** ** The datagrams of a packet *)

Definition frag_no_byte (total no : Z) : Z := Z.lor (Z.shiftl (Z.land total 0xf) 4) (Z.land no 0xf).

Definition fragment_bytes (D : list Z) (start len no total : Z) : list Z :=
  slice 0 13 D ++ [0xff; frag_no_byte total no; 0] ++ slice start len D.

(** How many datagrams [n] bytes take: a head of [mtu] bytes, then pieces of [mtu - 16]. *)
Definition total_fragments (n mtu : Z) : Z := 1 + (n - mtu + (mtu - 16) - 1) / (mtu - 16).

Definition piece_start (mtu k : Z) : Z := mtu + (k - 1) * (mtu - 16).
Definition piece_len (n mtu k : Z) : Z := Z.min (n - piece_start mtu k) (mtu - 16).

Definition datagram (D : list Z) (mtu k : Z) : list Z :=
  if k =? 0 then ztake mtu D
  else fragment_bytes D (piece_start mtu k) (piece_len (zlen D) mtu k) k (total_fragments (zlen D) mtu).

Lemma frag_no_byte_ok total no :
  0 <= total < 16 -> 0 <= no < 16 ->
  is_byte (frag_no_byte total no) /\ Z.land (frag_no_byte total no) 0xf = no /\ Z.land (Z.shiftr (frag_no_byte total no) 4) 0xf = total.
Proof.
  intros Ht Hn. assert (H : forallb (fun t => forallb (fun n => (0 <=? frag_no_byte t n) && (frag_no_byte t n <? 256) &&
    (Z.land (frag_no_byte t n) 0xf =? n) && (Z.land (Z.shiftr (frag_no_byte t n) 4) 0xf =? t)) (seqZ 0 16)) (seqZ 0 16) = true)
    by (vm_compute; reflexivity).
  rewrite forallb_forall in H. specialize (H total). rewrite forallb_forall in H.
  assert (Hin : forall x, 0 <= x < 16 -> In x (seqZ 0 16)) by (intros; apply list_elem_of_In, elem_of_seqZ; lia).
  specialize (H (Hin _ Ht) no (Hin _ Hn)). rewrite !andb_true_iff, !Z.eqb_eq, Z.leb_le, Z.ltb_lt in H.
  destruct_and!. unfold in_range. split_and!; done || lia.
Qed.

Lemma set_size_Ok b n : buf_wf PC b -> 0 <= n <= PC -> exists b', Buffer_setSize PC b n = Ok b' /\ buf_wf PC b' /\ b_len b' = n.
Proof.
  intros Hb Hn. unfold Buffer_setSize, bounds_check. rewrite (proj2 (Z.ltb_ge _ _)) by lia.
  eexists. split; [done|]. split; [by apply setlen_wf|done].
Qed.

Lemma read_field_Ok b i l :
  buf_wf PC b -> 0 <= i -> 0 <= l -> i + l <= b_len b -> Buffer_read_field b i l = Ok (slice i l (buf_data b)).
Proof.
  intros Hb Hi Hl Hle. unfold Buffer_read_field. rewrite (field_Ok PC) by (done || lia). cbn [mbind outcome_bind].
  pose proof Hb as []. rewrite mem_read_Ok by lia. by rewrite (slice_buf_data PC) by (done || lia).
Qed.

(** Stores, byte by byte. *)
Lemma store_get b i d :
  buf_wf PC b -> 0 <= i -> Forall is_byte d -> i + zlen d <= b_len b ->
  exists m, mem_write (b_mem b) i d = Ok m /\ buf_wf PC (mkBuffer m (b_len b)) /\
    forall j, zget (buf_data (mkBuffer m (b_len b))) j = if (i <=? j) && (j <? i + zlen d) then zget d (j - i) else zget (buf_data b) j.
Proof.
  intros Hb Hi Hd Hl. destruct (store_refines PC b Hb i d) as (m & E & Hwf & Hdata); [done..|].
  exists m. split; [done|]. split; [done|]. intros j. rewrite Hdata.
  assert (Hz : zlen (buf_data b) = b_len b) by (by apply (zlen_buf_data PC)).
  rewrite <- (zget_mem_write (buf_data b) i d _ j (mem_write_Ok (buf_data b) i d ltac:(lia) ltac:(lia))). done.
Qed.

Lemma write_field_get b i d :
  buf_wf PC b -> 0 <= i -> Forall is_byte d -> i + zlen d <= b_len b ->
  exists b', Buffer_write_field b i d = Ok b' /\ buf_wf PC b' /\ b_len b' = b_len b /\
    forall j, zget (buf_data b') j = if (i <=? j) && (j <? i + zlen d) then zget d (j - i) else zget (buf_data b) j.
Proof.
  intros Hb Hi Hd Hl. pose proof (zlen_nonneg d). unfold Buffer_write_field. rewrite (field_Ok PC) by (done || lia). cbn [mbind outcome_bind].
  destruct (store_get b i d Hb Hi Hd Hl) as (m & -> & Hwf & Hg). cbn [mbind outcome_bind]. eauto.
Qed.

Lemma set_index_get b i v :
  buf_wf PC b -> 0 <= i < b_len b -> is_byte v ->
  exists b', Buffer_set_index b i v = Ok b' /\ buf_wf PC b' /\ b_len b' = b_len b /\
    forall j, zget (buf_data b') j = if j =? i then Some v else zget (buf_data b) j.
Proof.
  intros Hb Hi Hv. destruct (store_get b i [v]) as (m & Hm & Hwf & Hg); [done|lia|by apply Forall_singleton|change (zlen [v]) with 1; lia|].
  unfold Buffer_set_index, bounds_check. rewrite (proj2 (Z.leb_gt _ _)), Hm by lia. eexists. split; [done|]. split; [done|]. split; [done|].
  intros j. rewrite Hg. change (zlen [v]) with 1. destruct (Z.eqb_spec j i) as [->|Hne].
  - by rewrite Z.leb_refl, (proj2 (Z.ltb_lt _ _)), Z.sub_diag by lia.
  - destruct (Z.leb_spec i j), (Z.ltb_spec j (i + 1)); done || lia.
Qed.

Lemma Fragment_init_Ok stk b start len no total :
  buf_wf PC b -> 13 <= b_len b -> zlen stk = PC -> Forall is_byte stk -> 0 <= start -> 0 <= len -> start + len <= b_len b ->
  len + 16 <= PC -> 0 <= total < 16 -> 0 <= no < 16 ->
  exists f, Fragment_init (mkBuffer stk 0) b start len no total = Ok f /\ buf_wf PC f /\
    buf_data f = fragment_bytes (buf_data b) start len no total.
Proof.
  intros Hb H13 Hstk Hsb Hs Hl Hsl H16 Ht Hn. pose proof Hb as [_ _ HbC _]. unfold Fragment_init.
  assert (Hpc : PC = 10108) by done. assert (Hbb := buf_data_bytes PC b Hb). assert (Hzb := zlen_buf_data PC b Hb).
  unfold ZT_PACKET_FRAGMENT_IDX_PACKET_ID, ZT_PACKET_FRAGMENT_IDX_FRAGMENT_INDICATOR, ZT_PACKET_FRAGMENT_IDX_FRAGMENT_NO, ZT_PACKET_FRAGMENT_IDX_HOPS,
    ZT_PACKET_FRAGMENT_IDX_PAYLOAD, ZT_PACKET_IDX_IV, ZT_PACKET_FRAGMENT_INDICATOR, ZT_PROTO_MIN_FRAGMENT_LENGTH.
  assert (Hu1 : u32 (start + len) = start + len) by (apply wrap_id; unfold in_range; lia).
  assert (Hu2 : u32 (len + 16) = len + 16) by (apply wrap_id; unfold in_range; lia).
  rewrite Hu1, Hu2, (proj2 (Z.ltb_ge _ _)) by lia.
  assert (Hwf0 : buf_wf PC (mkBuffer stk 0)) by (split; cbn; done || lia).
  destruct (set_size_Ok (mkBuffer stk 0) (len + 16) Hwf0) as (f1 & -> & Hf1 & Hl1); [lia|]. cbn [mbind outcome_bind].
  rewrite (read_field_Ok b 0 13) by (done || lia). cbn [mbind outcome_bind].
  assert (Hz13 : zlen (slice 0 13 (buf_data b)) = 13) by (apply zlen_slice; lia).
  destruct (write_field_get f1 0 (slice 0 13 (buf_data b))) as (f2 & -> & Hf2 & Hl2 & Hg2); [done|done|by apply Forall_take, Forall_drop|lia|].
  cbn [mbind outcome_bind]. destruct (set_index_get f2 13 255) as (f3 & -> & Hf3 & Hl3 & Hg3); [done|lia|done|]. cbn [mbind outcome_bind].
  destruct (frag_no_byte_ok total no Ht Hn) as (Hfb & _ & _).
  destruct (set_index_get f3 14 (frag_no_byte total no)) as (f4 & E4 & Hf4 & Hl4 & Hg4); [done|lia|done|].
  unfold frag_no_byte in E4. rewrite E4. cbn [mbind outcome_bind].
  destruct (set_index_get f4 15 0) as (f5 & -> & Hf5 & Hl5 & Hg5); [done|lia|done|]. cbn [mbind outcome_bind].
  rewrite (read_field_Ok b start len) by done. cbn [mbind outcome_bind].
  assert (Hzl : zlen (slice start len (buf_data b)) = len) by (apply zlen_slice; lia).
  destruct (write_field_get f5 16 (slice start len (buf_data b))) as (f6 & -> & Hf6 & Hl6 & Hg6); [done|done|by apply Forall_take, Forall_drop|lia|].
  exists f6. split; [done|]. split; [done|]. assert (HL := zlen_buf_data PC f6 Hf6). unfold fragment_bytes.
  apply zget_ext; [rewrite !zlen_app, Hz13, Hzl; change (zlen [_; _; _]) with 3; lia|].
  intros i Hi. rewrite Hg6, Hg5, Hg4, Hg3, Hg2, Hzl, Hz13, !zget_app, Hz13. change (zlen [_; _; _]) with 3.
  destruct (Z.ltb_spec i 13), (Z.leb_spec 16 i); try lia.
  - rewrite !(proj2 (Z.eqb_neq i _)), (proj2 (Z.leb_le 0 i)), (proj2 (Z.ltb_lt i (0 + 13))) by lia. cbn [andb]. f_equal. lia.
  - rewrite (proj2 (Z.ltb_lt i _)), (proj2 (Z.ltb_ge (i - 13) 3)) by lia. cbn [andb]. f_equal. lia.
  - assert (i = 13 \/ i = 14 \/ i = 15) as [->|[->| ->]] by lia; reflexivity.
Qed.

(** ** Sending *)

Section Arithmetic.
Context (n mtu : Z) (Hmtu : 17 <= mtu < n).
Abbreviation T := (total_fragments n mtu).

Lemma total_at_least : 2 <= T.
Proof. unfold total_fragments. pose proof (Z.div_le_lower_bound (n - mtu + (mtu - 16) - 1) (mtu - 16) 1). lia. Qed.

(** The pieces cover what is left after the head, and none is empty. *)
Lemma pieces k : 1 <= k < T -> 1 <= n - piece_start mtu k <= (T - k) * (mtu - 16).
Proof.
  unfold piece_start, total_fragments. set (per := mtu - 16). intros Hk.
  pose proof (Z.div_mod (n - mtu + per - 1) per ltac:(unfold per; lia)) as Hd.
  pose proof (Z.mod_pos_bound (n - mtu + per - 1) per ltac:(unfold per; lia)) as Hm.
  set (q := (n - mtu + per - 1) / per) in *. assert (0 < per) by (unfold per; lia). nia.
Qed.

(** The count as _trySend computes it. *)
Lemma frags_remaining :
  n < 2 ^ 32 ->
  (if u32 ((n - mtu) / (mtu - 16) * (mtu - 16)) <? n - mtu then (n - mtu) / (mtu - 16) + 1 else (n - mtu) / (mtu - 16)) = T - 1.
Proof.
  intros Hn. unfold total_fragments. set (per := mtu - 16). set (r := n - mtu). assert (0 < per) by (unfold per; lia).
  pose proof (Z.div_mod r per ltac:(lia)) as Hd. pose proof (Z.mod_pos_bound r per ltac:(lia)) as Hm.
  set (q := r / per) in *. assert (Hq : 0 <= q) by (apply Z.div_pos; unfold r; lia).
  assert (Hu : u32 (q * per) = q * per) by (apply wrap_id; unfold in_range, r in *; nia). rewrite Hu.
  destruct (Z.ltb_spec (q * per) r).
  - replace (r + per - 1) with (q * per + (r mod per - 1 + per)) by lia.
    rewrite Z.div_add_l by lia. replace ((r mod per - 1 + per) / per) with 1; [lia|].
    apply (Z.div_unique _ _ _ (r mod per - 1)); lia.
  - replace (r + per - 1) with (q * per + (per - 1)) by lia. rewrite Z.div_add_l, (Z.div_small (per - 1)) by lia. lia.
Qed.
End Arithmetic.

Section Sending.
Context {Path Peer : Type} (N : Node Path Peer).
Hypothesis (Hstk : zlen (nd_stack N) = PC) (Hstkb : Forall is_byte (nd_stack N)).

Lemma with_log_twice f g (s : Switch Path Peer) : with_log f (with_log g s) = with_log (fun l => f (g l)) s.
Proof. done. Qed.

Lemma with_log_app s : with_log (fun l : list (event Path Peer) => l ++ []) s = s.
Proof. destruct s. unfold with_log. cbn. by rewrite app_nil_r. Qed.

Lemma send_fragments_log cnt path b mtu k fs rem s :
  let D := buf_data b in
  let n := zlen D in
  buf_wf PC b -> 17 <= mtu < n -> total_fragments n mtu < 16 -> 1 <= k -> k + Z.of_nat cnt = total_fragments n mtu ->
  ((0 < cnt)%nat -> fs = piece_start mtu k /\ rem = n - piece_start mtu k) ->
  send_fragments N cnt path b mtu fs rem k (total_fragments n mtu) s =
    (with_log (fun l => l ++ ((fun k => EvPathSend path (datagram D mtu k)) <$> seqZ k (Z.of_nat cnt))) s, Ok tt).
Proof.
  intros D n Hb Hmtu HT Hk Hcnt Hfs. assert (Hn : n = b_len b) by (by apply (zlen_buf_data PC)). pose proof Hb as [_ _ HbC _].
  assert (Hpc : PC = 10108) by done. revert k fs rem s Hk Hcnt Hfs.
  induction cnt as [|cnt IH]; intros k fs rem s Hk Hcnt Hfs.
  { cbn [send_fragments]. change (seqZ k (Z.of_nat 0)) with (@nil Z). cbn. by rewrite with_log_app. }
  cbn [send_fragments]. destruct Hfs as [-> ->]; [lia|].
  pose proof (pieces n mtu ltac:(lia) k ltac:(lia)) as Hp.
  assert (Hper : u32 (mtu - ZT_PROTO_MIN_FRAGMENT_LENGTH) = mtu - 16) by (apply wrap_id; unfold in_range, ZT_PROTO_MIN_FRAGMENT_LENGTH; lia).
  rewrite Hper. fold (piece_len n mtu k). set (c := piece_len n mtu k).
  assert (Hps : 0 <= piece_start mtu k) by (unfold piece_start; nia).
  assert (Hc : 0 <= c <= mtu - 16 /\ c <= n - piece_start mtu k) by (unfold c, piece_len; lia).
  destruct (Fragment_init_Ok (nd_stack N) b (piece_start mtu k) c k (total_fragments n mtu)) as (f & E & Hf & Hd); [done|lia|done|done|lia..|].
  erewrite sm_bind_Ok by (unfold lift; by rewrite E).
  erewrite sm_bind_Ok by (unfold path_send, emit, modify; reflexivity).
  assert (Hdg : buf_data f = datagram D mtu k) by (unfold datagram; rewrite (proj2 (Z.eqb_neq _ _)) by lia; done).
  rewrite Hdg. rewrite IH; [|lia|lia|].
  - rewrite with_log_twice. f_equal. replace (Z.of_nat (S cnt)) with (Z.succ (Z.of_nat cnt)) by lia.
    rewrite (seqZ_cons k (Z.succ _)) by lia. rewrite Z.pred_succ, fmap_cons. unfold with_log. f_equal. rewrite <- app_assoc. cbn. by rewrite Z.add_1_r.
  - intros Hcnt0. pose proof (pieces n mtu ltac:(lia) (k + 1) ltac:(lia)) as Hp1.
    assert (Hs1 : piece_start mtu (k + 1) = piece_start mtu k + (mtu - 16)) by (unfold piece_start; lia).
    assert (Hcp : c = mtu - 16) by (unfold c, piece_len; lia).
    rewrite Hcp, Hs1. unfold u32. rewrite !wrap_id by (unfold in_range; lia). lia.
Qed.

(** The datagrams of a packet that does not fit in one: as many as [total_fragments]
    says, the head first. *)
Lemma send_chunks_log path b mtu s :
  let D := buf_data b in
  let n := zlen D in
  buf_wf PC b -> 17 <= mtu < n -> total_fragments n mtu < 16 -> pa_send N path (datagram D mtu 0) = true ->
  send_chunks N path b mtu s =
    (with_log (fun l => l ++ ((fun k => EvPathSend path (datagram D mtu k)) <$> seqZ 0 (total_fragments n mtu))) s, Ok tt).
Proof.
  intros D n Hb Hmtu HT Hsend. assert (Hn : n = b_len b) by (by apply (zlen_buf_data PC)). pose proof Hb as [_ _ HbC _].
  assert (Hpc : PC = 10108) by done. unfold send_chunks. rewrite <- Hn, Z.min_r by lia.
  assert (Hh : ztake mtu (buf_data b) = datagram D mtu 0) by done. rewrite Hh.
  erewrite sm_bind_Ok by (unfold path_send, emit, modify; reflexivity). rewrite Hsend.
  rewrite (proj2 (Z.ltb_lt _ _)) by lia. cbn [andb].
  assert (Hper : u32 (mtu - ZT_PROTO_MIN_FRAGMENT_LENGTH) = mtu - 16) by (apply wrap_id; unfold in_range, ZT_PROTO_MIN_FRAGMENT_LENGTH; lia).
  rewrite Hper, (proj2 (Z.eqb_neq _ _)) by lia. cbv zeta. rewrite frags_remaining by lia.
  pose proof (total_at_least n mtu Hmtu) as H2. replace (total_fragments n mtu - 1 + 1) with (total_fragments n mtu) by lia.
  rewrite send_fragments_log; [|done..|lia| |].
  - rewrite with_log_twice. f_equal. rewrite (seqZ_cons 0) by lia. rewrite fmap_cons, Z2Nat.id by lia.
    unfold with_log. f_equal. rewrite <- app_assoc. cbn. by rewrite <- Z.sub_1_r.
  - fold D. fold n. rewrite Z2Nat.id by lia. lia.
  - intros _. unfold piece_start. fold D. fold n. lia.
Qed.
End Sending.

(** ** Reading datagrams *)

Lemma copyFrom_Ok b data :
  buf_wf PC b -> Forall is_byte data -> zlen data <= PC ->
  exists b', Buffer_copyFrom PC b data (zlen data) = Ok b' /\ buf_wf PC b' /\ buf_data b' = data.
Proof.
  intros Hb Hd Hl. pose proof (zlen_nonneg data). unfold Buffer_copyFrom, bounds_check. rewrite (proj2 (Z.ltb_ge _ _)) by lia.
  cbn [mbind outcome_bind]. rewrite mem_read_Ok by lia. cbn [mbind outcome_bind].
  assert (E : slice 0 (zlen data) data = data) by (rewrite slice_0; unfold ztake, zlen; rewrite Nat2Z.id; by apply firstn_all).
  rewrite E. pose proof Hb as [_ _ HbC _]. destruct (splice_refines PC b Hb 0 data) as (m & -> & Hwf & Hdata); [lia|done|lia|].
  rewrite Z.add_0_l in Hwf, Hdata. eexists. split; [done|]. split; [done|]. rewrite Hdata. done.
Qed.

Lemma read_address_Ok b i :
  buf_wf PC b -> 0 <= i -> i + 5 <= b_len b -> Buffer_read_address b i = Ok (be_val (slice i 5 (buf_data b))).
Proof.
  intros Hb Hi Hl. unfold Buffer_read_address. rewrite read_field_Ok by (done || lia). cbn [mbind outcome_bind].
  apply address_of_five; [apply zlen_slice; rewrite ?(zlen_buf_data PC) by done; lia|].
  apply Forall_take, Forall_drop. by apply (buf_data_bytes PC).
Qed.

Section FragmentFields.
Context (D : list Z) (start len no total : Z) (f : Buffer).
Hypothesis (HDb : Forall is_byte D) (HD : 13 <= zlen D) (Hs : 0 <= start) (Hlen : 0 <= len) (Hsl : start + len <= zlen D).
Hypothesis (Ht : 0 <= total < 16) (Hn : 0 <= no < 16).
Hypothesis (Hf : buf_wf PC f) (Hdata : buf_data f = fragment_bytes D start len no total).

Lemma zlen_fragment_bytes : zlen (fragment_bytes D start len no total) = 16 + len.
Proof. unfold fragment_bytes. rewrite !zlen_app, !zlen_slice by lia. change (zlen [_; _; _]) with 3. lia. Qed.

Lemma fragment_len : b_len f = 16 + len.
Proof. rewrite <- (zlen_buf_data PC f Hf), Hdata. apply zlen_fragment_bytes. Qed.

Lemma fragment_prefix i l : 0 <= i -> 0 <= l -> i + l <= 13 -> slice i l (fragment_bytes D start len no total) = slice i l D.
Proof.
  intros Hi Hl Hil. apply zget_ext; [rewrite !zlen_slice; rewrite ?zlen_fragment_bytes; lia|]. intros j Hj.
  rewrite zlen_slice in Hj by (rewrite ?zlen_fragment_bytes; lia). rewrite !zget_slice by lia.
  unfold fragment_bytes. rewrite zget_app, zlen_slice, (proj2 (Z.ltb_lt _ _)), zget_slice by lia. done.
Qed.

Lemma fragment_byte_at i v : 13 <= i < 16 -> zget [0xff; frag_no_byte total no; 0] (i - 13) = Some v ->
  zget (fragment_bytes D start len no total) i = Some v.
Proof.
  intros Hi Hv. unfold fragment_bytes. rewrite zget_app, zlen_slice, (proj2 (Z.ltb_ge _ _)) by lia.
  rewrite zget_app. change (zlen [_; _; _]) with 3. by rewrite (proj2 (Z.ltb_lt _ _)) by lia.
Qed.

Lemma fragment_index i v : 13 <= i < 16 -> zget [0xff; frag_no_byte total no; 0] (i - 13) = Some v -> Buffer_index f i = Ok v.
Proof.
  intros Hi Hv. destruct (index_Ok PC f i Hf) as (w & E & Hw); [rewrite fragment_len; lia|].
  rewrite Hdata, (fragment_byte_at i v Hi Hv) in Hw. congruence.
Qed.

Lemma fragment_fields :
  Fragment_packetId f = Ok (be_val (slice 0 8 D)) /\ Fragment_destination f = Ok (be_val (slice 8 5 D)) /\
  Fragment_fragmentNumber f = Ok no /\ Fragment_totalFragments f = Ok total /\
  Fragment_payload f = Ok 16 /\ slice 16 len (b_mem f) = slice start len D /\ (0 < len -> Fragment_payloadLength f = len).
Proof.
  destruct (frag_no_byte_ok total no Ht Hn) as (_ & Hno & Hto).
  unfold Fragment_packetId, Fragment_destination, Fragment_fragmentNumber, Fragment_totalFragments, Fragment_payload, Fragment_payloadLength,
    ZT_PACKET_FRAGMENT_IDX_PACKET_ID, ZT_PACKET_FRAGMENT_IDX_DEST, ZT_PACKET_FRAGMENT_IDX_FRAGMENT_NO, ZT_PACKET_FRAGMENT_IDX_PAYLOAD.
  pose proof Hf as [_ _ HfC _]. assert (Hpc : PC = 10108) by done. rewrite fragment_len in *.
  split_and!.
  - rewrite (at_Ok PC) by (done || rewrite ?fragment_len; lia). rewrite Hdata, fragment_prefix by lia. done.
  - rewrite read_address_Ok by (done || rewrite ?fragment_len; lia). rewrite Hdata, fragment_prefix by lia. done.
  - rewrite (fragment_index 14 (frag_no_byte total no)) by (done || lia). cbn [mbind outcome_bind]. by rewrite Hno.
  - rewrite (fragment_index 14 (frag_no_byte total no)) by (done || lia). cbn [mbind outcome_bind]. by rewrite Hto.
  - replace (u32 (16 + len - 16)) with len by (symmetry; rewrite (wrap_id 32); [lia|unfold in_range; lia]).
    apply (field_Ok PC); done || rewrite ?fragment_len; lia.
  - rewrite (slice_buf_data PC) by (done || rewrite ?fragment_len; lia). rewrite Hdata.
    apply zget_ext; [rewrite !zlen_slice; rewrite ?zlen_fragment_bytes; lia|]. intros j Hj.
    rewrite zlen_slice in Hj by (rewrite ?zlen_fragment_bytes; lia). rewrite !zget_slice by lia. unfold fragment_bytes.
    rewrite !zget_app, !zlen_slice by lia. change (zlen [_; _; _]) with 3.
    rewrite (proj2 (Z.ltb_ge (16 + j) 13)), (proj2 (Z.ltb_ge (16 + j - 13) 3)), zget_slice by lia. f_equal. lia.
  - intros Hl0. rewrite (proj2 (Z.ltb_lt _ _)) by lia. lia.
Qed.
End FragmentFields.

(** ** The receive queue *)

Section Slots.
Context {Path Peer : Type}.
Implicit Types q : list (RXQueueEntry Path).

(** A slot that would be taken for the packet. *)
Definition live_for (id : Z) (e : RXQueueEntry Path) : bool := (rq_packetId e =? id) && negb (rq_timestamp e =? 0).

Lemma slot_index current k : 0 <= u32 (current - k) mod ZT_RX_QUEUE_SIZE < 64.
Proof. apply Z.mod_pos_bound. done. Qed.

Lemma find_slot_miss q current id ks :
  zlen q = 64 -> (forall i e, zget q i = Some e -> live_for id e = false) -> find_slot q current id ks = Ok None.
Proof.
  intros Hq Hno. induction ks as [|k ks IH]; [done|]. cbn [find_slot].
  destruct (proj2 (zget_range q (u32 (current - k) mod ZT_RX_QUEUE_SIZE))) as [e He]; [rewrite Hq; apply slot_index|].
  unfold load. rewrite He. cbn [mbind outcome_bind]. pose proof (Hno _ _ He) as Hl. unfold live_for in Hl. by rewrite Hl.
Qed.

Lemma find_slot_hit q current id i e ks :
  zlen q = 64 -> zget q i = Some e -> live_for id e = true ->
  (forall j e, zget q j = Some e -> j <> i -> live_for id e = false) ->
  (exists k, In k ks /\ u32 (current - k) mod ZT_RX_QUEUE_SIZE = i) -> find_slot q current id ks = Ok (Some i).
Proof.
  intros Hq Hi Hlive Hno. induction ks as [|k ks IH]; intros (k0 & Hk0 & E0); [done|]. cbn [find_slot].
  destruct (proj2 (zget_range q (u32 (current - k) mod ZT_RX_QUEUE_SIZE))) as [e' He']; [rewrite Hq; apply slot_index|].
  unfold load. rewrite He'. cbn [mbind outcome_bind]. destruct (Z.eqb_spec (u32 (current - k) mod ZT_RX_QUEUE_SIZE) i) as [Ei|Ei].
  - rewrite Ei in *. assert (e' = e) as -> by congruence. unfold live_for in Hlive. by rewrite Hlive.
  - pose proof (Hno _ _ He' Ei) as Hl. unfold live_for in Hl. rewrite Hl. apply IH.
    destruct Hk0 as [->|Hk0]; [done|]. by exists k0.
Qed.

(** The scan visits every slot. *)
Lemma scan_covers current i : 0 <= i < 64 -> exists k, In k (seqZ 1 ZT_RX_QUEUE_SIZE) /\ u32 (current - k) mod ZT_RX_QUEUE_SIZE = i.
Proof.
  intros Hi. exists ((current - i - 1) mod 64 + 1). pose proof (Z.mod_pos_bound (current - i - 1) 64 ltac:(lia)).
  split; [apply list_elem_of_In, elem_of_seqZ; unfold ZT_RX_QUEUE_SIZE; lia|].
  unfold u32, wrap, ZT_RX_QUEUE_SIZE. set (x := current - _).
  assert (E : (x mod 2 ^ 32) mod 64 = x mod 64) by (change (2 ^ 32) with (64 * 2 ^ 26); rewrite Z.rem_mul_r, Z.mul_comm, Z.mod_add, Z.mod_mod by lia; done).
  rewrite E. unfold x. symmetry. apply (Z.mod_unique _ _ ((current - i - 1) / 64)); [lia|].
  pose proof (Z.div_mod (current - i - 1) 64 ltac:(lia)). lia.
Qed.

Lemma zget_insert q i e j : 0 <= i < zlen q -> zget (<[Z.to_nat i := e]> q) j = if j =? i then Some e else zget q j.
Proof.
  intros Hi. unfold zget. destruct (Z.leb_spec 0 j); [|by rewrite (proj2 (Z.eqb_neq j i)) by lia].
  destruct (Z.eqb_spec j i) as [->|Hne].
  - apply list_lookup_insert_eq. unfold zlen in Hi. lia.
  - apply list_lookup_insert_ne. lia.
Qed.

Lemma zlen_insert q i e : zlen (<[i := e]> q) = zlen q.
Proof. unfold zlen. by rewrite length_insert. Qed.
End Slots.

(** ** Reassembly *)

(** Bits of the mask of fragments received. *)
Lemma mask_full T h : 2 <= T <= 7 -> 0 <= h < 2 ^ T -> (Utils_countBits32 h =? T) = (h =? 2 ^ T - 1).
Proof.
  intros HT Hh. assert (H : forallb (fun T => forallb (fun h => eqb (Utils_countBits32 h =? T) (h =? 2 ^ T - 1)) (seqZ 0 (2 ^ T))) (seqZ 2 6) = true)
    by (vm_compute; reflexivity).
  rewrite forallb_forall in H. specialize (H T). rewrite forallb_forall in H.
  apply eqb_prop, H; apply list_elem_of_In, elem_of_seqZ; lia.
Qed.

Lemma mask_bit h k : 0 <= h -> 0 <= k -> (Z.land h (Z.shiftl 1 k) =? 0) = negb (Z.testbit h k).
Proof.
  intros Hh Hk. rewrite Z.shiftl_1_l. pose proof (land_pow2_testbit h k Hk) as H. rewrite <- H. by rewrite negb_involutive.
Qed.

Lemma mask_add T h k :
  0 <= h < 2 ^ T -> 0 <= k < T -> let h' := Z.lor h (Z.shiftl 1 k) in
  0 < h' < 2 ^ T /\ (forall j, 0 <= j -> Z.testbit h' j = Z.testbit h j || (j =? k)).
Proof.
  intros Hh Hk h'.
  assert (Hb : forall j, 0 <= j -> Z.testbit h' j = Z.testbit h j || (j =? k)).
  { intros j Hj. unfold h'. rewrite Z.lor_spec, Z.shiftl_1_l, Z.pow2_bits_eqb by lia. by rewrite Z.eqb_sym. }
  split; [|done]. assert (Hr : in_range T h').
  { apply in_range_lor; [lia|done|]. rewrite Z.shiftl_1_l. unfold in_range. split; [apply Z.pow_nonneg; lia|apply Z.pow_lt_mono_r; lia]. }
  destruct Hr as [Hr1 Hr2]. split; [|done]. destruct (Z.eqb_spec h' 0) as [E|]; [|lia].
  specialize (Hb k ltac:(lia)). by rewrite E, Z.testbit_0_l, Z.eqb_refl, orb_true_r in Hb.
Qed.

Section Reassembly.
Context {Path Peer : Type} (D : list Z) (mtu me : Z).
Implicit Types (s : Switch Path Peer) (N : Node Path Peer) (e : RXQueueEntry Path).
Hypothesis (HDb : Forall is_byte D) (HDl : zlen D <= PC) (Hmtu : 28 <= mtu < zlen D).
Abbreviation T := (total_fragments (zlen D) mtu).
Hypothesis HT : T <= ZT_MAX_PACKET_FRAGMENTS.
Hypothesis (Hdest : be_val (slice 8 5 D) = me) (Hsrc : be_val (slice 13 5 D) <> me).
Hypothesis (Hind : zget D 13 <> Some ZT_PACKET_FRAGMENT_INDICATOR).
Hypothesis (Hfrag : exists fl, zget D 18 = Some fl /\ Z.land fl ZT_PROTO_FLAG_FRAGMENTED <> 0).
Abbreviation id := (be_val (slice 0 8 D)).

(** The node a datagram arrives at. *)
Definition receives (N : Node Path Peer) : Prop :=
  nd_address N = me /\ nd_now N <> 0 /\ zlen (nd_stack N) = PC /\ Forall is_byte (nd_stack N).

Lemma T_range : 2 <= T <= 7.
Proof. pose proof (total_at_least (zlen D) mtu). unfold ZT_MAX_PACKET_FRAGMENTS in HT. lia. Qed.

(** The entry has the fragments of the mask [have], and no more. *)
Record holds (e : RXQueueEntry Path) (have : Z) : Prop := {
  h_id : rq_packetId e = id;
  h_time : rq_timestamp e <> 0;
  h_have : rq_haveFragments e = have;
  h_complete : rq_complete e = false;
  h_mask : 0 < have < 2 ^ T;
  h_total : rq_totalFragments e = if have =? 1 then 0 else T;
  h_frags : zlen (rq_frags e) = 6;
  h_frag0 : buf_wf PC (ip_packet (rq_frag0 e));
  h_head : Z.testbit have 0 = true -> buf_data (ip_packet (rq_frag0 e)) = datagram D mtu 0;
  h_piece : forall k, 1 <= k < T -> Z.testbit have k = true ->
    exists f, zget (rq_frags e) (k - 1) = Some f /\ buf_wf PC f /\ buf_data f = datagram D mtu k
}.

(** Slot [i] of the queue is that of the packet, and no other. *)
Definition tracks (s : Switch Path Peer) (i have : Z) : Prop :=
  zlen (sw_rxQueue s) = 64 /\ 0 <= i < 64 /\
  (exists e, zget (sw_rxQueue s) i = Some e /\ holds e have) /\
  (forall j e, zget (sw_rxQueue s) j = Some e -> j <> i -> rq_packetId e <> id).

Lemma piece_facts k : 1 <= k < T ->
  let st := piece_start mtu k in let ln := piece_len (zlen D) mtu k in
  datagram D mtu k = fragment_bytes D st ln k T /\ 0 <= st /\ 1 <= ln /\ st + ln <= zlen D /\ ln + 16 <= mtu /\
  zlen (datagram D mtu k) = 16 + ln /\ Forall is_byte (datagram D mtu k).
Proof.
  intros Hk st ln. pose proof T_range. pose proof (pieces (zlen D) mtu ltac:(lia) k Hk) as Hp.
  assert (Hd : datagram D mtu k = fragment_bytes D st ln k T) by (unfold datagram; by rewrite (proj2 (Z.eqb_neq _ _)) by lia).
  assert (Hst : 0 <= st) by (unfold st, piece_start; nia).
  assert (Hln : 1 <= ln /\ st + ln <= zlen D /\ ln + 16 <= mtu) by (unfold ln, piece_len; fold st in Hp |- *; lia).
  split_and!; try done; try lia.
  - rewrite Hd. apply zlen_fragment_bytes; lia.
  - rewrite Hd. unfold fragment_bytes. destruct (frag_no_byte_ok T k) as (Hb & _); [lia..|].
    rewrite !Forall_app, !Forall_cons. split_and!; try done; by apply Forall_take, Forall_drop.
Qed.

Lemma head_facts : zlen (datagram D mtu 0) = mtu /\ Forall is_byte (datagram D mtu 0) /\
  (forall i l, 0 <= i -> 0 <= l -> i + l <= 28 -> slice i l (datagram D mtu 0) = slice i l D) /\
  (forall i, i < 28 -> zget (datagram D mtu 0) i = zget D i).
Proof.
  change (datagram D mtu 0) with (ztake mtu D). split; [apply zlen_ztake; lia|]. split; [by apply Forall_take|]. split.
  - intros i l Hi Hl Hil. apply zget_ext; [rewrite !zlen_slice; rewrite ?zlen_ztake; lia|]. intros j Hj.
    rewrite zlen_slice in Hj by (rewrite ?zlen_ztake; lia). by rewrite !zget_slice, zget_ztake by lia.
  - intros i Hi. destruct (Z.ltb_spec i 0); [by rewrite !(proj2 (zget_None _ _)) by lia|]. by rewrite zget_ztake by lia.
Qed.

(** The buffer a piece is copied to. *)
Lemma piece_fields f k :
  1 <= k < T -> buf_wf PC f -> buf_data f = datagram D mtu k ->
  Fragment_packetId f = Ok id /\ Fragment_destination f = Ok me /\ Fragment_fragmentNumber f = Ok k /\ Fragment_totalFragments f = Ok T /\
  Fragment_payload f = Ok 16 /\ slice 16 (piece_len (zlen D) mtu k) (b_mem f) = slice (piece_start mtu k) (piece_len (zlen D) mtu k) D /\
  Fragment_payloadLength f = piece_len (zlen D) mtu k.
Proof.
  intros Hk Hf Hd. destruct (piece_facts k Hk) as (E & H1 & H2 & H3 & H4 & _). rewrite E in Hd. pose proof T_range.
  destruct (fragment_fields D (piece_start mtu k) (piece_len (zlen D) mtu k) k T f) as (F1 & F2 & F3 & F4 & F5 & F6 & F7); try done; try lia.
  rewrite Hdest in F2. split_and!; try done. apply F7. lia.
Qed.

Lemma find_tracked i have s : tracks s i have -> findRXQueueEntry id s = (s, Ok i).
Proof.
  intros (Hq & Hi & (e & He & Hh) & Hno). unfold findRXQueueEntry. erewrite sm_bind_Ok by reflexivity.
  erewrite sm_bind_Ok; [|unfold lift; erewrite find_slot_hit; [reflexivity|done|exact He| | |by apply scan_covers]]; [done|..].
  - destruct Hh as [Hid Htime _ _ _ _ _ _ _ _]. unfold live_for. rewrite Hid, Z.eqb_refl. by rewrite (proj2 (Z.eqb_neq _ _)).
  - intros j e' He' Hj. unfold live_for. by rewrite (proj2 (Z.eqb_neq _ _)) by (by eapply Hno).
Qed.

Lemma find_fresh s :
  zlen (sw_rxQueue s) = 64 -> (forall i e, zget (sw_rxQueue s) i = Some e -> rq_packetId e <> id) ->
  findRXQueueEntry id s = (with_rxPtr (u32 (sw_rxQueuePtr s + 1)) s, Ok (sw_rxQueuePtr s mod 64)).
Proof.
  intros Hq Hno. unfold findRXQueueEntry. erewrite sm_bind_Ok by reflexivity.
  erewrite sm_bind_Ok; [|unfold lift; rewrite find_slot_miss; [reflexivity|done|]]; [done|].
  intros j e' He'. unfold live_for. by rewrite (proj2 (Z.eqb_neq _ _)) by (by eapply Hno).
Qed.

Definition put_entry (i : Z) (e : RXQueueEntry Path) (s : Switch Path Peer) : Switch Path Peer :=
  with_rx (fun q => <[Z.to_nat i := e]> q) s.

Lemma entry_Ok i e s : zget (sw_rxQueue s) i = Some e -> entry i s = (s, Ok e).
Proof. intros He. unfold entry. erewrite sm_bind_Ok by reflexivity. unfold lift, load. by rewrite He. Qed.

Lemma put_entry_get i e s j :
  0 <= i < zlen (sw_rxQueue s) -> zget (sw_rxQueue (put_entry i e s)) j = if j =? i then Some e else zget (sw_rxQueue s) j.
Proof. intros Hi. cbn. by apply zget_insert. Qed.

Lemma put_entry_twice i e e' s : put_entry i e (put_entry i e' s) = put_entry i e s.
Proof. destruct s. unfold put_entry, with_rx. cbn. by rewrite list_insert_insert_eq. Qed.

Lemma put_entry_same i e s : zget (sw_rxQueue s) i = Some e -> put_entry i e s = s.
Proof.
  intros He. destruct s as [a b c q p t u l]. unfold put_entry, with_rx. cbn in *. f_equal. apply list_insert_id.
  unfold zget in He. by destruct (_ <=? _).
Qed.

Lemma tracks_put s i have e' have' : tracks s i have -> holds e' have' -> tracks (put_entry i e' s) i have'.
Proof.
  intros (Hq & Hi & _ & Hno) Hh. split; [by cbn; rewrite zlen_insert|]. split; [done|]. split.
  - exists e'. split; [|done]. by rewrite put_entry_get, Z.eqb_refl by lia.
  - intros j e He Hj. rewrite put_entry_get, (proj2 (Z.eqb_neq _ _)) in He by lia. by eapply Hno.
Qed.

(** How much of the packet the head and the pieces before [f] make. *)
Definition upto (f : Z) : Z := Z.min (zlen D) (piece_start mtu f).

Lemma upto_step f : 1 <= f < T ->
  ztake (upto f) D ++ slice (piece_start mtu f) (piece_len (zlen D) mtu f) D = ztake (upto (f + 1)) D /\
  upto (f + 1) = upto f + piece_len (zlen D) mtu f.
Proof.
  intros Hf. destruct (piece_facts f Hf) as (_ & H1 & H2 & H3 & H4 & _).
  assert (Hs : piece_start mtu (f + 1) = piece_start mtu f + (mtu - 16)) by (unfold piece_start; lia).
  assert (Hu : upto f = piece_start mtu f) by (unfold upto; lia).
  assert (Hu1 : upto (f + 1) = upto f + piece_len (zlen D) mtu f) by (unfold upto, piece_len in *; lia).
  split; [|done]. rewrite Hu1, Hu. apply zget_ext; [rewrite zlen_app, zlen_slice, !zlen_ztake by lia; lia|].
  intros i Hi. rewrite zlen_app, zlen_slice, zlen_ztake in Hi by lia. rewrite zget_app, zlen_ztake by lia.
  destruct (Z.ltb_spec i (piece_start mtu f)); [by rewrite !zget_ztake by lia|].
  rewrite zget_slice, zget_ztake by lia. f_equal. lia.
Qed.

Lemma upto_T : upto T = zlen D.
Proof.
  pose proof T_range. pose proof (pieces (zlen D) mtu ltac:(lia) (T - 1) ltac:(lia)) as Hp. unfold upto, piece_start in *. lia.
Qed.

Lemma assemble_Ok cnt f i e s :
  0 <= i < 64 -> zlen (sw_rxQueue s) = 64 -> zget (sw_rxQueue s) i = Some e -> 1 <= f -> f + Z.of_nat cnt = T ->
  (forall k, f <= k < T -> exists fr, zget (rq_frags e) (k - 1) = Some fr /\ buf_wf PC fr /\ buf_data fr = datagram D mtu k) ->
  buf_wf PC (ip_packet (rq_frag0 e)) -> buf_data (ip_packet (rq_frag0 e)) = ztake (upto f) D ->
  exists p, assemble cnt i f s = (put_entry i (rq_with_frag0 p e) s, Ok tt) /\ buf_wf PC (ip_packet p) /\ buf_data (ip_packet p) = D.
Proof.
  revert f e s. induction cnt as [|cnt IH]; intros f e s Hi Hq He Hf Hcnt Hfr Hwf Hd.
  - exists (rq_frag0 e). assert (rq_with_frag0 (rq_frag0 e) e = e) as -> by (by destruct e). rewrite put_entry_same by done.
    split; [done|]. split; [done|]. rewrite Hd. replace f with T by lia. rewrite upto_T. unfold ztake, zlen. rewrite Nat2Z.id. apply firstn_all.
  - cbn [assemble]. destruct (Hfr f) as (fr & Hfr1 & Hfr2 & Hfr3); [lia|].
    erewrite sm_bind_Ok by (by apply entry_Ok). erewrite sm_bind_Ok by (unfold lift, load; by rewrite Hfr1).
    destruct (piece_fields fr f) as (_ & _ & _ & _ & E1 & Es & E2); [lia|done|done|]. destruct (piece_facts f) as (_ & H1 & H2 & H3 & H4 & _); [lia|].
    erewrite sm_bind_Ok by (unfold lift; by rewrite E1). rewrite E2. destruct (upto_step f ltac:(lia)) as (Hup & Hup2).
    set (d := slice (piece_start mtu f) (piece_len (zlen D) mtu f) D) in *. assert (Hzd : zlen d = piece_len (zlen D) mtu f) by (apply zlen_slice; lia).
    assert (Hlen : b_len (ip_packet (rq_frag0 e)) = upto f).
    { rewrite <- (zlen_buf_data PC _ Hwf), Hd. apply zlen_ztake. unfold upto. lia. }
    pose proof Hfr2 as [Hfm Hfmb Hfl _]. assert (Hfl2 : b_len fr = 16 + piece_len (zlen D) mtu f).
    { rewrite <- (zlen_buf_data PC fr Hfr2), Hfr3. apply piece_facts. lia. }
    destruct (append_Ok PC (ip_packet (rq_frag0 e)) (zdrop 16 (b_mem fr)) (piece_len (zlen D) mtu f)) as (b & Eb & Hb & Hbd);
      [done|by apply Forall_drop|rewrite zlen_zdrop by lia; lia|unfold upto in *; lia|].
    change (ztake _ (zdrop 16 (b_mem fr))) with (slice 16 (piece_len (zlen D) mtu f) (b_mem fr)) in Hbd. rewrite Es in Hbd. fold d in Hbd.
    erewrite sm_bind_Ok by (unfold lift; by rewrite Eb). erewrite sm_bind_Ok by reflexivity.
    set (e1 := rq_with_frag0 _ e). change (with_rx _ s) with (put_entry i e1 s).
    destruct (IH (f + 1) e1 (put_entry i e1 s)) as (p & -> & Hp1 & Hp2); try done; try lia.
    + cbn. by rewrite zlen_insert.
    + by rewrite put_entry_get, Z.eqb_refl by lia.
    + intros k Hk. apply Hfr. lia.
    + cbn. by rewrite Hbd, Hd, <- Hup.
    + exists p. rewrite put_entry_twice. done.
Qed.

(** What a decoder may do to the switch: anything, but the log only grows.  [trace] is what it
    adds to the log in some call. *)
Definition log_grows (N : Node Path Peer) : Prop := forall p s, exists evs, sw_log (fst (nd_tryDecode N p s)) = sw_log s ++ evs.
Definition trace (N : Node Path Peer) (evs : list (event Path Peer)) : Prop := exists p s, sw_log (fst (nd_tryDecode N p s)) = sw_log s ++ evs.

Lemma bind_log {A B} (m : sm (Switch Path Peer) A) (k : A -> sm (Switch Path Peer) B) s :
  (forall a s', sw_log (fst (k a s')) = sw_log s') -> sw_log (fst ((m ≫= k) s)) = sw_log (fst (m s)).
Proof. intros Hk. unfold mbind, sm_bind. destruct (m s) as [s' [a| |]]; [apply Hk|done..]. Qed.

Lemma update_entry_log i f s : sw_log (fst (update_entry (Path := Path) (Peer := Peer) i f s)) = sw_log s.
Proof. unfold update_entry. rewrite bind_log by done. unfold entry. by rewrite bind_log. Qed.

(** Decoding leaves what it decoded in the log, before what the decoder does. *)
Lemma decode_entry_log N i e s :
  zget (sw_rxQueue s) i = Some e -> log_grows N ->
  exists rest, sw_log (fst (decode_entry N i s)) = sw_log s ++ EvDecode (rq_frag0 e) :: rest /\ trace N rest.
Proof.
  intros He Hdec. unfold decode_entry. erewrite sm_bind_Ok by (by apply entry_Ok).
  set (s1 := with_log (fun l => l ++ [EvDecode (rq_frag0 e)]) s). destruct (Hdec (rq_frag0 e) s1) as (evs & Ed).
  exists evs. split; [|by exists (rq_frag0 e), s1]. rewrite bind_log.
  - unfold tryDecode. erewrite sm_bind_Ok by reflexivity. fold s1. rewrite Ed. unfold s1. cbn. by rewrite <- app_assoc.
  - intros [ok p] s2. rewrite bind_log; [apply update_entry_log|]. intros [] s3. apply update_entry_log.
Qed.

Lemma set_frag_Ok k f e :
  zlen (rq_frags e) = 6 -> 1 <= k <= 6 ->
  exists frags, set_frag k f e = Ok frags /\ zlen frags = 6 /\ (forall j, zget frags j = if j =? k - 1 then Some f else zget (rq_frags e) j).
Proof.
  intros Hl Hk. unfold set_frag.
  destruct (mem_write (rq_frags e) (k - 1) [f]) as [fr| |] eqn:E; [|rewrite mem_write_Ok in E by (try (change (zlen [f]) with 1); lia); done..].
  exists fr. split; [done|]. split; [rewrite <- Hl; by eapply zlen_mem_write|]. intros j. rewrite (zget_mem_write _ _ _ _ j E).
  change (zlen [f]) with 1. destruct (Z.eqb_spec j (k - 1)) as [->|].
  - rewrite Z.leb_refl, (proj2 (Z.ltb_lt _ _)), Z.sub_diag by lia. done.
  - destruct (Z.leb_spec (k - 1) j), (Z.ltb_spec j (k - 1 + 1)); done || lia.
Qed.

(** A piece put into its entry. *)
Lemma holds_add_piece e have k f frags t :
  holds e have -> 1 <= k < T -> buf_wf PC f -> buf_data f = datagram D mtu k -> zlen frags = 6 ->
  (forall j, zget frags j = if j =? k - 1 then Some f else zget (rq_frags e) j) -> t <> 0 ->
  holds (mkRX t id (rq_frag0 e) frags T (Z.lor have (Z.shiftl 1 k)) false) (Z.lor have (Z.shiftl 1 k)).
Proof.
  intros [? ? ? ? Hmask ? ? ? Hhead Hpiece] Hk Hf Hd Hl Hg Ht. pose proof T_range.
  destruct (mask_add T have k) as [Hm Hb]; [lia..|]. split; cbn [rq_packetId rq_timestamp rq_haveFragments rq_totalFragments rq_frags rq_frag0 rq_complete]; try done.
  - destruct (Z.eqb_spec (Z.lor have (Z.shiftl 1 k)) 1) as [E1|]; [|done]. exfalso. specialize (Hb k ltac:(lia)). rewrite E1, Z.eqb_refl, orb_true_r in Hb.
    change 1 with (2 ^ 0) in Hb. rewrite Z.pow2_bits_eqb in Hb by lia. apply Z.eqb_eq in Hb. lia.
  - intros Hb0. rewrite Hb, (proj2 (Z.eqb_neq 0 k)), orb_false_r in Hb0 by lia. by apply Hhead.
  - intros j Hj Hbj. rewrite Hb in Hbj by lia. rewrite Hg. destruct (Z.eqb_spec (j - 1) (k - 1)) as [E|E].
    + replace j with k by lia. by exists f.
    + rewrite (proj2 (Z.eqb_neq j k)), orb_false_r in Hbj by lia. by apply Hpiece.
Qed.

(** Everything is there: what is decoded is the packet. *)
Lemma full_decodes N i e s :
  0 <= i < 64 -> zlen (sw_rxQueue s) = 64 -> zget (sw_rxQueue s) i = Some e -> holds e (2 ^ T - 1) ->
  log_grows N ->
  exists p rest, sw_log (fst ((_ ← assemble (Z.to_nat (T - 1)) i 1; decode_entry N i) s)) = sw_log s ++ EvDecode p :: rest /\ trace N rest /\
    buf_wf PC (ip_packet p) /\ buf_data (ip_packet p) = D.
Proof.
  intros Hi Hq He Hh Hdec. pose proof T_range.
  assert (Hall : forall k, 0 <= k < T -> Z.testbit (2 ^ T - 1) k = true).
  { intros k Hk. replace (2 ^ T - 1) with (Z.ones T) by (rewrite Z.ones_equiv; lia). rewrite Z.testbit_ones_nonneg by lia. apply Z.ltb_lt. lia. }
  destruct (assemble_Ok (Z.to_nat (T - 1)) 1 i e s) as (p & Ea & Hp1 & Hp2); try done; try lia.
  - intros k Hk. apply (h_piece _ _ Hh); [lia|]. apply Hall. lia.
  - apply Hh.
  - rewrite (h_head _ _ Hh) by (apply Hall; lia). unfold upto, piece_start. change (datagram D mtu 0) with (ztake mtu D). f_equal. lia.
  - erewrite sm_bind_Ok by exact Ea.
    destruct (decode_entry_log N i (rq_with_frag0 p e) (put_entry i (rq_with_frag0 p e) s)) as (rest & Hlog & Htr); [|done|].
    { by rewrite put_entry_get, Z.eqb_refl by lia. }
    exists p, rest. split_and!; done.
Qed.

(** ** One datagram *)

(** What may happen when datagram [k] arrives at an entry with mask [have]. *)
Definition arrives (N : Node Path Peer) (h : sm (Switch Path Peer) unit) (k i have : Z) (s : Switch Path Peer) : Prop :=
  let have' := Z.lor have (Z.shiftl 1 k) in
  (Z.testbit have k = true -> h s = (s, Ok tt)) /\
  (Z.testbit have k = false -> have' <> 2 ^ T - 1 -> exists e, h s = (put_entry i e s, Ok tt) /\ holds e have') /\
  (Z.testbit have k = false -> have' = 2 ^ T - 1 -> log_grows N ->
   exists p rest, sw_log (fst (h s)) = sw_log s ++ EvDecode p :: rest /\ trace N rest /\ buf_wf PC (ip_packet p) /\ buf_data (ip_packet p) = D).

Lemma fragment_guard k : 1 <= k < T ->
  (T <=? ZT_MAX_PACKET_FRAGMENTS) && (k <? ZT_MAX_PACKET_FRAGMENTS) && (0 <? k) && (1 <? T) = true.
Proof.
  intros Hk. pose proof T_range. unfold ZT_MAX_PACKET_FRAGMENTS.
  by rewrite (proj2 (Z.leb_le _ _)), !(proj2 (Z.ltb_lt _ _)) by lia.
Qed.

Lemma onFragment_arrives N f k i have s :
  receives N -> 1 <= k < T -> buf_wf PC f -> buf_data f = datagram D mtu k -> tracks s i have -> arrives N (onFragment N f) k i have s.
Proof.
  intros (_ & Hnow & _) Hk Hf Hd Htr. pose proof T_range. destruct (piece_fields f k Hk Hf Hd) as (E1 & _ & E3 & E4 & _).
  pose proof Htr as (Hq & Hi & (e & He & Hh) & _). pose proof (h_mask _ _ Hh) as Hmask.
  destruct (set_frag_Ok k f e) as (frags & Ef & Hfl & Hfg); [apply Hh|lia|].
  pose proof (holds_add_piece e have k f frags (rq_timestamp e) Hh Hk Hf Hd Hfl Hfg (h_time _ _ Hh)) as Hadd.
  destruct (mask_add T have k) as [Hm _]; [lia..|].
  assert (Hcommon : onFragment N f s = (if Z.land (rq_haveFragments e) (Z.shiftl 1 k) =? 0 then
      frags ← lift (set_frag k f e);
      let have := Z.lor (rq_haveFragments e) (Z.shiftl 1 k) in
      _ ← set_entry i (mkRX (rq_timestamp e) (rq_packetId e) (rq_frag0 e) frags T have (rq_complete e));
      if Utils_countBits32 have =? T then _ ← assemble (Z.to_nat (T - 1)) i 1; decode_entry N i else mret tt
    else mret tt) s).
  { unfold onFragment. erewrite sm_bind_Ok by (unfold lift; by rewrite E1). erewrite sm_bind_Ok by (unfold lift; by rewrite E3).
    erewrite sm_bind_Ok by (unfold lift; by rewrite E4). rewrite fragment_guard by done.
    erewrite sm_bind_Ok by (by eapply find_tracked). erewrite sm_bind_Ok by (by apply entry_Ok).
    by rewrite (h_id _ _ Hh), Z.eqb_refl. }
  rewrite (h_have _ _ Hh), mask_bit in Hcommon by lia. unfold arrives. rewrite Hcommon. split_and!.
  - intros ->. done.
  - intros -> Hne. cbn [negb]. erewrite sm_bind_Ok by (unfold lift; by rewrite Ef). erewrite sm_bind_Ok by reflexivity.
    cbv zeta. rewrite mask_full, (proj2 (Z.eqb_neq _ _)) by (done || lia). rewrite (h_id _ _ Hh), (h_complete _ _ Hh). by eexists.
  - intros -> Heq Hdec. cbn [negb]. erewrite sm_bind_Ok by (unfold lift; by rewrite Ef). erewrite sm_bind_Ok by reflexivity.
    cbv zeta. rewrite mask_full, (proj2 (Z.eqb_eq _ _)) by (done || lia). rewrite (h_id _ _ Hh), (h_complete _ _ Hh), Heq in *.
    set (e1 := mkRX _ _ _ _ _ _ _) in *. change (with_rx _ s) with (put_entry i e1 s).
    destruct (full_decodes N i e1 (put_entry i e1 s)) as (p & rest & Hl & Hp); try done.
    { cbn. by rewrite zlen_insert. }
    { by rewrite put_entry_get, Z.eqb_refl by lia. }
    exists p, rest. done.
Qed.

(** The head put into its entry. *)
Lemma holds_add_head e have p :
  holds e have -> Z.testbit have 0 = false -> buf_wf PC (ip_packet p) -> buf_data (ip_packet p) = datagram D mtu 0 ->
  rq_totalFragments e = T /\ holds (rq_with_frag0 p (rq_with_have (Z.lor have 1) e)) (Z.lor have 1).
Proof.
  intros [? ? ? ? Hmask Htot ? ? Hhead Hpiece] Hb0 Hp Hpd. pose proof T_range.
  destruct (mask_add T have 0) as [Hm Hb]; [lia..|]. change (Z.shiftl 1 0) with 1 in *.
  assert (H1 : have <> 1) by (intros ->; done). rewrite (proj2 (Z.eqb_neq _ _)) in Htot by done. split; [done|].
  split; cbn [rq_with_frag0 rq_with_have rq_packetId rq_timestamp rq_haveFragments rq_totalFragments rq_frags rq_frag0 rq_complete]; try done.
  - destruct (Z.eqb_spec (Z.lor have 1) 1) as [E1|]; [|done]. exfalso. apply H1.
    assert (Ha : Z.land have (Z.lor have 1) = have) by (bitwise j; by destruct (Z.testbit have j)).
    rewrite E1 in Ha. change 1 with (Z.ones 1) in Ha at 1. rewrite Z.land_ones in Ha by done.
    pose proof (Z.mod_pos_bound have (2 ^ 1)). lia.
  - intros k Hk Hbk. rewrite Hb, (proj2 (Z.eqb_neq k 0)), orb_false_r in Hbk by lia. by apply Hpiece.
Qed.

Lemma incoming_init N q path :
  buf_wf PC (ip_packet q) -> exists p, IncomingPacket_init N q (datagram D mtu 0) path = Ok p /\
    buf_wf PC (ip_packet p) /\ buf_data (ip_packet p) = datagram D mtu 0.
Proof.
  intros Hq. destruct head_facts as (Hl & Hb & _). destruct (copyFrom_Ok (ip_packet q) (datagram D mtu 0) Hq Hb) as (b & E & Hwf & Hd); [lia|].
  unfold IncomingPacket_init. rewrite E. by eexists.
Qed.

Lemma onHead_id : mem_read (datagram D mtu 0) 0 8 = Ok (slice 0 8 D).
Proof. destruct head_facts as (Hl & _ & Hs & _). rewrite mem_read_Ok by lia. by rewrite Hs by lia. Qed.

Lemma onHead_arrives N path i have s :
  receives N -> tracks s i have -> arrives N (onHead N path (datagram D mtu 0)) 0 i have s.
Proof.
  intros (_ & Hnow & _) Htr. pose proof T_range. pose proof Htr as (Hq & Hi & (e & He & Hh) & _). pose proof (h_mask _ _ Hh) as Hmask.
  destruct (incoming_init N (rq_frag0 e) path (h_frag0 _ _ Hh)) as (p & Ep & Hp & Hpd).
  destruct (mask_add T have 0) as [Hm _]; [lia..|]. change (Z.shiftl 1 0) with 1 in *.
  assert (Hbit : (Z.land have 1 =? 0) = negb (Z.testbit have 0)) by (apply (mask_bit have 0); lia).
  assert (Hcommon : onHead N path (datagram D mtu 0) s = (if Z.land (rq_haveFragments e) 1 =? 0 then
    let have := Z.lor (rq_haveFragments e) 1 in
    if 1 <? rq_totalFragments e then
      _ ← set_entry i (rq_with_have have e);
      if Utils_countBits32 have =? rq_totalFragments e then
        p ← lift (IncomingPacket_init N (rq_frag0 e) (datagram D mtu 0) path);
        _ ← set_entry i (rq_with_frag0 p (rq_with_have have e));
        _ ← assemble (Z.to_nat (rq_totalFragments e - 1)) i 1;
        decode_entry N i
      else
        p ← lift (IncomingPacket_init N (rq_frag0 e) (datagram D mtu 0) path);
        set_entry i (rq_with_frag0 p (rq_with_have have e))
    else
      p ← lift (IncomingPacket_init N (rq_frag0 e) (datagram D mtu 0) path);
      set_entry i (rq_with_frag0 p e)
    else mret tt) s).
  { unfold onHead. erewrite sm_bind_Ok by (unfold lift; by rewrite onHead_id). cbv zeta.
    erewrite sm_bind_Ok by (by eapply find_tracked). erewrite sm_bind_Ok by (by apply entry_Ok).
    by rewrite (h_id _ _ Hh), Z.eqb_refl. }
  rewrite (h_have _ _ Hh), Hbit in Hcommon. unfold arrives. rewrite Hcommon. change (Z.shiftl 1 0) with 1. split_and!.
  - intros ->. done.
  - intros Hb0 Hne. destruct (holds_add_head e have p Hh Hb0 Hp Hpd) as [Ht Hh']. rewrite Hb0, Ht. cbn [negb]. cbv zeta.
    rewrite (proj2 (Z.ltb_lt _ _)) by lia. erewrite sm_bind_Ok by reflexivity.
    rewrite mask_full, (proj2 (Z.eqb_neq _ _)) by (done || lia). erewrite sm_bind_Ok by (unfold lift; by rewrite Ep).
    eexists. split; [|exact Hh']. unfold set_entry, modify. f_equal. apply put_entry_twice.
  - intros Hb0 Heq Hdec. destruct (holds_add_head e have p Hh Hb0 Hp Hpd) as [Ht Hh']. rewrite Hb0, Ht. cbn [negb]. cbv zeta.
    rewrite (proj2 (Z.ltb_lt _ _)) by lia. erewrite sm_bind_Ok by reflexivity.
    rewrite mask_full, (proj2 (Z.eqb_eq _ _)) by (done || lia). erewrite sm_bind_Ok by (unfold lift; by rewrite Ep).
    erewrite sm_bind_Ok by reflexivity. rewrite Heq in *. set (e1 := rq_with_frag0 p _) in *.
    change (with_rx _ (with_rx _ s)) with (put_entry i e1 (put_entry i (rq_with_have (2 ^ T - 1) e) s)). rewrite put_entry_twice.
    destruct (full_decodes N i e1 (put_entry i e1 s)) as (p' & rest & Hl & Hp'); try done.
    { cbn. by rewrite zlen_insert. }
    { by rewrite put_entry_get, Z.eqb_refl by lia. }
    exists p', rest. done.
Qed.

(** No entry of the queue has the packet's number. *)
Definition fresh (s : Switch Path Peer) : Prop :=
  zlen (sw_rxQueue s) = 64 /\
  forall i e, zget (sw_rxQueue s) i = Some e ->
    rq_packetId e <> id /\ zlen (rq_frags e) = 6 /\ buf_wf PC (ip_packet (rq_frag0 e)).

(** The first datagram makes an entry. *)
Definition starts_entry (h : sm (Switch Path Peer) unit) (k : Z) (s : Switch Path Peer) : Prop :=
  exists e, h s = (put_entry (sw_rxQueuePtr s mod 64) e (with_rxPtr (u32 (sw_rxQueuePtr s + 1)) s), Ok tt) /\ holds e (Z.shiftl 1 k).

Lemma fresh_slot s : fresh s -> exists e, zget (sw_rxQueue s) (sw_rxQueuePtr s mod 64) = Some e /\ rq_packetId e <> id /\
  zlen (rq_frags e) = 6 /\ buf_wf PC (ip_packet (rq_frag0 e)).
Proof.
  intros [Hq Hall]. pose proof (Z.mod_pos_bound (sw_rxQueuePtr s) 64 ltac:(lia)).
  destruct (proj2 (zget_range (sw_rxQueue s) (sw_rxQueuePtr s mod 64))) as [e He]; [lia|]. exists e. split; [done|]. by eapply Hall.
Qed.

Lemma one_bit k j : 0 <= k -> 0 <= j -> Z.testbit (Z.shiftl 1 k) j = (j =? k).
Proof. intros. rewrite Z.shiftl_1_l, Z.pow2_bits_eqb by lia. apply Z.eqb_sym. Qed.

Lemma one_bit_range k : 0 <= k < T -> 0 < Z.shiftl 1 k < 2 ^ T.
Proof.
  intros Hk. rewrite Z.shiftl_1_l. split; [apply Z.pow_pos_nonneg; lia|apply Z.pow_lt_mono_r; lia].
Qed.

Lemma onFragment_starts N f k s :
  receives N -> 1 <= k < T -> buf_wf PC f -> buf_data f = datagram D mtu k -> fresh s -> starts_entry (onFragment N f) k s.
Proof.
  intros (_ & Hnow & _) Hk Hf Hd Hfr. pose proof T_range. destruct (piece_fields f k Hk Hf Hd) as (E1 & _ & E3 & E4 & _).
  destruct (fresh_slot s Hfr) as (e & He & Hid & Hl6 & Hwf). destruct Hfr as [Hq Hall].
  destruct (set_frag_Ok k f e) as (frags & Ef & Hfl & Hfg); [done|lia|].
  eexists. split.
  - unfold onFragment. erewrite sm_bind_Ok by (unfold lift; by rewrite E1). erewrite sm_bind_Ok by (unfold lift; by rewrite E3).
    erewrite sm_bind_Ok by (unfold lift; by rewrite E4). rewrite fragment_guard by done.
    erewrite sm_bind_Ok by (apply find_fresh; [done|]; intros j e' He'; by eapply Hall).
    erewrite sm_bind_Ok by (by apply entry_Ok). rewrite (proj2 (Z.eqb_neq _ _)) by done. cbn [negb].
    erewrite sm_bind_Ok by (unfold lift; by rewrite Ef). reflexivity.
  - split; cbn [rq_packetId rq_timestamp rq_haveFragments rq_totalFragments rq_frags rq_frag0 rq_complete]; try done.
    + apply one_bit_range. lia.
    + destruct (Z.eqb_spec (Z.shiftl 1 k) 1) as [E|]; [|done]. exfalso. pose proof (one_bit k 0 ltac:(lia) ltac:(lia)) as Hb.
      rewrite E in Hb. symmetry in Hb. apply Z.eqb_eq in Hb. lia.
    + rewrite one_bit by lia. intros Hb%Z.eqb_eq. lia.
    + intros j Hj. rewrite one_bit by lia. intros ->%Z.eqb_eq. exists f. rewrite Hfg, Z.eqb_refl. done.
Qed.

Lemma onHead_starts N path s :
  receives N -> fresh s -> starts_entry (onHead N path (datagram D mtu 0)) 0 s.
Proof.
  intros (_ & Hnow & _) Hfr. pose proof T_range. destruct (fresh_slot s Hfr) as (e & He & Hid & Hl6 & Hwf). destruct Hfr as [Hq Hall].
  destruct (incoming_init N (rq_frag0 e) path Hwf) as (p & Ep & Hp & Hpd). eexists. split.
  - unfold onHead. erewrite sm_bind_Ok by (unfold lift; by rewrite onHead_id). cbv zeta.
    erewrite sm_bind_Ok by (apply find_fresh; [done|]; intros j e' He'; by eapply Hall).
    erewrite sm_bind_Ok by (by apply entry_Ok). rewrite (proj2 (Z.eqb_neq _ _)) by done. cbn [negb].
    erewrite sm_bind_Ok by reflexivity. cbn [rq_frag0]. erewrite sm_bind_Ok by (unfold lift; by rewrite Ep).
    unfold set_entry, modify. f_equal. apply put_entry_twice.
  - split; cbn [rq_packetId rq_timestamp rq_haveFragments rq_totalFragments rq_frags rq_frag0 rq_complete]; try done.
    + apply one_bit_range. lia.
    + intros k Hk. change 1 with (Z.shiftl 1 0). rewrite one_bit by lia. intros ->%Z.eqb_eq. lia.
Qed.

(** ** From the datagram to its handler *)

Definition received (path : Path) (s : Switch Path Peer) : Switch Path Peer := with_log (fun l => l ++ [EvReceived path]) s.

Lemma catch_Ok (h : sm (Switch Path Peer) unit) s s' : h s = (s', Ok tt) -> catch_all h s = (s', Ok tt).
Proof. intros E. unfold catch_all. by rewrite E. Qed.

Lemma catch_state (h : sm (Switch Path Peer) unit) s : fst (catch_all h s) = fst (h s).
Proof. unfold catch_all. by destruct (h s) as [s' [| |]]. Qed.

Lemma dispatch_piece N path k s :
  receives N -> 1 <= k < T ->
  exists f, buf_wf PC f /\ buf_data f = datagram D mtu k /\
    onRemotePacket N path (datagram D mtu k) s = catch_all (onFragment N f) (received path s).
Proof.
  intros (Hme & _ & Hst & Hstb) Hk. destruct (piece_facts k Hk) as (E & H1 & H2 & H3 & H4 & Hlen & Hb). pose proof T_range.
  assert (Hwf0 : buf_wf PC (mkBuffer (nd_stack N) 0)) by (split; cbn; done || lia).
  destruct (copyFrom_Ok (mkBuffer (nd_stack N) 0) (datagram D mtu k) Hwf0 Hb) as (f & Ef & Hf & Hfd); [lia|].
  exists f. split; [done|]. split; [done|]. destruct (piece_fields f k Hk Hf Hfd) as (_ & Ed & _).
  assert (Hi : zget (datagram D mtu k) 13 = Some 255) by (rewrite E; apply fragment_byte_at; done || lia).
  assert (Eb : onRemotePacket_body N path (datagram D mtu k) s = onFragment N f (received path s)).
  { unfold onRemotePacket_body. erewrite sm_bind_Ok by reflexivity. rewrite Hlen, (proj2 (Z.eqb_neq _ _)) by lia.
    unfold ZT_PROTO_MIN_FRAGMENT_LENGTH, ZT_PACKET_FRAGMENT_IDX_FRAGMENT_INDICATOR. rewrite (proj2 (Z.ltb_lt _ _)) by lia.
    erewrite sm_bind_Ok by (unfold lift, load; by rewrite Hi). cbn [Z.eqb Pos.eqb ZT_PACKET_FRAGMENT_INDICATOR].
    rewrite <- Hlen. erewrite sm_bind_Ok by (unfold lift; by rewrite Ef). erewrite sm_bind_Ok by (unfold lift; by rewrite Ed).
    by rewrite Hme, Z.eqb_refl. }
  unfold onRemotePacket, catch_all. by rewrite Eb.
Qed.

Lemma dispatch_head N path s :
  receives N -> onRemotePacket N path (datagram D mtu 0) s = catch_all (onHead N path (datagram D mtu 0)) (received path s).
Proof.
  intros (Hme & _). destruct head_facts as (Hl & Hb & Hs & Hg). destruct Hfrag as (fl & Hfl & Hflag).
  assert (Hz : forall i l, 0 <= i -> 0 <= l -> i + l <= 28 -> zlen (slice i l D) = l) by (intros; apply zlen_slice; lia).
  assert (Hby : forall i l, Forall is_byte (slice i l D)) by (intros; by apply Forall_take, Forall_drop).
  assert (Eb : onRemotePacket_body N path (datagram D mtu 0) s = onHead N path (datagram D mtu 0) (received path s)).
  { unfold onRemotePacket_body. erewrite sm_bind_Ok by reflexivity. rewrite Hl, (proj2 (Z.eqb_neq _ _)) by lia.
    unfold ZT_PROTO_MIN_FRAGMENT_LENGTH, ZT_PACKET_FRAGMENT_IDX_FRAGMENT_INDICATOR, ZT_PROTO_MIN_PACKET_LENGTH, ZT_PACKET_IDX_FLAGS.
    rewrite (proj2 (Z.ltb_lt _ _)) by lia. destruct (proj2 (zget_range D 13)) as [v Hv]; [lia|].
    erewrite sm_bind_Ok by (unfold lift, load; by rewrite Hg, Hv by lia).
    rewrite (proj2 (Z.eqb_neq v _)) by congruence. rewrite (proj2 (Z.leb_le _ _)) by lia.
    erewrite sm_bind_Ok by (unfold lift; by rewrite mem_read_Ok by lia). rewrite Hs by lia.
    erewrite sm_bind_Ok by (unfold lift; by rewrite address_of_five by (done || apply Hz; lia)).
    erewrite sm_bind_Ok by (unfold lift; by rewrite mem_read_Ok by lia). rewrite Hs by lia.
    erewrite sm_bind_Ok by (unfold lift; by rewrite address_of_five by (done || apply Hz; lia)).
    rewrite Hdest, Hme, Z.eqb_refl, (proj2 (Z.eqb_neq _ _)) by done. cbn [negb].
    erewrite sm_bind_Ok by (unfold lift, load; by rewrite Hg, Hfl by lia). by rewrite (proj2 (Z.eqb_neq _ 0)) by done. }
  unfold onRemotePacket, catch_all. by rewrite Eb.
Qed.

(** ** Datagrams in any order *)

Lemma datagram_arrives N path k i have s :
  receives N -> 0 <= k < T -> tracks s i have ->
  exists h, onRemotePacket N path (datagram D mtu k) s = catch_all h (received path s) /\ arrives N h k i have (received path s).
Proof.
  intros HN Hk Htr. assert (Htr' : tracks (received path s) i have) by exact Htr. destruct (Z.eqb_spec k 0) as [->|].
  - exists (onHead N path (datagram D mtu 0)). split; [by apply dispatch_head|by apply onHead_arrives].
  - destruct (dispatch_piece N path k s HN ltac:(lia)) as (f & Hf & Hfd & E).
    exists (onFragment N f). split; [done|]. by apply onFragment_arrives; try done; lia.
Qed.

Lemma mask_absorb have k : 0 <= k -> Z.testbit have k = true -> Z.lor have (Z.shiftl 1 k) = have.
Proof.
  intros Hk Hb. apply Z.bits_inj'. intros j Hj. rewrite Z.lor_spec, one_bit by lia.
  destruct (Z.eqb_spec j k) as [->|]; [by rewrite Hb|apply orb_false_r].
Qed.

(** A datagram that does not complete the packet. *)
Lemma datagram_more N path k i have s :
  receives N -> 0 <= k < T -> tracks s i have -> Z.lor have (Z.shiftl 1 k) <> 2 ^ T - 1 ->
  exists s', onRemotePacket N path (datagram D mtu k) s = (s', Ok tt) /\
    tracks s' i (Z.lor have (Z.shiftl 1 k)) /\ sw_log s' = sw_log s ++ [EvReceived path].
Proof.
  intros HN Hk Htr Hne. destruct (datagram_arrives N path k i have s HN Hk Htr) as (h & -> & Hdup & Hnew & _).
  destruct (Z.testbit have k) eqn:Hb.
  - exists (received path s). split; [by apply catch_Ok, Hdup|]. rewrite mask_absorb by (done || lia). done.
  - destruct (Hnew eq_refl Hne) as (e & E & Hh). eexists. split; [by apply catch_Ok|]. split; [|done].
    by eapply tracks_put; [exact Htr|].
Qed.

(** The datagram that completes it. *)
Lemma datagram_last N path k i have s :
  receives N -> 0 <= k < T -> tracks s i have -> Z.testbit have k = false -> Z.lor have (Z.shiftl 1 k) = 2 ^ T - 1 ->
  log_grows N ->
  exists p rest, sw_log (fst (onRemotePacket N path (datagram D mtu k) s)) = sw_log s ++ EvReceived path :: EvDecode p :: rest /\ trace N rest /\ buf_wf PC (ip_packet p) /\ buf_data (ip_packet p) = D.
Proof.
  intros HN Hk Htr Hb Hfull Hdec. destruct (datagram_arrives N path k i have s HN Hk Htr) as (h & -> & _ & _ & Hlast).
  destruct (Hlast Hb Hfull Hdec) as (p & rest & Hlog & Hp). exists p, rest. split; [|done].
  rewrite catch_state, Hlog. cbn. by rewrite <- app_assoc.
Qed.

(** The first. *)
Lemma datagram_first N path k s :
  receives N -> 0 <= k < T -> fresh s ->
  exists s' i, onRemotePacket N path (datagram D mtu k) s = (s', Ok tt) /\ tracks s' i (Z.shiftl 1 k) /\
    sw_log s' = sw_log s ++ [EvReceived path].
Proof.
  intros HN Hk Hfr. assert (Hfr' : fresh (received path s)) by exact Hfr.
  assert (Hst : exists h, onRemotePacket N path (datagram D mtu k) s = catch_all h (received path s) /\ starts_entry h k (received path s)).
  { destruct (Z.eqb_spec k 0) as [->|].
    - exists (onHead N path (datagram D mtu 0)). split; [by apply dispatch_head|by apply onHead_starts].
    - destruct (dispatch_piece N path k s HN ltac:(lia)) as (f & Hf & Hfd & E).
      exists (onFragment N f). split; [done|]. by apply onFragment_starts; try done; lia. }
  destruct Hst as (h & -> & e & E & Hh). eexists _, (sw_rxQueuePtr s mod 64). split; [by apply catch_Ok|]. split; [|done].
  destruct Hfr as [Hq Hall]. pose proof (Z.mod_pos_bound (sw_rxQueuePtr s) 64 ltac:(lia)). cbn [received with_log sw_rxQueuePtr].
  split; [by cbn; rewrite zlen_insert|]. split; [lia|]. split.
  - exists e. split; [|done]. by rewrite put_entry_get, Z.eqb_refl by (cbn; lia).
  - intros j e' He' Hj. rewrite put_entry_get, (proj2 (Z.eqb_neq _ _)) in He' by (done || cbn; lia). by apply (Hall j e').
Qed.

(** A datagram that arrives: where, over which path, which one. *)
Definition delivery : Type := Node Path Peer * Path * Z.

Definition deliver (s : Switch Path Peer) (d : delivery) : Switch Path Peer :=
  fst (onRemotePacket d.1.1 d.1.2 (datagram D mtu d.2) s).

Lemma deliver_Ok N path k s s' : onRemotePacket N path (datagram D mtu k) s = (s', Ok tt) -> deliver s (N, path, k) = s'.
Proof. intros E. unfold deliver. cbn [fst snd]. by rewrite E. Qed.

Definition delivery_ok (d : delivery) : Prop := receives d.1.1 /\ 0 <= d.2 < T.

(** The packets handed to tryDecode, in order. *)
Definition decodes_of (evs : list (event Path Peer)) : list (IncomingPacket Path) := omap (fun ev => match ev with EvDecode p => Some p | _ => None end) evs.
Definition decoded (s : Switch Path Peer) : list (IncomingPacket Path) := decodes_of (sw_log s).

Lemma deliver_more l i have j s :
  Forall delivery_ok l -> tracks s i have -> 0 <= j < T -> Z.testbit have j = false -> j ∉ l.*2 ->
  exists have', tracks (foldl deliver s l) i have' /\ (forall k, 0 <= k -> Z.testbit have' k = Z.testbit have k || bool_decide (k ∈ l.*2)) /\
    decoded (foldl deliver s l) = decoded s.
Proof.
  intros Hl. revert have s. induction Hl as [|[[N path] k] l [HN Hk] Hl IH]; intros have s Htr Hj Hb Hnj; cbn [foldl] in *.
  - exists have. split; [done|]. split; [|done]. intros k Hk. by rewrite orb_false_r.
  - cbn [fst snd] in *. rewrite fmap_cons, not_elem_of_cons in Hnj. destruct Hnj as [Hjk Hnj]. cbn [snd] in Hjk.
    pose proof Htr as (_ & _ & (e & _ & Hh) & _). pose proof (h_mask _ _ Hh) as Hm.
    destruct (mask_add T have k) as [_ Hbits]; [lia..|].
    assert (Hbj : Z.testbit (Z.lor have (Z.shiftl 1 k)) j = false) by (rewrite Hbits, Hb, (proj2 (Z.eqb_neq j k)) by (done || lia); done).
    destruct (datagram_more N path k i have s HN Hk Htr) as (s' & E & Htr' & Hlog).
    { intros Ef. rewrite Ef in Hbj. replace (2 ^ T - 1) with (Z.ones T) in Hbj by (rewrite Z.ones_equiv; lia).
      rewrite Z.testbit_ones_nonneg in Hbj by lia. apply Z.ltb_ge in Hbj. lia. }
    rewrite (deliver_Ok _ _ _ _ _ E).
    destruct (IH _ s' Htr' Hj Hbj Hnj) as (have' & Htr2 & Hbits2 & Hdec). exists have'. split; [done|]. split.
    + intros x Hx. rewrite Hbits2, Hbits by done. rewrite <- orb_assoc. f_equal. rewrite fmap_cons. cbn [snd].
      destruct (Z.eqb_spec x k) as [->|Hne]; cbn [orb].
      * symmetry. apply bool_decide_eq_true_2. apply elem_of_cons. by left.
      * apply bool_decide_ext. rewrite elem_of_cons. naive_solver.
    + rewrite Hdec. unfold decoded, decodes_of. rewrite Hlog, omap_app. cbn. by rewrite app_nil_r.
Qed.

(** All datagrams of the packet, in any order and with repetitions, the last one the only
    one of its number: one packet is handed to the decoder, and it is the one sent; what the
    decoder hands on itself comes after. *)
Lemma reassembles l N path j s :
  fresh s -> Forall delivery_ok l -> receives N -> 0 <= j < T -> j ∉ l.*2 -> (forall k, 0 <= k < T -> k <> j -> k ∈ l.*2) ->
  log_grows N ->
  exists p rest, decoded (foldl deliver s (l ++ [(N, path, j)])) = decoded s ++ p :: decodes_of rest /\ trace N rest /\
    buf_wf PC (ip_packet p) /\ buf_data (ip_packet p) = D.
Proof.
  intros Hfr Hl HN Hj Hnj Hall Hdec. pose proof T_range. destruct l as [|[[N0 path0] k0] l].
  { exfalso. cbn in Hall. destruct (Z.eqb_spec j 0); [apply (not_elem_of_nil 1), Hall|apply (not_elem_of_nil 0), Hall]; lia. }
  apply Forall_cons in Hl as [[HN0 Hk0] Hl]. cbn [fst snd] in *. rewrite fmap_cons, not_elem_of_cons in Hnj. destruct Hnj as [Hjk Hnj]. cbn [snd] in Hjk.
  destruct (datagram_first N0 path0 k0 s HN0 Hk0 Hfr) as (s1 & i & E1 & Htr1 & Hlog1).
  rewrite foldl_app. cbn [foldl]. rewrite (deliver_Ok _ _ _ _ _ E1).
  destruct (deliver_more l i (Z.shiftl 1 k0) j s1) as (have & Htr2 & Hbits & Hdec2); try done.
  { rewrite one_bit by lia. by apply Z.eqb_neq. }
  assert (Hbj : Z.testbit have j = false).
  { rewrite Hbits, one_bit, (proj2 (Z.eqb_neq j k0)) by (done || lia). by apply bool_decide_eq_false_2. }
  pose proof Htr2 as (_ & _ & (e & _ & Hh) & _). pose proof (h_mask _ _ Hh) as Hm. destruct (mask_add T have j) as [Hm' Hb']; [lia..|].
  assert (Hfull : Z.lor have (Z.shiftl 1 j) = 2 ^ T - 1).
  { replace (2 ^ T - 1) with (Z.ones T) by (rewrite Z.ones_equiv; lia). apply Z.bits_inj'. intros x Hx.
    rewrite Z.testbit_ones_nonneg by lia. destruct (Z.ltb_spec x T).
    - rewrite Hb', Hbits, one_bit by lia. destruct (Z.eqb_spec x j) as [->|Hxj]; [by rewrite orb_true_r|].
      specialize (Hall x ltac:(lia) Hxj). rewrite fmap_cons, elem_of_cons in Hall. cbn [snd] in Hall.
      destruct Hall as [->|Hin]; [by rewrite Z.eqb_refl|]. rewrite (bool_decide_eq_true_2 _ Hin), orb_true_r. done.
    - apply (testbit_high T); [lia|unfold in_range; lia|lia]. }
  destruct (datagram_last N path j i have (foldl deliver s1 l) HN Hj Htr2 Hbj Hfull Hdec) as (p & rest & Hlog2 & Hp).
  exists p, rest. split; [|done]. unfold deliver at 1. cbn [fst snd].
  unfold decoded, decodes_of in *. rewrite Hlog2, omap_app, Hdec2, Hlog1, omap_app. cbn. by rewrite app_nil_r.
Qed.
End Reassembly.

(** ** Properties *)

(** A packet for the node [me], from another one, with the flag of a fragmented packet. *)
Record addressed (D : list Z) (me : Z) : Prop := {
  ad_dest : be_val (slice 8 5 D) = me;
  ad_source : be_val (slice 13 5 D) <> me;
  ad_first : zget D 13 <> Some ZT_PACKET_FRAGMENT_INDICATOR;
  ad_flag : exists fl, zget D 18 = Some fl /\ Z.land fl ZT_PROTO_FLAG_FRAGMENTED <> 0
}.

(** C2: A packet that does not fit in one datagram is sent as [total_fragments] of them.
    Whatever the order they arrive in, and however often each but the last does, a switch
    that had nothing under the packet's number hands one packet to tryDecode, when the last of
    them arrives: the one sent.  What tryDecode does is arbitrary but for the log, which it can
    only extend; if it hands on no further packets itself, there is no other.  At most seven
    fragments are accepted; [Switch_eight_fragments_dropped] has the packets that need more. *)
Theorem Switch_fragments_reassemble {Path Peer : Type} (Ns N : Node Path Peer) spath path b mtu (s0 s : Switch Path Peer) (l : list (delivery (Path := Path) (Peer := Peer))) j me :
  let D := buf_data b in
  let T := total_fragments (zlen D) mtu in
  buf_wf PC b -> 28 <= mtu < zlen D -> T <= ZT_MAX_PACKET_FRAGMENTS -> addressed D me ->
  zlen (nd_stack Ns) = PC -> Forall is_byte (nd_stack Ns) -> pa_send Ns spath (ztake mtu D) = true ->
  fresh D s -> Forall (delivery_ok D mtu me) l -> receives me N -> 0 <= j < T ->
  j ∉ l.*2 -> (forall k, 0 <= k < T -> k <> j -> k ∈ l.*2) ->
  log_grows N ->
  send_chunks Ns spath b mtu s0 =
    (with_log (fun lg => lg ++ ((fun k => EvPathSend spath (datagram D mtu k)) <$> seqZ 0 T)) s0, Ok tt) /\
  exists p rest, decoded (foldl (deliver D mtu) s (l ++ [(N, path, j)])) = decoded s ++ p :: rest /\ buf_data (ip_packet p) = D /\
    ((forall q t, decoded (fst (nd_tryDecode N q t)) = decoded t) -> rest = []).
Proof.
  intros D T Hb Hmtu HT [Hd Hs Hi Hf] Hstk Hstkb Hsend Hfr Hl HN Hj Hnj Hall Hdec.
  assert (HDb : Forall is_byte D) by (by apply (buf_data_bytes PC)).
  assert (HDl : zlen D <= PC) by (unfold D; rewrite (zlen_buf_data PC) by done; apply Hb).
  unfold ZT_MAX_PACKET_FRAGMENTS in *. split.
  - apply send_chunks_log; try done; fold D T; lia.
  - destruct (reassembles (Path := Path) (Peer := Peer) D mtu me) with (l := l) (N := N) (path := path) (j := j) (s := s) as (p & rest & Hp & (q & t & Ht) & _ & Hpd); try done.
    exists p, (decodes_of rest). split; [exact Hp|]. split; [exact Hpd|]. intros Hq. specialize (Hq q t). unfold decoded, decodes_of in *. rewrite Ht, omap_app in Hq. by apply (app_inv_head _ _ []) in Hq || (rewrite <- (app_nil_r (omap _ (sw_log t))) in Hq at 2; by apply app_inv_head in Hq).
Qed.

(** The largest packets: with the default MTU a packet of more than 10012 bytes is sent
    as eight fragments, and a receiver drops every one of them after the head. *)
Theorem Switch_eight_fragments_dropped {Path Peer : Type} (N : Node Path Peer) path D k s me :
  Forall is_byte D -> 10012 < zlen D <= PC -> be_val (slice 8 5 D) = me -> receives me N -> 1 <= k < 8 ->
  total_fragments (zlen D) ZT_DEFAULT_PHYSMTU = 8 /\
  onRemotePacket N path (datagram D ZT_DEFAULT_PHYSMTU k) s = (received path s, Ok tt).
Proof.
  intros HDb HDl Hdest (Hme & _ & Hst & Hstb) Hk. unfold ZT_DEFAULT_PHYSMTU. assert (Hpc : PC = 10108) by done.
  assert (HT : total_fragments (zlen D) 1444 = 8) by (unfold total_fragments; Z.div_mod_to_equations; lia). split; [done|].
  set (st := piece_start 1444 k). set (ln := piece_len (zlen D) 1444 k).
  assert (Hst0 : 0 <= st /\ 1 <= ln /\ st + ln <= zlen D /\ ln + 16 <= 1444) by (unfold ln, piece_len; fold st; unfold st, piece_start; lia).
  assert (E : datagram D 1444 k = fragment_bytes D st ln k 8) by (unfold datagram; rewrite HT, (proj2 (Z.eqb_neq _ _)) by lia; done).
  assert (Hlen : zlen (datagram D 1444 k) = 16 + ln) by (rewrite E; apply zlen_fragment_bytes; lia).
  assert (Hb : Forall is_byte (datagram D 1444 k)).
  { rewrite E. unfold fragment_bytes. destruct (frag_no_byte_ok 8 k) as (Hfb & _); [lia..|].
    rewrite !Forall_app, !Forall_cons. split_and!; try done; by apply Forall_take, Forall_drop. }
  assert (Hwf0 : buf_wf PC (mkBuffer (nd_stack N) 0)) by (split; cbn; done || lia).
  destruct (copyFrom_Ok (mkBuffer (nd_stack N) 0) (datagram D 1444 k) Hwf0 Hb) as (f & Ef & Hf & Hfd); [lia|].
  destruct (fragment_fields D st ln k 8 f) as (F1 & F2 & F3 & F4 & _); try done; try lia; [congruence|].
  assert (Hi : zget (datagram D 1444 k) 13 = Some 255) by (rewrite E; apply fragment_byte_at; done || lia).
  unfold onRemotePacket. apply catch_Ok. unfold onRemotePacket_body. erewrite sm_bind_Ok by reflexivity.
  rewrite Hlen, (proj2 (Z.eqb_neq _ _)) by lia.
  unfold ZT_PROTO_MIN_FRAGMENT_LENGTH, ZT_PACKET_FRAGMENT_IDX_FRAGMENT_INDICATOR. rewrite (proj2 (Z.ltb_lt _ _)) by lia.
  erewrite sm_bind_Ok by (unfold lift, load; by rewrite Hi). cbn [Z.eqb Pos.eqb ZT_PACKET_FRAGMENT_INDICATOR].
  rewrite <- Hlen. erewrite sm_bind_Ok by (unfold lift; by rewrite Ef). erewrite sm_bind_Ok by (unfold lift; by rewrite F2).
  rewrite Hdest, Hme, Z.eqb_refl. cbn [negb]. unfold onFragment.
  erewrite sm_bind_Ok by (unfold lift; by rewrite F1). erewrite sm_bind_Ok by (unfold lift; by rewrite F3).
  erewrite sm_bind_Ok by (unfold lift; by rewrite F4). done.
Qed.

(** ** Instances *)

(** A node without peers that takes every packet as decoded. *)
Definition quiet_node (me : Z) : Node unit unit :=
  mkNode unit unit me 1000 false (fun _ => None) None (fun _ => true) (fun _ => 0) (fun _ => []) (fun _ _ _ => true)
    (fun _ _ => None) (fun _ => true) (fun _ _ => true) (fun _ => None) (fun _ => replicate 8 0)
    (replicate (Z.to_nat PC) 0) (replicate 64 0) (fun p s => (s, Ok (true, p))).

Definition me5 : Z := 0x0102030405.

(** A queue whose entries all have [old] as the head they last held. *)
Definition old_queue (old : Buffer) : list (RXQueueEntry unit) :=
  replicate 64 (mkRX 0 0 (mkIncoming old 0 None) (replicate 6 (mkBuffer (replicate (Z.to_nat PC) 0) 0)) 0 0 false).

Definition zero_buffer (n : Z) : Buffer := mkBuffer (replicate (Z.to_nat PC) 0) n.

(** Sixty bytes: the number, the two addresses, the flags, zeros. *)
Definition small_packet : Buffer :=
  mkBuffer ([1; 2; 3; 4; 5; 6; 7; 8] ++ [1; 2; 3; 4; 5] ++ [6; 7; 8; 9; 10] ++ [0x40] ++ replicate (Z.to_nat (PC - 19)) 0) 60.

Lemma zero_buffer_wf n : 0 <= n <= PC -> buf_wf PC (zero_buffer n).
Proof. intros. by apply replicate_wf. Qed.

Lemma small_packet_wf : buf_wf PC small_packet.
Proof.
  split; cbn [small_packet b_mem b_len]; [|rewrite !Forall_app|done..].
  - rewrite !zlen_app, zlen_replicate_Z by done. done.
  - split_and!; [repeat constructor; done..|]. by apply Forall_replicate.
Qed.

Lemma quiet_receives me : receives me (quiet_node me).
Proof. split_and!; [done..|by apply zlen_replicate_Z|by apply Forall_replicate]. Qed.

Lemma small_packet_data : buf_data small_packet = [1; 2; 3; 4; 5; 6; 7; 8] ++ [1; 2; 3; 4; 5] ++ [6; 7; 8; 9; 10] ++ [0x40] ++ replicate 41 0.
Proof. vm_compute. reflexivity. Qed.

Lemma small_fresh : fresh (Peer := unit) (buf_data small_packet) (Switch_new (old_queue (zero_buffer 0))).
Proof.
  split; [done|]. intros i e He. cbn [Switch_new sw_rxQueue] in He. unfold zget in He. destruct (_ <=? _); [|done].
  apply lookup_replicate in He as [-> _]. cbn [rq_packetId rq_frags rq_frag0 ip_packet].
  split; [rewrite small_packet_data; vm_compute; done|]. split; [done|]. by apply zero_buffer_wf.
Qed.

Lemma Switch_fragments_reassemble_witness :
  exists p, decoded (foldl (deliver (buf_data small_packet) 40) (Switch_new (old_queue (zero_buffer 0)))
      ([(quiet_node me5, tt, 1)] ++ [(quiet_node me5, tt, 0)])) = [p] /\ buf_data (ip_packet p) = buf_data small_packet.
Proof.
  destruct (Switch_fragments_reassemble (quiet_node me5) (quiet_node me5) tt tt small_packet 40
    (Switch_new (old_queue (zero_buffer 0))) (Switch_new (old_queue (zero_buffer 0))) [(quiet_node me5, tt, 1)] 0 me5) as (_ & p & rest & Hp & Hpd & Hrest).
  - apply small_packet_wf.
  - rewrite small_packet_data. done.
  - rewrite small_packet_data. done.
  - rewrite small_packet_data. split; [vm_compute; reflexivity|vm_compute; done|done|]. exists 0x40. done.
  - by apply zlen_replicate_Z.
  - by apply Forall_replicate.
  - done.
  - apply small_fresh.
  - apply Forall_singleton. split; [apply quiet_receives|]. rewrite small_packet_data. done.
  - apply quiet_receives.
  - rewrite small_packet_data. done.
  - cbn. apply not_elem_of_cons. split; [done|]. apply not_elem_of_nil.
  - rewrite small_packet_data. change (total_fragments _ _) with 2. intros k Hk Hk0. cbn. apply elem_of_cons. left. lia.
  - intros p s. exists []. by rewrite app_nil_r.
  - exists p. rewrite (Hrest (fun _ _ => eq_refl)) in Hp. split; [exact Hp|exact Hpd].
Defined.

Lemma Switch_eight_fragments_dropped_witness :
  let D := replicate (Z.to_nat 10100) 0 in let s := Switch_new (old_queue (zero_buffer 0)) in
  total_fragments (zlen D) ZT_DEFAULT_PHYSMTU = 8 /\
  onRemotePacket (quiet_node 0) tt (datagram D ZT_DEFAULT_PHYSMTU 3) s = (received tt s, Ok tt).
Proof.
  intros D s. apply (Switch_eight_fragments_dropped (quiet_node 0) tt D 3 s 0).
  - by apply Forall_replicate.
  - unfold D. rewrite zlen_replicate_Z by done. done.
  - vm_compute. reflexivity.
  - apply quiet_receives.
  - lia.
Defined.

(** Two fragments of a packet of two, numbered 1 and 2, are taken for the whole of it: a
    packet is decoded whose head never arrived, with the head an older packet left in the
    entry. *)
Theorem Switch_decodes_without_head :
  let piece k := [1; 2; 3; 4; 5; 6; 7; 8] ++ [1; 2; 3; 4; 5] ++ [0xff; frag_no_byte 2 k; 0] ++ [170; 187] in
  let old := mkBuffer (replicate 28 9 ++ replicate (Z.to_nat (PC - 28)) 0) 28 in
  let s := fst (onRemotePacket (quiet_node me5) tt (piece 2) (fst (onRemotePacket (quiet_node me5) tt (piece 1) (Switch_new (old_queue old))))) in
  (fun p => buf_data (ip_packet p)) <$> decoded s = [replicate 28 9 ++ [170; 187]].
Proof. vm_compute. reflexivity. Qed.
