(* ===== verification/SwitchSafety.v ===== *)
(** The invariant of the switch of Switch.v: its queues keep their sizes and hold well-formed
    packets, and no entry point reads or writes outside a packet, a queue or a table of
    fragments, whatever arrives and whatever the rest of the node answers.

    The proofs are in a small program logic for the monad [sm]: a triple says that a
    computation keeps an invariant, ends with a value that meets its postcondition or an
    exception, and is defined. *)
From stdpp Require Import gmap.
From S2P Require Import Prelude.
From S2P Require Import Utils.
From S2P Require Import Buffer.
From S2P Require Import Addressing.
From S2P Require Import Wire.
From S2P Require Import Packet.
From S2P Require Import Switch.
From S2P Require Import Fragmentation.

(** ** Triples *)

Definition triple {S A} (I : S -> Prop) (m : sm S A) (Q : A -> Prop) : Prop :=
  forall s, I s -> I (fst (m s)) /\ sane (snd (m s)) Q.

Section Triples.
Context {S : Type} (I : S -> Prop).

Lemma triple_ret {A} (a : A) (Q : A -> Prop) : Q a -> triple I (mret a) Q.
Proof. intros H s Hs. by split. Qed.

Lemma triple_bind {A B} (m : sm S A) (k : A -> sm S B) P Q :
  triple I m P -> (forall a, P a -> triple I (k a) Q) -> triple I (m ≫= k) Q.
Proof.
  intros Hm Hk s Hs. destruct (Hm s Hs) as [Hs' Hr]. unfold mbind, sm_bind. destruct (m s) as [s' [a|e|]]; cbn in *; [|done|done].
  by apply Hk.
Qed.

Lemma triple_lift {A} (o : outcome A) Q : sane o Q -> triple I (lift o) Q.
Proof. intros H s Hs. by split. Qed.

Lemma triple_modify (f : S -> S) (Q : unit -> Prop) : (forall s, I s -> I (f s)) -> Q tt -> triple I (modify f) Q.
Proof. intros H HQ s Hs. split; [by apply H|done]. Qed.

Lemma triple_get (Q : S -> Prop) : (forall s, I s -> Q s) -> triple I get_state Q.
Proof. intros H s Hs. split; [done|by apply H]. Qed.

Lemma triple_weaken {A} (m : sm S A) (P Q : A -> Prop) : triple I m P -> (forall a, P a -> Q a) -> triple I m Q.
Proof. intros Hm H s Hs. destruct (Hm s Hs) as [Hs' Hr]. split; [done|]. by eapply sane_weaken. Qed.

Lemma triple_catch (m : sm S unit) : triple I m (fun _ => True) -> forall s, I s -> exists s', catch_all m s = (s', Ok tt) /\ I s'.
Proof.
  intros Hm s Hs. destruct (Hm s Hs) as [Hs' Hr]. unfold catch_all. destruct (m s) as [s' [[]|e|]]; cbn in *; [eauto|eauto|done].
Qed.
End Triples.

(** The same for a computation that calls code which may itself be undefined: [F] then holds of
    where it stopped. *)
Definition ftriple {S A} (F I : S -> Prop) (m : sm S A) (Q : A -> Prop) : Prop :=
  forall s, I s -> (I (fst (m s)) /\ sane (snd (m s)) Q) \/ (snd (m s) = Undef /\ F (fst (m s))).

Section Faults.
Context {S : Type} (F I : S -> Prop).

Lemma ftriple_of {A} (m : sm S A) Q : triple I m Q -> ftriple F I m Q.
Proof. intros H s Hs. left. by apply H. Qed.

Lemma ftriple_ret {A} (a : A) (Q : A -> Prop) : Q a -> ftriple F I (mret a) Q.
Proof. intros H. by apply ftriple_of, triple_ret. Qed.

Lemma ftriple_bind {A B} (m : sm S A) (k : A -> sm S B) P Q :
  ftriple F I m P -> (forall a, P a -> ftriple F I (k a) Q) -> ftriple F I (m ≫= k) Q.
Proof.
  intros Hm Hk s Hs. unfold mbind, sm_bind. destruct (Hm s Hs) as [[Hs' Hr]|[Hu HF]]; destruct (m s) as [s' [a|e|]]; cbn in *; try done; [by apply Hk|by left|by right].
Qed.

Lemma fbind {A B} (m : sm S A) (k : A -> sm S B) P Q : triple I m P -> (forall a, P a -> ftriple F I (k a) Q) -> ftriple F I (m ≫= k) Q.
Proof. intros Hm. by apply ftriple_bind, ftriple_of. Qed.

Lemma ftriple_weaken {A} (m : sm S A) (P Q : A -> Prop) : ftriple F I m P -> (forall a, P a -> Q a) -> ftriple F I m Q.
Proof. intros Hm H s Hs. destruct (Hm s Hs) as [[Hs' Hr]|]; [left; split; [done|by eapply sane_weaken]|by right]. Qed.

Lemma ftriple_catch (m : sm S unit) : ftriple F I m (fun _ => True) -> ftriple F I (catch_all m) (fun _ => True).
Proof. intros Hm s Hs. unfold catch_all. destruct (Hm s Hs) as [[Hs' Hr]|[Hu HF]]; destruct (m s) as [s' [[]|e|]]; cbn in *; try done; [by left|by left|by right]. Qed.
End Faults.

(** Steps of a proof of a triple. *)
Ltac tstep := first
  [ apply triple_ret; try done
  | eapply triple_bind; [|intros ? ?]
  | apply triple_lift
  | apply triple_modify; [|try done] ].

(** ** Well-formed packets *)

Lemma sane_field b i l : buf_wf PC b -> 0 <= i -> sane (Buffer_field b i l) (fun j => j = i).
Proof. intros Hb Hi. unfold Buffer_field, bounds_check. by destruct (_ <? _). Qed.

Lemma sane_set_index b i v :
  buf_wf PC b -> 0 <= i -> is_byte v -> sane (Buffer_set_index b i v) (fun b' => buf_wf PC b' /\ b_len b' = b_len b).
Proof.
  intros Hb Hi Hv. destruct (Z.leb_spec (b_len b) i).
  - unfold Buffer_set_index, bounds_check. by rewrite (proj2 (Z.leb_le _ _)) by lia.
  - destruct (set_index_get b i v Hb) as (b' & -> & Hb' & Hl & _); [lia|done|]. done.
Qed.

Lemma sane_update_index b i f :
  buf_wf PC b -> 0 <= i -> (forall v, is_byte v -> is_byte (f v)) -> sane (Buffer_update_index b i f) (fun b' => buf_wf PC b' /\ b_len b' = b_len b).
Proof.
  intros Hb Hi Hf. unfold Buffer_update_index. eapply sane_bind; [by eapply sane_index|]. intros v Hv. apply sane_set_index; auto.
Qed.

Lemma sane_setAt b n i v : buf_wf PC b -> 0 <= i -> sane (Buffer_setAt b n i v) (fun b' => buf_wf PC b' /\ b_len b' = b_len b).
Proof.
  intros Hb Hi. unfold Buffer_setAt, bounds_check. destruct (Z.ltb_spec (b_len b) (i + Z.of_nat n)); [done|]. cbn [mbind outcome_bind].
  destruct (store_get b i (be_bytes n v) Hb Hi) as (m & -> & Hwf & _); [apply be_bytes_bytes|rewrite zlen_be_bytes; lia|]. done.
Qed.

Lemma sane_copyFrom b data :
  buf_wf PC b -> Forall is_byte data -> sane (Buffer_copyFrom PC b data (zlen data)) (fun b' => buf_wf PC b' /\ b_len b' = zlen data).
Proof.
  intros Hb Hd. destruct (Z.ltb_spec PC (zlen data)).
  - unfold Buffer_copyFrom, bounds_check. by rewrite (proj2 (Z.ltb_lt _ _)) by lia.
  - destruct (copyFrom_Ok b data Hb Hd) as (b' & -> & Hb' & Hdata); [lia|]. cbn. split; [done|].
    by rewrite <- (zlen_buf_data PC b' Hb'), Hdata.
Qed.

Lemma sane_append b src l :
  buf_wf PC b -> Forall is_byte src -> 0 <= l <= zlen src -> l <= PC ->
  sane (Buffer_append PC b src l) (fun b' => buf_wf PC b' /\ b_len b' = b_len b + l).
Proof.
  intros Hb Hs Hl HlC. pose proof Hb as [_ _ HbC _]. assert (Hpc : PC = 10108) by done. destruct (Z.ltb_spec PC (b_len b + l)).
  - unfold Buffer_append, bounds_check. unfold u32. rewrite wrap_id by (unfold in_range; lia). by rewrite (proj2 (Z.ltb_lt _ _)) by lia.
  - destruct (append_Ok PC b src l Hb Hs Hl) as (b' & -> & Hb' & Hdata); [lia|]. cbn. split; [done|].
    rewrite <- (zlen_buf_data PC b' Hb'), Hdata, zlen_app, zlen_ztake, (zlen_buf_data PC b Hb) by lia. lia.
Qed.

Lemma sane_write_field b i d :
  buf_wf PC b -> 0 <= i -> Forall is_byte d -> i + zlen d < 2 ^ 32 ->
  sane (Buffer_write_field b i d) (fun b' => buf_wf PC b' /\ b_len b' = b_len b).
Proof.
  intros Hb Hi Hd Hl. pose proof (zlen_nonneg d). destruct (Z.ltb_spec (b_len b) (i + zlen d)).
  - unfold Buffer_write_field, Buffer_field, bounds_check. unfold u32. rewrite wrap_id by (unfold in_range; lia).
    by rewrite (proj2 (Z.ltb_lt _ _)) by lia.
  - destruct (write_field_get b i d Hb Hi Hd) as (b' & -> & Hb' & Hlen & _); [lia|]. done.
Qed.

Lemma bytes_to_bytes (f : Z -> Z) : forallb (fun v => (0 <=? f v) && (f v <? 256)) all_bytes = true -> forall v, is_byte v -> is_byte (f v).
Proof.
  intros H v Hv. apply (byte_forall _ H) in Hv. rewrite andb_true_iff, Z.leb_le, Z.ltb_lt in Hv. unfold in_range. lia.
Qed.

Abbreviation packet_ok b := (buf_wf PC b /\ 28 <= b_len b).

Lemma update_index_Ok b i f :
  buf_wf PC b -> 0 <= i < b_len b -> (forall v, is_byte v -> is_byte (f v)) ->
  exists b', Buffer_update_index b i f = Ok b' /\ buf_wf PC b' /\ b_len b' = b_len b.
Proof.
  intros Hb Hi Hf. pose proof (sane_index b i Hb (proj1 Hi)) as Hv. unfold Buffer_update_index.
  destruct (index_Ok PC b i Hb Hi) as (v & E & _). rewrite E in *. cbn [mbind outcome_bind sane] in *.
  destruct (set_index_get b i (f v) Hb Hi) as (b' & -> & Hb' & Hl & _); [auto|]. eauto.
Qed.

Lemma setFragmented_Ok b f : packet_ok b -> exists b', Packet_setFragmented b f = Ok b' /\ buf_wf PC b' /\ b_len b' = b_len b.
Proof.
  intros [Hb Hl]. apply update_index_Ok; [done|unfold ZT_PACKET_IDX_FLAGS; lia|]. apply bytes_to_bytes. destruct f; vm_compute; reflexivity.
Qed.

Lemma sane_incrementHops b : buf_wf PC b -> sane (Packet_incrementHops b) (fun b' => buf_wf PC b' /\ b_len b' = b_len b).
Proof. intros Hb. apply sane_update_index; [done|done|]. apply bytes_to_bytes. vm_compute. reflexivity. Qed.

Lemma sane_Fragment_incrementHops b : buf_wf PC b -> sane (Fragment_incrementHops b) (fun b' => buf_wf PC b' /\ b_len b' = b_len b).
Proof. intros Hb. apply sane_update_index; [done|done|]. apply bytes_to_bytes. vm_compute. reflexivity. Qed.

Lemma setTrusted_Ok b tpid : packet_ok b -> exists b', Packet_setTrusted b tpid = Ok b' /\ buf_wf PC b' /\ b_len b' = b_len b.
Proof.
  intros [Hb Hl]. unfold Packet_setTrusted, Packet_setCipher, ZT_PACKET_IDX_FLAGS, ZT_PACKET_IDX_MAC.
  edestruct (update_index_Ok b 18) as (b1 & E & Hb1 & Hl1); [done|lia| |rewrite E].
  { apply bytes_to_bytes. vm_compute. reflexivity. }
  cbn [mbind outcome_bind]. unfold Buffer_setAt, bounds_check. rewrite (proj2 (Z.ltb_ge _ _)) by lia. cbn [mbind outcome_bind].
  destruct (store_get b1 19 (be_bytes 8 tpid) Hb1) as (m & -> & Hwf & _); [done|apply be_bytes_bytes|rewrite zlen_be_bytes; lia|].
  eexists. split; [done|]. by split.
Qed.

Lemma armor_Ok tmp key e b :
  tmp_ok tmp -> 32 <= zlen key -> packet_ok b -> exists b', Packet_armor tmp key e b = Ok b' /\ buf_wf PC b' /\ b_len b' = b_len b.
Proof.
  intros Ht Hk [Hb Hl]. destruct (packet_split b Hb) as (h & f & mac & p & rest & -> & Hok); [lia|].
  destruct (Packet_armor_Ok tmp key Ht Hk e h f mac p rest Hok) as [E Hok']. cbv zeta in E, Hok'.
  revert E Hok'. generalize (packet_state h (armored_flags e f) p key). intros st E Hok'. rewrite E. clear E.
  revert Hok'. generalize (if e then packet_crypt st p else p). intros p'. generalize (packet_mac st p'). intros mac' Hok'.
  eexists. split; [done|]. split; [by apply packet_of_wf|]. destruct Hok as [_ _ _ _ _ Hs], Hok' as [_ _ _ _ _ Hs']. unfold packet_of, b_len. lia.
Qed.

(** [reset] delivers an empty packet for its destination. *)
Lemma Packet_reset_Ok stk iv dest source v :
  zlen stk = PC -> Forall is_byte stk -> zlen iv = 8 -> Forall is_byte iv ->
  exists b, Packet_reset (mkBuffer stk 0) iv dest source v = Ok b /\ buf_wf PC b /\ b_len b = 28 /\
    slice 8 5 (buf_data b) = be_bytes 5 dest /\ slice 13 5 (buf_data b) = be_bytes 5 source /\ zget (buf_data b) 27 = Some (u8 v).
Proof.
  intros Hs Hsb Hi Hib. assert (Hpc : PC = 10108) by done. assert (Hwf0 : buf_wf PC (mkBuffer stk 0)) by (split; cbn; done || lia). unfold Packet_reset.
  destruct (set_size_Ok (mkBuffer stk 0) 28 Hwf0) as (b1 & E1 & Hb1 & Hl1); [lia|]. unfold ZT_PROTO_MIN_PACKET_LENGTH. rewrite E1. cbn [mbind outcome_bind].
  assert (Hab : forall a, Address_bytes a = be_bytes 5 a /\ zlen (be_bytes 5 a) = 5 /\ Forall is_byte (be_bytes 5 a)).
  { intros a. split; [apply Address_bytes_be|]. split; [apply zlen_be_bytes|apply be_bytes_bytes]. }
  destruct (Hab dest) as (Ed & Hd & Hdb), (Hab source) as (Es & Hso & Hsob). unfold Packet_setDestination, Packet_setSource, Packet_setVerb,
    ZT_PACKET_IDX_IV, ZT_PACKET_IDX_DEST, ZT_PACKET_IDX_SOURCE, ZT_PACKET_IDX_FLAGS, ZT_PACKET_IDX_VERB. rewrite Ed, Es.
  destruct (write_field_get b1 0 iv Hb1) as (b2 & E2 & Hb2 & Hl2 & _); [done|done|lia|]. rewrite E2. cbn [mbind outcome_bind].
  destruct (write_field_get b2 8 (be_bytes 5 dest) Hb2) as (b3 & E3 & Hb3 & Hl3 & G3); [done|done|lia|]. rewrite E3. cbn [mbind outcome_bind].
  destruct (write_field_get b3 13 (be_bytes 5 source) Hb3) as (b4 & E4 & Hb4 & Hl4 & G4); [done|done|lia|]. rewrite E4. cbn [mbind outcome_bind].
  destruct (set_index_get b4 18 0 Hb4) as (b5 & E5 & Hb5 & Hl5 & G5); [lia|done|]. rewrite E5. cbn [mbind outcome_bind].
  destruct (set_index_get b5 27 (u8 v) Hb5) as (b6 & E6 & Hb6 & Hl6 & G6); [lia|by apply wrap_range|].
  exists b6. split; [exact E6|]. split; [done|]. split; [lia|]. assert (Hb6l := zlen_buf_data PC b6 Hb6).
  split; [|split; [|by rewrite G6]]; (apply zget_ext; [rewrite zlen_slice; lia|]; intros j Hj; rewrite zlen_slice in Hj by lia; rewrite zget_slice by lia;
    rewrite G6, (proj2 (Z.eqb_neq _ _)), G5, (proj2 (Z.eqb_neq _ _)), G4 by lia).
  - rewrite (proj2 (Z.leb_gt 13 _)) by lia. cbn [andb]. rewrite G3, Hd, (proj2 (Z.leb_le _ _)), (proj2 (Z.ltb_lt _ _)) by lia. cbn [andb]. f_equal. lia.
  - rewrite Hso, (proj2 (Z.leb_le _ _)), (proj2 (Z.ltb_lt _ _)) by lia. cbn [andb]. f_equal. lia.
Qed.

Definition addressed (dest : Z) (b : Buffer) : Prop := packet_ok b /\ Packet_destination b = Ok (dest mod 2 ^ 40).

Lemma sane_reset stk iv dest source v :
  zlen stk = PC -> Forall is_byte stk -> zlen iv = 8 -> Forall is_byte iv ->
  sane (Packet_reset (mkBuffer stk 0) iv dest source v) (fun b => addressed dest b /\ b_len b = 28).
Proof.
  intros Hs Hsb Hi Hib. destruct (Packet_reset_Ok stk iv dest source v) as (b & -> & Hb & Hl & Hd & _); [done..|]. cbn [sane].
  split; [|done]. split; [split; [done|lia]|]. unfold Packet_destination, ZT_PACKET_IDX_DEST. rewrite read_address_Ok by (done || lia).
  by rewrite Hd, be_val_be_bytes.
Qed.

Lemma sane_appendTo dest a b : addressed dest b -> b_len b = 28 -> sane (Address_appendTo PC a b) (addressed dest).
Proof.
  intros [[Hb _] Hd] Hl. assert (Hpc : PC = 10108) by done. destruct (Address_appendTo_Ok PC a b Hb) as (b' & -> & Hb' & Hd'); [lia|].
  cbn [sane]. assert (Hl' : b_len b' = 33). { rewrite <- (zlen_buf_data PC b' Hb'), Hd', zlen_app, (zlen_buf_data PC b Hb), zlen_be_bytes. lia. }
  split; [split; [done|lia]|]. rewrite <- Hd. unfold Packet_destination, ZT_PACKET_IDX_DEST. rewrite !read_address_Ok by (done || lia).
  by rewrite Hd', slice_app_l by (rewrite ?(zlen_buf_data PC b Hb); lia).
Qed.

Lemma Fragment_init_sane stk b start len no total :
  buf_wf PC b -> 13 <= b_len b -> zlen stk = PC -> Forall is_byte stk -> 0 <= start -> 0 <= len -> start + len <= b_len b ->
  len + 16 <= PC -> 0 <= total < 16 -> 0 <= no < 16 -> sane (Fragment_init (mkBuffer stk 0) b start len no total) (buf_wf PC).
Proof. intros. destruct (Fragment_init_Ok stk b start len no total) as (f & -> & Hf & _); done. Qed.

Lemma sane_verb_fields b : buf_wf PC b ->
  sane (Packet_destination b) (fun _ => True) /\ sane (Packet_source b) (fun _ => True) /\ sane (Packet_packetId b) (fun _ => True) /\
  sane (Packet_hops b) (fun _ => True) /\ sane (Fragment_hops b) (fun _ => True) /\ sane (Fragment_destination b) (fun _ => True) /\
  sane (Fragment_packetId b) (fun _ => True).
Proof.
  intros Hb. repeat split.
  all: try (eapply sane_weaken; [by eapply sane_read_address|done]).
  all: try (eapply sane_weaken; [by eapply sane_at|done]).
  - eapply sane_bind; [by eapply sane_index|done].
  - eapply sane_weaken; [by eapply sane_index|done].
Qed.

Lemma sane_fragment_fields b : buf_wf PC b ->
  sane (Fragment_fragmentNumber b) (fun v => 0 <= v < 16) /\ sane (Fragment_totalFragments b) (fun v => 0 <= v < 16).
Proof.
  intros Hb. split; (eapply sane_bind; [by eapply sane_index|]); intros v Hv; cbn [sane];
    (assert (Hr := Z.land_ones (Z.shiftr v 4) 4); assert (Hr' := Z.land_ones v 4); change (Z.ones 4) with 15 in *;
     rewrite ?Hr, ?Hr' by done; apply Z.mod_pos_bound; done).
Qed.

Lemma sane_payload_append b fr :
  buf_wf PC b -> buf_wf PC fr ->
  sane (payload ← Fragment_payload fr; Buffer_append PC b (zdrop payload (b_mem fr)) (Fragment_payloadLength fr)) (buf_wf PC).
Proof.
  intros Hb Hf. pose proof Hf as [Hm Hby Hl _]. assert (Hpc : PC = 10108) by done.
  eapply sane_bind; [apply (sane_field fr 16); done|]. cbn beta. intros ? ->.
  eapply sane_weaken; [apply sane_append; [done|by apply Forall_drop| |]|by intros ? [? _]];
    unfold Fragment_payloadLength, ZT_PACKET_FRAGMENT_IDX_PAYLOAD; rewrite ?zlen_zdrop by lia; destruct (Z.ltb_spec 16 (b_len fr)); lia.
Qed.

(** ** The invariant *)

Section Invariant.
Context {Path Peer : Type}.

Record entry_ok (e : RXQueueEntry Path) : Prop := {
  eo_frag0 : buf_wf PC (ip_packet (rq_frag0 e));
  eo_frags : zlen (rq_frags e) = ZT_MAX_PACKET_FRAGMENTS - 1;
  eo_frags_wf : Forall (buf_wf PC) (rq_frags e);
  eo_total : rq_totalFragments e <= ZT_MAX_PACKET_FRAGMENTS
}.

Definition tx_ok (t : TXQueueEntry) : Prop := packet_ok (tx_packet t).

(** The receive queue is a full table of entries with packets in their arrays, the transmit
    queue is at its limit at most and holds packets long enough to be armored. *)
Record inv (s : Switch Path Peer) : Prop := {
  inv_rx : zlen (sw_rxQueue s) = ZT_RX_QUEUE_SIZE;
  inv_rx_ok : Forall entry_ok (sw_rxQueue s);
  inv_tx : zlen (sw_txQueue s) <= ZT_TX_QUEUE_SIZE;
  inv_tx_ok : Forall tx_ok (sw_txQueue s)
}.

(** The entry points of Switch.hpp that are modelled. *)
Inductive call : Type :=
| CRemotePacket (path : Path) (data : list Z)
| CSend (packet : Buffer) (encrypt : bool)
| CRequestWhois (now addr : Z)
| CWaitingForPeer (peer : Z)
| CTimerTasks (now : Z).

Definition run_call (N : Node Path Peer) (c : call) : sm (Switch Path Peer) unit :=
  match c with
  | CRemotePacket path data => onRemotePacket N path data
  | CSend packet encrypt => send N packet encrypt
  | CRequestWhois now addr => requestWhois N now addr
  | CWaitingForPeer peer => doAnythingWaitingForPeer N peer
  | CTimerTasks now => _ ← doTimerTasks N now; mret tt
  end.

(** Any bytes may arrive; a packet to send has a header. *)
Definition call_ok (c : call) : Prop :=
  match c with
  | CRemotePacket _ data => Forall is_byte data
  | CSend packet _ => packet_ok packet
  | _ => True
  end.

(** What the switch relies on: arrays and keys of their sizes, path MTUs within the limits
    Topology.hpp enforces on configured paths, and a decoder that touches the switch by calling
    its entry points only.  What it does between these calls, which calls it makes, in nodes
    that are such again, and whether it throws, is undefined or gives an answer is open; the
    packet it leaves is still in its array. *)
Inductive node_ok : Node Path Peer -> Prop :=
| node_ok_intro N :
    (zlen (nd_stack N) = PC /\ Forall is_byte (nd_stack N)) -> tmp_ok (nd_tmp N) ->
    (forall n, zlen (nd_randomIv N n) = 8 /\ Forall is_byte (nd_randomIv N n)) -> (forall p, 32 <= zlen (pr_key N p)) ->
    (forall path mtu tpid, pa_outboundInfo N path = Some (mtu, tpid) -> 1400 <= mtu <= 10324) ->
    (forall p, buf_wf PC (ip_packet p) -> decoder (nd_tryDecode N p)) -> node_ok N
with decoder : sm (Switch Path Peer) (bool * IncomingPacket Path) -> Prop :=
| dec_ret ok p : buf_wf PC (ip_packet p) -> decoder (mret (ok, p))
| dec_throw e : decoder (lift (Throw e))
| dec_fault : decoder (_ ← emit EvDecoderFault; lift Undef)
| dec_call N c k h : node_ok N -> call_ok c -> decoder k -> (forall e, decoder (h e)) ->
    decoder (fun s => match run_call N c s with (s', Ok _) => k s' | (s', Throw e) => h e s' | (s', Undef) => (s', Undef) end).

Scheme node_ok_mut := Minimality for node_ok Sort Prop
with decoder_mut := Minimality for decoder Sort Prop.
Combined Scheme node_decoder_ind from node_ok_mut, decoder_mut.

Lemma no_stack N : node_ok N -> zlen (nd_stack N) = PC /\ Forall is_byte (nd_stack N).
Proof. by intros []. Qed.
Lemma no_tmp N : node_ok N -> tmp_ok (nd_tmp N).
Proof. by intros []. Qed.
Lemma no_iv N : node_ok N -> forall n, zlen (nd_randomIv N n) = 8 /\ Forall is_byte (nd_randomIv N n).
Proof. by intros []. Qed.
Lemma no_key N : node_ok N -> forall p, 32 <= zlen (pr_key N p).
Proof. by intros []. Qed.
Lemma no_mtu N : node_ok N -> forall path mtu tpid, pa_outboundInfo N path = Some (mtu, tpid) -> 1400 <= mtu <= 10324.
Proof. by intros []. Qed.

(** The decoder was undefined. *)
Definition faulted (s : Switch Path Peer) : Prop := last (sw_log s) = Some EvDecoderFault.

(** *** Steps on the queues *)

(** Invariants that do not look at the log. *)
Definition log_free (I : Switch Path Peer -> Prop) : Prop := forall f s, I s -> I (with_log f s).

Lemma inv_log_free : log_free inv.
Proof. by intros f s []. Qed.

Lemma triple_emit (I : Switch Path Peer -> Prop) e Q : log_free I -> Q tt -> triple I (emit e) Q.
Proof. intros HI HQ. apply triple_modify; [|done]. intros s Hs. by apply HI. Qed.

Lemma triple_entry i : 0 <= i < ZT_RX_QUEUE_SIZE -> triple inv (entry i) entry_ok.
Proof.
  intros Hi s Hs. pose proof Hs as [Hl Hok _ _]. split; [done|]. apply sane_load; [done|lia].
Qed.

Lemma triple_set_entry i e Q : entry_ok e -> Q tt -> triple inv (set_entry (Peer := Peer) i e) Q.
Proof.
  intros He HQ. apply triple_modify; [|done]. intros s [Hl Hok Ht Htok]. split; cbn; [|by apply Forall_insert|done|done].
  by rewrite zlen_insert.
Qed.

Lemma triple_update_entry i f Q :
  0 <= i < ZT_RX_QUEUE_SIZE -> (forall e, entry_ok e -> entry_ok (f e)) -> Q tt -> triple inv (update_entry (Peer := Peer) i f) Q.
Proof.
  intros Hi Hf HQ. unfold update_entry. eapply triple_bind; [by apply triple_entry|]. intros e He. apply triple_set_entry; auto.
Qed.

Lemma entry_ok_with_frag0 (e : RXQueueEntry Path) p : entry_ok e -> buf_wf PC (ip_packet p) -> entry_ok (rq_with_frag0 p e).
Proof. by intros [] ?. Qed.

Lemma set_frag_ok (e : RXQueueEntry Path) n fr :
  entry_ok e -> buf_wf PC fr -> 0 < n < ZT_MAX_PACKET_FRAGMENTS ->
  sane (set_frag n fr e) (fun l => zlen l = ZT_MAX_PACKET_FRAGMENTS - 1 /\ Forall (buf_wf PC) l).
Proof.
  intros [_ Hl Hok _] Hfr Hn. unfold set_frag. assert (zlen [fr] = 1) by done. rewrite mem_write_Ok by lia. cbn [sane]. split.
  - rewrite zlen_app, zlen_app, zlen_ztake, zlen_zdrop by lia. lia.
  - apply Forall_app. split; [by apply Forall_take|]. apply Forall_app. split; [by apply Forall_singleton|by apply Forall_drop].
Qed.

(** *** Computations that only log *)

Section Logging.
(** The computation adds [evs] to the log, changes nothing else and gives [a]. *)
Definition says {A} (m : sm (Switch Path Peer) A) (evs : list (event Path Peer)) (a : A) : Prop :=
  forall s, m s = (with_log (fun l => l ++ evs) s, Ok a).

Lemma says_bind {A B} (m : sm (Switch Path Peer) A) (k : A -> sm (Switch Path Peer) B) e1 e2 a b :
  says m e1 a -> says (k a) e2 b -> says (m ≫= k) (e1 ++ e2) b.
Proof.
  intros Hm Hk s. rewrite (sm_bind_Ok _ _ _ _ _ (Hm s)), Hk. f_equal. unfold with_log. cbn. by rewrite <- app_assoc.
Qed.

Lemma says_ret {A} (a : A) : says (mret a) [] a.
Proof. intros s. by rewrite with_log_app. Qed.

Lemma says_step {A B} (m : sm (Switch Path Peer) A) (k : A -> sm (Switch Path Peer) B) e a b : says m [] a -> says (k a) e b -> says (m ≫= k) e b.
Proof. apply says_bind. Qed.

Lemma says_lift {A} (o : outcome A) a : o = Ok a -> says (lift o) [] a.
Proof. intros ->. apply says_ret. Qed.

Context (N : Node Path Peer) (HN : node_ok N).

Lemma says_path_send path data : says (path_send N path data) [EvPathSend path data] (pa_send N path data).
Proof. by intros s. Qed.

(** The path _trySend takes, if any, and what it asks of the peer first. *)
Definition best_path (peer : Peer) : option Path :=
  match pr_getBestPath N peer false with
  | Some p => Some p
  | None =>
      match nd_getUpstreamPeer N ≫= (fun relay => pr_getBestPath N relay false) with
      | Some p => Some p
      | None => pr_getBestPath N peer true
      end
  end.
Definition asks (peer : Peer) : list (event Path Peer) := match pr_getBestPath N peer false with Some _ => [] | None => [EvTryMemorizedPath peer] end.

Definition has_path (dest : Z) : bool :=
  match nd_getPeer N dest with Some peer => bool_decide (is_Some (best_path peer)) | None => false end.

Lemma says_choosePath peer : says (choosePath N peer) (asks peer) (best_path peer).
Proof.
  unfold choosePath, best_path, asks. destruct (pr_getBestPath N peer false); [apply says_ret|].
  apply (says_bind _ _ [_] [] tt); [by intros s|]. destruct (_ ≫= _); apply says_ret.
Qed.

(** The datagrams of a packet: itself if it fits, else the head and, if the path takes that, the
    fragments. *)
Definition datagrams (path : Path) (D : list Z) (mtu : Z) : list (list Z) :=
  if zlen D <=? mtu then [D]
  else if pa_send N path (datagram D mtu 0) then datagram D mtu <$> seqZ 0 (total_fragments (zlen D) mtu) else [datagram D mtu 0].

(** The head and at most eight pieces fit in the fragment numbers. *)
Lemma total_bound n mtu : 1400 <= mtu -> mtu < n <= 10108 -> total_fragments n mtu < 16.
Proof.
  intros Hm Hn. unfold total_fragments. assert ((n - mtu + (mtu - 16) - 1) / (mtu - 16) < 15); [|lia]. apply Z.div_lt_upper_bound; lia.
Qed.

Lemma says_send_chunks path packet mtu :
  packet_ok packet -> 1400 <= mtu <= 10324 -> says (send_chunks N path packet mtu) (EvPathSend path <$> datagrams path (buf_data packet) mtu) tt.
Proof.
  intros [Hp Hlen] Hmtu. pose proof Hp as [_ _ HpC _]. assert (Hpc : PC = 10108) by done. pose proof (no_stack N HN) as [Hs Hsb].
  pose proof (zlen_buf_data PC packet Hp) as Hz. unfold datagrams. destruct (Z.leb_spec (zlen (buf_data packet)) mtu) as [Hle|Hgt].
  - unfold send_chunks. rewrite Z.min_l by lia. rewrite ztake_all by lia. apply (says_bind _ _ [_] [] _ _ (says_path_send _ _)).
    rewrite Z.ltb_irrefl, andb_false_r. apply says_ret.
  - destruct (pa_send N path (datagram (buf_data packet) mtu 0)) eqn:Esend.
    + intros s. rewrite send_chunks_log; try done; [|lia|apply total_bound; lia]. by rewrite <- list_fmap_compose.
    + unfold send_chunks. rewrite Z.min_r by lia. eapply (says_bind _ _ [_] []); [apply says_path_send|].
      change (ztake mtu (buf_data packet)) with (datagram (buf_data packet) mtu 0). rewrite Esend. apply says_ret.
Qed.

(** What _trySend does with a packet: nothing without a peer or a path, else the packet, marked
    when it takes fragments, and armored or sent as trusted, goes out as its datagrams. *)
Definition transmits (packet : Buffer) (encrypt : bool) (evs : list (event Path Peer)) (packet' : Buffer) : Prop :=
  exists d, Packet_destination packet = Ok d /\
  match nd_getPeer N d with
  | None => evs = [] /\ packet' = packet
  | Some peer =>
      match best_path peer with
      | None => evs = asks peer /\ packet' = packet
      | Some path =>
          let '(mtu, trustedPathId) := default (ZT_DEFAULT_PHYSMTU, 0) (pa_outboundInfo N path) in
          exists marked, Packet_setFragmented packet (mtu <? b_len packet) = Ok marked /\
            (if trustedPathId =? 0 then Packet_armor (nd_tmp N) (pr_key N peer) encrypt marked else Packet_setTrusted marked trustedPathId) = Ok packet' /\
            evs = asks peer ++ (EvPathSend path <$> datagrams path (buf_data packet') mtu)
      end
  end.

Lemma says_trySend packet encrypt :
  packet_ok packet -> exists d evs packet', Packet_destination packet = Ok d /\ transmits packet encrypt evs packet' /\ says (trySend N packet encrypt) evs (has_path d, packet').
Proof.
  intros Hp. pose proof Hp as [Hb Hlen].
  assert (exists d, Packet_destination packet = Ok d) as [d Ed] by (unfold Packet_destination, ZT_PACKET_IDX_DEST; rewrite read_address_Ok by (done || lia); by eexists).
  exists d. unfold transmits, trySend, has_path. destruct (nd_getPeer N d) as [peer|] eqn:Epeer.
  2: { exists [], packet. split; [done|]. split; [exists d; by rewrite Epeer|]. apply (says_step _ _ _ d _ (says_lift _ _ Ed)). rewrite Epeer. apply says_ret. }
  destruct (best_path peer) as [path|] eqn:Epath.
  2: { exists (asks peer), packet. split; [done|]. split; [exists d; by rewrite Epeer, Epath|]. apply (says_step _ _ _ d _ (says_lift _ _ Ed)). rewrite Epeer.
       rewrite <- (app_nil_r (asks peer)). eapply says_bind; [apply says_choosePath|]. rewrite Epath. apply says_ret. }
  destruct (default (ZT_DEFAULT_PHYSMTU, 0) (pa_outboundInfo N path)) as [mtu tpid] eqn:E.
  assert (Hmtu : 1400 <= mtu <= 10324).
  { destruct (pa_outboundInfo N path) as [[m t]|] eqn:Eo; cbn in E; injection E as <- <-; [by apply (no_mtu N HN) in Eo|done]. }
  destruct (setFragmented_Ok packet (mtu <? b_len packet) Hp) as (b1 & E1 & Hb1 & Hl1).
  assert (Hseal : exists b2, (if tpid =? 0 then Packet_armor (nd_tmp N) (pr_key N peer) encrypt b1 else Packet_setTrusted b1 tpid) = Ok b2 /\
    buf_wf PC b2 /\ b_len b2 = b_len b1).
  { destruct (tpid =? 0); [apply armor_Ok; [by apply no_tmp|by apply no_key|split; [done|lia]]|apply setTrusted_Ok; split; [done|lia]]. }
  destruct Hseal as (b2 & E2 & Hb2 & Hl2). exists (asks peer ++ (EvPathSend path <$> datagrams path (buf_data b2) mtu)), b2. split; [done|].
  split; [exists d; split; [done|]; rewrite Epeer, Epath, E; by exists b1|]. apply (says_step _ _ _ d _ (says_lift _ _ Ed)). rewrite Epeer.
  eapply says_bind; [apply says_choosePath|]. rewrite Epath, E, bool_decide_eq_true_2 by done.
  assert (Hmin : (Z.min (b_len packet) mtu <? b_len packet) = (mtu <? b_len packet)) by (destruct (Z.ltb_spec mtu (b_len packet)), (Z.ltb_spec (Z.min (b_len packet) mtu) (b_len packet)); done || lia).
  rewrite Hmin. eapply says_step; [apply says_lift, E1|]. eapply says_step; [apply says_lift, E2|].
  rewrite <- (app_nil_r (EvPathSend path <$> _)). eapply says_bind; [apply says_send_chunks; [split; [done|lia]|done]|apply says_ret].
Qed.
End Logging.

(** *** Sending *)

Section Sending.
Context (N : Node Path Peer) (HN : node_ok N).
Context (I : Switch Path Peer -> Prop) (HI : log_free I).

Lemma triple_path_send path data : triple I (path_send N path data) (fun _ => True).
Proof. unfold path_send. eapply triple_bind; [by apply (triple_emit I _ (fun _ => True))|]. intros. by apply triple_ret. Qed.

Lemma triple_sendDirect peer data force : triple I (sendDirect N peer data force) (fun _ => True).
Proof. unfold sendDirect. eapply triple_bind; [by apply (triple_emit I _ (fun _ => True))|]. intros. by apply triple_ret. Qed.

Lemma triple_random_iv : triple I (random_iv N) (fun iv => zlen iv = 8 /\ Forall is_byte iv).
Proof.
  unfold random_iv. eapply triple_bind; [by apply (triple_get I (fun _ => True))|]. intros s _. apply triple_ret. apply (no_iv N HN).
Qed.

Lemma triple_says {A} (m : sm (Switch Path Peer) A) evs a : says m evs a -> triple I m (eq a).
Proof. intros Hm s Hs. rewrite Hm. split; [by apply HI|done]. Qed.

Lemma triple_trySend packet encrypt : packet_ok packet -> triple I (trySend N packet encrypt) (fun _ => True).
Proof. intros Hp. destruct (says_trySend N HN packet encrypt Hp) as (d & evs & p' & _ & _ & Hl). by eapply triple_weaken; [eapply triple_says, Hl|]. Qed.

Context (HQ : forall t s, tx_ok t -> I s ->
  I (with_tx (fun q => (if ZT_TX_QUEUE_SIZE <=? zlen q then tail q else q) ++ [t]) s)).

Lemma triple_send_with whois packet encrypt :
  packet_ok packet -> (forall d, Packet_destination packet = Ok d -> triple I (whois d) (fun _ => True)) ->
  triple I (send_with N whois packet encrypt) (fun _ => True).
Proof.
  intros Hp Hw. unfold send_with. eapply triple_bind.
  - apply triple_lift. instantiate (1 := fun d => Packet_destination packet = Ok d).
    pose proof (proj1 (sane_verb_fields packet (proj1 Hp))) as Hs. by destruct (Packet_destination packet).
  - intros d Hd. destruct (d =? nd_address N); [by apply triple_ret|].
    eapply triple_bind; [by apply triple_trySend|]. intros [sent p] _. destruct sent; [by apply triple_ret|].
    eapply triple_bind; [apply triple_modify with (Q := fun _ => True); [|done]; intros s Hs; by apply HQ|]. intros _ _.
    destruct (nd_getPeer N d); [by apply triple_ret|by apply Hw].
Qed.

(** The WHOIS goes to the upstream peer. *)
Lemma triple_send_whois whois upstream addr :
  triple I (whois (pr_address N upstream mod 2 ^ 40)) (fun _ => True) ->
  triple I (iv ← random_iv N;
      outp ← lift (Packet_reset (mkBuffer (nd_stack N) 0) iv (pr_address N upstream) (nd_address N) VERB_WHOIS);
      outp ← lift (Address_appendTo PC addr outp);
      pid ← lift (Packet_packetId outp);
      _ ← emit (EvExpectReplyTo pid);
      send_with N whois outp true) (fun _ => True).
Proof.
  intros Hw. destruct (no_stack N HN) as [Hs Hsb]. eapply triple_bind; [apply triple_random_iv|]. intros iv [Hi Hib].
  eapply triple_bind; [by apply triple_lift, sane_reset|]. intros b [Hb Hl].
  eapply triple_bind; [by apply triple_lift, sane_appendTo|]. intros b' [Hb' Hd].
  eapply triple_bind; [apply triple_lift, sane_verb_fields, Hb'|]. intros pid _.
  eapply triple_bind; [by apply (triple_emit I _ (fun _ => True))|]. intros _ _.
  apply triple_send_with; [done|]. intros d E. rewrite Hd in E. by injection E as <-.
Qed.
End Sending.

(** *** WHOIS *)

Section Whois.
Context (N : Node Path Peer) (HN : node_ok N).

Lemma inv_push t (s : Switch Path Peer) :
  tx_ok t -> inv s -> inv (with_tx (fun q => (if ZT_TX_QUEUE_SIZE <=? zlen q then tail q else q) ++ [t]) s).
Proof.
  intros Ht [Hl Hok Hx Hxok]. split; [done|done| |]; cbn -[Z.leb].
  - rewrite zlen_app. change (zlen [t]) with 1. destruct (Z.leb_spec ZT_TX_QUEUE_SIZE (zlen (sw_txQueue s))); [|lia].
    destruct (sw_txQueue s) as [|x q]; [done|]. cbn [tail]. unfold zlen in *. cbn [length] in Hx. lia.
  - apply Forall_app. split; [|by apply Forall_singleton]. destruct (_ <=? _); [|done]. by destruct Hxok.
Qed.

(** A WHOIS for [up] has just been sent. *)
Definition inv_asked (up : Z) (s : Switch Path Peer) : Prop := inv s /\ sw_lastSentWhoisRequest s !! up = Some (nd_now N).

Lemma triple_whois_asked n up : triple (inv_asked up) (requestWhois_fuel N (S n) (nd_now N) up) (fun _ => True).
Proof.
  cbn [requestWhois_fuel]. destruct (up =? nd_address N); [by apply triple_ret|].
  intros s [Hs Hu]. erewrite (sm_bind_Ok get_state _ s s s) by done. cbn beta. rewrite Hu. cbn [default]. unfold id. rewrite Z.sub_diag.
  cbn. split; [|done]. split; [by destruct Hs|]. cbn. by rewrite lookup_insert_eq.
Qed.

Lemma triple_whois_upstream n upstream :
  nd_getUpstreamPeer N = Some upstream ->
  triple inv (requestWhois_fuel N (S (S n)) (nd_now N) (pr_address N upstream mod 2 ^ 40)) (fun _ => True).
Proof.
  intros Hup. set (up := pr_address N upstream mod 2 ^ 40). remember (S n) as m eqn:Em. cbn [requestWhois_fuel]. rewrite Hup.
  destruct (up =? nd_address N); [by apply triple_ret|]. intros s Hs. erewrite (sm_bind_Ok get_state _ s s s) by done. cbn beta.
  destruct (_ <? _); [split; [by destruct Hs|done]|]. erewrite (sm_bind_Ok (modify _)) by done. cbn beta.
  match goal with |- context[?m (with_whois ?f s)] => assert (triple (inv_asked up) m (fun _ => True)) as Ht end.
  { apply triple_send_whois; [done| | |subst m; apply triple_whois_asked].
    - intros f s' [? ?]. split; [by apply inv_log_free|done].
    - intros t s' Ht [? ?]. split; [by apply inv_push|done]. }
  destruct (Ht (with_whois <[up := nd_now N]> s)) as [[? _] ?]; [|done].
  split; [by destruct Hs|]. cbn. by rewrite lookup_insert_eq.
Qed.

Lemma triple_whois n now addr : triple inv (requestWhois_fuel N (S (S (S n))) now addr) (fun _ => True).
Proof.
  remember (S (S n)) as m eqn:Em. cbn [requestWhois_fuel]. destruct (addr =? nd_address N); [by apply triple_ret|].
  eapply triple_bind; [by apply (triple_get inv (fun _ => True))|]. intros s0 _.
  destruct (_ <? _); [by apply triple_modify; [intros s []|]|].
  eapply triple_bind; [by apply (triple_modify inv _ (fun _ => True)); [intros s []|]|]. intros _ _.
  destruct (nd_getUpstreamPeer N) as [upstream|] eqn:Hup; [|by apply triple_ret].
  apply triple_send_whois; [done|apply inv_log_free|apply inv_push|]. subst m. by apply triple_whois_upstream.
Qed.

Lemma triple_requestWhois now addr : triple inv (requestWhois N now addr) (fun _ => True).
Proof. apply triple_whois. Qed.

Lemma triple_send packet encrypt : packet_ok packet -> triple inv (send N packet encrypt) (fun _ => True).
Proof. intros Hp. apply triple_send_with; [done|apply inv_log_free|apply inv_push|done|]. intros d _. apply triple_whois. Qed.
End Whois.

(** *** Receiving *)

Section Receiving.
Context (N : Node Path Peer) (HN : node_ok N).
Context (Hdecode : forall p, buf_wf PC (ip_packet p) -> ftriple faulted inv (nd_tryDecode N p) (fun r => buf_wf PC (ip_packet (snd r)))).

Lemma sane_find_slot (q : list (RXQueueEntry Path)) current packetId ks :
  zlen q = ZT_RX_QUEUE_SIZE -> Forall entry_ok q ->
  sane (find_slot q current packetId ks) (fun r => match r with Some i => 0 <= i < ZT_RX_QUEUE_SIZE | None => True end).
Proof.
  intros Hq Hok. induction ks as [|k ks IH]; cbn [find_slot]; [done|].
  assert (Hi : 0 <= u32 (current - k) mod ZT_RX_QUEUE_SIZE < ZT_RX_QUEUE_SIZE) by (apply Z.mod_pos_bound; done).
  eapply sane_bind; [apply (sane_load (fun _ => True)); [by apply Forall_true|lia]|]. intros rq _. by destruct (_ && _).
Qed.

Lemma triple_findRXQueueEntry packetId : triple inv (findRXQueueEntry (Path := Path) (Peer := Peer) packetId) (fun i => 0 <= i < ZT_RX_QUEUE_SIZE).
Proof.
  unfold findRXQueueEntry. eapply triple_bind; [by apply (triple_get inv inv)|]. intros s [Hl Hok _ _].
  eapply triple_bind; [by apply triple_lift, sane_find_slot|]. intros [i|] Hi; [by apply triple_ret|].
  eapply triple_bind; [by apply (triple_modify inv _ (fun _ => True)); [intros ? []|]|]. intros _ _. apply triple_ret, Z.mod_pos_bound. done.
Qed.

Lemma triple_nextRXQueueEntry : triple inv (nextRXQueueEntry (Path := Path) (Peer := Peer)) (fun i => 0 <= i < ZT_RX_QUEUE_SIZE).
Proof.
  unfold nextRXQueueEntry. eapply triple_bind; [by apply (triple_get inv (fun _ => True))|]. intros s _.
  eapply triple_bind; [by apply (triple_modify inv _ (fun _ => True)); [intros ? []|]|]. intros _ _. apply triple_ret, Z.mod_pos_bound. done.
Qed.

Lemma triple_assemble n i f :
  0 <= i < ZT_RX_QUEUE_SIZE -> 1 <= f -> f + Z.of_nat n <= ZT_MAX_PACKET_FRAGMENTS ->
  triple inv (assemble (Path := Path) (Peer := Peer) n i f) (fun _ => True).
Proof.
  intros Hi. revert f. induction n as [|n IH]; intros f Hf Hn; cbn [assemble]; [by apply triple_ret|].
  eapply triple_bind; [by apply triple_entry|]. intros e He. pose proof He as [Hf0 Hl Hok _].
  eapply triple_bind; [apply triple_lift, sane_load; [exact Hok|lia]|]. intros fr Hfr.
  pose proof (sane_payload_append (ip_packet (rq_frag0 e)) fr Hf0 Hfr) as Ha.
  destruct (Fragment_payload fr) as [pay| |]; [|by intros s Hs|done].
  eapply triple_bind; [by apply triple_ret with (Q := eq pay)|]. intros ? <-. cbn [mbind outcome_bind] in Ha.
  eapply triple_bind; [apply triple_lift, Ha|]. intros b Hb.
  eapply triple_bind; [apply triple_set_entry with (Q := fun _ => True); [by apply entry_ok_with_frag0|done]|]. intros _ _. apply IH; lia.
Qed.

Lemma triple_tryDecode p : buf_wf PC (ip_packet p) -> ftriple faulted inv (tryDecode N p) (fun r => buf_wf PC (ip_packet (snd r))).
Proof.
  intros Hp. unfold tryDecode. eapply fbind; [by apply (triple_emit inv _ (fun _ => True)); [apply inv_log_free|]|].
  intros _ _. by apply Hdecode.
Qed.

Lemma triple_decode_entry i : 0 <= i < ZT_RX_QUEUE_SIZE -> ftriple faulted inv (decode_entry N i) (fun _ => True).
Proof.
  intros Hi. unfold decode_entry. eapply fbind; [by apply triple_entry|]. intros e He.
  eapply ftriple_bind; [apply triple_tryDecode, (eo_frag0 e He)|]. intros [ok p] Hp.
  eapply fbind; [apply triple_update_entry with (Q := fun _ => True); [done| |done]; intros; by apply entry_ok_with_frag0|]. intros _ _.
  apply ftriple_of, triple_update_entry; [done| |done]. intros e' []. by destruct ok.
Qed.

Lemma sane_IncomingPacket_init p data path :
  buf_wf PC (ip_packet p) -> Forall is_byte data -> sane (IncomingPacket_init N p data path) (fun p' => buf_wf PC (ip_packet p')).
Proof. intros Hp Hd. unfold IncomingPacket_init. eapply sane_bind; [by apply sane_copyFrom|]. by intros b [Hb _]. Qed.

Lemma triple_onFragment fragment : buf_wf PC fragment -> ftriple faulted inv (onFragment N fragment) (fun _ => True).
Proof.
  intros Hf. unfold onFragment. destruct (sane_fragment_fields fragment Hf) as [Hno Htot].
  eapply fbind; [apply triple_lift, sane_verb_fields, Hf|]. intros pid _.
  eapply fbind; [apply triple_lift, Hno|]. intros no Hno'.
  eapply fbind; [apply triple_lift, Htot|]. intros total Htot'.
  destruct (_ && _) eqn:E; [|by apply ftriple_ret]. rewrite !andb_true_iff, Z.leb_le, !Z.ltb_lt in E. destruct E as [[[Ht Hn] Hn0] Ht1].
  eapply fbind; [apply triple_findRXQueueEntry|]. intros i Hi. eapply fbind; [by apply triple_entry|]. intros e He.
  pose proof He as [? ? ? ?]. destruct (negb _).
  - eapply fbind; [by apply triple_lift, set_frag_ok|]. intros frags [? ?]. by apply ftriple_of, triple_set_entry.
  - destruct (_ =? 0); [|by apply ftriple_ret].
    eapply fbind; [by apply triple_lift, set_frag_ok|]. intros frags [? ?].
    eapply fbind; [by apply triple_set_entry with (Q := fun _ => True)|]. intros _ _.
    destruct (_ =? total); [|by apply ftriple_ret].
    eapply fbind; [apply triple_assemble; done || lia|]. intros _ _. by apply triple_decode_entry.
Qed.

Lemma triple_onHead path data : Forall is_byte data -> 28 <= zlen data -> ftriple faulted inv (onHead N path data) (fun _ => True).
Proof.
  intros Hd Hl. unfold onHead.
  eapply fbind; [apply triple_lift; rewrite mem_read_Ok by lia; instantiate (1 := fun _ => True); done|]. intros id _.
  eapply fbind; [apply triple_findRXQueueEntry|]. intros i Hi. eapply fbind; [by apply triple_entry|]. intros e He.
  pose proof He as [? ? ? ?]. assert (Hinit := sane_IncomingPacket_init (rq_frag0 e) data path (eo_frag0 e He) Hd).
  destruct (negb _).
  - eapply fbind; [by apply triple_set_entry with (Q := fun _ => True)|]. intros _ _.
    eapply fbind; [by apply triple_lift, Hinit|]. intros p Hp. by apply ftriple_of, triple_set_entry.
  - destruct (_ =? 0); [|by apply ftriple_ret]. destruct (1 <? _) eqn:E1.
    + apply Z.ltb_lt in E1. eapply fbind; [by apply triple_set_entry with (Q := fun _ => True)|]. intros _ _.
      destruct (_ =? rq_totalFragments e); (eapply fbind; [by apply triple_lift, Hinit|]); intros p Hp; [|by apply ftriple_of, triple_set_entry].
      eapply fbind; [by apply triple_set_entry with (Q := fun _ => True)|]. intros _ _.
      eapply fbind; [apply triple_assemble; done || lia|]. intros _ _. by apply triple_decode_entry.
    + eapply fbind; [by apply triple_lift, Hinit|]. intros p Hp. by apply ftriple_of, triple_set_entry.
Qed.

Lemma stack_wf : buf_wf PC (mkBuffer (nd_stack N) 0).
Proof. destruct (no_stack N HN). split; cbn; done. Qed.

Lemma triple_onWhole path data : Forall is_byte data -> ftriple faulted inv (onWhole N path data) (fun _ => True).
Proof.
  intros Hd. unfold onWhole. eapply fbind; [apply triple_lift, sane_IncomingPacket_init; [apply stack_wf|done]|]. intros p Hp.
  eapply ftriple_bind; [by apply triple_tryDecode|]. intros [ok p'] Hp'. destruct ok; [by apply ftriple_ret|].
  eapply fbind; [apply triple_nextRXQueueEntry|]. intros i Hi.
  eapply fbind; [apply triple_lift, sane_verb_fields, Hp'|]. intros pid _.
  eapply fbind; [by apply triple_entry|]. intros e []. by apply ftriple_of, triple_set_entry.
Qed.

Lemma triple_shouldUnite now source destination : triple inv (shouldUnite (Path := Path) (Peer := Peer) now source destination) (fun _ => True).
Proof.
  unfold shouldUnite. eapply triple_bind; [by apply (triple_get inv (fun _ => True))|]. intros s _.
  destruct (_ <=? _); (eapply triple_bind; [by apply (triple_modify inv _ (fun _ => True)); [intros ? []|]|]); intros _ _; by apply triple_ret.
Qed.

Lemma triple_introduce_source relayTo source : triple inv (introduce_source N relayTo source) (fun _ => True).
Proof. unfold introduce_source. destruct (nd_getPeer N source); [apply triple_emit; [apply inv_log_free|done]|by apply triple_ret]. Qed.

Lemma triple_maybe_send peer data force :
  triple inv (match peer with Some p => sendDirect N p data force | None => mret false end) (fun _ => True).
Proof. destruct peer; [apply triple_sendDirect, inv_log_free|by apply triple_ret]. Qed.

Lemma triple_relayFragment path fragment destination : buf_wf PC fragment -> triple inv (relayFragment N path fragment destination) (fun _ => True).
Proof.
  intros Hf. unfold relayFragment. destruct (_ && _); [by apply triple_ret|].
  eapply triple_bind; [apply triple_lift, sane_verb_fields, Hf|]. intros hops _. destruct (_ <? _); [|by apply triple_ret].
  eapply triple_bind; [by apply triple_lift, sane_Fragment_incrementHops|]. intros f' _.
  eapply triple_bind; [apply triple_maybe_send|]. intros sent _. destruct sent; [by apply triple_ret|].
  destruct (nd_getUpstreamPeer N); [|by apply triple_ret].
  eapply triple_bind; [apply triple_sendDirect, inv_log_free|]. intros _ _. by apply triple_ret.
Qed.

Lemma triple_relayPacket path data source destination : Forall is_byte data -> triple inv (relayPacket N path data source destination) (fun _ => True).
Proof.
  intros Hd. unfold relayPacket. destruct (_ && _); [by apply triple_ret|].
  eapply triple_bind; [apply triple_lift, sane_copyFrom; [apply stack_wf|done]|]. intros b [Hb _].
  eapply triple_bind; [apply triple_lift, sane_verb_fields, Hb|]. intros hops _. destruct (_ <? _); [|by apply triple_ret].
  eapply triple_bind; [by apply triple_lift, sane_incrementHops|]. intros b' _.
  eapply triple_bind; [apply triple_maybe_send|]. intros sent _.
  assert (Hup : triple inv match nd_getUpstreamPeer N with
    | Some p => if negb (pr_address N p =? source) then
        sent ← sendDirect N p (buf_data b') true; if (sent : bool) then introduce_source N p source else mret tt else mret tt
    | None => mret tt end (fun _ => True)).
  { destruct (nd_getUpstreamPeer N); [|by apply triple_ret]. destruct (negb _); [|by apply triple_ret].
    eapply triple_bind; [apply triple_sendDirect, inv_log_free|]. intros [] _; [apply triple_introduce_source|by apply triple_ret]. }
  destruct (nd_getPeer N destination) as [p|]; [|exact Hup]. destruct sent; [|exact Hup].
  destruct (negb _); [|by apply triple_ret]. eapply triple_bind; [apply triple_shouldUnite|].
  intros [] _; [apply triple_introduce_source|by apply triple_ret].
Qed.

Lemma triple_address_at data i (k : Z -> sm (Switch Path Peer) unit) :
  Forall is_byte data -> 0 <= i -> i + 5 <= zlen data -> (forall a, triple inv (k a) (fun _ => True)) ->
  triple inv (d ← lift (mem_read data i 5); a ← lift (Address_setTo d 5); k a) (fun _ => True).
Proof.
  intros Hd Hi Hl Hk. rewrite mem_read_Ok by lia. eapply triple_bind; [by apply triple_ret with (Q := eq (slice i 5 data))|]. intros ? <-.
  eapply triple_bind; [apply triple_lift, sane_address; [apply zlen_slice; lia|by apply Forall_take, Forall_drop]|]. intros a _. apply Hk.
Qed.

Lemma ftriple_address_at data i (k : Z -> sm (Switch Path Peer) unit) :
  Forall is_byte data -> 0 <= i -> i + 5 <= zlen data -> (forall a, ftriple faulted inv (k a) (fun _ => True)) ->
  ftriple faulted inv (d ← lift (mem_read data i 5); a ← lift (Address_setTo d 5); k a) (fun _ => True).
Proof.
  intros Hd Hi Hl Hk. rewrite mem_read_Ok by lia. eapply fbind; [by apply triple_ret with (Q := eq (slice i 5 data))|]. intros ? <-.
  eapply fbind; [apply triple_lift, sane_address; [apply zlen_slice; lia|by apply Forall_take, Forall_drop]|]. intros a _. apply Hk.
Qed.

Lemma triple_onBeacon path data : Forall is_byte data -> zlen data = 13 -> triple inv (onBeacon N path data) (fun _ => True).
Proof.
  intros Hd Hl. unfold onBeacon. destruct (no_stack N HN) as [Hs Hsb]. apply triple_address_at; [done|lia|lia|]. intros addr.
  destruct (addr =? _); [by apply triple_ret|]. destruct (negb _); [by apply triple_ret|].
  destruct (nd_getPeer N addr) as [peer|]; [|by apply triple_ret].
  eapply triple_bind; [by apply (triple_get inv (fun _ => True))|]. intros s _. destruct (_ <=? _); [|by apply triple_ret].
  eapply triple_bind; [by apply (triple_modify inv _ (fun _ => True)); [intros ? []|]|]. intros _ _.
  eapply triple_bind; [by apply triple_random_iv|]. intros iv [Hi Hib].
  eapply triple_bind; [by apply triple_lift, sane_reset|]. intros b [[Hb _] _].
  eapply triple_bind; [apply triple_lift with (Q := fun _ => True)|].
  { destruct (armor_Ok (nd_tmp N) (pr_key N peer) true b) as (b' & -> & _); [apply (no_tmp N HN)|apply (no_key N HN)|done|done]. }
  intros b' _.
  eapply triple_bind; [apply triple_path_send, inv_log_free|]. intros _ _. by apply triple_ret.
Qed.

Lemma triple_onRemotePacket_body path data : Forall is_byte data -> ftriple faulted inv (onRemotePacket_body N path data) (fun _ => True).
Proof.
  intros Hd. unfold onRemotePacket_body. eapply fbind; [by apply (triple_emit inv _ (fun _ => True)); [apply inv_log_free|]|]. intros _ _.
  destruct (Z.eqb_spec (zlen data) 13); [by apply ftriple_of, triple_onBeacon|]. destruct (Z.ltb_spec ZT_PROTO_MIN_FRAGMENT_LENGTH (zlen data)) as [Hl|]; [|by apply ftriple_ret].
  unfold ZT_PROTO_MIN_FRAGMENT_LENGTH in Hl.
  eapply fbind; [apply triple_lift, sane_load; [exact Hd|unfold ZT_PACKET_FRAGMENT_IDX_FRAGMENT_INDICATOR; lia]|]. intros ind _. destruct (ind =? _).
  - eapply fbind; [apply triple_lift, sane_copyFrom; [apply stack_wf|done]|]. intros b [Hb _].
    eapply fbind; [apply triple_lift, sane_verb_fields, Hb|]. intros dest _. destruct (negb _); [by apply ftriple_of, triple_relayFragment|by apply triple_onFragment].
  - destruct (Z.leb_spec ZT_PROTO_MIN_PACKET_LENGTH (zlen data)) as [Hl2|]; [|by apply ftriple_ret]. unfold ZT_PROTO_MIN_PACKET_LENGTH in Hl2.
    apply ftriple_address_at; [done|lia|lia|]. intros dest. apply ftriple_address_at; [done|lia|lia|]. intros src.
    destruct (src =? _); [by apply ftriple_ret|]. destruct (negb _); [by apply ftriple_of, triple_relayPacket|].
    eapply fbind; [apply triple_lift, sane_load; [exact Hd|unfold ZT_PACKET_IDX_FLAGS; lia]|]. intros flags _.
    destruct (negb _); [apply triple_onHead; done || lia|by apply triple_onWhole].
Qed.

(** *** What waits *)

Lemma length_delete_le {A} i (l : list A) : (length (delete i l) <= length l)%nat.
Proof.
  revert i. induction l as [|x l IH]; intros [|i]; [done|done|cbn; lia|].
  change (S (length (delete i l)) <= S (length l))%nat. specialize (IH i). lia.
Qed.

Lemma triple_erase_tx i : triple inv (erase_tx (Path := Path) (Peer := Peer) i) (fun _ => True).
Proof.
  apply triple_modify; [|done]. intros s [Hl Hok Hx Hxok]. split; [done|done| |by apply Forall_delete]. cbn. unfold zlen in *.
  pose proof (length_delete_le i (sw_txQueue s)). lia.
Qed.

Lemma tx_lookup_ok (s : Switch Path Peer) i t : inv s -> sw_txQueue s !! i = Some t -> packet_ok (tx_packet t).
Proof. intros [_ _ _ Hok] E. by apply (Forall_lookup_1 _ _ _ _ Hok E). Qed.

Lemma triple_retry_tx n i peer : triple inv (retry_tx N n i peer) (fun _ => True).
Proof.
  revert i. induction n as [|n IH]; intros i; cbn [retry_tx]; [by apply triple_ret|].
  eapply triple_bind; [by apply (triple_get inv inv)|]. intros s Hs. destruct (sw_txQueue s !! i) as [t|] eqn:E; [|by apply triple_ret].
  destruct (_ =? _); [|apply IH]. eapply triple_bind; [apply triple_trySend; [done|apply inv_log_free|by eapply tx_lookup_ok]|]. intros [[] ?] _; [|apply IH].
  eapply triple_bind; [apply triple_erase_tx|]. intros _ _. apply IH.
Qed.

Lemma triple_timer_tx n i now : triple inv (timer_tx N n i now) (fun _ => True).
Proof.
  revert i. induction n as [|n IH]; intros i; cbn [timer_tx]; [by apply triple_ret|].
  eapply triple_bind; [by apply (triple_get inv inv)|]. intros s Hs. destruct (sw_txQueue s !! i) as [t|] eqn:E; [|by apply triple_ret].
  eapply triple_bind; [apply triple_trySend; [done|apply inv_log_free|by eapply tx_lookup_ok]|]. intros [sent ?] _. destruct (_ || _).
  - eapply triple_bind; [apply triple_erase_tx|]. intros _ _. apply IH.
  - eapply triple_bind; [apply IH|]. intros. by apply triple_ret.
Qed.

Lemma triple_retry_rx now i : 0 <= i < ZT_RX_QUEUE_SIZE -> ftriple faulted inv (retry_rx N now i) (fun _ => True).
Proof.
  intros Hi. unfold retry_rx. eapply fbind; [by apply triple_entry|]. intros e He. destruct (_ && _); [|by apply ftriple_ret].
  eapply ftriple_bind; [apply triple_tryDecode, (eo_frag0 e He)|]. intros [ok p] Hp.
  eapply fbind; [apply triple_update_entry with (Q := fun _ => True); [done| |done]; intros; by apply entry_ok_with_frag0|]. intros _ _.
  eapply fbind; [by apply triple_entry|]. intros e' _. destruct (_ || _); [|by apply ftriple_ret].
  eapply fbind; [by apply triple_update_entry with (Q := fun _ => True); [done|intros ? []|]|]. intros _ _. by apply ftriple_ret.
Qed.

Lemma triple_retry_rx_all n now i : 0 <= i -> i + Z.of_nat n <= ZT_RX_QUEUE_SIZE -> ftriple faulted inv (retry_rx_all N n now i) (fun _ => True).
Proof.
  revert i. induction n as [|n IH]; intros i Hi Hn; cbn [retry_rx_all]; [by apply ftriple_ret|].
  eapply ftriple_bind; [apply triple_retry_rx; lia|]. intros _ _. apply IH; lia.
Qed.

Lemma triple_doAnythingWaitingForPeer peer : ftriple faulted inv (doAnythingWaitingForPeer N peer) (fun _ => True).
Proof.
  unfold doAnythingWaitingForPeer. eapply fbind; [by apply (triple_modify inv _ (fun _ => True)); [intros ? []|]|]. intros _ _.
  eapply ftriple_bind; [by apply triple_retry_rx_all|]. intros _ _.
  eapply fbind; [by apply (triple_get inv (fun _ => True))|]. intros s _. apply ftriple_of, triple_retry_tx.
Qed.

Lemma triple_whois_all now l : triple inv (whois_all N now l) (fun _ => True).
Proof.
  induction l as [|a l IH]; cbn [whois_all]; [by apply triple_ret|]. eapply triple_bind; [by apply triple_requestWhois|]. intros _ _. apply IH.
Qed.

Lemma triple_timer_rx n now i : 0 <= i -> i + Z.of_nat n <= ZT_RX_QUEUE_SIZE -> ftriple faulted inv (timer_rx N n now i) (fun _ => True).
Proof.
  revert i. induction n as [|n IH]; intros i Hi Hn; cbn [timer_rx]; [by apply ftriple_ret|].
  eapply ftriple_bind; [apply triple_retry_rx; lia|]. intros waits _. eapply ftriple_bind; [|intros _ _; apply IH; lia].
  instantiate (1 := fun _ => True). destruct waits; [|by apply ftriple_ret]. eapply fbind; [apply triple_entry; lia|]. intros e He.
  eapply fbind; [apply triple_lift, sane_verb_fields, (eo_frag0 e He)|]. intros src _.
  destruct (nd_getPeer N src); [by apply ftriple_ret|by apply ftriple_of, triple_requestWhois].
Qed.

Lemma triple_doTimerTasks now : ftriple faulted inv (doTimerTasks N now) (fun _ => True).
Proof.
  unfold doTimerTasks. eapply fbind; [by apply (triple_get inv (fun _ => True))|]. intros s _. destruct (_ <? _); [by apply ftriple_ret|].
  eapply fbind; [by apply (triple_modify inv _ (fun _ => True)); [intros ? []|]|]. intros _ _.
  eapply fbind; [by apply (triple_get inv (fun _ => True))|]. intros s' _.
  eapply fbind; [apply triple_timer_tx|]. intros need _. eapply fbind; [apply triple_whois_all|]. intros _ _.
  eapply ftriple_bind; [by apply triple_timer_rx|]. intros _ _.
  eapply fbind; [by apply (triple_modify inv _ (fun _ => True)); [intros ? []|]|]. intros _ _.
  eapply fbind; [by apply (triple_modify inv _ (fun _ => True)); [intros ? []|]|]. intros _ _. by apply ftriple_ret.
Qed.
End Receiving.

(** ** Reachable switches *)

Lemma triple_run_call N c : node_ok N -> (forall p, buf_wf PC (ip_packet p) -> ftriple faulted inv (nd_tryDecode N p) (fun r => buf_wf PC (ip_packet (snd r)))) ->
  call_ok c -> ftriple faulted inv (run_call N c) (fun _ => True).
Proof.
  intros HN Hd Hc. destruct c as [path data|packet e|now a|a|now]; cbn in *.
  - by apply ftriple_catch, triple_onRemotePacket_body.
  - by apply ftriple_of, triple_send.
  - by apply ftriple_of, triple_requestWhois.
  - by apply triple_doAnythingWaitingForPeer.
  - eapply ftriple_bind; [by apply triple_doTimerTasks|]. intros. by apply ftriple_ret.
Qed.

(** Decoders keep the invariant, since what they call does. *)
Lemma node_decoder_inv :
  (forall N, node_ok N -> forall p, buf_wf PC (ip_packet p) -> ftriple faulted inv (nd_tryDecode N p) (fun r => buf_wf PC (ip_packet (snd r)))) /\
  (forall m, decoder m -> ftriple faulted inv m (fun r => buf_wf PC (ip_packet (snd r)))).
Proof.
  apply node_decoder_ind.
  - intros N _ _ _ _ _ _ IH. exact IH.
  - intros ok p Hp. by apply ftriple_ret.
  - intros e s Hs. by left.
  - intros s Hs. right. split; [done|]. exact (last_snoc EvDecoderFault (sw_log s)).
  - intros N c k h HN IHN Hc _ IHk _ IHh s Hs. pose proof (triple_run_call N c HN IHN Hc s Hs) as Hr.
    destruct (run_call N c s) as [s' [[]|e|]]; cbn in *; destruct Hr as [[Hs' Hr]|[Hu HF]]; try done; [by apply IHk|by apply IHh|by right].
Qed.

Lemma run_call_inv N c : node_ok N -> call_ok c -> ftriple faulted inv (run_call N c) (fun _ => True).
Proof. intros HN. apply triple_run_call; [done|]. by apply node_decoder_inv. Qed.

(** A switch after any calls, each in a node of its own.  The constructor of an entry of the receive
    queue sets its timestamp only: [entry_ok] says that the other fields are of their types and
    that the count of fragments the memory happened to hold is no more than seven. *)
Inductive reachable : Switch Path Peer -> Prop :=
| reach_new rx : zlen rx = ZT_RX_QUEUE_SIZE -> Forall entry_ok rx -> reachable (Switch_new rx)
| reach_call s N c : reachable s -> node_ok N -> call_ok c -> snd (run_call N c s) <> Undef -> reachable (fst (run_call N c s)).

Lemma reachable_inv s : reachable s -> inv s.
Proof.
  induction 1 as [rx Hl Hok|s N c _ IH HN Hc Hu]; [by split; [done|done|done|apply Forall_nil]|]. by destruct (run_call_inv N c HN Hc s IH) as [[]|[]].
Qed.
End Invariant.
