(* ===== verification/SwitchQueues.v ===== *)
(** What the switch of Switch.v achieves: it stays in its invariant whatever is called and
    whatever arrives, the mutual recursion of send and requestWhois ends, and the loops over
    the transmit queue send, drop and keep exactly the packets they should. *)
From stdpp Require Import gmap.
From S2P Require Import Prelude.
From S2P Require Import Utils.
From S2P Require Import Buffer.
From S2P Require Import Addressing.
From S2P Require Import Wire.
From S2P Require Import Packet.
From S2P Require Import Switch.
From S2P Require Import Fragmentation.
From S2P Require Import SwitchSafety.

(** ** More fuel *)

Section Fuel.
Context {Path Peer : Type} (N : Node Path Peer).

(** [m2] does what [m1] does wherever [m1] is defined. *)
Definition extends {A} (m1 m2 : sm (Switch Path Peer) A) : Prop := forall s, snd (m1 s) <> Undef -> m2 s = m1 s.

Lemma extends_refl {A} (m : sm (Switch Path Peer) A) : extends m m.
Proof. by intros s _. Qed.

Lemma extends_bind {A B} (m : sm (Switch Path Peer) A) (k1 k2 : A -> sm (Switch Path Peer) B) :
  (forall a, extends (k1 a) (k2 a)) -> extends (m ≫= k1) (m ≫= k2).
Proof. intros Hk s. unfold mbind, sm_bind. destruct (m s) as [s' [a| |]]; [apply Hk|done..]. Qed.

Lemma extends_send_with w1 w2 packet encrypt :
  (forall d, extends (w1 d) (w2 d)) -> extends (send_with N w1 packet encrypt) (send_with N w2 packet encrypt).
Proof.
  intros Hw. unfold send_with. apply extends_bind. intros d. destruct (_ =? _); [apply extends_refl|].
  apply extends_bind. intros [[] ?]; [apply extends_refl|]. apply extends_bind. intros _.
  destruct (nd_getPeer N d); [apply extends_refl|apply Hw].
Qed.

Lemma extends_whois n : forall now addr, extends (requestWhois_fuel N n now addr) (requestWhois_fuel N (S n) now addr).
Proof.
  induction n as [|n IH]; intros now addr; [by intros s []|]. remember (S n) as m eqn:Em. rewrite Em at 1. cbn [requestWhois_fuel].
  destruct (_ =? _); [apply extends_refl|]. apply extends_bind. intros s. destruct (_ <? _); [apply extends_refl|].
  apply extends_bind. intros _. destruct (nd_getUpstreamPeer N); [|apply extends_refl].
  apply extends_bind. intros iv. apply extends_bind. intros b. apply extends_bind. intros b'. apply extends_bind. intros pid.
  apply extends_bind. intros _. apply extends_send_with. intros d. apply IH.
Qed.

Lemma whois_more_fuel n now addr s :
  snd (requestWhois N now addr s) <> Undef -> requestWhois_fuel N (whois_fuel + n) now addr s = requestWhois N now addr s.
Proof.
  intros Hd. induction n as [|n IH]; [done|]. rewrite Nat.add_succ_r, extends_whois; [exact IH|]. by rewrite IH.
Qed.
End Fuel.


(** ** Loops over the transmit queue *)

Section Transmit.
Context {Path Peer : Type} (N : Node Path Peer) (HN : node_ok N).

(** Whether _trySend gets a queued packet out. *)
Definition tx_sendable (t : TXQueueEntry) : bool :=
  match Packet_destination (tx_packet t) with Ok d => has_path N d | _ => false end.

Lemma says_trySend_tx t : tx_ok t -> exists evs p, transmits N (tx_packet t) (tx_encrypt t) evs p /\ says (trySend N (tx_packet t) (tx_encrypt t)) evs (tx_sendable t, p).
Proof.
  intros Ht. destruct (says_trySend N HN (tx_packet t) (tx_encrypt t) Ht) as (d & evs & p & E & Hm & Hl). exists evs, p. unfold tx_sendable. by rewrite E.
Qed.

(** What becomes of a queued packet, as far as the log shows. *)
Definition tx_tried (t : TXQueueEntry) (evs : list (event Path Peer)) : Prop := exists p, transmits N (tx_packet t) (tx_encrypt t) evs p.

(** What the timer leaves in the queue: packets without a path that are not too old. *)
Definition tx_keep (now : Z) (t : TXQueueEntry) : bool :=
  negb (tx_sendable t || (ZT_TRANSMIT_QUEUE_TIMEOUT <? u64 (now - tx_creationTime t))).

(** The peers to ask for. *)
Definition tx_unknown (t : TXQueueEntry) : bool := if nd_getPeer N (tx_dest t) then false else true.

Lemma timer_tx_queue now todo : forall done s,
  sw_txQueue s = done ++ todo -> Forall tx_ok todo ->
  exists evss, Forall2 tx_tried todo evss /\ timer_tx N (length todo) (length done) now s =
    (with_log (fun l => l ++ mjoin evss) (with_tx (fun _ => done ++ List.filter (tx_keep now) todo) s),
     Ok (map tx_dest (List.filter tx_unknown (List.filter (tx_keep now) todo)))).
Proof.
  induction todo as [|t todo IH]; intros dn s Hq Hok; cbn [length timer_tx].
  - exists []. split; [constructor|]. rewrite app_nil_r in *. rewrite <- Hq. destruct s. unfold with_log. cbn. by rewrite app_nil_r.
  - apply Forall_cons in Hok as [Ht Hok]. rewrite (sm_bind_Ok get_state _ s s s) by done. rewrite Hq, (list_lookup_middle dn todo t (length dn) eq_refl).
    destruct (says_trySend_tx t Ht) as (evs & p & Hm & Hl). rewrite (sm_bind_Ok _ _ _ _ _ (Hl s)). cbn beta iota.
    cbn [List.filter].
    assert (Hk : tx_keep now t = negb (tx_sendable t || (ZT_TRANSMIT_QUEUE_TIMEOUT <? u64 (now - tx_creationTime t)))) by done.
    destruct (_ || _); rewrite Hk; cbn [negb].
    + erewrite (sm_bind_Ok (erase_tx _)) by done. edestruct (IH dn) as (evss & H2 & Eg); [|done|rewrite Eg].
      { cbn. rewrite Hq. apply delete_middle. }
      exists (evs :: evss). split; [constructor; [by exists p|done]|]. f_equal. unfold with_log. cbn. by rewrite <- app_assoc.
    + destruct (IH (dn ++ [t]) (with_log (fun l => l ++ evs) s)) as (evss & H2 & Eg); [cbn; by rewrite Hq, <- app_assoc|done|].
      rewrite length_app, Nat.add_1_r in Eg. rewrite (sm_bind_Ok _ _ _ _ _ Eg). exists (evs :: evss). split; [constructor; [by exists p|done]|].
      rewrite <- app_assoc. cbn [List.filter]. assert (Hu : tx_unknown t = if nd_getPeer N (tx_dest t) then false else true) by done. rewrite Hu.
      assert (Elog : forall f, with_log (fun l => l ++ mjoin evss) (with_tx f (with_log (fun l => l ++ evs) s)) = with_log (fun l => l ++ mjoin (evs :: evss)) (with_tx f s))
        by (intros f; unfold with_log; cbn; by rewrite <- app_assoc).
      rewrite Elog. by destruct (nd_getPeer N (tx_dest t)).
Qed.

End Transmit.

(** ** Theorems *)

(** C1: Whatever was called before, the receive queue is a full table of well-formed entries,
    the transmit queue holds at most its limit of packets that can be armored, and no entry
    point reads or writes outside an array: each call ends with a value or an exception, unless
    the code that decodes a packet is itself undefined, and then nothing follows.  The decoder may
    call the switch back.  Before the first call no unused entry may hold a count of more than
    seven fragments; [Switch_uninitialised_entry] shows why. *)
Theorem Switch_reachable_safe {Path Peer} (s : Switch Path Peer) :
  reachable s -> inv s /\ forall N c, node_ok N -> call_ok c ->
    snd (run_call N c s) = Undef -> last (sw_log (fst (run_call N c s))) = Some EvDecoderFault.
Proof.
  intros Hs. pose proof (reachable_inv s Hs) as Hi. split; [done|]. intros N c HN Hc Hu.
  destruct (run_call_inv N c HN Hc s Hi) as [[_ Hr]|[_ HF]]; [by rewrite Hu in Hr|exact HF].
Qed.

(** C32: A WHOIS can make the switch send to an upstream it has no path to and ask for that one
    too, but the retry delay ends it: three nested requests at most, with any more fuel the
    same. *)
Theorem requestWhois_terminates {Path Peer} (s : Switch Path Peer) (N : Node Path Peer) now addr :
  reachable s -> node_ok N ->
  exists r, snd r <> Undef /\ forall n, requestWhois_fuel N (whois_fuel + n) now addr s = r.
Proof.
  intros Hs HN. destruct (triple_requestWhois N HN now addr s (reachable_inv s Hs)) as [_ Hr].
  assert (Hd : snd (requestWhois N now addr s) <> Undef) by (by destruct (snd (requestWhois N now addr s))).
  exists (requestWhois N now addr s). split; [done|]. intros n. by apply whois_more_fuel.
Qed.

(** C33: The timer's pass over the transmit queue: a packet that has a path is sent over it, armored
    or trusted and in as many datagrams as it takes, and leaves; one older than the timeout
    leaves; the others stay in order, and the result is the list of their destinations that are
    not known.  Nothing else goes out. *)
Theorem Switch_timer_tx {Path Peer} (s : Switch Path Peer) (N : Node Path Peer) now :
  reachable s -> node_ok N ->
  exists evss, Forall2 (tx_tried N) (sw_txQueue s) evss /\ timer_tx N (length (sw_txQueue s)) 0 now s =
    (with_log (fun l => l ++ mjoin evss) (with_tx (List.filter (tx_keep N now)) s),
     Ok (map tx_dest (List.filter (tx_unknown N) (List.filter (tx_keep N now) (sw_txQueue s))))).
Proof. intros Hs HN. apply (timer_tx_queue N HN now (sw_txQueue s) [] s); [done|]. apply inv_tx_ok, reachable_inv, Hs. Qed.

(** *** A node with an upstream it has no path to *)

Definition lonely_node : Node unit unit :=
  mkNode unit unit me5 1000 false (fun _ => None) (Some tt) (fun _ => true) (fun _ => 7) (fun _ => replicate 32 0) (fun _ _ _ => true)
    (fun _ _ => None) (fun _ => true) (fun _ _ => true) (fun _ => None) (fun _ => replicate 8 0)
    (replicate (Z.to_nat PC) 0) (replicate 64 0) (fun p s => (s, Ok (true, p))).

Lemma lonely_node_ok : node_ok lonely_node.
Proof.
  apply node_ok_intro.
  - split; [by apply zlen_replicate_Z|by apply Forall_replicate].
  - split; [done|by apply Forall_replicate].
  - intros n. split; [done|by apply Forall_replicate].
  - intros p. change (32 <= zlen (replicate 32 0)). done.
  - done.
  - intros p Hp. by apply dec_ret.
Qed.

Lemma new_reachable : reachable (Peer := unit) (Switch_new (old_queue (zero_buffer 0))).
Proof.
  apply reach_new; [done|]. apply Forall_replicate. split; [by apply zero_buffer_wf|done| |done]. apply Forall_replicate. by apply zero_buffer_wf.
Qed.

(** The switch of this node after a request: two packets wait for the upstream. *)
Definition asked : Switch unit unit := fst (run_call lonely_node (CRequestWhois 1000 9) (Switch_new (old_queue (zero_buffer 0)))).

Lemma asked_reachable : reachable asked.
Proof. apply reach_call; [apply new_reachable|apply lonely_node_ok|done|]. intros H. vm_compute in H. done. Qed.

Lemma Switch_reachable_safe_witness : inv asked /\ snd (run_call lonely_node (CTimerTasks 2000) asked) <> Undef.
Proof.
  destruct (Switch_reachable_safe asked asked_reachable) as [Hi Hr]. split; [done|]. intros Hu.
  pose proof (Hr lonely_node (CTimerTasks 2000) lonely_node_ok I Hu) as H. vm_compute in H. done.
Defined.

Lemma requestWhois_terminates_witness :
  exists r, snd r <> Undef /\ forall n, requestWhois_fuel lonely_node (whois_fuel + n) 1000 9 (Switch_new (old_queue (zero_buffer 0))) = r.
Proof. apply requestWhois_terminates; [apply new_reachable|apply lonely_node_ok]. Defined.

(** The same node once it knows the upstream and a path to it. *)
Definition linked_node : Node unit unit :=
  mkNode unit unit me5 1000 false (fun _ => Some tt) (Some tt) (fun _ => true) (fun _ => 7) (fun _ => replicate 32 0) (fun _ _ _ => true)
    (fun _ _ => Some tt) (fun _ => true) (fun _ _ => true) (fun _ => None) (fun _ => replicate 8 0)
    (replicate (Z.to_nat PC) 0) (replicate 64 0) (fun p s => (s, Ok (true, p))).

Lemma linked_node_ok : node_ok linked_node.
Proof.
  apply node_ok_intro; [apply (no_stack _ lonely_node_ok)|apply (no_tmp _ lonely_node_ok)|apply (no_iv _ lonely_node_ok)|apply (no_key _ lonely_node_ok)|done|].
  intros p Hp. by apply dec_ret.
Qed.

Lemma Switch_timer_tx_witness :
  map tx_dest (sw_txQueue asked) = [7; 7] /\ map (tx_sendable linked_node) (sw_txQueue asked) = [true; true] /\
  exists evss, Forall2 (tx_tried linked_node) (sw_txQueue asked) evss /\
    timer_tx linked_node (length (sw_txQueue asked)) 0 1001 asked = (with_log (fun l => l ++ mjoin evss) (with_tx (List.filter (tx_keep linked_node 1001)) asked), Ok []).
Proof.
  split; [vm_compute; reflexivity|]. split; [vm_compute; reflexivity|].
  assert (Hf : List.filter (tx_keep linked_node 1001) (sw_txQueue asked) = []) by (vm_compute; reflexivity).
  destruct (Switch_timer_tx asked linked_node 1001 asked_reachable linked_node_ok) as (evss & H2 & E).
  exists evss. split; [exact H2|]. rewrite Hf in E. exact E.
Defined.

(** *** An entry whose memory was never set *)

(** The constructor of RXQueueEntry sets the timestamp only.  Here the rest of its memory has the
    number of the packet that comes, a count of eight fragments and the bits of seven. *)
Definition stale_queue : list (RXQueueEntry unit) :=
  replicate 64 (mkRX 0 0x0102030405060708 (mkIncoming (zero_buffer 0) 0 None) (replicate 6 (zero_buffer 0)) 8 0xfe false).

(** The first head that comes takes such an entry as one that waits for it and reads a seventh
    fragment of the six the entry has. *)
Theorem Switch_uninitialised_entry :
  snd (onRemotePacket (quiet_node me5) tt ([1; 2; 3; 4; 5; 6; 7; 8] ++ [1; 2; 3; 4; 5] ++ [6; 7; 8; 9; 10] ++ [0x40] ++ replicate 41 0)
    (Switch_new (Peer := unit) stale_queue)) = Undef.
Proof. vm_compute. reflexivity. Qed.
