(* ===== verification/PushCredentials.v ===== *)
(** Sending our credentials to a member: Membership::pushCredentials of node/Membership.cpp,
    and the packets a node builds to send.

    A membership remembers when each of our credentials was last sent to the member.  What is
    due goes out in as few NETWORK_CREDENTIALS packets as it takes.  The state of the
    computation is the membership and the packets given to Switch::send. *)
From stdpp Require Import gmap.
From S2P Require Import Prelude.
From S2P Require Import Utils.
From S2P Require Import Buffer.
From S2P Require Import Addressing.
From S2P Require Import Wire.
From S2P Require Import CertificateOfMembership.
From S2P Require Import Credentials.
From S2P Require Import Capability.
From S2P Require Import NetworkConfig.
From S2P Require Import NetworkConfigDict.
From S2P Require Import Membership.
From S2P Require Import LZ4.
From S2P Require Import Packet.
From S2P Require Import Compression.
From S2P Require Import Switch.
From S2P Require Import Fragmentation.
From S2P Require Import SwitchSafety.

Definition ZT_NETWORK_AUTOCONF_DELAY : Z := 60000.
Definition ZT_CREDENTIAL_PUSH_EVERY : Z := ZT_NETWORK_AUTOCONF_DELAY / 3.
Definition VERB_NETWORK_CREDENTIALS : Z := 0x0a.
(** [sizeof] of the classes. *)
Definition sizeof_Tag : Z := 136.
Definition sizeof_COO : Z := 416.

(** ** New packets *)

(** What the [n]th packet a node builds finds: the random bytes of its ID, and the memory
    that the packet and the local buffer of compress() are put in. *)
Record PacketMemory : Type := mkPacketMemory { pm_iv : nat -> list Z; pm_stack : nat -> list Z; pm_buf : nat -> list Z }.

Definition Packet_new (M : PacketMemory) (n : nat) (dest source verb : Z) : outcome Buffer :=
  Packet_reset (mkBuffer (pm_stack M n) 0) (pm_iv M n) dest source verb.

(** ** Membership::pushCredentials *)

(** The times of tags, capabilities and certificates of ownership are unsigned. *)
Definition push_due (force : bool) (now last : Z) : bool := (ZT_CREDENTIAL_PUSH_EVERY <=? u64 (now - last)) || force.

Definition due_cap (force : bool) (now localCapabilityIndex : Z) (caps : list Capability) (pushed : list Z) : outcome (list Z * option Capability) :=
  if 0 <=? localCapabilityIndex then
    c ← load caps localCapabilityIndex;
    last ← load pushed localCapabilityIndex;
    if push_due force now last then
      pushed ← mem_write pushed localCapabilityIndex [u64 now]; Ok (pushed, Some c)
    else Ok (pushed, None)
  else Ok (pushed, None).

(** The loops over the tags and over the certificates of ownership, from the [i]th on. *)
Fixpoint due_loop {A} (force : bool) (now i : Z) (xs : list A) (pushed : list Z) : outcome (list Z * list A) :=
  match xs with
  | [] => Ok (pushed, [])
  | x :: xs =>
      last ← load pushed i;
      if push_due force now last then
        pushed ← mem_write pushed i [u64 now];
        '(pushed, due) ← due_loop force now (i + 1) xs pushed;
        Ok (pushed, x :: due)
      else due_loop force now (i + 1) xs pushed
  end.

(** The inner loops: as many as fit, and how many they were. *)
Fixpoint fill_loop {A} (serialize : A -> Buffer -> outcome Buffer) (size : Z) (xs : list A) (outp : Buffer) (n : Z) : outcome (Buffer * list A * Z) :=
  match xs with
  | x :: xs' =>
      if b_len outp + size + 16 <? PC then outp ← serialize x outp; fill_loop serialize size xs' outp (n + 1)
      else Ok (outp, xs, n)
  | [] => Ok (outp, [], n)
  end.

(** The number of credentials, which is written last, and the credentials. *)
Definition push_some {A} (serialize : A -> Buffer -> outcome Buffer) (size : Z) (xs : list A) (outp : Buffer) : outcome (Buffer * list A) :=
  let countAt := b_len outp in
  outp ← Buffer_addSize PC outp 2;
  '(outp, xs, n) ← fill_loop serialize size xs outp 0;
  outp ← Buffer_setAt outp 2 countAt n;
  Ok (outp, xs).

(** One packet, after the certificate of membership. *)
Definition push_rest (buf : list Z) (sendCap : option Capability) (tags : list Tag) (coos : list COO) (outp : Buffer) : outcome (Buffer * list Tag * list COO) :=
  outp ← Buffer_append_int PC outp 1 0;
  outp ← match sendCap with
         | Some c => outp ← Buffer_append_int PC outp 2 1; Capability_serialize PC c false outp
         | None => Buffer_append_int PC outp 2 0
         end;
  '(outp, tags) ← push_some (fun t => Tag_serialize PC t false) sizeof_Tag tags outp;
  outp ← Buffer_append_int PC outp 2 0;
  '(outp, coos) ← push_some (fun c => COO_serialize PC c false) sizeof_COO coos outp;
  '(_, outp) ← Packet_compress buf outp;
  Ok (outp, tags, coos).

Definition set_pushed (m : Membership) (com : Z) (tags caps coos : list Z) : Membership :=
  mkMembership (ms_lastUpdatedMulticast m) com (ms_comRevocationThreshold m) (ms_com m) (ms_revocations m) (ms_remoteTags m)
    (ms_remoteCaps m) (ms_remoteCoos m) tags caps coos.

Section Push.
Context (M : PacketMemory) (self now peerAddress : Z) (nconf : NetworkConfig).

Fixpoint push_loop (fuel : nat) (sendCom : bool) (sendCap : option Capability) (tags : list Tag) (coos : list COO) : sm (Membership * list Buffer) unit :=
  match sendCom, sendCap, tags, coos with
  | false, None, [], [] => mret tt
  | _, _, _, _ =>
      match fuel with
      | O => lift Undef
      | S fuel =>
          s ← get_state;
          outp ← lift (Packet_new M (length s.2) peerAddress self VERB_NETWORK_CREDENTIALS);
          outp ← (if sendCom then
                    outp ← lift (COM_serialize PC (nc_com nconf) outp);
                    _ ← modify (fun '(m, sent) => (set_pushed m now (ms_pushedTags m) (ms_pushedCaps m) (ms_pushedCoos m), sent));
                    mret outp
                  else mret outp);
          '(outp, tags, coos) ← lift (push_rest (pm_buf M (length s.2)) sendCap tags coos outp);
          _ ← modify (fun '(m, sent) => (m, sent ++ [outp]));
          push_loop fuel false None tags coos
      end
  end.

Definition pushCredentials (localCapabilityIndex : Z) (force : bool) : sm (Membership * list Buffer) unit :=
  s ← get_state;
  let m := s.1 in
  sendCom ← (if COM_bool (nc_com nconf) then d ← lift (sub_s64 now (ms_lastPushedCom m)); mret ((ZT_CREDENTIAL_PUSH_EVERY <=? d) || force) else mret false);
  '(caps, sendCap) ← lift (due_cap force now localCapabilityIndex (nc_capabilities nconf) (ms_pushedCaps m));
  '(tags, sendTags) ← lift (due_loop force now 0 (nc_tags nconf) (ms_pushedTags m));
  '(coos, sendCoos) ← lift (due_loop force now 0 (nc_certificatesOfOwnership nconf) (ms_pushedCoos m));
  _ ← modify (fun '(m, sent) => (set_pushed m (ms_lastPushedCom m) tags caps coos, sent));
  push_loop (S (S (length sendTags + length sendCoos))) sendCom sendCap sendTags sendCoos.
End Push.

(** ** Packets on their way *)

Record memory_ok (M : PacketMemory) : Prop := {
  mo_iv n : zlen (pm_iv M n) = 8 /\ Forall is_byte (pm_iv M n);
  mo_stack n : zlen (pm_stack M n) = PC /\ Forall is_byte (pm_stack M n);
  mo_buf n : zlen (pm_buf M n) = PC * 2
}.

(** A packet that is for [dest] and, after uncompress(), has the verb and the payload. *)
Definition sent_as (verb dest source : Z) (payload : list Z) (p : Buffer) : Prop :=
  buf_wf PC p /\ 28 <= b_len p <= 28 + zlen payload /\ Packet_destination p = Ok dest /\ Packet_source p = Ok source /\
  forall adata abuf buf, addresses_ok adata abuf -> zlen buf = PC -> Forall is_byte buf ->
    exists p', Packet_uncompress adata abuf buf p = Ok (true, p') /\ buf_wf PC p' /\ Packet_verb p' = Ok verb /\
      Packet_destination p' = Ok dest /\ Packet_source p' = Ok source /\ has_at p' 28 payload /\ b_len p' = 28 + zlen payload.

(** A new packet, before something is appended. *)
Definition fresh (verb dest source : Z) (b : Buffer) : Prop :=
  buf_wf PC b /\ b_len b = 28 /\ slice 8 5 (buf_data b) = be_bytes 5 dest /\ slice 13 5 (buf_data b) = be_bytes 5 source /\ zget (buf_data b) 27 = Some verb.

Lemma Packet_new_Ok M n dest source verb : memory_ok M -> is_byte verb -> exists b, Packet_new M n dest source verb = Ok b /\ fresh verb dest source b.
Proof.
  intros HM Hv. destruct (mo_iv M HM n), (mo_stack M HM n). destruct (Packet_reset_Ok (pm_stack M n) (pm_iv M n) dest source verb) as (b & E & Hb & Hl & Hd & Hs & Hg); [done..|].
  exists b. split; [done|]. split; [done|]. split; [done|]. split; [done|]. split; [done|]. rewrite Hg. f_equal. by apply wrap_id.
Qed.

(** Everything that is in front of the payload stays when something is appended. *)
Lemma fresh_appended verb dest source b b' d :
  fresh verb dest source b -> is_byte verb -> in_range 40 dest -> in_range 40 source -> buf_wf PC b' -> buf_data b' = buf_data b ++ d ->
  b_len b' = 28 + zlen d /\ Packet_destination b' = Ok dest /\ Packet_source b' = Ok source /\ Buffer_index b' 27 = Ok verb /\ has_at b' 28 d.
Proof.
  intros (Hb & Hl & Hd & Hs & Hv) Hvb Hdr Hsr Hb' E. pose proof (zlen_buf_data PC b Hb) as Hz. pose proof (zlen_buf_data PC b' Hb') as Hz'.
  rewrite E, zlen_app in Hz'. pose proof (zlen_nonneg d). split; [lia|]. unfold Packet_destination, Packet_source, ZT_PACKET_IDX_DEST, ZT_PACKET_IDX_SOURCE.
  rewrite !read_address_Ok by (done || lia). rewrite E, !slice_app_l by lia. rewrite Hd, Hs, !be_val_be_bytes. unfold in_range in *.
  change (256 ^ Z.of_nat 5) with (2 ^ 40). rewrite !Z.mod_small by lia. split; [done|]. split; [done|]. split.
  - destruct (index_Ok PC b' 27 Hb') as (v & -> & Hg); [lia|]. f_equal. assert (Hg' : zget (buf_data b') 27 = Some verb) by (rewrite E, zget_app, Hz, Hl; done).
    congruence.
  - split; [done|]. exists (buf_data b), []. rewrite app_nil_r. split; [done|lia].
Qed.

Lemma verb_facts v : in_range 5 v -> is_byte v /\ Z.land v 0x80 = 0 /\ Z.land v 0x1f = v.
Proof.
  intros Hv. assert (Hb : is_byte v) by (unfold in_range in *; lia). split; [done|].
  assert (H : forallb (fun v => implb (v <? 32) ((Z.land v 0x80 =? 0) && (Z.land v 0x1f =? v))) all_bytes = true) by (vm_compute; reflexivity).
  apply (byte_forall _ H) in Hb. unfold in_range in Hv. rewrite (proj2 (Z.ltb_lt _ _)) in Hb by lia. apply andb_true_iff in Hb as [?%Z.eqb_eq ?%Z.eqb_eq]. done.
Qed.

(** compress() makes what is sent. *)
Lemma compress_sent verb dest source b b' d buf :
  fresh verb dest source b -> in_range 5 verb -> in_range 40 dest -> in_range 40 source -> buf_wf PC b' -> buf_data b' = buf_data b ++ d -> zlen buf = PC * 2 ->
  exists c p, Packet_compress buf b' = Ok (c, p) /\ sent_as verb dest source d p.
Proof.
  intros Hf Hv Hdr Hsr Hb' E Hbuf. destruct (verb_facts verb Hv) as (Hvb & Hv0 & Hv1).
  destruct (fresh_appended verb dest source b b' d Hf Hvb Hdr Hsr Hb' E) as (Hl & Hd & Hs & Hi & Hh). pose proof (zlen_nonneg d).
  assert (Hc : Packet_compressed b' = Ok false).
  { unfold Packet_compressed, ZT_PACKET_IDX_VERB, ZT_PROTO_VERB_FLAG_COMPRESSED. rewrite Hi. cbn [mbind outcome_bind]. by rewrite Hv0. }
  assert (Hcu := fun bufu adata abuf => compress_uncompress buf bufu adata abuf b' Hb' ltac:(lia) Hc Hbuf).
  destruct (Hcu (replicate (Z.to_nat PC) 0) 0 0) as (c & p & _ & Ec & Hp & Hpc & Hpl & _ & Hhd & _); [by rewrite zlen_replicate_Z|by apply Forall_replicate|done|].
  assert (H28 : 28 <= b_len p).
  { unfold Packet_compressed in Hpc. destruct (Z.leb_spec (b_len p) 27); [|lia]. by rewrite (index_Throw p ZT_PACKET_IDX_VERB) in Hpc by done. }
  assert (Hsl : forall i n, 0 <= i -> 0 <= n -> i + n <= 27 -> slice i n (buf_data p) = slice i n (buf_data b')).
  { intros i n Hi0 Hn Hin. rewrite <- (ztake_zdrop 27 (buf_data p)), <- (ztake_zdrop 27 (buf_data b')), Hhd.
    assert (zlen (ztake 27 (buf_data b')) = 27) by (rewrite zlen_ztake; rewrite ?(zlen_buf_data PC) by done; lia). by rewrite !slice_app_l by lia. }
  exists c, p. split; [done|]. split; [done|]. split; [lia|]. unfold Packet_destination, Packet_source, ZT_PACKET_IDX_DEST, ZT_PACKET_IDX_SOURCE in *.
  rewrite !read_address_Ok in * by (done || lia). rewrite !Hsl by lia. split; [done|]. split; [done|].
  intros adata abuf bufu Ha Hbu Hbub. destruct (Hcu bufu adata abuf) as (c1 & p1 & p' & Ec1 & _ & _ & _ & _ & _ & Eu & Hp' & Hd'); [done..|].
  rewrite Ec in Ec1. injection Ec1 as <- <-. rewrite E in Hd'. destruct (fresh_appended verb dest source b p' d Hf Hvb Hdr Hsr Hp' Hd') as (Hl' & Hdd & Hss & Hi' & Hh').
  exists p'. split; [done|]. split; [done|]. unfold Packet_verb, ZT_PACKET_IDX_VERB. rewrite Hi'. cbn [mbind outcome_bind]. by rewrite Hv1.
Qed.

(** ** What a packet of credentials holds *)

Record Bundle : Type := mkBundle { bd_coms : list COM; bd_caps : list Capability; bd_tags : list Tag; bd_revs : list Revocation; bd_coos : list COO }.

Definition rev_enc (r : Revocation) : list Z := cred_enc (revocation_body r) (rev_signature r) false.
Definition counted {A} (enc : A -> list Z) (xs : list A) : list Z := be_bytes 2 (zlen xs) ++ mjoin (enc <$> xs).
Definition bundle_enc (b : Bundle) : list Z :=
  mjoin (com_enc <$> bd_coms b) ++ be_bytes 1 0 ++ counted (fun c => cap_enc c (cap_live c)) (bd_caps b) ++ counted tag_enc (bd_tags b) ++
  counted rev_enc (bd_revs b) ++ counted coo_enc (bd_coos b).

Section Fill.
Context {A : Type} (serialize : A -> Buffer -> outcome Buffer) (enc : A -> list Z) (size : Z).
Context (Hser : A -> Prop) (Happ : forall x, Hser x -> appends PC (serialize x) (enc x) /\ zlen (enc x) <= size).

Lemma fill_loop_Ok xs : Forall Hser xs -> forall b n, buf_wf PC b ->
  exists k b', fill_loop serialize size xs b n = Ok (b', drop k xs, n + Z.of_nat k) /\ (k <= length xs)%nat /\ buf_wf PC b' /\
    buf_data b' = buf_data b ++ mjoin (enc <$> take k xs) /\ b_len b' <= Z.max (b_len b) (PC - 17) /\ (b_len b + size + 16 < PC -> xs <> [] -> (0 < k)%nat).
Proof.
  induction 1 as [|x xs Hx _ IH]; intros b n Hb; cbn [fill_loop].
  - exists 0%nat, b. rewrite Z.add_0_r. cbn [take fmap list_fmap mjoin list_join]. rewrite app_nil_r. split_and!; done || lia.
  - destruct (Happ x Hx) as [Ha Hz]. destruct (Z.ltb_spec (b_len b + size + 16) PC) as [Hlt|Hge].
    + pose proof (proj2 Ha b Hb) as Hab. rewrite (proj2 (Z.leb_le _ _)) in Hab by lia. destruct Hab as (b1 & E1 & Hb1 & Hd1). rewrite E1. cbn [mbind outcome_bind].
      destruct (IH b1 (n + 1) Hb1) as (k & b' & E & Hk & Hb' & Hd' & Hm & _). exists (S k), b'. cbn [drop take length]. rewrite E.
      split; [do 2 f_equal; lia|]. split; [lia|]. split; [done|]. change (mjoin (enc <$> x :: take k xs)) with (enc x ++ mjoin (enc <$> take k xs)).
      split; [by rewrite Hd', Hd1, app_assoc|]. split; [|lia].
      assert (b_len b1 = b_len b + zlen (enc x)) by (rewrite <- (zlen_buf_data PC b1 Hb1), Hd1, zlen_app, (zlen_buf_data PC b Hb); done). lia.
    + exists 0%nat, b. rewrite Z.add_0_r. cbn [take drop fmap list_fmap mjoin list_join]. rewrite app_nil_r. split_and!; done || lia.
Qed.

Lemma push_some_Ok xs b : Forall Hser xs -> zlen xs < 2 ^ 16 -> buf_wf PC b -> b_len b + 2 <= PC ->
  exists k b', push_some serialize size xs b = Ok (b', drop k xs) /\ buf_wf PC b' /\ buf_data b' = buf_data b ++ counted enc (take k xs) /\
    b_len b' <= Z.max (b_len b + 2) (PC - 17) /\ (b_len b + 2 + size + 16 < PC -> xs <> [] -> (0 < k)%nat).
Proof.
  intros Hxs Hn Hb Hl. unfold push_some. pose proof Hb as [Hm Hbb Hbl Hcap].
  unfold Buffer_addSize, bounds_check. unfold u32. rewrite !wrap_id by (unfold in_range; lia). rewrite (proj2 (Z.ltb_ge _ _)) by lia. cbn [mbind outcome_bind].
  set (b1 := mkBuffer (b_mem b) (b_len b + 2)). assert (Hb1 : buf_wf PC b1) by (split; cbn; done || lia).
  assert (Hd1 : exists g, buf_data b1 = buf_data b ++ g /\ zlen g = 2).
  { exists (slice (b_len b) 2 (b_mem b)). unfold buf_data, b1. cbn [b_len b_mem]. split; [|rewrite zlen_slice; lia]. rewrite <- !slice_0. rewrite (slice_split 0 (b_len b) (b_len b + 2)) by lia. do 2 f_equal; lia. }
  destruct Hd1 as (g & Hd1 & Hg). destruct (fill_loop_Ok xs Hxs b1 0 Hb1) as (k & b2 & E & Hk & Hb2 & Hd2 & Hmax & Hpos). rewrite E. cbn [mbind outcome_bind].
  unfold Buffer_setAt, bounds_check. pose proof (zlen_buf_data PC b2 Hb2) as Hz2. rewrite Hd2, Hd1, !zlen_app, (zlen_buf_data PC b Hb), Hg in Hz2.
  pose proof (zlen_nonneg (mjoin (enc <$> take k xs))). change (Z.of_nat 2) with 2. rewrite (proj2 (Z.ltb_ge _ _)) by lia. cbn [mbind outcome_bind].
  destruct (store_refines PC b2 Hb2 (b_len b) (be_bytes 2 (0 + Z.of_nat k))) as (m & Em & Hwf & Hdata); [lia|apply be_bytes_bytes|rewrite zlen_be_bytes; lia|].
  rewrite Em. cbn [mbind outcome_bind]. exists k. eexists. split; [done|]. split; [done|].
  split; [|unfold b1 in Hmax; cbn [b_len] in *; split; [lia|]; intros; apply Hpos; [unfold b1; cbn [b_len]; lia|done]].
  rewrite Hdata, zlen_be_bytes, Hd2, Hd1, <- app_assoc. unfold counted. change (Z.of_nat 2) with 2.
  pose proof (zlen_buf_data PC b Hb). rewrite ztake_app_exact by done. rewrite (app_assoc (buf_data b) g), zdrop_app_exact by (rewrite ?zlen_app; lia).
  do 4 f_equal. unfold zlen. rewrite length_take. lia.
Qed.
End Fill.

(** *** Sizes *)

Lemma zlen_tag_enc t : tag_wf t -> zlen (tag_enc t) = 135.
Proof. intros Hw. unfold tag_enc, cred_enc, tag_body, sig_enc. rewrite !zlen_app, !zlen_be_bytes, (proj1 (tw_signature t Hw)). reflexivity. Qed.

Lemma zlen_coo_enc c : coo_wf c -> zlen (coo_enc c) <= 413.
Proof.
  intros [Hw Hc]. unfold coo_enc, cred_enc, coo_body, sig_enc. rewrite !zlen_app, !zlen_be_bytes, (proj1 (ow_signature c Hw)).
  rewrite zlen_thing_encs by (eapply Forall_impl; [apply (things_ok c Hw)|]; intros ? (_ & ? & _); done). rewrite (zlen_things c Hw). lia.
Qed.

Lemma zlen_com_enc c : com_wf c -> zlen (com_enc c) <= 296.
Proof.
  intros Hw. unfold com_enc. rewrite !zlen_app, !zlen_be_bytes, zlen_q_encs, (zlen_live c Hw). pose proof (cw_count c Hw).
  destruct (Address_bool _); [rewrite (proj1 (cw_sig c Hw))|rewrite zlen_nil]; lia.
Qed.

Lemma zlen_cap_enc c live : cap_wf c live -> zlen (cap_enc c live) <= 2137.
Proof.
  intros Hw. unfold cap_enc, cap_body. rewrite !zlen_app, !zlen_be_bytes. pose proof (rule_encs_length _ (cpw_rules c live Hw)). pose proof (cpw_count c live Hw).
  pose proof (cpw_live c live Hw). pose proof (cpw_max c live Hw).
  assert (Hc : zlen (mjoin (custody_enc <$> live)) = 109 * zlen live); [|lia]. pose proof (cpw_entries c live Hw) as He. clear -He.
  induction He as [|x l Hx _ IH]; [done|]. change (mjoin (custody_enc <$> x :: l)) with (custody_enc x ++ mjoin (custody_enc <$> l)).
  rewrite zlen_app, IH. unfold custody_enc at 1, sig_enc. rewrite !zlen_app, !zlen_be_bytes, (proj1 (co_signature x Hx)). unfold zlen. cbn [length]. lia.
Qed.

Lemma appends_fits f d b : appends PC f d -> buf_wf PC b -> b_len b + zlen d <= PC ->
  exists b', f b = Ok b' /\ buf_wf PC b' /\ buf_data b' = buf_data b ++ d /\ b_len b' = b_len b + zlen d.
Proof.
  intros Ha Hb Hl. pose proof (proj2 Ha b Hb) as H. rewrite (proj2 (Z.leb_le _ _)) in H by done. destruct H as (b' & E & Hb' & Hd).
  exists b'. split_and!; try done. by rewrite <- (zlen_buf_data PC b' Hb'), Hd, zlen_app, (zlen_buf_data PC b Hb).
Qed.

(** *** One packet *)

Section Rest.
Context (dest source : Z) (Hdest : in_range 40 dest) (Hsource : in_range 40 source).

Lemma push_cap_Ok sendCap b : from_option (fun c => cap_wf c (cap_live c)) True sendCap -> buf_wf PC b -> b_len b <= 400 ->
  exists b', match sendCap with
             | Some c => outp ← Buffer_append_int PC b 2 1; Capability_serialize PC c false outp
             | None => Buffer_append_int PC b 2 0
             end = Ok b' /\ buf_wf PC b' /\ buf_data b' = buf_data b ++ counted (fun c => cap_enc c (cap_live c)) (option_list sendCap) /\ b_len b' <= b_len b + 2139.
Proof.
  intros Hc Hb Hl. destruct sendCap as [c|]; cbn [from_option option_list counted] in *.
  - assert (Ha : appends PC (fun b => Buffer_append_int PC b 2 1 ≫= Capability_serialize PC c false) (be_bytes 2 1 ++ cap_enc c (cap_live c))).
    { apply (appends_bind PC); [apply appends_int|]. by apply Capability_appends. }
    pose proof (zlen_cap_enc _ _ Hc). destruct (appends_fits _ _ b Ha Hb) as (b' & E & Hb' & Hd & Hl'); [rewrite zlen_app, zlen_be_bytes, PC_value; lia|].
    exists b'. split; [done|]. split; [done|]. rewrite zlen_app, zlen_be_bytes in Hl'. split; [|lia]. rewrite Hd, <- (app_nil_r (cap_enc _ _)). done.
  - destruct (appends_fits _ _ b (appends_int PC 2 0) Hb) as (b' & E & Hb' & Hd & Hl'); [rewrite zlen_be_bytes, PC_value; lia|]. exists b'. rewrite zlen_be_bytes in Hl'.
    split; [done|]. split; [done|]. split; [by rewrite Hd|lia].
Qed.

Lemma push_rest_Ok buf b0 b coms sendCap tags coos :
  fresh VERB_NETWORK_CREDENTIALS dest source b0 -> buf_wf PC b -> buf_data b = buf_data b0 ++ mjoin (com_enc <$> coms) -> b_len b <= 324 ->
  from_option (fun c => cap_wf c (cap_live c)) True sendCap -> Forall tag_wf tags -> Forall coo_wf coos -> zlen tags < 2 ^ 16 -> zlen coos < 2 ^ 16 -> zlen buf = PC * 2 ->
  exists kt kc p, push_rest buf sendCap tags coos b = Ok (p, drop kt tags, drop kc coos) /\
    sent_as VERB_NETWORK_CREDENTIALS dest source (bundle_enc (mkBundle coms (option_list sendCap) (take kt tags) [] (take kc coos))) p /\
    (tags <> [] -> (0 < kt)%nat) /\ (tags = [] -> coos <> [] -> (0 < kc)%nat).
Proof.
  intros Hf Hb Hd Hl Hc Ht Ho Htn Hon Hbuf. unfold push_rest.
  destruct (appends_fits _ _ b (appends_int PC 1 0) Hb) as (b1 & -> & Hb1 & Hd1 & Hl1); [rewrite zlen_be_bytes, PC_value; lia|]. rewrite zlen_be_bytes in Hl1. cbn [mbind outcome_bind].
  destruct (push_cap_Ok sendCap b1 Hc Hb1) as (b2 & -> & Hb2 & Hd2 & Hl2); [lia|]. cbn [mbind outcome_bind].
  destruct (push_some_Ok (fun t => Tag_serialize PC t false) tag_enc sizeof_Tag tag_wf) with (xs := tags) (b := b2) as (kt & b3 & -> & Hb3 & Hd3 & Hl3 & Hkt);
    [intros t Hw; split; [by apply Tag_appends|rewrite zlen_tag_enc by done; done]|done|done|done|rewrite PC_value; lia|]. cbn [mbind outcome_bind].
  rewrite PC_value in Hl3, Hkt. destruct (appends_fits _ _ b3 (appends_int PC 2 0) Hb3) as (b4 & -> & Hb4 & Hd4 & Hl4); [rewrite zlen_be_bytes, PC_value; lia|].
  rewrite zlen_be_bytes in Hl4. cbn [mbind outcome_bind].
  destruct (push_some_Ok (fun c => COO_serialize PC c false) coo_enc sizeof_COO coo_wf) with (xs := coos) (b := b4) as (kc & b5 & -> & Hb5 & Hd5 & Hl5 & Hkc);
    [intros c Hw; split; [by apply COO_appends|pose proof (zlen_coo_enc c Hw); unfold sizeof_COO; lia]|done|done|done|rewrite PC_value; lia|]. cbn [mbind outcome_bind].
  assert (Hd6 : buf_data b5 = buf_data b0 ++ bundle_enc (mkBundle coms (option_list sendCap) (take kt tags) [] (take kc coos))).
  { rewrite Hd5, Hd4, Hd3, Hd2, Hd1, Hd. unfold bundle_enc. cbn [bd_coms bd_caps bd_tags bd_revs bd_coos]. change (counted rev_enc []) with (be_bytes 2 0).
    by rewrite <- !app_assoc. }
  destruct (compress_sent _ _ _ _ _ _ buf Hf ltac:(done) Hdest Hsource Hb5 Hd6 Hbuf) as (c & p & -> & Hp). cbn [mbind outcome_bind].
  exists kt, kc, p. split; [done|]. split; [done|]. split; [intros H; apply Hkt; [unfold sizeof_Tag; lia|done]|].
  intros -> H. rewrite take_nil in Hd3. assert (b_len b3 = b_len b2 + 2).
  { rewrite <- (zlen_buf_data PC b3 Hb3), Hd3, zlen_app, (zlen_buf_data PC b2 Hb2). reflexivity. }
  apply Hkc; [rewrite PC_value; unfold sizeof_COO; lia|done].
Qed.
End Rest.

(** *** All packets *)

Definition bundle_app (a b : Bundle) : Bundle :=
  mkBundle (bd_coms a ++ bd_coms b) (bd_caps a ++ bd_caps b) (bd_tags a ++ bd_tags b) (bd_revs a ++ bd_revs b) (bd_coos a ++ bd_coos b).
Definition bundle_concat (l : list Bundle) : Bundle := foldr bundle_app (mkBundle [] [] [] [] []) l.

(** Our credentials that a configuration holds. *)
Record creds_wf (nconf : NetworkConfig) : Prop := {
  cs_com : com_wf (nc_com nconf);
  cs_caps : Forall (fun c => cap_wf c (cap_live c)) (nc_capabilities nconf);
  cs_tags : Forall tag_wf (nc_tags nconf);
  cs_coos : Forall coo_wf (nc_certificatesOfOwnership nconf);
  cs_sizes : zlen (nc_capabilities nconf) <= ZT_MAX_NETWORK_CAPABILITIES /\ zlen (nc_tags nconf) <= ZT_MAX_NETWORK_TAGS /\
    zlen (nc_certificatesOfOwnership nconf) <= ZT_MAX_CERTIFICATES_OF_OWNERSHIP
}.

Section Loop.
Context (M : PacketMemory) (self now peer : Z) (nconf : NetworkConfig).
Context (HM : memory_ok M) (Hself : in_range 40 self) (Hpeer : in_range 40 peer) (Hcom : com_wf (nc_com nconf)).

Definition com_pushed (sendCom : bool) (m : Membership) : Membership :=
  if sendCom then set_pushed m now (ms_pushedTags m) (ms_pushedCaps m) (ms_pushedCoos m) else m.
Definition com_list (sendCom : bool) : list COM := if sendCom then [nc_com nconf] else [].

(** One turn of the loop, which sends something. *)
Lemma push_turn fuel sendCom sendCap tags coos m sent :
  from_option (fun c => cap_wf c (cap_live c)) True sendCap -> Forall tag_wf tags -> Forall coo_wf coos -> zlen tags < 2 ^ 16 -> zlen coos < 2 ^ 16 ->
  (sendCom, sendCap, tags, coos) <> (false, None, [], []) ->
  exists kt kc p, push_loop M self now peer nconf (S fuel) sendCom sendCap tags coos (m, sent) =
      push_loop M self now peer nconf fuel false None (drop kt tags) (drop kc coos) (com_pushed sendCom m, sent ++ [p]) /\
    sent_as VERB_NETWORK_CREDENTIALS peer self (bundle_enc (mkBundle (com_list sendCom) (option_list sendCap) (take kt tags) [] (take kc coos))) p /\
    (tags <> [] -> (0 < kt)%nat) /\ (tags = [] -> coos <> [] -> (0 < kc)%nat).
Proof.
  intros Hc Ht Ho Htn Hon Hne.
  destruct (Packet_new_Ok M (length sent) peer self VERB_NETWORK_CREDENTIALS HM ltac:(done)) as (b0 & E0 & Hf).
  pose proof Hf as (Hb0 & Hl0 & _). pose proof (zlen_com_enc _ Hcom).
  destruct (appends_fits _ _ b0 (COM_appends PC _ Hcom ltac:(done)) Hb0) as (b1 & E1 & Hb1 & Hd1 & Hl1); [rewrite PC_value; lia|].
  assert (Hb : exists b, buf_wf PC b /\ buf_data b = buf_data b0 ++ mjoin (com_enc <$> com_list sendCom) /\ b_len b <= 324 /\
    b = if sendCom then b1 else b0).
  { destruct sendCom; eexists; (split; [|split; [|split; [|reflexivity]]]); try done; try lia; cbn [com_list fmap list_fmap mjoin list_join]; rewrite ?app_nil_r; done. }
  destruct Hb as (b & Hb & Hd & Hl & Eb).
  destruct (push_rest_Ok peer self Hpeer Hself (pm_buf M (length sent)) b0 b (com_list sendCom) sendCap tags coos) as (kt & kc & p & Er & Hp & Hkt & Hkc); try done; [apply HM|].
  exists kt, kc, p. split; [|done]. transitivity ((s ← get_state;
          outp ← lift (Packet_new M (length s.2) peer self VERB_NETWORK_CREDENTIALS);
          outp ← (if sendCom then
                    outp ← lift (COM_serialize PC (nc_com nconf) outp);
                    _ ← modify (fun '(m, sent) => (set_pushed m now (ms_pushedTags m) (ms_pushedCaps m) (ms_pushedCoos m), sent));
                    mret outp
                  else mret outp);
          '(outp, tags, coos) ← lift (push_rest (pm_buf M (length s.2)) sendCap tags coos outp);
          _ ← modify (fun '(m, sent) => (m, sent ++ [outp]));
          push_loop M self now peer nconf fuel false None tags coos) (m, sent)).
  { destruct sendCom, sendCap, tags, coos; done || (by destruct Hne). }
  erewrite sm_bind_Ok by reflexivity. cbn [snd]. erewrite sm_bind_Ok by (unfold lift; by rewrite E0).
  erewrite (sm_bind_Ok _ _ _ (com_pushed sendCom m, sent) b).
  2:{ destruct sendCom; subst b; [|done]. erewrite sm_bind_Ok by (unfold lift; by rewrite E1). done. }
  erewrite sm_bind_Ok by (unfold lift; by rewrite Er). cbn beta iota. by erewrite sm_bind_Ok by reflexivity.
Qed.

Lemma push_loop_Ok fuel : forall sendCom sendCap tags coos m sent,
  from_option (fun c => cap_wf c (cap_live c)) True sendCap -> Forall tag_wf tags -> Forall coo_wf coos -> zlen tags < 2 ^ 16 -> zlen coos < 2 ^ 16 ->
  (length tags + length coos + (if sendCom || bool_decide (is_Some sendCap) then 1 else 0) <= fuel)%nat ->
  exists packets bundles, push_loop M self now peer nconf fuel sendCom sendCap tags coos (m, sent) = ((com_pushed sendCom m, sent ++ packets), Ok tt) /\
    Forall2 (fun p b => sent_as VERB_NETWORK_CREDENTIALS peer self (bundle_enc b) p) packets bundles /\
    bundle_concat bundles = mkBundle (com_list sendCom) (option_list sendCap) tags [] coos.
Proof.
  induction fuel as [|fuel IH]; intros sendCom sendCap tags coos m sent Hc Ht Ho Htn Hon Hfuel.
  all: destruct (decide ((sendCom, sendCap, tags, coos) = (false, None, [], []))) as [E|Hne].
  1,3: simplify_eq; exists [], []; rewrite app_nil_r; split; [by destruct m|by split].
  - destruct sendCom, sendCap, tags, coos; cbn in Hfuel; done || lia.
  - destruct (push_turn fuel sendCom sendCap tags coos m sent Hc Ht Ho Htn Hon Hne) as (kt & kc & p & E & Hp & Hkt & Hkc). rewrite E.
    destruct (IH false None (drop kt tags) (drop kc coos) (com_pushed sendCom m) (sent ++ [p])) as (ps & bs & E2 & Hall & Hcat); try done.
    1,2: by apply Forall_drop.
    1,2: unfold zlen in *; rewrite length_drop; lia.
    { rewrite !length_drop. cbn. destruct tags as [|t tags]; [destruct coos as [|c coos]|]; cbn [length] in *.
      - destruct sendCom, sendCap; cbn in Hfuel; done || lia.
      - specialize (Hkc eq_refl ltac:(done)). lia.
      - specialize (Hkt ltac:(done)). lia. }
    exists (p :: ps), (mkBundle (com_list sendCom) (option_list sendCap) (take kt tags) [] (take kc coos) :: bs). rewrite E2, <- app_assoc.
    split; [done|]. split; [by constructor|]. cbn [bundle_concat foldr]. fold (bundle_concat bs). rewrite Hcat. unfold bundle_app.
    cbn [bd_coms bd_caps bd_tags bd_revs bd_coos com_list option_list]. by rewrite !app_nil_r, !take_drop.
Qed.
End Loop.

(** ** What is due *)

Definition due {A} (force : bool) (now : Z) (xs : list A) (pushed : list Z) : list A :=
  (List.filter (fun xl => push_due force now xl.2) (zip xs pushed)).*1.
(** The times of the first [n] credentials after those due were sent. *)
Definition stamp (force : bool) (now : Z) (n : nat) (pushed : list Z) : list Z :=
  ((fun last => if push_due force now last then u64 now else last) <$> take n pushed) ++ drop n pushed.

Lemma due_loop_Ok {A} force now (xs : list A) : forall pre post i, zlen pre = i -> (length xs <= length post)%nat ->
  due_loop force now i xs (pre ++ post) = Ok (pre ++ stamp force now (length xs) post, due force now xs post).
Proof.
  induction xs as [|x xs IH]; intros pre post i Hi Hl; cbn [due_loop]; [done|].
  destruct post as [|last post]; cbn [length] in Hl; [lia|]. rewrite (load_seg pre last post i Hi : load (pre ++ last :: post) i = Ok last). cbn [mbind outcome_bind]. unfold due, stamp. cbn [zip zip_with List.filter snd fst take drop fmap list_fmap length].
  assert (Hp : forall v, zlen (pre ++ [v]) = i + 1) by (intros v; rewrite zlen_app, Hi; done). destruct (push_due force now last).
  - change (last :: post) with ([last] ++ post). rewrite (mem_write_seg pre [last] post i [u64 now]) by done. cbn [mbind outcome_bind app]. replace (pre ++ u64 now :: post) with ((pre ++ [u64 now]) ++ post) by (by rewrite <- app_assoc).
    rewrite (IH _ _ _ (Hp _)) by lia. cbn [mbind outcome_bind]. by rewrite <- app_assoc.
  - replace (pre ++ last :: post) with ((pre ++ [last]) ++ post) by (by rewrite <- app_assoc). rewrite (IH _ _ _ (Hp _)) by lia. by rewrite <- app_assoc.
Qed.

Section Due.
Context (nconf : NetworkConfig) (m : Membership) (now idx : Z) (force : bool).

Definition com_due : bool := COM_bool (nc_com nconf) && ((ZT_CREDENTIAL_PUSH_EVERY <=? now - ms_lastPushedCom m) || force).
Definition cap_due : option Capability :=
  c ← zget (nc_capabilities nconf) idx; last ← zget (ms_pushedCaps m) idx; if push_due force now last then Some c else None.

(** The credentials to send: those not sent for twenty seconds, or all. *)
Definition due_bundle : Bundle :=
  mkBundle (com_list nconf com_due) (option_list cap_due) (due force now (nc_tags nconf) (ms_pushedTags m)) []
    (due force now (nc_certificatesOfOwnership nconf) (ms_pushedCoos m)).
(** The membership after they were sent. *)
Definition pushed_membership : Membership :=
  set_pushed m (if com_due then now else ms_lastPushedCom m) (stamp force now (length (nc_tags nconf)) (ms_pushedTags m))
    (if cap_due is Some _ then <[Z.to_nat idx := u64 now]> (ms_pushedCaps m) else ms_pushedCaps m)
    (stamp force now (length (nc_certificatesOfOwnership nconf)) (ms_pushedCoos m)).
End Due.

(** The times of a membership, in arrays as large as those of a configuration. *)
Record push_state_ok (m : Membership) : Prop := {
  po_com : time_ok (ms_lastPushedCom m);
  po_tags : zlen (ms_pushedTags m) = ZT_MAX_NETWORK_TAGS;
  po_caps : zlen (ms_pushedCaps m) = ZT_MAX_NETWORK_CAPABILITIES;
  po_coos : zlen (ms_pushedCoos m) = ZT_MAX_CERTIFICATES_OF_OWNERSHIP
}.

Lemma mem_write_insert {A} (l : list A) i x : 0 <= i < zlen l -> mem_write l i [x] = Ok (<[Z.to_nat i := x]> l).
Proof.
  intros Hi. rewrite mem_write_Ok by (change (zlen [x]) with 1; lia). unfold zlen in Hi. rewrite insert_take_drop by lia. unfold ztake, zdrop. change (zlen [x]) with 1.
  by replace (Z.to_nat (i + 1)) with (S (Z.to_nat i)) by lia.
Qed.

Lemma due_cap_Ok force now idx caps pushed : zlen pushed = ZT_MAX_NETWORK_CAPABILITIES -> zlen caps <= ZT_MAX_NETWORK_CAPABILITIES -> idx < zlen caps ->
  let c := c ← zget caps idx; last ← zget pushed idx; if push_due force now last then Some c else None in
  due_cap force now idx caps pushed = Ok (if c is Some _ then <[Z.to_nat idx := u64 now]> pushed else pushed, c) /\ (forall x, c = Some x -> x ∈ caps).
Proof.
  intros Hp Hc Hi. unfold due_cap. destruct (Z.leb_spec 0 idx) as [H0|H0].
  2:{ assert (E : zget caps idx = None) by (unfold zget; by rewrite (proj2 (Z.leb_gt _ _)) by lia). rewrite E. by split. }
  destruct (proj2 (zget_range caps idx) ltac:(lia)) as [c Ec], (proj2 (zget_range pushed idx) ltac:(lia)) as [last El]. unfold load. rewrite Ec, El. cbn [mbind outcome_bind option_bind].
  destruct (push_due force now last); [|by split]. split; [by rewrite mem_write_insert by lia|]. intros x [= <-].
  unfold zget in Ec. rewrite (proj2 (Z.leb_le _ _)) in Ec by lia. by eapply list_elem_of_lookup_2.
Qed.

Lemma due_subset {A} (P : A -> Prop) force now xs pushed : Forall P xs -> Forall P (due force now xs pushed) /\ zlen (due force now xs pushed) <= zlen xs.
Proof.
  intros H. unfold due. revert pushed. induction H as [|x xs Hx _ IH]; intros [|last pushed]; cbn [zip zip_with List.filter fmap list_fmap snd fst]; try (by split; [constructor|unfold zlen; cbn [length]; lia]).
  destruct (IH pushed) as [H1 H2]. unfold zlen in *. destruct (push_due force now last); cbn [fmap list_fmap fst length]; (split; [try constructor; done|lia]).
Qed.

Lemma pushCredentials_Ok M self now peer nconf idx force m sent :
  memory_ok M -> in_range 40 self -> in_range 40 peer -> creds_wf nconf -> push_state_ok m -> time_ok now -> idx < zlen (nc_capabilities nconf) ->
  exists packets bundles, pushCredentials M self now peer nconf idx force (m, sent) = ((pushed_membership nconf m now idx force, sent ++ packets), Ok tt) /\
    Forall2 (fun p b => sent_as VERB_NETWORK_CREDENTIALS peer self (bundle_enc b) p) packets bundles /\
    bundle_concat bundles = due_bundle nconf m now idx force.
Proof.
  intros HM Hself Hpeer [Hcom Hcaps Htags Hcoos (Hn1 & Hn2 & Hn3)] [Hp1 Hp2 Hp3 Hp4] Hnow Hidx. unfold pushCredentials.
  erewrite sm_bind_Ok by reflexivity. cbn [fst]. erewrite (sm_bind_Ok _ _ _ (m, sent) (com_due nconf m now force)).
  2:{ unfold com_due. destruct (COM_bool _); [|done]. rewrite sub_s64_Ok by done. done. }
  destruct (due_cap_Ok force now idx (nc_capabilities nconf) (ms_pushedCaps m) Hp3 Hn1 Hidx) as [Ec Hc]. fold (cap_due nconf m now idx force) in Ec, Hc.
  erewrite sm_bind_Ok by (unfold lift; by rewrite Ec). cbn beta iota.
  unfold ZT_MAX_NETWORK_TAGS, ZT_MAX_CERTIFICATES_OF_OWNERSHIP, zlen in *.
  assert (Et := due_loop_Ok force now (nc_tags nconf) [] (ms_pushedTags m) 0 ltac:(done) ltac:(lia)).
  assert (Eo := due_loop_Ok force now (nc_certificatesOfOwnership nconf) [] (ms_pushedCoos m) 0 ltac:(done) ltac:(lia)). cbn [app] in Et, Eo.
  erewrite sm_bind_Ok by (unfold lift; by rewrite Et). cbn beta iota. erewrite sm_bind_Ok by (unfold lift; by rewrite Eo). cbn beta iota.
  erewrite sm_bind_Ok by reflexivity. cbn [app].
  destruct (due_subset tag_wf force now (nc_tags nconf) (ms_pushedTags m) Htags), (due_subset coo_wf force now (nc_certificatesOfOwnership nconf) (ms_pushedCoos m) Hcoos). unfold zlen in *.
  match goal with |- context [push_loop _ _ _ _ _ ?fuel ?a ?b ?c ?d (?m', _)] =>
    destruct (push_loop_Ok M self now peer nconf HM Hself Hpeer Hcom fuel a b c d m' sent) as (ps & bs & E & Hall & Hcat) end; try done; try (unfold zlen; lia).
  - destruct (cap_due nconf m now idx force) as [c|]; [|done]. cbn. rewrite Forall_forall in Hcaps. by apply Hcaps, Hc.
  - destruct (_ || _); lia.
  - exists ps, bs. rewrite E. split; [|done]. unfold pushed_membership, com_pushed. by destruct (com_due nconf m now force).
Qed.

(** C23: What is due is sent once, in packets that the member reads as those credentials, and the
    times are kept; nothing throws and the loop ends. *)
Theorem pushCredentials_delivers M self now peer nconf idx force m sent :
  memory_ok M -> in_range 40 self -> in_range 40 peer -> creds_wf nconf -> push_state_ok m -> time_ok now -> idx < zlen (nc_capabilities nconf) ->
  exists packets bundles, pushCredentials M self now peer nconf idx force (m, sent) = ((pushed_membership nconf m now idx force, sent ++ packets), Ok tt) /\
    Forall2 (fun p b => sent_as VERB_NETWORK_CREDENTIALS peer self (bundle_enc b) p) packets bundles /\
    bundle_concat bundles = due_bundle nconf m now idx force.
Proof. apply pushCredentials_Ok. Qed.

(** ** A configuration with two tags *)

Definition zero_memory : PacketMemory :=
  mkPacketMemory (fun _ => replicate 8 0) (fun _ => replicate (Z.to_nat PC) 0) (fun _ => replicate (Z.to_nat (PC * 2)) 0).

Lemma zero_memory_ok : memory_ok zero_memory.
Proof. split; intros n; cbn [zero_memory pm_iv pm_stack pm_buf]; [|split|]; rewrite ?zlen_replicate_Z by done; try done; try by apply Forall_replicate. split; [done|by apply Forall_replicate]. Qed.

(** A packet with the bytes [d]. *)
Definition sample_packet (d : list Z) : Buffer := mkBuffer (d ++ replicate (Z.to_nat (PC - zlen d)) 0) (zlen d).

Lemma sample_packet_ok d : Forall is_byte d -> zlen d <= PC -> buf_wf PC (sample_packet d) /\ buf_data (sample_packet d) = d.
Proof.
  intros Hd Hl. pose proof (zlen_nonneg d). split; [|unfold buf_data; cbn [sample_packet b_len b_mem]; by apply ztake_app_exact]. constructor; cbn [sample_packet b_mem b_len]; [|..|by rewrite PC_value].
  - rewrite zlen_app, zlen_replicate_Z by lia. lia.
  - apply Forall_app_2; [done|by apply Forall_replicate].
  - lia.
Qed.

Lemma sample_creds_wf n : Z.of_nat n <= 128 -> creds_wf (sample_config n).
Proof.
  intros Hn. destruct (sample_config_wf n). constructor; [done..|]. cbn [sample_config nc_capabilities nc_tags nc_certificatesOfOwnership].
  unfold ZT_MAX_NETWORK_CAPABILITIES, ZT_MAX_NETWORK_TAGS, ZT_MAX_CERTIFICATES_OF_OWNERSHIP, zlen. rewrite length_replicate. cbn [length]. lia.
Qed.

Lemma Membership_new_push_ok : push_state_ok Membership_new.
Proof. by constructor. Qed.

Lemma pushCredentials_delivers_witness : exists packets bundles,
  pushCredentials zero_memory 0x11 100000 0x99 (sample_config 2) (-1) false (Membership_new, []) =
    ((pushed_membership (sample_config 2) Membership_new 100000 (-1) false, packets), Ok tt) /\
  Forall2 (fun p b => sent_as VERB_NETWORK_CREDENTIALS 0x99 0x11 (bundle_enc b) p) packets bundles /\
  bd_tags (bundle_concat bundles) = [Samples.tag; Samples.tag].
Proof.
  destruct (pushCredentials_delivers zero_memory 0x11 100000 0x99 (sample_config 2) (-1) false Membership_new []) as (ps & bs & H1 & H2 & H3);
    [apply zero_memory_ok|done|done|apply sample_creds_wf; lia|apply Membership_new_push_ok|done|done|].
  exists ps, bs. split; [exact H1|]. split; [exact H2|]. rewrite H3. reflexivity.
Defined.
