(* ===== verification/NetworkState.v ===== *)
(** The class Network of node/Network.hpp and node/Network.cpp, with the multicast groups of
    node/MulticastGroup.hpp.

    A network joins the parts of the other files: its configuration, the memberships of its
    other members, the rule engine, the routes to devices behind bridges and the multicast
    groups.  The state of an operation is the network, the generator of random numbers of the
    node and the log of what the operation did to the rest of the node; it survives
    exceptions.  What the node answers is the record [NodeEnv].  Trace messages are left out,
    and the lock makes each operation one step. *)
From stdpp Require Import gmap.
From S2P Require Import Prelude.
From S2P Require Import Utils.
From S2P Require Import Buffer.
From S2P Require Import Addressing.
From S2P Require Import Wire.
From S2P Require Import Rules.
From S2P Require Import CLib.
From S2P Require Import Dictionary.
From S2P Require Import InetAddress.
From S2P Require Import Hashtable.
From S2P Require Import C25519Api.
From S2P Require Import Identity.
From S2P Require Import CertificateOfMembership.
From S2P Require Import Credentials.
From S2P Require Import Capability.
From S2P Require Import NetworkConfig.
From S2P Require Import NetworkConfigDict.
From S2P Require Import Membership.
From S2P Require Import NetworkFilter.
From S2P Require Import Packet.
From S2P Require Import Compression.
From S2P Require Import Switch.
From S2P Require Import PushCredentials.

Definition ZT_MULTICAST_LIKE_EXPIRE : Z := 600000.
Definition ZT_MAX_BRIDGE_ROUTES : Z := 67108864.
Definition ZT_NETWORK_MAX_INCOMING_UPDATES : Z := 3.
Definition ZT_NETWORK_MAX_UPDATE_CHUNKS : Z := ZT_NETWORKCONFIG_DICT_CAPACITY / 1024 + 1.
Definition VERB_EXT_FRAME : Z := 0x07.
Definition VERB_MULTICAST_LIKE : Z := 0x09.
Definition VERB_NETWORK_CONFIG : Z := 0x0c.
Definition ZT_NETWORK_STATUS_REQUESTING_CONFIGURATION : Z := 0.
Definition ZT_NETWORK_STATUS_OK : Z := 1.
Definition ZT_NETWORK_STATUS_ACCESS_DENIED : Z := 2.
Definition ZT_NETWORK_STATUS_NOT_FOUND : Z := 3.
Definition ZT_NETWORK_STATUS_PORT_ERROR : Z := 4.
Definition ZT_VIRTUAL_NETWORK_CONFIG_OPERATION_UP : Z := 1.
Definition ZT_VIRTUAL_NETWORK_CONFIG_OPERATION_CONFIG_UPDATE : Z := 2.

(** ** Multicast groups *)

Record MulticastGroup : Type := mkMG { mg_mac : Z; mg_adi : Z }.

Definition MulticastGroup_hashCode (g : MulticastGroup) : Z := u64 (Z.lxor (MAC_hashCode (mg_mac g)) (mg_adi g)).
Definition MulticastGroup_ltb (g h : MulticastGroup) : bool :=
  if mg_mac g <? mg_mac h then true else if mg_mac g =? mg_mac h then mg_adi g <? mg_adi h else false.
Definition BROADCAST : MulticastGroup := mkMG (MAC_of_int 0xffffffffffff) 0.

(** *** Algorithms of the standard library on sorted vectors *)

Section Sorted.
Context {A : Type} `{EqDecision A} (lt : A -> A -> bool).

(** [insert] at [upper_bound]. *)
Fixpoint insert_upper (x : A) (l : list A) : list A :=
  match l with
  | [] => [x]
  | y :: l' => if lt x y then x :: l else y :: insert_upper x l'
  end.
Definition std_sort (l : list A) : list A := foldr insert_upper [] (reverse l).
(** The elements from [lower_bound] on. *)
Fixpoint from_lower_bound (l : list A) (x : A) : list A :=
  match l with
  | [] => []
  | y :: l' => if lt y x then from_lower_bound l' x else l
  end.
Definition binary_search (l : list A) (x : A) : bool :=
  match from_lower_bound l x with [] => false | y :: _ => negb (lt x y) end.
(** [erase] at [lower_bound], when the element there is [x]. *)
Fixpoint erase_lower (l : list A) (x : A) : list A :=
  match l with
  | [] => []
  | y :: l' => if lt y x then y :: erase_lower l' x else if decide (y = x) then l' else l
  end.
Fixpoint std_unique (l : list A) : list A :=
  match l with
  | [] => []
  | x :: l' => match l' with y :: _ => if decide (x = y) then std_unique l' else x :: std_unique l' | [] => [x] end
  end.
End Sorted.

(** ** Keys *)

#[export] Instance MulticastGroup_eq_dec : EqDecision MulticastGroup.
Proof. solve_decision. Defined.
#[export, refine] Instance MulticastGroup_countable : Countable MulticastGroup := inj_countable' (fun g => (mg_mac g, mg_adi g)) (fun p => mkMG p.1 p.2) _.
Proof. by intros []. Defined.
#[export, refine] Instance MulticastGroup_hash : HashCode MulticastGroup := {| hashCode := MulticastGroup_hashCode |}.
Proof. intros g. apply (wrap_range 64). lia. Defined.

(** Addresses and MACs as keys: their hash code is their number. *)
Record AddressKey : Type := AddrK { addr_val : Z }.
#[export] Instance AddressKey_eq_dec : EqDecision AddressKey.
Proof. solve_decision. Defined.
#[export, refine] Instance AddressKey_countable : Countable AddressKey := inj_countable' addr_val AddrK _.
Proof. by intros []. Defined.
#[export, refine] Instance AddressKey_hash : HashCode AddressKey := {| hashCode k := u64 (Address_hashCode (addr_val k)) |}.
Proof. intros k. apply (wrap_range 64). lia. Defined.

Record MACKey : Type := MacK { mac_val : Z }.
#[export] Instance MACKey_eq_dec : EqDecision MACKey.
Proof. solve_decision. Defined.
#[export, refine] Instance MACKey_countable : Countable MACKey := inj_countable' mac_val MacK _.
Proof. by intros []. Defined.
#[export, refine] Instance MACKey_hash : HashCode MACKey := {| hashCode k := u64 (MAC_hashCode (mac_val k)) |}.
Proof. intros k. apply (wrap_range 64). lia. Defined.

(** ** State *)

Inductive NetconfFailure : Type := NETCONF_FAILURE_NONE | NETCONF_FAILURE_ACCESS_DENIED | NETCONF_FAILURE_NOT_FOUND | NETCONF_FAILURE_INIT_FAILED.

(** [_IncomingConfigChunk] *)
Record IncomingConfigChunk : Type := mkChunk {
  ic_ts : Z; ic_updateId : Z; ic_haveChunkIds : list Z; ic_haveChunks : Z; ic_haveBytes : Z; ic_data : list Z
}.

Record Network : Type := mkNetwork {
  nt_id : Z;
  nt_lastAnnounced : Z;
  nt_mac : Z;
  nt_portInitialized : bool;
  nt_myMulticastGroups : list MulticastGroup;
  nt_multicastGroupsBehindMe : Hashtable MulticastGroup Z;
  nt_remoteBridgeRoutes : Hashtable MACKey Z;
  nt_config : NetworkConfig;
  nt_lastConfigUpdate : Z;
  nt_incomingConfigChunks : list IncomingConfigChunk;
  nt_destroyed : bool;
  nt_netconfFailure : NetconfFailure;
  nt_portError : Z;
  nt_memberships : Hashtable AddressKey Membership
}.

Definition with_announced (n : Network) (t : Z) : Network :=
  mkNetwork (nt_id n) t (nt_mac n) (nt_portInitialized n) (nt_myMulticastGroups n) (nt_multicastGroupsBehindMe n) (nt_remoteBridgeRoutes n)
    (nt_config n) (nt_lastConfigUpdate n) (nt_incomingConfigChunks n) (nt_destroyed n) (nt_netconfFailure n) (nt_portError n) (nt_memberships n).
Definition with_groups (n : Network) (my : list MulticastGroup) (behind : Hashtable MulticastGroup Z) : Network :=
  mkNetwork (nt_id n) (nt_lastAnnounced n) (nt_mac n) (nt_portInitialized n) my behind (nt_remoteBridgeRoutes n)
    (nt_config n) (nt_lastConfigUpdate n) (nt_incomingConfigChunks n) (nt_destroyed n) (nt_netconfFailure n) (nt_portError n) (nt_memberships n).
Definition with_routes (n : Network) (r : Hashtable MACKey Z) : Network :=
  mkNetwork (nt_id n) (nt_lastAnnounced n) (nt_mac n) (nt_portInitialized n) (nt_myMulticastGroups n) (nt_multicastGroupsBehindMe n) r
    (nt_config n) (nt_lastConfigUpdate n) (nt_incomingConfigChunks n) (nt_destroyed n) (nt_netconfFailure n) (nt_portError n) (nt_memberships n).
Definition with_config (n : Network) (init : bool) (c : NetworkConfig) (t : Z) (f : NetconfFailure) : Network :=
  mkNetwork (nt_id n) (nt_lastAnnounced n) (nt_mac n) init (nt_myMulticastGroups n) (nt_multicastGroupsBehindMe n) (nt_remoteBridgeRoutes n)
    c t (nt_incomingConfigChunks n) (nt_destroyed n) f (nt_portError n) (nt_memberships n).
Definition with_chunks (n : Network) (cs : list IncomingConfigChunk) : Network :=
  mkNetwork (nt_id n) (nt_lastAnnounced n) (nt_mac n) (nt_portInitialized n) (nt_myMulticastGroups n) (nt_multicastGroupsBehindMe n) (nt_remoteBridgeRoutes n)
    (nt_config n) (nt_lastConfigUpdate n) cs (nt_destroyed n) (nt_netconfFailure n) (nt_portError n) (nt_memberships n).
Definition with_status (n : Network) (destroyed : bool) (f : NetconfFailure) (e : Z) : Network :=
  mkNetwork (nt_id n) (nt_lastAnnounced n) (nt_mac n) (nt_portInitialized n) (nt_myMulticastGroups n) (nt_multicastGroupsBehindMe n) (nt_remoteBridgeRoutes n)
    (nt_config n) (nt_lastConfigUpdate n) (nt_incomingConfigChunks n) destroyed f e (nt_memberships n).
Definition with_memberships (n : Network) (ms : Hashtable AddressKey Membership) : Network :=
  mkNetwork (nt_id n) (nt_lastAnnounced n) (nt_mac n) (nt_portInitialized n) (nt_myMulticastGroups n) (nt_multicastGroupsBehindMe n) (nt_remoteBridgeRoutes n)
    (nt_config n) (nt_lastConfigUpdate n) (nt_incomingConfigChunks n) (nt_destroyed n) (nt_netconfFailure n) (nt_portError n) ms.

(** ZT_VirtualNetworkConfig, which the host program gets. *)
Record ExternalConfig : Type := mkExternal {
  ec_nwid : Z; ec_mac : Z; ec_name : list Z; ec_status : Z; ec_type : Z; ec_mtu : Z; ec_bridge : Z; ec_broadcastEnabled : Z;
  ec_portError : Z; ec_netconfRevision : Z; ec_assignedAddresses : list InetAddress; ec_routes : list Route
}.

(** What an operation does to the rest of the node. *)
Inductive net_event : Type :=
| EvSend (p : Buffer)
| EvWhois (a : Z)
| EvMulticasterCredential (com : COM) (validated : bool)
| EvConfigurePort (op : Z) (ec : ExternalConfig)
| EvStatePut (data : list Z)
| EvPutFrame (nwid from to etherType : Z) (data : list Z)
| EvMulticasterAdd (nwid : Z) (group : MulticastGroup) (member : Z)
| EvReceived (hops packetId verb : Z) (trustEstablished : bool) (nwid : Z)
| EvPathSend (data : list Z)
| EvExpectReply (packetId : Z)
| EvLocalRequest (nwid requestPacketId : Z) (direct : bool) (member : Z) (metaData : list Z).

Record NetState : Type := mkNetState { ns_network : Network; ns_prng : Z * Z; ns_log : list net_event }.

(** The answers of the node: the address of this node and its clock, the memory of the packets
    it builds and the result of malloc (both by the number of events before), the identities
    and peers of the topology, the upstream nodes, the result of the callback that configures
    the port.  [en_same] is the memcmp of two configurations, which looks at the unused
    elements of their arrays too. *)
Record NodeEnv : Type := mkEnv {
  en_self : Z;
  en_now : Z;
  en_memory : PacketMemory;
  en_alloc : nat -> bool;
  en_getIdentity : Z -> Identity;
  en_hasPeer : Z -> bool;
  en_upstreams : list Z;
  en_port : Z -> ExternalConfig -> Z;
  en_same : NetworkConfig -> NetworkConfig -> bool
}.

(** The memory after [k] packets. *)
Definition pm_shift (k : nat) (M : PacketMemory) : PacketMemory :=
  mkPacketMemory (fun n => pm_iv M (k + n)) (fun n => pm_stack M (k + n)) (fun n => pm_buf M (k + n)).

Notation NM := (sm NetState).

Definition emit (e : net_event) : NM unit := modify (fun s => mkNetState (ns_network s) (ns_prng s) (ns_log s ++ [e])).
Definition set_network (f : Network -> Network) : NM unit := modify (fun s => mkNetState (f (ns_network s)) (ns_prng s) (ns_log s)).
Definition get_network : NM Network := s ← get_state; mret (ns_network s).
(** The number of the next packet, or of the next growth of a table. *)
Definition ticket : NM nat := s ← get_state; mret (length (ns_log s)).
Definition catch_with {A} (a : A) (m : NM A) : NM A := fun s => match m s with (s, Throw _) => (s, Ok a) | r => r end.

Section Network.
Context `{Ops : C25519Ops} (E : NodeEnv).

Definition controller (n : Network) : Z := Address_of_int (Z.shiftr (nt_id n) 24).

(** ** Memberships *)

Definition set_membership (a : Z) (m : Membership) : NM unit :=
  n ← get_network;
  h ← lift (Hashtable_store (nt_memberships n) (AddrK a) m);
  set_network (fun n => with_memberships n h).

(** [_membership] *)
Definition membership (a : Z) : NM Membership :=
  n ← get_network; k ← ticket;
  '(h, m) ← lift (Hashtable_index Membership_new (nt_memberships n) (AddrK a) (en_alloc E k));
  _ ← set_network (fun n => with_memberships n h);
  mret m.

Definition get_membership (a : Z) : NM (option Membership) := n ← get_network; lift (Hashtable_get (nt_memberships n) (AddrK a)).

(** [m.pushCredentials] for the membership of [a], which is [m] and in the table. *)
Definition push (m : Membership) (a localCapabilityIndex : Z) (force : bool) : NM unit :=
  n ← get_network; k ← ticket;
  let '((m', sent), r) := pushCredentials (pm_shift k (en_memory E)) (en_self E) (en_now E) a (nt_config n) localCapabilityIndex force (m, []) in
  _ ← set_membership a m';
  _ ← modify (fun s => mkNetState (ns_network s) (ns_prng s) (ns_log s ++ (EvSend <$> sent)));
  lift r.

(** [_membership(a).pushCredentials] *)
Definition push_to (a localCapabilityIndex : Z) (force : bool) : NM unit :=
  m ← membership a; push m a localCapabilityIndex force.

Definition pushCredentialsNow (to : Z) : NM unit := push_to to (-1) true.

Definition recentlyAssociatedWith (addr : Z) : NM bool :=
  m ← get_membership addr;
  match m with Some m => lift (Membership_recentlyAssociated m (en_now E)) | None => mret false end.

(** [while (i.next(a,m)) body] over the memberships. *)
Fixpoint members_loop (fuel : nat) (body : Z -> Membership -> NM unit) (it : Iterator AddressKey) : NM unit :=
  match fuel with
  | O => lift Undef
  | S fuel =>
      n ← get_network;
      '(it, r) ← lift (Iterator_next (nt_memberships n) it);
      match r with
      | None => mret tt
      | Some (a, m) => _ ← body (addr_val a) m; members_loop fuel body it
      end
  end.
Definition for_members (body : Z -> Membership -> NM unit) : NM unit :=
  n ← get_network;
  it ← lift (Iterator_new (nt_memberships n));
  members_loop (S (Z.to_nat (ht_s (nt_memberships n)))) body it.

(** ** Packets *)

Definition send_packet (dest verb : Z) (compress : bool) (fill : Buffer -> outcome Buffer) : NM unit :=
  k ← ticket;
  outp ← lift (Packet_new (en_memory E) k dest (en_self E) verb);
  outp ← lift (fill outp);
  outp ← (if compress then '(_, outp) ← lift (Packet_compress (pm_buf (en_memory E) k) outp); mret outp else mret outp);
  emit (EvSend outp).

(** The payload of an EXT_FRAME packet with the first [len] bytes of a frame. *)
Definition append_ext_frame (id flags : Z) (f : Frame) (len : Z) (outp : Buffer) : outcome Buffer :=
  outp ← Buffer_append_int PC outp 8 id;
  outp ← Buffer_append_int PC outp 1 flags;
  outp ← MAC_appendTo PC (fr_macDest f) outp;
  outp ← MAC_appendTo PC (fr_macSource f) outp;
  outp ← Buffer_append_int PC outp 2 (fr_etherType f);
  Buffer_append PC outp (fr_data f) len.

(** A copy of the frame, or the frame itself, for another node, which gets our credentials too. *)
Definition forward_frame (to localCapabilityIndex flags : Z) (f : Frame) (len : Z) : NM unit :=
  _ ← push_to to localCapabilityIndex false;
  n ← get_network;
  send_packet to VERB_EXT_FRAME true (append_ext_frame (nt_id n) flags f len).

(** ** Filters *)

(** [_doZtFilter] with fresh [cc], [ccLength] and [ccWatch]. *)
Definition run_filter (m : option Membership) (inbound : bool) (ztSource ztDest : Z) (f : Frame) (rules : list Rule) : NM (FilterResult * FilterState) :=
  s ← get_state;
  '(res, st) ← lift (doZtFilter (en_self E) (nt_config (ns_network s)) m inbound ztSource f rules (mkFS ztDest 0 0 false [] (ns_prng s)));
  _ ← modify (fun s => mkNetState (ns_network s) (fs_prng st) (ns_log s));
  mret (res, st).

(** The loop over our capabilities from the [c]th on: the number of the one that accepts, and
    the final destination. *)
Fixpoint out_capabilities (noTee : bool) (m : option Membership) (ztSource ztDest : Z) (f : Frame) (c : Z) (caps : list Capability) : NM (option (Z * Z)) :=
  match caps with
  | [] => mret None
  | cap :: caps =>
      '(res, st) ← run_filter m false ztSource ztDest f (cap_rules cap);
      match res with
      | DOZTFILTER_NO_MATCH | DOZTFILTER_DROP => out_capabilities noTee m ztSource ztDest f (c + 1) caps
      | DOZTFILTER_REDIRECT | DOZTFILTER_ACCEPT | DOZTFILTER_SUPER_ACCEPT =>
          _ ← (if negb noTee && Address_bool (fs_cc st) then forward_frame (fs_cc st) c (if fs_ccWatch st then 0x16 else 0x02) f (fs_ccLength st) else mret tt);
          mret (Some (c, fs_ztDest st))
      end
  end.

(** After the frame was accepted. *)
Definition accept_outgoing (noTee : bool) (m : option Membership) (ztDest ztFinalDest localCapabilityIndex : Z) (cc ccLength : Z) (ccWatch : bool) (f : Frame) : NM bool :=
  _ ← match m with
      | Some _ => m ← get_membership ztDest; match m with Some m => push m ztDest localCapabilityIndex false | None => lift Undef end
      | None => mret tt
      end;
  _ ← (if negb noTee && Address_bool cc then forward_frame cc localCapabilityIndex (if ccWatch then 0x16 else 0x02) f ccLength else mret tt);
  if negb (ztDest =? ztFinalDest) && Address_bool ztFinalDest then
    _ ← forward_frame ztFinalDest localCapabilityIndex 0x04 f (fr_len f);
    mret false
  else mret true.

Definition filterOutgoingPacket (noTee : bool) (ztSource ztDest : Z) (f : Frame) : NM bool :=
  m ← (if Address_bool ztDest then get_membership ztDest else mret None);
  n ← get_network;
  '(res, st) ← run_filter m false ztSource ztDest f (nc_rules (nt_config n));
  match res with
  | DOZTFILTER_NO_MATCH =>
      r ← out_capabilities noTee m ztSource ztDest f 0 (nc_capabilities (nt_config n));
      match r with
      | Some (c, ztFinalDest) => accept_outgoing noTee m ztDest ztFinalDest c (fs_cc st) (fs_ccLength st) (fs_ccWatch st) f
      | None => mret false
      end
  | DOZTFILTER_DROP => mret false
  | DOZTFILTER_REDIRECT | DOZTFILTER_ACCEPT | DOZTFILTER_SUPER_ACCEPT =>
      accept_outgoing noTee m ztDest (fs_ztDest st) (-1) (fs_cc st) (fs_ccLength st) (fs_ccWatch st) f
  end.

(** The loop over the capabilities of the source: how it accepts, and the final destination. *)
Fixpoint in_capabilities (fuel : nat) (m : Membership) (it : Iterator uint32) (source ztDest : Z) (f : Frame) : NM (option (Z * Z)) :=
  match fuel with
  | O => lift Undef
  | S fuel =>
      n ← get_network;
      '(it, c) ← lift (CapabilityIterator_next m (nt_config n) it);
      match c with
      | None => mret None
      | Some c =>
          '(res, st) ← run_filter (Some m) true source ztDest f (cap_rules c);
          match res with
          | DOZTFILTER_NO_MATCH | DOZTFILTER_DROP => in_capabilities fuel m it source ztDest f
          | DOZTFILTER_REDIRECT | DOZTFILTER_ACCEPT | DOZTFILTER_SUPER_ACCEPT =>
              _ ← (if Address_bool (fs_cc st) then forward_frame (fs_cc st) (-1) (if fs_ccWatch st then 0x1c else 0x08) f (fs_ccLength st) else mret tt);
              mret (Some (match res with DOZTFILTER_SUPER_ACCEPT => 2 | _ => 1 end, fs_ztDest st))
          end
      end
  end.

Definition accept_incoming (accept ztDest ztFinalDest cc ccLength : Z) (ccWatch : bool) (f : Frame) : NM Z :=
  _ ← (if Address_bool cc then forward_frame cc (-1) (if ccWatch then 0x1c else 0x08) f ccLength else mret tt);
  if negb (ztDest =? ztFinalDest) && Address_bool ztFinalDest then
    _ ← forward_frame ztFinalDest (-1) 0x0a f (fr_len f);
    mret 0
  else mret accept.

Definition filterIncomingPacket (source ztDest : Z) (f : Frame) : NM Z :=
  m ← membership source;
  n ← get_network;
  '(res, st) ← run_filter (Some m) true source ztDest f (nc_rules (nt_config n));
  match res with
  | DOZTFILTER_NO_MATCH =>
      it ← lift (Iterator_new (ms_remoteCaps m));
      r ← in_capabilities (S (Z.to_nat (ht_s (ms_remoteCaps m)))) m it source ztDest f;
      match r with
      | Some (accept, ztFinalDest) => accept_incoming accept ztDest ztFinalDest (fs_cc st) (fs_ccLength st) (fs_ccWatch st) f
      | None => mret 0
      end
  | DOZTFILTER_DROP => mret 0
  | DOZTFILTER_REDIRECT | DOZTFILTER_ACCEPT => accept_incoming 1 ztDest (fs_ztDest st) (fs_cc st) (fs_ccLength st) (fs_ccWatch st) f
  | DOZTFILTER_SUPER_ACCEPT => accept_incoming 2 ztDest (fs_ztDest st) (fs_cc st) (fs_ccLength st) (fs_ccWatch st) f
  end.

(** ** Multicast groups *)

(** [_allMulticastGroups] *)
Definition allMulticastGroups (n : Network) : list MulticastGroup :=
  let mgs := nt_myMulticastGroups n in
  let mgs := Hashtable_appendKeys (nt_multicastGroupsBehindMe n) mgs in
  let mgs := if NetworkConfig_bool (nt_config n) && NetworkConfig_enableBroadcast (nt_config n) then mgs ++ [BROADCAST] else mgs in
  std_unique (std_sort MulticastGroup_ltb mgs).

(** The loop of [_announceMulticastGroupsTo]: a packet that is full is sent, and the same
    object is used for the next. *)
Fixpoint announce_loop (peer : Z) (groups : list MulticastGroup) (outp : Buffer) : NM Buffer :=
  match groups with
  | [] => mret outp
  | mg :: groups =>
      outp ← (if PC <=? b_len outp + 24 then
                k ← ticket;
                '(_, outp) ← lift (Packet_compress (pm_buf (en_memory E) k) outp);
                _ ← emit (EvSend outp);
                lift (Packet_reset outp (pm_iv (en_memory E) (S k)) peer (en_self E) VERB_MULTICAST_LIKE)
              else mret outp);
      n ← get_network;
      outp ← lift (Buffer_append_int PC outp 8 (nt_id n));
      outp ← lift (MAC_appendTo PC (mg_mac mg) outp);
      outp ← lift (Buffer_append_int PC outp 4 (mg_adi mg));
      announce_loop peer groups outp
  end.

Definition announceMulticastGroupsTo (peer : Z) (groups : list MulticastGroup) : NM unit :=
  k ← ticket;
  outp ← lift (Packet_new (en_memory E) k peer (en_self E) VERB_MULTICAST_LIKE);
  outp ← announce_loop peer groups outp;
  if ZT_PROTO_MIN_PACKET_LENGTH <? b_len outp then
    k ← ticket;
    '(_, outp) ← lift (Packet_compress (pm_buf (en_memory E) k) outp);
    emit (EvSend outp)
  else mret tt.

Fixpoint push_back_new (l xs : list Z) : list Z :=
  match xs with
  | [] => l
  | x :: xs => push_back_new (if existsb (Z.eqb x) l then l else l ++ [x]) xs
  end.

(** A NETWORK_CREDENTIALS packet with our certificate of membership only. *)
Definition append_com_only (com : COM) (outp : Buffer) : outcome Buffer :=
  outp ← COM_serialize PC com outp;
  outp ← Buffer_append_int PC outp 1 0;
  outp ← Buffer_append_int PC outp 2 0;
  outp ← Buffer_append_int PC outp 2 0;
  outp ← Buffer_append_int PC outp 2 0;
  Buffer_append_int PC outp 2 0.

Fixpoint announce_always (addrs : list Z) (groups : list MulticastGroup) : NM unit :=
  match addrs with
  | [] => mret tt
  | a :: addrs =>
      n ← get_network;
      known ← lift (Hashtable_contains (nt_memberships n) (AddrK a));
      _ ← (if COM_bool (nc_com (nt_config n)) && negb known && negb (a =? en_self E)
           then send_packet a VERB_NETWORK_CREDENTIALS false (append_com_only (nc_com (nt_config n)))
           else mret tt);
      _ ← announceMulticastGroupsTo a groups;
      announce_always addrs groups
  end.

Definition alwaysAnnounceTo (n : Network) : list Z :=
  std_sort Z.ltb (push_back_new (push_back_new (NetworkConfig_alwaysContactAddresses (nt_config n)) [controller n]) (en_upstreams E)).

(** One member, in the last loop of [_sendUpdatesToMembers]. *)
Definition update_member (always : list Z) (groups : list MulticastGroup) (isNew : bool) (a : Z) (m : Membership) : NM unit :=
  _ ← push m a (-1) false;
  m ← get_membership a;
  match m with
  | None => lift Undef
  | Some m =>
      '(m, due) ← lift (Membership_multicastLikeGate m (en_now E));
      _ ← set_membership a m;
      n ← get_network;
      allowed ← (if (due : bool) || isNew then lift (Membership_isAllowedOnNetwork m (nt_config n)) else mret false);
      if (allowed : bool) && negb (binary_search Z.ltb always a) then announceMulticastGroupsTo a groups else mret tt
  end.

(** [_sendUpdatesToMembers] *)
Definition sendUpdatesToMembers (newMulticastGroup : option MulticastGroup) : NM unit :=
  n ← get_network;
  let groups := match newMulticastGroup with Some g => [g] | None => allMulticastGroups n end in
  let isNew := match newMulticastGroup with Some _ => true | None => false end in
  always ← (if isNew || (ZT_MULTICAST_ANNOUNCE_PERIOD <=? u64 (en_now E - nt_lastAnnounced n)) then
              _ ← (if isNew then mret tt else set_network (fun n => with_announced n (u64 (en_now E))));
              let always := alwaysAnnounceTo n in
              _ ← announce_always always groups;
              mret always
            else mret []);
  for_members (update_member always groups isNew).

Definition subscribedToMulticastGroup (mg : MulticastGroup) (includeBridgedGroups : bool) : NM bool :=
  n ← get_network;
  if binary_search MulticastGroup_ltb (nt_myMulticastGroups n) mg then mret true
  else if includeBridgedGroups then lift (Hashtable_contains (nt_multicastGroupsBehindMe n) mg)
  else mret false.

Definition multicastSubscribe (mg : MulticastGroup) : NM unit :=
  n ← get_network;
  if binary_search MulticastGroup_ltb (nt_myMulticastGroups n) mg then mret tt else
  _ ← set_network (fun n => with_groups n (insert_upper MulticastGroup_ltb mg (nt_myMulticastGroups n)) (nt_multicastGroupsBehindMe n));
  sendUpdatesToMembers (Some mg).

Definition multicastUnsubscribe (mg : MulticastGroup) : NM unit :=
  set_network (fun n => with_groups n (erase_lower MulticastGroup_ltb (nt_myMulticastGroups n) mg) (nt_multicastGroupsBehindMe n)).

Definition learnBridgedMulticastGroup (mg : MulticastGroup) (now : Z) : NM unit :=
  n ← get_network; k ← ticket;
  let tmp := Hashtable_size (nt_multicastGroupsBehindMe n) in
  h ← lift (Hashtable_set (nt_multicastGroupsBehindMe n) mg (u64 now) (en_alloc E k));
  _ ← set_network (fun n => with_groups n (nt_myMulticastGroups n) h);
  if negb (tmp =? Hashtable_size h) then sendUpdatesToMembers (Some mg) else mret tt.

(** ** Who may send to us *)

Definition gate (peer : Z) : NM bool :=
  catch_with false (
    n ← get_network;
    if NetworkConfig_bool (nt_config n) then
      m ← get_membership peer;
      allowed ← (if NetworkConfig_isPublic (nt_config n) then mret true
                 else match m with Some m => lift (Membership_isAllowedOnNetwork m (nt_config n)) | None => mret false end);
      if (allowed : bool) then
        m ← match m with Some m => mret m | None => membership peer end;
        '(m, due) ← lift (Membership_multicastLikeGate m (en_now E));
        _ ← set_membership peer m;
        _ ← (if (due : bool) then
               _ ← push m peer (-1) false;
               n ← get_network;
               announceMulticastGroupsTo peer (allMulticastGroups n)
             else mret tt);
        mret true
      else mret false
    else mret false).

(** ** Credentials of other members *)

Definition note_whois (w : list Z) : NM unit := modify (fun s => mkNetState (ns_network s) (ns_prng s) (ns_log s ++ (EvWhois <$> w))).

(** [_membership(a).addCredential], [add] being that of the credential. *)
Definition add_to (a : Z) (add : Membership -> bool -> outcome (Membership * AddCredentialResult * list Z)) : NM AddCredentialResult :=
  m ← membership a; k ← ticket;
  '(m, r, w) ← lift (add m (en_alloc E k));
  _ ← set_membership a m;
  _ ← note_whois w;
  mret r.

Definition addCredential_com (com : COM) : NM AddCredentialResult :=
  n ← get_network;
  nwid ← lift (COM_networkId com);
  if negb (nwid =? nt_id n) then mret ADD_REJECTED else
  a ← lift (COM_issuedTo com);
  result ← add_to a (fun m _ => Membership_addCom (en_getIdentity E) m com);
  match result with
  | ADD_ACCEPTED_NEW | ADD_ACCEPTED_REDUNDANT =>
      m ← get_membership a;
      match m with
      | Some m => _ ← push m a (-1) false; _ ← emit (EvMulticasterCredential com true); mret result
      | None => lift Undef
      end
  | _ => mret result
  end.

Definition addCredential_cap (cap : Capability) : NM AddCredentialResult :=
  n ← get_network;
  if negb (cap_nwid cap =? nt_id n) then mret ADD_REJECTED else
  add_to (Capability_issuedTo cap) (fun m alloc => Membership_addCapability (en_getIdentity E) m alloc cap).

Definition addCredential_tag (tag : Tag) : NM AddCredentialResult :=
  n ← get_network;
  if negb (tag_networkId tag =? nt_id n) then mret ADD_REJECTED else
  add_to (tag_issuedTo tag) (fun m alloc => Membership_addTag (en_getIdentity E) m alloc tag).

Definition addCredential_coo (coo : COO) : NM AddCredentialResult :=
  n ← get_network;
  if negb (coo_networkId coo =? nt_id n) then mret ADD_REJECTED else
  add_to (coo_issuedTo coo) (fun m alloc => Membership_addCoo (en_getIdentity E) m alloc coo).

(** A NETWORK_CREDENTIALS packet with one revocation. *)
Definition append_revocation_only (rev : Revocation) (outp : Buffer) : outcome Buffer :=
  outp ← Buffer_append_int PC outp 1 0;
  outp ← Buffer_append_int PC outp 2 0;
  outp ← Buffer_append_int PC outp 2 0;
  outp ← Buffer_append_int PC outp 2 1;
  outp ← Revocation_serialize PC rev false outp;
  Buffer_append_int PC outp 2 0.

Definition addCredential_rev (sentFrom : Z) (rev : Revocation) : NM AddCredentialResult :=
  n ← get_network;
  if negb (rev_networkId rev =? nt_id n) then mret ADD_REJECTED else
  result ← add_to (rev_target rev) (fun m alloc => Membership_addRevocation (en_getIdentity E) m alloc rev);
  match result with
  | ADD_ACCEPTED_NEW =>
      if Revocation_fastPropagate rev then
        _ ← for_members (fun a _ =>
              if negb (a =? sentFrom) && negb (a =? rev_signedBy rev)
              then send_packet a VERB_NETWORK_CREDENTIALS false (append_revocation_only rev)
              else mret tt);
        mret result
      else mret result
  | _ => mret result
  end.

(** ** Bridges *)

Definition findBridgeTo (mac : Z) : NM Z :=
  n ← get_network;
  br ← lift (Hashtable_get (nt_remoteBridgeRoutes n) (MacK mac));
  mret (match br with Some a => a | None => 0 end).

(** The loop that counts: the table of counts, the address with the most routes so far and
    their number. *)
Fixpoint count_routes (fuel : nat) (routes : Hashtable MACKey Z) (it : Iterator MACKey) (alloc : nat -> bool) (counts : Hashtable AddressKey Z) (maxAddr maxCount : Z)
  : outcome Z :=
  match fuel with
  | O => Undef
  | S fuel =>
      '(it, r) ← Iterator_next routes it;
      match r with
      | None => Ok maxAddr
      | Some (_, a) =>
          '(counts, c) ← Hashtable_index 0 counts (AddrK a) (alloc fuel);
          let c := u64 (c + 1) in
          counts ← Hashtable_store counts (AddrK a) c;
          if maxCount <? c then count_routes fuel routes it alloc counts a c else count_routes fuel routes it alloc counts maxAddr maxCount
      end
  end.

(** One turn of the circuit breaker: no route to the address with the most routes is left. *)
Definition drop_spammer (alloc : nat -> bool) (routes : Hashtable MACKey Z) : outcome (Hashtable MACKey Z) :=
  let fuel := S (Z.to_nat (ht_s routes)) in
  counts ← Hashtable_new 64 (alloc fuel);
  it ← Iterator_new routes;
  maxAddr ← count_routes fuel routes it alloc counts 0 0;
  it ← Iterator_new routes;
  fst <$> erase_loop fuel (fun kv => Ok (kv.2 =? maxAddr)) routes it [].

Fixpoint limit_routes (fuel : nat) : NM unit :=
  match fuel with
  | O => lift Undef
  | S fuel =>
      n ← get_network;
      if ZT_MAX_BRIDGE_ROUTES <? Hashtable_size (nt_remoteBridgeRoutes n) then
        h ← lift (drop_spammer (en_alloc E) (nt_remoteBridgeRoutes n));
        _ ← set_network (fun n => with_routes n h);
        limit_routes fuel
      else mret tt
  end.

Definition learnBridgeRoute (mac addr : Z) : NM unit :=
  n ← get_network; k ← ticket;
  '(h, _) ← lift (Hashtable_index 0 (nt_remoteBridgeRoutes n) (MacK mac) (en_alloc E k));
  h ← lift (Hashtable_store h (MacK mac) addr);
  _ ← set_network (fun n => with_routes n h);
  limit_routes (S (Z.to_nat (ht_s h))).

(** ** Housekeeping *)

Definition clean : NM unit :=
  n ← get_network;
  if nt_destroyed n then mret tt else
  it ← lift (Iterator_new (nt_multicastGroupsBehindMe n));
  '(behind, _) ← lift (erase_loop (S (Z.to_nat (ht_s (nt_multicastGroupsBehindMe n))))
    (fun kv => Ok (ZT_MULTICAST_LIKE_EXPIRE * 2 <? u64 (en_now E - kv.2))) (nt_multicastGroupsBehindMe n) it []);
  _ ← set_network (fun n => with_groups n (nt_myMulticastGroups n) behind);
  for_members (fun a m =>
    if negb (en_hasPeer E a) then
      n ← get_network;
      '(h, _) ← lift (Hashtable_erase (nt_memberships n) (AddrK a));
      set_network (fun n => with_memberships n h)
    else
      n ← get_network;
      m ← lift (Membership_clean m (nt_config n));
      set_membership a m).

Definition destroy : NM unit := set_network (fun n => with_status n true (nt_netconfFailure n) (nt_portError n)).
Definition setAccessDenied : NM unit := set_network (fun n => with_status n (nt_destroyed n) NETCONF_FAILURE_ACCESS_DENIED (nt_portError n)).
Definition setNotFound : NM unit := set_network (fun n => with_status n (nt_destroyed n) NETCONF_FAILURE_NOT_FOUND (nt_portError n)).

(** ** Configuration *)

(** [_status] *)
Definition status (n : Network) : Z :=
  if negb (nt_portError n =? 0) then ZT_NETWORK_STATUS_PORT_ERROR else
  match nt_netconfFailure n with
  | NETCONF_FAILURE_ACCESS_DENIED => ZT_NETWORK_STATUS_ACCESS_DENIED
  | NETCONF_FAILURE_NOT_FOUND => ZT_NETWORK_STATUS_NOT_FOUND
  | NETCONF_FAILURE_NONE => if NetworkConfig_bool (nt_config n) then ZT_NETWORK_STATUS_OK else ZT_NETWORK_STATUS_REQUESTING_CONFIGURATION
  | NETCONF_FAILURE_INIT_FAILED => ZT_NETWORK_STATUS_PORT_ERROR
  end.

(** [_externalConfig]; the name is the text that scopy() puts in front of the terminator, and
    the arrays hold their used elements. *)
Definition externalConfig (n : Network) : ExternalConfig :=
  let c := nt_config n in
  let has := NetworkConfig_bool c in
  mkExternal (nt_id n) (nt_mac n) (if has then nc_name c else []) (status n)
    (if has then (if NetworkConfig_isPrivate c then ZT_NETWORK_TYPE_PRIVATE else ZT_NETWORK_TYPE_PUBLIC) else ZT_NETWORK_TYPE_PRIVATE)
    (if has then nc_mtu c else ZT_DEFAULT_MTU)
    (if existsb (Z.eqb (en_self E)) (NetworkConfig_activeBridges c) then 1 else 0)
    (if has then (if NetworkConfig_enableBroadcast c then 1 else 0) else 0)
    (nt_portError n) (if has then nc_revision c else 0)
    (take (Z.to_nat ZT_MAX_ZT_ASSIGNED_ADDRESSES) (nc_staticIps c)) (take (Z.to_nat ZT_MAX_NETWORK_ROUTES) (nc_routes c)).
End Network.
