(* ===== verification/NetworkSafety.v ===== *)
(** The invariant of a network, and what its operations on members and packets do.

    An operation is described by the state it ends in and the value it returns ([runs]): none
    of those here throws or leaves its memory.  Sending changes only the times at which
    credentials were sent ([quiet]). *)
From stdpp Require Import gmap.
From S2P Require Import Prelude.
From S2P Require Import Utils.
From S2P Require Import Buffer.
From S2P Require Import Addressing.
From S2P Require Import Wire.
From S2P Require Import Rules.
From S2P Require Import Hashtable.
From S2P Require Import C25519Api.
From S2P Require Import Identity.
From S2P Require Import CertificateOfMembership.
From S2P Require Import Credentials.
From S2P Require Import Capability.
From S2P Require Import NetworkConfig.
From S2P Require Import NetworkConfigDict.
From S2P Require Import Membership.
From S2P Require Import NetworkFilter.
From S2P Require Import Packet.
From S2P Require Import Compression.
From S2P Require Import Switch.
From S2P Require Import PushCredentials.
From S2P Require Import NetworkState.

(** ** Runs *)

Definition runs {S A} (m : sm S A) (s : S) (Q : S -> A -> Prop) : Prop := exists s' a, m s = (s', Ok a) /\ Q s' a.

Section Runs.
Context {S : Type}.

Lemma runs_ret {A} (a : A) (s : S) (Q : S -> A -> Prop) : Q s a -> runs (mret a) s Q.
Proof. intros H. by exists s, a. Qed.
Lemma runs_bind {A B} (m : sm S A) (k : A -> sm S B) s P Q : runs m s P -> (forall s' a, P s' a -> runs (k a) s' Q) -> runs (m ≫= k) s Q.
Proof. intros (s1 & a & E & Ha) Hk. destruct (Hk s1 a Ha) as (s2 & b & E2 & Hb). exists s2, b. by rewrite (sm_bind_Ok _ _ _ _ _ E). Qed.
Lemma runs_lift {A} (o : outcome A) a (s : S) (Q : S -> A -> Prop) : o = Ok a -> Q s a -> runs (lift o) s Q.
Proof. intros -> H. by exists s, a. Qed.
Lemma runs_weaken {A} (m : sm S A) s (P Q : S -> A -> Prop) : runs m s P -> (forall s' a, P s' a -> Q s' a) -> runs m s Q.
Proof. intros (s1 & a & E & Ha) H. exists s1, a. auto. Qed.

(** What a step at the front of a computation does, by computation. *)
Lemma runs_step {A B} (m : sm S A) (k : A -> sm S B) s s' a Q : m s = (s', Ok a) -> runs (k a) s' Q -> runs (m ≫= k) s Q.
Proof. intros E (s2 & b & E2 & Hb). exists s2, b. by rewrite (sm_bind_Ok _ _ _ _ _ E). Qed.
Lemma runs_assoc {A B C} (m : sm S A) (f : A -> sm S B) (k : B -> sm S C) s Q : runs (m ≫= (fun a => f a ≫= k)) s Q -> runs ((m ≫= f) ≫= k) s Q.
Proof. unfold runs, mbind, sm_bind. by destruct (m s) as [s' [a| |]]. Qed.
Lemma runs_lift_bind {A B} (o : outcome A) a (k : A -> sm S B) (s : S) Q : o = Ok a -> runs (k a) s Q -> runs (lift o ≫= k) s Q.
Proof. intros ->. by apply runs_step. Qed.
End Runs.

Lemma get_network_runs {B} (k : Network -> NM B) s Q : runs (k (ns_network s)) s Q -> runs (get_network ≫= k) s Q.
Proof. by apply runs_step. Qed.
Lemma ticket_runs {B} (k : nat -> NM B) s Q : runs (k (length (ns_log s))) s Q -> runs (ticket ≫= k) s Q.
Proof. by apply runs_step. Qed.

(** ** The invariant *)

Definition rules_ok (rules : list Rule) : Prop := Forall (fun r => rule_wf r /\ mask_ok (rl_v r)) rules /\ zlen rules <= ZT_MAX_NETWORK_RULES.

Record config_ok (nconf : NetworkConfig) : Prop := {
  cg_creds : creds_wf nconf;
  cg_filter : nconf_ok nconf;
  cg_rules : rules_ok (nc_rules nconf);
  cg_caps : Forall (fun c => rules_ok (cap_rules c)) (nc_capabilities nconf)
}.

Record env_ok (E : NodeEnv) : Prop := {
  ek_self : in_range 40 (en_self E);
  ek_now : time_ok (en_now E);
  ek_memory : memory_ok (en_memory E);
  ek_upstreams : Forall (in_range 40) (en_upstreams E)
}.

(** What a member has shown to us, without the times at which something was sent to it. *)
Definition creds_of (m : Membership) :=
  (ms_comRevocationThreshold m, ms_com m, ms_revocations m, ms_remoteTags m, ms_remoteCaps m, ms_remoteCoos m).

Section Invariant.
Context `{Ops : C25519Ops} (E : NodeEnv).

Record member_inv (N : Z) (m : Membership) : Prop := {
  mb_creds : ms_inv (en_getIdentity E) N m;
  mb_push : push_state_ok m;
  mb_multicast : time_ok (ms_lastUpdatedMulticast m);
  mb_caps : forall k c, ht_map (ms_remoteCaps m) !! k = Some c -> rules_ok (cap_rules c)
}.

Record net_inv (N : Z) (n : Network) : Prop := {
  ni_id : is_u64 (nt_id n);
  ni_config : config_ok (nt_config n);
  ni_members : table_ok N (nt_memberships n);
  ni_member : forall a m, ht_map (nt_memberships n) !! a = Some m -> in_range 40 (addr_val a) /\ member_inv N m;
  ni_behind : table_ok N (nt_multicastGroupsBehindMe n);
  ni_routes : table_ok N (nt_remoteBridgeRoutes n)
}.

Lemma ms_inv_creds gi N m m' : creds_of m' = creds_of m -> ms_inv gi N m -> ms_inv gi N m'.
Proof. intros [= _ E2 E3 E4 E5 E6] []. constructor; rewrite ?E2, ?E3, ?E4, ?E5, ?E6; done. Qed.

Lemma ms_inv_mono gi N N' m : ms_inv gi N m -> N <= N' -> ms_inv gi N' m.
Proof. intros [] H. constructor; try done; (eapply table_ok_mono; [done|lia]). Qed.

Lemma member_inv_mono N N' m : member_inv N m -> N <= N' -> member_inv N' m.
Proof. intros [H1 H2 H3 H4] H. constructor; [by eapply ms_inv_mono|done..]. Qed.

Lemma net_inv_mono N N' n : net_inv N n -> N <= N' -> net_inv N' n.
Proof.
  intros [H1 H2 H3 H4 H5 H6] H. constructor; try done; try (eapply table_ok_mono; [done|lia]). intros a m Ha. destruct (H4 a m Ha). split; [done|by eapply member_inv_mono].
Qed.

Lemma member_new_inv : member_inv 0 Membership_new.
Proof.
  constructor; [apply Membership_new_inv|apply Membership_new_push_ok|done|]. intros k c. cbn [Membership_new ms_remoteCaps]. by rewrite (proj2 new_table_ok), lookup_empty.
Qed.

(** ** Sending is quiet *)

Definition member_at (n : Network) (a : Z) : Membership := default Membership_new (ht_map (nt_memberships n) !! AddrK a).

Record quiet (n n' : Network) : Prop := {
  qt_rest : exists h, n' = with_memberships n h;
  qt_creds : forall a, creds_of (member_at n' a) = creds_of (member_at n a);
  qt_keys : forall a, is_Some (ht_map (nt_memberships n) !! a) -> is_Some (ht_map (nt_memberships n') !! a)
}.

Lemma quiet_refl n : quiet n n.
Proof. split; [|done..]. exists (nt_memberships n). by destruct n. Qed.

Lemma quiet_trans n1 n2 n3 : quiet n1 n2 -> quiet n2 n3 -> quiet n1 n3.
Proof.
  intros [[h1 ->] Hc1 Hk1] [[h2 ->] Hc2 Hk2]. split; [by exists h2|intros a; by rewrite Hc2, Hc1|auto].
Qed.

Lemma quiet_config n n' : quiet n n' -> nt_config n' = nt_config n /\ nt_id n' = nt_id n /\ nt_mac n' = nt_mac n.
Proof. by intros [[h ->] _ _]. Qed.

(** From [s] to [s'] quietly, with the events [evs]. *)
Record talk (N : Z) (s s' : NetState) (evs : list net_event) : Prop := {
  tk_inv : net_inv N (ns_network s');
  tk_quiet : quiet (ns_network s) (ns_network s');
  tk_prng : ns_prng s' = ns_prng s;
  tk_log : ns_log s' = ns_log s ++ evs
}.

Lemma talk_refl N s : net_inv N (ns_network s) -> talk N s s [].
Proof. intros H. split; [done|apply quiet_refl|done|by rewrite app_nil_r]. Qed.

Lemma talk_trans N1 N2 s1 s2 s3 e1 e2 : talk N1 s1 s2 e1 -> talk N2 s2 s3 e2 -> talk N2 s1 s3 (e1 ++ e2).
Proof. intros [H1 H2 H3 H4] [G1 G2 G3 G4]. split; [done|by eapply quiet_trans|congruence|by rewrite G4, H4, app_assoc]. Qed.

(** ** Members *)

(** The table after the membership of [a] became [m]. *)
Lemma members_insert N n a m h : net_inv N n -> ht_wf h -> ht_s h <= N + 1 -> ht_map h = <[AddrK a := m]> (ht_map (nt_memberships n)) -> in_range 40 a -> member_inv (N + 1) m ->
  net_inv (N + 1) (with_memberships n h).
Proof.
  intros [H1 H2 H3 H4 H5 H6] Hw Hs Hm Ha Hmi. constructor; cbn; try done; try (eapply table_ok_mono; [done|lia]). intros b mb. rewrite Hm.
  intros [[<- <-]|[_ Hb]]%lookup_insert_Some; [done|]. destruct (H4 b mb Hb). split; [done|]. eapply member_inv_mono; [done|lia].
Qed.

Lemma quiet_insert n a m h : ht_map h = <[AddrK a := m]> (ht_map (nt_memberships n)) -> creds_of m = creds_of (member_at n a) -> quiet n (with_memberships n h).
Proof.
  intros Hm Hc. split; [by exists h| |]; cbn.
  - intros b. unfold member_at at 1. cbn. rewrite Hm. destruct (decide (AddrK b = AddrK a)) as [[= ->]|Hne]; [by rewrite lookup_insert_eq|]. by rewrite lookup_insert_ne by done.
  - intros b Hb. rewrite Hm. destruct (decide (b = AddrK a)) as [->|]; [rewrite lookup_insert_eq; eauto|]. by rewrite lookup_insert_ne by done.
Qed.

Lemma membership_runs N s a : net_inv N (ns_network s) -> N < 2 ^ 59 -> 0 <= N -> in_range 40 a ->
  runs (membership E a) s (fun s' m => talk (N + 1) s s' [] /\ m = member_at (ns_network s) a /\ ht_map (nt_memberships (ns_network s')) !! AddrK a = Some m /\
    ht_map (nt_memberships (ns_network s')) = <[AddrK a := m]> (ht_map (nt_memberships (ns_network s)))).
Proof.
  intros Hi HN HN0 Ha. unfold membership. apply get_network_runs, ticket_runs. pose proof (ni_members N _ Hi) as [Hw Hs].
  destruct (Hashtable_index_spec Membership_new (nt_memberships (ns_network s)) (AddrK a) (en_alloc E (length (ns_log s))) Hw ltac:(lia)) as (h & Eh & Hwh & Hm & Hsh).
  eapply runs_lift_bind; [exact Eh|]. cbn beta iota. eapply runs_step; [reflexivity|]. apply runs_ret. fold (member_at (ns_network s) a) in *. cbn [ns_network nt_memberships with_memberships].
  split; [|split_and!; [done|by rewrite Hm, lookup_insert_eq|done]]. split; cbn; [|by apply (quiet_insert _ a (member_at (ns_network s) a))|done|by rewrite app_nil_r].
  apply (members_insert N _ a (member_at (ns_network s) a)); try done; [lia|]. unfold member_at. destruct (ht_map _ !! _) as [m|] eqn:Em; cbn [default].
  - eapply member_inv_mono; [by apply (ni_member N _ Hi (AddrK a))|lia].
  - eapply member_inv_mono; [apply member_new_inv|lia].
Qed.

Lemma set_membership_runs N s a m : net_inv N (ns_network s) -> N < 2 ^ 59 -> is_Some (ht_map (nt_memberships (ns_network s)) !! AddrK a) ->
  runs (set_membership a m) s (fun s' _ => exists h, s' = mkNetState (with_memberships (ns_network s) h) (ns_prng s) (ns_log s) /\ ht_wf h /\
    ht_s h = ht_s (nt_memberships (ns_network s)) /\ ht_map h = <[AddrK a := m]> (ht_map (nt_memberships (ns_network s))) /\ ht_shape h = ht_shape (nt_memberships (ns_network s))).
Proof.
  intros Hi HN Ha. unfold set_membership. apply get_network_runs. pose proof (ni_members N _ Hi) as [Hw Hs].
  destruct (Hashtable_store_spec (nt_memberships (ns_network s)) (AddrK a) m Hw ltac:(lia) Ha) as (h & Eh & Hwh & Hm).
  eapply runs_lift_bind; [exact Eh|]. eexists _, _. split; [done|]. exists h. cbn. split_and!; try done; [|by eapply Hashtable_store_shape].
  rewrite (ht_size h Hwh), (ht_size _ Hw), Hm, map_size_insert. destruct Ha as [x ->]. done.
Qed.

(** Storing a membership whose credentials did not change. *)
Lemma touch_runs N s a m m0 : net_inv N (ns_network s) -> N < 2 ^ 59 -> ht_map (nt_memberships (ns_network s)) !! AddrK a = Some m0 -> creds_of m = creds_of m0 -> member_inv N m ->
  runs (set_membership a m) s (fun s' _ => talk N s s' [] /\ ht_map (nt_memberships (ns_network s')) = <[AddrK a := m]> (ht_map (nt_memberships (ns_network s))) /\
    ht_shape (nt_memberships (ns_network s')) = ht_shape (nt_memberships (ns_network s))).
Proof.
  intros Hi HN Ha Hc Hm. eapply runs_weaken; [apply (set_membership_runs N s a m Hi HN); eauto|]. intros s' _ (h & -> & Hw & Hs & Hmap & Hsh). cbn [ns_network nt_memberships with_memberships].
  split; [|by split]. split; cbn; [|apply (quiet_insert _ a m); [done|]; unfold member_at; by rewrite Ha|done|by rewrite app_nil_r].
  destruct Hi as [H1 H2 H3 H4 H5 H6]. constructor; cbn; try done; [split; [done|]; destruct H3; lia|]. intros b mb. rewrite Hmap.
  intros [[<- <-]|[_ Hb]]%lookup_insert_Some; [|by apply H4]. split; [|done]. by destruct (H4 _ _ Ha).
Qed.

Lemma get_membership_eq N s a : net_inv N (ns_network s) -> get_membership a s = (s, Ok (ht_map (nt_memberships (ns_network s)) !! AddrK a)).
Proof. intros Hi. unfold get_membership, get_network, mbind, sm_bind, get_state, mret, sm_ret, lift. by rewrite Hashtable_get_spec by apply (ni_members N _ Hi). Qed.

(** ** Packets *)

Context (HE : env_ok E).

(** Packets of credentials for [a]. *)
Definition credentials_for (a : Z) (p : Buffer) : Prop := exists b, sent_as VERB_NETWORK_CREDENTIALS a (en_self E) (bundle_enc b) p.

Lemma pm_shift_ok k M : memory_ok M -> memory_ok (pm_shift k M).
Proof. intros [H1 H2 H3]. split; intros n; cbn; auto. Qed.

Lemma stamp_len force now n l : zlen (stamp force now n l) = zlen l.
Proof. unfold stamp, zlen. rewrite length_app, length_fmap, <- length_app, take_drop. done. Qed.

Lemma pushed_creds nconf m now idx force : creds_of (pushed_membership nconf m now idx force) = creds_of m.
Proof. done. Qed.

Lemma pushed_push_ok nconf m now idx force : push_state_ok m -> time_ok now -> push_state_ok (pushed_membership nconf m now idx force).
Proof.
  intros [H1 H2 H3 H4] Hn. constructor; cbn; rewrite ?stamp_len; try done; [by destruct (com_due _ _ _ _)|]. destruct (cap_due _ _ _ _ _); [|done]. unfold zlen in *. by rewrite length_insert.
Qed.

Lemma push_runs N s a m idx force : net_inv N (ns_network s) -> N < 2 ^ 59 -> ht_map (nt_memberships (ns_network s)) !! AddrK a = Some m ->
  idx < zlen (nc_capabilities (nt_config (ns_network s))) ->
  runs (push E m a idx force) s (fun s' _ => exists packets bundles, talk N s s' (EvSend <$> packets) /\
    Forall2 (fun p b => sent_as VERB_NETWORK_CREDENTIALS a (en_self E) (bundle_enc b) p) packets bundles /\
    bundle_concat bundles = due_bundle (nt_config (ns_network s)) m (en_now E) idx force /\
    ht_map (nt_memberships (ns_network s')) = <[AddrK a := pushed_membership (nt_config (ns_network s)) m (en_now E) idx force]> (ht_map (nt_memberships (ns_network s))) /\
    ht_shape (nt_memberships (ns_network s')) = ht_shape (nt_memberships (ns_network s))).
Proof.
  intros Hi HN Ha Hidx. destruct HE as [He1 He2 He3 He4]. destruct (ni_member N _ Hi _ _ Ha) as [Har [Hm1 Hm2 Hm3 Hm4]]. cbn in Har. pose proof (cg_creds _ (ni_config N _ Hi)) as Hcw.
  unfold push. apply get_network_runs, ticket_runs.
  destruct (pushCredentials_Ok (pm_shift (length (ns_log s)) (en_memory E)) (en_self E) (en_now E) a (nt_config (ns_network s)) idx force m []) as (ps & bs & Ep & Hall & Hcat);
    [by apply pm_shift_ok|done..|]. rewrite Ep. cbn [app].
  eapply runs_bind; [apply (touch_runs N s a _ m Hi HN Ha (pushed_creds _ _ _ _ _))|].
  { constructor; [by eapply ms_inv_creds; [apply pushed_creds|]|by apply pushed_push_ok|done|done]. }
  intros s1 [] (Ht & Hl & Hsh). eapply runs_step; [reflexivity|]. eapply runs_lift; [done|]. exists ps, bs. cbn [ns_network]. split; [|done].
  destruct Ht as [T1 T2 T3 T4]. split; cbn; [done|done|done|]. by rewrite T4, app_nil_r.
Qed.

Lemma Forall2_credentials a ps bs : Forall2 (fun p b => sent_as VERB_NETWORK_CREDENTIALS a (en_self E) (bundle_enc b) p) ps bs -> Forall (credentials_for a) ps.
Proof. induction 1; constructor; [by eexists|done]. Qed.

(** A packet that is not compressed is its own uncompressed form. *)
Lemma plain_sent verb dest source b b' d : fresh verb dest source b -> in_range 5 verb -> in_range 40 dest -> in_range 40 source -> buf_wf PC b' -> buf_data b' = buf_data b ++ d ->
  sent_as verb dest source d b'.
Proof.
  intros Hf Hv Hd Hs Hb' Ed. destruct (verb_facts verb Hv) as (Hvb & Hv0 & Hv1). destruct (fresh_appended verb dest source b b' d Hf Hvb Hd Hs Hb' Ed) as (Hl & H1 & H2 & H3 & H4).
  pose proof (zlen_nonneg d). split; [done|]. split; [lia|]. split; [done|]. split; [done|]. intros adata abuf buf _ _ _. exists b'.
  unfold Packet_uncompress, Packet_compressed, Packet_verb, ZT_PACKET_IDX_VERB, ZT_PROTO_VERB_FLAG_COMPRESSED. rewrite H3. cbn [mbind outcome_bind]. rewrite Hv0. cbn [Z.eqb negb andb].
  rewrite Hv1. done.
Qed.

Lemma send_packet_runs N s dest verb compress fill d : net_inv N (ns_network s) -> in_range 5 verb -> in_range 40 dest -> appends PC fill d -> 28 + zlen d <= PC ->
  runs (send_packet E dest verb compress fill) s (fun s' _ => exists p, talk N s s' [EvSend p] /\ sent_as verb dest (en_self E) d p /\ ns_network s' = ns_network s).
Proof.
  intros Hi Hv Hd Hf Hl. destruct HE as [He1 He2 He3 He4]. unfold send_packet. apply ticket_runs. destruct (verb_facts verb Hv) as (Hvb & _).
  destruct (Packet_new_Ok (en_memory E) (length (ns_log s)) dest (en_self E) verb He3 Hvb) as (b & Eb & Hb). eapply runs_lift_bind; [exact Eb|].
  pose proof Hb as (Hbw & Hbl & _). destruct (appends_fits fill d b Hf Hbw) as (b' & Ef & Hb' & Hd' & Hl'); [lia|]. eapply runs_lift_bind; [exact Ef|].
  assert (Hemit : forall p, sent_as verb dest (en_self E) d p ->
    runs (emit (EvSend p)) s (fun s' _ => exists p, talk N s s' [EvSend p] /\ sent_as verb dest (en_self E) d p /\ ns_network s' = ns_network s)).
  { intros p Hp. eexists _, _. split; [done|]. exists p. split; [|done]. split; cbn; [done|apply quiet_refl|done|done]. }
  destruct compress.
  - destruct (compress_sent verb dest (en_self E) b b' d (pm_buf (en_memory E) (length (ns_log s))) Hb Hv Hd He1 Hb' Hd' (mo_buf _ He3 _)) as (c & p & Ec & Hp).
    eapply runs_step; [unfold mbind, sm_bind, lift; rewrite Ec; reflexivity|]. by apply Hemit.
  - eapply runs_step; [reflexivity|]. apply Hemit. by eapply plain_sent.
Qed.

(** ** Frames for other nodes *)

Definition ext_frame_enc (id flags : Z) (f : Frame) (len : Z) : list Z :=
  be_bytes 8 id ++ be_bytes 1 flags ++ be_bytes 6 (fr_macDest f) ++ be_bytes 6 (fr_macSource f) ++ be_bytes 2 (fr_etherType f) ++ ztake len (fr_data f).

Lemma ext_frame_appends id flags f len : Forall is_byte (fr_data f) -> 0 <= len <= fr_len f -> len <= ZT_MAX_MTU -> appends PC (append_ext_frame id flags f len) (ext_frame_enc id flags f len).
Proof.
  intros Hb Hl Hm. unfold append_ext_frame, ext_frame_enc. pose proof PC_value. unfold ZT_MAX_MTU in Hm.
  repeat (apply (appends_bind PC); [solve [apply appends_int | apply appends_mac; rewrite PC_value; lia]|]). apply appends_raw; [done|done|rewrite PC_value; lia].
Qed.

Lemma zlen_ext_frame_enc id flags f len : 0 <= len <= fr_len f -> zlen (ext_frame_enc id flags f len) = 23 + len.
Proof. intros H. unfold ext_frame_enc, fr_len in *. rewrite !zlen_app, !zlen_be_bytes, zlen_ztake by done. lia. Qed.

(** A frame, or part of it, that goes to another node: to whom, with which flags, how much. *)
Record Copy : Type := mkCopy { cy_to : Z; cy_flags : Z; cy_len : Z }.

(** What a filter has sent: our credentials that are due to a node, with the capability of the
    given number (-1 for none), and copies of the frame. *)
Inductive Sending : Type := CredentialsTo (a idx : Z) | FrameTo (c : Copy).

(** Copies, each after the credentials that are due to its receiver. *)
Definition with_credentials (idx : Z) (cs : list Copy) : list Sending := mjoin ((fun c => [CredentialsTo (cy_to c) idx; FrameTo c]) <$> cs).

Definition membership_in (M : gmap AddressKey Membership) (a : Z) : Membership := default Membership_new (M !! AddrK a).

(** The packets of these sendings in their order, from the memberships [M] to the memberships [M']:
    credentials are exactly those due to the member at that time, and are then due no more. *)
Inductive sent_all (nconf : NetworkConfig) (id : Z) (f : Frame) : gmap AddressKey Membership -> list Sending -> list net_event -> gmap AddressKey Membership -> Prop :=
| sent_none M : sent_all nconf id f M [] [] M
| sent_credentials M a idx packets bundles ds evs M' :
    Forall2 (fun p b => sent_as VERB_NETWORK_CREDENTIALS a (en_self E) (bundle_enc b) p) packets bundles ->
    bundle_concat bundles = due_bundle nconf (membership_in M a) (en_now E) idx false ->
    sent_all nconf id f (<[AddrK a := pushed_membership nconf (membership_in M a) (en_now E) idx false]> M) ds evs M' ->
    sent_all nconf id f M (CredentialsTo a idx :: ds) ((EvSend <$> packets) ++ evs) M'
| sent_frame M c p ds evs M' :
    sent_as VERB_EXT_FRAME (cy_to c) (en_self E) (ext_frame_enc id (cy_flags c) f (cy_len c)) p ->
    sent_all nconf id f M ds evs M' -> sent_all nconf id f M (FrameTo c :: ds) (EvSend p :: evs) M'.

Lemma sent_all_app nconf id f M1 M2 M3 ds1 ds2 evs1 evs2 : sent_all nconf id f M1 ds1 evs1 M2 -> sent_all nconf id f M2 ds2 evs2 M3 -> sent_all nconf id f M1 (ds1 ++ ds2) (evs1 ++ evs2) M3.
Proof.
  intros H1 H2. induction H1 as [M|M a idx ps bs ds evs M' Ha Hb _ IH|M c p ds evs M' Hp _ IH]; [done| |].
  - cbn [app]. rewrite <- app_assoc. econstructor; [done|done|by apply IH].
  - cbn [app]. constructor; [done|by apply IH].
Qed.

(** From [s] to [s'] with exactly these sendings. *)
Definition sends_frame (f : Frame) (N : Z) (s s' : NetState) (ds : list Sending) : Prop :=
  exists evs, talk N s s' evs /\
    sent_all (nt_config (ns_network s)) (nt_id (ns_network s)) f (ht_map (nt_memberships (ns_network s))) ds evs (ht_map (nt_memberships (ns_network s'))).

Lemma sends_frame_nil f N s : net_inv N (ns_network s) -> sends_frame f N s s [].
Proof. intros H. exists []. split; [by apply talk_refl|constructor]. Qed.

Lemma sends_frame_trans f N1 N2 s1 s2 s3 ds1 ds2 : sends_frame f N1 s1 s2 ds1 -> sends_frame f N2 s2 s3 ds2 -> sends_frame f N2 s1 s3 (ds1 ++ ds2).
Proof.
  intros (e1 & T1 & S1) (e2 & T2 & S2). exists (e1 ++ e2). split; [by eapply talk_trans|]. destruct (quiet_config _ _ (tk_quiet _ _ _ _ T1)) as (Ec & Ei & _).
  rewrite Ec, Ei in S2. by eapply sent_all_app.
Qed.

Lemma sends_frame_mono f N N' s s' ds : sends_frame f N s s' ds -> N <= N' -> sends_frame f N' s s' ds.
Proof. intros (e & [T1 T2 T3 T4] & S) H. exists e. split; [split; [by eapply net_inv_mono|done..]|done]. Qed.

Definition copy_ok (f : Frame) (c : Copy) : Prop := in_range 40 (cy_to c) /\ 0 <= cy_len c <= fr_len f.

Lemma push_to_runs f N s a idx : net_inv N (ns_network s) -> 0 <= N -> N + 1 < 2 ^ 59 -> in_range 40 a -> idx < zlen (nc_capabilities (nt_config (ns_network s))) ->
  runs (push_to E a idx false) s (fun s' _ => sends_frame f (N + 1) s s' [CredentialsTo a idx]).
Proof.
  intros Hi HN0 HN Ha Hidx. unfold push_to. eapply runs_bind; [by apply (membership_runs N s a Hi); [lia|..]|]. intros s1 m (Ht & -> & Hl & Hmap).
  destruct (quiet_config _ _ (tk_quiet _ _ _ _ Ht)) as (Ec & _). eapply runs_weaken; [apply (push_runs (N + 1) s1); [apply Ht|lia|done|by rewrite Ec]|].
  intros s2 [] (ps & bs & Ht2 & Hall & Hb & Hm2 & _). exists (EvSend <$> ps). split; [by apply (talk_trans _ _ _ _ _ [] _ Ht)|]. rewrite <- (app_nil_r (EvSend <$> ps)).
  rewrite Ec in Hb, Hm2. rewrite Hm2, Hmap, insert_insert_eq. econstructor; [exact Hall|exact Hb|constructor].
Qed.

Lemma forward_frame_runs N s c idx f : net_inv N (ns_network s) -> 0 <= N -> N + 1 < 2 ^ 59 -> copy_ok f c -> idx < zlen (nc_capabilities (nt_config (ns_network s))) ->
  Forall is_byte (fr_data f) -> fr_len f <= ZT_MAX_MTU ->
  runs (forward_frame E (cy_to c) idx (cy_flags c) f (cy_len c)) s (fun s' _ => sends_frame f (N + 1) s s' (with_credentials idx [c])).
Proof.
  intros Hi HN0 HN [Hc1 Hc2] Hidx Hb Hl. unfold forward_frame. eapply runs_bind; [by apply (push_to_runs f N s _ idx Hi)|]. intros s1 [] (evs & Ht & Hs).
  apply get_network_runs. pose proof (zlen_ext_frame_enc (nt_id (ns_network s1)) (cy_flags c) f _ Hc2) as Hz.
  eapply runs_weaken; [apply (send_packet_runs (N + 1) s1); [apply Ht|done|done|apply ext_frame_appends; [done|done|lia]|rewrite Hz, PC_value; unfold ZT_MAX_MTU in Hl; lia]|].
  intros s2 [] (p & Ht2 & Hp & En). change (with_credentials idx [c]) with ([CredentialsTo (cy_to c) idx] ++ [FrameTo c]).
  apply (sends_frame_trans f (N + 1) (N + 1) s s1 s2); [by exists evs|]. exists [EvSend p]. split; [done|]. rewrite En. constructor; [done|constructor].
Qed.
End Invariant.

(** ** A network that anyone may join *)

Section Sample.
Import Toy.

Definition sample_open : NetworkConfig :=
  mkNetworkConfig 0x1122334455667788 2000 5000 1 0x11 0 0 0 2800 32 [] [] [] sample_filter [] [] [] ZT_NETWORK_TYPE_PUBLIC [] COM_empty.
Definition sample_env : NodeEnv := mkEnv 0x11 100000 zero_memory (fun _ => true) (fun _ => Samples.signer) (fun _ => false) [] (fun _ _ => 0) (fun _ _ => false).
Definition sample_network : Network :=
  mkNetwork 0x1122334455667788 0 2 false [] new_table new_table sample_open 0 [] false NETCONF_FAILURE_NONE 0 new_table.
Definition sample_net : NetState := mkNetState sample_network (1, 2) [].

Lemma sample_env_ok : env_ok sample_env.
Proof. constructor; try done. apply zero_memory_ok. Qed.

Lemma sample_filter_rules_ok : rules_ok sample_filter.
Proof. split; [|done]. eapply Forall_impl; [apply sample_filter_ok|]. by intros r (H1 & H2 & _). Qed.

Lemma sample_open_ok : config_ok sample_open.
Proof.
  constructor; [|by repeat constructor|apply sample_filter_rules_ok|constructor]. constructor; try done.
  destruct (sample_config_wf 0) as [].  done.
Qed.

Lemma sample_net_inv : net_inv sample_env 0 sample_network.
Proof. constructor; try apply new_table_ok; [done|apply sample_open_ok|]. intros a m. cbn [sample_network nt_memberships]. by rewrite (proj2 new_table_ok), lookup_empty. Qed.
End Sample.
