(* ===== verification/NetworkGate.v ===== *)
(** Announcing multicast groups, and the gate of a network.

    The groups announced to a node are in the packets sent to it, in order and each once.  The
    gate is open exactly for the members of the network. *)
From stdpp Require Import gmap.
From S2P Require Import Prelude.
From S2P Require Import Utils.
From S2P Require Import Buffer.
From S2P Require Import Addressing.
From S2P Require Import Wire.
From S2P Require Import Hashtable.
From S2P Require Import C25519Api.
From S2P Require Import Identity.
From S2P Require Import CertificateOfMembership.
From S2P Require Import Credentials.
From S2P Require Import NetworkConfig.
From S2P Require Import Membership.
From S2P Require Import Packet.
From S2P Require Import Compression.
From S2P Require Import Switch.
From S2P Require Import SwitchSafety.
From S2P Require Import PushCredentials.
From S2P Require Import NetworkState.
From S2P Require Import NetworkSafety.

(** ** Multicast announcements *)

Definition group_enc (id : Z) (g : MulticastGroup) : list Z := be_bytes 8 id ++ be_bytes 6 (mg_mac g) ++ be_bytes 4 (mg_adi g).

Lemma zlen_group_enc id g : zlen (group_enc id g) = 18.
Proof. unfold group_enc. by rewrite !zlen_app, !zlen_be_bytes. Qed.

Lemma reset_fresh b iv dest source verb : buf_wf PC b -> zlen iv = 8 -> Forall is_byte iv -> is_byte verb ->
  exists b', Packet_reset b iv dest source verb = Ok b' /\ fresh verb dest source b'.
Proof.
  intros [H1 H2 H3 H4] Hi Hib Hv. destruct (Packet_reset_Ok (b_mem b) iv dest source verb) as (b' & Eb & Hb & Hl & Hd & Hs & Hg); [done..|].
  exists b'. split; [exact Eb|]. split_and!; try done. rewrite Hg. f_equal. by apply wrap_id.
Qed.

Lemma append_group_Ok id g b : buf_wf PC b -> b_len b + 18 <= PC ->
  exists b1 b2 b3, Buffer_append_int PC b 8 id = Ok b1 /\ MAC_appendTo PC (mg_mac g) b1 = Ok b2 /\ Buffer_append_int PC b2 4 (mg_adi g) = Ok b3 /\
    buf_wf PC b3 /\ buf_data b3 = buf_data b ++ group_enc id g /\ b_len b3 = b_len b + 18.
Proof.
  intros Hb Hl. pose proof PC_value.
  destruct (appends_fits _ _ b (appends_int PC 8 id) Hb) as (b1 & E1 & Hb1 & Hd1 & Hl1); [rewrite zlen_be_bytes; lia|]. rewrite zlen_be_bytes in Hl1.
  destruct (appends_fits _ _ b1 (appends_mac PC (mg_mac g) ltac:(lia)) Hb1) as (b2 & E2 & Hb2 & Hd2 & Hl2); [rewrite zlen_be_bytes; lia|]. rewrite zlen_be_bytes in Hl2.
  destruct (appends_fits _ _ b2 (appends_int PC 4 (mg_adi g)) Hb2) as (b3 & E3 & Hb3 & Hd3 & Hl3); [rewrite zlen_be_bytes; lia|]. rewrite zlen_be_bytes in Hl3.
  exists b1, b2, b3. split_and!; try done; [|lia]. unfold group_enc. by rewrite Hd3, Hd2, Hd1, <- !app_assoc.
Qed.

Section Announce.
Context `{Ops : C25519Ops} (E : NodeEnv) (HE : env_ok E) (peer : Z) (Hpeer : in_range 40 peer).

Definition announces (id : Z) (gs : list MulticastGroup) (p : Buffer) : Prop := sent_as VERB_MULTICAST_LIKE peer (en_self E) (mjoin (group_enc id <$> gs)) p.

(** A packet that has the groups [gs] so far. *)
Definition holds_groups (id : Z) (gs : list MulticastGroup) (b : Buffer) : Prop :=
  exists b0, fresh VERB_MULTICAST_LIKE peer (en_self E) b0 /\ buf_wf PC b /\ buf_data b = buf_data b0 ++ mjoin (group_enc id <$> gs).

Lemma zlen_groups id gs : zlen (mjoin (group_enc id <$> gs)) = 18 * zlen gs.
Proof. induction gs as [|g gs IH]; [done|]. change (mjoin (group_enc id <$> g :: gs)) with (group_enc id g ++ mjoin (group_enc id <$> gs)). rewrite zlen_app, zlen_group_enc, IH. unfold zlen. cbn [length]. lia. Qed.

Lemma holds_groups_len id gs b : holds_groups id gs b -> b_len b = 28 + 18 * zlen gs.
Proof.
  intros (b0 & (Hb0 & Hl0 & _) & Hb & Hd). rewrite <- (zlen_buf_data PC b Hb), Hd, zlen_app, (zlen_buf_data PC b0 Hb0), Hl0, zlen_groups. done.
Qed.

Lemma send_groups_Ok id gs b buf : holds_groups id gs b -> zlen buf = PC * 2 -> exists c p, Packet_compress buf b = Ok (c, p) /\ announces id gs p.
Proof. intros (b0 & Hf & Hb & Hd) Hbuf. apply (compress_sent VERB_MULTICAST_LIKE peer (en_self E) b0 b); try done. apply HE. Qed.

Lemma announce_loop_runs N groups : forall s outp acc, net_inv E N (ns_network s) -> holds_groups (nt_id (ns_network s)) acc outp ->
  runs (announce_loop E peer groups outp) s (fun s' outp' => exists packets lists last, talk E N s s' (EvSend <$> packets) /\ ns_network s' = ns_network s /\
    Forall2 (announces (nt_id (ns_network s))) lists packets /\ holds_groups (nt_id (ns_network s)) last outp' /\ acc ++ groups = concat lists ++ last).
Proof.
  pose proof PC_value as HPC. induction groups as [|g groups IH]; intros s outp acc Hi Ho; cbn [announce_loop].
  { apply runs_ret. exists [], [], acc. split; [by apply talk_refl|]. split_and!; [done|constructor|done|by rewrite app_nil_r]. }
  pose proof HE as [He1 He2 He3 He4]. pose proof (holds_groups_len _ _ _ Ho) as Hlen.
  (** One more group in a packet with room, then the rest. *)
  assert (Hadd : forall s outp acc, net_inv E N (ns_network s) -> holds_groups (nt_id (ns_network s)) acc outp -> b_len outp + 24 < PC ->
    runs (n ← get_network; outp ← lift (Buffer_append_int PC outp 8 (nt_id n)); outp ← lift (MAC_appendTo PC (mg_mac g) outp); outp ← lift (Buffer_append_int PC outp 4 (mg_adi g)); announce_loop E peer groups outp) s
      (fun s' outp' => exists packets lists last, talk E N s s' (EvSend <$> packets) /\ ns_network s' = ns_network s /\
        Forall2 (announces (nt_id (ns_network s))) lists packets /\ holds_groups (nt_id (ns_network s)) last outp' /\ acc ++ g :: groups = concat lists ++ last)).
  { clear s outp acc Hi Ho Hlen. intros s outp acc Hi (b0 & Hf & Hb & Hd) Hroom. apply get_network_runs.
    destruct (append_group_Ok (nt_id (ns_network s)) g outp Hb) as (b1 & b2 & b3 & E1 & E2 & E3 & Hb3 & Hd3 & _); [lia|].
    eapply runs_lift_bind; [exact E1|]. eapply runs_lift_bind; [exact E2|]. eapply runs_lift_bind; [exact E3|].
    eapply runs_weaken; [apply (IH s b3 (acc ++ [g]) Hi); exists b0; split_and!; [done|done|]|].
    - rewrite Hd3, Hd, <- app_assoc, fmap_app, join_app. change (mjoin (group_enc (nt_id (ns_network s)) <$> [g])) with (group_enc (nt_id (ns_network s)) g ++ []). by rewrite app_nil_r.
    - intros s' outp' (ps & ls & last & H1 & H2 & H3 & H4 & H5). exists ps, ls, last. split_and!; try done. by rewrite <- H5, <- app_assoc. }
  destruct (Z.leb_spec PC (b_len outp + 24)) as [Hfull|Hroom]; [|eapply runs_step; [reflexivity|]; by apply Hadd].
  destruct (send_groups_Ok (nt_id (ns_network s)) acc outp (pm_buf (en_memory E) (length (ns_log s))) Ho (mo_buf _ He3 _)) as (c & p & Ec & Hp).
  destruct (mo_iv _ He3 (S (length (ns_log s)))) as [Hiv1 Hiv2].
  destruct (reset_fresh p (pm_iv (en_memory E) (S (length (ns_log s)))) peer (en_self E) VERB_MULTICAST_LIKE) as (b & Eb & Hb); [apply Hp|done..|].
  eapply runs_step; [eapply eq_trans; [apply sm_bind_Ok; reflexivity|]; eapply eq_trans; [apply sm_bind_Ok; unfold lift; rewrite Ec; reflexivity|]; cbn beta iota;
    eapply eq_trans; [apply sm_bind_Ok; reflexivity|]; unfold lift; rewrite Eb; reflexivity|].
  eapply runs_weaken; [apply (Hadd (mkNetState (ns_network s) (ns_prng s) (ns_log s ++ [EvSend p])) b []); [done|exists b; split_and!; [done|apply Hb|by rewrite app_nil_r]|destruct Hb as (_ & -> & _); lia]|].
  intros s' outp' (ps & ls & last & [T1 T2 T3 T4] & H2 & H3 & H4 & H5). exists (p :: ps), (acc :: ls), last. split_and!; try done.
  - split; [done|done|done|]. rewrite T4. cbn. by rewrite <- app_assoc.
  - by constructor.
  - cbn [concat]. rewrite <- app_assoc, <- H5. done.
Qed.

Lemma announce_runs N s groups : net_inv E N (ns_network s) ->
  runs (announceMulticastGroupsTo E peer groups) s (fun s' _ => exists packets lists, talk E N s s' (EvSend <$> packets) /\ ns_network s' = ns_network s /\
    Forall2 (announces (nt_id (ns_network s))) lists packets /\ groups = concat lists).
Proof.
  intros Hi. pose proof HE as [He1 He2 He3 He4]. unfold announceMulticastGroupsTo. apply ticket_runs.
  destruct (Packet_new_Ok (en_memory E) (length (ns_log s)) peer (en_self E) VERB_MULTICAST_LIKE He3 ltac:(done)) as (b & Eb & Hb). eapply runs_lift_bind; [exact Eb|].
  eapply runs_bind; [apply (announce_loop_runs N groups s b [] Hi); exists b; split_and!; [done|apply Hb|by rewrite app_nil_r]|].
  intros s1 outp (ps & ls & last & Ht & En & Hall & Ho & Hcat). cbn [app] in Hcat. pose proof (holds_groups_len _ _ _ Ho) as Hl. unfold ZT_PROTO_MIN_PACKET_LENGTH.
  destruct (Z.ltb_spec 28 (b_len outp)).
  - apply ticket_runs. destruct (send_groups_Ok _ last outp (pm_buf (en_memory E) (length (ns_log s1))) Ho (mo_buf _ He3 _)) as (c & p & Ec & Hp).
    eapply runs_lift_bind; [exact Ec|]. cbn beta iota. eexists _, _. split; [reflexivity|]. exists (ps ++ [p]), (ls ++ [last]). split_and!.
    + destruct Ht as [T1 T2 T3 T4]. split; cbn; [done|done|done|]. by rewrite T4, fmap_app, app_assoc.
    + done.
    + apply Forall2_app; [done|]. by constructor.
    + rewrite Hcat, concat_app. cbn [concat]. by rewrite app_nil_r.
  - apply runs_ret. exists ps, ls. split_and!; try done. destruct last; [by rewrite app_nil_r in Hcat|]. unfold zlen in Hl. cbn [length] in Hl. lia.
Qed.
End Announce.

(** ** The gate *)

Section Gate.
Context `{Ops : C25519Ops} (E : NodeEnv) (HE : env_ok E).

(** The network is configured, and it is public or the peer showed a certificate of membership
    that is not revoked and agrees with ours. *)
Definition admits (n : Network) (peer : Z) : Prop :=
  NetworkConfig_bool (nt_config n) = true /\
  (NetworkConfig_isPublic (nt_config n) = true \/
   exists m, ht_map (nt_memberships n) !! AddrK peer = Some m /\ Membership_isAllowedOnNetwork m (nt_config n) = Ok true).

Lemma isAllowed_total N m nconf : member_inv E N m -> creds_wf nconf -> exists b, Membership_isAllowedOnNetwork m nconf = Ok b.
Proof.
  intros Hm Hc. unfold Membership_isAllowedOnNetwork. destruct (NetworkConfig_isPublic nconf); [eauto|].
  pose proof (mi_com _ _ _ (mb_creds E N m Hm)) as Hcom. destruct (COM_timestamp_total _ Hcom) as [ts ->]. cbn [mbind outcome_bind]. destruct (ts <=? _); [eauto|].
  rewrite agreesWith_positions by (done || apply Hc). eauto.
Qed.

Lemma multicastLikeGate_Ok N m : member_inv E N m -> exists m' due, Membership_multicastLikeGate m (en_now E) = Ok (m', due) /\ creds_of m' = creds_of m /\ member_inv E N m'.
Proof.
  intros [H1 H2 H3 H4]. pose proof (ek_now E HE) as Hn. unfold Membership_multicastLikeGate. rewrite sub_s64_Ok by done. cbn [mbind outcome_bind].
  destruct (_ <=? _); [|by exists m, false]. eexists _, true. split; [done|]. split; [done|]. constructor; [by apply (ms_inv_creds _ _ m)|by destruct H2|done|done].
Qed.

Definition gate_packet (id peer : Z) (p : Buffer) : Prop := credentials_for E peer p \/ exists gs, announces E peer id gs p.

Lemma catch_runs {A} (a : A) (m : NM A) s Q : runs m s Q -> runs (catch_with a m) s Q.
Proof. intros (s' & x & Em & H). exists s', x. unfold catch_with. by rewrite Em. Qed.

(** The member is let in: it gets our credentials and our groups when they are due. *)
Lemma let_in_runs N s m peer : net_inv E N (ns_network s) -> N < 2 ^ 59 -> in_range 40 peer -> ht_map (nt_memberships (ns_network s)) !! AddrK peer = Some m ->
  runs ('(m, due) ← lift (Membership_multicastLikeGate m (en_now E));
        _ ← set_membership peer m;
        _ ← (if (due : bool) then _ ← push E m peer (-1) false; n ← get_network; announceMulticastGroupsTo E peer (allMulticastGroups n) else mret tt);
        mret true) s
    (fun s' r => r = true /\ exists packets, talk E N s s' (EvSend <$> packets) /\ Forall (gate_packet (nt_id (ns_network s)) peer) packets).
Proof.
  intros Hi HN Hp Hm. destruct (ni_member E N _ Hi _ _ Hm) as [_ Hmi]. destruct (multicastLikeGate_Ok N m Hmi) as (m' & due & Eg & Hc & Hm').
  eapply runs_lift_bind; [exact Eg|]. cbn beta iota. eapply runs_bind; [by apply (touch_runs E N s peer m' m)|]. intros s1 [] (Ht1 & Hl1 & _).
  assert (Hl2 : ht_map (nt_memberships (ns_network s1)) !! AddrK peer = Some m') by (by rewrite Hl1, lookup_insert_eq).
  destruct due; [|eapply runs_step; [reflexivity|]; apply runs_ret; split; [done|]; by exists []].
  pose proof (zlen_nonneg (nc_capabilities (nt_config (ns_network s1)))).
  eapply runs_bind; [eapply runs_bind; [apply (push_runs E HE N s1 peer m' (-1) false); [apply Ht1|done|done|lia]|]|].
  - intros s2 [] (ps & bs & Ht2 & Hall & _). apply get_network_runs. pose proof (tk_inv _ _ _ _ _ Ht2) as Hi2.
    apply (runs_weaken _ s2 _ (fun s' _ => exists packets, talk E N s s' (EvSend <$> packets) /\ Forall (gate_packet (nt_id (ns_network s)) peer) packets) (announce_runs E HE peer Hp N s2 _ Hi2)).
    intros s3 [] (qs & ls & Ht3 & _ & Hq & _). exists (ps ++ qs). split.
    + rewrite fmap_app. apply (talk_trans E N N s s1 s3 [] _ Ht1). by eapply talk_trans.
    + destruct (quiet_config _ _ (tk_quiet _ _ _ _ _ Ht1)) as (_ & E1 & _), (quiet_config _ _ (tk_quiet _ _ _ _ _ Ht2)) as (_ & E2 & _). rewrite E2, E1 in Hq.
      apply Forall_app. split; [eapply Forall_impl; [by eapply Forall2_credentials|]; intros; by left|]. clear -Hq. induction Hq; constructor; [right; eauto|done].
  - intros s2 [] H2. apply runs_ret. by split.
Qed.

Lemma gate_runs N s peer : net_inv E N (ns_network s) -> 0 <= N -> N + 1 < 2 ^ 59 -> in_range 40 peer ->
  runs (gate E peer) s (fun s' r => (r = true <-> admits (ns_network s) peer) /\
    exists packets, talk E (N + 1) s s' (EvSend <$> packets) /\ Forall (gate_packet (nt_id (ns_network s)) peer) packets).
Proof.
  intros Hi HN0 HN Hp. unfold gate. apply catch_runs, get_network_runs. unfold admits.
  assert (Hno : forall P : Prop, ~ P -> runs (mret false) s (fun s' r => (r = true <-> P) /\ exists packets, talk E (N + 1) s s' (EvSend <$> packets) /\ Forall (gate_packet (nt_id (ns_network s)) peer) packets)).
  { intros P HP. apply runs_ret. split; [by split|]. exists []. split; [|done]. apply talk_refl. eapply net_inv_mono; [done|lia]. }
  destruct (NetworkConfig_bool (nt_config (ns_network s))) eqn:Eb; [|apply Hno; by intros []].
  eapply runs_step; [by apply (get_membership_eq E N)|].
  (** Once the peer is allowed. *)
  assert (Hin : forall P : Prop, P -> runs (m ← match ht_map (nt_memberships (ns_network s)) !! AddrK peer with Some m => mret m | None => membership E peer end;
      '(m, due) ← lift (Membership_multicastLikeGate m (en_now E)); _ ← set_membership peer m;
      _ ← (if (due : bool) then _ ← push E m peer (-1) false; n ← get_network; announceMulticastGroupsTo E peer (allMulticastGroups n) else mret tt); mret true) s
    (fun s' r => (r = true <-> P) /\ exists packets, talk E (N + 1) s s' (EvSend <$> packets) /\ Forall (gate_packet (nt_id (ns_network s)) peer) packets)).
  { intros P HP. destruct (ht_map (nt_memberships (ns_network s)) !! AddrK peer) as [m|] eqn:Em.
    - eapply runs_step; [reflexivity|]. eapply runs_weaken; [apply (let_in_runs (N + 1) s m peer); [eapply net_inv_mono; [done|lia]|lia|done|done]|].
      intros s' r [-> H]. by split.
    - eapply runs_bind; [by apply (membership_runs E N s peer Hi); [lia|..]|]. intros s1 m (Ht & -> & Hl & _).
      eapply runs_weaken; [apply (let_in_runs (N + 1) s1 _ peer); [apply Ht|lia|done|exact Hl]|]. intros s' r [-> (ps & Ht2 & Hall)]. split; [done|]. exists ps.
      split; [by apply (talk_trans E _ _ s s1 s' [] _ Ht)|]. by destruct (quiet_config _ _ (tk_quiet _ _ _ _ _ Ht)) as (_ & <- & _). }
  destruct (NetworkConfig_isPublic (nt_config (ns_network s))) eqn:Epub.
  - eapply runs_step; [reflexivity|]. cbn beta iota. apply Hin. split; [done|by left].
  - destruct (ht_map (nt_memberships (ns_network s)) !! AddrK peer) as [m|] eqn:Em.
    + destruct (ni_member E N _ Hi _ _ Em) as [_ Hm]. destruct (isAllowed_total N m _ Hm (cg_creds _ (ni_config E N _ Hi))) as [b Eb']. eapply runs_lift_bind; [exact Eb'|].
      destruct b; [apply Hin; split; [done|right; eauto]|]. apply Hno. intros [_ [?|(m' & [= <-] & ?)]]; congruence.
    + eapply runs_step; [reflexivity|]. cbn beta iota. apply Hno. intros [_ [?|(m' & ? & _)]]; congruence.
Qed.
End Gate.

(** C21: The gate of a network lets exactly the members in whose certificates agree with ours, or
    anyone when the network is public.  It ends, and all it does is to send to the peer our
    credentials and the groups we listen to. *)
Theorem gate_lets_in `{C25519Ops} E N s peer :
  env_ok E -> net_inv E N (ns_network s) -> 0 <= N -> N + 1 < 2 ^ 59 -> in_range 40 peer ->
  runs (gate E peer) s (fun s' r => (r = true <-> admits (ns_network s) peer) /\
    exists packets, talk E (N + 1) s s' (EvSend <$> packets) /\ Forall (gate_packet E (nt_id (ns_network s)) peer) packets).
Proof. intros HE. by apply gate_runs. Qed.

Lemma gate_lets_in_witness : exists s', gate sample_env 0x99 sample_net = (s', Ok true).
Proof.
  destruct (gate_lets_in (H := Toy.toy_ops) sample_env 0 sample_net 0x99) as (s' & r & E & Hr & _); [apply sample_env_ok|apply sample_net_inv|lia|lia|done|].
  exists s'. rewrite E. do 2 f_equal. apply Hr. split; [reflexivity|by left].
Defined.
