(* ===== verification/NetworkBridges.v ===== *)
(** Routes to devices behind bridges: learnBridgeRoute of node/Network.cpp.

    The table never has more than ZT_MAX_BRIDGE_ROUTES entries after a route was learned: the
    loop drops all routes to the address that has the most of them, as often as it takes, and
    ends. *)
From stdpp Require Import gmap.
From S2P Require Import Prelude.
From S2P Require Import Hashtable.
From S2P Require Import C25519Api.
From S2P Require Import Membership.
From S2P Require Import Switch.
From S2P Require Import NetworkState.
From S2P Require Import NetworkSafety.

(** How many of the routes lead to [a]. *)
Definition routes_to (a : Z) (l : list (MACKey * Z)) : Z := zlen (filter (fun kv => kv.2 = a) l).

Lemma routes_to_app a l1 l2 : routes_to a (l1 ++ l2) = routes_to a l1 + routes_to a l2.
Proof. unfold routes_to. by rewrite filter_app, zlen_app. Qed.
Lemma routes_to_one a k b : routes_to a [(k, b)] = if decide (b = a) then 1 else 0.
Proof. unfold routes_to. rewrite filter_cons, filter_nil. cbn [snd]. by destruct (decide (b = a)). Qed.
Lemma routes_to_bounds a l : 0 <= routes_to a l <= zlen l.
Proof. unfold routes_to, zlen. pose proof (length_filter (fun kv : MACKey * Z => kv.2 = a) l). lia. Qed.

(** [counts] holds the number of routes in [l] to each address. *)
Definition counted_in (counts : Hashtable AddressKey Z) (l : list (MACKey * Z)) : Prop :=
  forall a, default 0 (ht_map counts !! AddrK a) = routes_to a l.
(** [a] has the most routes in [l]. *)
Definition has_most (a : Z) (l : list (MACKey * Z)) : Prop := forall b, routes_to b l <= routes_to a l.

Lemma count_routes_Ok routes alloc : ht_wf routes -> ht_s routes < 2 ^ 59 ->
  forall fuel l seen it counts a c, it_at routes it l -> ht_list routes = seen ++ l -> (length l < fuel)%nat ->
  table_ok (zlen seen) counts -> counted_in counts seen -> has_most a seen -> c = routes_to a seen ->
  exists a', count_routes fuel routes it alloc counts a c = Ok a' /\ has_most a' (ht_list routes).
Proof.
  intros Hw Hs. induction fuel as [|fuel IH]; intros l seen it counts a c Hat El Hf Hc Hcnt Hmost Hac; [lia|]. cbn [count_routes]. pose proof (Iterator_next_at routes it l Hw Hat) as Hn.
  destruct l as [|[k b] l].
  - destruct Hn as [it' ->]. cbn [mbind outcome_bind]. exists a. rewrite app_nil_r in El. by rewrite El.
  - destruct Hn as (it' & -> & Hat'). cbn [mbind outcome_bind]. assert (Hlen : zlen seen + 1 <= ht_s routes) by (rewrite (hw_s routes Hw), El, zlen_app; unfold zlen; cbn [length]; lia).
    pose proof (zlen_nonneg seen). destruct Hc as [Hcw Hcs]. destruct (Hashtable_index_spec 0 counts (AddrK b) (alloc fuel) Hcw ltac:(lia)) as (h & -> & Hw1 & Hm1 & Hs1). cbn [mbind outcome_bind].
    rewrite (Hcnt b) in Hm1 |- *. pose proof (routes_to_bounds b seen). assert (Eu : u64 (routes_to b seen + 1) = routes_to b seen + 1) by (apply wrap_id; unfold in_range; lia). rewrite Eu.
    destruct (Hashtable_store_spec h (AddrK b) (routes_to b seen + 1) Hw1 ltac:(lia)) as (h' & -> & Hw2 & Hm2); [rewrite Hm1, lookup_insert_eq; eauto|]. cbn [mbind outcome_bind].
    assert (Hcnt' : counted_in h' (seen ++ [(k, b)])).
    { intros x. rewrite Hm2, Hm1, insert_insert_eq, routes_to_app, routes_to_one. destruct (decide (b = x)) as [->|Hne]; [by rewrite lookup_insert_eq|].
      rewrite lookup_insert_ne by congruence. rewrite Hcnt. lia. }
    assert (Htab : table_ok (zlen (seen ++ [(k, b)])) h').
    { split; [done|]. assert (Hk : is_Some (ht_map h !! AddrK b)) by (rewrite Hm1, lookup_insert_eq; eauto). destruct Hk as [x Hk].
      pose proof (ht_size h Hw1) as Hz. rewrite (ht_size h' Hw2), Hm2, map_size_insert, Hk, zlen_app. unfold id. change (zlen [(k, b)]) with 1. lia. }
    assert (Hnext : forall a' c', has_most a' (seen ++ [(k, b)]) -> c' = routes_to a' (seen ++ [(k, b)]) ->
      exists a'', count_routes fuel routes it' alloc h' a' c' = Ok a'' /\ has_most a'' (ht_list routes)).
    { intros a' c' Ha' Hc'. cbn [length] in Hf. apply (IH l (seen ++ [(k, b)])); try done; [by rewrite <- app_assoc|lia]. }
    subst c. destruct (Z.ltb_spec (routes_to a seen) (routes_to b seen + 1)) as [Hlt|Hge]; apply Hnext.
    + intros x. rewrite !routes_to_app, !routes_to_one. specialize (Hmost x). destruct (decide (b = b)); [|done]. destruct (decide (b = x)); lia.
    + rewrite routes_to_app, routes_to_one. by destruct (decide (b = b)).
    + intros x. rewrite !routes_to_app, !routes_to_one. specialize (Hmost x). destruct (decide (b = x)) as [->|]; destruct (decide _); lia.
    + rewrite routes_to_app, routes_to_one. destruct (decide (b = a)) as [->|]; lia.
Qed.

(** A turn of the breaker drops the routes of one address with the most of them, at least one. *)
Lemma drop_spammer_Ok alloc h : ht_wf h -> ht_s h < 2 ^ 59 -> (forall n, alloc n = true) ->
  exists a h', drop_spammer alloc h = Ok h' /\ ht_wf h' /\ has_most a (ht_list h) /\ ht_map h' = filter (fun kv => kv.2 <> a) (ht_map h) /\ ht_s h' = ht_s h - routes_to a (ht_list h).
Proof.
  intros Hw Hs Ha. unfold drop_spammer. cbv zeta. rewrite Ha. destruct (Hashtable_new_spec (K := AddressKey) (V := Z) 64) as (c0 & -> & Hc0 & Hm0 & Hs0); [lia|]. cbn [mbind outcome_bind].
  destruct (Iterator_new_at h Hw) as (it & Eit & Hat). rewrite Eit. cbn [mbind outcome_bind].
  assert (Hfuel : S (Z.to_nat (ht_s h)) = S (length (ht_list h))) by (rewrite (hw_s h Hw); unfold zlen; lia).
  destruct (count_routes_Ok h alloc Hw Hs (S (Z.to_nat (ht_s h))) (ht_list h) [] it c0 0 0 Hat eq_refl) as (a & -> & Hmost); [lia|split; [done|]; change (zlen []) with 0; lia| | |done|].
  { intros x. by rewrite Hm0, lookup_empty. }
  { intros x. done. }
  cbn [mbind outcome_bind]. rewrite Hfuel.
  destruct (erase_all_spec (fun kv : MACKey * Z => Ok (kv.2 =? a)) (fun kv => kv.2 =? a) h) as (it' & h' & Eit' & El & Hw' & Hl); [done|done|lia|]. rewrite Eit in Eit'. injection Eit' as <-. rewrite El. cbn [fmap outcome_fmap fst].
  assert (Hl' : ht_list h' = filter (fun kv => kv.2 <> a) (ht_list h)).
  { rewrite Hl. apply list_filter_iff. intros [k v]. cbn [snd]. rewrite Z.eqb_neq. done. }
  exists a, h'. split; [done|]. split; [done|]. split; [done|]. split; [by apply ht_map_filter|]. rewrite (hw_s h' Hw'), (hw_s h Hw), Hl'. unfold routes_to, zlen.
  clear. induction (ht_list h) as [|[k v] l IH]; [done|]. rewrite !filter_cons. cbn [snd]. destruct (decide (v = a)), (decide (v <> a)); try done; cbn [length]; lia.
Qed.

(** ** The circuit breaker *)

Definition to_addr (a : Z) (m : gmap MACKey Z) : gmap MACKey Z := filter (fun kv => kv.2 = a) m.
Definition without (a : Z) (m : gmap MACKey Z) : gmap MACKey Z := filter (fun kv => kv.2 <> a) m.

(** What the breaker does with the routes: while there are too many, those of an address with the
    most of them go. *)
Inductive breaker : gmap MACKey Z -> gmap MACKey Z -> Prop :=
| breaker_done m : Z.of_nat (size m) <= ZT_MAX_BRIDGE_ROUTES -> breaker m m
| breaker_drop a m m' : ZT_MAX_BRIDGE_ROUTES < Z.of_nat (size m) -> (forall b, (size (to_addr b m) <= size (to_addr a m))%nat) -> breaker (without a m) m' -> breaker m m'.

Lemma routes_to_size a h : ht_wf h -> routes_to a (ht_list h) = Z.of_nat (size (to_addr a (ht_map h))).
Proof.
  intros Hw. unfold routes_to, zlen. f_equal. assert (Hn : NoDup (filter (fun kv : MACKey * Z => kv.2 = a) (ht_list h)).*1).
  { pose proof (hw_nodup h Hw) as Hn. induction (ht_list h) as [|[k v] l IH]; [constructor|]. rewrite fmap_cons in Hn. apply NoDup_cons in Hn as [Hk Hn]. rewrite filter_cons.
    destruct (decide _); [|by apply IH]. rewrite fmap_cons. apply NoDup_cons. split; [|by apply IH]. intros Hin. apply Hk. apply list_elem_of_fmap in Hin as (kv & Ek & Hin%list_elem_of_filter).
    rewrite Ek. apply list_elem_of_fmap. exists kv. by split; [|apply Hin]. }
  rewrite <- (map_size_list_to_map (M := gmap MACKey) _ Hn). f_equal. apply map_eq. intros k. apply option_eq. intros v.
  rewrite <- elem_of_list_to_map by done. unfold to_addr. rewrite list_elem_of_filter, map_lookup_filter_Some, (ht_map_lookup h k v Hw). tauto.
Qed.

Lemma has_most_present a l : has_most a l -> l <> [] -> 0 < routes_to a l.
Proof.
  intros Hm Hl. destruct l as [|[k b] l]; [done|]. specialize (Hm b). change ((k, b) :: l) with ([(k, b)] ++ l) in Hm |- *. rewrite !routes_to_app, (routes_to_one b) in Hm.
  rewrite routes_to_app. destruct (decide (b = b)); [|done]. pose proof (routes_to_bounds b l). lia.
Qed.

(** The routes that are left, and how an address fares. *)
Lemma breaker_limit m m' : breaker m m' -> Z.of_nat (size m') <= ZT_MAX_BRIDGE_ROUTES /\ m' ⊆ m /\ forall a, to_addr a m' = to_addr a m \/ to_addr a m' = ∅.
Proof.
  induction 1 as [m Hm|a m m' _ _ _ (IH1 & IH2 & IH3)]; [split_and!; [done|done|by left]|]. split; [done|]. split; [etrans; [exact IH2|apply map_filter_subseteq]|]. intros b.
  destruct (decide (b = a)) as [->|Hne].
  - right. apply map_empty. intros k. apply eq_None_not_Some. intros [v [Hk Ev]%map_lookup_filter_Some]. eapply lookup_weaken in Hk; [|exact IH2].
    by apply map_lookup_filter_Some in Hk as [_ Hk].
  - destruct (IH3 b) as [E| ->]; [left|by right]. rewrite E. unfold to_addr, without. apply map_eq. intros k. apply option_eq. intros v. rewrite !map_lookup_filter_Some. cbn [snd].
    split; [tauto|]. intros [Hk ->]. done.
Qed.

Section Learn.
Context `{Ops : C25519Ops} (E : NodeEnv).

Lemma limit_routes_runs fuel : forall N s, net_inv E N (ns_network s) -> N < 2 ^ 59 -> (forall k, en_alloc E k = true) -> ht_s (nt_remoteBridgeRoutes (ns_network s)) < Z.of_nat fuel ->
  runs (limit_routes E fuel) s (fun s' _ => exists h, s' = mkNetState (with_routes (ns_network s) h) (ns_prng s) (ns_log s) /\ table_ok N h /\ breaker (ht_map (nt_remoteBridgeRoutes (ns_network s))) (ht_map h)).
Proof.
  induction fuel as [|fuel IH]; intros N s Hi HN Ha Hf; pose proof (ni_routes E N _ Hi) as [Hw Hs].
  { rewrite (hw_s _ Hw) in Hf. pose proof (zlen_nonneg (ht_list (nt_remoteBridgeRoutes (ns_network s)))). lia. }
  cbn [limit_routes]. apply get_network_runs. unfold Hashtable_size. destruct (Z.ltb_spec ZT_MAX_BRIDGE_ROUTES (ht_s (nt_remoteBridgeRoutes (ns_network s)))) as [Hmany|Hfew].
  - destruct (drop_spammer_Ok (en_alloc E) (nt_remoteBridgeRoutes (ns_network s)) Hw ltac:(lia) Ha) as (a & h & Eh & Hwh & Hmost & Hm & Hsh). eapply runs_lift_bind; [exact Eh|]. eapply runs_step; [reflexivity|].
    assert (Hpos : 0 < routes_to a (ht_list (nt_remoteBridgeRoutes (ns_network s)))).
    { apply has_most_present; [done|]. intros El. rewrite (hw_s _ Hw), El in Hmany. done. }
    eapply runs_weaken; [apply (IH N (mkNetState (with_routes (ns_network s) h) (ns_prng s) (ns_log s))); cbn; [|done|done|lia]|].
    + destruct Hi. constructor; cbn; try done. split; [done|lia].
    + cbn. intros s' [] (h' & -> & Ht & Hb). exists h'. split; [done|]. split; [done|]. apply (breaker_drop a); [by rewrite <- ht_size| |by rewrite Hm in Hb].
      intros b. specialize (Hmost b). rewrite !routes_to_size in Hmost by done. lia.
  - apply runs_ret. exists (nt_remoteBridgeRoutes (ns_network s)). split; [by destruct s as [[] ? ?]|]. split; [by split|]. constructor. by rewrite <- ht_size.
Qed.

Lemma learnBridgeRoute_runs N s mac addr : net_inv E N (ns_network s) -> N + 1 < 2 ^ 59 -> (forall k, en_alloc E k = true) ->
  runs (learnBridgeRoute E mac addr) s (fun s' _ => exists h, s' = mkNetState (with_routes (ns_network s) h) (ns_prng s) (ns_log s) /\ net_inv E (N + 1) (ns_network s') /\
    breaker (<[MacK mac := addr]> (ht_map (nt_remoteBridgeRoutes (ns_network s)))) (ht_map h)).
Proof.
  intros Hi HN Ha. pose proof (ni_routes E N _ Hi) as [Hw Hs]. unfold learnBridgeRoute. apply get_network_runs, ticket_runs.
  destruct (Hashtable_index_spec 0 (nt_remoteBridgeRoutes (ns_network s)) (MacK mac) (en_alloc E (length (ns_log s))) Hw ltac:(lia)) as (h1 & E1 & Hw1 & Hm1 & Hs1).
  eapply runs_lift_bind; [exact E1|]. cbn beta iota. assert (Hk : is_Some (ht_map h1 !! MacK mac)) by (rewrite Hm1, lookup_insert_eq; eauto).
  destruct (Hashtable_store_spec h1 (MacK mac) addr Hw1 ltac:(lia) Hk) as (h2 & E2 & Hw2 & Hm2). eapply runs_lift_bind; [exact E2|]. eapply runs_step; [reflexivity|].
  assert (Hs2 : ht_s h2 = ht_s h1) by (destruct Hk as [x Hk]; by rewrite (ht_size h2 Hw2), (ht_size h1 Hw1), Hm2, map_size_insert, Hk).
  assert (Hinv : forall h, table_ok (N + 1) h -> net_inv E (N + 1) (with_routes (ns_network s) h)).
  { intros h Hh. apply (net_inv_mono E N (N + 1)) in Hi; [|lia]. destruct Hi. by constructor. }
  eapply runs_weaken; [apply (limit_routes_runs _ (N + 1)); cbn; [apply Hinv; split; [done|lia]|lia|done|]|].
  - rewrite (hw_s h2 Hw2). pose proof (zlen_nonneg (ht_list h2)). lia.
  - cbn. intros s' [] (h & -> & Ht & Hb). exists h. split; [done|]. split; [by apply Hinv|]. by rewrite Hm2, Hm1, insert_insert_eq in Hb.
Qed.
End Learn.

(** C22: Learning a bridged MAC address ends with at most ZT_MAX_BRIDGE_ROUTES routes: the ones known
    and the new one, but for the addresses with the most routes, which lose all of theirs while
    there are too many.  Nothing else of the network changes. *)
Theorem learnBridgeRoute_limits `{C25519Ops} E N s mac addr :
  net_inv E N (ns_network s) -> N + 1 < 2 ^ 59 -> (forall k, en_alloc E k = true) ->
  runs (learnBridgeRoute E mac addr) s (fun s' _ => exists h, s' = mkNetState (with_routes (ns_network s) h) (ns_prng s) (ns_log s) /\ net_inv E (N + 1) (ns_network s') /\
    let known := <[MacK mac := addr]> (ht_map (nt_remoteBridgeRoutes (ns_network s))) in
    breaker known (ht_map h) /\ Z.of_nat (size (ht_map h)) <= ZT_MAX_BRIDGE_ROUTES /\ ht_map h ⊆ known /\
    (forall a, to_addr a (ht_map h) = to_addr a known \/ to_addr a (ht_map h) = ∅) /\ (Z.of_nat (size known) <= ZT_MAX_BRIDGE_ROUTES -> ht_map h = known)).
Proof.
  intros Hi HN Ha. eapply runs_weaken; [by apply (learnBridgeRoute_runs E N)|]. intros s' _ (h & -> & Hi' & Hb). exists h. cbv zeta. destruct (breaker_limit _ _ Hb) as (H1 & H2 & H3). split_and!; try done.
  intros Hs. inversion Hb as [m Hm|a m m' Hm]; [done|lia].
Qed.

Lemma learnBridgeRoute_limits_witness : exists h,
  learnBridgeRoute sample_env 0x0200aabbccdd 0x99 sample_net = (mkNetState (with_routes sample_network h) (1, 2) [], Ok tt) /\ ht_map h = {[ MacK 0x0200aabbccdd := 0x99 ]}.
Proof.
  destruct (learnBridgeRoute_limits (H := Toy.toy_ops) sample_env 0 sample_net 0x0200aabbccdd 0x99) as (s' & [] & E & h & Es & _ & _ & _ & _ & _ & Hh); [apply sample_net_inv|lia|done|].
  exists h. rewrite E, Es. split; [reflexivity|]. cbn [sample_net ns_network sample_network nt_remoteBridgeRoutes] in Hh. rewrite (proj2 new_table_ok) in Hh. apply Hh. by rewrite insert_empty, map_size_singleton.
Defined.
