(* ===== verification/NetworkFrames.v ===== *)
(** The filters of a network on whole frames: filterIncomingPacket and filterOutgoingPacket of
    node/Network.cpp.

    What the filters decide is written as functions without effects, over the rules of the
    network and the list of capabilities that count; the operations are shown to decide that,
    and to send exactly the copies and redirected frames that the decision asks for. *)
From stdpp Require Import gmap.
From S2P Require Import Prelude.
From S2P Require Import Utils.
From S2P Require Import Buffer.
From S2P Require Import Addressing.
From S2P Require Import Wire.
From S2P Require Import Rules.
From S2P Require Import Hashtable.
From S2P Require Import C25519Api.
From S2P Require Import Identity.
From S2P Require Import CertificateOfMembership.
From S2P Require Import Credentials.
From S2P Require Import Capability.
From S2P Require Import NetworkConfig.
From S2P Require Import NetworkConfigDict.
From S2P Require Import Membership.
From S2P Require Import NetworkFilter.
From S2P Require Import Packet.
From S2P Require Import Compression.
From S2P Require Import Switch.
From S2P Require Import PushCredentials.
From S2P Require Import NetworkState.
From S2P Require Import NetworkSafety.

(** ** The decision *)

(** A frame that the filter can look at, and that fits a packet. *)
Record frame_fits (f : Frame) : Prop := { ff_ok : frame_ok f; ff_tcp : tcp_whole f; ff_mtu : fr_len f <= ZT_MAX_MTU }.

Section Decision.
Context `{Ops : C25519Ops} (self : Z) (nconf : NetworkConfig) (m : option Membership) (inbound : bool) (source dest : Z) (f : Frame).

Definition filter_rules (rules : list Rule) (prng : Z * Z) : outcome (FilterResult * FilterState) :=
  doZtFilter self nconf m inbound source f rules (mkFS dest 0 0 false [] prng).

(** The first of the capabilities that accepts: its number, and what its rules say. *)
Fixpoint first_capability (caps : list Capability) (c : Z) (prng : Z * Z) : outcome (option (Z * FilterResult * FilterState) * (Z * Z)) :=
  match caps with
  | [] => Ok (None, prng)
  | cap :: caps =>
      '(res, st) ← filter_rules (cap_rules cap) prng;
      match res with
      | DOZTFILTER_NO_MATCH | DOZTFILTER_DROP => first_capability caps (c + 1) (fs_prng st)
      | _ => Ok (Some (c, res, st), fs_prng st)
      end
  end.

Definition tee_copy (watch plain : Z) (st : FilterState) : list Copy :=
  if Address_bool (fs_cc st) then [mkCopy (fs_cc st) (if fs_ccWatch st then watch else plain) (fs_ccLength st)] else [].
Definition redirect_copy (flags : Z) (st : FilterState) : list Copy :=
  if negb (dest =? fs_ztDest st) && Address_bool (fs_ztDest st) then [mkCopy (fs_ztDest st) flags (fr_len f)] else [].

Definition accept_level (res : FilterResult) : Z :=
  match res with DOZTFILTER_NO_MATCH | DOZTFILTER_DROP => 0 | DOZTFILTER_REDIRECT | DOZTFILTER_ACCEPT => 1 | DOZTFILTER_SUPER_ACCEPT => 2 end.

(** Who decides: the rules of the network ([None]), or a capability when they do not match. *)
Definition decide_frame (caps : list Capability) (prng : Z * Z) : outcome (FilterState * option (option Z * FilterResult * FilterState) * (Z * Z)) :=
  '(res, st) ← filter_rules (nc_rules nconf) prng;
  match res with
  | DOZTFILTER_DROP => Ok (st, None, fs_prng st)
  | DOZTFILTER_NO_MATCH =>
      '(r, prng) ← first_capability caps 0 (fs_prng st);
      Ok (st, match r with Some (c, res, cst) => Some (Some c, res, cst) | None => None end, prng)
  | _ => Ok (st, Some (None, res, st), fs_prng st)
  end.

(** How the frame is accepted, and the copies: those the capability asks for, those of the rules
    of the network, and the frame itself when it is redirected, which drops it here. *)
Definition incoming_spec (caps : list Capability) (prng : Z * Z) : outcome (Z * list Copy * (Z * Z)) :=
  '(st, d, prng) ← decide_frame caps prng;
  Ok (match d with
      | None => (0, [], prng)
      | Some (c, res, dst) =>
          let red := redirect_copy 0x0a dst in
          (match red with [] => accept_level res | _ => 0 end,
           (if c is Some _ then tee_copy 0x1c 0x08 dst else []) ++ tee_copy 0x1c 0x08 st ++ red, prng)
      end).

(** The copies, in two parts, and between them our credentials for the destination, if it is a
    member that we know.  The capability that accepts goes with the credentials. *)
Definition outgoing_spec (noTee : bool) (caps : list Capability) (prng : Z * Z) : outcome (bool * list Sending * (Z * Z)) :=
  '(st, d, prng) ← decide_frame caps prng;
  Ok (match d with
      | None => (false, [], prng)
      | Some (c, res, dst) =>
          let red := redirect_copy 0x04 dst in
          let idx := default (-1) c in
          (match red with [] => true | _ => false end,
           with_credentials idx (if noTee then [] else if c is Some _ then tee_copy 0x16 0x02 dst else []) ++
           (if m is Some _ then [CredentialsTo dest idx] else []) ++
           with_credentials idx ((if noTee then [] else tee_copy 0x16 0x02 st) ++ red), prng)
      end).
End Decision.

(** The capabilities of a member that count, in the order of the table. *)
Definition valid_capabilities `{C25519Ops} (nconf : NetworkConfig) (m : Membership) : list Capability :=
  List.filter (fun c => timestamp_valid (ht_map (ms_revocations m)) nconf c) (ht_list (ms_remoteCaps m)).*2.

(** The decision looks only at what the member has shown, not at what was sent to it. *)
Definition shown (m : Membership) : Membership :=
  mkMembership 0 0 (ms_comRevocationThreshold m) (ms_com m) (ms_revocations m) (ms_remoteTags m) (ms_remoteCaps m) (ms_remoteCoos m) [] [] [].

Lemma incoming_shown `{C25519Ops} self nconf m inbound source dest f prng :
  incoming_spec self nconf (Some (shown m)) inbound source dest f (valid_capabilities nconf (shown m)) prng =
  incoming_spec self nconf (Some m) inbound source dest f (valid_capabilities nconf m) prng.
Proof. reflexivity. Qed.

Lemma incoming_creds `{C25519Ops} self nconf m m' inbound source dest f prng : creds_of m' = creds_of m ->
  incoming_spec self nconf (Some m') inbound source dest f (valid_capabilities nconf m') prng =
  incoming_spec self nconf (Some m) inbound source dest f (valid_capabilities nconf m) prng.
Proof. intros [= E1 E2 E3 E4 E5 E6]. rewrite <- (incoming_shown self nconf m'), <- (incoming_shown self nconf m). unfold shown. by rewrite E1, E2, E3, E4, E5, E6. Qed.

(** ** One run of the rule engine *)

Section Frames.
Context `{Ops : C25519Ops} (E : NodeEnv) (HE : env_ok E) (f : Frame) (Hf : frame_fits f).

Lemma rules_ok_frame rules : rules_ok rules -> Forall (rule_ok f) rules /\ zlen rules <= ZT_MAX_NETWORK_RULES.
Proof. intros [Hr Hl]. split; [|done]. eapply Forall_impl; [exact Hr|]. intros r [H1 H2]. split_and!; [done|done|]. intros _. apply Hf. Qed.

Lemma Address_of_int_range a : in_range 40 (Address_of_int a).
Proof. unfold Address_of_int, in_range. change 0xffffffffff with (Z.ones 40). rewrite Z.land_ones by lia. by apply Z.mod_pos_bound. Qed.

Lemma forwards_to_range rules a : forwards_to rules a -> in_range 40 a.
Proof. intros (r & _ & n & H). unfold forward_to in H. destruct (rl_v r); try done. destruct (is_forward _); [|done]. injection H as <- _. apply Address_of_int_range. Qed.

(** The nodes that a run of rules sends to. *)
Definition run_ok (dest : Z) (st : FilterState) : Prop :=
  (fs_cc st = 0 \/ in_range 40 (fs_cc st)) /\ 0 <= fs_ccLength st <= fr_len f /\ in_range 40 (fs_ztDest st).

Lemma filter_rules_Ok nconf m inbound source dest rules prng : config_ok nconf -> member_ok m -> rules_ok rules -> in_range 40 dest ->
  exists res st, filter_rules (en_self E) nconf m inbound source dest f rules prng = Ok (res, st) /\ run_ok dest st.
Proof.
  intros Hc Hm Hr Hd. destruct (rules_ok_frame rules Hr) as [Hr1 Hr2]. unfold filter_rules.
  destruct (doZtFilter_Ok (en_self E) nconf m inbound source f rules (mkFS dest 0 0 false [] prng)) as (res & st & Er & _); [apply Hc|apply Hf|done|done|done|].
  exists res, st. split; [done|]. destruct (doZtFilter_sends _ _ _ _ _ _ _ _ _ _ Er) as [[H1 H2 H3] _].
  assert (H0 : 0 <= fs_ccLength st).
  { unfold doZtFilter in Er. eapply filter_loop_length in Er; [done| |done]. eapply Forall_impl; [exact Hr1|]. by intros r []. }
  assert (Hlen : 0 <= fr_len f) by (unfold fr_len; apply zlen_nonneg). split; [|split].
  - destruct H3 as [[= -> _ _]|(H3 & _)]; [by left|right]. by eapply forwards_to_range.
  - split; [done|]. destruct H3 as [[= _ -> _]|(_ & _ & _ & _ & H3)]; done.
  - destruct res; try (by rewrite H2). destruct (H1 eq_refl) as [H4 _]. by eapply forwards_to_range.
Qed.

Lemma run_filter_runs N s m inbound source dest rules : net_inv E N (ns_network s) -> member_ok m -> rules_ok rules -> in_range 40 dest ->
  exists res st, filter_rules (en_self E) (nt_config (ns_network s)) m inbound source dest f rules (ns_prng s) = Ok (res, st) /\ run_ok dest st /\
    run_filter E m inbound source dest f rules s = (mkNetState (ns_network s) (fs_prng st) (ns_log s), Ok (res, st)).
Proof.
  intros Hi Hm Hr Hd. destruct (filter_rules_Ok (nt_config (ns_network s)) m inbound source dest rules (ns_prng s) (ni_config _ _ _ Hi) Hm Hr Hd) as (res & st & Er & Hst).
  exists res, st. split; [done|]. split; [done|]. unfold run_filter, mbind, sm_bind, get_state, lift, modify. unfold filter_rules in Er. by rewrite Er.
Qed.

Definition with_prng (s : NetState) (p : Z * Z) : NetState := mkNetState (ns_network s) p (ns_log s).

(** ** Copies *)

Lemma tee_runs N s dest st idx watch plain : net_inv E N (ns_network s) -> 0 <= N -> N + 1 < 2 ^ 59 -> run_ok dest st -> idx < zlen (nc_capabilities (nt_config (ns_network s))) ->
  runs (if Address_bool (fs_cc st) then forward_frame E (fs_cc st) idx (if fs_ccWatch st then watch else plain) f (fs_ccLength st) else mret tt) s
    (fun s' _ => sends_frame E f (N + 1) s s' (with_credentials idx (tee_copy watch plain st))).
Proof.
  intros Hi HN0 HN (Hcc & Hlen & _) Hidx. unfold tee_copy. destruct (Address_bool (fs_cc st)) eqn:Eb.
  - apply (forward_frame_runs E HE N s (mkCopy (fs_cc st) (if fs_ccWatch st then watch else plain) (fs_ccLength st))); try done; [|apply (ff_ok f Hf)|apply Hf].
    split; [|done]. destruct Hcc as [E0|]; [|done]. unfold Address_bool in Eb. by rewrite E0 in Eb.
  - apply runs_ret, sends_frame_nil. eapply net_inv_mono; [done|lia].
Qed.

Lemma redirect_runs {A} N s dest dst idx flags (a b : A) : net_inv E N (ns_network s) -> 0 <= N -> N + 1 < 2 ^ 59 -> in_range 40 dst -> idx < zlen (nc_capabilities (nt_config (ns_network s))) ->
  let red := if negb (dest =? dst) && Address_bool dst then [mkCopy dst flags (fr_len f)] else [] in
  runs (if negb (dest =? dst) && Address_bool dst then _ ← forward_frame E dst idx flags f (fr_len f); mret a else mret b) s
    (fun s' r => sends_frame E f (N + 1) s s' (with_credentials idx red) /\ r = match red with [] => b | _ => a end).
Proof.
  intros Hi HN0 HN Hd Hidx. cbv zeta. assert (Hlen : 0 <= fr_len f) by (unfold fr_len; apply zlen_nonneg). destruct (negb (dest =? dst) && Address_bool dst).
  - eapply runs_bind; [apply (forward_frame_runs E HE N s (mkCopy dst flags (fr_len f))); try done; [apply (ff_ok f Hf)|apply Hf]|].
    intros s' [] Hs. by apply runs_ret.
  - apply runs_ret. split; [|done]. apply sends_frame_nil. eapply net_inv_mono; [done|lia].
Qed.

Lemma with_credentials_app idx cs1 cs2 : with_credentials idx (cs1 ++ cs2) = with_credentials idx cs1 ++ with_credentials idx cs2.
Proof. unfold with_credentials. by rewrite fmap_app, join_app. Qed.

Lemma sends_frame_caps N s s' ds : sends_frame E f N s s' ds -> nt_config (ns_network s') = nt_config (ns_network s).
Proof. intros (evs & Ht & _). by destruct (quiet_config _ _ (tk_quiet _ _ _ _ _ Ht)) as (-> & _). Qed.

Lemma sends_frame_inv N s s' ds : sends_frame E f N s s' ds -> net_inv E N (ns_network s').
Proof. intros (evs & Ht & _). apply Ht. Qed.

Lemma talk_caps N s s' evs : talk E N s s' evs -> nt_config (ns_network s') = nt_config (ns_network s).
Proof. intros Ht. by destruct (quiet_config _ _ (tk_quiet _ _ _ _ _ Ht)) as (-> & _). Qed.

(** ** Incoming frames *)

Lemma no_index_ok (nconf : NetworkConfig) : -1 < zlen (nc_capabilities nconf).
Proof. pose proof (zlen_nonneg (nc_capabilities nconf)). lia. Qed.

Lemma accept_incoming_runs N s accept dest st dst : net_inv E N (ns_network s) -> 0 <= N -> N + 2 < 2 ^ 59 -> run_ok dest st -> in_range 40 dst ->
  let red := if negb (dest =? dst) && Address_bool dst then [mkCopy dst 0x0a (fr_len f)] else [] in
  runs (accept_incoming E accept dest dst (fs_cc st) (fs_ccLength st) (fs_ccWatch st) f) s
    (fun s' r => sends_frame E f (N + 2) s s' (with_credentials (-1) (tee_copy 0x1c 0x08 st ++ red)) /\ r = match red with [] => accept | _ => 0 end).
Proof.
  intros Hi HN0 HN Hst Hd. cbv zeta. unfold accept_incoming. eapply runs_bind; [apply (tee_runs N s dest st (-1) 0x1c 0x08 Hi); [done|lia|done|apply no_index_ok]|].
  intros s1 [] Hs1. eapply runs_weaken; [apply (redirect_runs (N + 1) s1 dest dst (-1) 0x0a 0 accept); [by eapply sends_frame_inv|lia|lia|done|apply no_index_ok]|].
  intros s2 r [Hs2 ->]. replace (N + 1 + 1) with (N + 2) in Hs2 by lia. split; [|done]. rewrite with_credentials_app. by eapply sends_frame_trans.
Qed.

Lemma next_capability_Ok n gi m nconf it l : ms_inv gi n m -> time_ok (nc_timestamp nconf) -> it_at (ms_remoteCaps m) it l ->
  let valid := fun kv : uint32 * Capability => timestamp_valid (ht_map (ms_revocations m)) nconf kv.2 in
  match List.filter valid l with
  | [] => exists it', CapabilityIterator_next m nconf it = Ok (it', None)
  | kv :: _ => exists it' l2, CapabilityIterator_next m nconf it = Ok (it', Some kv.2) /\ it_at (ms_remoteCaps m) it' l2 /\ List.filter valid l = kv :: List.filter valid l2 /\
      (length l2 < length l)%nat /\ kv ∈ l
  end.
Proof.
  intros Hi Ht Hat valid. pose proof (mi_caps gi n m Hi) as [Hw Hs]. unfold CapabilityIterator_next.
  assert (Hsub : forall kv, kv ∈ l -> kv ∈ ht_list (ms_remoteCaps m)).
  { destruct Hat as (T1 & c1 & rest & T2 & Et & _ & ->). intros kv Hkv. unfold ht_list. rewrite Et, concat_app. cbn [concat]. rewrite <- app_assoc. apply elem_of_app. right. apply elem_of_app. by right. }
  assert (Hlen : (length l <= length (ht_list (ms_remoteCaps m)))%nat).
  { destruct Hat as (T1 & c1 & rest & T2 & Et & _ & ->). unfold ht_list. rewrite Et, concat_app. cbn [concat]. rewrite !length_app. lia. }
  destruct (find_loop_spec (fun kv : uint32 * Capability => isCredentialTimestampValid (ms_revocations m) nconf kv.2) valid (ms_remoteCaps m) l Hw)
    with (fuel := S (Z.to_nat (ht_s (ms_remoteCaps m)))) (it := it) as (it' & -> & Hit'); [|done|rewrite (hw_s _ Hw); unfold zlen; lia|].
  - intros [k c] Hin. apply Hsub, ht_map_lookup in Hin; [|done]. destruct (mi_caps_ok gi n m Hi k c Hin) as (_ & [_ Htc] & _). cbn [snd].
    by rewrite isCredentialTimestampValid_spec by (done || apply Hi).
  - cbn [mbind outcome_bind]. clear Hsub Hlen Hat. assert (Hdec : Forall (fun x => valid x = false) l \/ exists l1 kv l2, l = l1 ++ kv :: l2 /\ Forall (fun x => valid x = false) l1 /\ valid kv = true).
    { clear. induction l as [|x l IH]; [by left|]. destruct (valid x) eqn:Ex; [right; by exists [], x, l|]. destruct IH as [IH|(l1 & kv & l2 & -> & H1 & H2)]; [left; by constructor|].
      right. exists (x :: l1), kv, l2. split_and!; [done|by constructor|done]. }
    assert (Hnone : forall l1, Forall (fun x => valid x = false) l1 -> forall l2, List.find valid (l1 ++ l2) = List.find valid l2 /\ List.filter valid (l1 ++ l2) = List.filter valid l2).
    { induction 1 as [|x l1 Hx _ IH]; intros l2; [done|]. cbn [app List.find List.filter]. rewrite Hx. apply IH. }
    destruct Hdec as [Hall|(l1 & kv & l2 & El & H1 & H2)].
    + destruct (Hnone l Hall []) as [E1 E2]. rewrite app_nil_r in E1, E2. rewrite E1, E2. cbn [List.find List.filter]. by exists it'.
    + specialize (Hit' l1 kv l2 El H1 H2). subst l. destruct (Hnone l1 H1 (kv :: l2)) as [E1 E2]. rewrite E1, E2. cbn [List.find List.filter]. rewrite H2.
      exists it', l2. split_and!; [done|done|done|rewrite length_app; cbn [length]; lia|apply elem_of_app; right; by left].
Qed.

(** The loop over the capabilities of the source. *)
Lemma in_capabilities_runs N m source dest : member_inv E N m -> in_range 40 dest -> 0 <= N -> N + 1 < 2 ^ 59 ->
  forall fuel l it s c, net_inv E N (ns_network s) -> it_at (ms_remoteCaps m) it l -> (length l < fuel)%nat ->
  let nconf := nt_config (ns_network s) in
  let caps := List.filter (fun c => timestamp_valid (ht_map (ms_revocations m)) nconf c) l.*2 in
  runs (in_capabilities E fuel m it source dest f) s (fun s' r => exists d p,
    first_capability (en_self E) nconf (Some m) true source dest f caps c (ns_prng s) = Ok (d, p) /\
    match d with
    | None => r = None /\ sends_frame E f (N + 1) (with_prng s p) s' []
    | Some (_, res, st) => r = Some (accept_level res, fs_ztDest st) /\ run_ok dest st /\ sends_frame E f (N + 1) (with_prng s p) s' (with_credentials (-1) (tee_copy 0x1c 0x08 st))
    end).
Proof.
  intros Hm Hd HN0 HN. induction fuel as [|fuel IH]; intros l it s c Hi Hat Hf'; [lia|]. cbv zeta. cbn [in_capabilities]. apply get_network_runs.
  pose proof (cg_filter _ (ni_config E N _ Hi)) as Hnc. pose proof (next_capability_Ok N _ m (nt_config (ns_network s)) it l (mb_creds E N m Hm) (nk_time _ Hnc) Hat) as Hn. cbv zeta in Hn.
  assert (Hfl : List.filter (fun c => timestamp_valid (ht_map (ms_revocations m)) (nt_config (ns_network s)) c) l.*2 =
    (List.filter (fun kv : uint32 * Capability => timestamp_valid (ht_map (ms_revocations m)) (nt_config (ns_network s)) kv.2) l).*2).
  { clear. induction l as [|[k x] l IH]; [done|]. rewrite fmap_cons. cbn [List.filter snd]. destruct (timestamp_valid _ _ _); [by rewrite fmap_cons, IH|done]. }
  rewrite Hfl. destruct (List.filter _ l) as [|[k x] rest] eqn:Efl.
  - destruct Hn as [it' En]. eapply runs_lift_bind; [exact En|]. cbn beta iota. apply runs_ret. exists None, (ns_prng s). split; [done|]. split; [done|].
    destruct s. apply sends_frame_nil. eapply net_inv_mono; [done|lia].
  - destruct Hn as (it' & l2 & En & Hat' & Erest & Hlen & Hin). injection Erest as ->. eapply runs_lift_bind; [exact En|]. cbn beta iota. rewrite fmap_cons. cbn [first_capability snd].
    assert (Hx : rules_ok (cap_rules x)).
    { apply (mb_caps E N m Hm k). apply ht_map_lookup; [apply (mi_caps _ _ _ (mb_creds E N m Hm))|]. destruct Hat as (T1 & c1 & rest' & T2 & Et & _ & ->).
      unfold ht_list. rewrite Et, concat_app. cbn [concat]. rewrite <- app_assoc. apply elem_of_app. right. apply elem_of_app. by right. }
    assert (Hmo : member_ok (Some m)) by (intros m' [= <-]; do 2 eexists; apply Hm).
    destruct (run_filter_runs N s (Some m) true source dest (cap_rules x) Hi Hmo Hx Hd) as (res & st & Er & Hst & Erun). eapply runs_step; [exact Erun|]. cbn beta iota. rewrite Er. cbn [mbind outcome_bind].
    assert (Hacc : runs (_ ← (if Address_bool (fs_cc st) then forward_frame E (fs_cc st) (-1) (if fs_ccWatch st then 0x1c else 0x08) f (fs_ccLength st) else mret tt);
        mret (Some (match res with DOZTFILTER_SUPER_ACCEPT => 2 | _ => 1 end, fs_ztDest st))) (with_prng s (fs_prng st))
      (fun s' r => r = Some (match res with DOZTFILTER_SUPER_ACCEPT => 2 | _ => 1 end, fs_ztDest st) /\
        sends_frame E f (N + 1) (with_prng s (fs_prng st)) s' (with_credentials (-1) (tee_copy 0x1c 0x08 st)))).
    { eapply runs_bind; [apply (tee_runs N (with_prng s (fs_prng st)) dest st (-1) 0x1c 0x08); [done|done|done|done|apply no_index_ok]|]. intros s' [] Hs. by apply runs_ret. }
    destruct res; try (eapply runs_weaken; [exact Hacc|]; intros s' r (-> & Hs); by eexists _, (fs_prng st));
      (eapply runs_weaken; [apply (IH l2 it' (with_prng s (fs_prng st)) (c + 1) Hi Hat'); lia|]; cbv zeta; intros s' r (d & p & Ep & H); exists d, p;
       (split; [|exact H]); cbn [with_prng ns_prng ns_network] in Ep; rewrite <- Ep; f_equal;
       clear; induction l2 as [|[k' y] l2 IHl]; [done|]; rewrite fmap_cons; cbn [List.filter snd]; destruct (timestamp_valid _ _ _); [by rewrite fmap_cons, IHl|done]).
Qed.

(** The effects of an operation that looks at a frame from [source], which is a member from then on:
    the copies with the credentials before them, and nothing else. *)
Definition frame_effects (N : Z) (s s' : NetState) (source : Z) (p : Z * Z) (cs : list Copy) : Prop :=
  exists evs, talk E N (with_prng s p) s' evs /\
    sent_all E (nt_config (ns_network s)) (nt_id (ns_network s)) f (<[AddrK source := member_at (ns_network s) source]> (ht_map (nt_memberships (ns_network s))))
      (with_credentials (-1) cs) evs (ht_map (nt_memberships (ns_network s'))).

(** First the source becomes a member, then with other random numbers the rest. *)
Lemma effects_after N N' s s1 s2 source p cs : talk E N s s1 [] ->
  ht_map (nt_memberships (ns_network s1)) = <[AddrK source := member_at (ns_network s) source]> (ht_map (nt_memberships (ns_network s))) ->
  sends_frame E f N' (with_prng s1 p) s2 (with_credentials (-1) cs) -> frame_effects N' s s2 source p cs.
Proof.
  intros [T1 T2 T3 T4] Hm (evs & [U1 U2 U3 U4] & Hs). cbn [with_prng ns_network] in Hs. destruct (quiet_config _ _ T2) as (Ec & Ei & _). rewrite Hm, Ec, Ei in Hs.
  exists evs. split; [|done]. split; [done|by eapply quiet_trans|done|]. cbn in *. by rewrite U4, T4, app_nil_r.
Qed.

Lemma incoming_end N s s2 accept dest st dst cs0 : sends_frame E f N s s2 (with_credentials (-1) cs0) -> 0 <= N -> N + 2 < 2 ^ 59 -> run_ok dest st -> run_ok dest dst ->
  runs (accept_incoming E accept dest (fs_ztDest dst) (fs_cc st) (fs_ccLength st) (fs_ccWatch st) f) s2 (fun s' r =>
    r = match redirect_copy dest f 0x0a dst with [] => accept | _ => 0 end /\ sends_frame E f (N + 2) s s' (with_credentials (-1) (cs0 ++ tee_copy 0x1c 0x08 st ++ redirect_copy dest f 0x0a dst))).
Proof.
  intros Hs HN0 HN Hst Hdst. eapply runs_weaken; [apply (accept_incoming_runs N s2 accept dest st (fs_ztDest dst)); [by eapply sends_frame_inv|done|done|done|apply Hdst]|].
  intros s' r [Hs2 ->]. split; [done|]. rewrite (with_credentials_app (-1) cs0). by eapply sends_frame_trans.
Qed.

Lemma filterIncomingPacket_runs N s source dest : net_inv E N (ns_network s) -> 0 <= N -> N + 4 < 2 ^ 59 -> in_range 40 source -> in_range 40 dest ->
  let n := ns_network s in let m := member_at n source in
  exists r cs p, incoming_spec (en_self E) (nt_config n) (Some m) true source dest f (valid_capabilities (nt_config n) m) (ns_prng s) = Ok (r, cs, p) /\
    runs (filterIncomingPacket E source dest f) s (fun s' r' => r' = r /\ frame_effects (N + 4) s s' source p cs).
Proof.
  intros Hi HN0 HN Hs Hd n m. subst n m. unfold filterIncomingPacket, incoming_spec, decide_frame.
  destruct (membership_runs E N s source Hi) as (s1 & m & Em & Ht1 & -> & Hl & Hmap); [lia|done|done|]. set (m := member_at (ns_network s) source) in *.
  pose proof (talk_caps _ _ _ _ Ht1) as Ec. pose proof (tk_inv _ _ _ _ _ Ht1) as Hi1. pose proof (ni_member E _ _ Hi1 _ _ Hl) as [_ Hm]. pose proof (tk_prng _ _ _ _ _ Ht1) as Hp1.
  assert (Hmo : member_ok (Some m)) by (intros m' [= <-]; do 2 eexists; apply Hm). pose proof (cg_rules _ (ni_config E _ _ Hi)) as Hr.
  destruct (run_filter_runs (N + 1) s1 (Some m) true source dest (nc_rules (nt_config (ns_network s))) Hi1 Hmo Hr Hd) as (res & st & Er & Hst & Erun). rewrite Ec, Hp1 in Er. rewrite Er. cbn [mbind outcome_bind].
  assert (Hnil : sends_frame E f (N + 2) (with_prng s1 (fs_prng st)) (with_prng s1 (fs_prng st)) []) by (apply sends_frame_nil; eapply net_inv_mono; [exact Hi1|lia]).
  assert (Hstop : forall p s', sends_frame E f (N + 2) (with_prng s1 p) s' [] -> frame_effects (N + 4) s s' source p []).
  { intros p s' H. apply (effects_after (N + 1) (N + 4) s s1 s' source p [] Ht1 Hmap). eapply sends_frame_mono; [exact H|lia]. }
  assert (Hbase : forall accept, runs (accept_incoming E accept dest (fs_ztDest st) (fs_cc st) (fs_ccLength st) (fs_ccWatch st) f) (with_prng s1 (fs_prng st)) (fun s' r =>
    r = match redirect_copy dest f 0x0a st with [] => accept | _ => 0 end /\ frame_effects (N + 4) s s' source (fs_prng st) (tee_copy 0x1c 0x08 st ++ redirect_copy dest f 0x0a st))).
  { intros accept. eapply runs_weaken; [apply (incoming_end (N + 2) _ _ accept dest st st [] Hnil); [lia|lia|done|done]|]. intros s' r [-> H]. split; [done|].
    replace (N + 2 + 2) with (N + 4) in H by lia. by apply (effects_after (N + 1) (N + 4) s s1). }
  destruct res.
  - destruct (Iterator_new_at (ms_remoteCaps m)) as (it & Eit & Hat); [apply (mi_caps _ _ _ (mb_creds _ _ _ Hm))|]. pose proof (mi_caps _ _ _ (mb_creds _ _ _ Hm)) as [Hcw _].
    destruct (in_capabilities_runs (N + 1) m source dest Hm Hd ltac:(lia) ltac:(lia) (S (Z.to_nat (ht_s (ms_remoteCaps m)))) (ht_list (ms_remoteCaps m)) it (with_prng s1 (fs_prng st)) 0 Hi1 Hat)
      as (s2 & r & E2 & d & p & Efc & Hd2); [rewrite (hw_s _ Hcw); unfold zlen; lia|]. cbn [with_prng ns_network ns_prng] in Efc, Hd2. rewrite Ec in Efc. fold (valid_capabilities (nt_config (ns_network s)) m) in Efc.
    rewrite Efc. cbn [mbind outcome_bind]. change (mkNetState _ p _) with (with_prng s1 p) in Hd2. replace (N + 1 + 1) with (N + 2) in Hd2 by lia.
    destruct d as [[[c res] dst]|]; do 3 eexists; (split; [reflexivity|]); (eapply runs_step; [exact Em|]); apply get_network_runs; rewrite Ec; (eapply runs_step; [exact Erun|]); cbn beta iota;
      (eapply runs_lift_bind; [exact Eit|]); (eapply runs_step; [exact E2|]).
    + destruct Hd2 as (-> & Hdst & Hcs). cbn beta iota. eapply runs_weaken; [apply (incoming_end _ _ _ _ dest st dst _ Hcs); [lia|lia|done..]|]. intros s' r [-> H]. split; [done|].
      replace (N + 2 + 2) with (N + 4) in H by lia. by apply (effects_after (N + 1) (N + 4) s s1).
    + destruct Hd2 as (-> & H2). apply runs_ret. split; [done|]. by apply Hstop.
  - do 3 eexists. split; [reflexivity|]. eapply runs_step; [exact Em|]. apply get_network_runs. rewrite Ec. eapply runs_step; [exact Erun|]. apply runs_ret. split; [done|]. by apply Hstop.
  - do 3 eexists. split; [reflexivity|]. eapply runs_step; [exact Em|]. apply get_network_runs. rewrite Ec. eapply runs_step; [exact Erun|]. apply Hbase.
  - do 3 eexists. split; [reflexivity|]. eapply runs_step; [exact Em|]. apply get_network_runs. rewrite Ec. eapply runs_step; [exact Erun|]. apply Hbase.
  - do 3 eexists. split; [reflexivity|]. eapply runs_step; [exact Em|]. apply get_network_runs. rewrite Ec. eapply runs_step; [exact Erun|]. apply Hbase.
Qed.

(** ** Outgoing frames *)

Lemma out_tee_runs N s noTee dest st idx : net_inv E N (ns_network s) -> 0 <= N -> N + 1 < 2 ^ 59 -> run_ok dest st -> idx < zlen (nc_capabilities (nt_config (ns_network s))) ->
  runs (if negb noTee && Address_bool (fs_cc st) then forward_frame E (fs_cc st) idx (if fs_ccWatch st then 0x16 else 0x02) f (fs_ccLength st) else mret tt) s
    (fun s' _ => sends_frame E f (N + 1) s s' (with_credentials idx (if noTee then [] else tee_copy 0x16 0x02 st))).
Proof.
  intros Hi HN0 HN Hst Hidx. destruct noTee; cbn [negb andb]; [|by apply (tee_runs N s dest)]. apply runs_ret, sends_frame_nil. eapply net_inv_mono; [done|lia].
Qed.

Lemma out_capabilities_runs N noTee m source dest : in_range 40 dest -> member_ok m -> 0 <= N -> N + 1 < 2 ^ 59 ->
  forall caps c s, net_inv E N (ns_network s) -> Forall (fun c => rules_ok (cap_rules c)) caps -> c + zlen caps <= zlen (nc_capabilities (nt_config (ns_network s))) ->
  runs (out_capabilities E noTee m source dest f c caps) s (fun s' r => exists d p,
    first_capability (en_self E) (nt_config (ns_network s)) m false source dest f caps c (ns_prng s) = Ok (d, p) /\
    match d with
    | None => r = None /\ sends_frame E f (N + 1) (with_prng s p) s' []
    | Some (i, _, st) => r = Some (i, fs_ztDest st) /\ run_ok dest st /\ i < zlen (nc_capabilities (nt_config (ns_network s))) /\
        sends_frame E f (N + 1) (with_prng s p) s' (with_credentials i (if noTee then [] else tee_copy 0x16 0x02 st))
    end).
Proof.
  intros Hd Hm HN0 HN. induction caps as [|cap caps IH]; intros c s Hi Hr Hc; cbn [out_capabilities first_capability].
  - apply runs_ret. exists None, (ns_prng s). split; [done|]. split; [done|]. destruct s. apply sends_frame_nil. eapply net_inv_mono; [done|lia].
  - apply Forall_cons in Hr as [Hr Hrs]. assert (Hz : zlen (cap :: caps) = zlen caps + 1) by (unfold zlen; cbn [length]; lia). pose proof (zlen_nonneg caps).
    destruct (run_filter_runs N s m false source dest (cap_rules cap) Hi Hm Hr Hd) as (res & st & Er & Hst & Erun). rewrite Er. cbn [mbind outcome_bind].
    assert (Hacc : runs (_ ← (if negb noTee && Address_bool (fs_cc st) then forward_frame E (fs_cc st) c (if fs_ccWatch st then 0x16 else 0x02) f (fs_ccLength st) else mret tt);
        mret (Some (c, fs_ztDest st))) (with_prng s (fs_prng st)) (fun s' r => r = Some (c, fs_ztDest st) /\
        sends_frame E f (N + 1) (with_prng s (fs_prng st)) s' (with_credentials c (if noTee then [] else tee_copy 0x16 0x02 st)))).
    { eapply runs_bind; [apply (out_tee_runs N (with_prng s (fs_prng st)) noTee dest st c); [done|done|done|done|cbn [with_prng ns_network]; lia]|]. intros s' [] Hs. by apply runs_ret. }
    destruct res; (eapply runs_step; [exact Erun|]); cbn beta iota;
      try (eapply runs_weaken; [exact Hacc|]; intros s' r (-> & Hs); eexists _, (fs_prng st); split; [done|]; split_and!; [done|done|lia|done]);
      (eapply runs_weaken; [apply (IH (c + 1) (with_prng s (fs_prng st)) Hi Hrs); cbn [with_prng ns_network]; lia|]; intros s' r (d & p & Ep & H1); by exists d, p).
Qed.

(** Our credentials for the destination, when it is a member. *)
Lemma push_dest_runs N s (m : option Membership) dest idx : net_inv E N (ns_network s) -> N < 2 ^ 59 -> idx < zlen (nc_capabilities (nt_config (ns_network s))) ->
  (is_Some m -> is_Some (ht_map (nt_memberships (ns_network s)) !! AddrK dest)) ->
  runs (match m with
      | Some _ => m ← get_membership dest; match m with Some m => push E m dest idx false | None => lift Undef end
      | None => mret tt
      end) s (fun s' _ => sends_frame E f N s s' (if m is Some _ then [CredentialsTo dest idx] else [])).
Proof.
  intros Hi HN Hidx Hm. destruct m as [m|]; [|by apply runs_ret, sends_frame_nil]. destruct Hm as [m' Hm']; [done|]. eapply runs_step; [by apply (get_membership_eq E N)|]. rewrite Hm'.
  eapply runs_weaken; [by apply (push_runs E HE N s dest m' idx false Hi)|]. intros s' [] (ps & bs & Ht & Hall & Hb & Hmap & _). exists (EvSend <$> ps). split; [done|].
  rewrite <- (app_nil_r (EvSend <$> ps)), Hmap. assert (Eo : membership_in (ht_map (nt_memberships (ns_network s))) dest = m') by (unfold membership_in; by rewrite Hm').
  econstructor; [exact Hall|by rewrite Eo|rewrite Eo; constructor].
Qed.

Lemma accept_outgoing_runs N s noTee m dest st dst idx : net_inv E N (ns_network s) -> 0 <= N -> N + 2 < 2 ^ 59 -> run_ok dest st -> in_range 40 dst ->
  idx < zlen (nc_capabilities (nt_config (ns_network s))) -> (is_Some m -> is_Some (ht_map (nt_memberships (ns_network s)) !! AddrK dest)) ->
  let red := if negb (dest =? dst) && Address_bool dst then [mkCopy dst 0x04 (fr_len f)] else [] in
  runs (accept_outgoing E noTee m dest dst idx (fs_cc st) (fs_ccLength st) (fs_ccWatch st) f) s
    (fun s' r => r = match red with [] => true | _ => false end /\
      sends_frame E f (N + 2) s s' ((if m is Some _ then [CredentialsTo dest idx] else []) ++ with_credentials idx ((if noTee then [] else tee_copy 0x16 0x02 st) ++ red))).
Proof.
  intros Hi HN0 HN Hst Hd Hidx Hm. cbv zeta. unfold accept_outgoing.
  eapply runs_bind; [apply (push_dest_runs N s m dest idx Hi); [lia|done|done]|]. intros s1 [] Hs1. pose proof (sends_frame_caps _ _ _ _ Hs1) as Ec.
  eapply runs_bind; [apply (out_tee_runs N s1 noTee dest st idx); [by eapply sends_frame_inv|done|lia|done|by rewrite Ec]|]. intros s2 [] Hs2.
  eapply runs_weaken; [apply (redirect_runs (N + 1) s2 dest dst idx 0x04 false true); [by eapply sends_frame_inv|lia|lia|done|by rewrite (sends_frame_caps _ _ _ _ Hs2), Ec]|].
  intros s3 r [Hs3 ->]. split; [done|]. replace (N + 1 + 1) with (N + 2) in Hs3 by lia. eapply sends_frame_trans; [exact Hs1|]. rewrite with_credentials_app. by eapply sends_frame_trans.
Qed.

Lemma outgoing_end N s s1 noTee m dest st dst idx ds : sends_frame E f N s s1 ds -> 0 <= N -> N + 2 < 2 ^ 59 -> run_ok dest st -> run_ok dest dst ->
  idx < zlen (nc_capabilities (nt_config (ns_network s))) -> (is_Some m -> is_Some (ht_map (nt_memberships (ns_network s)) !! AddrK dest)) ->
  runs (accept_outgoing E noTee m dest (fs_ztDest dst) idx (fs_cc st) (fs_ccLength st) (fs_ccWatch st) f) s1
    (fun s' r => r = match redirect_copy dest f 0x04 dst with [] => true | _ => false end /\
      sends_frame E f (N + 2) s s' (ds ++ (if m is Some _ then [CredentialsTo dest idx] else []) ++ with_credentials idx ((if noTee then [] else tee_copy 0x16 0x02 st) ++ redirect_copy dest f 0x04 dst))).
Proof.
  intros Hs1 HN0 HN Hst Hdst Hidx Hm.
  eapply runs_weaken; [apply (accept_outgoing_runs N s1 noTee m dest st (fs_ztDest dst) idx); [by eapply sends_frame_inv|done|done|done|apply Hdst|by rewrite (sends_frame_caps _ _ _ _ Hs1)|]|].
  - intros Hs. destruct Hs1 as (evs & Ht & _). apply (qt_keys _ _ (tk_quiet _ _ _ _ _ Ht)). by apply Hm.
  - intros s' r [-> H]. split; [done|]. by eapply sends_frame_trans.
Qed.

Lemma filterOutgoingPacket_runs N s noTee source dest : net_inv E N (ns_network s) -> 0 <= N -> N + 3 < 2 ^ 59 -> in_range 40 dest ->
  let n := ns_network s in let m := if Address_bool dest then ht_map (nt_memberships n) !! AddrK dest else None in
  exists r ds p, outgoing_spec (en_self E) (nt_config n) m false source dest f noTee (nc_capabilities (nt_config n)) (ns_prng s) = Ok (r, ds, p) /\
    runs (filterOutgoingPacket E noTee source dest f) s (fun s' r' => r' = r /\ sends_frame E f (N + 3) (with_prng s p) s' ds).
Proof.
  intros Hi HN0 HN Hd n m. subst n. unfold filterOutgoingPacket, outgoing_spec, decide_frame.
  assert (Em : (if Address_bool dest then get_membership dest else mret None) s = (s, Ok m)) by (subst m; destruct (Address_bool dest); [by apply (get_membership_eq E N)|done]).
  assert (Hsome : is_Some m -> is_Some (ht_map (nt_memberships (ns_network s)) !! AddrK dest)) by (subst m; destruct (Address_bool dest); [done|by intros []]).
  assert (Hmo : member_ok m).
  { intros m' Em'. subst m. destruct (Address_bool dest); [|done]. destruct (ni_member E N _ Hi _ _ Em') as [_ []]. eauto. }
  clearbody m. destruct (run_filter_runs N s m false source dest (nc_rules (nt_config (ns_network s))) Hi Hmo (cg_rules _ (ni_config E _ _ Hi)) Hd) as (res & st & Er & Hst & Erun). rewrite Er. cbn [mbind outcome_bind].
  assert (Hnil : sends_frame E f (N + 1) (with_prng s (fs_prng st)) (with_prng s (fs_prng st)) []) by (apply sends_frame_nil; eapply net_inv_mono; [exact Hi|lia]).
  assert (Hdrop : forall p s', sends_frame E f (N + 1) (with_prng s p) s' [] -> sends_frame E f (N + 3) (with_prng s p) s' []) by (intros p s' H; eapply sends_frame_mono; [exact H|lia]).
  replace (N + 3) with (N + 1 + 2) in * by lia.
  assert (Hown : runs (accept_outgoing E noTee m dest (fs_ztDest st) (-1) (fs_cc st) (fs_ccLength st) (fs_ccWatch st) f) (with_prng s (fs_prng st)) (fun s' r =>
    r = match redirect_copy dest f 0x04 st with [] => true | _ => false end /\ sends_frame E f (N + 1 + 2) (with_prng s (fs_prng st)) s'
      (with_credentials (-1) (if noTee then [] else []) ++ (if m is Some _ then [CredentialsTo dest (-1)] else []) ++ with_credentials (-1) ((if noTee then [] else tee_copy 0x16 0x02 st) ++ redirect_copy dest f 0x04 st)))).
  { replace (with_credentials (-1) (if noTee then [] else [])) with (@nil Sending) by (by destruct noTee). apply (outgoing_end _ _ _ _ m dest st st (-1) [] Hnil); [lia|lia|done|done|apply no_index_ok|done]. }
  destruct res.
  - destruct (out_capabilities_runs N noTee m source dest Hd Hmo HN0 ltac:(lia) (nc_capabilities (nt_config (ns_network s))) 0 (with_prng s (fs_prng st)) Hi (cg_caps _ (ni_config E _ _ Hi)))
      as (s2 & r & E2 & d & p & Efc & Hd2); [cbn [with_prng ns_network]; lia|]. cbn [with_prng ns_network ns_prng] in Efc, Hd2. rewrite Efc. cbn [mbind outcome_bind].
    destruct d as [[[c res] dst]|]; do 3 eexists; (split; [reflexivity|]); (eapply runs_step; [exact Em|]); apply get_network_runs; (eapply runs_step; [exact Erun|]); cbn beta iota; (eapply runs_step; [exact E2|]).
    + destruct Hd2 as (-> & Hdst & Hidx & Hcs). cbn beta iota. by apply (outgoing_end _ _ _ _ m dest st dst c _ Hcs); [lia|lia|..].
    + destruct Hd2 as (-> & H2). apply runs_ret. split; [done|]. by apply Hdrop.
  - do 3 eexists. split; [reflexivity|]. eapply runs_step; [exact Em|]. apply get_network_runs. eapply runs_step; [exact Erun|]. apply runs_ret. split; [done|]. by apply Hdrop.
  - do 3 eexists. split; [reflexivity|]. eapply runs_step; [exact Em|]. apply get_network_runs. eapply runs_step; [exact Erun|]. exact Hown.
  - do 3 eexists. split; [reflexivity|]. eapply runs_step; [exact Em|]. apply get_network_runs. eapply runs_step; [exact Erun|]. exact Hown.
  - do 3 eexists. split; [reflexivity|]. eapply runs_step; [exact Em|]. apply get_network_runs. eapply runs_step; [exact Erun|]. exact Hown.
Qed.
End Frames.

(** C19: filterIncomingPacket ends with what the rules of the network and the valid capabilities of the
    sender decide, and sends_frame the copies and the redirected frame they ask for, each after exactly the
    credentials that are due to its receiver at that time, and nothing else.  The frame is one the
    filter can look at (a TCP header is whole) and no larger than ZT_MAX_MTU. *)
Theorem filterIncomingPacket_refines `{C25519Ops} E f N s source dest :
  env_ok E -> frame_fits f -> net_inv E N (ns_network s) -> 0 <= N -> N + 4 < 2 ^ 59 -> in_range 40 source -> in_range 40 dest ->
  let n := ns_network s in let m := member_at n source in
  exists r cs p, incoming_spec (en_self E) (nt_config n) (Some m) true source dest f (valid_capabilities (nt_config n) m) (ns_prng s) = Ok (r, cs, p) /\
    runs (filterIncomingPacket E source dest f) s (fun s' r' => r' = r /\ frame_effects E f (N + 4) s s' source p cs).
Proof. intros HE Hf. by apply filterIncomingPacket_runs. Qed.

Lemma sample_udp_fits : frame_fits sample_udp.
Proof. constructor; [by apply sample_frame_ok; left|done|done]. Qed.

(** The sample network with a tag of ours. *)
Definition tagged : NetworkConfig :=
  mkNetworkConfig 0x1122334455667788 2000 5000 1 0x11 0 0 0 2800 32 [] [] [] sample_filter [] [Samples.tag] [] ZT_NETWORK_TYPE_PUBLIC [] COM_empty.
Definition tagged_net : NetState :=
  mkNetState (mkNetwork 0x1122334455667788 0 2 false [] new_table new_table tagged 0 [] false NETCONF_FAILURE_NONE 0 new_table) (1, 2) [].

Lemma tagged_net_inv : net_inv (Ops := Toy.toy_ops) sample_env 0 (ns_network tagged_net).
Proof.
  destruct sample_net_inv as [H1 H2 H3 H4 H5 H6]. constructor; try done. destruct H2 as [C1 C2 C3 C4]. constructor; try done.
  - destruct C1 as [D1 D2 D3 D4 D5]. constructor; try done. constructor; [apply Samples.tag_ok|done].
  - destruct C2. constructor; try done. by repeat constructor.
Qed.

(** What goes to the receiver of a copy: a packet with the tag that is due to it, and the frame. *)
Definition tag_then_frame (receiver : Z) (c : Copy) (evs : list net_event) : Prop :=
  exists packets bundles p, evs = (EvSend <$> packets) ++ [EvSend p] /\
    Forall2 (fun p b => sent_as VERB_NETWORK_CREDENTIALS receiver 0x11 (bundle_enc b) p) packets bundles /\
    bd_tags (bundle_concat bundles) = [Samples.tag] /\ sent_as VERB_EXT_FRAME receiver 0x11 (ext_frame_enc 0x1122334455667788 (cy_flags c) sample_udp (cy_len c)) p.

Lemma filterIncomingPacket_refines_witness : exists s' evs,
  filterIncomingPacket (Ops := Toy.toy_ops) sample_env 0x99 0x11 sample_udp tagged_net = (s', Ok 1) /\ ns_log s' = evs /\ tag_then_frame 0x77 (mkCopy 0x77 0x08 20) evs.
Proof.
  destruct (filterIncomingPacket_refines (H := Toy.toy_ops) sample_env sample_udp 0 tagged_net 0x99 0x11) as (r & cs & p & Es & s' & r' & E & -> & evs & Ht & Hs);
    [apply sample_env_ok|apply sample_udp_fits|apply tagged_net_inv|lia|lia|done|done|].
  replace (incoming_spec _ _ _ _ _ _ _ _ _) with (Ok (1, [mkCopy 0x77 0x08 20], (1, 2))) in Es by reflexivity. injection Es as <- <- <-. exists s', evs. split; [exact E|].
  split; [exact (tk_log _ _ _ _ _ Ht)|]. inversion Hs as [|M a idx ps bs ds1 evs1 M1 Hall Hb Hrest|]; subst. inversion Hrest as [| |M c q ds2 evs2 M2 Hq Hnil]; subst. inversion Hnil; subst.
  exists ps, bs, q. split_and!; [reflexivity|exact Hall|rewrite Hb; vm_compute; reflexivity|exact Hq].
Defined.

(** C20: filterOutgoingPacket ends with what the rules of the network and our own capabilities decide,
    sends_frame the copies and the redirected frame they ask for, each after exactly the credentials that
    are due to its receiver at that time, and, between the copies of a capability and the others,
    the credentials that are due to the destination when it is a member that we know; nothing else.
    The frame is one the filter can look at, no larger than ZT_MAX_MTU. *)
Theorem filterOutgoingPacket_refines `{C25519Ops} E f N s noTee source dest :
  env_ok E -> frame_fits f -> net_inv E N (ns_network s) -> 0 <= N -> N + 3 < 2 ^ 59 -> in_range 40 dest ->
  let n := ns_network s in let m := if Address_bool dest then ht_map (nt_memberships n) !! AddrK dest else None in
  exists r ds p, outgoing_spec (en_self E) (nt_config n) m false source dest f noTee (nc_capabilities (nt_config n)) (ns_prng s) = Ok (r, ds, p) /\
    runs (filterOutgoingPacket E noTee source dest f) s (fun s' r' => r' = r /\ sends_frame E f (N + 3) (with_prng s p) s' ds).
Proof. intros HE Hf. by apply filterOutgoingPacket_runs. Qed.

Lemma filterOutgoingPacket_refines_witness : exists s' evs,
  filterOutgoingPacket (Ops := Toy.toy_ops) sample_env false 0x11 0 sample_udp tagged_net = (s', Ok true) /\ ns_log s' = evs /\ tag_then_frame 0x77 (mkCopy 0x77 0x02 20) evs.
Proof.
  destruct (filterOutgoingPacket_refines (H := Toy.toy_ops) sample_env sample_udp 0 tagged_net false 0x11 0) as (r & ds & p & Es & s' & r' & E & -> & evs & Ht & Hs);
    [apply sample_env_ok|apply sample_udp_fits|apply tagged_net_inv|lia|lia|done|].
  replace (outgoing_spec _ _ _ _ _ _ _ _ _ _) with (Ok (true, with_credentials (-1) [mkCopy 0x77 0x02 20], (1, 2))) in Es by reflexivity. injection Es as <- <- <-. exists s', evs. split; [exact E|].
  split; [exact (tk_log _ _ _ _ _ Ht)|]. inversion Hs as [|M a idx ps bs ds1 evs1 M1 Hall Hb Hrest|]; subst. inversion Hrest as [| |M c q ds2 evs2 M2 Hq Hnil]; subst. inversion Hnil; subst.
  exists ps, bs, q. split_and!; [reflexivity|exact Hall|rewrite Hb; vm_compute; reflexivity|exact Hq].
Defined.
