(* ===== verification/NetworkUpdates.v ===== *)
(** How a network gets its configuration: the constructor, setConfiguration, handleConfigChunk and
    requestConfiguration of node/Network.cpp.

    A configuration comes from the controller as a dictionary in signed chunks, from the disk, or,
    for the ad-hoc networks, from the ID of the network. *)
From stdpp Require Import gmap.
From S2P Require Import Prelude.
From S2P Require Import Utils.
From S2P Require Import Buffer.
From S2P Require Import Addressing.
From S2P Require Import Wire.
From S2P Require Import Rules.
From S2P Require Import CLib.
From S2P Require Import Dictionary.
From S2P Require Import InetAddress.
From S2P Require Import Hashtable.
From S2P Require Import C25519Api.
From S2P Require Import Identity.
From S2P Require Import CertificateOfMembership.
From S2P Require Import Credentials.
From S2P Require Import Capability.
From S2P Require Import NetworkConfig.
From S2P Require Import NetworkConfigDict.
From S2P Require Import Membership.
From S2P Require Import NetworkFilter.
From S2P Require Import Packet.
From S2P Require Import Compression.
From S2P Require Import Switch.
From S2P Require Import PushCredentials.
From S2P Require Import NetworkState.

Definition ZT_NETWORKCONFIG_DEFAULT_CREDENTIAL_TIME_MAX_MAX_DELTA : Z := 7200000.
Definition ZT_NETWORKCONFIG_METADATA_DICT_CAPACITY : Z := 1024.
Definition VERB_NETWORK_CONFIG_REQUEST : Z := 0x0b.
Definition ZT_NETWORK_RULE_MATCH_IP_PROTOCOL : Z := 36.
Definition ZT_NETWORK_RULE_MATCH_ETHERTYPE : Z := 37.
Definition ZT_NETWORK_RULE_MATCH_CHARACTERISTICS : Z := 41.
Definition ZT_RULE_PACKET_CHARACTERISTICS_TCP_ACK : Z := 0x10.
Definition ZT_RULE_PACKET_CHARACTERISTICS_TCP_SYN : Z := 0x2.
Definition ZT_VENDOR_ZEROTIER : Z := 1.
Definition ZT_PROTO_VERSION : Z := 9.
Definition ZEROTIER_ONE_VERSION_MAJOR : Z := 1.
Definition ZEROTIER_ONE_VERSION_MINOR : Z := 2.
Definition ZEROTIER_ONE_VERSION_REVISION : Z := 12.
Definition ZT_RULES_ENGINE_REVISION : Z := 1.

(** The rest of the node for these operations: the number of bits of [unsigned long], the reader
    and the writer of the configurations of old versions, the memory that [new] gives to the
    buffer of a configuration and the stack to a text, what is stored for the network and whether
    there is a controller on this node. *)
Record UpdateEnv : Type := mkUpdateEnv {
  ue_node : NodeEnv;
  ue_ulong : Z;
  ue_legacy : NetworkConfig -> list Z -> outcome (option NetworkConfig);
  ue_legacyFields : NetworkConfig -> list step;
  ue_tmp : Buffer;
  ue_text : list Z;
  ue_stored : option (list Z);
  ue_localController : bool
}.

Definition CAP : Z := ZT_NETWORKCONFIG_DICT_CAPACITY.

(** The constructor of NetworkConfig. *)
Definition NetworkConfig_new : NetworkConfig :=
  mkNetworkConfig 0 0 0 0 0 0 0 0 0 0 [] [] [] [] [] [] [] 0 (replicate 128 0) COM_empty.

Definition IncomingConfigChunk_new : IncomingConfigChunk :=
  mkChunk 0 0 (replicate (Z.to_nat ZT_NETWORK_MAX_UPDATE_CHUNKS) 0) 0 0 (replicate (Z.to_nat CAP) 0).

Section Updates.
Context `{Ops : C25519Ops} (U : UpdateEnv).
Let E := ue_node U.
Definition ulong (x : Z) : Z := x mod 2 ^ ue_ulong U.

(** ** setConfiguration *)

Definition save_config (nconf : NetworkConfig) : NM unit :=
  '(d, ok) ← lift (NetworkConfig_toDictionary CAP (ue_legacyFields U) nconf false (ue_tmp U));
  if (ok : bool) then emit (EvStatePut (ztake (Dictionary_sizeBytes CAP d) d)) else mret tt.

Definition setConfiguration (nconf : NetworkConfig) (saveToDisk : bool) : NM Z :=
  n ← get_network;
  if nt_destroyed n then mret 0 else
  catch_with 0 (
    if negb (nc_issuedTo nconf =? en_self E) || negb (nc_networkId nconf =? nt_id n) then mret 0
    else if en_same E (nt_config n) nconf then mret 1
    else
      _ ← set_network (fun n => with_config n true nconf (en_now E) NETCONF_FAILURE_NONE);
      n' ← get_network;
      let ctmp := externalConfig E n' in
      _ ← for_members (fun a m => set_membership a (Membership_resetPushState m));
      let op := if nt_portInitialized n then ZT_VIRTUAL_NETWORK_CONFIG_OPERATION_CONFIG_UPDATE else ZT_VIRTUAL_NETWORK_CONFIG_OPERATION_UP in
      _ ← emit (EvConfigurePort op ctmp);
      _ ← set_network (fun n => with_status n (nt_destroyed n) (nt_netconfFailure n) (en_port E op ctmp));
      _ ← (if saveToDisk then catch_with tt (save_config nconf) else mret tt);
      mret 2).

(** ** handleConfigChunk *)

(** [(!c)||(_incomingConfigChunks[i].ts < c->ts)] *)
Definition less_used (i : nat) (x : IncomingConfigChunk) (c : option (nat * IncomingConfigChunk)) : option (nat * IncomingConfigChunk) :=
  match c with Some (_, b) => if ic_ts x <? ic_ts b then Some (i, x) else c | None => Some (i, x) end.

(** The slot of the update, and whether it has the chunk. *)
Fixpoint find_slot (updateId chunkId : Z) (cs : list IncomingConfigChunk) (i : nat) (c : option (nat * IncomingConfigChunk)) : option (nat * IncomingConfigChunk) * bool :=
  match cs with
  | [] => (c, false)
  | x :: cs =>
      if ic_updateId x =? updateId then (Some (i, x), existsb (Z.eqb chunkId) (ztake (ic_haveChunks x) (ic_haveChunkIds x)))
      else find_slot updateId chunkId cs (S i) (less_used i x c)
  end.
Fixpoint least_used (cs : list IncomingConfigChunk) (i : nat) (c : option (nat * IncomingConfigChunk)) : option (nat * IncomingConfigChunk) :=
  match cs with [] => c | x :: cs => least_used cs (S i) (less_used i x c) end.

(** A chunk that is to be kept, and its slot. *)
Record Piece : Type := mkPiece { pc_slot : nat; pc_chunk : IncomingConfigChunk; pc_updateId : Z; pc_chunkId : Z; pc_totalLength : Z; pc_chunkIndex : Z }.

(** The eight bytes of [chunkId] after the loop over the first 16 of the signature. *)
Definition sig_id (sig : list Z) : Z := le_val (zip_with Z.lxor (ztake 8 sig) (slice 8 8 sig)).

(** [fastPropagate] *)
Definition propagate (source : Z) (chunk : Buffer) (start : Z) : NM unit :=
  for_members (fun a _ =>
    n ← get_network;
    if negb (a =? source) && negb (a =? controller n)
    then send_packet E a VERB_NETWORK_CONFIG false (fun outp => Buffer_append PC outp (zdrop start (b_mem chunk)) (u32 (b_len chunk - start)))
    else mret tt).

Definition signed_chunk (source : Z) (chunk : Buffer) (start p chunkLen : Z) : NM (option Piece) :=
  n ← get_network;
  flags ← lift (Buffer_index chunk p);
  configUpdateId ← lift (Buffer_at chunk 8 (u32 (p + 1)));
  totalLength ← lift (Buffer_at chunk 4 (u32 (p + 9)));
  chunkIndex ← lift (Buffer_at chunk 4 (u32 (p + 13)));
  let p := u32 (p + 17) in
  if (totalLength <? ulong (chunkIndex + chunkLen)) || (CAP <=? totalLength) then mret None else
  version ← lift (Buffer_index chunk p);
  if negb (version =? 1) then mret None else
  sigLen ← lift (Buffer_at chunk 2 (u32 (p + 1)));
  if negb (sigLen =? ZT_C25519_SIGNATURE_LEN) then mret None else
  sig ← lift (Buffer_read_field chunk (u32 (p + 3)) ZT_C25519_SIGNATURE_LEN);
  let chunkId := sig_id sig in
  match find_slot configUpdateId chunkId (nt_incomingConfigChunks n) 0 None with
  | (Some (i, c), false) =>
      let controllerId := en_getIdentity E (controller n) in
      if negb (Identity_bool controllerId) then mret None else
      signed ← lift (Buffer_read_field chunk start (u32 (p - start)));
      if negb (Identity_verify controllerId signed sig ZT_C25519_SIGNATURE_LEN) then mret None else
      _ ← (if negb (Z.land flags 0x01 =? 0) then propagate source chunk start else mret tt);
      mret (Some (mkPiece i c configUpdateId chunkId totalLength chunkIndex))
  | (_, true) => mret None
  | (None, false) => lift Undef
  end.

Definition legacy_chunk (packetId chunkLen : Z) : NM (option Piece) :=
  n ← get_network;
  if CAP <=? chunkLen then mret None else
  match least_used (nt_incomingConfigChunks n) 0 None with
  | Some (i, c) => mret (Some (mkPiece i c packetId packetId chunkLen 0))
  | None => lift Undef
  end.

Definition put_chunk (i : nat) (c : IncomingConfigChunk) : NM unit := set_network (fun n => with_chunks n (<[i := c]> (nt_incomingConfigChunks n))).

(** The chunk goes into its slot; the configuration when it was the last one. *)
Definition accept_chunk (pc : Piece) (chunkData : list Z) : NM (option NetworkConfig) :=
  let c := pc_chunk pc in
  let fresh := negb (ic_updateId c =? pc_updateId pc) in
  let ts := u64 (ic_ts c + 1) in
  let haveChunks := if fresh then 0 else ic_haveChunks c in
  let haveBytes := if fresh then 0 else ic_haveBytes c in
  _ ← put_chunk (pc_slot pc) (mkChunk ts (pc_updateId pc) (ic_haveChunkIds c) haveChunks haveBytes (ic_data c));
  if ZT_NETWORK_MAX_UPDATE_CHUNKS <=? haveChunks then mret None else
  ids ← lift (mem_write (ic_haveChunkIds c) haveChunks [pc_chunkId pc]);
  data ← lift (mem_write (ic_data c) (pc_chunkIndex pc) chunkData);
  let haveBytes := ulong (haveBytes + zlen chunkData) in
  if haveBytes =? pc_totalLength pc then
    data ← lift (mem_write data haveBytes [0]);
    _ ← put_chunk (pc_slot pc) (mkChunk ts (pc_updateId pc) ids (haveChunks + 1) haveBytes data);
    catch_with None (lift (NetworkConfig_fromDictionary CAP (ue_legacy U) data (ue_tmp U)))
  else
    _ ← put_chunk (pc_slot pc) (mkChunk ts (pc_updateId pc) ids (haveChunks + 1) haveBytes data);
    mret None.

Definition handleConfigChunk (packetId source : Z) (chunk : Buffer) (start : Z) : NM Z :=
  n ← get_network;
  if nt_destroyed n then mret 0 else
  let p := u32 (start + 8) in
  chunkLen ← lift (Buffer_at chunk 2 p);
  chunkData ← lift (Buffer_read_field chunk (u32 (p + 2)) chunkLen);
  let p := u32 (p + 2 + chunkLen) in
  pc ← (if p <? b_len chunk then signed_chunk source chunk start p chunkLen
        else if (source =? controller n) || negb (Address_bool source) then legacy_chunk packetId chunkLen
        else mret None);
  match pc with
  | None => mret 0
  | Some pc =>
      nc ← accept_chunk pc chunkData;
      match nc with
      | Some nc => _ ← setConfiguration nc true; mret (pc_updateId pc)
      | None => mret 0
      end
  end.

(** ** requestConfiguration *)

Definition adhoc_config (n : Network) (multicastLimit : Z) (specialists : list Z) (ips : list InetAddress) (rules : list Rule) (name : list Z) : NetworkConfig :=
  mkNetworkConfig (nt_id n) (en_now E) ZT_NETWORKCONFIG_DEFAULT_CREDENTIAL_TIME_MAX_MAX_DELTA 1 (en_self E) 0
    ZT_NETWORKCONFIG_FLAG_ENABLE_IPV6_NDP_EMULATION 0 ZT_DEFAULT_MTU multicastLimit specialists [] ips rules [] [] [] ZT_NETWORK_TYPE_PUBLIC name COM_empty.

(** IPv6 only: ICMPv6, the ports of the range, and TCP packets that do not open a connection. *)
Definition port_rules (startPortRange endPortRange : Z) : list Rule :=
  [mkRule (Z.lor ZT_NETWORK_RULE_MATCH_ETHERTYPE 0x80) (VEtherType 0x86dd);
   mkRule ZT_NETWORK_RULE_ACTION_DROP VNone;
   mkRule ZT_NETWORK_RULE_MATCH_IP_PROTOCOL (VIpProtocol 0x3a);
   mkRule ZT_NETWORK_RULE_ACTION_ACCEPT VNone;
   mkRule ZT_NETWORK_RULE_MATCH_IP_PROTOCOL (VIpProtocol 0x11);
   mkRule (Z.lor ZT_NETWORK_RULE_MATCH_IP_PROTOCOL 0x40) (VIpProtocol 0x06);
   mkRule ZT_NETWORK_RULE_MATCH_IP_DEST_PORT_RANGE (VPort startPortRange endPortRange);
   mkRule ZT_NETWORK_RULE_ACTION_ACCEPT VNone;
   mkRule (Z.lor ZT_NETWORK_RULE_MATCH_CHARACTERISTICS 0x80) (VCharacteristics ZT_RULE_PACKET_CHARACTERISTICS_TCP_SYN);
   mkRule ZT_NETWORK_RULE_ACTION_ACCEPT VNone;
   mkRule ZT_NETWORK_RULE_MATCH_CHARACTERISTICS (VCharacteristics ZT_RULE_PACKET_CHARACTERISTICS_TCP_SYN);
   mkRule ZT_NETWORK_RULE_MATCH_CHARACTERISTICS (VCharacteristics ZT_RULE_PACKET_CHARACTERISTICS_TCP_ACK);
   mkRule ZT_NETWORK_RULE_ACTION_ACCEPT VNone;
   mkRule ZT_NETWORK_RULE_ACTION_DROP VNone].

Definition port_name (startPortRange endPortRange : Z) : outcome (list Z) :=
  name ← mem_write (replicate 128 0) 0 (chars "adhoc-");
  lo ← Utils_hex16 startPortRange;
  name ← mem_write name 6 lo;
  name ← mem_write name 10 (chars "-");
  hi ← Utils_hex16 endPortRange;
  name ← mem_write name 11 hi;
  mem_write name 15 [0].

(** [while ((nconf->name[nn] = v4ascii[nn - 6])) ++nn;] *)
Fixpoint copy_text (fuel : nat) (src name : list Z) (nn : Z) : outcome (list Z * Z) :=
  match fuel with
  | O => Undef
  | S fuel =>
      c ← load src (nn - 6);
      name ← mem_write name nn [c];
      if c =? 0 then Ok (name, nn) else copy_text fuel src name (nn + 1)
  end.

Definition hub_name (first : Z) : outcome (list Z) :=
  v4ascii ← Utils_decimal first (ue_text U);
  name ← mem_write (replicate 128 0) 0 (chars "adhoc-");
  '(name, nn) ← copy_text (S (length v4ascii)) v4ascii name 6;
  mem_write name nn (chars ".0.0.0" ++ [0]).

Definition adhoc_ports (n : Network) : NM unit :=
  let startPortRange := u16 (Z.land (Z.shiftr (nt_id n) 40) 0xffff) in
  let endPortRange := u16 (Z.land (Z.shiftr (nt_id n) 24) 0xffff) in
  if startPortRange <=? endPortRange then
    name ← lift (port_name startPortRange endPortRange);
    _ ← setConfiguration (adhoc_config n 0 [] [InetAddress_makeIpv66plane (nt_id n) (Address_toInt (en_self E))] (port_rules startPortRange endPortRange) name) false;
    mret tt
  else setNotFound.

Definition adhoc_hub (n : Network) : NM unit :=
  let myAddress := Address_toInt (en_self E) in
  let networkHub := Z.land (Z.shiftr (nt_id n) 8) 0xffffffffff in
  let ipv4 := [Z.land (Z.shiftr (nt_id n) 48) 0xff; Z.land (Z.shiftr myAddress 16) 0xff; Z.land (Z.shiftr myAddress 8) 0xff; Z.land myAddress 0xff] in
  name ← lift (hub_name (Z.land (Z.shiftr (nt_id n) 48) 0xff));
  ip ← lift (InetAddress_set ipv4 4 8);
  _ ← setConfiguration (adhoc_config n 1024 (if networkHub =? 0 then [] else [networkHub]) [InetAddress_makeIpv66plane (nt_id n) myAddress; ip]
        [mkRule ZT_NETWORK_RULE_ACTION_ACCEPT VNone] name) false;
  mret tt.

(** [rmd] *)
Definition request_metadata : outcome (list Z) :=
  foldl (fun d '(key, v) => d ← d; '(d, _) ← Dictionary_add_u64 ZT_NETWORKCONFIG_METADATA_DICT_CAPACITY d key v; Ok d)
    (Ok (Dictionary_new ZT_NETWORKCONFIG_METADATA_DICT_CAPACITY))
    [(chars "v", ZT_NETWORKCONFIG_VERSION); (chars "vend", ZT_VENDOR_ZEROTIER); (chars "pv", ZT_PROTO_VERSION);
     (chars "majv", ZEROTIER_ONE_VERSION_MAJOR); (chars "minv", ZEROTIER_ONE_VERSION_MINOR); (chars "revv", ZEROTIER_ONE_VERSION_REVISION);
     (chars "mr", ZT_MAX_NETWORK_RULES); (chars "mc", ZT_MAX_NETWORK_CAPABILITIES); (chars "mcr", ZT_MAX_CAPABILITY_RULES);
     (chars "mt", ZT_MAX_NETWORK_TAGS); (chars "f", 0); (chars "revr", ZT_RULES_ENGINE_REVISION)].

Definition append_request (n : Network) (rmd : list Z) (outp : Buffer) : outcome Buffer :=
  let rmdSize := Dictionary_sizeBytes ZT_NETWORKCONFIG_METADATA_DICT_CAPACITY rmd in
  outp ← Buffer_append_int PC outp 8 (nt_id n);
  outp ← Buffer_append_int PC outp 2 rmdSize;
  outp ← Buffer_append PC outp rmd rmdSize;
  if NetworkConfig_bool (nt_config n) then
    outp ← Buffer_append_int PC outp 8 (nc_revision (nt_config n));
    Buffer_append_int PC outp 8 (u64 (nc_timestamp (nt_config n)))
  else Buffer_append_run PC outp 0 16.

Definition requestConfiguration : NM unit :=
  n ← get_network;
  if nt_destroyed n then mret tt else
  if Z.shiftr (nt_id n) 56 =? 0xff then
    if Z.land (nt_id n) 0xffffff =? 0 then adhoc_ports n
    else if Z.land (nt_id n) 0xff =? 0x01 then adhoc_hub n else mret tt
  else
    rmd ← lift request_metadata;
    if controller n =? en_self E then
      if ue_localController U then emit (EvLocalRequest (nt_id n) 0xffffffffffffffff false (en_self E) rmd) else setNotFound
    else
      k ← ticket;
      outp ← lift (Packet_new (en_memory E) k (controller n) (en_self E) VERB_NETWORK_CONFIG_REQUEST);
      outp ← lift (append_request n rmd outp);
      '(_, outp) ← lift (Packet_compress (pm_buf (en_memory E) k) outp);
      pid ← lift (Packet_packetId outp);
      _ ← emit (EvExpectReply pid);
      emit (EvSend outp).

(** ** The constructor *)

Definition blank_network (nwid : Z) : Network :=
  let t {K V} : Hashtable K V := mkHashtable (replicate 64 []) 64 0 in
  mkNetwork nwid 0 (MAC_fromAddress (en_self E) nwid) false [] t t NetworkConfig_new 0
    (replicate (Z.to_nat ZT_NETWORK_MAX_INCOMING_UPDATES) IncomingConfigChunk_new) false NETCONF_FAILURE_NONE 0 t.

Definition forget_update : NM unit := set_network (fun n => with_config n (nt_portInitialized n) (nt_config n) 0 (nt_netconfFailure n)).

(** The configuration stored on the disk; whether there is one. *)
Definition load_stored : NM bool :=
  match ue_stored U with
  | None => mret false
  | Some stored =>
      dict ← lift (mem_write (Dictionary_new CAP) 0 stored);
      if 1 <? zlen stored then
        catch_with false (
          nconf ← lift (NetworkConfig_fromDictionary CAP (ue_legacy U) dict (ue_tmp U));
          match nconf with
          | Some nconf => _ ← setConfiguration nconf false; _ ← forget_update; mret true
          | None => mret false
          end)
      else mret false
  end.

(** The constructor, from [blank_network]. *)
Definition Network_init (nconf : option NetworkConfig) : NM unit :=
  _ ← match nconf with
      | Some nconf => _ ← setConfiguration nconf false; forget_update
      | None => got ← catch_with false load_stored; if (got : bool) then mret tt else emit (EvStatePut [10])
      end;
  n ← get_network;
  if nt_portInitialized n then mret tt else
    let ctmp := externalConfig E n in
    _ ← emit (EvConfigurePort ZT_VIRTUAL_NETWORK_CONFIG_OPERATION_UP ctmp);
    set_network (fun n => with_config (with_status n (nt_destroyed n) (nt_netconfFailure n) (en_port E ZT_VIRTUAL_NETWORK_CONFIG_OPERATION_UP ctmp))
                            true (nt_config n) (nt_lastConfigUpdate n) (nt_netconfFailure n)).
End Updates.
