(* ===== verification/ConfigUpdates.v ===== *)
(** How a network takes a configuration: setConfiguration of node/Network.cpp.

    A configuration that is for this node and this network and differs from the one it has is
    taken whole: every member is sent our credentials anew, the port is told, and the
    configuration is saved.  Any other is left. *)
From stdpp Require Import gmap.
From S2P Require Import Prelude.
From S2P Require Import Utils.
From S2P Require Import Buffer.
From S2P Require Import Addressing.
From S2P Require Import Wire.
From S2P Require Import Rules.
From S2P Require Import CLib.
From S2P Require Import Dictionary.
From S2P Require Import InetAddress.
From S2P Require Import Hashtable.
From S2P Require Import C25519Api.
From S2P Require Import Identity.
From S2P Require Import CertificateOfMembership.
From S2P Require Import Credentials.
From S2P Require Import Capability.
From S2P Require Import NetworkConfig.
From S2P Require Import NetworkConfigDict.
From S2P Require Import Membership.
From S2P Require Import NetworkFilter.
From S2P Require Import Packet.
From S2P Require Import Compression.
From S2P Require Import Switch.
From S2P Require Import PushCredentials.
From S2P Require Import NetworkState.
From S2P Require Import NetworkSafety.
From S2P Require Import NetworkUpdates.

(** ** Over the members *)

Abbreviation members s := (nt_memberships (ns_network s)).

Section Members.
Context (P : list AddressKey -> NetState -> Prop) (body : Z -> Membership -> NM unit).
Context (Hwf : forall ks s, P ks s -> ht_wf (members s)).
Context (Hbody : forall k ks s m, P (k :: ks) s -> ht_map (members s) !! k = Some m ->
  runs (body (addr_val k) m) s (fun s' _ => P ks s' /\ ht_shape (members s') = ht_shape (members s))).

Lemma members_loop_runs ks : forall fuel it s, it_keys (members s) it ks -> P ks s -> (length ks < fuel)%nat ->
  runs (members_loop fuel body it) s (fun s' _ => P [] s').
Proof.
  induction ks as [|k ks IH]; intros fuel it s Hit HP Hf; (destruct fuel as [|fuel]; [lia|]); cbn [members_loop]; apply get_network_runs; pose proof (Iterator_next_keys _ _ _ (Hwf _ _ HP) Hit) as Hn.
  - destruct Hn as (it' & En). eapply runs_lift_bind; [exact En|]. by apply runs_ret.
  - destruct Hn as (it' & m & En & Hm & Hit' & _). eapply runs_lift_bind; [exact En|]. cbn beta iota. eapply runs_bind; [by apply (Hbody k ks s m)|]. intros s1 [] (HP1 & Hsh).
    apply IH; [by eapply it_keys_shape|done|cbn [length] in Hf; lia].
Qed.

Lemma for_members_runs s : P (ht_list (members s)).*1 s -> runs (for_members body) s (fun s' _ => P [] s').
Proof.
  intros HP. unfold for_members. apply get_network_runs. pose proof (Hwf _ _ HP) as Hw. destruct (Iterator_new_keys (members s) Hw) as (it & Ei & Hit). eapply runs_lift_bind; [exact Ei|].
  eapply members_loop_runs; [exact Hit|done|]. rewrite length_fmap. pose proof (hw_s _ Hw) as Hs. unfold zlen in Hs. lia.
Qed.
End Members.

(** ** setConfiguration *)

Section SetConfiguration.
Context `{Ops : C25519Ops} (U : UpdateEnv).
Let E := ue_node U.

(** The members, with nothing pushed to any of them. *)
Lemma reset_members_runs N s : table_ok N (members s) -> N < 2 ^ 59 ->
  runs (for_members (fun a m => set_membership a (Membership_resetPushState m))) s (fun s' _ => exists h, s' = mkNetState (with_memberships (ns_network s) h) (ns_prng s) (ns_log s) /\
    table_ok N h /\ ht_map h = Membership_resetPushState <$> ht_map (members s)).
Proof.
  intros [Hw Hs] HN. set (P ks s' := exists h, s' = mkNetState (with_memberships (ns_network s) h) (ns_prng s) (ns_log s) /\ table_ok N h /\ NoDup ks /\
    (forall k, ht_map h !! k = (if decide (k ∈ ks) then id else Membership_resetPushState) <$> ht_map (members s) !! k)).
  assert (Hwf : forall ks s', P ks s' -> ht_wf (members s')) by (by intros ks s' (h & -> & [? _] & _)).
  eapply runs_weaken; [apply (for_members_runs P)|].
  - done.
  - intros k ks s1 m (h & -> & [Hh1 Hh2] & Hnd & Hm) Hk. apply NoDup_cons in Hnd as [Hnk Hnd]. cbn [ns_network nt_memberships with_memberships] in Hk. unfold set_membership. apply get_network_runs.
    cbn [ns_network nt_memberships with_memberships]. replace (AddrK (addr_val k)) with k by (by destruct k).
    destruct (Hashtable_store_spec h k (Membership_resetPushState m) Hh1 ltac:(lia) ltac:(eauto)) as (h' & Eh & Hwh & Hm').
    eapply runs_lift_bind; [exact Eh|]. eexists _, _. split; [done|]. cbn [ns_network nt_memberships with_memberships]. split; [|by eapply Hashtable_store_shape]. exists h'. split; [done|].
    split; [split; [done|]; rewrite (ht_size h' Hwh), Hm', map_size_insert, Hk; rewrite (ht_size h Hh1) in Hh2; cbn; lia|]. split; [done|]. intros k'. rewrite Hm'.
    destruct (decide (k' = k)) as [->|Hne]; [|rewrite lookup_insert_ne, Hm by done; by rewrite (decide_ext (k' ∈ k :: ks) (k' ∈ ks)) by set_solver].
    rewrite lookup_insert_eq. rewrite Hm in Hk. rewrite decide_True in Hk by set_solver. rewrite decide_False by done. rewrite option_fmap_id in Hk. by rewrite Hk.
  - exists (members s). split; [by destruct s as [[] ]|]. split; [done|]. split; [by apply hw_nodup|]. intros k. destruct (decide _) as [|Hn]; [by rewrite option_fmap_id|].
    destruct (ht_map (members s) !! k) as [m|] eqn:Ek; [|done]. destruct Hn. apply (ht_map_lookup _ k m Hw) in Ek. apply list_elem_of_fmap. by exists (k, m).
  - intros s' [] (h & -> & Ht & _ & Hm). exists h. split; [done|]. split; [done|]. apply map_eq. intros k. by rewrite lookup_fmap, Hm, decide_False by apply not_elem_of_nil.
Qed.

(** The network with the configuration; the port is told to come up, or that it changed. *)
Definition port_op (n : Network) : Z := if nt_portInitialized n then ZT_VIRTUAL_NETWORK_CONFIG_OPERATION_CONFIG_UPDATE else ZT_VIRTUAL_NETWORK_CONFIG_OPERATION_UP.
Definition port_config (n : Network) (nconf : NetworkConfig) : ExternalConfig := externalConfig E (with_config n true nconf (en_now E) NETCONF_FAILURE_NONE).
Definition configured (n : Network) (nconf : NetworkConfig) (h : Hashtable AddressKey Membership) : Network :=
  with_status (with_memberships (with_config n true nconf (en_now E) NETCONF_FAILURE_NONE) h) (nt_destroyed n) NETCONF_FAILURE_NONE (en_port E (port_op n) (port_config n nconf)).

(** A configuration that can be saved. *)
Record storable (nconf : NetworkConfig) : Prop := { st_wf : nc_wf nconf; st_fits : zlen (dict_text (nc_entries nconf)) < CAP }.

Lemma CAP_value : CAP = 419456.
Proof. reflexivity. Qed.

Lemma save_config_runs s nconf : buf_wf CAP (ue_tmp U) -> storable nconf ->
  runs (catch_with tt (save_config U nconf)) s (fun s' _ => s' = mkNetState (ns_network s) (ns_prng s) (ns_log s ++ [EvStatePut (dict_text (nc_entries nconf))])).
Proof.
  intros Ht [Hw Hl]. destruct (toDictionary_holds CAP ltac:(by rewrite CAP_value) (ue_legacyFields U) nconf (ue_tmp U) Hw Ht Hl) as (d & Ed & [[Hd1 Hd2] Hd3 _ _]).
  eexists _, tt. split; [|done]. unfold catch_with, save_config. erewrite sm_bind_Ok by (unfold lift; by rewrite Ed). cbn beta iota.
  unfold Dictionary_sizeBytes. rewrite sizeBytes_loop_spec by done. destruct (cstr_split d Hd2) as [rest Er]. rewrite Er at 2. rewrite ztake_app_exact by lia. rewrite Hd3. done.
Qed.

(** What setConfiguration does. *)
Definition config_taken (N : Z) (s s' : NetState) (nconf : NetworkConfig) (saveToDisk : bool) (r : Z) : Prop :=
  let n := ns_network s in
  if nt_destroyed n || negb (nc_issuedTo nconf =? en_self E) || negb (nc_networkId nconf =? nt_id n) then r = 0 /\ s' = s
  else if en_same E (nt_config n) nconf then r = 1 /\ s' = s
  else r = 2 /\ exists h, table_ok N h /\ ht_map h = Membership_resetPushState <$> ht_map (nt_memberships n) /\
    s' = mkNetState (configured n nconf h) (ns_prng s)
      (ns_log s ++ EvConfigurePort (port_op n) (port_config n nconf) :: (if saveToDisk then [EvStatePut (dict_text (nc_entries nconf))] else [])).

Lemma setConfiguration_runs N s nconf saveToDisk : table_ok N (members s) -> N < 2 ^ 59 -> (saveToDisk = true -> buf_wf CAP (ue_tmp U) /\ storable nconf) ->
  runs (setConfiguration U nconf saveToDisk) s (fun s' r => config_taken N s s' nconf saveToDisk r).
Proof.
  intros Ht HN Hsave. unfold setConfiguration, config_taken. apply get_network_runs. destruct (nt_destroyed (ns_network s)) eqn:Ed; [by apply runs_ret|]. cbn [orb].
  assert (Hcatch : forall (m : NM Z) Q, runs m s Q -> runs (catch_with 0 m) s Q) by (intros m Q (s' & a & Em & HQ); exists s', a; unfold catch_with; by rewrite Em). apply Hcatch.
  destruct (negb _ || negb _); [by apply runs_ret|]. destruct (en_same _ _ _); [by apply runs_ret|].
  eapply runs_step; [reflexivity|]. apply get_network_runs. cbn [ns_network]. eapply runs_bind; [apply (reset_members_runs N); [exact Ht|done]|]. intros s1 [] (h & -> & Hh & Hm). cbn [ns_network nt_memberships with_config] in Hm.
  eapply runs_step; [reflexivity|]. eapply runs_step; [reflexivity|]. cbn [ns_network ns_prng ns_log]. destruct saveToDisk.
  - destruct (Hsave eq_refl). eapply runs_bind; [by apply save_config_runs|]. intros s2 [] ->. apply runs_ret. split; [done|]. exists h. split_and!; [done|done|]. unfold configured. cbn [ns_network ns_prng ns_log]. rewrite <- app_assoc. cbn [app]. done.
  - eapply runs_step; [reflexivity|]. apply runs_ret. split; [done|]. exists h. split_and!; [done|done|]. unfold configured. done.
Qed.
End SetConfiguration.
