(* ===== verification/ConfigChunks.v ===== *)
(** How the chunks of a configuration are put together: handleConfigChunk of node/Network.cpp.

    The chunks that a controller signs for a configuration are accepted in any order, and the
    last one installs the configuration.  A chunk that is not signed by the controller changes
    nothing, unless it is a whole configuration from the controller itself. *)
From stdpp Require Import gmap.
From S2P Require Import Prelude.
From S2P Require Import Utils.
From S2P Require Import Buffer.
From S2P Require Import Addressing.
From S2P Require Import Wire.
From S2P Require Import Rules.
From S2P Require Import CLib.
From S2P Require Import Dictionary.
From S2P Require Import InetAddress.
From S2P Require Import Hashtable.
From S2P Require Import C25519Api.
From S2P Require Import Identity.
From S2P Require Import CertificateOfMembership.
From S2P Require Import Credentials.
From S2P Require Import Capability.
From S2P Require Import NetworkConfig.
From S2P Require Import NetworkConfigDict.
From S2P Require Import Membership.
From S2P Require Import NetworkFilter.
From S2P Require Import Packet.
From S2P Require Import Compression.
From S2P Require Import Switch.
From S2P Require Import Fragmentation.
From S2P Require Import PushCredentials.
From S2P Require Import NetworkState.
From S2P Require Import NetworkSafety.
From S2P Require Import NetworkUpdates.
From S2P Require Import ConfigUpdates.

(** ** A configuration that was read is as long as the one that was written *)

Definition like (kvs kvs' : list (list Z * list Z)) : Prop := Forall2 (fun e e' => e.1 = e'.1 /\ e.2 ≡ₚ e'.2) kvs kvs'.

Lemma dict_text_like kvs : forall kvs', like kvs kvs' -> zlen (dict_text kvs) = zlen (dict_text kvs').
Proof.
  induction kvs as [|[k v] kvs IH] using rev_ind; intros kvs' Hl; [by inversion Hl|]. apply Forall2_app_inv_l in Hl as (l1 & l2 & H1 & H2 & ->).
  apply Forall2_cons_inv_l in H2 as ([k' v'] & l3 & [Hk Hv] & H3 & ->). cbn [fst snd] in Hk, Hv. subst k'. inversion H3. specialize (IH _ H1). rewrite !dict_text_snoc, !zlen_app, IH. f_equal. unfold entry_text.
  rewrite !zlen_app. f_equal; [|do 2 f_equal; unfold zlen; f_equal; apply Permutation_length; by rewrite Hv]. destruct (dict_text kvs), (dict_text l1); try done; unfold zlen in IH; cbn [length] in IH; lia.
Qed.

Lemma join_perm {A} (f : A -> list Z) l l' : l ≡ₚ l' -> mjoin (f <$> l) ≡ₚ mjoin (f <$> l').
Proof.
  assert (E : forall l, mjoin (f <$> l) = l ≫= f) by (intros k; induction k as [|x k IH]; [done|]; by change (mjoin (f <$> x :: k)) with (f x ++ mjoin (f <$> k)); rewrite IH).
  intros H. rewrite !E. by rewrite H.
Qed.

Lemma opt_entry_like key b b' : b ≡ₚ b' -> like (opt_entry key b) (opt_entry key b').
Proof.
  intros H. unfold opt_entry. destruct b; [apply Permutation_nil_l in H as <-; constructor|]. destruct b'; [by apply Permutation_nil_r in H|]. by constructor; [|constructor].
Qed.

Lemma com_same_enc c c' : com_wf c -> com_wf c' -> com_same c c' -> COM_bool c' = COM_bool c /\ (COM_bool c = true -> com_enc c' = com_enc c).
Proof.
  intros Hc Hc' [Hl Hs]. assert (Hn : com_count c' = com_count c).
  { by rewrite <- (zlen_live c Hc), <- (zlen_live c' Hc'), Hl. }
  unfold COM_bool. rewrite Hn. split; [done|]. intros Hb. destruct (Hs Hb) as [H1 H2]. unfold com_enc. rewrite Hn, Hl, H1. do 4 f_equal. destruct (Address_bool _) eqn:E; [by apply H2|done].
Qed.

Lemma inet_canon_enc a : inet_enc (inet_canon a) = inet_enc a.
Proof. by destruct a. Qed.

Lemma nc_same_like nc nc' : nc_wf nc -> nc_wf nc' -> nc_same nc nc' -> like (nc_entries nc) (nc_entries nc').
Proof.
  intros Hw Hw' [Hnum Hname Hcom [Hcaps _] [Htags _] Hcoos Hsp Hrt Hip Hrl]. injection Hnum as E1 E2 E3 E4 E5 E6 E7 E8 E9 E10 E11. apply Forall2_app.
  - unfold text_entries. rewrite E1, E2, E3, E4, E5, E6, E7, E8, E9, E10, E11, Hname. induction (_ :: _) as [|e l IH]; constructor; done.
  - destruct (com_same_enc _ _ (nw_com nc Hw) (nw_com nc' Hw') Hcom) as [Hb He]. unfold blob_entries. repeat (apply Forall2_app; [|]); try apply Forall2_nil_2; try apply opt_entry_like; try by apply join_perm.
    + rewrite Hb. destruct (COM_bool (nc_com nc)); [|constructor]. rewrite He by done. by constructor; [|constructor].
    + by rewrite Hcoos.
    + by rewrite Hsp.
    + rewrite Hrt. rewrite <- list_fmap_compose. erewrite list_fmap_ext; [done|]. intros i r _. cbn. unfold route_enc. cbn [route_canon rt_target rt_via rt_flags rt_metric]. rewrite !inet_canon_enc.
      unfold u16. by rewrite !(wrap_id 16 (wrap 16 _)) by (by apply wrap_range).
    + rewrite Hip. rewrite <- list_fmap_compose. erewrite list_fmap_ext; [done|]. intros i a _. symmetry. apply inet_canon_enc.
    + by rewrite Hrl.
Qed.

Lemma nc_same_storable nc nc' : storable nc -> nc_wf nc' -> nc_same nc nc' -> storable nc'.
Proof. intros [Hw Hl] Hw' Hs. split; [done|]. by rewrite <- (dict_text_like _ _ (nc_same_like _ _ Hw Hw' Hs)). Qed.

(** ** A chunk on the wire *)

(** Where a chunk goes, its bytes and its signature. *)
Record Part : Type := mkPart { pt_index : Z; pt_data : list Z; pt_sig : list Z }.

Definition chunk_body (nwid updateId total : Z) (x : Part) : list Z :=
  be_bytes 8 nwid ++ be_bytes 2 (zlen (pt_data x)) ++ pt_data x ++ be_bytes 1 0 ++ be_bytes 8 updateId ++ be_bytes 4 total ++ be_bytes 4 (pt_index x).
Definition chunk_enc (nwid updateId total : Z) (x : Part) : list Z :=
  chunk_body nwid updateId total x ++ be_bytes 1 1 ++ be_bytes 2 96 ++ pt_sig x.

(** The packet [b] holds the chunk at [start], and nothing after it. *)
Record arrives (b : Buffer) (start nwid updateId total : Z) (x : Part) : Prop := {
  av_wf : buf_wf PC b;
  av_at : has_at b start (chunk_enc nwid updateId total x);
  av_len : b_len b = start + zlen (chunk_enc nwid updateId total x)
}.

Record part_ok (total : Z) (x : Part) : Prop := {
  pk_len : zlen (pt_data x) < 2 ^ 16;
  pk_index : 0 <= pt_index x /\ pt_index x + zlen (pt_data x) <= total;
  pk_sig : zlen (pt_sig x) = 96
}.

Section Receive.
Context `{Ops : C25519Ops} (U : UpdateEnv) (nwid updateId total : Z).
Let E := ue_node U.
Context (Hlong : 32 <= ue_ulong U) (Hnwid : is_u64 nwid) (Hid : is_u64 updateId) (Htotal : 0 <= total < CAP).

Lemma ulong_id x : 0 <= x < 2 ^ 32 -> ulong U x = x.
Proof. intros H. unfold ulong. apply Z.mod_small. pose proof (Z.pow_le_mono_r 2 32 (ue_ulong U)). lia. Qed.

Lemma zlen_body x : zlen (chunk_body nwid updateId total x) = 27 + zlen (pt_data x).
Proof. unfold chunk_body. rewrite !zlen_app, !zlen_be_bytes. lia. Qed.

(** What the code checks: the sum is one of [unsigned long]. *)
Record part_checked (x : Part) : Prop := {
  pd_len : zlen (pt_data x) < 2 ^ 16;
  pd_index : is_u32 (pt_index x);
  pd_end : ulong U (pt_index x + zlen (pt_data x)) <= total;
  pd_sig : zlen (pt_sig x) = 96
}.

Lemma part_ok_checked x : part_ok total x -> part_checked x.
Proof. intros [H1 [H2 H3] H4]. pose proof CAP_value. pose proof (zlen_nonneg (pt_data x)). constructor; [done|unfold in_range; lia|by rewrite ulong_id by lia|done]. Qed.

Lemma signed_chunk_Ok s source b start x i c : arrives b start nwid updateId total x -> part_checked x ->
  find_slot updateId (sig_id (pt_sig x)) (nt_incomingConfigChunks (ns_network s)) 0 None = (Some (i, c), false) ->
  let ctl := en_getIdentity E (controller (ns_network s)) in
  Identity_bool ctl = true -> Identity_verify ctl (chunk_body nwid updateId total x) (pt_sig x) 96 = true ->
  signed_chunk U source b start (start + 10 + zlen (pt_data x)) (zlen (pt_data x)) s = (s, Ok (Some (mkPiece i c updateId (sig_id (pt_sig x)) total (pt_index x)))).
Proof.
  intros [Hb Hh Hl] [Hk1 Hk2 Hk3 Hk4] Hslot ctl Hctl Hver. pose proof CAP_value as HCAP. pose proof PC_value. pose proof Hb as [_ _ HbC _]. pose proof (zlen_nonneg (pt_data x)).
  pose proof (proj2 (has_at_slice PC b Hb _ _ Hh)) as Hend. unfold chunk_enc in Hend. rewrite !zlen_app, zlen_body, !zlen_be_bytes, Hk4 in Hend. pose proof (proj1 Hh) as Hs0.
  pose proof Hh as Hh0. unfold chunk_enc in Hh0. apply has_at_app in Hh0 as [Hbody Htail]. rewrite zlen_body in Htail. pose proof (proj1 (has_at_slice PC b Hb _ _ Hbody)) as Hsl. rewrite zlen_body in Hsl.
  unfold chunk_body in Hbody. apply has_at_app in Hbody as [_ Hbody]. apply has_at_app in Hbody as [_ Hbody]. apply has_at_app in Hbody as [_ Hbody]. rewrite !zlen_be_bytes in Hbody.
  replace (start + Z.of_nat 8 + Z.of_nat 2 + zlen (pt_data x)) with (start + 10 + zlen (pt_data x)) in Hbody by lia. set (p := start + 10 + zlen (pt_data x)) in *.
  replace (start + (27 + zlen (pt_data x))) with (p + 17) in Htail by lia.
  assert (Hu : forall k, 0 <= k <= 200 -> u32 (p + k) = p + k) by (intros k Hk; apply u32_id; unfold in_range; lia).
  assert (Hix : forall j v rest, be_bytes 1 v = [v] -> has_at b j (be_bytes 1 v ++ rest) -> Buffer_index b j = Ok v).
  { intros j v rest Hv Hj. apply has_at_app in Hj as [Hj _]. rewrite Hv in Hj. by apply (has_at_byte PC b Hb). }
  unfold signed_chunk. erewrite sm_bind_Ok by reflexivity. erewrite sm_bind_Ok by (unfold lift; by rewrite (Hix _ 0 _ eq_refl Hbody)). cbn beta.
  apply has_at_app in Hbody as [_ Hbody]. rewrite zlen_be_bytes in Hbody. change (Z.of_nat 1) with 1 in Hbody.
  destruct (read_int PC b Hb _ 8 updateId _ Hid Hbody) as (E1 & _ & Hb1). rewrite !Hu by lia. erewrite sm_bind_Ok by (unfold lift; by rewrite E1). cbn beta.
  replace (p + 1 + Z.of_nat 8) with (p + 9) in Hb1 by lia. destruct (read_int PC b Hb _ 4 total _ ltac:(unfold in_range; lia) Hb1) as (E2 & _ & Hb2). erewrite sm_bind_Ok by (unfold lift; by rewrite E2). cbn beta.
  replace (p + 9 + Z.of_nat 4) with (p + 13) in Hb2 by lia. rewrite <- (app_nil_r (be_bytes 4 (pt_index x))) in Hb2. destruct (read_int PC b Hb _ 4 (pt_index x) _ Hk2 Hb2) as (E3 & _ & _).
  erewrite sm_bind_Ok by (unfold lift; by rewrite E3). cbn beta zeta. rewrite (proj2 (Z.ltb_ge _ _)), (proj2 (Z.leb_gt _ _)) by lia. cbn [orb].
  erewrite sm_bind_Ok by (unfold lift; by rewrite (Hix _ 1 _ eq_refl Htail)). cbn beta. cbn [Z.eqb negb Pos.eqb].
  apply has_at_app in Htail as [_ Htail]. rewrite zlen_be_bytes in Htail. change (Z.of_nat 1) with 1 in Htail. rewrite <- Z.add_assoc in Htail. change (17 + 1) with 18 in Htail.
  rewrite <- !Z.add_assoc. change (17 + 1) with 18. change (17 + 3) with 20. rewrite !Hu by lia.
  destruct (read_int PC b Hb _ 2 96 _ ltac:(done) Htail) as (E4 & _ & Hsig). erewrite sm_bind_Ok by (unfold lift; by rewrite E4). cbn beta. change (96 =? ZT_C25519_SIGNATURE_LEN) with true. cbn [negb].
  replace (p + 18 + Z.of_nat 2) with (p + 20) in Hsig by lia. pose proof (proj1 (has_at_slice PC b Hb _ _ Hsig)) as Esig. rewrite Hk4 in Esig.
  erewrite sm_bind_Ok by (unfold lift; rewrite (read_field_Ok b (p + 20)) by (done || unfold ZT_C25519_SIGNATURE_LEN; lia); reflexivity). cbn beta. change ZT_C25519_SIGNATURE_LEN with 96. rewrite Esig, Hslot. cbn beta iota.
  fold E ctl. rewrite Hctl. cbn [negb]. replace (u32 (p + 17 - start)) with (27 + zlen (pt_data x)) by (rewrite u32_id by (unfold in_range; lia); lia).
  erewrite sm_bind_Ok by (unfold lift; rewrite (read_field_Ok b start) by (done || lia); by rewrite Hsl). cbn beta. rewrite Hver. done.
Qed.

(** ** The slot of an update *)

Definition slot_ok (c : IncomingConfigChunk) : Prop := zlen (ic_haveChunkIds c) = ZT_NETWORK_MAX_UPDATE_CHUNKS /\ zlen (ic_data c) = CAP.

Definition bytes_of (got : list Part) : Z := zlen (mjoin (pt_data <$> got)).
Definition in_place (data : list Z) (x : Part) : Prop := slice (pt_index x) (zlen (pt_data x)) data = pt_data x.

(** The slot has the chunks [got], in the order in which they came. *)
Record has_parts (got : list Part) (haveChunks haveBytes : Z) (c : IncomingConfigChunk) : Prop := {
  hp_slot : slot_ok c;
  hp_count : haveChunks = zlen got;
  hp_bytes : haveBytes = bytes_of got;
  hp_ids : ztake (zlen got) (ic_haveChunkIds c) = (fun x => sig_id (pt_sig x)) <$> got;
  hp_data : Forall (in_place (ic_data c)) got
}.

(** No slot is for the update yet, or just one is. *)
Definition slots_have (got : list Part) (cs : list IncomingConfigChunk) : Prop :=
  cs <> [] /\ Forall slot_ok cs /\
  (got = [] /\ Forall (fun c => ic_updateId c <> updateId) cs \/
   exists i c, cs !! i = Some c /\ ic_updateId c = updateId /\ has_parts got (ic_haveChunks c) (ic_haveBytes c) c /\
     forall j c', cs !! j = Some c' -> ic_updateId c' = updateId -> j = i).

Definition fresh_slot (c : IncomingConfigChunk) : bool := negb (ic_updateId c =? updateId).

Lemma less_used_Some i x c : exists r, less_used i x c = Some r /\ (r = (i, x) \/ c = Some r).
Proof. unfold less_used. destruct c as [[j b]|]; [|eauto]. destruct (_ <? _); eauto. Qed.

Lemma find_slot_none id cs : forall i c, Forall (fun c => ic_updateId c <> updateId) cs -> c <> None \/ cs <> [] ->
  exists r, find_slot updateId id cs i c = (Some r, false) /\ (c = Some r \/ exists j, (j < length cs)%nat /\ r.1 = (i + j)%nat /\ cs !! j = Some r.2).
Proof.
  induction cs as [|x cs IH]; intros i c Hall Hne; cbn [find_slot]; [destruct c as [r|]; [eauto|naive_solver]|]. apply Forall_cons in Hall as [Hx Hall]. rewrite (proj2 (Z.eqb_neq _ _)) by done.
  destruct (less_used_Some i x c) as (r & Er & Hr). rewrite Er. destruct (IH (S i) (Some r) Hall ltac:(by left)) as (r' & E' & [[= <-]|(j & Hj & Hj1 & Hj2)]); exists r' || exists r; (split; [done|]).
  - destruct Hr as [-> |?]; [right; exists 0%nat; cbn; split_and!; [lia|lia|done]|by left].
  - right. exists (S j). cbn. split_and!; [lia|lia|done].
Qed.

Lemma find_slot_here id cs : forall i k x c, cs !! i = Some x -> ic_updateId x = updateId -> (forall j c', cs !! j = Some c' -> ic_updateId c' = updateId -> j = i) ->
  find_slot updateId id cs k c = (Some ((k + i)%nat, x), existsb (Z.eqb id) (ztake (ic_haveChunks x) (ic_haveChunkIds x))).
Proof.
  induction cs as [|y cs IH]; intros i k x c Hi Hx Hu; [done|]. cbn [find_slot]. destruct i as [|i].
  - injection Hi as ->. rewrite (proj2 (Z.eqb_eq _ _)) by done. by rewrite Nat.add_0_r.
  - destruct (Z.eqb_spec (ic_updateId y) updateId) as [Hy|_]; [by specialize (Hu 0%nat y eq_refl Hy)|]. rewrite (IH i (S k) x) by (try done; intros j c' Hj Hc; specialize (Hu (S j) c' Hj Hc); lia).
    do 3 f_equal. lia.
Qed.

(** The slot that a new chunk goes to. *)
Lemma slots_have_find got cs id : slots_have got cs -> id ∉ (fun x => sig_id (pt_sig x)) <$> got ->
  exists i c, find_slot updateId id cs 0 None = (Some (i, c), false) /\ cs !! i = Some c /\
    has_parts got (if fresh_slot c then 0 else ic_haveChunks c) (if fresh_slot c then 0 else ic_haveBytes c) c /\
    (forall j c', cs !! j = Some c' -> ic_updateId c' = updateId -> j = i).
Proof.
  intros (Hne & Hok & [[-> Hall]|(i & c & Hi & Hc & Hp & Hu)]) Hnew; unfold fresh_slot.
  - destruct (find_slot_none id cs 0 None Hall ltac:(by right)) as ([i c] & Ef & [?|(j & Hj & Hj1 & Hj2)]); [done|]. cbn in Hj1, Hj2. subst j. exists i, c. rewrite Forall_forall in Hall.
    pose proof (Hall c (list_elem_of_lookup_2 _ _ _ Hj2)) as Hn. rewrite (proj2 (Z.eqb_neq _ _)) by done. split_and!; [done|done| |].
    + rewrite Forall_forall in Hok. constructor; [by apply Hok, (list_elem_of_lookup_2 _ i)|done|done|done|constructor].
    + intros k c' Hk Hc'. by destruct (Hall c' (list_elem_of_lookup_2 _ _ _ Hk)).
  - exists i, c. rewrite (find_slot_here id cs i 0 c None Hi Hc Hu). rewrite (proj2 (Z.eqb_eq _ _)) by done. cbn [negb]. destruct Hp as [H1 H2 H3 H4 H5]. split_and!; try done.
    do 2 f_equal. apply not_true_is_false. intros (y & Hy & Ey%Z.eqb_eq)%existsb_exists. apply Hnew. rewrite H2, H4 in Hy. subst y. by apply list_elem_of_In.
Qed.

(** ** A chunk in its slot *)

Definition apart (x y : Part) : Prop := pt_index x + zlen (pt_data x) <= pt_index y \/ pt_index y + zlen (pt_data y) <= pt_index x.

Lemma slice_written (l d r : list Z) off : mem_write l off d = Ok r -> slice off (zlen d) r = d.
Proof.
  intros Hm. pose proof (mem_write_inv _ _ _ _ Hm) as (H1 & H2 & _). pose proof (zlen_mem_write _ _ _ _ Hm). pose proof (zlen_nonneg d).
  assert (Hz : zlen (slice off (zlen d) r) = zlen d) by (apply zlen_slice; lia). apply zget_ext; [done|]. intros i Hi. rewrite Hz in Hi. rewrite zget_slice, (zget_mem_write _ _ _ _ _ Hm) by lia.
  rewrite (proj2 (Z.leb_le _ _)), (proj2 (Z.ltb_lt _ _)) by lia. cbn [andb]. f_equal. lia.
Qed.

Lemma slice_unwritten (l d r : list Z) off i n : mem_write l off d = Ok r -> 0 <= i -> i + n <= off \/ off + zlen d <= i -> slice i n r = slice i n l.
Proof.
  intros Hm Hi Ha. pose proof (zlen_mem_write _ _ _ _ Hm) as Hz. unfold slice, ztake, zdrop. apply list_eq. intros k. destruct (decide (k < Z.to_nat n)%nat) as [Hk|]; [|by rewrite !lookup_take_ge by lia].
  rewrite !lookup_take_lt, !lookup_drop by lia. pose proof (zget_mem_write _ _ _ _ (i + Z.of_nat k) Hm) as Hg. unfold zget in Hg. rewrite (proj2 (Z.leb_le 0 (i + Z.of_nat k))) in Hg by lia.
  replace (Z.to_nat (i + Z.of_nat k)) with (Z.to_nat i + k)%nat in Hg by lia. rewrite Hg. destruct (Z.leb_spec off (i + Z.of_nat k)), (Z.ltb_spec (i + Z.of_nat k) (off + zlen d)); cbn [andb]; try done. lia.
Qed.

Lemma in_place_write data x data' : mem_write data (pt_index x) (pt_data x) = Ok data' -> in_place data' x /\ (forall y, 0 <= pt_index y -> apart x y -> in_place data y -> in_place data' y).
Proof. intros Hm. split; [by eapply slice_written|]. intros y Hy Ha Hp. unfold in_place in *. rewrite <- Hp at 2. eapply slice_unwritten; [exact Hm|done|]. destruct Ha; [right; lia|left; lia]. Qed.

Lemma bytes_snoc got x : bytes_of (got ++ [x]) = bytes_of got + zlen (pt_data x).
Proof. unfold bytes_of. rewrite fmap_app, join_app, zlen_app. cbn. by rewrite app_nil_r. Qed.

Lemma has_parts_snoc got n m ts c x ids data : has_parts got n m c -> mem_write (ic_haveChunkIds c) n [sig_id (pt_sig x)] = Ok ids -> zlen data = CAP -> Forall (in_place data) (got ++ [x]) ->
  has_parts (got ++ [x]) (n + 1) (bytes_of (got ++ [x])) (mkChunk ts updateId ids (n + 1) (bytes_of (got ++ [x])) data).
Proof.
  intros [[Hc1 Hc2] -> -> Hids Hdata] Hw Hz Hp. pose proof (mem_write_inv _ _ _ _ Hw) as (_ & Hlt & ->). change (zlen [sig_id (pt_sig x)]) with 1 in *. pose proof (zlen_mem_write _ _ _ _ Hw) as Hzi.
  constructor; cbn [ic_haveChunkIds ic_data ic_haveChunks ic_haveBytes]; try done.
  - split; [|done]. cbn [ic_haveChunkIds]. by rewrite Hzi.
  - by rewrite zlen_app.
  - rewrite zlen_app, app_assoc. change (zlen [x]) with 1. rewrite ztake_app_exact by (rewrite zlen_app, zlen_ztake by (pose proof (zlen_nonneg got); lia); done). by rewrite Hids, fmap_app.
Qed.

Lemma accept_chunk_runs s got i c x (Q : NetworkConfig -> Prop) :
  let cs := nt_incomingConfigChunks (ns_network s) in
  cs !! i = Some c -> Forall slot_ok cs -> (forall j c', cs !! j = Some c' -> ic_updateId c' = updateId -> j = i) ->
  has_parts got (if fresh_slot c then 0 else ic_haveChunks c) (if fresh_slot c then 0 else ic_haveBytes c) c ->
  part_ok total x -> Forall (fun y => 0 <= pt_index y /\ pt_index y + zlen (pt_data y) <= total) got -> Forall (apart x) got -> zlen got < ZT_NETWORK_MAX_UPDATE_CHUNKS -> bytes_of (got ++ [x]) <= total ->
  (bytes_of (got ++ [x]) = total -> forall data, zlen data = CAP -> Forall (in_place data) (got ++ [x]) -> zget data total = Some 0 ->
     exists nc, NetworkConfig_fromDictionary CAP (ue_legacy U) data (ue_tmp U) = Ok (Some nc) /\ Q nc) ->
  runs (accept_chunk U (mkPiece i c updateId (sig_id (pt_sig x)) total (pt_index x)) (pt_data x)) s (fun s' r => exists cs',
    s' = mkNetState (with_chunks (ns_network s) cs') (ns_prng s) (ns_log s) /\ slots_have (got ++ [x]) cs' /\
    if bytes_of (got ++ [x]) =? total then exists nc, r = Some nc /\ Q nc else r = None).
Proof.
  intros cs Hi Hok Hu Hp Hx Hgot Hap Hn Hle Hread. unfold accept_chunk. cbn [pc_chunk pc_slot pc_updateId pc_chunkId pc_totalLength pc_chunkIndex]. fold (fresh_slot c).
  set (n := if fresh_slot c then 0 else ic_haveChunks c) in *. set (m := if fresh_slot c then 0 else ic_haveBytes c) in *. destruct Hx as [_ [Hx1 Hx2] _]. pose proof CAP_value.
  pose proof (hp_slot _ _ _ _ Hp) as [Hids Hdata]. pose proof (hp_count _ _ _ _ Hp) as En. pose proof (hp_bytes _ _ _ _ Hp) as Em. pose proof (zlen_nonneg got). pose proof (zlen_nonneg (pt_data x)).
  eapply runs_step; [reflexivity|]. rewrite (proj2 (Z.leb_gt _ _)) by lia.
  assert (Hw1 : exists ids, mem_write (ic_haveChunkIds c) n [sig_id (pt_sig x)] = Ok ids) by (eexists; apply mem_write_Ok; [lia|change (zlen [sig_id (pt_sig x)]) with 1; lia]).
  assert (Hw2 : exists data, mem_write (ic_data c) (pt_index x) (pt_data x) = Ok data) by (eexists; apply mem_write_Ok; lia).
  destruct Hw1 as [ids Hw1], Hw2 as [data Hw2]. eapply runs_lift_bind; [exact Hw1|]. eapply runs_lift_bind; [exact Hw2|]. destruct (in_place_write _ _ _ Hw2) as [Hpx Hpy]. pose proof (zlen_mem_write _ _ _ _ Hw2) as Hzd.
  assert (0 <= bytes_of got) by apply zlen_nonneg. pose proof (bytes_snoc got x) as Eb. rewrite (ulong_id (m + zlen (pt_data x))) by lia. replace (m + zlen (pt_data x)) with (bytes_of (got ++ [x])) by lia.
  assert (Hin : Forall (fun y => 0 <= pt_index y /\ pt_index y + zlen (pt_data y) <= total) (got ++ [x])) by (apply Forall_app_2; [done|by repeat constructor]).
  assert (Hall : Forall (in_place data) (got ++ [x])).
  { apply Forall_app_2; [|by repeat constructor]. pose proof (hp_data _ _ _ _ Hp) as Hd. rewrite Forall_forall in *. intros y Hy. apply Hpy; [by apply Hgot|by apply Hap|by apply Hd]. }
  set (ts := u64 (ic_ts c + 1)).
  assert (Hslots : forall c0 c', ic_updateId c' = updateId -> has_parts (got ++ [x]) (ic_haveChunks c') (ic_haveBytes c') c' -> slots_have (got ++ [x]) (<[i := c']> (<[i := c0]> cs))).
  { intros c0 c' Hc' Hp'. pose proof (lookup_lt_Some _ _ _ Hi) as Hlt. rewrite list_insert_insert_eq. split; [intros Hnil; apply (f_equal length) in Hnil; rewrite length_insert in Hnil; cbn in Hnil; lia|].
    split; [by apply Forall_insert; [|apply Hp']|]. right. exists i, c'. rewrite list_lookup_insert_eq by done. split_and!; try done. intros j c1 Hj Hc1. destruct (decide (j = i)) as [|Hne]; [done|].
    rewrite list_lookup_insert_ne in Hj by done. by eapply Hu. }
  destruct (Z.eqb_spec (bytes_of (got ++ [x])) total) as [Et|Et].
  - destruct (mem_write_one data total 0 ltac:(lia)) as (data' & Hw3 & Hz3 & _). rewrite Et. eapply runs_lift_bind; [exact Hw3|]. eapply runs_step; [reflexivity|].
    assert (Hall' : Forall (in_place data') (got ++ [x])).
    { rewrite Forall_forall in Hall |- *. intros y Hy. specialize (Hall y Hy). unfold in_place in *. rewrite <- Hall at 2. eapply slice_unwritten; [exact Hw3|..]; rewrite Forall_forall in Hin; destruct (Hin y Hy); [done|by left]. }
    destruct (Hread Et data' ltac:(lia) Hall') as (nc & Enc & HQ); [by rewrite (zget_mem_write _ _ _ _ total Hw3), Z.leb_refl, (proj2 (Z.ltb_lt _ _)), Z.sub_diag by (change (zlen [0]) with 1; lia)|].
    exists (mkNetState (with_chunks (ns_network s) (<[i := mkChunk ts updateId ids (n + 1) total data']> (<[i := mkChunk ts updateId (ic_haveChunkIds c) n m (ic_data c)]> cs))) (ns_prng s) (ns_log s)), (Some nc).
    split; [unfold catch_with, lift; by rewrite Enc|]. eexists. split; [done|]. split; [|by exists nc]. apply Hslots; [done|]. cbn [ic_haveChunks ic_haveBytes]. rewrite <- Et. eapply has_parts_snoc; [done|done|lia|done].
  - eapply runs_step; [reflexivity|]. apply runs_ret. eexists. split; [done|]. split; [|done]. apply Hslots; [done|]. eapply has_parts_snoc; [done|done|lia|done].
Qed.

(** ** A chunk that arrives *)

Definition with_slots (s : NetState) (cs : list IncomingConfigChunk) : NetState := mkNetState (with_chunks (ns_network s) cs) (ns_prng s) (ns_log s).

(** The controller has signed the chunk. *)
Definition signed_part (n : Network) (x : Part) : Prop :=
  let ctl := en_getIdentity E (controller n) in Identity_bool ctl = true /\ Identity_verify ctl (chunk_body nwid updateId total x) (pt_sig x) 96 = true.

Lemma read_chunk b start x : arrives b start nwid updateId total x -> part_checked x ->
  Buffer_at b 2 (u32 (start + 8)) = Ok (zlen (pt_data x)) /\ Buffer_read_field b (u32 (u32 (start + 8) + 2)) (zlen (pt_data x)) = Ok (pt_data x) /\
  u32 (u32 (start + 8) + 2 + zlen (pt_data x)) = start + 10 + zlen (pt_data x) /\ start + 10 + zlen (pt_data x) < b_len b.
Proof.
  intros [Hb Hh Hl] [Hk1 Hk2 Hk3 Hk4]. pose proof PC_value. pose proof Hb as [_ _ HbC _]. pose proof (zlen_nonneg (pt_data x)). pose proof (proj1 Hh) as Hs0. unfold chunk_enc in Hh, Hl. rewrite !zlen_app, zlen_body, !zlen_be_bytes, Hk4 in Hl.
  apply has_at_app in Hh as [Hh _]. unfold chunk_body in Hh. destruct (read_int PC b Hb _ 8 nwid _ Hnwid Hh) as (_ & E1 & H1). change (Z.of_nat 8) with 8 in *.
  destruct (read_int PC b Hb _ 2 (zlen (pt_data x)) _ ltac:(unfold in_range; change (8 * Z.of_nat 2) with 16; lia) H1) as (E2 & E3 & H2). change (Z.of_nat 2) with 2 in *. rewrite E1, E3. replace (start + 8 + 2) with (start + 10) in * by lia.
  apply has_at_app in H2 as [H2 _]. destruct (has_at_slice PC b Hb _ _ H2) as [E4 Hle]. split; [done|]. split; [rewrite (read_field_Ok b) by (done || lia); by rewrite E4|]. split; [apply u32_id; unfold in_range; lia|lia].
Qed.

Section Handle.
Context (N : Z) (HN : N < 2 ^ 59) (Htmp : buf_wf CAP (ue_tmp U)) (Q : NetworkConfig -> Prop) (HQ : forall nc, Q nc -> storable nc).

Lemma handle_chunk_runs s got x packetId source b start :
  nt_destroyed (ns_network s) = false -> table_ok N (members s) -> slots_have got (nt_incomingConfigChunks (ns_network s)) -> arrives b start nwid updateId total x -> signed_part (ns_network s) x ->
  sig_id (pt_sig x) ∉ (fun x => sig_id (pt_sig x)) <$> got -> Forall (part_ok total) (x :: got) -> Forall (apart x) got -> zlen got < ZT_NETWORK_MAX_UPDATE_CHUNKS -> bytes_of (got ++ [x]) <= total ->
  (bytes_of (got ++ [x]) = total -> forall data, zlen data = CAP -> Forall (in_place data) (got ++ [x]) -> zget data total = Some 0 ->
     exists nc, NetworkConfig_fromDictionary CAP (ue_legacy U) data (ue_tmp U) = Ok (Some nc) /\ Q nc) ->
  runs (handleConfigChunk U packetId source b start) s (fun s' r => exists cs', slots_have (got ++ [x]) cs' /\
    if bytes_of (got ++ [x]) =? total then r = updateId /\ exists nc k, Q nc /\ config_taken U N (with_slots s cs') s' nc true k else r = 0 /\ s' = with_slots s cs').
Proof.
  intros Hd Ht Hs Ha [Hc1 Hc2] Hnew [Hx Hgot]%Forall_cons Hap Hn Hle Hread. pose proof (part_ok_checked x Hx) as Hxc. destruct (read_chunk b start x Ha Hxc) as (E1 & E2 & E3 & Hlt). unfold handleConfigChunk. apply get_network_runs. rewrite Hd.
  eapply runs_lift_bind; [exact E1|]. eapply runs_lift_bind; [exact E2|]. rewrite E3, (proj2 (Z.ltb_lt _ _)) by lia. destruct (slots_have_find got _ _ Hs Hnew) as (i & c & Ef & Hi & Hp & Hu).
  eapply runs_step; [by eapply signed_chunk_Ok|]. cbn beta iota. destruct Hs as (_ & Hok & _).
  eapply runs_bind; [apply (accept_chunk_runs s got i c x Q Hi Hok Hu Hp Hx); try done; eapply Forall_impl; [exact Hgot|]; intros y Hy; apply Hy|].
  intros s1 r (cs' & -> & Hs' & Hr). destruct (_ =? _).
  - destruct Hr as (nc & -> & Hnc). eapply runs_bind; [apply (setConfiguration_runs U N); [exact Ht|done|intros _; split; [done|by apply HQ]]|]. intros s2 k Hk. apply runs_ret. exists cs'. split; [done|]. split; [done|].
    by exists nc, k.
  - subst r. apply runs_ret. by exists cs'.
Qed.

(** ** The chunks in any order *)

(** The parts of a text, one after the other from [start] on. *)
Fixpoint cut (start : Z) (ps : list Part) : Prop :=
  match ps with [] => True | x :: ps => pt_index x = start /\ pt_data x <> [] /\ cut (start + zlen (pt_data x)) ps end.
Definition text_of (ps : list Part) : list Z := mjoin (pt_data <$> ps).

Lemma bytes_cons x ps : bytes_of (x :: ps) = zlen (pt_data x) + bytes_of ps.
Proof. unfold bytes_of. change (mjoin (pt_data <$> x :: ps)) with (pt_data x ++ mjoin (pt_data <$> ps)). apply zlen_app. Qed.

Lemma cut_range ps : forall start x, cut start ps -> x ∈ ps -> start <= pt_index x /\ pt_index x + zlen (pt_data x) <= start + bytes_of ps.
Proof.
  induction ps as [|y ps IH]; intros start x Hc Hx; [by apply not_elem_of_nil in Hx|]. destruct Hc as (H1 & H2 & H3). rewrite bytes_cons. pose proof (zlen_nonneg (pt_data y)). assert (0 <= bytes_of ps) by apply zlen_nonneg.
  apply elem_of_cons in Hx as [-> |Hx]; [lia|]. destruct (IH _ _ H3 Hx). lia.
Qed.

Lemma cut_apart ps : forall start x y, cut start ps -> x ∈ ps -> y ∈ ps -> x <> y -> apart x y.
Proof.
  induction ps as [|z ps IH]; intros start x y Hc Hx Hy Hne; [by apply not_elem_of_nil in Hx|]. destruct Hc as (H1 & H2 & H3). unfold apart.
  apply elem_of_cons in Hx, Hy. destruct Hx as [-> |Hx], Hy as [-> |Hy]; [done|left; destruct (cut_range _ _ _ H3 Hy); lia|right; destruct (cut_range _ _ _ H3 Hx); lia|]. by apply (IH _ x y H3).
Qed.

Lemma cut_text data ps : forall start, 0 <= start -> cut start ps -> Forall (in_place data) ps -> slice start (bytes_of ps) data = text_of ps.
Proof.
  induction ps as [|x ps IH]; intros start Hs Hc Hp; [done|]. destruct Hc as (H1 & H2 & H3). apply Forall_cons in Hp as [Hx Hp]. rewrite bytes_cons. pose proof (zlen_nonneg (pt_data x)). assert (0 <= bytes_of ps) by apply zlen_nonneg.
  rewrite (slice_split start (zlen (pt_data x))) by lia. unfold in_place in Hx. rewrite H1 in Hx. rewrite Hx. change (text_of (x :: ps)) with (pt_data x ++ text_of ps). f_equal. rewrite <- (IH (start + zlen (pt_data x))) by (lia || done). f_equal. lia.
Qed.

Lemma cut_pos ps : forall start, cut start ps -> Forall (fun x => 0 < zlen (pt_data x)) ps.
Proof.
  induction ps as [|x ps IH]; intros start Hc; constructor; destruct Hc as (H1 & H2 & H3); [|by eapply IH]. unfold zlen. destruct (pt_data x); [done|]. cbn [length]. lia.
Qed.

Lemma cut_NoDup ps : forall start, cut start ps -> NoDup ps.
Proof.
  induction ps as [|x ps IH]; intros start Hc; [constructor|]. pose proof (cut_pos _ _ Hc) as Hp. apply Forall_cons in Hp as [Hx _]. destruct Hc as (H1 & H2 & H3). constructor; [|by eapply IH].
  intros Hin. destruct (cut_range _ _ _ H3 Hin). lia.
Qed.

Lemma bytes_perm xs ys : xs ≡ₚ ys -> bytes_of xs = bytes_of ys.
Proof. intros H. unfold bytes_of, zlen. f_equal. apply Permutation_length. by apply join_perm. Qed.

(** A packet that arrives: its ID, its source, its bytes and where the chunk is in them. *)
Record Delivery : Type := mkDelivery { dl_packetId : Z; dl_source : Z; dl_packet : Buffer; dl_start : Z }.

Fixpoint deliver (ds : list Delivery) : NM (list Z) :=
  match ds with
  | [] => mret []
  | d :: ds =>
      r ← handleConfigChunk U (dl_packetId d) (dl_source d) (dl_packet d) (dl_start d);
      rs ← deliver ds;
      mret (r :: rs)
  end.

(** The parts [ps] of a text; in whatever order they come, the text is read when all are there. *)
Context (ps : list Part) (Hcut : cut 0 ps) (Hbytes : bytes_of ps = total) (Hps : Forall (part_ok total) ps) (Hcount : zlen ps <= ZT_NETWORK_MAX_UPDATE_CHUNKS).
Context (Hsigs : NoDup ((fun x => sig_id (pt_sig x)) <$> ps)).
Context (Hread : forall data, zlen data = CAP -> ztake total data = text_of ps -> zget data total = Some 0 ->
  exists nc, NetworkConfig_fromDictionary CAP (ue_legacy U) data (ue_tmp U) = Ok (Some nc) /\ Q nc).

Lemma deliver_runs rest : forall ds got s, rest <> [] -> got ++ rest ≡ₚ ps -> Forall2 (fun d x => arrives (dl_packet d) (dl_start d) nwid updateId total x) ds rest ->
  nt_destroyed (ns_network s) = false -> table_ok N (members s) -> slots_have got (nt_incomingConfigChunks (ns_network s)) -> Forall (signed_part (ns_network s)) rest ->
  runs (deliver ds) s (fun s' rs => rs = replicate (pred (length rest)) 0 ++ [updateId] /\ exists cs' nc k, Q nc /\ config_taken U N (with_slots s cs') s' nc true k).
Proof.
  induction rest as [|x rest IH]; intros ds got s Hne Hperm Hds Hd Ht Hs Hsig; [done|]. apply Forall2_cons_inv_r in Hds as (d & ds' & Ha & Hds & ->). apply Forall_cons in Hsig as [Hx Hsig].
  assert (Hin : forall y, y ∈ got ++ x :: rest -> y ∈ ps) by (intros y; by rewrite Hperm). assert (Hnd : NoDup (got ++ x :: rest)) by (rewrite Hperm; by eapply cut_NoDup).
  assert (Hnd' : NoDup ((fun x => sig_id (pt_sig x)) <$> got ++ x :: rest)) by (by rewrite Hperm). rewrite fmap_app, fmap_cons in Hnd'. apply NoDup_app in Hnd' as (_ & Hnd' & _).
  assert (Hok : Forall (part_ok total) (got ++ x :: rest)) by (by rewrite Hperm). apply Forall_app in Hok as [Hokg Hok]. apply Forall_cons in Hok as [Hokx _].
  assert (Hposr : Forall (fun x => 0 < zlen (pt_data x)) (got ++ x :: rest)) by (rewrite Hperm; by eapply cut_pos). apply Forall_app in Hposr as [_ Hposr]. apply Forall_cons in Hposr as [_ Hposr].
  assert (Hap : Forall (apart x) got).
  { apply Forall_forall. intros y Hy. apply (cut_apart ps 0 x y Hcut); [apply Hin; set_solver|apply Hin; set_solver|]. intros ->. apply NoDup_app in Hnd as (_ & Hnd & _). by apply (Hnd y Hy); left. }
  assert (Hb : bytes_of (got ++ [x]) + bytes_of rest = total).
  { rewrite <- Hbytes, <- (bytes_perm _ _ Hperm), bytes_snoc. unfold bytes_of. rewrite fmap_app, fmap_cons, join_app, zlen_app. change (mjoin (pt_data x :: ?l)) with (pt_data x ++ mjoin l). rewrite zlen_app. lia. }
  assert (0 <= bytes_of rest) by apply zlen_nonneg.
  assert (Hlen : zlen (got ++ x :: rest) <= ZT_NETWORK_MAX_UPDATE_CHUNKS) by (unfold zlen in *; by rewrite Hperm). rewrite zlen_app in Hlen. assert (0 < zlen (x :: rest)) by (unfold zlen; cbn [length]; lia).
  cbn [deliver]. eapply runs_bind; [apply (handle_chunk_runs s got x); try done; try lia|].
  - intros Hg. by apply list_elem_of_fmap in Hg as (y & Ey & Hy); apply (Hnd' (sig_id (pt_sig y))); [apply list_elem_of_fmap; by exists y|rewrite <- Ey; left].
  - by constructor.
  - intros Et data Hz Hp Hz0. assert (Hr0 : rest = []).
    { destruct rest as [|y rest']; [done|]. apply Forall_cons in Hposr as [Hy _]. rewrite bytes_cons in Hb. assert (0 <= bytes_of rest') by apply zlen_nonneg. lia. }
    subst rest. apply Hread; [done| |done]. rewrite Hperm in Hp. rewrite <- (cut_text data ps 0 ltac:(lia) Hcut Hp), Hbytes. by rewrite slice_0.
  - intros s1 r (cs1 & Hs1 & Hr). destruct rest as [|y rest'].
    + assert (Et : bytes_of (got ++ [x]) = total) by (change (bytes_of []) with 0 in Hb; lia). rewrite (proj2 (Z.eqb_eq _ _)) in Hr by done. destruct Hr as (-> & nc & k & Hnc & Hk). inversion Hds; subst.
      eapply runs_step; [reflexivity|]. apply runs_ret. split; [done|]. by exists cs1, nc, k.
    + apply Forall_cons in Hposr as [Hy _]. rewrite bytes_cons in Hb. assert (0 <= bytes_of rest') by apply zlen_nonneg. rewrite (proj2 (Z.eqb_neq _ _)) in Hr by lia. destruct Hr as [-> ->].
      eapply runs_bind; [apply (IH ds' (got ++ [x]) (with_slots s cs1)); try done; by rewrite <- app_assoc|]. intros s2 rs (-> & cs2 & nc & k & Hnc & Hk). apply runs_ret. split; [done|]. by exists cs2, nc, k.
Qed.
End Handle.
End Receive.

(** ** The configuration in the text *)

Lemma dict_text_nonempty kvs : kvs <> [] -> dict_text kvs <> [].
Proof.
  destruct kvs as [|[k v] kvs _] using rev_ind; [done|]. intros _ Hn. apply (f_equal length) in Hn. rewrite dict_text_snoc in Hn. unfold entry_text in Hn. rewrite !length_app in Hn. cbn in Hn. lia.
Qed.

Lemma dict_text_bytes kvs : Forall (fun kv => Forall is_byte kv.1) kvs -> Forall (fun kv => Forall is_byte kv.2) kvs -> Forall is_byte (dict_text kvs).
Proof.
  induction kvs as [|[k v] kvs IH] using rev_ind; intros Hk Hv; [constructor|]. apply Forall_app in Hk as [Hk1 Hk2], Hv as [Hv1 Hv2]. apply Forall_cons in Hk2 as [Hk2 _], Hv2 as [Hv2 _].
  rewrite dict_text_snoc. unfold entry_text. apply Forall_app_2; [by apply IH|]. apply Forall_app_2; [destruct (dict_text kvs); by repeat constructor|]. apply Forall_app_2; [done|]. apply Forall_cons_2; [done|].
  cbn [fst snd] in Hk2, Hv2. induction Hv2 as [|c v' Hc _ IHv]; [constructor|]. cbn [flat_map]. apply Forall_app_2; [|exact IHv]. unfold escape_char. repeat destruct (_ =? _); repeat (apply Forall_cons_2; [done|]); apply Forall_nil_2.
Qed.

Lemma nc_entries_keys nc : Forall (fun kv => Forall is_byte kv.1) (nc_entries nc).
Proof.
  assert (Ho : forall k b, Forall is_byte k -> Forall (fun kv => Forall is_byte kv.1) (opt_entry k b)) by (intros k b Hk; destruct b; by repeat constructor).
  apply Forall_app_2; [|unfold blob_entries; repeat (apply Forall_app_2; [|]); try apply Forall_nil_2; try apply Ho]; [|destruct (COM_bool _); [|constructor]|..]; repeat (apply Forall_cons_2; [|]); try apply Forall_nil_2; done.
Qed.

Lemma reads_config legacy tmp nc data : storable nc -> nc_sizes nc -> zlen (nc_tags nc) <= ZT_MAX_NETWORK_TAGS -> buf_wf CAP tmp ->
  zlen data = CAP -> ztake (zlen (dict_text (nc_entries nc))) data = dict_text (nc_entries nc) -> zget data (zlen (dict_text (nc_entries nc))) = Some 0 ->
  exists nc', NetworkConfig_fromDictionary CAP legacy data tmp = Ok (Some nc') /\ nc_same nc nc' /\ storable nc'.
Proof.
  intros Hs Hsz Htags Ht Hz Htext Hend. pose proof Hs as [Hw Hl]. assert (HC : CAP + 96 < 2 ^ 32) by (by rewrite CAP_value). set (text := dict_text (nc_entries nc)) in *.
  destruct (toDictionary_holds CAP HC (fun _ => []) nc tmp Hw Ht Hl) as (d & _ & [_ Hd2 Hd3 Hd4]).
  assert (Hsplit : exists rest, data = text ++ 0 :: rest).
  { rewrite <- (ztake_zdrop (zlen text) data), Htext. pose proof (zlen_nonneg text). destruct (zdrop (zlen text) data) as [|c rest] eqn:Ed.
    - apply (f_equal zlen) in Ed. rewrite zlen_zdrop in Ed by lia. change (zlen []) with 0 in Ed. lia.
    - exists rest. replace c with 0; [done|]. pose proof (zget_zdrop (zlen text) data 0 ltac:(lia) ltac:(lia)) as Hg. rewrite Ed, Z.add_0_r, Hend in Hg. by injection Hg as <-. }
  destruct Hsplit as [rest Er]. assert (Hh : Dictionary.holds CAP data (nc_entries nc)).
  { constructor; [split; [done|rewrite Er; set_solver]| |done|done]. rewrite Er. apply cstr_ends. unfold text. rewrite <- Hd2. apply cstr_nonzero. }
  pose proof (fromDictionary_spec CAP HC data nc Hh Hw legacy tmp Hsz Ht) as H. rewrite (proj2 (Z.leb_le _ _)) in H by done. destruct H as (nc' & E1 & E2 & E3). exists nc'. split_and!; [done|done|by eapply nc_same_storable].
Qed.

(** ** A node that joins a network *)

Definition sample_tmp : Buffer := Buffer_new (replicate (Z.to_nat CAP) 0).
Definition sample_node_env (self : Z) : NodeEnv := mkEnv self 100000 zero_memory (fun _ => true) (fun _ => Samples.signer) (fun _ => false) [] (fun _ _ => 0) (fun _ _ => false).
Definition sample_update_on (bits self : Z) : UpdateEnv := mkUpdateEnv (sample_node_env self) bits (fun _ _ => Ok None) (fun _ => []) sample_tmp (replicate 24 0) None false.
Definition sample_update_env : Z -> UpdateEnv := sample_update_on 64.
Definition joining : NetState := mkNetState (blank_network (sample_update_env 0x99) 0x1122334455667788) (1, 2) [].

Lemma sample_tmp_ok : buf_wf CAP sample_tmp.
Proof.
  pose proof CAP_value. constructor; cbn [sample_tmp Buffer_new b_mem b_len]; [apply zlen_replicate_Z; lia|by apply Forall_replicate|lia|lia].
Qed.

Lemma blank_chunk_ok : slot_ok IncomingConfigChunk_new.
Proof. split; cbn [IncomingConfigChunk_new ic_haveChunkIds ic_data]; apply zlen_replicate_Z; [done|by rewrite CAP_value]. Qed.

Lemma blank_table_ok {K V} `{Countable K} `{HashCode K} : table_ok 0 (mkHashtable (replicate 64 []) 64 0 : Hashtable K V).
Proof. destruct (Hashtable_new_spec (K := K) (V := V) 64) as (h & [= <-] & Hw & _ & Hs); [lia|]. split; [done|cbn; lia]. Qed.
