(* ===== verification/ConfigSafety.v ===== *)
(** What handleConfigChunk of node/Network.cpp does with chunks that are not what a controller
    sends: chunks that it did not sign, and chunks that it signed with an index near 2^32. *)
From stdpp Require Import gmap.
From S2P Require Import Prelude.
From S2P Require Import Utils.
From S2P Require Import Buffer.
From S2P Require Import Addressing.
From S2P Require Import Wire.
From S2P Require Import Rules.
From S2P Require Import CLib.
From S2P Require Import Dictionary.
From S2P Require Import InetAddress.
From S2P Require Import Hashtable.
From S2P Require Import C25519Api.
From S2P Require Import Identity.
From S2P Require Import CertificateOfMembership.
From S2P Require Import Credentials.
From S2P Require Import Capability.
From S2P Require Import NetworkConfig.
From S2P Require Import NetworkConfigDict.
From S2P Require Import Membership.
From S2P Require Import NetworkFilter.
From S2P Require Import Packet.
From S2P Require Import Compression.
From S2P Require Import Switch.
From S2P Require Import Fragmentation.
From S2P Require Import PushCredentials.
From S2P Require Import NetworkState.
From S2P Require Import NetworkSafety.
From S2P Require Import NetworkUpdates.
From S2P Require Import ConfigUpdates.
From S2P Require Import ConfigChunks.

Section Authentic.
Context `{Ops : C25519Ops} (U : UpdateEnv) (b : Buffer) (start : Z) (Hb : buf_wf PC b) (Hstart : 0 <= start <= PC).
Let E := ue_node U.

(** The signature that follows the first [len] bytes of the chunk is the controller's. *)
Definition verified (n : Network) (len : Z) : Prop :=
  Identity_verify (en_getIdentity E (controller n)) (slice start len (buf_data b)) (slice (start + len + 3) 96 (buf_data b)) 96 = true.

(** The length of what is signed: the ID of the network, the length of the text, the text, the
    flags, the ID of the update, the total length and the position. *)
Definition signed_length : Z := 27 + be_val (slice (start + 8) 2 (buf_data b)).

Lemma lift_bind_inv {A B} (o : outcome A) (k : A -> NM B) s s' r : (lift o ≫= k) s = (s', r) -> (exists a, o = Ok a /\ k a s = (s', r)) \/ s' = s /\ forall x, r <> Ok x.
Proof. unfold mbind, sm_bind, lift. destruct o as [a| |]; [eauto|intros [= <- <-]; by right..]. Qed.

Lemma read_field_inv i l d : 0 <= i -> 0 <= l -> i + l < 2 ^ 32 -> Buffer_read_field b i l = Ok d -> d = slice i l (buf_data b).
Proof.
  intros Hi Hl Hlt Hr. destruct (decide (i + l <= b_len b)) as [Hle|Hgt]; [rewrite (read_field_Ok b) in Hr by done; by injection Hr|].
  unfold Buffer_read_field, Buffer_field, bounds_check in Hr. rewrite u32_id, (proj2 (Z.ltb_lt _ _)) in Hr by (unfold in_range; lia). done.
Qed.

(** A chunk is kept only when the controller has signed it. *)
Lemma signed_chunk_inv source p len s s' r : start <= p <= PC -> signed_chunk U source b start p len s = (s', r) -> (s' = s /\ forall pc, r <> Ok (Some pc)) \/ verified (ns_network s) (p + 17 - start).
Proof.
  intros Hp Hr. pose proof PC_value as HPC. assert (Hu : forall k, 0 <= k <= 200 -> u32 (p + k) = p + k) by (intros k Hk; apply u32_id; unfold in_range; lia).
  assert (Hstop : forall (x : option Piece), x = None -> (mret x : NM (option Piece)) s = (s', r) -> s' = s /\ forall pc, r <> Ok (Some pc)) by (intros x -> [= <- <-]; done).
  assert (Hbad : s' = s /\ (forall x, r <> Ok x) -> s' = s /\ forall pc, r <> Ok (Some pc)) by (intros [H1 H2]; split; [done|intros pc; apply H2]).
  unfold signed_chunk in Hr. change (get_network ≫= ?k) with (fun s : NetState => k (ns_network s) s) in Hr. cbn beta in Hr.
  apply lift_bind_inv in Hr as [(flags & _ & Hr)|Hr]; [|auto]. rewrite !Hu in Hr by lia. apply lift_bind_inv in Hr as [(id & _ & Hr)|Hr]; [|auto].
  apply lift_bind_inv in Hr as [(total & _ & Hr)|Hr]; [|auto]. apply lift_bind_inv in Hr as [(index & _ & Hr)|Hr]; [|auto]. cbn zeta in Hr. rewrite <- !Z.add_assoc, !Hu in Hr by lia.
  destruct (_ || _); [left; by eapply Hstop|]. apply lift_bind_inv in Hr as [(version & _ & Hr)|Hr]; [|auto]. destruct (negb (version =? 1)); [left; by eapply Hstop|].
  apply lift_bind_inv in Hr as [(sigLen & _ & Hr)|Hr]; [|auto]. destruct (negb (sigLen =? _)); [left; by eapply Hstop|]. apply lift_bind_inv in Hr as [(sig & Hsig & Hr)|Hr]; [|auto].
  destruct (find_slot _ _ _ _ _) as [[[i c]|] []]; [left; by eapply Hstop| |left; by eapply Hstop|left; injection Hr as <- <-; done].
  destruct (negb (Identity_bool _)); [left; by eapply Hstop|]. apply lift_bind_inv in Hr as [(body & Hbody & Hr)|Hr]; [|auto]. destruct (Identity_verify _ body sig _) eqn:Ev; [|left; by eapply Hstop]. right.
  rewrite u32_id in Hbody by (unfold in_range; lia). apply read_field_inv in Hsig; [|unfold ZT_C25519_SIGNATURE_LEN; lia..]. apply read_field_inv in Hbody; [|lia..].
  unfold verified. replace (start + (p + 17 - start) + 3) with (p + (17 + 3)) by lia. rewrite <- Hbody. change 96 with ZT_C25519_SIGNATURE_LEN at 1. by rewrite <- Hsig.
Qed.

(** The packet ends where the text ends: no ID, no position and no signature follow. *)
Definition unsigned_chunk : Prop := b_len b <= start + signed_length - 17.

Lemma handle_chunk_inv packetId source s s' r : handleConfigChunk U packetId source b start s = (s', r) ->
  s' = s \/ verified (ns_network s) signed_length \/ unsigned_chunk /\ (source = controller (ns_network s) \/ source = 0).
Proof.
  intros Hr. pose proof PC_value as HPC. unfold handleConfigChunk in Hr. change (get_network ≫= ?k) with (fun s : NetState => k (ns_network s) s) in Hr. cbn beta in Hr.
  destruct (nt_destroyed (ns_network s)); [left; by injection Hr|]. cbn zeta in Hr. rewrite (u32_id (start + 8)) in Hr by (unfold in_range; lia).
  apply lift_bind_inv in Hr as [(len & Hlen & Hr)|[? _]]; [|by left]. apply lift_bind_inv in Hr as [(data & Hdata & Hr)|[? _]]; [|by left].
  assert (Hl : 0 <= len < 2 ^ 16).
  { pose proof (sane_at (C := PC) b 2 (start + 8) Hb ltac:(lia)) as Hs. by rewrite Hlen in Hs. }
  assert (Hlv : signed_length = 27 + len).
  { unfold signed_length. destruct (decide (start + 8 + 2 <= b_len b)); [|rewrite at_Throw in Hlen by lia; done]. rewrite (at_Ok PC) in Hlen by (done || lia). by injection Hlen as <-. }
  unfold unsigned_chunk. rewrite Hlv. rewrite u32_id in Hr by (unfold in_range; lia). destruct (Z.ltb_spec (start + 8 + 2 + len) (b_len b)) as [Hlt|Hge].
  - unfold mbind, sm_bind in Hr. destruct (signed_chunk _ _ _ _ _ _ s) as [s1 r1] eqn:Es. apply signed_chunk_inv in Es; [|destruct Hb; lia].
    destruct Es as [[-> Hn]|Hv]; [|right; left; by replace (27 + len) with (start + 8 + 2 + len + 17 - start) by lia]. left. destruct r1 as [[pc|]| |]; [by destruct (Hn pc)|by injection Hr..].
  - destruct ((source =? controller (ns_network s)) || negb (Address_bool source)) eqn:Esrc; [|left; by injection Hr].
    right; right. split; [lia|]. apply orb_true_iff in Esrc as [?%Z.eqb_eq|Hz]; [by left|right]. unfold Address_bool in Hz. rewrite negb_involutive in Hz. by apply Z.eqb_eq.
Qed.
End Authentic.

(** C18: A packet changes nothing of a network, and makes it send nothing, unless it holds the
    controller's signature over the chunk, or it has no room for one and comes from the controller
    or from the null address, which the code takes for the backplane of a cluster. *)
Theorem handleConfigChunk_authentic `{C25519Ops} U packetId source b start s s' r :
  buf_wf PC b -> 0 <= start <= PC -> handleConfigChunk U packetId source b start s = (s', r) ->
  s' = s \/ verified U b start (ns_network s) (signed_length b start) \/
  unsigned_chunk b start /\ (source = controller (ns_network s) \/ source = 0).
Proof. intros Hb Hs. by apply handle_chunk_inv. Qed.

(** C36: On a machine whose [unsigned long] has 32 bits, as on 32-bit ARM, the sum of index and length
    wraps around: a chunk that the controller signed with an index just below 2^32 passes the check
    and is copied outside the memory of the update. *)
Theorem chunk_index_wraps `{Ops : C25519Ops} U nwid updateId total s packetId source b start x :
  ue_ulong U = 32 -> is_u64 nwid -> is_u64 updateId -> 0 <= total < CAP -> nt_destroyed (ns_network s) = false -> slots_have updateId [] (nt_incomingConfigChunks (ns_network s)) ->
  arrives b start nwid updateId total x -> signed_part U nwid updateId total (ns_network s) x -> zlen (pt_sig x) = 96 -> 0 < zlen (pt_data x) < 2 ^ 16 -> pt_index x + zlen (pt_data x) = 2 ^ 32 ->
  snd (handleConfigChunk U packetId source b start s) = Undef.
Proof.
  intros Hw Hn Hid Ht Hd Hs Ha [Hc1 Hc2] Hsig Hl Hi. pose proof CAP_value as HCAP. assert (Hlong : 32 <= ue_ulong U) by lia.
  assert (Hx : part_checked U total x) by (constructor; [lia|unfold in_range; lia|unfold ulong; rewrite Hw, Hi; change (2 ^ 32 mod 2 ^ 32) with 0; lia|done]).
  destruct (read_chunk U nwid updateId total Hn b start x Ha Hx) as (E1 & E2 & E3 & Hlt). destruct (slots_have_find updateId total Ht [] _ (sig_id (pt_sig x)) Hs ltac:(apply not_elem_of_nil)) as (i & c & Ef & Hci & Hp & _).
  unfold handleConfigChunk. erewrite sm_bind_Ok by reflexivity. rewrite Hd. erewrite sm_bind_Ok by (unfold lift; by rewrite E1). cbn beta. erewrite sm_bind_Ok by (unfold lift; by rewrite E2). cbn beta zeta. rewrite E3, (proj2 (Z.ltb_lt _ _)) by lia.
  erewrite sm_bind_Ok by (by eapply signed_chunk_Ok). cbn beta iota. unfold mbind at 1, sm_bind at 1, accept_chunk. cbn [pc_chunk pc_slot pc_updateId pc_chunkId pc_totalLength pc_chunkIndex].
  fold (fresh_slot updateId c). pose proof (hp_count _ _ _ _ Hp) as En. pose proof (hp_slot _ _ _ _ Hp) as [Hids Hdata]. change (zlen (@nil Part)) with 0 in En. rewrite En. erewrite sm_bind_Ok by reflexivity. cbn [Z.leb].
  change (ZT_NETWORK_MAX_UPDATE_CHUNKS <=? 0) with false. cbv iota. destruct (mem_write_one (ic_haveChunkIds c) 0 (sig_id (pt_sig x))) as (ids & Ei & _); [rewrite Hids; done|]. erewrite sm_bind_Ok by (unfold lift; by rewrite Ei). cbn beta.
  assert (Ew : mem_write (ic_data c) (pt_index x) (pt_data x) = Undef) by (unfold mem_write; by rewrite Hdata, (proj2 (Z.leb_gt (pt_index x + zlen (pt_data x)) CAP)), andb_false_r by lia).
  unfold mbind, sm_bind, lift. rewrite Ew. done.
Qed.

(** One byte at 2^32 - 1, signed by the controller of [joining]. *)
Definition wrapping : Part :=
  mkPart (2 ^ 32 - 1) [0] (Toy.toy_sig (replicate 64 7) (chunk_body 0x1122334455667788 5 0 (mkPart (2 ^ 32 - 1) [0] []))).

Lemma sample_chunk_arrives pre nwid updateId total x : Forall is_byte pre -> Forall is_byte (chunk_enc nwid updateId total x) -> zlen pre + zlen (chunk_enc nwid updateId total x) <= PC ->
  arrives (sample_packet (pre ++ chunk_enc nwid updateId total x)) (zlen pre) nwid updateId total x.
Proof.
  intros H1 H2 Hl. destruct (sample_packet_ok (pre ++ chunk_enc nwid updateId total x)) as [Hw Hd]; [by apply Forall_app_2|by rewrite zlen_app|]. constructor; [done| |cbn [sample_packet b_len]; apply zlen_app].
  split; [apply zlen_nonneg|]. exists pre, []. by rewrite Hd, app_nil_r.
Qed.

(** Three bytes of a configuration with a signature of zeros, from a node that is not the controller. *)
Definition forged : Part := mkPart 0 [110; 61; 49] (replicate 96 0).

Lemma forged_bytes : Forall is_byte (replicate 28 0 ++ chunk_enc 0x1122334455667788 5 3 forged) /\ zlen (replicate 28 0 ++ chunk_enc 0x1122334455667788 5 3 forged) = 157.
Proof. split; [|done]. apply (bool_decide_unpack _). vm_compute. exact I. Qed.

Lemma handleConfigChunk_authentic_witness :
  fst (handleConfigChunk (Ops := Toy.toy_ops) (sample_update_env 0x99) 1 0x77 (sample_packet (replicate 28 0 ++ chunk_enc 0x1122334455667788 5 3 forged)) 28 joining) = joining.
Proof.
  destruct (handleConfigChunk (Ops := Toy.toy_ops) _ _ _ _ _ _) as [s' r] eqn:Eh. pose proof PC_value as HPC. destruct forged_bytes as [Hf1 Hf2].
  destruct (sample_packet_ok (replicate 28 0 ++ chunk_enc 0x1122334455667788 5 3 forged)) as [Hb Hd]; [exact Hf1|rewrite Hf2; lia|].
  destruct (handleConfigChunk_authentic (H := Toy.toy_ops) (sample_update_env 0x99) 1 0x77 _ 28 joining s' r Hb ltac:(lia) Eh) as [->|[Hv|[Hu _]]]; [reflexivity|exfalso..].
  - unfold verified, signed_length in Hv. rewrite Hd in Hv. vm_compute in Hv. discriminate.
  - unfold unsigned_chunk, signed_length in Hu. rewrite Hd in Hu. cbn [sample_packet b_len] in Hu. rewrite Hf2 in Hu. vm_compute in Hu. apply Hu. reflexivity.
Defined.

Lemma wrapping_bytes : Forall is_byte (chunk_enc 0x1122334455667788 5 0 wrapping) /\ zlen (chunk_enc 0x1122334455667788 5 0 wrapping) = 127 /\ zlen (pt_sig wrapping) = 96.
Proof.
  assert (Hs : length (pt_sig wrapping) = 96%nat) by apply length_le_bytes. unfold chunk_enc, chunk_body. rewrite !zlen_app, !zlen_be_bytes. unfold zlen. rewrite Hs. split; [|done].
  repeat (apply Forall_app_2; [try apply be_bytes_bytes|]); try apply be_bytes_bytes; [by repeat constructor|apply le_bytes_bytes].
Qed.

Lemma chunk_index_wraps_witness :
  snd (handleConfigChunk (Ops := Toy.toy_ops) (sample_update_on 32 0x99) 1 0x77 (sample_packet (replicate 28 0 ++ chunk_enc 0x1122334455667788 5 0 wrapping)) 28 joining) = Undef.
Proof.
  destruct wrapping_bytes as (Hb & Hl & Hs).
  apply (chunk_index_wraps (Ops := Toy.toy_ops) (sample_update_on 32 0x99) 0x1122334455667788 5 0 joining 1 0x77 _ 28 wrapping);
    [reflexivity|done|done|rewrite CAP_value; lia|reflexivity| | | |exact Hs|done|reflexivity].
  - split; [done|]. split; [apply Forall_replicate, blank_chunk_ok|]. left. split; [reflexivity|]. by apply Forall_replicate.
  - apply (sample_chunk_arrives (replicate 28 0)); [by apply Forall_replicate|exact Hb|rewrite Hl, PC_value; done].
  - split; [reflexivity|]. apply bool_decide_eq_true. reflexivity.
Defined.
