(* ===== verification/AdHoc.v ===== *)
(** The ad-hoc networks of requestConfiguration of node/Network.cpp, whose configuration is in the ID
    of the network.

    A network ffSSSSEEEE000000 is for the ports SSSS to EEEE over IPv6, one ffNNhhhhhhhhhh01 for
    the IPv4 network NN.0.0.0 with the node hhhhhhhhhh as its hub.  What the rules of the first
    accept is written out, and what the second makes of its hub. *)
From stdpp Require Import gmap.
From S2P Require Import Prelude.
From S2P Require Import Utils.
From S2P Require Import Buffer.
From S2P Require Import Addressing.
From S2P Require Import Wire.
From S2P Require Import Rules.
From S2P Require Import CLib.
From S2P Require Import Dictionary.
From S2P Require Import InetAddress.
From S2P Require Import Hashtable.
From S2P Require Import C25519Api.
From S2P Require Import Identity.
From S2P Require Import CertificateOfMembership.
From S2P Require Import Credentials.
From S2P Require Import Capability.
From S2P Require Import NetworkConfig.
From S2P Require Import NetworkConfigDict.
From S2P Require Import Membership.
From S2P Require Import NetworkFilter.
From S2P Require Import Packet.
From S2P Require Import Compression.
From S2P Require Import Switch.
From S2P Require Import Fragmentation.
From S2P Require Import PushCredentials.
From S2P Require Import NetworkState.
From S2P Require Import NetworkSafety.
From S2P Require Import NetworkUpdates.
From S2P Require Import ConfigUpdates.
From S2P Require Import NetworkFrames.
From S2P Require Import ConfigChunks.

(** ** The rules for a range of ports *)

Section Rules.
Context `{Ops : C25519Ops} (f : Frame).

Definition protocol_is (p : Z) : bool := match payload f with Some (_, proto) => p =? proto | None => false end.
Definition tcp_flag (bit : Z) : bool := negb (Z.land (tcp_spec f) bit =? 0).

(** What the rules of an ad-hoc network accept. *)
Definition adhoc_accepts (lo hi : Z) : bool :=
  (u16 (fr_etherType f) =? ZT_ETHERTYPE_IPV6) &&
  (protocol_is 58 || (protocol_is 17 || protocol_is 6) && port_spec f ZT_NETWORK_RULE_MATCH_IP_DEST_PORT_RANGE lo hi || negb (tcp_flag 2) || tcp_flag 16).

Lemma characteristics_tcp nconf m inbound bit : bit = 2 \/ bit = 16 -> negb (Z.land (characteristics_spec nconf m inbound f) bit =? 0) = tcp_flag bit.
Proof.
  intros Hbit. unfold tcp_flag. do 2 f_equal. unfold characteristics_spec. cbv zeta. rewrite !Z.land_lor_distr_l.
  assert (Hz : forall (c : bool) x, Z.land x bit = 0 -> Z.land (bit_if c x) bit = 0) by (by intros [] x Hx).
  rewrite !Hz by (by destruct Hbit as [-> | ->]). done.
Qed.

Lemma port_rules_spec self nconf m inbound source lo hi v :
  filter_spec self nconf m inbound source f false (rule_sets [] (port_rules lo hi)) v = (if adhoc_accepts lo hi then DOZTFILTER_ACCEPT else DOZTFILTER_DROP, v).
Proof.
  assert (E : rule_sets [] (port_rules lo hi) = [([mkRule 165 (VEtherType 0x86dd)], mkRule 0 VNone); ([mkRule 36 (VIpProtocol 0x3a)], mkRule 1 VNone);
    ([mkRule 36 (VIpProtocol 0x11); mkRule 100 (VIpProtocol 0x06); mkRule 40 (VPort lo hi)], mkRule 1 VNone); ([mkRule 169 (VCharacteristics 2)], mkRule 1 VNone);
    ([mkRule 41 (VCharacteristics 2); mkRule 41 (VCharacteristics 16)], mkRule 1 VNone); ([], mkRule 0 VNone)]) by reflexivity.
  rewrite E. cbn [filter_spec set_matches fold_left combine_match]. unfold combine_match, inverted, is_or. cbn [rl_t rl_v]. unfold rule_spec. cbn [rl_v].
  rewrite !characteristics_tcp by auto. fold (protocol_is 58) (protocol_is 17) (protocol_is 6).
  change (rule_type (mkRule 40 (VPort lo hi))) with ZT_NETWORK_RULE_MATCH_IP_DEST_PORT_RANGE. unfold adhoc_accepts. rewrite (Z.eqb_sym (u16 (fr_etherType f))). change ZT_ETHERTYPE_IPV6 with 0x86dd.
  cbn [Z.testbit Pos.testbit Pos.pred_N Pos.pred_double N.pred andb orb xorb].
  destruct (0x86dd =? u16 (fr_etherType f)), (protocol_is 58), (protocol_is 17), (protocol_is 6), (port_spec f _ lo hi), (tcp_flag 2), (tcp_flag 16), inbound; reflexivity.
Qed.
End Rules.

Lemma port_rules_ok f lo hi : is_u16 lo -> is_u16 hi -> tcp_whole f -> Forall (rule_ok f) (port_rules lo hi).
Proof.
  intros Hlo Hhi Ht. unfold port_rules. repeat apply Forall_cons_2; try apply Forall_nil_2; (split; [split; [done|first [done|by split]]|split; [done|done]]).
Qed.

(** No frame over IPv6 that is not TCP is kept out. *)
Lemma adhoc_not_tcp f lo hi : u16 (fr_etherType f) = ZT_ETHERTYPE_IPV6 -> protocol_is f 6 = false -> adhoc_accepts f lo hi = true.
Proof.
  intros He Hp. unfold adhoc_accepts. rewrite He, Z.eqb_refl. cbn [andb]. assert (tcp_spec f = 0) as Ht.
  { unfold tcp_spec. unfold protocol_is in Hp. destruct (payload f) as [[pos proto]|]; [|done]. by rewrite (Z.eqb_sym proto), Hp. }
  unfold tcp_flag. rewrite Ht. cbn. by rewrite !orb_true_r.
Qed.

(** ** requestConfiguration *)

Section Request.
Context `{Ops : C25519Ops} (U : UpdateEnv).
Let E := ue_node U.

Lemma hex16_Ok i : exists ds, Utils_hex16 i = Ok (ds ++ [0]) /\ length ds = 4%nat.
Proof.
  assert (Hd : forall sh, exists c, hexdigit i sh = Ok c).
  { intros sh. unfold hexdigit. change 0xf with (Z.ones 4). rewrite Z.land_ones by lia. destruct (hexchars_load (Z.shiftr i sh mod 2 ^ 4)) as (c & Hc & _); [apply Z.mod_pos_bound; lia|]. eauto. }
  unfold Utils_hex16. destruct (Hd 12) as [a Ha], (Hd 8) as [b Hb], (Hd 4) as [c Hc], (Hd 0) as [d Hd0]. cbn [mapM]. rewrite Ha, Hb, Hc, Hd0. cbn. by exists [a; b; c; d].
Qed.

Lemma port_name_Ok lo hi : exists name, port_name lo hi = Ok name.
Proof.
  unfold port_name. destruct (hex16_Ok lo) as (l & El & Hl), (hex16_Ok hi) as (h & Eh & Hh). rewrite El, Eh. destruct l as [|l0 [|l1 [|l2 [|l3 [|]]]]]; try done. destruct h as [|h0 [|h1 [|h2 [|h3 [|]]]]]; try done.
  eexists. reflexivity.
Qed.

(** The ports in the ID of an ad-hoc network. *)
Definition first_port (id : Z) : Z := u16 (Z.land (Z.shiftr id 40) 0xffff).
Definition last_port (id : Z) : Z := u16 (Z.land (Z.shiftr id 24) 0xffff).

Lemma adhoc_ports_runs N s : let id := nt_id (ns_network s) in
  table_ok N (members s) -> N < 2 ^ 59 -> nt_destroyed (ns_network s) = false -> Z.shiftr id 56 = 0xff -> Z.land id 0xffffff = 0 ->
  runs (requestConfiguration U) s (fun s' _ =>
    if first_port id <=? last_port id then exists name r,
      config_taken U N s s' (adhoc_config U (ns_network s) 0 [] [InetAddress_makeIpv66plane id (Address_toInt (en_self E))] (port_rules (first_port id) (last_port id)) name) false r
    else s' = mkNetState (with_status (ns_network s) false NETCONF_FAILURE_NOT_FOUND (nt_portError (ns_network s))) (ns_prng s) (ns_log s)).
Proof.
  intros id Ht HN Hd Hff Hz. unfold requestConfiguration. apply get_network_runs. fold id. rewrite Hd, Hff, Hz. cbn [Z.eqb Pos.eqb]. unfold adhoc_ports. fold id (first_port id) (last_port id).
  destruct (first_port id <=? last_port id).
  - destruct (port_name_Ok (first_port id) (last_port id)) as [name En]. eapply runs_lift_bind; [exact En|]. eapply runs_bind; [by apply (setConfiguration_runs U N)|]. intros s1 r Hr. apply runs_ret. by exists name, r.
  - unfold setNotFound. eexists _, _. split; [reflexivity|]. cbn. by rewrite Hd.
Qed.

Lemma copy_text_Ok ds rest : forall fuel pre nn name, zlen pre = nn - 6 -> 6 <= nn -> Forall (fun c => c <> 0) ds -> zlen name = 128 -> nn + zlen ds < 128 -> (length ds < fuel)%nat ->
  exists name', copy_text fuel (pre ++ ds ++ 0 :: rest) name nn = Ok (name', nn + zlen ds) /\ zlen name' = 128.
Proof.
  induction ds as [|c ds IH]; intros fuel pre nn name Hp Hn Hd Hz Hl Hf; (destruct fuel as [|fuel]; [lia|]); cbn [copy_text].
  - change ([] ++ 0 :: rest) with ([0] ++ rest). rewrite load_seg by done. cbn [mbind outcome_bind]. change (zlen []) with 0 in *. destruct (mem_write_one name nn 0 ltac:(lia)) as (name' & -> & Hz' & _). cbn [mbind outcome_bind Z.eqb].
    exists name'. rewrite Z.add_0_r. split; [done|lia].
  - apply Forall_cons in Hd as [Hc Hd]. change ((c :: ds) ++ 0 :: rest) with ([c] ++ ds ++ 0 :: rest). rewrite load_seg by done. cbn [mbind outcome_bind]. assert (zlen (c :: ds) = 1 + zlen ds) as El by (unfold zlen; cbn [length]; lia). rewrite El in *. pose proof (zlen_nonneg ds).
    destruct (mem_write_one name nn c ltac:(lia)) as (name' & -> & Hz' & _). cbn [mbind outcome_bind]. rewrite (proj2 (Z.eqb_neq _ _)) by done. rewrite app_assoc.
    destruct (IH fuel (pre ++ [c]) (nn + 1) name') as (name2 & E2 & Hz2); [rewrite zlen_app; change (zlen [c]) with 1; lia|lia|done|lia|lia|cbn [length] in Hf; lia|]. exists name2. rewrite E2. split; [do 2 f_equal; lia|done].
Qed.

Lemma hub_name_Ok first : is_u64 first -> zlen (ue_text U) = 24 -> exists name, hub_name U first = Ok name.
Proof.
  intros Hf Hz. unfold hub_name. destruct (decimal_spec first (ue_text U) Hf ltac:(lia)) as (ds & -> & Hl & Hd & _). cbn [mbind outcome_bind].
  rewrite (mem_write_Ok (replicate 128 0) 0 (chars "adhoc-")) by done. cbn [mbind outcome_bind]. pose proof (zlen_nonneg ds).
  match goal with |- context [copy_text _ _ ?n 6] => destruct (copy_text_Ok ds (zdrop (zlen ds + 1) (ue_text U)) (S (length (ds ++ [0] ++ zdrop (zlen ds + 1) (ue_text U)))) [] 6 n) as (name & E1 & Hz1) end;
    [done|lia| |done|lia|rewrite length_app; lia|].
  { eapply Forall_impl; [exact Hd|]. intros c Hc ->. by destruct Hc. }
  cbn [app] in E1 |- *. rewrite E1. cbn [mbind outcome_bind]. rewrite mem_write_Ok; [eauto|lia|]. change (zlen (chars ".0.0.0" ++ [0])) with 7. lia.
Qed.

(** The hub in the ID, and the configuration with it. *)
Definition hub_of (id : Z) : Z := Z.land (Z.shiftr id 8) 0xffffffffff.

Lemma hub_flags id x : 40 <= x -> Z.testbit (hub_of id) x = false.
Proof. intros Hx. unfold hub_of. change 0xffffffffff with (Z.ones 40). rewrite Z.land_spec, Z.ones_spec_high, andb_false_r by lia. done. Qed.

Lemma hub_no_flag id k : 40 <= k -> flag (hub_of id) (2 ^ k) = false.
Proof.
  intros Hk. unfold flag. apply negb_false_iff, Z.eqb_eq. apply Z.bits_inj'. intros n Hn. rewrite Z.land_spec, Z.bits_0. destruct (decide (n = k)) as [->|Hne]; [by rewrite hub_flags|].
  rewrite Z.pow2_bits_false by lia. apply andb_false_r.
Qed.

Definition no_specialists (nc : NetworkConfig) : Prop :=
  NetworkConfig_anchors nc = [] /\ NetworkConfig_multicastReplicators nc = [] /\ NetworkConfig_activeBridges nc = [] /\ NetworkConfig_alwaysContactAddresses nc = [].

Lemma hub_config_no_specialists n ips rules name : no_specialists (adhoc_config U n 1024 (if hub_of (nt_id n) =? 0 then [] else [hub_of (nt_id n)]) ips rules name).
Proof.
  unfold no_specialists, NetworkConfig_anchors, NetworkConfig_multicastReplicators, NetworkConfig_activeBridges, NetworkConfig_alwaysContactAddresses. cbn [adhoc_config nc_specialists].
  destruct (hub_of (nt_id n) =? 0); [done|]. cbn [specialists_with].
  change ZT_NETWORKCONFIG_SPECIALIST_TYPE_ANCHOR with (2 ^ 42). change ZT_NETWORKCONFIG_SPECIALIST_TYPE_MULTICAST_REPLICATOR with (2 ^ 43). change ZT_NETWORKCONFIG_SPECIALIST_TYPE_ACTIVE_BRIDGE with (2 ^ 41).
  rewrite !hub_no_flag by lia. split_and!; try done. assert (flag (hub_of (nt_id n)) (Z.lor (2 ^ 42) (2 ^ 43)) = false) as ->; [|done].
  pose proof (hub_no_flag (nt_id n) 42 ltac:(lia)) as H1. pose proof (hub_no_flag (nt_id n) 43 ltac:(lia)) as H2. unfold flag in *. apply negb_false_iff, Z.eqb_eq in H1, H2. rewrite Z.land_lor_distr_r, H1, H2. done.
Qed.

Lemma adhoc_hub_runs N s : let id := nt_id (ns_network s) in
  table_ok N (members s) -> N < 2 ^ 59 -> nt_destroyed (ns_network s) = false -> zlen (ue_text U) = 24 -> Z.shiftr id 56 = 0xff -> Z.land id 0xff = 1 ->
  runs (requestConfiguration U) s (fun s' _ => exists ips name r,
    let nc := adhoc_config U (ns_network s) 1024 (if hub_of id =? 0 then [] else [hub_of id]) ips [mkRule ZT_NETWORK_RULE_ACTION_ACCEPT VNone] name in
    config_taken U N s s' nc false r /\ NetworkConfig_isPublic nc = true /\ no_specialists nc).
Proof.
  intros id Ht HN Hd Htext Hff H1. unfold requestConfiguration. apply get_network_runs. fold id. rewrite Hd, Hff. cbn [Z.eqb Pos.eqb].
  assert (Hnz : Z.land id 0xffffff <> 0).
  { intros Hz. assert (Hb : Z.testbit (Z.land id 0xffffff) 0 = true); [|by rewrite Hz in Hb]. rewrite Z.land_spec. change (Z.testbit 0xffffff 0) with true. rewrite andb_true_r.
    assert (Hb : Z.testbit (Z.land id 0xff) 0 = true) by (by rewrite H1). rewrite Z.land_spec in Hb. by apply andb_true_iff in Hb as [Hb _]. }
  rewrite (proj2 (Z.eqb_neq _ _)) by done. rewrite H1. cbn [Z.eqb Pos.eqb]. unfold adhoc_hub. fold id.
  destruct (hub_name_Ok (Z.land (Z.shiftr id 48) 0xff)) as [name En]; [|done|].
  { change 0xff with (Z.ones 8). rewrite Z.land_ones by lia. pose proof (Z.mod_pos_bound (Z.shiftr id 48) (2 ^ 8)). unfold in_range. lia. }
  eapply runs_lift_bind; [exact En|]. eapply runs_lift_bind; [reflexivity|]. eapply runs_bind; [by apply (setConfiguration_runs U N)|]. intros s1 r Hr. apply runs_ret.
  eexists _, name, r. cbv zeta. split; [exact Hr|]. split; [done|]. apply hub_config_no_specialists.
Qed.
End Request.

(** ** Properties *)

(** C34: The rules of an ad-hoc network for the ports [lo] to [hi] end with ACCEPT or DROP on every frame,
    without copies: what is not IPv6 is dropped; of IPv6 they accept ICMPv6, UDP and TCP to those
    ports, and whatever is not a TCP packet that opens a connection.  So a UDP packet is accepted
    whatever its port is. *)
Theorem adhoc_rules_decide `{C25519Ops} self nconf m inbound source f lo hi st :
  nconf_ok nconf -> frame_fits f -> member_ok m -> is_u16 lo -> is_u16 hi ->
  (exists st', doZtFilter self nconf m inbound source f (port_rules lo hi) st = Ok (if adhoc_accepts f lo hi then DOZTFILTER_ACCEPT else DOZTFILTER_DROP, st') /\ fs_view st' = fs_view st) /\
  (u16 (fr_etherType f) = ZT_ETHERTYPE_IPV6 -> protocol_is f 6 = false -> adhoc_accepts f lo hi = true).
Proof.
  intros Hn [Hf Ht _] Hm Hlo Hhi. split; [|apply adhoc_not_tcp].
  destruct (doZtFilter_Ok self nconf m inbound source f (port_rules lo hi) st Hn Hf Hm (port_rules_ok f lo hi Hlo Hhi Ht) ltac:(done)) as (res & st' & E1 & E2).
  exists st'. destruct E2 as [E2 _]; [by repeat constructor|]. rewrite port_rules_spec in E2. pose proof (f_equal fst E2) as E3. pose proof (f_equal snd E2) as E4. cbn [fst snd] in E3, E4. by subst res.
Qed.

(** A UDP packet over IPv6 to the port 9. *)
Definition udp6_frame : Frame := mkFrame 1 2 ([0x60; 0; 0; 0; 0; 8; 17; 64] ++ replicate 32 1 ++ [0; 53; 0; 9; 0; 8; 0; 0]) ZT_ETHERTYPE_IPV6 0.

Lemma udp6_fits : frame_fits udp6_frame.
Proof. constructor; [constructor; [cbn; repeat (apply Forall_cons_2; [done|]); apply Forall_nil_2|done]|done|done]. Qed.

Lemma adhoc_rules_decide_witness : exists st',
  doZtFilter (Ops := Toy.toy_ops) 0x42 sample_nconf None true 0x99 udp6_frame (port_rules 80 80) sample_state = Ok (DOZTFILTER_ACCEPT, st').
Proof.
  destruct (adhoc_rules_decide (H := Toy.toy_ops) 0x42 sample_nconf None true 0x99 udp6_frame 80 80 sample_state) as [(st' & E & _) Ha];
    [apply sample_nconf_ok|apply udp6_fits|apply no_member_ok|done|done|].
  exists st'. rewrite E. rewrite (Ha eq_refl eq_refl). reflexivity.
Defined.

(** C35: requestConfiguration on the ID of an ad-hoc network for ports asks nobody: the network takes the
    configuration that the ID describes, or is not found when the range is empty. *)
Theorem requestConfiguration_ports `{C25519Ops} U N s : let id := nt_id (ns_network s) in
  table_ok N (members s) -> N < 2 ^ 59 -> nt_destroyed (ns_network s) = false -> Z.shiftr id 56 = 0xff -> Z.land id 0xffffff = 0 ->
  runs (requestConfiguration U) s (fun s' _ =>
    if first_port id <=? last_port id then exists name r,
      config_taken U N s s' (adhoc_config U (ns_network s) 0 [] [InetAddress_makeIpv66plane id (Address_toInt (en_self (ue_node U)))] (port_rules (first_port id) (last_port id)) name) false r
    else s' = mkNetState (with_status (ns_network s) false NETCONF_FAILURE_NOT_FOUND (nt_portError (ns_network s))) (ns_prng s) (ns_log s)).
Proof. apply adhoc_ports_runs. Qed.

(** The network for port 80. *)
Definition port80 : NetState := mkNetState (blank_network (sample_update_env 0x99) 0xff00500050000000) (1, 2) [].

Lemma requestConfiguration_ports_witness : exists s', requestConfiguration (sample_update_env 0x99) port80 = (s', Ok tt) /\ nc_rules (nt_config (ns_network s')) = port_rules 80 80.
Proof.
  destruct (requestConfiguration_ports (H := Toy.toy_ops) (sample_update_env 0x99) 0 port80) as (s' & [] & E & Hs);
    [apply blank_table_ok|lia|reflexivity|reflexivity|reflexivity|].
  destruct Hs as (name & r & Hs). exists s'. split; [exact E|]. destruct Hs as (_ & h & _ & _ & ->). reflexivity.
Defined.

(** requestConfiguration on the ID of an ad-hoc network with a hub: the network is public and accepts
    all, and the hub is in the list of specialists, but without a flag, so that it is neither an
    anchor nor a replicator nor a bridge, and nobody announces multicast groups to it. *)
Theorem adhoc_hub_without_role `{C25519Ops} U N s : let id := nt_id (ns_network s) in
  table_ok N (members s) -> N < 2 ^ 59 -> nt_destroyed (ns_network s) = false -> zlen (ue_text U) = 24 -> Z.shiftr id 56 = 0xff -> Z.land id 0xff = 1 ->
  runs (requestConfiguration U) s (fun s' _ => exists ips name r,
    let nc := adhoc_config U (ns_network s) 1024 (if hub_of id =? 0 then [] else [hub_of id]) ips [mkRule ZT_NETWORK_RULE_ACTION_ACCEPT VNone] name in
    config_taken U N s s' nc false r /\ NetworkConfig_isPublic nc = true /\ no_specialists nc).
Proof. apply adhoc_hub_runs. Qed.

(** The network 28.0.0.0 with the hub 1122334455. *)
Definition hub28 : NetState := mkNetState (blank_network (sample_update_env 0x99) 0xff1c112233445501) (1, 2) [].

Lemma adhoc_hub_without_role_witness : exists s', requestConfiguration (sample_update_env 0x99) hub28 = (s', Ok tt) /\
  nc_specialists (nt_config (ns_network s')) = [0x1122334455] /\ NetworkConfig_alwaysContactAddresses (nt_config (ns_network s')) = [].
Proof.
  destruct (adhoc_hub_without_role (H := Toy.toy_ops) (sample_update_env 0x99) 0 hub28) as (s' & [] & E & ips & name & r & Hs & _ & Hno);
    [apply blank_table_ok|lia|reflexivity|reflexivity|reflexivity|reflexivity|].
  exists s'. split; [exact E|]. destruct Hs as (_ & h & _ & _ & ->). split; [reflexivity|]. destruct Hno as (_ & _ & _ & Hno). exact Hno.
Defined.
