(* ===== verification/RateLimits.v ===== *)
(** The rate limits that a peer has for each kind of request: the members rateGate* of
    node/Peer.hpp and the fields they use.

    A limit is used for a sequence of requests at arbitrary times; the theorems speak of those that
    are let through. *)
From S2P Require Import Prelude.
From S2P Require Import Membership.

Definition ZT_PUSH_DIRECT_PATHS_CUTOFF_TIME : Z := 30000.
Definition ZT_PUSH_DIRECT_PATHS_CUTOFF_LIMIT : Z := 8.
Definition ZT_PEER_CREDENTIALS_CUTOFF_TIME : Z := 60000.
Definition ZT_PEER_CREDEITIALS_CUTOFF_LIMIT : Z := 15.
Definition ZT_PEER_WHOIS_RATE_LIMIT : Z := 100.
Definition ZT_PEER_GENERAL_RATE_LIMIT : Z := 1000.

Record PeerGates : Type := mkGates {
  pg_lastDirectPathPushReceive : Z;
  pg_lastCredentialRequestSent : Z;
  pg_lastWhoisRequestReceived : Z;
  pg_lastEchoRequestReceived : Z;
  pg_lastComRequestReceived : Z;
  pg_lastComRequestSent : Z;
  pg_lastCredentialsReceived : Z;
  pg_directPathPushCutoffCount : Z;
  pg_credentialsCutoffCount : Z
}.

(** The constructor of Peer. *)
Definition PeerGates_new : PeerGates := mkGates 0 0 0 0 0 0 0 0 0.

Definition rateGatePushDirectPaths (g : PeerGates) (now : Z) : outcome (PeerGates * bool) :=
  d ← sub_s64 now (pg_lastDirectPathPushReceive g);
  let count := if d <=? ZT_PUSH_DIRECT_PATHS_CUTOFF_TIME then u32 (pg_directPathPushCutoffCount g + 1) else 0 in
  Ok (mkGates now (pg_lastCredentialRequestSent g) (pg_lastWhoisRequestReceived g) (pg_lastEchoRequestReceived g) (pg_lastComRequestReceived g) (pg_lastComRequestSent g)
        (pg_lastCredentialsReceived g) count (pg_credentialsCutoffCount g),
      count <? ZT_PUSH_DIRECT_PATHS_CUTOFF_LIMIT).

Definition rateGateCredentialsReceived (g : PeerGates) (now : Z) : outcome (PeerGates * bool) :=
  d ← sub_s64 now (pg_lastCredentialsReceived g);
  let count := if d <=? ZT_PEER_CREDENTIALS_CUTOFF_TIME then u32 (pg_credentialsCutoffCount g + 1) else 0 in
  Ok (mkGates (pg_lastDirectPathPushReceive g) (pg_lastCredentialRequestSent g) (pg_lastWhoisRequestReceived g) (pg_lastEchoRequestReceived g) (pg_lastComRequestReceived g) (pg_lastComRequestSent g)
        now (pg_directPathPushCutoffCount g) count,
      pg_directPathPushCutoffCount g <? ZT_PEER_CREDEITIALS_CUTOFF_LIMIT).

Definition rateGateRequestCredentials (g : PeerGates) (now : Z) : outcome (PeerGates * bool) :=
  d ← sub_s64 now (pg_lastCredentialRequestSent g);
  if ZT_PEER_GENERAL_RATE_LIMIT <=? d then
    Ok (mkGates (pg_lastDirectPathPushReceive g) now (pg_lastWhoisRequestReceived g) (pg_lastEchoRequestReceived g) (pg_lastComRequestReceived g) (pg_lastComRequestSent g)
          (pg_lastCredentialsReceived g) (pg_directPathPushCutoffCount g) (pg_credentialsCutoffCount g), true)
  else Ok (g, false).

Definition rateGateInboundWhoisRequest (g : PeerGates) (now : Z) : outcome (PeerGates * bool) :=
  d ← sub_s64 now (pg_lastWhoisRequestReceived g);
  if ZT_PEER_WHOIS_RATE_LIMIT <=? d then
    Ok (mkGates (pg_lastDirectPathPushReceive g) (pg_lastCredentialRequestSent g) now (pg_lastEchoRequestReceived g) (pg_lastComRequestReceived g) (pg_lastComRequestSent g)
          (pg_lastCredentialsReceived g) (pg_directPathPushCutoffCount g) (pg_credentialsCutoffCount g), true)
  else Ok (g, false).

Definition rateGateEchoRequest (g : PeerGates) (now : Z) : outcome (PeerGates * bool) :=
  d ← sub_s64 now (pg_lastEchoRequestReceived g);
  if ZT_PEER_GENERAL_RATE_LIMIT <=? d then
    Ok (mkGates (pg_lastDirectPathPushReceive g) (pg_lastCredentialRequestSent g) (pg_lastWhoisRequestReceived g) now (pg_lastComRequestReceived g) (pg_lastComRequestSent g)
          (pg_lastCredentialsReceived g) (pg_directPathPushCutoffCount g) (pg_credentialsCutoffCount g), true)
  else Ok (g, false).

Definition rateGateIncomingComRequest (g : PeerGates) (now : Z) : outcome (PeerGates * bool) :=
  d ← sub_s64 now (pg_lastComRequestReceived g);
  if ZT_PEER_GENERAL_RATE_LIMIT <=? d then
    Ok (mkGates (pg_lastDirectPathPushReceive g) (pg_lastCredentialRequestSent g) (pg_lastWhoisRequestReceived g) (pg_lastEchoRequestReceived g) now (pg_lastComRequestSent g)
          (pg_lastCredentialsReceived g) (pg_directPathPushCutoffCount g) (pg_credentialsCutoffCount g), true)
  else Ok (g, false).

Definition rateGateOutgoingComRequest (g : PeerGates) (now : Z) : outcome (PeerGates * bool) :=
  d ← sub_s64 now (pg_lastComRequestSent g);
  if ZT_PEER_GENERAL_RATE_LIMIT <=? d then
    Ok (mkGates (pg_lastDirectPathPushReceive g) (pg_lastCredentialRequestSent g) (pg_lastWhoisRequestReceived g) (pg_lastEchoRequestReceived g) (pg_lastComRequestReceived g) now
          (pg_lastCredentialsReceived g) (pg_directPathPushCutoffCount g) (pg_credentialsCutoffCount g), true)
  else Ok (g, false).

(** ** Sequences of requests *)

Record gates_ok (g : PeerGates) : Prop := {
  gk_push : time_ok (pg_lastDirectPathPushReceive g);
  gk_request : time_ok (pg_lastCredentialRequestSent g);
  gk_whois : time_ok (pg_lastWhoisRequestReceived g);
  gk_echo : time_ok (pg_lastEchoRequestReceived g);
  gk_com_in : time_ok (pg_lastComRequestReceived g);
  gk_com : time_ok (pg_lastComRequestSent g);
  gk_creds : time_ok (pg_lastCredentialsReceived g)
}.

(** The times of the requests that are let through. *)
Fixpoint let_through (gate : PeerGates -> Z -> outcome (PeerGates * bool)) (g : PeerGates) (times : list Z) : outcome (list Z) :=
  match times with
  | [] => Ok []
  | t :: times => '(g, ok) ← gate g t; l ← let_through gate g times; Ok (if (ok : bool) then t :: l else l)
  end.

(** Consecutive elements are at least, or at most, [d] apart. *)
Fixpoint apart_by (d x : Z) (l : list Z) : Prop := match l with [] => True | y :: l => d <= y - x /\ apart_by d y l end.
Fixpoint within (d x : Z) (l : list Z) : Prop := match l with [] => True | y :: l => y - x <= d /\ within d y l end.

(** A limit that compares with the last request let through. *)
Definition interval_gate (gate : PeerGates -> Z -> outcome (PeerGates * bool)) (last : PeerGates -> Z) (limit : Z) : Prop :=
  forall g t, time_ok (last g) -> time_ok t -> exists g', gate g t = Ok (g', limit <=? t - last g) /\ last g' = (if limit <=? t - last g then t else last g).

Lemma interval_gate_spaced gate last limit times : interval_gate gate last limit -> Forall time_ok times ->
  forall g, time_ok (last g) -> exists l, let_through gate g times = Ok l /\ apart_by limit (last g) l.
Proof.
  intros Hg. induction 1 as [|t times Ht _ IH]; intros g Hl; [by exists []|]. cbn [let_through]. destruct (Hg g t Hl Ht) as (g' & -> & El). cbn [mbind outcome_bind].
  destruct (Z.leb_spec limit (t - last g)); destruct (IH g') as (l & -> & Hs); rewrite El in *; try done; eexists; (split; [reflexivity|]); done.
Qed.

Ltac interval_gate := let g := fresh in let t := fresh in intros g t ? ?; unfold time_ok in *; cbv beta delta [rateGateRequestCredentials rateGateInboundWhoisRequest rateGateEchoRequest rateGateIncomingComRequest rateGateOutgoingComRequest];
  rewrite sub_s64_Ok by done; cbn [mbind outcome_bind]; destruct (Z.leb _ _); eexists; split; reflexivity.

Lemma let_through_cons gate g t times g' ok : gate g t = Ok (g', ok) -> let_through gate g (t :: times) = (l ← let_through gate g' times; Ok (if ok then t :: l else l)).
Proof. intros E. cbn [let_through]. by rewrite E. Qed.

Lemma push_gate_step g t : time_ok (pg_lastDirectPathPushReceive g) -> time_ok t -> 0 <= pg_directPathPushCutoffCount g -> pg_directPathPushCutoffCount g + 1 < 2 ^ 32 ->
  let count := if t - pg_lastDirectPathPushReceive g <=? ZT_PUSH_DIRECT_PATHS_CUTOFF_TIME then pg_directPathPushCutoffCount g + 1 else 0 in
  exists g', rateGatePushDirectPaths g t = Ok (g', count <? ZT_PUSH_DIRECT_PATHS_CUTOFF_LIMIT) /\ pg_lastDirectPathPushReceive g' = t /\ pg_directPathPushCutoffCount g' = count.
Proof. intros Hl Ht H0 Hc count. unfold rateGatePushDirectPaths. rewrite sub_s64_Ok by done. cbn [mbind outcome_bind]. rewrite u32_id by (unfold in_range; lia). eexists. split; [reflexivity|done]. Qed.

(** The count of direct path pushes: requests that follow each other within the cutoff time use up
    what is left of the limit. *)
Lemma push_gate_counts times : Forall time_ok times -> forall g, time_ok (pg_lastDirectPathPushReceive g) -> within ZT_PUSH_DIRECT_PATHS_CUTOFF_TIME (pg_lastDirectPathPushReceive g) times ->
  0 <= pg_directPathPushCutoffCount g -> pg_directPathPushCutoffCount g + zlen times < 2 ^ 32 ->
  exists l, let_through rateGatePushDirectPaths g times = Ok l /\ zlen l <= Z.max 0 (ZT_PUSH_DIRECT_PATHS_CUTOFF_LIMIT - 1 - pg_directPathPushCutoffCount g).
Proof.
  induction 1 as [|t times Ht _ IH]; intros g Hl Hw H0 Hc; [exists []; split; [done|change (zlen []) with 0; lia]|]. destruct Hw as [Hd Hw].
  assert (Hz : zlen (t :: times) = 1 + zlen times) by (unfold zlen; cbn [length]; lia). pose proof (zlen_nonneg times). destruct (push_gate_step g t) as (g' & Eg & El & Ec); [done|done|done|lia|].
  rewrite (let_through_cons _ _ _ _ _ _ Eg). rewrite (proj2 (Z.leb_le _ _)) in Ec |- * by done. destruct (IH g') as (l & -> & Hn); [by rewrite El|by rewrite El|lia|lia|]. cbn [mbind outcome_bind].
  eexists. split; [reflexivity|]. unfold ZT_PUSH_DIRECT_PATHS_CUTOFF_LIMIT in *. destruct (Z.ltb_spec (pg_directPathPushCutoffCount g + 1) 8); [|lia].
  assert (zlen (t :: l) = 1 + zlen l) by (unfold zlen; cbn [length]; lia). lia.
Qed.

(** C38: Whatever the times of the requests, the limits for credential requests, echo requests and
    requests for certificates let through requests at least a second apart, the one for WHOIS
    requests at least 100 ms; of direct path pushes that follow each other within 30 seconds at
    most eight are let through. *)
Theorem Peer_rate_limits g times : gates_ok g -> Forall time_ok times ->
  let spaced gate last limit := exists l, let_through gate g times = Ok l /\ apart_by limit (last g) l in
  spaced rateGateRequestCredentials pg_lastCredentialRequestSent 1000 /\ spaced rateGateInboundWhoisRequest pg_lastWhoisRequestReceived 100 /\
  spaced rateGateEchoRequest pg_lastEchoRequestReceived 1000 /\ spaced rateGateIncomingComRequest pg_lastComRequestReceived 1000 /\ spaced rateGateOutgoingComRequest pg_lastComRequestSent 1000 /\
  (forall t ts, times = t :: ts -> within ZT_PUSH_DIRECT_PATHS_CUTOFF_TIME t ts -> 0 <= pg_directPathPushCutoffCount g -> pg_directPathPushCutoffCount g + zlen times < 2 ^ 32 ->
     exists l, let_through rateGatePushDirectPaths g times = Ok l /\ zlen l <= ZT_PUSH_DIRECT_PATHS_CUTOFF_LIMIT).
Proof.
  intros [H1 H2 H3 H4 H5 H6 H7] Ht spaced. split_and!.
  { apply (interval_gate_spaced _ pg_lastCredentialRequestSent); [interval_gate|done|done]. }
  { apply (interval_gate_spaced _ pg_lastWhoisRequestReceived); [interval_gate|done|done]. }
  { apply (interval_gate_spaced _ pg_lastEchoRequestReceived); [interval_gate|done|done]. }
  { apply (interval_gate_spaced _ pg_lastComRequestReceived); [interval_gate|done|done]. }
  { apply (interval_gate_spaced _ pg_lastComRequestSent); [interval_gate|done|done]. }
  intros t ts -> Hw H0 Hc. apply Forall_cons in Ht as [Ht Hts]. assert (Hz : zlen (t :: ts) = 1 + zlen ts) by (unfold zlen; cbn [length]; lia). pose proof (zlen_nonneg ts).
  destruct (push_gate_step g t) as (g' & Eg & El & Ec); [done|done|done|lia|]. rewrite (let_through_cons _ _ _ _ _ _ Eg).
  match type of Ec with _ = ?c => assert (0 <= c <= pg_directPathPushCutoffCount g + 1) as Hr by (destruct (_ <=? _); lia); set (count := c) in * end.
  destruct (push_gate_counts ts Hts g') as (l & -> & Hn); [by rewrite El|by rewrite El|lia|lia|]. rewrite Ec in Hn. cbn [mbind outcome_bind]. eexists. split; [reflexivity|].
  unfold ZT_PUSH_DIRECT_PATHS_CUTOFF_LIMIT in *. assert (zlen (t :: l) = 1 + zlen l) by (unfold zlen; cbn [length]; lia). destruct (Z.ltb_spec count 8); lia.
Qed.

Lemma Peer_rate_limits_witness : let_through rateGateEchoRequest PeerGates_new [5000; 5999; 6000] = Ok [5000; 6000] /\
  (exists l, let_through rateGatePushDirectPaths PeerGates_new ((fun k => 60000 + Z.of_nat k) <$> seq 0 20) = Ok l /\ zlen l <= 8).
Proof.
  split; [reflexivity|]. assert (Ht : Forall time_ok ((fun k => 60000 + Z.of_nat k) <$> seq 0 20)) by (cbn; repeat constructor; done).
  assert (Hg : gates_ok PeerGates_new) by (constructor; done).
  destruct (Peer_rate_limits PeerGates_new ((fun k => 60000 + Z.of_nat k) <$> seq 0 20) Hg Ht) as (_ & _ & _ & _ & _ & H). apply (H 60000 ((fun k => 60000 + Z.of_nat k) <$> seq 1 19)); [reflexivity|cbn; unfold ZT_PUSH_DIRECT_PATHS_CUTOFF_TIME; lia|done|done].
Defined.

(** C37: The limit for credentials compares the count of direct path pushes with its limit: a peer that
    sends no direct path pushes can send any number of NETWORK_CREDENTIALS packets in any time, and
    all are handled. *)
Theorem credentials_not_limited g times : gates_ok g -> Forall time_ok times -> pg_directPathPushCutoffCount g < ZT_PEER_CREDEITIALS_CUTOFF_LIMIT ->
  let_through rateGateCredentialsReceived g times = Ok times.
Proof.
  intros Hg Ht Hc. assert (Hl : time_ok (pg_lastCredentialsReceived g)) by apply Hg. clear Hg. revert g Hl Hc. induction Ht as [|t times Ht _ IH]; intros g Hl Hc; [done|].
  erewrite let_through_cons by (unfold rateGateCredentialsReceived; rewrite sub_s64_Ok by done; reflexivity). rewrite IH by done. cbn [mbind outcome_bind]. by rewrite (proj2 (Z.ltb_lt _ _)).
Qed.

Lemma credentials_not_limited_witness : let_through rateGateCredentialsReceived PeerGates_new (replicate 100 1000) = Ok (replicate 100 1000).
Proof. apply (credentials_not_limited PeerGates_new (replicate 100 1000)); [constructor; done|by apply Forall_replicate|done]. Defined.
