(* ===== verification/IncomingPacket.v ===== *)
(** The handlers of node/IncomingPacket.cpp for frames, credentials, configurations of networks,
    multicast subscriptions and echo requests.

    A handler gets a packet that was authenticated and uncompressed.  Its state is that of the
    node: the networks by their IDs, the rate limits of the peer, and the log.  An operation of a
    network runs on the entry of its ID ([on_network]). *)
From stdpp Require Import gmap.
From S2P Require Import Prelude.
From S2P Require Import Utils.
From S2P Require Import Buffer.
From S2P Require Import Addressing.
From S2P Require Import Wire.
From S2P Require Import Dictionary.
From S2P Require Import C25519Api.
From S2P Require Import CertificateOfMembership.
From S2P Require Import Credentials.
From S2P Require Import Capability.
From S2P Require Import NetworkConfig.
From S2P Require Import Membership.
From S2P Require Import NetworkFilter.
From S2P Require Import Packet.
From S2P Require Import Compression.
From S2P Require Import Switch.
From S2P Require Import PushCredentials.
From S2P Require Import NetworkState.
From S2P Require Import NetworkUpdates.
From S2P Require Import RateLimits.

Definition VERB_ERROR : Z := 0x02.
Definition VERB_OK : Z := 0x03.
Definition VERB_FRAME : Z := 0x06.
Definition VERB_ECHO : Z := 0x08.
Definition ERROR_NEED_MEMBERSHIP_CERTIFICATE : Z := 0x06.
Definition ERROR_UNSUPPORTED_OPERATION : Z := 0x05.
Definition ZT_PROTO_VERB_FRAME_IDX_NETWORK_ID : Z := ZT_PACKET_IDX_PAYLOAD.
Definition ZT_PROTO_VERB_FRAME_IDX_ETHERTYPE : Z := ZT_PROTO_VERB_FRAME_IDX_NETWORK_ID + 8.
Definition ZT_PROTO_VERB_FRAME_IDX_PAYLOAD : Z := ZT_PROTO_VERB_FRAME_IDX_ETHERTYPE + 2.
Definition ZT_PROTO_VERB_EXT_FRAME_IDX_NETWORK_ID : Z := ZT_PACKET_IDX_PAYLOAD.
Definition ZT_PROTO_VERB_EXT_FRAME_IDX_FLAGS : Z := ZT_PROTO_VERB_EXT_FRAME_IDX_NETWORK_ID + 8.
Definition ZT_PROTO_VERB_EXT_FRAME_IDX_COM : Z := ZT_PROTO_VERB_EXT_FRAME_IDX_FLAGS + 1.
Definition ZT_PROTO_VERB_EXT_FRAME_IDX_TO : Z := ZT_PROTO_VERB_EXT_FRAME_IDX_FLAGS + 1.
Definition ZT_PROTO_VERB_EXT_FRAME_IDX_FROM : Z := ZT_PROTO_VERB_EXT_FRAME_IDX_TO + 6.
Definition ZT_PROTO_VERB_EXT_FRAME_IDX_ETHERTYPE : Z := ZT_PROTO_VERB_EXT_FRAME_IDX_FROM + 6.
Definition ZT_PROTO_VERB_EXT_FRAME_IDX_PAYLOAD : Z := ZT_PROTO_VERB_EXT_FRAME_IDX_ETHERTYPE + 2.
Definition ZT_PROTO_VERB_NETWORK_CONFIG_REQUEST_IDX_NETWORK_ID : Z := ZT_PACKET_IDX_PAYLOAD.
Definition ZT_PROTO_VERB_NETWORK_CONFIG_REQUEST_IDX_DICT_LEN : Z := ZT_PROTO_VERB_NETWORK_CONFIG_REQUEST_IDX_NETWORK_ID + 8.
Definition ZT_PROTO_VERB_NETWORK_CONFIG_REQUEST_IDX_DICT : Z := ZT_PROTO_VERB_NETWORK_CONFIG_REQUEST_IDX_DICT_LEN + 2.

(** ** State of the node *)

Record NodeState : Type := mkNodeState { no_networks : gmap Z Network; no_gates : PeerGates; no_prng : Z * Z; no_log : list net_event }.
Notation DM := (sm NodeState).

Definition node_emit (e : net_event) : DM unit := modify (fun s => mkNodeState (no_networks s) (no_gates s) (no_prng s) (no_log s ++ [e])).
Definition node_ticket : DM nat := s ← get_state; mret (length (no_log s)).

(** [RR->node->network] *)
Definition find_network (nwid : Z) : DM (option Z) := s ← get_state; mret (match no_networks s !! nwid with Some _ => Some nwid | None => None end).
Definition the_network (nwid : Z) : DM Network :=
  s ← get_state; match no_networks s !! nwid with Some n => mret n | None => lift Undef end.

(** An operation of the network with the ID [nwid]. *)
Definition on_network {A} (nwid : Z) (m : NM A) : DM A := fun s =>
  match no_networks s !! nwid with
  | Some n =>
      let '(t, r) := m (mkNetState n (no_prng s) (no_log s)) in
      (mkNodeState (<[nwid := ns_network t]> (no_networks s)) (no_gates s) (ns_prng t) (ns_log t), r)
  | None => (s, Undef)
  end.

Definition ask_gate (gate : PeerGates -> Z -> outcome (PeerGates * bool)) (now : Z) : DM bool :=
  s ← get_state;
  '(g, r) ← lift (gate (no_gates s) now);
  _ ← modify (fun s => mkNodeState (no_networks s) g (no_prng s) (no_log s));
  mret r.

(** What the handlers ask besides [NodeEnv]: the credentials that the multicaster keeps, and what
    is on the stack when a packet is armored. *)
Record PacketEnv : Type := mkPacketEnv { px_node : NodeEnv; px_cacheAuthorized : Z -> Z -> bool; px_tmp : list Z }.

(** ** Handlers
    [pkt] is the packet; [from] and [key] are the address and the key of the peer. *)

Section Handlers.
Context `{Ops : C25519Ops} (X : PacketEnv) (pkt : Buffer) (from : Z) (key : list Z).
Let E := px_node X.

Definition received (verb : Z) (trustEstablished : bool) (nwid : Z) : DM unit :=
  h ← lift (Packet_hops pkt);
  id ← lift (Packet_packetId pkt);
  node_emit (EvReceived h id verb trustEstablished nwid).

(** A packet to the peer over the path that its own came from. *)
Definition reply (dest verb : Z) (fill : Buffer -> outcome Buffer) : DM unit :=
  k ← node_ticket;
  outp ← lift (Packet_new (en_memory E) k dest (en_self E) verb);
  outp ← lift (fill outp);
  outp ← lift (Packet_armor (px_tmp X) key true outp);
  node_emit (EvPathSend (buf_data outp)).

Definition sendErrorNeedCredentials (nwid : Z) : DM unit :=
  ok ← ask_gate rateGateOutgoingComRequest (en_now E);
  if (ok : bool) then
    src ← lift (Packet_source pkt);
    v ← lift (Packet_verb pkt);
    id ← lift (Packet_packetId pkt);
    reply src VERB_ERROR (fun outp =>
      outp ← Buffer_append_int PC outp 1 v;
      outp ← Buffer_append_int PC outp 8 id;
      outp ← Buffer_append_int PC outp 1 ERROR_NEED_MEMBERSHIP_CERTIFICATE;
      Buffer_append_int PC outp 8 nwid)
  else mret tt.

(** The bytes from [i] to the end, as the pointer and length that the filter gets. *)
Definition rest_of_packet (i len : Z) : outcome (list Z) := mem_read (b_mem pkt) i len.

Definition doFRAME : DM bool :=
  nwid ← lift (Buffer_at pkt 8 ZT_PROTO_VERB_FRAME_IDX_NETWORK_ID);
  network ← find_network nwid;
  trustEstablished ← match network with
    | Some id =>
        ok ← on_network id (gate E from);
        if (ok : bool) then
          _ ← (if ZT_PROTO_VERB_FRAME_IDX_PAYLOAD <? b_len pkt then
                 etherType ← lift (Buffer_at pkt 2 ZT_PROTO_VERB_FRAME_IDX_ETHERTYPE);
                 let sourceMac := MAC_fromAddress from nwid in
                 let frameLen := u32 (b_len pkt - ZT_PROTO_VERB_FRAME_IDX_PAYLOAD) in
                 data ← lift (rest_of_packet ZT_PROTO_VERB_FRAME_IDX_PAYLOAD frameLen);
                 n ← the_network id;
                 accept ← on_network id (filterIncomingPacket E from (en_self E) (mkFrame sourceMac (nt_mac n) data etherType 0));
                 if 0 <? accept then node_emit (EvPutFrame nwid sourceMac (nt_mac n) etherType data) else mret tt
               else mret tt);
          mret true
        else _ ← sendErrorNeedCredentials nwid; mret false
    | None => _ ← sendErrorNeedCredentials nwid; mret false
    end;
  _ ← received VERB_FRAME trustEstablished nwid;
  mret true.

(** A frame that filterIncomingPacket accepted with 1: the checks for bridges and multicast.
    Whether the frame goes to the host. *)
Definition check_bridging (id nwid fromMac toMac : Z) : DM bool :=
  n ← the_network id;
  if negb (fromMac =? MAC_fromAddress from nwid) then
    if NetworkConfig_permitsBridging (nt_config n) from then
      _ ← on_network id (learnBridgeRoute E fromMac from); mret true
    else mret false
  else if negb (toMac =? nt_mac n) then
    if MAC_isMulticast toMac then mret (negb (nc_multicastLimit (nt_config n) =? 0))
    else mret (NetworkConfig_permitsBridging (nt_config n) (en_self E))
  else mret true.

(** The frame in the packet; false when the handler is done with it. *)
Definition ext_frame (id nwid comLen : Z) : DM bool :=
  etherType ← lift (Buffer_at pkt 2 (u32 (comLen + ZT_PROTO_VERB_EXT_FRAME_IDX_ETHERTYPE)));
  to ← lift (Buffer_read_mac pkt (u32 (comLen + ZT_PROTO_VERB_EXT_FRAME_IDX_TO)));
  fromMac ← lift (Buffer_read_mac pkt (u32 (comLen + ZT_PROTO_VERB_EXT_FRAME_IDX_FROM)));
  let frameLen := u32 (b_len pkt - (comLen + ZT_PROTO_VERB_EXT_FRAME_IDX_PAYLOAD)) in
  data ← lift (Buffer_read_field pkt (u32 (comLen + ZT_PROTO_VERB_EXT_FRAME_IDX_PAYLOAD)) frameLen);
  n ← the_network id;
  if negb (MAC_bool fromMac) || (fromMac =? nt_mac n) then mret false else
  accept ← on_network id (filterIncomingPacket E from (en_self E) (mkFrame fromMac to data etherType 0));
  if accept =? 1 then
    ok ← check_bridging id nwid fromMac to;
    if (ok : bool) then _ ← node_emit (EvPutFrame nwid fromMac to etherType data); mret true
    else mret false
  else if accept =? 2 then _ ← node_emit (EvPutFrame nwid fromMac to etherType data); mret true
  else mret true.

Definition doEXT_FRAME : DM bool :=
  nwid ← lift (Buffer_at pkt 8 ZT_PROTO_VERB_EXT_FRAME_IDX_NETWORK_ID);
  network ← find_network nwid;
  match network with
  | Some id =>
      flags ← lift (Buffer_index pkt ZT_PROTO_VERB_EXT_FRAME_IDX_FLAGS);
      comLen ← (if negb (Z.land flags 0x01 =? 0) then
                  '(com, comLen) ← lift (COM_deserialize COM_empty pkt ZT_PROTO_VERB_EXT_FRAME_IDX_COM);
                  _ ← (if COM_bool com then _ ← on_network id (addCredential_com E com); mret tt else mret tt);
                  mret comLen
                else mret 0);
      ok ← on_network id (gate E from);
      if (ok : bool) then
        go ← (if ZT_PROTO_VERB_EXT_FRAME_IDX_PAYLOAD <? b_len pkt then ext_frame id nwid comLen else mret true);
        if (go : bool) then
          _ ← (if negb (Z.land flags 0x10 =? 0) then
                 pid ← lift (Packet_packetId pkt);
                 reply from VERB_OK (fun outp =>
                   outp ← Buffer_append_int PC outp 1 VERB_EXT_FRAME;
                   outp ← Buffer_append_int PC outp 8 pid;
                   Buffer_append_int PC outp 8 nwid)
               else mret tt);
          _ ← received VERB_EXT_FRAME true nwid; mret true
        else _ ← received VERB_EXT_FRAME true nwid; mret true
      else
        _ ← sendErrorNeedCredentials nwid;
        _ ← received VERB_EXT_FRAME false nwid; mret true
  | None => _ ← received VERB_EXT_FRAME false nwid; mret true
  end.

Definition doECHO : DM bool :=
  ok ← ask_gate rateGateEchoRequest (en_now E);
  if (ok : bool) then
    pid ← lift (Packet_packetId pkt);
    _ ← reply from VERB_OK (fun outp =>
          outp ← Buffer_append_int PC outp 1 VERB_ECHO;
          outp ← Buffer_append_int PC outp 8 pid;
          if ZT_PACKET_IDX_PAYLOAD <? b_len pkt then
            d ← mem_read (b_mem pkt) ZT_PACKET_IDX_PAYLOAD (b_len pkt - ZT_PACKET_IDX_PAYLOAD);
            Buffer_append PC outp d (b_len pkt - ZT_PACKET_IDX_PAYLOAD)
          else Ok outp);
    _ ← received VERB_ECHO false 0;
    mret true
  else mret true.

(** [authOnNetwork] holds the networks the peer was found to be on, at most 256. *)
Fixpoint like_loop (fuel : nat) (ptr : Z) (authOnNetwork : list Z) (network : option Z) (trustEstablished : bool) : DM (option Z * bool) :=
  match fuel with
  | O => lift Undef
  | S fuel =>
      if b_len pkt <=? ptr then mret (network, trustEstablished) else
      nwid ← lift (Buffer_at pkt 8 ptr);
      '(auth, authOnNetwork, network, trustEstablished) ←
        (if existsb (Z.eqb nwid) authOnNetwork then mret (true, authOnNetwork, network, trustEstablished) else
         network ← match network with Some id => if id =? nwid then mret network else find_network nwid | None => find_network nwid end;
         authOnNet ← match network with Some id => on_network id (gate E from) | None => mret false end;
         _ ← (if negb authOnNet then sendErrorNeedCredentials nwid else mret tt);
         let trustEstablished := trustEstablished || authOnNet in
         if authOnNet || px_cacheAuthorized X from nwid then
           mret (true, (if zlen authOnNetwork <? 256 then authOnNetwork ++ [nwid] else authOnNetwork), network, trustEstablished)
         else mret (false, authOnNetwork, network, trustEstablished));
      _ ← (if (auth : bool) then
             mac ← lift (Buffer_read_mac pkt (u32 (ptr + 8)));
             adi ← lift (Buffer_at pkt 4 (u32 (ptr + 14)));
             node_emit (EvMulticasterAdd nwid (mkMG mac adi) from)
           else mret tt);
      like_loop fuel (u32 (ptr + 18)) authOnNetwork network trustEstablished
  end.

Definition id_or_0 (network : option Z) : Z := match network with Some id => id | None => 0 end.

Definition doMULTICAST_LIKE : DM bool :=
  '(network, trustEstablished) ← like_loop (S (Z.to_nat (b_len pkt))) ZT_PACKET_IDX_PAYLOAD [] None false;
  _ ← received VERB_MULTICAST_LIKE trustEstablished (id_or_0 network);
  mret true.

(** *** Credentials *)

(** The variables of the handler: the position, the network and whether trust was established.
    [None]: the handler returns false. *)
Definition cred_state : Type := option (Z * option Z * bool).

Definition after_add (r : AddCredentialResult) (p : Z) (network : option Z) (trust : bool) (next : Z -> option Z -> bool -> DM cred_state) : DM cred_state :=
  match r with
  | ADD_REJECTED => next p network trust
  | ADD_ACCEPTED_NEW | ADD_ACCEPTED_REDUNDANT => next p network true
  | ADD_DEFERRED_FOR_WHOIS => mret None
  end.

(** The certificates of membership, which end with a zero byte; [com] is read over the one before. *)
Fixpoint com_loop (fuel : nat) (com : COM) (p : Z) (network : option Z) (trust : bool) : DM cred_state :=
  match fuel with
  | O => lift Undef
  | S fuel =>
      more ← (if p <? b_len pkt then v ← lift (Buffer_index pkt p); mret (negb (v =? 0)) else mret false);
      if (more : bool) then
        '(com, len) ← lift (COM_deserialize com pkt p);
        let p := u32 (p + len) in
        if COM_bool com then
          nwid ← lift (COM_networkId com);
          network ← find_network nwid;
          match network with
          | Some id => r ← on_network id (addCredential_com E com); after_add r p network trust (com_loop fuel com)
          | None => _ ← node_emit (EvMulticasterCredential com false); com_loop fuel com p network trust
          end
        else com_loop fuel com p network trust
      else mret (Some (p, network, trust))
  end.

(** The loops over the other types of credentials. *)
Fixpoint cred_loop {A} (deserialize : Buffer -> Z -> outcome (A * Z)) (networkId : A -> Z) (add : A -> NM AddCredentialResult) (n : nat) (p : Z) (network : option Z) (trust : bool)
  : DM cred_state :=
  match n with
  | O => mret (Some (p, network, trust))
  | S n =>
      '(x, len) ← lift (deserialize pkt p);
      let p := u32 (p + len) in
      network ← match network with Some id => if id =? networkId x then mret network else find_network (networkId x) | None => find_network (networkId x) end;
      match network with
      | Some id => r ← on_network id (add x); after_add r p network trust (cred_loop deserialize networkId add n)
      | None => cred_loop deserialize networkId add n p network trust
      end
  end.

(** One of the lists, with its 16-bit length in front. *)
Definition cred_list {A} (deserialize : Buffer -> Z -> outcome (A * Z)) (networkId : A -> Z) (add : A -> NM AddCredentialResult) (p : Z) (network : option Z) (trust : bool) : DM cred_state :=
  num ← lift (Buffer_at pkt 2 p);
  cred_loop deserialize networkId add (Z.to_nat num) (u32 (p + 2)) network trust.

Definition finish_credentials (network : option Z) (trust : bool) : DM bool :=
  _ ← received VERB_NETWORK_CREDENTIALS trust (id_or_0 network);
  mret true.

Definition doNETWORK_CREDENTIALS : DM bool :=
  ok ← ask_gate rateGateCredentialsReceived (en_now E);
  if negb ok then mret true else
  r ← com_loop (S (Z.to_nat (b_len pkt))) COM_empty ZT_PACKET_IDX_PAYLOAD None false;
  match r with
  | None => mret false
  | Some (p, network, trust) =>
      let p := u32 (p + 1) in
      if b_len pkt <=? p then finish_credentials network trust else
      r ← cred_list Capability_deserialize cap_nwid (addCredential_cap E) p network trust;
      match r with
      | None => mret false
      | Some (p, network, trust) =>
          if b_len pkt <=? p then mret true else
          r ← cred_list Tag_deserialize tag_networkId (addCredential_tag E) p network trust;
          match r with
          | None => mret false
          | Some (p, network, trust) =>
              if b_len pkt <=? p then mret true else
              r ← cred_list Revocation_deserialize rev_networkId (addCredential_rev E from) p network trust;
              match r with
              | None => mret false
              | Some (p, network, trust) =>
                  if b_len pkt <=? p then mret true else
                  r ← cred_list COO_deserialize coo_networkId (addCredential_coo E) p network trust;
                  match r with
                  | None => mret false
                  | Some (p, network, trust) => finish_credentials network trust
                  end
              end
          end
      end
  end.
(** *** Configurations of networks
    [U] has what the network asks besides [NodeEnv]. *)

Definition request_dictionary : outcome (list Z) :=
  metaDataLength ← (if ZT_PROTO_VERB_NETWORK_CONFIG_REQUEST_IDX_DICT_LEN <=? b_len pkt then Buffer_at pkt 2 ZT_PROTO_VERB_NETWORK_CONFIG_REQUEST_IDX_DICT_LEN else Ok 0);
  metaDataBytes ← (if negb (metaDataLength =? 0) then Buffer_read_field pkt ZT_PROTO_VERB_NETWORK_CONFIG_REQUEST_IDX_DICT metaDataLength else Ok []);
  Dictionary_new_len ZT_NETWORKCONFIG_METADATA_DICT_CAPACITY metaDataBytes metaDataLength.

Definition doNETWORK_CONFIG_REQUEST (U : UpdateEnv) : DM bool :=
  nwid ← lift (Buffer_at pkt 8 ZT_PROTO_VERB_NETWORK_CONFIG_REQUEST_IDX_NETWORK_ID);
  hopCount ← lift (Packet_hops pkt);
  requestPacketId ← lift (Packet_packetId pkt);
  _ ← (if ue_localController U then
         metaData ← lift request_dictionary;
         node_emit (EvLocalRequest nwid requestPacketId (hopCount <=? 0) from metaData)
       else
         reply from VERB_ERROR (fun outp =>
           outp ← Buffer_append_int PC outp 1 VERB_NETWORK_CONFIG_REQUEST;
           outp ← Buffer_append_int PC outp 8 requestPacketId;
           outp ← Buffer_append_int PC outp 1 ERROR_UNSUPPORTED_OPERATION;
           Buffer_append_int PC outp 8 nwid));
  _ ← received VERB_NETWORK_CONFIG_REQUEST false nwid;
  mret true.

Definition doNETWORK_CONFIG (U : UpdateEnv) : DM bool :=
  nwid ← lift (Buffer_at pkt 8 ZT_PACKET_IDX_PAYLOAD);
  network ← find_network nwid;
  _ ← match network with
      | Some id =>
          pid ← lift (Packet_packetId pkt);
          src ← lift (Packet_source pkt);
          configUpdateId ← on_network id (handleConfigChunk U pid src pkt ZT_PACKET_IDX_PAYLOAD);
          if negb (configUpdateId =? 0) then
            reply from VERB_OK (fun outp =>
              outp ← Buffer_append_int PC outp 1 VERB_ECHO;
              outp ← Buffer_append_int PC outp 8 pid;
              outp ← Buffer_append_int PC outp 8 id;
              Buffer_append_int PC outp 8 configUpdateId)
          else mret tt
      | None => mret tt
      end;
  _ ← received VERB_NETWORK_CONFIG false (id_or_0 network);
  mret true.
End Handlers.
