(* ===== verification/NodeController.v ===== *)
(** How a node that is a controller answers a member: ncSendConfig, ncSendRevocation and
    ncSendError of node/Node.cpp, the callbacks of a network controller.

    A configuration goes out as a dictionary in chunks, each signed by the controller; what
    [ConfigChunks] shows of the receiver is put together here with the sender: the member ends up
    with the configuration, in whatever order the packets arrive. *)
From stdpp Require Import gmap.
From S2P Require Import Prelude.
From S2P Require Import Utils.
From S2P Require Import Buffer.
From S2P Require Import Addressing.
From S2P Require Import Wire.
From S2P Require Import Rules.
From S2P Require Import CLib.
From S2P Require Import Dictionary.
From S2P Require Import InetAddress.
From S2P Require Import Hashtable.
From S2P Require Import C25519Api.
From S2P Require Import Identity.
From S2P Require Import CertificateOfMembership.
From S2P Require Import Credentials.
From S2P Require Import Capability.
From S2P Require Import NetworkConfig.
From S2P Require Import NetworkConfigDict.
From S2P Require Import Membership.
From S2P Require Import NetworkFilter.
From S2P Require Import Packet.
From S2P Require Import Compression.
From S2P Require Import Switch.
From S2P Require Import Fragmentation.
From S2P Require Import PushCredentials.
From S2P Require Import NetworkState.
From S2P Require Import NetworkSafety.
From S2P Require Import NetworkUpdates.
From S2P Require Import ConfigUpdates.
From S2P Require Import ConfigChunks.
From S2P Require Import RateLimits.
From S2P Require Import IncomingPacket.

Definition ERROR_OBJ_NOT_FOUND : Z := 0x03.
Definition ERROR_NETWORK_ACCESS_DENIED_ : Z := 0x07.

(** NetworkController::ErrorCode *)
Inductive ErrorCode : Type := NC_ERROR_NONE | NC_ERROR_OBJECT_NOT_FOUND | NC_ERROR_ACCESS_DENIED | NC_ERROR_INTERNAL_SERVER_ERROR.

Section Controller.
Context `{Ops : C25519Ops} (U : UpdateEnv) (identity : Identity).
Let E := ue_node U.

Definition node_prng : DM Z :=
  s ← get_state;
  let '(r, prng) := Node_prng (no_prng s) in
  _ ← modify (fun s => mkNodeState (no_networks s) (no_gates s) prng (no_log s));
  mret r.

(** A new packet for [dest], filled, and handed to the switch. *)
Definition node_send (dest verb : Z) (compress : bool) (fill : Buffer -> outcome Buffer) : DM unit :=
  k ← node_ticket;
  outp ← lift (Packet_new (en_memory E) k dest (en_self E) verb);
  outp ← lift (fill outp);
  outp ← (if compress then '(_, outp) ← lift (Packet_compress (pm_buf (en_memory E) k) outp); mret outp else mret outp);
  node_emit (EvSend outp).

(** ** ncSendConfig *)

Definition MAX_CHUNK : Z := PC - (ZT_PACKET_IDX_PAYLOAD + 256).

Definition append_in_re (requestPacketId : Z) (outp : Buffer) : outcome Buffer :=
  if negb (requestPacketId =? 0) then
    outp ← Buffer_append_int PC outp 1 VERB_NETWORK_CONFIG_REQUEST;
    Buffer_append_int PC outp 8 requestPacketId
  else Ok outp.

(** The chunk, without its signature. *)
Definition append_chunk (nwid configUpdateId totalSize : Z) (dconf : list Z) (chunkIndex chunkLen : Z) (outp : Buffer) : outcome Buffer :=
  outp ← Buffer_append_int PC outp 8 nwid;
  outp ← Buffer_append_int PC outp 2 chunkLen;
  outp ← Buffer_append PC outp (zdrop chunkIndex dconf) chunkLen;
  outp ← Buffer_append_int PC outp 1 0;
  outp ← Buffer_append_int PC outp 8 configUpdateId;
  outp ← Buffer_append_int PC outp 4 totalSize;
  Buffer_append_int PC outp 4 chunkIndex.

Definition sign_chunk (sigStart : Z) (outp : Buffer) : outcome Buffer :=
  sig ← Identity_sign identity (zdrop sigStart (buf_data outp));
  outp ← Buffer_append_int PC outp 1 1;
  outp ← Buffer_append_int PC outp 2 ZT_C25519_SIGNATURE_LEN;
  Buffer_append PC outp sig ZT_C25519_SIGNATURE_LEN.

Fixpoint send_config_chunks (fuel : nat) (nwid requestPacketId destination configUpdateId totalSize : Z) (dconf : list Z) (chunkIndex : Z) : DM unit :=
  match fuel with
  | O => lift Undef
  | S fuel =>
      if chunkIndex <? totalSize then
        let chunkLen := Z.min (u32 (totalSize - chunkIndex)) MAX_CHUNK in
        _ ← node_send destination (if negb (requestPacketId =? 0) then VERB_OK else VERB_NETWORK_CONFIG) true (fun outp =>
              outp ← append_in_re requestPacketId outp;
              let sigStart := b_len outp in
              outp ← append_chunk nwid configUpdateId totalSize dconf chunkIndex chunkLen outp;
              sign_chunk sigStart outp);
        send_config_chunks fuel nwid requestPacketId destination configUpdateId totalSize dconf (u32 (chunkIndex + chunkLen))
      else mret tt
  end.

Definition ncSendConfig (nwid requestPacketId destination : Z) (nc : NetworkConfig) (sendLegacyFormatConfig : bool) : DM unit :=
  if destination =? en_self E then
    network ← find_network nwid;
    match network with
    | Some id => _ ← on_network id (setConfiguration U nc true); mret tt
    | None => mret tt
    end
  else
    '(dconf, ok) ← lift (NetworkConfig_toDictionary CAP (ue_legacyFields U) nc sendLegacyFormatConfig (ue_tmp U));
    if (ok : bool) then
      r ← node_prng;
      let configUpdateId := if r =? 0 then 1 else r in
      let totalSize := Dictionary_sizeBytes CAP dconf in
      send_config_chunks (S (Z.to_nat totalSize)) nwid requestPacketId destination configUpdateId totalSize dconf 0
    else mret tt.

(** ** ncSendRevocation and ncSendError *)

Definition ncSendRevocation (destination : Z) (rev : Revocation) : DM unit :=
  if destination =? en_self E then
    network ← find_network (rev_networkId rev);
    match network with
    | Some id => _ ← on_network id (addCredential_rev E (en_self E) rev); mret tt
    | None => mret tt
    end
  else
    node_send destination VERB_NETWORK_CREDENTIALS false (fun outp =>
      outp ← Buffer_append_int PC outp 1 0;
      outp ← Buffer_append_int PC outp 2 0;
      outp ← Buffer_append_int PC outp 2 0;
      outp ← Buffer_append_int PC outp 2 1;
      outp ← Revocation_serialize PC rev false outp;
      Buffer_append_int PC outp 2 0).

Definition ncSendError (nwid requestPacketId destination : Z) (errorCode : ErrorCode) : DM unit :=
  if destination =? en_self E then
    network ← find_network nwid;
    match network with
    | Some id =>
        match errorCode with
        | NC_ERROR_OBJECT_NOT_FOUND | NC_ERROR_INTERNAL_SERVER_ERROR => on_network id setNotFound
        | NC_ERROR_ACCESS_DENIED => on_network id setAccessDenied
        | NC_ERROR_NONE => mret tt
        end
    | None => mret tt
    end
  else if negb (requestPacketId =? 0) then
    node_send destination VERB_ERROR false (fun outp =>
      outp ← Buffer_append_int PC outp 1 VERB_NETWORK_CONFIG_REQUEST;
      outp ← Buffer_append_int PC outp 8 requestPacketId;
      outp ← Buffer_append_int PC outp 1 (match errorCode with NC_ERROR_ACCESS_DENIED => ERROR_NETWORK_ACCESS_DENIED_ | _ => ERROR_OBJ_NOT_FOUND end);
      Buffer_append_int PC outp 8 nwid)
  else mret tt.

(** ** What is sent *)

Context (HE : env_ok E).

Definition sends (s s' : NodeState) (packets : list Buffer) : Prop :=
  s' = mkNodeState (no_networks s) (no_gates s) (no_prng s) (no_log s ++ (EvSend <$> packets)).

Lemma sends_trans s1 s2 s3 p q : sends s1 s2 p -> sends s2 s3 q -> sends s1 s3 (p ++ q).
Proof. intros -> ->. unfold sends. cbn. by rewrite fmap_app, app_assoc. Qed.

Lemma node_send_runs s dest verb compress fill d : in_range 5 verb -> in_range 40 dest -> 28 + zlen d <= PC ->
  (forall b, buf_wf PC b -> b_len b = 28 -> exists b', fill b = Ok b' /\ buf_wf PC b' /\ buf_data b' = buf_data b ++ d) ->
  runs (node_send dest verb compress fill) s (fun s' _ => exists p, sends s s' [p] /\ sent_as verb dest (en_self E) d p).
Proof.
  intros Hv Hd Hl Hf. destruct HE as [He1 He2 He3 He4]. unfold node_send. eapply runs_step; [reflexivity|]. destruct (verb_facts verb Hv) as (Hvb & _).
  destruct (Packet_new_Ok (en_memory E) (length (no_log s)) dest (en_self E) verb He3 Hvb) as (b & Eb & Hb). eapply runs_lift_bind; [exact Eb|].
  pose proof Hb as (Hbw & Hbl & _). destruct (Hf b Hbw Hbl) as (b' & Ef & Hb' & Hd'). eapply runs_lift_bind; [exact Ef|].
  assert (Hemit : forall p, sent_as verb dest (en_self E) d p -> runs (node_emit (EvSend p)) s (fun s' _ => exists p, sends s s' [p] /\ sent_as verb dest (en_self E) d p)).
  { intros p Hp. eexists _, _. split; [done|]. by exists p. }
  destruct compress.
  - destruct (compress_sent verb dest (en_self E) b b' d (pm_buf (en_memory E) (length (no_log s))) Hb Hv Hd He1 Hb' Hd' (mo_buf _ He3 _)) as (c & p & Ec & Hp).
    eapply runs_step; [unfold mbind, sm_bind, lift; rewrite Ec; reflexivity|]. by apply Hemit.
  - eapply runs_step; [reflexivity|]. apply Hemit. by eapply plain_sent.
Qed.

Context (priv : list Z) (Hshape : C25519Shape Ops) (Hkey : id_privateKey identity = Some priv) (Hpub : id_publicKey identity = C25519_public priv).

(** The chunk of a text, signed. *)
Definition signed (nwid updateId total index : Z) (data : list Z) : Part :=
  mkPart index data (C25519_sign priv (C25519_public priv) (chunk_body nwid updateId total (mkPart index data []))).
Definition in_re_enc (requestPacketId : Z) : list Z := if negb (requestPacketId =? 0) then be_bytes 1 VERB_NETWORK_CONFIG_REQUEST ++ be_bytes 8 requestPacketId else [].

Lemma in_re_appends requestPacketId : appends PC (append_in_re requestPacketId) (in_re_enc requestPacketId).
Proof. unfold append_in_re, in_re_enc. destruct (negb _); [apply (appends_bind PC); apply appends_int|apply appends_ret]. Qed.

Lemma in_re_len requestPacketId : 0 <= zlen (in_re_enc requestPacketId) <= 9.
Proof. unfold in_re_enc. destruct (negb _); [|done]. rewrite zlen_app, !zlen_be_bytes. lia. Qed.

Lemma chunk_appends nwid updateId total dconf index len : Forall is_byte (slice index len dconf) -> 0 <= index -> 0 <= len <= MAX_CHUNK -> index + len <= zlen dconf ->
  appends PC (append_chunk nwid updateId total dconf index len) (chunk_body nwid updateId total (mkPart index (slice index len dconf) [])).
Proof.
  intros Hb Hi Hl Hle. pose proof PC_value as HPC. unfold MAX_CHUNK, ZT_PACKET_IDX_PAYLOAD in Hl. unfold append_chunk, chunk_body. cbn [pt_data pt_index]. rewrite zlen_slice by lia.
  do 2 (apply (appends_bind PC); [apply appends_int|]). apply (appends_bind PC); [|].
  { apply (appends_ext PC (fun b => Buffer_append PC b (slice index len dconf) len)); [|apply appends_whole; [done|apply zlen_slice; lia|lia]].
    intros b. unfold Buffer_append, mem_read. rewrite zlen_slice, zlen_zdrop, !(proj2 (Z.leb_le _ _)) by lia. cbn [andb]. by rewrite !slice_0, ztake_all by (rewrite zlen_slice; lia). }
  do 3 (apply (appends_bind PC); [apply appends_int|]). apply appends_int.
Qed.

Lemma fill_chunk_Ok nwid requestPacketId updateId total dconf index len b :
  Forall is_byte (slice index len dconf) -> 0 <= index -> 0 <= len <= MAX_CHUNK -> index + len <= zlen dconf -> buf_wf PC b -> b_len b = 28 ->
  exists b', (outp ← append_in_re requestPacketId b; let sigStart := b_len outp in outp ← append_chunk nwid updateId total dconf index len outp; sign_chunk sigStart outp) = Ok b' /\ buf_wf PC b' /\
    buf_data b' = buf_data b ++ in_re_enc requestPacketId ++ chunk_enc nwid updateId total (signed nwid updateId total index (slice index len dconf)).
Proof.
  intros Hby Hi Hl Hle Hb Hbl. pose proof (in_re_len requestPacketId). pose proof PC_value as HPC. unfold MAX_CHUNK, ZT_PACKET_IDX_PAYLOAD in Hl.
  destruct (appends_fits _ _ b (in_re_appends requestPacketId) Hb) as (b1 & E1 & Hb1 & Hd1 & Hl1); [lia|]. rewrite E1. cbn [mbind outcome_bind]. cbv zeta.
  pose proof (chunk_appends nwid updateId total dconf index len Hby Hi ltac:(unfold MAX_CHUNK, ZT_PACKET_IDX_PAYLOAD; lia) Hle) as Ha. set (body := chunk_body _ _ _ _) in Ha.
  assert (Hbody : zlen body = 27 + len) by (unfold body, chunk_body; cbn [pt_data pt_index]; rewrite !zlen_app, !zlen_be_bytes, zlen_slice by lia; lia).
  destruct (appends_fits _ _ b1 Ha Hb1) as (b2 & E2 & Hb2 & Hd2 & Hl2); [lia|]. rewrite E2. cbn [mbind outcome_bind]. unfold sign_chunk, Identity_sign. rewrite Hkey, Hpub. cbn [mbind outcome_bind].
  rewrite Hd2, zdrop_app_exact by (by apply (zlen_buf_data PC)). destruct (sign_bytes priv (C25519_public priv) body) as [Hs1 Hs2]. set (sig := C25519_sign _ _ body) in *.
  assert (Ha2 : appends PC (fun b => outp ← Buffer_append_int PC b 1 1; outp ← Buffer_append_int PC outp 2 ZT_C25519_SIGNATURE_LEN; Buffer_append PC outp sig ZT_C25519_SIGNATURE_LEN)
    (be_bytes 1 1 ++ be_bytes 2 96 ++ sig)).
  { do 2 (apply (appends_bind PC); [apply appends_int|]). apply appends_whole; [done|unfold zlen; by rewrite Hs1|rewrite HPC; done]. }
  destruct (appends_fits _ _ b2 Ha2 Hb2) as (b3 & E3 & Hb3 & Hd3 & _); [rewrite !zlen_app, !zlen_be_bytes; assert (zlen sig = 96) by (unfold zlen; by rewrite Hs1); lia|]. rewrite E3.
  exists b3. split; [done|]. split; [done|]. rewrite Hd3, Hd2, Hd1, <- !app_assoc. unfold chunk_enc. done.
Qed.

(** A part of a configuration, as the controller sends it. *)
Definition sent_part (nwid updateId total : Z) (x : Part) : Prop :=
  zlen (pt_data x) <= MAX_CHUNK /\ pt_sig x = C25519_sign priv (C25519_public priv) (chunk_body nwid updateId total x).

Section Chunks.
Context (nwid requestPacketId destination updateId total : Z) (dconf : list Z).
Context (Hdest : in_range 40 destination) (Hconf : zlen dconf = CAP) (Hbytes : Forall is_byte (ztake total dconf)) (Htotal : 0 <= total < CAP).

Definition carries (x : Part) (p : Buffer) : Prop :=
  sent_as (if negb (requestPacketId =? 0) then VERB_OK else VERB_NETWORK_CONFIG) destination (en_self E) (in_re_enc requestPacketId ++ chunk_enc nwid updateId total x) p.

Lemma zlen_signed index len : 0 <= index -> 0 <= len -> index + len <= CAP ->
  zlen (chunk_enc nwid updateId total (signed nwid updateId total index (slice index len dconf))) = 126 + len.
Proof.
  intros H1 H2 H3. unfold chunk_enc, signed, chunk_body. cbn [pt_data pt_index pt_sig]. rewrite !zlen_app, !zlen_be_bytes, zlen_slice by lia.
  match goal with |- context [zlen (C25519_sign ?a ?b ?c)] => assert (zlen (C25519_sign a b c) = 96) as -> by (unfold zlen; by rewrite (proj1 (sign_bytes a b c))) end. lia.
Qed.

Lemma send_chunks_runs fuel : forall index s, 0 <= index <= total -> total - index < Z.of_nat fuel ->
  runs (send_config_chunks fuel nwid requestPacketId destination updateId total dconf index) s (fun s' _ => exists ps packets, sends s s' packets /\ cut index ps /\
    text_of ps = slice index (total - index) dconf /\ Forall (sent_part nwid updateId total) ps /\ (ps <> [] -> (zlen ps - 1) * MAX_CHUNK < total - index) /\ Forall2 carries ps packets).
Proof.
  assert (HM : MAX_CHUNK = 9824) by (unfold MAX_CHUNK; by rewrite PC_value). pose proof PC_value. pose proof CAP_value.
  induction fuel as [|fuel IH]; intros index s Hi Hf; [lia|]. cbn [send_config_chunks]. destruct (Z.ltb_spec index total) as [Hlt|Hge].
  - rewrite (u32_id (total - index)) by (unfold in_range; lia). set (len := Z.min (total - index) MAX_CHUNK). assert (0 < len <= MAX_CHUNK /\ index + len <= total) as [Hlen Hlen2] by (unfold len; rewrite HM; lia).
    pose proof (in_re_len requestPacketId). pose proof (zlen_signed index len ltac:(lia) ltac:(lia) ltac:(lia)) as Hz. set (x := signed nwid updateId total index (slice index len dconf)) in *.
    eapply runs_bind; [apply (node_send_runs s destination _ true _ (in_re_enc requestPacketId ++ chunk_enc nwid updateId total x)); [by destruct (negb _)|done|rewrite zlen_app, Hz; lia|]|].
    { intros b Hb Hbl. apply fill_chunk_Ok; try done; try lia. unfold slice. rewrite <- (ztake_ztake len (total - index)) by lia. apply Forall_take. fold (slice index (total - index) dconf). rewrite <- zdrop_ztake by lia. by apply Forall_drop. }
    intros s1 [] (p & Hs1 & Hp). assert (Hdx : zlen (pt_data x) = len) by (unfold x; cbn [signed pt_data]; apply zlen_slice; lia). rewrite u32_id by (unfold in_range; lia). eapply runs_weaken; [apply (IH (index + len) s1); lia|].
    intros s2 [] (ps & packets & Hs2 & Hc & Ht & Hps & Hn & H2). exists (x :: ps), (p :: packets). split; [apply (sends_trans s s1 s2 [p] packets Hs1 Hs2)|].
    split; [split; [done|]; rewrite Hdx; split; [|done]; intros Hnil; rewrite Hnil in Hdx; change (zlen []) with 0 in Hdx; lia|].
    split; [change (text_of (x :: ps)) with (pt_data x ++ text_of ps); rewrite Ht, (slice_split index len (total - index)) by lia; f_equal; f_equal; lia|].
    split; [constructor; [|done]; split; [lia|]; done|]. split; [|by constructor]. intros _. assert (Hz1 : zlen (x :: ps) = 1 + zlen ps) by (unfold zlen; cbn [length]; lia). rewrite Hz1.
    destruct ps as [|y ps]; [change (zlen []) with 0; lia|]. specialize (Hn ltac:(done)). assert (len = MAX_CHUNK).
    { destruct Hc as (_ & _ & _). assert (0 < total - (index + len)); [|unfold len in *; lia]. assert (0 <= zlen (y :: ps) - 1) by (unfold zlen; cbn [length]; lia). nia. }
    lia.
  - apply runs_ret. exists [], []. assert (index = total) as -> by lia. rewrite Z.sub_diag. split; [unfold sends; cbn; rewrite app_nil_r; by destruct s|]. split_and!; try done; constructor.
Qed.
End Chunks.
End Controller.

(** ** From the controller to the member *)

(** The packet [p] as the handler gets it. *)
Definition opened (requestPacketId : Z) (p : Buffer) (d : Delivery) : Prop :=
  dl_start d = 28 + zlen (in_re_enc requestPacketId) /\
  exists adata abuf buf, addresses_ok adata abuf /\ zlen buf = PC /\ Forall is_byte buf /\ Packet_uncompress adata abuf buf p = Ok (true, dl_packet d).

Lemma opened_arrives U nwid requestPacketId destination updateId total x p d : carries U nwid requestPacketId destination updateId total x p -> opened requestPacketId p d ->
  arrives (dl_packet d) (dl_start d) nwid updateId total x.
Proof.
  intros (_ & _ & _ & _ & Hun) (Hst & adata & abuf & buf & Ha & Hz & Hb & Eu). destruct (Hun adata abuf buf Ha Hz Hb) as (p' & Ep & Hw & _ & _ & _ & Hh & Hl). rewrite Ep in Eu. injection Eu as ->. rewrite Hst.
  rewrite zlen_app in Hl. apply has_at_app in Hh as [_ Hh]. constructor; [done|done|lia].
Qed.

(** A member of the network, and the controller it knows. *)
Record ready `{C25519Ops} (M : UpdateEnv) (N : Z) (pub : list Z) (nc : NetworkConfig) (s : NetState) : Prop := {
  rd_long : 32 <= ue_ulong M;
  rd_tmp : buf_wf CAP (ue_tmp M);
  rd_same : forall a b, en_same (ue_node M) a b = true -> a = b;
  rd_for_us : nc_issuedTo nc = en_self (ue_node M) /\ nc_networkId nc = nt_id (ns_network s);
  rd_joined : nt_destroyed (ns_network s) = false;
  rd_members : table_ok N (nt_memberships (ns_network s)) /\ N < 2 ^ 59;
  rd_slots : nt_incomingConfigChunks (ns_network s) <> [] /\ Forall slot_ok (nt_incomingConfigChunks (ns_network s));
  rd_controller : let ctl := en_getIdentity (ue_node M) (controller (ns_network s)) in Identity_bool ctl = true /\ id_publicKey ctl = pub
}.

Lemma updateId_range st r prng : Node_prng st = (r, prng) -> is_u64 (if r =? 0 then 1 else r).
Proof. destruct st as [x y]. cbn [Node_prng]. intros [= <- _]. destruct (_ =? 0); [done|]. apply wrap_range. done. Qed.

Lemma updateId_nonzero r : (if r =? 0 then 1 else r) <> 0.
Proof. by destruct (Z.eqb_spec r 0). Qed.

Section Reaches.
Context `{Ops : C25519Ops} {Hshape : C25519Shape Ops} (U M : UpdateEnv) (identity : Identity) (priv : list Z) (nc : NetworkConfig) (N : Z) (s : NodeState) (ms : NetState) (requestPacketId destination : Z).
Context (HE : env_ok (ue_node U)) (Htmp : buf_wf CAP (ue_tmp U)) (Hkey : id_privateKey identity = Some priv) (Hpub : id_publicKey identity = C25519_public priv).
Context (Hnc : storable nc) (Hsz : nc_sizes nc) (Htags : zlen (nc_tags nc) <= ZT_MAX_NETWORK_TAGS) (Hdest : in_range 40 destination) (Hother : destination <> en_self (ue_node U)).
Context (Hready : ready M N (C25519_public priv) nc ms).
Let nwid := nc_networkId nc.
Let text := dict_text (nc_entries nc).

(** The member has the configuration once it has all the chunks. *)
Lemma chunks_install updateId ps packets order ds : is_u64 updateId -> cut 0 ps -> text_of ps = text -> Forall (sent_part priv nwid updateId (zlen text)) ps -> zlen ps <= ZT_NETWORK_MAX_UPDATE_CHUNKS ->
  Forall2 (carries U nwid requestPacketId destination updateId (zlen text)) ps packets -> Forall (fun c => ic_updateId c <> updateId) (nt_incomingConfigChunks (ns_network ms)) ->
  Forall (fun x => C25519_accepts priv (chunk_body nwid updateId (zlen text) x)) ps -> NoDup ((fun x => sig_id (pt_sig x)) <$> ps) -> order ≡ₚ packets -> Forall2 (opened requestPacketId) order ds ->
  runs (deliver M ds) ms (fun ms' rs => rs = replicate (pred (length packets)) 0 ++ [updateId] /\ nc_same nc (nt_config (ns_network ms'))).
Proof.
  intros Hid Hcut Htext Hparts Hcount Hc Hfresh Hacc Hsigs Hord Hop. destruct Hready as [R1 R2 R3 [R4 R5] R6 [R7 R8] [R9 R10] [R11 R12]]. pose proof Hnc as [Hw Hl]. fold text in Hl.
  assert (Hbytes : bytes_of ps = zlen text) by (unfold bytes_of; by rewrite <- Htext). assert (HM : MAX_CHUNK = 9824) by (unfold MAX_CHUNK; by rewrite PC_value).
  apply (Forall2_flip (carries U nwid requestPacketId destination updateId (zlen text))) in Hc.
  destruct (Permutation_Forall2 (symmetry Hord) Hc) as (xs & Hxs & Hcx). assert (Hlen : length packets = length xs) by (by rewrite <- (Permutation_length Hxs), (Forall2_length _ _ _ Hc)). rewrite Hlen.
  assert (Hok : Forall (part_ok (zlen text)) ps).
  { rewrite Forall_forall in Hparts |- *. intros x Hx. destruct (Hparts x Hx) as [Hx1 Hx2]. destruct (cut_range ps 0 x Hcut Hx). constructor; [lia|lia|]. rewrite Hx2. unfold zlen. by rewrite (proj1 (sign_bytes _ _ _)). }
  eapply runs_weaken; [apply (deliver_runs M nwid updateId (zlen text) R1 ltac:(apply Hw) Hid ltac:(pose proof (zlen_nonneg text); lia) N R8 R2 (fun nc' => nc_same nc nc' /\ storable nc') ltac:(by intros ? []) ps Hcut Hbytes Hok Hcount Hsigs
    ltac:(intros data D1 D2 D3; rewrite Htext in D2; by apply (reads_config (ue_legacy M) (ue_tmp M) nc data)) xs ds [] ms)|].
  - intros ->. apply Permutation_nil_r in Hxs. subst ps. apply (dict_text_nonempty (nc_entries nc)); [done|]. fold text. by rewrite <- Htext.
  - by rewrite Hxs.
  - clear -Hcx Hop. revert ds Hop. induction Hcx as [|p x ps' xs Hpx _ IH]; intros ds Hop; inversion Hop; subst; constructor; [by eapply opened_arrives|by apply IH].
  - done.
  - done.
  - split; [done|]. split; [done|]. by left.
  - rewrite <- Hxs. eapply Forall_impl; [exact (proj2 (Forall_and _ _) (conj Hparts Hacc))|]. intros x [[_ Hx] Ha]. split; [done|]. unfold Identity_verify. cbn [Z.eqb negb]. change (96 =? ZT_C25519_SIGNATURE_LEN) with true. cbn [negb]. rewrite R12, Hx. exact Ha.
  - intros ms' rs (-> & cs' & nc' & k & [Hsame _] & Hk). split; [done|]. unfold config_taken in Hk. cbn [with_slots ns_network with_chunks nt_destroyed nt_id nt_config] in Hk.
    pose proof (sm_numbers _ _ Hsame) as [= E1 _ _ _ E5 _]. rewrite R6, E1, E5, R4, R5, !Z.eqb_refl in Hk. cbn [orb negb] in Hk. destruct (en_same _ _ _) eqn:Esame in Hk.
    + destruct Hk as [_ ->]. cbn. by rewrite (R3 _ _ Esame).
    + destruct Hk as (_ & h & _ & _ & ->). done.
Qed.

Lemma ncSendConfig_sends : exists updateId ps packets,
  runs (ncSendConfig U identity nwid requestPacketId destination nc false) s (fun s' _ => no_networks s' = no_networks s /\ no_log s' = no_log s ++ (EvSend <$> packets)) /\
  (is_u64 updateId /\ updateId <> 0) /\ cut 0 ps /\ text_of ps = text /\ Forall (sent_part priv nwid updateId (zlen text)) ps /\ (zlen ps - 1) * MAX_CHUNK < zlen text /\
  Forall2 (carries U nwid requestPacketId destination updateId (zlen text)) ps packets.
Proof.
  pose proof Hnc as [Hw Hl]. fold text in Hl. pose proof (zlen_nonneg text). pose proof CAP_value as HCAP. assert (HM : MAX_CHUNK = 9824) by (unfold MAX_CHUNK; by rewrite PC_value).
  destruct (toDictionary_holds CAP ltac:(by rewrite HCAP) (ue_legacyFields U) nc (ue_tmp U) Hw Htmp Hl) as (d & Ed & [[Hd1 Hd2] Hd3 _ Hd5]).
  assert (Hsize : Dictionary_sizeBytes CAP d = zlen text) by (unfold Dictionary_sizeBytes; rewrite sizeBytes_loop_spec by done; by rewrite Hd3).
  destruct (Node_prng (no_prng s)) as [r prng] eqn:Er. set (updateId := if r =? 0 then 1 else r). set (s1 := mkNodeState (no_networks s) (no_gates s) prng (no_log s)).
  assert (Hid : is_u64 updateId) by exact (updateId_range _ _ _ Er). assert (Hnz : updateId <> 0) by exact (updateId_nonzero r).
  assert (Htake : ztake (zlen text) d = text) by (destruct (cstr_split d Hd2) as [rest Es]; rewrite Es, Hd3; by apply ztake_app_exact).
  assert (Hdb : Forall is_byte (ztake (zlen text) d)) by (rewrite Htake; apply dict_text_bytes; [apply nc_entries_keys|done]).
  destruct (send_chunks_runs U identity HE priv Hshape Hkey Hpub nwid requestPacketId destination updateId (zlen text) d Hdest Hd1 Hdb ltac:(lia) (S (Z.to_nat (zlen text))) 0 s1 ltac:(lia) ltac:(lia))
    as (s2 & [] & E2 & ps & packets & Hs2 & Hc & Ht & Hp & Hn & H2). exists updateId, ps, packets. rewrite Z.sub_0_r, slice_0 in Ht.
  split.
  - unfold ncSendConfig. rewrite (proj2 (Z.eqb_neq _ _)) by done. eapply runs_lift_bind; [exact Ed|]. cbn beta iota. eapply runs_step; [unfold node_prng, mbind, sm_bind, get_state; cbn; rewrite Er; reflexivity|].
    fold updateId s1. rewrite Hsize. eexists s2, tt. split; [exact E2|]. rewrite Hs2. split; reflexivity.
  - split; [split; [exact Hid|exact Hnz]|]. split; [exact Hc|]. split; [by rewrite Ht|]. split; [exact Hp|]. split; [|exact H2].
    rewrite Z.sub_0_r in Hn. destruct ps as [|x ps']; [change (zlen []) with 0; lia|]. by apply Hn.
Qed.
End Reaches.


(** ** A controller and a member *)

Section Sample.
Import Toy.

Definition idle_node : NodeState := mkNodeState ∅ PeerGates_new (1, 2) [].

Lemma joining_ready : ready (sample_update_env 0x99) 0 (C25519_public (replicate 64 7)) (sample_config 0) joining.
Proof.
  constructor; [done|apply sample_tmp_ok|done|done|done|split; [apply blank_table_ok|lia]| |done].
  split; [done|]. apply Forall_replicate, blank_chunk_ok.
Qed.

Definition zeros : list Z := replicate (Z.to_nat PC) 0.

Lemma zeros_ok : addresses_ok 0 0 /\ zlen zeros = PC /\ Forall is_byte zeros.
Proof. pose proof PC_value. split; [unfold addresses_ok; lia|]. split; [apply zlen_replicate_Z; lia|by apply Forall_replicate]. Qed.

End Sample.
