(* ===== verification/FrameHandlers.v ===== *)
(** Which frames of the network reach the host: the handlers of FRAME and EXT_FRAME packets of
    node/IncomingPacket.cpp.

    The handlers end with true on every packet; they hand a frame to the host exactly when the
    sender is let in by the gate of the network, the filter accepts the frame and, unless the
    filter accepts it regardless, the rules for bridging allow its MAC addresses.  The frame is the
    one in the packet. *)
From stdpp Require Import gmap.
From S2P Require Import Prelude.
From S2P Require Import Utils.
From S2P Require Import Buffer.
From S2P Require Import Addressing.
From S2P Require Import Wire.
From S2P Require Import C25519Api.
From S2P Require Import CertificateOfMembership.
From S2P Require Import Credentials.
From S2P Require Import Capability.
From S2P Require Import NetworkConfig.
From S2P Require Import Membership.
From S2P Require Import NetworkFilter.
From S2P Require Import Packet.
From S2P Require Import Compression.
From S2P Require Import Switch.
From S2P Require Import Fragmentation.
From S2P Require Import SwitchSafety.
From S2P Require Import PushCredentials.
From S2P Require Import NetworkState.
From S2P Require Import NetworkSafety.
From S2P Require Import NetworkGate.
From S2P Require Import NetworkBridges.
From S2P Require Import NetworkFrames.
From S2P Require Import RateLimits.
From S2P Require Import IncomingPacket.

(** ** The node between packets *)

Record node_inv `{C25519Ops} (E : NodeEnv) (N : Z) (s : NodeState) : Prop := {
  nv_networks : forall id n, no_networks s !! id = Some n -> net_inv E N n /\ nt_id n = id;
  nv_gates : gates_ok (no_gates s)
}.

(** A packet that a handler gets. *)
Record handler_ok (X : PacketEnv) (pkt : Buffer) (from : Z) (key : list Z) : Prop := {
  hk_env : env_ok (px_node X);
  hk_tmp : tmp_ok (px_tmp X);
  hk_packet : packet_ok pkt;
  hk_from : in_range 40 from;
  hk_key : 32 <= zlen key
}.

Definition is_put (e : net_event) : bool := match e with EvPutFrame _ _ _ _ _ => true | _ => false end.
Definition frames_put (evs : list net_event) : list net_event := List.filter is_put evs.

Lemma frames_put_app e1 e2 : frames_put (e1 ++ e2) = frames_put e1 ++ frames_put e2.
Proof. apply List.filter_app. Qed.
Lemma frames_put_sends ps : frames_put (EvSend <$> ps) = [].
Proof. induction ps as [|p ps IH]; [done|exact IH]. Qed.
Lemma frames_put_sent `{C25519Ops} E nconf id f M ds evs M' : sent_all E nconf id f M ds evs M' -> frames_put evs = [].
Proof. induction 1 as [| |M c p ds evs M' _ _ IH]; [done|by rewrite frames_put_app, frames_put_sends|exact IH]. Qed.

Section Handler.
Context `{Ops : C25519Ops} (X : PacketEnv) (pkt : Buffer) (from : Z) (key : list Z) (HX : handler_ok X pkt from key).
Let E := px_node X.

(** From [s] to [s'] with the events [evs], the invariant holding after. *)
Record heard (N : Z) (s s' : NodeState) (evs : list net_event) : Prop := {
  hd_inv : node_inv E N s';
  hd_log : no_log s' = no_log s ++ evs
}.

Lemma heard_refl N s : node_inv E N s -> heard N s s [].
Proof. intros H. split; [done|by rewrite app_nil_r]. Qed.
Lemma heard_trans N1 N2 s1 s2 s3 e1 e2 : heard N1 s1 s2 e1 -> heard N2 s2 s3 e2 -> heard N2 s1 s3 (e1 ++ e2).
Proof. intros [_ H1] [H2 H3]. split; [done|]. by rewrite H3, H1, app_assoc. Qed.

Lemma node_inv_mono N N' s : node_inv E N s -> N <= N' -> node_inv E N' s.
Proof. intros [H1 H2] H. split; [|done]. intros id n Hn. destruct (H1 id n Hn). split; [by eapply net_inv_mono|done]. Qed.

Definition net_state (s : NodeState) (n : Network) : NetState := mkNetState n (no_prng s) (no_log s).
Definition put_network (s : NodeState) (id : Z) (t : NetState) : NodeState :=
  mkNodeState (<[id := ns_network t]> (no_networks s)) (no_gates s) (ns_prng t) (ns_log t).

Lemma on_network_runs {A} id n (m : NM A) s Q : no_networks s !! id = Some n -> runs m (net_state s n) Q -> runs (on_network id m) s (fun s' a => exists t, s' = put_network s id t /\ Q t a).
Proof. intros Hn (t & a & Em & HQ). exists (put_network s id t), a. unfold on_network. rewrite Hn. unfold net_state in Em. rewrite Em. eauto. Qed.

Lemma put_network_inv N s id n t : node_inv E N s -> no_networks s !! id = Some n -> net_inv E N (ns_network t) -> nt_id (ns_network t) = nt_id n -> node_inv E N (put_network s id t).
Proof.
  intros [H1 H2] Hn Ht Hid. split; [|done]. cbn. intros id' n'. rewrite lookup_insert_Some. intros [[<- <-]|[_ Hn']]; [|by apply H1]. split; [done|]. rewrite Hid. by apply H1.
Qed.

Lemma emit_heard N s e : node_inv E N s -> runs (node_emit e) s (fun s' _ => heard N s s' [e] /\ no_networks s' = no_networks s /\ no_prng s' = no_prng s).
Proof. intros [H1 H2]. eexists _, _. split; [reflexivity|]. by split. Qed.

Lemma header_Ok : exists h pid src v, Packet_hops pkt = Ok h /\ Packet_packetId pkt = Ok pid /\ Packet_source pkt = Ok src /\ Packet_verb pkt = Ok v /\ in_range 40 src.
Proof.
  destruct (hk_packet _ _ _ _ HX) as [Hb Hl]. destruct (index_Ok PC pkt 18 Hb) as (f & Ef & _); [lia|]. destruct (index_Ok PC pkt 27 Hb) as (v & Ev & _); [lia|].
  unfold Packet_hops, Packet_packetId, Packet_source, Packet_verb, ZT_PACKET_IDX_FLAGS, ZT_PACKET_IDX_VERB, ZT_PACKET_IDX_IV, ZT_PACKET_IDX_SOURCE. rewrite Ef, Ev, (at_Ok PC) by (done || lia).
  rewrite read_address_Ok by (done || lia). cbn [mbind outcome_bind]. do 4 eexists. split_and!; try done.
  assert (Hz : zlen (slice 13 5 (buf_data pkt)) = 5) by (apply zlen_slice; rewrite ?(zlen_buf_data PC) by done; lia).
  pose proof (be_val_range (slice 13 5 (buf_data pkt))) as Hr. rewrite Hz in Hr. apply Hr. apply Forall_take, Forall_drop. by apply (buf_data_bytes PC).
Qed.

Lemma received_runs N s verb trust nwid : node_inv E N s -> runs (received pkt verb trust nwid) s (fun s' _ => exists evs, heard N s s' evs /\ frames_put evs = []).
Proof.
  intros Hi. destruct header_Ok as (h & pid & src & v & E1 & E2 & _). unfold received. eapply runs_lift_bind; [exact E1|]. eapply runs_lift_bind; [exact E2|].
  eapply runs_weaken; [by apply (emit_heard N)|]. intros s' [] (Hh & _). by eexists.
Qed.

Lemma reply_runs N s dest verb fill d : node_inv E N s -> in_range 5 verb -> appends PC fill d -> 28 + zlen d <= PC ->
  runs (reply X key dest verb fill) s (fun s' _ => exists evs, heard N s s' evs /\ frames_put evs = []).
Proof.
  intros Hi Hv Hf Hl. destruct HX as [[He1 He2 He3 He4] Htmp _ _ Hkey]. destruct (verb_facts verb Hv) as (Hvb & _). unfold reply. eapply runs_step; [reflexivity|].
  destruct (Packet_new_Ok (en_memory E) (length (no_log s)) dest (en_self E) verb He3 Hvb) as (b & Eb & (Hb & Hbl & _)). eapply runs_lift_bind; [exact Eb|].
  destruct (appends_fits fill d b Hf Hb) as (b' & Ef & Hb' & Hd' & Hl'); [lia|]. eapply runs_lift_bind; [exact Ef|]. pose proof (zlen_nonneg d).
  destruct (armor_Ok (px_tmp X) key true b' Htmp Hkey) as (b2 & Ea & _); [split; [done|lia]|]. eapply runs_lift_bind; [exact Ea|].
  eapply runs_weaken; [by apply (emit_heard N)|]. intros s' [] (Hh & _). by eexists.
Qed.

Lemma need_credentials_runs N s nwid : node_inv E N s -> runs (sendErrorNeedCredentials X pkt key nwid) s (fun s' _ => exists evs, heard N s s' evs /\ frames_put evs = []).
Proof.
  intros Hi. pose proof (nv_gates _ _ _ Hi) as [G1 G2 G3 G4]. pose proof (ek_now _ (hk_env _ _ _ _ HX)) as Hnow. unfold sendErrorNeedCredentials, ask_gate, rateGateOutgoingComRequest.
  destruct header_Ok as (h & pid & src & v & E1 & E2 & E3 & E4 & _).
  assert (Hg : forall g, gates_ok g -> node_inv E N (mkNodeState (no_networks s) g (no_prng s) (no_log s))) by (intros g Hg; split; [apply Hi|done]).
  destruct (ZT_PEER_GENERAL_RATE_LIMIT <=? en_now E - pg_lastComRequestSent (no_gates s)) eqn:Eg.
  - eapply runs_step; [eapply eq_trans; [apply sm_bind_Ok; reflexivity|]; cbn beta; eapply eq_trans; [apply sm_bind_Ok; unfold lift; rewrite sub_s64_Ok by done; cbn [mbind outcome_bind]; fold E; rewrite Eg; reflexivity|reflexivity]|].
    cbn beta iota. eapply runs_lift_bind; [exact E3|]. eapply runs_lift_bind; [exact E4|]. eapply runs_lift_bind; [exact E2|].
    eapply runs_weaken; [apply (reply_runs N _ src VERB_ERROR _ (be_bytes 1 v ++ be_bytes 8 pid ++ be_bytes 1 ERROR_NEED_MEMBERSHIP_CERTIFICATE ++ be_bytes 8 nwid)); [by apply Hg|done| |by rewrite !zlen_app, !zlen_be_bytes]|].
    + repeat (apply (appends_bind PC); [apply appends_int|]). apply appends_int.
    + intros s' [] (evs & [H1 H2] & H3). exists evs. split; [by split|done].
  - eapply runs_step; [eapply eq_trans; [apply sm_bind_Ok; reflexivity|]; cbn beta; eapply eq_trans; [apply sm_bind_Ok; unfold lift; rewrite sub_s64_Ok by done; cbn [mbind outcome_bind]; fold E; rewrite Eg; reflexivity|reflexivity]|].
    cbn beta iota. apply runs_ret. exists []. split; [|done]. split; [by apply Hg|by rewrite app_nil_r].
Qed.

(** ** What the operations of the network do, seen from the node *)

Lemma talk_heard N s id n t evs : node_inv E N s -> no_networks s !! id = Some n -> talk E N (net_state s n) t evs -> heard N s (put_network s id t) evs.
Proof.
  intros Hi Hn [T1 T2 T3 T4]. split; [|exact T4]. eapply put_network_inv; [done|done|done|]. by destruct (quiet_config _ _ T2) as (_ & ? & _).
Qed.

(** How the frame is accepted, by what is known of the sender. *)
Definition accepts (n : Network) (f : Frame) (prng : Z * Z) (level : Z) : Prop :=
  exists cs p, incoming_spec (en_self E) (nt_config n) (Some (member_at n from)) true from (en_self E) f (valid_capabilities (nt_config n) (member_at n from)) prng = Ok (level, cs, p).

Lemma accepts_quiet n n' f prng level : quiet n n' -> accepts n' f prng level <-> accepts n f prng level.
Proof. intros Hq. unfold accepts. destruct (quiet_config _ _ Hq) as (-> & _ & _). by rewrite (incoming_creds _ _ _ _ _ _ _ _ _ (qt_creds _ _ Hq from)). Qed.

Lemma gate_heard N s id n : node_inv E N s -> 0 <= N -> N + 1 < 2 ^ 59 -> no_networks s !! id = Some n ->
  runs (on_network id (gate E from)) s (fun s' r => (r = true <-> admits n from) /\ exists evs n', heard (N + 1) s s' evs /\ frames_put evs = [] /\
    no_networks s' = <[id := n']> (no_networks s) /\ quiet n n' /\ no_prng s' = no_prng s).
Proof.
  intros Hi HN0 HN Hn. destruct (nv_networks _ _ _ Hi id n Hn) as [Hni Hid].
  eapply runs_weaken; [apply (on_network_runs id n _ s _ Hn (gate_runs E (hk_env _ _ _ _ HX) N (net_state s n) from Hni HN0 HN (hk_from _ _ _ _ HX)))|].
  intros s' r (t & -> & Hr & ps & Ht & _). split; [exact Hr|]. exists (EvSend <$> ps), (ns_network t).
  split; [apply (talk_heard (N + 1) s id n t); [apply (node_inv_mono N); [done|lia]|done|done]|]. split; [apply frames_put_sends|]. destruct Ht. done.
Qed.

Lemma filter_heard N s id n f : node_inv E N s -> 0 <= N -> N + 4 < 2 ^ 59 -> no_networks s !! id = Some n -> frame_fits f ->
  runs (on_network id (filterIncomingPacket E from (en_self E) f)) s (fun s' r => accepts n f (no_prng s) r /\ exists evs n', heard (N + 4) s s' evs /\ frames_put evs = [] /\
    no_networks s' = <[id := n']> (no_networks s) /\ quiet n n').
Proof.
  intros Hi HN0 HN Hn Hf. destruct (nv_networks _ _ _ Hi id n Hn) as [Hni Hid]. pose proof (hk_env _ _ _ _ HX) as He.
  destruct (filterIncomingPacket_runs E He f Hf N (net_state s n) from (en_self E) Hni HN0 HN (hk_from _ _ _ _ HX) (ek_self _ He)) as (r & cs & p & Es & Hr). cbn [net_state ns_network ns_prng] in Es.
  eapply runs_weaken; [apply (on_network_runs id n _ s _ Hn Hr)|]. intros s' r' (t & -> & -> & evs & [T1 T2 T3 T4] & Hc). split; [by exists cs, p|]. exists evs, (ns_network t).
  split; [|split; [by eapply frames_put_sent|done]]. split; [|exact T4]. apply (put_network_inv (N + 4) s id n); [apply (node_inv_mono N); [done|lia]|done|done|].
  by destruct (quiet_config _ _ T2) as (_ & ? & _).
Qed.

(** ** FRAME *)

(** The frame in a FRAME packet for a network with the MAC [mac]. *)
Definition plain_frame (nwid mac : Z) : Frame := mkFrame (MAC_fromAddress from nwid) mac (zdrop 38 (buf_data pkt)) (be_val (slice 36 2 (buf_data pkt))) 0.

Definition takes (n : Network) (f : Frame) (prng : Z * Z) : Prop := exists level, accepts n f prng level /\ 0 < level.

Lemma takes_quiet n n' f prng : quiet n n' -> takes n' f prng <-> takes n f prng.
Proof. intros Hq. unfold takes. by setoid_rewrite (accepts_quiet n n' f prng _ Hq). Qed.

Lemma accepts_unique n f prng l1 l2 : accepts n f prng l1 -> accepts n f prng l2 -> l1 = l2.
Proof. intros (cs1 & p1 & E1) (cs2 & p2 & E2). congruence. Qed.

(** The outcome of a handler: a frame is handed to the host if and only if [P]. *)
Definition delivers (N : Z) (s s' : NodeState) (P : Prop) (e : net_event) : Prop :=
  exists evs, heard N s s' evs /\ (P /\ frames_put evs = [e] \/ ~ P /\ frames_put evs = []).

Lemma delivers_not N N' s s1 s2 (P : Prop) e e1 e2 : ~ P -> heard N s s1 e1 -> frames_put e1 = [] -> heard N' s1 s2 e2 -> frames_put e2 = [] -> delivers N' s s2 P e.
Proof. intros HP H1 F1 H2 F2. exists (e1 ++ e2). split; [by eapply heard_trans|]. right. split; [done|]. by rewrite frames_put_app, F1, F2. Qed.

Lemma the_network_eq s id n : no_networks s !! id = Some n -> the_network id s = (s, Ok n).
Proof. intros Hn. unfold the_network, mbind, sm_bind, get_state. by rewrite Hn. Qed.

Lemma find_network_eq s nwid : find_network nwid s = (s, Ok (match no_networks s !! nwid with Some _ => Some nwid | None => None end)).
Proof. done. Qed.

(** The part of the handler behind the gate. *)
Lemma frame_heard N s nwid n f data etherType : node_inv E N s -> 0 <= N -> N + 4 < 2 ^ 59 -> no_networks s !! nwid = Some n -> 38 < b_len pkt -> f = plain_frame nwid (nt_mac n) -> frame_fits f ->
  data = fr_data f -> etherType = fr_etherType f ->
  runs (etherType ← lift (Buffer_at pkt 2 ZT_PROTO_VERB_FRAME_IDX_ETHERTYPE);
        let sourceMac := MAC_fromAddress from nwid in
        let frameLen := u32 (b_len pkt - ZT_PROTO_VERB_FRAME_IDX_PAYLOAD) in
        data ← lift (rest_of_packet pkt ZT_PROTO_VERB_FRAME_IDX_PAYLOAD frameLen);
        n ← the_network nwid;
        accept ← on_network nwid (filterIncomingPacket E from (en_self E) (mkFrame sourceMac (nt_mac n) data etherType 0));
        if 0 <? accept then node_emit (EvPutFrame nwid sourceMac (nt_mac n) etherType data) else mret tt) s
    (fun s' _ => delivers (N + 4) s s' (takes n f (no_prng s)) (EvPutFrame nwid (fr_macSource f) (fr_macDest f) etherType data)).
Proof.
  intros Hi HN0 HN Hn Hlen Ef Hff Ed Ee. destruct (hk_packet _ _ _ _ HX) as [Hb Hl]. pose proof Hb as [Hm _ HbC _]. pose proof PC_value.
  change ZT_PROTO_VERB_FRAME_IDX_ETHERTYPE with 36. change ZT_PROTO_VERB_FRAME_IDX_PAYLOAD with 38.
  eapply runs_lift_bind; [apply (at_Ok PC); [done|lia|change (Z.of_nat 2) with 2; lia]|]. change (Z.of_nat 2) with 2. cbv zeta. rewrite u32_id by (unfold in_range; lia).
  eapply runs_lift_bind; [unfold rest_of_packet; apply mem_read_Ok; lia|].
  assert (Es : slice 38 (b_len pkt - 38) (b_mem pkt) = zdrop 38 (buf_data pkt)).
  { unfold buf_data. rewrite zdrop_ztake by lia. unfold slice, ztake. done. }
  rewrite Es. eapply runs_step; [by apply the_network_eq|].
  assert (Hfr : mkFrame (MAC_fromAddress from nwid) (nt_mac n) (zdrop 38 (buf_data pkt)) (be_val (slice 36 2 (buf_data pkt))) 0 = f) by (by rewrite Ef). rewrite Hfr.
  eapply runs_bind; [by apply (filter_heard N s nwid n f)|]. intros s1 r (Hacc & evs & n' & Hh & Hfp & _). subst f data etherType. cbn [fr_data fr_etherType plain_frame fr_macSource fr_macDest].
  destruct (Z.ltb_spec 0 r) as [Hpos|Hnon].
  - eapply runs_weaken; [apply (emit_heard (N + 4)), Hh|]. intros s2 [] (Hh2 & _). exists (evs ++ [EvPutFrame nwid (MAC_fromAddress from nwid) (nt_mac n) (be_val (slice 36 2 (buf_data pkt))) (zdrop 38 (buf_data pkt))]).
    split; [by eapply heard_trans|]. left. split; [by exists r|]. by rewrite frames_put_app, Hfp.
  - apply runs_ret. exists evs. split; [done|]. right. split; [|done]. intros (l & Hl2 & Hpos). pose proof (accepts_unique _ _ _ _ _ Hacc Hl2). lia.
Qed.

Lemma delivers_then N N' s s1 s2 (P : Prop) e evs : delivers N s s1 P e -> heard N' s1 s2 evs -> frames_put evs = [] -> delivers N' s s2 P e.
Proof.
  intros (e1 & H1 & Hc) H2 F2. exists (e1 ++ evs). split; [by eapply heard_trans|]. rewrite frames_put_app, F2, app_nil_r. done.
Qed.
Lemma delivers_after N N' s s1 s2 (P Q : Prop) e evs : heard N s s1 evs -> frames_put evs = [] -> delivers N' s1 s2 P e -> (P <-> Q) -> delivers N' s s2 Q e.
Proof.
  intros H1 F1 (e2 & H2 & Hc) HPQ. exists (evs ++ e2). split; [by eapply heard_trans|]. rewrite frames_put_app, F1. cbn [app]. tauto.
Qed.

(** The handler of FRAME, for a packet that is long enough for a network ID. *)
Lemma doFRAME_runs N s : node_inv E N s -> 0 <= N -> N + 5 < 2 ^ 59 -> 36 <= b_len pkt ->
  let nwid := be_val (slice 28 8 (buf_data pkt)) in
  (forall n, no_networks s !! nwid = Some n -> frame_fits (plain_frame nwid (nt_mac n))) ->
  runs (doFRAME X pkt from key) s (fun s' r => r = true /\
    match no_networks s !! nwid with
    | Some n => let f := plain_frame nwid (nt_mac n) in
        delivers (N + 5) s s' (admits n from /\ 38 < b_len pkt /\ takes n f (no_prng s)) (EvPutFrame nwid (fr_macSource f) (fr_macDest f) (fr_etherType f) (fr_data f))
    | None => exists evs, heard (N + 5) s s' evs /\ frames_put evs = []
    end).
Proof.
  intros Hi HN0 HN Hlen nwid Hff. destruct (hk_packet _ _ _ _ HX) as [Hb Hl]. unfold doFRAME. change ZT_PROTO_VERB_FRAME_IDX_NETWORK_ID with 28.
  eapply runs_lift_bind; [apply (at_Ok PC); [done|lia|change (Z.of_nat 8) with 8; lia]|]. change (Z.of_nat 8) with 8. fold nwid. eapply runs_step; [apply find_network_eq|].
  assert (Hmono : forall s', node_inv E (N + 1) s' -> node_inv E (N + 5) s') by (intros s' H; apply (node_inv_mono (N + 1)); [done|lia]).
  assert (Hdeny : forall s1, node_inv E (N + 5) s1 -> runs (trustEstablished ← (_ ← sendErrorNeedCredentials X pkt key nwid; mret false); _ ← received pkt VERB_FRAME trustEstablished nwid; mret true) s1
    (fun s' r => r = true /\ exists evs, heard (N + 5) s1 s' evs /\ frames_put evs = [])).
  { intros s1 H1. eapply runs_bind; [eapply runs_bind; [apply (need_credentials_runs (N + 5) s1 nwid H1)|]; intros s2 [] H2; apply (runs_ret _ _ (fun s' _ => exists evs, heard (N + 5) s1 s' evs /\ frames_put evs = []) H2)|].
    intros s2 tr (e1 & Hh1 & F1). eapply runs_bind; [apply (received_runs (N + 5) s2), Hh1|]. intros s3 [] (e2 & Hh2 & F2). apply runs_ret. split; [done|]. exists (e1 ++ e2).
    split; [by eapply heard_trans|]. by rewrite frames_put_app, F1, F2. }
  destruct (no_networks s !! nwid) as [n|] eqn:En; [|apply Hdeny; apply (node_inv_mono N); [done|lia]].
  destruct (gate_heard N s nwid n Hi HN0 ltac:(lia) En) as (s1 & ok & Eg & Hok & e1 & n' & Hh1 & F1 & Enets & Hq & Ep). specialize (Hff n eq_refl).
  destruct (quiet_config _ _ Hq) as (_ & _ & Emac). assert (En1 : no_networks s1 !! nwid = Some n') by (by rewrite Enets, lookup_insert_eq). pose proof (hd_inv _ _ _ _ Hh1) as Hi1.
  apply runs_assoc. eapply runs_step; [exact Eg|]. destruct ok.
  - apply runs_assoc. apply (runs_bind _ _ _ (fun s2 _ => delivers (N + 5) s s2 (admits n from /\ 38 < b_len pkt /\ takes n (plain_frame nwid (nt_mac n)) (no_prng s))
      (EvPutFrame nwid (MAC_fromAddress from nwid) (nt_mac n) (be_val (slice 36 2 (buf_data pkt))) (zdrop 38 (buf_data pkt))))).
    + change ZT_PROTO_VERB_FRAME_IDX_PAYLOAD with 38. destruct (Z.ltb_spec 38 (b_len pkt)).
      * rewrite <- Emac in Hff |- *. eapply runs_weaken; [apply (frame_heard (N + 1) s1 nwid n' (plain_frame nwid (nt_mac n'))); try done; lia|]. intros s2 [] Hd. replace (N + 1 + 4) with (N + 5) in Hd by lia.
        eapply delivers_after; [exact Hh1|done|exact Hd|]. rewrite Ep, (takes_quiet n n' _ _ Hq). pose proof (proj1 Hok eq_refl). tauto.
      * apply runs_ret. apply (delivers_not (N + 1) (N + 5) s s1 s1 _ _ e1 []); try done; [lia|]. apply heard_refl. by apply Hmono.
    + intros s2 [] Hd. eapply runs_step; [reflexivity|]. destruct Hd as (evs & Hh & Hcase). eapply runs_bind; [apply (received_runs (N + 5) s2), Hh|]. intros s3 [] (e3 & Hh3 & F3). apply runs_ret.
      split; [done|]. cbv zeta. eapply delivers_then; [|exact Hh3|done]. by exists evs.
  - eapply runs_weaken; [apply Hdeny; by apply Hmono|]. intros s' r (-> & e2 & Hh2 & F2). split; [done|]. cbv zeta.
    eapply (delivers_not _ _ _ _ _ _ _ e1 e2); try done. intros [Ha _]. apply Hok in Ha. done.
Qed.

(** ** EXT_FRAME *)

(** The frame in an EXT_FRAME packet without a certificate. *)
Definition bridged_frame : Frame :=
  mkFrame (be_val (slice 43 6 (buf_data pkt))) (be_val (slice 37 6 (buf_data pkt))) (zdrop 51 (buf_data pkt)) (be_val (slice 49 2 (buf_data pkt))) 0.

(** The MAC addresses are those of the two nodes, or bridging or multicast allows others. *)
Definition bridging_ok (n : Network) (nwid : Z) (f : Frame) : bool :=
  if negb (fr_macSource f =? MAC_fromAddress from nwid) then NetworkConfig_permitsBridging (nt_config n) from
  else if negb (fr_macDest f =? nt_mac n) then
    if MAC_isMulticast (fr_macDest f) then negb (nc_multicastLimit (nt_config n) =? 0) else NetworkConfig_permitsBridging (nt_config n) (en_self E)
  else true.

Definition takes_bridged (n : Network) (nwid : Z) (f : Frame) (prng : Z * Z) : Prop :=
  fr_macSource f <> 0 /\ fr_macSource f <> nt_mac n /\ exists level, accepts n f prng level /\ (level = 2 \/ level = 1 /\ bridging_ok n nwid f = true).

Lemma read_mac_Ok i : buf_wf PC pkt -> 0 <= i -> i + 6 <= b_len pkt -> Buffer_read_mac pkt i = Ok (be_val (slice i 6 (buf_data pkt))).
Proof.
  intros Hb Hi Hl. unfold Buffer_read_mac. rewrite read_field_Ok by (done || lia). cbn [mbind outcome_bind].
  assert (Hz : zlen (slice i 6 (buf_data pkt)) = 6) by (apply zlen_slice; rewrite ?(zlen_buf_data PC) by done; lia).
  assert (Hbs : Forall is_byte (slice i 6 (buf_data pkt))) by (apply Forall_take, Forall_drop; by apply (buf_data_bytes PC)).
  unfold zlen in Hz. destruct (slice i 6 (buf_data pkt)) as [|b0 [|b1 [|b2 [|b3 [|b4 [|b5 [|]]]]]]]; cbn [length] in Hz; try lia. by apply MAC_setTo_be_val.
Qed.

Lemma check_bridging_runs N s nwid n f : node_inv E N s -> N + 1 < 2 ^ 59 -> (forall k, en_alloc E k = true) -> no_networks s !! nwid = Some n ->
  runs (check_bridging X from nwid nwid (fr_macSource f) (fr_macDest f)) s (fun s' r => r = bridging_ok n nwid f /\ heard (N + 1) s s' []).
Proof.
  intros Hi HN Ha Hn. unfold check_bridging, bridging_ok. eapply runs_step; [by apply the_network_eq|]. assert (Hsame : heard (N + 1) s s []) by (apply heard_refl; apply (node_inv_mono N); [done|lia]).
  destruct (negb (fr_macSource f =? _)).
  - destruct (NetworkConfig_permitsBridging (nt_config n) from); [|by apply runs_ret]. destruct (nv_networks _ _ _ Hi nwid n Hn) as [Hni _].
    eapply runs_bind; [apply (on_network_runs nwid n _ s _ Hn (learnBridgeRoute_runs E N (net_state s n) (fr_macSource f) from Hni HN Ha))|].
    intros s1 [] (t & -> & h & Et & Hinv & _). apply runs_ret. split; [done|]. rewrite Et in *. split; [|cbn; by rewrite app_nil_r].
    apply (put_network_inv (N + 1) s nwid n); [apply (node_inv_mono N); [done|lia]|done|done|done].
  - destruct (negb (fr_macDest f =? _)); [|by apply runs_ret]. destruct (MAC_isMulticast _); by apply runs_ret.
Qed.

Lemma takes_bridged_level n nwid f prng level : accepts n f prng level -> fr_macSource f <> 0 -> fr_macSource f <> nt_mac n ->
  takes_bridged n nwid f prng <-> level = 2 \/ level = 1 /\ bridging_ok n nwid f = true.
Proof.
  intros Ha H1 H2. split; [|intros H; split_and!; [done|done|by exists level]]. intros (_ & _ & l & Hl & H). by rewrite (accepts_unique _ _ _ _ _ Ha Hl).
Qed.

Lemma bridging_quiet n n' nwid f : quiet n n' -> bridging_ok n' nwid f = bridging_ok n nwid f.
Proof. intros Hq. destruct (quiet_config _ _ Hq) as (E1 & _ & E2). unfold bridging_ok. by rewrite E1, E2. Qed.

Lemma takes_bridged_quiet n n' nwid f prng : quiet n n' -> takes_bridged n' nwid f prng <-> takes_bridged n nwid f prng.
Proof. intros Hq. unfold takes_bridged. setoid_rewrite (accepts_quiet n n' f prng _ Hq). rewrite (bridging_quiet n n') by done. by destruct (quiet_config _ _ Hq) as (_ & _ & ->). Qed.

(** The frame in the packet, behind the gate. *)
Lemma ext_frame_runs N s nwid n : node_inv E N s -> 0 <= N -> N + 5 < 2 ^ 59 -> (forall k, en_alloc E k = true) -> no_networks s !! nwid = Some n -> 51 < b_len pkt -> frame_fits bridged_frame ->
  let f := bridged_frame in
  runs (ext_frame X pkt from nwid nwid 0) s
    (fun s' _ => delivers (N + 5) s s' (takes_bridged n nwid f (no_prng s)) (EvPutFrame nwid (fr_macSource f) (fr_macDest f) (fr_etherType f) (fr_data f))).
Proof.
  intros Hi HN0 HN Ha Hn Hlen Hff f. destruct (hk_packet _ _ _ _ HX) as [Hb Hl]. pose proof Hb as [_ _ HbC _]. pose proof PC_value. unfold ext_frame.
  change (u32 (0 + ZT_PROTO_VERB_EXT_FRAME_IDX_ETHERTYPE)) with 49. change (u32 (0 + ZT_PROTO_VERB_EXT_FRAME_IDX_TO)) with 37. change (u32 (0 + ZT_PROTO_VERB_EXT_FRAME_IDX_FROM)) with 43.
  change (u32 (0 + ZT_PROTO_VERB_EXT_FRAME_IDX_PAYLOAD)) with 51. change (0 + ZT_PROTO_VERB_EXT_FRAME_IDX_PAYLOAD) with 51.
  eapply runs_lift_bind; [apply (at_Ok PC); [done|lia|change (Z.of_nat 2) with 2; lia]|]. change (Z.of_nat 2) with 2.
  eapply runs_lift_bind; [apply read_mac_Ok; [done|lia|lia]|]. eapply runs_lift_bind; [apply read_mac_Ok; [done|lia|lia]|]. cbv zeta. rewrite u32_id by (unfold in_range; lia).
  eapply runs_lift_bind; [apply read_field_Ok; [done|lia|lia|lia]|].
  assert (Es : slice 51 (b_len pkt - 51) (buf_data pkt) = zdrop 51 (buf_data pkt)).
  { unfold slice. apply ztake_all. pose proof (zlen_buf_data PC pkt Hb). rewrite zlen_zdrop; lia. }
  rewrite Es. change (be_val (slice 43 6 (buf_data pkt))) with (fr_macSource f). change (be_val (slice 37 6 (buf_data pkt))) with (fr_macDest f).
  change (be_val (slice 49 2 (buf_data pkt))) with (fr_etherType f). change (zdrop 51 (buf_data pkt)) with (fr_data f). change (mkFrame (fr_macSource f) (fr_macDest f) (fr_data f) (fr_etherType f) 0) with f.
  eapply runs_step; [by apply the_network_eq|]. assert (Hi5 : node_inv E (N + 5) s) by (apply (node_inv_mono N); [done|lia]).
  destruct (negb (MAC_bool (fr_macSource f)) || (fr_macSource f =? nt_mac n)) eqn:Esrc.
  { apply runs_ret. apply (delivers_not (N + 5) (N + 5) s s s _ _ [] []); try done; try by apply heard_refl. intros (H1 & H2 & _).
    unfold MAC_bool in Esrc. rewrite negb_involutive, (proj2 (Z.eqb_neq _ 0) H1), (proj2 (Z.eqb_neq _ (nt_mac n)) H2) in Esrc. done. }
  apply orb_false_iff in Esrc as [Es1 Es2%Z.eqb_neq]. unfold MAC_bool in Es1. rewrite negb_involutive in Es1. apply Z.eqb_neq in Es1.
  eapply runs_bind; [by apply (filter_heard N s nwid n f Hi HN0); [lia|..]|]. intros s1 r (Hacc & e1 & n1 & Hh1 & F1 & Enets & Hq). pose proof (takes_bridged_level n nwid f _ r Hacc Es1 Es2) as Htk.
  assert (En1 : no_networks s1 !! nwid = Some n1) by (by rewrite Enets, lookup_insert_eq). pose proof (hd_inv _ _ _ _ Hh1) as Hi1.
  assert (Hput : forall s2 e2, heard (N + 5) s1 s2 e2 -> frames_put e2 = [] -> takes_bridged n nwid f (no_prng s) ->
    runs (_ ← node_emit (EvPutFrame nwid (fr_macSource f) (fr_macDest f) (fr_etherType f) (fr_data f)); mret true) s2 (fun s' _ => delivers (N + 5) s s' (takes_bridged n nwid f (no_prng s))
      (EvPutFrame nwid (fr_macSource f) (fr_macDest f) (fr_etherType f) (fr_data f)))).
  { intros s2 e2 Hh2 F2 Ht. eapply runs_bind; [apply (emit_heard (N + 5)), Hh2|]. intros s3 [] (Hh3 & _). apply runs_ret. eexists (e1 ++ e2 ++ _). split; [eapply heard_trans; [exact Hh1|]; by eapply heard_trans|].
    left. split; [done|]. by rewrite !frames_put_app, F1, F2. }
  destruct (Z.eqb_spec r 1) as [->|Hr1].
  - eapply runs_bind; [apply (check_bridging_runs (N + 4) s1 nwid n1 f Hi1); [lia|done|done]|]. intros s2 ok (-> & Hh2). replace (N + 4 + 1) with (N + 5) in Hh2 by lia. rewrite (bridging_quiet n n1) by done.
    destruct (bridging_ok n nwid f) eqn:Eb; [apply (Hput s2 [] Hh2); [done|]; apply Htk; by right|]. apply runs_ret. eapply (delivers_not _ _ _ _ _ _ _ e1 []); try done. rewrite Htk. intros [|[]]; done.
  - destruct (Z.eqb_spec r 2) as [->|Hr2].
    + apply (Hput s1 []); [apply heard_refl; apply (node_inv_mono (N + 4)); [done|lia]|done|]. apply Htk. by left.
    + apply runs_ret. apply (delivers_not (N + 4) (N + 5) s s1 s1 _ _ e1 []); try done; [rewrite Htk; intros [|[]]; done|]. apply heard_refl. apply (node_inv_mono (N + 4)); [done|lia].
Qed.

Lemma finish_runs N s s1 P e verb trust nwid : delivers N s s1 P e ->
  runs (_ ← received pkt verb trust nwid; mret true) s1 (fun s' r => r = true /\ delivers N s s' P e).
Proof.
  intros Hd. destruct Hd as (evs & Hh & Hcase). eapply runs_bind; [apply (received_runs N s1), Hh|]. intros s2 [] (e2 & Hh2 & F2). apply runs_ret. split; [done|].
  eapply delivers_then; [|exact Hh2|done]. by exists evs.
Qed.

Lemma ack_runs N s s1 P e nwid (c : bool) : delivers N s s1 P e ->
  runs (if c then pid ← lift (Packet_packetId pkt);
                 reply X key from VERB_OK (fun outp =>
                   outp ← Buffer_append_int PC outp 1 VERB_EXT_FRAME;
                   outp ← Buffer_append_int PC outp 8 pid;
                   Buffer_append_int PC outp 8 nwid) else mret tt) s1 (fun s' _ => delivers N s s' P e).
Proof.
  intros Hd. destruct c; [|by apply runs_ret]. destruct header_Ok as (_ & pid & _ & _ & _ & Epid & _). eapply runs_lift_bind; [exact Epid|]. destruct Hd as (evs & Hh & Hcase).
  eapply runs_weaken; [apply (reply_runs N s1 from VERB_OK _ (be_bytes 1 VERB_EXT_FRAME ++ be_bytes 8 pid ++ be_bytes 8 nwid)); [apply Hh|unfold in_range, VERB_OK; lia|..]|].
  - repeat (apply appends_bind; [apply appends_int|]). apply appends_int.
  - rewrite !zlen_app, !zlen_be_bytes, PC_value. lia.
  - intros s' [] (e2 & Hh2 & F2). eapply delivers_then; [|exact Hh2|done]. by exists evs.
Qed.

(** An EXT_FRAME without a certificate: the frame is put to the tap exactly when the gate lets the
    sender in and the rules and the bridging checks accept it. *)
Lemma doEXT_FRAME_runs N s flags : node_inv E N s -> 0 <= N -> N + 6 < 2 ^ 59 -> (forall k, en_alloc E k = true) -> Buffer_index pkt 36 = Ok flags -> Z.land flags 1 = 0 -> 37 <= b_len pkt -> frame_fits bridged_frame ->
  let nwid := be_val (slice 28 8 (buf_data pkt)) in
  runs (doEXT_FRAME X pkt from key) s (fun s' r => r = true /\
    match no_networks s !! nwid with
    | Some n => let f := bridged_frame in
        delivers (N + 6) s s' (admits n from /\ 51 < b_len pkt /\ takes_bridged n nwid f (no_prng s)) (EvPutFrame nwid (fr_macSource f) (fr_macDest f) (fr_etherType f) (fr_data f))
    | None => exists evs, heard (N + 6) s s' evs /\ frames_put evs = []
    end).
Proof.
  intros Hi HN0 HN Ha Hflags Hcom Hlen Hff nwid. destruct (hk_packet _ _ _ _ HX) as [Hb Hl]. unfold doEXT_FRAME. change ZT_PROTO_VERB_EXT_FRAME_IDX_NETWORK_ID with 28.
  eapply runs_lift_bind; [apply (at_Ok PC); [done|lia|change (Z.of_nat 8) with 8; lia]|]. change (Z.of_nat 8) with 8. fold nwid. eapply runs_step; [apply find_network_eq|].
  assert (Hi6 : node_inv E (N + 6) s) by (apply (node_inv_mono N); [done|lia]).
  destruct (no_networks s !! nwid) as [n|] eqn:En.
  2:{ eapply runs_bind; [apply (received_runs (N + 6) s _ _ _ Hi6)|]. intros s1 [] H1. by apply runs_ret. }
  change ZT_PROTO_VERB_EXT_FRAME_IDX_FLAGS with 36. eapply runs_lift_bind; [exact Hflags|]. rewrite Hcom. eapply runs_step; [reflexivity|].
  destruct (gate_heard N s nwid n Hi HN0 ltac:(lia) En) as (s1 & ok & Eg & Hok & e1 & n' & Hh1 & F1 & Enets & Hq & Ep).
  assert (En1 : no_networks s1 !! nwid = Some n') by (by rewrite Enets, lookup_insert_eq). pose proof (hd_inv _ _ _ _ Hh1) as Hi1.
  eapply runs_step; [exact Eg|]. set (ev := EvPutFrame _ _ _ _ _).
  set (P := admits n from /\ 51 < b_len pkt /\ takes_bridged n nwid bridged_frame (no_prng s)).
  assert (Hi1' : node_inv E (N + 6) s1) by (apply (node_inv_mono (N + 1)); [done|lia]).
  destruct ok.
  - apply (runs_bind _ _ _ (fun s2 _ => delivers (N + 6) s s2 P ev)).
    + change ZT_PROTO_VERB_EXT_FRAME_IDX_PAYLOAD with 51. destruct (Z.ltb_spec 51 (b_len pkt)).
      * eapply runs_weaken; [apply (ext_frame_runs (N + 1) s1 nwid n'); try done; lia|]. intros s2 go Hd. replace (N + 1 + 5) with (N + 6) in Hd by lia.
        eapply delivers_after; [exact Hh1|done|exact Hd|]. rewrite Ep, (takes_bridged_quiet n n' _ _ _ Hq). pose proof (proj1 Hok eq_refl). unfold P. tauto.
      * apply runs_ret. apply (delivers_not (N + 1) (N + 6) s s1 s1 _ _ e1 []); try done; [unfold P; lia|]. by apply heard_refl.
    + intros s2 go Hd. destruct go; [|by apply finish_runs]. eapply runs_bind; [by apply (ack_runs (N + 6) s s2 P ev)|]. intros s3 [] Hd3. by apply finish_runs.
  - eapply runs_bind; [apply (need_credentials_runs (N + 6) s1 nwid Hi1')|]. intros s2 [] (e2 & Hh2 & F2). apply finish_runs.
    apply (delivers_not (N + 1) (N + 6) s s1 s2 _ _ e1 e2); try done. unfold P. intros [Hadm _]. by apply Hok in Hadm.
Qed.
End Handler.

(** C15: A FRAME packet for a network we are on: the frame in it is put to the host, once, exactly when
    the sender is let in and the filter accepts the frame; no other frame is put.  For another
    network nothing is put.  The handler ends with true on every packet long enough to name a
    network. *)
Theorem FRAME_reaches_host `{C25519Ops} X pkt from key N s :
  handler_ok X pkt from key -> node_inv (px_node X) N s -> 0 <= N -> N + 5 < 2 ^ 59 -> 36 <= b_len pkt ->
  let nwid := be_val (slice 28 8 (buf_data pkt)) in
  (forall n, no_networks s !! nwid = Some n -> frame_fits (plain_frame pkt from nwid (nt_mac n))) ->
  runs (doFRAME X pkt from key) s (fun s' r => r = true /\
    match no_networks s !! nwid with
    | Some n => let f := plain_frame pkt from nwid (nt_mac n) in
        delivers X (N + 5) s s' (admits n from /\ 38 < b_len pkt /\ takes X from n f (no_prng s)) (EvPutFrame nwid (fr_macSource f) (fr_macDest f) (fr_etherType f) (fr_data f))
    | None => exists evs, heard X (N + 5) s s' evs /\ frames_put evs = []
    end).
Proof. intros HX. by apply doFRAME_runs. Qed.

(** C16: An EXT_FRAME packet without a certificate: the frame in it is put to the host, once, exactly
    when the sender is let in, the source is neither zero nor us, and the filter accepts the frame
    regardless, or accepts it and bridging or multicast is allowed for its MAC addresses. *)
Theorem EXT_FRAME_reaches_host `{C25519Ops} X pkt from key N s flags :
  handler_ok X pkt from key -> node_inv (px_node X) N s -> 0 <= N -> N + 6 < 2 ^ 59 -> (forall k, en_alloc (px_node X) k = true) ->
  Buffer_index pkt 36 = Ok flags -> Z.land flags 1 = 0 -> 37 <= b_len pkt -> frame_fits (bridged_frame pkt) ->
  let nwid := be_val (slice 28 8 (buf_data pkt)) in
  runs (doEXT_FRAME X pkt from key) s (fun s' r => r = true /\
    match no_networks s !! nwid with
    | Some n => let f := bridged_frame pkt in
        delivers X (N + 6) s s' (admits n from /\ 51 < b_len pkt /\ takes_bridged X from n nwid f (no_prng s)) (EvPutFrame nwid (fr_macSource f) (fr_macDest f) (fr_etherType f) (fr_data f))
    | None => exists evs, heard X (N + 6) s s' evs /\ frames_put evs = []
    end).
Proof. intros HX. by apply doEXT_FRAME_runs. Qed.

(** ** Two packets *)

Section Sample.
Import Toy.

Definition sample_X : PacketEnv := mkPacketEnv sample_env (fun _ _ => false) (replicate 64 0).
Definition sample_node : NodeState := mkNodeState {[ 0x1122334455667788 := sample_network ]} PeerGates_new (1, 2) [].

(** The UDP packet of the examples, from 99 to 11. *)
Definition frame_bytes : list Z := replicate 28 0 ++ be_bytes 8 0x1122334455667788 ++ be_bytes 2 ZT_ETHERTYPE_IPV4 ++ fr_data sample_udp.
Definition ext_bytes : list Z := replicate 28 0 ++ be_bytes 8 0x1122334455667788 ++ [0x10] ++ be_bytes 6 2 ++ be_bytes 6 (MAC_fromAddress 0x99 0x1122334455667788) ++ be_bytes 2 ZT_ETHERTYPE_IPV4 ++ fr_data sample_udp.

Lemma frame_bytes_ok : Forall is_byte frame_bytes /\ Forall is_byte ext_bytes.
Proof. split; (cbn; repeat (apply Forall_cons_2; [done|]); apply Forall_nil_2). Qed.

Lemma sample_handler_ok d : Forall is_byte d -> 28 <= zlen d <= PC -> handler_ok sample_X (sample_packet d) 0x99 (replicate 32 0).
Proof. intros Hd Hl. constructor; [apply sample_env_ok|by split; [|apply Forall_replicate]|split; [apply sample_packet_ok; [done|lia]|cbn; lia]|done|done]. Qed.

Lemma sample_node_inv : node_inv sample_env 0 sample_node.
Proof. split; [|done]. intros id n Hn. cbn [sample_node no_networks] in Hn. apply lookup_singleton_Some in Hn as [<- <-]. split; [apply sample_net_inv|done]. Qed.

Lemma frame_bytes_len : zlen frame_bytes = 66 /\ zlen ext_bytes = 79.
Proof. by split. Qed.

Lemma udp_between_fits a b : frame_fits (mkFrame a b (fr_data sample_udp) ZT_ETHERTYPE_IPV4 0).
Proof. destruct sample_udp_fits as [[H1 H2] H3 H4]. by constructor. Qed.

Lemma FRAME_reaches_host_witness : exists s', doFRAME sample_X (sample_packet frame_bytes) 0x99 (replicate 32 0) sample_node = (s', Ok true) /\
  frames_put (no_log s') = [EvPutFrame 0x1122334455667788 (MAC_fromAddress 0x99 0x1122334455667788) 2 ZT_ETHERTYPE_IPV4 (fr_data sample_udp)].
Proof.
  destruct frame_bytes_ok as [Hb _]. destruct frame_bytes_len as [Hl _]. pose proof PC_value. destruct (sample_packet_ok frame_bytes Hb ltac:(lia)) as [_ Hd].
  destruct (FRAME_reaches_host sample_X (sample_packet frame_bytes) 0x99 (replicate 32 0) 0 sample_node) as (s' & r & E & -> & Hr);
    [apply sample_handler_ok; [done|lia]|apply sample_node_inv|lia|lia|cbn [sample_packet b_len]; lia|rewrite Hd; intros n [= <-]; unfold plain_frame; rewrite Hd; apply udp_between_fits|].
  exists s'. split; [exact E|]. unfold plain_frame in Hr. rewrite Hd in Hr. destruct Hr as (evs & [_ Hlog] & Hput). rewrite Hlog. destruct Hput as [[_ Hput]|[Hno _]]; [exact Hput|].
  exfalso. apply Hno. split; [split; [reflexivity|by left]|]. split; [cbn [sample_packet b_len]; lia|]. exists 1. split; [|lia]. eexists _, _. reflexivity.
Defined.

Lemma EXT_FRAME_reaches_host_witness : exists s', doEXT_FRAME sample_X (sample_packet ext_bytes) 0x99 (replicate 32 0) sample_node = (s', Ok true) /\
  frames_put (no_log s') = [EvPutFrame 0x1122334455667788 (MAC_fromAddress 0x99 0x1122334455667788) 2 ZT_ETHERTYPE_IPV4 (fr_data sample_udp)].
Proof.
  destruct frame_bytes_ok as [_ Hb]. destruct frame_bytes_len as [_ Hl]. pose proof PC_value. destruct (sample_packet_ok ext_bytes Hb ltac:(lia)) as [Hw Hd].
  destruct (EXT_FRAME_reaches_host sample_X (sample_packet ext_bytes) 0x99 (replicate 32 0) 0 sample_node 0x10) as (s' & r & E & -> & Hr);
    [apply sample_handler_ok; [done|lia]|apply sample_node_inv|lia|lia|done|reflexivity|reflexivity|cbn [sample_packet b_len]; lia|unfold bridged_frame; rewrite Hd; apply udp_between_fits|].
  exists s'. split; [exact E|]. unfold bridged_frame in Hr. rewrite Hd in Hr. destruct Hr as (evs & [_ Hlog] & Hput). rewrite Hlog. destruct Hput as [[_ Hput]|[Hno _]]; [exact Hput|].
  exfalso. apply Hno. split; [split; [reflexivity|by left]|]. split; [cbn [sample_packet b_len]; lia|]. split; [done|]. split; [done|]. exists 1. split; [eexists _, _; reflexivity|]. right. split; reflexivity.
Defined.
End Sample.
